(* ===== verification/_CoqProject ===== *)
-Q . S2P
Prelude.v
Kmonad.v
Dll.v
ResMap.v
Clist.v
Callout.v
Proc.v
Keep.v
Family.v
Tree.v
Kernel.v
Bio.v
Quiet.v
Ahead.v
Alloc.v
Inode.v
Itab.v
Rdwri.v
Readi.v
Writei.v
Grow.v
Text.v
Fio.v
Tty.v
Ttyq.v
Cooked.v
Ttyout.v
Nami.v
Lookup.v
Itake.v
Path.v
Pipe.v
Sys.v
Sysfile.v
Pipeq.v
Qsort.v
Crypt.v
Grep.v
Heap.v
