(* ===== verification/Prelude.v ===== *)
(** * Research UNIX, Seventh Edition: a model of the kernel and its proofs

    The program is the port of the Seventh Edition to the Raspberry Pi.  Its own
    core is the kernel, src/usr/sys/sys with the structures of src/usr/sys/h;
    this library models its tables, queues and file system, and proves what
    makes them correct.  Integers have the widths of the ARM target: [char] is
    unsigned and 8 bits, [short] 16, [int], [long] and pointers 32.

    ** The parts and how they interact

    A system call ([Sys]) works on descriptors and files ([Fio]), names
    ([Nami]), pipes ([Pipe]) and shared texts ([Text]).  They reach inodes
    ([Inode]), whose blocks are found and moved by [Rdwri], are given and taken
    back by the free list of the file system ([Alloc]), and are read and written
    through the buffer cache ([Bio]).  A process that has to wait goes to sleep
    and gives the processor to another ([Proc]); it is made by [newproc], ends by
    [exit] and is waited for by its parent ([Family]); the clock makes the calls that
    have come due ([Callout]) and recomputes priorities.  Terminals ([Tty]) keep
    their characters in lists of small blocks ([Clist]); core and swap space are
    given out from resource maps ([ResMap]).

    ** The files

    - [Prelude]: integer widths, flag words, byte memory, record update, lists.
    - [Kmonad]: kernel code as functions on an explicit state; giving up the
      processor is a node of the result; weakest preconditions under what other
      processes may do, and [pres], the rules for invariants.
    - [Dll]: circular doubly linked lists as their two link functions.
    - [ResMap] (Module ResMap; malloc.c): [malloc] and [mfree] on the array of
      areas, which includes the terminating entry and its bound.
    - [Clist] (Module Clist; prim.c, tty.h): the queues of characters at the byte
      addresses the code computes, and all routines of prim.c.
    - [Callout] (Module Callout; clock.c): [timeout] and the part of [clock] that
      makes the calls.
    - [Proc] (Module Proc; slp.c, sig.c, clock.c): the process table, the hash
      queues of sleepers, the run queue, signals and priorities, as operations
      and as a step relation of these.
    - [Family] (Module Family; slp.c, sys1.c, sys4.c, sig.c, main.c): [newproc],
      [fork], [exit], [wait], [stop] and the calls on processes, with the user
      structures and the maps of memory, over [Proc]; [booted], the table as
      [main] sets it up, and [sysstep], the step relation of all of it.  [Keep]
      (Module Keep): what the operations of [Proc] leave alone.  [Tree] (Module
      Tree): numbers and parents.
    - [Kernel]: the state of the file system: buffers, inodes, files, mounts,
      texts, the user structure, user and kernel memory, the devices, and a log
      of the calls to the rest of the kernel; constants and flags.  The class
      [Devices] is the device switch.
    - [Bio] (Module Bio; bio.c, binit of main.c): the buffer cache.
    - [Quiet] (Module Quiet): invariants of the state that no operation of the
      cache can break, in any interleaving.
    - [Ahead] (Module Ahead; bio.c): what reading and releasing leaves of a state;
      [geteblk] and the second half of [breada].
    - [Alloc] (Module Alloc; alloc.c, filsys.h): the super block as bytes, the
      free list, [getfs] and [ifree].
    - [Inode] (Module Inode; iget.c, alloc.c, pipe.c): locks, [iget], [iput],
      [iupdat], [itrunc], [ialloc], [update].
    - [Itab] (Module Itab): the consistency of the inode table under interleaving.
    - [Rdwri] (Module Rdwri; subr.c, rdwri.c): [bmap], [iomove], [readi], [writei].
    - [Readi], [Writei] (Modules of the same names): the bytes of a file, and what
      [readi] and [writei] do with them.
    - [Grow] (Module Grow): the same for a write that takes new blocks.
    - [Tty] (Module Tty; tty.c, partab.c, tty.h): the common part of the terminal
      drivers, against the class [Queues] of what it calls in prim.c.
    - [Ttyq] (Module Ttyq): [Clist] implements [Queues] and obeys its laws.
    - [Cooked] (Module Cooked; tty.c): lines as lists of characters, from
      [ttyinput] through [canon] to [ttread].
    - [Ttyout] (Module Ttyout; tty.c): what [ttyoutput] does.
    - [Text], [Fio], [Nami], [Pipe], [Sys] (text.c, fio.c, nami.c, pipe.c, sys2.c,
      sys3.c and the calls of sys4.c on files and identities).

    - [Lookup] (Module Lookup; nami.c): a directory as a list of entries, and the
      search of it.
    - [Itake] (Module Itake; iget.c): what [iget] and [iput] do to the table when
      no one else is in the middle of anything.
    - [Path] (Module Path; nami.c, iget.c): paths as lists of names, the walk they
      stand for ([resolve]), and the whole of [namei].
    - [Sysfile] (Module Sysfile; sys2.c, fio.c): [open], [read], [write] and [close]
      as the process sees them.
    - [Pipeq] (Module Pipeq; pipe.c): pipes as queues of bytes.
    - Of the library and the commands, which share nothing with the kernel but
      the prelude: [Heap] (Module Heap; libc/gen/malloc.c), [Qsort] (Module Qsort;
      libc/gen/qsort.c), [Crypt] (Module Crypt; libc/gen/crypt.c) and [Grep] (Module
      Grep; cmd/grep.c).

    A definition has the name of the C function; a part of one (a loop body, a
    branch) has a name that begins with it.  A C structure is a record with the
    same field names, an array of structures a function from indices, a pointer
    into a table an index or a [bptr].  The contents of a buffer is byte memory,
    read through the offsets of the C type in use.

    ** What is proved

    - [ResMap]: the areas never overlap and nothing is lost ([ledger_safe]);
      first fit; coalescing; [mfree] undoes [malloc].
    - [Clist]: any sequence of [putc] and [getc] is a bounded FIFO; the block
      moves are the character moves repeated; failure of [putc] has no effect.
    - [Callout]: calls are made on the tick they are due and in order.
    - [Family]: from [booted] on every runnable process is on the run queue or
      current and every sleeper on the queue of its channel, and [wakeup] and
      [clock] return ([no_process_lost]).  The steps are those of [Proc] with
      [newproc] (with core for the child, or by way of the swap), [wait], the end of
      [exit], [stop], [setrun] of a stopped process and what the swapper changes
      in entries.  Processes sleep in them on channels outside the hash bucket of
      [&runout] only; the code loses processes that do not
      ([wakeup_same_bucket_loses]), and [wait_may_clash] shows that the bucket cannot
      be kept free.  [Tree]: numbers are unique and every process, zombies included, has
      one parent that has not ended ([family_tree]), on the same steps.
    - [Proc]: [wakeup], [swtch], [sleep], [issig] and [psignal] do what they are
      for; [wakeup] and [sleep] but for the same collision of buckets.
    - [Bio]: with [cache], the invariant of buffers, queues and flags, [bread]
      gives the one buffer of a block with the block's content; writes are read
      back; no other block changes.  These hold of a driver that makes its transfer
      at once ([SyncDriver]); the definitions are for any driver.  Nothing is said of
      when blocks reach a device whose driver completes from an interrupt.
    - [Alloc]: the free list, half of it in the super block and half chained
      through free blocks, refines a stack: [alloc] pops, [free] pushes, and an
      empty list gives ENOSPC.
    - [Inode], [Itab]: inodes survive the trip to the disk and back; no two
      entries of the table are for one inode, whatever others do meanwhile.
    - [Rdwri]: [bmap] numbers the blocks of a file one to one and follows them
      through three levels of indirection; the two ways of [iomove] agree.
    - [Readi], [Writei]: a file is a function from offsets to bytes ([file_byte]),
      defined by its inode, its indirect blocks and the cache.  [readi] copies a
      piece of that function to the user, with read-ahead, holes and the end of
      the file; [writei] to blocks that are there changes it just there; what
      has been written is read back.
    - [Grow]: [writei] where the file has no blocks takes them from the free list,
      one for each that is missing, and zeros are in the new blocks where nothing
      was written; for the ten direct blocks.  [Pipeq]: on this and on [readi],
      [writep] and [readp] are the two ends of a queue of bytes, when they do not
      have to wait.
    - [Fio]: [falloc] takes the lowest descriptor.  [Sysfile]: [open] gives the
      lowest descriptor on the file the path leads to, or the error of the walk,
      the permissions or the full table, with nothing held; [read] and [write]
      move the file's bytes at the offset and advance it; a path that is opened
      and read gives the bytes on the disk; [close] undoes [open].
    - [Lookup], [Path]: [namei] finds what the names in the directories lead to,
      from the root or the current directory, with the permissions and errors of
      each step, and leaves the table of inodes as it was but for the result.
      The file system is one device without mounts on the way; entries of the
      table that are not in use are loaded from the disk.
    - [Cooked]: the line a program reads is the line typed, edited as a function
      on lists says ([edit], with its laws in [editing_laws]), and nothing is left
      on the raw queue.  [Ttyout]: [ttyoutput] returns, with a bounded depth of
      calls of itself; tabs end at multiples of eight.
    - [Heap]: blocks the program holds never overlap, nothing the allocator does
      changes what is in them, and [malloc] returns, after at most three turns of
      its loop, for sizes whose number of words does not wrap (below 2^32-15);
      null only when the system has no more memory.
      [realloc] keeps the words of the block, also across an overlap.
    - [Qsort]: the result is sorted, a permutation, and the recursion is
      logarithmic, for any comparison that is a total preorder; the code on bytes
      simulates the algorithm on arrays of values.  [Crypt]: decryption undoes
      encryption, by the involution of each round and of the tables; the form of
      the result of [crypt], and that it checks itself.  [Grep]: from the text of a
      pattern to the lines printed, against a definition of what a pattern matches,
      and that the matcher ends; for patterns without back-references, which the
      definitions have and the theorem has not.
    - Places where the code does not do what it means to: [q_to_b_empty_spl],
      [timeout_overrun], [wakeup_same_bucket_loses], [wait_may_clash], [swap_count_wraps],
      [write_past_end_hits_block_0], [rdwr_64k], [iget_count_wraps] and
      [malloc_wraps].

    ** Bounds and fuel

    A loop that is bounded by a table is a recursion over the table's indices.
    A loop that follows links or waits for others takes its number of rounds
    from [Fuel]; that it ends is proved, not assumed, wherever a theorem says
    the code returns: 200 rounds ([enough_fuel]) are enough for the 29 buffers of
    the cache, since each round of [getblk] or [bflush] that does not end the
    loop writes out one more buffer, and for [readi] and [writei], which move at
    most 65535 bytes in at most 130 turns.  The loops of the allocator of the
    library advance through addresses of 32 bits, twice at most: 2^33 rounds are
    enough.  [newproc] needs 302 tries of a number at most ([pid_search_ends]), since 150
    entries have 300 numbers and 0 is none.

    ** What is not modelled

    Process images ([exec], the growth and swapping of memory), traps, page tables
    and interrupts of the machine, the drivers, the parts of a terminal driver
    that touch the device, accounting and console output; and of what runs on the
    kernel all but a few routines, chosen because others depend on them.  Of the
    definitions, those of [Text], the truncation of files and most system calls
    have no theorems. *)
From stdpp Require Export base tactics list functions strings gmap.
From Stdlib Require Export ZArith Lia.
From Stdlib Require Import FunctionalExtensionality.
#[global] Open Scope Z_scope.

(** ** Machine integers *)

(** C's integer conversions on ARM EABI: [char] is unsigned, [short] is 16
    bits, [int], [long] and pointers are 32 bits.  A conversion is a
    reduction modulo the width; a signed one recentres the result. *)
Definition wrap_u (w z : Z) : Z := z mod 2 ^ w.
Definition wrap_s (w z : Z) : Z := (z + 2 ^ (w - 1)) mod 2 ^ w - 2 ^ (w - 1).

Abbreviation u8 := (wrap_u 8).
Abbreviation u16 := (wrap_u 16).
Abbreviation u32 := (wrap_u 32).
Abbreviation s16 := (wrap_s 16).
Abbreviation s32 := (wrap_s 32).

Lemma wrap_u_range w z : 0 <= w -> 0 <= wrap_u w z < 2 ^ w.
Proof. intros. apply Z.mod_pos_bound, Z.pow_pos_nonneg; lia. Qed.

Lemma wrap_u_id w z : 0 <= z < 2 ^ w -> wrap_u w z = z.
Proof. intros. apply Z.mod_small; lia. Qed.

Lemma wrap_s_range w z : 0 < w -> - 2 ^ (w - 1) <= wrap_s w z < 2 ^ (w - 1).
Proof.
  intros. unfold wrap_s.
  assert (2 ^ w = 2 * 2 ^ (w - 1)) as E
    by (rewrite <- (Z.pow_succ_r 2); [f_equal|]; lia).
  pose proof (Z.mod_pos_bound (z + 2 ^ (w - 1)) (2 ^ w)).
  assert (0 < 2 ^ w) by (apply Z.pow_pos_nonneg; lia). lia.
Qed.

Lemma wrap_s_id w z : 0 < w -> - 2 ^ (w - 1) <= z < 2 ^ (w - 1) -> wrap_s w z = z.
Proof.
  intros. unfold wrap_s.
  assert (2 ^ w = 2 * 2 ^ (w - 1)) as E
    by (rewrite <- (Z.pow_succ_r 2); [f_equal|]; lia).
  rewrite Z.mod_small; lia.
Qed.

Lemma u8_range z : 0 <= u8 z < 256.
Proof. apply (wrap_u_range 8); lia. Qed.
Lemma u8_id z : 0 <= z < 256 -> u8 z = z.
Proof. intros; apply wrap_u_id; lia. Qed.
Lemma u16_range z : 0 <= u16 z < 65536.
Proof. apply (wrap_u_range 16); lia. Qed.
Lemma u16_id z : 0 <= z < 65536 -> u16 z = z.
Proof. intros; apply wrap_u_id; lia. Qed.
Lemma u32_range z : 0 <= u32 z < 4294967296.
Proof. apply (wrap_u_range 32); lia. Qed.
Lemma u32_id z : 0 <= z < 4294967296 -> u32 z = z.
Proof. intros; apply wrap_u_id; lia. Qed.
Lemma s16_range z : -32768 <= s16 z < 32768.
Proof. apply (wrap_s_range 16); lia. Qed.
Lemma s16_id z : -32768 <= z < 32768 -> s16 z = z.
Proof. intros; apply wrap_s_id; lia. Qed.
Lemma s32_range z : -2147483648 <= s32 z < 2147483648.
Proof. apply (wrap_s_range 32); lia. Qed.
Lemma s32_id z : -2147483648 <= z < 2147483648 -> s32 z = z.
Proof. intros; apply wrap_s_id; lia. Qed.

(** Flag words.  [has f m] is C's test [f & m]. *)
Definition has (f m : Z) : bool := negb (Z.land f m =? 0).
Definition setf (f m : Z) : Z := Z.lor f m.
Definition clrf (f m : Z) : Z := Z.land f (Z.lnot m).

Lemma bit_pow2 k i : 0 <= k -> Z.testbit (2 ^ k) i = bool_decide (i = k).
Proof.
  intros. rewrite Z.pow2_bits_eqb by lia.
  destruct (Z.eqb_spec k i); symmetry; [apply bool_decide_eq_true | apply bool_decide_eq_false]; lia.
Qed.

Lemma has_bit f k : 0 <= k -> has f (2 ^ k) = Z.testbit f k.
Proof.
  intros Hk. unfold has. destruct (Z.testbit f k) eqn:E.
  - apply negb_true_iff, Z.eqb_neq. intros H0.
    assert (Z.testbit (Z.land f (2 ^ k)) k = false) as B by (rewrite H0; apply Z.bits_0).
    rewrite Z.land_spec, E, bit_pow2 in B by lia. rewrite bool_decide_eq_true_2 in B; done.
  - apply negb_false_iff, Z.eqb_eq, Z.bits_inj'. intros i Hi.
    rewrite Z.land_spec, bit_pow2, Z.bits_0 by lia. case_bool_decide; subst; by rewrite ?E, ?andb_false_r.
Qed.

Lemma land_lor_0 a b c : Z.land (Z.lor a b) c = 0 <-> Z.land a c = 0 /\ Z.land b c = 0.
Proof. rewrite Z.land_lor_distr_l, Z.lor_eq_0_iff. done. Qed.

Lemma has_setf f m n : has (setf f m) n = has f n || has m n.
Proof.
  unfold has, setf. destruct (Z.eqb_spec (Z.land (Z.lor f m) n) 0) as [E|E].
  - apply land_lor_0 in E as [-> ->]. done.
  - destruct (Z.eqb_spec (Z.land f n) 0), (Z.eqb_spec (Z.land m n) 0); try done.
    exfalso; apply E, land_lor_0; done.
Qed.

Lemma has_clrf_other f m n : Z.land m n = 0 -> has (clrf f m) n = has f n.
Proof.
  intros H. unfold has, clrf. do 2 f_equal. apply Z.bits_inj'; intros i Hi.
  rewrite !Z.land_spec, Z.lnot_spec by lia.
  pose proof (f_equal (fun z => Z.testbit z i) H) as Hb. cbn in Hb.
  rewrite Z.land_spec, Z.bits_0 in Hb.
  destruct (Z.testbit f i), (Z.testbit m i), (Z.testbit n i); done.
Qed.

Lemma has_clrf_same f m n : Z.land m n = n -> has (clrf f m) n = false.
Proof.
  intros H. unfold has, clrf. apply negb_false_iff, Z.eqb_eq, Z.bits_inj'; intros i Hi.
  rewrite !Z.land_spec, Z.lnot_spec, Z.bits_0 by lia.
  pose proof (f_equal (fun z => Z.testbit z i) H) as Hb. cbn in Hb.
  rewrite Z.land_spec in Hb.
  destruct (Z.testbit f i), (Z.testbit m i), (Z.testbit n i); done.
Qed.

Lemma has_0 n : has 0 n = false.
Proof. done. Qed.

Lemma has_wrap_u w f n : 0 <= n < 2 ^ w -> 0 <= w -> has (wrap_u w f) n = has f n.
Proof.
  intros Hn Hw. unfold has, wrap_u. do 2 f_equal. apply Z.bits_inj'; intros i Hi.
  rewrite !Z.land_spec. destruct (Z.lt_ge_cases i w).
  - rewrite Z.mod_pow2_bits_low by lia. done.
  - rewrite <- (Z.mod_small n (2 ^ w)) by lia.
    rewrite !(Z.mod_pow2_bits_high _ w i) by lia. by rewrite !andb_false_r.
Qed.

(** A constant mask, or a union of them. *)
Ltac closed_flag a :=
  first [is_const a | lazymatch a with Z.lor ?x ?y => closed_flag x; closed_flag y | Z0 => idtac | Zpos _ => idtac end].

(** Decides [has] of flag words built by [setf]/[clrf] with constant masks. *)
Ltac simpl_flags :=
  repeat first
    [ rewrite has_setf
    | rewrite has_clrf_same by reflexivity
    | rewrite has_clrf_other by reflexivity
    | match goal with |- context[has ?a ?b] =>
        closed_flag a; closed_flag b; let r := eval vm_compute in (has a b) in change (has a b) with r end ];
  rewrite ?orb_false_r, ?orb_true_r, ?orb_false_l, ?orb_true_l.

Ltac simpl_flags_in H :=
  repeat first
    [ rewrite has_setf in H
    | rewrite has_clrf_same in H by reflexivity
    | rewrite has_clrf_other in H by reflexivity
    | match type of H with context[has ?a ?b] =>
        closed_flag a; closed_flag b; let r := eval vm_compute in (has a b) in change (has a b) with r in H end ];
  rewrite ?orb_false_r, ?orb_true_r, ?orb_false_l, ?orb_true_l in H.

(** ** Record update *)

(** [r <| f := v |>] and [r <| f ::= g |>] update one field of a record.  A
    record type declares its eta expansion once with [Eta]; the setter of a
    projection is found by abstracting that projection out of it. *)
Class Eta (R : Type) := eta : R -> R.
Class Updater {R T : Type} (p : R -> T) := update_with : (T -> T) -> R -> R.
Arguments update_with {R T} p {_} _ _.

Ltac solve_updater :=
  match goal with
  | |- @Updater ?R ?T ?p =>
      let e := eval hnf in (@eta R _) in
      match eval pattern p in e with
      | ?S _ => exact (fun (g : T -> T) => S (fun r => g (p r)))
      end
  end.
#[export] Hint Extern 1 (Updater _) => solve_updater : typeclass_instances.

Notation "r <| p ::= g |>" := (update_with p g r)
  (at level 1, left associativity, p at level 9, format "r  <| p  ::=  g |>").
Notation "r <| p := v |>" := (update_with p (fun _ => v) r)
  (at level 1, left associativity, p at level 9, format "r  <| p  :=  v |>").
Notation "r <| p @ i := v |>" := (update_with p (fun a => <[i:=v]> a) r)
  (at level 1, left associativity, p at level 9, i at level 9, format "r  <| p @ i  :=  v |>").

(** ** Arrays as functions *)

(** A C array of structures is a function from indices; [<[i:=v]> a] is
    stdpp's function update. *)
Lemma fn_eq {A B} `{EqDecision A} (f : A -> B) i v : <[i:=v]> f i = v.
Proof. apply fn_lookup_insert. Qed.
Lemma fn_ne {A B} `{EqDecision A} (f : A -> B) i j v : i <> j -> <[i:=v]> f j = f j.
Proof. apply fn_lookup_insert_ne. Qed.
Lemma fn_case {A B} `{EqDecision A} (f : A -> B) i j v :
  <[i:=v]> f j = if decide (i = j) then v else f j.
Proof. destruct (decide (i = j)) as [->|]; [apply fn_eq | by apply fn_ne]. Qed.
Lemma fn_same {A B} `{EqDecision A} (f : A -> B) i v : v = f i -> <[i:=v]> f = f.
Proof. intros ->. apply functional_extensionality. intros j. rewrite fn_case. by case_decide; subst. Qed.
Lemma fn_twice {A B} `{EqDecision A} (f : A -> B) i v v' : <[i:=v]> (<[i:=v']> f) = <[i:=v]> f.
Proof. apply functional_extensionality. intros j. rewrite !fn_case. by case_decide. Qed.
Lemma fn_comm {A B} `{EqDecision A} (f : A -> B) i j v v' : i <> j -> <[i:=v]> (<[j:=v']> f) = <[j:=v']> (<[i:=v]> f).
Proof. intros Hij. apply functional_extensionality. intros x. rewrite !fn_case. repeat case_decide; by subst. Qed.

Lemma fn_proj {A B C} `{EqDecision A} (f : A -> B) (g : B -> C) i j v :
  g v = g (f i) -> g (<[i:=v]> f j) = g (f j).
Proof. intros E. rewrite fn_case. case_decide; subst; done. Qed.

(** ** Byte memory *)

(** Storage seen through several C types (a buffer read as bytes, as 32-bit
    block addresses, as a super block) is a function from byte offsets to
    bytes, little endian as on ARM. *)
Abbreviation mem := (Z -> Z).

Definition rd_u16 (m : mem) (a : Z) : Z := m a + 256 * m (a + 1).
Definition rd_s16 (m : mem) (a : Z) : Z := s16 (rd_u16 m a).
Definition rd_u32 (m : mem) (a : Z) : Z := rd_u16 m a + 65536 * rd_u16 m (a + 2).
Definition rd_s32 (m : mem) (a : Z) : Z := s32 (rd_u32 m a).
Definition wr_8 (m : mem) (a v : Z) : mem := <[a := u8 v]> m.
Definition wr_16 (m : mem) (a v : Z) : mem := wr_8 (wr_8 m a v) (a + 1) (v / 256).
Definition wr_32 (m : mem) (a v : Z) : mem := wr_16 (wr_16 m a v) (a + 2) (v / 65536).

(** [bcopy(from, to, count)] between offsets of two memories. *)
Definition mcopy (src : mem) (from : Z) (dst : mem) (to count : Z) : mem :=
  fun a => if bool_decide (to <= a < to + count) then src (a - to + from) else dst a.
Definition mfill (dst : mem) (to count v : Z) : mem :=
  fun a => if bool_decide (to <= a < to + count) then v else dst a.

Definition bytes_ok (m : mem) : Prop := forall a, 0 <= m a < 256.

Lemma wr_8_eq m a v : wr_8 m a v a = u8 v.
Proof. apply fn_eq. Qed.
Lemma wr_8_ne m a b v : a <> b -> wr_8 m a v b = m b.
Proof. intros. by apply fn_ne. Qed.

Lemma wr_16_ne m a b v : b < a \/ a + 2 <= b -> wr_16 m a v b = m b.
Proof. intros. unfold wr_16. by rewrite !wr_8_ne by lia. Qed.
Lemma wr_32_ne m a b v : b < a \/ a + 4 <= b -> wr_32 m a v b = m b.
Proof. intros. unfold wr_32. by rewrite !wr_16_ne by lia. Qed.

Lemma rd_wr_16_eq m a v : rd_u16 (wr_16 m a v) a = u16 v.
Proof.
  unfold rd_u16, wr_16. rewrite wr_8_eq, (wr_8_ne _ (a + 1) a), wr_8_eq by lia.
  unfold wrap_u. Z.div_mod_to_equations. lia.
Qed.

Lemma rd_wr_32_eq m a v : rd_u32 (wr_32 m a v) a = u32 v.
Proof.
  unfold rd_u32, wr_32. rewrite rd_wr_16_eq.
  assert (rd_u16 (wr_16 (wr_16 m a v) (a + 2) (v / 65536)) a = u16 v) as ->.
  { rewrite <- (rd_wr_16_eq m a v). unfold rd_u16. by rewrite !(wr_16_ne _ (a + 2)) by lia. }
  unfold wrap_u. Z.div_mod_to_equations. lia.
Qed.

Lemma wrap_s_u w z : 0 < w -> wrap_s w (wrap_u w z) = wrap_s w z.
Proof.
  intros. unfold wrap_s, wrap_u. f_equal.
  rewrite Zplus_mod_idemp_l. done.
Qed.

Lemma rd_s16_wr_16_eq m a v : rd_s16 (wr_16 m a v) a = s16 v.
Proof. unfold rd_s16. rewrite rd_wr_16_eq. by apply wrap_s_u. Qed.
Lemma rd_s32_wr_32_eq m a v : rd_s32 (wr_32 m a v) a = s32 v.
Proof. unfold rd_s32. rewrite rd_wr_32_eq. by apply wrap_s_u. Qed.

(** A read depends on the bytes it covers, and on nothing else. *)
Definition agree (a n : Z) (m m' : mem) : Prop := forall i, a <= i < a + n -> m i = m' i.

Lemma rd_u16_agree m m' a : agree a 2 m m' -> rd_u16 m a = rd_u16 m' a.
Proof. intros H. unfold rd_u16. by rewrite !H by lia. Qed.
Lemma rd_s16_agree m m' a : agree a 2 m m' -> rd_s16 m a = rd_s16 m' a.
Proof. intros H. unfold rd_s16. by rewrite (rd_u16_agree m m' a H). Qed.
Lemma rd_u32_agree m m' a : agree a 4 m m' -> rd_u32 m a = rd_u32 m' a.
Proof.
  intros H. unfold rd_u32. rewrite !(rd_u16_agree m m'); [done | |]; intros i Hi; apply H; lia.
Qed.
Lemma rd_s32_agree m m' a : agree a 4 m m' -> rd_s32 m a = rd_s32 m' a.
Proof. intros H. unfold rd_s32. by rewrite (rd_u32_agree m m' a H). Qed.

Lemma agree_wr_8 m a v b n : a < b \/ b + n <= a -> agree b n (wr_8 m a v) m.
Proof. intros H i Hi. apply wr_8_ne; lia. Qed.
Lemma agree_wr_16 m a v b n : a + 2 <= b \/ b + n <= a -> agree b n (wr_16 m a v) m.
Proof. intros H i Hi. apply wr_16_ne; lia. Qed.
Lemma agree_wr_32 m a v b n : a + 4 <= b \/ b + n <= a -> agree b n (wr_32 m a v) m.
Proof. intros H i Hi. apply wr_32_ne; lia. Qed.

Lemma bytes_ok_wr_8 m a v : bytes_ok m -> bytes_ok (wr_8 m a v).
Proof.
  intros H i. unfold wr_8. rewrite fn_case. case_decide; [apply u8_range | apply H].
Qed.
Lemma bytes_ok_wr_16 m a v : bytes_ok m -> bytes_ok (wr_16 m a v).
Proof. intros. by apply bytes_ok_wr_8, bytes_ok_wr_8. Qed.
Lemma bytes_ok_wr_32 m a v : bytes_ok m -> bytes_ok (wr_32 m a v).
Proof. intros. by apply bytes_ok_wr_16, bytes_ok_wr_16. Qed.

(** ** Lists *)

Lemma filter_list_all {A} (P : A -> Prop) `{!forall x, Decision (P x)} l :
  Forall P l -> filter P l = l.
Proof. induction 1; [done|]. rewrite filter_cons_True by done. by f_equal. Qed.
Lemma filter_list_none {A} (P : A -> Prop) `{!forall x, Decision (P x)} l :
  Forall (fun x => ~ P x) l -> filter P l = [].
Proof. induction 1; [done|]. by rewrite filter_cons_False. Qed.
Lemma filter_map {A B} (f : A -> B) (P : B -> Prop) (Q : A -> Prop)
    `{!forall x, Decision (P x)} `{!forall x, Decision (Q x)} l :
  (forall x, P (f x) <-> Q x) -> filter P (map f l) = map f (filter Q l).
Proof.
  intros E. induction l as [|x l IH]; [done|]. cbn [map].
  destruct (decide (Q x)) as [Hq|Hq]; pose proof Hq as Hp; rewrite <- E in Hp.
  - rewrite filter_cons_True, filter_cons_True by done. cbn. by f_equal.
  - rewrite filter_cons_False, filter_cons_False by done. done.
Qed.

(** Membership in lists built by [++], [::] and [reverse]. *)
Ltac mem := repeat (rewrite ?elem_of_reverse, ?elem_of_app, ?elem_of_cons, ?elem_of_nil in *); first [tauto | intuition congruence].

Lemma filter_ext_in {A} (P Q : A -> Prop) `{!forall x, Decision (P x)} `{!forall x, Decision (Q x)} (l : list A) :
  (forall x, x ∈ l -> P x <-> Q x) -> filter P l = filter Q l.
Proof.
  intros E. induction l as [|x l IH]; [done|]. rewrite !filter_cons, IH by (intros y Hy; apply E; mem).
  specialize (E x ltac:(mem)). by destruct (decide (P x)), (decide (Q x)); try tauto.
Qed.

(** A conversion keeps the low bits. *)
Lemma testbit_wrap_s w z j : 0 <= j < w -> Z.testbit (wrap_s w z) j = Z.testbit z j.
Proof.
  intros. rewrite <- (Z.mod_pow2_bits_low (wrap_s w z) w j), <- (Z.mod_pow2_bits_low z w j) by lia.
  f_equal. unfold wrap_s. rewrite Zminus_mod_idemp_l. f_equal. lia.
Qed.
