(* ===== verification/Kmonad.v ===== *)
(** * Kmonad: kernel code as functions on an explicit state

    Code that only computes and updates state is a function from a state to
    an [outcome].  A call that gives up the processor ([sleep], [swtch]) is a
    [Blocked] node: it shows the state other processes see, and resumes in the
    state they leave.  [Jumped] is the non-local return of a signalled sleep
    ([resume(u.u_qsav)]), [Panicked] is [panic], and [Spinning] is a loop that
    used up its fuel.  [wp] is the weakest precondition, relative to a
    protocol [proto] that says what holds at a block, what other processes may
    do meanwhile, and whether the three abnormal ends are allowed. *)
From S2P Require Import Prelude.

Inductive outcome (L S A : Type) : Type :=
| Ret (a : A) (s : S)
| Blocked (l : L) (s : S) (k : S -> outcome L S A)
| Jumped (s : S)
| Panicked (why : string) (s : S)
| Spinning.
Arguments Ret {L S A} a s.
Arguments Blocked {L S A} l s k.
Arguments Jumped {L S A} s.
Arguments Panicked {L S A} why s.
Arguments Spinning {L S A}.

Definition K (L S A : Type) : Type := S -> outcome L S A.

Fixpoint obind {L S A B} (k : A -> K L S B) (o : outcome L S A) : outcome L S B :=
  match o with
  | Ret a s => k a s
  | Blocked l s r => Blocked l s (fun s' => obind k (r s'))
  | Jumped s => Jumped s
  | Panicked w s => Panicked w s
  | Spinning => Spinning
  end.

#[export] Instance K_ret L S : MRet (K L S) := fun A a s => Ret a s.
#[export] Instance K_bind L S : MBind (K L S) := fun A B k m s => obind k (m s).

Section ops.
  Context {L S : Type}.
Definition get : K L S S := fun s => Ret s s.
Definition gets {A} (f : S -> A) : K L S A := fun s => Ret (f s) s.
Definition modify (f : S -> S) : K L S unit := fun s => Ret tt (f s).
Definition block (l : L) : K L S unit := fun s => Blocked l s (fun s' => Ret tt s').
Definition panic {A} (w : string) : K L S A := fun s => Panicked w s.
Definition spin {A} : K L S A := fun _ => Spinning.
Definition longjmp {A} : K L S A := fun s => Jumped s.

  (** [if (b) m] without an else branch. *)
Definition when (b : bool) (m : K L S unit) : K L S unit := if b then m else mret tt.

  (** A loop: [body] either goes round again ([inl]) or leaves ([inr]). *)
Fixpoint iter {A B} (fuel : nat) (body : A -> K L S (A + B)) (a : A) : K L S B :=
    match fuel with
    | O => spin
    | Datatypes.S n => body a ≫= fun r =>
        match r with inl a' => iter n body a' | inr b => mret b end
    end.

  (** A loop over the elements of a table, in order. *)
Fixpoint each {A} (l : list A) (f : A -> K L S unit) : K L S unit :=
    match l with
    | [] => mret tt
    | x :: l' => f x ≫= fun _ => each l' f
    end.

  (** A loop over the elements of a table, in order, that may leave ([inr]). *)
Fixpoint foldm {A B C} (l : list A) (f : A -> B -> K L S (B + C)) (b : B) : K L S (B + C) :=
    match l with
    | [] => mret (inl b)
    | x :: l' => f x b ≫= fun r =>
        match r with inl b' => foldm l' f b' | inr c => mret (inr c) end
    end.

  (** The first element of a table that satisfies a test of the state. *)
Definition find_first {A} (l : list A) (p : S -> A -> bool) : K L S (option A) :=
    gets (fun s => List.find (p s) l).
End ops.

(** ** Weakest preconditions *)

Record proto (L S : Type) := Proto {
  at_block : L -> S -> Prop;        (* what holds when the process gives up the cpu *)
  on_wake  : S -> S -> Prop;        (* what others may do before it runs again *)
  may_panic : Prop;
  may_jump : Prop;
  may_spin : Prop
}.
Arguments Proto {L S}.
Arguments at_block {L S}. Arguments on_wake {L S}.
Arguments may_panic {L S}. Arguments may_jump {L S}. Arguments may_spin {L S}.

(** The strictest protocol: the code never blocks and always returns. *)
Definition straight {L S} : proto L S :=
  Proto (fun _ _ => False) (fun _ _ => False) False False False.

Section wp.
  Context {L S : Type} (P : proto L S).

Fixpoint owp {A} (Q : A -> S -> Prop) (o : outcome L S A) : Prop :=
    match o with
    | Ret a s => Q a s
    | Blocked l s k => P.(at_block) l s /\ forall s', P.(on_wake) s s' -> owp Q (k s')
    | Jumped _ => P.(may_jump)
    | Panicked _ _ => P.(may_panic)
    | Spinning => P.(may_spin)
    end.

Definition wp {A} (m : K L S A) (Q : A -> S -> Prop) (s : S) : Prop := owp Q (m s).

Lemma owp_mono {A} (Q Q' : A -> S -> Prop) o :
    (forall a s, Q a s -> Q' a s) -> owp Q o -> owp Q' o.
  Proof. intros HQ. induction o; cbn; auto. intros [? H']. split; auto. Qed.

Lemma owp_bind {A B} (k : A -> K L S B) Q o :
    owp (fun a => wp (k a) Q) o <-> owp Q (obind k o).
  Proof.
    induction o as [| l s r IH | | |]; cbn; try done.
    split; intros [? H]; (split; [done|]); intros s' Hs'; apply IH, H, Hs'.
  Qed.

Lemma wp_bind {A B} (m : K L S A) (k : A -> K L S B) Q s :
    wp m (fun a => wp (k a) Q) s -> wp (m ≫= k) Q s.
  Proof. unfold wp at 1 3. apply owp_bind. Qed.

Lemma wp_mono {A} (m : K L S A) (Q Q' : A -> S -> Prop) s :
    wp m Q s -> (forall a s', Q a s' -> Q' a s') -> wp m Q' s.
  Proof. intros H HQ. eapply owp_mono; [exact HQ | exact H]. Qed.

Lemma wp_ret {A} (a : A) Q s : Q a s -> wp (mret a) Q s.
  Proof. done. Qed.
Lemma wp_get Q s : Q s s -> wp get Q s.
  Proof. done. Qed.
Lemma wp_gets {A} (f : S -> A) Q s : Q (f s) s -> wp (gets f) Q s.
  Proof. done. Qed.
Lemma wp_modify f Q s : Q tt (f s) -> wp (modify f) Q s.
  Proof. done. Qed.
Lemma wp_block l Q s :
    P.(at_block) l s -> (forall s', P.(on_wake) s s' -> Q tt s') -> wp (block l) Q s.
  Proof. by split. Qed.
Lemma wp_panic {A} w (Q : A -> S -> Prop) s : P.(may_panic) -> wp (panic w) Q s.
  Proof. done. Qed.

Lemma wp_when b m Q s :
    (b = true -> wp m Q s) -> (b = false -> Q tt s) -> wp (when b m) Q s.
  Proof. intros Ht Hf. destruct b; [by apply Ht | by apply wp_ret, Hf]. Qed.
Lemma wp_if {A} (b : bool) (m1 m2 : K L S A) Q s :
    (b = true -> wp m1 Q s) -> (b = false -> wp m2 Q s) -> wp (if b then m1 else m2) Q s.
  Proof. destruct b; auto. Qed.

  (** A loop with an invariant and a measure that decreases on every round. *)
Lemma wp_iter {A B} (Inv : A -> S -> Prop) (meas : A -> S -> nat)
      (body : A -> K L S (A + B)) Q n :
    (forall a s, Inv a s ->
       wp (body a) (fun r s' => match r with
         | inl a' => Inv a' s' /\ (meas a' s' < meas a s)%nat
         | inr b => Q b s' end) s) ->
    forall a s, Inv a s -> (meas a s < n)%nat -> wp (iter n body a) Q s.
  Proof.
    intros Hb. induction n as [|n IH]; intros a s Ha Hn; [lia|]. cbn [iter].
    apply wp_bind. eapply wp_mono; [by apply Hb|].
    intros [a'|b] s'; [intros [??]; apply IH; [done | lia] | by intros ?].
  Qed.

  (** A loop with an invariant only, when running out of fuel is allowed. *)
Lemma wp_iter_partial {A B} (Inv : A -> S -> Prop) (body : A -> K L S (A + B)) Q n :
    P.(may_spin) ->
    (forall a s, Inv a s ->
       wp (body a) (fun r s' => match r with inl a' => Inv a' s' | inr b => Q b s' end) s) ->
    forall a s, Inv a s -> wp (iter n body a) Q s.
  Proof.
    intros Hspin Hb. induction n as [|n IH]; intros a s Ha; [done|]. cbn [iter].
    apply wp_bind. eapply wp_mono; [by apply Hb|].
    intros [a'|b] s'; [apply IH | done].
  Qed.

  (** A table loop: the invariant is indexed by the elements already visited. *)
Lemma wp_each {A} (Inv : list A -> S -> Prop) (f : A -> K L S unit) l :
    (forall done x rest s, l = done ++ x :: rest -> Inv done s ->
       wp (f x) (fun _ => Inv (done ++ [x])) s) ->
    forall s, Inv [] s -> wp (each l f) (fun _ => Inv l) s.
  Proof.
    intros Hf. assert (forall rest don s, l = don ++ rest -> Inv don s ->
      wp (each rest f) (fun _ => Inv l) s) as H.
    { induction rest as [|x rest IH]; intros don s E H; cbn [each].
      - rewrite app_nil_r in E. subst. by apply wp_ret.
      - apply wp_bind. eapply wp_mono; [by eapply Hf|]. intros ? s' H'.
        apply (IH (don ++ [x])); [by rewrite <- app_assoc | done]. }
    intros s Hs. by apply (H l []).
  Qed.
End wp.

(** ** Invariants

    [pres P J m]: [m] keeps [J], also at the points where it gives up the
    processor, if the other processes do.  One rule for each construct of the
    language, and a tactic that applies them. *)
Section pres.
  Context {L S : Type} (P : proto L S) (J : S -> Prop).
Definition pres {A} (m : K L S A) : Prop := forall s, J s -> wp P m (fun _ => J) s.

Lemma pres_ret {A} (a : A) : pres (mret a).
Proof. by intros s Hs. Qed.
Lemma pres_bind {A B} (m : K L S A) (k : A -> K L S B) : pres m -> (forall a, pres (k a)) -> pres (m ≫= k).
Proof. intros Hm Hk s Hs. apply wp_bind. eapply wp_mono; [by apply Hm|]. intros a s' Hs'. by apply Hk. Qed.
Lemma pres_get : pres get.
Proof. by intros s Hs. Qed.
Lemma pres_gets {A} (f : S -> A) : pres (gets f).
Proof. by intros s Hs. Qed.
Lemma pres_modify f : (forall s, J s -> J (f s)) -> pres (modify f).
Proof. intros Hf s Hs. by apply Hf. Qed.
Lemma pres_when b m : pres m -> pres (when b m).
Proof. intros Hm. destruct b; [done|apply pres_ret]. Qed.
Lemma pres_panic {A} w : P.(may_panic) -> pres (A := A) (panic w).
Proof. by intros H s Hs. Qed.
Lemma pres_longjmp {A} : P.(may_jump) -> pres (A := A) longjmp.
Proof. by intros H s Hs. Qed.
Lemma pres_block l : (forall s, J s -> P.(at_block) l s) -> (forall s s', P.(on_wake) s s' -> J s') -> pres (block l).
Proof. intros H1 H2 s Hs. split; [by apply H1|]. intros s' Hs'. by eapply H2. Qed.
Lemma pres_iter {A B} n (body : A -> K L S (A + B)) a : P.(may_spin) -> (forall a, pres (body a)) -> pres (iter n body a).
Proof.
  intros Hsp Hb. revert a. induction n as [|n IH]; intros a; [by intros s Hs|]. cbn [iter].
  apply pres_bind; [done|]. intros [a'|b]; [apply IH|apply pres_ret].
Qed.
Lemma pres_each {A} (l : list A) f : (forall x, pres (f x)) -> pres (each l f).
Proof. intros Hf. induction l as [|x l IH]; [apply pres_ret|]. cbn [each]. apply pres_bind; [done|]. intros _. exact IH. Qed.
Lemma pres_foldm {A B C} (l : list A) (f : A -> B -> K L S (B + C)) b : (forall x b, pres (f x b)) -> pres (foldm l f b).
Proof.
  intros Hf. revert b. induction l as [|x l IH]; intros b; [apply pres_ret|]. cbn [foldm].
  apply pres_bind; [done|]. intros [b'|c]; [apply IH|apply pres_ret].
Qed.
End pres.

Create HintDb pres discriminated.
(** Shows that code keeps an invariant, by its structure and the facts in the
    database [pres]; what is left are changes of the state it cannot judge. *)
Ltac pres_allowed := first [exact I | solve [eauto 2 with pres nocore]].
Ltac pres_step :=
  lazymatch goal with
  | |- pres _ _ (mbind _ _) => apply pres_bind; [|intros ?]
  | |- pres _ _ (mret _) => apply pres_ret
  | |- pres _ _ get => apply pres_get
  | |- pres _ _ (gets _) => apply pres_gets
  | |- pres _ _ (when _ _) => apply pres_when
  | |- pres _ _ (panic _) => apply pres_panic; pres_allowed
  | |- pres _ _ longjmp => apply pres_longjmp; pres_allowed
  | |- pres _ _ (iter _ _ _) => apply pres_iter; [pres_allowed|intros ?]
  | |- pres _ _ (each _ _) => apply pres_each; intros ?
  | |- pres _ _ (foldm _ _ _) => apply pres_foldm; intros ? ?
  | |- pres _ _ (let '_ := ?x in _) => destruct x
  | |- pres _ _ (match ?x with _ => _ end) => destruct x
  | |- pres _ _ (modify _) => first [solve [apply pres_modify; intros ? ?; assumption] | solve [eauto 2 with pres nocore]]
  | |- pres _ _ _ => solve [eauto 2 with pres nocore]
  end; cbv beta.
Ltac pres_tac := repeat pres_step.

(** The strict protocol gives an equation: the code returns. *)
Lemma wp_straight {L S A} (m : K L S A) Q s :
  wp straight m Q s <-> exists a s', m s = Ret a s' /\ Q a s'.
Proof.
  unfold wp. split.
  - destruct (m s) as [a s'| | | |]; cbn; try tauto. intros H. exists a, s'. auto.
  - intros (a & s' & -> & H). exact H.
Qed.

(** Code that is straight satisfies the same postcondition in any protocol. *)
Lemma wp_of_straight {L S A} (P : proto L S) (m : K L S A) Q s :
  wp straight m Q s -> wp P m Q s.
Proof. intros (a & s' & E & H)%wp_straight. unfold wp. by rewrite E. Qed.

Lemma bind_ret {L S A B} (m : K L S A) (k : A -> K L S B) s a s' :
  m s = Ret a s' -> (m ≫= k) s = k a s'.
Proof. intros E. unfold mbind, K_bind. by rewrite E. Qed.

(** A loop over a table that keeps an invariant of the elements done. *)
Lemma each_ret {L S A} (I : list A -> S -> Prop) (f : A -> K L S unit) l s :
  (forall l1 x l2 s, l = l1 ++ x :: l2 -> I l1 s -> exists s', f x s = Ret tt s' /\ I (l1 ++ [x]) s') ->
  I [] s -> exists s', each l f s = Ret tt s' /\ I l s'.
Proof.
  intros Hf. assert (forall l2 l1 s, l = l1 ++ l2 -> I l1 s -> exists s', each l2 f s = Ret tt s' /\ I l s') as G.
  { clear s. induction l2 as [|x l2 IH]; intros l1 s El Hi.
    - rewrite app_nil_r in El. subst. by exists s.
    - destruct (Hf l1 x l2 s El Hi) as (s1&E&Hi1). cbn. rewrite (bind_ret _ _ _ _ _ E).
      apply (IH (l1 ++ [x])); [|done]. by rewrite <- app_assoc. }
  by apply (G l []).
Qed.

(** ** Evaluation of straight-line code *)

Section eval.
  Context {L S : Type}.
Lemma k_ret {A B} (a : A) (k : A -> K L S B) s : (mret a ≫= k) s = k a s.
Proof. done. Qed.
Lemma k_get {B} (k : S -> K L S B) s : (get ≫= k) s = k s s.
Proof. done. Qed.
Lemma k_gets {A B} (f : S -> A) (k : A -> K L S B) s : (gets f ≫= k) s = k (f s) s.
Proof. done. Qed.
Lemma k_modify {B} f (k : unit -> K L S B) s : (modify f ≫= k) s = k tt (f s).
Proof. done. Qed.
Lemma k_modify_ret f (s : S) : (modify f : K L S unit) s = Ret tt (f s).
Proof. done. Qed.
Lemma k_mret {A} (a : A) (s : S) : (mret a : K L S A) s = Ret a s.
Proof. done. Qed.
Lemma k_when_true {B} b m (k : unit -> K L S B) s : b = true -> (when b m ≫= k) s = (m ≫= k) s.
Proof. by intros ->. Qed.
Lemma k_when_false {B} b m (k : unit -> K L S B) s : b = false -> (when b m ≫= k) s = k tt s.
Proof. by intros ->. Qed.
Lemma k_iter {A B} n (body : A -> K L S (A + B)) a s r s' :
  body a s = Ret r s' ->
  iter (Datatypes.S n) body a s = match r with inl a' => iter n body a' s' | inr b => Ret b s' end.
Proof. intros E. cbn [iter]. rewrite (bind_ret _ _ _ _ _ E). by destruct r. Qed.
Lemma k_iter_inl {A B} n (body : A -> K L S (A + B)) a s a' s' :
  body a s = Ret (inl a') s' -> iter (Datatypes.S n) body a s = iter n body a' s'.
Proof. intros E. by rewrite (k_iter _ _ _ _ _ _ E). Qed.
Lemma k_iter_inr {A B} n (body : A -> K L S (A + B)) a s b s' :
  body a s = Ret (inr b) s' -> iter (Datatypes.S n) body a s = Ret b s'.
Proof. intros E. by rewrite (k_iter _ _ _ _ _ _ E). Qed.
End eval.

(** Evaluates the straight-line code at the head of an equation. *)
Ltac kred :=
  repeat (rewrite ?k_ret, ?k_get, ?k_gets, ?k_modify, ?k_modify_ret, ?k_mret; cbv beta).

(** Runs a computation against a list of moves of the other processes, one
    for each time it blocks: the executable face of the model. *)
Fixpoint run {L S A} (moves : list (S -> S)) (o : outcome L S A) : outcome L S A :=
  match moves, o with
  | mv :: moves', Blocked l s k => run moves' (k (mv s))
  | _, _ => o
  end.

(** Symbolic execution: one step of the code at the head of a [wp] goal. *)
Ltac wp_step :=
  lazymatch goal with
  | |- wp _ (mbind _ _) _ _ => apply wp_bind
  | |- wp _ (mret _) _ _ => apply wp_ret
  | |- wp _ get _ _ => apply wp_get
  | |- wp _ (gets _) _ _ => apply wp_gets
  | |- wp _ (modify _) _ _ => apply wp_modify
  | |- wp _ (when _ _) _ _ => apply wp_when; intros ?
  | |- wp _ (if _ then _ else _) _ _ => apply wp_if; intros ?
  end; cbv beta.
Ltac wp_steps := repeat wp_step.
