(* ===== verification/Dll.v ===== *)
(** * Dll: circular doubly linked lists

    The kernel's buffer lists are rings through a head, each element holding a
    pointer to the next and to the previous one.  [dll nxt prv x l y] says that
    [nxt] leads from [x] through [l] to [y] and [prv] leads back. *)
From S2P Require Import Prelude.

Section dll.
  Context {A : Type} `{EqDecision A}.
  Implicit Types (nxt prv : A -> A) (x y b : A) (l : list A).

Fixpoint dll nxt prv x l y : Prop :=
  match l with
  | [] => nxt x = y /\ prv y = x
  | z :: r => nxt x = z /\ prv z = x /\ dll nxt prv z r y
  end.

Definition ring nxt prv (h : A) (l : list A) : Prop := dll nxt prv h l h.

Lemma dll_app nxt prv x l1 b l2 y :
  dll nxt prv x (l1 ++ b :: l2) y <-> dll nxt prv x l1 b /\ dll nxt prv b l2 y.
Proof.
  revert x. induction l1 as [|z l1 IH]; intros x; cbn; [tauto|]. rewrite IH. tauto.
Qed.

Lemma dll_ext nxt prv nxt' prv' x l y :
  (forall i, i ∈ x :: l -> nxt' i = nxt i) -> (forall i, i ∈ l ++ [y] -> prv' i = prv i) ->
  dll nxt prv x l y -> dll nxt' prv' x l y.
Proof.
  revert x. induction l as [|z l IH]; intros x Hn Hp; cbn.
  - rewrite Hn, Hp by mem. done.
  - rewrite Hn, Hp by (cbn; mem). intros (->&->&H). split; [done|]. split; [done|].
    apply IH; [| |done]; intros i Hi; [apply Hn|apply Hp]; cbn; mem.
Qed.

(** The last element before the end. *)
Lemma dll_prv nxt prv x l y : dll nxt prv x l y -> prv y ∈ x :: l.
Proof.
  revert x. induction l as [|z l IH]; intros x; cbn; [intros [_ ->]; constructor|].
  intros (_&_&H). apply IH in H. mem.
Qed.
Lemma dll_nxt nxt prv x l y : dll nxt prv x l y -> nxt x ∈ l ++ [y].
Proof. destruct l; cbn; [intros [-> _]; mem|intros [-> _]; mem]. Qed.
Lemma dll_nxt_head nxt prv x l y : dll nxt prv x l y -> nxt x = default y (head l).
Proof. destruct l; cbn; tauto. Qed.

(** Pointing the end of a segment somewhere else. *)
Lemma dll_redirect nxt prv x l b y :
  dll nxt prv x l b -> x ∉ l -> NoDup l -> y ∉ l ->
  dll (<[prv b := y]> nxt) (<[y := prv b]> prv) x l y.
Proof.
  revert x. induction l as [|z l IH]; intros x; cbn.
  - intros [_ ->] _ _ _. by rewrite !fn_eq.
  - intros (Hx&Hz&H) Hxl [Hzl Hnd]%NoDup_cons Hyl.
    rewrite (fn_ne nxt), (fn_ne prv).
    + split; [done|]. split; [done|]. apply IH; [done|done|done|mem].
    + intros ->. mem.
    + intros E. pose proof (dll_prv _ _ _ _ _ H) as Hin. rewrite E in Hin. mem.
Qed.

Lemma ring_remove nxt prv h l1 b l2 :
  ring nxt prv h (l1 ++ b :: l2) -> NoDup (h :: l1 ++ b :: l2) ->
  ring (<[prv b := nxt b]> nxt) (<[nxt b := prv b]> prv) h (l1 ++ l2).
Proof.
  unfold ring. intros [H1 H2]%dll_app Hnd.
  apply NoDup_cons in Hnd as [Hh Hnd]. apply NoDup_app in Hnd as (Hn1&H12&Hn2).
  apply NoDup_cons in Hn2 as [Hb Hn2].
  assert (h ∉ l1) as Hh1 by mem. assert (forall i, i ∈ l1 -> i ∉ l2) as Hd by (intros i Hi Hj; apply (H12 i Hi); mem).
  destruct l2 as [|z l2].
  - destruct H2 as [-> _]. rewrite app_nil_r. by apply dll_redirect.
  - destruct H2 as (->&Hz&H2). apply dll_app. split.
    + apply dll_redirect; [done|done|done|]. intros Hi. apply (Hd z Hi). mem.
    + pose proof (dll_prv _ _ _ _ _ H1) as Hp. apply NoDup_cons in Hn2 as [Hz2 Hn2].
      eapply dll_ext; [| |exact H2].
      * intros i Hi. apply fn_ne. intros <-. apply elem_of_cons in Hp as [Hp|Hp].
        -- rewrite Hp in Hi. mem.
        -- by apply (Hd _ Hp).
      * intros i Hi. apply fn_ne. intros ->. apply elem_of_app in Hi as [Hi|Hi]; [done|].
        apply list_elem_of_singleton in Hi as ->. mem.
Qed.

Lemma ring_insert_front nxt prv h l b :
  ring nxt prv h l -> NoDup (h :: l) -> b ∉ h :: l ->
  ring (<[h := b]> (<[b := nxt h]> nxt)) (<[b := h]> (<[nxt h := b]> prv)) h (b :: l).
Proof.
  unfold ring. intros H [Hh Hnd]%NoDup_cons Hb.
  assert (b <> h) as Hbh by (intros ->; mem). cbn. rewrite !fn_eq. split; [done|]. split; [done|].
  destruct l as [|z l]; cbn in H |- *.
  - destruct H as [-> _]. rewrite (fn_ne _ h b), fn_eq, (fn_ne _ b h), fn_eq by done. done.
  - destruct H as (->&_&H). assert (b <> z) by (intros ->; mem). assert (h <> z) by (intros ->; mem).
    rewrite (fn_ne _ h b), fn_eq, (fn_ne _ b z), fn_eq by done. split; [done|]. split; [done|].
    apply NoDup_cons in Hnd as [Hz Hnd]. eapply dll_ext; [| |exact H].
    + intros i Hi. rewrite !fn_ne; [done|intros ->; mem|intros ->; mem].
    + intros i Hi. rewrite !fn_ne; [done|intros ->; mem|intros ->; mem].
Qed.

Lemma ring_insert_back nxt prv h l b :
  ring nxt prv h l -> NoDup (h :: l) -> b ∉ h :: l ->
  ring (<[b := h]> (<[prv h := b]> nxt)) (<[h := b]> (<[b := prv h]> prv)) h (l ++ [b]).
Proof.
  unfold ring. intros H [Hh Hnd]%NoDup_cons Hb.
  assert (b <> h) as Hbh by (intros ->; mem).
  pose proof (dll_prv _ _ _ _ _ H) as Hp. assert (b <> prv h) as Hbp by (intros ->; mem).
  apply dll_app. split.
  - assert (b ∉ l) as Hbl by mem.
    pose proof (dll_redirect _ _ _ _ _ b H Hh Hnd Hbl) as Hr. eapply dll_ext; [| |exact Hr].
    + intros i Hi. apply fn_ne. intros ->. mem.
    + intros i Hi. rewrite !fn_case. repeat case_decide; subst; try done. mem.
  - cbn. rewrite !fn_eq. done.
Qed.

Lemma ring_ext nxt prv nxt' prv' h l :
  (forall i, nxt' i = nxt i) -> (forall i, prv' i = prv i) -> ring nxt prv h l -> ring nxt' prv' h l.
Proof. intros Hn Hp. apply dll_ext; auto. Qed.

Lemma ring_ext_on nxt prv nxt' prv' h l :
  (forall i, i ∈ h :: l -> nxt' i = nxt i /\ prv' i = prv i) -> ring nxt prv h l -> ring nxt' prv' h l.
Proof.
  intros H. apply dll_ext; intros i Hi; apply H; [done|].
  apply elem_of_app in Hi as [?|Hi]; [by right|]. apply list_elem_of_singleton in Hi as ->. by left.
Qed.

(** The neighbours of an element of a ring are not the element itself. *)
Lemma ring_neighbours nxt prv h l1 b l2 :
  ring nxt prv h (l1 ++ b :: l2) -> NoDup (h :: l1 ++ b :: l2) -> nxt b <> b /\ prv b <> b.
Proof.
  unfold ring. intros [H1 H2]%dll_app Hnd.
  apply NoDup_cons in Hnd as [Hh Hnd]. apply NoDup_app in Hnd as (Hn1&H12&Hn2).
  apply NoDup_cons in Hn2 as [Hb Hn2]. split; intros E.
  - apply dll_nxt in H2. rewrite E in H2. apply elem_of_app in H2 as [?|H2]; [done|].
    apply list_elem_of_singleton in H2 as ->. mem.
  - apply dll_prv in H1. rewrite E in H1. apply elem_of_cons in H1 as [->|H1]; [mem|].
    apply (H12 b H1). mem.
Qed.
End dll.
