(* ===== verification/ResMap.v ===== *)
(** * ResMap: the resource map allocator (src/usr/sys/sys/malloc.c)

    [coremap] and [swapmap] are arrays of (size, address) pairs in increasing
    address order, ended by an entry of size 0.  The array is a list here; an
    access past its end makes the operation [None].  Pointers walking the
    array are the recursion on its suffixes. *)
From S2P Require Import Prelude.

Module ResMap.

(** ** Data and operations *)

Record map_ent := MapEnt { m_size : Z; (* short *) m_addr : Z (* unsigned short *) }.

(** [do { bp++; (bp-1)->m_addr = bp->m_addr; } while ((bp-1)->m_size = bp->m_size)] *)
Fixpoint shift_down (l : list map_ent) : option (list map_ent) :=
  match l with
  | _ :: ((e1 :: _) as r) =>
      if m_size e1 =? 0 then Some (e1 :: r)
      else rest ← shift_down r; Some (e1 :: rest)
  | _ => None
  end.

(** First fit.  The result is the address (0 when nothing fits) and the map. *)
Fixpoint malloc (mp : list map_ent) (size : Z) : option (Z * list map_ent) :=
  match mp with
  | [] => None
  | e :: r =>
      if m_size e =? 0 then Some (0, mp)
      else if size <=? m_size e then
        let a := m_addr e in
        let e' := MapEnt (s16 (m_size e - size)) (u16 (m_addr e + size)) in
        if m_size e' =? 0 then l ← shift_down (e' :: r); Some (a, l)
        else Some (a, e' :: r)
      else '(a, r') ← malloc r size; Some (a, e :: r')
  end.

(** [for (; bp->m_addr<=a && bp->m_size!=0; bp++);]: the entries passed, and
    the array from [bp] on. *)
Fixpoint mfree_scan (a : Z) (mp : list map_ent) : option (list map_ent * list map_ent) :=
  match mp with
  | [] => None
  | e :: r =>
      if (m_addr e <=? a) && negb (m_size e =? 0)
      then '(pre, rest) ← mfree_scan a r; Some (e :: pre, rest)
      else Some ([], mp)
  end.

(** [while (bp->m_size) { bp++; (bp-1)->m_addr = bp->m_addr; (bp-1)->m_size = bp->m_size; }] *)
Fixpoint close_up (l : list map_ent) : option (list map_ent) :=
  match l with
  | [] => None
  | b :: r =>
      if m_size b =? 0 then Some l
      else match r with
           | [] => None
           | b1 :: _ => rest ← close_up r; Some (b1 :: rest)
           end
  end.

(** The insertion loop: each entry takes the values of the one before it. *)
Fixpoint push_up (size a : Z) (l : list map_ent) : option (list map_ent) :=
  match l with
  | [] => None
  | b :: r =>
      let t := u16 (m_size b) in
      rest ← (if t =? 0 then Some r else push_up t (m_addr b) r);
      Some (MapEnt (s16 size) (u16 a) :: rest)
  end.

Definition mfree (mp : list map_ent) (size a : Z) : option (list map_ent) :=
  '(pre, bp) ← mfree_scan a mp;
  match bp with
  | [] => None
  | b :: _ =>
      let grow_prev :=
        match last pre with
        | Some p => if m_addr p + m_size p =? a then Some p else None
        | None => None
        end in
      match grow_prev with
      | Some p =>
          let p1 := MapEnt (s16 (m_size p + size)) (m_addr p) in
          if a + size =? m_addr b then
            let p2 := MapEnt (s16 (m_size p1 + m_size b)) (m_addr p) in
            rest ← close_up bp; Some (removelast pre ++ p2 :: rest)
          else Some (removelast pre ++ p1 :: bp)
      | None =>
          if (a + size =? m_addr b) && negb (m_size b =? 0) then
            Some (pre ++ MapEnt (s16 (m_size b + size)) (u16 (m_addr b - size)) :: tail bp)
          else if negb (size =? 0) then rest ← push_up size a bp; Some (pre ++ rest)
          else Some mp
      end
  end.

(** [mfree(coremap, ...)] also wakes the scheduler when it is short of core. *)
Record maps := Maps {
  coremap : list map_ent;
  swapmap : list map_ent;
  runin : Z;
  woken_runin : nat              (* wakeups of &runin *)
}.
#[export] Instance eta_maps : Eta maps :=
  fun r => Maps (coremap r) (swapmap r) (runin r) (woken_runin r).

Definition mfree_coremap (st : maps) (size a : Z) : option maps :=
  let st := if negb (runin st =? 0)
            then st <| runin := 0 |> <| woken_runin ::= S |> else st in
  mp ← mfree (coremap st) size a; Some (st <| coremap := mp |>).

(** ** Well-formed maps *)

(** Regions above [lo], in increasing order and never adjacent, so that
    neighbouring free areas have been combined. *)
Fixpoint regions_ok (lo : Z) (regs : list map_ent) : Prop :=
  match regs with
  | [] => True
  | e :: r => lo < m_addr e /\ 0 < m_size e <= 32767 /\ m_addr e + m_size e <= 65535
              /\ regions_ok (m_addr e + m_size e) r
  end.

(** The array: the regions, then only entries of size 0. *)
Definition map_ok (mp regs slack : list map_ent) : Prop :=
  mp = regs ++ slack /\ regions_ok 0 regs /\ slack <> [] /\ Forall (fun e => m_size e = 0) slack.

(** The units of the resource that a list of regions holds. *)
Definition unit_in (regs : list map_ent) (x : Z) : Prop :=
  Exists (fun e => m_addr e <= x < m_addr e + m_size e) regs.

Lemma unit_in_cons e r x :
  unit_in (e :: r) x <-> m_addr e <= x < m_addr e + m_size e \/ unit_in r x.
Proof. apply Exists_cons. Qed.
Lemma unit_in_nil x : unit_in [] x <-> False.
Proof. apply Exists_nil. Qed.
Lemma unit_in_app r1 r2 x : unit_in (r1 ++ r2) x <-> unit_in r1 x \/ unit_in r2 x.
Proof. apply Exists_app. Qed.

Lemma regions_ok_weaken lo lo' regs : lo' <= lo -> regions_ok lo regs -> regions_ok lo' regs.
Proof. destruct regs as [|e r]; cbn; [done|]. intros ? (?&?&?&?). repeat split; try lia; done. Qed.

Lemma unit_in_above lo regs x : regions_ok lo regs -> unit_in regs x -> lo < x <= 65534.
Proof.
  revert lo. induction regs as [|e r IH]; cbn; intros lo.
  - intros _ []%unit_in_nil.
  - intros (?&?&?&Hr) [Hu|Hu]%unit_in_cons; [lia|]. apply IH in Hr; [lia | done].
Qed.

(** A map is determined by the units it holds. *)
Lemma regions_unique lo regs1 regs2 :
  regions_ok lo regs1 -> regions_ok lo regs2 ->
  (forall x, unit_in regs1 x <-> unit_in regs2 x) -> regs1 = regs2.
Proof.
  revert lo regs2. induction regs1 as [|[s1 a1] r1 IH]; intros lo [|[s2 a2] r2]; cbn; intros H1 H2 Hx.
  - done.
  - exfalso. apply (unit_in_nil a2), Hx, unit_in_cons. left. cbn. lia.
  - exfalso. apply (unit_in_nil a1), Hx, unit_in_cons. left. cbn. lia.
  - destruct H1 as (?&?&?&H1), H2 as (?&?&?&H2).
    assert (forall x, a1 <= x < a1 + s1 \/ unit_in r1 x <-> a2 <= x < a2 + s2 \/ unit_in r2 x) as Hx'.
    { intros x. specialize (Hx x). rewrite !unit_in_cons in Hx. exact Hx. }
    clear Hx.
    assert (forall x, unit_in r1 x -> a1 + s1 < x) as B1 by (intros x; apply (unit_in_above _ _ _ H1)).
    assert (forall x, unit_in r2 x -> a2 + s2 < x) as B2 by (intros x; apply (unit_in_above _ _ _ H2)).
    assert (a1 = a2) as ->.
    { destruct (proj1 (Hx' a1)) as [?|?%B2]; [left; lia | |];
      destruct (proj2 (Hx' a2)) as [?|?%B1]; try (left; lia); lia. }
    assert (s1 = s2) as ->.
    { destruct (Z.lt_trichotomy s1 s2) as [?|[?|?]]; [|done|].
      - destruct (proj2 (Hx' (a2 + s1))) as [?|?%B1]; [left; lia | lia | lia].
      - destruct (proj1 (Hx' (a2 + s2))) as [?|?%B2]; [left; lia | lia | lia]. }
    f_equal. apply (IH (a2 + s2)); [done | done |]. intros x. specialize (Hx' x).
    split; intros Hu.
    + destruct (proj1 Hx') as [?|?]; [by right | apply B1 in Hu; lia | done].
    + destruct (proj2 Hx') as [?|?]; [by right | apply B2 in Hu; lia | done].
Qed.

Definition end_of (lo : Z) (regs : list map_ent) : Z :=
  fold_left (fun _ e => m_addr e + m_size e) regs lo.

Lemma regions_ok_app lo r1 r2 :
  regions_ok lo (r1 ++ r2) <-> regions_ok lo r1 /\ regions_ok (end_of lo r1) r2.
Proof.
  revert lo. induction r1 as [|e r IH]; cbn; intros lo; [tauto|].
  rewrite IH. unfold end_of. tauto.
Qed.

Lemma end_of_snoc lo r e : end_of lo (r ++ [e]) = m_addr e + m_size e.
Proof. unfold end_of. by rewrite fold_left_app. Qed.

Lemma regions_nonzero lo regs : regions_ok lo regs -> Forall (fun e => m_size e <> 0) regs.
Proof.
  revert lo. induction regs as [|e r IH]; cbn; intros lo; [constructor|].
  intros (?&?&?&Hr). constructor; [lia | by eapply IH].
Qed.

Lemma end_of_ge lo regs : regions_ok lo regs -> lo <= end_of lo regs.
Proof.
  revert lo. induction regs as [|e r IH]; cbn; intros lo; [lia|].
  intros (?&?&?&Hr). apply IH in Hr. unfold end_of in *. cbn. lia.
Qed.

(** ** What the array loops compute *)

Section loops.
  Variables (t : map_ent) (slack : list map_ent).
  Hypothesis Ht : m_size t = 0.

Lemma shift_down_spec e regs :
    Forall (fun e => m_size e <> 0) regs ->
    shift_down (e :: regs ++ t :: slack) = Some (regs ++ t :: t :: slack).
  Proof.
    revert e. induction regs as [|e1 r IH]; intros e Hr; cbn.
    - by rewrite Ht.
    - inversion Hr; subst. destruct (Z.eqb_spec (m_size e1) 0); [done|].
      specialize (IH e1). cbn in IH. by rewrite IH.
  Qed.

Lemma close_up_spec b post :
    m_size b <> 0 -> Forall (fun e => m_size e <> 0) post ->
    close_up (b :: post ++ t :: slack) = Some (post ++ t :: t :: slack).
  Proof.
    revert b. induction post as [|e1 r IH]; intros b Hb Hr; cbn.
    - apply Z.eqb_neq in Hb. by rewrite Hb, Ht.
    - destruct (Z.eqb_spec (m_size b) 0); [done|]. inversion Hr; subst.
      specialize (IH e1). cbn in IH. by rewrite IH.
  Qed.

Lemma push_up_spec lo size a post :
    0 <= lo -> regions_ok lo post -> 0 < size <= 32767 -> 0 < a <= 65535 ->
    push_up size a (post ++ t :: slack) = Some (MapEnt size a :: post ++ slack).
  Proof.
    revert lo size a. induction post as [|b r IH]; intros lo size a Hlo Hp Hs Ha.
    - cbn. rewrite Ht, s16_id, u16_id by lia. done.
    - destruct b as [sb ab]. cbn in Hp. destruct Hp as (?&?&?&Hr).
      cbn [push_up app m_size m_addr]. rewrite (u16_id sb) by lia.
      destruct (Z.eqb_spec sb 0); [lia|].
      rewrite (IH (ab + sb)) by (done || lia). cbn.
      rewrite s16_id, u16_id by lia. done.
  Qed.
End loops.

#[local] Arguments push_up : simpl never.
#[local] Arguments close_up : simpl never.

Lemma mfree_scan_spec lo a regs t slack :
  regions_ok lo regs -> m_size t = 0 ->
  exists pre post, regs = pre ++ post /\ Forall (fun e => m_addr e <= a) pre /\
    Forall (fun e => a < m_addr e) post /\
    mfree_scan a (regs ++ t :: slack) = Some (pre, post ++ t :: slack).
Proof.
  intros Hr Ht. revert lo Hr. induction regs as [|e r IH]; intros lo Hr; cbn.
  - exists [], []. repeat split; try constructor. rewrite Ht. cbn. by rewrite andb_false_r.
  - cbn in Hr. destruct Hr as (?&?&?&Hr). destruct (Z.leb_spec (m_addr e) a); cbn.
    + destruct (Z.eqb_spec (m_size e) 0); [lia|]. cbn.
      destruct (IH _ Hr) as (pre&post&->&?&?&->). exists (e :: pre), post. cbn. auto.
    + exists [], (e :: r). repeat split; [constructor|]. clear IH. constructor; [done|].
      apply Forall_forall. intros e' He'.
      assert (unit_in r (m_addr e')) as Hu.
      { apply Exists_exists. exists e'. split; [done|].
        apply regions_nonzero in Hr as Hnz. rewrite Forall_forall in Hnz.
        assert (0 < m_size e').
        { clear -Hr He'. revert Hr. generalize (m_addr e + m_size e).
          induction r as [|x r IH]; [by apply elem_of_nil in He'|].
          intros z (?&?&?&?). apply elem_of_cons in He' as [->|]; [lia|eauto]. }
        lia. }
      apply (unit_in_above _ _ _ Hr) in Hu. lia.
Qed.

(** ** What malloc and mfree do *)

(** What is left of an entry after [size] units are taken from its front. *)
Definition carve (e : map_ent) (size : Z) : list map_ent :=
  if m_size e =? size then [] else [MapEnt (m_size e - size) (m_addr e + size)].

Lemma malloc_none lo regs slack size :
  regions_ok lo regs -> slack <> [] -> Forall (fun e => m_size e = 0) slack ->
  Forall (fun e => m_size e < size) regs ->
  malloc (regs ++ slack) size = Some (0, regs ++ slack).
Proof.
  intros Hr Hs Hz Hn. apply regions_nonzero in Hr.
  induction Hr as [|e r He Hr IH]; cbn.
  - destruct slack as [|t sl]; [done|]. apply Forall_cons in Hz as [Ht _]. cbn. by rewrite Ht.
  - inversion Hn; subst. destruct (Z.eqb_spec (m_size e) 0); [done|].
    destruct (Z.leb_spec size (m_size e)); [lia|]. by rewrite IH.
Qed.

Lemma malloc_some lo pre e post t slack size :
  0 <= lo -> regions_ok lo (pre ++ e :: post) -> m_size t = 0 -> 0 < size <= m_size e ->
  Forall (fun e => m_size e < size) pre ->
  malloc (pre ++ e :: post ++ t :: slack) size =
    Some (m_addr e, pre ++ carve e size ++ post ++
                    (if m_size e =? size then t :: t :: slack else t :: slack)).
Proof.
  intros Hlo Hr Ht Hs Hn. revert lo Hlo Hr. induction Hn as [|x pre Hx Hn IH];
    cbn [malloc app regions_ok m_size m_addr]; intros lo Hlo Hr.
  - destruct Hr as (?&?&?&Hr). destruct (Z.eqb_spec (m_size e) 0); [lia|].
    destruct (Z.leb_spec size (m_size e)); [|lia]. unfold carve.
    rewrite s16_id, u16_id by lia. destruct (Z.eqb_spec (m_size e) size).
    + destruct (Z.eqb_spec (m_size e - size) 0); [|lia].
      rewrite shift_down_spec by (done || by eapply regions_nonzero). done.
    + destruct (Z.eqb_spec (m_size e - size) 0); [lia|]. done.
  - destruct Hr as (?&?&?&Hr). destruct (Z.eqb_spec (m_size x) 0); [lia|].
    destruct (Z.leb_spec size (m_size x)); [lia|]. rewrite (IH (m_addr x + m_size x)) by (done || lia).
    done.
Qed.

Lemma carve_units e size x :
  0 < size <= m_size e ->
  unit_in (carve e size) x <-> m_addr e + size <= x < m_addr e + m_size e.
Proof.
  intros. unfold carve. destruct (Z.eqb_spec (m_size e) size).
  - rewrite unit_in_nil. lia.
  - rewrite unit_in_cons, unit_in_nil. cbn. lia.
Qed.

Lemma regions_ok_carve lo pre e post size :
  0 < size <= m_size e -> regions_ok lo (pre ++ e :: post) ->
  regions_ok lo (pre ++ carve e size ++ post).
Proof.
  intros Hs. rewrite !regions_ok_app. intros (?&Hr). split; [done|].
  cbn in Hr. destruct Hr as (?&?&?&Hr). unfold carve. destruct (Z.eqb_spec (m_size e) size); cbn.
  - split; [done|]. eapply regions_ok_weaken; [|done]. lia.
  - repeat split; try lia. eapply regions_ok_weaken; [|done]. lia.
Qed.

(** The outcome of [malloc] on a well-formed map, in one statement. *)
Definition malloc_post (mp regs : list map_ent) (size : Z) (r : Z * list map_ent) : Prop :=
  (Forall (fun e => m_size e < size) regs /\ r = (0, mp)) \/
  (exists pre e post slack', regs = pre ++ e :: post /\
     Forall (fun e => m_size e < size) pre /\ size <= m_size e /\
     r.1 = m_addr e /\ map_ok r.2 (pre ++ carve e size ++ post) slack' /\
     length r.2 = length mp).

Lemma first_fit_split (size : Z) (regs : list map_ent) :
  Forall (fun e => m_size e < size) regs \/
  exists pre e post, regs = pre ++ e :: post /\ Forall (fun e => m_size e < size) pre /\ size <= m_size e.
Proof.
  induction regs as [|e r [IH|(pre&x&post&->&?&?)]]; [by left|..];
    (destruct (Z.lt_ge_cases (m_size e) size);
      [|right; exists [], e; eexists; repeat split; [constructor|done]]).
  - left. by constructor.
  - right. exists (e :: pre), x, post. repeat split; [by constructor | done].
Qed.

Lemma malloc_spec mp regs slack size :
  map_ok mp regs slack -> 0 < size ->
  exists r, malloc mp size = Some r /\ malloc_post mp regs size r.
Proof.
  intros (->&Hr&Hs&Hz) Hsz. destruct (first_fit_split size regs) as [Hn|(pre&e&post&->&Hn&He)].
  - eexists; split; [by eapply malloc_none|]. by left.
  - destruct slack as [|t slack]; [done|]. apply Forall_cons in Hz as [Ht Hz].
    rewrite <- app_assoc. cbn. eexists; split; [by eapply (malloc_some 0); eauto; lia|].
    right. eexists pre, e, post, _. cbn. split; [done|]. split; [done|]. split; [done|].
    split; [done|]. split.
    + split; [by rewrite <- !app_assoc|]. split; [by apply regions_ok_carve; [lia|]|].
      split; destruct (m_size e =? size); try done; repeat constructor; done.
    + rewrite !length_app. cbn. unfold carve. rewrite length_app.
      destruct (m_size e =? size); cbn; rewrite ?length_app; cbn; lia.
Qed.

Lemma regions_ok_raise lo lo' regs :
  regions_ok lo regs -> (forall e, head regs = Some e -> lo' < m_addr e) -> regions_ok lo' regs.
Proof. destruct regs as [|e r]; cbn; [done|]. intros (?&?&?&?) Hh. specialize (Hh e eq_refl). tauto. Qed.

Section mfree.
  (** The resource lies in [base, limit), less than 32768 units, away from 0. *)
  Variables (base limit size a : Z) (t : map_ent) (slack : list map_ent).
  Hypotheses (Hbase : 0 < base) (Hlimit : limit <= 65535) (Hspan : limit - base <= 32767).
  Hypotheses (Hsize : 0 < size) (Hlo : base <= a) (Hhi : a + size <= limit).
  Hypotheses (Ht : m_size t = 0) (Hslack : Forall (fun e => m_size e = 0) slack).

Definition freed_post (regs : list map_ent) (o : option (list map_ent)) : Prop :=
    exists mp' regs' slack', o = Some mp' /\ map_ok mp' regs' slack' /\
      (forall x, unit_in regs' x <-> unit_in regs x \/ a <= x < a + size) /\
      length mp' = (length regs + S (length slack))%nat.

  (** One entry [x] of the new map covers the freed units and the neighbours
      they touch. *)
Lemma freed_intro pre mid post x slack' :
    regions_ok 0 (pre ++ mid ++ post) -> base <= m_addr x -> 0 < m_size x ->
    m_addr x + m_size x <= limit -> slack' <> [] -> Forall (fun e => m_size e = 0) slack' ->
    (length slack' = length mid + length slack)%nat ->
    end_of 0 pre < m_addr x ->
    (forall b, head post = Some b -> m_addr x + m_size x < m_addr b) ->
    (forall y, m_addr x <= y < m_addr x + m_size x <-> unit_in mid y \/ a <= y < a + size) ->
    freed_post (pre ++ mid ++ post) (Some (pre ++ x :: post ++ slack')).
  Proof.
    intros Hr ? ? ? Hne Hsl Hlen Hend Hpost Hu. rewrite !regions_ok_app in Hr.
    destruct Hr as (Hpre & Hmid & Hp).
    exists (pre ++ x :: post ++ slack'), (pre ++ x :: post), slack'. split; [done|]. split.
    { split; [by rewrite <- app_assoc|]. split; [|done]. apply regions_ok_app. split; [done|].
      cbn. repeat split; try lia. by eapply regions_ok_raise. }
    split; [|rewrite !length_app; cbn; rewrite length_app; lia].
    intros y. rewrite !unit_in_app, unit_in_cons, Hu. tauto.
  Qed.

  Section at_a.
    Variables pre post : list map_ent.
    Hypothesis Hr : regions_ok 0 (pre ++ post).
    Hypothesis Hin : forall x, unit_in (pre ++ post) x -> base <= x < limit /\ ~ a <= x < a + size.
    Hypothesis Hpost : Forall (fun e => a < m_addr e) post.

Lemma next_bounds b post' :
      post = b :: post' ->
      a + size <= m_addr b /\ m_addr b + m_size b <= limit /\ 0 < m_size b /\
      forall c, head post' = Some c -> m_addr b + m_size b < m_addr c.
    Proof.
      intros E. rewrite E in Hr, Hin, Hpost. apply regions_ok_app in Hr as [_ Hr'].
      cbn in Hr'. destruct Hr' as (?&?&?&Hr'). apply Forall_cons in Hpost as [? _].
      destruct (Hin (m_addr b)) as [_ ?]; [rewrite unit_in_app, unit_in_cons; right; left; lia|].
      destruct (Hin (m_addr b + m_size b - 1)) as [? _];
        [rewrite unit_in_app, unit_in_cons; right; left; lia|].
      repeat split; try lia. intros c Hc. destruct post'; inversion Hc; subst. cbn in Hr'. lia.
    Qed.

    (** Nothing to combine with on the left. *)
Lemma mfree_no_prev mp b bp :
      post ++ t :: slack = b :: bp -> end_of 0 pre < a -> slack <> [] ->
      freed_post (pre ++ post)
        (if (a + size =? m_addr b) && negb (m_size b =? 0) then
           Some (pre ++ MapEnt (s16 (m_size b + size)) (u16 (m_addr b - size)) :: bp)
         else if negb (size =? 0) then rest ← push_up size a (b :: bp); Some (pre ++ rest)
         else Some mp).
    Proof.
      intros E Hgap Hne. pose proof next_bounds as Hnb. destruct (Z.eqb_spec size 0); [lia|]. cbn [negb].
      assert (Hins : (forall c, head post = Some c -> a + size < m_addr c) ->
        freed_post (pre ++ post) (rest ← push_up size a (b :: bp); Some (pre ++ rest))).
      { intros Hc. rewrite <- E. pose proof Hr as [_ Hp]%regions_ok_app.
        rewrite (push_up_spec _ _ Ht (end_of 0 pre)); try done; try lia.
        2: { apply regions_ok_app in Hr as [?%end_of_ge _]. lia. }
        apply (freed_intro pre [] post); cbn; try done; try lia.
        intros y. rewrite unit_in_nil. lia. }
      destruct post as [|c post'] eqn:Ep; injection E as <- <-.
      - rewrite Ht, andb_false_r. by apply Hins.
      - destruct (Hnb c post') as (?&?&?&Hd'); [done|].
        destruct (Z.eqb_spec (a + size) (m_addr c)); cbn [andb].
        + destruct (Z.eqb_spec (m_size c) 0); [lia|]. cbn [negb].
          rewrite s16_id, u16_id by lia.
          apply (freed_intro pre [c] post'); cbn; try done; try lia; try by constructor.
          * intros d Hd. specialize (Hd' d Hd). lia.
          * intros y. rewrite unit_in_cons, unit_in_nil. lia.
        + apply Hins. intros d [= <-]. lia.
    Qed.

    (** The entry [p] before [a] ends at [a]. *)
Lemma mfree_with_prev pre' p b bp :
      pre = pre' ++ [p] -> m_addr p + m_size p = a -> 0 < m_size p -> slack <> [] ->
      post ++ t :: slack = b :: bp ->
      freed_post (pre ++ post)
        (if a + size =? m_addr b then
           rest ← close_up (b :: bp);
           Some (pre' ++ MapEnt (s16 (s16 (m_size p + size) + m_size b)) (m_addr p) :: rest)
         else Some (pre' ++ MapEnt (s16 (m_size p + size)) (m_addr p) :: b :: bp)).
    Proof.
      intros Epre Hp Hps Hne E. pose proof next_bounds as Hnb. subst pre.
      pose proof Hr as Hr'. rewrite <- app_assoc in Hr' |- *.
      destruct (Hin (m_addr p)) as [? _];
        [rewrite !unit_in_app, unit_in_cons; left; right; left; lia|].
      assert (end_of 0 pre' < m_addr p).
      { apply regions_ok_app in Hr' as [_ Hr']. cbn in Hr'. lia. }
      rewrite (s16_id (m_size p + size)) by lia.
      destruct post as [|c post'] eqn:Ep; injection E as <- <-.
      - rewrite Ht, Z.add_0_r, s16_id by lia.
        assert (close_up (t :: slack) = Some (t :: slack)) as -> by (unfold close_up; by rewrite Ht).
        cbn. destruct (_ =? _); apply (freed_intro pre' [p] []); cbn; try done; try lia;
          try (by constructor); intros y; rewrite unit_in_cons, unit_in_nil; lia.
      - destruct (Hnb c post') as (?&?&?&Hd'); [done|].
        destruct (Z.eqb_spec (a + size) (m_addr c)).
        + rewrite s16_id, close_up_spec; try done; try lia.
          2: { apply regions_ok_app in Hr' as [_ Hr']. cbn in Hr'. destruct Hr' as (_&_&_&_&_&_&Hr').
               by eapply regions_nonzero. }
          change (pre' ++ [p] ++ c :: post') with (pre' ++ [p; c] ++ post').
          apply (freed_intro pre' [p; c] post'); cbn; try done; try lia;
            try (repeat constructor; done).
          * intros d Hd. specialize (Hd' d Hd). lia.
          * intros y. rewrite !unit_in_cons, unit_in_nil. lia.
        + apply (freed_intro pre' [p] (c :: post')); cbn; try done; try lia; try by constructor.
          * intros d [= <-]. lia.
          * intros y. rewrite !unit_in_cons, unit_in_nil. lia.
    Qed.
  End at_a.

Lemma mfree_spec_aux regs :
    regions_ok 0 regs -> slack <> [] ->
    (forall x, unit_in regs x -> base <= x < limit /\ ~ a <= x < a + size) ->
    freed_post regs (mfree (regs ++ t :: slack) size a).
  Proof.
    intros Hr Hne Hin. unfold mfree.
    destruct (mfree_scan_spec 0 a regs t slack Hr Ht) as (pre&post&->&Hpre&Hpost&->). cbn [mbind option_bind].
    destruct (post ++ t :: slack) as [|b bp] eqn:E; [by destruct post|].
    destruct pre as [|p pre' _] using rev_ind.
    - apply (mfree_no_prev [] post); try done. unfold end_of. cbn. lia.
    - rewrite last_snoc, removelast_last. apply Forall_app in Hpre as [_ [Hp _]%Forall_cons].
      assert (0 < m_size p).
      { pose proof Hr as [[_ Hp']%regions_ok_app _]%regions_ok_app. cbn in Hp'. lia. }
      destruct (Z.eqb_spec (m_addr p + m_size p) a).
      + cbn. by eapply mfree_with_prev.
      + apply mfree_no_prev; try done. rewrite end_of_snoc.
        destruct (Z.lt_ge_cases a (m_addr p + m_size p)); [|lia].
        destruct (Hin a); [|lia]. rewrite !unit_in_app, unit_in_cons. left; right; left; lia.
  Qed.
End mfree.

(** ** Properties *)

Definition arena (regs : list map_ent) (base limit : Z) : Prop :=
  0 < base /\ limit <= 65535 /\ limit - base <= 32767 /\
  forall x, unit_in regs x -> base <= x < limit.

Lemma units_before lo pre e post x :
  regions_ok lo (pre ++ e :: post) -> unit_in pre x -> x < m_addr e.
Proof.
  revert lo. induction pre as [|p pre IH]; [by intros _ _ ?%unit_in_nil|].
  intros lo (?&?&?&Hr) [?|?]%unit_in_cons; [|by eapply IH].
  apply regions_ok_app in Hr as [Hp Hr]. apply end_of_ge in Hp. cbn in Hr. lia.
Qed.

Lemma units_after lo pre e post x :
  regions_ok lo (pre ++ e :: post) -> unit_in post x -> m_addr e + m_size e < x.
Proof.
  intros [_ (?&?&?&Hr)]%regions_ok_app Hx. apply (unit_in_above _ _ _ Hr) in Hx. lia.
Qed.

(** Taking [size] units from the front of [e] removes just those units. *)
Lemma carve_removes lo pre e post size x :
  regions_ok lo (pre ++ e :: post) -> 0 < size <= m_size e ->
  unit_in (pre ++ carve e size ++ post) x <->
  unit_in (pre ++ e :: post) x /\ ~ m_addr e <= x < m_addr e + size.
Proof.
  intros Hr Hs. rewrite !unit_in_app, unit_in_cons, carve_units by done.
  pose proof (fun Hx => units_before _ _ _ _ x Hr Hx) as Hb.
  pose proof (fun Hx => units_after _ _ _ _ x Hr Hx) as Ha. split.
  - intros [Hx|[Hx|Hx]].
    + apply Hb in Hx as ?. split; [by left | lia].
    + split; [right; left; lia | lia].
    + apply Ha in Hx as ?. split; [by do 2 right | lia].
  - intros [[Hx|[Hx|Hx]] Hn]; [by left | right; left; lia | by do 2 right].
Qed.

Lemma front_units pre e post size x :
  size <= m_size e -> m_addr e <= x < m_addr e + size -> unit_in (pre ++ e :: post) x.
Proof. intros. rewrite unit_in_app, unit_in_cons. right; left; lia. Qed.

Lemma region_pos lo pre e post :
  0 <= lo -> regions_ok lo (pre ++ e :: post) -> 0 < m_addr e /\ 0 < m_size e.
Proof. intros ? [?%end_of_ge (?&?&_)]%regions_ok_app. lia. Qed.

(** On a well-formed map, [malloc] never runs off the array; it returns 0
    and leaves the map alone exactly when no free area is large enough, and
    otherwise returns the lowest area that fits, with precisely the units
    [a .. a+size-1] gone from the map, which stays well formed. *)
Theorem malloc_sound mp regs slack size :
  map_ok mp regs slack -> 0 < size ->
  exists a mp', malloc mp size = Some (a, mp') /\
    ((a = 0 /\ mp' = mp /\ Forall (fun e => m_size e < size) regs) \/
     (0 < a /\ (forall e, e ∈ regs -> size <= m_size e -> a <= m_addr e) /\
      (forall x, a <= x < a + size -> unit_in regs x) /\
      exists regs' slack', map_ok mp' regs' slack' /\
        forall x, unit_in regs' x <-> unit_in regs x /\ ~ a <= x < a + size)).
Proof.
  intros Hmp Hs. destruct (malloc_spec _ _ _ _ Hmp Hs) as ([a mp']&->&[[Hn [= -> ->]]|H]).
  - exists 0, mp. auto.
  - destruct H as (pre&e&post&slack'&->&Hn&He&Ha&Hmp'&_). cbn in Ha, Hmp'. subst a.
    exists (m_addr e), mp'. split; [done|]. right.
    pose proof (proj1 (proj2 Hmp)) as Hr. destruct (region_pos _ _ _ _ (Z.le_refl 0) Hr).
    split; [lia|]. split; [|split; [intros x; by apply front_units|]].
    + intros e' Hin Hfit. apply elem_of_app in Hin as [Hin|[->|Hin]%elem_of_cons]; [|lia|].
      * rewrite Forall_forall in Hn. apply Hn in Hin. lia.
      * enough (m_addr e + m_size e < m_addr e') by lia. apply (units_after _ _ _ _ _ Hr).
        apply Exists_exists. exists e'. split; [done | lia].
    + eexists _, _. split; [done|]. intros x. apply (carve_removes 0); [done | lia].
Qed.

(** Freeing an area none of whose units is free makes exactly those units
    free again, combines it with the areas it touches, and keeps the map well
    formed; with two spare entries in the array it never runs off its end. *)
Theorem mfree_sound mp regs slack base limit size a :
  map_ok mp regs slack -> (2 <= length slack)%nat -> arena regs base limit ->
  0 < size -> base <= a -> a + size <= limit ->
  (forall x, a <= x < a + size -> ~ unit_in regs x) ->
  exists mp' regs' slack', mfree mp size a = Some mp' /\ map_ok mp' regs' slack' /\
    (forall x, unit_in regs' x <-> unit_in regs x \/ a <= x < a + size) /\
    length mp' = length mp.
Proof.
  intros (->&Hr&_&Hz) Hsl (?&?&?&Hin) ? ? ? Hd.
  destruct slack as [|t slack]; [cbn in Hsl; lia|]. apply Forall_cons in Hz as [Ht Hz].
  destruct (mfree_spec_aux base limit size a t slack) with (regs := regs)
    as (mp'&regs'&slack'&E&?&?&Hlen); try done; try lia.
  - by destruct slack; cbn in Hsl; [lia|].
  - intros x Hx. split; [by apply Hin|]. intros Hax. by apply (Hd x).
  - exists mp', regs', slack'. rewrite Hlen, length_app. cbn. auto.
Qed.

(** C38: freeing what was just allocated restores the free areas exactly as
    they were, entry by entry. *)
Theorem mfree_malloc mp regs slack base limit size a mp' :
  map_ok mp regs slack -> (2 <= length slack)%nat -> arena regs base limit -> 0 < size ->
  malloc mp size = Some (a, mp') -> a <> 0 ->
  exists mp'' slack'', mfree mp' size a = Some mp'' /\ map_ok mp'' regs slack''.
Proof.
  intros Hmp Hsl (?&?&?&Hin) Hs E Ha.
  destruct (malloc_spec _ _ _ _ Hmp Hs) as (r&E'&[[_ ->]|H2]); rewrite E in E'.
  { by injection E' as -> _. }
  injection E' as <-. destruct H2 as (pre&e&post&[|t sl']&->&_&?&Ea&(Emp'&Hr'&Hne&Hz)&Hlen);
    cbn in Ea, Emp', Hlen; [done|]. clear E. subst a mp'.
  apply Forall_cons in Hz as [Ht Hz].
  pose proof (proj1 (proj2 Hmp)) as Hr.
  pose proof (fun x => carve_removes 0 pre e post size x Hr ltac:(lia)) as Hc.
  pose proof (fun x => front_units pre e post size x ltac:(lia)) as Hf.
  destruct (mfree_spec_aux base limit size (m_addr e) t sl') with (regs := pre ++ carve e size ++ post)
    as (mp''&regs''&slack''&E&Hok&Hu&_); try done.
  - apply Hin, Hf. lia.
  - enough (base <= m_addr e + size - 1 < limit) by lia. apply Hin, Hf. lia.
  - destruct Hmp as (->&_). rewrite !length_app in Hlen. cbn in Hlen. unfold carve in Hlen.
    destruct sl', (m_size e =? size); cbn in Hlen; (lia || done).
  - intros x [Hx ?]%Hc. by split; [apply Hin|].
  - exists mp'', slack''. split; [done|]. enough (regs'' = pre ++ e :: post) as <- by done.
    apply (regions_unique 0); [apply Hok | done |]. intros x. rewrite Hu, Hc. split.
    + intros [[? _]|?]; [done | by apply Hf].
    + intros Hx. destruct (decide (m_addr e <= x < m_addr e + size)); [by right | by left].
Qed.

(** ** A map in use *)

(** The map with the list of live allocations (address, size).  The step for
    [mfree] asks for two spare entries, which the code does not check. *)
Definition ledger : Type := list map_ent * list (Z * Z).

Definition has_room (mp : list map_ent) : Prop :=
  (length (filter (fun e => m_size e <> 0%Z) mp) + 2 <= length mp)%nat.

Inductive lstep : ledger -> ledger -> Prop :=
| lstep_alloc mp live size a mp' :
    0 < size -> malloc mp size = Some (a, mp') -> a <> 0 ->
    lstep (mp, live) (mp', (a, size) :: live)
| lstep_refused mp live size mp' :
    0 < size -> malloc mp size = Some (0, mp') -> lstep (mp, live) (mp', live)
| lstep_free mp l1 l2 size a mp' :
    has_room mp -> mfree mp size a = Some mp' ->
    lstep (mp, l1 ++ (a, size) :: l2) (mp', l1 ++ l2).

(** How many live allocations hold unit [x]. *)
Definition owners (x : Z) (live : list (Z * Z)) : nat :=
  length (filter (fun p : Z * Z => p.1 <= x < p.1 + p.2) live).

Lemma owners_cons x a size live :
  owners x ((a, size) :: live) =
    ((if decide (a <= x < a + size)%Z then 1 else 0) + owners x live)%nat.
Proof. unfold owners. rewrite filter_cons. cbn. case_decide; done. Qed.

Lemma owners_mid x a size l1 l2 :
  owners x (l1 ++ (a, size) :: l2) =
    ((if decide (a <= x < a + size)%Z then 1 else 0) + owners x (l1 ++ l2))%nat.
Proof.
  unfold owners. rewrite !filter_app, filter_cons, !length_app. cbn. case_decide; cbn; lia.
Qed.

#[local] Arguments owners : simpl never.

Definition ledger_ok (base limit : Z) (st : ledger) : Prop :=
  exists regs slack, map_ok st.1 regs slack /\ arena regs base limit /\
    Forall (fun p => 0 < p.2 /\ base <= p.1 /\ p.1 + p.2 <= limit) st.2 /\
    forall x, base <= x < limit ->
      (unit_in regs x /\ owners x st.2 = O) \/ (~ unit_in regs x /\ owners x st.2 = 1%nat).

Lemma room_slack mp regs slack :
  map_ok mp regs slack -> has_room mp -> (2 <= length slack)%nat.
Proof.
  intros (->&Hr&_&Hz) Hroom. unfold has_room in Hroom.
  rewrite filter_app, !length_app in Hroom. apply regions_nonzero in Hr.
  assert (filter (fun e => m_size e <> 0) regs = regs) as E.
  { clear -Hr. induction Hr as [|e r He Hr IH]; [done|]. rewrite filter_cons_True by done. by rewrite IH. }
  rewrite E in Hroom. lia.
Qed.

Lemma ledger_step base limit st st' :
  ledger_ok base limit st -> lstep st st' -> ledger_ok base limit st'.
Proof.
  intros (regs&slack&Hmp&Har&Hl&Hx) Hstep. pose proof Har as (?&?&?&Hin).
  inversion Hstep as [mp live size a mp' Hs E Ha | mp live size mp' Hs E | mp l1 l2 size a mp' Hroom E];
    subst; cbn in *.
  - destruct (malloc_spec _ _ _ _ Hmp Hs) as (r&E'&[[_ ->]|H2]); rewrite E in E'.
    { by injection E' as -> _. }
    injection E' as <-. destruct H2 as (pre&e&post&sl'&->&_&?&Ea&Hmp'&_). cbn in Ea, Hmp'. subst a.
    pose proof (proj1 (proj2 Hmp)) as Hr.
    pose proof (fun x => carve_removes 0 pre e post size x Hr ltac:(lia)) as Hc.
    pose proof (fun x => front_units pre e post size x ltac:(lia)) as Hf.
    eexists _, _. split; [done|]. split; [|split].
    + unfold arena. split_and!; try done. intros y [Hy _]%Hc. by apply Hin.
    + constructor; [cbn|done]. split; [lia|].
      assert (base <= m_addr e < limit) by (apply Hin, Hf; lia).
      assert (base <= m_addr e + size - 1 < limit) by (apply Hin, Hf; lia). lia.
    + intros x Hxr. cbn [fst snd]. rewrite owners_cons, Hc. specialize (Hf x). destruct (Hx x Hxr) as [[? ->]|[? ->]].
      * case_decide; [right; split; [tauto|done] | left; done].
      * case_decide; [tauto|]. right. split; [tauto|done].
  - destruct (malloc_spec _ _ _ _ Hmp Hs) as (r&E'&[[_ ->]|H2]); rewrite E in E'; injection E' as <-.
    + exists regs, slack. auto.
    + destruct H2 as (pre&e&post&sl'&->&_&?&Ea&_). cbn in Ea.
      destruct (region_pos _ _ _ _ (Z.le_refl 0) (proj1 (proj2 Hmp))). lia.
  - apply Forall_app in Hl as [Hl1 [(?&?&?) Hl2]%Forall_cons]; cbn in *.
    assert (Hfree : forall x, a <= x < a + size -> ~ unit_in regs x /\ owners x (l1 ++ l2) = O).
    { intros x Hxa. specialize (Hx x ltac:(lia)). rewrite owners_mid in Hx.
      rewrite decide_True in Hx by done. destruct Hx as [[??]|[??]]; [lia | split; [done|lia]]. }
    pose proof (room_slack _ _ _ Hmp Hroom) as Hsl.
    destruct slack as [|t slack]; [cbn in Hsl; lia|]. destruct Hmp as (->&Hr&_&[Ht Hz]%Forall_cons).
    destruct (mfree_spec_aux base limit size a t slack) with (regs := regs)
      as (mp''&regs'&slack'&E'&Hok&Hu&_); try done.
    + by destruct slack; cbn in Hsl; [lia|].
    + intros x Hxu. split; [by apply Hin|]. intros Hxa. by apply (Hfree x Hxa).
    + rewrite E in E'. injection E' as <-. exists regs', slack'. split; [done|]. split; [|split].
      * unfold arena. split_and!; try done. intros y [Hy|Hy]%Hu; [by apply Hin | lia].
      * by apply Forall_app.
      * intros x Hxr. specialize (Hx x Hxr). rewrite owners_mid in Hx. rewrite Hu.
        destruct (decide (a <= x < a + size)) as [Hxa|Hxa].
        -- left. split; [by right | by apply Hfree].
        -- cbn in Hx. destruct Hx as [[??]|[??]]; [left; tauto | right; split; [tauto|done]].
Qed.

(** C26: however allocations and releases interleave, starting from a map whose
    one area is the whole resource, every unit is at all times either free or
    held by exactly one live allocation: never both, never by two, never lost. *)
Theorem ledger_safe slack base limit st :
  0 < base < limit -> limit <= 65535 -> limit - base <= 32767 ->
  slack <> [] -> Forall (fun e => m_size e = 0) slack ->
  rtc lstep (MapEnt (limit - base) base :: slack, []) st ->
  ledger_ok base limit st.
Proof.
  intros ? ? ? Hne Hz Hsteps.
  assert (ledger_ok base limit (MapEnt (limit - base) base :: slack, [])) as Hinit.
  { exists [MapEnt (limit - base) base], slack. cbn. split.
    - split; [done|]. split; [|done]. cbn. lia.
    - split; [|split; [constructor|]].
      + unfold arena. split_and!; try lia.
        intros y [?|[]%unit_in_nil]%unit_in_cons; cbn in *; lia.
      + intros x Hx. left. split; [|done]. apply unit_in_cons. left. cbn. lia. }
  revert Hinit. induction Hsteps as [|st1 st2 st3 Hst _ IH]; [done|].
  intros Hinit. apply IH. by eapply ledger_step.
Qed.

(** ** Witnesses *)

Definition map0 : list map_ent := [MapEnt 4 10; MapEnt 6 20; MapEnt 0 0; MapEnt 0 0; MapEnt 0 0].

Lemma map0_ok : map_ok map0 [MapEnt 4 10; MapEnt 6 20] [MapEnt 0 0; MapEnt 0 0; MapEnt 0 0].
Proof. split; [done|]. split; [cbn; lia|]. split; [done|]. by repeat constructor. Qed.

Lemma malloc_sound_witness :
  malloc map0 5 = Some (20, [MapEnt 4 10; MapEnt 1 25; MapEnt 0 0; MapEnt 0 0; MapEnt 0 0]) /\
  exists a mp', malloc map0 5 = Some (a, mp') /\
    ((a = 0 /\ mp' = map0 /\ Forall (fun e => m_size e < 5) [MapEnt 4 10; MapEnt 6 20]) \/
     (0 < a /\ (forall e, e ∈ [MapEnt 4 10; MapEnt 6 20] -> 5 <= m_size e -> a <= m_addr e) /\
      (forall x, a <= x < a + 5 -> unit_in [MapEnt 4 10; MapEnt 6 20] x) /\
      exists regs' slack', map_ok mp' regs' slack' /\
        forall x, unit_in regs' x <-> unit_in [MapEnt 4 10; MapEnt 6 20] x /\ ~ a <= x < a + 5)).
Proof. split; [reflexivity|]. eapply malloc_sound; [apply map0_ok | lia]. Defined.

Lemma map0_arena : arena [MapEnt 4 10; MapEnt 6 20] 10 30.
Proof.
  unfold arena. split_and!; try lia.
  intros y [Hy|[Hy|[]%unit_in_nil]%unit_in_cons]%unit_in_cons; cbn in Hy; lia.
Qed.

Lemma mfree_sound_witness :
  mfree map0 6 14 = Some [MapEnt 16 10; MapEnt 0 0; MapEnt 0 0; MapEnt 0 0; MapEnt 0 0] /\
  exists mp' regs' slack', mfree map0 6 14 = Some mp' /\ map_ok mp' regs' slack' /\
    (forall x, unit_in regs' x <-> unit_in [MapEnt 4 10; MapEnt 6 20] x \/ 14 <= x < 14 + 6) /\
    length mp' = length map0.
Proof.
  split; [reflexivity|]. eapply (mfree_sound map0 _ _ 10 30);
    [apply map0_ok | cbn; lia | apply map0_arena | lia | lia | lia |].
  intros x Hx [Hu|[Hu|[]%unit_in_nil]%unit_in_cons]%unit_in_cons; cbn in Hu; lia.
Defined.

Lemma mfree_malloc_witness :
  malloc map0 4 = Some (10, [MapEnt 6 20; MapEnt 0 0; MapEnt 0 0; MapEnt 0 0; MapEnt 0 0]) /\
  exists mp'' slack'', mfree [MapEnt 6 20; MapEnt 0 0; MapEnt 0 0; MapEnt 0 0; MapEnt 0 0] 4 10
    = Some mp'' /\ map_ok mp'' [MapEnt 4 10; MapEnt 6 20] slack''.
Proof.
  split; [reflexivity|]. eapply (mfree_malloc map0 _ _ 10 30 4 10);
    [apply map0_ok | cbn; lia | apply map0_arena | lia | reflexivity | done].
Defined.

Definition ledger0 : ledger := (MapEnt 20 10 :: [MapEnt 0 0; MapEnt 0 0; MapEnt 0 0], []).
Definition ledger1 : ledger := ([MapEnt 5 10; MapEnt 12 18; MapEnt 0 0; MapEnt 0 0], [(15, 3)]).

Lemma ledger_safe_witness : rtc lstep ledger0 ledger1 /\ ledger_ok 10 30 ledger1.
Proof.
  assert (rtc lstep ledger0 ledger1) as H.
  { eapply rtc_l; [eapply (lstep_alloc _ _ 5); [lia | reflexivity | done]|].
    eapply rtc_l; [eapply (lstep_alloc _ _ 3); [lia | reflexivity | done]|].
    eapply rtc_l; [eapply (lstep_free _ [(15, 3)] [] 5 10); [unfold has_room; vm_compute; lia | reflexivity]|].
    apply rtc_refl. }
  split; [exact H|].
  apply (ledger_safe [MapEnt 0 0; MapEnt 0 0; MapEnt 0 0]); try lia; try done; by repeat constructor.
Defined.

End ResMap.
