(* ===== verification/Clist.v ===== *)
(** * Clist: character queues (src/usr/sys/sys/prim.c)

    Terminal queues are chains of 16-byte blocks, aligned at 16, each holding
    a link and [CBSIZE] = 12 characters.  Pointers are addresses; the code
    finds the block of a character by clearing the low bits of its address and
    sees the end of a block by a character pointer that is a multiple of 16.
    The state keeps the links and the characters of the pool by address, the
    free list, and the interrupt enable that [spl6]/[splx] save and restore. *)
From S2P Require Import Prelude.

Module Clist.

(** ** Data *)

Record clist := CList { c_cc : Z; c_cf : Z; c_cl : Z }.
#[export] Instance eta_clist : Eta clist := fun r => CList (c_cc r) (c_cf r) (c_cl r).

Record cstate := CState {
  c_next : Z -> Z;           (* struct cblock *c_next, by block address *)
  c_info : Z -> Z;           (* char c_info[], by character address *)
  cfreelist : Z;
  cbad : Z;
  nchrdev : Z;
  spl : bool                 (* interrupts are enabled; every spl above 0 disables them *)
}.
#[export] Instance eta_cstate : Eta cstate :=
  fun r => CState (c_next r) (c_info r) (cfreelist r) (cbad r) (nchrdev r) (spl r).

Definition NULL : Z := 0.
Definition CBSIZE : Z := 12.
Definition CROUND : Z := 15.
Definition NCLIST : Z := 100.
Definition SIZEOF_CBLOCK : Z := 16.
(** [bp->c_info], the address of the first character of a block. *)
Definition info_of (bp : Z) : Z := bp + 4.
(** [(int)cp & ~CROUND], the block that holds character [cp]. *)
Definition block_of (cp : Z) : Z := Z.land cp (Z.lnot CROUND).
Definition aligned (cp : Z) : bool := Z.land cp CROUND =? 0.

Definition spl6 (st : cstate) : cstate := st <| spl := false |>.
Definition splx (s : bool) (st : cstate) : cstate := st <| spl := s |>.

(** [bp->c_next = cfreelist; cfreelist = bp;] *)
Definition put_free (bp : Z) (st : cstate) : cstate :=
  st <| c_next @ bp := cfreelist st |> <| cfreelist := bp |>.

(** ** Operations *)

Definition getc (p : clist) (st : cstate) : Z * clist * cstate :=
  let s := spl st in
  let st := spl6 st in
  if c_cc p <=? 0 then (-1, CList 0 NULL NULL, splx s st)
  else
    let c := Z.land (c_info st (c_cf p)) 255 in
    let p := p <| c_cf ::= Z.succ |> <| c_cc ::= Z.pred |> in
    if c_cc p <=? 0 then
      let bp := block_of (c_cf p - 1) in
      (c, p <| c_cf := NULL |> <| c_cl := NULL |>, splx s (put_free bp st))
    else if aligned (c_cf p) then
      let bp := c_cf p - SIZEOF_CBLOCK in
      (c, p <| c_cf := info_of (c_next st bp) |>, splx s (put_free bp st))
    else (c, p, splx s st).

(** The loop of [q_to_b]: the characters moved, in order. *)
Fixpoint q_to_b_loop (cc : nat) (q : clist) (st : cstate) : list Z * clist * cstate :=
  match cc with
  | O => ([], q, st)
  | S cc' =>
      let c := u8 (c_info st (c_cf q)) in
      let q := q <| c_cf ::= Z.succ |> <| c_cc ::= Z.pred |> in
      if c_cc q <=? 0 then
        let bp := block_of (c_cf q - 1) in
        ([c], q <| c_cf := NULL |> <| c_cl := NULL |>, put_free bp st)
      else
        let '(q, st) :=
          if aligned (c_cf q) then
            let bp := c_cf q - SIZEOF_CBLOCK in
            (q <| c_cf := info_of (c_next st bp) |>, put_free bp st)
          else (q, st) in
        let '(cs, q, st) := q_to_b_loop cc' q st in (c :: cs, q, st)
  end.

(** [q_to_b(q, cp, cc)]: the bytes stored at [cp] (their number is the value
    returned).  The return for an empty queue comes before [splx]. *)
Definition q_to_b (q : clist) (cc : Z) (st : cstate) : list Z * clist * cstate :=
  if cc <=? 0 then ([], q, st)
  else
    let s := spl st in
    let st := spl6 st in
    if c_cc q <=? 0 then ([], CList 0 NULL NULL, st)
    else let '(cs, q, st) := q_to_b_loop (Z.to_nat cc) q st in (cs, q, splx s st).

(** The scan of [n] characters for one that has a bit of [flag]. *)
Fixpoint scan_flag (st : cstate) (flag p : Z) (n : nat) : option Z :=
  match n with
  | O => None
  | S n' => if has (c_info st p) flag then Some p else scan_flag st flag (p + 1) n'
  end.

Definition ndqb (q : clist) (flag : Z) (st : cstate) : Z * cstate :=
  let s := spl st in
  let st := spl6 st in
  let cc :=
    if c_cc q <=? 0 then - c_cc q
    else
      let cc := block_of (c_cf q + CBSIZE) - c_cf q in
      let cc := if c_cc q <? cc then c_cc q else cc in
      if flag =? 0 then cc
      else match scan_flag st flag (c_cf q) (Z.to_nat cc) with
           | Some p => p - c_cf q
           | None => cc
           end in
  (cc, splx s st).

Definition ndflush (q : clist) (cc : Z) (st : cstate) : clist * cstate :=
  let s := spl st in
  let st := spl6 st in
  let '(q, st) :=
    if c_cc q <? 0 then
      if negb (c_cf q =? NULL) then (q <| c_cc ::= Z.add cc |> <| c_cf ::= Z.add cc |>, st)
      else (q <| c_cc := 0 |>, st)
    else if c_cc q =? 0 then (q, st)
    else if (CBSIZE <? cc) || (cc <=? 0) then (q, st <| cbad ::= Z.succ |>)
    else
      let q := q <| c_cc ::= fun n => n - cc |> <| c_cf ::= Z.add cc |> in
      if aligned (c_cf q) then
        let bp := c_cf q - SIZEOF_CBLOCK in
        ((if negb (c_next st bp =? NULL) then q <| c_cf := info_of (c_next st bp) |>
          else q <| c_cf := NULL |> <| c_cl := NULL |>),
         put_free bp st)
      else if c_cc q =? 0 then
        let bp := block_of (c_cf q) in
        (q <| c_cf := NULL |> <| c_cl := NULL |>, put_free bp st)
      else (q, st) in
  (q, splx s st).

(** The end of [putc]: store the character, count it, move [c_cl]. *)
Definition store_char (c cp : Z) (p : clist) (st : cstate) : clist * cstate :=
  (p <| c_cc ::= Z.succ |> <| c_cl := cp + 1 |>, st <| c_info @ cp := u8 c |>).

(** Take the block at the head of the free list: [cfreelist = bp->c_next;
    bp->c_next = NULL;]. *)
Definition take_free (bp : Z) (st : cstate) : cstate :=
  let st := st <| cfreelist := c_next st bp |> in
  st <| c_next @ bp := NULL |>.

Definition putc (c : Z) (p : clist) (st : cstate) : Z * clist * cstate :=
  let s := spl st in
  let st := spl6 st in
  let cp := c_cl p in
  if (cp =? NULL) || (c_cc p <? 0) then
    let bp := cfreelist st in
    if bp =? NULL then (-1, p, splx s st)
    else
      let st := take_free bp st in
      let '(p, st) := store_char c (info_of bp) (p <| c_cf := info_of bp |>) st in
      (0, p, splx s st)
  else if aligned cp then
    let bp := cp - SIZEOF_CBLOCK in
    let st := st <| c_next @ bp := cfreelist st |> in
    if c_next st bp =? NULL then (-1, p, splx s st)
    else
      let bp := c_next st bp in
      let st := take_free bp st in
      let '(p, st) := store_char c (info_of bp) p st in (0, p, splx s st)
  else let '(p, st) := store_char c cp p st in (0, p, splx s st).

(** The loop of [b_to_q]: the characters left over, the fill pointer. *)
Fixpoint b_to_q_loop (cp : list Z) (cq : Z) (st : cstate) : list Z * Z * cstate :=
  match cp with
  | [] => ([], cq, st)
  | c :: cp' =>
      if aligned cq then
        let bp := cq - SIZEOF_CBLOCK in
        let st := st <| c_next @ bp := cfreelist st |> in
        if c_next st bp =? NULL then (cp, cq, st)
        else
          let bp := c_next st bp in
          let st := take_free bp st in
          b_to_q_loop cp' (info_of bp + 1) (st <| c_info @ (info_of bp) := u8 c |>)
      else b_to_q_loop cp' (cq + 1) (st <| c_info @ cq := u8 c |>)
  end.

(** [b_to_q(cp, cc, q)] with [cp] the [cc] bytes of the buffer; the value is
    the number of bytes not transferred. *)
Definition b_to_q (cp : list Z) (q : clist) (st : cstate) : Z * clist * cstate :=
  match cp with
  | [] => (0, q, st)
  | _ =>
      let s := spl st in
      let st := spl6 st in
      let fill cq q st :=
        let '(rest, cq, st) := b_to_q_loop cp cq st in
        (Z.of_nat (length rest),
         q <| c_cl := cq |> <| c_cc ::= Z.add (Z.of_nat (length cp - length rest)) |>, splx s st) in
      let cq := c_cl q in
      if (cq =? NULL) || (c_cc q <? 0) then
        let bp := cfreelist st in
        if bp =? NULL then (Z.of_nat (length cp), q <| c_cl := cq |>, splx s st)
        else fill (info_of bp) (q <| c_cf := info_of bp |>) (take_free bp st)
      else fill cq q st
  end.

(** [for (cp = ccp; cp <= &cfree[NCLIST-1]; cp++)], at most [NCLIST] rounds. *)
Fixpoint cinit_loop (n : nat) (cp last : Z) (st : cstate) : cstate :=
  match n with
  | O => st
  | S n' => if cp <=? last then cinit_loop n' (cp + SIZEOF_CBLOCK) last (put_free cp st) else st
  end.

(** [cfree] is the address of the pool, [cdevsw] the [d_open] pointers of the
    character device table, ended by a null one. *)
Fixpoint count_devs (cdevsw : list Z) : Z :=
  match cdevsw with
  | [] => 0
  | d :: r => if d =? NULL then 0 else 1 + count_devs r
  end.

Definition cinit (cfree : Z) (cdevsw : list Z) (st : cstate) : cstate :=
  let ccp := Z.land (cfree + CROUND) (Z.lnot CROUND) in
  let st := cinit_loop (Z.to_nat NCLIST) ccp (cfree + SIZEOF_CBLOCK * (NCLIST - 1)) st in
  st <| nchrdev := count_devs cdevsw |>.

Definition getw (p : clist) (st : cstate) : Z * clist * cstate :=
  if c_cc p <=? 1 then (u16 (-1), p, st)
  else
    let '(s, p, st) := getc p st in
    let '(t, p, st) := getc p st in
    (u16 (Z.lor s (Z.shiftl t 8)), p, st).

Definition putw (c : Z) (p : clist) (st : cstate) : Z * clist * cstate :=
  let s := spl st in
  let st := spl6 st in
  if cfreelist st =? NULL then (-1, p, splx s st)
  else
    let '(_, p, st) := putc c p st in
    let '(_, p, st) := putc (Z.shiftr c 8) p st in
    (0, p, splx s st).

(** ** Representation *)

Definition block_ok (b : Z) : Prop := 0 < b /\ b mod 16 = 0.

(** The [n] characters stored from address [a]. *)
Definition chars (st : cstate) (a n : Z) : list Z := map (c_info st) (seqZ a n).

(** The queue whose first character is at [cf], in the blocks [bs], filled up
    to [cl], holds [cs]. *)
Fixpoint seg (st : cstate) (cf : Z) (bs : list Z) (cl : Z) (cs : list Z) : Prop :=
  match bs with
  | [] => False
  | b :: r =>
      info_of b <= cf < b + 16 /\
      match r with
      | [] => cf < cl <= b + 16 /\ c_next st b = NULL /\ cs = chars st cf (cl - cf)
      | b' :: _ => c_next st b = b' /\
          exists cs', cs = chars st cf (b + 16 - cf) ++ cs' /\ seg st (info_of b') r cl cs'
      end
  end.

Definition queue (st : cstate) (q : clist) (bs : list Z) (cs : list Z) : Prop :=
  c_cc q = Z.of_nat (length cs) /\
  match bs with
  | [] => cs = [] /\ c_cf q = NULL /\ c_cl q = NULL
  | _ => seg st (c_cf q) bs (c_cl q) cs
  end.

Fixpoint frees (st : cstate) (fl : Z) (fs : list Z) : Prop :=
  match fs with
  | [] => fl = NULL
  | b :: r => fl = b /\ frees st (c_next st b) r
  end.

(** A pool in which one queue has the blocks [bs] and the contents [cs], the
    free list is [fs] and other queues hold the blocks [others]. *)
Record pool (st : cstate) (q : clist) (bs fs others cs : list Z) : Prop := Pool {
  pool_blocks : Forall block_ok (bs ++ fs ++ others);
  pool_nodup : NoDup (bs ++ fs ++ others);
  pool_queue : queue st q bs cs;
  pool_free : frees st (cfreelist st) fs;
  pool_chars : forall a, 0 <= c_info st a < 256
}.

(** The blocks of other queues are as they were. *)
Definition same_on (others : list Z) (st st' : cstate) : Prop :=
  forall b, b ∈ others -> c_next st' b = c_next st b /\
    forall a, b <= a < b + 16 -> c_info st' a = c_info st a.

(** ** Pointer arithmetic *)

Lemma block_of_eq cp : block_of cp = cp - cp mod 16.
Proof.
  unfold block_of, CROUND. change 15 with (Z.ones 4). rewrite <- Z.ldiff_land, Z.ldiff_ones_r by lia.
  rewrite Z.shiftl_mul_pow2, Z.shiftr_div_pow2 by lia. change (2 ^ 4) with 16.
  Z.div_mod_to_equations. lia.
Qed.

Lemma aligned_eq cp : aligned cp = (cp mod 16 =? 0).
Proof.
  unfold aligned, CROUND. change 15 with (Z.ones 4). by rewrite Z.land_ones by lia.
Qed.

(** A pointer into block [b], at or after its characters. *)
Lemma block_of_in b cp : block_ok b -> b <= cp < b + 16 -> block_of cp = b.
Proof. intros [_ Hb] ?. rewrite block_of_eq. Z.div_mod_to_equations. lia. Qed.
Lemma aligned_in b cp : block_ok b -> b < cp <= b + 16 -> aligned cp = (cp =? b + 16).
Proof.
  intros [_ Hb] ?. rewrite aligned_eq.
  destruct (Z.eqb_spec (cp mod 16) 0), (Z.eqb_spec cp (b + 16)); try done;
    exfalso; Z.div_mod_to_equations; lia.
Qed.
Lemma blocks_apart b b' a : block_ok b -> block_ok b' -> b <> b' -> b <= a < b + 16 -> ~ b' <= a < b' + 16.
Proof. intros [_ ?] [_ ?] ? ? ?. Z.div_mod_to_equations. lia. Qed.

(** ** Runs of characters *)

Lemma chars_ext st st' a n :
  (forall x, a <= x < a + n -> c_info st x = c_info st' x) -> chars st a n = chars st' a n.
Proof.
  intros H. apply list_fmap_ext. intros i x Hx. apply list_elem_of_lookup_2, elem_of_seqZ in Hx.
  apply H. lia.
Qed.
Lemma chars_cons st a n : 0 < n -> chars st a n = c_info st a :: chars st (a + 1) (n - 1).
Proof. intros. unfold chars. rewrite seqZ_cons by lia. cbn. do 3 f_equal; lia. Qed.
Lemma chars_snoc st a n : 0 <= n -> chars st a (n + 1) = chars st a n ++ [c_info st (a + n)].
Proof.
  intros. unfold chars. rewrite (seqZ_app a n 1), map_app by lia. done.
Qed.
Lemma chars_length st a n : 0 <= n -> length (chars st a n) = Z.to_nat n.
Proof. intros. unfold chars. by rewrite length_map, length_seqZ. Qed.

(** ** Segments *)

Lemma seg_nonnil st cf bs cl cs : seg st cf bs cl cs -> (0 < length cs)%nat.
Proof.
  destruct bs as [|b [|b' r]]; cbn; [done| |]; intros (?&H).
  - destruct H as (?&_&->). rewrite chars_length; lia.
  - destruct H as (_&cs'&->&_). rewrite length_app, chars_length; unfold info_of in *; lia.
Qed.

Lemma seg_head st cf b r cl cs : seg st cf (b :: r) cl cs -> info_of b <= cf < b + 16.
Proof. destruct r; cbn; tauto. Qed.

(** The last block, and where the fill pointer is in it. *)
Lemma seg_last st cf bs cl cs : seg st cf bs cl cs ->
  exists bs0 bl, bs = bs0 ++ [bl] /\ info_of bl < cl <= bl + 16 /\ c_next st bl = NULL.
Proof.
  revert cf cs. induction bs as [|b [|b' r] IH]; intros cf cs; [done| |].
  - intros (?&?&?&_). exists [], b. unfold info_of in *. split; [done|]. split; [lia|done].
  - intros (_&_&cs'&_&H). destruct (IH _ _ H) as (bs0&bl&E&?&?).
    exists (b :: bs0), bl. rewrite E. done.
Qed.

Lemma seg_frame st st' cf bs cl cs :
  (forall b, b ∈ bs -> c_next st' b = c_next st b /\
     forall a, b <= a < b + 16 -> c_info st' a = c_info st a) ->
  seg st cf bs cl cs -> seg st' cf bs cl cs.
Proof.
  revert cf cs. induction bs as [|b r IH]; intros cf cs Hf; [done|].
  destruct (Hf b) as [Hn Hi]; [by constructor|]. unfold info_of in *.
  destruct r as [|b' r]; cbn; rewrite Hn; intros (Hcf&H); split; try done.
  - destruct H as (?&?&->). split; [done|]. split; [done|]. apply chars_ext.
    intros x Hx. symmetry. apply Hi. unfold info_of in *. lia.
  - destruct H as (?&cs'&->&H). split; [done|]. exists cs'. split.
    + f_equal. apply chars_ext. intros x Hx. symmetry. apply Hi. unfold info_of in *. lia.
    + apply IH; [|done]. intros b0 Hb0. apply Hf. by constructor.
Qed.

Lemma frees_frame st st' fl fs :
  (forall b, b ∈ fs -> c_next st' b = c_next st b) -> frees st fl fs -> frees st' fl fs.
Proof.
  revert fl. induction fs as [|b r IH]; intros fl Hf; cbn; [done|].
  intros [-> H]. split; [done|]. rewrite Hf by constructor. apply IH; [|done].
  intros; apply Hf; by constructor.
Qed.

(** Appending a character inside the last block. *)
Lemma seg_append st st' cf bs cl cs v :
  Forall block_ok bs -> NoDup bs -> aligned cl = false ->
  (forall b, b ∈ bs -> c_next st' b = c_next st b) ->
  c_info st' = <[cl := v]> (c_info st) ->
  seg st cf bs cl cs -> seg st' cf bs (cl + 1) (cs ++ [v]).
Proof.
  intros Hok Hnd Hal Hn Hi. revert cf cs. induction bs as [|b r IH]; intros cf cs H; [done|].
  apply Forall_cons in Hok as [Hb Hok]. apply NoDup_cons in Hnd as [Hbr Hnd].
  assert (Hother : forall x, x <> cl -> c_info st' x = c_info st x) by
    (intros; by rewrite Hi, fn_ne by done).
  assert (Hv : c_info st' cl = v) by (by rewrite Hi, fn_eq).
  destruct r as [|b' r].
  - destruct H as (Hcf&?&?&->). unfold info_of in *.
    rewrite (aligned_in b) in Hal by (done || lia). apply Z.eqb_neq in Hal.
    split; [done|]. split; [lia|]. split; [by rewrite Hn by constructor|].
    replace (cl + 1 - cf) with ((cl - cf) + 1) by lia. rewrite chars_snoc by lia.
    replace (cf + (cl - cf)) with cl by lia. rewrite Hv. f_equal.
    apply chars_ext. intros. symmetry. apply Hother. lia.
  - destruct H as (Hcf&?&cs'&->&H). pose proof (seg_last _ _ _ _ _ H) as (bs0&bl&E&Hcl&_).
    split; [done|]. split; [by rewrite Hn by constructor|].
    exists (cs' ++ [v]). rewrite app_assoc. split.
    + do 2 f_equal. apply chars_ext. intros x Hx. symmetry. apply Hother. intros ->.
      assert (bl ∈ b' :: r) as Hin by (rewrite E; apply elem_of_app; right; constructor).
      unfold info_of in *. destruct (decide (cl = bl + 16)) as [->|].
      * rewrite (aligned_in bl), Z.eqb_refl in Hal; [done | | lia].
        rewrite Forall_forall in Hok. by apply Hok.
      * apply (blocks_apart b bl cl); try done; try lia.
        -- rewrite Forall_forall in Hok. by apply Hok.
        -- by intros ->.
    + apply IH; try done. intros; apply Hn. by constructor.
Qed.

(** Appending a character in a new block linked after the last one. *)
Lemma seg_extend st st' cf bs cl cs v nb :
  Forall block_ok bs -> NoDup bs -> nb ∉ bs -> aligned cl = true ->
  (forall b, b ∈ bs -> (forall a, b <= a < b + 16 -> c_info st' a = c_info st a) /\
     c_next st' b = if decide (b = cl - 16) then nb else c_next st b) ->
  c_next st' nb = NULL -> c_info st' (info_of nb) = v ->
  seg st cf bs cl cs -> seg st' cf (bs ++ [nb]) (info_of nb + 1) (cs ++ [v]).
Proof.
  intros Hok Hnd Hnb Hal Hf Hn0 Hv. revert cf cs.
  induction bs as [|b r IH]; intros cf cs H; [done|].
  apply Forall_cons in Hok as [Hb Hok]. apply NoDup_cons in Hnd as [Hbr Hnd].
  destruct (Hf b) as [Hi Hn]; [by constructor|]. destruct r as [|b' r].
  - destruct H as (Hcf&?&?&->). unfold info_of in *.
    rewrite (aligned_in b) in Hal by (done || lia). apply Z.eqb_eq in Hal. subst cl.
    rewrite decide_True in Hn by lia. cbn. split; [done|]. split; [done|]. exists [v]. split.
    + f_equal. apply chars_ext. intros. symmetry. apply Hi. lia.
    + split; [unfold info_of; lia|]. unfold info_of. split; [lia|]. split; [done|].
      replace (nb + 4 + 1 - (nb + 4)) with 1 by lia. rewrite chars_cons by lia. cbn. by rewrite Hv.
  - destruct H as (Hcf&?&cs'&->&H). pose proof (seg_last _ _ _ _ _ H) as (bs0&bl&E&Hcl&_).
    assert (bl ∈ b' :: r) as Hin by (rewrite E; apply elem_of_app; right; constructor).
    assert (block_ok bl) as Hbl by (rewrite Forall_forall in Hok; by apply Hok).
    unfold info_of in Hcl. pose proof Hal as Hal'. rewrite (aligned_in bl), Z.eqb_eq in Hal' by (done || lia).
    rewrite decide_False in Hn by (intros ->; apply Hbr; replace (cl - 16) with bl by lia; done).
    apply not_elem_of_cons in Hnb as [_ Hnb].
    change ((b :: b' :: r) ++ [nb]) with (b :: b' :: r ++ [nb]).
    split; [done|]. split; [by rewrite Hn|]. exists (cs' ++ [v]). rewrite app_assoc. split.
    + do 2 f_equal. apply chars_ext. intros x Hx. symmetry. apply Hi. unfold info_of in *. lia.
    + apply (IH Hok Hnd Hnb); [|done]. intros b0 Hb0. apply Hf. by constructor.
Qed.

(** ** getc *)

Lemma splx_spl6 st : splx (spl st) (spl6 st) = st.
Proof. by destruct st. Qed.

(** One character leaves the queue; a block that becomes empty goes to the
    free list.  Common to [getc] and [q_to_b]: [unlink] is what they do once
    the character is fetched. *)
Definition unlink (q : clist) (st : cstate) : clist * cstate :=
  if c_cc q <=? 0 then
    (q <| c_cf := NULL |> <| c_cl := NULL |>, put_free (block_of (c_cf q - 1)) st)
  else if aligned (c_cf q) then
    (q <| c_cf := info_of (c_next st (c_cf q - SIZEOF_CBLOCK)) |>, put_free (c_cf q - SIZEOF_CBLOCK) st)
  else (q, st).

Lemma put_free_pool st b fs :
  b ∉ fs -> frees st (cfreelist st) fs -> frees (put_free b st) (cfreelist (put_free b st)) (b :: fs).
Proof.
  intros Hb H. cbn. split; [done|]. rewrite fn_eq. eapply frees_frame; [|done].
  intros b' Hb'. cbn. apply fn_ne. by intros ->.
Qed.

Lemma pool_app_cons {b : Z} {bs fs others} :
  NoDup ((b :: bs) ++ fs ++ others) -> NoDup (bs ++ (b :: fs) ++ others) /\
  (b ∉ bs) /\ (b ∉ fs) /\ (b ∉ others).
Proof.
  intros H. cbn in H. pose proof H as [Hb _]%NoDup_cons. rewrite !elem_of_app in Hb. split; [|tauto].
  assert ((bs ++ (b :: fs) ++ others) ≡ₚ (b :: bs ++ fs ++ others)) as -> by (cbn; by rewrite <- Permutation_middle).
  exact H.
Qed.

Lemma unlink_spec st q bs fs others c cs :
  pool st q bs fs others (c :: cs) ->
  let q1 := q <| c_cf ::= Z.succ |> <| c_cc ::= Z.pred |> in
  c_info st (c_cf q) = c /\
  exists q' st' bs' fs', unlink q1 st = (q', st') /\ pool st' q' bs' fs' others cs /\
    same_on others st st' /\ spl st' = spl st /\ (bs' ++ fs') ≡ₚ (bs ++ fs).
Proof.
  intros [Hok Hnd [Hcc Hq] Hfree Hch] q1. destruct bs as [|b r]; [by destruct Hq|].
  pose proof Hnd as Hnd'. apply pool_app_cons in Hnd' as (Hnd'&Hbr&Hbf&Hbo).
  assert (Hok' : Forall block_ok (r ++ (b :: fs) ++ others)).
  { eapply Permutation_Forall; [|exact Hok]. cbn. apply Permutation_middle. }
  assert (Hb : block_ok b) by (by inversion Hok).
  pose proof (seg_head _ _ _ _ _ _ Hq) as Hcf. unfold info_of in Hcf.
  assert (Hsame : same_on others st (put_free b st)).
  { intros x Hx. split; [|done]. cbn. apply fn_ne. by intros ->. }
  assert (Hperm : (r ++ b :: fs) ≡ₚ ((b :: r) ++ fs)) by (cbn; by rewrite Permutation_middle).
  cbn [length] in Hcc. unfold q1, unlink. cbn [c_cc c_cf c_cl].
  change (c_cc (q <| c_cf ::= Z.succ |> <| c_cc ::= Z.pred |>)) with (Z.pred (c_cc q)).
  change (c_cf (q <| c_cf ::= Z.succ |> <| c_cc ::= Z.pred |>)) with (Z.succ (c_cf q)).
  destruct r as [|b' r].
  - destruct Hq as (_&Hcl&Hnx&Hcs). rewrite chars_cons in Hcs by lia. injection Hcs as -> Hcs.
    split; [done|]. destruct (Z.leb_spec (Z.pred (c_cc q)) 0).
    + assert (cs = []) as -> by (destruct cs; [done | cbn in Hcc; lia]).
      rewrite (block_of_in b) by (done || lia).
      eexists _, _, [], (b :: fs). split; [reflexivity|]. split; [|done].
      split; try done; [|by apply put_free_pool]. split; [cbn; cbn in Hcc; lia | done].
    + assert (c_cl q <> c_cf q + 1).
      { intros E. rewrite E in Hcs. replace (c_cf q + 1 - c_cf q - 1) with 0 in Hcs by lia.
        subst cs. rewrite chars_length in Hcc by lia. lia. }
      rewrite (aligned_in b) by (done || lia). destruct (Z.eqb_spec (Z.succ (c_cf q)) (b + 16)); [lia|].
      eexists _, _, [b], fs. split; [reflexivity|]. split; [|by repeat split].
      split; try done. split; [cbn; lia|]. cbn. unfold info_of. split; [lia|]. split; [lia|].
      split; [done|]. rewrite Hcs. f_equal; lia.
  - destruct Hq as (_&Hnx&cs'&Hcs&Hseg). rewrite chars_cons in Hcs by lia. injection Hcs as -> Hcs.
    split; [done|]. pose proof (seg_nonnil _ _ _ _ _ Hseg).
    assert (0 < Z.pred (c_cc q)) by (rewrite Hcc, Hcs, length_app; lia).
    destruct (Z.leb_spec (Z.pred (c_cc q)) 0); [lia|].
    rewrite (aligned_in b) by (done || lia). destruct (Z.eqb_spec (Z.succ (c_cf q)) (b + 16)) as [E|].
    + unfold SIZEOF_CBLOCK. replace (Z.succ (c_cf q) - 16) with b by lia.
      eexists _, _, (b' :: r), (b :: fs). split; [reflexivity|]. split; [|done].
      split; try done; [|by apply put_free_pool]. split; [cbn; lia|].
      change (seg (put_free b st) (info_of (c_next st b)) (b' :: r) (c_cl q) cs).
      rewrite Hnx, Hcs. replace (b + 16 - c_cf q - 1) with 0 by lia.
      eapply seg_frame; [|exact Hseg]. intros x Hx. split; [|done]. cbn. apply fn_ne. by intros ->.
    + eexists _, _, (b :: b' :: r), fs. split; [reflexivity|]. split; [|by repeat split].
      split; try done. split; [cbn; lia|]. cbn. unfold info_of. split; [lia|]. split; [done|].
      exists cs'. split; [|done]. rewrite Hcs. do 2 f_equal; lia.
Qed.

Lemma getc_unlink q st :
  0 < c_cc q ->
  getc q st = let '(q', st') := unlink (q <| c_cf ::= Z.succ |> <| c_cc ::= Z.pred |>) (spl6 st) in
              (Z.land (c_info st (c_cf q)) 255, q', splx (spl st) st').
Proof.
  intros H. unfold getc, unlink. destruct (Z.leb_spec (c_cc q) 0); [lia|]. cbn.
  destruct (_ <=? 0); [done|]. destruct (aligned _); done.
Qed.

Lemma pool_spl st q bs fs others cs s :
  pool st q bs fs others cs -> pool (st <| spl := s |>) q bs fs others cs.
Proof.
  intros [? ? [? Hq] Hf ?]. split; try done.
  - split; [done|]. destruct bs; [done|]. by eapply seg_frame; [|exact Hq].
  - by eapply frees_frame; [|exact Hf].
Qed.

Lemma land_255 z : 0 <= z < 256 -> Z.land z 255 = z.
Proof. intros. change 255 with (Z.ones 8). rewrite Z.land_ones by lia. by apply Z.mod_small. Qed.

Lemma getc_some st q bs fs others c cs :
  pool st q bs fs others (c :: cs) ->
  exists q' st' bs' fs', getc q st = (c, q', st') /\ pool st' q' bs' fs' others cs /\
    same_on others st st' /\ spl st' = spl st /\ (bs' ++ fs') ≡ₚ (bs ++ fs).
Proof.
  intros H. pose proof H as [_ _ [Hcc _] _ Hch]. cbn in Hcc.
  rewrite getc_unlink by lia.
  destruct (unlink_spec (spl6 st) q bs fs others c cs) as (Hc&q'&st'&bs'&fs'&E&Hp&Hs&_&Hperm).
  { by apply pool_spl. }
  rewrite E. cbn in Hc. rewrite Hc, land_255 by (rewrite <- Hc; apply Hch).
  exists q', (splx (spl st) st'), bs', fs'. split; [done|]. split; [by apply pool_spl|]. done.
Qed.

(** ** putc *)

(** Both character-appending routines go through the same cases: no block yet,
    a full last block, or room in the last block.  [append] is that step
    without the priority and the count; [None] when the pool is empty. *)
Definition append (c : Z) (cl : Z) (st : cstate) : option (Z * cstate) :=
  if aligned cl then
    let st := st <| c_next @ (cl - SIZEOF_CBLOCK) := cfreelist st |> in
    let bp := c_next st (cl - SIZEOF_CBLOCK) in
    if bp =? NULL then None
    else Some (info_of bp + 1, (take_free bp st) <| c_info @ (info_of bp) := u8 c |>)
  else Some (cl + 1, st <| c_info @ cl := u8 c |>).

Lemma append_spec c st cf bs cl cs fs others :
  Forall block_ok (bs ++ fs ++ others) -> NoDup (bs ++ fs ++ others) ->
  seg st cf bs cl cs -> frees st (cfreelist st) fs -> (forall a, 0 <= c_info st a < 256) ->
  match append c cl st with
  | None => fs = [] /\ aligned cl = true /\ c_next st (cl - SIZEOF_CBLOCK) = NULL /\ cfreelist st = NULL
  | Some (cl', st') => exists bs' fs', seg st' cf bs' cl' (cs ++ [u8 c]) /\
      frees st' (cfreelist st') fs' /\ same_on others st st' /\ spl st' = spl st /\
      (bs' ++ fs') ≡ₚ (bs ++ fs) /\ (exists x r, bs' = x :: r) /\
      (forall a, 0 <= c_info st' a < 256)
  end.
Proof.
  intros Hok Hnd Hseg Hfree Hch. unfold append, SIZEOF_CBLOCK.
  pose proof (seg_last _ _ _ _ _ Hseg) as (bs0&bl&Ebs&Hcl&Hnx). unfold info_of in Hcl.
  apply Forall_app in Hok as [Hokb [Hokf Hoko]%Forall_app].
  apply NoDup_app in Hnd as (Hndb & Hdis & Hndr).
  assert (Hbl : bl ∈ bs) by (rewrite Ebs; apply elem_of_app; right; constructor).
  assert (block_ok bl) as Hblk by (rewrite Forall_forall in Hokb; by apply Hokb).
  assert (Hch' : forall m a v, m = <[a := u8 v]> (c_info st) -> forall x, 0 <= m x < 256).
  { intros m a v -> x. rewrite fn_case. case_decide; [apply u8_range | apply Hch]. }
  assert (Hne : forall b, b ∈ bs -> (b ∉ fs) /\ (b ∉ others)).
  { intros b Hb. apply Hdis in Hb. rewrite elem_of_app in Hb. tauto. }
  assert (Hcons : exists x r, bs = x :: r) by (rewrite Ebs; destruct bs0; cbn; eauto).
  destruct (aligned cl) eqn:Hal.
  - pose proof Hal as Hal'. rewrite (aligned_in bl), Z.eqb_eq in Hal' by (done || lia).
    replace (cl - 16) with bl in * by lia. cbn. rewrite fn_eq.
    destruct (Z.eqb_spec (cfreelist st) NULL) as [E|E].
    + rewrite E in Hfree. destruct fs as [|b fs']; [by rewrite Hnx|].
      destruct Hfree as [Hb _]. apply Forall_cons in Hokf as [[? _] _]. unfold NULL in Hb. lia.
    + destruct fs as [|nb fs']; [by destruct E|]. destruct Hfree as [Enb Hfree]. rewrite Enb in *.
      assert (Hnb : nb ∉ bs) by (intros Hin; apply Hne in Hin as [[]%not_elem_of_cons _]; done).
      cbn in Hndr. apply NoDup_cons in Hndr as [Hnbr Hndr]. rewrite elem_of_app in Hnbr.
      assert (nb <> bl) by (by intros ->).
      exists (bs ++ [nb]), fs'. split_and!.
      * eapply (seg_extend st); try done; cbn; [|by rewrite fn_eq | by rewrite fn_eq].
        intros b Hb. assert (b <> nb) by (by intros ->). split.
        { intros a Ha. apply fn_ne. intros <-. apply (blocks_apart b nb (info_of nb)); try done.
          - rewrite Forall_forall in Hokb. by apply Hokb.
          - by apply Forall_cons in Hokf as [? _].
          - unfold info_of. lia. }
        rewrite fn_ne by done. rewrite fn_case. replace (cl - 16) with bl by lia.
        case_decide; case_decide; done.
      * cbn. rewrite (fn_ne _ bl nb) by done. eapply frees_frame; [|exact Hfree].
        intros b Hb. cbn. rewrite (fn_ne _ nb b) by (intros ->; tauto).
        apply fn_ne. intros ->. apply Hne in Hbl as [[_ ?]%not_elem_of_cons _]. done.
      * intros b Hb. cbn. split.
        { rewrite (fn_ne _ nb b) by (intros ->; tauto).
          apply fn_ne. intros ->. by apply Hne in Hbl as [_ []]. }
        intros a Ha. apply fn_ne. intros <-. apply (blocks_apart b nb (info_of nb)); try done.
        -- rewrite Forall_forall in Hoko. by apply Hoko.
        -- by apply Forall_cons in Hokf as [? _].
        -- intros ->. tauto.
        -- unfold info_of. lia.
      * done.
      * rewrite <- app_assoc. done.
      * destruct Hcons as (x&r&->). cbn. eauto.
      * by eapply Hch'.
  - rewrite (aligned_in bl), Z.eqb_neq in Hal by (done || lia).
    exists bs, fs. split_and!; try done.
    + apply (seg_append st); try done. by rewrite (aligned_in bl), Z.eqb_neq by (done || lia).
    + by eapply frees_frame; [|exact Hfree].
    + intros b Hb. cbn. split; [done|]. intros a Ha. apply fn_ne. intros <-.
      apply (blocks_apart b bl cl); try done; try lia.
      * rewrite Forall_forall in Hoko. by apply Hoko.
      * intros ->. by apply Hne in Hbl as [_ []].
    + by eapply Hch'.
Qed.

(** What [append] leaves behind when the pool is empty: the link of the last
    block, already null, is written once more. *)
Definition append_failed (cl : Z) (st : cstate) : cstate :=
  st <| c_next @ (cl - SIZEOF_CBLOCK) := cfreelist st |>.

Lemma putc_append c p st :
  c_cl p <> NULL -> 0 <= c_cc p ->
  putc c p st = match append c (c_cl p) (spl6 st) with
    | None => (-1, p, splx (spl st) (append_failed (c_cl p) (spl6 st)))
    | Some (cl', st') => (0, p <| c_cc ::= Z.succ |> <| c_cl := cl' |>, splx (spl st) st')
    end.
Proof.
  intros Hcl Hcc. unfold putc, append, append_failed, store_char.
  destruct (Z.eqb_spec (c_cl p) NULL); [done|]. destruct (Z.ltb_spec (c_cc p) 0); [lia|]. cbn.
  destruct (aligned (c_cl p)); [|done]. destruct (_ =? NULL); done.
Qed.

Lemma b_to_q_loop_append c cp cq st :
  b_to_q_loop (c :: cp) cq st = match append c cq st with
    | None => (c :: cp, cq, append_failed cq st)
    | Some (cq', st') => b_to_q_loop cp cq' st'
    end.
Proof.
  cbn [b_to_q_loop]. unfold append, append_failed. destruct (aligned cq); [|done].
  cbv zeta. destruct (_ =? NULL); done.
Qed.

(** The first character of an empty queue goes to a fresh block. *)
Lemma first_block st nb fs others c :
  Forall block_ok ((nb :: fs) ++ others) -> NoDup ((nb :: fs) ++ others) ->
  frees st nb (nb :: fs) -> (forall a, 0 <= c_info st a < 256) ->
  let st' := (take_free nb st) <| c_info @ (info_of nb) := u8 c |> in
  pool st' (CList 1 (info_of nb) (info_of nb + 1)) [nb] fs others [u8 c] /\ same_on others st st'.
Proof.
  intros Hok Hnd [_ Hfree] Hch st'. pose proof Hnd as [Hnb _]%NoDup_cons.
  rewrite elem_of_app in Hnb. pose proof Hok as [Hb [_ Hoko]%Forall_app]%Forall_cons.
  split; [split|].
  - exact Hok.
  - exact Hnd.
  - split; [done|]. cbn. unfold info_of. rewrite !fn_eq.
    split; [lia|]. split; [lia|]. split; [done|].
    replace (nb + 4 + 1 - (nb + 4)) with 1 by lia. rewrite chars_cons by lia. cbn. by rewrite fn_eq.
  - cbn. eapply frees_frame; [|exact Hfree]. intros b Hin. cbn. apply fn_ne. intros ->. tauto.
  - intros a. cbn. rewrite fn_case. case_decide; [apply u8_range | apply Hch].
  - intros b Hin. cbn. split; [apply fn_ne; intros ->; tauto|]. intros a Ha. apply fn_ne. intros <-.
    apply (blocks_apart b nb (info_of nb)); try done; [|intros ->; tauto|unfold info_of; lia].
    rewrite Forall_forall in Hoko. by apply Hoko.
Qed.

Lemma frees_nil st fs : Forall block_ok fs -> frees st NULL fs -> fs = [].
Proof. destruct fs as [|b r]; [done|]. intros [[? _] _]%Forall_cons [E _]. unfold NULL in E. lia. Qed.

Lemma queue_nonempty st q b r cs :
  block_ok b -> Forall block_ok r -> queue st q (b :: r) cs -> c_cl q <> NULL /\ 0 < c_cc q.
Proof.
  intros Hb Hr [Hcc Hq]. pose proof (seg_nonnil _ _ _ _ _ Hq). split; [|lia].
  pose proof (seg_last _ _ _ _ _ Hq) as (bs0&bl&E&?&_). unfold info_of, NULL in *.
  assert (block_ok bl) as [? _]; [|lia].
  assert (Forall block_ok (b :: r)) as Hall by (by constructor).
  rewrite E in Hall. apply Forall_app in Hall as [_ Hall]. by apply Forall_cons in Hall as [? _].
Qed.

Definition putc_post (c : Z) (q : clist) (st : cstate) (bs fs others cs : list Z)
    (r : Z * clist * cstate) : Prop :=
  let '(v, q', st') := r in
  same_on others st st' /\ spl st' = spl st /\
  ((v = -1 /\ fs = [] /\ (cs = [] \/ aligned (c_cl q) = true) /\ q' = q /\
    pool st' q bs fs others cs) \/
   (v = 0 /\ exists bs' fs', pool st' q' bs' fs' others (cs ++ [u8 c]) /\
      (bs' ++ fs') ≡ₚ (bs ++ fs))).

Lemma putc_spec c st q bs fs others cs :
  pool st q bs fs others cs -> putc_post c q st bs fs others cs (putc c q st).
Proof.
  intros H. pose proof H as [Hok Hnd [Hcc Hq] Hfree Hch]. destruct bs as [|b r].
  - destruct Hq as (->&Hcf&Hcl). cbn in Hok, Hnd, Hcc. unfold putc. rewrite Hcl. cbn.
    destruct (Z.eqb_spec (cfreelist st) NULL) as [E|E]; cbn.
    + rewrite E in Hfree. rewrite splx_spl6.
      assert (fs = []) as -> by (apply Forall_app in Hok as [Hok _]; by eapply frees_nil).
      split; [done|]. split; [done|]. left. auto 10.
    + destruct fs as [|nb fs']; [by destruct E|]. pose proof Hfree as [Enb _]. rewrite Enb in *.
      destruct (first_block st nb fs' others c) as [Hp Hs]; try done.
      split; [exact Hs|]. split; [done|]. right. split; [done|]. exists [nb], fs'. split; [|done].
      apply (pool_spl _ _ _ _ _ _ (spl st)) in Hp. destruct q as [cc cf cl]; cbn in *. subst cc cf cl.
      exact Hp.
  - assert (block_ok b /\ Forall block_ok r) as [Hb Hr].
    { apply Forall_app in Hok as [Hok _]. by apply Forall_cons in Hok. }
    destruct (queue_nonempty st q b r cs) as [Hcl Hpos]; try done.
    rewrite putc_append by (done || lia).
    pose proof (append_spec c (spl6 st) (c_cf q) (b :: r) (c_cl q) cs fs others Hok Hnd) as Ha.
    specialize (Ha (seg_frame st (spl6 st) _ _ _ _ (fun _ _ => conj eq_refl (fun _ _ => eq_refl)) Hq)).
    specialize (Ha (frees_frame st (spl6 st) _ _ (fun _ _ => eq_refl) Hfree) Hch).
    destruct (append c (c_cl q) (spl6 st)) as [[cl' st']|].
    + destruct Ha as (bs'&fs'&Hseg&Hfr&Hsame&_&Hperm&(x&r'&->)&Hch').
      split; [exact Hsame|]. split; [done|]. right. split; [done|]. exists (x :: r'), fs'.
      split; [|done]. apply (pool_spl st'). split.
      * rewrite app_assoc, Hperm, <- app_assoc. exact Hok.
      * rewrite app_assoc, Hperm, <- app_assoc. exact Hnd.
      * split; [cbn; rewrite length_app; cbn; lia | exact Hseg].
      * exact Hfr.
      * exact Hch'.
    + destruct Ha as (->&Hal&Hnx&Hfl). cbn in Hnx, Hfl.
      assert (Hnext : forall x, c_next (append_failed (c_cl q) (spl6 st)) x = c_next st x).
      { intros x. cbn. rewrite fn_case, Hfl. case_decide; [subst; done | done]. }
      split; [intros x _; split; [apply Hnext | done]|]. split; [done|]. left.
      split; [done|]. split; [done|]. split; [by right|]. split; [done|]. apply pool_spl.
      split; try done. split; [done|]. eapply seg_frame; [|exact Hq]. intros x _. split; [apply Hnext | done].
Qed.

(** ** The block copies against the character operations *)

(** [getc] up to [n] times, stopping at -1. *)
Fixpoint getc_n (n : nat) (q : clist) (st : cstate) : list Z * clist * cstate :=
  match n with
  | O => ([], q, st)
  | S n' =>
      let '(c, q, st) := getc q st in
      if c =? -1 then ([], q, st)
      else let '(cs, q, st) := getc_n n' q st in (c :: cs, q, st)
  end.

(** [putc] of each character, stopping at the first refusal. *)
Fixpoint putc_all (cp : list Z) (q : clist) (st : cstate) : Z * clist * cstate :=
  match cp with
  | [] => (0, q, st)
  | c :: cp' =>
      let '(r, q, st) := putc c q st in
      if r =? -1 then (Z.of_nat (length cp), q, st) else putc_all cp' q st
  end.

Lemma unlink_spl q st s :
  unlink q (st <| spl := s |>) = let '(q', st') := unlink q st in (q', st' <| spl := s |>).
Proof. unfold unlink. destruct (_ <=? 0); [done|]. by destruct (aligned _). Qed.

Lemma spl_twice st s s' : (st <| spl := s |>) <| spl := s' |> = st <| spl := s' |>.
Proof. done. Qed.
Lemma spl_same st : st <| spl := spl st |> = st.
Proof. by destruct st. Qed.

(** One round of the loop of [q_to_b] in terms of [unlink]. *)
Lemma q_to_b_loop_unlink n q st :
  q_to_b_loop (S n) q st =
    let q1 := q <| c_cf ::= Z.succ |> <| c_cc ::= Z.pred |> in
    let '(q', st') := unlink q1 st in
    if c_cc q1 <=? 0 then ([u8 (c_info st (c_cf q))], q', st')
    else let '(cs, q', st') := q_to_b_loop n q' st' in (u8 (c_info st (c_cf q)) :: cs, q', st').
Proof.
  cbn [q_to_b_loop]. unfold unlink. cbn zeta. destruct (_ <=? 0); [done|].
  destruct (aligned _); done.
Qed.

Lemma queue_empty_eq st q bs others fs : pool st q bs fs others [] -> q = CList 0 NULL NULL /\ bs = [].
Proof.
  intros [_ _ [Hcc Hq] _ _]. destruct bs as [|b r].
  - destruct Hq as (_&?&?). destruct q; cbn in *; subst. done.
  - apply seg_nonnil in Hq. cbn in Hq. lia.
Qed.

Lemma getc_n_loop n : forall q st bs fs others cs,
  pool st q bs fs others cs -> cs <> [] -> (0 < n)%nat ->
  getc_n n q st = let '(l, q', st') := q_to_b_loop n q (spl6 st) in (l, q', splx (spl st) st').
Proof.
  induction n as [|n IH]; intros q st bs fs others cs H Hne Hn; [lia|].
  destruct cs as [|c cs]; [done|]. pose proof H as [_ _ [Hcc _] _ Hch]. cbn [length] in Hcc.
  rewrite q_to_b_loop_unlink. cbn [getc_n]. rewrite getc_unlink by lia. cbv zeta.
  pose proof (unlink_spec (spl6 st) q bs fs others c cs (pool_spl _ _ _ _ _ _ _ H)) as Hu.
  cbv zeta in Hu. destruct Hu as (Hc&q'&st'&bs'&fs'&E&Hp&_&Hspl&_). rewrite E.
  assert (Hr : 0 <= c < 256) by (rewrite <- Hc; apply Hch). cbn in Hc. cbn [c_info spl6 update_with].
  change (c_info (spl6 st)) with (c_info st). rewrite Hc, land_255, u8_id by done.
  destruct (Z.eqb_spec c (-1)); [lia|].
  change (c_cc (q <| c_cf ::= Z.succ |> <| c_cc ::= Z.pred |>)) with (Z.pred (c_cc q)).
  destruct cs as [|c' cs'].
  - destruct (Z.leb_spec (Z.pred (c_cc q)) 0); [|cbn in Hcc; lia].
    pose proof (queue_empty_eq _ _ _ _ _ Hp) as [-> _]. destruct n as [|n]; [done|]. cbn [getc_n].
    unfold getc. cbn. done.
  - destruct (Z.leb_spec (Z.pred (c_cc q)) 0); [cbn in Hcc; lia|].
    destruct n as [|n]; [done|].
    rewrite (IH q' (splx (spl st) st') bs' fs' others (c' :: cs')); [|by apply pool_spl|done|lia].
    assert (spl6 (splx (spl st) st') = st') as ->.
    { unfold spl6, splx. rewrite spl_twice. change false with (spl (spl6 st)). rewrite <- Hspl. apply spl_same. }
    destruct (q_to_b_loop (S n) q' st') as [[l q''] st'']. done.
Qed.

Lemma b_to_q_loop_le cp : forall cq st, (length (b_to_q_loop cp cq st).1.1 <= length cp)%nat.
Proof.
  induction cp as [|c cp IH]; intros cq st; [done|]. rewrite b_to_q_loop_append.
  destruct (append c cq st) as [[cq' st']|]; [|done]. specialize (IH cq' st'). cbn. lia.
Qed.

Lemma putc_all_loop cp : forall q st b r fs others cs,
  pool st q (b :: r) fs others cs ->
  putc_all cp q st =
    let '(rest, cq, st') := b_to_q_loop cp (c_cl q) (spl6 st) in
    (Z.of_nat (length rest),
     q <| c_cl := cq |> <| c_cc ::= Z.add (Z.of_nat (length cp - length rest)) |>, splx (spl st) st').
Proof.
  induction cp as [|c cp IH]; intros q st b r fs others cs H.
  { cbn. rewrite splx_spl6. by destruct q. }
  pose proof H as [Hok _ Hq _ _]. apply Forall_app in Hok as [[Hb Hr]%Forall_cons _].
  destruct (queue_nonempty st q b r cs Hb Hr Hq) as [Hcl Hpos].
  pose proof (putc_spec c st q _ _ _ _ H) as Hp. cbn [putc_all].
  rewrite b_to_q_loop_append. rewrite putc_append in * by (done || lia).
  destruct (append c (c_cl q) (spl6 st)) as [[cl' st']|] eqn:Ea.
  - destruct Hp as (_&_&[[? _]|(_&bs'&fs'&Hp&_)]); [done|]. cbn [Z.eqb].
    set (q1 := q <| c_cc ::= Z.succ |> <| c_cl := cl' |>) in *.
    destruct bs' as [|b' r'].
    { destruct Hp as [_ _ [_ (E&_)] _ _]. by destruct cs. }
    change (0 =? -1) with false. cbv iota. rewrite (IH q1 _ b' r' fs' others _ Hp).
    change (c_cl q1) with cl'.
    assert (spl st' = false) as Hspl.
    { unfold append in Ea. destruct (aligned (c_cl q)); [|by injection Ea as _ <-].
      cbn in Ea. destruct (_ =? NULL); [done|]. by injection Ea as _ <-. }
    assert (spl6 (splx (spl st) st') = st') as ->.
    { unfold spl6, splx. rewrite spl_twice, <- Hspl. apply spl_same. }
    pose proof (b_to_q_loop_le cp cl' st') as Hle.
    destruct (b_to_q_loop cp cl' st') as [[rest cq] st'']. cbn in Hle. cbn [length].
    do 2 f_equal. unfold q1, update_with. cbn [c_cc c_cf c_cl]. f_equal. lia.
  - cbn [Z.eqb]. change (-1 =? -1) with true. cbv iota.
    rewrite Nat.sub_diag. destruct q; done.
Qed.

Lemma append_fresh nb c st :
  block_ok nb ->
  append c (info_of nb) st = Some (info_of nb + 1, st <| c_info @ (info_of nb) := u8 c |>).
Proof.
  intros Hb. unfold append, info_of. rewrite (aligned_in nb) by (done || lia).
  destruct (Z.eqb_spec (nb + 4) (nb + 16)); [lia | done].
Qed.

Lemma b_to_q_putc_all cp q st bs fs others cs :
  pool st q bs fs others cs -> b_to_q cp q st = putc_all cp q st.
Proof.
  intros H. destruct cp as [|c cp]; [done|]. destruct bs as [|b r].
  - pose proof H as [Hok Hnd [Hcc (Ecs&Hcf&Hcl)] Hfree Hch]. subst cs. cbn in Hcc, Hok, Hnd.
    unfold b_to_q. cbn [putc_all]. unfold putc. rewrite Hcl. cbn [orb Z.eqb].
    change (NULL =? NULL) with true. cbn [orb].
    change (cfreelist (spl6 st)) with (cfreelist st).
    destruct (Z.eqb_spec (cfreelist st) NULL) as [E|E].
    + cbv zeta. rewrite splx_spl6. destruct q; cbn in *; subst. done.
    + destruct fs as [|nb fs']; [by destruct E|]. pose proof Hfree as [Enb _]. rewrite Enb in *.
      assert (Hb : block_ok nb) by (by apply Forall_cons in Hok as [? _]).
      destruct (first_block st nb fs' others c) as [Hp _]; try done. unfold store_char.
      cbn [Z.eqb]. change (0 =? -1) with false. cbv iota beta zeta.
      apply (pool_spl _ _ _ _ _ _ (spl st)) in Hp.
      destruct q as [cc cf cl]; cbn in Hcc, Hcf, Hcl; subst cc cf cl. cbn [update_with c_cc c_cf c_cl].
      rewrite (putc_all_loop cp _ _ nb [] fs' others [u8 c]); [|exact Hp].
      rewrite b_to_q_loop_append, append_fresh by done.
      set (X := b_to_q_loop cp (info_of nb + 1) _).
      match goal with |- _ = (match (match ?Y with _ => _ end) with _ => _ end) => change Y with X
      | |- _ = (match ?Y with _ => _ end) => change Y with X end.
      assert (Hle : (length X.1.1 <= length cp)%nat) by apply b_to_q_loop_le.
      destruct X as [[rest cq] st'']. cbn in Hle. cbn [length]. do 2 f_equal.
      unfold update_with. cbn [c_cc c_cf c_cl]. f_equal. lia.
  - pose proof H as [Hok _ Hq _ _]. apply Forall_app in Hok as [[Hb Hr]%Forall_cons _].
    destruct (queue_nonempty st q b r cs Hb Hr Hq) as [Hcl Hpos].
    rewrite (putc_all_loop (c :: cp) q st b r fs others cs H). unfold b_to_q.
    destruct (Z.eqb_spec (c_cl q) NULL); [done|]. destruct (Z.ltb_spec (c_cc q) 0); [lia|].
    cbn [orb]. done.
Qed.

(** ** ndqb and ndflush *)

(** The length of the longest prefix without a character that has a bit of
    [flag]. *)
Fixpoint plain_prefix (flag : Z) (l : list Z) : nat :=
  match l with
  | [] => O
  | c :: l' => if has c flag then O else S (plain_prefix flag l')
  end.

Lemma plain_prefix_le flag l : (plain_prefix flag l <= length l)%nat.
Proof. induction l as [|c l IH]; cbn; [lia|]. destruct (has c flag); lia. Qed.

Lemma scan_flag_spec st flag n : forall p,
  scan_flag st flag p n =
    let k := plain_prefix flag (chars st p (Z.of_nat n)) in
    if (k <? n)%nat then Some (p + Z.of_nat k) else None.
Proof.
  induction n as [|n IH]; intros p; [done|].
  rewrite chars_cons by lia. cbn [scan_flag plain_prefix]. cbv zeta.
  replace (Z.of_nat (S n) - 1) with (Z.of_nat n) by lia.
  destruct (has (c_info st p) flag); [f_equal; lia|]. rewrite IH. cbv zeta.
  change (S ?a <? S n)%nat with (a <? n)%nat.
  destruct (_ <? _)%nat; [f_equal; lia | done].
Qed.

Lemma has_flag_0 c : has c 0 = false.
Proof. unfold has. by rewrite Z.land_0_r. Qed.

Lemma plain_prefix_0 l : plain_prefix 0 l = length l.
Proof. induction l as [|c l IH]; cbn; [done|]. by rewrite has_flag_0, IH. Qed.

(** The characters at the front of the queue that lie in its first block. *)
Lemma front_run st q b r cs :
  block_ok b -> queue st q (b :: r) cs ->
  let m := Z.min (c_cc q) (b + 16 - c_cf q) in
  0 < m /\ chars st (c_cf q) m = take (Z.to_nat m) cs.
Proof.
  intros Hb [Hcc Hq] m. pose proof (seg_nonnil _ _ _ _ _ Hq).
  pose proof (seg_head _ _ _ _ _ _ Hq). unfold info_of in *. split; [lia|].
  assert (Hpre : forall n n', 0 <= n <= n' -> chars st (c_cf q) n = take (Z.to_nat n) (chars st (c_cf q) n')).
  { intros n n' ?. unfold chars. replace n' with (n + (n' - n)) by lia.
    rewrite seqZ_app, map_app, take_app_length'; [done | rewrite length_map, length_seqZ | |]; lia. }
  destruct r as [|b' r].
  - destruct Hq as (_&?&_&->). rewrite chars_length in Hcc by lia. apply Hpre. lia.
  - destruct Hq as (_&_&cs'&->&_). rewrite (Hpre m (b + 16 - c_cf q)) by lia.
    rewrite take_app_le; [done|]. rewrite chars_length by lia. lia.
Qed.

Lemma ndqb_spec st q b r cs flag :
  block_ok b -> queue st q (b :: r) cs ->
  let m := Z.min (c_cc q) (b + 16 - c_cf q) in
  ndqb q flag st = (Z.of_nat (plain_prefix flag (take (Z.to_nat m) cs)), st).
Proof.
  intros Hb Hqq m. pose proof Hqq as [Hcc Hq]. pose proof (seg_nonnil _ _ _ _ _ Hq).
  pose proof (seg_head _ _ _ _ _ _ Hq). unfold info_of in *.
  destruct (front_run st q b r cs Hb Hqq) as [Hm Hch]. fold m in Hm, Hch. unfold ndqb.
  destruct (Z.leb_spec (c_cc q) 0); [lia|]. rewrite splx_spl6. f_equal.
  assert (block_of (c_cf q + CBSIZE) = b + 16) as ->.
  { apply block_of_in; unfold CBSIZE; [destruct Hb; split; [lia|Z.div_mod_to_equations; lia] | lia]. }
  assert ((if c_cc q <? b + 16 - c_cf q then c_cc q else b + 16 - c_cf q) = m) as ->.
  { unfold m. destruct (Z.ltb_spec (c_cc q) (b + 16 - c_cf q)); lia. }
  rewrite <- Hch. destruct (Z.eqb_spec flag 0) as [->|].
  - rewrite plain_prefix_0, chars_length; lia.
  - rewrite scan_flag_spec. cbv zeta. rewrite Z2Nat.id by lia.
    change (chars (spl6 st)) with (chars st). rewrite Hch.
    pose proof (plain_prefix_le flag (take (Z.to_nat m) cs)) as Hle. rewrite <- Hch, chars_length in Hle by lia.
    rewrite <- Hch in *. destruct (Nat.ltb_spec (plain_prefix flag (chars st (c_cf q) m)) (Z.to_nat m)); lia.
Qed.

Lemma drop_chars st a n k l :
  0 <= k <= n -> drop (Z.to_nat k) (chars st a n ++ l) = chars st (a + k) (n - k) ++ l.
Proof.
  intros Hk. replace n with (k + (n - k)) at 1 by lia. unfold chars.
  rewrite seqZ_app, map_app, <- app_assoc by lia. rewrite drop_app_length'; [done|].
  by rewrite length_map, length_seqZ.
Qed.

Lemma ndflush_spec st q b r fs others cs k :
  pool st q (b :: r) fs others cs -> 0 < k <= Z.min (c_cc q) (b + 16 - c_cf q) ->
  exists q' st' bs' fs', ndflush q k st = (q', st') /\ pool st' q' bs' fs' others (drop (Z.to_nat k) cs) /\
    same_on others st st' /\ spl st' = spl st /\ (bs' ++ fs') ≡ₚ (b :: r ++ fs).
Proof.
  intros [Hok Hnd [Hcc Hq] Hfree Hch] Hk.
  pose proof Hnd as (Hnd'&Hbr&Hbf&Hbo)%pool_app_cons.
  assert (Hok' : Forall block_ok (r ++ (b :: fs) ++ others)).
  { eapply Permutation_Forall; [|exact Hok]. cbn. apply Permutation_middle. }
  assert (Hb : block_ok b) by (by inversion Hok).
  pose proof (seg_head _ _ _ _ _ _ Hq) as Hcf. unfold info_of in Hcf.
  assert (Hsame : same_on others st (put_free b st)).
  { intros x Hx. split; [|done]. cbn. apply fn_ne. by intros ->. }
  assert (Hperm : (r ++ b :: fs) ≡ₚ (b :: r ++ fs)) by (by rewrite <- Permutation_middle).
  assert (Hdrop : Z.of_nat (length (drop (Z.to_nat k) cs)) = c_cc q - k) by (rewrite length_drop; lia).
  unfold ndflush. destruct (Z.ltb_spec (c_cc q) 0); [lia|]. destruct (Z.eqb_spec (c_cc q) 0); [lia|].
  destruct (Z.ltb_spec CBSIZE k); [unfold CBSIZE in *; lia|]. destruct (Z.leb_spec k 0); [lia|]. cbn [orb].
  change (c_cf (q <| c_cc ::= fun n => n - k |> <| c_cf ::= Z.add k |>)) with (k + c_cf q).
  change (c_cc (q <| c_cc ::= fun n => n - k |> <| c_cf ::= Z.add k |>)) with (c_cc q - k).
  rewrite (aligned_in b) by (done || lia). unfold SIZEOF_CBLOCK.
  destruct (Z.eqb_spec (k + c_cf q) (b + 16)) as [E|E].
  - replace (k + c_cf q - 16) with b by lia. change (c_next (spl6 st) b) with (c_next st b).
    eexists _, _, r, (b :: fs). split; [reflexivity|]. split; [|done]. apply (pool_spl (put_free b (spl6 st))).
    assert (Hpf : frees (put_free b (spl6 st)) b (b :: fs)).
    { apply (put_free_pool (spl6 st)); [done|]. by eapply frees_frame; [|exact Hfree]. }
    split; try done. destruct r as [|b' r].
    + destruct Hq as (_&?&->&->). cbn [negb Z.eqb]. rewrite chars_length in Hcc by lia.
      rewrite <- (app_nil_r (chars _ _ _)), drop_chars by lia.
      replace (c_cl q - c_cf q - k) with 0 by lia. change (negb (NULL =? NULL)) with false.
      change (chars st (c_cf q + k) 0) with (@nil Z). split; [cbn; lia | done].
    + destruct Hq as (_&->&cs'&->&Hseg). rewrite drop_chars by lia.
      replace (b + 16 - c_cf q - k) with 0 by lia.
      assert (block_ok b') as [? _].
      { apply Forall_cons in Hok as [_ Hok]. by apply Forall_cons in Hok as [? _]. }
      destruct (Z.eqb_spec b' NULL); [unfold NULL in *; lia|]. cbn [negb].
      rewrite drop_chars in Hdrop by lia. replace (b + 16 - c_cf q - k) with 0 in Hdrop by lia.
      split; [cbn; cbn in Hdrop; lia|]. change (seg (put_free b (spl6 st)) (info_of b') (b' :: r) (c_cl q) cs').
      eapply seg_frame; [|exact Hseg]. intros x Hx. split; [|done]. cbn. apply fn_ne. by intros ->.
  - assert (Hmid : forall l, drop (Z.to_nat k) (chars st (c_cf q) (b + 16 - c_cf q) ++ l) =
                     chars st (k + c_cf q) (b + 16 - (k + c_cf q)) ++ l).
    { intros l. rewrite drop_chars by lia. do 2 f_equal; lia. }
    destruct r as [|b' r].
    + destruct Hq as (_&Hcl&Hnx&Ecs). assert (c_cc q = c_cl q - c_cf q) as Ecc.
      { rewrite Hcc, Ecs, chars_length; lia. }
      assert (Edrop : drop (Z.to_nat k) cs = chars st (k + c_cf q) (c_cl q - (k + c_cf q))).
      { rewrite Ecs, <- (app_nil_r (chars _ _ (c_cl q - c_cf q))), drop_chars, app_nil_r by lia. f_equal; lia. }
      destruct (Z.eqb_spec (c_cc q - k) 0) as [E0|E0].
      * rewrite (block_of_in b) by (done || lia). eexists _, _, [], (b :: fs).
        split; [reflexivity|]. split; [|done]. apply (pool_spl (put_free b (spl6 st))). split; try done.
        -- rewrite Edrop. replace (c_cl q - (k + c_cf q)) with 0 by lia.
           change (chars st (k + c_cf q) 0) with (@nil Z). split; [cbn; lia | done].
        -- apply (put_free_pool (spl6 st)); [done|]. by eapply frees_frame; [|exact Hfree].
      * eexists _, _, [b], fs. split; [reflexivity|]. split; [|by repeat split].
        rewrite splx_spl6. split; try done. rewrite Edrop in *. split; [cbn; lia|].
        split; [unfold info_of; cbn; lia|]. cbn. split; [lia|]. done.
    + destruct Hq as (_&Hnx&cs'&Ecs&Hseg). rewrite Ecs, Hmid in *.
      pose proof (seg_nonnil _ _ _ _ _ Hseg).
      destruct (Z.eqb_spec (c_cc q - k) 0); [rewrite length_app in Hdrop; lia|].
      eexists _, _, (b :: b' :: r), fs. split; [reflexivity|]. split; [|by repeat split].
      rewrite splx_spl6. split; try done. split; [cbn; lia|]. split; [unfold info_of; cbn; lia|].
      split; [done|]. exists cs'. done.
Qed.

(** ** cinit *)

Lemma cinit_loop_spec cfree n : forall k cp fs st,
  block_ok cp -> cfree <= cp -> frees st (cfreelist st) fs -> NoDup fs ->
  Forall (fun b => block_ok b /\ cfree <= b < cp) fs ->
  cp + 16 * Z.of_nat k <= cfree + 16 * (NCLIST - 1) + 16 ->
  cfree + 16 * (NCLIST - 1) < cp + 16 * Z.of_nat k -> (k <= n)%nat ->
  exists fs', let st' := cinit_loop n cp (cfree + SIZEOF_CBLOCK * (NCLIST - 1)) st in
    length fs' = (k + length fs)%nat /\ frees st' (cfreelist st') fs' /\ NoDup fs' /\
    Forall (fun b => block_ok b /\ cfree <= b < cp + 16 * Z.of_nat k) fs'.
Proof.
  unfold SIZEOF_CBLOCK, NCLIST. induction n as [|n IH]; intros k cp fs st Hcp Hlo Hf Hnd Hall Hhi Hend Hk.
  - assert (k = O) as -> by lia. exists fs. replace (cp + 16 * Z.of_nat 0) with cp by lia. done.
  - cbn [cinit_loop]. destruct (Z.leb_spec cp (cfree + 16 * (100 - 1))).
    + destruct k as [|k]; [lia|].
      destruct (IH k (cp + 16) (cp :: fs) (put_free cp st)) as (fs'&Hlen&Hf'&Hnd'&Hall'); try lia.
      * destruct Hcp. split; [lia|]. Z.div_mod_to_equations. lia.
      * apply put_free_pool; [|done]. intros Hin. rewrite Forall_forall in Hall. apply Hall in Hin. lia.
      * constructor; [|done]. intros Hin. rewrite Forall_forall in Hall. apply Hall in Hin. lia.
      * constructor; [split; [done|lia]|]. eapply Forall_impl; [exact Hall|]. cbn. intros b [? ?]. split; [done|lia].
      * exists fs'. rewrite Hlen. cbn [length]. split; [lia|]. split; [done|]. split; [done|].
        eapply Forall_impl; [exact Hall'|]. cbn. intros b [? ?]. split; [done|lia].
    + destruct k as [|k]; [|lia]. exists fs. replace (cp + 16 * Z.of_nat 0) with cp by lia. done.
Qed.

(** ** Properties *)

Inductive op := Put (c : Z) | Get.

Definition run_op (o : op) (q : clist) (st : cstate) : Z * clist * cstate :=
  match o with Put c => putc c q st | Get => getc q st end.

Fixpoint run_ops (ops : list op) (q : clist) (st : cstate) : list Z * clist * cstate :=
  match ops with
  | [] => ([], q, st)
  | o :: r =>
      let '(v, q, st) := run_op o q st in
      let '(vs, q, st) := run_ops r q st in (v :: vs, q, st)
  end.

(** The abstract queue: a list of characters.  [None] if a result is not one a
    first-in first-out queue could give; a refused [Put] changes nothing. *)
Definition fifo_step (o : op) (v : Z) (cs : list Z) : option (list Z) :=
  match o with
  | Put c => if v =? 0 then Some (cs ++ [u8 c]) else if v =? -1 then Some cs else None
  | Get => match cs with
           | [] => if v =? -1 then Some [] else None
           | c :: cs' => if v =? c then Some cs' else None
           end
  end.

Fixpoint fifo (ops : list op) (vs cs : list Z) : option (list Z) :=
  match ops, vs with
  | [], [] => Some cs
  | o :: r, v :: vs' => cs' ← fifo_step o v cs; fifo r vs' cs'
  | _, _ => None
  end.

Lemma same_on_trans others st1 st2 st3 :
  same_on others st1 st2 -> same_on others st2 st3 -> same_on others st1 st3.
Proof.
  intros H1 H2 b Hb. destruct (H1 b Hb) as [N1 I1], (H2 b Hb) as [N2 I2].
  split; [by rewrite N2|]. intros a Ha. by rewrite I2, I1.
Qed.

Lemma run_op_fifo o q st bs fs others cs :
  pool st q bs fs others cs ->
  let '(v, q', st') := run_op o q st in
  exists cs' bs' fs', fifo_step o v cs = Some cs' /\ pool st' q' bs' fs' others cs' /\
    (bs' ++ fs') ≡ₚ (bs ++ fs) /\ same_on others st st' /\ spl st' = spl st.
Proof.
  intros H. destruct o as [c|]; cbn.
  - pose proof (putc_spec c st q bs fs others cs H) as Hp. destruct (putc c q st) as [[v q'] st'].
    destruct Hp as (Hs&Hspl&[(->&->&_&->&Hp)|(->&bs'&fs'&Hp&Hperm)]); cbn; eauto 10.
  - destruct cs as [|c cs].
    + pose proof (queue_empty_eq _ _ _ _ _ H) as [-> ->]. unfold getc. cbn.
      rewrite splx_spl6. exists [], [], fs. repeat split; (done || apply H).
    + destruct (getc_some _ _ _ _ _ _ _ H) as (q'&st'&bs'&fs'&->&Hp&Hs&Hspl&Hperm).
      rewrite Z.eqb_refl. eauto 10.
Qed.

(** C27: any sequence of [putc] and [getc] on a queue returns what a first-in
    first-out queue of characters would (each character accepted comes out
    once, in order, reduced to a byte), restores the processor priority, never
    touches the blocks of other queues, and neither loses nor duplicates a
    block: the blocks of the queue and of the free list are the same ones. *)
Theorem clist_fifo ops q st bs fs others cs :
  pool st q bs fs others cs ->
  let '(vs, q', st') := run_ops ops q st in
  exists cs' bs' fs', fifo ops vs cs = Some cs' /\ pool st' q' bs' fs' others cs' /\
    (bs' ++ fs') ≡ₚ (bs ++ fs) /\ same_on others st st' /\ spl st' = spl st.
Proof.
  revert q st bs fs cs. induction ops as [|o ops IH]; intros q st bs fs cs H; cbn.
  - exists cs, bs, fs. repeat split; (done || apply H).
  - pose proof (run_op_fifo o q st bs fs others cs H) as Ho. destruct (run_op o q st) as [[v q1] st1].
    destruct Ho as (cs1&bs1&fs1&Ef&Hp&Hperm&Hs&Hspl).
    specialize (IH q1 st1 bs1 fs1 cs1 Hp). destruct (run_ops ops q1 st1) as [[vs q2] st2].
    destruct IH as (cs2&bs2&fs2&Ef2&Hp2&Hperm2&Hs2&Hspl2). exists cs2, bs2, fs2.
    rewrite Ef. cbn. split; [done|]. split; [done|]. split; [by rewrite Hperm2|].
    split; [by eapply same_on_trans | congruence].
Qed.

(** [putc] fails, with -1 and no effect on any queue, exactly when a block
    is needed (the queue is empty, or its last block is full) and the pool has
    none; otherwise it appends the character. *)
Theorem putc_full c q st bs fs others cs :
  pool st q bs fs others cs ->
  ((putc c q st).1.1 = -1 <-> fs = [] /\ (cs = [] \/ aligned (c_cl q) = true)) /\
  ((putc c q st).1.1 = -1 -> (putc c q st).1.2 = q).
Proof.
  intros H. pose proof (putc_spec c st q bs fs others cs H) as Hp.
  destruct (putc c q st) as [[v q'] st'] eqn:E. cbn.
  destruct Hp as (_&_&[(->&->&?&->&_)|(->&bs'&fs'&Hp&Hperm)]); [tauto|].
  split; [|done]. split; [done|]. intros [-> Hc]. exfalso.
  pose proof H as [Hok Hnd [Hcc Hq] Hfree Hch]. cbn in Hfree.
  assert (Hf0 : cfreelist st = NULL) by exact Hfree.
  destruct bs as [|b r].
  - destruct Hq as (_&_&Hcl). unfold putc in E. rewrite Hcl in E. cbn in E. rewrite Hf0 in E. done.
  - destruct Hc as [->|Hal]; [by apply seg_nonnil in Hq; cbn in Hq; lia|].
    apply Forall_app in Hok as [[Hb Hr]%Forall_cons _].
    destruct (queue_nonempty st q b r cs Hb Hr) as [Hcl Hpos]; [done|].
    rewrite putc_append in E by (done || lia). unfold append in E. rewrite Hal in E.
    cbn in E. rewrite fn_eq, Hf0 in E. done.
Qed.

(** The block copy [q_to_b] is the optimised form of [getc] repeated: on a
    queue that is not empty it moves the same characters and leaves the same
    queue, pool and priority. *)
Theorem q_to_b_is_getc q cc st bs fs others cs :
  pool st q bs fs others cs -> cs <> [] -> 0 < cc ->
  q_to_b q cc st = getc_n (Z.to_nat cc) q st.
Proof.
  intros H Hne Hcc. rewrite (getc_n_loop (Z.to_nat cc) q st bs fs others cs H Hne) by lia.
  unfold q_to_b. pose proof H as [_ _ [Hq _] _ _]. destruct cs as [|c cs]; [done|]. cbn in Hq.
  destruct (Z.leb_spec cc 0); [lia|]. destruct (Z.leb_spec (c_cc q) 0); [lia|]. done.
Qed.

(** The block copy [b_to_q] is the optimised form of [putc] repeated until
    it is refused: same count left over, same queue, same pool. *)
Theorem b_to_q_is_putc cp q st bs fs others cs :
  pool st q bs fs others cs -> b_to_q cp q st = putc_all cp q st.
Proof. apply b_to_q_putc_all. Qed.

(** [ndqb] counts characters that are next in the queue, contiguous in its
    first block and free of [flag], without changing anything; flushing any
    part of what it reports removes exactly those characters. *)
Theorem ndqb_ndflush q st b r fs others cs flag k :
  pool st q (b :: r) fs others cs ->
  exists n, ndqb q flag st = (Z.of_nat n, st) /\ (n <= length cs)%nat /\ (n <= 12)%nat /\
    Forall (fun c => has c flag = false) (take n cs) /\ chars st (c_cf q) (Z.of_nat n) = take n cs /\
    (0 < k <= Z.of_nat n -> exists q' st' bs' fs', ndflush q k st = (q', st') /\
       pool st' q' bs' fs' others (drop (Z.to_nat k) cs) /\ same_on others st st' /\
       (bs' ++ fs') ≡ₚ (b :: r ++ fs)).
Proof.
  intros H. pose proof H as [Hok _ Hq _ _]. apply Forall_app in Hok as [[Hb _]%Forall_cons _].
  pose proof Hq as [Hcc Hsg]. pose proof (seg_head _ _ _ _ _ _ Hsg) as Hcf. unfold info_of in Hcf.
  destruct (front_run st q b r cs Hb Hq) as [Hm Hch].
  pose proof (ndqb_spec st q b r cs flag Hb Hq) as E. cbv zeta in E.
  set (m := Z.min (c_cc q) (b + 16 - c_cf q)) in *.
  exists (plain_prefix flag (take (Z.to_nat m) cs)).
  pose proof (plain_prefix_le flag (take (Z.to_nat m) cs)) as Hle. rewrite length_take in Hle.
  set (n := plain_prefix flag (take (Z.to_nat m) cs)) in *.
  assert (Htt : take n cs = take n (take (Z.to_nat m) cs)) by (rewrite take_take; f_equal; lia).
  split; [exact E|]. split; [lia|]. split; [lia|]. split; [|split].
  - rewrite Htt. unfold n. clear. induction (take (Z.to_nat m) cs) as [|c l IH]; cbn; [constructor|].
    destruct (has c flag) eqn:?; cbn; [constructor | by constructor].
  - rewrite Htt, <- Hch. unfold chars. replace m with (Z.of_nat n + (m - Z.of_nat n)) by lia.
    rewrite seqZ_app, map_app by lia. symmetry. apply take_app_length'.
    rewrite length_map, length_seqZ. lia.
  - intros Hk. destruct (ndflush_spec st q b r fs others cs k H) as (q'&st'&bs'&fs'&?&?&?&_&?); [lia|].
    exists q', st', bs', fs'. done.
Qed.

(** After [cinit] every whole aligned block of the static pool is on the
    free list exactly once, and none outside it: 100 blocks when the pool
    itself is aligned and 99 otherwise. *)
Theorem cinit_pool cfree cdevsw st :
  0 < cfree -> cfreelist st = NULL ->
  let st' := cinit cfree cdevsw st in
  exists fs, frees st' (cfreelist st') fs /\ NoDup fs /\
    length fs = (if aligned cfree then 100 else 99)%nat /\
    Forall (fun b => block_ok b /\ cfree <= b /\ b + 16 <= cfree + 16 * NCLIST) fs.
Proof.
  intros Hpos Hfl st'. unfold cinit in st'. fold (block_of (cfree + CROUND)) in st'.
  unfold CROUND in st'.
  assert (Ecp : block_of (cfree + 15) = cfree + (if aligned cfree then 0 else 16 - cfree mod 16)).
  { rewrite block_of_eq, aligned_eq. destruct (Z.eqb_spec (cfree mod 16) 0); Z.div_mod_to_equations; lia. }
  assert (0 <= cfree mod 16 < 16) by (apply Z.mod_pos_bound; lia).
  assert (Hcp : block_ok (block_of (cfree + 15))).
  { split; [|rewrite block_of_eq; Z.div_mod_to_equations; lia].
    rewrite Ecp. destruct (aligned cfree); lia. }
  destruct (cinit_loop_spec cfree (Z.to_nat NCLIST) (if aligned cfree then 100 else 99)
              (block_of (cfree + 15)) [] st) as (fs&Hlen&Hf&Hnd&Hall); try done.
  - rewrite Ecp. destruct (aligned cfree); lia.
  - constructor.
  - rewrite Ecp, aligned_eq. unfold NCLIST. destruct (Z.eqb_spec (cfree mod 16) 0); lia.
  - rewrite Ecp, aligned_eq. unfold NCLIST. destruct (Z.eqb_spec (cfree mod 16) 0); lia.
  - unfold NCLIST. destruct (aligned cfree); lia.
  - exists fs. split; [by eapply frees_frame; [|exact Hf]|]. split; [done|].
    split; [rewrite Hlen; cbn; lia|]. eapply Forall_impl; [exact Hall|]. cbn.
    intros b [Hb ?]. split; [done|]. split; [lia|]. destruct Hb as [_ Hb], Hcp as [_ Hcp].
    rewrite Ecp, aligned_eq in *. unfold NCLIST in *.
    destruct (Z.eqb_spec (cfree mod 16) 0); Z.div_mod_to_equations; lia.
Qed.

(** [q_to_b] on an empty queue returns nothing but leaves interrupts
    disabled: the early return skips [splx]. *)
Theorem q_to_b_empty_spl q cc st :
  0 < cc -> c_cc q <= 0 -> q_to_b q cc st = ([], CList 0 NULL NULL, st <| spl := false |>).
Proof.
  intros. unfold q_to_b. destruct (Z.leb_spec cc 0); [lia|]. by destruct (Z.leb_spec (c_cc q) 0); [|lia].
Qed.

(** ** Witnesses *)

(** Block 48 holds two characters of a queue; 16 and 32 are free. *)
Definition st0 : cstate := CState (fun b => if b =? 16 then 32 else 0) (fun _ => 65) 16 0 0 true.
Definition q0 : clist := CList 2 52 54.

Lemma pool0 : pool st0 q0 [48] [16; 32] [] [65; 65].
Proof.
  split.
  - repeat constructor.
  - cbn. repeat (constructor; [rewrite ?elem_of_cons, elem_of_nil; lia|]). constructor.
  - split; [done|]. cbn. unfold info_of. split; [lia|]. split; [lia|]. done.
  - done.
  - intros a. cbn. lia.
Qed.

Lemma clist_fifo_witness :
  (run_ops [Put 300; Get; Get; Get; Get] q0 st0).1.1 = [0; 65; 65; 44; -1] /\
  let '(vs, q', st') := run_ops [Put 300; Get; Get; Get; Get] q0 st0 in
  exists cs' bs' fs', fifo [Put 300; Get; Get; Get; Get] vs [65; 65] = Some cs' /\
    pool st' q' bs' fs' [] cs' /\
    (bs' ++ fs') ≡ₚ ([48] ++ [16; 32]) /\ same_on [] st0 st' /\ spl st' = spl st0.
Proof. split; [reflexivity|]. apply (clist_fifo _ q0 st0 [48] [16; 32] [] [65; 65] pool0). Defined.

Lemma putc_full_witness :
  ((putc 1 q0 st0).1.1 = -1 <-> [16; 32] = [] /\ ([65; 65] = [] \/ aligned (c_cl q0) = true)) /\
  ((putc 1 q0 st0).1.1 = -1 -> (putc 1 q0 st0).1.2 = q0).
Proof. apply (putc_full 1 q0 st0 [48] [16; 32] [] [65; 65] pool0). Defined.

Lemma q_to_b_is_getc_witness :
  (q_to_b q0 5 st0).1.1 = [65; 65] /\ q_to_b q0 5 st0 = getc_n 5 q0 st0.
Proof.
  split; [reflexivity|]. apply (q_to_b_is_getc q0 5 st0 [48] [16; 32] [] [65; 65] pool0); [done | lia].
Defined.

Lemma b_to_q_is_putc_witness :
  (b_to_q [1; 2; 3] q0 st0).1.1 = 0 /\ b_to_q [1; 2; 3] q0 st0 = putc_all [1; 2; 3] q0 st0.
Proof. split; [reflexivity|]. apply (b_to_q_is_putc _ q0 st0 [48] [16; 32] [] [65; 65] pool0). Defined.

Lemma ndqb_ndflush_witness :
  ndqb q0 0 st0 = (2, st0) /\
  exists n, ndqb q0 0 st0 = (Z.of_nat n, st0) /\ (n <= 2)%nat /\ (n <= 12)%nat /\
    Forall (fun c => has c 0 = false) (take n [65; 65]) /\
    chars st0 (c_cf q0) (Z.of_nat n) = take n [65; 65] /\
    (0 < 2 <= Z.of_nat n -> exists q' st' bs' fs', ndflush q0 2 st0 = (q', st') /\
       pool st' q' bs' fs' [] (drop (Z.to_nat 2) [65; 65]) /\ same_on [] st0 st' /\
       (bs' ++ fs') ≡ₚ [48; 16; 32]).
Proof. split; [reflexivity|]. apply (ndqb_ndflush q0 st0 48 [] [16; 32] [] [65; 65] 0 2 pool0). Defined.

Lemma cinit_pool_witness :
  cfreelist (cinit 4100 [7; 7; 0] (CState (fun _ => 0) (fun _ => 0) 0 0 0 true)) = 5680 /\
  exists fs, frees (cinit 4100 [7; 7; 0] (CState (fun _ => 0) (fun _ => 0) 0 0 0 true))
      (cfreelist (cinit 4100 [7; 7; 0] (CState (fun _ => 0) (fun _ => 0) 0 0 0 true))) fs /\ NoDup fs /\
    length fs = (if aligned 4100 then 100 else 99)%nat /\
    Forall (fun b => block_ok b /\ 4100 <= b /\ b + 16 <= 4100 + 16 * NCLIST) fs.
Proof. split; [reflexivity|]. apply (cinit_pool 4100 [7; 7; 0] (CState (fun _ => 0) (fun _ => 0) 0 0 0 true)); [lia | done]. Defined.

Lemma q_to_b_empty_spl_witness :
  q_to_b (CList 0 0 0) 4 st0 = ([], CList 0 NULL NULL, st0 <| spl := false |>).
Proof. apply q_to_b_empty_spl; cbn; lia. Defined.

End Clist.
