(* ===== verification/Callout.v ===== *)
(** * Callout: timed calls (src/usr/sys/sys/clock.c, [timeout] and the callout
    part of [clock])

    The callout table is an array of [NCALL] entries ended by one whose
    [c_func] is null; the time of an entry is relative to the entry before it.
    A write past the table is the result [Overrun]. *)
From S2P Require Import Prelude.

Module Callout.

Record callo := Callo { c_time : Z; c_arg : Z; c_func : Z }.
#[export] Instance eta_callo : Eta callo := fun r => Callo (c_time r) (c_arg r) (c_func r).

Definition NCALL : nat := 20.

Inductive tres := TOk (l : list callo) | TPanic | TOverrun.

(** [while (p1->c_func != 0 && p1->c_time <= t) { t -= p1->c_time; p1++; }]:
    the entries passed, the table from [p1] on, and [t]. *)
Fixpoint timeout_scan (t : Z) (l : list callo) : list callo * list callo * Z :=
  match l with
  | [] => ([], [], t)
  | e :: r =>
      if negb (c_func e =? 0) && (c_time e <=? t)
      then let '(pre, rest, t') := timeout_scan (t - c_time e) r in (e :: pre, rest, t')
      else ([], l, t)
  end.

(** Move the entries from [p1] to the null one up by one, and put [new] at
    [p1]; [None] when the null entry was the last of the table. *)
Fixpoint shift_in (new : callo) (l : list callo) : option (list callo) :=
  match l with
  | [] => None
  | e :: r =>
      if c_func e =? 0
      then match r with [] => None | _ :: r' => Some (new :: e :: r') end
      else rest ← shift_in e r; Some (new :: rest)
  end.

Definition timeout (fn arg tim : Z) (l : list callo) : tres :=
  let '(pre, rest, t) := timeout_scan tim l in
  if (NCALL - 1 <=? length pre)%nat then TPanic
  else match rest with
       | [] => TOverrun
       | p1 :: r =>
           match shift_in (Callo t arg fn) (p1 <| c_time ::= fun x => x - t |> :: r) with
           | Some rest' => TOk (pre ++ rest')
           | None => TOverrun
           end
       end.

(** The clock interrupt.  [while (p2->c_time<=0 && p2->c_func!=NULL) p2++;
    p2->c_time--;] *)
Fixpoint tick_first (l : list callo) : list callo :=
  match l with
  | [] => []
  | e :: r =>
      if (c_time e <=? 0) && negb (c_func e =? 0) then e :: tick_first r
      else e <| c_time ::= Z.pred |> :: r
  end.

(** The entries at the head that are due, and the table from [p1] on. *)
Fixpoint split_due (l : list callo) : list callo * list callo :=
  match l with
  | [] => ([], [])
  | e :: r =>
      if negb (c_func e =? 0) && (c_time e <=? 0)
      then let '(d, rest) := split_due r in (e :: d, rest)
      else ([], l)
  end.

(** [while ((p2->c_func = p1->c_func)) ...]: the entries from [p1] on copied to
    the front; [old] is the table they are copied over. *)
Fixpoint copy_down (p1 old : list callo) : list callo :=
  match p1, old with
  | e :: r, o :: old' =>
      if c_func e =? 0 then o <| c_func := 0 |> :: old' else e :: copy_down r old'
  | _, _ => old
  end.

(** The calls made in one tick, in order, as (function, argument) pairs, and
    the table after it, when the functions called do not change the table. *)
Definition clock_callouts (l : list callo) : list (Z * Z) * list callo :=
  match l with
  | [] => ([], l)
  | e0 :: _ =>
      if c_func e0 =? 0 then ([], l)
      else
        let l := tick_first l in
        match l with
        | e :: _ =>
            if c_time e <=? 0 then
              let '(due, rest) := split_due l in
              (map (fun e => (c_func e, c_arg e)) due, copy_down rest l)
            else ([], l)
        | [] => ([], l)
        end
  end.

(** ** What the table means *)

(** A table: [n] entries with a function, then the null entry, [NCALL] in all. *)
Definition table (l pend slack : list callo) : Prop :=
  l = pend ++ slack /\ Forall (fun e => c_func e <> 0) pend /\
  (exists t r, slack = t :: r /\ c_func t = 0) /\ length l = NCALL.

(** Absolute times: (ticks to go, function, argument). *)
Fixpoint due_times (acc : Z) (pend : list callo) : list (Z * Z * Z) :=
  match pend with
  | [] => []
  | e :: r => (acc + c_time e, c_func e, c_arg e) :: due_times (acc + c_time e) r
  end.

Lemma due_times_app acc p1 p2 :
  due_times acc (p1 ++ p2) =
    due_times acc p1 ++ due_times (acc + fold_right (fun e s => c_time e + s) 0 p1) p2.
Proof.
  revert acc. induction p1 as [|e r IH]; intros acc; cbn; [by rewrite Z.add_0_r|].
  rewrite IH. do 2 f_equal. f_equal. lia.
Qed.

Definition sum_times (p : list callo) : Z := fold_right (fun e s => c_time e + s) 0 p.

Lemma timeout_scan_spec t pend tl r :
  Forall (fun e => c_func e <> 0) pend -> c_func tl = 0 ->
  exists p1 p2, pend = p1 ++ p2 /\
    timeout_scan t (pend ++ tl :: r) = (p1, p2 ++ tl :: r, t - sum_times p1) /\
    (forall e q, p2 = e :: q -> t < sum_times p1 + c_time e) /\
    (Forall (fun e => 0 <= c_time e) pend -> Forall (fun d => d.1.1 <= t) (due_times 0 p1)) /\
    (0 <= t -> sum_times p1 <= t).
Proof.
  intros Hp Ht. revert t. induction Hp as [|e p He Hp IH]; intros t; cbn.
  - exists [], []. rewrite Ht. cbn. split; [done|]. split; [unfold sum_times; cbn; f_equal; lia|]. split; [done|]. split; [constructor|done].
  - destruct (Z.eqb_spec (c_func e) 0); [done|]. destruct (Z.leb_spec (c_time e) t); cbn.
    + destruct (IH (t - c_time e)) as (p1&p2&->&->&Hn&Hle&Hs). exists (e :: p1), p2.
      split; [done|]. split; [unfold sum_times; cbn; f_equal; lia|].
      split; [intros e' q E; specialize (Hn e' q E); unfold sum_times in *; cbn; lia|].
      split; [|intros _; specialize (Hs ltac:(lia)); unfold sum_times in *; cbn; lia].
      intros [_ Hnn]%Forall_cons. cbn. constructor; [cbn; lia|]. specialize (Hle Hnn).
      clear -Hle. revert Hle.
      assert (forall a b s, Forall (fun d => d.1.1 <= t - b) (due_times a s) ->
                            Forall (fun d => d.1.1 <= t) (due_times (a + b) s)) as G.
      { intros a b s. revert a. induction s as [|x s IHs]; intros a; cbn; [constructor|].
        intros [Hx Hs]%Forall_cons. constructor; [cbn in *; lia|].
        replace (a + b + c_time x) with (a + c_time x + b) by lia. by apply IHs. }
      apply (G 0 (c_time e)).
    + exists [], (e :: p). split; [done|]. split; [unfold sum_times; cbn; f_equal; lia|].
      split; [|split; [intros; constructor | done]]. intros e' q [= <- <-]. unfold sum_times; cbn. lia.
Qed.

Lemma sum_times_app p q : sum_times (p ++ q) = sum_times p + sum_times q.
Proof. unfold sum_times. induction p as [|x p IH]; cbn; [done|]. rewrite IH. lia. Qed.
Lemma sum_times_nonneg p : Forall (fun e => 0 <= c_time e) p -> 0 <= sum_times p.
Proof. unfold sum_times. induction 1; cbn in *; lia. Qed.

Lemma shift_in_spec new pend t r x :
  Forall (fun e => c_func e <> 0) pend -> c_func t = 0 ->
  shift_in new (pend ++ t :: x :: r) = Some (new :: pend ++ t :: r).
Proof.
  intros Hp Ht. revert new. induction Hp as [|e p He Hp IH]; intros new; cbn.
  - by rewrite Ht.
  - destruct (Z.eqb_spec (c_func e) 0); [done|]. by rewrite IH.
Qed.

Lemma shift_in_overrun new pend t :
  Forall (fun e => c_func e <> 0) pend -> c_func t = 0 -> shift_in new (pend ++ [t]) = None.
Proof.
  intros Hp Ht. revert new. induction Hp as [|e p He Hp IH]; intros new; cbn.
  - by rewrite Ht.
  - destruct (Z.eqb_spec (c_func e) 0); [done|]. by rewrite IH.
Qed.


(** [n] clock interrupts: the calls of each, and the table at the end. *)
Fixpoint ticks (n : nat) (l : list callo) : list (list (Z * Z)) * list callo :=
  match n with
  | O => ([], l)
  | S n =>
      let '(c, l1) := clock_callouts l in
      let '(cs, l2) := ticks n l1 in (c :: cs, l2)
  end.

Abbreviation call := (fun d : Z * Z * Z => (d.1.2, d.2)).
Abbreviation closer := (fun d : Z * Z * Z => (d.1.1 - 1, d.1.2, d.2)).
Abbreviation nonneg := (Forall (fun e => 0 <= c_time e)).
Abbreviation active := (Forall (fun e => c_func e <> 0)).

Lemma due_ge acc p : nonneg p -> Forall (fun d => acc <= d.1.1) (due_times acc p).
Proof.
  intros H. revert acc. induction H as [|e p He Hp IH]; intros acc; cbn; constructor; cbn; [lia|].
  eapply Forall_impl; [apply IH|]. cbn. intros; lia.
Qed.

Lemma due_shift a b p :
  due_times (a - b) p = map (fun d => (d.1.1 - b, d.1.2, d.2)) (due_times a p).
Proof.
  revert a. induction p as [|e p IH]; intros a; cbn; [done|].
  replace (a - b + c_time e) with (a + c_time e - b) by lia. by rewrite IH.
Qed.

(** After [tick_first], what is due is at the head of the table. *)
Lemma tick_split pend t r :
  active pend -> nonneg pend -> c_func t = 0 ->
  exists p1 p2 t', tick_first (pend ++ t :: r) = p1 ++ p2 ++ t' :: r /\ c_func t' = 0 /\
    length (p1 ++ p2) = length pend /\
    active (p1 ++ p2) /\ nonneg (p1 ++ p2) /\ Forall (fun e => c_time e <= 0) p1 /\
    (forall e q, p2 = e :: q -> 0 < c_time e) /\
    map call (due_times 0 p1) = map call (filter (fun d => d.1.1 <= 1) (due_times 0 pend)) /\
    due_times 0 p2 = map closer (filter (fun d => 1 < d.1.1) (due_times 0 pend)).
Proof.
  intros Ha Hn Ht. induction Ha as [|e p He Ha IH]; cbn [app tick_first].
  - exists [], []. rewrite Ht, andb_false_r. eexists. split; [done|]. split; [exact Ht|]. repeat split; try done; constructor.
  - apply Forall_cons in Hn as [Hne Hn].
    destruct (Z.eqb_spec (c_func e) 0); [done|]. destruct (Z.leb_spec (c_time e) 0) as [H0|H0]; cbn [negb andb].
    + destruct (IH Hn) as (p1&p2&t'&->&Ht'&Hl&Ha'&Hn'&Hd&Hp2&E1&E2). exists (e :: p1), p2, t'.
      split; [done|]. split; [done|]. split; [cbn; by f_equal|]. split; [by constructor|].
      split; [by constructor|]. split; [by constructor|]. split; [done|].
      assert (c_time e = 0) as Ez by lia. cbn [due_times map]. rewrite Ez, Z.add_0_r.
      rewrite filter_cons_True, filter_cons_False by (cbn; lia). cbn [map]. rewrite E1. done.
    + cbn [due_times]. rewrite Z.add_0_l.
      pose proof (due_ge (c_time e) p Hn) as Hge.
      destruct (decide (c_time e = 1)) as [E1|E1].
      * (* the first positive entry becomes due, with those at distance 0 after it *)
        set (e' := e <| c_time ::= Z.pred |>). rewrite E1.
        assert (exists q1 q2, p = q1 ++ q2 /\ Forall (fun x => c_time x = 0) q1 /\
                  (forall x q, q2 = x :: q -> 0 < c_time x)) as (q1&q2&->&Hq1&Hq2).
        { clear -Hn. induction Hn as [|x p Hx Hn (q1&q2&->&H1&H2)].
          - exists [], []. repeat constructor. done.
          - destruct (decide (c_time x = 0)) as [E0|E0].
            + exists (x :: q1), q2. repeat split; [by constructor|done].
            + exists [], (x :: q1 ++ q2). repeat split; [constructor|].
              intros ? ? [= <- _]. lia. }
        assert (forall a q, Forall (fun x => c_time x = 0) q ->
                  due_times a q = map (fun x => (a, c_func x, c_arg x)) q) as G.
        { intros a q Hq. induction Hq as [|x q Ex Hq IHq]; cbn; [done|]. by rewrite Ex, Z.add_0_r, IHq. }
        assert (forall q, Forall (fun x => c_time x = 0) q ->
                  fold_right (fun e s => c_time e + s) 0 q = 0) as Gs.
        { intros q Hq. induction Hq as [|x q Ex Hq IHq]; cbn; lia. }
        apply Forall_app in Hn as [Hn1 Hn2]. pose proof Ha as [Ha1 Ha2]%Forall_app.
        exists (e' :: q1), q2, t. split; [cbn; by rewrite <- app_assoc|]. split; [done|].
        split; [done|]. split; [by constructor|].
        split; [constructor; [cbn; lia | by apply Forall_app]|].
        split; [constructor; [cbn; lia | eapply Forall_impl; [exact Hq1 | cbn; intros; lia]]|].
        split; [done|]. rewrite due_times_app, Gs, Z.add_0_r, !(G _ q1) by done.
        assert (Forall (fun d => 1 < d.1.1) (due_times 1 q2)) as Hq2'.
        { destruct q2 as [|x q2]; cbn; [constructor|]. apply Forall_cons in Hn2 as [_ Hn2].
          specialize (Hq2 x q2 eq_refl). constructor; [cbn; lia|].
          eapply Forall_impl; [by apply due_ge|]. cbn. intros; lia. }
        cbn [due_times]. change (c_time e') with (Z.pred (c_time e)). rewrite E1.
        rewrite filter_cons_True, filter_cons_False by (cbn; lia). rewrite !filter_app.
        rewrite (filter_list_all (fun d => d.1.1 <= 1) (map _ q1))
          by (apply Forall_forall; intros ? (?&->&_)%list_elem_of_fmap; cbn; lia).
        rewrite (filter_list_none (fun d => 1 < d.1.1) (map _ q1))
          by (apply Forall_forall; intros ? (?&->&_)%list_elem_of_fmap; cbn; lia).
        rewrite (filter_list_none (fun d => d.1.1 <= 1) (due_times 1 q2))
          by (eapply Forall_impl; [exact Hq2'|]; cbn; intros; lia).
        rewrite (filter_list_all (fun d => 1 < d.1.1) (due_times 1 q2)) by exact Hq2'.
        rewrite app_nil_r, app_nil_l. change (0 + Z.pred 1) with 0. rewrite (G 0 q1) by done. split.
        -- cbn. f_equal. by rewrite !map_map.
        -- change 0 with (1 - 1). apply due_shift.
      * exists [], (e <| c_time ::= Z.pred |> :: p), t.
        split; [done|]. split; [done|]. split; [done|]. split; [by constructor|].
        split; [constructor; [cbn; lia|done]|]. split; [constructor|].
        split; [intros ? ? [= <- _]; cbn; lia|].
        assert (Forall (fun d => 1 < d.1.1) ((c_time e, c_func e, c_arg e) :: due_times (c_time e) p)) as Hall
          by (constructor; [cbn; lia | eapply Forall_impl; [exact Hge|]; cbn; intros; lia]).
        rewrite filter_list_none by (eapply Forall_impl; [exact Hall|]; cbn; intros; lia).
        rewrite filter_list_all by exact Hall. split; [done|]. cbn [due_times map fst snd].
        rewrite Z.add_0_l. change (c_time (e <| c_time ::= Z.pred |>)) with (c_time e - 1).
        by rewrite due_shift.
Qed.

Lemma split_due_spec p1 p2 t r :
  active (p1 ++ p2) -> c_func t = 0 -> Forall (fun e => c_time e <= 0) p1 ->
  (forall e q, p2 = e :: q -> 0 < c_time e) ->
  split_due (p1 ++ p2 ++ t :: r) = (p1, p2 ++ t :: r).
Proof.
  intros Ha Ht Hd Hp2. induction Hd as [|e p1 He Hd IH]; cbn [app split_due].
  - destruct p2 as [|e p2]; cbn [app split_due]; [by rewrite Ht|].
    specialize (Hp2 e p2 eq_refl). destruct (Z.leb_spec (c_time e) 0); [lia|]. by rewrite andb_false_r.
  - apply Forall_cons in Ha as [Hae Ha]. destruct (Z.eqb_spec (c_func e) 0); [done|].
    destruct (Z.leb_spec (c_time e) 0); [|lia]. cbn. by rewrite IH.
Qed.

Lemma copy_down_spec p2 t r old :
  active p2 -> c_func t = 0 -> (length p2 < length old)%nat ->
  exists t' r', copy_down (p2 ++ t :: r) old = p2 ++ t' :: r' /\ c_func t' = 0 /\
    length (p2 ++ t' :: r') = length old.
Proof.
  intros Ha Ht. revert old. induction Ha as [|e p2 He Ha IH]; intros [|o old] Hl; cbn in Hl; try lia;
    cbn [app copy_down].
  - rewrite Ht. cbn. eexists _, old. by split.
  - destruct (Z.eqb_spec (c_func e) 0); [done|]. destruct (IH old) as (t'&r'&->&?&?); [lia|].
    exists t', r'. split; [done|]. split; [done|]. cbn. by f_equal.
Qed.

(** One tick: what is due is called, the rest come one tick closer. *)
Lemma clock_callouts_spec l pend slack :
  table l pend slack -> nonneg pend ->
  exists l' pend' slack',
    clock_callouts l = (map call (filter (fun d => d.1.1 <= 1) (due_times 0 pend)), l') /\
    table l' pend' slack' /\ nonneg pend' /\
    due_times 0 pend' = map closer (filter (fun d => 1 < d.1.1) (due_times 0 pend)).
Proof.
  intros (->&Ha&(t&r&->&Ht)&Hl) Hn. destruct pend as [|e pend].
  { cbn. rewrite Ht. eexists _, [], (t :: r). split; [done|]. repeat split; try done. by exists t, r. }
  destruct (tick_split (e :: pend) t r Ha Hn Ht) as (p1&p2&t'&E&Ht'&Hl'&Ha'&Hn'&Hd&Hp2&E1&E2).
  unfold clock_callouts. cbn [app]. apply Forall_cons in Ha as [Hae Ha].
  destruct (Z.eqb_spec (c_func e) 0); [done|]. cbn [app] in E. rewrite E, <- E1, <- E2.
  rewrite length_app in Hl. pose proof Hl' as Hl2. rewrite length_app in Hl2. cbn [length] in Hl, Hl2.
  pose proof Ha' as [Ha1 Ha2]%Forall_app. pose proof Hn' as [Hn1 Hn2]%Forall_app.
  destruct p1 as [|e1 p1].
  - destruct p2 as [|e2 p2]; [cbn in Hl2; lia|]. specialize (Hp2 e2 p2 eq_refl). cbn [app].
    destruct (Z.leb_spec (c_time e2) 0); [lia|].
    exists (e2 :: p2 ++ t' :: r), (e2 :: p2), (t' :: r). split; [done|]. split; [|done].
    split; [done|]. split; [done|]. split; [by exists t', r|]. cbn in *. rewrite length_app. cbn. lia.
  - rewrite split_due_spec by done. cbn [app]. pose proof (Forall_inv Hd) as Hd1. cbv beta in Hd1.
    destruct (Z.leb_spec (c_time e1) 0); [|lia].
    destruct (copy_down_spec p2 t' r (e1 :: p1 ++ p2 ++ t' :: r) Ha2 Ht') as (t2&r2&Ec&Ht2&Hlc).
    { cbn. rewrite !length_app. cbn. lia. }
    rewrite Ec. eexists _, p2, (t2 :: r2).
    split; [f_equal|]. 2: { split; [|done]. split; [done|]. split; [done|]. split; [by exists t2, r2|].
      rewrite Hlc. cbn. rewrite !length_app. cbn in *. lia. }
    clear. generalize 0. generalize (e1 :: p1). intros l. induction l as [|x l IH]; intros z; cbn; [done|].
    by rewrite <- IH.
Qed.

(** ** Properties *)

(** With room in the table, [timeout(fun, arg, tim)] adds a call due in
    exactly [tim] ticks, after the calls due no later and before the others,
    and leaves the due time of every other pending call as it was. *)
Theorem timeout_due l pend slack fn arg tim :
  table l pend slack -> (2 <= length slack)%nat -> fn <> 0 ->
  Forall (fun e => 0 <= c_time e) pend -> 0 <= tim ->
  exists l' pend' slack' d1 d2, timeout fn arg tim l = TOk l' /\ table l' pend' slack' /\
    due_times 0 pend = d1 ++ d2 /\ due_times 0 pend' = d1 ++ (tim, fn, arg) :: d2 /\
    Forall (fun d => d.1.1 <= tim) d1 /\ (forall d q, d2 = d :: q -> tim < d.1.1) /\
    Forall (fun e => 0 <= c_time e) pend'.
Proof.
  intros (->&Hp&(t&r&->&Ht)&Hlen) Hsl Hfn Hnn Htim.
  destruct r as [|x r]; [cbn in Hsl; lia|]. unfold timeout.
  destruct (timeout_scan_spec tim pend t (x :: r) Hp Ht) as (p1&p2&->&->&Hnext&Hle&Hs1).
  pose proof Hp as [Hp1 Hp2]%Forall_app. pose proof Hnn as [Hn1 Hn2]%Forall_app.
  specialize (Hle Hnn). rewrite !length_app in Hlen. cbn [length] in Hlen. unfold NCALL in *.
  destruct (Nat.leb_spec (20 - 1) (length p1)); [lia|].
  specialize (Hs1 Htim).
  destruct p2 as [|e p2].
  - cbn [app]. pose proof (shift_in_spec (Callo (tim - sum_times p1) arg fn) []
      (t <| c_time ::= fun x => x - (tim - sum_times p1) |>) r x ltac:(constructor) Ht) as Hsh.
    cbn [app] in Hsh. rewrite Hsh.
    eexists _, (p1 ++ [Callo (tim - sum_times p1) arg fn]), _, (due_times 0 p1), [].
    split; [done|]. split.
    { split; [by rewrite <- app_assoc|]. split; [apply Forall_app; split; [done | by constructor]|].
      split; [eexists _, _; split; [done|exact Ht]|]. rewrite !length_app. cbn. cbn in Hlen. unfold NCALL. lia. }
    rewrite !app_nil_r, due_times_app. split; [done|]. split; [cbn; fold (sum_times p1); do 4 f_equal; lia|].
    split; [done|]. split; [done|]. apply Forall_app. split; [done|]. constructor; [cbn; lia|constructor].
  - apply Forall_cons in Hp2 as [He Hp2]. apply Forall_cons in Hn2 as [Hne Hn2].
    specialize (Hnext e p2 eq_refl). cbn [app].
    set (e' := e <| c_time ::= fun x => x - (tim - sum_times p1) |>).
    pose proof (shift_in_spec (Callo (tim - sum_times p1) arg fn) (e' :: p2) t r x) as Hsh.
    cbn [app] in Hsh. rewrite Hsh; [|by constructor|done].
    eexists _, (p1 ++ Callo (tim - sum_times p1) arg fn :: e' :: p2), (t :: r),
      (due_times 0 p1), (due_times (sum_times p1) (e :: p2)).
    split; [done|]. split.
    { split; [by rewrite <- app_assoc|]. split; [apply Forall_app; split; [done | by repeat constructor]|].
      split; [by eexists _, _|]. rewrite !length_app. cbn [length app]. rewrite length_app. cbn [length].
      unfold NCALL. cbn [length] in Hlen. lia. }
    rewrite !due_times_app. split; [done|]. fold (sum_times p1). cbn [due_times c_time c_func c_arg].
    change (c_time e') with (c_time e - (tim - sum_times p1)). change (c_func e') with (c_func e).
    change (c_arg e') with (c_arg e).
    replace (0 + sum_times p1 + (tim - sum_times p1)) with tim by lia.
    replace (tim + (c_time e - (tim - sum_times p1))) with (sum_times p1 + c_time e) by lia.
    split; [done|]. split; [done|]. split; [intros d q [= <- <-]; cbn; lia|].
    apply Forall_app. split; [done|]. constructor; [cbn; lia|]. constructor; [cbn; lia|done].
Qed.

(** C30: a pending call is made by the clock interrupt on the tick it is due
    and on no other: over [n] ticks, tick [k] (from 0) makes exactly the
    calls whose due time is [k+1] (a call already due counts as due on the
    first tick), in the order of the table. *)
Theorem callouts_on_time n l pend slack k :
  table l pend slack -> nonneg pend -> (k < n)%nat ->
  (ticks n l).1 !! k =
    Some (map call (filter (fun d => Z.max 1 d.1.1 = Z.of_nat k + 1) (due_times 0 pend))).
Proof.
  revert l pend slack k. induction n as [|n IH]; intros l pend slack k Ht Hn Hk; [lia|].
  destruct (clock_callouts_spec l pend slack Ht Hn) as (l'&pend'&slack'&E&Ht'&Hn'&Ed).
  cbn [ticks]. rewrite E. destruct (ticks n l') as [cs l2] eqn:En. cbn [fst].
  destruct k as [|k].
  - change (Some (map call (filter (fun d => d.1.1 <= 1) (due_times 0 pend))) = Some (map call (filter (fun d => Z.max 1 d.1.1 = Z.of_nat 0 + 1) (due_times 0 pend)))).
    do 2 f_equal. apply list_filter_iff. intros; lia.
  - change (cs !! k = Some (map call (filter (fun d => Z.max 1 d.1.1 = Z.of_nat (S k) + 1) (due_times 0 pend)))).
    specialize (IH l' pend' slack' k Ht' Hn' ltac:(lia)). rewrite En in IH. cbn [fst] in IH. rewrite IH.
    f_equal. rewrite Ed, (filter_map _ _ (fun d => Z.max 1 (d.1.1 - 1) = Z.of_nat k + 1)) by done.
    rewrite map_map, list_filter_filter. cbn. f_equal. apply list_filter_iff. intros; lia.
Qed.

Definition two_calls : list callo :=
  [Callo 1 7 100; Callo 2 8 200; Callo 0 9 300] ++ replicate 17 (Callo 0 0 0).

Lemma callouts_on_time_witness :
  table two_calls [Callo 1 7 100; Callo 2 8 200; Callo 0 9 300] (replicate 17 (Callo 0 0 0)) /\
  (ticks 4 two_calls).1 = [[(100, 7)]; []; [(200, 8); (300, 9)]; []] /\
  (ticks 4 two_calls).1 !! 2%nat = Some [(200, 8); (300, 9)].
Proof.
  assert (table two_calls [Callo 1 7 100; Callo 2 8 200; Callo 0 9 300] (replicate 17 (Callo 0 0 0))) as Ht.
  { split; [done|]. split; [by repeat constructor|]. split; [|done].
    by exists (Callo 0 0 0), (replicate 16 (Callo 0 0 0)). }
  split; [exact Ht|]. split; [reflexivity|].
  rewrite (callouts_on_time 4 _ _ _ 2 Ht); [reflexivity | by repeat constructor | lia].
Defined.

(** With 19 calls pending, the check for a full table looks only at where
    the new call goes, not at whether an entry is free: a call that sorts
    before the end shifts the null entry past the end of the table, and only
    one that sorts last reaches the panic. *)
Theorem timeout_overrun l pend t fn arg tim :
  table l pend [t] -> nonneg pend -> 0 <= tim ->
  timeout fn arg tim l = if tim <? sum_times pend then TOverrun else TPanic.
Proof.
  intros (->&Hp&(t'&r&[= <- <-]&Ht)&Hlen) Hn Htim. unfold timeout.
  destruct (timeout_scan_spec tim pend t [] Hp Ht) as (p1&p2&->&->&Hnext&_&Hs1).
  specialize (Hs1 Htim). apply Forall_app in Hp as [Hp1 Hp2]. apply Forall_app in Hn as [Hn1 Hn2].
  rewrite !length_app in Hlen. rewrite sum_times_app. unfold NCALL in *. destruct p2 as [|e p2].
  - cbn in Hlen. change (sum_times []) with 0. destruct (Z.ltb_spec tim (sum_times p1 + 0)); [lia|].
    destruct (Nat.leb_spec (20 - 1) (length p1)); [done | lia].
  - specialize (Hnext e p2 eq_refl). cbn [length] in Hlen.
    assert (0 <= sum_times p2) by (apply Forall_cons in Hn2 as [_ Hn2]; by apply sum_times_nonneg).
    change (sum_times (e :: p2)) with (c_time e + sum_times p2).
    pose proof (shift_in_overrun (Callo (tim - sum_times p1) arg fn)
      (e <| c_time ::= fun x => x - (tim - sum_times p1) |> :: p2) t) as Hov. cbn [app] in Hov.
    destruct (Z.ltb_spec tim (sum_times p1 + (c_time e + sum_times p2))); [|lia].
    destruct (Nat.leb_spec (20 - 1) (length p1)); [lia|]. cbn [app].
    apply Forall_cons in Hp2 as [He Hp2].
    rewrite Hov; [done | by constructor | done].
Qed.

Definition full_table : list callo := replicate 19 (Callo 1 0 5) ++ [Callo 0 0 0].

Lemma timeout_overrun_witness :
  table full_table (replicate 19 (Callo 1 0 5)) [Callo 0 0 0] /\
  timeout 6 0 3 full_table = TOverrun /\ timeout 6 0 19 full_table = TPanic.
Proof.
  assert (table full_table (replicate 19 (Callo 1 0 5)) [Callo 0 0 0]) as Ht.
  { split; [done|]. split; [by repeat constructor|]. split; [|done]. by exists (Callo 0 0 0), []. }
  split; [exact Ht|]. split; rewrite (timeout_overrun _ _ _ 6 0 _ Ht);
    [reflexivity | by repeat constructor | lia | reflexivity | by repeat constructor | lia].
Defined.

Definition one_call : list callo := Callo 5 1 77 :: replicate 19 (Callo 0 0 0).

Lemma timeout_due_witness :
  table one_call [Callo 5 1 77] (replicate 19 (Callo 0 0 0)) /\
  timeout 66 2 3 one_call = TOk ([Callo 3 2 66; Callo 2 1 77] ++ replicate 18 (Callo 0 0 0)) /\
  exists l' pend' slack' d1 d2, timeout 66 2 3 one_call = TOk l' /\ table l' pend' slack' /\
    due_times 0 [Callo 5 1 77] = d1 ++ d2 /\ due_times 0 pend' = d1 ++ (3, 66, 2) :: d2 /\
    Forall (fun d => d.1.1 <= 3) d1 /\ (forall d q, d2 = d :: q -> 3 < d.1.1) /\
    Forall (fun e => 0 <= c_time e) pend'.
Proof.
  assert (table one_call [Callo 5 1 77] (replicate 19 (Callo 0 0 0))) as Ht.
  { split; [done|]. split; [by repeat constructor|]. split; [|done].
    by exists (Callo 0 0 0), (replicate 18 (Callo 0 0 0)). }
  split; [exact Ht|]. split; [reflexivity|].
  apply (timeout_due _ _ _ 66 2 3 Ht); [cbn; lia | lia | by repeat constructor | lia].
Defined.

End Callout.
