(* ===== verification/Proc.v ===== *)
(** * Proc: processes, sleep and wakeup, signals, the clock
    (src/usr/sys/sys/slp.c, sig.c, clock.c)

    The process table is indexed by slot number; a process pointer is an
    optional slot.  Sleep channels are kernel addresses: the two that [slp.c]
    itself uses, [&runin] and [&runout], are parameters, as is [&lbolt].  The
    [u] area belongs to the process that runs, so [u.u_signal] is kept per
    slot.  A process that gives up the processor does so at a [Swtch] node;
    the search for the next process is [swtch_search]. *)
From S2P Require Import Prelude Kmonad.

Module Proc.

(** ** Data *)

Definition NPROC : Z := 150.
Definition NSIG : Z := 17.
Definition HZ : Z := 10.
Definition PSWP : Z := 0.
Definition PZERO : Z := 25.
Definition PUSER : Z := 50.
Definition NZERO : Z := 20.
Definition SSLEEP : Z := 1.
Definition SRUN : Z := 3.
Definition SZOMB : Z := 5.
Definition SSTOP : Z := 6.
Definition SLOAD : Z := 1.
Definition SSWAP : Z := 8.
Definition STRC : Z := 16.
Definition SIGCLK : Z := 14.

Record proc := MkProc {
  p_stat : Z; p_flag : Z; p_pri : Z; p_time : Z; p_cpu : Z; p_nice : Z;
  p_sig : Z; p_uid : Z; p_pgrp : Z; p_pid : Z; p_ppid : Z;
  p_addr : Z; p_size : Z; p_wchan : Z;
  p_textp : option Z; p_link : option Z; p_clktim : Z
}.
#[export] Instance eta_proc : Eta proc := fun r =>
  MkProc (p_stat r) (p_flag r) (p_pri r) (p_time r) (p_cpu r) (p_nice r) (p_sig r) (p_uid r)
    (p_pgrp r) (p_pid r) (p_ppid r) (p_addr r) (p_size r) (p_wchan r) (p_textp r) (p_link r) (p_clktim r).

Record pst := Pst {
  proc_ : Z -> proc;                (* struct proc proc[NPROC] *)
  slpque : Z -> option Z;           (* struct proc *slpque[SQSIZE] *)
  runq : option Z;
  curpri : Z; runin : Z; runout : Z; runrun : Z;
  u_procp : Z;
  u_signal : Z -> Z -> Z;           (* u.u_signal of the process in a slot *)
  lbolt : Z; time : Z;
  spl : bool;                       (* interrupts are enabled *)
  console : list string
}.
#[export] Instance eta_pst : Eta pst := fun r =>
  Pst (proc_ r) (slpque r) (runq r) (curpri r) (runin r) (runout r) (runrun r) (u_procp r)
    (u_signal r) (lbolt r) (time r) (spl r) (console r).

(** Where a process gives up the processor: a switch, or the idle loop. *)
Inductive lbl := Swtch | Idle.
Abbreviation M := (K lbl pst).

Definition HASH (x : Z) : Z := Z.land (Z.shiftr (s32 x) 5) 63.

(** [p->f = ...] for the process in slot [i]. *)
Definition setp (i : Z) (f : proc -> proc) (s : pst) : pst :=
  s <| proc_ ::= fun a => <[i := f (a i)]> a |>.
Definition getp (i : Z) : M proc := gets (fun s => proc_ s i).

Definition spl0 : M unit := modify (fun s => s <| spl := true |>).
Definition splhi : M bool := s ← gets spl; modify (fun st => st <| spl := false |>);; mret s.
Definition splx (b : bool) : M unit := modify (fun s => s <| spl := b |>).
Definition printf (m : string) : M unit := modify (fun s => s <| console ::= cons m |>).

Definition slots : list Z := map Z.of_nat (seq 0 (Z.to_nat NPROC)).
(** Enough rounds to walk any queue of distinct processes. *)
Definition walk : nat := S (Z.to_nat NPROC).

Section code.
  Context (addr_runin addr_runout addr_lbolt : Z).

(** ** Run queue, wakeup (slp.c) *)

Definition setrq (p : Z) : M unit :=
  s ← splhi;
  q0 ← gets runq;
  onq ← iter walk (fun q =>
    match q with
    | None => mret (inr false)
    | Some q => if q =? p then mret (inr true) else pr ← getp q; mret (inl (p_link pr))
    end) q0;
  (if onq : bool then printf "proc on q"
   else
     modify (fun st => setp p (fun r => r <| p_link := runq st |>) st);;
     modify (fun st => st <| runq := Some p |>));;
  splx s.

(** [setrun], over the [wakeup] it calls. *)
Definition setrun_with (wakeup : Z -> M unit) (p : Z) : M unit :=
  pr ← getp p;
  if (p_stat pr =? 0) || (p_stat pr =? SZOMB) then panic "Running a dead proc"
  else
    let w := p_wchan pr in
    if negb (w =? 0) then wakeup w
    else
      modify (setp p (fun r => r <| p_stat := SRUN |>));;
      setrq p;;
      st ← get;
      when (p_pri (proc_ st p) <? curpri st) (modify (fun s => s <| runrun ::= fun x => u8 (x + 1) |>));;
      st ← get;
      when (negb (runout st =? 0) && negb (has (p_flag (proc_ st p)) SLOAD))
        (modify (fun s => s <| runout := 0 |>);; wakeup addr_runout).

(** The loop of [wakeup]: [p] is the process looked at, [q] the one before it. *)
Definition wakeup_body (setrun : Z -> M unit) (chan i : Z) (pq : option Z * option Z)
    : M (option Z * option Z + unit) :=
  let '(p, q) := pq in
  match p with
  | None => mret (inr tt)
  | Some p =>
      pr ← getp p;
      if (p_wchan pr =? chan) && negb (p_stat pr =? SZOMB) then
        let sp := p_link pr in
        (match q with
         | None => modify (fun st => st <| slpque @ i := sp |>)
         | Some q => modify (setp q (fun r => r <| p_link := sp |>))
         end);;
        modify (setp p (fun r => r <| p_wchan := 0 |>));;
        setrun p;;
        mret (inl (sp, q))
      else mret (inl (p_link pr, Some p))
  end.

(** [wakeup] and [setrun] call each other; [d] bounds the nesting, and 2 is
    enough because [setrun] clears [runout] before its inner call. *)
Fixpoint wakeup_d (d : nat) (chan : Z) : M unit :=
  match d with
  | O => spin
  | S d =>
      s ← splhi;
      let i := HASH chan in
      p ← gets (fun st => slpque st i);
      iter walk (wakeup_body (setrun_with (wakeup_d d)) chan i) (p, None);;
      splx s
  end.
Definition wakeup : Z -> M unit := wakeup_d 2.
Definition setrun : Z -> M unit := setrun_with wakeup.

Definition setpri (pp : Z) : M Z :=
  st ← get;
  let pr := proc_ st pp in
  let p := Z.land (p_cpu pr) 255 / 16 in
  let p := p + (PUSER + p_nice pr - NZERO) in
  let p := if 127 <? p then 127 else p in
  when (p <? curpri st) (modify (fun s => s <| runrun ::= fun x => u8 (x + 1) |>));;
  modify (setp pp (fun r => r <| p_pri := u8 p |>));;
  mret (u8 p).

(** ** Signals (sig.c) *)

Definition psignal (p sig : Z) : M unit :=
  if NSIG <=? u32 sig then mret tt
  else
    when (negb (sig =? 0))
      (modify (setp p (fun r => r <| p_sig ::= fun x => s16 (Z.lor x (Z.shiftl 1 (sig - 1))) |>)));;
    pr ← getp p;
    when (PUSER <? p_pri pr) (modify (setp p (fun r => r <| p_pri := PUSER |>)));;
    pr ← getp p;
    when ((p_stat pr =? SSLEEP) && (PZERO <? p_pri pr)) (setrun p).

Definition signal (pgrp sig : Z) : M unit :=
  if pgrp =? 0 then mret tt
  else each slots (fun p => pr ← getp p; when (p_pgrp pr =? pgrp) (psignal p sig)).

Fixpoint fsig_loop (k : nat) (i n : Z) : Z :=
  match k with
  | O => 0
  | S k => if negb (Z.land n 1 =? 0) then i else fsig_loop k (i + 1) (Z.shiftr n 1)
  end.
Definition fsig (p : proc) : Z := fsig_loop (Z.to_nat (NSIG - 1)) 1 (p_sig p).

(** One round of [while(p->p_sig)]. *)
Definition issig_body (p : Z) (_ : unit) : M (unit + Z) :=
  pr ← getp p;
  if p_sig pr =? 0 then mret (inr 0)
  else
    let n := fsig pr in
    sg ← gets (fun s => u_signal s p n);
    if (Z.land sg 1 =? 0) || has (p_flag pr) STRC then mret (inr n)
    else
      modify (setp p (fun r => r <| p_sig ::= fun x => s16 (Z.land x (Z.lnot (Z.shiftl 1 (n - 1)))) |>));;
      mret (inl tt).

Definition issig : M Z :=
  p ← gets u_procp;
  iter (Z.to_nat NSIG) (issig_body p) tt.

(** ** sleep and the switch (slp.c) *)

(** [sleep] from [if(pri > PZERO)] on; [s] is the saved interrupt enable. *)
Definition sleep_wait (rp h pri : Z) (s : bool) : M unit :=
  if PZERO <? pri then
    sg ← issig;
    if negb (sg =? 0) then
      modify (setp rp (fun r => r <| p_wchan := 0 |>));;
      modify (setp rp (fun r => r <| p_stat := SRUN |>));;
      modify (fun st => st <| slpque @ h := p_link (proc_ st rp) |>);;
      spl0;;
      longjmp
    else
      spl0;;
      ri ← gets runin;
      when (negb (ri =? 0)) (modify (fun st => st <| runin := 0 |>);; wakeup addr_runin);;
      block Swtch;;
      sg ← issig;
      if negb (sg =? 0) then longjmp else splx s
  else
    spl0;; block Swtch;; splx s.

Definition sleep (chan pri : Z) : M unit :=
  rp ← gets u_procp;
  s ← splhi;
  if chan =? 0 then panic "zero wchan"
  else
    modify (setp rp (fun r => r <| p_stat := SSLEEP |>));;
    modify (setp rp (fun r => r <| p_wchan := chan |>));;
    modify (setp rp (fun r => r <| p_pri := u8 pri |>));;
    let h := HASH chan in
    modify (fun st => setp rp (fun r => r <| p_link := slpque st h |>) st);;
    modify (fun st => st <| slpque @ h := Some rp |>);;
    sleep_wait rp h pri s.

Definition qswtch : M unit := rp ← gets u_procp; setrq rp;; block Swtch.

(** The search of [swtch]: the process looked at, the one before it on the
    queue, and the best process so far with the one before it and its priority. *)
Definition scan_body (r : option Z * option Z * (option Z * option Z * Z))
    : M (option Z * option Z * (option Z * option Z * Z) + option Z * option Z * Z) :=
  let '(p, q, (pp, pq, n)) := r in
  match p with
  | None => mret (inr (pp, pq, n))
  | Some p =>
      pr ← getp p;
      mret (inl (p_link pr, Some p,
        if (p_stat pr =? SRUN) && has (p_flag pr) SLOAD && (p_pri pr <? n)
        then (Some p, q, p_pri pr) else (pp, pq, n)))
  end.
Definition swtch_scan (q0 : option Z) : M (option Z * option Z * Z) :=
  iter walk scan_body (q0, None, (None, None, 128)).

(** Take the process chosen off the queue and resume it. *)
Definition swtch_resume (p : Z) (pq : option Z) (n : Z) : M (Z * bool) :=
  lk ← gets (fun s => p_link (proc_ s p));
  (match pq with
   | None => modify (fun s => s <| runq := lk |>)
   | Some q => modify (setp q (fun r => r <| p_link := lk |>))
   end);;
  modify (fun s => s <| curpri := u8 n |>);;
  spl0;;
  sw ← gets (fun s => has (p_flag (proc_ s p)) SSWAP);
  modify (setp p (fun r => r <| p_flag ::= fun f => clrf f SSWAP |>));;
  modify (fun s => s <| u_procp := p |>);;
  mret (p, sw).

Definition search_body (_ : unit) : M (unit + Z * bool) :=
  _ ← splhi;
  modify (fun s => s <| runrun := 0 |>);;
  q0 ← gets runq;
  r ← swtch_scan q0;
  let '(pp, pq, n) := r in
  match pp with
  | None => block Idle;; mret (inl tt)
  | Some p => r ← swtch_resume p pq n; mret (inr r)
  end.

(** The loop of process 0 in [swtch]: wait until some process is runnable,
    take it off the queue and resume it.  The result is the process, and
    whether it resumes from [u_ssav]. *)
Definition swtch_search (fuel : nat) : M (Z * bool) := iter fuel search_body tt.

(** ** The clock interrupt, from [pp = u.u_procp] on (clock.c) *)

Definition clock_proc (pp : Z) : M unit :=
  pr ← getp pp;
  when (negb (p_stat pr =? 0) && (p_stat pr <? SZOMB))
    (when (negb (p_time pr =? 127)) (modify (setp pp (fun r => r <| p_time ::= fun x => u8 (x + 1) |>)));;
     when (negb (p_clktim pr =? 0))
       (modify (setp pp (fun r => r <| p_clktim ::= fun x => s32 (x - 1) |>));;
        pr ← getp pp;
        when (p_clktim pr =? 0) (psignal pp SIGCLK));;
     pr ← getp pp;
     let a := Z.quot (Z.land (p_cpu pr) 255 * 8) 10 + p_nice pr - NZERO in
     let a := if a <? 0 then 0 else a in
     let a := if 255 <? a then 255 else a in
     modify (setp pp (fun r => r <| p_cpu := u8 a |>));;
     pr ← getp pp;
     when (PUSER <=? p_pri pr) (_ ← setpri pp; mret tt)).

Definition clock : M unit :=
  pp ← gets u_procp;
  modify (setp pp (fun r => r <| p_cpu ::= fun x => u8 (x + 1) |>));;
  pr ← getp pp;
  when (p_cpu pr =? 0) (modify (setp pp (fun r => r <| p_cpu ::= fun x => u8 (x - 1) |>)));;
  modify (fun s => s <| lbolt ::= fun x => s32 (x + 1) |>);;
  lb ← gets lbolt;
  when (HZ <=? lb)
    (modify (fun s => s <| lbolt ::= fun x => x - HZ |>);;
     modify (fun s => s <| time ::= fun x => s32 (x + 1) |>);;
     modify (fun s => s <| runrun ::= fun x => u8 (x + 1) |>);;
     wakeup addr_lbolt;;
     each slots clock_proc;;
     ri ← gets runin;
     when (negb (ri =? 0)) (modify (fun s => s <| runin := 0 |>);; wakeup addr_runin)).

(** ** Queues *)

(** [lk] leads from [h] through exactly the processes of [l]. *)
Fixpoint chain (lk : Z -> option Z) (h : option Z) (l : list Z) : Prop :=
  match l with
  | [] => h = None
  | i :: r => h = Some i /\ chain lk (lk i) r
  end.

Definition inr_ (i : Z) : Prop := 0 <= i < NPROC.
Definition lks (s : pst) (i : Z) : option Z := p_link (proc_ s i).

(** The sleep queues [B] and the run queue [R] that a state holds. *)
Record queues (s : pst) (B : Z -> list Z) (R : list Z) : Prop := {
  qB : forall h, 0 <= h < 64 -> chain (lks s) (slpque s h) (B h);
  qR : chain (lks s) (runq s) R;
  qBnd : forall h, NoDup (B h);
  qRnd : NoDup R;
  qBin : forall h i, i ∈ B h -> inr_ i /\ p_stat (proc_ s i) = SSLEEP /\
           p_wchan (proc_ s i) <> 0 /\ HASH (p_wchan (proc_ s i)) = h;
  qRin : forall i, i ∈ R -> inr_ i /\ p_stat (proc_ s i) = SRUN /\ p_wchan (proc_ s i) = 0
}.

(** A process record without its queue link. *)
Definition unlink (r : proc) : proc := r <| p_link := None |>.
Definition awake (r : proc) : proc := r <| p_stat := SRUN |> <| p_wchan := 0 |>.

(** From [s] to [s'] the processes of [W] were made runnable and nothing else
    was done to any process. *)
Record woke (W : list Z) (s s' : pst) : Prop := {
  wk_proc : forall i, unlink (proc_ s' i) = unlink (if decide (i ∈ W) then awake (proc_ s i) else proc_ s i);
  wk_frame : (runin s', curpri s', u_procp s', u_signal s', lbolt s', time s', spl s', console s') =
             (runin s, curpri s, u_procp s, u_signal s, lbolt s, time s, spl s, console s)
}.

Lemma chain_ext f g h l : (forall i, i ∈ l -> f i = g i) -> chain f h l -> chain g h l.
Proof.
  revert h. induction l as [|i l IH]; intros h He; cbn; [done|]. intros [-> H].
  split; [done|]. rewrite <- He by constructor. apply IH; [|done]. intros j Hj. apply He. by constructor.
Qed.

Lemma chain_head f h l : chain f h l -> h = head l.
Proof. destruct l; [done|]. by intros [-> _]. Qed.

Lemma chain_app f h l1 l2 :
  chain f h (l1 ++ l2) <-> chain f h (l1 ++ l2) /\
    chain f (match last l1 with Some q => f q | None => h end) l2.
Proof.
  split; [|tauto]. intros H. split; [done|]. revert h H.
  induction l1 as [|i l1 IH]; intros h H; [done|]. cbn in H. destruct H as [-> H].
  specialize (IH _ H). rewrite last_cons. by destruct (last l1).
Qed.

Lemma range_length l : NoDup l -> (forall i, i ∈ l -> inr_ i) -> (length l < walk)%nat.
Proof.
  intros Hnd Hin. assert (length l <= length slots)%nat.
  { apply submseteq_length, NoDup_submseteq; [done|]. intros i Hi. apply list_elem_of_fmap.
    specialize (Hin i Hi). unfold inr_, NPROC in Hin. exists (Z.to_nat i). split; [lia|].
    apply elem_of_seq. unfold NPROC. lia. }
  unfold slots in *. rewrite length_map, length_seq in *. unfold walk. lia.
Qed.

Lemma proc_of_unlink (r r' : proc) {A} (f : proc -> A) :
  unlink r = unlink r' -> (forall r, f r = f (unlink r)) -> f r = f r'.
Proof. intros E H. by rewrite (H r), (H r'), E. Qed.

(** The walk of [setrq] for a process that is on no queue. *)
Lemma setrq_spec p s R :
  chain (lks s) (runq s) R -> NoDup R -> (forall i, i ∈ R -> inr_ i) -> p ∉ R ->
  setrq p s = Ret tt ((setp p (fun r => r <| p_link := runq s |>) s) <| runq := Some p |>).
Proof.
  intros Hc Hnd Hin Hp. unfold setrq.
  pose proof (range_length R Hnd Hin) as Hl.
  assert (forall n q st, proc_ st = proc_ s -> chain (lks s) q R -> (length R < n)%nat ->
    (iter n (fun q => match q with
      | None => mret (inr false)
      | Some q => if q =? p then mret (inr true) else pr ← getp q; mret (inl (p_link pr)) end) q : M bool) st
    = Ret false st) as Hw.
  { clear -Hp. induction R as [|i R IH]; intros n q st Est Hc Hn; destruct n as [|n]; cbn in Hn; try lia.
    - cbn in Hc. subst q. by rewrite (k_iter_inr _ _ _ _ false st).
    - destruct Hc as [-> Hc]. apply not_elem_of_cons in Hp as [Hne Hp].
      rewrite (k_iter_inl _ _ _ _ (lks s i) st).
      + apply IH; [done|done|done|lia].
      + destruct (Z.eqb_spec i p) as [->|]; [done|]. unfold getp. kred. by rewrite Est. }
  unfold splhi. rewrite (bind_ret _ _ s (spl s) (s <| spl := false |>)) by done. kred.
  rewrite (bind_ret _ _ _ false (s <| spl := false |>)) by (by apply Hw).
  rewrite (bind_ret _ _ _ tt (setp p (fun r => r <| p_link := runq s |>) (s <| spl := false |>) <| runq := Some p |>)) by done.
  unfold splx. kred. unfold setp. by destruct s.
Qed.

(** Taking [p] out of a queue: the link of the process before it, or the head. *)
Lemma chain_remove f h don p rest :
  NoDup (don ++ p :: rest) -> chain f h (don ++ p :: rest) ->
  chain (match last don with Some q => <[q := f p]> f | None => f end)
        (match last don with Some _ => h | None => f p end) (don ++ rest).
Proof.
  revert h. induction don as [|i don IH]; intros h Hnd Hc.
  - cbn in Hc. by destruct Hc as [-> Hc].
  - cbn in Hnd, Hc. apply NoDup_cons in Hnd as [Hi Hnd]. destruct Hc as [-> Hc].
    specialize (IH _ Hnd Hc). rewrite last_cons. destruct (last don) as [q|] eqn:Eq.
    + cbn. split; [done|]. rewrite fn_ne; [done|]. intros ->. apply Hi, elem_of_app. left.
      apply last_Some in Eq as [l' ->]. apply elem_of_app. right. by constructor.
    + apply last_None in Eq as ->. cbn. split; [done|]. rewrite fn_eq. cbn in IH.
      eapply chain_ext; [|exact IH]. intros j Hj. rewrite fn_ne; [done|]. intros ->.
      apply Hi. cbn. by constructor.
Qed.

(** Queues are disjoint, so a link changed in one leaves the others alone. *)
Lemma queues_disj s B R h h' i : queues s B R -> i ∈ B h -> i ∈ B h' -> h = h'.
Proof. intros Hq H1 H2. by destruct (qBin _ _ _ Hq _ _ H1) as (_&_&_&<-), (qBin _ _ _ Hq _ _ H2) as (_&_&_&<-). Qed.
Lemma queues_disj_R s B R h i : queues s B R -> i ∈ B h -> i ∉ R.
Proof.
  intros Hq H1 H2. destruct (qBin _ _ _ Hq _ _ H1) as (_&E&_), (qRin _ _ _ Hq _ H2) as (_&E'&_).
  rewrite E in E'. done.
Qed.

(** The queues of a state depend on the links, the heads, and the state and
    channel of the queued processes. *)
Lemma queues_frame s s' B R :
  queues s B R -> (forall h, slpque s' h = slpque s h) -> runq s' = runq s ->
  (forall i, (i ∈ R \/ exists h, i ∈ B h) -> p_link (proc_ s' i) = p_link (proc_ s i) /\
     p_stat (proc_ s' i) = p_stat (proc_ s i) /\ p_wchan (proc_ s' i) = p_wchan (proc_ s i)) ->
  queues s' B R.
Proof.
  intros [HB HR HBn HRn HBi HRi] Eh Er H. split; try done.
  - intros h Hh. rewrite Eh. eapply chain_ext; [|by apply HB]. intros i Hi.
    unfold lks. symmetry. apply H. right. by exists h.
  - rewrite Er. eapply chain_ext; [|exact HR]. intros i Hi. unfold lks. symmetry. apply H. by left.
  - intros h i Hi. destruct (H i) as (_&->&->); [right; by exists h|]. by apply HBi.
  - intros i Hi. destruct (H i) as (_&->&->); [by left|]. by apply HRi.
Qed.

(** [sp = slpque[i] = p->p_link] or [sp = q->p_link = p->p_link], then
    [p->p_wchan = 0]. *)
Definition detach (h : Z) (don : list Z) (p : Z) (s : pst) : pst :=
  setp p (fun r => r <| p_wchan := 0 |>)
    (match last don with
     | None => s <| slpque @ h := p_link (proc_ s p) |>
     | Some q => setp q (fun r => r <| p_link := p_link (proc_ s p) |>) s
     end).

Lemma detach_proc h don p s i :
  proc_ (detach h don p s) i =
    let r := if decide (last don = Some i) then (proc_ s i) <| p_link := p_link (proc_ s p) |> else proc_ s i in
    if decide (i = p) then r <| p_wchan := 0 |> else r.
Proof.
  unfold detach, setp. destruct (last don) as [q|] eqn:E; cbn; rewrite !fn_case;
    repeat case_decide; simplify_eq/=; try done; congruence.
Qed.

Lemma detach_queues s B R h don p rest :
  queues s B R -> 0 <= h < 64 -> B h = don ++ p :: rest ->
  queues (detach h don p s) (<[h := don ++ rest]> B) R.
Proof.
  intros Hq Hh HBh. pose proof Hq as [HB HR HBn HRn HBi HRi].
  pose proof (HBn h) as Hnd. rewrite HBh in Hnd.
  assert (p ∉ don ++ rest) as Hp.
  { clear -Hnd. rewrite <- Permutation_middle in Hnd. by apply NoDup_cons in Hnd as [? _]. }
  assert (p ∈ B h) as Hpb by (rewrite HBh; apply elem_of_app; right; constructor).
  assert (forall q, last don = Some q -> q ∈ B h /\ q <> p) as Hlast.
  { intros q (l'&->)%last_Some. rewrite HBh. split; [mem|]. intros ->. mem. }
  assert (forall i, i ∉ B h -> lks (detach h don p s) i = lks s i) as Hlk.
  { intros i Hi. unfold lks. rewrite detach_proc. cbv zeta.
    rewrite (decide_False (P := last don = Some i)) by (intros E; by apply Hi, (Hlast i)).
    by case_decide. }
  assert (forall i, i <> p -> p_stat (proc_ (detach h don p s) i) = p_stat (proc_ s i) /\
            p_wchan (proc_ (detach h don p s) i) = p_wchan (proc_ s i)) as Hfld.
  { intros i Hi. rewrite detach_proc. repeat case_decide; subst; done. }
  split.
  - intros h' Hh'. rewrite fn_case. case_decide as Eh.
    + subst h'. pose proof (HB h Hh) as Hc. rewrite HBh in Hc. apply chain_remove in Hc; [|done].
      assert (slpque (detach h don p s) h = match last don with Some _ => slpque s h | None => lks s p end) as ->.
      { unfold detach. destruct (last don); cbn; [done|]. by rewrite fn_eq. }
      eapply chain_ext; [|exact Hc]. intros i Hi.
      assert (i <> p) by (by intros ->). unfold lks. rewrite detach_proc.
      destruct (last don) as [q|]; cbn; rewrite ?(decide_False (P := i = p)) by done.
      * rewrite fn_case. repeat case_decide; simplify_eq/=; done.
      * by rewrite decide_False.
    + assert (slpque (detach h don p s) h' = slpque s h') as ->.
      { unfold detach. destruct (last don); cbn; [done|]. by rewrite fn_ne. }
      eapply chain_ext; [|by apply HB]. intros i Hi. symmetry. apply Hlk. intros Hi'.
      by apply Eh, (queues_disj _ _ _ _ _ _ Hq Hi' Hi).
  - assert (runq (detach h don p s) = runq s) as -> by (unfold detach; by destruct (last don)).
    eapply chain_ext; [|exact HR]. intros i Hi. symmetry. apply Hlk. intros Hi'.
    by apply (queues_disj_R _ _ _ _ _ Hq Hi').
  - intros h'. rewrite fn_case. case_decide; [|done]. rewrite <- Permutation_middle in Hnd. by apply NoDup_cons in Hnd as [_ ?].
  - done.
  - intros h' i Hi. rewrite fn_case in Hi.
    assert (i ∈ B h' /\ i <> p) as [Hib Hip].
    { case_decide; [subst h'|].
      - rewrite HBh. split; [mem|]. by intros ->.
      - split; [done|]. intros ->. by apply H, (queues_disj _ _ _ _ _ _ Hq Hpb Hi). }
    destruct (Hfld i Hip) as [-> ->]. by apply HBi.
  - intros i Hi. assert (i <> p) as Hip by (intros ->; by apply (queues_disj_R _ _ _ _ _ Hq Hpb)).
    destruct (Hfld i Hip) as [-> ->]. by apply HRi.
Qed.

(** Putting a process that is on no queue at the head of the run queue. *)
Definition push_run (p : Z) (s : pst) : pst :=
  (setp p (fun r => r <| p_link := runq s |>) (setp p (fun r => r <| p_stat := SRUN |>) s)) <| runq := Some p |>.

Lemma push_queues s B R p :
  queues s B R -> inr_ p -> p_wchan (proc_ s p) = 0 -> p ∉ R -> (forall h, p ∉ B h) ->
  queues (push_run p s) B (p :: R).
Proof.
  intros [HB HR HBn HRn HBi HRi] Hr Hw HpR HpB. unfold push_run, setp.
  split; cbn.
  - intros h Hh. eapply chain_ext; [|by apply HB]. intros i Hi. unfold lks; cbn.
    rewrite !fn_ne; [done|..]; intros ->; by apply (HpB h).
  - split; [done|]. unfold lks at 2; cbn. rewrite !fn_eq; cbn. eapply chain_ext; [|exact HR].
    intros i Hi. unfold lks; cbn. rewrite !fn_ne; [done|..]; by intros ->.
  - done.
  - by constructor.
  - intros h i Hi. rewrite !fn_ne; [by apply HBi|..]; intros ->; by apply (HpB h).
  - intros i [->|Hi]%elem_of_cons; [by rewrite !fn_eq|]. rewrite !fn_ne; [by apply HRi|..]; by intros ->.
Qed.

Lemma woke_refl s s' : (forall i, unlink (proc_ s' i) = unlink (proc_ s i)) ->
  (runin s', curpri s', u_procp s', u_signal s', lbolt s', time s', spl s', console s') =
  (runin s, curpri s, u_procp s, u_signal s, lbolt s, time s, spl s, console s) -> woke [] s s'.
Proof. intros H E. split; [|done]. intros i. rewrite H. by rewrite decide_False by (apply not_elem_of_nil). Qed.

Lemma unlink_awake r r' : unlink r = unlink r' -> unlink (awake r) = unlink (awake r').
Proof. destruct r, r'. intros [=]. subst. done. Qed.
Lemma awake_awake r : awake (awake r) = awake r.
Proof. done. Qed.

Lemma woke_trans W1 W2 s s1 s2 : woke W1 s s1 -> woke W2 s1 s2 -> woke (W1 ++ W2) s s2.
Proof.
  intros [H1 F1] [H2 F2]. split; [|by rewrite F2]. intros i. rewrite H2. specialize (H1 i).
  destruct (decide (i ∈ W1)) as [i1|i1], (decide (i ∈ W2)) as [i2|i2].
  - rewrite decide_True by mem. rewrite (unlink_awake _ _ H1). done.
  - rewrite decide_True by mem. done.
  - rewrite decide_True by mem. by apply unlink_awake.
  - rewrite decide_False by mem. done.
Qed.

Lemma woke_perm W W' s s' : (forall i, i ∈ W <-> i ∈ W') -> woke W s s' -> woke W' s s'.
Proof.
  intros E [H F]. split; [|done]. intros i. rewrite H.
  specialize (E i). destruct (decide (i ∈ W)), (decide (i ∈ W')); tauto.
Qed.

Lemma woke_fields W s s' i : woke W s s' ->
  p_flag (proc_ s' i) = p_flag (proc_ s i) /\ p_pri (proc_ s' i) = p_pri (proc_ s i) /\
  (i ∉ W -> p_stat (proc_ s' i) = p_stat (proc_ s i) /\ p_wchan (proc_ s' i) = p_wchan (proc_ s i)) /\
  (i ∈ W -> p_stat (proc_ s' i) = SRUN /\ p_wchan (proc_ s' i) = 0).
Proof.
  intros [H _]. specialize (H i).
  pose proof (f_equal p_flag H) as Hf. pose proof (f_equal p_pri H) as Hp.
  pose proof (f_equal p_stat H) as Hs. pose proof (f_equal p_wchan H) as Hw.
  cbn in Hf, Hp, Hs, Hw. destruct (decide (i ∈ W)); repeat split; intros; done.
Qed.

(** What [setrun] does to a process that waits for nothing and is on no queue. *)
Definition pushed (p : Z) (s : pst) : pst :=
  if p_pri (proc_ s p) <? curpri s then (push_run p s) <| runrun ::= fun x => u8 (x + 1) |>
  else push_run p s.

Lemma pushed_queues s B R p :
  queues s B R -> inr_ p -> p_wchan (proc_ s p) = 0 -> p ∉ R -> (forall h, p ∉ B h) ->
  queues (pushed p s) B (p :: R).
Proof.
  intros. unfold pushed. destruct (_ <? _); [|by apply push_queues].
  eapply queues_frame; [by apply push_queues|done|done|done].
Qed.

Lemma pushed_woke s p : p_wchan (proc_ s p) = 0 -> woke [p] s (pushed p s).
Proof.
  intros Hw. unfold pushed. split.
  - intros i. assert (unlink (proc_ (push_run p s) i) =
      unlink (if decide (i ∈ [p]) then awake (proc_ s i) else proc_ s i)) as H.
    { unfold push_run, setp; cbn. rewrite !fn_case. destruct (decide (p = i)) as [->|Hne].
      - rewrite (decide_True (P := i ∈ [i])) by mem. rewrite decide_True by done.
        destruct (proc_ s i); cbn in *. by subst.
      - by rewrite decide_False by mem. }
    by destruct (_ <? _).
  - by destruct (_ <? _).
Qed.

Lemma pushed_runout s p : runout (pushed p s) = runout s.
Proof. unfold pushed. by destruct (_ <? _). Qed.

Lemma setrun_detached rec p s B R :
  queues s B R -> inr_ p -> p_stat (proc_ s p) <> 0 -> p_stat (proc_ s p) <> SZOMB ->
  p_wchan (proc_ s p) = 0 -> p ∉ R -> (forall h, p ∉ B h) ->
  setrun_with rec p s =
    if negb (runout s =? 0) && negb (has (p_flag (proc_ s p)) SLOAD)
    then rec addr_runout ((pushed p s) <| runout := 0 |>) else Ret tt (pushed p s).
Proof.
  intros Hq Hin Hs0 Hsz Hw HpR HpB. unfold setrun_with, getp. kred.
  destruct (Z.eqb_spec (p_stat (proc_ s p)) 0); [done|].
  destruct (Z.eqb_spec (p_stat (proc_ s p)) SZOMB); [done|].
  rewrite Hw. cbn [negb Z.eqb orb]. kred.
  set (s1 := setp p (fun r => r <| p_stat := SRUN |>) s).
  rewrite (bind_ret _ _ s1 tt (push_run p s)).
  2: { rewrite (setrq_spec p s1 R).
       - done.
       - destruct Hq as [_ HR _ _ _ _]. eapply chain_ext; [|exact HR]. intros i Hi.
         unfold lks, s1, setp; cbn. rewrite fn_ne; [done|]. by intros ->.
       - apply Hq.
       - intros i Hi. by apply (qRin _ _ _ Hq).
       - done. }
  kred.
  assert (p_pri (proc_ (push_run p s) p) = p_pri (proc_ s p)) as ->
    by (unfold push_run, setp; cbn; by rewrite !fn_eq).
  rewrite (bind_ret _ _ _ tt (pushed p s)).
  2: { unfold pushed. change (curpri (push_run p s)) with (curpri s). by destruct (_ <? _). }
  kred. rewrite pushed_runout.
  pose proof (woke_fields _ _ _ p (pushed_woke s p Hw)) as (-> & _).
  by destruct (negb (runout s =? 0) && negb (has (p_flag (proc_ s p)) SLOAD)).
Qed.

(** ** What wakeup does *)

(** [wk s B R W s' B' R']: the processes [W] went from the sleep queues to the
    run queue, and the rest stayed where they were. *)
Record wk (s : pst) (B : Z -> list Z) (R W : list Z) (s' : pst) (B' : Z -> list Z) (R' : list Z) : Prop := {
  wk_queues : queues s' B' R';
  wk_woke : woke W s s';
  wk_B : forall h, B' h = filter (fun i => i ∉ W) (B h);
  wk_R : R' ≡ₚ W ++ R
}.

Lemma wk_nil s B R s' : queues s' B R -> woke [] s s' -> wk s B R [] s' B R.
Proof.
  intros Hq Hw. split; [done|done| |done]. intros h. rewrite filter_list_all; [done|].
  apply Forall_forall. intros i _. mem.
Qed.

Lemma wk_trans s B R W1 s1 B1 R1 W2 s2 B2 R2 :
  wk s B R W1 s1 B1 R1 -> wk s1 B1 R1 W2 s2 B2 R2 -> wk s B R (W1 ++ W2) s2 B2 R2.
Proof.
  intros [_ H1 E1 P1] [Hq H2 E2 P2]. split; [done|by eapply woke_trans| |].
  - intros h. rewrite E2, E1, list_filter_filter. apply list_filter_iff. intros i. mem.
  - rewrite P2, P1, app_assoc. by rewrite (Permutation_app_comm W2).
Qed.

Lemma wk_swap s B R W W' s' B' R' : W ≡ₚ W' -> wk s B R W s' B' R' -> wk s B R W' s' B' R'.
Proof.
  intros P [Hq Hw E HR]. split; [done| | |by rewrite <- P].
  - eapply woke_perm; [|done]. intros i. by rewrite P.
  - intros h. rewrite E. apply list_filter_iff. intros i. by rewrite P.
Qed.

Lemma queues_B_ext s B B' R : (forall h, B h = B' h) -> queues s B R -> queues s B' R.
Proof.
  intros E [? ? ? ? ? ?]. split; try done; intros h; rewrite <- ?E; auto.
Qed.

(** The head of [rest] is taken off its queue and made runnable. *)
Lemma detach_wk s B R h don p rest s' :
  queues s B R -> B h = don ++ p :: rest -> p_wchan (proc_ s p) <> 0 ->
  pushed p (detach h don p s) = s' ->
  wk s B R [p] s' (fun h => filter (fun i => i ∉ [p]) (B h)) (p :: R).
Proof.
  intros Hq HB Hw <-. assert (p ∈ B h) as Hp by (rewrite HB; mem).
  pose proof (qBin _ _ _ Hq h p Hp) as (Hin&Hst&_&Hh).
  assert (0 <= h < 64) as Hr.
  { rewrite <- Hh. unfold HASH. change 63 with (Z.ones 6). rewrite Z.land_ones by lia.
    apply Z.mod_pos_bound. lia. }
  assert (p_wchan (proc_ (detach h don p s) p) = 0) as Hw0.
  { rewrite detach_proc. cbv zeta. by rewrite decide_True by done. }
  pose proof (qBnd _ _ _ Hq h) as Hnd. rewrite HB in Hnd.
  assert (p ∉ don ++ rest) as Hpn
    by (rewrite <- Permutation_middle in Hnd; by apply NoDup_cons in Hnd as [? _]).
  assert (forall h', <[h := don ++ rest]> B h' = filter (fun i => i ∉ [p]) (B h')) as HE.
  { intros h'. rewrite fn_case. case_decide as E.
    - subst h'. rewrite HB, filter_app, filter_cons_False by mem.
      rewrite !filter_list_all; [done|..]; apply Forall_forall; intros i Hi; intros E; apply Hpn; mem.
    - rewrite filter_list_all; [done|]. apply Forall_forall. intros i Hi Ei.
      apply E. eapply (queues_disj _ _ _ _ _ p Hq); [done|]. replace p with i by mem. done. }
  assert (queues (detach h don p s) (<[h := don ++ rest]> B) R) as Hq1 by (by apply detach_queues).
  assert (forall h', p ∉ <[h := don ++ rest]> B h') as HpB.
  { intros h'. rewrite HE. intros [Hn _]%list_elem_of_filter. apply Hn. by constructor. }
  assert (p ∉ R) as HpR by (by apply (queues_disj_R _ _ _ _ _ Hq Hp)).
  split.
  - eapply queues_B_ext; [exact HE|]. by apply pushed_queues.
  - pose proof (pushed_woke _ p Hw0) as [H F]. split.
    + intros i. rewrite H. destruct (decide (i ∈ [p])) as [Hi|Hi].
      * replace i with p in * by mem. rewrite detach_proc. cbv zeta.
        rewrite decide_True by done. unfold unlink, awake. by case_decide.
      * rewrite detach_proc. cbv zeta. rewrite (decide_False (P := i = p)) by mem. by case_decide.
    + rewrite F. unfold detach. by destruct (last don).
  - done.
  - done.
Qed.

Lemma body_skip sr chan h p q s :
  p_wchan (proc_ s p) <> chan -> wakeup_body sr chan h (Some p, q) s = Ret (inl (lks s p, Some p)) s.
Proof. intros H. unfold wakeup_body, getp. kred. by destruct (Z.eqb_spec (p_wchan (proc_ s p)) chan). Qed.

Lemma body_hit sr chan h don p s s' :
  p_wchan (proc_ s p) = chan -> p_stat (proc_ s p) = SSLEEP ->
  sr p (detach h don p s) = Ret tt s' ->
  wakeup_body sr chan h (Some p, last don) s = Ret (inl (lks s p, last don)) s'.
Proof.
  intros Hw Hs Hr. unfold wakeup_body, getp. kred.
  assert ((p_wchan (proc_ s p) =? chan) && negb (p_stat (proc_ s p) =? SZOMB) = true) as ->
    by (by rewrite Hw, Z.eqb_refl, Hs).
  cbv zeta.
  rewrite (bind_ret _ _ _ tt (match last don with
     | None => s <| slpque @ h := p_link (proc_ s p) |>
     | Some q => setp q (fun r => r <| p_link := p_link (proc_ s p) |>) s end))
    by (by destruct (last don)).
  kred. unfold detach in Hr. by rewrite (bind_ret _ _ _ tt s').
Qed.

Lemma HASH_range x : 0 <= HASH x < 64.
Proof. unfold HASH. change 63 with (Z.ones 6). rewrite Z.land_ones by lia. apply Z.mod_pos_bound. lia. Qed.

Lemma link_head s B R h don p rest :
  queues s B R -> B h = don ++ p :: rest -> lks s p = head rest.
Proof.
  intros Hq HB. assert (p ∈ B h) as Hp by (rewrite HB; mem).
  pose proof (qBin _ _ _ Hq h p Hp) as (_&_&_&Hh).
  pose proof (qB _ _ _ Hq h) as Hc. specialize (Hc ltac:(rewrite <- Hh; apply HASH_range)).
  rewrite HB in Hc. apply chain_app in Hc as [_ Hc]. cbn in Hc. destruct Hc as [_ Hc].
  by apply chain_head in Hc.
Qed.

Lemma NoDup_remove_mid (don rest : list Z) p :
  NoDup (don ++ p :: rest) -> filter (fun i => i ∉ [p]) (don ++ p :: rest) = don ++ rest.
Proof.
  intros Hnd. rewrite <- Permutation_middle in Hnd. apply NoDup_cons in Hnd as [Hp _].
  rewrite filter_app, filter_cons_False by mem.
  rewrite !filter_list_all; [done|..]; apply Forall_forall; intros i Hi E; apply Hp; mem.
Qed.

(** [setrun] in the loop of [wakeup], after the process was unlinked. *)
Lemma setrun_hit rec h don p rest s B R :
  queues s B R -> B h = don ++ p :: rest ->
  setrun_with rec p (detach h don p s) =
    if negb (runout s =? 0) && negb (has (p_flag (proc_ s p)) SLOAD)
    then rec addr_runout ((pushed p (detach h don p s)) <| runout := 0 |>)
    else Ret tt (pushed p (detach h don p s)).
Proof.
  intros Hq HB. assert (p ∈ B h) as Hp by (rewrite HB; mem).
  pose proof (qBin _ _ _ Hq h p Hp) as (Hin&Hst&Hw&Hh).
  pose proof (qBnd _ _ _ Hq h) as Hnd. rewrite HB in Hnd.
  assert (forall A (f : proc -> A), (forall r v, f (r <| p_link := v |>) = f r) ->
            (forall r v, f (r <| p_wchan := v |>) = f r) -> f (proc_ (detach h don p s) p) = f (proc_ s p)) as Hf.
  { intros A f E1 E2. rewrite detach_proc. cbv zeta. rewrite (decide_True (P := p = p)), E2 by done.
    by case_decide; rewrite ?E1. }
  rewrite (setrun_detached rec p _ (<[h := don ++ rest]> B) R).
  - rewrite (Hf _ p_flag) by done.
    assert (runout (detach h don p s) = runout s) as -> by (unfold detach; by destruct (last don)). done.
  - apply (detach_queues _ _ _ _ _ _ _ Hq); [|done]. rewrite <- Hh. apply HASH_range.
  - done.
  - rewrite (Hf _ p_stat) by done. by rewrite Hst.
  - rewrite (Hf _ p_stat) by done. by rewrite Hst.
  - rewrite detach_proc. cbv zeta. by rewrite (decide_True (P := p = p)).
  - by apply (queues_disj_R _ _ _ _ _ Hq Hp).
  - intros h'. rewrite fn_case. case_decide as E; intros Hp'.
    + rewrite <- Permutation_middle in Hnd. apply NoDup_cons in Hnd as [? _]. done.
    + by apply E, (queues_disj _ _ _ _ _ _ Hq Hp Hp').
Qed.

(** The waiters on [chan] among [l]. *)
Definition waiters (s : pst) (chan : Z) (l : list Z) : list Z := filter (fun i => p_wchan (proc_ s i) = chan) l.

(** After one process of a queue woke up, what is left to do. *)
Lemma loop_step s B R h don p rest s' chan :
  queues s B R -> B h = don ++ p :: rest -> p_wchan (proc_ s p) <> 0 ->
  pushed p (detach h don p s) = s' ->
  exists B' R', wk s B R [p] s' B' R' /\ B' h = don ++ rest /\
    waiters s' chan rest = waiters s chan rest /\ runout s' = runout s.
Proof.
  intros Hq HB Hw Hs. pose proof (detach_wk _ _ _ _ _ _ _ _ Hq HB Hw Hs) as Hwk.
  pose proof (qBnd _ _ _ Hq h) as Hnd. rewrite HB in Hnd.
  eexists _, _. split; [exact Hwk|]. split; [rewrite HB; by apply NoDup_remove_mid|]. split.
  - apply filter_ext_in. intros i Hi. pose proof (woke_fields _ _ _ i (wk_woke _ _ _ _ _ _ _ Hwk)) as (_&_&Hf&_).
    destruct Hf as [_ ->]; [|done]. intros Hi'. replace i with p in Hi by mem.
    apply NoDup_app in Hnd as (_&_&[Hnd _]%NoDup_cons). done.
  - subst s'. rewrite pushed_runout. unfold detach. by destruct (last don).
Qed.

Lemma loop_quiet rec chan h rest : forall n don s B R,
  queues s B R -> chan <> 0 -> B h = don ++ rest -> (length rest < n)%nat ->
  (forall i, i ∈ waiters s chan rest -> runout s = 0 \/ has (p_flag (proc_ s i)) SLOAD = true) ->
  exists s' B' R', iter n (wakeup_body (setrun_with rec) chan h) (head rest, last don) s = Ret tt s' /\
    wk s B R (waiters s chan rest) s' B' R' /\ runout s' = runout s.
Proof.
  induction rest as [|p rest IH]; intros [|n] don s B R Hq Hc HB Hn Hro; cbn in Hn; try lia.
  - exists s, B, R. split; [by rewrite (k_iter_inr _ _ _ _ tt s)|]. split; [|done]. apply wk_nil; [done|].
    by apply woke_refl.
  - pose proof (link_head _ _ _ _ _ _ _ Hq HB) as Hlk. cbn [head].
    destruct (decide (p_wchan (proc_ s p) = chan)) as [Hw|Hw].
    + assert (p ∈ B h) as Hp by (rewrite HB; mem).
      pose proof (qBin _ _ _ Hq h p Hp) as (Hin&Hst&Hw0&Hh).
      set (s1 := pushed p (detach h don p s)).
      assert (setrun_with rec p (detach h don p s) = Ret tt s1) as Hsr.
      { rewrite (setrun_hit rec h don p rest s B R) by done.
        destruct (Hro p) as [->| ->]; [|done|by rewrite andb_false_r].
        unfold waiters. rewrite filter_cons_True by done. mem. }
      rewrite (k_iter_inl _ _ _ _ _ s1 (body_hit _ _ _ _ _ _ _ Hw Hst Hsr)), Hlk.
      destruct (loop_step _ _ _ _ _ _ _ s1 chan Hq HB Hw0 eq_refl) as (B1&R1&Hwk&HB1&Hwt&Hr1).
      destruct (IH n don s1 B1 R1 (wk_queues _ _ _ _ _ _ _ Hwk) Hc HB1 ltac:(lia)) as (s'&B'&R'&E&Hwk'&Hr').
      { intros i Hi. rewrite Hwt in Hi. rewrite Hr1.
        pose proof (woke_fields _ _ _ i (wk_woke _ _ _ _ _ _ _ Hwk)) as (->&_).
        apply Hro. unfold waiters. rewrite filter_cons_True by done. by constructor. }
      exists s', B', R'. split; [exact E|]. split; [|congruence].
      unfold waiters. rewrite filter_cons_True by done. fold (waiters s chan rest). rewrite <- Hwt.
      by apply (wk_trans _ _ _ [p] _ _ _ _ _ _ _ Hwk).
    + rewrite (k_iter_inl _ _ _ _ _ s (body_skip _ _ _ _ _ _ Hw)), Hlk.
      assert (waiters s chan (p :: rest) = waiters s chan rest) as Ew by (unfold waiters; by rewrite filter_cons_False).
      rewrite Ew in *. pose proof (IH n (don ++ [p]) s B R Hq Hc) as IH'. rewrite last_snoc in IH'.
      apply IH'; [by rewrite <- app_assoc | lia | done].
Qed.

Lemma wakeup_quiet d chan s B R :
  queues s B R -> chan <> 0 ->
  (forall i, i ∈ waiters s chan (B (HASH chan)) -> runout s = 0 \/ has (p_flag (proc_ s i)) SLOAD = true) ->
  exists s' B' R', wakeup_d (S d) chan s = Ret tt s' /\
    wk s B R (waiters s chan (B (HASH chan))) s' B' R' /\ runout s' = runout s.
Proof.
  intros Hq Hc Hro. cbn [wakeup_d]. unfold splhi.
  rewrite (bind_ret _ _ s (spl s) (s <| spl := false |>)) by done. kred.
  set (s0 := s <| spl := false |>).
  assert (queues s0 B R) as Hq0 by (eapply queues_frame; [exact Hq|done|done|done]).
  destruct (loop_quiet (wakeup_d d) chan (HASH chan) (B (HASH chan)) walk [] s0 B R Hq0 Hc eq_refl)
    as (s1&B'&R'&E&[Hq' Hw HB' HR']&Hr').
  { apply range_length; [apply Hq|]. intros i Hi. by destruct (qBin _ _ _ Hq _ _ Hi) as (?&_). }
  { exact Hro. }
  assert (slpque s0 (HASH chan) = head (B (HASH chan))) as ->.
  { pose proof (qB _ _ _ Hq0 (HASH chan) (HASH_range _)) as Hch. by apply chain_head in Hch. }
  rewrite (bind_ret _ _ _ tt s1 E). unfold splx. kred.
  exists (s1 <| spl := spl s |>), B', R'. split; [done|]. split; [|done]. split; [|split| |]; try done.
  - eapply queues_frame; [exact Hq'|done|done|done].
  - apply Hw.
  - pose proof (wk_frame _ _ _ Hw) as F. cbn in *. simplify_eq. congruence.
Qed.

(** [setrun] calls for the swapper: it waits, and a process that wakes up is
    not in core. *)
Definition calls_swapper (s : pst) (chan : Z) (l : list Z) : Prop :=
  runout s <> 0 /\ exists i, i ∈ waiters s chan l /\ has (p_flag (proc_ s i)) SLOAD = false.

(** What [wakeup(chan)] makes runnable when the sleepers are those of [l]. *)
Definition woken (s : pst) (B : Z -> list Z) (chan : Z) (l W : list Z) : Prop :=
  forall i, i ∈ W <-> i ∈ waiters s chan l \/
    calls_swapper s chan l /\ i ∈ waiters s addr_runout (B (HASH addr_runout)).

Lemma waiters_mem s chan l i : i ∈ waiters s chan l <-> i ∈ l /\ p_wchan (proc_ s i) = chan.
Proof. unfold waiters. rewrite list_elem_of_filter. tauto. Qed.

Definition asleep (s : pst) (i c : Z) : Prop :=
  inr_ i /\ p_stat (proc_ s i) = SSLEEP /\ p_wchan (proc_ s i) = c.

(** When every sleeper is queued, those on the queue are those asleep. *)
Lemma waiters_full s B R chan i : queues s B R -> (forall i c, asleep s i c -> i ∈ B (HASH c)) -> chan <> 0 ->
  i ∈ waiters s chan (B (HASH chan)) <-> asleep s i chan.
Proof.
  intros Hq Hf Hc. rewrite waiters_mem. split.
  - intros [Hi Hw]. destruct (qBin _ _ _ Hq _ _ Hi) as (H1&H2&_). done.
  - intros Ha. split; [by apply Hf|apply Ha].
Qed.

Lemma waiters_wk s B R W s' B' R' chan h i :
  wk s B R W s' B' R' -> chan <> 0 ->
  i ∈ waiters s' chan (B' h) <-> (i ∉ W) /\ i ∈ waiters s chan (B h).
Proof.
  intros [Hq Hw HB _] Hc. rewrite !waiters_mem, HB, list_elem_of_filter.
  pose proof (woke_fields _ _ _ i Hw) as (_&_&Hn&Hy).
  split.
  - intros [[? ?] E]. destruct (Hn H) as [_ E']. rewrite <- E'. tauto.
  - intros [? [? E]]. destruct (Hn H) as [_ ->]. tauto.
Qed.

Lemma loop_swapper d chan h p rest don s B R n :
  queues s B R -> chan <> 0 -> addr_runout <> 0 -> HASH addr_runout <> h ->
  B h = don ++ p :: rest -> (length rest < n)%nat -> p_wchan (proc_ s p) = chan ->
  runout s <> 0 -> has (p_flag (proc_ s p)) SLOAD = false ->
  exists s' W B' R', iter (S n) (wakeup_body (setrun_with (wakeup_d (S d))) chan h) (Some p, last don) s = Ret tt s' /\
    wk s B R W s' B' R' /\ woken s B chan (p :: rest) W /\ runout s' = 0.
Proof.
  intros Hq Hc Hro0 Hne HB Hn Hw Hro Hld.
  assert (p ∈ B h) as Hp by (rewrite HB; mem).
  pose proof (qBin _ _ _ Hq h p Hp) as (Hin&Hst&Hw0&Hh).
  set (s1 := pushed p (detach h don p s)).
  destruct (loop_step _ _ _ _ _ _ _ s1 chan Hq HB Hw0 eq_refl) as (B1&R1&Hwk&HB1&Hwt&_).
  set (s2 := s1 <| runout := 0 |>).
  assert (wk s B R [p] s2 B1 R1) as Hwk2.
  { destruct Hwk as [Hq1 [Hw1 F1] HBE HR1]. split; [|split| |]; try done.
    eapply queues_frame; [exact Hq1|done|done|done]. }
  destruct (wakeup_quiet d addr_runout s2 B1 R1 (wk_queues _ _ _ _ _ _ _ Hwk2) Hro0)
    as (s3&B3&R3&E3&Hwk3&Hr3); [by left|].
  assert (setrun_with (wakeup_d (S d)) p (detach h don p s) = Ret tt s3) as Hsr.
  { rewrite (setrun_hit _ h don p rest s B R) by done. rewrite Hld.
    destruct (Z.eqb_spec (runout s) 0); [done|]. exact E3. }
  assert (B3 h = don ++ rest) as HB3.
  { rewrite (wk_B _ _ _ _ _ _ _ Hwk3), HB1. apply filter_list_all, Forall_forall.
    intros i Hi [Hir _]%waiters_mem. rewrite <- HB1 in Hi.
    by apply Hne, (queues_disj _ _ _ _ _ _ (wk_queues _ _ _ _ _ _ _ Hwk2) Hir Hi). }
  rewrite (k_iter_inl _ _ _ _ _ s3 (body_hit _ _ _ _ _ _ _ Hw Hst Hsr)), (link_head _ _ _ _ _ _ _ Hq HB).
  destruct (loop_quiet (wakeup_d (S d)) chan h rest n don s3 B3 R3 (wk_queues _ _ _ _ _ _ _ Hwk3) Hc HB3 Hn)
    as (s4&B4&R4&E4&Hwk4&Hr4); [intros; by left|].
  exists s4, ([p] ++ waiters s2 addr_runout (B1 (HASH addr_runout)) ++ waiters s3 chan rest), B4, R4.
  split; [exact E4|]. split; [by eapply wk_trans; [|eapply wk_trans]|]. split; [|by rewrite Hr4].
  intros i. rewrite !elem_of_app, elem_of_cons, elem_of_nil, (waiters_wk _ _ _ _ _ _ _ addr_runout _ i Hwk2 Hro0).
  assert (calls_swapper s chan (p :: rest)) as Hcs.
  { split; [done|]. exists p. split; [|done]. apply waiters_mem. split; [by constructor|done]. }
  assert (i ∈ waiters s3 chan rest <-> i ∈ waiters s chan rest /\ i ∉ waiters s2 addr_runout (B1 (HASH addr_runout))) as Hi3.
  { rewrite <- Hwt. rewrite !(waiters_mem _ chan). pose proof (woke_fields _ _ _ i (wk_woke _ _ _ _ _ _ _ Hwk3)) as (_&_&H1&H2).
    change (p_wchan (proc_ s1 i)) with (p_wchan (proc_ s2 i)).
    destruct (decide (i ∈ waiters s2 addr_runout (B1 (HASH addr_runout)))) as [D|D].
    - destruct (H2 D) as [_ ->]. split; [intros [_ E]; by destruct Hc|tauto].
    - destruct (H1 D) as [_ ->]. tauto. }
  rewrite Hi3, (waiters_wk _ _ _ _ _ _ _ addr_runout _ i Hwk2 Hro0), elem_of_cons, elem_of_nil, !waiters_mem, elem_of_cons.
  destruct (decide (i = p)) as [->|Hip]; [tauto|].
  assert (i ∈ B (HASH addr_runout) -> i ∈ rest -> False) as Hd.
  { intros H1 H2. apply Hne. apply (queues_disj _ _ _ _ _ i Hq H1). rewrite HB. mem. }
  tauto.
Qed.

Lemma loop_full d chan h rest : forall n don s B R,
  queues s B R -> chan <> 0 -> addr_runout <> 0 -> HASH addr_runout <> h ->
  B h = don ++ rest -> (length rest < n)%nat ->
  exists s' W B' R', iter n (wakeup_body (setrun_with (wakeup_d (S d))) chan h) (head rest, last don) s = Ret tt s' /\
    wk s B R W s' B' R' /\ woken s B chan rest W /\
    (calls_swapper s chan rest /\ runout s' = 0 \/ ~ calls_swapper s chan rest /\ runout s' = runout s).
Proof.
  induction rest as [|p rest IH]; intros [|n] don s B R Hq Hc Hro0 Hne HB Hn; cbn in Hn; try lia.
  - exists s, [], B, R. split; [by rewrite (k_iter_inr _ _ _ _ tt s)|].
    assert (~ calls_swapper s chan []) as Hns by (intros (_&i&[Hi _]%waiters_mem&_); mem).
    split; [apply wk_nil; [done|by apply woke_refl]|]. split; [|by right].
    intros i. rewrite !waiters_mem. mem.
  - pose proof (link_head _ _ _ _ _ _ _ Hq HB) as Hlk. cbn [head].
    destruct (decide (p_wchan (proc_ s p) = chan)) as [Hw|Hw].
    + destruct (decide (runout s <> 0 /\ has (p_flag (proc_ s p)) SLOAD = false)) as [[Hr Hl]|Hquiet].
      * destruct (loop_swapper d chan h p rest don s B R n) as (s'&W&B'&R'&?&?&?&?); try done; [lia|].
        exists s', W, B', R'. split; [done|]. split; [done|]. split; [done|]. left. split; [|done].
        split; [done|]. exists p. split; [|done]. apply waiters_mem. split; [by constructor|done].
      * assert (p ∈ B h) as Hp by (rewrite HB; mem).
        pose proof (qBin _ _ _ Hq h p Hp) as (Hin&Hst&Hw0&Hh).
        set (s1 := pushed p (detach h don p s)).
        assert (setrun_with (wakeup_d (S d)) p (detach h don p s) = Ret tt s1) as Hsr.
        { rewrite (setrun_hit _ h don p rest s B R) by done.
          destruct (Z.eqb_spec (runout s) 0); [done|]. destruct (has _ _) eqn:E; [done|]. tauto. }
        rewrite (k_iter_inl _ _ _ _ _ s1 (body_hit _ _ _ _ _ _ _ Hw Hst Hsr)), Hlk.
        destruct (loop_step _ _ _ _ _ _ _ s1 chan Hq HB Hw0 eq_refl) as (B1&R1&Hwk&HB1&Hwt&Hr1).
        destruct (IH n don s1 B1 R1 (wk_queues _ _ _ _ _ _ _ Hwk) Hc Hro0 Hne HB1 ltac:(lia))
          as (s'&W&B'&R'&E&Hwk'&HW&Hr').
        assert (calls_swapper s1 chan rest <-> calls_swapper s chan (p :: rest)) as Hcs.
        { unfold calls_swapper. rewrite Hr1, Hwt. split; intros (?&i&Hi&Hl); (split; [done|]).
          - exists i. rewrite waiters_mem in *. split; [mem|].
            by pose proof (woke_fields _ _ _ i (wk_woke _ _ _ _ _ _ _ Hwk)) as (<-&_).
          - exists i. pose proof (woke_fields _ _ _ i (wk_woke _ _ _ _ _ _ _ Hwk)) as (->&_). split; [|done].
            rewrite waiters_mem in *. destruct Hi as [[->|Hi]%elem_of_cons ?]; [tauto|done]. }
        exists s', ([p] ++ W), B', R'. split; [exact E|]. split; [by eapply wk_trans|].
        split; [|rewrite Hr1 in Hr'; tauto].
        intros i. rewrite elem_of_app, (HW i), Hwt, Hcs, (waiters_wk _ _ _ _ _ _ _ _ _ i Hwk Hro0), !waiters_mem, !elem_of_cons, elem_of_nil.
        destruct (decide (i = p)) as [->|]; tauto.
    + rewrite (k_iter_inl _ _ _ _ _ s (body_skip _ _ _ _ _ _ Hw)), Hlk.
      assert (waiters s chan (p :: rest) = waiters s chan rest) as Ew by (unfold waiters; by rewrite filter_cons_False).
      pose proof (IH n (don ++ [p]) s B R Hq Hc Hro0 Hne) as IH'. rewrite last_snoc in IH'.
      unfold woken, calls_swapper. rewrite Ew. apply IH'; [by rewrite <- app_assoc | lia].
Qed.

Lemma wk_spl s B R W s1 B' R' :
  wk (s <| spl := false |>) B R W s1 B' R' -> wk s B R W (s1 <| spl := spl s |>) B' R'.
Proof.
  intros [Hq' Hw HB' HR']. split; [|split| |]; try done.
  - eapply queues_frame; [exact Hq'|done|done|done].
  - apply Hw.
  - pose proof (wk_frame _ _ _ Hw) as F. cbn in *. simplify_eq. congruence.
Qed.

Lemma wakeup_spec d chan s B R :
  queues s B R -> chan <> 0 -> addr_runout <> 0 ->
  (calls_swapper s chan (B (HASH chan)) -> HASH addr_runout <> HASH chan) ->
  exists s' W B' R', wakeup_d (S (S d)) chan s = Ret tt s' /\ wk s B R W s' B' R' /\
    woken s B chan (B (HASH chan)) W /\
    (calls_swapper s chan (B (HASH chan)) /\ runout s' = 0 \/
     ~ calls_swapper s chan (B (HASH chan)) /\ runout s' = runout s).
Proof.
  intros Hq Hc Hro0 Hcl. destruct (decide (HASH addr_runout = HASH chan)) as [Eh|Hne].
  - assert (~ calls_swapper s chan (B (HASH chan))) as Hns by (intros H; by apply Hcl).
    destruct (wakeup_quiet (S d) chan s B R Hq Hc) as (s'&B'&R'&E&Hwk&Hr).
    { intros i Hi. destruct (decide (runout s = 0)) as [|Hr]; [by left|]. right.
      destruct (has (p_flag (proc_ s i)) SLOAD) eqn:El; [done|]. destruct Hns. split; [done|]. by exists i. }
    exists s', (waiters s chan (B (HASH chan))), B', R'. split; [done|]. split; [done|]. split; [|by right].
    intros i. tauto.
  - cbn [wakeup_d]. unfold splhi.
    rewrite (bind_ret _ _ s (spl s) (s <| spl := false |>)) by done. kred.
    set (s0 := s <| spl := false |>).
    assert (queues s0 B R) as Hq0 by (eapply queues_frame; [exact Hq|done|done|done]).
    destruct (loop_full d chan (HASH chan) (B (HASH chan)) walk [] s0 B R Hq0 Hc Hro0 Hne eq_refl)
      as (s1&W&B'&R'&E&Hwk&HW&Hr).
    { apply range_length; [apply Hq|]. intros i Hi. by destruct (qBin _ _ _ Hq _ _ Hi) as (?&_). }
    assert (slpque s0 (HASH chan) = head (B (HASH chan))) as ->.
    { pose proof (qB _ _ _ Hq0 (HASH chan) (HASH_range _)) as Hch. by apply chain_head in Hch. }
    rewrite (bind_ret _ _ _ tt s1 E). unfold splx. kred.
    exists (s1 <| spl := spl s |>), W, B', R'. split; [done|]. split; [by apply wk_spl|]. by split.
Qed.

(** [setrun] of a sleeper wakes up all who sleep where it does. *)
Lemma setrun_sleeper p s :
  p_stat (proc_ s p) = SSLEEP -> p_wchan (proc_ s p) <> 0 -> setrun p s = wakeup (p_wchan (proc_ s p)) s.
Proof.
  intros Hs Hw. unfold setrun, setrun_with, getp. kred. rewrite Hs. cbn [orb Z.eqb SSLEEP SZOMB].
  by destruct (Z.eqb_spec (p_wchan (proc_ s p)) 0).
Qed.

(** ** Signals *)

(** Signal [n] is pending. *)
Definition pending (r : proc) (n : Z) : bool := Z.testbit (p_sig r) (n - 1).

Lemma fsig_loop_spec k i n :
  1 <= i ->
  (fsig_loop k i n = 0 /\ forall j, 0 <= j < Z.of_nat k -> Z.testbit n j = false) \/
  (exists j, 0 <= j < Z.of_nat k /\ fsig_loop k i n = i + j /\ Z.testbit n j = true /\
     forall j', 0 <= j' < j -> Z.testbit n j' = false).
Proof.
  revert i n. induction k as [|k IH]; intros i n Hi; cbn [fsig_loop].
  - left. split; [done|]. intros; lia.
  - assert (negb (Z.land n 1 =? 0) = Z.testbit n 0) as ->.
    { rewrite <- (has_bit n 0) by lia. done. }
    destruct (Z.testbit n 0) eqn:E0.
    + right. exists 0. repeat split; try lia; done.
    + destruct (IH (i + 1) (Z.shiftr n 1) ltac:(lia)) as [[-> H]|(j&Hj&->&Hb&H)].
      * left. split; [done|]. intros j Hj. destruct (decide (j = 0)) as [->|]; [done|].
        specialize (H (j - 1) ltac:(lia)). rewrite Z.shiftr_spec in H by lia.
        by replace (j - 1 + 1) with j in H by lia.
      * right. exists (j + 1). rewrite Z.shiftr_spec in Hb by lia. split_and!; [lia|lia|lia|done|].
        intros j' Hj'. destruct (decide (j' = 0)) as [->|]; [done|].
        specialize (H (j' - 1) ltac:(lia)). rewrite Z.shiftr_spec in H by lia.
        by replace (j' - 1 + 1) with j' in H by lia.
Qed.

Lemma fsig_spec r :
  (fsig r = 0 /\ forall n, 1 <= n < NSIG -> pending r n = false) \/
  (1 <= fsig r < NSIG /\ pending r (fsig r) = true /\ forall m, 1 <= m < fsig r -> pending r m = false).
Proof.
  unfold fsig, pending, NSIG. destruct (fsig_loop_spec (Z.to_nat (17 - 1)) 1 (p_sig r) ltac:(lia)) as [[-> H]|(j&Hj&->&Hb&H)].
  - left. split; [done|]. intros n Hn. apply H. lia.
  - right. split; [lia|]. replace (1 + j - 1) with j by lia. split; [done|]. intros m Hm. apply H. lia.
Qed.

Lemma sig_zero r : -32768 <= p_sig r < 32768 -> (forall n, 1 <= n < NSIG -> pending r n = false) -> p_sig r = 0.
Proof.
  intros Hr H. rewrite <- (s16_id (p_sig r)) by lia. rewrite <- (wrap_s_u 16) by lia.
  assert (u16 (p_sig r) = 0) as ->; [|done].
  apply Z.bits_inj'. intros j Hj. rewrite Z.bits_0. unfold wrap_u, pending, NSIG in *.
  destruct (decide (j < 16)).
  - rewrite Z.mod_pow2_bits_low by lia. specialize (H (j + 1) ltac:(lia)).
    by replace (j + 1 - 1) with j in H by lia.
  - by rewrite Z.mod_pow2_bits_high by lia.
Qed.

Lemma pending_clear r n m :
  1 <= n < NSIG -> 1 <= m < NSIG ->
  pending (r <| p_sig ::= fun x => s16 (Z.land x (Z.lnot (Z.shiftl 1 (n - 1)))) |>) m =
    pending r m && negb (m =? n).
Proof.
  unfold NSIG. intros Hn Hm. unfold pending; cbn. rewrite testbit_wrap_s by lia.
  rewrite Z.land_spec, Z.lnot_spec, Z.shiftl_spec by lia. f_equal.
  destruct (Z.eqb_spec m n) as [->|].
  - by replace (n - 1 - (n - 1)) with 0 by lia.
  - cbn. destruct (decide (m - 1 < n - 1)).
    + by rewrite Z.testbit_neg_r by lia.
    + change 1 with (2 ^ 0). rewrite bit_pow2 by lia. by rewrite bool_decide_eq_false_2 by lia.
Qed.

Lemma pending_set r n m :
  1 <= n < NSIG -> 1 <= m < NSIG ->
  pending (r <| p_sig ::= fun x => s16 (Z.lor x (Z.shiftl 1 (n - 1))) |>) m = pending r m || (m =? n).
Proof.
  unfold NSIG. intros Hn Hm. unfold pending; cbn. rewrite testbit_wrap_s by lia.
  rewrite Z.lor_spec, Z.shiftl_spec by lia. f_equal. destruct (Z.eqb_spec m n) as [->|].
  - by replace (n - 1 - (n - 1)) with 0 by lia.
  - destruct (decide (m - 1 < n - 1)).
    + by rewrite Z.testbit_neg_r by lia.
    + change 1 with (2 ^ 0). rewrite bit_pow2 by lia. by rewrite bool_decide_eq_false_2 by lia.
Qed.

(** Only the pending signals of [p] differ. *)
Record sig_only (p : Z) (s s' : pst) : Prop := {
  so_p : exists x, -32768 <= x < 32768 /\ proc_ s' p = (proc_ s p) <| p_sig := x |>;
  so_o : forall i, i <> p -> proc_ s' i = proc_ s i;
  so_f : (slpque s', runq s', curpri s', runin s', runout s', runrun s', u_procp s', u_signal s') =
         (slpque s, runq s, curpri s, runin s, runout s, runrun s, u_procp s, u_signal s) /\
         (lbolt s', time s', spl s', console s') = (lbolt s, time s, spl s, console s)
}.

(** The ignored signals of the process in slot [p]. *)
Definition ignored (s : pst) (p n : Z) : bool :=
  negb (Z.land (u_signal s p n) 1 =? 0) && negb (has (p_flag (proc_ s p)) STRC).

Lemma issig_loop p k : forall i s,
  -32768 <= p_sig (proc_ s p) < 32768 -> 1 <= i <= NSIG ->
  (forall m, 1 <= m < i -> m < NSIG -> pending (proc_ s p) m = false) -> (17 < Z.of_nat k + i) ->
  exists n s', iter k (issig_body p) tt s = Ret n s' /\ sig_only p s s' /\
    (forall m, 1 <= m < NSIG -> pending (proc_ s' p) m = true -> pending (proc_ s p) m = true) /\
    (forall m, 1 <= m < NSIG -> pending (proc_ s p) m = true -> pending (proc_ s' p) m = false -> ignored s p m = true) /\
    (n = 0 -> forall m, 1 <= m < NSIG -> pending (proc_ s' p) m = false) /\
    (n <> 0 -> 1 <= n < NSIG /\ pending (proc_ s' p) n = true /\ ignored s p n = false /\
       forall m, 1 <= m < n -> pending (proc_ s' p) m = false).
Proof.
  induction k as [|k IH]; intros i s Hr Hi Hlow Hk.
  { unfold NSIG in *. lia. }
  destruct (Z.eqb_spec (p_sig (proc_ s p)) 0) as [E0|E0].
  - exists 0, s. split; [|split; [|split; [|split; [|split]]]]; try done.
    + rewrite (k_iter_inr _ _ _ _ 0 s); [done|]. unfold issig_body, getp. kred. by rewrite E0.
    + split; [|done|done]. exists (p_sig (proc_ s p)). split; [done|]. by destruct (proc_ s p).
    + intros m _ H H'. congruence.
    + intros _ m _. unfold pending. by rewrite E0, Z.bits_0.
  - destruct (fsig_spec (proc_ s p)) as [[_ Hn]|(Hn&Hp&Hl)]; [by destruct E0; apply sig_zero|].
    set (n := fsig (proc_ s p)) in *.
    destruct (ignored s p n) eqn:Eig.
    + set (s1 := setp p (fun r => r <| p_sig ::= fun x => s16 (Z.land x (Z.lnot (Z.shiftl 1 (n - 1)))) |>) s).
      assert (proc_ s1 p = (proc_ s p) <| p_sig ::= fun x => s16 (Z.land x (Z.lnot (Z.shiftl 1 (n - 1)))) |>) as E1
        by (unfold s1, setp; cbn; by rewrite fn_eq).
      assert (forall j, j <> p -> proc_ s1 j = proc_ s j) as E2
        by (intros; unfold s1, setp; cbn; by rewrite fn_ne).
      assert (forall m, ignored s1 p m = ignored s p m) as E3
        by (intros m; unfold ignored; by rewrite E1).
      assert (forall m, 1 <= m < NSIG -> pending (proc_ s1 p) m = pending (proc_ s p) m && negb (m =? n)) as E4
        by (intros m Hm; rewrite E1; by apply pending_clear).
      destruct (IH (n + 1) s1) as (n'&s'&E&[(x&Hx&Hsp) Hso Hsf]&Ha&Hb&Hc&Hd).
      { rewrite E1; cbn. apply s16_range. }
      { unfold NSIG in *. lia. }
      { intros m Hm Hm'. rewrite E4 by lia. destruct (Z.eqb_spec m n); [by rewrite andb_false_r|].
        rewrite Hl by lia. done. }
      { destruct (decide (n < i)); [|lia]. rewrite Hlow in Hp by lia. done. }
      exists n', s'. split; [|split; [|split; [|split; [|split]]]].
      * rewrite (k_iter_inl _ _ _ _ tt s1); [exact E|]. unfold issig_body, getp. kred.
        destruct (Z.eqb_spec (p_sig (proc_ s p)) 0); [done|]. cbv zeta. fold n. kred.
        unfold ignored in Eig. rewrite <- negb_orb in Eig. apply negb_true_iff in Eig.
        rewrite Eig. done.
      * split; [|intros j Hj; by rewrite Hso, E2|exact Hsf]. exists x. split; [done|]. rewrite Hsp, E1. done.
      * intros m Hm H. apply (Ha m Hm) in H. rewrite E4 in H by done. by apply andb_true_iff in H as [? _].
      * intros m Hm H H'. destruct (decide (m = n)) as [->|Hne]; [done|]. rewrite <- E3. apply Hb; [done| |done].
        rewrite E4, H by done. by destruct (Z.eqb_spec m n).
      * exact Hc.
      * intros Hn'. destruct (Hd Hn') as (?&?&Hig&?). rewrite E3 in Hig. done.
    + exists n, s. split; [|split; [|split; [|split; [|split]]]]; try done.
      * rewrite (k_iter_inr _ _ _ _ n s); [done|]. unfold issig_body, getp. kred.
        destruct (Z.eqb_spec (p_sig (proc_ s p)) 0); [done|]. cbv zeta. fold n. kred.
        unfold ignored in Eig. rewrite <- negb_orb in Eig. apply negb_false_iff in Eig.
        rewrite Eig. done.
      * split; [|done|done]. exists (p_sig (proc_ s p)). split; [done|]. by destruct (proc_ s p).
      * intros m _ H H'. congruence.
      * lia.
Qed.

Lemma issig_ok s :
  -32768 <= p_sig (proc_ s (u_procp s)) < 32768 ->
  exists n s', issig s = Ret n s' /\ sig_only (u_procp s) s s' /\
    (forall m, 1 <= m < NSIG -> pending (proc_ s' (u_procp s)) m = true -> pending (proc_ s (u_procp s)) m = true) /\
    (forall m, 1 <= m < NSIG -> pending (proc_ s (u_procp s)) m = true ->
       pending (proc_ s' (u_procp s)) m = false -> ignored s (u_procp s) m = true) /\
    (n = 0 -> forall m, 1 <= m < NSIG -> pending (proc_ s' (u_procp s)) m = false) /\
    (n <> 0 -> 1 <= n < NSIG /\ pending (proc_ s' (u_procp s)) n = true /\ ignored s (u_procp s) n = false /\
       forall m, 1 <= m < n -> pending (proc_ s' (u_procp s)) m = false).
Proof.
  intros Hr. unfold issig. kred. apply (issig_loop _ _ 1); [done|unfold NSIG; lia|intros; lia|unfold NSIG; lia].
Qed.

(** ** The scheduler invariant *)

(** A channel that may be slept on along with the swapper's own. *)
Definition chan_ok (c : Z) : Prop :=
  c <> 0 /\ c <> addr_runin /\ c <> addr_runout /\ HASH c <> HASH addr_runout.

(** Process [cur] has the processor, if any: every runnable process is on the
    run queue or is [cur], every sleeper is on the queue of its channel, and
    only the swapper, process 0, sleeps on the swapper's channels. *)
Record sched_ok (cur : option Z) (s : pst) (B : Z -> list Z) (R : list Z) : Prop := {
  so_queues : queues s B R;
  so_run : forall i, inr_ i -> p_stat (proc_ s i) = SRUN -> i ∈ R \/ cur = Some i;
  so_sleep : forall i c, asleep s i c -> i ∈ B (HASH c) /\ (chan_ok c \/ c = addr_runin \/ c = addr_runout);
  so_cur : forall i, cur = Some i -> i = u_procp s /\ inr_ i /\ p_stat (proc_ s i) = SRUN /\
             p_wchan (proc_ s i) = 0 /\ i ∉ R;
  so_swap : forall i c, asleep s i c -> c = addr_runin \/ c = addr_runout -> i = 0 /\ p_pri (proc_ s i) <= PZERO;
  so_out : runout s <> 0 -> asleep s 0 addr_runout;
  so_sig : forall i, -32768 <= p_sig (proc_ s i) < 32768;
  so_idle : forall i, p_stat (proc_ s i) <> SSLEEP -> p_stat (proc_ s i) <> SZOMB -> p_wchan (proc_ s i) = 0
}.

(** The addresses are those of distinct objects. *)
Definition addrs_ok : Prop := addr_runin <> 0 /\ addr_runout <> 0 /\ addr_runin <> addr_runout.

(** Changes that leave alone what the queues depend on. *)
Lemma sched_frame cur s s' B R :
  sched_ok cur s B R ->
  (forall h, slpque s' h = slpque s h) ->
  (runq s', runout s', u_procp s') = (runq s, runout s, u_procp s) ->
  (forall i, (i ∈ R \/ (exists h, i ∈ B h) -> p_link (proc_ s' i) = p_link (proc_ s i)) /\ p_stat (proc_ s' i) = p_stat (proc_ s i) /\
     p_wchan (proc_ s' i) = p_wchan (proc_ s i) /\
     (p_stat (proc_ s i) = SSLEEP -> p_pri (proc_ s i) <= PZERO -> p_pri (proc_ s' i) <= PZERO) /\
     -32768 <= p_sig (proc_ s' i) < 32768) ->
  sched_ok cur s' B R.
Proof.
  intros [Hq Hrun Hsl Hcur Hsw Hout Hsig Hidle] E1 E H.
  injection E as E2 E3 E4.
  assert (forall i c, asleep s' i c <-> asleep s i c) as Ha.
  { intros i c. unfold asleep. by destruct (H i) as (_&->&->&_). }
  split.
  - eapply queues_frame; [exact Hq|exact E1|exact E2|]. intros i Hi. destruct (H i) as (HL&->&->&_). by rewrite HL.
  - intros i Hi. destruct (H i) as (_&->&_). by apply Hrun.
  - intros i c Hac. apply Hsl. by apply Ha.
  - intros i Hi. destruct (H i) as (_&->&->&_). rewrite E4. by apply Hcur.
  - intros i c Hac Hc. apply Ha in Hac. destruct (Hsw i c Hac Hc) as [-> Hp]. split; [done|].
    destruct Hac as (_&Hst&_). destruct (H 0) as (_&_&_&Hpr&_). by apply Hpr.
  - rewrite E3. intros Hr. by apply Ha, Hout.
  - intros i. by destruct (H i) as (_&_&_&_&?).
  - intros i. destruct (H i) as (_&->&->&_). apply Hidle.
Qed.

Lemma waiters_asleep s B R cur chan i : sched_ok cur s B R -> chan <> 0 ->
  i ∈ waiters s chan (B (HASH chan)) <-> asleep s i chan.
Proof.
  intros Hs Hc. rewrite waiters_mem. split.
  - intros [Hi E]. destruct (qBin _ _ _ (so_queues _ _ _ _ Hs) _ _ Hi) as (?&?&_). done.
  - intros Ha. split; [by destruct (so_sleep _ _ _ _ Hs _ _ Ha)|]. by destruct Ha as (_&_&?).
Qed.

(** [wakeup] keeps the invariant and makes every sleeper of the channel
    runnable.  The channel is any: nobody sleeps on one that shares the bucket
    of [&runout].  The swapper's own is woken only once [runout] is clear. *)
Lemma wakeup_sched cur s B R chan :
  addrs_ok -> sched_ok cur s B R -> chan <> 0 -> (chan = addr_runout -> runout s = 0) ->
  exists s' B' R', wakeup chan s = Ret tt s' /\ sched_ok cur s' B' R' /\
    (forall i, asleep s i chan -> unlink (proc_ s' i) = unlink (awake (proc_ s i)) /\ i ∈ R') /\
    (forall i, ~ asleep s i chan -> ~ (runout s <> 0 /\ i = 0) -> unlink (proc_ s' i) = unlink (proc_ s i)) /\
    (runin s', curpri s', u_procp s', u_signal s', lbolt s', time s', spl s', console s') =
    (runin s, curpri s, u_procp s, u_signal s, lbolt s, time s, spl s, console s).
Proof.
  intros (Hri&Hro&Hne) Hs Hc Hco. pose proof Hs as [Hq Hrun Hsl Hcur Hsw Hout Hsig Hidle].
  destruct (wakeup_spec 0 chan s B R Hq Hc Hro) as (s'&W&B'&R'&E&Hwk&HW&Hr).
  { intros [Hr (i&Hi&_)]. apply (waiters_asleep _ _ _ _ _ _ Hs Hc) in Hi.
    destruct (Hsl _ _ Hi) as [_ [(?&?&?&?)|[->|Ec]]]; [congruence| |by apply Hco in Ec]. destruct (Hsw _ _ Hi (or_introl eq_refl)) as [-> _].
    destruct (Hout Hr) as (_&_&E1). destruct Hi as (_&_&E2). congruence. }
  exists s', B', R'. split; [exact E|].
  assert (forall i, i ∈ W <-> asleep s i chan \/ calls_swapper s chan (B (HASH chan)) /\ asleep s i addr_runout) as HW'.
  { intros i. rewrite (HW i), !(waiters_asleep _ _ _ _ _ _ Hs) by done. done. }
  pose proof (wk_woke _ _ _ _ _ _ _ Hwk) as Hwo.
  assert (forall i c, asleep s' i c <-> asleep s i c /\ i ∉ W) as Has.
  { intros i c. unfold asleep. pose proof (woke_fields _ _ _ i Hwo) as (_&_&H1&H2).
    destruct (decide (i ∈ W)) as [D|D].
    - destruct (H2 D) as [-> ->]. split; [intros (_&?&_); done|tauto].
    - destruct (H1 D) as [-> ->]. tauto. }
  split_and!.
  - split.
    + apply Hwk.
    + intros i Hi Hst. rewrite (wk_R _ _ _ _ _ _ _ Hwk), elem_of_app.
      pose proof (woke_fields _ _ _ i Hwo) as (_&_&H1&_).
      destruct (decide (i ∈ W)) as [D|D]; [tauto|]. destruct (H1 D) as [E1 _]. rewrite E1 in Hst.
      destruct (Hrun i Hi Hst); tauto.
    + intros i c [Ha Hn]%Has. destruct (Hsl i c Ha) as [Hb ?]. split; [|done].
      rewrite (wk_B _ _ _ _ _ _ _ Hwk). by apply list_elem_of_filter.
    + intros i Hi. destruct (Hcur i Hi) as (->&?&Hst&Hw&HnR).
      assert (u_procp s ∉ W) as HnW.
      { rewrite HW'. intros [(_&?&_)|(_&_&?&_)]; unfold SRUN, SSLEEP in *; congruence. }
      pose proof (woke_fields _ _ _ (u_procp s) Hwo) as (_&_&H1&_). destruct (H1 HnW) as [-> ->].
      pose proof (wk_frame _ _ _ Hwo) as F. injection F as _ _ -> _ _ _ _ _.
      rewrite (wk_R _ _ _ _ _ _ _ Hwk), elem_of_app. tauto.
    + intros i c [Ha _]%Has Hcc. pose proof (woke_fields _ _ _ i Hwo) as (_&->&_). by apply (Hsw i c).
    + intros Hr'. destruct Hr as [[_ Hr]|[Hn Hr]]; [congruence|]. rewrite Hr in Hr'.
      apply Has. split; [by apply Hout|]. rewrite HW'. intros [Ha|[? _]]; [|done].
      destruct Ha as (_&_&E1), (Hout Hr') as (_&_&E2). apply Hr', Hco. congruence.
    + intros i. destruct Hwo as [H _]. specialize (H i). apply (f_equal p_sig) in H. cbn in H. rewrite H.
      case_decide; apply Hsig.
    + intros i. pose proof (woke_fields _ _ _ i Hwo) as (_&_&H1&H2). destruct (decide (i ∈ W)) as [D|D].
      * by destruct (H2 D) as [_ ->].
      * destruct (H1 D) as [-> ->]. apply Hidle.
  - intros i Ha. assert (i ∈ W) as D by (rewrite HW'; tauto).
    destruct Hwo as [H _]. rewrite H, decide_True by done. split; [done|].
    rewrite (wk_R _ _ _ _ _ _ _ Hwk), elem_of_app. tauto.
  - intros i Hn Hnr. destruct Hwo as [H _]. rewrite H. rewrite decide_False; [done|].
    rewrite HW'. intros [?|[[Hr0 _] Ha]]; [done|]. apply Hnr. split; [done|]. apply (Hsw i addr_runout Ha). by right.
  - apply Hwo.
Qed.

(** A process that sleeps below [PZERO] in priority waits on an ordinary channel. *)
Lemma setrun_sched cur s B R p :
  addrs_ok -> sched_ok cur s B R -> inr_ p -> p_stat (proc_ s p) = SSLEEP -> PZERO < p_pri (proc_ s p) ->
  exists s' B' R', setrun p s = Ret tt s' /\ sched_ok cur s' B' R' /\
    unlink (proc_ s' p) = unlink (awake (proc_ s p)) /\ p ∈ R' /\
    (runin s', curpri s', u_procp s', u_signal s', lbolt s', time s', spl s', console s') =
    (runin s, curpri s, u_procp s, u_signal s, lbolt s, time s, spl s, console s).
Proof.
  intros Ha Hs Hp Hst Hpri. set (c := p_wchan (proc_ s p)).
  assert (asleep s p c) as Hac by done.
  destruct (so_sleep _ _ _ _ Hs _ _ Hac) as [_ Hc].
  assert (chan_ok c) as Hok.
  { destruct Hc as [?|Hc]; [done|]. destruct (so_swap _ _ _ _ Hs _ _ Hac Hc) as [_ ?]. lia. }
  destruct Hok as (Hc0&_&Hc1&_).
  destruct (wakeup_sched cur s B R c Ha Hs Hc0 ltac:(done)) as (s'&B'&R'&E&Hs'&Hw&_&F).
  exists s', B', R'. rewrite (setrun_sleeper p s Hst Hc0).
  destruct (Hw p Hac). done.
Qed.

(** One field of one process changes. *)
Lemma sched_setp cur s B R p f :
  sched_ok cur s B R ->
  (forall r, p_link (f r) = p_link r /\ p_stat (f r) = p_stat r /\ p_wchan (f r) = p_wchan r) ->
  (p_pri (proc_ s p) <= PZERO -> p_pri (f (proc_ s p)) <= PZERO) ->
  -32768 <= p_sig (f (proc_ s p)) < 32768 ->
  sched_ok cur (setp p f s) B R.
Proof.
  intros Hs Hf Hpri Hsig. eapply sched_frame; [exact Hs|done|done|]. intros i. unfold setp; cbn.
  rewrite fn_case. destruct (decide (p = i)) as [<-|].
  - destruct (Hf (proc_ s p)) as (?&?&?). done.
  - split_and!; try done; by apply (so_sig _ _ _ _ Hs).
Qed.

Lemma psignal_sched cur s B R p sig :
  addrs_ok -> sched_ok cur s B R -> inr_ p ->
  exists s' B' R', psignal p sig s = Ret tt s' /\ sched_ok cur s' B' R' /\
    (1 <= sig < NSIG ->
       (forall m, 1 <= m < NSIG -> pending (proc_ s' p) m = pending (proc_ s p) m || (m =? sig)) /\
       p_pri (proc_ s' p) = Z.min PUSER (p_pri (proc_ s p)) /\
       (p_stat (proc_ s p) = SSLEEP -> PZERO < p_pri (proc_ s p) ->
          p_stat (proc_ s' p) = SRUN /\ p_wchan (proc_ s' p) = 0 /\ p ∈ R') /\
       (p_stat (proc_ s p) <> SSLEEP \/ p_pri (proc_ s p) <= PZERO ->
          p_stat (proc_ s' p) = p_stat (proc_ s p) /\ p_wchan (proc_ s' p) = p_wchan (proc_ s p) /\ B' = B /\ R' = R)) /\
    (runin s', curpri s', u_procp s', u_signal s', lbolt s', time s', spl s', console s') =
    (runin s, curpri s, u_procp s, u_signal s, lbolt s, time s, spl s, console s).
Proof.
  intros Ha Hs Hp. unfold psignal. destruct (Z.leb_spec NSIG (u32 sig)) as [Hsg|Hsg].
  { exists s, B, R. split; [done|]. split; [done|]. split; [|done]. intros Hr. unfold NSIG in *.
    rewrite u32_id in Hsg; lia. }
  set (s1 := if negb (sig =? 0) then setp p (fun r => r <| p_sig ::= fun x => s16 (Z.lor x (Z.shiftl 1 (sig - 1))) |>) s else s).
  rewrite (bind_ret _ _ s tt s1) by (unfold s1; by destruct (negb (sig =? 0))).
  assert (sched_ok cur s1 B R) as Hs1.
  { unfold s1. destruct (negb (sig =? 0)); [|done]. apply sched_setp; try done. apply s16_range. }
  unfold getp. kred.
  set (s2 := if PUSER <? p_pri (proc_ s1 p) then setp p (fun r => r <| p_pri := PUSER |>) s1 else s1).
  rewrite (bind_ret _ _ s1 tt s2) by (unfold s2; by destruct (PUSER <? p_pri (proc_ s1 p))).
  assert (sched_ok cur s2 B R) as Hs2.
  { unfold s2. destruct (Z.ltb_spec PUSER (p_pri (proc_ s1 p))); [|done].
    apply sched_setp; try done; [cbn; unfold PUSER, PZERO in *; lia | apply (so_sig _ _ _ _ Hs1)]. }
  assert ((runin s2, curpri s2, u_procp s2, u_signal s2, lbolt s2, time s2, spl s2, console s2) =
    (runin s, curpri s, u_procp s, u_signal s, lbolt s, time s, spl s, console s)) as F.
  { unfold s2, s1. by destruct (PUSER <? _), (negb (sig =? 0)). }
  assert (p_stat (proc_ s2 p) = p_stat (proc_ s p) /\ p_wchan (proc_ s2 p) = p_wchan (proc_ s p) /\
    p_pri (proc_ s2 p) = Z.min PUSER (p_pri (proc_ s p)) /\
    (1 <= sig < NSIG -> forall m, 1 <= m < NSIG -> pending (proc_ s2 p) m = pending (proc_ s p) m || (m =? sig)))
    as (G1&G2&G3&G4).
  { assert (p_pri (proc_ s1 p) = p_pri (proc_ s p) /\ p_stat (proc_ s1 p) = p_stat (proc_ s p) /\
      p_wchan (proc_ s1 p) = p_wchan (proc_ s p) /\
      (1 <= sig < NSIG -> forall m, 1 <= m < NSIG -> pending (proc_ s1 p) m = pending (proc_ s p) m || (m =? sig)))
      as (K1&K2&K3&K4).
    { unfold s1. destruct (Z.eqb_spec sig 0); cbn [negb]; [split_and!; try done; lia|].
      unfold setp; cbn. rewrite fn_eq. split_and!; try done. intros Hr m Hm. by apply pending_set. }
    unfold s2. destruct (Z.ltb_spec PUSER (p_pri (proc_ s1 p))) as [Hlt|Hge].
    - unfold setp; cbn. rewrite fn_eq. split_and!; [done|done|cbn; lia|exact K4].
    - split_and!; [done|done|lia|exact K4]. }
  kred. destruct (Z.eqb_spec (p_stat (proc_ s2 p)) SSLEEP) as [E1|E1]; cbn [andb].
  2: { exists s2, B, R. split; [done|]. split; [done|]. split; [|done]. intros Hr. rewrite G1, G2, G3.
       split; [by apply G4|]. split; [done|]. split; [intros ?; congruence|done]. }
  destruct (Z.ltb_spec PZERO (p_pri (proc_ s2 p))) as [E2|E2].
  2: { exists s2, B, R. split; [done|]. split; [done|]. split; [|done]. intros Hr. rewrite G1, G2, G3.
       split; [by apply G4|]. split; [done|]. split; [|done]. intros _ ?. unfold PZERO, PUSER in *. lia. }
  destruct (setrun_sched cur s2 B R p Ha Hs2 Hp E1 E2) as (s'&B'&R'&E&Hs'&Hu&Hin&F').
  exists s', B', R'. split; [exact E|]. split; [done|]. split; [|by rewrite F'].
  intros Hr. pose proof (f_equal p_sig Hu) as U1. pose proof (f_equal p_pri Hu) as U2.
  pose proof (f_equal p_stat Hu) as U3. pose proof (f_equal p_wchan Hu) as U4. cbn in U1, U2, U3, U4.
  unfold pending in *. rewrite U1, U2, U3, U4, G3. split; [by apply G4|]. split; [done|]. split; [done|].
  intros [H|H]; [congruence|]. unfold PZERO, PUSER in *. lia.
Qed.

Abbreviation frame1 s' s :=
  ((runin s', curpri s', u_procp s', u_signal s', lbolt s', time s', spl s', console s') =
   (runin s, curpri s, u_procp s, u_signal s, lbolt s, time s, spl s, console s)).

Lemma each_sched (f : Z -> M unit) cur l :
  (forall p s B R, sched_ok cur s B R -> inr_ p -> exists s' B' R', f p s = Ret tt s' /\ sched_ok cur s' B' R' /\ u_procp s' = u_procp s) ->
  Forall inr_ l -> forall s B R, sched_ok cur s B R ->
  exists s' B' R', each l f s = Ret tt s' /\ sched_ok cur s' B' R' /\ u_procp s' = u_procp s.
Proof.
  intros Hf Hl. induction Hl as [|p l Hp Hl IH]; intros s B R Hs; cbn [each]; [by exists s, B, R|].
  destruct (Hf p s B R Hs Hp) as (s1&B1&R1&E1&Hs1&U1).
  rewrite (bind_ret _ _ _ _ _ E1). destruct (IH s1 B1 R1 Hs1) as (s2&B2&R2&E2&Hs2&U2).
  exists s2, B2, R2. split; [done|]. split; [done|]. congruence.
Qed.

Lemma slots_range : Forall inr_ slots.
Proof.
  apply Forall_forall. intros i (n&->&Hn)%list_elem_of_fmap. apply elem_of_seq in Hn.
  unfold inr_, NPROC in *. lia.
Qed.

Lemma signal_sched cur s B R pgrp sig :
  addrs_ok -> sched_ok cur s B R ->
  exists s' B' R', signal pgrp sig s = Ret tt s' /\ sched_ok cur s' B' R' /\ u_procp s' = u_procp s.
Proof.
  intros Ha Hs. unfold signal. destruct (pgrp =? 0); [by exists s, B, R|].
  eapply (each_sched _ cur slots); [|apply slots_range|exact Hs].
  intros p s1 B1 R1 Hs1 Hp. unfold getp. kred.
  destruct (p_pgrp (proc_ s1 p) =? pgrp); [|by exists s1, B1, R1].
  destruct (psignal_sched cur s1 B1 R1 p sig Ha Hs1 Hp) as (s'&B'&R'&E&Hs'&_&F).
  exists s', B', R'. split; [exact E|]. split; [done|]. congruence.
Qed.

(** The priority [setpri] computes. *)
Definition user_pri (r : proc) : Z :=
  u8 (Z.min 127 (Z.land (p_cpu r) 255 / 16 + (PUSER + p_nice r - NZERO))).

Lemma setpri_spec p s :
  exists rr, setpri p s = Ret (user_pri (proc_ s p))
               (setp p (fun r => r <| p_pri := user_pri (proc_ s p) |>) (s <| runrun := rr |>)).
Proof.
  unfold setpri. kred. set (x := Z.land (p_cpu (proc_ s p)) 255 / 16 + (PUSER + p_nice (proc_ s p) - NZERO)).
  assert ((if 127 <? x then 127 else x) = Z.min 127 x) as -> by (destruct (Z.ltb_spec 127 x); lia).
  cbv zeta. unfold user_pri. fold x.
  exists (if Z.min 127 x <? curpri s then u8 (runrun s + 1) else runrun s).
  destruct (Z.min 127 x <? curpri s); [done|]. rewrite k_when_false by done. kred. by destruct s.
Qed.

Lemma setpri_sched cur s B R p :
  sched_ok cur s B R -> PUSER <= p_pri (proc_ s p) ->
  exists v s', setpri p s = Ret v s' /\ sched_ok cur s' B R /\ u_procp s' = u_procp s.
Proof.
  intros Hs Hp. destruct (setpri_spec p s) as [rr ->]. eexists _, _. split; [done|]. split; [|done].
  apply sched_setp; try done.
  - eapply sched_frame; [exact Hs|done|done|]. intros i. split_and!; try done; by apply (so_sig _ _ _ _ Hs).
  - cbn. unfold PUSER, PZERO in *. lia.
  - apply (so_sig _ _ _ _ Hs).
Qed.

Lemma clock_proc_sched cur s B R pp :
  addrs_ok -> sched_ok cur s B R -> inr_ pp ->
  exists s' B' R', clock_proc pp s = Ret tt s' /\ sched_ok cur s' B' R' /\ u_procp s' = u_procp s.
Proof.
  intros Ha Hs Hp. unfold clock_proc, getp. kred.
  destruct (negb (p_stat (proc_ s pp) =? 0) && (p_stat (proc_ s pp) <? SZOMB)); [|by exists s, B, R].
  cbn [when].
  set (s1 := if negb (p_time (proc_ s pp) =? 127) then setp pp (fun r => r <| p_time ::= fun x => u8 (x + 1) |>) s else s).
  rewrite (bind_ret _ _ s tt s1) by (unfold s1; by destruct (negb _)).
  assert (sched_ok cur s1 B R /\ u_procp s1 = u_procp s) as [Hs1 U1].
  { unfold s1. destruct (negb _); [|done]. split; [|done]. apply sched_setp; try done. apply (so_sig _ _ _ _ Hs). }
  assert (exists s2 B2 R2, when (negb (p_clktim (proc_ s pp) =? 0))
       (modify (setp pp (fun r => r <| p_clktim ::= fun x => s32 (x - 1) |>));;
        pr ← gets (fun s => proc_ s pp);
        when (p_clktim pr =? 0) (psignal pp SIGCLK)) s1 = Ret tt s2 /\
      sched_ok cur s2 B2 R2 /\ u_procp s2 = u_procp s1) as (s2&B2&R2&Eb1&Hs2&U2).
  { destruct (negb (p_clktim (proc_ s pp) =? 0)); [|by exists s1, B, R]. cbn [when]. kred.
    set (s2 := setp pp (fun r => r <| p_clktim ::= fun x => s32 (x - 1) |>) s1).
    assert (sched_ok cur s2 B R) as Hs2 by (apply sched_setp; try done; apply (so_sig _ _ _ _ Hs1)).
    destruct (p_clktim (proc_ s2 pp) =? 0); [|by exists s2, B, R].
    destruct (psignal_sched cur s2 B R pp SIGCLK Ha Hs2 Hp) as (s'&B'&R'&E&Hs'&_&F).
    exists s', B', R'. split; [exact E|]. split; [done|]. change (u_procp s1) with (u_procp s2). congruence. }
  rewrite (bind_ret _ _ _ _ _ Eb1). kred.
  match goal with |- context [setp pp ?f s2] => set (s3 := setp pp f s2) end.
  assert (sched_ok cur s3 B2 R2) as Hs3 by (apply sched_setp; try done; apply (so_sig _ _ _ _ Hs2)).
  destruct (Z.leb_spec PUSER (p_pri (proc_ s3 pp))); cbn [when].
  - destruct (setpri_sched cur s3 B2 R2 pp Hs3 H) as (v&s4&Eb2&Hs4&U4). rewrite (bind_ret _ _ _ _ _ Eb2).
    exists s4, B2, R2. split; [done|]. split; [done|]. change (u_procp s3) with (u_procp s2) in U4. congruence.
  - exists s3, B2, R2. split; [done|]. split; [done|]. change (u_procp s3) with (u_procp s2). congruence.
Qed.

Lemma clock_sched cur s B R :
  addrs_ok -> addr_lbolt <> 0 /\ addr_lbolt <> addr_runout -> sched_ok cur s B R ->
  exists s' B' R', clock s = Ret tt s' /\ sched_ok cur s' B' R' /\ u_procp s' = u_procp s.
Proof.
  intros Ha Hlb Hs. unfold clock, getp. kred.
  set (s1 := setp (u_procp s) (fun r => r <| p_cpu ::= fun x => u8 (x + 1) |>) s).
  assert (sched_ok cur s1 B R) as Hs1 by (apply sched_setp; try done; apply (so_sig _ _ _ _ Hs)).
  set (s2 := if p_cpu (proc_ s1 (u_procp s)) =? 0
             then setp (u_procp s) (fun r => r <| p_cpu ::= fun x => u8 (x - 1) |>) s1 else s1).
  rewrite (bind_ret _ _ s1 tt s2) by (unfold s2; by destruct (_ =? 0)).
  assert (sched_ok cur s2 B R /\ u_procp s2 = u_procp s) as [Hs2 U2].
  { unfold s2. destruct (_ =? 0); [|done]. split; [|done]. apply sched_setp; try done. apply (so_sig _ _ _ _ Hs1). }
  kred. set (s3 := s2 <| lbolt ::= fun x => s32 (x + 1) |>).
  assert (sched_ok cur s3 B R) as Hs3.
  { eapply sched_frame; [exact Hs2|done|done|]. intros i. split_and!; try done; by apply (so_sig _ _ _ _ Hs2). }
  destruct (HZ <=? lbolt s3); cbn [when]; [|by exists s3, B, R].
  kred. set (s4 := s3 <| lbolt ::= fun x => x - HZ |> <| time ::= fun x => s32 (x + 1) |> <| runrun ::= fun x => u8 (x + 1) |>).
  assert (sched_ok cur s4 B R) as Hs4.
  { eapply sched_frame; [exact Hs3|done|done|]. intros i. split_and!; try done; by apply (so_sig _ _ _ _ Hs3). }
  destruct (wakeup_sched cur s4 B R addr_lbolt Ha Hs4 ltac:(tauto) ltac:(tauto)) as (s5&B5&R5&Eb3&Hs5&_&_&F5).
  rewrite (bind_ret _ _ _ _ _ Eb3).
  assert (forall p s B R, sched_ok cur s B R -> inr_ p ->
    exists s' B' R', clock_proc p s = Ret tt s' /\ sched_ok cur s' B' R' /\ u_procp s' = u_procp s) as Hcp
    by (intros; by eapply clock_proc_sched).
  destruct (each_sched clock_proc cur slots Hcp slots_range s5 B5 R5 Hs5) as (s6&B6&R6&Eb4&Hs6&U6).
  rewrite (bind_ret _ _ _ _ _ Eb4). assert (u_procp s6 = u_procp s) as U by (rewrite U6, <- U2; injection F5; congruence).
  kred. destruct (negb (runin s6 =? 0)); cbn [when]; [|by exists s6, B6, R6]. kred.
  set (s7 := s6 <| runin := 0 |>).
  assert (sched_ok cur s7 B6 R6) as Hs7.
  { eapply sched_frame; [exact Hs6|done|done|]. intros i. split_and!; try done; by apply (so_sig _ _ _ _ Hs6). }
  destruct (wakeup_sched cur s7 B6 R6 addr_runin Ha Hs7 (proj1 Ha) ltac:(by destruct Ha as (_&_&?))) as (s8&B8&R8&E8&Hs8&_&_&F8).
  exists s8, B8, R8. split; [exact E8|]. split; [done|]. rewrite <- U. injection F8; congruence.
Qed.

(** ** The choice of the next process *)

(** A process that [swtch] may resume. *)
Definition ready (s : pst) (i : Z) : bool :=
  (p_stat (proc_ s i) =? SRUN) && has (p_flag (proc_ s i)) SLOAD && (p_pri (proc_ s i) <? 128).

(** The result of the search over the queue [l]. *)
Definition chosen (s : pst) (l : list Z) (r : option Z * option Z * Z) : Prop :=
  let '(pp, pq, n) := r in
  match pp with
  | None => n = 128 /\ forall i, i ∈ l -> ready s i = false
  | Some p => exists pre post, l = pre ++ p :: post /\ pq = last pre /\ n = p_pri (proc_ s p) /\
      ready s p = true /\
      (forall i, i ∈ pre -> ready s i = true -> n < p_pri (proc_ s i)) /\
      (forall i, i ∈ post -> ready s i = true -> n <= p_pri (proc_ s i))
  end.

Lemma scan_loop s : forall l k don acc,
  chain (lks s) (head l) l -> (length l < k)%nat -> chosen s don acc ->
  exists r, iter k scan_body (head l, last don, acc) s = Ret r s /\ chosen s (don ++ l) r.
Proof.
  induction l as [|p l IH]; intros k don [[pp pq] n] Hc Hk Hch; (destruct k as [|k]; [cbn in Hk; lia|]).
  - exists (pp, pq, n). split; [by rewrite (k_iter_inr _ _ _ _ (pp, pq, n) s)|]. by rewrite app_nil_r.
  - cbn in Hc, Hk. destruct Hc as [_ Hc]. pose proof (chain_head _ _ _ Hc) as Hh.
    set (acc' := if (p_stat (proc_ s p) =? SRUN) && has (p_flag (proc_ s p)) SLOAD && (p_pri (proc_ s p) <? n)
                 then (Some p, last don, p_pri (proc_ s p)) else (pp, pq, n)).
    assert (chosen s (don ++ [p]) acc') as Hch'.
    { unfold acc'. destruct (_ && _) eqn:E.
      - apply andb_true_iff in E as [E Hlt%Z.ltb_lt].
        exists don, []. split_and!; [done|done|done| | |intros; mem].
        + unfold ready. rewrite E. unfold chosen in Hch. apply Z.ltb_lt.
          destruct pp; [|lia]. destruct Hch as (?&?&_&_&->&Hr&_). unfold ready in Hr.
          apply andb_true_iff in Hr as [_ ?%Z.ltb_lt]. lia.
        + intros i Hi Hr. unfold chosen in Hch. destruct pp as [b|].
          * destruct Hch as (pre&post&->&_&->&_&H1&H2).
            apply elem_of_app in Hi as [Hi|[->|Hi]%elem_of_cons]; [specialize (H1 i Hi Hr)| |specialize (H2 i Hi Hr)]; lia.
          * destruct Hch as [_ H]. rewrite H in Hr; done.
      - unfold chosen in *. destruct pp as [b|].
        + destruct Hch as (pre&post&->&->&->&Hr&H1&H2). exists pre, (post ++ [p]).
          split_and!; [by rewrite <- app_assoc|done|done|done|done|].
          intros i [Hi| ->%list_elem_of_singleton]%elem_of_app Hri; [by apply H2|].
          unfold ready in Hri. apply andb_true_iff in Hri as [Hri _]. rewrite Hri in E.
          apply Z.ltb_ge in E. lia.
        + destruct Hch as [-> H]. split; [done|].
          intros i [Hi| ->%list_elem_of_singleton]%elem_of_app; [by apply H|done]. }
    rewrite (k_iter_inl _ _ _ _ (lks s p, Some p, acc') s) by done. rewrite Hh in Hc |- *.
    destruct (IH k (don ++ [p]) acc' Hc ltac:(lia) Hch') as (r&E&Hr). rewrite last_snoc in E.
    exists r. split; [exact E|]. by rewrite <- app_assoc in Hr.
Qed.

Lemma swtch_scan_spec s B R :
  queues s B R -> exists r, swtch_scan (runq s) s = Ret r s /\ chosen s R r.
Proof.
  intros Hq. pose proof (qR _ _ _ Hq) as Hc. pose proof (chain_head _ _ _ Hc) as Hh. rewrite Hh in Hc |- *.
  apply (scan_loop s R walk [] (None, None, 128) Hc).
  - apply range_length; [apply Hq|]. intros i Hi. by destruct (qRin _ _ _ Hq i Hi) as (?&_).
  - split; [done|]. intros i Hi. mem.
Qed.

(** Taking the chosen process off the run queue. *)
Definition dequeue (pre : list Z) (p : Z) (s : pst) : pst :=
  match last pre with
  | None => s <| runq := p_link (proc_ s p) |>
  | Some q => setp q (fun r => r <| p_link := p_link (proc_ s p) |>) s
  end.

Lemma dequeue_proc pre p s i :
  proc_ (dequeue pre p s) i =
    if decide (last pre = Some i) then (proc_ s i) <| p_link := p_link (proc_ s p) |> else proc_ s i.
Proof.
  unfold dequeue, setp. destruct (last pre) as [q|]; cbn; [|done].
  rewrite fn_case. repeat case_decide; simplify_eq/=; done.
Qed.

Lemma dequeue_queues s B pre p post :
  queues s B (pre ++ p :: post) -> queues (dequeue pre p s) B (pre ++ post).
Proof.
  intros Hq. pose proof Hq as [HB HR HBn HRn HBi HRi].
  assert (p ∉ pre ++ post) as Hp.
  { clear -HRn. rewrite <- Permutation_middle in HRn. by apply NoDup_cons in HRn as [? _]. }
  assert (forall i, i ∉ pre ++ p :: post -> lks (dequeue pre p s) i = lks s i) as Hlk.
  { intros i Hi. unfold lks. rewrite dequeue_proc. rewrite decide_False; [done|].
    intros (l'&->)%last_Some. apply Hi. mem. }
  assert (forall i, p_stat (proc_ (dequeue pre p s) i) = p_stat (proc_ s i) /\
            p_wchan (proc_ (dequeue pre p s) i) = p_wchan (proc_ s i)) as Hf.
  { intros i. rewrite dequeue_proc. by case_decide. }
  split.
  - intros h Hh. assert (slpque (dequeue pre p s) h = slpque s h) as -> by (unfold dequeue; by destruct (last pre)).
    eapply chain_ext; [|by apply HB]. intros i Hi. symmetry. apply Hlk. by eapply queues_disj_R.
  - pose proof (chain_remove _ _ _ _ _ HRn HR) as Hc.
    assert (runq (dequeue pre p s) = match last pre with Some _ => runq s | None => lks s p end) as ->
      by (unfold dequeue; by destruct (last pre)).
    eapply chain_ext; [|exact Hc]. intros i Hi.
    change (lks (dequeue pre p s) i) with (p_link (proc_ (dequeue pre p s) i)). rewrite dequeue_proc.
    destruct (last pre) as [q|]; [|done].
    rewrite fn_case. repeat case_decide; simplify_eq/=; done.
  - done.
  - rewrite <- Permutation_middle in HRn. by apply NoDup_cons in HRn as [_ ?].
  - intros h i Hi. destruct (Hf i) as [-> ->]. by apply HBi.
  - intros i Hi. destruct (Hf i) as [-> ->]. apply HRi. mem.
Qed.

Lemma swtch_search_spec n s B R :
  sched_ok None s B R ->
  (exists k s', swtch_search (S n) s = Blocked Idle s' k /\ (forall i, i ∈ R -> ready s i = false) /\
     s' = s <| spl := false |> <| runrun := 0 |> /\ sched_ok None s' B R) \/
  (exists pre p post sw s', swtch_search (S n) s = Ret (p, sw) s' /\ R = pre ++ p :: post /\
     ready s p = true /\ (forall i, i ∈ pre -> ready s i = true -> p_pri (proc_ s p) < p_pri (proc_ s i)) /\
     (forall i, i ∈ post -> ready s i = true -> p_pri (proc_ s p) <= p_pri (proc_ s i)) /\
     sched_ok (Some p) s' B (pre ++ post) /\ curpri s' = u8 (p_pri (proc_ s p)) /\ spl s' = true /\ runrun s' = 0).
Proof.
  intros Hs. set (s1 := s <| spl := false |> <| runrun := 0 |>).
  assert (sched_ok None s1 B R) as Hs1.
  { eapply sched_frame; [exact Hs|done|done|]. intros i. split_and!; try done; by apply (so_sig _ _ _ _ Hs). }
  destruct (swtch_scan_spec s1 B R (so_queues _ _ _ _ Hs1)) as ([[pp pq] m]&E&Hch).
  assert (search_body tt s = (let '(pp, pq, n) := ((pp, pq, m) : option Z * option Z * Z) in
    match pp with
    | None => block Idle;; mret (inl tt)
    | Some p => r ← swtch_resume p pq n; mret (inr r)
    end : M (unit + Z * bool)) s1) as Eb.
  { unfold search_body. rewrite (bind_ret splhi _ s (spl s) (s <| spl := false |>)) by done. kred.
    by rewrite (bind_ret _ _ _ _ _ E). }
  destruct pp as [p|].
  - right. destruct Hch as (pre&post&HR&->&->&Hrd&H1&H2). subst R.
    change (ready s1) with (ready s) in *. change (proc_ s1) with (proc_ s) in *.
    set (s2 := dequeue pre p s1).
    set (s3 := setp p (fun r => r <| p_flag ::= fun f => clrf f SSWAP |>) (s2 <| curpri := u8 (p_pri (proc_ s p)) |> <| spl := true |>)).
    exists pre, p, post, (has (p_flag (proc_ s2 p)) SSWAP), (s3 <| u_procp := p |>).
    assert (swtch_resume p (last pre) (p_pri (proc_ s p)) s1 = Ret (p, has (p_flag (proc_ s2 p)) SSWAP) (s3 <| u_procp := p |>)) as Er.
    { unfold swtch_resume. kred.
      rewrite (bind_ret _ _ _ tt s2) by (unfold s2, dequeue; by destruct (last pre)). done. }
    assert (queues s2 B (pre ++ post)) as Hq2 by (apply dequeue_queues, Hs1).
    assert (forall i, unlink (proc_ s2 i) = unlink (proc_ s i)) as Hu.
    { intros i. unfold s2. rewrite dequeue_proc. by case_decide. }
    assert (forall A (f : proc -> A), (forall r v, f (r <| p_link := v |>) = f r) ->
              (forall r g, f (r <| p_flag ::= g |>) = f r) -> forall i, f (proc_ (s3 <| u_procp := p |>) i) = f (proc_ s i)) as Hf.
    { intros A f E1 E2 i. unfold s3, setp; cbn. rewrite fn_case.
      assert (f (proc_ s2 i) = f (proc_ s i)) as <- by (unfold s2; rewrite dequeue_proc; case_decide; [apply E1|done]).
      case_decide; subst; [apply E2|done]. }
    assert (inr_ p /\ p_stat (proc_ s p) = SRUN /\ p_wchan (proc_ s p) = 0) as Hpp.
    { apply (qRin _ _ _ (so_queues _ _ _ _ Hs)). mem. }
    assert (p ∉ pre ++ post) as Hpn.
    { pose proof (qRnd _ _ _ (so_queues _ _ _ _ Hs)) as Hnd. rewrite <- Permutation_middle in Hnd. by apply NoDup_cons in Hnd as [? _]. }
    assert (forall i c, asleep (s3 <| u_procp := p |>) i c <-> asleep s i c) as Has.
    { intros i c. unfold asleep. by rewrite (Hf _ p_stat), (Hf _ p_wchan) by done. }
    split; [|split_and!; try done].
    + unfold swtch_search. rewrite (k_iter_inr _ _ _ _ (p, has (p_flag (proc_ s2 p)) SSWAP) (s3 <| u_procp := p |>)); [done|].
      rewrite Eb. by rewrite (bind_ret _ _ _ _ _ Er).
    + split.
      * eapply queues_frame; [exact Hq2|done|done|]. intros i _. unfold s3, setp; cbn. rewrite fn_case. by case_decide; subst.
      * intros i Hi. rewrite (Hf _ p_stat) by done. intros Hst.
        destruct (so_run _ _ _ _ Hs i Hi Hst) as [Hin|?]; [|done].
        destruct (decide (i = p)) as [->|]; [by right|left]. mem.
      * intros i c Ha. apply Has in Ha. by apply (so_sleep _ _ _ _ Hs).
      * intros i [= <-]. rewrite (Hf _ p_stat), (Hf _ p_wchan) by done. destruct Hpp as (?&?&?). done.
      * intros i c Ha Hc. apply Has in Ha. rewrite (Hf _ p_pri) by done. by apply (so_swap _ _ _ _ Hs i c).
      * intros Hr. apply Has. apply (so_out _ _ _ _ Hs). by unfold s3, s2, dequeue in Hr; destruct (last pre).
      * intros i. rewrite (Hf _ p_sig) by done. apply (so_sig _ _ _ _ Hs).
      * intros i. rewrite (Hf _ p_stat), (Hf _ p_wchan) by done. apply (so_idle _ _ _ _ Hs).
    + unfold s3, s2, dequeue. by destruct (last pre).
  - left. destruct Hch as [-> Hn]. change (ready s1) with (ready s) in *.
    unfold swtch_search. cbn [iter]. unfold mbind at 1, K_bind at 1. rewrite Eb. cbn.
    eexists _, s1. split; [done|]. split; [done|]. by split.
Qed.

(** ** Going to sleep *)

(** The state after [sleep] has put the current process on its queue. *)
Definition enqueue (chan pri : Z) (s : pst) : pst :=
  let rp := u_procp s in
  let s1 := setp rp (fun r => r <| p_pri := u8 pri |>)
    (setp rp (fun r => r <| p_wchan := chan |>)
      (setp rp (fun r => r <| p_stat := SSLEEP |>) (s <| spl := false |>))) in
  (setp rp (fun r => r <| p_link := slpque s (HASH chan) |>) s1) <| slpque @ (HASH chan) := Some rp |>.

Lemma enqueue_proc chan pri s i :
  proc_ (enqueue chan pri s) i =
    if decide (u_procp s = i) then
      (proc_ s i) <| p_stat := SSLEEP |> <| p_wchan := chan |> <| p_pri := u8 pri |> <| p_link := slpque s (HASH chan) |>
    else proc_ s i.
Proof. unfold enqueue, setp; cbn. rewrite !fn_case. by repeat case_decide; simplify_eq. Qed.

(** What a process may sleep on, and how. *)
Definition sleep_ok (rp chan pri : Z) : Prop :=
  0 <= pri < 256 /\ (chan_ok chan \/ (chan = addr_runin \/ chan = addr_runout) /\ rp = 0 /\ pri <= PZERO).

Lemma enqueue_sched s B R chan pri :
  addrs_ok -> sched_ok (Some (u_procp s)) s B R -> sleep_ok (u_procp s) chan pri ->
  sched_ok None (enqueue chan pri s) (<[HASH chan := (u_procp s :: B (HASH chan))]> B) R /\
  asleep (enqueue chan pri s) (u_procp s) chan.
Proof.
  intros (Hri&Hro&Hneq) Hs [Hpri Hok]. set (rp := u_procp s) in *. set (h := HASH chan).
  pose proof Hs as [Hq Hrun Hsl Hcur Hsw Hout Hsig Hidle].
  destruct (Hcur rp eq_refl) as (_&Hin&Hst&Hw&HnR).
  assert (chan <> 0) as Hc0 by (unfold chan_ok in Hok; destruct Hok as [?|[[?|?] _]]; congruence || tauto).
  assert (forall h', rp ∉ B h') as HnB.
  { intros h' Hi. destruct (qBin _ _ _ Hq _ _ Hi) as (_&E&_). unfold SRUN, SSLEEP in *. congruence. }
  set (s' := enqueue chan pri s).
  assert (forall i, i <> rp -> proc_ s' i = proc_ s i) as Hne.
  { intros i Hi. unfold s'. rewrite enqueue_proc. by rewrite decide_False. }
  assert (proc_ s' rp = (proc_ s rp) <| p_stat := SSLEEP |> <| p_wchan := chan |> <| p_pri := u8 pri |> <| p_link := slpque s h |>) as Heq.
  { unfold s'. rewrite enqueue_proc. by rewrite decide_True. }
  assert (asleep s' rp chan) as Hrp by (split; [done|]; by rewrite Heq).
  assert (forall i c, asleep s' i c -> i = rp /\ c = chan \/ i <> rp /\ asleep s i c) as Has.
  { intros i c. unfold asleep. destruct (decide (i = rp)) as [->|Hi].
    - rewrite Heq; cbn. intros (_&_&<-). by left.
    - rewrite Hne by done. by right. }
  split; [|done]. split.
  - split.
    + intros h' Hh'. change (slpque s' h') with (<[h := Some rp]> (slpque s) h'). rewrite !fn_case.
      case_decide as E; [subst h'|].
      * split; [done|]. unfold lks at 2. rewrite Heq; cbn. eapply chain_ext; [|by apply (qB _ _ _ Hq)].
        intros i Hi. unfold lks. rewrite Hne; [done|]. intros ->. by apply (HnB h).
      * eapply chain_ext; [|by apply (qB _ _ _ Hq)]. intros i Hi. unfold lks. rewrite Hne; [done|]. intros ->. by apply (HnB h').
    + eapply chain_ext; [|apply (qR _ _ _ Hq)]. intros i Hi. unfold lks. rewrite Hne; [done|]. by intros ->.
    + intros h'. rewrite fn_case. case_decide; [|apply Hq]. constructor; [apply HnB|apply Hq].
    + apply Hq.
    + intros h' i. rewrite fn_case. intros Hi.
      assert (i = rp /\ h' = h \/ i <> rp /\ i ∈ B h') as [[-> ->]|[Hi' Hb]].
      { destruct (decide (i = rp)) as [->|]; [left|right]; case_decide; subst.
        - done.
        - by apply HnB in Hi.
        - apply elem_of_cons in Hi. tauto.
        - done. }
      * rewrite Heq; cbn. done.
      * rewrite Hne by done. by apply (qBin _ _ _ Hq).
    + intros i Hi. rewrite Hne by (by intros ->). by apply (qRin _ _ _ Hq).
  - intros i Hi Hsti. left. destruct (decide (i = rp)) as [->|Hir]; [by rewrite Heq in Hsti|].
    rewrite Hne in Hsti by done. destruct (Hrun i Hi Hsti) as [?|[=]]; [done|congruence].
  - intros i c [[-> ->]|[Hir Ha]]%Has.
    + split; [rewrite fn_eq; by constructor|]. tauto.
    + destruct (Hsl i c Ha) as [Hb Hcc]. split; [|done]. rewrite fn_case. case_decide as E; [|done].
      rewrite E. by right.
  - done.
  - intros i c [[-> ->]|[Hir Ha]]%Has Hcc.
    + destruct Hok as [(_&?&?&_)|(_&E0&Hp)]; [tauto|]. split; [done|]. rewrite Heq; cbn. by rewrite u8_id.
    + rewrite Hne by done. by apply (Hsw i c).
  - intros Hr. destruct (Hout Hr) as (H0&H1&H2). destruct (decide (0 = rp)) as [E|E].
    + rewrite E, Hst in H1. done.
    + split; [done|]. by rewrite Hne.
  - intros i. destruct (decide (i = rp)) as [->|]; [rewrite Heq; cbn|rewrite Hne by done]; apply Hsig.
  - intros i. destruct (decide (i = rp)) as [->|]; [rewrite Heq; cbn; done|rewrite Hne by done; apply Hidle].
Qed.

Lemma sig_only_sched cur p s s' B R : sched_ok cur s B R -> sig_only p s s' -> sched_ok cur s' B R.
Proof.
  intros Hs [(x&Hx&Hp) Ho [F _]]. injection F as F1 F2 _ _ F5 _ F7 _.
  eapply sched_frame; [exact Hs|by intros h; rewrite F1|by rewrite F2, F5, F7|]. intros i.
  destruct (decide (i = p)) as [->|Hi]; [rewrite Hp; cbn; split_and!; try done; lia|rewrite Ho by done].
  split_and!; try done; apply (so_sig _ _ _ _ Hs).
Qed.

(** Undoing [enqueue] when a signal is pending. *)
Lemma unqueue_sched s s2 B R chan pri :
  sched_ok (Some (u_procp s)) s B R -> sig_only (u_procp s) (enqueue chan pri s) s2 -> sleep_ok (u_procp s) chan pri ->
  let rp := u_procp s in
  let s3 := setp rp (fun r => r <| p_stat := SRUN |>) (setp rp (fun r => r <| p_wchan := 0 |>) s2) in
  sched_ok (Some rp) (s3 <| slpque @ (HASH chan) := p_link (proc_ s3 rp) |> <| spl := true |>) B R.
Proof.
  intros Hs [(x&Hx&Hp) Ho [F _]] Hok rp s3. injection F as F1 F2 _ _ F5 _ F7 _.
  destruct (so_cur _ _ _ _ Hs rp eq_refl) as (_&Hin&Hst&Hw&HnR).
  assert (proc_ s3 rp = (proc_ s2 rp) <| p_wchan := 0 |> <| p_stat := SRUN |>) as E3
    by (unfold s3, setp; cbn; by rewrite !fn_eq).
  rewrite enqueue_proc, decide_True in Hp by done. fold rp in Hp.
  assert (forall i, i <> rp -> proc_ s3 i = proc_ s i) as Hne.
  { intros i Hi. unfold s3, setp; cbn. rewrite !fn_ne by done. rewrite Ho by done.
    rewrite enqueue_proc. by rewrite decide_False. }
  assert (p_link (proc_ s3 rp) = slpque s (HASH chan)) as El by (rewrite E3, Hp; done).
  eapply sched_frame; [exact Hs| | |].
  - intros h. change (<[HASH chan := p_link (proc_ s3 rp)]> (slpque s3) h = slpque s h). rewrite El, fn_case. case_decide as E; [by subst|].
    unfold s3, setp; cbn. rewrite F1. unfold enqueue, setp; cbn. by rewrite fn_ne.
  - unfold s3, setp; cbn. rewrite F2, F5, F7. done.
  - intros i.
    change (proc_ (s3 <| slpque @ (HASH chan) := p_link (proc_ s3 rp) |> <| spl := true |>) i) with (proc_ s3 i).
    destruct (decide (i = rp)) as [->|Hi].
    + rewrite E3, Hp; cbn. split_and!; try done; try lia.
      * intros [?|[h Hh]]; [done|]. destruct (qBin _ _ _ (so_queues _ _ _ _ Hs) _ _ Hh) as (_&E&_).
        unfold SRUN, SSLEEP in *. congruence.
      * intros E. unfold SRUN, SSLEEP in *. congruence.
    + rewrite Hne by done. split_and!; try done; apply (so_sig _ _ _ _ Hs).
Qed.

(** Who a process is, and its state. *)
Definition who (r : proc) : Z * Z * Z * Z := (p_pid r, p_ppid r, p_pgrp r, p_stat r).
Lemma unqueue_who s s2 chan pri i : p_stat (proc_ s (u_procp s)) = SRUN -> sig_only (u_procp s) (enqueue chan pri s) s2 ->
  let rp := u_procp s in
  who (proc_ (setp rp (fun r => r <| p_stat := SRUN |>) (setp rp (fun r => r <| p_wchan := 0 |>) s2)) i) = who (proc_ s i).
Proof.
  intros Hst [(x&Hx&Hp) Ho _] rp. unfold setp; cbn. rewrite !fn_case. destruct (decide (rp = i)) as [<-|Hi].
  - fold rp in Hp. rewrite Hp, enqueue_proc, decide_True by done. rewrite decide_True by done. unfold who; cbn. fold rp in Hst. by rewrite Hst.
  - rewrite Ho by (by intros ->). by rewrite enqueue_proc, decide_False.
Qed.

(** What [sleep] does when the process runs again. *)
Definition resumes (pri : Z) (b : bool) : M unit :=
  if PZERO <? pri then sg ← issig; if negb (sg =? 0) then longjmp else splx b else splx b.

(** What [sleep] does: with a priority that signals cannot disturb it always
    gives up the processor; otherwise a signal that is not ignored makes it
    jump out with the queues as they were. *)
Lemma sleep_sched s B R chan pri :
  addrs_ok -> sched_ok (Some (u_procp s)) s B R -> sleep_ok (u_procp s) chan pri ->
  (exists s', sleep chan pri s = Jumped s' /\ sched_ok (Some (u_procp s)) s' B R /\ spl s' = true /\
     (forall i, who (proc_ s' i) = who (proc_ s i)) /\ PZERO < pri /\ exists n, 1 <= n < NSIG /\ pending (proc_ s (u_procp s)) n = true /\ ignored s (u_procp s) n = false) \/
  (exists s' k B' R', sleep chan pri s = Blocked Swtch s' k /\ sched_ok None s' B' R' /\
     asleep s' (u_procp s) chan /\ spl s' = true /\
     (PZERO < pri -> forall n, 1 <= n < NSIG -> pending (proc_ s (u_procp s)) n = true -> ignored s (u_procp s) n = true) /\
     (forall s2, k s2 = resumes pri (spl s) s2)).
Proof.
  intros Ha Hs Hok. set (rp := u_procp s) in *.
  destruct (enqueue_sched s B R chan pri Ha Hs Hok) as [He Hasl].
  set (s1 := enqueue chan pri s) in *.
  assert (chan <> 0) as Hc.
  { destruct Ha as (?&?&_), Hok as [_ [(?&_)|([?|?]&_)]]; congruence. }
  assert (sleep chan pri s = sleep_wait rp (HASH chan) pri (spl s) s1) as ->.
  { unfold sleep. kred. destruct (Z.eqb_spec chan 0); [done|].
    rewrite (bind_ret splhi _ s (spl s) (s <| spl := false |>)) by done. done. }
  unfold sleep_wait. destruct (Z.ltb_spec PZERO pri) as [Hp|Hp].
  - assert (u_procp s1 = rp) as U1 by done.
    destruct (issig_ok s1) as (n&s2&E&Hso&Hp1&Hp2&Hz&Hnz); [rewrite U1; apply (so_sig _ _ _ _ He)|].
    rewrite U1 in *. rewrite (bind_ret _ _ _ _ _ E).
    assert (proc_ s1 rp = (proc_ s rp) <| p_stat := SSLEEP |> <| p_wchan := chan |> <| p_pri := u8 pri |> <| p_link := slpque s (HASH chan) |>) as Epr.
    { unfold s1. rewrite enqueue_proc. by rewrite decide_True. }
    assert (forall m, pending (proc_ s1 rp) m = pending (proc_ s rp) m) as Epn by (intros m; by rewrite Epr).
    assert (forall m, ignored s1 rp m = ignored s rp m) as Eig by (intros m; unfold ignored; by rewrite Epr).
    destruct (Z.eqb_spec n 0) as [->|Hn]; cbn [negb].
    + right. unfold spl0 at 1. kred.
      set (s3 := s2 <| spl := true |>).
      assert (sched_ok None s3 (<[HASH chan := (rp :: B (HASH chan))]> B) R) as Hs3.
      { pose proof (sig_only_sched _ _ _ _ _ _ He Hso) as Hs2. eapply sched_frame; [exact Hs2|done|done|].
        intros i. split_and!; try done; apply (so_sig _ _ _ _ Hs2). }
      assert (asleep s3 rp chan) as Hasl3.
      { destruct Hasl as (?&?&?), Hso as [(x&_&Ex) _ _]. unfold asleep. change (proc_ s3) with (proc_ s2).
        rewrite Ex; cbn. done. }
      assert (PZERO < pri -> forall m, 1 <= m < NSIG -> pending (proc_ s rp) m = true -> ignored s rp m = true) as Hall.
      { intros _ m Hm Hpm. rewrite <- Eig. apply Hp2; [done|by rewrite Epn|by apply Hz]. }
      assert (chan_ok chan) as Hcok by (destruct Hok as [_ [?|(_&_&?)]]; [done|lia]).
      destruct (Z.eqb_spec (runin s3) 0) as [Er|Er]; cbn [negb].
      * rewrite k_when_false by done. eexists s3, _, _, R. split; [reflexivity|]. split; [done|]. split; [done|]. split; [done|]. split; [done|].
        intros s6. unfold resumes. by rewrite (proj2 (Z.ltb_lt PZERO pri) Hp).
      * rewrite k_when_true by done. set (s4 := s3 <| runin := 0 |>).
        assert (sched_ok None s4 (<[HASH chan := (rp :: B (HASH chan))]> B) R) as Hs4.
        { eapply sched_frame; [exact Hs3|done|done|]. intros i. split_and!; try done; apply (so_sig _ _ _ _ Hs3). }
        destruct (wakeup_sched None s4 _ R addr_runin Ha Hs4 (proj1 Ha) ltac:(by destruct Ha as (_&_&?))) as (s5&B5&R5&E5&Hs5&_&Hoth&F5).
        rewrite (bind_ret _ _ _ tt s5) by exact E5.
        eexists s5, _, B5, R5. split; [reflexivity|]. split; [done|]. split; [|split; [|split; [done|]]].
        -- assert (~ asleep s4 rp addr_runin) as Hna.
           { intros (_&_&E'). destruct Hasl3 as (_&_&E''). change (proc_ s4) with (proc_ s3) in E'.
             destruct Hcok as (_&?&_). congruence. }
           assert (~ (runout s4 <> 0 /\ rp = 0)) as Hnr.
           { intros [Hr0 Er0]. destruct (so_out _ _ _ _ Hs4 Hr0) as (_&_&E'). rewrite <- Er0 in E'.
             change (proc_ s4) with (proc_ s3) in E'. destruct Hasl3 as (_&_&E''), Hcok as (_&_&?&_). congruence. }
           specialize (Hoth rp Hna Hnr). destruct Hasl3 as (?&Hst&Hw). split; [done|].
           pose proof (f_equal p_stat Hoth) as O1. pose proof (f_equal p_wchan Hoth) as O2. cbn in O1, O2.
           rewrite O1, O2. done.
        -- injection F5 as _ _ _ _ _ _ -> _. done.
        -- intros s6. unfold resumes. by rewrite (proj2 (Z.ltb_lt PZERO pri) Hp).
    + left. unfold spl0. kred. eexists. split; [reflexivity|].
      pose proof (unqueue_sched s s2 B R chan pri Hs Hso Hok) as Hun. split; [exact Hun|].
      split; [done|]. split; [intros i; apply (unqueue_who s s2 chan pri i); [by destruct (so_cur _ _ _ _ Hs rp eq_refl) as (_&_&?&_)|exact Hso]|]. split; [done|]. destruct (Hnz Hn) as (?&Hpn&Hig&_). exists n.
      split; [done|]. split; [|by rewrite <- Eig]. rewrite <- Epn. by apply Hp1.
  - right. unfold spl0. kred. eexists (s1 <| spl := true |>), _, _, R. split; [reflexivity|].
    split; [|split; [done|split; [done|split; [lia|]]]].
    2: { intros s6. unfold resumes. by rewrite (proj2 (Z.ltb_ge PZERO pri) Hp). }
    eapply sched_frame; [exact He|done|done|]. intros i. split_and!; try done; apply (so_sig _ _ _ _ He).
Qed.

Lemma sig_only_refl p s : -32768 <= p_sig (proc_ s p) < 32768 -> sig_only p s s.
Proof. intros H. split; [|done|done]. exists (p_sig (proc_ s p)). split; [done|]. by destruct (proc_ s p). Qed.
Lemma resumes_spec pri b s : -32768 <= p_sig (proc_ s (u_procp s)) < 32768 -> let rp := u_procp s in
  let disturbed := PZERO < pri /\ exists n, 1 <= n < NSIG /\ pending (proc_ s rp) n = true /\ ignored s rp n = false in
  (disturbed /\ exists s3, resumes pri b s = Jumped s3 /\ sig_only rp s s3) \/
  (~ disturbed /\ exists s3, resumes pri b s = Ret tt (s3 <| spl := b |>) /\ sig_only rp s s3 /\ (pri <= PZERO -> s3 = s)).
Proof.
  intros Hsig rp disturbed. unfold resumes. destruct (Z.ltb_spec PZERO pri) as [Hp|Hp].
  - destruct (issig_ok s Hsig) as (n&s3&E&Hso&Hp1&Hp2&Hz&Hnz). fold rp in Hp1, Hp2, Hz, Hnz, Hso. rewrite (bind_ret _ _ _ _ _ E).
    destruct (Z.eqb_spec n 0) as [->|Hn]; cbn [negb].
    + right. split; [|exists s3; split; [done|]; split; [done|lia]]. intros [_ (m&Hm&Hpm&Him)]. rewrite (Hp2 m Hm Hpm (Hz eq_refl m Hm)) in Him. done.
    + left. destruct (Hnz Hn) as (Hr&Hpn&Hin&_). split; [|by exists s3]. split; [done|]. exists n. split; [done|]. split; [by apply Hp1|done].
  - right. split; [intros [? _]; lia|]. exists s. split; [done|]. split; [by apply sig_only_refl|done].
Qed.

Lemma qswtch_sched s B R :
  sched_ok (Some (u_procp s)) s B R ->
  exists s' k, qswtch s = Blocked Swtch s' k /\ sched_ok None s' B (u_procp s :: R).
Proof.
  intros Hs. set (rp := u_procp s) in *. destruct (so_cur _ _ _ _ Hs rp eq_refl) as (_&Hin&Hst&Hw&HnR).
  pose proof Hs as [Hq Hrun Hsl Hcur Hsw Hout Hsig Hidle].
  unfold qswtch. kred. fold rp. set (s' := (setp rp (fun r => r <| p_link := runq s |>) s) <| runq := Some rp |>).
  rewrite (bind_ret _ _ s tt s').
  2: { apply (setrq_spec rp s R); [apply Hq|apply Hq| |done]. intros i Hi. by destruct (qRin _ _ _ Hq i Hi) as (?&_). }
  eexists s', _. split; [reflexivity|].
  assert (forall A (f : proc -> A), (forall r v, f (r <| p_link := v |>) = f r) -> forall i, f (proc_ s' i) = f (proc_ s i)) as Hf.
  { intros A f E1 i. unfold s', setp; cbn. rewrite fn_case. case_decide; subst; [apply E1|done]. }
  assert (forall i, i <> rp -> lks s' i = lks s i) as Hl.
  { intros i Hi. unfold lks, s', setp; cbn. by rewrite fn_ne. }
  assert (forall i c, asleep s' i c <-> asleep s i c) as Has.
  { intros i c. unfold asleep. by rewrite (Hf _ p_stat), (Hf _ p_wchan) by done. }
  split.
  - split.
    + intros h Hh. eapply chain_ext; [|by apply (qB _ _ _ Hq)]. intros i Hi. rewrite Hl; [done|].
      intros ->. destruct (qBin _ _ _ Hq _ _ Hi) as (_&E&_). unfold SRUN, SSLEEP in *. congruence.
    + split; [done|]. unfold lks at 2, s', setp; cbn. rewrite fn_eq; cbn. eapply chain_ext; [|apply (qR _ _ _ Hq)].
      intros i Hi. rewrite Hl; [done|]. by intros ->.
    + apply Hq.
    + constructor; [done|apply Hq].
    + intros h i Hi. rewrite (Hf _ p_stat), (Hf _ p_wchan) by done. by apply (qBin _ _ _ Hq).
    + intros i Hi. rewrite (Hf _ p_stat), (Hf _ p_wchan) by done.
      apply elem_of_cons in Hi as [->|Hi]; [done|by apply (qRin _ _ _ Hq)].
  - intros i Hi. rewrite (Hf _ p_stat) by done. intros Hsti. left.
    destruct (Hrun i Hi Hsti) as [?|[= <-]]; mem.
  - intros i c Ha. apply Has in Ha. by apply Hsl.
  - done.
  - intros i c Ha Hc. apply Has in Ha. rewrite (Hf _ p_pri) by done. by apply (Hsw i c).
  - intros Hr. by apply Has, Hout.
  - intros i. rewrite (Hf _ p_sig) by done. apply Hsig.
  - intros i. rewrite (Hf _ p_stat), (Hf _ p_wchan) by done. apply Hidle.
Qed.

(** The swapper waits for work: [runout++; sleep(&runout, PSWP)]. *)
Definition sched_wait_work : M unit :=
  modify (fun s => s <| runout ::= fun x => u8 (x + 1) |>);; sleep addr_runout PSWP.
(** The swapper waits for core: [runin++; sleep(&runin, PSWP)]. *)
Definition sched_wait_core : M unit :=
  modify (fun s => s <| runin ::= fun x => u8 (x + 1) |>);; sleep addr_runin PSWP.

Lemma sched_wait_work_sched s B R :
  addrs_ok -> sched_ok (Some (u_procp s)) s B R -> u_procp s = 0 ->
  exists s' k B', sched_wait_work s = Blocked Swtch s' k /\ sched_ok None s' B' R /\ asleep s' 0 addr_runout.
Proof.
  intros Ha Hs H0. assert (sleep_ok (u_procp s) addr_runout PSWP) as Hok.
  { split; [unfold PSWP; lia|]. right. unfold PSWP, PZERO. split; [by right|]. split; [done|lia]. }
  destruct (enqueue_sched s B R addr_runout PSWP Ha Hs Hok) as [He Hasl].
  unfold sched_wait_work. kred. set (s0 := s <| runout ::= _ |>).
  set (s1 := (enqueue addr_runout PSWP s) <| runout := u8 (runout s + 1) |> <| spl := true |>).
  eexists s1, _, _. split; [|split].
  - unfold sleep. kred. destruct Ha as (_&Hro&_). destruct (Z.eqb_spec addr_runout 0); [done|].
    rewrite (bind_ret splhi _ _ (spl s) (s0 <| spl := false |>)) by done. reflexivity.
  - destruct He as [Hq Hrun Hsl Hcur Hsw Hout Hsig Hidle]. split; try done.
    + eapply queues_frame; [exact Hq|done|done|done].
    + intros _. rewrite H0 in Hasl. exact Hasl.
  - by rewrite H0 in Hasl.
Qed.

(** ** The system *)

(** Who has the processor, and the state.  A process runs kernel code that
    sleeps, gives way, wakes others up or sends signals; an interrupt wakes
    processes up or ticks the clock; and when no process runs, process 0
    looks for the next one. *)
Inductive step : option Z * pst -> option Z * pst -> Prop :=
| step_sleep s s' k chan pri :
    sleep_ok (u_procp s) chan pri -> chan <> addr_runout -> sleep chan pri s = Blocked Swtch s' k ->
    step (Some (u_procp s), s) (None, s')
| step_sleep_sig s s' chan pri :
    sleep_ok (u_procp s) chan pri -> chan <> addr_runout -> sleep chan pri s = Jumped s' ->
    step (Some (u_procp s), s) (Some (u_procp s), s')
| step_wait_work s s' k :
    u_procp s = 0 -> sched_wait_work s = Blocked Swtch s' k -> step (Some (u_procp s), s) (None, s')
| step_wait_core s s' k :
    u_procp s = 0 -> sched_wait_core s = Blocked Swtch s' k -> step (Some (u_procp s), s) (None, s')
| step_qswtch s s' k : qswtch s = Blocked Swtch s' k -> step (Some (u_procp s), s) (None, s')
| step_issig s s' n : issig s = Ret n s' -> step (Some (u_procp s), s) (Some (u_procp s), s')
| step_dispatch s s' p sw : swtch_search 1 s = Ret (p, sw) s' -> step (None, s) (Some p, s')
| step_idle s s' k : swtch_search 1 s = Blocked Idle s' k -> step (None, s) (None, s')
| step_wakeup cur s s' chan :
    chan <> 0 /\ chan <> addr_runout -> wakeup chan s = Ret tt s' -> step (cur, s) (cur, s')
| step_signal cur s s' pgrp sig : signal pgrp sig s = Ret tt s' -> step (cur, s) (cur, s')
| step_clock cur s s' : clock s = Ret tt s' -> step (cur, s) (cur, s').

Lemma step_sched c c' :
  addrs_ok -> addr_lbolt <> 0 /\ addr_lbolt <> addr_runout -> step c c' ->
  (exists B R, sched_ok c.1 c.2 B R) -> exists B R, sched_ok c'.1 c'.2 B R.
Proof.
  intros Ha Hlb Hst (B&R&Hs).
  inversion Hst as [s s' k chan pri Hok _ E|s s' chan pri Hok _ E|s s' k H0 E|s s' k H0 E|s s' k E|s s' n E|
                    s s' p sw E|s s' k E|cur s s' chan Hc E|cur s s' pgrp sig E|cur s s' E]; subst; cbn [fst snd] in *.
  - destruct (sleep_sched s B R chan pri Ha Hs Hok) as [(s1&E1&_)|(s1&k1&B1&R1&E1&Hs1&_)]; rewrite E1 in E; [done|].
    injection E as -> _. by exists B1, R1.
  - destruct (sleep_sched s B R chan pri Ha Hs Hok) as [(s1&E1&Hs1&_)|(s1&k1&B1&R1&E1&Hs1&_)]; rewrite E1 in E; [|done].
    injection E as ->. by exists B, R.
  - destruct (sched_wait_work_sched s B R Ha Hs H0) as (s1&k1&B1&E1&Hs1&_). rewrite E1 in E. injection E as -> _. by exists B1, R.
  - set (s0 := s <| runin ::= fun x => u8 (x + 1) |>).
    assert (sched_ok (Some (u_procp s0)) s0 B R) as Hs0.
    { eapply sched_frame; [exact Hs|done|done|]. intros i. split_and!; try done; apply (so_sig _ _ _ _ Hs). }
    assert (sleep_ok (u_procp s0) addr_runin PSWP) as Hok.
    { split; [unfold PSWP; lia|]. right. unfold PSWP, PZERO. split; [by left|]. split; [done|lia]. }
    change (sched_wait_core s) with (sleep addr_runin PSWP s0) in E.
    destruct (sleep_sched s0 B R _ _ Ha Hs0 Hok) as [(s1&E1&_)|(s1&k1&B1&R1&E1&Hs1&_)]; rewrite E1 in E; [done|].
    injection E as -> _. by exists B1, R1.
  - destruct (qswtch_sched s B R Hs) as (s1&k1&E1&Hs1). rewrite E1 in E. injection E as -> _. by eexists _, _.
  - destruct (issig_ok s (so_sig _ _ _ _ Hs _)) as (m&s1&E1&Hso&_). rewrite E1 in E. injection E as _ ->.
    exists B, R. by eapply sig_only_sched.
  - destruct (swtch_search_spec 0 s B R Hs) as [(k1&s1&E1&_)|(pre&p1&post&sw1&s1&E1&_&_&_&_&Hs1&_)]; rewrite E1 in E; [done|].
    injection E as -> _ ->. by eexists _, _.
  - destruct (swtch_search_spec 0 s B R Hs) as [(k1&s1&E1&_&_&Hs1)|(pre&p1&post&sw1&s1&E1&_)]; rewrite E1 in E; [|done].
    injection E as -> _. by eexists _, _.
  - destruct (wakeup_sched cur s B R chan Ha Hs (proj1 Hc) ltac:(tauto)) as (s1&B1&R1&E1&Hs1&_). rewrite E1 in E. injection E as ->. by exists B1, R1.
  - destruct (signal_sched cur s B R pgrp sig Ha Hs) as (s1&B1&R1&E1&Hs1&_). rewrite E1 in E. injection E as ->. by exists B1, R1.
  - destruct (clock_sched cur s B R Ha Hlb Hs) as (s1&B1&R1&E1&Hs1&_). rewrite E1 in E. injection E as ->. by exists B1, R1.
Qed.

(** ** Properties *)

(** C31: [wakeup(chan)], for any channel, returns and makes runnable exactly the
    processes asleep on [chan], and with them those asleep on [&runout] if the
    swapper waits for work and one of the former is not in core; it puts them on
    the run queue and leaves every other process as it was.  The one case left
    out is that the swapper is to be called and [chan] is in the hash bucket of
    [&runout]: there the code fails ([wakeup_same_bucket_loses]). *)
Theorem wakeup_wakes s B R chan :
  addr_runout <> 0 -> queues s B R -> (forall i c, asleep s i c -> i ∈ B (HASH c)) -> chan <> 0 ->
  let calls := runout s <> 0 /\ exists j, asleep s j chan /\ has (p_flag (proc_ s j)) SLOAD = false in
  (calls -> HASH chan <> HASH addr_runout) ->
  exists s' W B' R', wakeup chan s = Ret tt s' /\ queues s' B' R' /\
    (forall i, i ∈ W <-> asleep s i chan \/ (calls /\ asleep s i addr_runout)) /\
    (forall i, unlink (proc_ s' i) = unlink (if decide (i ∈ W) then awake (proc_ s i) else proc_ s i)) /\
    R' ≡ₚ W ++ R /\ (forall h i, i ∈ B' h <-> i ∈ B h /\ (i ∉ W)) /\ (calls -> runout s' = 0) /\ (~ calls -> runout s' = runout s).
Proof.
  intros Ho Hq Hf Hc calls Hcl. assert (calls_swapper s chan (B (HASH chan)) <-> calls) as Hcc.
  { unfold calls_swapper, calls. split; intros [Hr (i&Hi&Hl)]; (split; [done|]; exists i; split; [|done]); by apply (waiters_full s B R). }
  destruct (wakeup_spec 0 chan s B R Hq Hc Ho) as (s'&W&B'&R'&E&[Hq' [Hw _] HB HR]&HW&Hr); [intros H; apply not_eq_sym; by apply Hcl, Hcc|].
  exists s', W, B', R'. split; [exact E|]. split; [done|]. split; [|split; [done|split; [done|split; [|]]]].
  - intros i. rewrite (HW i), (waiters_full s B R), (waiters_full s B R), Hcc by done. done.
  - intros h i. rewrite HB, list_elem_of_filter. tauto.
  - rewrite Hcc in Hr. destruct Hr as [[? ?]|[? ?]]; tauto.
Qed.

(** C37: [sleep(chan, pri)], on a channel outside the hash bucket of [&runout] (or the
    swapper's own sleeps), either puts the process to sleep on [chan] and gives
    up the processor, or, only when [pri > PZERO] and a signal that is not
    ignored is pending, jumps out with the process runnable and on no queue.
    Interrupts are enabled either way.  When the process runs again, in whatever
    state the others left, [sleep] returns with the interrupt priority it was
    called with; or it jumps out, only when [pri > PZERO] and a signal that is
    not ignored is pending now.  It touches nothing then but ignored signals.
    With [pri <= PZERO] no signal disturbs it. *)
Theorem sleep_or_signal s B R chan pri :
  addrs_ok -> sched_ok (Some (u_procp s)) s B R -> sleep_ok (u_procp s) chan pri ->
  let rp := u_procp s in
  let disturbed s := PZERO < pri /\ exists n, 1 <= n < NSIG /\ pending (proc_ s rp) n = true /\ ignored s rp n = false in
  (disturbed s /\ exists s', sleep chan pri s = Jumped s' /\ sched_ok (Some rp) s' B R /\ spl s' = true) \/
  (~ disturbed s /\ exists s' k B' R', sleep chan pri s = Blocked Swtch s' k /\ sched_ok None s' B' R' /\
     asleep s' rp chan /\ spl s' = true /\
     forall s2, u_procp s2 = rp -> -32768 <= p_sig (proc_ s2 rp) < 32768 ->
       (disturbed s2 /\ exists s3, k s2 = Jumped s3 /\ sig_only rp s2 s3) \/
       (~ disturbed s2 /\ exists s3, k s2 = Ret tt (s3 <| spl := spl s |>) /\ sig_only rp s2 s3 /\ (pri <= PZERO -> s3 = s2))).
Proof.
  intros Ha Hs Hok rp disturbed.
  destruct (sleep_sched s B R chan pri Ha Hs Hok) as [(s'&E&Hs'&Hi&_&Hp&n&Hn)|(s'&k&B'&R'&E&Hs'&Hasl&Hi&Hno&Hk)].
  - left. split; [split; [done|by exists n]|]. by exists s'.
  - right. split; [|exists s', k, B', R'; split; [done|]; split; [done|]; split; [done|]; split; [done|]].
    + intros [Hp (n&Hn&Hpn&Hig)]. specialize (Hno Hp n Hn Hpn). fold rp in Hno. congruence.
    + intros s2 <- Hsig. rewrite Hk. by apply resumes_spec.
Qed.

(** C36: the search of [swtch] resumes the first process on the run queue among
    those of best priority that are in core, takes it off the queue, and makes
    its priority the current one; when there is none it idles with the queue
    as it was, so the search never loops without waiting. *)
Theorem swtch_best n s B R :
  sched_ok None s B R ->
  (exists k s', swtch_search (S n) s = Blocked Idle s' k /\ (forall i, i ∈ R -> ready s i = false) /\
     sched_ok None s' B R) \/
  (exists pre p post sw s', swtch_search (S n) s = Ret (p, sw) s' /\ R = pre ++ p :: post /\ ready s p = true /\
     (forall i, i ∈ pre -> ready s i = true -> p_pri (proc_ s p) < p_pri (proc_ s i)) /\
     (forall i, i ∈ post -> ready s i = true -> p_pri (proc_ s p) <= p_pri (proc_ s i)) /\
     sched_ok (Some p) s' B (pre ++ post) /\ curpri s' = u8 (p_pri (proc_ s p))).
Proof.
  intros Hs. destruct (swtch_search_spec n s B R Hs) as [(k&s'&E&Hn&_&Hs')|(pre&p&post&sw&s'&E&HR&Hr&H1&H2&Hs'&Hc&_)].
  - left. by exists k, s'.
  - right. by exists pre, p, post, sw, s'.
Qed.

(** [issig] returns the lowest-numbered pending signal that is not ignored,
    or 0 if there is none; on the way it drops ignored signals and nothing
    else. *)
Theorem issig_next s :
  -32768 <= p_sig (proc_ s (u_procp s)) < 32768 ->
  let p := u_procp s in
  exists n s', issig s = Ret n s' /\ sig_only p s s' /\
    (forall m, 1 <= m < NSIG -> pending (proc_ s p) m = true -> pending (proc_ s' p) m = false -> ignored s p m = true) /\
    (n = 0 -> forall m, 1 <= m < NSIG -> pending (proc_ s p) m = true -> ignored s p m = true) /\
    (n <> 0 -> 1 <= n < NSIG /\ pending (proc_ s p) n = true /\ ignored s p n = false /\
       forall m, 1 <= m < n -> pending (proc_ s p) m = true -> ignored s p m = true).
Proof.
  intros Hr p. destruct (issig_ok s Hr) as (n&s'&E&Hso&H1&H2&H0&H3). exists n, s'.
  split; [done|]. split; [done|]. split; [done|]. split.
  - intros Hn m Hm Hp. apply H2; [done|done|]. by apply H0.
  - intros Hn. destruct (H3 Hn) as (Hr'&Hp&Hi&Hl). split; [done|]. split; [by apply H1|]. split; [done|].
    intros m Hm Hpm. apply H2; [lia|done|]. by apply Hl.
Qed.

(** [psignal] posts the signal and no other, raises the priority of the
    process to at least [PUSER], and makes it runnable exactly when it sleeps
    at a priority that signals may disturb. *)
Theorem psignal_posts cur s B R p sig :
  addrs_ok -> sched_ok cur s B R -> inr_ p -> 1 <= sig < NSIG ->
  exists s' B' R', psignal p sig s = Ret tt s' /\ sched_ok cur s' B' R' /\
    (forall m, 1 <= m < NSIG -> pending (proc_ s' p) m = pending (proc_ s p) m || (m =? sig)) /\
    p_pri (proc_ s' p) = Z.min PUSER (p_pri (proc_ s p)) /\
    p_stat (proc_ s' p) =
      (if (p_stat (proc_ s p) =? SSLEEP) && (PZERO <? p_pri (proc_ s p)) then SRUN else p_stat (proc_ s p)) /\
    (p ∈ R' <-> p ∈ R \/ p_stat (proc_ s p) = SSLEEP /\ PZERO < p_pri (proc_ s p)).
Proof.
  intros Ha Hs Hp Hsig. destruct (psignal_sched cur s B R p sig Ha Hs Hp) as (s'&B'&R'&E&Hs'&H&_).
  destruct (H Hsig) as (H1&H2&H3&H4). exists s', B', R'. split; [done|]. split; [done|]. split; [done|]. split; [done|].
  destruct (Z.eqb_spec (p_stat (proc_ s p)) SSLEEP) as [Es|Es]; cbn [andb].
  - destruct (Z.ltb_spec PZERO (p_pri (proc_ s p))) as [El|El].
    + destruct (H3 Es El) as (?&_&?). split; [done|]. tauto.
    + destruct (H4 (or_intror El)) as (?&_&_&->). split; [done|]. intuition lia.
  - destruct (H4 (or_introl Es)) as (?&_&_&->). split; [done|]. tauto.
Qed.
End code.

(** ** Witnesses *)

Definition no_proc : proc := MkProc 0 0 0 0 0 20 0 0 0 0 0 0 0 0 None None 0.

(** The swapper waits for work, process 2 sleeps on 4160 and processes 3 and 4
    are runnable; [st1] is the state of process 1, which has two signals
    pending, the first of them ignored. *)
Definition demo (st1 : Z) : pst :=
  Pst (fun i =>
    if i =? 0 then no_proc <| p_stat := SSLEEP |> <| p_flag := 3 |> <| p_wchan := 4097 |>
    else if i =? 1 then no_proc <| p_stat := st1 |> <| p_flag := 1 |> <| p_pri := 55 |> <| p_sig := 3 |>
    else if i =? 2 then no_proc <| p_stat := SSLEEP |> <| p_flag := 1 |> <| p_pri := 40 |> <| p_wchan := 4160 |>
    else if i =? 3 then no_proc <| p_stat := SRUN |> <| p_flag := 1 |> <| p_pri := 51 |> <| p_link := Some 4 |>
    else if i =? 4 then no_proc <| p_stat := SRUN |> <| p_flag := 1 |> <| p_pri := 50 |>
    else no_proc)
    (fun h => if h =? 0 then Some 0 else if h =? 2 then Some 2 else None)
    (Some 3) 55 0 1 0 1 (fun _ n => if n =? 1 then 1 else 0) 0 0 true [].
Definition demoB (h : Z) : list Z := if h =? 0 then [0] else if h =? 2 then [2] else [].

Ltac by_slot i :=
  destruct (Z.eqb_spec i 0); [subst i|destruct (Z.eqb_spec i 1); [subst i|destruct (Z.eqb_spec i 2);
    [subst i|destruct (Z.eqb_spec i 3); [subst i|destruct (Z.eqb_spec i 4); [subst i|]]]]].

Lemma demo_queues st1 : queues (demo st1) demoB [3; 4].
Proof.
  split.
  - intros h _. unfold demoB, demo; cbn. destruct (Z.eqb_spec h 0); [done|]. by destruct (Z.eqb_spec h 2).
  - done.
  - intros h. unfold demoB. destruct (h =? 0), (h =? 2); repeat constructor; mem.
  - repeat (constructor; [rewrite ?elem_of_cons, elem_of_nil; lia|]). constructor.
  - intros h i. unfold demoB. destruct (Z.eqb_spec h 0) as [->|]; [|destruct (Z.eqb_spec h 2) as [->|]];
      [intros ->%list_elem_of_singleton..|intros Hi; by apply elem_of_nil in Hi];
      (split; [unfold inr_, NPROC; lia|done]).
  - intros i [->|[->|Hi]%elem_of_cons]%elem_of_cons; [..|by apply elem_of_nil in Hi];
      (split; [unfold inr_, NPROC; lia|done]).
Qed.

Lemma demo_ok cur st1 : (cur = Some 1 /\ st1 = SRUN) \/ (cur = None /\ st1 = 0) ->
  sched_ok 4096 4097 cur (demo st1) demoB [3; 4].
Proof.
  intros Hc. assert (forall i c, asleep (demo st1) i c -> (i = 0 /\ c = 4097) \/ (i = 2 /\ c = 4160)) as Has.
  { intros i c (_&Hst&Hw). unfold demo in Hst, Hw; cbn in Hst, Hw. by_slot i; cbn in Hst, Hw; try done.
    - left. by split.
    - destruct Hc as [[_ ->]|[_ ->]]; done.
    - right. by split. }
  split.
  - apply demo_queues.
  - intros i _ Hst. unfold demo in Hst; cbn in Hst. by_slot i; cbn in Hst; try done;
      [destruct Hc as [[-> ->]|[_ ->]]; [by right|done]|left; mem..].
  - intros i c [[-> ->]|[-> ->]]%Has; (split; [by apply list_elem_of_singleton|]); [by right; right|left].
    split_and!; done.
  - intros i ->. destruct Hc as [[[= ->] ->]|[? _]]; [|done]. split; [done|].
    split; [unfold inr_, NPROC; lia|]. split; [done|]. split; [done|]. rewrite !elem_of_cons, elem_of_nil. lia.
  - intros i c [[-> ->]|[-> ->]]%Has [E|E]; done.
  - intros _. split; [unfold inr_, NPROC; lia|done].
  - intros i. enough (p_sig (proc_ (demo st1) i) = 0 \/ p_sig (proc_ (demo st1) i) = 3) by lia.
    by_slot i; [by left|by right|by left..|]. left. unfold demo; cbn [proc_].
    by rewrite !(proj2 (Z.eqb_neq _ _)) by done.
  - intros i H1 _. unfold demo in *; cbn in *. by_slot i; cbn in *; try done.
Qed.

Lemma demo_addrs : addrs_ok 4096 4097 /\ chan_ok 4096 4097 4160.
Proof. done. Qed.

Lemma wakeup_wakes_witness :
  asleep (demo SRUN) 2 4160 /\
  exists s' W B' R', wakeup 4097 4160 (demo SRUN) = Ret tt s' /\ queues s' B' R' /\ 2 ∈ W /\ R' ≡ₚ W ++ [3; 4] /\ p_stat (proc_ s' 2) = SRUN.
Proof.
  assert (asleep (demo SRUN) 2 4160) as Ha by (split; [unfold inr_, NPROC; lia|done]). split; [exact Ha|].
  destruct demo_addrs as [_ Hl]. pose proof (demo_ok (Some 1) SRUN (or_introl (conj eq_refl eq_refl))) as Hs.
  destruct (wakeup_wakes 4096 4097 (demo SRUN) demoB [3; 4] 4160) as (s'&W&B'&R'&E&Hq&HW&Hp&HR&_); [done|apply Hs|intros i c Hi; by apply (so_sleep _ _ _ _ _ _ Hs)|done|done|].
  exists s', W, B', R'. split; [exact E|]. split; [exact Hq|]. assert (2 ∈ W) as H2 by (apply HW; by left). split; [exact H2|]. split; [exact HR|].
  specialize (Hp 2). apply (f_equal p_stat) in Hp. rewrite decide_True in Hp by exact H2. exact Hp.
Defined.

Lemma sleep_or_signal_witness :
  (exists s', sleep 4096 4097 4160 40 (demo SRUN) = Jumped s') /\
  exists s' k, sleep 4096 4097 4160 20 (demo SRUN) = Blocked Swtch s' k /\ asleep s' 1 4160 /\
    k (demo SRUN) = Ret tt (demo SRUN).
Proof.
  destruct demo_addrs as [Ha Hl]. split; [eexists; vm_compute; reflexivity|].
  assert (sleep_ok 4096 4097 (u_procp (demo SRUN)) 4160 20) as Hok by (split; [lia|by left]).
  destruct (sleep_or_signal 4096 4097 (demo SRUN) demoB [3; 4] 4160 20 Ha (demo_ok _ _ (or_introl (conj eq_refl eq_refl))) Hok)
    as [[[Hp _] _]|(_&s'&k&B'&R'&E&_&Hasl&_&Hk)]; [done|].
  exists s', k. split; [exact E|]. split; [exact Hasl|].
  destruct (Hk (demo SRUN) eq_refl ltac:(cbn; lia)) as [[[Hp _] _]|(_&s3&E3&_&Hs)]; [done|]. rewrite E3, Hs by done. done.
Defined.

Lemma swtch_best_witness :
  (exists s', swtch_search 1 (demo 0) = Ret (4, false) s' /\ runq s' = Some 3 /\ p_link (proc_ s' 3) = None) /\
  ((exists k s', swtch_search 1 (demo 0) = Blocked Idle s' k /\ (forall i, i ∈ [3; 4] -> ready (demo 0) i = false) /\
     sched_ok 4096 4097 None s' demoB [3; 4]) \/
  (exists pre p post sw s', swtch_search 1 (demo 0) = Ret (p, sw) s' /\ [3; 4] = pre ++ p :: post /\ ready (demo 0) p = true /\
     (forall i, i ∈ pre -> ready (demo 0) i = true -> p_pri (proc_ (demo 0) p) < p_pri (proc_ (demo 0) i)) /\
     (forall i, i ∈ post -> ready (demo 0) i = true -> p_pri (proc_ (demo 0) p) <= p_pri (proc_ (demo 0) i)) /\
     sched_ok 4096 4097 (Some p) s' demoB (pre ++ post) /\ curpri s' = u8 (p_pri (proc_ (demo 0) p)))).
Proof.
  split; [eexists; split; [vm_compute; reflexivity|done]|].
  exact (swtch_best 4096 4097 0 (demo 0) demoB [3; 4] (demo_ok _ _ (or_intror (conj eq_refl eq_refl)))).
Defined.

Lemma issig_next_witness :
  (exists s', issig (demo SRUN) = Ret 2 s' /\ p_sig (proc_ s' 1) = 2) /\
  exists n s', issig (demo SRUN) = Ret n s' /\ sig_only 1 (demo SRUN) s' /\
    (forall m, 1 <= m < NSIG -> pending (proc_ (demo SRUN) 1) m = true -> pending (proc_ s' 1) m = false -> ignored (demo SRUN) 1 m = true) /\
    (n = 0 -> forall m, 1 <= m < NSIG -> pending (proc_ (demo SRUN) 1) m = true -> ignored (demo SRUN) 1 m = true) /\
    (n <> 0 -> 1 <= n < NSIG /\ pending (proc_ (demo SRUN) 1) n = true /\ ignored (demo SRUN) 1 n = false /\
       forall m, 1 <= m < n -> pending (proc_ (demo SRUN) 1) m = true -> ignored (demo SRUN) 1 m = true).
Proof.
  split; [eexists; split; [vm_compute; reflexivity|done]|]. exact (issig_next (demo SRUN) ltac:(cbn; lia)).
Defined.

Lemma psignal_posts_witness :
  exists s' B' R', psignal 4097 2 15 (demo SRUN) = Ret tt s' /\ sched_ok 4096 4097 (Some 1) s' B' R' /\
    (forall m, 1 <= m < NSIG -> pending (proc_ s' 2) m = pending (proc_ (demo SRUN) 2) m || (m =? 15)) /\
    p_pri (proc_ s' 2) = Z.min PUSER 40 /\
    p_stat (proc_ s' 2) = SRUN /\
    (2 ∈ R' <-> 2 ∈ [3; 4] \/ SSLEEP = SSLEEP /\ PZERO < 40).
Proof.
  destruct demo_addrs as [Ha Hl].
  refine (psignal_posts 4096 4097 (Some 1) (demo SRUN) demoB [3; 4] 2 15 Ha (demo_ok _ _ (or_introl (conj eq_refl eq_refl))) _ _);
    unfold inr_, NPROC, NSIG; lia.
Defined.

(** ** The swapper's channel in the bucket of another *)

(** Process 0 sleeps on [&runout] (4097), then processes 1, not in core, and 2
    on a channel (4104) of the same bucket. *)
Definition clash : pst :=
  Pst (fun i =>
    if i =? 0 then no_proc <| p_stat := SSLEEP |> <| p_flag := 3 |> <| p_wchan := 4097 |> <| p_link := Some 1 |>
    else if i =? 1 then no_proc <| p_stat := SSLEEP |> <| p_wchan := 4104 |> <| p_link := Some 2 |>
    else if i =? 2 then no_proc <| p_stat := SSLEEP |> <| p_flag := 1 |> <| p_wchan := 4104 |>
    else no_proc)
    (fun h => if h =? 0 then Some 0 else None) None 0 0 1 0 3 (fun _ _ => 0) 0 0 true [].

(** [wakeup] keeps a pointer to the process before the one it wakes while
    [setrun] may call [wakeup(&runout)].  When the swapper sleeps in the same
    bucket, that inner call takes the swapper off the queue and the outer loop
    goes on to write its link: a process ends up runnable but on no queue, so
    it never runs again, and a runnable process stays on the sleep queue. *)
Theorem wakeup_same_bucket_loses :
  HASH 4104 = HASH 4097 /\ queues clash (fun h => if h =? 0 then [0; 1; 2] else []) [] /\
  exists s', wakeup 4097 4104 clash = Ret tt s' /\
    p_stat (proc_ s' 1) = SRUN /\ p_stat (proc_ s' 2) = SRUN /\
    chain (lks s') (runq s') [2; 0] /\ chain (lks s') (slpque s' 0) [2; 0].
Proof.
  split; [done|]. split.
  - split.
    + intros h _. unfold clash; cbn. by destruct (Z.eqb_spec h 0).
    + done.
    + intros h. destruct (h =? 0); [|constructor].
      repeat (constructor; [rewrite ?elem_of_cons, elem_of_nil; lia|]). constructor.
    + constructor.
    + intros h i. destruct (Z.eqb_spec h 0) as [->|]; [|by intros ?%elem_of_nil].
      intros [->|[->|[->|Hi]%elem_of_cons]%elem_of_cons]%elem_of_cons; [..|by apply elem_of_nil in Hi];
        (split; [unfold inr_, NPROC; lia|done]).
    + by intros i ?%elem_of_nil.
  - eexists. split; [vm_compute; reflexivity|]. done.
Qed.

End Proc.
