(* ===== verification/Keep.v ===== *)
(** * Keep: what sleeping and waking leave alone (src/usr/sys/sys/slp.c, sig.c, clock.c)

    The operations of [Proc] change neither the numbers of a process nor whether
    its entry is free or a zombie's. *)
From S2P Require Import Prelude Kmonad Proc.
Import Proc.

Module Keep.

(** Numbers, and whether the entry is free or a zombie's. *)
Record shp := Shp { h_pid : Z; h_ppid : Z; h_pgrp : Z; h_free : bool; h_zomb : bool }.
Definition shape (r : proc) : shp := Shp (p_pid r) (p_ppid r) (p_pgrp r) (p_stat r =? 0) (p_stat r =? SZOMB).
Definition shaped (b : Z -> shp) (t : pst) : Prop := forall i, shape (proc_ t i) = b i.
(** At each point where the processor is given up the shapes are as they were;
    nothing is said of the rest of the call. *)
Definition keep (b : Z -> shp) : proto lbl pst := Proto (fun _ => shaped b) (fun _ _ => False) True True True.

Section keeps.
Context (b : Z -> shp).
Abbreviation keeps m := (pres (keep b) (shaped b) m).

Lemma shaped_setp i f t : shaped b t -> shape (f (proc_ t i)) = shape (proc_ t i) -> shaped b (setp i f t).
Proof. intros Hs Hf j. unfold setp. cbn. rewrite fn_case. destruct (decide (i = j)) as [<-|]; [rewrite Hf; apply Hs|apply Hs]. Qed.
Lemma keeps_setp i f : (forall r, shape (f r) = shape r) -> keeps (modify (setp i f)).
Proof. intros Hf. apply pres_modify. intros s Hs. by apply shaped_setp. Qed.
Lemma keeps_setp_st i (f : pst -> proc -> proc) : (forall st r, shape (f st r) = shape r) -> keeps (modify (fun st => setp i (f st) st)).
Proof. intros Hf. apply pres_modify. intros s Hs. by apply shaped_setp. Qed.
Lemma keeps_modify f : (forall t, proc_ (f t) = proc_ t) -> keeps (modify f).
Proof. intros Hf. apply pres_modify. intros t Ht i. rewrite Hf. apply Ht. Qed.
Lemma keeps_block l : keeps (block l).
Proof. apply pres_block; [done|]. by intros s s' []. Qed.
Lemma keeps_gets {A} (f : pst -> A) : keeps (gets f).
Proof. apply pres_gets. Qed.
Ltac keep_step := first
  [ progress pres_step
  | progress unfold getp, spl0, splhi, splx, printf
  | apply keeps_setp; intros r; exact eq_refl
  | apply keeps_setp_st; intros st r; exact eq_refl
  | apply keeps_modify; intros t; exact eq_refl
  | apply keeps_block ].
Ltac keep := repeat keep_step.

Lemma keeps_setrq p : keeps (setrq p).
Proof. unfold setrq. keep. Qed.
Lemma keeps_setrun ao rec p : (forall c, keeps (rec c)) -> keeps (setrun_with ao rec p).
Proof.
  intros Hrec t Ht. unfold setrun_with, getp. apply wp_bind, wp_gets. apply wp_if; intros Hd; [exact I|].
  apply orb_false_elim in Hd as [H0 Hz]. cbv zeta. apply wp_if; intros _; [by apply Hrec|].
  apply wp_bind, wp_modify. match goal with |- wp _ ?m _ ?s => enough (keeps m) as Hk by (apply Hk, shaped_setp; [exact Ht|]; unfold shape; cbn; by rewrite H0, Hz) end.
  pose proof keeps_setrq. keep; try apply Hrec; done.
Qed.
Lemma keeps_wakeup_d ao d : forall chan, keeps (wakeup_d ao d chan).
Proof.
  induction d as [|d IH]; intros chan; [by intros t Ht|]. cbn [wakeup_d]. keep; try done.
  unfold wakeup_body. keep. by apply keeps_setrun.
Qed.
Lemma keeps_wakeup ao chan : keeps (wakeup ao chan).
Proof. apply keeps_wakeup_d. Qed.
Lemma keeps_psignal ao p sig : keeps (psignal ao p sig).
Proof. unfold psignal, setrun. keep. apply keeps_setrun, keeps_wakeup. Qed.
Lemma keeps_signal ao pgrp sig : keeps (signal ao pgrp sig).
Proof. unfold signal. keep. apply keeps_psignal. Qed.
Lemma keeps_issig : keeps issig.
Proof. unfold issig, issig_body. keep; done. Qed.
Lemma keeps_setpri p : keeps (setpri p).
Proof. unfold setpri. keep. Qed.
Lemma keeps_clock ai ao al : keeps (clock ai ao al).
Proof.
  unfold clock, clock_proc. keep; try apply keeps_wakeup; try apply keeps_psignal; try apply keeps_setpri.
Qed.
Lemma keeps_search n : keeps (swtch_search n).
Proof. unfold swtch_search, search_body, swtch_scan, scan_body, swtch_resume. keep; done. Qed.
Lemma keeps_qswtch : keeps qswtch.
Proof. unfold qswtch. keep. apply keeps_setrq. Qed.
Lemma keeps_setrun_now ao p : keeps (setrun ao p).
Proof. apply keeps_setrun, keeps_wakeup. Qed.
(** The process that goes to sleep is neither free nor a zombie. *)
Definition living (p : Z) : Prop := h_free (b p) = false /\ h_zomb (b p) = false.
Lemma keeps_state p v : living p -> (v =? 0) = false -> (v =? SZOMB) = false -> keeps (modify (setp p (fun r => r <| p_stat := v |>))).
Proof.
  intros [L1 L2] H0 Hz. apply pres_modify. intros t Ht. apply shaped_setp; [done|]. specialize (Ht p). unfold shape in *. cbn.
  rewrite <- Ht in L1, L2. cbn in L1, L2. by rewrite L1, L2, H0, Hz.
Qed.
Lemma keeps_sleep ai ao chan pri t : living (u_procp t) -> shaped b t -> wp (keep b) (sleep ai ao chan pri) (fun _ => shaped b) t.
Proof.
  intros Hl Ht. unfold sleep. apply wp_bind, wp_gets. set (rp := u_procp t) in *.
  match goal with |- wp _ ?m _ ?s => enough (keeps m) as Hk by (by apply Hk) end.
  unfold sleep_wait. keep; try done; try apply keeps_issig; try apply keeps_wakeup; by apply keeps_state.
Qed.
(** The results of code that keeps the shapes. *)
Lemma wp_keep_ret {A} (m : M A) t a t' : wp (keep b) m (fun _ => shaped b) t -> m t = Ret a t' -> shaped b t'.
Proof. unfold wp. intros H E. by rewrite E in H. Qed.
Lemma wp_keep_block {A} (m : M A) t l t' k : wp (keep b) m (fun _ => shaped b) t -> m t = Blocked l t' k -> shaped b t'.
Proof. unfold wp. intros H E. rewrite E in H. by destruct H. Qed.
End keeps.

(** A step of [Proc] keeps all shapes. *)
Lemma step_shape ai ao al cur t cur' t' B R : addrs_ok ai ao -> sched_ok ai ao cur t B R -> step ai ao al (cur, t) (cur', t') ->
  forall i, shape (proc_ t' i) = shape (proc_ t i).
Proof.
  intros Ha Hs Hst. set (b := fun i => shape (proc_ t i)). assert (shaped b t) as Hb by done. enough (shaped b t') as H by (intros i; apply H).
  assert (forall p, cur = Some p -> living b p) as Hl.
  { intros p E. destruct (so_cur _ _ _ _ _ _ Hs p E) as (_&_&Hp&_). unfold living, b, shape. cbn. by rewrite Hp. }
  inversion Hst as [s s' k chan pri Hok _ E|s s' chan pri Hok _ E|s s' k H0 E|s s' k H0 E|s s' k E|s s' n E|
                    s s' p sw E|s s' k E|c s s' chan Hc E|c s s' pgrp sig E|c s s' E]; subst.
  - eapply wp_keep_block; [apply keeps_sleep; [by apply Hl|exact Hb]|exact E].
  - destruct (sleep_sched ai ao t B R chan pri Ha Hs Hok) as [(s1&E1&_&_&Hw&_)|(s1&k1&B1&R1&E1&_)]; rewrite E1 in E; [|done].
    injection E as ->. intros i. specialize (Hw i). unfold who in Hw. injection Hw as W1 W2 W3 W4. unfold b, shape. by rewrite W1, W2, W3, W4.
  - eapply wp_keep_block; [|exact E]. apply wp_bind, wp_modify, keeps_sleep; [by apply Hl|exact Hb].
  - eapply wp_keep_block; [|exact E]. apply wp_bind, wp_modify, keeps_sleep; [by apply Hl|exact Hb].
  - eapply wp_keep_block; [by apply keeps_qswtch|exact E].
  - eapply wp_keep_ret; [by apply keeps_issig|exact E].
  - eapply wp_keep_ret; [by apply keeps_search|exact E].
  - eapply wp_keep_block; [by apply keeps_search|exact E].
  - eapply wp_keep_ret; [by apply keeps_wakeup|exact E].
  - eapply wp_keep_ret; [by apply keeps_signal|exact E].
  - eapply wp_keep_ret; [by apply keeps_clock|exact E].
Qed.
End Keep.
