(* ===== verification/Family.v ===== *)
(** * Family: how processes begin, end and are waited for
    (src/usr/sys/sys/slp.c: newproc; sys1.c: exit, wait, fork; sys4.c)

    The state is that of [Proc] with the user structures, which belong to a slot
    of the process table each, and the maps of core and swap space.  Calls into
    the file system and the accounting, which may wait, and the swapper's [xswap]
    are nodes of the result: what they do is up to those components.  Counts of
    files, inodes and texts and the machine dependent steps, which do not wait,
    are recorded as events. *)
From Stdlib Require Import FunctionalExtensionality.
From S2P Require Import Prelude Kmonad ResMap Proc Keep.
Import Proc Keep.

Module Family.

(** ** Data *)

Definition NOFILE : Z := 20.
Definition MAXUPRC : Z := 25.
Definition MAXMEM : Z := 129.
Definition PWAIT : Z := 30.
Definition PSLEP : Z := 40.
Definition SIDL : Z := 4.
Definition SWTED : Z := 32.
Definition SULOCK : Z := 64.
Definition SSYS : Z := 2.
Definition USIZE : Z := 1.
Definition SIGKIL : Z := 9.
Definition NBPW : Z := 4.
Definition AFORK : Z := 1.
Definition ASU : Z := 2.
Definition EPERM : Z := 1.
Definition ESRCH : Z := 3.
Definition ECHILD : Z := 10.
Definition EAGAIN : Z := 11.
Definition ENOMEM : Z := 12.
Definition EINVAL : Z := 22.
Definition ctod (x : Z) : Z := Z.shiftl x 2.

(** The part of [struct user] that these calls use. *)
Record user := MkUser {
  u_error : Z; u_uid : Z; r_val1 : Z; r_val2 : Z; u_pc : Z;
  u_cdir : Z; u_rdir : option Z; u_ofile : Z -> option Z;
  u_utime : Z; u_stime : Z; u_cutime : Z; u_cstime : Z; u_start : Z; u_acflag : Z
}.
#[export] Instance eta_user : Eta user := fun r =>
  MkUser (u_error r) (u_uid r) (r_val1 r) (r_val2 r) (u_pc r) (u_cdir r) (u_rdir r) (u_ofile r)
    (u_utime r) (u_stime r) (u_cutime r) (u_cstime r) (u_start r) (u_acflag r).

Inductive event := Fcount (f : Z) | Xcount (x : Z) | Icount (ip : Z) | Copyseg (a1 a2 : Z) | Tlbiasid (p : Z) | Sureg | Vfp_discard.
Inductive label := Cpu (l : lbl) | Closef (f : option Z) | Plock (ip : Z) | Iput (ip : Z) | Xfree | Acct | Xswap (p ff os : Z).

Record fam := MkFam {
  ps : pst; us : Z -> user; mpid : Z; coremap : list ResMap.map_ent; swapmap : list ResMap.map_ent; evs : list event
}.
#[export] Instance eta_fam : Eta fam := fun r => MkFam (ps r) (us r) (mpid r) (coremap r) (swapmap r) (evs r).

Abbreviation F := (K label fam).

(** What [Proc] defines, on the larger state. *)
Fixpoint olift {A} (s : fam) (o : outcome lbl pst A) : outcome label fam A :=
  match o with
  | Ret a p => Ret a (s <| ps := p |>)
  | Blocked l p k => Blocked (Cpu l) (s <| ps := p |>) (fun s' => olift s' (k (ps s')))
  | Jumped p => Jumped (s <| ps := p |>)
  | Panicked w p => Panicked w (s <| ps := p |>)
  | Spinning => Spinning
  end.
Definition lift {A} (m : M A) : F A := fun s => olift s (m (ps s)).

Definition procp : F Z := gets (fun s => u_procp (ps s)).
Definition proc_at (i : Z) : F proc := gets (fun s => proc_ (ps s) i).
Definition modp (i : Z) (f : proc -> proc) : F unit := modify (fun s => s <| ps ::= setp i f |>).
Definition u : F user := gets (fun s => us s (u_procp (ps s))).
Definition modu (f : user -> user) : F unit := modify (fun s => s <| us ::= fun a => <[u_procp (ps s) := f (a (u_procp (ps s)))]> a |>).
Definition emit (e : event) : F unit := modify (fun s => s <| evs ::= cons e |>).
Definition files : list Z := map Z.of_nat (seq 0 (Z.to_nat NOFILE)).

Section code.
  Context (addr_runin addr_runout : Z) (addr_u : Z) (proc0 : Z).

(** [&proc[i]]: the structure has 36 bytes. *)
Definition addr_proc (i : Z) : Z := proc0 + 36 * i.

(** [malloc] and [mfree] of core; the latter wakes the swapper if it waits for some. *)
Definition malloc_core (n : Z) : F Z :=
  mp ← gets coremap;
  match ResMap.malloc mp n with
  | None => spin
  | Some (a, mp) => modify (fun s => s <| coremap := mp |>);; mret a
  end.
Definition mfree_core (n a : Z) : F unit :=
  ri ← gets (fun s => runin (ps s));
  when (negb (ri =? 0)) (modify (fun s => s <| ps ::= fun p => p <| Proc.runin := 0 |> |>);; lift (wakeup addr_runout addr_runin));;
  mp ← gets coremap;
  match ResMap.mfree mp n a with
  | None => spin
  | Some mp => modify (fun s => s <| coremap := mp |>)
  end.

(** ** newproc *)

(** The search of the table: the slot found so far, and whether the number is in use. *)
Fixpoint pid_scan (tab : Z -> proc) (m : Z) (l : list Z) (p : option Z) : option Z * bool :=
  match l with
  | [] => (p, false)
  | rpp :: l =>
      let p := if (p_stat (tab rpp) =? 0) && negb (bool_decide (is_Some p)) then Some rpp else p in
      if (p_pid (tab rpp) =? m) || (p_pgrp (tab rpp) =? m) then (p, true) else pid_scan tab m l p
  end.
(** From [retry:] to the end of the loop, once. *)
Definition pid_try (tab : Z -> proc) (m : Z) (p : option Z) : Z * option Z * bool :=
  let m := m + 1 in
  if 30000 <=? m then (0, p, true) else let '(p, again) := pid_scan tab m slots p in (m, p, again).
Fixpoint pid_search (n : nat) (tab : Z -> proc) (m : Z) (p : option Z) : option (Z * option Z) :=
  match n with
  | O => None
  | S n => let '(m, p, again) := pid_try tab m p in if again then pid_search n tab m p else Some (m, p)
  end.

(** The new entry. *)
Definition new_entry (m : Z) (rip r : proc) : proc :=
  r <| p_stat := SRUN |> <| p_clktim := 0 |> <| p_flag := SLOAD |> <| p_uid := p_uid rip |> <| p_pgrp := p_pgrp rip |> <| p_nice := p_nice rip |>
    <| p_textp := p_textp rip |> <| p_pid := s16 m |> <| p_ppid := p_pid rip |> <| p_time := 0 |> <| p_cpu := 0 |>.
(** The counts of what both processes have. *)
Definition duplicate (up : proc) : F unit :=
  r ← u;
  each files (fun n => match u_ofile r n with Some f => emit (Fcount f) | None => mret tt end);;
  match p_textp up with Some x => emit (Xcount x) | None => mret tt end;;
  emit (Icount (u_cdir r));;
  match u_rdir r with Some ip => emit (Icount ip) | None => mret tt end.
(** The image of the parent, with its user structure, becomes the child's. *)
Definition copy_image (rip rpp : Z) : F unit :=
  modify (fun s => s <| us ::= fun a => <[rpp := a rip]> a |> <| ps ::= fun p => p <| u_signal ::= fun a => <[rpp := a rip]> a |> |>).
Fixpoint copy_core (n : nat) (a1 a2 : Z) : F unit :=
  match n with O => mret tt | S n => emit (Copyseg a1 a2);; copy_core n (a1 + 1) (a2 + 1) end.
(** The end of the call, when the image is there. *)
Definition newproc_back (rip rpp : Z) : F Z :=
  modify (fun s => s <| ps ::= fun t => t <| u_procp := rip |> |>);;
  lift (setrq rpp);;
  modp rpp (fun r => r <| p_flag ::= fun f => setf f SSWAP |>);;
  mret 0.
(** From [malloc] on; [up] is the entry of the parent. *)
Definition newproc_rest (up : proc) (rip rpp : Z) : F Z :=
  let n := p_size up in
  let a1 := p_addr up in
  a2 ← malloc_core n;
  (if a2 =? 0 then
     modp rip (fun r => r <| p_stat := SIDL |>);;
     modp rpp (fun r => r <| p_addr := a1 |>);;
     copy_image rip rpp;;
     block (Xswap rpp 0 0);;
     modp rip (fun r => r <| p_stat := SRUN |>)
   else
     modp rpp (fun r => r <| p_addr := a2 |>);;
     copy_image rip rpp;;
     copy_core (Z.to_nat n) a1 a2);;
  newproc_back rip rpp.
Definition newproc (rounds : nat) : F Z :=
  s ← get;
  match pid_search rounds (proc_ (ps s)) (mpid s) None with
  | None => spin
  | Some (m, p) =>
      modify (fun s => s <| mpid := m |>);;
      match p with
      | None => panic "no procs"
      | Some rpp =>
          rip ← procp;
          modify (fun s => s <| ps ::= fun t => setp rpp (new_entry m (proc_ t rip)) t |>);;
          up ← proc_at rip;
          duplicate up;;
          modify (fun s => s <| ps ::= fun t => t <| u_procp := rpp |> |>);;
          modp rpp (fun r => r <| p_size := p_size up |>);;
          newproc_rest up rip rpp
      end
  end.
(** Where the child resumes: [save] returns 1 there. *)
Definition newproc_child : F Z := p ← procp; emit (Tlbiasid p);; emit Sureg;; mret 1.

(** ** exit *)

(** From [p->p_stat = SZOMB] on.  The entry is [struct xproc] now: [xp_xstat],
    [xp_utime] and [xp_stime] lie over [p_addr], [p_wchan] and [p_textp]. *)
Definition of_ptr (p : option Z) : Z := default 0 p.
Definition to_ptr (v : Z) : option Z := if v =? 0 then None else Some v.
Definition xp_xstat (r : proc) : Z := s16 (p_addr r).
Definition xp_utime (r : proc) : Z := s32 (p_wchan r).
Definition xp_stime (r : proc) : Z := s32 (of_ptr (p_textp r)).
Definition to_zombie (rv utime stime : Z) (r : proc) : proc :=
  r <| p_stat := SZOMB |> <| p_addr := u16 rv |> <| p_wchan := u32 utime |> <| p_textp := to_ptr (u32 stime) |>.
(** Each child goes to process 1. *)
Definition disown (p q : Z) : F unit :=
  pr ← proc_at p;
  qr ← proc_at q;
  when (p_ppid qr =? p_pid pr)
    (lift (wakeup addr_runout (addr_proc 1));;
     modp q (fun r => r <| p_ppid := 1 |>);;
     qr ← proc_at q;
     when (p_stat qr =? SSTOP) (lift (setrun addr_runout q))).
Definition exit_zombie (rv : Z) : F unit :=
  p ← procp;
  r ← u;
  modp p (to_zombie rv (s32 (u_cutime r + u_utime r)) (s32 (u_cstime r + u_stime r)));;
  emit Vfp_discard;;
  each slots (disown p);;
  q ← find_first slots (fun s q => p_ppid (proc_ (ps s) p) =? p_pid (proc_ (ps s) q));
  match q with Some q => lift (wakeup addr_runout (addr_proc q)) | None => mret tt end;;
  block (Cpu Swtch).
Definition exit_release : F unit :=
  p ← procp;
  each files (fun i =>
    r ← u;
    modu (fun r => r <| u_ofile ::= fun a => <[i := None]> a |>);;
    block (Closef (u_ofile r i)));;
  r ← u;
  block (Plock (u_cdir r));;
  block (Iput (u_cdir r));;
  match u_rdir r with Some ip => block (Plock ip);; block (Iput ip) | None => mret tt end;;
  block Xfree;;
  block Acct;;
  pr ← proc_at p;
  mfree_core (p_size pr) (p_addr pr).
Definition exit (rv : Z) : F unit :=
  p ← procp;
  modp p (fun r => r <| p_flag ::= fun f => clrf f (Z.lor STRC SULOCK) |>);;
  modp p (fun r => r <| p_clktim := 0 |>);;
  pr ← proc_at p;
  if p_pid pr =? 1 then panic "init process died"
  else
    modify (fun s => s <| ps ::= fun t => t <| u_signal ::= fun a => <[p := fun i => if (0 <=? i) && (i <? NSIG) then 1 else a p i]> a |> |>);;
    exit_release;;
    exit_zombie rv.
Definition rexit (rval : Z) : F unit := exit (Z.shiftl (Z.land rval 255) 8).

(** ** stop *)

(** From [loop:] up to the return of [swtch]; [false] when there is no parent to
    tell and the process is to end. *)
Definition stop_round : F bool :=
  cp ← procp;
  cr ← proc_at cp;
  if p_ppid cr =? 1 then mret false
  else
    q ← find_first slots (fun s pp => p_pid (proc_ (ps s) pp) =? p_ppid (proc_ (ps s) cp));
    match q with
    | Some pp =>
        lift (wakeup addr_runout (addr_proc pp));;
        modp cp (fun r => r <| p_stat := SSTOP |>);;
        block (Cpu Swtch);;
        mret true
    | None => mret false
    end.

(** ** wait *)

(** The entry of a zombie is given up. *)
Definition reap (r : proc) : proc :=
  r <| p_pid := 0 |> <| p_ppid := 0 |> <| p_pgrp := 0 |> <| p_sig := 0 |> <| p_flag := 0 |> <| p_wchan := 0 |> <| p_stat := 0 |>.
Definition wait_slot (p f : Z) : F (Z + unit) :=
  me ← procp;
  pr ← proc_at p;
  mr ← proc_at me;
  if p_ppid pr =? p_pid mr then
    if p_stat pr =? SZOMB then
      modu (fun r => r <| r_val1 := p_pid pr |> <| r_val2 := xp_xstat pr |>
        <| u_cutime ::= fun t => s32 (t + xp_utime pr) |> <| u_cstime ::= fun t => s32 (t + xp_stime pr) |>);;
      modp p reap;;
      mret (inr tt)
    else if (p_stat pr =? SSTOP) && negb (has (p_flag pr) SWTED) then
      modp p (fun r => r <| p_flag ::= fun f => setf f SWTED |>);;
      modu (fun r => r <| r_val1 := p_pid pr |> <| r_val2 := Z.lor (Z.shiftl (fsig pr) 8) 127 |>);;
      mret (inr tt)
    else mret (inl (f + 1))
  else mret (inl f).
(** From [loop:] once. *)
Definition wait_round (f : Z) : F (Z + unit) :=
  r ← foldm slots wait_slot f;
  match r with
  | inr tt => mret (inr tt)
  | inl f =>
      if negb (f =? 0) then me ← procp; lift (sleep addr_runin addr_runout (addr_proc me) PWAIT);; mret (inl f)
      else modu (fun r => r <| u_error := ECHILD |>);; mret (inr tt)
  end.
Definition wait (rounds : nat) : F unit := iter rounds wait_round 0.

(** ** fork *)

(** The first free slot, and how many other entries the user has. *)
Fixpoint fork_count (tab : Z -> proc) (uid : Z) (l : list Z) (p2 : option Z) (a : Z) : option Z * Z :=
  match l with
  | [] => (p2, a)
  | p1 :: l =>
      if (p_stat (tab p1) =? 0) && negb (bool_decide (is_Some p2)) then fork_count tab uid l (Some p1) a
      else fork_count tab uid l p2 (if (p_uid (tab p1) =? uid) && negb (p_stat (tab p1) =? 0) then a + 1 else a)
  end.
Definition fork_out : F unit := modu (fun r => r <| u_pc ::= fun x => u32 (x + NBPW) |>).
Definition fork (rounds : nat) : F unit :=
  mp ← gets swapmap;
  match ResMap.malloc mp (ctod MAXMEM) with
  | None => spin
  | Some (a, mp) =>
      modify (fun s => s <| swapmap := mp |>);;
      if a =? 0 then modu (fun r => r <| u_error := ENOMEM |>);; fork_out
      else
        match ResMap.mfree mp (ctod MAXMEM) a with
        | None => spin
        | Some mp =>
            modify (fun s => s <| swapmap := mp |>);;
            s ← get;
            r ← u;
            let '(p2, a) := fork_count (proc_ (ps s)) (u_uid r) slots None 0 in
            match p2 with
            | None => modu (fun r => r <| u_error := EAGAIN |>);; fork_out
            | Some p2 =>
                if negb (u_uid r =? 0) && ((p2 =? NPROC - 1) || (MAXUPRC <? a)) then modu (fun r => r <| u_error := EAGAIN |>);; fork_out
                else
                  newproc rounds;;
                  pr ← proc_at p2;
                  modu (fun r => r <| r_val1 := p_pid pr |>);;
                  fork_out
            end
        end
  end.
(** In the child: [p1] is its parent. *)
Definition fork_child (p1 : Z) : F unit :=
  newproc_child;;
  pr ← proc_at p1;
  t ← gets (fun s => time (ps s));
  modu (fun r => r <| r_val1 := p_pid pr |> <| u_start := t |> <| u_cstime := 0 |> <| u_stime := 0 |> <| u_cutime := 0 |> <| u_utime := 0 |> <| u_acflag := AFORK |>).

(** ** The calls of sys4.c about processes *)

Definition suser : F bool :=
  r ← u;
  if u_uid r =? 0 then modu (fun r => r <| u_acflag ::= fun f => u8 (setf f ASU) |>);; mret true
  else modu (fun r => r <| u_error := EPERM |>);; mret false.
Definition getpid : F unit :=
  p ← procp; pr ← proc_at p;
  modu (fun r => r <| r_val1 := p_pid pr |> <| r_val2 := p_ppid pr |>).
Definition nice (niceness : Z) : F unit :=
  su ← (if niceness <? 0 then suser else mret true);
  let n := if (su : bool) then niceness else 0 in
  p ← procp; pr ← proc_at p;
  let n := s32 (n + p_nice pr) in
  let n := if 2 * NZERO <=? n then 2 * NZERO - 1 else n in
  let n := if n <? 0 then 0 else n in
  modp p (fun r => r <| p_nice := u8 n |>).
Definition ssig (signo fun_ : Z) : F unit :=
  if (signo <=? 0) || (NSIG <=? signo) || (signo =? SIGKIL) then modu (fun r => r <| u_error := EINVAL |>)
  else
    p ← procp;
    old ← gets (fun s => u_signal (ps s) p signo);
    modu (fun r => r <| r_val1 := old |>);;
    modify (fun s => s <| ps ::= fun t => t <| u_signal ::= fun a => <[p := <[signo := fun_]> (a p)]> a |> |>);;
    modp p (fun r => r <| p_sig ::= fun x => s16 (Z.land x (Z.lnot (Z.shiftl 1 (signo - 1)))) |>).
Definition kill_slot (a : Z) (priv : bool) (q signo p f : Z) : F (Z + unit) :=
  pr ← proc_at p;
  qr ← proc_at q;
  r ← u;
  if p_stat pr =? 0 then mret (inl f)
  else if negb (a =? 0) && negb (p_pid pr =? a) then mret (inl f)
  else if (a =? 0) && ((negb (p_pgrp pr =? p_pgrp qr) && negb priv) || (p <=? 1)) then mret (inl f)
  else if negb (u_uid r =? 0) && negb (u_uid r =? p_uid pr) then mret (inl f)
  else lift (psignal addr_runout p signo);; mret (inl (f + 1)).
Definition kill (pid signo : Z) : F unit :=
  r ← u;
  let priv := (pid =? -1) && (u_uid r =? 0) in
  let a := if priv then 0 else pid in
  q ← procp;
  f ← foldm slots (kill_slot a priv q signo) 0;
  match f with
  | inl f => when (f =? 0) (modu (fun r => r <| u_error := ESRCH |>))
  | inr _ => mret tt
  end.
Definition alarm (deltat : Z) : F unit :=
  p ← procp; pr ← proc_at p;
  modp p (fun r => r <| p_clktim := deltat |>);;
  modu (fun r => r <| r_val1 := p_clktim pr |>).
Definition pause (rounds : nat) : F unit :=
  iter rounds (fun _ => lift (sleep addr_runin addr_runout addr_u PSLEP);; mret (inl tt)) tt.
End code.

(** ** Process numbers *)

(** Numbers in use, of processes and of groups. *)
Definition used (tab : Z -> proc) : list Z := map (fun i => p_pid (tab i)) slots ++ map (fun i => p_pgrp (tab i)) slots.
Definition free_slot (tab : Z -> proc) (i : Z) : Prop := inr_ i /\ p_stat (tab i) = 0.

Lemma slots_in i : i ∈ slots <-> inr_ i.
Proof.
  unfold slots, inr_. split.
  - intros (k&->&Hk)%list_elem_of_fmap. apply elem_of_seq in Hk. unfold NPROC in *. lia.
  - intros Hi. apply list_elem_of_fmap. exists (Z.to_nat i). split; [lia|]. apply elem_of_seq. unfold NPROC in *. lia.
Qed.
Lemma pid_scan_ok tab m l : forall p, (forall i, i ∈ l -> inr_ i) -> (forall i, p = Some i -> free_slot tab i) ->
  let '(p', again) := pid_scan tab m l p in
  (forall i, p' = Some i -> free_slot tab i) /\ (again = true -> exists i, i ∈ l /\ (p_pid (tab i) = m \/ p_pgrp (tab i) = m)) /\
  (again = false -> (forall i, i ∈ l -> p_pid (tab i) <> m /\ p_pgrp (tab i) <> m) /\ ((is_Some p \/ exists i, i ∈ l /\ p_stat (tab i) = 0) -> is_Some p')).
Proof.
  induction l as [|r l IH]; intros p Hl Hp; cbn [pid_scan].
  - split; [done|]. split; [done|]. intros _. split; [intros i Hi; by apply elem_of_nil in Hi|]. intros [?|(i&Hi&_)]; [done|by apply elem_of_nil in Hi].
  - set (p1 := if (p_stat (tab r) =? 0) && negb (bool_decide (is_Some p)) then Some r else p).
    assert (forall i, p1 = Some i -> free_slot tab i) as Hp1.
    { unfold p1. intros i. destruct (Z.eqb_spec (p_stat (tab r)) 0) as [E|E]; cbn [andb]; [|by apply Hp]. case_bool_decide; cbn [negb]; [by apply Hp|].
      intros [= <-]. split; [apply Hl; mem|done]. }
    destruct (Z.eqb_spec (p_pid (tab r)) m) as [E1|E1]; [|destruct (Z.eqb_spec (p_pgrp (tab r)) m) as [E2|E2]]; cbn [orb].
    + split; [done|]. split; [|done]. intros _. exists r. split; [mem|by left].
    + split; [done|]. split; [|done]. intros _. exists r. split; [mem|by right].
    + specialize (IH p1 ltac:(intros i Hi; apply Hl; mem) Hp1). destruct (pid_scan tab m l p1) as [p' again]. destruct IH as (I1&I2&I3). split; [done|]. split.
      * intros Ha. destruct (I2 Ha) as (i&Hi&?). exists i. split; [mem|done].
      * intros Ha. destruct (I3 Ha) as [I4 I5]. split.
        -- intros i Hi. apply elem_of_cons in Hi as [->|Hi]; [done|by apply I4].
        -- intros Hex. apply I5. unfold p1. destruct Hex as [Hs|(i&Hi&Ei)].
           ++ left. rewrite bool_decide_eq_true_2 by done. by rewrite andb_false_r.
           ++ apply elem_of_cons in Hi as [->|Hi]; [|right; by exists i]. left. rewrite Ei. cbn. case_bool_decide; cbn; [done|by eexists].
Qed.
(** A number that is refused is 0 or in use. *)
Lemma pid_search_ok tab n : forall m p, 0 <= m < 30000 -> (forall i, p = Some i -> free_slot tab i) -> (exists i, free_slot tab i) ->
  match pid_search n tab m p with
  | Some (m', p') => exists i, p' = Some i /\ free_slot tab i /\ 1 <= m' < 30000 /\ m' ∉ used tab
  | None => forall k, 1 <= k <= Z.of_nat n -> (m + k) mod 30000 ∈ 0 :: used tab
  end.
Proof.
  induction n as [|n IH]; intros m p Hm Hp Hfree; cbn [pid_search]; [intros k Hk; lia|].
  assert (forall m' : Z, (m + 1) mod 30000 = m' -> m' ∈ 0 :: used tab ->
    (forall k, 1 <= k <= Z.of_nat n -> (m' + k) mod 30000 ∈ 0 :: used tab) -> forall k, 1 <= k <= Z.of_nat (S n) -> (m + k) mod 30000 ∈ 0 :: used tab) as Hstep.
  { intros m' <- H1 Hk k Hr. destruct (decide (k = 1)) as [->|]; [done|]. specialize (Hk (k - 1) ltac:(lia)). rewrite Z.add_mod_idemp_l in Hk by lia.
    by replace (m + 1 + (k - 1)) with (m + k) in Hk by lia. }
  unfold pid_try. destruct (Z.leb_spec 30000 (m + 1)) as [Hw|Hw].
  - specialize (IH 0 p ltac:(lia) Hp Hfree). destruct (pid_search n tab 0 p) as [[m' p']|]; [done|]. apply (Hstep 0); [|mem|done].
    replace (m + 1) with 30000 by lia. done.
  - pose proof (pid_scan_ok tab (m + 1) slots p (fun i => proj1 (slots_in i)) Hp) as Hs. destruct (pid_scan tab (m + 1) slots p) as [p' again]. destruct Hs as (S1&S2&S3).
    destruct again.
    + specialize (IH (m + 1) p' ltac:(lia) S1 Hfree). destruct (pid_search n tab (m + 1) p') as [[m2 p2]|]; [done|]. apply (Hstep (m + 1)); [apply Z.mod_small; lia| |done].
      destruct (S2 eq_refl) as (i&Hi&Hu). apply elem_of_cons. right. unfold used. apply elem_of_app. destruct Hu as [<-|<-]; [left|right]; apply list_elem_of_fmap; by exists i.
    + destruct (S3 eq_refl) as [S4 S5]. destruct Hfree as (i0&Hi0&Ei0). destruct S5 as [i ->]; [right; exists i0; split; [by apply slots_in|done]|].
      exists i. split; [done|]. split; [by apply S1|]. split; [lia|]. unfold used. intros [Hi|Hi]%elem_of_app; apply list_elem_of_fmap in Hi as (j&Ej&Hj); by destruct (S4 j Hj).
Qed.
(** The next number is taken when nobody has it. *)
Lemma pid_search_next tab n m m' p' : pid_search (S n) tab m None = Some (m', p') -> m + 1 < 30000 -> m + 1 ∉ used tab -> m' = m + 1.
Proof.
  cbn [pid_search]. unfold pid_try. intros E Hm Hn. destruct (Z.leb_spec 30000 (m + 1)); [lia|].
  pose proof (pid_scan_ok tab (m + 1) slots None (fun i => proj1 (slots_in i)) ltac:(done)) as Hs.
  destruct (pid_scan tab (m + 1) slots None) as [p1 again]. destruct Hs as (_&S2&_). destruct again; [|by injection E as <- _].
  destruct (S2 eq_refl) as (i&Hi&Hu). destruct Hn. unfold used. apply elem_of_app. destruct Hu as [<-|<-]; [left|right]; apply list_elem_of_fmap; by exists i.
Qed.
(** 302 tries are enough: there are 300 numbers that may be in use, and 0. *)
Lemma pid_search_ends tab m : 0 <= m < 30000 -> (exists i, free_slot tab i) ->
  exists m' i, pid_search 302 tab m None = Some (m', Some i) /\ free_slot tab i /\ 1 <= m' < 30000 /\ (m' ∉ used tab) /\ (m + 1 < 30000 -> m + 1 ∉ used tab -> m' = m + 1).
Proof.
  intros Hm Hfree. pose proof (pid_search_ok tab 302 m None Hm ltac:(done) Hfree) as Hs. destruct (pid_search 302 tab m None) as [[m' p']|] eqn:E302.
  { destruct Hs as (i&->&Hi&Hr&Hu). exists m', i. repeat (split; [done|]). by apply (pid_search_next tab 301 m m' (Some i)). }
  exfalso. set (L := map (fun k => (m + k) mod 30000) (seqZ 1 302)). assert (NoDup L) as Hnd.
  { apply NoDup_fmap_2_strong; [|apply NoDup_seqZ]. intros a b Ha Hb E. apply elem_of_seqZ in Ha, Hb.
    pose proof (Z.div_mod (m + a) 30000 ltac:(lia)). pose proof (Z.div_mod (m + b) 30000 ltac:(lia)). rewrite E in *.
    assert ((m + a) / 30000 = (m + b) / 30000 \/ (m + a) / 30000 + 1 <= (m + b) / 30000 \/ (m + b) / 30000 + 1 <= (m + a) / 30000) as [?|[?|?]] by lia; lia. }
  assert (L ⊆+ 0 :: used tab) as Hsub.
  { apply NoDup_submseteq; [done|]. intros x (k&->&Hk)%list_elem_of_fmap. apply elem_of_seqZ in Hk. apply Hs. lia. }
  apply submseteq_length in Hsub. unfold L, used in Hsub. cbn [length] in Hsub. rewrite length_app, !length_map in Hsub. by vm_compute in Hsub; lia.
Qed.

(** ** newproc *)

(** Code that only records events. *)
Definition records (m : F unit) : Prop := forall s, exists es, m s = Ret tt (s <| evs := es ++ evs s |>).
Lemma records_ret : records (mret tt).
Proof. intros s. exists []. by destruct s. Qed.
Lemma records_emit e : records (emit e).
Proof. intros s. by exists [e]. Qed.
Lemma records_bind m k : records m -> records k -> records (m;; k).
Proof.
  intros Hm Hk s. destruct (Hm s) as [es E]. rewrite (bind_ret _ _ _ _ _ E). destruct (Hk (s <| evs := es ++ evs s |>)) as [es2 E2].
  exists (es2 ++ es). rewrite E2. cbn [evs]. by rewrite <- app_assoc.
Qed.
Lemma records_each {A} (l : list A) f : (forall x, records (f x)) -> records (each l f).
Proof. intros Hf. induction l as [|x l IH]; [apply records_ret|]. by apply records_bind. Qed.
Lemma copy_core_records n : forall a1 a2, records (copy_core n a1 a2).
Proof. induction n as [|n IH]; intros a1 a2; [apply records_ret|]. apply records_bind; [apply records_emit|apply IH]. Qed.
Lemma duplicate_records up : records (duplicate up).
Proof.
  intros s. unfold duplicate, u. rewrite k_gets. set (r := us s (u_procp (ps s))). revert s r.
  assert (forall r, records (each files (fun n => match u_ofile r n with Some f => emit (Fcount f) | None => mret tt end);;
    match p_textp up with Some x => emit (Xcount x) | None => mret tt end;; emit (Icount (u_cdir r));;
    match u_rdir r with Some ip => emit (Icount ip) | None => mret tt end)) as H; [|intros s r; apply H].
  intros r. apply records_bind; [|apply records_bind; [|apply records_bind]].
  - apply records_each. intros n. destruct (u_ofile r n); [apply records_emit|apply records_ret].
  - destruct (p_textp up); [apply records_emit|apply records_ret].
  - apply records_emit.
  - destruct (u_rdir r); [apply records_emit|apply records_ret].
Qed.

(** The entry of the new process. *)
Definition child_of (r r' : proc) (m a : Z) : Prop :=
  p_stat r' = SRUN /\ p_pid r' = m /\ p_ppid r' = p_pid r /\ p_uid r' = p_uid r /\ p_pgrp r' = p_pgrp r /\ p_nice r' = p_nice r /\
  p_textp r' = p_textp r /\ p_size r' = p_size r /\ p_addr r' = a /\ p_flag r' = Z.lor SLOAD SSWAP /\ p_clktim r' = 0.

Section facts.
Context (addr_runin addr_runout addr_u proc0 : Z).

Lemma not_queued t B R i : queues t B R -> p_stat (proc_ t i) <> SRUN -> p_stat (proc_ t i) <> SSLEEP -> (i ∉ R) /\ forall h, i ∉ B h.
Proof.
  intros Hq H1 H2. split; [intros Hi; by destruct (qRin _ _ _ Hq i Hi) as (_&E&_)|]. intros h Hi. by destruct (qBin _ _ _ Hq h i Hi) as (_&E&_).
Qed.

(** A slot on no queue is put on the run queue, with another entry. *)
Lemma enter_sched cur t B R i r q : sched_ok addr_runin addr_runout cur t B R -> inr_ i -> p_stat (proc_ t i) <> SRUN -> p_stat (proc_ t i) <> SSLEEP -> (forall c, cur = Some c -> c <> i) ->
  p_stat r = SRUN -> p_wchan r = 0 -> -32768 <= p_sig r < 32768 -> runq q = Some i -> slpque q = slpque t -> u_procp q = u_procp t -> runout q = runout t ->
  proc_ q = <[i := r <| p_link := runq t |>]> (proc_ t) -> sched_ok addr_runin addr_runout cur q B (i :: R).
Proof.
  intros Hs Hi Hst1 Hst2 Hcur Er Ew Esig Eq1 Eq2 Eq3 Eq4 Ep. destruct Hs as [Hq Hrun Hsl Hc Hsw Hout Hsig Hidle].
  destruct (not_queued t B R i Hq Hst1 Hst2) as [HiR HiB].
  assert (forall j, j <> i -> proc_ q j = proc_ t j) as Hne by (intros j Hj; rewrite Ep; by apply fn_ne).
  assert (proc_ q i = r <| p_link := runq t |>) as Hpi by (rewrite Ep; apply fn_eq).
  assert (forall j c, asleep q j c -> asleep t j c) as Has.
  { intros j c (H1&H2&H3). destruct (decide (j = i)) as [->|Hj]; [rewrite Hpi in H2; cbn in H2; rewrite Er in H2; done|]. rewrite Hne in H2, H3 by done. done. }
  split.
  - pose proof (push_queues (t <| proc_ := <[i := r]> (proc_ t) |>) B R i) as Hp.
    eapply (queues_frame (push_run i (t <| proc_ := <[i := r]> (proc_ t) |>))).
    + apply Hp; [|done|cbn; by rewrite fn_eq|done|done]. eapply queues_frame; [exact Hq|done|done|]. intros j Hj. cbn. rewrite fn_ne; [done|].
      intros ->. destruct Hj as [?|[h ?]]; [done|by apply (HiB h)].
    + intros h. by rewrite Eq2.
    + by rewrite Eq1.
    + intros j _. unfold push_run, setp. cbn. rewrite !fn_case. destruct (decide (i = j)) as [<-|Ej]; [rewrite Hpi; cbn; rewrite !decide_True by done; cbn; by rewrite Er|by rewrite Hne by congruence].
  - intros j Hj Hsj. destruct (decide (j = i)) as [->|Hji]; [left; mem|]. rewrite Hne in Hsj by done. destruct (Hrun j Hj Hsj); [left; mem|by right].
  - intros j c Ha. by apply Hsl, Has.
  - intros j Hj. destruct (Hc j Hj) as (C1&C2&C3&C4&C5). pose proof (Hcur j Hj). rewrite Eq3, Hne by done. split; [done|]. split; [done|]. split; [done|]. split; [done|].
    intros Hin. apply elem_of_cons in Hin as [?|?]; done.
  - intros j c Ha Hch. destruct (Hsw j c (Has j c Ha) Hch) as [-> Hp]. split; [done|]. destruct Ha as (_&H2&_). destruct (decide (0 = i)) as [<-|Hji]; [rewrite Hpi in H2; cbn in H2; rewrite Er in H2; done|].
    by rewrite Hne.
  - rewrite Eq4. intros Hr. destruct (Hout Hr) as (H1&H2&H3). assert (0 <> i) as Hne0 by (by intros <-). unfold asleep. by rewrite Hne.
  - intros j. destruct (decide (j = i)) as [->|Hj]; [rewrite Hpi; done|]. rewrite Hne by done. apply Hsig.
  - intros j. destruct (decide (j = i)) as [->|Hj]; [by rewrite Hpi|]. rewrite Hne by done. apply Hidle.
Qed.

Lemma lift_ret {A C} (m : M A) (k : A -> F C) s a p : m (ps s) = Ret a p -> (lift m ≫= k) s = k a (s <| ps := p |>).
Proof. intros E. apply bind_ret. unfold lift. by rewrite E. Qed.
Lemma setp_ne i f t j : j <> i -> proc_ (setp i f t) j = proc_ t j.
Proof. intros H. unfold setp. cbn. by apply fn_ne. Qed.
Lemma setp_eq i f t : proc_ (setp i f t) i = f (proc_ t i).
Proof. unfold setp. cbn. apply fn_eq. Qed.

(** The table with the new entry, number [m] in slot [i], before its image is made. *)
Definition begun (t : pst) (i m : Z) : pst :=
  let up := proc_ t (u_procp t) in
  setp i (fun r => r <| p_size := p_size up |>) ((setp i (new_entry m up) t) <| u_procp := i |>).
Definition begun_entry (t : pst) (i m : Z) : proc :=
  let up := proc_ t (u_procp t) in (new_entry m up (proc_ t i)) <| p_size := p_size up |>.
Lemma begun_eq t i m : proc_ (begun t i m) i = begun_entry t i m.
Proof. unfold begun. rewrite setp_eq. change (proc_ (?x <| u_procp := i |>) i) with (proc_ x i). by rewrite setp_eq. Qed.
Lemma begun_ne t i m j : j <> i -> proc_ (begun t i m) j = proc_ t j.
Proof. intros Hj. unfold begun. rewrite setp_ne by done. change (proc_ (?x <| u_procp := i |>) j) with (proc_ x j). by rewrite setp_ne. Qed.

(** [newproc] as far as [malloc]. *)
Lemma newproc_begins t us0 m0 cm sw ev : let rip := u_procp t in
  p_stat (proc_ t rip) <> 0 -> 0 <= m0 < 30000 -> (exists i, free_slot (proc_ t) i) ->
  exists i m ev', free_slot (proc_ t) i /\ i <> rip /\ 1 <= m < 30000 /\ (m ∉ used (proc_ t)) /\ (m0 + 1 < 30000 -> m0 + 1 ∉ used (proc_ t) -> m = m0 + 1) /\
    newproc 302 (MkFam t us0 m0 cm sw ev) = newproc_rest (proc_ t rip) rip i (MkFam (begun t i m) us0 m cm sw ev').
Proof.
  intros rip Hrs Hm Hfree. destruct (pid_search_ends (proc_ t) m0 Hm Hfree) as (m&i&Es&Hi&Hmr&Hmu&Hnx).
  assert (rip <> i) as Hne by (intros ->; by destruct Hi).
  destruct (duplicate_records (proc_ t rip) (MkFam (setp i (new_entry m (proc_ t rip)) t) us0 m cm sw ev)) as [es Ed].
  exists i, m, (es ++ ev). split; [done|]. split; [done|]. split; [done|]. split; [done|]. split; [done|].
  unfold newproc. rewrite k_get. cbn [ps us mpid coremap swapmap evs]. rewrite Es. kred. unfold procp. kred.
  change (u_procp (ps ((MkFam t us0 m0 cm sw ev) <| mpid := m |>))) with rip.
  match goal with |- context [(proc_at _ ≫= _) ?s] => set (s1 := s) end.
  assert (s1 = MkFam (setp i (new_entry m (proc_ t rip)) t) us0 m cm sw ev) as E1 by reflexivity. clearbody s1. subst s1.
  unfold proc_at. rewrite k_gets. cbn [ps]. assert (proc_ (setp i (new_entry m (proc_ t rip)) t) rip = proc_ t rip) as Er1 by (by apply setp_ne).
  match goal with |- context [duplicate ?x] => replace x with (proc_ t rip) end.
  rewrite (bind_ret _ _ _ _ _ Ed). unfold modp. kred. reflexivity.
Qed.

(** The table when the parent goes on. *)
Definition backed (rip rpp : Z) (t : pst) : pst :=
  setp rpp (fun r => r <| p_flag ::= fun f => setf f SSWAP |>)
    ((setp rpp (fun r => r <| p_link := runq t |>) (t <| u_procp := rip |>)) <| runq := Some rpp |>).
Lemma newproc_back_ok rip i t us0 m cm sw ev R : chain (lks t) (runq t) R -> NoDup R -> (forall j, j ∈ R -> inr_ j) -> i ∉ R ->
  newproc_back rip i (MkFam t us0 m cm sw ev) = Ret 0 (MkFam (backed rip i t) us0 m cm sw ev).
Proof.
  intros Hch Hnd Hr Hi. unfold newproc_back. rewrite k_modify.
  match goal with |- context [(lift _ ≫= _) ?s] => assert (s = MkFam (t <| u_procp := rip |>) us0 m cm sw ev) as -> by reflexivity end.
  assert (setrq i (t <| u_procp := rip |>) = Ret tt ((setp i (fun r => r <| p_link := runq t |>) (t <| u_procp := rip |>)) <| runq := Some i |>)) as E.
  { pose proof (setrq_spec i (t <| u_procp := rip |>) R) as G. change (runq (t <| u_procp := rip |>)) with (runq t) in G. apply G; done. }
  rewrite (lift_ret _ _ (MkFam (t <| u_procp := rip |>) us0 m cm sw ev) tt _ E). reflexivity.
Qed.
Lemma backed_eq rip i t : proc_ (backed rip i t) i = (proc_ t i) <| p_link := runq t |> <| p_flag ::= fun f => setf f SSWAP |>.
Proof. unfold backed. rewrite setp_eq. change (proc_ (?x <| runq := Some i |>) i) with (proc_ x i). by rewrite setp_eq. Qed.
Lemma backed_ne rip i t j : j <> i -> proc_ (backed rip i t) j = proc_ t j.
Proof. intros Hj. unfold backed. rewrite setp_ne by done. change (proc_ (?x <| runq := Some i |>) j) with (proc_ x j). by rewrite setp_ne. Qed.

(** With core for the child: it is on the run queue, with a number that nobody had. *)
Lemma newproc_ok t us0 m0 cm sw ev B R a2 mp : let rip := u_procp t in
  sched_ok addr_runin addr_runout (Some rip) t B R -> 0 <= m0 < 30000 -> (exists i, free_slot (proc_ t) i) ->
  ResMap.malloc cm (p_size (proc_ t rip)) = Some (a2, mp) -> a2 <> 0 ->
  exists i m s', newproc 302 (MkFam t us0 m0 cm sw ev) = Ret 0 s' /\ free_slot (proc_ t) i /\ 1 <= m < 30000 /\ (m ∉ used (proc_ t)) /\ (m0 + 1 < 30000 -> m0 + 1 ∉ used (proc_ t) -> m = m0 + 1) /\ mpid s' = m /\
    child_of (proc_ t rip) (proc_ (ps s') i) m a2 /\ (forall j, j <> i -> proc_ (ps s') j = proc_ t j) /\
    sched_ok addr_runin addr_runout (Some rip) (ps s') B (i :: R) /\
    us s' = <[i := us0 rip]> us0 /\ u_signal (ps s') = <[i := u_signal t rip]> (u_signal t) /\ coremap s' = mp /\ swapmap s' = sw.
Proof.
  intros rip Hs Hm Hfree Emal Ha2. pose proof (so_queues _ _ _ _ _ _ Hs) as Hq.
  destruct (so_cur _ _ _ _ _ _ Hs rip eq_refl) as (_&_&Hrs&_&_).
  destruct (newproc_begins t us0 m0 cm sw ev) as (i&m&ev'&Hi&Hne&Hmr&Hmu&Hnx&E); [by fold rip; rewrite Hrs|done|done|]. fold rip in Hne, E.
  destruct (not_queued t B R i Hq) as [HiR HiB]; [by destruct Hi as [_ ->]..|].
  set (t4 := (setp i (fun r => r <| p_addr := a2 |>) (begun t i m)) <| u_signal ::= fun a => <[i := a rip]> a |>).
  assert (forall j, j <> i -> proc_ t4 j = proc_ t j) as T1.
  { intros j Hj. change (proc_ t4 j) with (proc_ (setp i (fun r => r <| p_addr := a2 |>) (begun t i m)) j). rewrite setp_ne by done. by apply begun_ne. }
  assert (proc_ t4 i = (begun_entry t i m) <| p_addr := a2 |>) as T2.
  { change (proc_ t4 i) with (proc_ (setp i (fun r => r <| p_addr := a2 |>) (begun t i m)) i). by rewrite setp_eq, begun_eq. }
  destruct (copy_core_records (Z.to_nat (p_size (proc_ t rip))) (p_addr (proc_ t rip)) a2 (MkFam t4 (<[i := us0 rip]> us0) m mp sw ev')) as [es Ec].
  set (s' := MkFam (backed rip i t4) (<[i := us0 rip]> us0) m mp sw (es ++ ev')). exists i, m, s'.
  split; [|split; [exact Hi|split; [exact Hmr|split; [exact Hmu|split; [exact Hnx|split; [reflexivity|]]]]]].
  { rewrite E. unfold newproc_rest, malloc_core. rewrite (bind_ret _ _ _ a2 (MkFam (begun t i m) us0 m mp sw ev')).
    2: { rewrite k_gets. cbn [coremap]. rewrite Emal. reflexivity. }
    replace (a2 =? 0) with false by lia. rewrite (bind_ret _ _ _ tt (MkFam t4 (<[i := us0 rip]> us0) m mp sw (es ++ ev'))).
    2: { unfold modp. rewrite k_modify. unfold copy_image. rewrite k_modify. exact Ec. }
    apply (newproc_back_ok rip i t4 _ _ _ _ _ R); [|apply Hq|intros j Hj; by apply (qRin _ _ _ Hq)|done].
    change (runq t4) with (runq t). eapply chain_ext; [|apply (qR _ _ _ Hq)]. intros j Hj. unfold lks. rewrite T1; [done|]. by intros ->. }
  change (ps s') with (backed rip i t4).
  assert (proc_ (backed rip i t4) i = (begun_entry t i m) <| p_addr := a2 |> <| p_link := runq t |> <| p_flag ::= fun f => setf f SSWAP |>) as Q2 by (rewrite backed_eq, T2; exact eq_refl).
  assert (forall j, j <> i -> proc_ (backed rip i t4) j = proc_ t j) as Q1 by (intros j Hj; rewrite backed_ne by done; by apply T1).
  rewrite Q2. split; [|split; [exact Q1|split; [|split; [reflexivity|split; [reflexivity|split; reflexivity]]]]].
  - split; [reflexivity|]. split; [apply s16_id; lia|]. repeat (split; [reflexivity|]). reflexivity.
  - destruct Hi as [Hin Ei].
    pose (e := (begun_entry t i m) <| p_addr := a2 |> <| p_flag ::= fun f => setf f SSWAP |>). set (q := backed rip i t4) in *.
    pose proof (enter_sched (Some rip) t B R i e q) as G. apply G; clear G.
    + exact Hs.
    + exact Hin.
    + by rewrite Ei.
    + by rewrite Ei.
    + by intros c [= <-].
    + reflexivity.
    + change (p_wchan (proc_ t i) = 0). apply (so_idle _ _ _ _ _ _ Hs); by rewrite Ei.
    + change (-32768 <= p_sig (proc_ t i) < 32768). apply (so_sig _ _ _ _ _ _ Hs).
    + reflexivity.
    + change (slpque t = slpque t). reflexivity.
    + change (rip = u_procp t). reflexivity.
    + change (runout t = runout t). reflexivity.
    + apply functional_extensionality. intros j. destruct (decide (i = j)) as [<-|Hj]; [rewrite fn_eq, Q2; unfold e; by destruct (begun_entry t i m)|]. rewrite fn_ne by done. apply Q1. by intros ->.
Qed.

(** ** The scheduler invariant through these operations *)

Local Abbreviation ok := (sched_ok addr_runin addr_runout).
Local Abbreviation addrs := (addrs_ok addr_runin addr_runout).

(** A process on no queue changes and still neither runs nor sleeps; if it had
    the processor it gives it up. *)
Lemma off_sched cur t B R i f : ok cur t B R -> (i ∉ R) -> (forall h, i ∉ B h) ->
  p_stat (f (proc_ t i)) <> SRUN -> p_stat (f (proc_ t i)) <> SSLEEP -> (p_stat (f (proc_ t i)) <> SZOMB -> p_wchan (f (proc_ t i)) = 0) ->
  -32768 <= p_sig (f (proc_ t i)) < 32768 ->
  ok (if decide (cur = Some i) then None else cur) (setp i f t) B R.
Proof.
  intros [Hq Hrun Hsl Hc Hsw Hout Hsig Hidle] HR HB F1 F2 F3 F4.
  assert (forall j c, asleep (setp i f t) j c -> j <> i /\ asleep t j c) as Has.
  { intros j c (H1&H2&H3). destruct (decide (j = i)) as [->|Hj]; [by rewrite setp_eq in H2|]. by rewrite setp_ne in H2, H3. }
  split.
  - eapply queues_frame; [exact Hq|done|done|]. intros j Hj. rewrite setp_ne; [done|]. intros ->. destruct Hj as [?|[h ?]]; [done|by apply (HB h)].
  - intros j Hj Hs. destruct (decide (j = i)) as [->|Hji]; [by rewrite setp_eq in Hs|]. rewrite setp_ne in Hs by done.
    destruct (Hrun j Hj Hs) as [?|Ecur]; [by left|right]. rewrite decide_False; [done|congruence].
  - intros j c [_ Ha]%Has. by apply Hsl.
  - intros j Hj. destruct (decide (cur = Some i)) as [|Hn]; [done|]. destruct (Hc j Hj) as (C1&C2&C3&C4&C5). rewrite setp_ne by congruence. done.
  - intros j c [Hj Ha]%Has Hch. rewrite setp_ne by done. by apply (Hsw j c).
  - intros Hr. destruct (Hout Hr) as (H1&H2&H3). assert (0 <> i) as Hne by (intros <-; destruct (Hsl 0 addr_runout) as [Hin _]; [done|by apply (HB _ Hin)]).
    unfold asleep. by rewrite setp_ne.
  - intros j. destruct (decide (j = i)) as [->|Hj]; [by rewrite setp_eq|]. rewrite setp_ne by done. apply Hsig.
  - intros j. destruct (decide (j = i)) as [->|Hj]; [rewrite setp_eq; by auto|]. rewrite setp_ne by done. apply Hidle.
Qed.
(** A process on no queue gets the processor. *)
Lemma take_sched t B R i r q : ok None t B R -> inr_ i -> p_stat (proc_ t i) <> SRUN -> p_stat (proc_ t i) <> SSLEEP ->
  p_stat r = SRUN -> p_wchan r = 0 -> -32768 <= p_sig r < 32768 -> runq q = runq t -> slpque q = slpque t -> u_procp q = i -> runout q = runout t ->
  proc_ q = <[i := r]> (proc_ t) -> ok (Some i) q B R.
Proof.
  intros [Hq Hrun Hsl Hc Hsw Hout Hsig Hidle] Hi H1 H2 Er Ew Esig Eq1 Eq2 Eq3 Eq4 Ep.
  destruct (not_queued t B R i Hq H1 H2) as [HR HB].
  assert (forall j, j <> i -> proc_ q j = proc_ t j) as Hne by (intros j Hj; rewrite Ep; by apply fn_ne).
  assert (proc_ q i = r) as Hpi by (rewrite Ep; apply fn_eq).
  assert (forall j c, asleep q j c -> j <> i /\ asleep t j c) as Has.
  { intros j c (A1&A2&A3). destruct (decide (j = i)) as [->|Hj]; [rewrite Hpi, Er in A2; done|]. by rewrite Hne in A2, A3. }
  split.
  - eapply queues_frame; [exact Hq|intros h; by rewrite Eq2|done|]. intros j Hj. rewrite Hne; [done|]. intros ->. destruct Hj as [?|[h ?]]; [done|by apply (HB h)].
  - intros j Hj Hs. destruct (decide (j = i)) as [->|Hji]; [by right|left]. rewrite Hne in Hs by done. by destruct (Hrun j Hj Hs).
  - intros j c [_ Ha]%Has. by apply Hsl.
  - intros j [= <-]. by rewrite Hpi.
  - intros j c [Hj Ha]%Has Hch. rewrite Hne by done. by apply (Hsw j c).
  - rewrite Eq4. intros Hr. destruct (Hout Hr) as (A1&A2&A3). assert (0 <> i) as Hn0 by (by intros <-). unfold asleep. by rewrite Hne.
  - intros j. destruct (decide (j = i)) as [->|Hj]; [by rewrite Hpi|]. rewrite Hne by done. apply Hsig.
  - intros j. destruct (decide (j = i)) as [->|Hj]; [by rewrite Hpi|]. rewrite Hne by done. apply Hidle.
Qed.
Lemma idle_out cur t B R : ok cur t B R -> ok cur (t <| runout := 0 |>) B R.
Proof. intros [Hq Hrun Hsl Hc Hsw Hout Hsig Hidle]. split; try done. eapply queues_frame; [exact Hq|done|done|done]. Qed.

(** [setrun] of a stopped process. *)
Lemma setrun_stopped cur t B R q : addrs -> ok cur t B R -> inr_ q -> p_stat (proc_ t q) = SSTOP ->
  exists t' B' R', setrun addr_runout q t = Ret tt t' /\ ok cur t' B' R' /\ u_procp t' = u_procp t /\ forall b, shaped b t -> shaped b t'.
Proof.
  intros Ha Hs Hi Hst. enough (exists t' B' R', setrun addr_runout q t = Ret tt t' /\ ok cur t' B' R' /\ u_procp t' = u_procp t) as (t'&B'&R'&E&Hs'&Hu).
  { exists t', B', R'. repeat (split; [done|]). intros b Hb. eapply wp_keep_ret; [by apply keeps_setrun_now|exact E]. }
  assert (p_wchan (proc_ t q) = 0) as Hw by (apply (so_idle _ _ _ _ _ _ Hs); by rewrite Hst).
  destruct (not_queued t B R q (so_queues _ _ _ _ _ _ Hs)) as [HR HB]; [by rewrite Hst..|].
  assert (ok cur (pushed q t) B (q :: R)) as Hp.
  { apply (enter_sched cur t B R q ((proc_ t q) <| p_stat := SRUN |>)); try done; try (by rewrite Hst); try (by apply (so_sig _ _ _ _ _ _ Hs)).
    - intros c -> ->. destruct (so_cur _ _ _ _ _ _ Hs q eq_refl) as (_&_&E&_). by rewrite Hst in E.
    - unfold pushed. by destruct (_ <? _).
    - unfold pushed. by destruct (_ <? _).
    - unfold pushed. by destruct (_ <? _).
    - by apply pushed_runout.
    - apply functional_extensionality. intros j. assert (proc_ (pushed q t) j = proc_ (push_run q t) j) as -> by (unfold pushed; by destruct (_ <? _)).
      unfold push_run, setp. cbn. rewrite !fn_case. destruct (decide (q = j)) as [<-|]; [|done]. rewrite ?decide_True by done. by destruct (proc_ t q). }
  assert (u_procp (pushed q t) = u_procp t) as Hu by (unfold pushed; by destruct (_ <? _)).
  unfold setrun. rewrite (setrun_detached addr_runout _ q t B R); try done; [|apply Hs|by rewrite Hst..].
  destruct (negb (runout t =? 0) && negb (has (p_flag (proc_ t q)) SLOAD)); [|by exists (pushed q t), B, (q :: R)].
  destruct (wakeup_sched addr_runin addr_runout cur ((pushed q t) <| runout := 0 |>) B (q :: R) addr_runout Ha (idle_out _ _ _ _ Hp)) as (t'&B'&R'&E&Hs'&_&_&F); [by destruct Ha as (_&?&_)|done|].
  exists t', B', R'. split; [exact E|]. split; [done|]. injection F as _ _ -> _ _ _ _ _. exact Hu.
Qed.

(** *** newproc *)

(** Without core for the child the parent sets itself aside and becomes the
    child, which [xswap] is to write out. *)
Lemma newproc_swaps t us0 m0 cm sw ev B R mp : let rip := u_procp t in
  ok (Some rip) t B R -> 0 <= m0 < 30000 -> (exists i, free_slot (proc_ t) i) -> ResMap.malloc cm (p_size (proc_ t rip)) = Some (0, mp) ->
  exists i m s' k, newproc 302 (MkFam t us0 m0 cm sw ev) = Blocked (Xswap i 0 0) s' k /\ free_slot (proc_ t) i /\ 1 <= m < 30000 /\ (m ∉ used (proc_ t)) /\ (m0 + 1 < 30000 -> m0 + 1 ∉ used (proc_ t) -> m = m0 + 1) /\
    mpid s' = m /\ p_pid (proc_ (ps s') i) = m /\ u_procp (ps s') = i /\ ok (Some i) (ps s') B R /\
    proc_ (ps s') i = (begun_entry t i m) <| p_addr := p_addr (proc_ t rip) |> /\ proc_ (ps s') rip = (proc_ t rip) <| p_stat := SIDL |> /\
    (forall j, j <> i -> j <> rip -> proc_ (ps s') j = proc_ t j) /\
    (forall s2, k s2 = (modp rip (fun r => r <| p_stat := SRUN |>);; newproc_back rip i) s2).
Proof.
  intros rip Hs Hm Hfree Emal. pose proof (so_queues _ _ _ _ _ _ Hs) as Hq.
  destruct (so_cur _ _ _ _ _ _ Hs rip eq_refl) as (_&Hrip&Hrs&Hrw&HrR).
  destruct (newproc_begins t us0 m0 cm sw ev) as (i&m&ev'&Hi&Hne&Hmr&Hmu&Hnx&E); [by fold rip; rewrite Hrs|done|done|]. fold rip in Hne, E.
  set (t3 := (setp i (fun r => r <| p_addr := p_addr (proc_ t rip) |>) (setp rip (fun r => r <| p_stat := SIDL |>) (begun t i m))) <| u_signal ::= fun a => <[i := a rip]> a |>).
  set (s' := MkFam t3 (<[i := us0 rip]> us0) m mp sw ev').
  exists i, m, s'. eexists.
  assert (proc_ t3 rip = (proc_ t rip) <| p_stat := SIDL |>) as T1.
  { change (proc_ t3 rip) with (proc_ (setp i (fun r => r <| p_addr := p_addr (proc_ t rip) |>) (setp rip (fun r => r <| p_stat := SIDL |>) (begun t i m))) rip).
    rewrite setp_ne by done. rewrite setp_eq, begun_ne by done. exact eq_refl. }
  assert (proc_ t3 i = (begun_entry t i m) <| p_addr := p_addr (proc_ t rip) |>) as T2.
  { change (proc_ t3 i) with (proc_ (setp i (fun r => r <| p_addr := p_addr (proc_ t rip) |>) (setp rip (fun r => r <| p_stat := SIDL |>) (begun t i m))) i).
    rewrite setp_eq. rewrite setp_ne by done. rewrite begun_eq. exact eq_refl. }
  assert (forall j, j <> i -> j <> rip -> proc_ t3 j = proc_ t j) as T3.
  { intros j H1 H2. change (proc_ t3 j) with (proc_ (setp i (fun r => r <| p_addr := p_addr (proc_ t rip) |>) (setp rip (fun r => r <| p_stat := SIDL |>) (begun t i m))) j).
    rewrite setp_ne by done. rewrite setp_ne by done. by rewrite begun_ne. }
  split; [|split; [exact Hi|split; [exact Hmr|split; [exact Hmu|split; [exact Hnx|split; [reflexivity|split; [|split; [reflexivity|split; [|split; [exact T2|split; [exact T1|split; [exact T3|]]]]]]]]]]]].
  - rewrite E. unfold newproc_rest, malloc_core. rewrite (bind_ret _ _ _ 0 (MkFam (begun t i m) us0 m mp sw ev')).
    2: { rewrite k_gets. cbn [coremap]. rewrite Emal. reflexivity. }
    reflexivity.
  - change (ps s') with t3. rewrite T2. apply s16_id. lia.
  - change (ps s') with t3. destruct Hi as [Hin Ei].
    assert (forall h, rip ∉ B h) as HrB by (intros h Hin'; destruct (qBin _ _ _ Hq h rip Hin') as (_&E'&_); by rewrite Hrs in E').
    pose proof (off_sched (Some rip) t B R rip (fun r => r <| p_stat := SIDL |>) Hs HrR HrB) as Ho. rewrite decide_True in Ho by done.
    assert (ok None (setp rip (fun r => r <| p_stat := SIDL |>) t) B R) as Ho' by (apply Ho; [done|done|intros _; exact Hrw|apply (so_sig _ _ _ _ _ _ Hs)]). clear Ho.
    pose (e := (begun_entry t i m) <| p_addr := p_addr (proc_ t rip) |>).
    pose proof (take_sched (setp rip (fun r => r <| p_stat := SIDL |>) t) B R i e t3 Ho' Hin) as G. rewrite (setp_ne rip _ t i Hne) in G. apply G; clear G.
    + by rewrite Ei.
    + by rewrite Ei.
    + reflexivity.
    + change (p_wchan (proc_ t i) = 0). apply (so_idle _ _ _ _ _ _ Hs); by rewrite Ei.
    + change (-32768 <= p_sig (proc_ t i) < 32768). apply (so_sig _ _ _ _ _ _ Hs).
    + reflexivity.
    + change (slpque t = slpque t). reflexivity.
    + reflexivity.
    + change (runout t = runout t). reflexivity.
    + apply functional_extensionality. intros j. destruct (decide (i = j)) as [<-|Hj]; [rewrite fn_eq; exact T2|]. rewrite fn_ne by done.
      destruct (decide (j = rip)) as [->|Hjr]; [by rewrite T1, setp_eq|]. rewrite setp_ne by done. apply T3; [by intros ->|done].
  - intros s2. reflexivity.
Qed.
(** When [xswap] is done the parent comes back and the child waits to run. *)
Lemma newproc_returns t us0 m cm sw ev B R rip i : ok (Some i) t B R -> inr_ rip -> p_stat (proc_ t rip) = SIDL ->
  exists s', (modp rip (fun r => r <| p_stat := SRUN |>);; newproc_back rip i) (MkFam t us0 m cm sw ev) = Ret 0 s' /\
    ok (Some rip) (ps s') B (i :: R) /\ mpid s' = m /\ ps s' = backed rip i (setp rip (fun r => r <| p_stat := SRUN |>) t).
Proof.
  intros Hs Hrip Hst. pose proof (so_queues _ _ _ _ _ _ Hs) as Hq. destruct (so_cur _ _ _ _ _ _ Hs i eq_refl) as (Eu&Hi&His&Hiw&HiR).
  assert (rip <> i) as Hne by (intros ->; by rewrite His in Hst).
  destruct (not_queued t B R rip Hq) as [HrR HrB]; [by rewrite Hst..|].
  set (t1 := setp rip (fun r => r <| p_stat := SRUN |>) t).
  exists (MkFam (backed rip i t1) us0 m cm sw ev). cbn [ps mpid]. split; [|split; [|split; reflexivity]].
  - unfold modp. rewrite k_modify. match goal with |- newproc_back _ _ ?s = _ => assert (s = MkFam t1 us0 m cm sw ev) as -> by reflexivity end.
    apply (newproc_back_ok rip i t1 _ _ _ _ _ R); [|apply Hq|intros j Hj; by apply (qRin _ _ _ Hq)|done].
    change (runq t1) with (runq t). eapply chain_ext; [|apply (qR _ _ _ Hq)]. intros j Hj. unfold lks, t1. rewrite setp_ne; [done|]. by intros ->.
  - destruct (qswtch_sched addr_runin addr_runout t B R) as (t2&k&E2&Hs2); [by rewrite <- Eu|]. rewrite <- Eu in Hs2.
    assert (t2 = (setp i (fun r => r <| p_link := runq t |>) t) <| runq := Some i |>) as E3.
    { unfold qswtch in E2. revert E2. kred. rewrite <- Eu. rewrite (bind_ret _ _ _ _ _ (setrq_spec i t R (qR _ _ _ Hq) (qRnd _ _ _ Hq) (fun j Hj => proj1 (qRin _ _ _ Hq j Hj)) HiR)).
      intros [= <- _]. reflexivity. }
    assert (forall j, proc_ t2 j = if decide (j = i) then (proc_ t i) <| p_link := runq t |> else proc_ t j) as P2.
    { intros j. rewrite E3. destruct (decide (j = i)) as [->|Hj]; [exact (setp_eq i (fun r => r <| p_link := runq t |>) t)|exact (setp_ne i (fun r => r <| p_link := runq t |>) t j Hj)]. }
    pose proof (sched_setp addr_runin addr_runout None t2 B (i :: R) i (fun r => r <| p_flag ::= fun f => setf f SSWAP |>) Hs2 ltac:(done) ltac:(done) (so_sig _ _ _ _ _ _ Hs2 i)) as Hs3.
    assert (runq t2 = Some i /\ slpque t2 = slpque t /\ runout t2 = runout t) as (F1&F2&F3) by (rewrite E3; done). clear E2 E3.
    pose proof (take_sched _ B (i :: R) rip ((proc_ t rip) <| p_stat := SRUN |>) (backed rip i t1) Hs3 Hrip) as G.
    rewrite (setp_ne i _ t2 rip Hne), P2, decide_False in G by done. apply G; clear G.
    + by rewrite Hst.
    + by rewrite Hst.
    + reflexivity.
    + change (p_wchan (proc_ t rip) = 0). apply (so_idle _ _ _ _ _ _ Hs); by rewrite Hst.
    + change (-32768 <= p_sig (proc_ t rip) < 32768). apply (so_sig _ _ _ _ _ _ Hs).
    + change (Some i = runq t2). by rewrite F1.
    + change (slpque t = slpque t2). by rewrite F2.
    + reflexivity.
    + change (runout t = runout t2). by rewrite F3.
    + apply functional_extensionality. intros j. destruct (decide (rip = j)) as [<-|Hj]; [rewrite fn_eq, backed_ne by done; exact (setp_eq rip _ t)|]. rewrite fn_ne by done.
      assert (proc_ t1 j = proc_ t j) as P1 by (unfold t1; apply setp_ne; by intros ->).
      destruct (decide (j = i)) as [->|Hji]; [rewrite backed_eq, setp_eq, P2, decide_True, P1 by done; exact eq_refl|].
      rewrite backed_ne, setp_ne, P2, decide_False, P1 by done. done.
Qed.

(** *** exit, stop and wait *)

(** Where the objects are: the entries of the table are none of the swapper's channels. *)
Definition entries_ok : Prop := addrs /\ 0 < proc0 /\ forall i, inr_ i -> addr_proc proc0 i <> addr_runout.
Lemma wakeup_entry cur t B R i : entries_ok -> ok cur t B R -> inr_ i ->
  exists t' B' R', wakeup addr_runout (addr_proc proc0 i) t = Ret tt t' /\ ok cur t' B' R' /\ u_procp t' = u_procp t /\ forall b, shaped b t -> shaped b t'.
Proof.
  intros (Ha&Hp0&Hne) Hs Hi.
  destruct (wakeup_sched addr_runin addr_runout cur t B R (addr_proc proc0 i) Ha Hs) as (t'&B'&R'&E&Hs'&_&_&F); [unfold addr_proc, inr_ in *; lia|intros E; by apply Hne in E|].
  injection F as _ _ Fu _ _ _ _ _. exists t', B', R'. repeat (split; [done|]).
  intros b Hb. eapply wp_keep_ret; [by apply keeps_wakeup|exact E].
Qed.

(** The shape of a child of the process numbered [pp] when it goes to process 1. *)
Definition adopt (pp : Z) (h : shp) : shp := if h_ppid h =? pp then Shp (h_pid h) 1 (h_pgrp h) (h_free h) (h_zomb h) else h.
Lemma adopt_pid pp h : h_pid (adopt pp h) = h_pid h.
Proof. unfold adopt. by destruct (_ =? _). Qed.
Lemma adopt_twice pp h : adopt pp (adopt pp h) = adopt pp h.
Proof. unfold adopt. destruct (h_ppid h =? pp) eqn:E; cbn [h_ppid]; [by destruct (1 =? pp)|by rewrite E]. Qed.
Lemma disown_sched cur p q s B R : entries_ok -> ok cur (ps s) B R -> inr_ q ->
  exists s' B' R', disown addr_runout proc0 p q s = Ret tt s' /\ ok cur (ps s') B' R' /\ mpid s' = mpid s /\
    forall b, shaped b (ps s) -> shaped (fun i => if decide (i = q) then adopt (h_pid (b p)) (b q) else b i) (ps s').
Proof.
  intros He Hs Hq. destruct s as [t us0 m cm sw ev]. cbn [ps mpid] in *. unfold disown, proc_at. rewrite !k_gets. cbn [ps].
  destruct (p_ppid (proc_ t q) =? p_pid (proc_ t p)) eqn:Epp; cbn [when].
  2: { exists (MkFam t us0 m cm sw ev), B, R. split; [done|]. split; [done|]. split; [done|]. intros b Hb i. cbn [ps]. rewrite Hb. destruct (decide (i = q)) as [->|]; [|done].
       unfold adopt. rewrite <- !Hb. cbn [shape h_pid h_ppid]. by rewrite Epp. }
  destruct (wakeup_entry cur t B R 1 He Hs) as (t1&B1&R1&E1&Hs1&_&Hb1); [done|].
  rewrite (lift_ret _ _ (MkFam t us0 m cm sw ev) tt t1 E1). unfold modp. rewrite k_modify, k_gets. set (t2 := setp q (fun r => r <| p_ppid := 1 |>) t1).
  match goal with |- context [when _ _ ?s] => assert (s = MkFam t2 us0 m cm sw ev) as -> by reflexivity end. cbn [ps].
  assert (ok cur t2 B1 R1) as Hs2 by (apply sched_setp; [done|done|done|apply (so_sig _ _ _ _ _ _ Hs1)]).
  assert (forall b, shaped b t -> shaped (fun i => if decide (i = q) then adopt (h_pid (b p)) (b q) else b i) t2) as Hb2.
  { intros b Hb i. specialize (Hb1 b Hb). unfold t2. destruct (decide (i = q)) as [->|Hi]; [|rewrite setp_ne by done; apply Hb1].
    rewrite setp_eq. unfold adopt. rewrite <- (Hb1 q). rewrite <- (Hb p). pose proof (Hb1 q) as E. rewrite <- (Hb q) in E. injection E as _ E _ _ _. cbn. by rewrite E, Epp. }
  destruct (Z.eqb_spec (p_stat (proc_ t2 q)) SSTOP) as [Es|Es]; cbn [when].
  - destruct (setrun_stopped cur t2 B1 R1 q (proj1 He) Hs2 Hq Es) as (t3&B3&R3&E3&Hs3&_&Hb3).
    exists (MkFam t3 us0 m cm sw ev), B3, R3. split; [unfold lift; cbn [ps]; rewrite E3; reflexivity|]. split; [exact Hs3|]. split; [done|]. intros b Hb. by apply Hb3, Hb2.
  - by exists (MkFam t2 us0 m cm sw ev), B1, R1.
Qed.
(** The shapes after the end of the process in slot [p]. *)
Definition ending (b : Z -> shp) (p i : Z) : shp := if decide (i = p) then Shp (h_pid (b p)) (h_ppid (b p)) (h_pgrp (b p)) false true else b i.
Definition ended (b : Z -> shp) (p i : Z) : shp := if decide (i ∈ slots) then adopt (h_pid (b p)) (ending b p i) else ending b p i.
Lemma exit_zombie_sched rv s B R : entries_ok -> ok (Some (u_procp (ps s))) (ps s) B R ->
  exists s' k B' R', exit_zombie addr_runout proc0 rv s = Blocked (Cpu Swtch) s' k /\ ok None (ps s') B' R' /\ mpid s' = mpid s /\
    forall b, shaped b (ps s) -> shaped (ended b (u_procp (ps s))) (ps s').
Proof.
  intros He Hs. destruct s as [t us0 m cm sw ev]. cbn [ps mpid] in *. set (p := u_procp t) in *.
  destruct (so_cur _ _ _ _ _ _ Hs p eq_refl) as (_&Hp&Hst&_&HR).
  assert (forall h, p ∉ B h) as HB by (intros h Hin; destruct (qBin _ _ _ (so_queues _ _ _ _ _ _ Hs) h p Hin) as (_&E&_); by rewrite Hst in E).
  unfold exit_zombie, procp, u, modp, emit. rewrite !k_gets, !k_modify. cbn [ps us].
  set (f := to_zombie rv _ _). set (t1 := setp p f t).
  match goal with |- context [(each _ _ ≫= _) ?s] => assert (s = MkFam t1 us0 m cm sw (Vfp_discard :: ev)) as -> by reflexivity end.
  assert (ok None t1 B R) as Hs1.
  { pose proof (off_sched (Some p) t B R p f Hs HR HB) as G. rewrite decide_True in G by done. apply G; [done|done|done|apply (so_sig _ _ _ _ _ _ Hs)]. }
  set (b0 := fun i => shape (proc_ t i)).
  assert (shaped (ending b0 p) t1) as Hb1.
  { intros i. unfold ending, t1. destruct (decide (i = p)) as [->|Hi]; [by rewrite setp_eq|by rewrite setp_ne]. }
  assert (forall i, h_pid (ending b0 p i) = h_pid (b0 i)) as Hpid by (intros i; unfold ending; by destruct (decide (i = p)) as [->|]).
  destruct (each_ret (fun D s => (exists B R, ok None (ps s) B R) /\ mpid s = m /\
      shaped (fun i => if decide (i ∈ D) then adopt (h_pid (b0 p)) (ending b0 p i) else ending b0 p i) (ps s)) (disown addr_runout proc0 p) slots (MkFam t1 us0 m cm sw (Vfp_discard :: ev)))
    as (s2&E2&(B2&R2&Hs2)&Em&Hb2); [|split; [by exists B, R|split; [done|exact Hb1]]|].
  { intros l1 q l2 s El ((B1&R1&H1)&Em&Hb). destruct (disown_sched None p q s B1 R1 He H1) as (s'&B'&R'&E&Hs'&Em'&Hb'); [apply slots_in; rewrite El; mem|].
    exists s'. split; [done|]. split; [by exists B', R'|]. split; [congruence|]. intros i. rewrite (Hb' _ Hb i). pose (bb := fun i => if decide (i ∈ l1) then adopt (h_pid (b0 p)) (ending b0 p i) else ending b0 p i).
    change ((if decide (i = q) then adopt (h_pid (bb p)) (bb q) else bb i) = if decide (i ∈ l1 ++ [q]) then adopt (h_pid (b0 p)) (ending b0 p i) else ending b0 p i).
    assert (h_pid (bb p) = h_pid (b0 p)) as -> by (unfold bb; cbv beta; destruct (decide (p ∈ l1)); rewrite ?adopt_pid; apply Hpid). unfold bb. cbv beta.
    destruct (decide (i = q)) as [->|Hi].
    - rewrite (decide_True (P := q ∈ l1 ++ [q])) by mem. destruct (decide (q ∈ l1)); [apply adopt_twice|done].
    - destruct (decide (i ∈ l1)); [by rewrite (decide_True (P := i ∈ l1 ++ [q])) by mem|]. rewrite (decide_False (P := i ∈ l1 ++ [q])); [done|].
      intros [?|Hin]%elem_of_app; [done|]. apply list_elem_of_singleton in Hin. done. }
  assert (forall b, shaped b t -> shaped (ended b p) (ps s2)) as Hb3.
  { intros b Hb i. rewrite (Hb2 i). unfold ended, ending, b0. by rewrite <- !Hb. }
  change (u_procp t) with p. rewrite (bind_ret _ _ _ _ _ E2). unfold find_first. rewrite k_gets.
  destruct (List.find _ slots) as [q|] eqn:Eq.
  - apply List.find_some in Eq as [Hq _]. apply list_elem_of_In, slots_in in Hq.
    destruct (wakeup_entry None (ps s2) B2 R2 q He Hs2 Hq) as (t3&B3&R3&E3&Hs3&_&Hb4). rewrite (lift_ret _ _ _ _ _ E3).
    eexists _, _, B3, R3. split; [reflexivity|]. split; [exact Hs3|]. split; [exact Em|]. intros b Hb. by apply Hb4, Hb3.
  - rewrite k_ret. eexists _, _, B2, R2. split; [reflexivity|]. split; [exact Hs2|]. split; [exact Em|exact Hb3].
Qed.
Lemma stop_sched s B R : entries_ok -> ok (Some (u_procp (ps s))) (ps s) B R ->
  stop_round addr_runout proc0 s = Ret false s \/
  exists s' k B' R', stop_round addr_runout proc0 s = Blocked (Cpu Swtch) s' k /\ ok None (ps s') B' R' /\ mpid s' = mpid s /\
    forall b, shaped b (ps s) -> shaped b (ps s').
Proof.
  intros He Hs. destruct s as [t us0 m cm sw ev]. cbn [ps mpid] in *. set (p := u_procp t) in *.
  unfold stop_round, procp, proc_at. rewrite !k_gets. cbn [ps]. fold p. destruct (p_ppid (proc_ t p) =? 1); [by left|].
  unfold find_first. rewrite k_gets. cbn [ps]. destruct (List.find _ slots) as [q|] eqn:Eq; [right|by left].
  apply List.find_some in Eq as [Hq _]. apply list_elem_of_In, slots_in in Hq.
  destruct (wakeup_entry (Some p) t B R q He Hs Hq) as (t1&B1&R1&E1&Hs1&U1&Hb1). rewrite (lift_ret _ _ (MkFam t us0 m cm sw ev) tt t1 E1).
  unfold modp. rewrite k_modify.
  destruct (so_cur _ _ _ _ _ _ Hs1 p eq_refl) as (_&_&Hst&Hw&HR).
  assert (forall h, p ∉ B1 h) as HB by (intros h Hin; destruct (qBin _ _ _ (so_queues _ _ _ _ _ _ Hs1) h p Hin) as (_&E&_); by rewrite Hst in E).
  eexists _, _, B1, R1. split; [reflexivity|].
  pose proof (off_sched (Some p) t1 B1 R1 p (fun r => r <| p_stat := SSTOP |>) Hs1 HR HB) as G. rewrite decide_True in G by done.
  split; [apply G; [done|done|intros _; exact Hw|apply (so_sig _ _ _ _ _ _ Hs1)]|]. split; [reflexivity|].
  intros b Hb. change (shaped b (setp p (fun r => r <| p_stat := SSTOP |>) t1)). apply shaped_setp; [by apply Hb1|]. unfold shape. cbn. by rewrite Hst.
Qed.

(** What a report of [wait] does to the table: it frees the entry of a zombie, or changes no shape. *)
Definition reported (t t' : pst) : Prop :=
  (exists z, inr_ z /\ p_stat (proc_ t z) = SZOMB /\ t' = setp z reap t) \/ (forall b, shaped b t -> shaped b t').
Lemma wait_slot_sched j f s B R : ok (Some (u_procp (ps s))) (ps s) B R -> inr_ j ->
  (exists f', wait_slot j f s = Ret (inl f') s) \/
  (exists s', wait_slot j f s = Ret (inr tt) s' /\ ok (Some (u_procp (ps s))) (ps s') B R /\ mpid s' = mpid s /\ reported (ps s) (ps s')).
Proof.
  intros Hs Hj. destruct s as [t us0 m cm sw ev]. cbn [ps mpid] in *. set (me := u_procp t) in *.
  unfold wait_slot, procp, proc_at. rewrite !k_gets. cbn [ps]. fold me. destruct (p_ppid (proc_ t j) =? p_pid (proc_ t me)); [|left; by exists f].
  destruct (Z.eqb_spec (p_stat (proc_ t j)) SZOMB) as [Ez|Ez].
  - right. eexists. split; [reflexivity|]. split; [|split; [reflexivity|left; exists j; done]].
    destruct (not_queued t B R j (so_queues _ _ _ _ _ _ Hs)) as [HR HB]; [by rewrite Ez..|].
    assert (Some me <> Some j) as Hne by (intros [= <-]; destruct (so_cur _ _ _ _ _ _ Hs me eq_refl) as (_&_&E&_); by rewrite Ez in E).
    pose proof (off_sched (Some me) t B R j reap Hs HR HB) as G. rewrite decide_False in G by done. apply G; done.
  - destruct (Z.eqb_spec (p_stat (proc_ t j)) SSTOP) as [Es|Es]; cbn [andb]; [|left; by exists (f + 1)].
    destruct (has (p_flag (proc_ t j)) SWTED); cbn [negb]; [left; by exists (f + 1)|].
    right. eexists. split; [reflexivity|]. split; [|split; [reflexivity|right; intros b Hb; apply (shaped_setp b j _ t Hb); exact eq_refl]].
    exact (sched_setp addr_runin addr_runout (Some me) t B R j (fun r => r <| p_flag ::= fun f => setf f SWTED |>) Hs ltac:(done) ltac:(done) (so_sig _ _ _ _ _ _ Hs j)).
Qed.
Lemma wait_scan_sched l : forall f s B R, ok (Some (u_procp (ps s))) (ps s) B R -> (forall j, j ∈ l -> inr_ j) ->
  (exists f', foldm l wait_slot f s = Ret (inl f') s) \/
  (exists s', foldm l wait_slot f s = Ret (inr tt) s' /\ ok (Some (u_procp (ps s))) (ps s') B R /\ mpid s' = mpid s /\ reported (ps s) (ps s')).
Proof.
  induction l as [|j l IH]; intros f s B R Hs Hl; cbn [foldm]; [left; by exists f|].
  destruct (wait_slot_sched j f s B R Hs) as [[f' E]|(s'&E&Hs')]; [apply Hl; mem|..]; rewrite (bind_ret _ _ _ _ _ E); [|right; by exists s'].
  apply IH; [done|]. intros i Hi. apply Hl. mem.
Qed.
(** [wait], from [loop:] to the report or the sleep. *)
Lemma wait_round_sched f s B R : let me := u_procp (ps s) in
  addrs -> ok (Some me) (ps s) B R -> chan_ok addr_runin addr_runout (addr_proc proc0 me) ->
  (exists s', wait_round addr_runin addr_runout proc0 f s = Ret (inr tt) s' /\ ok (Some me) (ps s') B R /\ mpid s' = mpid s /\ reported (ps s) (ps s')) \/
  (exists s', wait_round addr_runin addr_runout proc0 f s = Jumped s' /\ ok (Some me) (ps s') B R /\ mpid s' = mpid s /\ forall b, shaped b (ps s) -> shaped b (ps s')) \/
  (exists s' k B' R', wait_round addr_runin addr_runout proc0 f s = Blocked (Cpu Swtch) s' k /\ ok None (ps s') B' R' /\ mpid s' = mpid s /\ forall b, shaped b (ps s) -> shaped b (ps s')).
Proof.
  intros me Ha Hs Hc. unfold wait_round.
  destruct (wait_scan_sched slots f s B R Hs (fun j => proj1 (slots_in j))) as [[f' E]|(s'&E&Hs'&Em&Hre)]; rewrite (bind_ret _ _ _ _ _ E).
  2: { left. by exists s'. }
  destruct (f' =? 0) eqn:E0; cbn [negb]; [left; eexists; split; [reflexivity|]; split; [exact Hs|]; split; [done|by right]|right].
  unfold procp. rewrite k_gets. fold me. destruct s as [t us0 m cm sw ev]. cbn [ps mpid] in *. fold me in Hs.
  destruct (sleep_sched addr_runin addr_runout t B R (addr_proc proc0 me) PWAIT Ha Hs) as [(t1&E1&Hs1&_&Hw&_)|(t1&k&B1&R1&E1&Hs1&_)].
  { split; [unfold PWAIT; lia|by left]. }
  - left. eexists. unfold lift, mbind at 1, K_bind at 1. cbn [ps]. rewrite E1. split; [reflexivity|]. split; [exact Hs1|]. split; [done|].
    intros b Hb i. rewrite <- Hb. specialize (Hw i). unfold who in Hw. injection Hw as W1 W2 W3 W4.
    change (shape (proc_ t1 i) = shape (proc_ t i)). unfold shape. by rewrite W1, W2, W3, W4.
  - right. eexists _, _, B1, R1. unfold lift, mbind at 1, K_bind at 1. cbn [ps]. rewrite E1. split; [reflexivity|]. split; [exact Hs1|]. split; [done|].
    intros b Hb. eapply wp_keep_block; [|exact E1]. apply keeps_sleep; [|exact Hb].
    destruct (so_cur _ _ _ _ _ _ Hs me eq_refl) as (_&_&Hst&_). unfold living. change (u_procp t) with me. by rewrite <- !Hb; unfold shape; cbn; rewrite Hst.
Qed.

(** ** The system *)

(** Slot of the process that has the processor, if any, and the state. *)
Definition config : Type := option Z * fam.

Context (addr_lbolt : Z).

(** What may happen, besides the steps of [Proc].  The running process makes a
    child, with core for it or without, and resumes from the swap of the latter;
    it waits for a child, ends (not process 0, which runs in the kernel, nor process 1,
    for which [exit] panics) or stops; [ptrace] lets a stopped child run;
    [xswap] calls the swapper at its end.  The fields of an entry other than its
    links, state, channel and numbers change in any way, the priority of a sleeper
    apart; [ttyopen] gives a group to a process other than 0; and what is
    not in the table nor a queue changes in any way. *)
Inductive sysstep : config -> config -> Prop :=
| sys_cpu cur s cur' t : step addr_runin addr_runout addr_lbolt (cur, ps s) (cur', t) -> sysstep (cur, s) (cur', s <| ps := t |>)
| sys_newproc s s' : (exists i, free_slot (proc_ (ps s)) i) -> newproc 302 s = Ret 0 s' -> sysstep (Some (u_procp (ps s)), s) (Some (u_procp (ps s)), s')
| sys_newproc_swap s s' k i : (exists i, free_slot (proc_ (ps s)) i) -> newproc 302 s = Blocked (Xswap i 0 0) s' k -> sysstep (Some (u_procp (ps s)), s) (Some i, s')
| sys_newproc_back s s' rip : inr_ rip -> p_stat (proc_ (ps s) rip) = SIDL ->
    (modp rip (fun r => r <| p_stat := SRUN |>);; newproc_back rip (u_procp (ps s))) s = Ret 0 s' -> sysstep (Some (u_procp (ps s)), s) (Some rip, s')
| sys_wait s s' f : chan_ok addr_runin addr_runout (addr_proc proc0 (u_procp (ps s))) ->
    wait_round addr_runin addr_runout proc0 f s = Ret (inr tt) s' -> sysstep (Some (u_procp (ps s)), s) (Some (u_procp (ps s)), s')
| sys_wait_sig s s' f : chan_ok addr_runin addr_runout (addr_proc proc0 (u_procp (ps s))) ->
    wait_round addr_runin addr_runout proc0 f s = Jumped s' -> sysstep (Some (u_procp (ps s)), s) (Some (u_procp (ps s)), s')
| sys_wait_sleep s s' f k : chan_ok addr_runin addr_runout (addr_proc proc0 (u_procp (ps s))) ->
    wait_round addr_runin addr_runout proc0 f s = Blocked (Cpu Swtch) s' k -> sysstep (Some (u_procp (ps s)), s) (None, s')
| sys_exit s s' rv k : u_procp (ps s) <> 0 -> p_pid (proc_ (ps s) (u_procp (ps s))) <> 1 ->
    exit_zombie addr_runout proc0 rv s = Blocked (Cpu Swtch) s' k -> sysstep (Some (u_procp (ps s)), s) (None, s')
| sys_stop s s' k : stop_round addr_runout proc0 s = Blocked (Cpu Swtch) s' k -> sysstep (Some (u_procp (ps s)), s) (None, s')
| sys_setrun cur s t q : inr_ q -> p_stat (proc_ (ps s) q) = SSTOP -> setrun addr_runout q (ps s) = Ret tt t -> sysstep (cur, s) (cur, s <| ps := t |>)
| sys_xswap cur s t : wakeup addr_runout addr_runout ((ps s) <| runout := 0 |>) = Ret tt t -> sysstep (cur, s) (cur, s <| ps := t |>)
| sys_entry cur s p f :
    (forall r, p_link (f r) = p_link r /\ p_stat (f r) = p_stat r /\ p_wchan (f r) = p_wchan r /\ p_pid (f r) = p_pid r /\ p_ppid (f r) = p_ppid r /\ p_pgrp (f r) = p_pgrp r) ->
    (p_stat (proc_ (ps s) p) = SSLEEP -> p_pri (f (proc_ (ps s) p)) = p_pri (proc_ (ps s) p)) ->
    -32768 <= p_sig (f (proc_ (ps s) p)) < 32768 -> sysstep (cur, s) (cur, s <| ps ::= setp p f |>)
| sys_group s g : p_pid (proc_ (ps s) (u_procp (ps s))) <> 0 ->
    sysstep (Some (u_procp (ps s)), s) (Some (u_procp (ps s)), s <| ps ::= setp (u_procp (ps s)) (fun r => r <| p_pgrp := g |>) |>)
| sys_other cur s s' : (proc_ (ps s'), slpque (ps s'), runq (ps s'), runout (ps s'), u_procp (ps s')) = (proc_ (ps s), slpque (ps s), runq (ps s), runout (ps s), u_procp (ps s)) ->
    mpid s' = mpid s -> sysstep (cur, s) (cur, s').

Definition sys_ok (c : config) : Prop := (exists B R, ok c.1 (ps c.2) B R) /\ 0 <= mpid c.2 < 30000.

(** What [newproc] may do. *)
Lemma newproc_sched s B R : let rip := u_procp (ps s) in ok (Some rip) (ps s) B R -> 0 <= mpid s < 30000 -> (exists i, free_slot (proc_ (ps s)) i) ->
  (exists s' R', newproc 302 s = Ret 0 s' /\ ok (Some rip) (ps s') B R' /\ 0 <= mpid s' < 30000) \/
  (exists i s' k, newproc 302 s = Blocked (Xswap i 0 0) s' k /\ ok (Some i) (ps s') B R /\ 0 <= mpid s' < 30000) \/
  newproc 302 s = Spinning.
Proof.
  destruct s as [t us0 m cm sw ev]. cbn [ps mpid]. intros Hs Hm Hf. destruct (ResMap.malloc cm (p_size (proc_ t (u_procp t)))) as [[a2 mp]|] eqn:Em.
  - destruct (Z.eq_dec a2 0) as [->|Hne].
    + right; left. destruct (newproc_swaps t us0 m cm sw ev B R mp Hs Hm Hf Em) as (i&m'&s1&k&E1&_&Hmr&_&_&<-&_&_&Hs1&_). exists i, s1, k. split; [exact E1|]. split; [exact Hs1|lia].
    + left. destruct (newproc_ok t us0 m cm sw ev B R a2 mp Hs Hm Hf Em Hne) as (i&m'&s1&E1&_&Hmr&_&_&<-&_&_&Hs1&_). exists s1, (i :: R). split; [exact E1|]. split; [exact Hs1|lia].
  - right; right. destruct (so_cur _ _ _ _ _ _ Hs _ eq_refl) as (_&_&Hrs&_&_). destruct (newproc_begins t us0 m cm sw ev) as (i&m'&ev'&_&_&_&_&_&E); [by rewrite Hrs|done|done|].
    rewrite E. unfold newproc_rest, malloc_core, mbind, K_bind, gets. cbn. by rewrite Em.
Qed.
Lemma sysstep_ok c c' : entries_ok -> addr_lbolt <> 0 /\ addr_lbolt <> addr_runout -> sysstep c c' -> sys_ok c -> sys_ok c'.
Proof.
  intros He Hlb Hst [(B&R&Hs) Hm]. pose proof (proj1 He) as Ha.
  destruct Hst as [cur s cur' t H|s s' Hf E|s s' k i Hf E|s s' rip Hr Hi E|s s' f Hc E|s s' f Hc E|s s' f k Hc E|s s' rv k Hn0 Hn1 E|s s' k E|cur s t q Hq Hst E|cur s t E|cur s p f Hf Hp Hg|s g Hg|cur s s' E Em];
    cbn [fst snd] in *; unfold sys_ok; cbn [fst snd].
  - split; [|exact Hm]. exact (step_sched _ _ _ (cur, ps s) (cur', t) Ha Hlb H (ex_intro _ B (ex_intro _ R Hs))).
  - destruct (newproc_sched s B R Hs Hm Hf) as [(s1&R1&E1&Hs1&Hm1)|[(i&s1&k&E1&_)|E1]]; rewrite E1 in E; [|done..]. injection E as <-. by split; [exists B, R1|].
  - destruct (newproc_sched s B R Hs Hm Hf) as [(s1&R1&E1&_)|[(i1&s1&k1&E1&Hs1&Hm1)|E1]]; rewrite E1 in E; [done| |done]. injection E as <- <- _. by split; [exists B, R|].
  - destruct s as [t us0 m cm sw ev]. cbn [ps mpid] in *. destruct (newproc_returns t us0 m cm sw ev B R rip (u_procp t) Hs Hr Hi) as (s1&E1&Hs1&Em&_).
    rewrite E1 in E. injection E as <-. split; [by eexists _, _|by rewrite Em].
  - destruct (wait_round_sched f s B R Ha Hs Hc) as [(s1&E1&Hs1&Em&_)|[(s1&E1&_)|(s1&k1&B1&R1&E1&_)]]; rewrite E1 in E; [|done..].
    injection E as <-. split; [by exists B, R|by rewrite Em].
  - destruct (wait_round_sched f s B R Ha Hs Hc) as [(s1&E1&_)|[(s1&E1&Hs1&Em&_)|(s1&k1&B1&R1&E1&_)]]; rewrite E1 in E; [done| |done].
    injection E as <-. split; [by exists B, R|by rewrite Em].
  - destruct (wait_round_sched f s B R Ha Hs Hc) as [(s1&E1&_)|[(s1&E1&_)|(s1&k1&B1&R1&E1&Hs1&Em&_)]]; rewrite E1 in E; [done..|].
    injection E as <- _. split; [by exists B1, R1|by rewrite Em].
  - destruct (exit_zombie_sched rv s B R He Hs) as (s1&k1&B1&R1&E1&Hs1&Em&_). rewrite E1 in E. injection E as <- _. split; [by exists B1, R1|by rewrite Em].
  - destruct (stop_sched s B R He Hs) as [E1|(s1&k1&B1&R1&E1&Hs1&Em&_)]; rewrite E1 in E; [done|]. injection E as <- _. split; [by exists B1, R1|by rewrite Em].
  - destruct (setrun_stopped cur (ps s) B R q Ha Hs Hq Hst) as (t1&B1&R1&E1&Hs1&_). rewrite E1 in E. injection E as <-. split; [by exists B1, R1|exact Hm].
  - destruct (wakeup_sched addr_runin addr_runout cur _ B R addr_runout Ha (idle_out _ _ _ _ Hs)) as (t1&B1&R1&E1&Hs1&_); [by destruct Ha as (_&?&_)|done|].
    rewrite E1 in E. injection E as <-. split; [by exists B1, R1|exact Hm].
  - split; [|exact Hm]. exists B, R. eapply sched_frame; [exact Hs|done|done|]. intros i. unfold setp. cbn. rewrite fn_case.
    destruct (decide (p = i)) as [<-|]; [|split_and!; try done; apply (so_sig _ _ _ _ _ _ Hs)].
    destruct (Hf (proc_ (ps s) p)) as (F1&F2&F3&_). split_and!; [done|done|done| |lia..]. intros Hst. by rewrite Hp.
  - split; [|exact Hm]. exists B, R. apply sched_setp; [exact Hs|done|done|apply (so_sig _ _ _ _ _ _ Hs)].
  - injection E as E1 E2 E3 E4 E5. split; [|by rewrite Em]. exists B, R. eapply sched_frame; [exact Hs|intros h; by rewrite E2|by rewrite E3, E4, E5|].
    intros i. rewrite E1. split_and!; try done; apply (so_sig _ _ _ _ _ _ Hs).
Qed.

(** As [main] starts process 0, whose image is at [addr]; the table is empty otherwise. *)
Definition no_entry : proc := MkProc 0 0 0 0 0 0 0 0 0 0 0 0 0 0 None None 0.
Definition booted (addr : Z) : pst :=
  Pst (<[0 := no_entry <| p_addr := addr |> <| p_size := USIZE |> <| p_stat := SRUN |> <| p_flag := Z.lor SLOAD SSYS |> <| p_nice := NZERO |>]> (fun _ => no_entry))
    (fun _ => None) None 0 0 0 0 0 (fun _ _ => 0) 0 0 true [].
Lemma booted_entry addr i : p_wchan (proc_ (booted addr) i) = 0 /\ p_sig (proc_ (booted addr) i) = 0 /\ p_stat (proc_ (booted addr) i) = if decide (0 = i) then SRUN else 0.
Proof. unfold booted. cbn [proc_]. rewrite fn_case. by destruct (decide (0 = i)). Qed.
Lemma booted_ok addr : ok (Some 0) (booted addr) (fun _ => []) [].
Proof.
  assert (forall i c, ~ asleep (booted addr) i c) as Has.
  { intros i c (_&E&_). destruct (booted_entry addr i) as (_&_&E'). rewrite E' in E. by destruct (decide (0 = i)). }
  split.
  - split; try done; [intros h; constructor|constructor|intros h i Hi; by apply elem_of_nil in Hi|intros i Hi; by apply elem_of_nil in Hi].
  - intros i _. destruct (booted_entry addr i) as (_&_&->). destruct (decide (0 = i)) as [<-|]; [by right|done].
  - intros i c Ha. by apply Has in Ha.
  - intros i [= <-]. split; [done|]. split; [unfold inr_, NPROC; lia|]. split; [done|]. split; [done|apply not_elem_of_nil].
  - intros i c Ha. by apply Has in Ha.
  - done.
  - intros i. destruct (booted_entry addr i) as (_&->&_). lia.
  - intros i _ _. by destruct (booted_entry addr i).
Qed.

(** C1: no process is ever lost.  From the moment [main] sets up process 0, through
    forks, exits, waits and stops, sleeps, wakeups, signals, switches, clock ticks and
    the changes the swapper makes, each runnable process is on the run queue exactly
    once or has the processor, and not both; each sleeping one is on the queue of
    its channel exactly once and on no other; the queues hold nothing else, and no
    [wakeup] or clock tick finds them broken.  Processes sleep here only on channels
    outside the hash bucket of [&runout] ([chan_ok]), the swapper apart; on others the code does
    lose processes ([wakeup_same_bucket_loses], [wait_may_clash]).  Wakeups may be on any channel. *)
Theorem no_process_lost addr us0 cm sw ev c :
  entries_ok -> addr_lbolt <> 0 /\ addr_lbolt <> addr_runout -> rtc sysstep (Some 0, MkFam (booted addr) us0 0 cm sw ev) c ->
  (exists B R, queues (ps c.2) B R /\
    (forall i, c.1 = Some i -> i = u_procp (ps c.2) /\ p_stat (proc_ (ps c.2) i) = SRUN) /\
    (forall i, inr_ i -> p_stat (proc_ (ps c.2) i) = SRUN -> (i ∈ R /\ c.1 <> Some i) \/ ((i ∉ R) /\ c.1 = Some i)) /\
    (forall i ch, asleep (ps c.2) i ch -> i ∈ B (HASH ch) /\ (i ∉ R) /\ forall h, i ∈ B h -> h = HASH ch)) /\
  (forall chan, chan <> 0 -> chan <> addr_runout -> exists t, wakeup addr_runout chan (ps c.2) = Ret tt t) /\
  (exists t, clock addr_runin addr_runout addr_lbolt (ps c.2) = Ret tt t).
Proof.
  intros He Hlb Hst. pose proof (proj1 He) as Ha. assert (sys_ok c) as [(B&R&Hs) _].
  { assert (sys_ok (Some 0, MkFam (booted addr) us0 0 cm sw ev)) as H0 by (split; [exists (fun _ => []), []; apply booted_ok|cbn; lia]).
    induction Hst as [|c0 c1 c2 H1 _ IH]; [done|]. apply IH. by apply (sysstep_ok c0). }
  split; [|split].
  - exists B, R. split; [apply Hs|]. split; [|split].
    + intros i E. by destruct (so_cur _ _ _ _ _ _ Hs i E) as (?&_&?&_).
    + intros i Hi Hsti. destruct (so_run _ _ _ _ _ _ Hs i Hi Hsti) as [Hin|E].
      * left. split; [done|]. intros E. by destruct (so_cur _ _ _ _ _ _ Hs i E) as (_&_&_&_&?).
      * right. split; [|done]. by destruct (so_cur _ _ _ _ _ _ Hs i E) as (_&_&_&_&?).
    + intros i ch Hasl. destruct (so_sleep _ _ _ _ _ _ Hs i ch Hasl) as [Hb _]. split; [done|]. split; [by eapply queues_disj_R; [apply Hs|]|].
      intros h Hh. by apply (queues_disj _ _ _ _ _ _ (so_queues _ _ _ _ _ _ Hs) Hh Hb).
  - intros chan H0 H1. destruct (wakeup_sched addr_runin addr_runout c.1 (ps c.2) B R chan Ha Hs H0) as (t&_&_&E&_); [done|]. by exists t.
  - destruct (clock_sched addr_runin addr_runout addr_lbolt c.1 (ps c.2) B R Ha Hlb Hs) as (t&_&_&E&_). by exists t.
Qed.

(** [wait] sleeps on the entry of the process, and the table is long enough to
    meet every bucket: wherever the table and [runout] are, some process waits in
    the bucket of [&runout]. *)
Lemma HASH_mod x : HASH x = (x mod 2048) / 32.
Proof.
  unfold HASH. change 63 with (Z.ones 6). rewrite Z.land_ones by lia. rewrite Z.shiftr_div_pow2 by lia.
  assert (s32 x mod 2048 = x mod 2048) as E by (unfold wrap_s; change (2 ^ 32) with 4294967296; change (2 ^ (32 - 1)) with 2147483648; Z.div_mod_to_equations; lia).
  rewrite <- E. change (2 ^ 5) with 32. change (2 ^ 6) with 64. Z.div_mod_to_equations; lia.
Qed.
(** Some entry is at a given distance from the first, to within a bucket. *)
Lemma meets_all : forallb (fun k => existsb (fun i => (36 * i - 4 * k) mod 2048 <? 32) slots) (seqZ 0 512) = true.
Proof. vm_compute. reflexivity. Qed.
Lemma wait_may_clash : proc0 mod 4 = 0 -> exists i, inr_ i /\ HASH (addr_proc proc0 i) = HASH addr_runout.
Proof.
  intros H4. set (d := (32 * HASH addr_runout - proc0) mod 2048). set (k := d / 4).
  assert (d = 4 * k /\ 0 <= k < 512) as [Ed Hk] by (unfold k, d; Z.div_mod_to_equations; lia).
  assert (0 <= HASH addr_runout < 64) as Hb by apply HASH_range.
  pose proof meets_all as H. rewrite forallb_forall in H. specialize (H k ltac:(apply list_elem_of_In, elem_of_seqZ; lia)).
  apply existsb_exists in H as (i&Hi&E). exists i. split; [by apply slots_in, list_elem_of_In|]. apply Z.ltb_lt in E. rewrite <- Ed in E.
  rewrite (HASH_mod (addr_proc proc0 i)). unfold addr_proc. unfold d in E. clearbody k. clear Ed. Z.div_mod_to_equations; lia.
Qed.

End facts.

(** ** A run of the system *)

(** The swapper's channels are at 4096 and 4097, [lbolt] at 4160, the table at 8192. *)
Lemma demo_entries : entries_ok 4096 4097 8192.
Proof. split; [done|]. split; [lia|]. unfold addr_proc, inr_. intros i Hi. lia. Qed.

Definition after {L S A} (o : outcome L S A) (d : S) : S :=
  match o with Ret _ s | Blocked _ s _ | Jumped s | Panicked _ s => s | Spinning => d end.
Lemma after_ret {L S A} (o : outcome L S A) d : (match o with Ret _ _ => true | _ => false end) = true -> exists a, o = Ret a (after o d).
Proof. destruct o; try done. intros _. by eexists. Qed.
Lemma after_swtch {A} (o : outcome label fam A) d : (match o with Blocked (Cpu Swtch) _ _ => true | _ => false end) = true -> exists k, o = Blocked (Cpu Swtch) (after o d) k.
Proof. destruct o as [|[[]| | | | | |]| | |]; try done. intros _. by eexists. Qed.
Lemma after_swtch_cpu {A} (o : outcome lbl pst A) d : (match o with Blocked Swtch _ _ => true | _ => false end) = true -> exists k, o = Blocked Swtch (after o d) k.
Proof. destruct o as [|[]| | |]; try done. intros _. by eexists. Qed.

Definition no_user : user := MkUser 0 0 0 0 0 0 None (fun _ => None) 0 0 0 0 0 0.
Definition free_core : list ResMap.map_ent := [ResMap.MapEnt 100 1; ResMap.MapEnt 0 0].
Definition run0 : fam := MkFam (booted 50) (fun _ => no_user) 0 free_core [] [].
Definition on_ps (s : fam) (t : pst) : fam := s <| ps := t |>.
(** Process 0 makes process 1 and waits for work; 1 runs, makes 2 and waits for it. *)
Definition run1 : fam := after (newproc 302 run0) run0.
Definition run2 : fam := on_ps run1 (after (sched_wait_work 4096 4097 (ps run1)) (ps run1)).
Definition run3 : fam := on_ps run2 (after (swtch_search 1 (ps run2)) (ps run2)).
Definition run4 : fam := after (newproc 302 run3) run3.
Definition run5 : fam := after (wait_round 4096 4097 8192 0 run4) run4.
(** Then 2 runs and ends with status 7, and 1 collects it. *)
Definition run6 : fam := on_ps run5 (after (swtch_search 1 (ps run5)) (ps run5)).
Definition run7 : fam := after (exit_zombie 4097 8192 1792 run6) run6.
Definition run8 : fam := on_ps run7 (after (swtch_search 1 (ps run7)) (ps run7)).
Definition run9 : fam := after (wait_round 4096 4097 8192 1 run8) run8.

Definition demo_step : config -> config -> Prop := sysstep 4096 4097 8192 4160.
Lemma after_to (o : outcome lbl pst (Z * bool)) d p : (match o with Ret (q, _) _ => q =? p | _ => false end) = true -> exists sw, o = Ret (p, sw) (after o d).
Proof. destruct o as [[q sw] s| | | |]; try done. intros ->%Z.eqb_eq. by exists sw. Qed.
(** The running process by name. *)
Lemma run_as s p c' : (u_procp (ps s) =? p) = true -> demo_step (Some (u_procp (ps s)), s) c' -> demo_step (Some p, s) c'.
Proof. intros ->%Z.eqb_eq. done. Qed.
Lemma run_fork s p : (u_procp (ps s) =? p) = true -> (p_stat (proc_ (ps s) 3) =? 0) = true ->
  (match newproc 302 s with Ret r _ => r =? 0 | _ => false end) = true -> demo_step (Some p, s) (Some p, after (newproc 302 s) s).
Proof.
  intros Hu Hf Hr. apply run_as; [done|]. apply Z.eqb_eq in Hu, Hf. rewrite <- Hu. apply sys_newproc; [by exists 3|].
  destruct (newproc 302 s) as [r s'| | | |]; try done. by apply Z.eqb_eq in Hr as ->.
Qed.
Lemma run_dispatch s p : (match swtch_search 1 (ps s) with Ret (q, _) _ => q =? p | _ => false end) = true ->
  demo_step (None, s) (Some p, on_ps s (after (swtch_search 1 (ps s)) (ps s))).
Proof. intros H. destruct (after_to (swtch_search 1 (ps s)) (ps s) p H) as [sw E]. apply sys_cpu. by eapply step_dispatch. Qed.
Lemma run_work s : (u_procp (ps s) =? 0) = true -> (match sched_wait_work 4096 4097 (ps s) with Blocked Swtch _ _ => true | _ => false end) = true ->
  demo_step (Some 0, s) (None, on_ps s (after (sched_wait_work 4096 4097 (ps s)) (ps s))).
Proof.
  intros Hu H. apply run_as; [done|]. apply Z.eqb_eq in Hu. destruct (after_swtch_cpu (sched_wait_work 4096 4097 (ps s)) (ps s) H) as [k E]. apply sys_cpu. by eapply step_wait_work.
Qed.
Lemma run_wait s p f : (u_procp (ps s) =? p) = true -> chan_ok 4096 4097 (addr_proc 8192 p) ->
  (match wait_round 4096 4097 8192 f s with Ret (inr tt) _ => true | _ => false end) = true ->
  demo_step (Some p, s) (Some p, after (wait_round 4096 4097 8192 f s) s).
Proof.
  intros Hu Hc H. apply run_as; [done|]. apply Z.eqb_eq in Hu. rewrite <- Hu in Hc |- *.
  destruct (wait_round 4096 4097 8192 f s) as [[f'|[]] s'| | | |] eqn:E; try done. by eapply sys_wait.
Qed.
Lemma run_wait_sleep s p f : (u_procp (ps s) =? p) = true -> chan_ok 4096 4097 (addr_proc 8192 p) ->
  (match wait_round 4096 4097 8192 f s with Blocked (Cpu Swtch) _ _ => true | _ => false end) = true ->
  demo_step (Some p, s) (None, after (wait_round 4096 4097 8192 f s) s).
Proof.
  intros Hu Hc H. apply run_as; [done|]. apply Z.eqb_eq in Hu. rewrite <- Hu in Hc.
  destruct (after_swtch (wait_round 4096 4097 8192 f s) s H) as [k E]. by eapply sys_wait_sleep.
Qed.
Lemma run_exit s p rv : (u_procp (ps s) =? p) = true -> p <> 0 -> (p_pid (proc_ (ps s) p) =? 1) = false -> (match exit_zombie 4097 8192 rv s with Blocked (Cpu Swtch) _ _ => true | _ => false end) = true ->
  demo_step (Some p, s) (None, after (exit_zombie 4097 8192 rv s) s).
Proof.
  intros Hu Hp Hp1 H. apply run_as; [done|]. apply Z.eqb_eq in Hu. apply Z.eqb_neq in Hp1. rewrite <- Hu in Hp, Hp1. destruct (after_swtch (exit_zombie 4097 8192 rv s) s H) as [k E]. by eapply sys_exit.
Qed.
Definition demo_end : config := (Some 1, run9).
Definition demo_zombie : config := (None, run7).
Lemma demo_to_zombie : rtc (sysstep 4096 4097 8192 4160) (Some 0, MkFam (booted 50) (fun _ => no_user) 0 free_core [] []) demo_zombie.
Proof.
  assert (demo_step (Some 0, run0) (Some 0, run1)) as S1 by (unfold run1; apply run_fork; vm_compute; reflexivity).
  assert (demo_step (Some 0, run1) (None, run2)) as S2 by (unfold run2; apply run_work; vm_compute; reflexivity).
  assert (demo_step (None, run2) (Some 1, run3)) as S3 by (unfold run3; apply run_dispatch; vm_compute; reflexivity).
  assert (demo_step (Some 1, run3) (Some 1, run4)) as S4 by (unfold run4; apply run_fork; vm_compute; reflexivity).
  assert (demo_step (Some 1, run4) (None, run5)) as S5 by (unfold run5; apply run_wait_sleep; [vm_compute; reflexivity|done|vm_compute; reflexivity]).
  assert (demo_step (None, run5) (Some 2, run6)) as S6 by (unfold run6; apply run_dispatch; vm_compute; reflexivity).
  assert (demo_step (Some 2, run6) (None, run7)) as S7 by (unfold run7; apply run_exit; [vm_compute; reflexivity|lia|vm_compute; reflexivity..]).
  exact (rtc_l _ _ _ _ S1 (rtc_l _ _ _ _ S2 (rtc_l _ _ _ _ S3 (rtc_l _ _ _ _ S4 (rtc_l _ _ _ _ S5 (rtc_l _ _ _ _ S6 (rtc_once _ _ S7))))))).
Qed.
Lemma demo_run : rtc (sysstep 4096 4097 8192 4160) (Some 0, MkFam (booted 50) (fun _ => no_user) 0 free_core [] []) demo_end.
Proof.
  assert (demo_step (None, run7) (Some 1, run8)) as S8 by (unfold run8; apply run_dispatch; vm_compute; reflexivity).
  assert (demo_step (Some 1, run8) (Some 1, run9)) as S9 by (unfold run9; apply run_wait; [vm_compute; reflexivity|done|vm_compute; reflexivity]).
  transitivity demo_zombie; [exact demo_to_zombie|]. exact (rtc_l _ _ _ _ S8 (rtc_once _ _ S9)).
Qed.
(** Process 1 has been told that 2 ended with status 7, and the system goes on. *)
Lemma no_process_lost_witness :
  r_val1 (us demo_end.2 1) = 2 /\ r_val2 (us demo_end.2 1) = 1792 /\ p_stat (proc_ (ps demo_end.2) 2) = 0 /\
  exists t, clock 4096 4097 4160 (ps demo_end.2) = Ret tt t.
Proof.
  split; [vm_compute; reflexivity|]. split; [vm_compute; reflexivity|]. split; [vm_compute; reflexivity|].
  destruct (no_process_lost 4096 4097 8192 4160 50 (fun _ => no_user) free_core [] [] demo_end demo_entries ltac:(done) demo_run) as (_&_&H).
  exact H.
Defined.
End Family.
