(* ===== verification/Tree.v ===== *)
(** * Tree: the family of the processes (src/usr/sys/sys/slp.c, sys1.c)

    Over the steps of [Family]: numbers are unique, and every process has a
    parent that can wait for it. *)
From S2P Require Import Prelude Kmonad ResMap Proc Keep Family.
Import Proc Keep Family.

Module Tree.

(** Neither free nor a zombie. *)
Definition alive (t : pst) (i : Z) : Prop := inr_ i /\ p_stat (proc_ t i) <> 0 /\ p_stat (proc_ t i) <> SZOMB.

(** Before the first [newproc], after which process 1 is there for good. *)
Definition unborn (t : pst) (m : Z) : Prop := m = 0 /\ forall i, inr_ i -> p_pid (proc_ t i) = 0 /\ p_pgrp (proc_ t i) = 0 /\ (i <> 0 -> p_stat (proc_ t i) = 0).
Record family (t : pst) (m : Z) : Prop := {
  fa_zero : alive t 0 /\ p_pid (proc_ t 0) = 0;
  fa_unique : forall i j, inr_ i -> inr_ j -> p_stat (proc_ t i) <> 0 -> p_stat (proc_ t j) <> 0 -> p_pid (proc_ t i) = p_pid (proc_ t j) -> i = j;
  fa_parent : forall i, inr_ i -> p_stat (proc_ t i) <> 0 -> exists q, alive t q /\ p_pid (proc_ t q) = p_ppid (proc_ t i);
  fa_init : (exists i, alive t i /\ p_pid (proc_ t i) = 1) \/ unborn t m
}.

Lemma shape_fields r r' : shape r = shape r' ->
  p_pid r = p_pid r' /\ p_ppid r = p_ppid r' /\ p_pgrp r = p_pgrp r' /\ (p_stat r = 0 <-> p_stat r' = 0) /\ (p_stat r = SZOMB <-> p_stat r' = SZOMB).
Proof. unfold shape. intros [= E1 E2 E3 E4 E5]. split; [done|]. split; [done|]. split; [done|]. by rewrite <- !Z.eqb_eq, E4, E5. Qed.
Lemma alive_shape t t' i : shape (proc_ t' i) = shape (proc_ t i) -> alive t' i <-> alive t i.
Proof. intros (_&_&_&E1&E2)%shape_fields. unfold alive. by rewrite E1, E2. Qed.
(** A step that changes no shape. *)
Lemma family_same t t' m : (forall i, shape (proc_ t' i) = shape (proc_ t i)) -> family t m -> family t' m.
Proof.
  intros Hs [[Ha0 Hp0] Hu Hp Hi].
  assert (forall i, p_pid (proc_ t' i) = p_pid (proc_ t i) /\ p_ppid (proc_ t' i) = p_ppid (proc_ t i) /\ p_pgrp (proc_ t' i) = p_pgrp (proc_ t i) /\ (p_stat (proc_ t' i) = 0 <-> p_stat (proc_ t i) = 0)) as F.
  { intros i. destruct (shape_fields _ _ (Hs i)) as (?&?&?&?&_). done. }
  assert (forall i, alive t' i <-> alive t i) as A by (intros i; by apply alive_shape). split.
  - destruct (F 0) as (->&_). by rewrite A.
  - intros i j Hi1 Hj1. destruct (F i) as (->&_&_&->), (F j) as (->&_&_&->). by apply Hu.
  - intros i Hi1. destruct (F i) as (_&->&_&->). intros Hst. destruct (Hp i Hi1 Hst) as (q&Hq&E). exists q. rewrite A. by destruct (F q) as (->&_).
  - destruct Hi as [(i&Hi&E)|[Hm Hun]]; [left; exists i; rewrite A; by destruct (F i) as (->&_)|right]. split; [done|].
    intros i Hi1. destruct (F i) as (->&_&->&->). by apply Hun.
Qed.
(** The entry of a zombie is freed. *)
Lemma family_reap t m z : inr_ z -> p_stat (proc_ t z) = SZOMB -> family t m -> family (setp z reap t) m.
Proof.
  intros Hz Hst [[Ha0 Hp0] Hu Hp Hi].
  assert (forall i, alive t i -> i <> z) as Hne by (intros i (_&_&H) ->; done).
  assert (forall i, i <> z -> proc_ (setp z reap t) i = proc_ t i) as F by (intros i Hi'; by apply setp_ne).
  assert (p_stat (proc_ (setp z reap t) z) = 0) as Z0 by (by rewrite setp_eq).
  assert (forall i, alive t i -> alive (setp z reap t) i) as A by (intros i Ha; unfold alive; rewrite F by (by apply Hne); done). split.
  - split; [by apply A|]. by rewrite F by (by apply Hne).
  - intros i j Hi1 Hj1 Hsi Hsj. assert (i <> z /\ j <> z) as [H1 H2] by (split; intros ->; done). rewrite !F in * by done. by apply Hu.
  - intros i Hi1 Hsi. assert (i <> z) as H1 by (by intros ->). rewrite F in Hsi |- * by done. destruct (Hp i Hi1 Hsi) as (q&Hq&E). exists q. split; [by apply A|]. by rewrite F by (by apply Hne).
  - destruct Hi as [(i&Hi&E)|[Hm Hun]]; [left; exists i; split; [by apply A|]; by rewrite F by (by apply Hne)|].
    exfalso. destruct (Hun z Hz) as (_&_&H0). assert (z <> 0) as H1 by (intros ->; by apply (Hne 0)). rewrite H0 in Hst by done. done.
Qed.
(** A child of [p] in the free slot [i]. *)
Lemma family_add t t' m m' i p : alive t p -> free_slot (proc_ t) i -> (m' ∉ used (proc_ t)) -> 1 <= m' -> (m + 1 < 30000 -> m + 1 ∉ used (proc_ t) -> m' = m + 1) ->
  (forall j, j <> i -> shape (proc_ t' j) = shape (proc_ t j)) -> p_stat (proc_ t' i) = SRUN -> p_pid (proc_ t' i) = m' -> p_ppid (proc_ t' i) = p_pid (proc_ t p) ->
  family t m -> family t' m'.
Proof.
  intros Hpa [Hin Hfr] Hused Hm' Hnext Hsh Ei Epid Eppid [[Ha0 Hp0] Hu Hp Hi].
  assert (forall j, alive t j -> j <> i) as Hne by (intros j (_&H&_) ->; done).
  assert (forall j, j <> i -> p_pid (proc_ t' j) = p_pid (proc_ t j) /\ p_ppid (proc_ t' j) = p_ppid (proc_ t j) /\ (p_stat (proc_ t' j) = 0 <-> p_stat (proc_ t j) = 0)) as F.
  { intros j Hj. destruct (shape_fields _ _ (Hsh j Hj)) as (?&?&_&?&_). done. }
  assert (forall j, alive t j -> alive t' j) as A by (intros j Hj; apply (alive_shape t t' j); [by apply Hsh, Hne|done]).
  assert (forall j, inr_ j -> p_pid (proc_ t j) <> m') as Hfresh.
  { intros j Hj E. apply Hused. unfold used. apply elem_of_app. left. apply list_elem_of_fmap. exists j. split; [done|by apply slots_in]. }
  assert (forall j, alive t j -> p_pid (proc_ t' j) = p_pid (proc_ t j)) as Fp by (intros j Hj; by destruct (F j (Hne j Hj))).
  split.
  - split; [by apply A|]. by rewrite Fp.
  - intros j k Hj Hk Hsj Hsk E. destruct (decide (j = i)) as [->|Hj'], (decide (k = i)) as [->|Hk']; [done| | |].
    + destruct (F k Hk') as (Ek&_). rewrite Epid, Ek in E. symmetry in E. by apply Hfresh in E.
    + destruct (F j Hj') as (Ej&_). rewrite Epid, Ej in E. by apply Hfresh in E.
    + destruct (F j Hj') as (Ej&_&Sj), (F k Hk') as (Ek&_&Sk). rewrite Ej, Ek in E. rewrite Sj in Hsj. rewrite Sk in Hsk. by apply Hu.
  - intros j Hj Hsj. destruct (decide (j = i)) as [->|Hj'].
    + exists p. split; [by apply A|]. by rewrite Eppid, Fp.
    + destruct (F j Hj') as (_&->&Sj). rewrite Sj in Hsj. destruct (Hp j Hj Hsj) as (q&Hq&E). exists q. split; [by apply A|]. by rewrite Fp.
  - left. destruct Hi as [(j&Hj&E)|[-> Hun]]; [exists j; split; [by apply A|]; by rewrite Fp|].
    exists i. split; [split; [done|]; by rewrite Ei|]. rewrite Epid. apply Hnext; [lia|]. unfold used. intros [H|H]%elem_of_app; apply list_elem_of_fmap in H as (j&E&Hj); apply slots_in in Hj; destruct (Hun j Hj) as (E1&E2&_); lia.
Qed.
(** The process in slot [p] ends. *)
Lemma family_exit t t' m p : alive t p -> p <> 0 -> p_pid (proc_ t p) <> 1 -> shaped (ended (fun i => shape (proc_ t i)) p) t' -> family t m -> family t' m.
Proof.
  intros Hpa Hn0 Hn1 Hsh [[Ha0 Hp0] Hu Hp Hi]. set (pp := p_pid (proc_ t p)) in *.
  assert (forall i, inr_ i -> p_pid (proc_ t' i) = p_pid (proc_ t i) /\ p_ppid (proc_ t' i) = (if p_ppid (proc_ t i) =? pp then 1 else p_ppid (proc_ t i)) /\
    (p_stat (proc_ t' i) = 0 <-> p_stat (proc_ t i) = 0) /\ (i <> p -> (p_stat (proc_ t' i) = SZOMB <-> p_stat (proc_ t i) = SZOMB))) as F.
  { intros i Hin. pose proof (Hsh i) as E. unfold ended, ending in E. rewrite decide_True in E by (by apply slots_in).
    unfold adopt in E. cbn [shape h_pid h_ppid h_pgrp h_free h_zomb] in E. fold pp in E.
    destruct (decide (i = p)) as [->|Hne]; cbn [h_ppid shape] in E; destruct (p_ppid (proc_ t _) =? pp) eqn:Epp; injection E as E1 E2 E3 E4 E5;
      (split; [exact E1|split; [exact E2|split; [|intros Hne']]]).
    1, 3: apply Z.eqb_neq in E4; by destruct Hpa as (_&?&_).
    1, 2: done.
    all: by rewrite <- !Z.eqb_eq, ?E4, ?E5. }
  assert (forall i, alive t i -> i <> p -> alive t' i) as A.
  { intros i (Hin&H0&Hz) Hne. destruct (F i Hin) as (_&_&E1&E2). split; [done|]. rewrite E1, E2 by done. done. }
  assert (forall i, inr_ i -> p_pid (proc_ t' i) = p_pid (proc_ t i)) as Fp by (intros i Hin; by destruct (F i Hin)).
  assert (exists i, alive t' i /\ p_pid (proc_ t' i) = 1) as (i1&Hi1&E1).
  { destruct Hi as [(i&Hi&E)|[_ Hun]].
    - exists i. rewrite Fp by apply Hi. split; [|done]. apply A; [done|]. by intros ->.
    - exfalso. destruct Hpa as (Hin&Hst&_). destruct (Hun p Hin) as (_&_&H0). by rewrite H0 in Hst. }
  split.
  - split; [by apply A|]. rewrite Fp by apply Ha0. done.
  - intros i j Hin Hjn. destruct (F i Hin) as (->&_&->&_), (F j Hjn) as (->&_&->&_). by apply Hu.
  - intros i Hin. destruct (F i Hin) as (_&->&->&_). intros Hst. destruct (Z.eqb_spec (p_ppid (proc_ t i)) pp) as [E|E]; [by exists i1|].
    destruct (Hp i Hin Hst) as (q&Hq&Eq). exists q. rewrite Fp by apply Hq. split; [|done]. apply A; [done|]. intros ->. by rewrite <- Eq in E.
  - left. by exists i1.
Qed.

(** A process other than 0 changes its group. *)
Lemma family_group t m p g : inr_ p -> p_pid (proc_ t p) <> 0 -> family t m -> family (setp p (fun r => r <| p_pgrp := g |>) t) m.
Proof.
  intros Hpn Hp1 [[Ha0 Hp0] Hu Hp Hi]. set (t' := setp p _ t).
  assert (forall i, p_pid (proc_ t' i) = p_pid (proc_ t i) /\ p_ppid (proc_ t' i) = p_ppid (proc_ t i) /\ p_stat (proc_ t' i) = p_stat (proc_ t i)) as F.
  { intros i. unfold t'. destruct (decide (i = p)) as [->|Hne]; [by rewrite setp_eq|by rewrite setp_ne]. }
  assert (forall i, alive t' i <-> alive t i) as A by (intros i; unfold alive; by destruct (F i) as (_&_&->)). split.
  - destruct (F 0) as (->&_). by rewrite A.
  - intros i j Hin Hjn. destruct (F i) as (->&_&->), (F j) as (->&_&->). by apply Hu.
  - intros i Hin. destruct (F i) as (_&->&->). intros Hst. destruct (Hp i Hin Hst) as (q&Hq&E). exists q. rewrite A. by destruct (F q) as (->&_).
  - left. destruct Hi as [(i&Hi&E)|[_ Hun]]; [exists i; rewrite A; by destruct (F i) as (->&_)|]. by destruct (Hun p Hpn).
Qed.

(** ** The steps of the system *)

Section system.
Context (addr_runin addr_runout proc0 addr_lbolt : Z).
Abbreviation ok := (sched_ok addr_runin addr_runout).
Abbreviation sysstep := (sysstep addr_runin addr_runout proc0 addr_lbolt).

Lemma running_alive s B R : ok (Some (u_procp (ps s))) (ps s) B R -> alive (ps s) (u_procp (ps s)).
Proof. intros Hs. destruct (so_cur _ _ _ _ _ _ Hs _ eq_refl) as (_&Hi&Hst&_). split; [done|]. by rewrite Hst. Qed.
Lemma family_shaped t t' m : (forall b, shaped b t -> shaped b t') -> family t m -> family t' m.
Proof. intros Hb. apply family_same. by apply (Hb (fun i => shape (proc_ t i))). Qed.
Lemma newproc_family s B R : ok (Some (u_procp (ps s))) (ps s) B R -> 0 <= mpid s < 30000 -> (exists i, free_slot (proc_ (ps s)) i) -> family (ps s) (mpid s) ->
  forall s', (newproc 302 s = Ret 0 s' \/ exists i k, newproc 302 s = Blocked (Xswap i 0 0) s' k) -> family (ps s') (mpid s').
Proof.
  intros Hs Hm Hf Hfam s' E. pose proof (running_alive s B R Hs) as Hpa. destruct s as [t us0 m cm sw ev]. cbn [ps mpid] in *. set (rip := u_procp t) in *.
  destruct (ResMap.malloc cm (p_size (proc_ t rip))) as [[a2 mp]|] eqn:Em; [destruct (Z.eq_dec a2 0) as [->|Hne]|].
  - destruct (newproc_swaps addr_runin addr_runout t us0 m cm sw ev B R mp Hs Hm Hf Em) as (i&m'&s1&k&E1&Hi&Hmr&Hmu&Hnx&<-&_&_&_&T2&T1&T3&_).
    destruct E as [E|(i'&k'&E)]; rewrite E1 in E; [done|]. injection E as <- <- _. fold rip in T1, T2, T3.
    apply (family_add t (ps s1) m (mpid s1) i rip); try done; [lia| |by rewrite T2| |by rewrite T2].
    + intros j Hj. destruct (decide (j = rip)) as [->|Hjr]; [|by rewrite T3]. rewrite T1. destruct (so_cur _ _ _ _ _ _ Hs rip eq_refl) as (_&_&Hst&_). unfold shape. cbn. by rewrite Hst.
    + rewrite T2. apply s16_id. lia.
  - destruct (newproc_ok addr_runin addr_runout t us0 m cm sw ev B R a2 mp Hs Hm Hf Em Hne) as (i&m'&s1&E1&Hi&Hmr&Hmu&Hnx&<-&(C1&C2&C3&_)&Hoth&_).
    destruct E as [E|(i'&k'&E)]; rewrite E1 in E; [|done]. injection E as <-. apply (family_add t (ps s1) m (mpid s1) i rip); try done; [lia|].
    intros j Hj. by rewrite Hoth.
  - exfalso. destruct (so_cur _ _ _ _ _ _ Hs rip eq_refl) as (_&_&Hst&_). destruct (newproc_begins t us0 m cm sw ev) as (i&m'&ev'&_&_&_&_&_&E1); [by fold rip; rewrite Hst|done|done|].
    fold rip in E1. assert (newproc 302 (MkFam t us0 m cm sw ev) = Spinning) as E2 by (rewrite E1; unfold newproc_rest, malloc_core, mbind, K_bind, gets; cbn; by rewrite Em).
    rewrite E2 in E. by destruct E as [?|(?&?&?)].
Qed.
Lemma sysstep_family c c' : entries_ok addr_runin addr_runout proc0 -> sysstep c c' -> sys_ok addr_runin addr_runout c -> family (ps c.2) (mpid c.2) -> family (ps c'.2) (mpid c'.2).
Proof.
  intros He Hst [(B&R&Hs) Hm] Hfam. pose proof (proj1 He) as Ha.
  destruct Hst as [cur s cur' t H|s s' Hf E|s s' k i Hf E|s s' rip Hr Hi E|s s' f Hc E|s s' f Hc E|s s' f k Hc E|s s' rv k Hn0 Hn1 E|s s' k E|cur s t q Hq Hst E|cur s t E|cur s p f Hf Hp Hg|s g Hg|cur s s' E Em];
    cbn [fst snd] in *.
  - exact (family_same (ps s) t _ (step_shape _ _ _ cur (ps s) cur' t B R Ha Hs H) Hfam).
  - eapply newproc_family; [exact Hs|exact Hm|exact Hf|exact Hfam|by left].
  - eapply newproc_family; [exact Hs|exact Hm|exact Hf|exact Hfam|right; by exists i, k].
  - destruct s as [t us0 m cm sw ev]. cbn [ps mpid] in *. destruct (newproc_returns addr_runin addr_runout t us0 m cm sw ev B R rip (u_procp t) Hs Hr Hi) as (s1&E1&_&Em&Ep).
    rewrite E1 in E. injection E as <-. rewrite Em, Ep. refine (family_same t _ m _ Hfam). intros j. set (i := u_procp t).
    assert (shape (proc_ (setp rip (fun r => r <| p_stat := SRUN |>) t) j) = shape (proc_ t j)) as <-.
    { destruct (decide (j = rip)) as [->|Hj]; [rewrite setp_eq; unfold shape; cbn; by rewrite Hi|by rewrite setp_ne]. }
    destruct (decide (j = i)) as [->|Hj]; [by rewrite backed_eq|by rewrite backed_ne].
  - destruct (wait_round_sched addr_runin addr_runout proc0 f s B R Ha Hs Hc) as [(s1&E1&_&Em&[(z&Hz&Hzs&Ez)|Hb])|[(s1&E1&_)|(s1&k1&B1&R1&E1&_)]]; rewrite E1 in E; [| |done..]; injection E as <-; rewrite Em.
    + rewrite Ez. by apply family_reap.
    + by apply (family_shaped (ps s)).
  - destruct (wait_round_sched addr_runin addr_runout proc0 f s B R Ha Hs Hc) as [(s1&E1&_)|[(s1&E1&_&Em&Hb)|(s1&k1&B1&R1&E1&_)]]; rewrite E1 in E; [done| |done].
    injection E as <-. rewrite Em. by apply (family_shaped (ps s)).
  - destruct (wait_round_sched addr_runin addr_runout proc0 f s B R Ha Hs Hc) as [(s1&E1&_)|[(s1&E1&_)|(s1&k1&B1&R1&E1&_&Em&Hb)]]; rewrite E1 in E; [done..|].
    injection E as <- _. rewrite Em. by apply (family_shaped (ps s)).
  - destruct (exit_zombie_sched addr_runin addr_runout proc0 rv s B R He Hs) as (s1&k1&B1&R1&E1&_&Em&Hb). rewrite E1 in E. injection E as <- _. rewrite Em.
    apply (family_exit (ps s) _ _ (u_procp (ps s))); [by eapply running_alive|done|done|by apply Hb|done].
  - destruct (stop_sched addr_runin addr_runout proc0 s B R He Hs) as [E1|(s1&k1&B1&R1&E1&_&Em&Hb)]; rewrite E1 in E; [done|]. injection E as <- _. rewrite Em. by apply (family_shaped (ps s)).
  - destruct (setrun_stopped addr_runin addr_runout cur (ps s) B R q Ha Hs Hq Hst) as (t1&B1&R1&E1&_&_&Hb). rewrite E1 in E. injection E as <-. exact (family_shaped (ps s) t1 _ Hb Hfam).
  - refine (family_shaped (ps s) t _ _ Hfam). intros b Hb. eapply wp_keep_ret; [|exact E]. by apply keeps_wakeup.
  - refine (family_same (ps s) _ _ _ Hfam). intros i. change (shape (proc_ (setp p f (ps s)) i) = shape (proc_ (ps s) i)). destruct (decide (i = p)) as [->|Hi]; [|by rewrite setp_ne].
    rewrite setp_eq. destruct (Hf (proc_ (ps s) p)) as (_&F1&_&F2&F3&F4). unfold shape. by rewrite F1, F2, F3, F4.
  - destruct (so_cur _ _ _ _ _ _ Hs _ eq_refl) as (_&Hi&_). by apply family_group.
  - injection E as E1 _ _ _ _. rewrite Em. refine (family_same (ps s) _ _ _ Hfam). intros i. by rewrite E1.
Qed.

Lemma reach_family c0 c : entries_ok addr_runin addr_runout proc0 -> addr_lbolt <> 0 /\ addr_lbolt <> addr_runout -> rtc sysstep c0 c ->
  sys_ok addr_runin addr_runout c0 /\ family (ps c0.2) (mpid c0.2) -> sys_ok addr_runin addr_runout c /\ family (ps c.2) (mpid c.2).
Proof.
  intros He Hlb Hst. induction Hst as [|c0 c1 c2 H1 _ IH]; [done|]. intros [Ho Hf]. apply IH.
  split; [by apply (sysstep_ok addr_runin addr_runout proc0 addr_lbolt c0)|by apply (sysstep_family c0)].
Qed.

Lemma booted_family addr : family (booted addr) 0.
Proof.
  assert (forall i, p_pid (proc_ (booted addr) i) = 0 /\ p_ppid (proc_ (booted addr) i) = 0 /\ p_pgrp (proc_ (booted addr) i) = 0) as F.
  { intros i. unfold booted. cbn [proc_]. rewrite fn_case. by destruct (decide (0 = i)). }
  assert (forall i, p_stat (proc_ (booted addr) i) <> 0 -> i = 0) as S0.
  { intros i. destruct (booted_entry addr i) as (_&_&->). by destruct (decide (0 = i)) as [<-|]. }
  assert (alive (booted addr) 0) as A by (split; [unfold inr_, NPROC; lia|done]). split.
  - split; [done|]. by destruct (F 0).
  - intros i j _ _ Hi%S0 Hj%S0 _. congruence.
  - intros i _ _. exists 0. split; [done|]. by destruct (F i) as (_&->&_).
  - right. split; [done|]. intros i _. destruct (F i) as (?&_&?). split; [done|]. split; [done|]. intros Hi. destruct (booted_entry addr i) as (_&_&->). by rewrite decide_False.
Qed.

(** C35: who waits for whom.  In every state that the system reaches from the boot
    (by the steps of [no_process_lost]) no two processes, zombies included, have the
    same number; and every process, a zombie until it is waited for included, has exactly
    one parent, one that has not ended.  So a process that ends
    finds a parent to wake, which can collect it, and the orphans of a process
    that ends are adopted by a process 1 that is there. *)
Theorem family_tree addr us0 cm sw ev c :
  entries_ok addr_runin addr_runout proc0 -> addr_lbolt <> 0 /\ addr_lbolt <> addr_runout -> rtc sysstep (Some 0, MkFam (booted addr) us0 0 cm sw ev) c ->
  let t := ps c.2 in let used_slot i := inr_ i /\ p_stat (proc_ t i) <> 0 in
  (forall i j, used_slot i -> used_slot j -> p_pid (proc_ t i) = p_pid (proc_ t j) -> i = j) /\
  (forall i, used_slot i -> exists q, alive t q /\ p_pid (proc_ t q) = p_ppid (proc_ t i) /\ forall j, used_slot j -> p_pid (proc_ t j) = p_ppid (proc_ t i) -> j = q) /\
  ((exists i, alive t i /\ p_pid (proc_ t i) = 1) \/ forall i, used_slot i -> i = 0).
Proof.
  intros He Hlb Hst t used_slot.
  destruct (reach_family _ _ He Hlb Hst) as [_ [_ Hu Hp Hi]].
  { split; [split; [exists (fun _ => []), []; apply booted_ok|cbn; lia]|apply booted_family]. }
  split; [|split].
  - intros i j [Hi1 Hs1] [Hj1 Hs2]. by apply Hu.
  - intros i [Hi1 Hs1]. destruct (Hp i Hi1 Hs1) as (q&Hq&E). exists q. split; [done|]. split; [done|]. intros j [Hj1 Hs2] Ej. destruct Hq as (Hq1&Hq2&_). apply Hu; [done..|]. by etransitivity; [exact Ej|].
  - destruct Hi as [?|[_ Hun]]; [by left|right]. intros i [Hi1 Hs1]. destruct (decide (i = 0)) as [|Hn]; [done|]. destruct Hs1. by apply Hun.
Qed.
End system.

(** A zombie, slot 2, that its parent has not yet waited for. *)
Lemma family_tree_witness : p_stat (proc_ (ps demo_zombie.2) 2) = SZOMB /\
  exists q, alive (ps demo_zombie.2) q /\ p_pid (proc_ (ps demo_zombie.2) q) = 1.
Proof.
  assert (inr_ 2 /\ p_stat (proc_ (ps demo_zombie.2) 2) <> 0) as H2 by (split; [unfold inr_, NPROC; lia|vm_compute; lia]).
  split; [vm_compute; reflexivity|].
  destruct (family_tree 4096 4097 8192 4160 50 (fun _ => no_user) free_core [] [] demo_zombie demo_entries ltac:(done) demo_to_zombie) as (_&H&_).
  destruct (H 2 H2) as (q&Hq&E&_). exists q. split; [exact Hq|]. rewrite E. vm_compute. reflexivity.
Defined.
End Tree.
