(* ===== verification/Kernel.v ===== *)
(** * Kernel: the state of the file system and its buffers

    The tables the file system works on (src/usr/sys/h/buf.h, inode.h, file.h,
    mount.h, filsys.h, ino.h, user.h) as records, and the calls it makes to the
    rest of the kernel.  [sleep] gives up the processor; [wakeup], [printf] and
    [psignal] are recorded in a log, since what they do to processes is the
    subject of [Proc].  The device drivers are an interface, [Devices].

    The contents of a buffer is byte memory, so that a block can be read as
    data, as block addresses, as inodes or as a super block. *)
From Stdlib Require Import FunctionalExtensionality.
From S2P Require Import Prelude Kmonad.

(** ** Pointers to buffers *)

(** [buf[i]], the head of the available list, the queue head of a device, and
    the two headers for swapping. *)
Inductive bptr := BUF (i : Z) | BFREELIST | DTAB (maj : Z) | SWBUF1 | SWBUF2.
#[export] Instance bptr_eq : EqDecision bptr.
Proof. solve_decision. Defined.

Record buf := MkBuf {
  b_flags : Z;
  b_forw : bptr; b_back : bptr;
  av_forw : bptr; av_back : bptr;
  b_dev : Z; b_bcount : Z;
  b_addr : Z;          (* b_un.b_addr of a header without a block of its own *)
  b_data : mem;        (* what b_un.b_addr of buf[i] points to *)
  b_blkno : Z; b_xmem : Z; b_error : Z; b_resid : Z
}.
#[export] Instance eta_buf : Eta buf := fun r =>
  MkBuf (b_flags r) (b_forw r) (b_back r) (av_forw r) (av_back r) (b_dev r) (b_bcount r) (b_addr r)
    (b_data r) (b_blkno r) (b_xmem r) (b_error r) (b_resid r).

Record inode := MkInode {
  i_flag : Z; i_count : Z; i_dev : Z; i_number : Z; i_mode : Z; i_nlink : Z;
  i_uid : Z; i_gid : Z; i_size : Z;
  i_addr : Z -> Z;     (* i_un.i_addr[NADDR]; i_un.i_rdev is i_addr[0] *)
  i_lastr : Z
}.
#[export] Instance eta_inode : Eta inode := fun r =>
  MkInode (i_flag r) (i_count r) (i_dev r) (i_number r) (i_mode r) (i_nlink r) (i_uid r) (i_gid r)
    (i_size r) (i_addr r) (i_lastr r).
Definition i_rdev (ip : inode) : Z := s16 (i_addr ip 0).

Record file := MkFile { f_flag : Z; f_count : Z; f_inode : Z; f_offset : Z }.
#[export] Instance eta_file : Eta file := fun r => MkFile (f_flag r) (f_count r) (f_inode r) (f_offset r).

Record mount := MkMount { m_dev : Z; m_bufp : option bptr; m_inodp : option Z }.
#[export] Instance eta_mount : Eta mount := fun r => MkMount (m_dev r) (m_bufp r) (m_inodp r).

Record text := MkText {
  x_daddr : Z; x_caddr : Z; x_size : Z; x_iptr : option Z; x_count : Z; x_ccount : Z; x_flag : Z
}.
#[export] Instance eta_text : Eta text := fun r =>
  MkText (x_daddr r) (x_caddr r) (x_size r) (x_iptr r) (x_count r) (x_ccount r) (x_flag r).

Record user := MkUser {
  u_segflg : Z; u_error : Z; u_uid : Z; u_gid : Z; u_ruid : Z; u_rgid : Z;
  r_val1 : Z; r_val2 : Z;
  u_base : Z; u_count : Z; u_offset : Z;
  u_cdir : Z; u_rdir : option Z;
  u_dbuf : mem; u_dirp : Z;
  u_pdir : Z;
  u_ofile : Z -> option Z; u_pofile : Z -> Z;
  u_arg : Z -> Z;
  u_tsize : Z; u_dsize : Z; u_ssize : Z; u_sep : bool;
  u_cmask : Z; u_acflag : Z;
  u_slock : bool;                       (* SLOCK in u.u_procp->p_flag *)
  u_p_uid : Z; u_p_textp : option Z     (* p_uid and p_textp of *u.u_procp *)
}.
#[export] Instance eta_user : Eta user := fun r =>
  MkUser (u_segflg r) (u_error r) (u_uid r) (u_gid r) (u_ruid r) (u_rgid r) (r_val1 r) (r_val2 r)
    (u_base r) (u_count r) (u_offset r) (u_cdir r) (u_rdir r) (u_dbuf r) (u_dirp r)
    (u_pdir r) (u_ofile r) (u_pofile r) (u_arg r) (u_tsize r) (u_dsize r) (u_ssize r) (u_sep r)
    (u_cmask r) (u_acflag r) (u_slock r) (u_p_uid r) (u_p_textp r).

(** What processes sleep on. *)
Inductive chan :=
| ChBuf (b : bptr) | ChInode (i : Z) | ChRead (i : Z) | ChWrite (i : Z)
| ChFlock (b : bptr) | ChIlock (b : bptr) | ChText (i : Z).

(** Calls to the rest of the kernel that leave this state alone. *)
Inductive event :=
| Wakeup (c : chan) | Printf (m : string) | Prdev (m : string) (dev : Z) | Psignal (sig : Z)
| MfreeSwap (size addr : Z) | MfreeCore (size addr : Z).

(** [io_info]. *)
Record iostat := MkIo { nread : Z; nreada : Z; ncache : Z; nwrite : Z; bufcount : Z -> Z }.
#[export] Instance eta_iostat : Eta iostat := fun r => MkIo (nread r) (nreada r) (ncache r) (nwrite r) (bufcount r).

Record kst := MkKst {
  bufs : bptr -> buf; io_info : iostat;
  inodes : Z -> inode; files : Z -> file; mounts : Z -> mount; texts : Z -> text;
  u : user; time : Z; rootdir : Z; rablock : Z; updlock : Z;
  spl : bool;                           (* interrupts are enabled *)
  signalled : bool;                     (* a signal ended the last sleep *)
  umem : mem;                           (* the memory of the process *)
  kmem : mem;                           (* memory of the kernel's own, with u.u_dent at 0 *)
  disk : Z -> Z -> mem;                 (* what the devices hold, by device and block *)
  log : list event
}.
#[export] Instance eta_kst : Eta kst := fun r =>
  MkKst (bufs r) (io_info r) (inodes r) (files r) (mounts r) (texts r) (u r) (time r) (rootdir r) (rablock r) (updlock r)
    (spl r) (signalled r) (umem r) (kmem r) (disk r) (log r).

(** Where the code gives up the processor. *)
Inductive lbl := Sleep (c : chan) (pri : Z).
Abbreviation M := (K lbl kst).

(** ** Constants *)

Definition NBUF : Z := 29.
Definition NINODE : Z := 200.
Definition NFILE : Z := 175.
Definition NMOUNT : Z := 8.
Definition NOFILE : Z := 20.
Definition NADDR : Z := 13.
Definition BSIZE : Z := 512.
Definition BMASK : Z := 511.
Definition BSHIFT : Z := 9.
Definition NINDIR : Z := 128.
Definition NSHIFT : Z := 7.
Definition NMASK : Z := 127.
Definition NICFREE : Z := 50.
Definition NICINOD : Z := 100.
Definition INOPB : Z := 8.
Definition ROOTINO : Z := 2.
Definition SUPERB : Z := 1.
Definition DIRSIZ : Z := 14.
Definition NODEV : Z := -1.
Definition PINOD : Z := 10.
Definition PRIBIO : Z := 20.
Definition PSWP : Z := 0.
Definition PZERO : Z := 25.
Definition PPIPE : Z := 26.
Definition NTEXT : Z := 40.

Definition B_READ : Z := 1.
Definition B_DONE : Z := 2.
Definition B_ERROR : Z := 4.
Definition B_BUSY : Z := 8.
Definition B_PHYS : Z := 16.
Definition B_MAP : Z := 32.
Definition B_WANTED : Z := 64.
Definition B_AGE : Z := 128.
Definition B_ASYNC : Z := 256.
Definition B_DELWRI : Z := 512.
Definition B_TAPE : Z := 1024.

Definition ILOCK : Z := 1.
Definition IUPD : Z := 2.
Definition IACC : Z := 4.
Definition IMOUNT : Z := 8.
Definition IWANT : Z := 16.
Definition ITEXT : Z := 32.
Definition ICHG : Z := 64.
Definition IFMT : Z := 0xF000.
Definition IFDIR : Z := 0x4000.
Definition IFCHR : Z := 0x2000.
Definition IFBLK : Z := 0x6000.
Definition IFREG : Z := 0x8000.
Definition ISVTX : Z := 0x200.
Definition ISUID : Z := 0x800.
Definition ISGID : Z := 0x400.
Definition IREAD : Z := 0x100.
Definition IWRITE : Z := 0x80.
Definition IEXEC : Z := 0x40.

Definition XWRIT : Z := 2.
Definition XLOCK : Z := 8.
Definition XWANT : Z := 16.

Definition FREAD : Z := 1.
Definition FWRITE : Z := 2.
Definition FPIPE : Z := 4.

Definition EPERM : Z := 1.
Definition ENOENT : Z := 2.
Definition EIO : Z := 5.
Definition ENXIO : Z := 6.
Definition EBADF : Z := 9.
Definition EACCES : Z := 13.
Definition EFAULT : Z := 14.
Definition ENOTBLK : Z := 15.
Definition EBUSY : Z := 16.
Definition EEXIST : Z := 17.
Definition EXDEV : Z := 18.
Definition ENODEV : Z := 19.
Definition ENOTDIR : Z := 20.
Definition EISDIR : Z := 21.
Definition EINVAL : Z := 22.
Definition ENFILE : Z := 23.
Definition EMFILE : Z := 24.
Definition ETXTBSY : Z := 26.
Definition EFBIG : Z := 27.
Definition ENOSPC : Z := 28.
Definition ESPIPE : Z := 29.
Definition EROFS : Z := 30.
Definition EPIPE : Z := 32.
Definition SIGPIPE : Z := 13.

Definition major (x : Z) : Z := s16 (Z.shiftr (u32 x) 8).
Definition minor (x : Z) : Z := s16 (Z.land x 255).
Definition ctob (x : Z) : Z := Z.shiftl x 12.
Definition ctod (x : Z) : Z := Z.shiftl x 2.
Definition itod (x : Z) : Z := s32 (Z.shiftr (u32 (x + 15)) 3).
Definition itoo (x : Z) : Z := Z.land (x + 15) 7.

(** ** The state's fields *)

Definition setb (b : bptr) (f : buf -> buf) (s : kst) : kst :=
  s <| bufs ::= fun a => <[b := f (a b)]> a |>.
Definition seti (i : Z) (f : inode -> inode) (s : kst) : kst :=
  s <| inodes ::= fun a => <[i := f (a i)]> a |>.
Definition setf_ (i : Z) (f : file -> file) (s : kst) : kst :=
  s <| files ::= fun a => <[i := f (a i)]> a |>.
Definition setu (f : user -> user) (s : kst) : kst := s <| u ::= f |>.
Definition setx (i : Z) (f : text -> text) (s : kst) : kst :=
  s <| texts ::= fun a => <[i := f (a i)]> a |>.
Definition setm (i : Z) (f : mount -> mount) (s : kst) : kst :=
  s <| mounts ::= fun a => <[i := f (a i)]> a |>.
Definition emit (e : event) (s : kst) : kst := s <| log ::= cons e |>.

Definition getb (b : bptr) : M buf := gets (fun s => bufs s b).
Definition geti (i : Z) : M inode := gets (fun s => inodes s i).
Definition getx (i : Z) : M text := gets (fun s => texts s i).
Definition getu : M user := gets u.
Definition modb (b : bptr) (f : buf -> buf) : M unit := modify (setb b f).
Definition modi (i : Z) (f : inode -> inode) : M unit := modify (seti i f).
Definition modx (i : Z) (f : text -> text) : M unit := modify (setx i f).
Definition modm (i : Z) (f : mount -> mount) : M unit := modify (setm i f).
Definition modf (i : Z) (f : file -> file) : M unit := modify (setf_ i f).
Definition modu (f : user -> user) : M unit := modify (setu f).
Definition err (e : Z) : M unit := modu (fun r => r <| u_error := u8 e |>).

(** What [b_un.b_addr] of a buffer points to. *)
Definition getd (b : bptr) : M mem := gets (fun s => b_data (bufs s b)).
Definition modd (b : bptr) (f : mem -> mem) : M unit := modb b (fun r => r <| b_data ::= f |>).

Definition spl0 : M unit := modify (fun s => s <| spl := true |>).
Definition spl6 : M unit := modify (fun s => s <| spl := false |>).
Definition splhi : M bool := s ← gets spl; spl6;; mret s.
Definition splx (b : bool) : M unit := modify (fun s => s <| spl := b |>).
Definition wakeup (c : chan) : M unit := modify (emit (Wakeup c)).
Definition printf (m : string) : M unit := modify (emit (Printf m)).
Definition prdev (m : string) (dev : Z) : M unit := modify (emit (Prdev m dev)).

(** [sleep(chan, pri)]: it may return early, and with [pri > PZERO] a signal
    makes it jump out of the code that called it. *)
Definition sleep (c : chan) (pri : Z) : M unit :=
  block (Sleep c pri);;
  sg ← gets signalled;
  if (PZERO <? pri) && sg then longjmp else mret tt.

(** A loop that only other processes can end. *)
Definition wait_while (fuel : nat) (cond : kst -> bool) (body : M unit) : M unit :=
  iter fuel (fun _ => c ← gets cond; if (c : bool) then body;; mret (inl tt) else mret (inr tt)) tt.

(** The indices below [n], in order. *)
Definition upto (n : Z) : list Z := map Z.of_nat (seq 0 (Z.to_nat n)).

Lemma upto_succ n : 0 <= n -> upto (n + 1) = upto n ++ [n].
Proof.
  intros. unfold upto. rewrite Z2Nat.inj_add by lia. change (Z.to_nat 1) with 1%nat.
  rewrite seq_app, map_app. cbn. by rewrite Z2Nat.id by lia.
Qed.
Lemma upto_range n i : i ∈ upto n <-> 0 <= i < n.
Proof.
  unfold upto. rewrite list_elem_of_fmap. split.
  - intros (k&->&Hk%elem_of_seq). lia.
  - intros Hi. exists (Z.to_nat i). split; [lia|]. apply elem_of_seq. lia.
Qed.
Lemma find_seq (p : Z -> bool) a n i :
  List.find p (map Z.of_nat (seq a n)) = Some i <->
  Z.of_nat a <= i < Z.of_nat (a + n) /\ p i = true /\ forall j, Z.of_nat a <= j < i -> p j = false.
Proof.
  revert a. induction n as [|n IH]; intros a; cbn.
  - split; [done|]. intros [H _]. lia.
  - destruct (p (Z.of_nat a)) eqn:E.
    + split.
      * intros [= <-]. split; [lia|]. split; [done|]. intros j Hj. lia.
      * intros (H1&H2&H3). f_equal. destruct (decide (i = Z.of_nat a)); [done|]. rewrite H3 in E; [done|lia].
    + rewrite IH. split; intros (H1&H2&H3).
      * split; [lia|]. split; [done|]. intros j Hj. destruct (decide (j = Z.of_nat a)) as [->|]; [done|]. apply H3. lia.
      * split; [|split; [done|]].
        -- destruct (decide (i = Z.of_nat a)) as [->|]; [congruence|lia].
        -- intros j Hj. apply H3. lia.
Qed.
(** The first index that passes a test. *)
Lemma find_upto p n i :
  List.find p (upto n) = Some i <-> 0 <= i < n /\ p i = true /\ forall j, 0 <= j < i -> p j = false.
Proof.
  unfold upto. rewrite find_seq. split; intros (H1&H2); (split; [lia|exact H2]).
Qed.

(** ** Devices *)

(** The block and character device switches (src/usr/sys/bcm283x/conf): which
    majors have a queue head, and the drivers' entry points. *)
Class Devices := {
  nblkdev : Z;
  nchrdev : Z;
  has_tab : Z -> bool;                     (* bdevsw[maj].d_tab != NULL *)
  d_strategy : Z -> bptr -> M unit;        (* bdevsw[maj].d_strategy *)
  bdev_open : Z -> Z -> Z -> M unit; bdev_close : Z -> Z -> Z -> M unit;
  cdev_open : Z -> Z -> Z -> M unit; cdev_close : Z -> Z -> Z -> M unit;
  cdev_read : Z -> Z -> M unit; cdev_write : Z -> Z -> M unit;
  mapfree : bptr -> M unit;
  swapdev : Z; swplo : Z;
  uisa : bool -> Z -> Z;                   (* (u.u_sep? UDSA: UISA)->r[i] *)
  buffers_at : Z;                          (* the address of buffers[0] *)
  pipedev : Z
}.

(** ** Evaluation of the primitive calls *)

Section eval.
  Context {B : Type}.
Lemma k_splhi (k : bool -> M B) s : (splhi ≫= k) s = k (spl s) (s <| spl := false |>).
Proof. done. Qed.
Lemma k_splx b (k : unit -> M B) s : (splx b ≫= k) s = k tt (s <| spl := b |>).
Proof. done. Qed.
Lemma k_spl6 (k : unit -> M B) s : (spl6 ≫= k) s = k tt (s <| spl := false |>).
Proof. done. Qed.
Lemma k_spl0 (k : unit -> M B) s : (spl0 ≫= k) s = k tt (s <| spl := true |>).
Proof. done. Qed.
Lemma k_getb b (k : buf -> M B) s : (getb b ≫= k) s = k (bufs s b) s.
Proof. done. Qed.
Lemma k_geti i (k : inode -> M B) s : (geti i ≫= k) s = k (inodes s i) s.
Proof. done. Qed.
Lemma k_getu (k : user -> M B) s : (getu ≫= k) s = k (u s) s.
Proof. done. Qed.
Lemma k_modb b f (k : unit -> M B) s : (modb b f ≫= k) s = k tt (setb b f s).
Proof. done. Qed.
Lemma k_modi i f (k : unit -> M B) s : (modi i f ≫= k) s = k tt (seti i f s).
Proof. done. Qed.
Lemma k_modu f (k : unit -> M B) s : (modu f ≫= k) s = k tt (setu f s).
Proof. done. Qed.
Lemma k_wakeup c (k : unit -> M B) s : (wakeup c ≫= k) s = k tt (emit (Wakeup c) s).
Proof. done. Qed.
Lemma k_getd b (k : mem -> M B) s : (getd b ≫= k) s = k (b_data (bufs s b)) s.
Proof. done. Qed.
Lemma k_modd b f (k : unit -> M B) s : (modd b f ≫= k) s = k tt (setb b (fun r => r <| b_data ::= f |>) s).
Proof. done. Qed.
Lemma k_getx i (k : text -> M B) s : (getx i ≫= k) s = k (texts s i) s.
Proof. done. Qed.
Lemma k_modx i f (k : unit -> M B) s : (modx i f ≫= k) s = k tt (setx i f s).
Proof. done. Qed.
Lemma k_modf i f (k : unit -> M B) s : (modf i f ≫= k) s = k tt (setf_ i f s).
Proof. done. Qed.
Lemma k_err e (k : unit -> M B) s : (err e ≫= k) s = k tt (setu (fun r => r <| u_error := u8 e |>) s).
Proof. done. Qed.
Lemma k_prdev m d (k : unit -> M B) s : (prdev m d ≫= k) s = k tt (emit (Prdev m d) s).
Proof. done. Qed.
Lemma k_bind_bind {A C} (m : M A) (f : A -> M C) (k : C -> M B) s : ((m ≫= f) ≫= k) s = (m ≫= fun a => f a ≫= k) s.
Proof.
  unfold mbind, K_bind. induction (m s) as [| l s1 r IH | | |]; try done. cbn. f_equal.
  apply functional_extensionality. done.
Qed.
Lemma k_bind_ext {A} (m : M A) (k k' : A -> M B) s : (forall a s, k a s = k' a s) -> (m ≫= k) s = (m ≫= k') s.
Proof. intros H. f_equal. extensionality a. extensionality s0. apply H. Qed.
Lemma k_when b f (k : unit -> M B) s :
  (when b (modify f) ≫= k) s = k tt (if b then f s else s).
Proof. by destruct b. Qed.
End eval.

Lemma seti_inodes ip f s i : inodes (seti ip f s) i = if decide (ip = i) then f (inodes s ip) else inodes s i.
Proof. unfold seti. cbn. apply fn_case. Qed.

(** Evaluates straight-line kernel code. *)
Ltac krun :=
  repeat (rewrite ?k_ret, ?k_get, ?k_gets, ?k_modify, ?k_splhi, ?k_splx, ?k_spl6, ?k_spl0, ?k_getb, ?k_geti,
    ?k_getu, ?k_modb, ?k_modi, ?k_modu, ?k_wakeup,
    ?k_getd, ?k_modd, ?k_getx, ?k_modx, ?k_modf, ?k_err, ?k_prdev; cbv beta).

Lemma setb_bufs b f s x : bufs (setb b f s) x = if decide (b = x) then f (bufs s b) else bufs s x.
Proof. unfold setb; cbn. apply fn_case. Qed.
Lemma setb_eq b f s : bufs (setb b f s) b = f (bufs s b).
Proof. by rewrite setb_bufs, decide_True. Qed.
Lemma setb_ne b f s x : b <> x -> bufs (setb b f s) x = bufs s x.
Proof. intros. by rewrite setb_bufs, decide_False. Qed.
Lemma setb_keep {T} (g : buf -> T) b f s x :
  (forall r, g (f r) = g r) -> g (bufs (setb b f s) x) = g (bufs s x).
Proof. intros E. rewrite setb_bufs. case_decide; subst; [apply E|done]. Qed.
Lemma setb_field {T} (g : buf -> T) (h : T -> T) b f s x :
  (forall r, g (f r) = h (g r)) ->
  g (bufs (setb b f s) x) = if decide (b = x) then h (g (bufs s b)) else g (bufs s x).
Proof. intros E. rewrite setb_bufs. case_decide; subst; [apply E|done]. Qed.
Lemma bufs_spl v s : bufs (s <| spl := v |>) = bufs s.
Proof. done. Qed.
Lemma bufs_emit e s : bufs (emit e s) = bufs s.
Proof. done. Qed.
Lemma bufs_io f s : bufs (s <| io_info ::= f |>) = bufs s.
Proof. done. Qed.
Lemma setb_setb b f g s : setb b g (setb b f s) = setb b (fun r => g (f r)) s.
Proof.
  unfold setb, update_with. destruct s. cbn. f_equal. apply functional_extensionality. intros x.
  rewrite !fn_case. by case_decide; rewrite ?decide_True.
Qed.
Lemma setb_id b f s : f (bufs s b) = bufs s b -> setb b f s = s.
Proof.
  intros H. unfold setb, update_with. destruct s. cbn in *. f_equal. apply functional_extensionality. intros x.
  rewrite fn_case. case_decide; by subst.
Qed.
Ltac keep g := rewrite ?bufs_spl, ?bufs_emit, ?bufs_io; repeat (rewrite (setb_keep g) by done; rewrite ?bufs_spl, ?bufs_emit, ?bufs_io).
