(* ===== verification/Bio.v ===== *)
(** * Bio: the buffer cache (src/usr/sys/sys/bio.c)

    Buffers are on two doubly linked lists, kept as the pointers the code
    keeps: the queue of a device ([b_forw], [b_back]) and, unless busy, the
    available list ([av_forw], [av_back]).  Loops that wait for other processes
    take [fuel] rounds at most. *)
From S2P Require Import Prelude Kmonad Dll Kernel.

(** The number of rounds a loop may take. *)
Class Fuel := fuel : nat.

Module Bio.

Section code.
  Context `{DV : Devices} `{FL : Fuel}.

(** ** Errors and lists *)

Definition geterror (bp : bptr) : M unit :=
  b ← getb bp;
  when (has (b_flags b) B_ERROR)
    (err (b_error b);;
     when (u8 (b_error b) =? 0) (err EIO)).

Definition notavail (bp : bptr) : M unit :=
  s ← splhi;
  b ← getb bp;
  modb (av_back b) (fun r => r <| av_forw := av_forw b |>);;
  b ← getb bp;
  modb (av_forw b) (fun r => r <| av_back := av_back b |>);;
  modb bp (fun r => r <| b_flags ::= fun f => setf f B_BUSY |>);;
  splx s.

Definition iowait (bp : bptr) : M unit :=
  spl6;;
  wait_while fuel (fun s => negb (has (b_flags (bufs s bp)) B_DONE)) (sleep (ChBuf bp) PRIBIO);;
  spl0;;
  geterror bp.

(** The buffer of a device's queue that holds a block:
    [for (bp=dp->b_forw; bp != dp; bp = bp->b_forw)]. *)
Definition scan_dev (dev blkno : Z) : M (option bptr) :=
  let dp := DTAB (major dev) in
  d ← getb dp;
  iter fuel (fun bp =>
    if bool_decide (bp = dp) then mret (inr None)
    else
      b ← getb bp;
      if (b_blkno b =? blkno) && (b_dev b =? dev) then mret (inr (Some bp)) else mret (inl (b_forw b)))
    (b_forw d).

Definition incore (dev blkno : Z) : M bool :=
  r ← scan_dev dev blkno; mret (bool_decide (is_Some r)).

(** ** Releasing a buffer *)

Definition brelse (bp : bptr) : M unit :=
  b ← getb bp;
  when (has (b_flags b) B_WANTED) (wakeup (ChBuf bp));;
  fl ← getb BFREELIST;
  when (has (b_flags fl) B_WANTED)
    (modb BFREELIST (fun r => r <| b_flags ::= fun f => clrf f B_WANTED |>);;
     wakeup (ChBuf BFREELIST));;
  b ← getb bp;
  when (has (b_flags b) B_ERROR) (modb bp (fun r => r <| b_dev := NODEV |>));;
  s ← splhi;
  b ← getb bp;
  (if has (b_flags b) B_AGE then
     first ← gets (fun s => av_forw (bufs s BFREELIST));
     modb first (fun r => r <| av_back := bp |>);;
     first ← gets (fun s => av_forw (bufs s BFREELIST));
     modb bp (fun r => r <| av_forw := first |>);;
     modb BFREELIST (fun r => r <| av_forw := bp |>);;
     modb bp (fun r => r <| av_back := BFREELIST |>)
   else
     last ← gets (fun s => av_back (bufs s BFREELIST));
     modb last (fun r => r <| av_forw := bp |>);;
     last ← gets (fun s => av_back (bufs s BFREELIST));
     modb bp (fun r => r <| av_back := last |>);;
     modb BFREELIST (fun r => r <| av_back := bp |>);;
     modb bp (fun r => r <| av_forw := BFREELIST |>));;
  modb bp (fun r => r <| b_flags ::= fun f => clrf f (Z.lor B_WANTED (Z.lor B_BUSY (Z.lor B_ASYNC B_AGE))) |>);;
  splx s.

Definition iodone (bp : bptr) : M unit :=
  b ← getb bp;
  when (has (b_flags b) B_MAP) (mapfree bp);;
  modb bp (fun r => r <| b_flags ::= fun f => setf f B_DONE |>);;
  b ← getb bp;
  if has (b_flags b) B_ASYNC then brelse bp
  else
    modb bp (fun r => r <| b_flags ::= fun f => clrf f B_WANTED |>);;
    wakeup (ChBuf bp).

(** ** Writing *)

Definition bwrite (bp : bptr) : M unit :=
  b ← getb bp;
  let flag := b_flags b in
  modb bp (fun r => r <| b_flags ::= fun f =>
    clrf f (Z.lor B_READ (Z.lor B_DONE (Z.lor B_ERROR (Z.lor B_DELWRI B_AGE)))) |>);;
  modb bp (fun r => r <| b_bcount := BSIZE |>);;
  modify (fun s => s <| io_info ::= fun i => i <| nwrite ::= Z.succ |> |>);;
  b ← getb bp;
  d_strategy (major (b_dev b)) bp;;
  if negb (has flag B_ASYNC) then iowait bp;; brelse bp
  else if has flag B_DELWRI then modb bp (fun r => r <| b_flags ::= fun f => setf f B_AGE |>)
  else geterror bp.

Definition bawrite (bp : bptr) : M unit :=
  modb bp (fun r => r <| b_flags ::= fun f => setf f B_ASYNC |>);; bwrite bp.

Definition bdwrite (bp : bptr) : M unit :=
  b ← getb bp;
  dp ← getb (DTAB (major (b_dev b)));
  if has (b_flags dp) B_TAPE then bawrite bp
  else
    modb bp (fun r => r <| b_flags ::= fun f => setf f (Z.lor B_DELWRI B_DONE) |>);;
    brelse bp.

(** ** Getting a buffer *)

(** [dp = bp->av_forw; while (dp != &bfreelist) { i++; dp = dp->av_forw; }] *)
Definition count_avail (bp : bptr) : M Z :=
  b ← getb bp;
  iter fuel (fun '(dp, i) =>
    if bool_decide (dp = BFREELIST) then mret (inr i)
    else d ← getb dp; mret (inl (av_forw d, i + 1))) (av_forw b, 0).

(** Move [bp] from the queue it is on to the head of the queue of [dp]. *)
Definition rehash (bp dp : bptr) : M unit :=
  b ← getb bp;
  modb (b_back b) (fun r => r <| b_forw := b_forw b |>);;
  b ← getb bp;
  modb (b_forw b) (fun r => r <| b_back := b_back b |>);;
  d ← getb dp;
  modb bp (fun r => r <| b_forw := b_forw d |>);;
  modb bp (fun r => r <| b_back := dp |>);;
  d ← getb dp;
  modb (b_forw d) (fun r => r <| b_back := bp |>);;
  modb dp (fun r => r <| b_forw := bp |>).

(** The block is in a buffer: wait for it if it is busy ([None]: try again). *)
Definition getblk_hit (bp : bptr) : M (option bptr) :=
  spl6;;
  b ← getb bp;
  if has (b_flags b) B_BUSY then
    modb bp (fun r => r <| b_flags ::= fun f => setf f B_WANTED |>);;
    sleep (ChBuf bp) (PRIBIO + 1);;
    mret None
  else
    spl0;;
    i ← count_avail bp;
    when (i <? NBUF) (modify (fun s => s <| io_info ::= fun io => io <| bufcount @ i := bufcount io i + 1 |> |>));;
    notavail bp;;
    mret (Some bp).

(** The oldest available buffer, once it has nothing left to write
    ([None]: try again). *)
Definition getblk_new (dp : bptr) : M (option bptr) :=
  bp ← gets (fun s => av_forw (bufs s BFREELIST));
  notavail bp;;
  b ← getb bp;
  if has (b_flags b) B_DELWRI then
    modb bp (fun r => r <| b_flags ::= fun f => setf f B_ASYNC |>);;
    bwrite bp;;
    mret None
  else
    modb bp (fun r => r <| b_flags := B_BUSY |>);;
    rehash bp dp;;
    mret (Some bp).

Definition getblk_round (dev blkno : Z) : M (option bptr) :=
  spl0;;
  if negb (has_tab (major dev)) then panic "devtab"
  else
    hit ← scan_dev dev blkno;
    match hit with
    | Some bp => getblk_hit bp
    | None =>
        spl6;;
        fl ← getb BFREELIST;
        if bool_decide (av_forw fl = BFREELIST) then
          modb BFREELIST (fun r => r <| b_flags ::= fun f => setf f B_WANTED |>);;
          sleep (ChBuf BFREELIST) (PRIBIO + 1);;
          mret None
        else
          spl0;;
          r ← getblk_new (DTAB (major dev));
          match r with
          | None => mret None
          | Some bp =>
              modb bp (fun r => r <| b_dev := dev |>);;
              modb bp (fun r => r <| b_blkno := blkno |>);;
              mret (Some bp)
          end
    end.

(** A [goto loop] until there is a result. *)
Definition retry {A} (m : M (option A)) : M A :=
  iter fuel (fun _ => r ← m; mret (match r with None => inl tt | Some a => inr a end)) tt.

Definition getblk (dev blkno : Z) : M bptr :=
  if nblkdev <=? major dev then panic "blkdev" else retry (getblk_round dev blkno).

Definition geteblk : M bptr :=
  retry (
    spl6;;
    wait_while fuel (fun s => bool_decide (av_forw (bufs s BFREELIST) = BFREELIST))
      (modb BFREELIST (fun r => r <| b_flags ::= fun f => setf f B_WANTED |>);;
       sleep (ChBuf BFREELIST) (PRIBIO + 1));;
    spl0;;
    r ← getblk_new BFREELIST;
    match r with
    | None => mret None
    | Some bp => modb bp (fun r => r <| b_dev := NODEV |>);; mret (Some bp)
    end).

(** ** Reading *)

(** Start a read of the block of a buffer. *)
Definition start_read (bp : bptr) (dev flags : Z) : M unit :=
  modb bp (fun r => r <| b_flags ::= fun f => setf f flags |>);;
  modb bp (fun r => r <| b_bcount := BSIZE |>);;
  d_strategy (major dev) bp.

Definition bread (dev blkno : Z) : M bptr :=
  bp ← getblk dev blkno;
  b ← getb bp;
  if has (b_flags b) B_DONE then
    modify (fun s => s <| io_info ::= fun i => i <| ncache ::= Z.succ |> |>);;
    mret bp
  else
    start_read bp dev B_READ;;
    modify (fun s => s <| io_info ::= fun i => i <| nread ::= Z.succ |> |>);;
    iowait bp;;
    mret bp.

Definition breada (dev blkno rablkno : Z) : M bptr :=
  ic ← incore dev blkno;
  bp ← (if ic : bool then mret None
        else
          bp ← getblk dev blkno;
          b ← getb bp;
          when (negb (has (b_flags b) B_DONE))
            (start_read bp dev B_READ;;
             modify (fun s => s <| io_info ::= fun i => i <| nread ::= Z.succ |> |>));;
          mret (Some bp));
  ra ← (if rablkno =? 0 then mret true else incore dev rablkno);
  (if ra : bool then mret tt
   else
     rabp ← getblk dev rablkno;
     b ← getb rabp;
     if has (b_flags b) B_DONE then brelse rabp
     else
       start_read rabp dev (Z.lor B_READ B_ASYNC);;
       modify (fun s => s <| io_info ::= fun i => i <| nreada ::= Z.succ |> |>));;
  match bp with
  | None => bread dev blkno
  | Some bp => iowait bp;; mret bp
  end.

Definition clrbuf (bp : bptr) : M unit :=
  modb bp (fun r => r <| b_data ::= fun m => mfill m 0 BSIZE 0 |>);;
  modb bp (fun r => r <| b_resid := 0 |>).

(** One pass of [bflush] over the available list: the first buffer with a
    delayed write for [dev], if any. *)
Definition bflush_scan (dev : Z) : M (option bptr) :=
  bp0 ← gets (fun s => av_forw (bufs s BFREELIST));
  iter fuel (fun bp =>
    if bool_decide (bp = BFREELIST) then mret (inr None)
    else
      b ← getb bp;
      if has (b_flags b) B_DELWRI && ((dev =? NODEV) || (dev =? b_dev b)) then mret (inr (Some bp))
      else mret (inl (av_forw b))) bp0.

Definition bflush (dev : Z) : M unit :=
  iter fuel (fun _ =>
    spl6;;
    r ← bflush_scan dev;
    match r with
    | None => mret (inr tt)
    | Some bp =>
        modb bp (fun r => r <| b_flags ::= fun f => setf f B_ASYNC |>);;
        notavail bp;;
        bwrite bp;;
        mret (inl tt)
    end) tt;;
  spl0.

(** ** Swapping and raw transfers *)

(** The loop [while (count)] of [swap]. *)
Definition swap_piece (bp : bptr) (rdflg : Z) (c : Z * Z * Z) : M (Z * Z * Z + unit) :=
  let '(blkno, coreaddr, count) := c in
  if count =? 0 then mret (inr tt)
  else
    let tcount := if 960 <=? count then 960 else count in
    modb bp (fun r => r <| b_flags := Z.lor (Z.lor B_BUSY B_PHYS) rdflg |>);;
    modb bp (fun r => r <| b_dev := swapdev |>);;
    modb bp (fun r => r <| b_bcount := u16 (ctob tcount) |>);;
    modb bp (fun r => r <| b_blkno := s32 (swplo + blkno) |>);;
    modb bp (fun r => r <| b_addr := u32 (Z.shiftl coreaddr 6) |>);;
    modb bp (fun r => r <| b_xmem := Z.land (Z.shiftr coreaddr 10) 63 |>);;
    d_strategy (major swapdev) bp;;
    spl6;;
    wait_while fuel (fun s => negb (has (b_flags (bufs s bp)) B_DONE)) (sleep (ChBuf bp) PSWP);;
    mret (inl (blkno + ctod tcount, coreaddr + tcount, count - tcount)).

Definition swap (blkno coreaddr count rdflg : Z) : M unit :=
  st ← get;
  let bp := if has (b_flags (bufs st SWBUF1)) B_BUSY && negb (has (b_flags (bufs st SWBUF2)) B_WANTED)
            then SWBUF2 else SWBUF1 in
  spl6;;
  wait_while fuel (fun s => has (b_flags (bufs s bp)) B_BUSY)
    (modb bp (fun r => r <| b_flags ::= fun f => setf f B_WANTED |>);; sleep (ChBuf bp) (PSWP + 1));;
  iter fuel (swap_piece bp rdflg) (blkno, coreaddr, count);;
  b ← getb bp;
  when (has (b_flags b) B_WANTED) (wakeup (ChBuf bp));;
  spl0;;
  modb bp (fun r => r <| b_flags ::= fun f => clrf f (Z.lor B_BUSY B_WANTED) |>);;
  b ← getb bp;
  if has (b_flags b) B_ERROR then panic "IO err in swap" else mret tt.

(** The checks of [physio]: [true] when the transfer may be made. *)
Definition physio_ok (us : user) : bool :=
  let base := u32 (u_base us) in
  if has base 1 || has (u_count us) 1 || (u32 (base + u_count us) <=? base) then false
  else
    let ts := if u_sep us then 0 else Z.land (u32 (u_tsize us + 127)) (Z.lnot 127) in
    let nb := Z.land (Z.shiftr base 6) 1023 in
    if nb <? ts then false
    else negb ((u32 (ts + u_dsize us) <=? Z.land (Z.shiftr (u32 (base + u_count us)) 6) 1023)
               && (nb <? u32 (1024 - u_ssize us))).

Definition physio (strat : bptr -> M unit) (bp : bptr) (dev rw : Z) : M unit :=
  us ← getu;
  if negb (physio_ok us) then err EFAULT
  else
    let base := u32 (u_base us) in
    let nb := Z.land (Z.shiftr base 6) 1023 in
    spl6;;
    wait_while fuel (fun s => has (b_flags (bufs s bp)) B_BUSY)
      (modb bp (fun r => r <| b_flags ::= fun f => setf f B_WANTED |>);; sleep (ChBuf bp) (PRIBIO + 1));;
    modb bp (fun r => r <| b_flags := Z.lor (Z.lor B_BUSY B_PHYS) rw |>);;
    modb bp (fun r => r <| b_dev := s16 dev |>);;
    let ts := uisa (u_sep us) (Z.shiftr nb 7) + Z.land nb 127 in
    modb bp (fun r => r <| b_addr := u32 (Z.shiftl ts 6 + Z.land base 63) |>);;
    modb bp (fun r => r <| b_xmem := Z.land (Z.shiftr ts 10) 63 |>);;
    us ← getu;
    modb bp (fun r => r <| b_blkno := Z.shiftr (u_offset us) BSHIFT |>);;
    modb bp (fun r => r <| b_bcount := u_count us |>);;
    modb bp (fun r => r <| b_error := 0 |>);;
    modu (fun r => r <| u_slock := true |>);;
    strat bp;;
    spl6;;
    wait_while fuel (fun s => negb (has (b_flags (bufs s bp)) B_DONE)) (sleep (ChBuf bp) PRIBIO);;
    modu (fun r => r <| u_slock := false |>);;
    b ← getb bp;
    when (has (b_flags b) B_WANTED) (wakeup (ChBuf bp));;
    spl0;;
    modb bp (fun r => r <| b_flags ::= fun f => clrf f (Z.lor B_BUSY B_WANTED) |>);;
    b ← getb bp;
    modu (fun r => r <| u_count := b_resid b |>);;
    geterror bp.

(** ** Initialization *)

Definition binit_buf (i : Z) : M unit :=
  let bp := BUF i in
  modb bp (fun r => r <| b_dev := NODEV |>);;
  modb bp (fun r => r <| b_addr := u32 (buffers_at + 514 * i) |>);;
  modb bp (fun r => r <| b_back := BFREELIST |>);;
  fl ← getb BFREELIST;
  modb bp (fun r => r <| b_forw := b_forw fl |>);;
  fl ← getb BFREELIST;
  modb (b_forw fl) (fun r => r <| b_back := bp |>);;
  modb BFREELIST (fun r => r <| b_forw := bp |>);;
  modb bp (fun r => r <| b_flags := B_BUSY |>);;
  brelse bp.

Definition binit_dev (maj : Z) : M unit :=
  if has_tab maj then
    modb (DTAB maj) (fun r => r <| b_forw := DTAB maj |>);;
    modb (DTAB maj) (fun r => r <| b_back := DTAB maj |>)
  else mret tt.

(** The loop's count of the entries of [bdevsw] is the constant [nblkdev]. *)
Definition binit : M unit :=
  modb BFREELIST (fun r => r <| av_back := BFREELIST |> <| av_forw := BFREELIST |>
                             <| b_back := BFREELIST |> <| b_forw := BFREELIST |>);;
  each (upto NBUF) binit_buf;;
  each (upto nblkdev) binit_dev.

(** ** The lists *)

(** Case analysis on which buffer a field belongs to. *)
Ltac bufcase :=
  unfold setb; cbn; rewrite ?fn_case; repeat case_decide; simplify_eq/=; try done; try congruence.


Definition isbuf (b : bptr) : Prop := exists i, b = BUF i /\ 0 <= i < NBUF.
(** The heads of device queues. *)
Definition qhead (d : bptr) : Prop := d = BFREELIST \/ exists maj, d = DTAB maj /\ has_tab maj = true.

Lemma isbuf_not_qhead b : isbuf b -> ~ qhead b.
Proof. intros (i&->&_) [?|(?&?&_)]; done. Qed.

Abbreviation avf s := (fun b => av_forw (bufs s b)).
Abbreviation avb s := (fun b => av_back (bufs s b)).
Abbreviation bff s := (fun b => b_forw (bufs s b)).
Abbreviation bfb s := (fun b => b_back (bufs s b)).
Abbreviation flg s b := (b_flags (bufs s b)).

(** The available list is [A]. *)
Record avail (s : kst) (A : list bptr) : Prop := {
  av_ring : ring (avf s) (avb s) BFREELIST A;
  av_nodup : NoDup A;
  av_isbuf : forall b, b ∈ A -> isbuf b
}.

(** The queue of each head [d] is [Q d], and each buffer is on one of them. *)
Record queued (s : kst) (Q : bptr -> list bptr) : Prop := {
  q_ring : forall d, qhead d -> ring (bff s) (bfb s) d (Q d);
  q_nodup : forall d, qhead d -> NoDup (Q d);
  q_isbuf : forall d b, qhead d -> b ∈ Q d -> isbuf b;
  q_some : forall b, isbuf b -> exists d, qhead d /\ b ∈ Q d;
  q_one : forall b d d', qhead d -> qhead d' -> b ∈ Q d -> b ∈ Q d' -> d = d'
}.

(** Nothing but buffers and the log differs. *)
Definition rest_eq (s s' : kst) : Prop := s' <| bufs := bufs s |> <| log := log s |> = s.

Lemma rest_eq_refl s : rest_eq s s.
Proof. by destruct s. Qed.

(** What says where a buffer is queued, and what it is for and holds. *)
Definition ident (r : buf) : bptr * bptr * Z * Z * mem :=
  (b_forw r, b_back r, b_dev r, b_blkno r, b_data r).

Lemma av_nodup_head s A : avail s A -> NoDup (BFREELIST :: A).
Proof.
  intros [_ Hn Hb]. constructor; [|done]. intros Hi. destruct (Hb _ Hi) as (?&?&_). done.
Qed.

Lemma notavail_av s l1 b l2 :
  avail s (l1 ++ b :: l2) ->
  exists s', notavail b s = Ret tt s' /\ avail s' (l1 ++ l2) /\
    (forall x, flg s' x = if decide (x = b) then setf (flg s b) B_BUSY else flg s x) /\
    (forall x, ident (bufs s' x) = ident (bufs s x)) /\ rest_eq s s' /\ log s' = log s.
Proof.
  intros Hav. pose proof (av_nodup_head _ _ Hav) as Hnd.
  pose proof (ring_neighbours _ _ _ _ _ _ (av_ring _ _ Hav) Hnd) as [Hnf Hnb]. cbn in Hnf, Hnb.
  pose proof (ring_remove _ _ _ _ _ _ (av_ring _ _ Hav) Hnd) as Hr. cbn in Hr.
  unfold notavail. krun.
  set (f := av_forw (bufs s b)) in *. set (p := av_back (bufs s b)) in *.
  change (bufs (s <| spl := false |>)) with (bufs s).
  rewrite !setb_ne by done. change (bufs (s <| spl := false |>)) with (bufs s).
  fold f p. eexists. split; [reflexivity|]. split; [|split; [|split; [|split]]].
  - split.
    + eapply ring_ext; [| |exact Hr]; intros i; bufcase.
    + pose proof (av_nodup _ _ Hav) as Hn. rewrite <- Permutation_middle in Hn. by apply NoDup_cons in Hn as [_ ?].
    + intros x Hx. apply (av_isbuf _ _ Hav). mem.
  - intros x. bufcase.
  - intros x. by keep ident.
  - by destruct s.
  - done.
Qed.

Definition released (f : Z) : Z := clrf f (Z.lor B_WANTED (Z.lor B_BUSY (Z.lor B_ASYNC B_AGE))).

Lemma brelse_av s A b :
  avail s A -> isbuf b -> b ∉ A -> has (flg s b) B_ERROR = false ->
  exists s', brelse b s = Ret tt s' /\
    avail s' (if has (flg s b) B_AGE then b :: A else A ++ [b]) /\
    flg s' b = released (flg s b) /\
    (forall x, x <> b -> x <> BFREELIST -> flg s' x = flg s x) /\
    (forall x, ident (bufs s' x) = ident (bufs s x)) /\ rest_eq s s'.
Proof.
  intros Hav Hb Hn He. pose proof (av_nodup_head _ _ Hav) as Hnd.
  assert (b <> BFREELIST) as Hbf by (destruct Hb as (?&->&_); done).
  assert (b ∉ BFREELIST :: A) as Hnb by mem.
  unfold brelse. krun.
  set (s1 := if has (flg s b) B_WANTED then emit (Wakeup (ChBuf b)) s else s).
  rewrite (bind_ret _ _ s tt s1) by (unfold s1; by destruct (has (flg s b) B_WANTED)).
  assert (bufs s1 = bufs s /\ rest_eq s s1 /\ spl s1 = spl s) as (E1&R1&_).
  { unfold s1. destruct (has (flg s b) B_WANTED); [by destruct s|]. split; [done|]. split; [apply rest_eq_refl|done]. }
  krun. rewrite E1.
  set (s2 := if has (flg s BFREELIST) B_WANTED
    then emit (Wakeup (ChBuf BFREELIST)) (setb BFREELIST (fun r => r <| b_flags ::= fun f => clrf f B_WANTED |>) s1) else s1).
  rewrite (bind_ret _ _ s1 tt s2) by (unfold s2; by destruct (has (flg s BFREELIST) B_WANTED)).
  assert ((forall x, x <> BFREELIST -> bufs s2 x = bufs s x) /\ avf s2 BFREELIST = avf s BFREELIST /\
    avb s2 BFREELIST = avb s BFREELIST /\ (forall x, ident (bufs s2 x) = ident (bufs s x)) /\ rest_eq s s2 /\
    (forall x, avf s2 x = avf s x) /\ (forall x, avb s2 x = avb s x))
    as (E2&_&_&I2&R2&F2&B2).
  { unfold s2. destruct (has (flg s BFREELIST) B_WANTED).
    - split_and!; intros; rewrite ?bufs_emit, ?setb_ne, ?E1 by done; try done; try (rewrite ?bufs_emit; keep ident; by rewrite E1);
        try (keep av_forw; by rewrite E1); try (keep av_back; by rewrite E1).
    - split_and!; intros; by rewrite ?E1. }
  krun. rewrite (E2 b) by done. rewrite He. rewrite k_when_false by done. krun.
  rewrite bufs_spl, (E2 b) by done.
  assert (forall x, x ∈ A -> x <> b) as HA by (intros x Hx ->; done).
  set (s3 := s2 <| spl := false |>).
  set (f := avf s BFREELIST). set (p := avb s BFREELIST).
  set (s4 := if has (flg s b) B_AGE
    then setb b (fun r => r <| av_back := BFREELIST |>) (setb BFREELIST (fun r => r <| av_forw := b |>)
      (setb b (fun r => r <| av_forw := f |>) (setb f (fun r => r <| av_back := b |>) s3)))
    else setb b (fun r => r <| av_forw := BFREELIST |>) (setb BFREELIST (fun r => r <| av_back := b |>)
      (setb b (fun r => r <| av_back := p |>) (setb p (fun r => r <| av_forw := b |>) s3)))).
  rewrite (bind_ret _ _ s3 tt s4).
  2: { assert (av_forw (bufs s3 BFREELIST) = f /\ av_back (bufs s3 BFREELIST) = p) as [Ef Ep]
         by (split; [exact (F2 BFREELIST)|exact (B2 BFREELIST)]).
       unfold s4. destruct (has (flg s b) B_AGE); krun.
       - by rewrite (setb_keep av_forw), Ef by done.
       - by rewrite (setb_keep av_back), Ep by done. }
  krun. unfold splx. eexists. split; [reflexivity|].
  assert (forall x, ident (bufs s4 x) = ident (bufs s x)) as I4.
  { intros x. rewrite <- I2. change (bufs s2) with (bufs s3). unfold s4. destruct (has (flg s b) B_AGE); by keep ident. }
  assert (forall x, flg s4 x = flg s2 x) as G4.
  { intros x. change (bufs s2) with (bufs s3). unfold s4. destruct (has (flg s b) B_AGE); by keep b_flags. }
  split; [|split; [|split; [|split]]].
  - split.
    + pose proof (av_ring _ _ Hav) as Hr.
      destruct (has (flg s b) B_AGE).
      * pose proof (ring_insert_front _ _ _ _ b Hr Hnd Hnb) as Hr'. eapply ring_ext; [| |exact Hr']; intros i.
        -- cbv beta. rewrite bufs_spl. keep av_forw. unfold s4. rewrite (setb_keep av_forw) by done.
           rewrite (setb_field av_forw (fun _ => b)), (setb_field av_forw (fun _ => f)) by done. rewrite !fn_case.
           rewrite (setb_keep av_forw) by done. change (bufs s3) with (bufs s2). rewrite F2. done.
        -- cbv beta. rewrite bufs_spl. keep av_back. unfold s4. rewrite (setb_field av_back (fun _ => BFREELIST)) by done.
           rewrite !(setb_keep av_back _ (fun r => r <| av_forw := _ |>)) by done.
           rewrite (setb_field av_back (fun _ => b)) by done. rewrite !fn_case.
           change (bufs s3) with (bufs s2). rewrite B2. done.
      * pose proof (ring_insert_back _ _ _ _ b Hr Hnd Hnb) as Hr'. eapply ring_ext; [| |exact Hr']; intros i.
        -- cbv beta. rewrite bufs_spl. keep av_forw. unfold s4. rewrite (setb_field av_forw (fun _ => BFREELIST)) by done.
           rewrite !(setb_keep av_forw _ (fun r => r <| av_back := _ |>)) by done.
           rewrite (setb_field av_forw (fun _ => b)) by done. rewrite !fn_case.
           change (bufs s3) with (bufs s2). rewrite F2. done.
        -- cbv beta. rewrite bufs_spl. keep av_back. unfold s4. rewrite (setb_keep av_back) by done.
           rewrite (setb_field av_back (fun _ => b)), (setb_field av_back (fun _ => p)) by done. rewrite !fn_case.
           rewrite (setb_keep av_back) by done. change (bufs s3) with (bufs s2). rewrite B2. done.
    + destruct (has (flg s b) B_AGE); [by constructor; [|apply Hav]|].
      rewrite Permutation_app_comm. by constructor; [|apply Hav].
    + intros x Hx. destruct (decide (x = b)) as [->|]; [done|]. apply (av_isbuf _ _ Hav).
      destruct (has (flg s b) B_AGE); mem.
  - rewrite bufs_spl, setb_eq. cbn. by rewrite G4, E2.
  - intros x Hx Hxf. rewrite bufs_spl, setb_ne by done. by rewrite G4, E2.
  - intros x. rewrite bufs_spl. keep ident. apply I4.
  - unfold rest_eq in *. etransitivity; [|exact R2]. unfold s4, s3. clear. clearbody s2.
    by destruct (has (flg s b) B_AGE), s2.
Qed.

(** ** The cache as a whole *)

Definition bufl : list bptr := map BUF (upto NBUF).

Lemma bufl_isbuf b : b ∈ bufl <-> isbuf b.
Proof.
  unfold bufl, isbuf, upto. split.
  - intros (i&->&(n&->&Hn%elem_of_seq)%list_elem_of_fmap)%list_elem_of_fmap. exists (Z.of_nat n). unfold NBUF in *. split; [done|lia].
  - intros (i&->&Hi). apply list_elem_of_fmap. exists i. split; [done|]. apply list_elem_of_fmap.
    exists (Z.to_nat i). split; [lia|]. apply elem_of_seq. unfold NBUF in *. lia.
Qed.

Lemma bufs_length l : NoDup l -> (forall b, b ∈ l -> isbuf b) -> (length l <= 29)%nat.
Proof.
  intros Hn Hl. change 29%nat with (length bufl). apply submseteq_length, NoDup_submseteq; [done|].
  intros b Hb. apply bufl_isbuf. auto.
Qed.

(** A buffer that holds the block [blk] of [dev]. *)
Definition holds (s : kst) (dev blk : Z) (b : bptr) : bool :=
  (b_dev (bufs s b) =? dev) && (b_blkno (bufs s b) =? blk) && has (flg s b) B_DONE.

(** What a block contains, as the users of the cache see it: the data of the
    buffer that holds it, or what is on the device. *)
Definition content (s : kst) (dev blk : Z) : mem :=
  match List.find (holds s dev blk) bufl with
  | Some b => b_data (bufs s b)
  | None => disk s dev blk
  end.

(** No block's content has changed; a device has at most been brought up to date. *)
Record same_blocks (s s' : kst) : Prop := {
  sb_content : forall dev blk, dev <> NODEV -> agree 0 512 (content s' dev blk) (content s dev blk);
  sb_disk : forall dev blk, dev <> NODEV ->
    agree 0 512 (disk s' dev blk) (disk s dev blk) \/ agree 0 512 (disk s' dev blk) (content s dev blk)
}.

(** No two buffers are for the same block. *)
Definition unique (s : kst) : Prop :=
  forall b b', isbuf b -> isbuf b' -> b_dev (bufs s b) <> NODEV ->
    b_dev (bufs s b) = b_dev (bufs s b') -> b_blkno (bufs s b) = b_blkno (bufs s b') -> b = b'.

Record cache (s : kst) (A : list bptr) (Q : bptr -> list bptr) : Prop := {
  ca_av : avail s A;
  ca_q : queued s Q;
  ca_busy : forall b, isbuf b -> b ∈ A <-> has (flg s b) B_BUSY = false;
  ca_flags : forall b, isbuf b -> has (flg s b) B_MAP = false /\ has (flg s b) B_ERROR = false;
  ca_home : forall d b, qhead d -> b ∈ Q d -> b_dev (bufs s b) <> NODEV -> d = DTAB (major (b_dev (bufs s b)));
  ca_uniq : unique s;
  ca_del : forall b, b ∈ A -> has (flg s b) B_DELWRI = true -> has (flg s b) B_DONE = true /\ b_dev (bufs s b) <> NODEV;
  ca_clean : forall b, b ∈ A -> has (flg s b) B_DONE = true -> has (flg s b) B_DELWRI = false ->
    b_dev (bufs s b) <> NODEV -> agree 0 512 (b_data (bufs s b)) (disk s (b_dev (bufs s b)) (b_blkno (bufs s b)));
  ca_tape : forall maj, has (flg s (DTAB maj)) B_TAPE = false;
  ca_async : forall b, b ∈ A -> has (flg s b) B_ASYNC = false
}.

Lemma holds_true s dev blk b : holds s dev blk b = true <->
  b_dev (bufs s b) = dev /\ b_blkno (bufs s b) = blk /\ has (flg s b) B_DONE = true.
Proof. unfold holds. rewrite !andb_true_iff, !Z.eqb_eq. tauto. Qed.

Lemma content_held s b : unique s -> isbuf b -> has (flg s b) B_DONE = true -> b_dev (bufs s b) <> NODEV ->
  content s (b_dev (bufs s b)) (b_blkno (bufs s b)) = b_data (bufs s b).
Proof.
  intros Hu Hb Hd Hn. unfold content. destruct (List.find _ bufl) as [b'|] eqn:E.
  - apply List.find_some in E as [Hin (E1&E2&_)%holds_true]. apply list_elem_of_In, bufl_isbuf in Hin.
    by rewrite (Hu b b') by congruence.
  - exfalso. apply bufl_isbuf, list_elem_of_In in Hb. apply (List.find_none _ _ E) in Hb.
    assert (holds s (b_dev (bufs s b)) (b_blkno (bufs s b)) b = true) by (by apply holds_true). congruence.
Qed.

Lemma content_disk s dev blk : (forall b, isbuf b -> holds s dev blk b = false) -> content s dev blk = disk s dev blk.
Proof.
  intros H. unfold content. destruct (List.find _ bufl) as [b'|] eqn:E; [|done].
  apply List.find_some in E as [Hin E]. apply list_elem_of_In, bufl_isbuf in Hin. rewrite H in E; done.
Qed.

(** The blocks are the same if each buffer and each block of a device without
    a buffer says what it said. *)
Lemma same_blocks_intro s s' :
  unique s' ->
  (forall b, isbuf b -> has (flg s' b) B_DONE = true -> b_dev (bufs s' b) <> NODEV ->
     agree 0 512 (b_data (bufs s' b)) (content s (b_dev (bufs s' b)) (b_blkno (bufs s' b)))) ->
  (forall dev blk, dev <> NODEV -> (forall b, isbuf b -> holds s' dev blk b = false) ->
     agree 0 512 (disk s' dev blk) (content s dev blk)) ->
  disk s' = disk s ->
  same_blocks s s'.
Proof.
  intros Hu Hb Hd Hdk. split; [|intros dev blk _; left; by rewrite Hdk].
  intros dev blk Hn. unfold content at 1. destruct (List.find _ bufl) as [b|] eqn:E.
  - apply List.find_some in E as [Hin (E1&E2&E3)%holds_true]. apply list_elem_of_In, bufl_isbuf in Hin.
    subst dev blk. by apply Hb.
  - apply Hd; [done|]. intros b Hib. apply bufl_isbuf, list_elem_of_In in Hib. by apply (List.find_none _ _ E).
Qed.

(** Nothing that [content] looks at differs. *)
Lemma content_ext s s' :
  (forall b, ident (bufs s' b) = ident (bufs s b)) ->
  (forall b, isbuf b -> has (flg s' b) B_DONE = has (flg s b) B_DONE) -> disk s' = disk s ->
  forall dev blk, content s' dev blk = content s dev blk.
Proof.
  intros Hi Hf Hd dev blk. unfold content. rewrite Hd.
  assert (forall b, b_dev (bufs s' b) = b_dev (bufs s b) /\ b_blkno (bufs s' b) = b_blkno (bufs s b) /\
            b_data (bufs s' b) = b_data (bufs s b)) as Hx.
  { intros b. specialize (Hi b). unfold ident in Hi. by injection Hi. }
  assert (forall l, (forall b, b ∈ l -> isbuf b) -> List.find (holds s' dev blk) l = List.find (holds s dev blk) l) as ->.
  { induction l as [|b l IH]; intros Hl; [done|]. cbn. rewrite IH by (intros; apply Hl; mem).
    unfold holds. destruct (Hx b) as (->&->&_). by rewrite Hf by (apply Hl; mem). }
  - destruct (List.find _ bufl); [|done]. by destruct (Hx b) as (_&_&->).
  - intros b. apply bufl_isbuf.
Qed.

Lemma same_blocks_eq s s' : (forall dev blk, content s' dev blk = content s dev blk) -> disk s' = disk s -> same_blocks s s'.
Proof.
  intros H Hd. split; intros dev blk _.
  - by rewrite H.
  - left. by rewrite Hd.
Qed.
Lemma same_blocks_refl s : same_blocks s s.
Proof. by apply same_blocks_eq. Qed.
Lemma agree_trans a n m1 m2 m3 : agree a n m1 m2 -> agree a n m2 m3 -> agree a n m1 m3.
Proof. intros H1 H2 i Hi. by rewrite H1, H2. Qed.
Lemma same_blocks_trans s1 s2 s3 : same_blocks s1 s2 -> same_blocks s2 s3 -> same_blocks s1 s3.
Proof.
  intros [H1 D1] [H2 D2]. split; intros dev blk Hn; [by eapply agree_trans; auto|].
  destruct (D2 dev blk Hn) as [E|E].
  - destruct (D1 dev blk Hn) as [E'|E']; [left|right]; by eapply agree_trans.
  - right. eapply agree_trans; [exact E|by apply H1].
Qed.

(** A buffer that may go to the available list: what it holds is on the device,
    or is marked to be written. *)
Definition releasable (s : kst) (b : bptr) : Prop :=
  (has (flg s b) B_DELWRI = true -> has (flg s b) B_DONE = true /\ b_dev (bufs s b) <> NODEV) /\
  (has (flg s b) B_DONE = true -> has (flg s b) B_DELWRI = false -> b_dev (bufs s b) <> NODEV ->
     agree 0 512 (b_data (bufs s b)) (disk s (b_dev (bufs s b)) (b_blkno (bufs s b)))).

Lemma ident_fields r r' : ident r = ident r' ->
  b_forw r = b_forw r' /\ b_back r = b_back r' /\ b_dev r = b_dev r' /\ b_blkno r = b_blkno r' /\ b_data r = b_data r'.
Proof. unfold ident. intros E. by injection E. Qed.

Lemma queued_frame s s' Q :
  queued s Q -> (forall b, b_forw (bufs s' b) = b_forw (bufs s b) /\ b_back (bufs s' b) = b_back (bufs s b)) -> queued s' Q.
Proof.
  intros [H1 H2 H3 H4 H5] H. split; try done. intros d Hd. eapply ring_ext; [| |by apply H1]; intros i; apply H.
Qed.

(** A change of flags and of the available list. *)
Lemma cache_intro s s' A A' Q :
  cache s A Q -> avail s' A' -> (forall b, ident (bufs s' b) = ident (bufs s b)) -> disk s' = disk s ->
  (forall b, isbuf b -> b ∈ A' <-> has (flg s' b) B_BUSY = false) ->
  (forall b m, isbuf b -> m ∈ [B_MAP; B_ERROR; B_DONE; B_DELWRI] -> has (flg s' b) m = has (flg s b) m) ->
  (forall b, b ∈ A' -> b ∈ A \/ releasable s b) ->
  (forall maj, flg s' (DTAB maj) = flg s (DTAB maj)) ->
  (forall b, b ∈ A' -> has (flg s' b) B_ASYNC = false) -> cache s' A' Q.
Proof.
  intros [Hav Hq Hbusy Hfl Hho Hun Hde Hcl Htp Hasy] Hav' Hid Hdk Hb' Hf Hr Ht Hasy'.
  assert (forall b, b_forw (bufs s' b) = b_forw (bufs s b) /\ b_back (bufs s' b) = b_back (bufs s b) /\
     b_dev (bufs s' b) = b_dev (bufs s b) /\ b_blkno (bufs s' b) = b_blkno (bufs s b) /\
     b_data (bufs s' b) = b_data (bufs s b)) as Hx by (intros b; by apply ident_fields).
  assert (forall b, b ∈ A' -> releasable s b) as Hr'.
  { intros b Hb. destruct (Hr b Hb) as [Ha|]; [|done]. split; [by apply Hde|by apply Hcl]. }
  split; try done.
  - eapply queued_frame; [exact Hq|]. intros b. by destruct (Hx b) as (->&->&_).
  - intros b Hb. rewrite !Hf by (done || mem). by apply Hfl.
  - intros d b Hd Hbq. destruct (Hx b) as (_&_&->&_). by apply Hho.
  - intros b b' Hb Hb2. destruct (Hx b) as (_&_&->&->&_), (Hx b') as (_&_&->&->&_). by apply Hun.
  - intros b Hb. pose proof (av_isbuf _ _ Hav' b Hb). rewrite !Hf by (done || mem). destruct (Hx b) as (_&_&->&_). by apply Hr'.
  - intros b Hb. pose proof (av_isbuf _ _ Hav' b Hb). rewrite !Hf by (done || mem). destruct (Hx b) as (_&_&->&->&->). rewrite Hdk. by apply Hr'.
  - intros maj. rewrite Ht. apply Htp.
Qed.

Lemma rest_disk s s' : rest_eq s s' -> disk s' = disk s.
Proof. intros H. apply (f_equal disk) in H. done. Qed.

Lemma notavail_cache s l1 b l2 Q :
  cache s (l1 ++ b :: l2) Q ->
  exists s', notavail b s = Ret tt s' /\ cache s' (l1 ++ l2) Q /\
    flg s' b = setf (flg s b) B_BUSY /\ (forall x, x <> b -> flg s' x = flg s x) /\
    (forall x, ident (bufs s' x) = ident (bufs s x)) /\ rest_eq s s' /\
    (forall dev blk, content s' dev blk = content s dev blk).
Proof.
  intros Hc. destruct (notavail_av s l1 b l2 (ca_av _ _ _ Hc)) as (s'&E&Hav&Hf&Hid&Hr&_).
  assert (flg s' b = setf (flg s b) B_BUSY) as Hfb by (by rewrite Hf, decide_True).
  assert (forall x, x <> b -> flg s' x = flg s x) as Hfx by (intros x Hx; by rewrite Hf, decide_False).
  assert (forall x m, m ∈ [B_MAP; B_ERROR; B_DONE; B_DELWRI] -> has (flg s' x) m = has (flg s x) m) as Hm.
  { intros x m Hm. destruct (decide (x = b)) as [->|]; [|by rewrite Hfx]. rewrite Hfb.
    rewrite !elem_of_cons in Hm. destruct Hm as [->|[->|[->|[->|Hm]]]]; [by simpl_flags..|by apply elem_of_nil in Hm]. }
  assert (b ∉ l1 ++ l2) as Hbn.
  { pose proof (av_nodup _ _ (ca_av _ _ _ Hc)) as Hn. rewrite <- Permutation_middle in Hn. by apply NoDup_cons in Hn as [? _]. }
  exists s'. split; [done|]. split; [|split; [done|split; [done|split; [done|split; [done|]]]]].
  - assert (isbuf b) as Hib by (apply (av_isbuf _ _ (ca_av _ _ _ Hc)); mem).
    eapply cache_intro; [exact Hc|done|done|by apply rest_disk| |by intros; apply Hm| |intros maj; apply Hfx; by destruct Hib as (?&->&_)|].
    + intros x Hx. destruct (decide (x = b)) as [->|Hxb].
      * rewrite Hfb. split; [done|]. by simpl_flags.
      * rewrite Hfx, <- (ca_busy _ _ _ Hc x Hx) by done. mem.
    + intros x Hx. left. mem.
    + intros x Hx. rewrite Hfx by (by intros ->). apply (ca_async _ _ _ Hc). mem.
  - apply content_ext; [done| |by apply rest_disk]. intros x _. apply Hm. mem.
Qed.

Lemma brelse_cache s A Q b :
  cache s A Q -> isbuf b -> has (flg s b) B_BUSY = true -> releasable s b ->
  exists s' A', brelse b s = Ret tt s' /\ A' = (if has (flg s b) B_AGE then b :: A else A ++ [b]) /\ cache s' A' Q /\
    flg s' b = released (flg s b) /\ (forall x, isbuf x -> x <> b -> flg s' x = flg s x) /\
    (forall x, ident (bufs s' x) = ident (bufs s x)) /\ rest_eq s s' /\
    (forall dev blk, content s' dev blk = content s dev blk).
Proof.
  intros Hc Hb Hbusy Hrel. destruct (ca_flags _ _ _ Hc b Hb) as [_ He].
  assert (b ∉ A) as HnA by (rewrite (ca_busy _ _ _ Hc b Hb); congruence).
  destruct (brelse_av s A b (ca_av _ _ _ Hc) Hb HnA He) as (s'&E&Hav&Hfb&Hfx&Hid&Hr).
  assert (forall x, isbuf x -> x <> b -> flg s' x = flg s x) as Hfx'.
  { intros x (i&->&_) Hx. by apply Hfx. }
  assert (forall x m, isbuf x -> m ∈ [B_MAP; B_ERROR; B_DONE; B_DELWRI] -> has (flg s' x) m = has (flg s x) m) as Hm.
  { intros x m Hx Hm. destruct (decide (x = b)) as [->|]; [|by rewrite Hfx']. rewrite Hfb. unfold released.
    rewrite !elem_of_cons in Hm. destruct Hm as [->|[->|[->|[->|Hm]]]]; [by simpl_flags..|by apply elem_of_nil in Hm]. }
  eexists s', _. split; [done|]. split; [done|]. split; [|split; [done|split; [done|split; [done|split; [done|]]]]].
  - eapply cache_intro; [exact Hc|done|done|by apply rest_disk| |done| |intros maj; apply Hfx; [by destruct Hb as (?&->&_)|done]|].
    + intros x Hx. destruct (decide (x = b)) as [->|Hxb].
      * rewrite Hfb. unfold released. simpl_flags. split; [done|]. intros _. destruct (has (flg s b) B_AGE); mem.
      * rewrite Hfx', <- (ca_busy _ _ _ Hc x Hx) by done. destruct (has (flg s b) B_AGE); mem.
    + intros x Hx. destruct (decide (x = b)) as [->|]; [by right|left]. destruct (has (flg s b) B_AGE); mem.
    + intros x Hx. destruct (decide (x = b)) as [->|Hxb]; [rewrite Hfb; unfold released; by simpl_flags|].
      assert (x ∈ A) as HxA by (destruct (has (flg s b) B_AGE); mem).
      rewrite Hfx' by (by try apply (av_isbuf _ _ (ca_av _ _ _ Hc))). by apply (ca_async _ _ _ Hc).
  - apply content_ext; [done| |by apply rest_disk]. intros x Hx. apply Hm; [done|]. mem.
Qed.

(** ** Searching a queue *)

Definition is_block (s : kst) (dev blk : Z) (b : bptr) : bool :=
  (b_blkno (bufs s b) =? blk) && (b_dev (bufs s b) =? dev).

Lemma scan_dev_loop s dev blk d : forall l n x,
  dll (bff s) (bfb s) x l d -> d ∉ l -> (length l < n)%nat ->
  iter n (fun bp =>
    if bool_decide (bp = d) then mret (inr None)
    else
      b ← getb bp;
      if (b_blkno b =? blk) && (b_dev b =? dev) then mret (inr (Some bp)) else mret (inl (b_forw b)))
    (b_forw (bufs s x)) s = Ret (List.find (is_block s dev blk) l) s.
Proof.
  induction l as [|b l IH]; intros [|n] x H Hd Hn; cbn in Hn; try lia; cbn in H.
  - destruct H as [-> _]. by rewrite (k_iter_inr _ _ _ _ None s) by (by rewrite bool_decide_eq_true_2).
  - destruct H as (->&_&H). assert (b <> d) by (intros ->; mem). cbn [List.find].
    destruct (is_block s dev blk b) eqn:E; unfold is_block in E.
    + rewrite (k_iter_inr _ _ _ _ (Some b) s); [done|]. rewrite bool_decide_eq_false_2 by done. krun. by rewrite E.
    + rewrite (k_iter_inl _ _ _ _ (b_forw (bufs s b)) s); [apply IH; [done|mem|lia]|].
      rewrite bool_decide_eq_false_2 by done. krun. by rewrite E.
Qed.

Lemma scan_dev_spec s Q dev blk :
  queued s Q -> has_tab (major dev) = true -> (30 <= fuel)%nat ->
  scan_dev dev blk s = Ret (List.find (is_block s dev blk) (Q (DTAB (major dev)))) s.
Proof.
  intros Hq Ht Hf. assert (qhead (DTAB (major dev))) as Hh by (right; by eexists).
  unfold scan_dev. krun. apply scan_dev_loop.
  - by apply (q_ring _ _ Hq).
  - intros Hi. apply (q_isbuf _ _ Hq) in Hi; [|done]. by apply (isbuf_not_qhead _ Hi).
  - assert (length (Q (DTAB (major dev))) <= 29)%nat; [|lia].
    apply bufs_length; [by apply (q_nodup _ _ Hq)|]. intros b. by apply (q_isbuf _ _ Hq).
Qed.

(** The search finds the buffer of the block if there is one. *)
Lemma scan_dev_cache s A Q dev blk :
  cache s A Q -> has_tab (major dev) = true -> dev <> NODEV -> (30 <= fuel)%nat ->
  (exists b, scan_dev dev blk s = Ret (Some b) s /\ isbuf b /\ b_dev (bufs s b) = dev /\ b_blkno (bufs s b) = blk) \/
  (scan_dev dev blk s = Ret None s /\
   forall b, isbuf b -> ~ (b_dev (bufs s b) = dev /\ b_blkno (bufs s b) = blk)).
Proof.
  intros Hc Ht Hn Hf. pose proof (ca_q _ _ _ Hc) as Hq. rewrite (scan_dev_spec s Q dev blk Hq Ht Hf).
  assert (qhead (DTAB (major dev))) as Hh by (right; by eexists).
  destruct (List.find _ _) as [b|] eqn:E.
  - left. exists b. apply List.find_some in E as [Hin E]. apply list_elem_of_In in Hin.
    unfold is_block in E. apply andb_true_iff in E as [E1%Z.eqb_eq E2%Z.eqb_eq].
    split; [done|]. split; [|done]. by apply (q_isbuf _ _ Hq (DTAB (major dev))).
  - right. split; [done|]. intros b Hb [E1 E2].
    destruct (q_some _ _ Hq b Hb) as (d&Hd&Hin).
    assert (d = DTAB (major dev)) as -> by (rewrite <- E1; apply (ca_home _ _ _ Hc); congruence).
    apply list_elem_of_In in Hin. apply (List.find_none _ _ E) in Hin. unfold is_block in Hin.
    rewrite E1, E2, !Z.eqb_refl in Hin. done.
Qed.

(** ** A driver that finishes at once *)

(** The effect of a transfer without error: the block goes from the device to
    the buffer or back. *)
Definition transfer (bp : bptr) (s : kst) : kst :=
  let b := bufs s bp in
  if has (b_flags b) B_READ then
    setb bp (fun r => r <| b_data ::= fun m => mcopy (disk s (b_dev b) (b_blkno b)) 0 m 0 (b_bcount b) |>) s
  else
    s <| disk ::= fun d dev blk =>
      if (dev =? b_dev b) && (blk =? b_blkno b) then mcopy (b_data b) 0 (d dev blk) 0 (b_bcount b) else d dev blk |>.

(** The interface to the drivers that the theorems on blocks assume. *)
Class SyncDriver : Prop := {
  strategy_sync : forall maj bp s, isbuf bp -> has_tab maj = true -> d_strategy maj bp s = iodone bp (transfer bp s);
  enough_fuel : (200 <= fuel)%nat
}.

Context `{SD : !SyncDriver}.

Lemma mcopy_agree src dst n : agree 0 n (mcopy src 0 dst 0 n) src.
Proof. intros i Hi. unfold mcopy. rewrite bool_decide_eq_true_2 by lia. f_equal. lia. Qed.

(** ** Moving a buffer to another queue *)

Definition without (b : bptr) (l : list bptr) : list bptr := filter (fun x => x <> b) l.
Definition moved (b d : bptr) (Q : bptr -> list bptr) (x : bptr) : list bptr :=
  if decide (x = d) then b :: without b (Q x) else without b (Q x).

Lemma without_split b l1 l2 : NoDup (l1 ++ b :: l2) -> without b (l1 ++ b :: l2) = l1 ++ l2.
Proof.
  intros Hn. rewrite <- Permutation_middle in Hn. apply NoDup_cons in Hn as [Hb _].
  unfold without. rewrite filter_app, filter_cons_False by (intros ?; done).
  rewrite !filter_list_all; [done|..]; apply Forall_forall; intros i Hi ->; apply Hb; mem.
Qed.
Lemma without_none b l : b ∉ l -> without b l = l.
Proof. intros Hb. apply filter_list_all, Forall_forall. by intros i Hi ->. Qed.
Lemma elem_without b l x : x ∈ without b l <-> x <> b /\ x ∈ l.
Proof. unfold without. by rewrite list_elem_of_filter. Qed.

(** The rings of all heads. *)
Definition rings (nxt prv : bptr -> bptr) (Q : bptr -> list bptr) : Prop :=
  forall d, qhead d -> ring nxt prv d (Q d).

Lemma rings_remove nxt prv s Q b d0 :
  queued s Q -> rings nxt prv Q -> qhead d0 -> b ∈ Q d0 ->
  rings (<[prv b := nxt b]> nxt) (<[nxt b := prv b]> prv) (fun x => without b (Q x)) /\
  nxt b <> b /\ prv b <> b.
Proof.
  intros Hq Hr Hd0 Hb. pose proof (q_nodup _ _ Hq d0 Hd0) as Hn.
  assert (isbuf b) as Hib by (by apply (q_isbuf _ _ Hq d0)).
  pose proof (Hr d0 Hd0) as Hr0. apply list_elem_of_split in Hb as (l1&l2&E). rewrite E in Hr0, Hn.
  assert (NoDup (d0 :: l1 ++ b :: l2)) as Hnd.
  { constructor; [|done]. intros Hi. rewrite <- E in Hi. apply (q_isbuf _ _ Hq) in Hi; [|done]. by apply (isbuf_not_qhead _ Hi). }
  destruct (ring_neighbours _ _ _ _ _ _ Hr0 Hnd) as [Hnf Hnb].
  split; [|done]. intros x Hx. destruct (decide (x = d0)) as [->|Hxd].
  - rewrite E, without_split by done. by apply ring_remove.
  - assert (forall y, y ∈ x :: Q x -> y ∉ d0 :: Q d0) as Hdis.
    { intros y [->|Hy]%elem_of_cons [E'|Hy']%elem_of_cons; [done| | |].
      - apply (q_isbuf _ _ Hq) in Hy'; [|done]. by apply (isbuf_not_qhead _ Hy').
      - subst y. apply (q_isbuf _ _ Hq) in Hy; [|done]. by apply (isbuf_not_qhead _ Hy).
      - by apply Hxd, (q_one _ _ Hq y). }
    assert (b ∉ Q x) as Hbx by (intros Hi; apply (Hdis b); [by right|right; rewrite E; mem]).
    rewrite without_none by done. apply dll_app in Hr0 as [H1 H2].
    apply dll_prv in H1. apply dll_nxt in H2.
    assert (prv b ∈ d0 :: Q d0 /\ nxt b ∈ d0 :: Q d0) as [Hp Hf] by (rewrite E; split; mem).
    eapply dll_ext; [| |by apply Hr].
    + intros i Hi. apply fn_ne. intros <-. by apply (Hdis _ Hi).
    + intros i Hi. apply fn_ne. intros <-. apply (Hdis (nxt b)); [mem|done].
Qed.

Lemma rings_insert nxt prv s Q b d :
  queued s Q -> rings nxt prv (fun x => without b (Q x)) -> qhead d -> isbuf b ->
  rings (<[d := b]> (<[b := nxt d]> nxt)) (<[b := d]> (<[nxt d := b]> prv)) (moved b d Q) /\ nxt d <> b.
Proof.
  intros Hq Hr Hd Hb. assert (forall x, qhead x -> b <> x) as Hbx by (intros x Hx ->; by apply (isbuf_not_qhead _ Hb)).
  assert (nxt d ∈ d :: without b (Q d)) as Hnd by (pose proof (Hr d Hd) as H; apply dll_nxt in H; mem).
  split.
  - intros x Hx. unfold moved. case_decide as E.
    + subst x. apply ring_insert_front; [by apply Hr| |].
      * constructor; [|apply NoDup_filter, (q_nodup _ _ Hq); done]. intros [_ Hi]%elem_without.
        apply (q_isbuf _ _ Hq) in Hi; [|done]. by apply (isbuf_not_qhead _ Hi).
      * rewrite elem_of_cons, elem_without. pose proof (Hbx d Hd). tauto.
    + assert (forall y, y ∈ x :: without b (Q x) -> y <> d /\ y <> b /\ y ∉ without b (Q d)) as Hdis.
      { intros y [->|[Hyb Hy]%elem_without]%elem_of_cons.
        - split; [done|]. split; [by apply not_eq_sym, Hbx|]. intros [_ Hi]%elem_without.
          apply (q_isbuf _ _ Hq) in Hi; [|done]. by apply (isbuf_not_qhead _ Hi).
        - split; [intros ->; apply (q_isbuf _ _ Hq) in Hy; [|done]; by apply (isbuf_not_qhead _ Hy)|]. split; [done|].
          intros [_ Hi]%elem_without. by apply E, (q_one _ _ Hq y). }
      eapply dll_ext; [| |by apply Hr].
      * intros i Hi. destruct (Hdis i Hi) as (?&?&_). by rewrite !fn_ne by congruence.
      * intros i Hi. assert (i ∈ x :: without b (Q x)) as Hi' by mem. destruct (Hdis i Hi') as (?&?&Hn).
        rewrite !fn_ne; [done|intros <-; mem|congruence].
  - intros E. rewrite E in Hnd. apply elem_of_cons in Hnd as [Hx|[? _]%elem_without]; [by apply (Hbx d Hd)|done].
Qed.

(** What [rehash] leaves alone. *)
Definition unhash (r : buf) : buf := r <| b_forw := BFREELIST |> <| b_back := BFREELIST |>.

Lemma rehash_spec s Q b d :
  queued s Q -> isbuf b -> qhead d ->
  exists s', rehash b d s = Ret tt s' /\ queued s' (moved b d Q) /\
    (forall x, unhash (bufs s' x) = unhash (bufs s x)) /\ s' <| bufs := bufs s |> = s.
Proof.
  intros Hq Hb Hd. destruct (q_some _ _ Hq b Hb) as (d0&Hd0&Hin).
  destruct (rings_remove (bff s) (bfb s) s Q b d0 Hq (q_ring _ _ Hq) Hd0 Hin) as (Hr1&Hf&Hp).
  destruct (rings_insert _ _ s Q b d Hq Hr1 Hd Hb) as [Hr2 Hnd].
  set (f := b_forw (bufs s b)) in *. set (p := b_back (bufs s b)) in *.
  assert (b <> d) as Hbd by (intros ->; by apply (isbuf_not_qhead _ Hb)).
  set (s1 := setb f (fun r => r <| b_back := p |>) (setb p (fun r => r <| b_forw := f |>) s)).
  set (n := <[p := f]> (bff s) d) in *.
  assert (b_forw (bufs s1 d) = n) as En.
  { unfold s1, n. rewrite (setb_keep b_forw) by done. rewrite (setb_field b_forw (fun _ => f)) by done. by rewrite fn_case. }
  set (s2 := setb b (fun r => r <| b_back := d |>) (setb b (fun r => r <| b_forw := n |>) s1)).
  assert (b_forw (bufs s2 d) = n) as En2.
  { unfold s2. rewrite (setb_keep b_forw) by done. by rewrite (setb_field b_forw (fun _ => n)), decide_False by done. }
  set (s3 := setb d (fun r => r <| b_forw := b |>) (setb n (fun r => r <| b_back := b |>) s2)).
  exists s3. split; [|split; [|split]].
  - unfold rehash. krun. rewrite (setb_ne p) by done. fold f p s1. rewrite En. fold s2. by rewrite En2.
  - destruct Hq as [_ Hnd' Hib Hso Hon].
    assert (forall x i, i ∈ moved b d Q x -> i ∈ Q x \/ i = b /\ x = d) as Hm.
    { intros x i. unfold moved. case_decide; rewrite ?elem_of_cons, ?elem_without; tauto. }
    split.
    + intros x Hx. specialize (Hr2 x Hx). eapply ring_ext; [| |exact Hr2]; intros i; cbv beta.
      * unfold s3. rewrite (setb_field b_forw (fun _ => b)) by done. rewrite !fn_case.
        case_decide; [done|]. rewrite (setb_keep b_forw) by done. unfold s2. rewrite (setb_keep b_forw) by done.
        rewrite (setb_field b_forw (fun _ => n)) by done. case_decide; [done|].
        unfold s1. rewrite (setb_keep b_forw) by done. by rewrite (setb_field b_forw (fun _ => f)) by done.
      * unfold s3. rewrite (setb_keep b_back) by done. rewrite (setb_field b_back (fun _ => b)) by done.
        unfold s2. rewrite (setb_field b_back (fun _ => d)) by done. rewrite (setb_keep b_back) by done.
        unfold s1. rewrite (setb_field b_back (fun _ => p)), (setb_keep b_back) by done. rewrite !fn_case.
        destruct (decide (b = i)) as [<-|].
        -- by rewrite (decide_False (P := n = b)).
        -- by repeat case_decide.
    + intros x Hx. unfold moved. case_decide.
      * constructor; [rewrite elem_without; tauto|]. apply NoDup_filter. by apply Hnd'.
      * apply NoDup_filter. by apply Hnd'.
    + intros x i Hx [Hi|[-> _]]%Hm; [by apply (Hib x)|done].
    + intros i Hi. destruct (decide (i = b)) as [->|Hne].
      * exists d. split; [done|]. unfold moved. rewrite decide_True by done. by constructor.
      * destruct (Hso i Hi) as (x&Hx&Hix). exists x. split; [done|]. unfold moved.
        case_decide; rewrite ?elem_of_cons, ?elem_without; tauto.
    + intros i x x' Hx Hx'. unfold moved. intros H1 H2.
      destruct (decide (i = b)) as [->|Hne].
      * case_decide; case_decide; subst; try done; repeat rewrite ?elem_of_cons, ?elem_without in *; tauto.
      * apply (Hon i); [done|done|..]; repeat case_decide; repeat rewrite ?elem_of_cons, ?elem_without in *; tauto.
  - intros x. unfold s3, s2, s1. by keep unhash.
  - by destruct s.
Qed.

(** ** Writing a block out *)

(** [s'] has [m] in block [bk] of [dv], and otherwise what [s] has. *)
Definition blocks_set (s s' : kst) (dv bk : Z) (m : mem) : Prop :=
  forall dev blk, dev <> NODEV ->
    agree 0 512 (content s' dev blk) (if decide (dev = dv /\ blk = bk) then m else content s dev blk).

(** What belongs to a busy buffer may change without harm to the cache. *)
Lemma cache_busy s s' A Q b :
  cache s A Q -> isbuf b -> b ∉ A ->
  (forall x, av_forw (bufs s' x) = av_forw (bufs s x) /\ av_back (bufs s' x) = av_back (bufs s x) /\
     b_forw (bufs s' x) = b_forw (bufs s x) /\ b_back (bufs s' x) = b_back (bufs s x) /\
     b_dev (bufs s' x) = b_dev (bufs s x) /\ b_blkno (bufs s' x) = b_blkno (bufs s x)) ->
  (forall x, isbuf x -> x <> b -> flg s' x = flg s x /\ b_data (bufs s' x) = b_data (bufs s x)) ->
  (forall maj, flg s' (DTAB maj) = flg s (DTAB maj)) ->
  has (flg s' b) B_BUSY = true -> has (flg s' b) B_MAP = false -> has (flg s' b) B_ERROR = false ->
  (forall dev blk, dev <> NODEV -> ~ (dev = b_dev (bufs s b) /\ blk = b_blkno (bufs s b)) -> disk s' dev blk = disk s dev blk) ->
  cache s' A Q.
Proof.
  intros [Hav Hq Hbusy Hfl Hho Hun Hde Hcl Htp Hasy] Hb HbA Hx Ho Ht Hb1 Hb2 Hb3 Hdk.
  assert (forall x, x ∈ A -> x <> b /\ isbuf x) as HA.
  { intros x Hi. split; [by intros ->|by apply (av_isbuf _ _ Hav)]. }
  split.
  - destruct Hav as [Hr Hn Hi]. split; [|done|done]. eapply ring_ext; [| |exact Hr]; intros i; apply Hx.
  - eapply queued_frame; [exact Hq|]. intros i. by destruct (Hx i) as (_&_&->&->&_).
  - intros x Hxb. destruct (decide (x = b)) as [->|Hne]; [rewrite Hb1; split; [done|discriminate]|].
    destruct (Ho x Hxb Hne) as [-> _]. by apply Hbusy.
  - intros x Hxb. destruct (decide (x = b)) as [->|Hne]; [done|]. destruct (Ho x Hxb Hne) as [-> _]. by apply Hfl.
  - intros d x Hd Hxd. destruct (Hx x) as (_&_&_&_&->&_). by apply Hho.
  - intros x x' H1 H2. destruct (Hx x) as (_&_&_&_&->&->), (Hx x') as (_&_&_&_&->&->). by apply Hun.
  - intros x Hi. destruct (HA x Hi) as [Hne Hxb]. destruct (Ho x Hxb Hne) as [-> _].
    destruct (Hx x) as (_&_&_&_&->&_). by apply Hde.
  - intros x Hi H1 H2 H3. destruct (HA x Hi) as [Hne Hxb]. destruct (Ho x Hxb Hne) as [E1 ->]. rewrite E1 in H1, H2.
    destruct (Hx x) as (_&_&_&_&E2&->). rewrite E2 in H3 |- *. rewrite Hdk; [by apply Hcl|done|].
    intros [E3 E4]. apply Hne. apply Hun; congruence.
  - intros maj. rewrite Ht. apply Htp.
  - intros x Hi. destruct (HA x Hi) as [Hne Hxb]. destruct (Ho x Hxb Hne) as [-> _]. by apply Hasy.
Qed.

Lemma home_tab s A Q b : cache s A Q -> isbuf b -> b_dev (bufs s b) <> NODEV -> has_tab (major (b_dev (bufs s b))) = true.
Proof.
  intros Hc Hb Hn. destruct (q_some _ _ (ca_q _ _ _ Hc) b Hb) as (d&Hd&Hin).
  pose proof (ca_home _ _ _ Hc d b Hd Hin Hn) as E. destruct Hd as [->|(maj&E'&Ht)]; [done|]. congruence.
Qed.

(** The state when the driver has written the block of [b] and marked it done. *)
Definition written (b : bptr) (s : kst) : kst :=
  setb b (fun r => r <| b_flags ::= fun f => setf f B_DONE |>)
    (transfer b
      ((setb b (fun r => r <| b_bcount := BSIZE |>)
        (setb b (fun r => r <| b_flags ::= fun f =>
           clrf f (Z.lor B_READ (Z.lor B_DONE (Z.lor B_ERROR (Z.lor B_DELWRI B_AGE)))) |>) s))
       <| io_info ::= fun i => i <| nwrite ::= Z.succ |> |>)).

Definition wflags (f : Z) : Z :=
  setf (clrf f (Z.lor B_READ (Z.lor B_DONE (Z.lor B_ERROR (Z.lor B_DELWRI B_AGE))))) B_DONE.

Lemma written_bufs b s :
  flg (written b s) b = wflags (flg s b) /\
  (forall x, x <> b -> bufs (written b s) x = bufs s x) /\
  (forall x, ident (bufs (written b s) x) = ident (bufs s x) /\
     av_forw (bufs (written b s) x) = av_forw (bufs s x) /\ av_back (bufs (written b s) x) = av_back (bufs s x)) /\
  (forall dev blk, disk (written b s) dev blk =
     if (dev =? b_dev (bufs s b)) && (blk =? b_blkno (bufs s b))
     then mcopy (b_data (bufs s b)) 0 (disk s dev blk) 0 BSIZE else disk s dev blk).
Proof.
  set (s1 := (setb b (fun r => r <| b_bcount := BSIZE |>)
      (setb b (fun r => r <| b_flags ::= fun f =>
           clrf f (Z.lor B_READ (Z.lor B_DONE (Z.lor B_ERROR (Z.lor B_DELWRI B_AGE)))) |>) s))
       <| io_info ::= fun i => i <| nwrite ::= Z.succ |> |>).
  assert (forall x, x <> b -> bufs s1 x = bufs s x) as Hne.
  { intros x Hx. unfold s1. by rewrite bufs_io, !setb_ne. }
  assert (forall x, ident (bufs s1 x) = ident (bufs s x) /\
     av_forw (bufs s1 x) = av_forw (bufs s x) /\ av_back (bufs s1 x) = av_back (bufs s x)) as Hid.
  { intros x. unfold s1. split; [by keep ident|]. split; [by keep av_forw|by keep av_back]. }
  assert (has (flg s1 b) B_READ = false) as Hr.
  { unfold s1. rewrite bufs_io, !setb_eq. cbn. by simpl_flags. }
  assert (written b s = setb b (fun r => r <| b_flags ::= fun f => setf f B_DONE |>) (transfer b s1)) as -> by done.
  unfold transfer. rewrite Hr.
  set (s2 := s1 <| disk ::= _ |>). change (bufs (setb b (fun r => r <| b_flags ::= fun f => setf f B_DONE |>) s2)) with
    (bufs (setb b (fun r => r <| b_flags ::= fun f => setf f B_DONE |>) s1)).
  split; [|split; [|split]].
  - rewrite setb_eq. unfold s1. rewrite bufs_io, !setb_eq. done.
  - intros x Hx. rewrite setb_ne by done. by apply Hne.
  - intros x. rewrite (setb_keep ident), (setb_keep av_forw), (setb_keep av_back) by done. apply Hid.
  - intros dev blk.
    change ((if (dev =? b_dev (bufs s1 b)) && (blk =? b_blkno (bufs s1 b))
             then mcopy (b_data (bufs s1 b)) 0 (disk s1 dev blk) 0 (b_bcount (bufs s1 b)) else disk s1 dev blk) =
            if (dev =? b_dev (bufs s b)) && (blk =? b_blkno (bufs s b))
            then mcopy (b_data (bufs s b)) 0 (disk s dev blk) 0 BSIZE else disk s dev blk).
    destruct (Hid b) as [E _]. apply ident_fields in E as (_&_&->&->&->).
    assert (b_bcount (bufs s1 b) = BSIZE) as ->; [|done]. unfold s1. by rewrite bufs_io, !setb_eq.
Qed.

Lemma wflags_has f m : m ∈ [B_BUSY; B_MAP; B_ASYNC; B_WANTED] -> has (wflags f) m = has f m.
Proof.
  intros Hm. unfold wflags. rewrite !elem_of_cons in Hm.
  destruct Hm as [->|[->|[->|[->|Hm]]]]; [by simpl_flags..|by apply elem_of_nil in Hm].
Qed.
Lemma wflags_clear f : has (wflags f) B_DONE = true /\ has (wflags f) B_DELWRI = false /\
  has (wflags f) B_ERROR = false /\ has (wflags f) B_AGE = false.
Proof. unfold wflags. split_and!; by simpl_flags. Qed.

Lemma decide_and_eqb {T} (a b c d : Z) (x y : T) :
  (if (a =? b) && (c =? d) then x else y) = if decide (a = b /\ c = d) then x else y.
Proof.
  destruct (Z.eqb_spec a b), (Z.eqb_spec c d); cbn; destruct (decide (a = b /\ c = d)); tauto.
Qed.

Lemma written_cache s A Q b :
  cache s A Q -> isbuf b -> b ∉ A ->
  cache (written b s) A Q /\ releasable (written b s) b /\
  blocks_set s (written b s) (b_dev (bufs s b)) (b_blkno (bufs s b)) (b_data (bufs s b)).
Proof.
  intros Hc Hb HbA. destruct (written_bufs b s) as (Hfb&Hne&Hid&Hdk).
  assert (has (flg s b) B_BUSY = true) as Hbusy.
  { destruct (has (flg s b) B_BUSY) eqn:E; [done|]. by apply (ca_busy _ _ _ Hc) in E. }
  destruct (ca_flags _ _ _ Hc b Hb) as [Hmap Herr]. destruct (wflags_clear (flg s b)) as (W1&W2&W3&W4).
  assert (forall x, b_forw (bufs (written b s) x) = b_forw (bufs s x) /\ b_back (bufs (written b s) x) = b_back (bufs s x) /\
     b_dev (bufs (written b s) x) = b_dev (bufs s x) /\ b_blkno (bufs (written b s) x) = b_blkno (bufs s x) /\
     b_data (bufs (written b s) x) = b_data (bufs s x)) as Hx by (intros x; apply ident_fields, Hid).
  assert (cache (written b s) A Q) as Hc'.
  { apply (cache_busy s _ A Q b Hc Hb HbA).
    - intros x. destruct (Hid x) as (_&->&->), (Hx x) as (->&->&->&->&_). done.
    - intros x _ Hxb. by rewrite Hne.
    - intros maj. rewrite Hne; [done|]. by destruct Hb as (?&->&_).
    - by rewrite Hfb, wflags_has by mem.
    - by rewrite Hfb, wflags_has by mem.
    - by rewrite Hfb.
    - intros dev blk _ Hn. rewrite Hdk, decide_and_eqb. by rewrite decide_False. }
  split; [done|]. split.
  - split.
    + rewrite Hfb, W2. done.
    + intros _ _ _. destruct (Hx b) as (_&_&->&->&->). rewrite Hdk, !Z.eqb_refl. cbn [andb].
      intros i Hi. symmetry. by apply mcopy_agree.
  - intros dev blk Hn. unfold content at 1. destruct (List.find _ bufl) as [x|] eqn:E.
    + apply List.find_some in E as [Hin (E1&E2&E3)%holds_true]. apply list_elem_of_In, bufl_isbuf in Hin.
      destruct (Hx x) as (_&_&E4&E5&->). rewrite E4 in E1. rewrite E5 in E2. subst dev blk.
      destruct (decide (x = b)) as [->|Hxb]; [by rewrite decide_True|].
      rewrite decide_False.
      * rewrite content_held; [done|apply Hc|done| |done]. by rewrite Hne in E3.
      * intros [E6 E7]. apply Hxb. by apply (ca_uniq _ _ _ Hc).
    + rewrite Hdk, decide_and_eqb. case_decide as Ed; [apply mcopy_agree|].
      rewrite content_disk; [done|]. intros x Hxb. destruct (holds s dev blk x) eqn:Eh; [|done].
      apply holds_true in Eh as (E1&E2&E3). apply bufl_isbuf, list_elem_of_In in Hxb.
      apply (List.find_none _ _ E) in Hxb. enough (holds (written b s) dev blk x = true) by congruence. apply holds_true.
      destruct (Hx x) as (_&_&->&->&_). split; [done|]. split; [done|].
      destruct (decide (x = b)) as [->|Hxn]; [by rewrite Hfb|by rewrite Hne].
Qed.

(** The rest of the kernel's state: what buffer operations leave alone. *)
Definition others (s : kst) :=
  (inodes s, files s, mounts s, texts s, (u s, time s, rootdir s, rablock s, updlock s), signalled s, umem s, kmem s).

Lemma rest_others s s' : rest_eq s s' -> others s' = others s.
Proof. intros H. apply (f_equal others) in H. done. Qed.

Lemma iodone_sync b s : isbuf b -> has (flg s b) B_MAP = false ->
  iodone b s = if has (flg s b) B_ASYNC then brelse b (setb b (fun r => r <| b_flags ::= fun f => setf f B_DONE |>) s)
    else Ret tt (emit (Wakeup (ChBuf b)) (setb b (fun r => r <| b_flags ::= fun f => clrf f B_WANTED |>)
           (setb b (fun r => r <| b_flags ::= fun f => setf f B_DONE |>) s))).
Proof.
  intros Hb Hm. unfold iodone. krun. rewrite Hm, k_when_false by done. krun.
  rewrite setb_eq. cbn [b_flags]. assert (has (setf (flg s b) B_DONE) B_ASYNC = has (flg s b) B_ASYNC) as E by (by simpl_flags).
  change (b_flags ((bufs s b) <| b_flags ::= fun f => setf f B_DONE |>)) with (setf (flg s b) B_DONE).
  rewrite E. by destruct (has (flg s b) B_ASYNC).
Qed.

(** The driver's part of [bwrite]. *)
Lemma bwrite_strategy s A Q b :
  cache s A Q -> isbuf b -> b_dev (bufs s b) <> NODEV ->
  let s1 := (setb b (fun r => r <| b_bcount := BSIZE |>)
        (setb b (fun r => r <| b_flags ::= fun f =>
           clrf f (Z.lor B_READ (Z.lor B_DONE (Z.lor B_ERROR (Z.lor B_DELWRI B_AGE)))) |>) s))
       <| io_info ::= fun i => i <| nwrite ::= Z.succ |> |> in
  d_strategy (major (b_dev (bufs s1 b))) b s1 =
    if has (flg s b) B_ASYNC then brelse b (written b s)
    else Ret tt (emit (Wakeup (ChBuf b)) (setb b (fun r => r <| b_flags ::= fun f => clrf f B_WANTED |>) (written b s))).
Proof.
  intros Hc Hb Hn s1. destruct (ca_flags _ _ _ Hc b Hb) as [Hmap _].
  assert (b_dev (bufs s1 b) = b_dev (bufs s b)) as -> by (unfold s1; rewrite bufs_io, !setb_eq; done).
  rewrite strategy_sync by (done || by eapply home_tab).
  assert (flg (transfer b s1) b = clrf (flg s b) (Z.lor B_READ (Z.lor B_DONE (Z.lor B_ERROR (Z.lor B_DELWRI B_AGE))))) as Ef.
  { assert (flg s1 b = clrf (flg s b) (Z.lor B_READ (Z.lor B_DONE (Z.lor B_ERROR (Z.lor B_DELWRI B_AGE))))) as E
      by (unfold s1; rewrite bufs_io, !setb_eq; done).
    rewrite <- E. unfold transfer. rewrite E. by replace (has _ B_READ) with false by (by simpl_flags). }
  rewrite iodone_sync; [|done|rewrite Ef; by simpl_flags]. rewrite Ef.
  assert (has (clrf (flg s b) (Z.lor B_READ (Z.lor B_DONE (Z.lor B_ERROR (Z.lor B_DELWRI B_AGE))))) B_ASYNC = has (flg s b) B_ASYNC) as -> by (by simpl_flags).
  done.
Qed.

(** What every operation on the buffers [b] guarantees about the others. *)
Definition same_bufs (P : bptr -> Prop) (s s' : kst) : Prop :=
  forall x, isbuf x -> P x -> flg s' x = flg s x /\ ident (bufs s' x) = ident (bufs s x).

Lemma others_written b s : others (written b s) = others s.
Proof. unfold written, transfer. by destruct (has _ B_READ). Qed.

(** The write of a delayed buffer before its reuse. *)
Lemma bwrite_async s A Q b :
  cache s A Q -> isbuf b -> b ∉ A -> b_dev (bufs s b) <> NODEV ->
  has (flg s b) B_ASYNC = true -> has (flg s b) B_DELWRI = true -> has (flg s b) B_DONE = true ->
  exists s', bwrite b s = Ret tt s' /\ cache s' (A ++ [b]) Q /\ same_blocks s s' /\
    has (flg s' b) B_DELWRI = false /\ ident (bufs s' b) = ident (bufs s b) /\
    same_bufs (fun x => x <> b) s s' /\ others s' = others s.
Proof.
  intros Hc Hb HbA Hn Has Hdw Hdn.
  destruct (written_cache s A Q b Hc Hb HbA) as (Hcw&Hrel&Hset).
  destruct (written_bufs b s) as (Hfb&Hne&Hid&Hdk). destruct (wflags_clear (flg s b)) as (W1&W2&W3&W4).
  assert (has (flg (written b s) b) B_BUSY = true) as Hbw.
  { rewrite Hfb, wflags_has by mem. destruct (has (flg s b) B_BUSY) eqn:E; [done|]. by apply (ca_busy _ _ _ Hc) in E. }
  destruct (brelse_cache _ A Q b Hcw Hb Hbw Hrel) as (s1&A1&E&EA&Hc1&Hf1&Hfx1&Hid1&Hr1&Hct1).
  rewrite Hfb, W4 in EA. subst A1.
  unfold bwrite. krun. rewrite Has, Hdw.
  rewrite (bind_ret _ _ _ tt s1) by (by rewrite (bwrite_strategy s A Q b), Has).
  cbn [negb]. unfold modb. set (s2 := setb b (fun r => r <| b_flags ::= fun f => setf f B_AGE |>) s1).
  exists s2. split; [done|].
  assert (forall x, ident (bufs s2 x) = ident (bufs s1 x)) as Hid2 by (intros x; unfold s2; by keep ident).
  assert (flg s2 b = setf (flg s1 b) B_AGE) as Hf2 by (unfold s2; by rewrite setb_eq).
  assert (forall x, x <> b -> flg s2 x = flg s1 x) as Hfx2 by (intros x Hx; unfold s2; by rewrite setb_ne).
  assert (forall x m, m ∈ [B_BUSY; B_MAP; B_ERROR; B_DONE; B_DELWRI] -> has (flg s2 x) m = has (flg s1 x) m) as Hm.
  { intros x m Hm. destruct (decide (x = b)) as [->|]; [|by rewrite Hfx2]. rewrite Hf2.
    rewrite !elem_of_cons in Hm. destruct Hm as [->|[->|[->|[->|[->|Hm]]]]]; [by simpl_flags..|by apply elem_of_nil in Hm]. }
  split; [|split; [|split; [|split; [|split]]]].
  - eapply cache_intro; [exact Hc1| |done|done| | |by left|intros maj; apply Hfx2; by destruct Hb as (?&->&_)|].
    + destruct (ca_av _ _ _ Hc1) as [Hr Hnd Hi]. split; [|done|done].
      eapply ring_ext; [| |exact Hr]; intros x; unfold s2; [by keep av_forw|by keep av_back].
    + intros x Hx. rewrite Hm by mem. by apply (ca_busy _ _ _ Hc1).
    + intros x m _ Hmm. apply Hm. mem.
    + intros x Hx. destruct (decide (x = b)) as [->|]; [|rewrite Hfx2 by done; by apply (ca_async _ _ _ Hc1)].
      rewrite Hf2. pose proof (ca_async _ _ _ Hc1 b Hx) as Ha. rewrite <- Ha. by simpl_flags.
  - split; intros dev blk Hd.
    + intros i Hi. rewrite (content_ext s1 s2); [|done|intros x _; apply Hm; mem|done].
      rewrite Hct1, (Hset dev blk Hd i Hi). case_decide as Ed; [|done]. destruct Ed as [-> ->].
      by rewrite (content_held s b) by (done || apply Hc).
    + change (disk s2) with (disk s1). rewrite (rest_disk _ _ Hr1), Hdk.
      destruct (_ && _) eqn:Eb; [right|by left]. apply andb_true_iff in Eb as [->%Z.eqb_eq ->%Z.eqb_eq].
      rewrite (content_held s b) by (done || apply Hc). apply mcopy_agree.
  - rewrite Hm by mem. rewrite Hf1, Hfb. unfold released. rewrite <- W2. by simpl_flags.
  - rewrite Hid2, Hid1. apply Hid.
  - intros x Hx Hxb. rewrite Hfx2, Hfx1, Hne, Hid2, Hid1 by done. split; [done|]. apply Hid.
  - change (others s2) with (others s1). by rewrite (rest_others _ _ Hr1), others_written.
Qed.

(** ** bwrite and bdwrite *)

Lemma geterror_none b s : has (flg s b) B_ERROR = false -> geterror b s = Ret tt s.
Proof. intros E. unfold geterror. krun. by rewrite E. Qed.

Lemma iowait_done b s : has (flg s b) B_DONE = true -> has (flg s b) B_ERROR = false ->
  iowait b s = Ret tt (s <| spl := true |>).
Proof.
  intros Hd He. unfold iowait. krun. unfold wait_while. pose proof enough_fuel as Hf.
  destruct fuel as [|n]; [lia|].
  rewrite (bind_ret _ _ _ tt (s <| spl := false |>)).
  - krun. apply geterror_none. done.
  - apply (k_iter_inr _ _ _ _ tt (s <| spl := false |>)). kred. change (bufs (s <| spl := false |>)) with (bufs s).
    by rewrite Hd.
Qed.

(** A synchronous [bwrite] puts the block on the device and releases the buffer. *)
Lemma bwrite_sync s A Q b :
  cache s A Q -> isbuf b -> b ∉ A -> b_dev (bufs s b) <> NODEV -> has (flg s b) B_ASYNC = false ->
  exists s', bwrite b s = Ret tt s' /\ cache s' (A ++ [b]) Q /\
    blocks_set s s' (b_dev (bufs s b)) (b_blkno (bufs s b)) (b_data (bufs s b)) /\
    agree 0 512 (disk s' (b_dev (bufs s b)) (b_blkno (bufs s b))) (b_data (bufs s b)) /\
    same_bufs (fun x => x <> b) s s' /\ others s' = others s.
Proof.
  intros Hc Hb HbA Hn Has.
  destruct (written_cache s A Q b Hc Hb HbA) as (Hcw&Hrel&Hset).
  destruct (written_bufs b s) as (Hfb&Hne&Hid&Hdk). destruct (wflags_clear (flg s b)) as (W1&W2&W3&W4).
  unfold bwrite. krun. rewrite Has.
  set (s1 := emit (Wakeup (ChBuf b)) (setb b (fun r => r <| b_flags ::= fun f => clrf f B_WANTED |>) (written b s))).
  rewrite (bind_ret _ _ _ tt s1) by (by rewrite (bwrite_strategy s A Q b), Has).
  cbn [negb].
  assert (flg s1 b = clrf (wflags (flg s b)) B_WANTED) as Hf1.
  { unfold s1. rewrite bufs_emit, setb_eq. by rewrite <- Hfb. }
  assert (forall x, x <> b -> bufs s1 x = bufs (written b s) x) as Hne1.
  { intros x Hx. unfold s1. by rewrite bufs_emit, setb_ne. }
  assert (forall x, ident (bufs s1 x) = ident (bufs s x)) as Hid1.
  { intros x. rewrite <- (proj1 (Hid x)). unfold s1. by keep ident. }
  assert (forall m, m ∈ [B_BUSY; B_MAP; B_ERROR; B_DONE; B_DELWRI] -> has (flg s1 b) m = has (wflags (flg s b)) m) as Hm.
  { intros m Hm. rewrite Hf1. rewrite !elem_of_cons in Hm.
    destruct Hm as [->|[->|[->|[->|[->|Hm]]]]]; [by simpl_flags..|by apply elem_of_nil in Hm]. }
  assert (has (flg s b) B_BUSY = true) as Hbusy.
  { destruct (has (flg s b) B_BUSY) eqn:E; [done|]. by apply (ca_busy _ _ _ Hc) in E. }
  destruct (ca_flags _ _ _ Hc b Hb) as [Hmap _].
  rewrite (bind_ret _ _ _ tt (s1 <| spl := true |>)) by (apply iowait_done; by rewrite Hm by mem).
  set (s2 := s1 <| spl := true |>).
  assert (bufs s2 = bufs s1) as Eb by apply bufs_spl.
  assert (disk s2 = disk (written b s) /\ others s2 = others (written b s)) as [Ed Eo] by (unfold s2, s1; done).
  assert (forall x, av_forw (bufs s1 x) = av_forw (bufs (written b s) x) /\ av_back (bufs s1 x) = av_back (bufs (written b s) x)) as Hav1
    by (intros x; unfold s1; split; [by keep av_forw|by keep av_back]).
  clearbody s2.
  assert (forall x, b_forw (bufs s2 x) = b_forw (bufs (written b s) x) /\ b_back (bufs s2 x) = b_back (bufs (written b s) x) /\
     b_dev (bufs s2 x) = b_dev (bufs (written b s) x) /\ b_blkno (bufs s2 x) = b_blkno (bufs (written b s) x) /\
     b_data (bufs s2 x) = b_data (bufs (written b s) x)) as Hx2.
  { intros x. apply ident_fields. rewrite Eb. by rewrite Hid1, (proj1 (Hid x)). }
  assert (cache s2 A Q) as Hc2.
  { apply (cache_busy _ _ A Q b Hcw Hb HbA).
    - intros x. destruct (Hx2 x) as (->&->&->&->&_). rewrite Eb. destruct (Hav1 x) as [-> ->]. done.
    - intros x _ Hxb. rewrite Eb. by rewrite Hne1.
    - intros maj. rewrite Eb. rewrite Hne1; [done|]. by destruct Hb as (?&->&_).
    - rewrite Eb. rewrite Hm by mem. by rewrite wflags_has by mem.
    - rewrite Eb. rewrite Hm by mem. by rewrite wflags_has by mem.
    - rewrite Eb. by rewrite Hm by mem.
    - intros. by rewrite Ed. }
  assert (releasable s2 b) as Hrel2.
  { unfold releasable in *. rewrite Eb. rewrite ?Ed.
    rewrite !Hm by mem. rewrite Hfb in Hrel. destruct (Hx2 b) as (_&_&E1&E2&E3).
    rewrite Eb in E1, E2, E3. by rewrite E1, E2, E3. }
  destruct (brelse_cache s2 A Q b Hc2 Hb) as (s3&A3&E&EA&Hc3&_&Hfx3&Hid3&Hr3&Hct3); [|done|].
  { rewrite Eb. rewrite Hm by mem. by rewrite wflags_has by mem. }
  rewrite Eb in EA. rewrite Hf1 in EA. replace (has _ B_AGE) with false in EA.
  2: { unfold wflags. by simpl_flags. }
  subst A3. exists s3. split; [done|]. split; [done|]. split; [|split; [|split]].
  - intros dev blk Hd i Hi. rewrite Hct3, (content_ext (written b s) s2); [by apply Hset| | |exact Ed].
    + intros x. rewrite Eb. by rewrite Hid1, (proj1 (Hid x)).
    + intros x _. rewrite Eb. destruct (decide (x = b)) as [->|Hxb]; [|by rewrite Hne1].
      rewrite Hm by mem. by rewrite Hfb.
  - rewrite (rest_disk _ _ Hr3). rewrite ?Ed. rewrite Hdk, !Z.eqb_refl. apply mcopy_agree.
  - intros x Hx Hxb. rewrite Hfx3, Hid3 by done. rewrite Eb. rewrite Hid1, Hne1, Hne by done. done.
  - rewrite (rest_others _ _ Hr3). rewrite Eo. apply others_written.
Qed.

(** A delayed write only marks the buffer. *)
Lemma bdwrite_spec s A Q b :
  cache s A Q -> isbuf b -> b ∉ A -> b_dev (bufs s b) <> NODEV ->
  exists s' A', bdwrite b s = Ret tt s' /\ cache s' A' Q /\ A' ≡ₚ b :: A /\
    blocks_set s s' (b_dev (bufs s b)) (b_blkno (bufs s b)) (b_data (bufs s b)) /\
    disk s' = disk s /\ same_bufs (fun x => x <> b) s s' /\ others s' = others s.
Proof.
  intros Hc Hb HbA Hn. unfold bdwrite. krun. rewrite (ca_tape _ _ _ Hc). krun.
  set (s1 := setb b (fun r => r <| b_flags ::= fun f => setf f (Z.lor B_DELWRI B_DONE) |>) s).
  assert (flg s1 b = setf (flg s b) (Z.lor B_DELWRI B_DONE)) as Hf1 by (unfold s1; by rewrite setb_eq).
  assert (forall x, x <> b -> bufs s1 x = bufs s x) as Hne1 by (intros x Hx; unfold s1; by rewrite setb_ne).
  assert (forall x, ident (bufs s1 x) = ident (bufs s x)) as Hid1 by (intros x; unfold s1; by keep ident).
  assert (has (flg s b) B_BUSY = true) as Hbusy.
  { destruct (has (flg s b) B_BUSY) eqn:E; [done|]. by apply (ca_busy _ _ _ Hc) in E. }
  destruct (ca_flags _ _ _ Hc b Hb) as [Hmap Herr].
  assert (forall x, b_forw (bufs s1 x) = b_forw (bufs s x) /\ b_back (bufs s1 x) = b_back (bufs s x) /\
     b_dev (bufs s1 x) = b_dev (bufs s x) /\ b_blkno (bufs s1 x) = b_blkno (bufs s x) /\
     b_data (bufs s1 x) = b_data (bufs s x)) as Hx by (intros x; apply ident_fields, Hid1).
  assert (cache s1 A Q) as Hc1.
  { apply (cache_busy _ _ A Q b Hc Hb HbA).
    - intros x. destruct (Hx x) as (->&->&->&->&_). unfold s1. split_and!; [by keep av_forw|by keep av_back|done..].
    - intros x _ Hxb. by rewrite Hne1.
    - intros maj. rewrite Hne1; [done|]. by destruct Hb as (?&->&_).
    - rewrite Hf1. simpl_flags. by rewrite Hbusy.
    - rewrite Hf1. simpl_flags. by rewrite Hmap.
    - rewrite Hf1. simpl_flags. by rewrite Herr.
    - done. }
  destruct (Hx b) as (_&_&E1&E2&E3).
  destruct (brelse_cache s1 A Q b Hc1 Hb) as (s3&A3&E&EA&Hc3&_&Hfx3&Hid3&Hr3&Hct3).
  { rewrite Hf1. simpl_flags. by rewrite Hbusy. }
  { split; [|rewrite Hf1; simpl_flags; discriminate]. rewrite E1, Hf1. intros _. split; [by simpl_flags|done]. }
  exists s3, A3. split; [done|]. split; [done|]. split; [|split; [|split; [|split]]].
  - rewrite EA. destruct (has (flg s1 b) B_AGE); [done|]. by rewrite Permutation_app_comm.
  - intros dev blk Hd i Hi. rewrite Hct3. unfold content at 1. destruct (List.find _ bufl) as [x|] eqn:Ef.
    + apply List.find_some in Ef as [Hin (F1&F2&F3)%holds_true]. apply list_elem_of_In, bufl_isbuf in Hin.
      destruct (Hx x) as (_&_&G1&G2&->). rewrite G1 in F1. rewrite G2 in F2. subst dev blk.
      destruct (decide (x = b)) as [->|Hxb]; [by rewrite decide_True|]. rewrite decide_False.
      * rewrite content_held; [done|apply Hc|done| |done]. by rewrite Hne1 in F3.
      * intros [F6 F7]. apply Hxb. by apply (ca_uniq _ _ _ Hc).
    + rewrite decide_False.
      2: { intros [-> ->]. apply bufl_isbuf, list_elem_of_In in Hb. apply (List.find_none _ _ Ef) in Hb.
           enough (holds s1 (b_dev (bufs s b)) (b_blkno (bufs s b)) b = true) by congruence.
           apply holds_true. split; [done|]. split; [done|]. rewrite Hf1. by simpl_flags. }
      change (disk s1) with (disk s). rewrite content_disk; [done|]. intros x Hxb.
      destruct (holds s dev blk x) eqn:Eh; [|done]. apply holds_true in Eh as (F1&F2&F3).
      apply bufl_isbuf, list_elem_of_In in Hxb. apply (List.find_none _ _ Ef) in Hxb.
      enough (holds s1 dev blk x = true) by congruence. apply holds_true.
      destruct (Hx x) as (_&_&->&->&_). split; [done|]. split; [done|].
      destruct (decide (x = b)) as [->|Hxn]; [rewrite Hf1; by simpl_flags|by rewrite Hne1].
  - apply (rest_disk _ _ Hr3).
  - intros x Hxb Hxn. rewrite Hfx3, Hid3 by done. by rewrite Hid1, Hne1.
  - by rewrite (rest_others _ _ Hr3).
Qed.

(** ** Getting a buffer *)

Lemma cache_bufs s s' A Q : cache s A Q -> bufs s' = bufs s -> disk s' = disk s -> cache s' A Q.
Proof.
  intros [[Hr Hn Hi] [R1 R2 R3 R4 R5] Hbusy Hfl Hho Hun Hde Hcl Htp Hasy] Eb Ed. unfold unique in *.
  split; unfold unique; [split|split|..]; rewrite ?Eb, ?Ed; try done.
Qed.
Lemma content_bufs s s' dev blk : bufs s' = bufs s -> disk s' = disk s -> content s' dev blk = content s dev blk.
Proof. intros Eb Ed. unfold content, holds. by rewrite Eb, Ed. Qed.
Lemma same_blocks_bufs s s' : bufs s' = bufs s -> disk s' = disk s -> same_blocks s s'.
Proof. intros Eb Ed. apply same_blocks_eq; [|done]. intros. by apply content_bufs. Qed.
Lemma same_blocks_rest s s' : rest_eq s s' -> (forall dev blk, content s' dev blk = content s dev blk) -> same_blocks s s'.
Proof. intros Hr Hc. apply same_blocks_eq; [done|]. by apply rest_disk. Qed.

Lemma count_avail_spec s b l : dll (avf s) (avb s) b l BFREELIST -> BFREELIST ∉ l -> (length l < fuel)%nat ->
  count_avail b s = Ret (Z.of_nat (length l)) s.
Proof.
  intros H Hn Hf. unfold count_avail. krun.
  enough (forall l n x i, dll (avf s) (avb s) x l BFREELIST -> BFREELIST ∉ l -> (length l < n)%nat ->
    (iter n (fun '(dp, i) =>
      if bool_decide (dp = BFREELIST) then mret (inr i)
      else d ← getb dp; mret (inl (av_forw d, i + 1))) (av_forw (bufs s x), i) : M Z) s = Ret (i + Z.of_nat (length l)) s) as G
    by (by apply (G l fuel b 0)).
  clear. induction l as [|y l IH]; intros [|n] x i H Hn Hl; cbn [length] in Hl; try lia; cbn in H.
  - destruct H as [-> _]. rewrite (k_iter_inr _ _ _ _ i s) by done. f_equal. cbn. lia.
  - destruct H as (->&_&H). assert (y <> BFREELIST) by (intros ->; mem).
    rewrite (k_iter_inl _ _ _ _ (av_forw (bufs s y), i + 1) s).
    + rewrite IH; [f_equal; cbn [length]; lia|done|mem|lia].
    + by rewrite bool_decide_eq_false_2.
Qed.

Lemma avail_length s A : avail s A -> (length A <= 29)%nat.
Proof. intros [_ Hn Hb]. by apply bufs_length. Qed.

Lemma getblk_hit_spec s l1 b l2 Q :
  cache s (l1 ++ b :: l2) Q ->
  exists s', getblk_hit b s = Ret (Some b) s' /\ cache s' (l1 ++ l2) Q /\ flg s' b = setf (flg s b) B_BUSY /\
    ident (bufs s' b) = ident (bufs s b) /\ same_bufs (fun x => x <> b) s s' /\ same_blocks s s' /\
    others s' = others s /\ disk s' = disk s.
Proof.
  intros Hc. pose proof (ca_av _ _ _ Hc) as Hav. pose proof (av_nodup _ _ Hav) as Hnd.
  assert (isbuf b) as Hb by (apply (av_isbuf _ _ Hav); mem).
  assert (has (flg s b) B_BUSY = false) as Hbusy by (apply (ca_busy _ _ _ Hc b Hb); mem).
  pose proof (av_ring _ _ Hav) as Hr. apply dll_app in Hr as [_ Hr].
  pose proof (avail_length _ _ Hav) as Hl. rewrite length_app in Hl. cbn in Hl.
  assert (BFREELIST ∉ l2) as Hnf.
  { intros Hi. destruct (av_isbuf _ _ Hav BFREELIST) as (?&?&_); [mem|done]. }
  unfold getblk_hit. krun. change (bufs (s <| spl := false |>)) with (bufs s). rewrite Hbusy. krun.
  set (s1 := s <| spl := false |> <| spl := true |>).
  rewrite (bind_ret _ _ s1 (Z.of_nat (length l2)) s1)
    by (apply count_avail_spec; [done|done|pose proof enough_fuel; lia]).
  rewrite k_when.
  match goal with |- context [if ?c then ?a else s1] => set (s2 := if c then a else s1) end.
  assert (bufs s2 = bufs s /\ disk s2 = disk s /\ others s2 = others s) as (Eb&Ed&Eo) by (unfold s2; by destruct (_ <? _)).
  clearbody s2. assert (cache s2 (l1 ++ b :: l2) Q) as Hc2 by (by eapply cache_bufs).
  destruct (notavail_cache s2 l1 b l2 Q Hc2) as (s3&E&Hc3&Hf3&Hfx3&Hid3&Hr3&Hct3).
  rewrite (bind_ret _ _ _ _ _ E). exists s3. split; [done|]. split; [done|]. rewrite Eb in *. split; [done|].
  split; [by rewrite Hid3|]. split; [intros x _ Hx; by rewrite Hfx3, Hid3|]. split; [|split].
  - apply same_blocks_eq; [|by rewrite (rest_disk _ _ Hr3)]. intros dev blk. rewrite Hct3. by apply content_bufs.
  - by rewrite (rest_others _ _ Hr3).
  - by rewrite (rest_disk _ _ Hr3).
Qed.

(** The buffer [b] becomes that of block [blk] of [dev]. *)
Lemma assign_spec s A Q b dev blk d :
  cache s A Q -> isbuf b -> b ∉ A -> has (flg s b) B_DELWRI = false -> releasable s b -> qhead d ->
  (dev <> NODEV -> d = DTAB (major dev) /\ forall x, isbuf x -> ~ (b_dev (bufs s x) = dev /\ b_blkno (bufs s x) = blk)) ->
  exists s', (modb b (fun r => r <| b_flags := B_BUSY |>);; rehash b d) s = Ret tt s' /\
    let s2 := setb b (fun r => r <| b_blkno := blk |>) (setb b (fun r => r <| b_dev := dev |>) s') in
    cache s2 A (moved b d Q) /\ flg s2 b = B_BUSY /\ b_dev (bufs s2 b) = dev /\ b_blkno (bufs s2 b) = blk /\
    (forall x, x <> b -> flg s2 x = flg s x /\ b_dev (bufs s2 x) = b_dev (bufs s x) /\
       b_blkno (bufs s2 x) = b_blkno (bufs s x) /\ b_data (bufs s2 x) = b_data (bufs s x)) /\
    same_blocks s s2 /\ others s2 = others s.
Proof.
  intros Hc Hb HbA Hdw [_ Hcln] Hd Hdev.
  set (s1 := setb b (fun r => r <| b_flags := B_BUSY |>) s).
  assert (queued s1 Q) as Hq1.
  { eapply queued_frame; [apply Hc|]. intros x. unfold s1. split; [by keep b_forw|by keep b_back]. }
  destruct (rehash_spec s1 Q b d Hq1 Hb Hd) as (s'&E&Hq'&Hun&Hrest).
  exists s'. split; [unfold modb; krun; exact E|]. intros s2.
  assert (forall x, flg s2 x = flg s1 x /\ av_forw (bufs s2 x) = av_forw (bufs s1 x) /\ av_back (bufs s2 x) = av_back (bufs s1 x) /\
     b_data (bufs s2 x) = b_data (bufs s1 x)) as H1.
  { intros x. pose proof (Hun x) as Hu. unfold s2.
    pose proof (f_equal b_flags Hu) as U1. pose proof (f_equal av_forw Hu) as U2. pose proof (f_equal av_back Hu) as U3.
    pose proof (f_equal b_data Hu) as U4. cbn in U1, U2, U3, U4.
    split_and!; [by keep b_flags|by keep av_forw|by keep av_back|by keep b_data]. }
  assert (forall x, x <> b -> b_dev (bufs s2 x) = b_dev (bufs s x) /\ b_blkno (bufs s2 x) = b_blkno (bufs s x)) as H2.
  { intros x Hx. pose proof (Hun x) as Hu. unfold s2. rewrite !setb_ne by congruence.
    assert (b_dev (bufs s' x) = b_dev (bufs s1 x)) as -> by apply (f_equal b_dev Hu).
    assert (b_blkno (bufs s' x) = b_blkno (bufs s1 x)) as -> by apply (f_equal b_blkno Hu).
    unfold s1. by rewrite setb_ne by congruence. }
  assert (b_dev (bufs s2 b) = dev /\ b_blkno (bufs s2 b) = blk) as [Hbd Hbb] by (unfold s2; by rewrite !setb_eq).
  assert (flg s2 b = B_BUSY) as Hbf by (destruct (H1 b) as (->&_); unfold s1; by rewrite setb_eq).
  assert (forall x, x <> b -> flg s2 x = flg s x) as H3 by (intros x Hx; destruct (H1 x) as (->&_); unfold s1; by rewrite setb_ne by congruence).
  assert (forall x, b_data (bufs s2 x) = b_data (bufs s x)) as H4 by (intros x; destruct (H1 x) as (_&_&_&->); unfold s1; by keep b_data).
  assert (disk s2 = disk s /\ others s2 = others s) as [Hdk Hoth].
  { change (disk s') with (disk s2) in *. pose proof (f_equal disk Hrest) as D. pose proof (f_equal others Hrest) as O. done. }
  assert (queued s2 (moved b d Q)) as Hq2.
  { eapply queued_frame; [exact Hq'|]. intros x. unfold s2. split; [by keep b_forw|by keep b_back]. }
  pose proof Hc as [Hav Hq Hbusy Hfl Hho Hu Hde Hcl Htp Hasy].
  assert (forall x, x ∈ A -> x <> b) as HA by (intros x Hx ->; done).
  assert (unique s2) as Hu2.
  { intros x x' Hx Hx' Hn. destruct (decide (x = b)) as [->|Hxb], (decide (x' = b)) as [->|Hxb']; [done|..].
    - destruct (H2 x' Hxb') as [E1 E2]. rewrite E1, E2, Hbd, Hbb in *. intros E3 E4.
      destruct (proj2 (Hdev Hn) x' Hx'). split; congruence.
    - destruct (H2 x Hxb) as [E1 E2]. rewrite Hbd, Hbb, E1, E2 in *. intros E3 E4.
      assert (dev <> NODEV) as Hn' by congruence. by destruct (proj2 (Hdev Hn') x Hx).
    - destruct (H2 x Hxb) as [E1 E2], (H2 x' Hxb') as [E3 E4]. rewrite E1, E2, E3, E4 in *. by apply Hu. }
  split; [|split; [done|split; [done|split; [done|split; [|split; [|done]]]]]].
  - split; try done.
    + destruct Hav as [Hr Hn Hi]. split; [|done|done].
      eapply ring_ext; [| |exact Hr]; intros x; destruct (H1 x) as (_&E1&E2&_); cbv beta; rewrite ?E1, ?E2; unfold s1; [by keep av_forw|by keep av_back].
    + intros x Hx. destruct (decide (x = b)) as [->|Hxb]; [rewrite Hbf; by split|]. rewrite H3 by done. by apply Hbusy.
    + intros x Hx. destruct (decide (x = b)) as [->|Hxb]; [by rewrite Hbf|]. rewrite H3 by done. by apply Hfl.
    + intros d' x Hd' Hx Hn. destruct (decide (x = b)) as [->|Hxb].
      * rewrite Hbd in *. destruct (Hdev Hn) as [-> _]. apply (q_one _ _ Hq2 b); [done|done|done|].
        unfold moved. rewrite decide_True by done. by constructor.
      * destruct (H2 x Hxb) as [E1 _]. rewrite E1 in *. apply Hho; [done| |done].
        unfold moved in Hx. case_decide; rewrite ?elem_of_cons, ?elem_without in Hx; tauto.
    + intros x Hx. rewrite H3 by (by apply HA). destruct (H2 x (HA x Hx)) as [-> _]. by apply Hde.
    + intros x Hx. rewrite H3, H4, Hdk by (by apply HA). destruct (H2 x (HA x Hx)) as [-> ->]. by apply Hcl.
    + intros maj. rewrite H3; [apply Htp|]. by destruct Hb as (?&->&_).
    + intros x Hx. rewrite H3 by (by apply HA). by apply Hasy.
  - intros x Hx. destruct (H2 x Hx) as [-> ->]. by rewrite H3, H4.
  - apply same_blocks_intro; [done| | |done].
    + intros x Hx Hdn Hn. destruct (decide (x = b)) as [->|Hxb]; [by rewrite Hbf in Hdn|].
      destruct (H2 x Hxb) as [E1 E2]. rewrite E1, E2, H4 in *. rewrite H3 in Hdn by done.
      rewrite content_held by done. done.
    + intros dv bk Hn Hnone. rewrite Hdk. destruct (List.find (holds s dv bk) bufl) as [x|] eqn:Ef.
      * apply List.find_some in Ef as [Hin Ef]. pose proof Ef as (F1&F2&F3)%holds_true.
        apply list_elem_of_In, bufl_isbuf in Hin.
        destruct (decide (x = b)) as [->|Hxb].
        -- intros i Hi. subst dv bk. rewrite content_held by done. symmetry. by apply Hcln.
        -- specialize (Hnone x Hin). destruct (H2 x Hxb) as [E1 E2]. unfold holds in Hnone, Ef.
           rewrite E1, E2, H3, Ef in Hnone by done. done.
      * rewrite content_disk; [done|]. intros x Hx. apply bufl_isbuf, list_elem_of_In in Hx. by apply (List.find_none _ _ Ef).
Qed.

Lemma avail_first s b A : avail s (b :: A) -> av_forw (bufs s BFREELIST) = b.
Proof. intros [Hr _ _]. unfold ring in Hr. cbn in Hr. by destruct Hr as [-> _]. Qed.

Lemma same_bufs_trans P s1 s2 s3 : same_bufs P s1 s2 -> same_bufs P s2 s3 -> same_bufs P s1 s3.
Proof. intros H1 H2 x Hx Hp. destruct (H1 x Hx Hp) as [<- <-]. by apply H2. Qed.

(** States whose buffers are the same, one by one. *)
Lemma cache_same s s' A Q : cache s A Q -> (forall x, bufs s' x = bufs s x) -> disk s' = disk s -> cache s' A Q.
Proof.
  intros [[Hr Hn Hi] Hq Hbusy Hfl Hho Hun Hde Hcl Htp Hasy] Eb Ed.
  split; try (intros; rewrite ?Eb, ?Ed in *; eauto; fail).
  - split; [|done|done]. eapply ring_ext; [| |exact Hr]; intros x; cbv beta; by rewrite Eb.
  - eapply queued_frame; [exact Hq|]. intros x. by rewrite Eb.
  - intros x x' Hx Hx'. rewrite !Eb. by apply Hun.
Qed.

(** The write of a buffer taken off the list and marked [B_ASYNC]. *)
Lemma write_marked s s2 A b Q :
  cache s A Q -> isbuf b -> b ∉ A -> b_dev (bufs s b) <> NODEV ->
  has (flg s b) B_DELWRI = true -> has (flg s b) B_DONE = true ->
  (forall x, bufs s2 x = bufs (setb b (fun r => r <| b_flags ::= fun f => setf f B_ASYNC |>) s) x) ->
  disk s2 = disk s -> others s2 = others s ->
  exists s', bwrite b s2 = Ret tt s' /\ cache s' (A ++ [b]) Q /\ same_blocks s s' /\
    has (flg s' b) B_DELWRI = false /\ same_bufs (fun x => x <> b) s s' /\ others s' = others s.
Proof.
  intros Hc Hb HbA Hn Hdw Hdn Hs2 Hdk Ho.
  assert (flg s2 b = setf (flg s b) B_ASYNC) as Hf2 by (rewrite Hs2; by rewrite setb_eq).
  assert (forall x, x <> b -> bufs s2 x = bufs s x) as Hne2 by (intros x Hx; rewrite Hs2; by rewrite setb_ne).
  assert (forall x, ident (bufs s2 x) = ident (bufs s x)) as Hid2 by (intros x; rewrite Hs2; by keep ident).
  assert (forall m, m ∈ [B_BUSY; B_MAP; B_ERROR; B_DONE; B_DELWRI] -> has (flg s2 b) m = has (flg s b) m) as Hm.
  { intros m Hm. rewrite Hf2. rewrite !elem_of_cons in Hm.
    destruct Hm as [->|[->|[->|[->|[->|Hm]]]]]; [by simpl_flags..|by apply elem_of_nil in Hm]. }
  destruct (has (flg s b) B_BUSY) eqn:Hbusy; [|by apply (ca_busy _ _ _ Hc) in Hbusy].
  assert (cache s2 A Q) as Hc2.
  { destruct (ca_flags _ _ _ Hc b Hb) as [Hmp Her]. apply (cache_busy s s2 A Q b Hc Hb HbA); try (by rewrite Hm by mem).
    - intros x. destruct (ident_fields _ _ (Hid2 x)) as (->&->&->&->&_). rewrite Hs2. split_and!; try done; [by keep av_forw|by keep av_back].
    - intros x _ Hx. by rewrite Hne2.
    - intros maj. rewrite Hne2; [done|]. by destruct Hb as (?&->&_).
    - intros. by rewrite Hdk. }
  destruct (ident_fields _ _ (Hid2 b)) as (_&_&Ed&_).
  destruct (bwrite_async s2 A Q b Hc2 Hb HbA) as (s3&E3&Hc3&Hsb3&Hdw3&_&Hsm3&Ho3);
    [by rewrite Ed|rewrite Hf2; by simpl_flags|by rewrite Hm by mem|by rewrite Hm by mem|].
  exists s3. split; [done|]. split; [done|]. split; [|split; [done|split]].
  - eapply same_blocks_trans; [|exact Hsb3]. apply same_blocks_eq; [|done]. intros dv bk.
    apply content_ext; [done| |done]. intros x Hx. destruct (decide (x = b)) as [->|]; [apply Hm; mem|by rewrite Hne2].
  - eapply same_bufs_trans; [|exact Hsm3]. intros x Hx Hxb. by rewrite Hne2.
  - by rewrite Ho3.
Qed.

(** The oldest buffer has a delayed write: it is written and goes to the end. *)
Lemma getblk_new_flush s b A Q dp :
  cache s (b :: A) Q -> has (flg s b) B_DELWRI = true ->
  exists s', getblk_new dp s = Ret None s' /\ cache s' (A ++ [b]) Q /\ same_blocks s s' /\
    has (flg s' b) B_DELWRI = false /\ same_bufs (fun x => x <> b) s s' /\ others s' = others s.
Proof.
  intros Hc Hdw. pose proof (ca_av _ _ _ Hc) as Hav. assert (isbuf b) as Hb by (apply (av_isbuf _ _ Hav); mem).
  pose proof (av_nodup _ _ Hav) as [HbA _]%NoDup_cons.
  destruct (ca_del _ _ _ Hc b) as [Hdn Hn]; [mem|done|].
  destruct (notavail_cache s [] b A Q Hc) as (s1&E1&Hc1&Hf1&Hfx1&Hid1&Hr1&Hct1).
  unfold getblk_new. krun. rewrite (avail_first s b A Hav). rewrite (bind_ret _ _ _ _ _ E1). krun.
  assert (has (flg s1 b) B_DELWRI = true) as Hdw1 by (rewrite Hf1; by simpl_flags). rewrite Hdw1. krun.
  destruct (ident_fields _ _ (Hid1 b)) as (_&_&Ed&_).
  destruct (write_marked s1 (setb b (fun r => r <| b_flags ::= fun f => setf f B_ASYNC |>) s1) A b Q Hc1 Hb HbA)
    as (s3&E3&Hc3&Hsb3&Hdw3&Hsm3&Ho3); [by rewrite Ed|done|rewrite Hf1; by simpl_flags|done..|].
  rewrite (bind_ret _ _ _ _ _ E3). exists s3. split; [done|]. split; [done|]. split; [|split; [done|split]].
  - eapply same_blocks_trans; [|exact Hsb3]. by apply same_blocks_rest.
  - eapply same_bufs_trans; [|exact Hsm3]. intros x Hx Hxb. by rewrite Hfx1, Hid1.
  - rewrite Ho3. by rewrite (rest_others _ _ Hr1).
Qed.

(** What [b], given to a caller for block [blk] of [dev], and the other
    buffers are then. *)
Record granted (s : kst) (A : list bptr) (dev blk : Z) (b : bptr) (s' : kst) (A' : list bptr) (Q' : bptr -> list bptr) : Prop := {
  g_cache : cache s' A' Q';
  g_isbuf : isbuf b;
  g_out : b ∉ A';
  g_taken : b :: A' ≡ₚ A;
  g_dev : b_dev (bufs s' b) = dev;
  g_blkno : b_blkno (bufs s' b) = blk;
  g_async : has (flg s' b) B_ASYNC = false;
  g_rel : releasable s' b;
  g_same : same_blocks s s';
  g_busy : forall x, isbuf x -> x ∉ A -> flg s' x = flg s x /\ b_dev (bufs s' x) = b_dev (bufs s x) /\
    b_blkno (bufs s' x) = b_blkno (bufs s x) /\ b_data (bufs s' x) = b_data (bufs s x);
  g_others : others s' = others s
}.

(** The oldest buffer has nothing to write: it is the caller's. *)
Lemma getblk_new_take s b A Q dev blk d :
  cache s (b :: A) Q -> has (flg s b) B_DELWRI = false -> qhead d ->
  (dev <> NODEV -> d = DTAB (major dev) /\ forall x, isbuf x -> ~ (b_dev (bufs s x) = dev /\ b_blkno (bufs s x) = blk)) ->
  exists s1, getblk_new d s = Ret (Some b) s1 /\
    granted s (b :: A) dev blk b
      (setb b (fun r => r <| b_blkno := blk |>) (setb b (fun r => r <| b_dev := dev |>) s1)) A (moved b d Q).
Proof.
  intros Hc Hdw Hqd Hno. pose proof (ca_av _ _ _ Hc) as Hav. assert (isbuf b) as Hb by (apply (av_isbuf _ _ Hav); mem).
  pose proof (av_nodup _ _ Hav) as [HbA _]%NoDup_cons.
  destruct (notavail_cache s [] b A Q Hc) as (s1&E1&Hc1&Hf1&Hfx1&Hid1&Hr1&Hct1). cbn in Hc1.
  assert (forall x, b_dev (bufs s1 x) = b_dev (bufs s x) /\ b_blkno (bufs s1 x) = b_blkno (bufs s x) /\
     b_data (bufs s1 x) = b_data (bufs s x)) as Hx1.
  { intros x. by destruct (ident_fields _ _ (Hid1 x)) as (_&_&->&->&->). }
  assert (has (flg s1 b) B_DELWRI = false) as Hdw1 by (rewrite Hf1; rewrite <- Hdw; by simpl_flags).
  destruct (assign_spec s1 A Q b dev blk d Hc1 Hb HbA Hdw1) as (s2&E2&Hc2&Hf2&Hd2&Hb2&Hx2&Hsb2&Ho2).
  - split; [by rewrite Hdw1|]. intros Hdn _ Hnd. rewrite (rest_disk _ _ Hr1). destruct (Hx1 b) as (E3&E4&E5). rewrite E3, E4, E5 in *.
    apply (ca_clean _ _ _ Hc b); [mem| |done|done]. rewrite <- Hdn, Hf1. by simpl_flags.
  - done.
  - intros Hn. destruct (Hno Hn) as [-> Hnob]. split; [done|]. intros x Hx. destruct (Hx1 x) as (->&->&_). by apply Hnob.
  - exists s2. unfold getblk_new. krun. rewrite (avail_first s b A Hav). rewrite (bind_ret _ _ _ _ _ E1). krun.
    rewrite Hdw1. split.
    + rewrite k_modb in E2. cbv iota. krun. by rewrite (bind_ret _ _ _ _ _ E2).
    + split; try done.
      * rewrite Hf2. done.
      * unfold releasable. rewrite Hf2. done.
      * eapply same_blocks_trans; [|exact Hsb2]. by apply same_blocks_rest.
      * intros x Hx Hxn. assert (x <> b) as Hxb by (intros ->; mem).
        destruct (Hx2 x Hxb) as (->&->&->&->). destruct (Hx1 x) as (->&->&->). by rewrite Hfx1.
      * rewrite Ho2. by rewrite (rest_others _ _ Hr1).
Qed.

(** What holds of the buffers that are not available. *)
Definition same_busy (s : kst) (A : list bptr) (s' : kst) : Prop :=
  forall x, isbuf x -> x ∉ A -> flg s' x = flg s x /\ b_dev (bufs s' x) = b_dev (bufs s x) /\
    b_blkno (bufs s' x) = b_blkno (bufs s x) /\ b_data (bufs s' x) = b_data (bufs s x).

Lemma granted_after s A s1 A1 dev blk b s' A' Q' :
  same_blocks s s1 -> A1 ≡ₚ A -> same_busy s A s1 -> others s1 = others s ->
  granted s1 A1 dev blk b s' A' Q' -> granted s A dev blk b s' A' Q'.
Proof.
  intros Hs HA Hb Ho [G1 G2 G3 G4 G5 G6 Ga Gr G7 G8 G9]. split; try done.
  - by rewrite G4.
  - by eapply same_blocks_trans.
  - intros x Hx Hn. destruct (Hb x Hx Hn) as (<-&<-&<-&<-). apply G8; [done|by rewrite HA].
  - by rewrite G9.
Qed.

Lemma same_busy_bufs s A s' : bufs s' = bufs s -> same_busy s A s'.
Proof. intros E x _ _. by rewrite E. Qed.

(** The number of available buffers with a delayed write. *)
Definition dirty (s : kst) (A : list bptr) : nat := length (filter (fun b => has (flg s b) B_DELWRI = true) A).

Lemma dirty_flush s s' b A :
  NoDup (b :: A) -> (forall x, x ∈ A -> isbuf x) -> has (flg s b) B_DELWRI = true -> has (flg s' b) B_DELWRI = false ->
  same_bufs (fun x => x <> b) s s' -> dirty s (b :: A) = S (dirty s' (A ++ [b])).
Proof.
  intros [Hn _]%NoDup_cons Hi H H' Hs. unfold dirty. rewrite filter_cons_True by done. cbn [length]. f_equal.
  rewrite filter_app, length_app, filter_cons_False by congruence. cbn. rewrite Nat.add_0_r. f_equal.
  apply filter_ext_in. intros x Hx.   destruct (Hs x) as [-> _]; [by apply Hi|by intros ->|done].
Qed.

(** One round gives the buffer, or writes one that was to be written. *)
Lemma getblk_round_spec s A Q dev blk :
  cache s A Q -> A <> [] -> dev <> NODEV -> has_tab (major dev) = true ->
  (forall x, isbuf x -> b_dev (bufs s x) = dev -> b_blkno (bufs s x) = blk -> x ∈ A) ->
  (exists b s' A' Q', getblk_round dev blk s = Ret (Some b) s' /\ granted s A dev blk b s' A' Q') \/
  (exists s' A', getblk_round dev blk s = Ret None s' /\ cache s' A' Q /\ A' ≡ₚ A /\ dirty s A = S (dirty s' A') /\
     same_blocks s s' /\ same_busy s A s' /\ others s' = others s /\
     (forall x, isbuf x -> b_dev (bufs s' x) = dev -> b_blkno (bufs s' x) = blk -> x ∈ A')).
Proof.
  intros Hc HA Hn Ht Hfree. unfold getblk_round. krun. rewrite Ht. cbn [negb].
  set (s0 := s <| spl := true |>).
  assert (bufs s0 = bufs s /\ disk s0 = disk s /\ others s0 = others s) as (Eb&Ed&Eo) by done.
  assert (cache s0 A Q) as Hc0 by (by eapply cache_bufs).
  assert (same_blocks s s0) as Hsb0 by (by apply same_blocks_bufs).
  pose proof enough_fuel as Hfu. rewrite <- Eb in Hfree.
  destruct (scan_dev_cache s0 A Q dev blk Hc0 Ht Hn) as [(b&E&Hb&Edv&Ebk)|[E Hno]]; [lia|..];
    rewrite (bind_ret _ _ _ _ _ E); cbv iota.
  - left. assert (b ∈ A) as HbA by (by apply Hfree). apply list_elem_of_split in HbA as (l1&l2&->).
    destruct (getblk_hit_spec s0 l1 b l2 Q Hc0) as (s'&E'&Hc'&Hf'&Hid'&Hsm'&Hsb'&Ho'&Hdk').
    destruct (ident_fields _ _ Hid') as (_&_&Edv'&Ebk'&_).
    exists b, s', (l1 ++ l2), Q. split; [done|]. apply (granted_after s _ s0 (l1 ++ b :: l2)); try done.
    pose proof (av_nodup _ _ (ca_av _ _ _ Hc0)) as Hnd. split; try done.
    + rewrite <- Permutation_middle in Hnd. by apply NoDup_cons in Hnd as [? _].
    + by rewrite Permutation_middle.
    + by rewrite Edv'.
    + by rewrite Ebk'.
    + rewrite Hf'. pose proof (ca_async _ _ _ Hc0 b ltac:(mem)) as Has. rewrite <- Has. by simpl_flags.
    + destruct (ident_fields _ _ Hid') as (_&_&_&_&Eda). unfold releasable. rewrite Hdk', Hf', Edv', Ebk', Eda.
      split; simpl_flags; [apply (ca_del _ _ _ Hc0)|apply (ca_clean _ _ _ Hc0)]; mem.
    + intros x Hx Hxn. destruct (Hsm' x Hx) as [-> Hxi]; [intros ->; mem|]. by destruct (ident_fields _ _ Hxi) as (_&_&->&->&->).
  - krun. destruct A as [|b A]; [done|].
    rewrite bool_decide_eq_false_2.
    2: { change (bufs (s0 <| spl := false |>)) with (bufs s0). rewrite (avail_first s0 b A) by apply Hc0.
         intros ->. by destruct (av_isbuf _ _ (ca_av _ _ _ Hc0) BFREELIST ltac:(mem)) as (?&?&_). }
    krun. set (s1 := s0 <| spl := false |> <| spl := true |>).
    assert (bufs s1 = bufs s0 /\ disk s1 = disk s0 /\ others s1 = others s0) as (Eb1&Ed1&Eo1) by done. clearbody s1 s0.
    assert (cache s1 (b :: A) Q) as Hc1 by (by eapply cache_bufs).
    assert (same_blocks s s1) as Hsb1.
    { eapply same_blocks_trans; [exact Hsb0|]. by apply same_blocks_bufs. }
    rewrite <- Eb1 in Hno, Hfree. rewrite <- Eb1 in Eb. rewrite <- Eo1 in Eo.
    destruct (has (flg s1 b) B_DELWRI) eqn:Edw.
    + right. destruct (getblk_new_flush s1 b A Q (DTAB (major dev)) Hc1 Edw) as (s2&E2&Hc2&Hsb2&Hdw2&Hsm2&Ho2).
      exists s2, (A ++ [b]). rewrite (bind_ret _ _ _ _ _ E2). split; [done|]. split; [done|]. split; [by rewrite Permutation_app_comm|].
      split; [|split; [|split; [|split]]].
      * transitivity (dirty s1 (b :: A)); [unfold dirty; by rewrite Eb|]. destruct (ca_av _ _ _ Hc1) as [_ Hnd Hib]. apply dirty_flush; [done|intros x Hx; apply Hib; mem|done..].
      * by eapply same_blocks_trans.
      * intros x Hx Hxn. rewrite <- Eb. destruct (Hsm2 x Hx) as [-> Hxi]; [intros ->; mem|]. by destruct (ident_fields _ _ Hxi) as (_&_&->&->&->).
      * by rewrite Ho2.
      * intros x Hx E3 E4. destruct (decide (x = b)) as [->|Hxb]; [mem|].
        destruct (Hsm2 x Hx Hxb) as [_ Hxi]. destruct (ident_fields _ _ Hxi) as (_&_&E5&E6&_).
        exfalso. apply (Hno x Hx). rewrite <- E5, <- E6. done.
    + left. destruct (getblk_new_take s1 b A Q dev blk (DTAB (major dev)) Hc1 Edw ltac:(right; by eexists) ltac:(done)) as (s2&E2&Hg).
      rewrite (bind_ret _ _ _ _ _ E2). cbv iota. krun.
      eexists b, _, A, _. split; [done|]. eapply granted_after; [exact Hsb1|done|by apply same_busy_bufs|done|exact Hg].
Qed.

(** [getblk] gives the one buffer of the block, busy, and changes no block. *)
Lemma getblk_spec s A Q dev blk :
  cache s A Q -> A <> [] -> dev <> NODEV -> has_tab (major dev) = true -> major dev < nblkdev ->
  (forall x, isbuf x -> b_dev (bufs s x) = dev -> b_blkno (bufs s x) = blk -> x ∈ A) ->
  exists b s' A' Q', getblk dev blk s = Ret b s' /\ granted s A dev blk b s' A' Q'.
Proof.
  intros Hc HA Hn Ht Hmaj Hfree. unfold getblk. replace (nblkdev <=? major dev) with false by lia.
  assert (forall n k s A, (dirty s A <= n)%nat -> (n < k)%nat -> cache s A Q -> A <> [] ->
    (forall x, isbuf x -> b_dev (bufs s x) = dev -> b_blkno (bufs s x) = blk -> x ∈ A) ->
    exists b s' A' Q', iter k (fun _ => r ← getblk_round dev blk; mret (match r with None => inl tt | Some a => inr a end)) tt s
      = Ret b s' /\ granted s A dev blk b s' A' Q') as G.
  { clear s A Hc HA Hfree. induction n as [|n IH]; intros [|k] s A Hd Hk Hc HA Hfree; try lia;
      (destruct (getblk_round_spec s A Q dev blk Hc HA Hn Ht Hfree)
         as [(b&s'&A'&Q'&E&G)|(s1&A1&E&Hc1&HP&Hdd&Hsb&Hbz&Ho&Hfree1)]; [|try lia]).
    1,2: exists b, s', A', Q'; split; [|done]; apply (k_iter_inr _ _ _ _ b s'); by rewrite (bind_ret _ _ _ _ _ E).
    destruct (IH k s1 A1) as (b&s'&A'&Q'&E2&G); [lia|lia|done| |done|].
    { intros ->. apply Permutation_nil in HP. done. }
    exists b, s', A', Q'. split.
    - rewrite (k_iter_inl _ _ _ _ tt s1); [done|]. by rewrite (bind_ret _ _ _ _ _ E).
    - by eapply granted_after. }
  apply (G 29%nat fuel s A); try done.
  - unfold dirty. transitivity (length A); [apply length_filter|]. eapply avail_length, Hc.
  - pose proof enough_fuel. lia.
Qed.

(** The state after the transfer of a read. *)
Definition loaded (b : bptr) (s : kst) : kst :=
  emit (Wakeup (ChBuf b))
    (setb b (fun r => r <| b_flags ::= fun f => clrf f B_WANTED |>)
      (setb b (fun r => r <| b_flags ::= fun f => setf f B_DONE |>)
        (transfer b (setb b (fun r => r <| b_bcount := BSIZE |>)
          (setb b (fun r => r <| b_flags ::= fun f => setf f B_READ |>) s))))).

Lemma loaded_bufs b s :
  flg (loaded b s) b = clrf (setf (setf (flg s b) B_READ) B_DONE) B_WANTED /\
  b_data (bufs (loaded b s) b) = mcopy (disk s (b_dev (bufs s b)) (b_blkno (bufs s b))) 0 (b_data (bufs s b)) 0 BSIZE /\
  (forall x, x <> b -> bufs (loaded b s) x = bufs s x) /\
  (forall x, av_forw (bufs (loaded b s) x) = av_forw (bufs s x) /\ av_back (bufs (loaded b s) x) = av_back (bufs s x) /\
     b_forw (bufs (loaded b s) x) = b_forw (bufs s x) /\ b_back (bufs (loaded b s) x) = b_back (bufs s x) /\
     b_dev (bufs (loaded b s) x) = b_dev (bufs s x) /\ b_blkno (bufs (loaded b s) x) = b_blkno (bufs s x)) /\
  disk (loaded b s) = disk s /\ others (loaded b s) = others s.
Proof.
  set (s1 := setb b (fun r => r <| b_bcount := BSIZE |>) (setb b (fun r => r <| b_flags ::= fun f => setf f B_READ |>) s)).
  assert (bufs s1 b = (bufs s b) <| b_flags ::= fun f => setf f B_READ |> <| b_bcount := BSIZE |>) as E
    by (unfold s1; by rewrite !setb_eq).
  assert (transfer b s1 = setb b (fun r => r <| b_data ::= fun m => mcopy (disk s (b_dev (bufs s b)) (b_blkno (bufs s b))) 0 m 0 BSIZE |>) s1) as Et.
  { unfold transfer. rewrite E. replace (has _ B_READ) with true; [done|]. cbn. by simpl_flags. }
  unfold loaded. fold s1. rewrite Et. split_and!; try done.
  - rewrite bufs_emit, !setb_eq, E. done.
  - rewrite bufs_emit, !setb_eq, E. done.
  - intros x Hx. rewrite bufs_emit. unfold s1. by rewrite !setb_ne.
  - intros x. unfold s1. split_and!; [by keep av_forw|by keep av_back|by keep b_forw|by keep b_back|by keep b_dev|by keep b_blkno].
Qed.

Lemma start_read_sync b s dev :
  isbuf b -> has_tab (major dev) = true -> has (flg s b) B_ASYNC = false -> has (flg s b) B_MAP = false ->
  start_read b dev B_READ s = Ret tt (loaded b s).
Proof.
  intros Hb Ht Ha Hm. unfold start_read. krun. rewrite strategy_sync by done.
  assert (forall s0, flg (transfer b s0) b = flg s0 b) as Ht0.
  { intros s0. unfold transfer. destruct (has _ B_READ); [by keep b_flags|done]. }
  set (s0 := setb b _ (setb b _ s)).
  assert (flg (transfer b s0) b = setf (flg s b) B_READ) as Hf by (rewrite Ht0; unfold s0; by rewrite !setb_eq).
  rewrite iodone_sync; [|done|rewrite Hf, <- Hm; by simpl_flags]. rewrite Hf.
  replace (has _ B_ASYNC) with false by (rewrite <- Ha; by simpl_flags). done.
Qed.

(** A busy buffer that has just been filled from the device. *)
Lemma filled_cache s s' A Q b :
  cache s A Q -> isbuf b -> b ∉ A -> b_dev (bufs s b) <> NODEV -> has (flg s b) B_DONE = false -> has (flg s b) B_DELWRI = false ->
  (forall x, av_forw (bufs s' x) = av_forw (bufs s x) /\ av_back (bufs s' x) = av_back (bufs s x) /\
     b_forw (bufs s' x) = b_forw (bufs s x) /\ b_back (bufs s' x) = b_back (bufs s x) /\
     b_dev (bufs s' x) = b_dev (bufs s x) /\ b_blkno (bufs s' x) = b_blkno (bufs s x)) ->
  (forall x, x <> b -> bufs s' x = bufs s x) -> disk s' = disk s ->
  b_data (bufs s' b) = mcopy (disk s (b_dev (bufs s b)) (b_blkno (bufs s b))) 0 (b_data (bufs s b)) 0 BSIZE ->
  (forall m, m ∈ [B_BUSY; B_MAP; B_ERROR; B_DELWRI] -> has (flg s' b) m = has (flg s b) m) -> has (flg s' b) B_DONE = true ->
  cache s' A Q /\ same_blocks s s' /\ releasable s' b.
Proof.
  intros Hc Hb HbA Hn Hdn Hdw Hx Hne Hdk Hd Hm Hdn'.
  assert (has (flg s b) B_BUSY = true) as Hbusy.
  { destruct (has (flg s b) B_BUSY) eqn:E; [done|]. by apply (ca_busy _ _ _ Hc) in E. }
  destruct (ca_flags _ _ _ Hc b Hb) as [Hmp Her].
  assert (cache s' A Q) as Hc'.
  { apply (cache_busy s _ A Q b Hc Hb HbA Hx); try (by rewrite Hm by mem).
    - intros x _ Hxb. by rewrite Hne.
    - intros maj. rewrite Hne; [done|]. by destruct Hb as (?&->&_).
    - intros. by rewrite Hdk. }
  split; [done|]. split.
  - assert (content s (b_dev (bufs s b)) (b_blkno (bufs s b)) = disk s (b_dev (bufs s b)) (b_blkno (bufs s b))) as Hct.
    { apply content_disk. intros x Hxb. destruct (holds _ _ _ x) eqn:Eh; [|done].
      apply holds_true in Eh as (E1&E2&E3). rewrite (ca_uniq _ _ _ Hc b x) in Hdn by congruence. congruence. }
    apply same_blocks_intro; [apply Hc'| | |done].
    + intros x Hxb Hdx Hnx. destruct (Hx x) as (_&_&_&_&Ed&Ek). rewrite Ed, Ek in *.
      destruct (decide (x = b)) as [->|Hxn].
      * rewrite Hd, Hct. apply mcopy_agree.
      * rewrite Hne in * by done. rewrite content_held; [done|apply Hc|done..].
    + intros dv bk Hdv Hnone. rewrite Hdk. rewrite content_disk; [done|].
      intros x Hxb. destruct (decide (x = b)) as [->|Hxn].
      * unfold holds. rewrite Hdn. by rewrite andb_false_r.
      * specialize (Hnone x Hxb). unfold holds in *. by rewrite Hne in Hnone.
  - destruct (Hx b) as (_&_&_&_&Ed&Ek). unfold releasable. rewrite Hdk, Hd, Ed, Ek, Hdn', Hm, Hdw by mem.
    split; [done|]. intros _ _ _. apply mcopy_agree.
Qed.

Lemma loaded_cache s A Q b :
  cache s A Q -> isbuf b -> b ∉ A -> b_dev (bufs s b) <> NODEV -> has (flg s b) B_DONE = false -> releasable s b ->
  cache (loaded b s) A Q /\ same_blocks s (loaded b s) /\ has (flg (loaded b s) b) B_DONE = true /\ releasable (loaded b s) b.
Proof.
  intros Hc Hb HbA Hn Hdn Hr. destruct (loaded_bufs b s) as (Hf&Hd&Hne&Hx&Hdk&_).
  assert (has (flg s b) B_DELWRI = false) as Hdw.
  { destruct (has (flg s b) B_DELWRI) eqn:E; [|done]. destruct Hr as [Hr _]. destruct (Hr E) as [E2 _]. congruence. }
  assert (has (flg (loaded b s) b) B_DONE = true) as Hdn' by (rewrite Hf; by simpl_flags).
  destruct (filled_cache s (loaded b s) A Q b) as (H1&H2&H3); try done.
  intros m Hm. rewrite Hf. rewrite !elem_of_cons in Hm.
  destruct Hm as [->|[->|[->|[->|Hm]]]]; [by simpl_flags..|by apply elem_of_nil in Hm].
Qed.

(** The part of [bread] for a block that is not in the cache. *)
Lemma read_miss b s dev :
  isbuf b -> has_tab (major dev) = true -> has (flg s b) B_ASYNC = false -> has (flg s b) B_MAP = false ->
  has (flg s b) B_ERROR = false ->
  exists s', (start_read b dev B_READ;; modify (fun s => s <| io_info ::= fun i => i <| nread ::= Z.succ |> |>);; iowait b;; mret b) s = Ret b s' /\
    bufs s' = bufs (loaded b s) /\ disk s' = disk (loaded b s) /\ others s' = others (loaded b s).
Proof.
  intros Hb Ht Ha Hm He. destruct (loaded_bufs b s) as (Hf&_). 
  rewrite (bind_ret _ _ _ _ _ (start_read_sync b s dev Hb Ht Ha Hm)). rewrite k_modify. generalize dependent (loaded b s).
  intros s1 Hf. rewrite (bind_ret _ _ _ _ _ (iowait_done b _ ltac:(rewrite bufs_io, Hf; by simpl_flags)
    ltac:(rewrite bufs_io, Hf, <- He; by simpl_flags))).
  eexists. split; [done|]. done.
Qed.

(** A state that the rest of the buffers' fields does not distinguish. *)
Lemma granted_later s A dev blk b s1 A' Q' s2 :
  granted s A dev blk b s1 A' Q' -> cache s2 A' Q' -> same_blocks s1 s2 -> others s2 = others s1 ->
  (forall x, x <> b -> flg s2 x = flg s1 x /\ b_data (bufs s2 x) = b_data (bufs s1 x)) ->
  (forall x, b_dev (bufs s2 x) = b_dev (bufs s1 x) /\ b_blkno (bufs s2 x) = b_blkno (bufs s1 x)) ->
  has (flg s2 b) B_ASYNC = false -> releasable s2 b -> granted s A dev blk b s2 A' Q'.
Proof.
  intros [G1 G2 G3 G4 G5 G6 Ga Gr G7 G8 G9] Hc Hs Ho Hx Hi Ha Hr.
  split; try done.
  - by destruct (Hi b) as [-> _].
  - by destruct (Hi b) as [_ ->].
  - by eapply same_blocks_trans.
  - intros x Hxb Hn. assert (x <> b) as Hne by (intros ->; rewrite <- G4 in Hn; mem).
    destruct (Hx x Hne) as [-> ->], (Hi x) as [-> ->]. by apply G8.
  - by rewrite Ho.
Qed.

(** [bread] gives the block's buffer with what the block contains. *)
Lemma bread_spec s A Q dev blk :
  cache s A Q -> A <> [] -> dev <> NODEV -> has_tab (major dev) = true -> major dev < nblkdev ->
  (forall x, isbuf x -> b_dev (bufs s x) = dev -> b_blkno (bufs s x) = blk -> x ∈ A) ->
  exists b s' A' Q', bread dev blk s = Ret b s' /\ granted s A dev blk b s' A' Q' /\ has (flg s' b) B_DONE = true /\
    agree 0 512 (b_data (bufs s' b)) (content s dev blk).
Proof.
  intros Hc HA Hn Ht Hmaj Hfree. destruct (getblk_spec s A Q dev blk Hc HA Hn Ht Hmaj Hfree) as (b&s1&A'&Q'&E&G).
  enough (exists s', bread dev blk s = Ret b s' /\ granted s A dev blk b s' A' Q' /\ has (flg s' b) B_DONE = true)
    as (s'&E'&G'&Hd').
  { exists b, s', A', Q'. split; [done|]. split; [done|]. split; [done|]. destruct G' as [G1 G2 G3 G4 G5 G6 _ _ G7 _ _].
    rewrite <- (content_held s' b); [rewrite G5, G6; by apply G7|apply G1|done|done|by rewrite G5]. }
  pose proof G as [G1 G2 G3 G4 G5 G6 Ga Gr G7 G8 G9]. destruct (ca_flags _ _ _ G1 b G2) as [Hmp Her].
  unfold bread. rewrite (bind_ret _ _ _ _ _ E). krun. destruct (has (flg s1 b) B_DONE) eqn:Ed.
  - krun. eexists. split; [done|]. split; [|done]. eapply granted_later; [exact G|by eapply cache_bufs|by apply same_blocks_bufs|done..].
  - destruct (loaded_bufs b s1) as (Hf&Hd&Hne&Hx&Hdk&Ho).
    destruct (loaded_cache s1 A' Q' b G1 G2 G3) as (Hc2&Hs2&Hdn2&Hrl2); [by rewrite G5|done|done|].
    destruct (read_miss b s1 dev G2 Ht Ga Hmp Her) as (s3&E3&Eb3&Edk3&Eo3).
    exists s3. rewrite E3. split; [done|]. rewrite Eb3. split; [|done].
    eapply granted_later; [exact G|by eapply cache_bufs| |by rewrite Eo3|rewrite ?Eb3..].
    + eapply same_blocks_trans; [exact Hs2|]. by apply same_blocks_bufs.
    + intros x Hxb. by rewrite Hne.
    + intros x. by destruct (Hx x) as (_&_&_&_&->&->).
    + rewrite Hf. rewrite <- Ga. by simpl_flags.
    + unfold releasable in *. by rewrite Eb3, Edk3.
Qed.

(** ** Initialization *)

(** The state after [binit] has done the buffers [l]. *)
Record binit_inv (l : list bptr) (s : kst) : Prop := {
  bi_av : avail s l;
  bi_ring : ring (bff s) (bfb s) BFREELIST (rev l);
  bi_free : forall b, b ∈ l -> flg s b = 0 /\ b_dev (bufs s b) = NODEV;
  bi_tape : forall maj, has (flg s (DTAB maj)) B_TAPE = false
}.

Lemma binit_buf_inv l i s : binit_inv l s -> BUF i ∉ l -> 0 <= i < NBUF ->
  exists s', binit_buf i s = Ret tt s' /\ binit_inv (l ++ [BUF i]) s'.
Proof.
  intros [Hav Hr Hfree Ht] Hi Hin. set (b := BUF i).
  assert (b <> BFREELIST) as Hbf by done.
  assert (NoDup (BFREELIST :: rev l)) as Hnd.
  { rewrite <- Permutation_rev. by apply av_nodup_head with s. }
  assert (b ∉ BFREELIST :: rev l) as Hbn.
  { rewrite elem_of_cons, <- Permutation_rev. intros [?|?]; [done|]. by apply Hi. }
  pose proof (ring_insert_front _ _ _ _ b Hr Hnd Hbn) as Hr'.
  assert (isbuf b) as Hb by (exists i; done).
  unfold binit_buf. fold b. krun.
  rewrite !setb_ne by done.
  set (f := bff s BFREELIST) in *.
  assert (f <> b) as Hfb.
  { intros E. apply Hbn. unfold ring in Hr. pose proof (dll_nxt _ _ _ _ _ Hr) as Hm. fold f in Hm. rewrite E in Hm.
    rewrite elem_of_app in Hm. rewrite elem_of_cons. destruct Hm as [Hm|Hm]; [by right|left].
    by apply list_elem_of_singleton in Hm. }
  match goal with |- context [brelse b ?st] => set (s1 := st) end.
  assert (avail s1 l) as Hav1.
  { destruct Hav as [H1 H2 H3]. split; [|done|done]. eapply ring_ext; [| |exact H1]; intros x; unfold s1; [by keep av_forw|by keep av_back]. }
  assert (flg s1 b = B_BUSY) as Hf1 by (unfold s1; by rewrite setb_eq).
  assert (forall x, x <> b -> flg s1 x = flg s x) as Hf1x.
  { intros x Hx. unfold s1. rewrite setb_ne by congruence. by keep b_flags. }
  destruct (brelse_av s1 l b Hav1 Hb Hi) as (s2&E&Hav2&Hf2&Hf2x&Hid&_); [by rewrite Hf1|].
  rewrite Hf1 in Hav2, Hf2. cbn in Hav2.
  exists s2. split; [exact E|]. split.
  - exact Hav2.
  - rewrite rev_app_distr. change (rev [b] ++ rev l) with (b :: rev l). eapply ring_ext; [| |exact Hr']; intros x;
      destruct (ident_fields _ _ (Hid x)) as (E1&E2&_); cbv beta; unfold s1 in E1, E2.
    + rewrite E1, (setb_keep b_forw), (setb_field b_forw (fun _ => b)), (setb_keep b_forw), (setb_field b_forw (fun _ => f)), !(setb_keep b_forw) by done.
      by rewrite !fn_case.
    + rewrite E2, !(setb_keep b_back), (setb_field b_back (fun _ => b)), (setb_keep b_back), (setb_field b_back (fun _ => BFREELIST)), !(setb_keep b_back) by done.
      rewrite !fn_case. repeat case_decide; congruence.
  - intros x Hx. destruct (ident_fields _ _ (Hid x)) as (_&_&->&_). destruct (decide (x = b)) as [->|Hxb].
    + split; [done|]. unfold s1. keep b_dev. by rewrite setb_eq.
    + assert (x ∈ l) as Hxl by mem. assert (x <> BFREELIST) as Hxf.
      { destruct (av_isbuf _ _ Hav x Hxl) as (?&->&_). done. }
      rewrite Hf2x, Hf1x by done. destruct (Hfree x Hxl) as [-> Hd]. split; [done|]. unfold s1. keep b_dev.
      rewrite setb_ne by congruence. done.
  - intros maj. by rewrite Hf2x, Hf1x.
Qed.

Lemma upto_nodup n : NoDup (upto n).
Proof. apply NoDup_fmap_2_strong; [intros; lia|apply NoDup_seq]. Qed.
Lemma upto_in n x : x ∈ upto n <-> 0 <= x < n.
Proof.
  unfold upto. rewrite list_elem_of_fmap. split.
  - intros (k&->&Hk). apply elem_of_seq in Hk. lia.
  - intros H. exists (Z.to_nat x). rewrite elem_of_seq. lia.
Qed.

(** All buffers are on the available list, free, and every device's queue is empty. *)
Definition bqueues (d : bptr) : list bptr := if bool_decide (d = BFREELIST) then rev bufl else [].

Lemma binit_spec s :
  (forall maj, has (flg s (DTAB maj)) B_TAPE = false) ->
  (forall maj, has_tab maj = true -> 0 <= maj < nblkdev) ->
  exists s', binit s = Ret tt s' /\ cache s' bufl bqueues /\ forall b, isbuf b -> b_dev (bufs s' b) = NODEV.
Proof.
  intros Ht Htab. unfold binit. krun. set (s0 := setb BFREELIST _ s).
  destruct (each_ret (fun l s => binit_inv (map BUF l) s) binit_buf (upto NBUF) s0) as (s1&E1&H1).
  { intros l1 i l2 st El Hi. rewrite map_app. cbn. pose proof (upto_nodup NBUF) as Hn. rewrite El in Hn.
    apply binit_buf_inv; [done| |].
    - intros Hin. apply list_elem_of_fmap in Hin as (j&[= <-]&Hj). rewrite <- Permutation_middle in Hn.
      apply NoDup_cons in Hn as [Hn _]. apply Hn. mem.
    - apply upto_in. rewrite El. mem. }
  { unfold s0. split; [split|..].
    - split; cbv beta; by rewrite setb_eq.
    - constructor.
    - intros b Hb. by apply elem_of_nil in Hb.
    - split; cbv beta; by rewrite setb_eq.
    - intros b Hb. by apply elem_of_nil in Hb.
    - intros maj. by rewrite setb_ne. }
  rewrite (bind_ret _ _ _ _ _ E1). fold bufl in H1.
  destruct (each_ret (fun l s => binit_inv bufl s /\ forall maj, maj ∈ l -> has_tab maj = true -> ring (bff s) (bfb s) (DTAB maj) []) binit_dev (upto nblkdev) s1)
    as (s2&E2&H2&Hd).
  { intros l1 maj l2 st _ [[[Hr Hn Hb] Hf Hfr Htp] Hd]. unfold binit_dev. destruct (has_tab maj) eqn:Et.
    - eexists. rewrite k_modb. split; [done|]. split.
      + split; [split; [|exact Hn|exact Hb]|..].
        * eapply ring_ext; [| |exact Hr]; intros x; [by keep av_forw|by keep av_back].
        * eapply ring_ext_on; [|exact Hf].
          intros x Hx. cbv beta. rewrite !setb_ne; [done|..]; intros <-; (apply elem_of_cons in Hx as [?|Hx]; [done|]);
            rewrite <- Permutation_rev in Hx; by destruct (Hb _ Hx) as (?&?&_).
        * intros x Hx. destruct (Hb x Hx) as (?&->&_). rewrite !setb_ne by done. by apply Hfr.
        * intros mj. keep b_flags. apply Htp.
      + intros mj Hm Htm. destruct (decide (mj = maj)) as [->|Hne].
        * split; cbv beta; by rewrite !setb_eq.
        * rewrite elem_of_app, list_elem_of_singleton in Hm. destruct Hm as [Hm|]; [|done].
          eapply ring_ext_on; [|exact (Hd mj Hm Htm)]. intros x Hx. apply list_elem_of_singleton in Hx as ->.
          cbv beta. by rewrite !setb_ne by congruence.
    - exists st. split; [done|]. split; [done|]. intros mj [Hm| ->%list_elem_of_singleton]%elem_of_app; [by apply Hd|congruence]. }
  { split; [done|]. intros maj Hm. by apply elem_of_nil in Hm. }
  exists s2. split; [exact E2|].
  assert (forall b, isbuf b -> flg s2 b = 0 /\ b_dev (bufs s2 b) = NODEV) as Hfree.
  { intros b Hb. apply (bi_free _ _ H2). by apply bufl_isbuf. }
  split; [|intros b Hb; by apply Hfree].
  assert (forall d, qhead d -> bqueues d = rev bufl /\ d = BFREELIST \/ bqueues d = [] /\ d <> BFREELIST) as Hbq.
  { intros d _. unfold bqueues. case_bool_decide; auto. }
  assert (forall d b, b ∈ bqueues d -> d = BFREELIST /\ isbuf b) as Hin.
  { intros d b. unfold bqueues. case_bool_decide; [|by intros ?%elem_of_nil]. intros Hb. rewrite <- Permutation_rev in Hb. by apply bufl_isbuf in Hb. }
  split.
  - apply H2.
  - split.
    + intros d [->|(maj&->&Hm)]; unfold bqueues; [apply (bi_ring _ _ H2)|]. rewrite bool_decide_eq_false_2 by done.
      apply Hd; [|done]. apply upto_in. by apply Htab.
    + intros d _. unfold bqueues. case_bool_decide; [|constructor]. rewrite <- Permutation_rev. apply (bi_av _ _ H2).
    + intros d b _ Hb. by apply (Hin d b).
    + intros b Hb. exists BFREELIST. split; [by left|]. unfold bqueues. rewrite bool_decide_eq_true_2 by done.
      rewrite <- Permutation_rev. by apply bufl_isbuf.
    + intros b d d' _ _ Hb Hb'. apply Hin in Hb as [-> _], Hb' as [-> _]. done.
  - intros b Hb. destruct (Hfree b Hb) as [-> _]. split; [done|]. intros _. by apply bufl_isbuf.
  - intros b Hb. by destruct (Hfree b Hb) as [-> _].
  - intros d b _ Hb Hn. apply Hin in Hb as [_ Hb]. by destruct (Hfree b Hb) as [_ ?].
  - intros b b' Hb _ Hn. by destruct (Hfree b Hb) as [_ ?].
  - intros b Hb. apply bufl_isbuf in Hb. by destruct (Hfree b Hb) as [-> _].
  - intros b Hb. apply bufl_isbuf in Hb. by destruct (Hfree b Hb) as [-> _].
  - apply H2.
  - intros b Hb. apply bufl_isbuf in Hb. by destruct (Hfree b Hb) as [-> _].
Qed.

(** ** Flushing *)

Lemma notavail_eval s b f p :
  av_forw (bufs s b) = f -> av_back (bufs s b) = p -> f <> b -> p <> b ->
  exists s', notavail b s = Ret tt s' /\
    bufs s' = bufs (setb b (fun r => r <| b_flags ::= fun f => setf f B_BUSY |>)
      (setb f (fun r => r <| av_back := p |>) (setb p (fun r => r <| av_forw := f |>) s))) /\
    disk s' = disk s /\ others s' = others s.
Proof.
  intros Hf Hp Hfb Hpb. unfold notavail. krun. rewrite !bufs_spl, Hf, Hp. rewrite (setb_ne p) by done.
  rewrite bufs_spl, Hf, Hp. eexists. split; [reflexivity|]. done.
Qed.

(** Marking a buffer before or after it leaves the list is the same. *)
Lemma notavail_mark s l1 b l2 :
  avail s (l1 ++ b :: l2) ->
  exists s1 s2, notavail b s = Ret tt s1 /\
    notavail b (setb b (fun r => r <| b_flags ::= fun f => setf f B_ASYNC |>) s) = Ret tt s2 /\
    (forall x, bufs s2 x = bufs (setb b (fun r => r <| b_flags ::= fun f => setf f B_ASYNC |>) s1) x) /\
    disk s2 = disk s1 /\ others s2 = others s1.
Proof.
  intros Hav. pose proof (av_nodup_head _ _ Hav) as Hnd.
  pose proof (ring_neighbours _ _ _ _ _ _ (av_ring _ _ Hav) Hnd) as [Hnf Hnb]. cbv beta in Hnf, Hnb.
  set (f := av_forw (bufs s b)) in *. set (p := av_back (bufs s b)) in *.
  destruct (notavail_eval s b f p) as (s1&E1&B1&D1&O1); [done..|].
  destruct (notavail_eval (setb b (fun r => r <| b_flags ::= fun f => setf f B_ASYNC |>) s) b f p) as (s2&E2&B2&D2&O2);
    [by rewrite setb_eq|by rewrite setb_eq|done..|].
  exists s1, s2. split; [done|]. split; [done|]. split; [|by rewrite D1, D2, O1, O2].
  assert (forall z, setf (setf z B_ASYNC) B_BUSY = setf (setf z B_BUSY) B_ASYNC) as Hcomm.
  { intros z. unfold setf. by rewrite <- !Z.lor_assoc. }
  intros x. rewrite B2. rewrite (setb_bufs b _ s1), B1. clearbody f p. clear - Hnf Hnb Hcomm.
  destruct (decide (b = x)) as [<-|Hx].
  - rewrite !setb_eq. rewrite !(setb_ne f), !(setb_ne p), setb_eq by done. cbv [update_with]; cbn; f_equal; apply Hcomm.
  - rewrite !(setb_ne b) by done. rewrite !setb_bufs. repeat case_decide; subst; done.
Qed.

(** One round of [bflush]: a delayed write is made. *)
Lemma bflush_one s l1 b l2 Q :
  cache s (l1 ++ b :: l2) Q -> has (flg s b) B_DELWRI = true ->
  exists s', (modb b (fun r => r <| b_flags ::= fun f => setf f B_ASYNC |>);; notavail b;; bwrite b;; mret (inl tt) : M (unit + unit)) s
      = Ret (inl tt) s' /\
    cache s' ((l1 ++ l2) ++ [b]) Q /\ same_blocks s s' /\
    has (flg s' b) B_DELWRI = false /\ same_bufs (fun x => x <> b) s s' /\ others s' = others s.
Proof.
  intros Hc Hdw. pose proof (ca_av _ _ _ Hc) as Hav. assert (isbuf b) as Hb by (apply (av_isbuf _ _ Hav); mem).
  destruct (ca_del _ _ _ Hc b) as [Hdn Hn]; [mem|done|].
  destruct (notavail_cache s l1 b l2 Q Hc) as (s1&E1&Hc1&Hf1&Hfx1&Hid1&Hr1&Hct1).
  destruct (notavail_mark s l1 b l2 Hav) as (s1'&s2&E1'&E2&B2&D2&O2). rewrite E1 in E1'. injection E1' as <-.
  destruct (ident_fields _ _ (Hid1 b)) as (_&_&Ed&_).
  assert (b ∉ l1 ++ l2) as HbA.
  { pose proof (av_nodup _ _ Hav) as Hnd. rewrite <- Permutation_middle in Hnd. by apply NoDup_cons in Hnd as [? _]. }
  destruct (write_marked s1 s2 (l1 ++ l2) b Q Hc1 Hb HbA)
    as (s3&E3&Hc3&Hsb3&Hdw3&Hsm3&Ho3); [by rewrite Ed|rewrite Hf1; by simpl_flags|rewrite Hf1; by simpl_flags|done..|].
  krun. rewrite (bind_ret _ _ _ _ _ E2), (bind_ret _ _ _ _ _ E3).
  exists s3. split; [done|]. split; [done|]. split; [|split; [done|split]].
  - eapply same_blocks_trans; [|exact Hsb3]. by apply same_blocks_rest.
  - eapply same_bufs_trans; [|exact Hsm3]. intros x Hx Hxb. by rewrite Hfx1, Hid1.
  - rewrite Ho3. by rewrite (rest_others _ _ Hr1).
Qed.

(** The buffers that [bflush] writes. *)
Definition delayed (s : kst) (dev : Z) (b : bptr) : bool :=
  has (flg s b) B_DELWRI && ((dev =? NODEV) || (dev =? b_dev (bufs s b))).

Lemma bflush_scan_spec s A dev : avail s A -> bflush_scan dev s = Ret (List.find (delayed s dev) A) s.
Proof.
  intros [Hr Hn Hi]. pose proof enough_fuel as Hf.
  assert (length A <= 29)%nat as Hl by (by apply bufs_length).
  assert (BFREELIST ∉ A) as HnA by (intros Hx; by destruct (Hi _ Hx) as (?&?&_)). clear Hn Hi.
  unfold bflush_scan. krun.
  enough (forall l n x, dll (avf s) (avb s) x l BFREELIST -> BFREELIST ∉ l -> (length l < n)%nat ->
    (iter n (fun bp =>
      if bool_decide (bp = BFREELIST) then mret (inr None)
      else
        b ← getb bp;
        if has (b_flags b) B_DELWRI && ((dev =? NODEV) || (dev =? b_dev b)) then mret (inr (Some bp))
        else mret (inl (av_forw b))) (av_forw (bufs s x)) : M (option bptr)) s = Ret (List.find (delayed s dev) l) s) as G
    by (apply (G A fuel BFREELIST); [done|done|lia]).
  clear. induction l as [|b l IH]; intros [|n] x H Hd Hn; cbn in Hn; try lia; cbn in H.
  - destruct H as [-> _]. by rewrite (k_iter_inr _ _ _ _ None s) by (by rewrite bool_decide_eq_true_2).
  - destruct H as (->&_&H). assert (b <> BFREELIST) by (intros ->; mem). cbn [List.find].
    destruct (delayed s dev b) eqn:E; unfold delayed in E.
    + rewrite (k_iter_inr _ _ _ _ (Some b) s); [done|]. rewrite bool_decide_eq_false_2 by done. krun. by rewrite E.
    + rewrite (k_iter_inl _ _ _ _ (av_forw (bufs s b)) s); [apply IH; [done|mem|lia]|].
      rewrite bool_decide_eq_false_2 by done. krun. by rewrite E.
Qed.

(** [bflush] ends, with no delayed write for the device left. *)
Lemma bflush_spec s A Q dev :
  cache s A Q ->
  exists s' A', bflush dev s = Ret tt s' /\ cache s' A' Q /\ A' ≡ₚ A /\ same_blocks s s' /\ same_busy s A s' /\
    others s' = others s /\ forall b, b ∈ A' -> delayed s' dev b = false.
Proof.
  intros Hc. unfold bflush.
  match goal with |- context [iter fuel ?f tt] => set (body := f) end.
  enough (forall n k s A, (dirty s A <= n)%nat -> (n < k)%nat -> cache s A Q ->
    exists s' A', iter k body tt s = Ret tt s' /\ cache s' A' Q /\ A' ≡ₚ A /\ same_blocks s s' /\ same_busy s A s' /\
      others s' = others s /\ forall b, b ∈ A' -> delayed s' dev b = false) as G.
  { destruct (G 29%nat fuel s A) as (s'&A'&E&Hc'&HP&Hsb&Hbz&Ho&Hd); [|pose proof enough_fuel; lia|done|].
    - unfold dirty. transitivity (length A); [apply length_filter|]. eapply avail_length, Hc.
    - rewrite (bind_ret _ _ _ _ _ E). eexists _, A'. split; [done|]. split; [by eapply cache_bufs|]. split; [done|].
      split; [|done]. eapply same_blocks_trans; [exact Hsb|]. by apply same_blocks_bufs. }
  clear s A Hc. induction n as [|n IH]; intros [|k] s A Hd Hk Hc; try lia;
    (set (s0 := s <| spl := false |>);
     assert (cache s0 A Q) as Hc0 by (by eapply cache_bufs);
     assert (forall m : M (unit + unit), (spl6;; m) s = m s0) as Hspl by done;
     pose proof (bflush_scan_spec s0 A dev (ca_av _ _ _ Hc0)) as Es;
     destruct (List.find (delayed s0 dev) A) as [b|] eqn:Ef).
  2,4: exists s0, A; rewrite (k_iter_inr _ _ _ _ tt s0) by (unfold body; by rewrite Hspl, (bind_ret _ _ _ _ _ Es));
    split; [done|]; split; [done|]; split; [done|];
    split; [by apply same_blocks_bufs|]; split; [by apply same_busy_bufs|]; split; [done|];
    intros b Hb; apply list_elem_of_In in Hb; by apply (List.find_none _ _ Ef).
  all: apply List.find_some in Ef as [Hin [Hdw _]%andb_true_iff]; apply list_elem_of_In, list_elem_of_split in Hin as (l1&l2&->).
  - exfalso. unfold dirty in Hd. rewrite filter_app, filter_cons_True, length_app in Hd by done. cbn in Hd. lia.
  - destruct (bflush_one s0 l1 b l2 Q Hc0 Hdw) as (s1&E1&Hc1&Hsb1&Hdw1&Hsm1&Ho1).
    rewrite (k_iter_inl _ _ _ _ tt s1) by (unfold body; by rewrite Hspl, (bind_ret _ _ _ _ _ Es)).
    assert (((l1 ++ l2) ++ [b]) ≡ₚ l1 ++ b :: l2) as HP1 by (rewrite Permutation_app_comm; cbn; by rewrite Permutation_middle).
    destruct (IH k s1 ((l1 ++ l2) ++ [b])) as (s'&A'&E&Hc'&HP&Hsb&Hbz&Ho&Hdl); [|lia|done|].
    { assert (dirty s (l1 ++ b :: l2) = S (dirty s1 ((l1 ++ l2) ++ [b]))); [|lia].
      change (dirty s (l1 ++ b :: l2)) with (dirty s0 (l1 ++ b :: l2)). 
      transitivity (dirty s0 (b :: l1 ++ l2)); [unfold dirty; by rewrite Permutation_middle|].
      destruct (ca_av _ _ _ Hc0) as [_ Hnd Hib].
      apply dirty_flush; [by rewrite Permutation_middle|intros x Hx; apply Hib; mem|done..]. }
    exists s', A'. split; [done|]. split; [done|]. split; [by rewrite HP|]. split; [|split; [|split; [|done]]].
    + eapply same_blocks_trans; [|exact Hsb]. eapply same_blocks_trans; [|exact Hsb1]. by apply same_blocks_bufs.
    + intros x Hx Hxn. destruct (Hbz x Hx) as (->&->&->&->); [by rewrite HP1|].
      destruct (Hsm1 x Hx) as [-> Hid]; [intros ->; mem|]. by destruct (ident_fields _ _ Hid) as (_&_&->&->&->).
    + by rewrite Ho.
Qed.

(** ** Properties *)

(** A block device of the configuration. *)
Record usable (dev : Z) : Prop := {
  us_dev : dev <> NODEV;
  us_tab : has_tab (major dev) = true;
  us_maj : major dev < nblkdev
}.
(** No process has the block's buffer. *)
Definition unheld (s : kst) (A : list bptr) (dev blk : Z) : Prop :=
  forall x, isbuf x -> b_dev (bufs s x) = dev -> b_blkno (bufs s x) = blk -> x ∈ A.

(** C20: [bread] returns: the buffer it gives is busy, is the only one for the
    block, and holds what the block contains, whether the block was in the
    cache, had to be read, or had to wait for delayed writes of others; the
    cache stays well formed, no block's content changes, and no other process's
    buffer is touched. *)
Theorem bread_content s A Q dev blk :
  cache s A Q -> A <> [] -> usable dev -> unheld s A dev blk ->
  exists b s' A' Q', bread dev blk s = Ret b s' /\ cache s' A' Q' /\ has (flg s' b) B_BUSY = true /\
    b_dev (bufs s' b) = dev /\ b_blkno (bufs s' b) = blk /\
    (forall x, isbuf x -> b_dev (bufs s' x) = dev -> b_blkno (bufs s' x) = blk -> x = b) /\
    agree 0 512 (b_data (bufs s' b)) (content s dev blk) /\
    b :: A' ≡ₚ A /\ same_blocks s s' /\ same_busy s A s' /\ others s' = others s.
Proof.
  intros Hc HA [Hn Ht Hm] Hu. destruct (bread_spec s A Q dev blk Hc HA Hn Ht Hm Hu) as (b&s'&A'&Q'&E&G&_&Hd).
  pose proof G as [G1 G2 G3 G4 G5 G6 Ga Gr G7 G8 G9]. exists b, s', A', Q'. split_and!; try done.
  - destruct (has (flg s' b) B_BUSY) eqn:Eb; [done|]. by apply (ca_busy _ _ _ G1 b G2) in Eb.
  - intros x Hx E1 E2. symmetry. apply (ca_uniq _ _ _ G1); congruence.
Qed.

(** A synchronous [bwrite] puts the caller's data on the device and in the
    block, changes no other block, and releases the buffer. *)
Theorem bwrite_durable s A Q b :
  cache s A Q -> isbuf b -> b ∉ A -> b_dev (bufs s b) <> NODEV -> has (flg s b) B_ASYNC = false ->
  exists s', bwrite b s = Ret tt s' /\ cache s' (A ++ [b]) Q /\
    agree 0 512 (disk s' (b_dev (bufs s b)) (b_blkno (bufs s b))) (b_data (bufs s b)) /\
    blocks_set s s' (b_dev (bufs s b)) (b_blkno (bufs s b)) (b_data (bufs s b)).
Proof. intros Hc Hb HbA Hn Ha. destruct (bwrite_sync s A Q b Hc Hb HbA Hn Ha) as (s'&?&?&?&?&_). by exists s'. Qed.

Lemma set_data_cache s A Q b g :
  cache s A Q -> isbuf b -> b ∉ A -> cache (setb b (fun r => r <| b_data ::= g |>) s) A Q.
Proof.
  intros Hc Hb HbA. destruct (ca_flags _ _ _ Hc b Hb) as [Hm He].
  destruct (has (flg s b) B_BUSY) eqn:Hbusy; [|by apply (ca_busy _ _ _ Hc) in Hbusy].
  apply (cache_busy s _ A Q b Hc Hb HbA); try done; try (by keep b_flags).
  - intros x. split_and!; [by keep av_forw|by keep av_back|by keep b_forw|by keep b_back|by keep b_dev|by keep b_blkno].
  - intros x _ Hx. by rewrite setb_ne.
  - intros maj. by keep b_flags.
Qed.

Lemma set_data_blocks s b g dev blk :
  ~ (dev = b_dev (bufs s b) /\ blk = b_blkno (bufs s b)) ->
  content (setb b (fun r => r <| b_data ::= g |>) s) dev blk = content s dev blk.
Proof.
  intros Hne. unfold content.
  assert (forall l, List.find (holds (setb b (fun r => r <| b_data ::= g |>) s) dev blk) l = List.find (holds s dev blk) l) as E.
  { induction l as [|x l IH]; [done|]. cbn [List.find]. rewrite IH. unfold holds. by keep b_dev; keep b_blkno; keep b_flags. }
  rewrite E. destruct (List.find _ _) as [x|] eqn:Ef; [|done].
  apply List.find_some in Ef as [_ (E1&E2&_)%holds_true]. rewrite setb_ne; [done|]. intros <-. by apply Hne.
Qed.

(** C2: What a process changes in a block it has read, it reads again after a
    delayed write, even though the device has not seen the change; and it sees
    no other block change. *)
Theorem read_your_writes s A Q dev blk g :
  cache s A Q -> A <> [] -> usable dev -> unheld s A dev blk ->
  exists b s1, bread dev blk s = Ret b s1 /\ agree 0 512 (b_data (bufs s1 b)) (content s dev blk) /\
  exists s2, bdwrite b (setb b (fun r => r <| b_data ::= g |>) s1) = Ret tt s2 /\ disk s2 = disk s1 /\
  exists b' s3 A3 Q3, bread dev blk s2 = Ret b' s3 /\ cache s3 A3 Q3 /\
    agree 0 512 (b_data (bufs s3 b')) (g (b_data (bufs s1 b))) /\
    forall dv bk, dv <> NODEV -> ~ (dv = dev /\ bk = blk) -> agree 0 512 (content s3 dv bk) (content s dv bk).
Proof.
  intros Hc HA [Hn Ht Hm] Hu.
  destruct (bread_spec s A Q dev blk Hc HA Hn Ht Hm Hu) as (b&s1&A1&Q1&E1&G1&Hd1&Ha1).
  pose proof G1 as [Hc1 Hb HbA1 _ Hdv1 Hbk1 _ _ Hs1 _ _].
  exists b, s1. split; [done|]. split; [done|].
  set (s1' := setb b (fun r => r <| b_data ::= g |>) s1).
  assert (bufs s1' b = (bufs s1 b) <| b_data ::= g |>) as Eb by (unfold s1'; by rewrite setb_eq).
  assert (forall dv bk, ~ (dv = dev /\ bk = blk) -> content s1' dv bk = content s1 dv bk) as Ho1.
  { intros dv bk Hne. apply set_data_blocks; rewrite ?Hdv1, ?Hbk1; done. }
  destruct (bdwrite_spec s1' A1 Q1 b) as (s2&A2&E2&Hc2&HP2&Hset&Hdk&Hsm&_);
    [by apply set_data_cache|done|done|by rewrite Eb, <- Hdv1 in *|].
  exists s2. split; [done|]. split; [done|].
  assert (b_dev (bufs s1' b) = dev /\ b_blkno (bufs s1' b) = blk /\ b_data (bufs s1' b) = g (b_data (bufs s1 b))) as (D1&D2&D3)
    by (by rewrite Eb).
  rewrite D1, D2, D3 in Hset.
  destruct (bread_spec s2 A2 Q1 dev blk Hc2) as (b'&s3&A3&Q3&E3&G3&_&Ha3); [|done|done|done| |].
  { intros ->. by apply Permutation_nil_l in HP2. }
  { intros x Hx E3 E4. rewrite HP2. destruct (decide (x = b)) as [->|Hxb]; [mem|]. exfalso. apply Hxb.
    destruct (Hsm x Hx Hxb) as [_ Hid]. destruct (ident_fields _ _ Hid) as (_&_&E5&E6&_).
    assert (b_dev (bufs s1' x) = b_dev (bufs s1 x) /\ b_blkno (bufs s1' x) = b_blkno (bufs s1 x)) as [E7 E8]
      by (unfold s1'; by rewrite setb_ne).
    apply (ca_uniq _ _ _ Hc1); congruence. }
  exists b', s3, A3, Q3. split; [done|]. split; [apply G3|]. split.
  - intros i Hi. rewrite Ha3 by done. rewrite (Hset dev blk Hn i Hi). by rewrite decide_True.
  - intros dv bk Hdv Hne i Hi. rewrite (sb_content _ _ (g_same _ _ _ _ _ _ _ _ G3) dv bk Hdv i Hi), (Hset dv bk Hdv i Hi), decide_False by done.
    rewrite Ho1 by done. by apply Hs1.
Qed.

(** [bflush] ends, and then every block of the device (of all devices for
    NODEV) that no process holds is on the device as the cache has it; no
    block's content changes. *)
Theorem bflush_durable s A Q dev :
  cache s A Q ->
  exists s' A', bflush dev s = Ret tt s' /\ cache s' A' Q /\ A' ≡ₚ A /\ same_blocks s s' /\ same_busy s A s' /\
    forall dv blk, dv <> NODEV -> (dev = NODEV \/ dv = dev) -> unheld s' A' dv blk ->
      agree 0 512 (disk s' dv blk) (content s dv blk).
Proof.
  intros Hc. destruct (bflush_spec s A Q dev Hc) as (s'&A'&E&Hc'&HP&Hsb&Hbz&_&Hdl).
  exists s', A'. split_and!; try done. intros dv blk Hn Hdv Hu i Hi. rewrite <- (sb_content _ _ Hsb dv blk Hn i Hi).
  unfold content. destruct (List.find _ _) as [b|] eqn:Ef; [|done].
  apply List.find_some in Ef as [Hin (E1&E2&E3)%holds_true]. apply list_elem_of_In, bufl_isbuf in Hin.
  specialize (Hu b Hin E1 E2). specialize (Hdl b Hu). symmetry. subst dv blk. apply (ca_clean _ _ _ Hc' b Hu E3); [|done|done].
  unfold delayed in Hdl. destruct (has (flg s' b) B_DELWRI); [|done]. cbn in Hdl.
  destruct Hdv as [->|<-]; [done|]. by rewrite Z.eqb_refl, orb_true_r in Hdl.
Qed.

(** [binit] makes a well-formed cache out of any state: all buffers are
    available and free, and every block is what the device has. *)
Theorem binit_cache s :
  (forall maj, has (flg s (DTAB maj)) B_TAPE = false) ->
  (forall maj, has_tab maj = true -> 0 <= maj < nblkdev) ->
  exists s', binit s = Ret tt s' /\ cache s' bufl bqueues /\
    forall dev blk, dev <> NODEV -> unheld s' bufl dev blk /\ content s' dev blk = disk s' dev blk.
Proof.
  intros Ht Htab. destruct (binit_spec s Ht Htab) as (s'&E&Hc&Hd). exists s'. split; [done|]. split; [done|].
  intros dev blk Hn. split.
  - intros x Hx. rewrite Hd by done. congruence.
  - apply content_disk. intros b Hb. destruct (holds s' dev blk b) eqn:Eh; [|done].
    apply holds_true in Eh as (E1&_). rewrite Hd in E1 by done. congruence.
Qed.

(** The number of bytes that [swap] asks the driver for is 4096 a click,
    modulo 65536: right for up to 15 clicks, wrong from 16 on (16 clicks ask for
    nothing), although up to 960 are put in one request. *)
Theorem swap_count_wraps bp rdflg blkno coreaddr count s :
  0 < count ->
  exists s1 k, swap_piece bp rdflg (blkno, coreaddr, count) s = (d_strategy (major swapdev) bp ≫= k) s1 /\
    b_bcount (bufs s1 bp) = (4096 * Z.min count 960) mod 65536 /\
    (b_bcount (bufs s1 bp) = 4096 * Z.min count 960 <-> count < 16).
Proof.
  intros Hc. unfold swap_piece. replace (count =? 0) with false by lia. krun.
  set (tc := if 960 <=? count then 960 else count). assert (tc = Z.min count 960) as Etc by (unfold tc; case_match; lia).
  eexists _, _. split; [reflexivity|]. keep b_bcount. rewrite setb_eq. cbn. unfold u16, wrap_u, ctob. rewrite Etc.
  rewrite Z.shiftl_mul_pow2 by lia. change (2 ^ 12) with 4096. change (2 ^ 16) with 65536. rewrite Z.mul_comm.
  split; [done|]. split; intros H; [|apply Z.mod_small; lia].
  pose proof (Z.mod_pos_bound (4096 * Z.min count 960) 65536). lia.
Qed.
End code.

(** ** A concrete machine *)

Definition zbuf : buf := MkBuf 0 BFREELIST BFREELIST BFREELIST BFREELIST 0 0 0 (fun _ => 0) 0 0 0 0.
Definition zinode : inode := MkInode 0 0 0 0 0 0 0 0 0 (fun _ => 0) 0.
Definition zuser : user :=
  MkUser 0 0 0 0 0 0 0 0 0 0 0 0 None (fun _ => 0) 0 0 (fun _ => None) (fun _ => 0) (fun _ => 0)
    0 0 0 false 0 0 false 0 None.
(** The kernel's data before [main]; block [k] of every device is full of the byte [k]. *)
Definition blank : kst :=
  MkKst (fun _ => zbuf) (MkIo 0 0 0 0 (fun _ => 0)) (fun _ => zinode) (fun _ => MkFile 0 0 0 0) (fun _ => MkMount 0 None None)
    (fun _ => MkText 0 0 0 None 0 0 0)    zuser 0 0 0 0 true false (fun _ => 0) (fun _ => 0) (fun _ k _ => u8 k) [].

(** One driver, of major 0, that makes its transfers at once. *)
Definition ramdisk_with (strat : Z -> bptr -> M unit) : Devices := {|
  nblkdev := 1; nchrdev := 0; has_tab := fun maj => maj =? 0; d_strategy := strat;
  bdev_open := fun _ _ _ => mret tt; bdev_close := fun _ _ _ => mret tt;
  cdev_open := fun _ _ _ => mret tt; cdev_close := fun _ _ _ => mret tt;
  cdev_read := fun _ _ => mret tt; cdev_write := fun _ _ => mret tt;
  mapfree := fun _ => mret tt; swapdev := 0; swplo := 0;
  uisa := fun _ _ => 0; buffers_at := 65536; pipedev := 0
|}.
Definition ramdisk : Devices :=
  ramdisk_with (fun _ bp s => iodone (DV := ramdisk_with (fun _ _ => mret tt)) bp (transfer bp s)).
Definition rounds : Fuel := 200%nat.
#[local] Existing Instances ramdisk rounds.

Lemma ramdisk_sync : SyncDriver.
Proof. split; [reflexivity|cbv; lia]. Qed.
#[local] Existing Instance ramdisk_sync.

(** The machine after [binit]. *)
Definition booted : kst := match binit blank with Ret _ s => s | _ => blank end.

Lemma booted_cache : cache booted bufl bqueues /\ (forall b, isbuf b -> b_dev (bufs booted b) = NODEV) /\
  disk booted = disk blank.
Proof.
  destruct (binit_spec blank) as (s'&E&Hc&Hd); [done| |].
  - intros maj ->%Z.eqb_eq. done.
  - split_and!; [..|by vm_compute]; unfold booted; by rewrite E.
Qed.
Lemma usable_0 : usable 0.
Proof. by split. Qed.
Lemma booted_unheld blk : unheld booted bufl 0 blk.
Proof. intros x Hx E. destruct booted_cache as (_&Hd&_). rewrite (Hd x Hx) in E. discriminate E. Qed.

Lemma bread_content_witness :
  exists b s' A' Q', bread 0 5 booted = Ret b s' /\ cache s' A' Q' /\ has (b_flags (bufs s' b)) B_BUSY = true /\
    b_dev (bufs s' b) = 0 /\ b_blkno (bufs s' b) = 5 /\
    (forall x, isbuf x -> b_dev (bufs s' x) = 0 -> b_blkno (bufs s' x) = 5 -> x = b) /\
    agree 0 512 (b_data (bufs s' b)) (content booted 0 5) /\
    b :: A' ≡ₚ bufl /\ same_blocks booted s' /\ same_busy booted bufl s' /\ others s' = others booted.
Proof.
  exact (bread_content booted bufl bqueues 0 5 (proj1 booted_cache) ltac:(discriminate) usable_0 (booted_unheld 5)).
Defined.

Lemma read_your_writes_witness :
  exists b s1, bread 0 5 booted = Ret b s1 /\ agree 0 512 (b_data (bufs s1 b)) (content booted 0 5) /\
  exists s2, bdwrite b (setb b (fun r => r <| b_data ::= fun m => mfill m 0 4 9 |>) s1) = Ret tt s2 /\ disk s2 = disk s1 /\
  exists b' s3 A3 Q3, bread 0 5 s2 = Ret b' s3 /\ cache s3 A3 Q3 /\
    agree 0 512 (b_data (bufs s3 b')) (mfill (b_data (bufs s1 b)) 0 4 9) /\
    forall dv bk, dv <> NODEV -> ~ (dv = 0 /\ bk = 5) -> agree 0 512 (content s3 dv bk) (content booted dv bk).
Proof.
  exact (read_your_writes booted bufl bqueues 0 5 (fun m => mfill m 0 4 9) (proj1 booted_cache)
    ltac:(discriminate) usable_0 (booted_unheld 5)).
Defined.

(** The state and the buffer after [bread] of block 5, with its data changed. *)
Definition held5 : kst := match bread 0 5 booted with
  Ret b s => setb b (fun r => r <| b_data ::= fun m => mfill m 0 4 9 |>) s | _ => booted end.
Lemma held5_cache : exists A Q, cache held5 A Q /\ (BUF 0 ∉ A) /\ A <> [].
Proof.
  destruct (bread_spec booted bufl bqueues 0 5) as (b&s'&A'&Q'&E&[G1 G2 G3 G4 _ _ _ _ _ _ _]&_);
    [apply booted_cache|discriminate|discriminate|done|done|apply booted_unheld|].
  assert (b = BUF 0) as ->.
  { assert (match bread 0 5 booted with Ret b _ => b = BUF 0 | _ => False end) as Hb by (vm_compute; reflexivity). by rewrite E in Hb. }
  exists A', Q'. unfold held5. rewrite E. split; [by apply (set_data_cache)|]. split; [done|].
  intros ->. apply Permutation_length in G4. done.
Qed.

Lemma bwrite_durable_witness :
  exists A Q s', bwrite (BUF 0) held5 = Ret tt s' /\ cache s' (A ++ [BUF 0]) Q /\
    agree 0 512 (disk s' (b_dev (bufs held5 (BUF 0))) (b_blkno (bufs held5 (BUF 0)))) (b_data (bufs held5 (BUF 0))) /\
    blocks_set held5 s' (b_dev (bufs held5 (BUF 0))) (b_blkno (bufs held5 (BUF 0))) (b_data (bufs held5 (BUF 0))).
Proof.
  destruct held5_cache as (A&Q&Hc&Hb&_). exists A, Q. apply (bwrite_durable); [done|by exists 0|done|..].
  - vm_compute. discriminate.
  - vm_compute. reflexivity.
Defined.

Lemma bflush_durable_witness :
  exists A Q s' A', bflush NODEV held5 = Ret tt s' /\ cache s' A' Q /\ A' ≡ₚ A /\ same_blocks held5 s' /\ same_busy held5 A s' /\
    forall dv blk, dv <> NODEV -> (NODEV = NODEV \/ dv = NODEV) -> unheld s' A' dv blk ->
      agree 0 512 (disk s' dv blk) (content held5 dv blk).
Proof.
  destruct held5_cache as (A&Q&Hc&_). exists A, Q. apply (bflush_durable). done.
Defined.

Lemma binit_cache_witness :
  exists s', binit blank = Ret tt s' /\ cache s' bufl bqueues /\
    forall dev blk, dev <> NODEV -> unheld s' bufl dev blk /\ content s' dev blk = disk s' dev blk.
Proof. apply (binit_cache); [done|]. intros maj ->%Z.eqb_eq. done. Defined.

Lemma swap_count_wraps_witness :
  exists s1 k, swap_piece SWBUF1 B_READ (0, 0, 16) blank = (d_strategy (major swapdev) SWBUF1 ≫= k) s1 /\
    b_bcount (bufs s1 SWBUF1) = (4096 * Z.min 16 960) mod 65536 /\
    (b_bcount (bufs s1 SWBUF1) = 4096 * Z.min 16 960 <-> 16 < 16).
Proof. apply swap_count_wraps. lia. Defined.
End Bio.
