(* ===== verification/Quiet.v ===== *)
(** * Quiet: invariants that the buffer cache cannot break

    An invariant [J] of the kernel's state is [Quiet] if it survives the changes
    that buffer operations make: fields of buffers other than [b_resid], which
    they may only set to 0, and what is neither in buffers nor in inodes.  Then
    every operation of the cache keeps [J], at each point where it gives up the
    processor too, in any interleaving with processes that keep it. *)
From S2P Require Import Prelude Kmonad Kernel Bio.
Import Bio.

Module Quiet.

(** A change of a buffer that leaves its residual count, or makes it 0. *)
Definition mild (f : buf -> buf) : Prop := forall r, b_resid (f r) = b_resid r \/ b_resid (f r) = 0.

Class Quiet `{DV : Devices} (P : proto lbl kst) (J : kst -> Prop) : Prop := {
  q_spin : may_spin P;
  q_panic : may_panic P;
  q_jump : may_jump P;
  q_block : forall l s, J s -> at_block P l s;
  q_wake : forall s s', on_wake P s s' -> J s';
  q_setb : forall b f s, mild f -> J s -> J (setb b f s);
  q_rest : forall s s', bufs s' = bufs s -> inodes s' = inodes s -> J s -> J s';
  q_strategy : forall maj bp, pres P J (d_strategy maj bp);
  q_mapfree : forall bp, pres P J (mapfree bp)
}.

#[export] Hint Extern 1 (may_spin _) => apply q_spin : pres.
#[export] Hint Extern 1 (may_panic _) => apply q_panic : pres.
#[export] Hint Extern 1 (may_jump _) => apply q_jump : pres.
#[export] Hint Extern 1 (pres _ _ (d_strategy _ _)) => apply q_strategy : pres.
#[export] Hint Extern 1 (pres _ _ (mapfree _)) => apply q_mapfree : pres.

Section code.
  Context `{DV : Devices} `{FL : Fuel} {P : proto lbl kst} {J : kst -> Prop} `{QJ : !Quiet P J}.

Abbreviation keeps := (pres P J).

Lemma modb_quiet b f : mild f -> keeps (modb b f).
Proof. intros Hf. apply pres_modify. intros s. by apply q_setb. Qed.
Lemma modd_quiet b f : keeps (modd b f).
Proof. apply modb_quiet. intros r. by left. Qed.
Lemma rest_quiet f : (forall s, bufs (f s) = bufs s /\ inodes (f s) = inodes s) -> keeps (modify f).
Proof. intros Hf. apply pres_modify. intros s. by apply q_rest; apply Hf. Qed.
Lemma sleep_quiet c pri : keeps (sleep c pri).
Proof.
  unfold sleep. apply pres_bind; [|intros _; pres_tac]. apply pres_block; [apply q_block|apply q_wake].
Qed.
Lemma wait_while_quiet n c m : keeps m -> keeps (wait_while n c m).
Proof. intros Hm. unfold wait_while. by pres_tac. Qed.
End code.

#[export] Hint Extern 1 (pres _ _ (modb _ _)) => (apply modb_quiet; intros ?; first [left; reflexivity | right; reflexivity]) : pres.
#[export] Hint Extern 1 (pres _ _ (modd _ _)) => apply modd_quiet : pres.
#[export] Hint Extern 1 (pres _ _ (modify _)) => (apply rest_quiet; intros ?; split; reflexivity) : pres.
#[export] Hint Extern 1 (pres _ _ (modu _)) => (apply rest_quiet; intros ?; split; reflexivity) : pres.
#[export] Hint Extern 1 (pres _ _ (err _)) => (apply rest_quiet; intros ?; split; reflexivity) : pres.
#[export] Hint Extern 1 (pres _ _ (wakeup _)) => (apply rest_quiet; intros ?; split; reflexivity) : pres.
#[export] Hint Extern 1 (pres _ _ (printf _)) => (apply rest_quiet; intros ?; split; reflexivity) : pres.
#[export] Hint Extern 1 (pres _ _ (prdev _ _)) => (apply rest_quiet; intros ?; split; reflexivity) : pres.
#[export] Hint Extern 1 (pres _ _ (splx _)) => (apply rest_quiet; intros ?; split; reflexivity) : pres.
#[export] Hint Extern 1 (pres _ _ spl0) => (apply rest_quiet; intros ?; split; reflexivity) : pres.
#[export] Hint Extern 1 (pres _ _ spl6) => (apply rest_quiet; intros ?; split; reflexivity) : pres.
#[export] Hint Extern 1 (pres _ _ splhi) => (unfold splhi; pres_tac) : pres.
#[export] Hint Extern 1 (pres _ _ (getb _)) => apply pres_gets : pres.
#[export] Hint Extern 1 (pres _ _ (getd _)) => apply pres_gets : pres.
#[export] Hint Extern 1 (pres _ _ (geti _)) => apply pres_gets : pres.
#[export] Hint Extern 1 (pres _ _ getu) => apply pres_gets : pres.
#[export] Hint Extern 1 (pres _ _ (find_first _ _)) => apply pres_gets : pres.
#[export] Hint Extern 1 (pres _ _ (wait_while _ _ _)) => (apply wait_while_quiet; pres_tac) : pres.
#[export] Hint Extern 1 (pres _ _ (sleep _ _)) => apply sleep_quiet : pres.

(** ** The operations of the cache *)

Section cache.
  Context `{DV : Devices} `{FL : Fuel} {P : proto lbl kst} {J : kst -> Prop} `{QJ : !Quiet P J}.

Abbreviation keeps := (pres P J).

Lemma geterror_quiet bp : keeps (geterror bp).
Proof. unfold geterror. pres_tac. Qed.
Lemma notavail_quiet bp : keeps (notavail bp).
Proof. unfold notavail. pres_tac. Qed.
#[local] Hint Resolve geterror_quiet notavail_quiet : pres.
Lemma brelse_quiet bp : keeps (brelse bp).
Proof. unfold brelse. pres_tac. Qed.
Lemma iodone_quiet bp : keeps (iodone bp).
Proof. pose proof (brelse_quiet bp). unfold iodone. pres_tac. Qed.
Lemma iowait_quiet bp : keeps (iowait bp).
Proof. unfold iowait. pres_tac. Qed.
#[local] Hint Resolve brelse_quiet iowait_quiet : pres.
Lemma bwrite_quiet bp : keeps (bwrite bp).
Proof. unfold bwrite. pres_tac. Qed.
#[local] Hint Resolve bwrite_quiet : pres.
Lemma bdwrite_quiet bp : keeps (bdwrite bp).
Proof. unfold bdwrite, bawrite. pres_tac. Qed.
Lemma scan_dev_quiet dev blk : keeps (scan_dev dev blk).
Proof. unfold scan_dev. pres_tac. Qed.
Lemma count_avail_quiet bp : keeps (count_avail bp).
Proof. unfold count_avail. pres_tac. Qed.
Lemma rehash_quiet bp dp : keeps (rehash bp dp).
Proof. unfold rehash. pres_tac. Qed.
#[local] Hint Resolve bdwrite_quiet scan_dev_quiet count_avail_quiet rehash_quiet : pres.
Lemma getblk_quiet dev blk : keeps (getblk dev blk).
Proof. unfold getblk, retry, getblk_round, getblk_hit, getblk_new. pres_tac. Qed.
#[local] Hint Resolve getblk_quiet : pres.
Lemma bread_quiet dev blk : keeps (bread dev blk).
Proof. unfold bread, start_read. pres_tac. Qed.
Lemma clrbuf_quiet bp : keeps (clrbuf bp).
Proof. unfold clrbuf. pres_tac. Qed.
#[local] Hint Resolve bread_quiet clrbuf_quiet : pres.

Lemma geteblk_quiet : keeps geteblk.
Proof. unfold geteblk, retry, getblk_new. pres_tac. Qed.
Lemma breada_quiet dev blk rablk : keeps (breada dev blk rablk).
Proof. unfold breada, incore, start_read. pres_tac. Qed.
Lemma bflush_quiet dev : keeps (bflush dev).
Proof. unfold bflush, bflush_scan. pres_tac. Qed.
End cache.

#[export] Hint Extern 1 (pres _ _ (geterror _)) => apply geterror_quiet : pres.
#[export] Hint Extern 1 (pres _ _ (notavail _)) => apply notavail_quiet : pres.
#[export] Hint Extern 1 (pres _ _ (brelse _)) => apply brelse_quiet : pres.
#[export] Hint Extern 1 (pres _ _ (iodone _)) => apply iodone_quiet : pres.
#[export] Hint Extern 1 (pres _ _ (iowait _)) => apply iowait_quiet : pres.
#[export] Hint Extern 1 (pres _ _ (bwrite _)) => apply bwrite_quiet : pres.
#[export] Hint Extern 1 (pres _ _ (bdwrite _)) => apply bdwrite_quiet : pres.
#[export] Hint Extern 1 (pres _ _ (scan_dev _ _)) => apply scan_dev_quiet : pres.
#[export] Hint Extern 1 (pres _ _ (count_avail _)) => apply count_avail_quiet : pres.
#[export] Hint Extern 1 (pres _ _ (rehash _ _)) => apply rehash_quiet : pres.
#[export] Hint Extern 1 (pres _ _ (getblk _ _)) => apply getblk_quiet : pres.
#[export] Hint Extern 1 (pres _ _ (bread _ _)) => apply bread_quiet : pres.
#[export] Hint Extern 1 (pres _ _ (clrbuf _)) => apply clrbuf_quiet : pres.
#[export] Hint Extern 1 (pres _ _ geteblk) => apply geteblk_quiet : pres.
#[export] Hint Extern 1 (pres _ _ (breada _ _ _)) => apply breada_quiet : pres.
#[export] Hint Extern 1 (pres _ _ (bflush _)) => apply bflush_quiet : pres.
End Quiet.
