(* ===== verification/Ahead.v ===== *)
(** * Ahead: reads that release, buffers for no block, and read-ahead

    More of the buffer cache (src/usr/sys/sys/bio.c): what is left of a state
    after a read, [geteblk], and [breada]. *)
From Stdlib Require Import FunctionalExtensionality.
From S2P Require Import Prelude Kmonad Kernel Bio.
Import Bio.

Module Ahead.

Section code.
  Context `{DV : Devices} `{FL : Fuel} `{SD : !SyncDriver}.

(** ** Reading blocks *)

(** What is left of a state when buffers have been read and released. *)
Record reread (s : kst) (A : list bptr) (s' : kst) (A' : list bptr) (Q' : bptr -> list bptr) : Prop := {
  rr_cache : cache s' A' Q';
  rr_avail : A' ≡ₚ A;
  rr_blocks : same_blocks s s';
  rr_busy : same_busy s A s';
  rr_others : others s' = others s
}.

Lemma reread_refl s A Q : cache s A Q -> reread s A s A Q.
Proof. intros Hc. split; [done|done|apply same_blocks_refl|by apply same_busy_bufs|done]. Qed.
Lemma reread_trans s A s1 A1 Q1 s2 A2 Q2 : reread s A s1 A1 Q1 -> reread s1 A1 s2 A2 Q2 -> reread s A s2 A2 Q2.
Proof.
  intros [_ H2 H3 H4 H5] [G1 G2 G3 G4 G5]. split; [done|by rewrite G2| |intros x Hx Hn|by rewrite G5].
  - by eapply same_blocks_trans.
  - destruct (H4 x Hx Hn) as (<-&<-&<-&<-). apply G4; [done|by rewrite H2].
Qed.
Lemma reread_unheld s A s' A' Q' dev blk : reread s A s' A' Q' -> unheld s A dev blk -> unheld s' A' dev blk.
Proof.
  intros [_ H2 _ H4 _] H x Hx E1 E2. rewrite H2. destruct (decide (x ∈ A)) as [|Hn]; [done|].
  destruct (H4 x Hx Hn) as (_&E3&E4&_). apply (H x Hx); congruence.
Qed.

(** [bread] and then [brelse]. *)
Lemma bread_brelse s A Q dev blk :
  cache s A Q -> A <> [] -> usable dev -> unheld s A dev blk ->
  exists bp s1, bread dev blk s = Ret bp s1 /\ has (b_flags (bufs s1 bp)) B_ERROR = false /\
    agree 0 512 (b_data (bufs s1 bp)) (content s dev blk) /\
    exists s2 A2 Q2, brelse bp s1 = Ret tt s2 /\ reread s A s2 A2 Q2.
Proof.
  intros Hc HA [Hn Ht Hm] Hu. destruct (bread_spec s A Q dev blk Hc HA Hn Ht Hm Hu) as (bp&s1&A1&Q1&E&G&_&Hd).
  pose proof G as [G1 G2 G3 G4 G5 G6 Ga Gr G7 G8 G9]. destruct (ca_flags _ _ _ G1 bp G2) as [_ He].
  assert (has (b_flags (bufs s1 bp)) B_BUSY = true) as Hb.
  { destruct (has _ B_BUSY) eqn:Eb; [done|]. by apply (ca_busy _ _ _ G1 bp G2) in Eb. }
  destruct (brelse_cache s1 A1 Q1 bp G1 G2 Hb Gr) as (s2&A2&E2&EA&Hc2&_&Hf2&Hid2&Hr2&Hct2).
  exists bp, s1. split; [done|]. split; [done|]. split; [done|]. exists s2, A2, Q1. split; [done|].
  split; [done|subst A2; destruct (has _ B_AGE); rewrite <- G4; [done|by rewrite Permutation_app_comm]| | |].
  - eapply same_blocks_trans; [exact G7|]. by apply same_blocks_rest.
  - intros x Hx Hxn. assert (x <> bp) as Hxb by (intros ->; rewrite <- G4 in Hxn; mem).
    rewrite Hf2 by done. destruct (ident_fields _ _ (Hid2 x)) as (_&_&->&->&->). by apply G8.
  - by rewrite (rest_others _ _ Hr2).
Qed.

(** ** A buffer for no block *)

Definition geteblk_round : M (option bptr) :=
  spl6;;
  wait_while fuel (fun s => bool_decide (av_forw (bufs s BFREELIST) = BFREELIST))
    (modb BFREELIST (fun r => r <| b_flags ::= fun f => setf f B_WANTED |>);; sleep (ChBuf BFREELIST) (PRIBIO + 1));;
  spl0;;
  r ← getblk_new BFREELIST;
  match r with
  | None => mret None
  | Some bp => modb bp (fun r => r <| b_dev := NODEV |>);; mret (Some bp)
  end.

(** One round gives the oldest buffer, or makes its delayed write. *)
Lemma geteblk_round_spec s b A Q : cache s (b :: A) Q ->
  (exists s' blk Q', geteblk_round s = Ret (Some b) s' /\ granted s (b :: A) NODEV blk b s' A Q') \/
  (exists s', geteblk_round s = Ret None s' /\ cache s' (A ++ [b]) Q /\ dirty s (b :: A) = S (dirty s' (A ++ [b])) /\
     same_blocks s s' /\ same_busy s (b :: A) s' /\ others s' = others s).
Proof.
  intros Hc. set (s0 := s <| spl := false |>). set (s1 := s0 <| spl := true |>).
  pose proof (avail_first s b A (ca_av _ _ _ Hc)) as Hf.
  assert (geteblk_round s = (r ← getblk_new BFREELIST; match r with None => mret None | Some bp => modb bp (fun r => r <| b_dev := NODEV |>);; mret (Some bp) end) s1) as ->.
  { unfold geteblk_round. krun. fold s0. rewrite (bind_ret _ _ s0 tt s0); [done|].
    unfold wait_while. pose proof enough_fuel. destruct fuel as [|n]; [lia|]. apply k_iter_inr. krun.
    change (bufs s0) with (bufs s). rewrite Hf, bool_decide_eq_false_2; [done|].
    intros ->. destruct (av_isbuf _ _ (ca_av _ _ _ Hc) BFREELIST ltac:(mem)) as (?&?&_). done. }
  assert (bufs s1 = bufs s /\ disk s1 = disk s /\ others s1 = others s) as (Eb&Ed&Eo) by done. clearbody s1. clear s0.
  assert (cache s1 (b :: A) Q) as Hc1 by (by eapply cache_bufs).
  assert (same_blocks s s1) as Hsb1 by (by apply same_blocks_bufs).
  destruct (has (b_flags (bufs s1 b)) B_DELWRI) eqn:Edw.
  - right. destruct (getblk_new_flush s1 b A Q BFREELIST Hc1 Edw) as (s2&E2&Hc2&Hsb2&Hdw2&Hsm2&Ho2).
    exists s2. rewrite (bind_ret _ _ _ _ _ E2). split; [done|]. split; [done|]. split; [|split; [|split]].
    + transitivity (dirty s1 (b :: A)); [unfold dirty; by rewrite Eb|]. destruct (ca_av _ _ _ Hc1) as [_ Hnd Hib].
      apply dirty_flush; [done|intros x Hx; apply Hib; mem|done..].
    + by eapply same_blocks_trans.
    + intros x Hx Hxn. rewrite <- Eb. destruct (Hsm2 x Hx) as [-> Hxi]; [intros ->; mem|]. by destruct (ident_fields _ _ Hxi) as (_&_&->&->&->).
    + by rewrite Ho2.
  - left. pose proof (ca_av _ _ _ Hc1) as Hav.
    assert (exists s2, getblk_new BFREELIST s1 = Ret (Some b) s2 /\
      granted s1 (b :: A) NODEV (b_blkno (bufs s2 b)) b (setb b (fun r => r <| b_dev := NODEV |>) s2) A (moved b BFREELIST Q))
      as (s2&E2&Hg).
    { assert (forall blk, exists s2, getblk_new BFREELIST s1 = Ret (Some b) s2 /\ granted s1 (b :: A) NODEV blk b
        (setb b (fun r => r <| b_blkno := blk |>) (setb b (fun r => r <| b_dev := NODEV |>) s2)) A (moved b BFREELIST Q)) as Ht.
      { intros blk. apply getblk_new_take; [done|done|by left|done]. }
      destruct (Ht 0) as (s2&E2&_). destruct (Ht (b_blkno (bufs s2 b))) as (s2'&E2'&Hg). rewrite E2 in E2'. injection E2' as <-.
      exists s2. split; [done|]. rewrite setb_id in Hg; [done|]. rewrite setb_eq. by destruct (bufs s2 b). }
    rewrite (bind_ret _ _ _ _ _ E2). cbv iota. krun. eexists _, _, _. split; [done|].
    eapply granted_after; [exact Hsb1|done|by apply same_busy_bufs|done|exact Hg].
Qed.

Lemma geteblk_spec s A Q : cache s A Q -> A <> [] ->
  exists b s' A' Q' blk, geteblk s = Ret b s' /\ granted s A NODEV blk b s' A' Q'.
Proof.
  intros Hc HA. change geteblk with (retry geteblk_round). unfold retry.
  assert (forall n k s A, (dirty s A <= n)%nat -> (n < k)%nat -> cache s A Q -> A <> [] ->
    exists b s' A' Q' blk, iter k (fun _ => r ← geteblk_round; mret (match r with None => inl tt | Some a => inr a end)) tt s = Ret b s' /\
      granted s A NODEV blk b s' A' Q') as G.
  { clear s A Hc HA. induction n as [|n IH]; intros [|k] s [|b A] Hd Hk Hc HA; try lia; try done;
      (destruct (geteblk_round_spec s b A Q Hc) as [(s'&blk&Q'&E&Hg)|(s1&E&Hc1&Hdd&Hsb&Hbz&Ho)]; [|try lia]).
    1,2: exists b, s', A, Q', blk; split; [|done]; apply (k_iter_inr _ _ _ _ b s'); by rewrite (bind_ret _ _ _ _ _ E).
    destruct (IH k s1 (A ++ [b])) as (b'&s'&A'&Q'&blk&E2&G); [lia|lia|done|by destruct A|].
    exists b', s', A', Q', blk. split.
    - rewrite (k_iter_inl _ _ _ _ tt s1); [done|]. by rewrite (bind_ret _ _ _ _ _ E).
    - eapply granted_after; [exact Hsb| |exact Hbz|exact Ho|exact G]. by rewrite Permutation_app_comm. }
  apply (G 29%nat fuel s A); try done.
  - unfold dirty. transitivity (length A); [apply length_filter|]. eapply avail_length, Hc.
  - pose proof enough_fuel. lia.
Qed.

(** ** Read-ahead *)

(** A read that nobody waits for: the buffer is filled and released. *)
Lemma read_async s A Q b dev :
  cache s A Q -> isbuf b -> b ∉ A -> b_dev (bufs s b) <> NODEV -> has_tab (major dev) = true ->
  has (b_flags (bufs s b)) B_DONE = false -> releasable s b ->
  exists s' A', start_read b dev (Z.lor B_READ B_ASYNC) s = Ret tt s' /\ cache s' A' Q /\ A' ≡ₚ b :: A /\ same_blocks s s' /\
    (forall x, isbuf x -> x <> b -> b_flags (bufs s' x) = b_flags (bufs s x) /\ ident (bufs s' x) = ident (bufs s x)) /\
    others s' = others s.
Proof.
  intros Hc Hb HbA Hn Ht Hdn Hr. destruct (ca_flags _ _ _ Hc b Hb) as [Hmp Her].
  assert (has (b_flags (bufs s b)) B_BUSY = true) as Hbusy.
  { destruct (has _ B_BUSY) eqn:E; [done|]. by apply (ca_busy _ _ _ Hc) in E. }
  assert (has (b_flags (bufs s b)) B_DELWRI = false) as Hdw.
  { destruct (has _ B_DELWRI) eqn:E; [|done]. destruct Hr as [Hr _]. destruct (Hr E) as [E2 _]. congruence. }
  set (s1 := setb b (fun r => r <| b_bcount := BSIZE |>) (setb b (fun r => r <| b_flags ::= fun f => setf f (Z.lor B_READ B_ASYNC) |>) s)).
  assert (bufs s1 b = (bufs s b) <| b_flags ::= fun f => setf f (Z.lor B_READ B_ASYNC) |> <| b_bcount := BSIZE |>) as E1
    by (unfold s1; by rewrite !setb_eq).
  set (s3 := setb b (fun r => r <| b_flags ::= fun f => setf f B_DONE |>)
    (setb b (fun r => r <| b_data ::= fun m => mcopy (disk s (b_dev (bufs s b)) (b_blkno (bufs s b))) 0 m 0 BSIZE |>) s1)).
  assert (start_read b dev (Z.lor B_READ B_ASYNC) s = brelse b s3) as ->.
  { unfold start_read. krun. fold s1. rewrite strategy_sync by done.
    assert (transfer b s1 = setb b (fun r => r <| b_data ::= fun m => mcopy (disk s (b_dev (bufs s b)) (b_blkno (bufs s b))) 0 m 0 BSIZE |>) s1) as ->.
    { unfold transfer. rewrite E1. replace (has _ B_READ) with true; [done|]. cbn. by simpl_flags. }
    assert (b_flags (bufs (setb b (fun r => r <| b_data ::= fun m => mcopy (disk s (b_dev (bufs s b)) (b_blkno (bufs s b))) 0 m 0 BSIZE |>) s1) b)
      = setf (b_flags (bufs s b)) (Z.lor B_READ B_ASYNC)) as Ef by (rewrite (setb_keep b_flags) by done; by rewrite E1).
    rewrite iodone_sync; rewrite ?Ef; [|done|rewrite <- Hmp; by simpl_flags].
    replace (has (setf _ _) B_ASYNC) with true by (by simpl_flags). done. }
  assert (b_flags (bufs s3 b) = setf (setf (b_flags (bufs s b)) (Z.lor B_READ B_ASYNC)) B_DONE) as Ef3.
  { unfold s3. rewrite (setb_field b_flags (fun f => setf f B_DONE)), decide_True, (setb_keep b_flags) by done. by rewrite E1. }
  assert (forall x, x <> b -> bufs s3 x = bufs s x) as Hne3 by (intros x Hx; unfold s3, s1; by rewrite !setb_ne).
  assert (has (b_flags (bufs s3 b)) B_DONE = true) as Hdn3 by (rewrite Ef3; by simpl_flags).
  destruct (filled_cache s s3 A Q b Hc Hb HbA Hn Hdn Hdw) as (Hc3&Hsb3&Hr3); [|done|done| | |done|].
  - intros x. unfold s3, s1. split_and!; [by keep av_forw|by keep av_back|by keep b_forw|by keep b_back|by keep b_dev|by keep b_blkno].
  - unfold s3. rewrite (setb_keep b_data), setb_eq, E1 by done. done.
  - intros m Hm. rewrite Ef3. rewrite !elem_of_cons in Hm.
    destruct Hm as [->|[->|[->|[->|Hm]]]]; [by simpl_flags..|by apply elem_of_nil in Hm].
  - assert (has (b_flags (bufs s3 b)) B_BUSY = true) as Hb3 by (rewrite Ef3, <- Hbusy; by simpl_flags).
    destruct (brelse_cache s3 A Q b Hc3 Hb Hb3 Hr3) as (s4&A4&E4&EA&Hc4&_&Hf4&Hid4&Hrest4&Hct4).
    exists s4, A4. split; [done|]. split; [done|]. split.
    { subst A4. destruct (has _ B_AGE); [done|by rewrite Permutation_app_comm]. }
    split; [|split].
    + eapply same_blocks_trans; [exact Hsb3|]. by apply same_blocks_rest.
    + intros x Hx Hxb. by rewrite Hf4, Hid4, Hne3.
    + by rewrite (rest_others _ _ Hrest4).
Qed.

(** The second half of [breada]: the block that may be wanted next. *)
Definition ahead (dev rablkno : Z) : M unit :=
  ra ← (if rablkno =? 0 then mret true else incore dev rablkno);
  (if ra : bool then mret tt
   else
     rabp ← getblk dev rablkno;
     b ← getb rabp;
     if has (b_flags b) B_DONE then brelse rabp
     else
       start_read rabp dev (Z.lor B_READ B_ASYNC);;
       modify (fun s => s <| io_info ::= fun i => i <| nreada ::= Z.succ |> |>)).

(** [incore] tells whether some buffer is for the block. *)
Lemma incore_ok s A Q dev blk : cache s A Q -> usable dev -> exists r, incore dev blk s = Ret r s /\
  (r = false -> unheld s A dev blk).
Proof.
  intros Hc [Hn Ht _]. unfold incore. pose proof enough_fuel.
  destruct (scan_dev_cache s A Q dev blk Hc Ht Hn) as [(b&E&_)|[E Hb]]; [lia|..]; rewrite (bind_ret _ _ _ _ _ E);
    eexists; (split; [reflexivity|]); intros Hr; [by rewrite bool_decide_eq_true_2 in Hr|].
  intros x Hx E1 E2. by destruct (Hb x Hx).
Qed.

Lemma granted_released s A dev blk b s1 A1 Q1 s2 A2 :
  granted s A dev blk b s1 A1 Q1 -> cache s2 A2 Q1 -> A2 ≡ₚ b :: A1 -> same_blocks s1 s2 ->
  (forall x, isbuf x -> x <> b -> b_flags (bufs s2 x) = b_flags (bufs s1 x) /\ ident (bufs s2 x) = ident (bufs s1 x)) ->
  others s2 = others s1 -> reread s A s2 A2 Q1.
Proof.
  intros [G1 G2 G3 G4 G5 G6 Ga Gr G7 G8 G9] Hc HP Hsb Hx Ho. split; [done|by rewrite HP| | |by rewrite Ho].
  - by eapply same_blocks_trans.
  - intros x Hxb Hxn. assert (x <> b) as Hne by (intros ->; rewrite <- G4 in Hxn; mem).
    destruct (Hx x Hxb Hne) as [-> Hid]. destruct (ident_fields _ _ Hid) as (_&_&->&->&->). by apply G8.
Qed.

(** What is said of buffers does not depend on the rest of the state. *)
Lemma reread_frame s A s1 A1 Q1 t t1 : reread s A s1 A1 Q1 -> bufs t = bufs s -> disk t = disk s -> bufs t1 = bufs s1 -> disk t1 = disk s1 ->
  others t1 = others t -> reread t A t1 A1 Q1.
Proof.
  intros [H1 H2 H3 H4 H5] Eb Ed Eb1 Ed1 Ho. split; [by eapply cache_bufs|done| | |done].
  - eapply same_blocks_trans; [by apply same_blocks_bufs|]. eapply same_blocks_trans; [exact H3|by apply same_blocks_bufs].
  - intros x Hx Hn. rewrite Eb, Eb1. by apply H4.
Qed.
Lemma granted_frame s A dv bk b s1 A1 Q1 t t1 : granted s A dv bk b s1 A1 Q1 -> bufs t = bufs s -> disk t = disk s -> bufs t1 = bufs s1 ->
  disk t1 = disk s1 -> others t1 = others t -> granted t A dv bk b t1 A1 Q1.
Proof.
  intros [G1 G2 G3 G4 G5 G6 Ga Gr G7 G8 G9] Eb Ed Eb1 Ed1 Ho. split; rewrite ?Eb1, ?Eb; try done; [by eapply cache_bufs| |].
  - destruct Gr as [Gr1 Gr2]. split; rewrite ?Eb1; [done|]. intros ???. unfold releasable in *. rewrite Ed1. by apply Gr2.
  - eapply same_blocks_trans; [by apply same_blocks_bufs|]. eapply same_blocks_trans; [exact G7|by apply same_blocks_bufs].
Qed.

(** The buffer is given back. *)
Lemma granted_brelse s A dv bk b s1 A1 Q1 : granted s A dv bk b s1 A1 Q1 ->
  exists s2 A2, brelse b s1 = Ret tt s2 /\ reread s A s2 A2 Q1 /\ others s2 = others s1.
Proof.
  intros G. pose proof G as [G1 G2 G3 G4 G5 G6 Ga Gr G7 G8 G9].
  assert (has (b_flags (bufs s1 b)) B_BUSY = true) as Hbusy.
  { destruct (has _ B_BUSY) eqn:E; [done|]. by apply (ca_busy _ _ _ G1 b G2) in E. }
  destruct (brelse_cache s1 A1 Q1 b G1 G2 Hbusy Gr) as (s2&A2&E2&EA&Hc2&_&Hf2&Hid2&Hr2&Hct2).
  pose proof (rest_others _ _ Hr2) as Ho2. exists s2, A2. split; [done|]. split; [|done].
  eapply granted_released; [exact G|done| | | |done].
  - subst A2. destruct (has _ B_AGE); [done|by rewrite Permutation_app_comm].
  - split; intros dv' bk' _; [by rewrite Hct2|left; by rewrite (rest_disk _ _ Hr2)].
  - intros x Hx Hne. split; [exact (Hf2 x Hx Hne)|exact (Hid2 x)].
Qed.

Lemma ahead_ok s A Q dev blk : cache s A Q -> A <> [] -> usable dev ->
  exists s' A' Q', ahead dev blk s = Ret tt s' /\ reread s A s' A' Q'.
Proof.
  intros Hc HA Us. pose proof Us as [Hn Ht Hmj]. unfold ahead.
  assert (exists r, (if blk =? 0 then mret true else incore dev blk) s = Ret r s /\ (r = false -> unheld s A dev blk)) as (r&Er&Hu).
  { destruct (blk =? 0); [by eexists|by eapply incore_ok]. }
  rewrite (bind_ret _ _ _ _ _ Er). destruct r; [|specialize (Hu eq_refl)].
  { exists s, A, Q. split; [done|by apply reread_refl]. }
  destruct (getblk_spec s A Q dev blk Hc HA Hn Ht Hmj Hu) as (b&s1&A1&Q1&E&G). rewrite (bind_ret _ _ _ _ _ E). krun.
  pose proof G as [G1 G2 G3 G4 G5 G6 Ga Gr G7 G8 G9]. destruct (has (b_flags (bufs s1 b)) B_DONE) eqn:Ed.
  - assert (has (b_flags (bufs s1 b)) B_BUSY = true) as Hb.
    { destruct (has _ B_BUSY) eqn:Eb; [done|]. by apply (ca_busy _ _ _ G1 b G2) in Eb. }
    destruct (brelse_cache s1 A1 Q1 b G1 G2 Hb Gr) as (s2&A2&E2&EA&Hc2&_&Hf2&Hid2&Hr2&Hct2).
    exists s2, A2, Q1. split; [done|]. eapply granted_released; [exact G|done| |by apply same_blocks_rest| |by apply rest_others].
    + subst A2. destruct (has _ B_AGE); [done|by rewrite Permutation_app_comm].
    + intros x Hx Hxb. by rewrite Hf2, Hid2.
  - destruct (read_async s1 A1 Q1 b dev G1 G2 G3) as (s2&A2&E2&Hc2&HP2&Hsb2&Hx2&Ho2); [by rewrite G5|done..|].
    rewrite (bind_ret _ _ _ _ _ E2). eexists _, A2, Q1. split; [reflexivity|].
    eapply granted_released; [exact G|by eapply cache_bufs|done| |exact Hx2|exact Ho2].
    eapply same_blocks_trans; [exact Hsb2|]. by apply same_blocks_bufs.
Qed.

(** A buffer that has been read stays so while others are read ahead. *)
Lemma granted_reread s A dev blk b s1 A1 Q1 s2 A2 Q2 :
  granted s A dev blk b s1 A1 Q1 -> dev <> NODEV -> has (b_flags (bufs s1 b)) B_DONE = true -> reread s1 A1 s2 A2 Q2 ->
  granted s A dev blk b s2 A2 Q2 /\ has (b_flags (bufs s2 b)) B_DONE = true.
Proof.
  intros [G1 G2 G3 G4 G5 G6 Ga Gr G7 G8 G9] Hn Hd [R1 R2 R3 R4 R5].
  destruct (R4 b G2 G3) as (Ef&Edv&Ebk&Eda). split; [|by rewrite Ef]. split; try done.
  - by rewrite R2.
  - by rewrite R2.
  - by rewrite Edv.
  - by rewrite Ebk.
  - by rewrite Ef.
  - split; rewrite Ef; [intros Hw; rewrite Edv; by apply Gr|]. intros _ Hw _.
    pose proof (proj2 Gr Hd Hw ltac:(by rewrite G5)) as Ha.
    pose proof (content_held s1 b (ca_uniq _ _ _ G1) G2 Hd ltac:(by rewrite G5)) as Eh.
    rewrite Edv, Ebk, Eda. rewrite G5, G6 in *. intros i Hi.
    destruct (sb_disk _ _ R3 dev blk Hn) as [H|H]; rewrite H by done; [by apply Ha|by rewrite Eh].
  - by eapply same_blocks_trans.
  - intros x Hx Hxn. assert (x ∉ A1) as Hx1 by (intros H; apply Hxn; rewrite <- G4; mem).
    destruct (R4 x Hx Hx1) as (->&->&->&->). by apply G8.
  - by rewrite R5.
Qed.

Lemma granted_content s A dev blk b s1 A1 Q1 :
  granted s A dev blk b s1 A1 Q1 -> dev <> NODEV -> has (b_flags (bufs s1 b)) B_DONE = true ->
  agree 0 512 (b_data (bufs s1 b)) (content s dev blk).
Proof.
  intros [G1 G2 G3 G4 G5 G6 Ga Gr G7 G8 G9] Hn Hd.
  rewrite <- (content_held s1 b); [rewrite G5, G6; by apply G7|apply G1|done|done|by rewrite G5].
Qed.

(** The first half of [breada], for a block that is not in the cache. *)
Definition fetch (dev blk : Z) : M (option bptr) :=
  bp ← getblk dev blk;
  b ← getb bp;
  when (negb (has (b_flags b) B_DONE))
    (start_read bp dev B_READ;;
     modify (fun s => s <| io_info ::= fun i => i <| nread ::= Z.succ |> |>));;
  mret (Some bp).

Lemma fetch_ok s A Q dev blk : cache s A Q -> A <> [] -> usable dev -> unheld s A dev blk ->
  exists b s' A' Q', fetch dev blk s = Ret (Some b) s' /\ granted s A dev blk b s' A' Q' /\ has (b_flags (bufs s' b)) B_DONE = true.
Proof.
  intros Hc HA [Hn Ht Hmj] Hu. unfold fetch.
  destruct (getblk_spec s A Q dev blk Hc HA Hn Ht Hmj Hu) as (b&s1&A1&Q1&E&G). rewrite (bind_ret _ _ _ _ _ E). krun.
  pose proof G as [G1 G2 G3 G4 G5 G6 Ga Gr G7 G8 G9]. destruct (ca_flags _ _ _ G1 b G2) as [Hmp Her].
  destruct (has (b_flags (bufs s1 b)) B_DONE) eqn:Ed.
  { exists b, s1, A1, Q1. split; [done|]. done. }
  cbn [negb when]. rewrite k_bind_bind, (bind_ret _ _ _ _ _ (start_read_sync b s1 dev G2 Ht Ga Hmp)). krun.
  destruct (loaded_bufs b s1) as (Hf&Hd&Hne&Hx&Hdk&Ho).
  destruct (loaded_cache s1 A1 Q1 b G1 G2 G3) as (Hc2&Hs2&Hdn2&Hrl2); [by rewrite G5|done|done|].
  generalize dependent (loaded b s1). intros s2 Hf Hd Hne Hx Hdk Ho Hc2 Hs2 Hdn2 Hrl2.
  eexists b, _, A1, Q1. split; [reflexivity|]. split; [|done].
  eapply granted_later; [exact G|by eapply cache_bufs| |done|..].
  - eapply same_blocks_trans; [exact Hs2|]. by apply same_blocks_bufs.
  - intros x Hxb. rewrite bufs_io. by rewrite Hne.
  - intros x. rewrite bufs_io. by destruct (Hx x) as (_&_&_&_&->&->).
  - rewrite bufs_io, Hf, <- Ga. by simpl_flags.
  - done.
Qed.

(** [breada] is [bread], whatever block is read ahead. *)
Lemma breada_spec s A Q dev blk ra :
  cache s A Q -> (2 <= length A)%nat -> usable dev -> unheld s A dev blk ->
  exists b s' A' Q', breada dev blk ra s = Ret b s' /\ granted s A dev blk b s' A' Q' /\ has (b_flags (bufs s' b)) B_DONE = true /\
    agree 0 512 (b_data (bufs s' b)) (content s dev blk).
Proof.
  intros Hc HA Us Hu. pose proof Us as [Hn Ht Hmj].
  enough (exists b s' A' Q', breada dev blk ra s = Ret b s' /\ granted s A dev blk b s' A' Q' /\ has (b_flags (bufs s' b)) B_DONE = true)
    as (b&s'&A'&Q'&E&G&D) by (exists b, s', A', Q'; split_and!; try done; by eapply granted_content).
  assert (A <> []) as HA0 by (by destruct A; cbn in HA; [lia|]).
  destruct (incore_ok s A Q dev blk Hc Us) as (r&Er&_).
  assert (breada dev blk ra s = (bp ← (if r then mret None else fetch dev blk);
    ahead dev ra;; match bp with None => bread dev blk | Some bp => iowait bp;; mret bp end) s) as ->.
  { unfold breada, fetch, ahead. rewrite (bind_ret _ _ _ _ _ Er). apply k_bind_ext. intros bp s0. by rewrite k_bind_bind. }
  destruct r.
  - krun. destruct (ahead_ok s A Q dev ra Hc HA0 Us) as (s1&A1&Q1&E1&R1). rewrite (bind_ret _ _ _ _ _ E1).
    pose proof R1 as [Hc1 HP1 Hb1 Hbz1 Ho1].
    destruct (bread_spec s1 A1 Q1 dev blk Hc1) as (b&s2&A2&Q2&E2&G2&D2&_); try done.
    + intros ->. apply HA0. by apply Permutation_nil_l in HP1.
    + by eapply reread_unheld.
    + exists b, s2, A2, Q2. split; [done|]. split; [|done]. by eapply granted_after.
  - destruct (fetch_ok s A Q dev blk Hc HA0 Us Hu) as (b&s1&A1&Q1&E1&G1&D1). rewrite (bind_ret _ _ _ _ _ E1).
    assert (A1 <> []) as HA1.
    { intros ->. pose proof (Permutation_length (g_taken _ _ _ _ _ _ _ _ G1)) as Hl. cbn in Hl. lia. }
    destruct (ahead_ok s1 A1 Q1 dev ra (g_cache _ _ _ _ _ _ _ _ G1) HA1 Us) as (s2&A2&Q2&E2&R2). rewrite (bind_ret _ _ _ _ _ E2).
    destruct (granted_reread _ _ _ _ _ _ _ _ _ _ _ G1 Hn D1 R2) as [G2 D2].
    destruct (ca_flags _ _ _ (g_cache _ _ _ _ _ _ _ _ G2) b (g_isbuf _ _ _ _ _ _ _ _ G2)) as [_ He].
    rewrite (bind_ret _ _ _ _ _ (iowait_done b s2 D2 He)). eexists b, _, A2, Q2. split; [reflexivity|]. split; [|done].
    pose proof G2 as [Hc2 _ _ _ _ _ Ha2 Hr2 _ _ _].
    eapply granted_later; [exact G2|by eapply cache_bufs|by apply same_blocks_bufs|done..].
Qed.
End code.
End Ahead.
