(* ===== verification/Alloc.v ===== *)
(** * Alloc: the free list of a file system (src/usr/sys/sys/alloc.c)

    The super block of a mounted file system is in a buffer that stays busy;
    its fields are read and written in the buffer's bytes, at the offsets of
    [struct filsys] (src/usr/sys/h/filsys.h).  The free blocks are a stack whose
    top is in the super block and whose rest is chained through free blocks. *)
From S2P Require Import Prelude Kmonad Kernel Bio.
Import Bio.

Module Alloc.

Section code.
  Context `{DV : Devices} `{FL : Fuel}.

(** ** struct filsys *)

Definition s_isize (m : mem) : Z := rd_u16 m 0.
Definition s_fsize (m : mem) : Z := rd_s32 m 4.
Definition s_nfree (m : mem) : Z := rd_s16 m 8.
Definition s_free (m : mem) (i : Z) : Z := rd_s32 m (12 + 4 * i).
Definition s_ninode (m : mem) : Z := rd_s16 m 212.
Definition s_inode (m : mem) (i : Z) : Z := rd_u16 m (214 + 2 * i).
Definition s_flock (m : mem) : Z := u8 (m 414).
Definition s_ilock (m : mem) : Z := u8 (m 415).
Definition s_fmod (m : mem) : Z := u8 (m 416).
Definition s_ronly (m : mem) : Z := u8 (m 417).

Definition set_nfree (v : Z) (m : mem) : mem := wr_16 m 8 v.
Definition set_free (i v : Z) (m : mem) : mem := wr_32 m (12 + 4 * i) v.
Definition set_ninode (v : Z) (m : mem) : mem := wr_16 m 212 v.
Definition set_inode (i v : Z) (m : mem) : mem := wr_16 m (214 + 2 * i) v.
Definition set_flock (v : Z) (m : mem) : mem := wr_8 m 414 v.
Definition set_ilock (v : Z) (m : mem) : mem := wr_8 m 415 v.
Definition set_fmod (v : Z) (m : mem) : mem := wr_8 m 416 v.
Definition set_ronly (v : Z) (m : mem) : mem := wr_8 m 417 v.
Definition set_time (v : Z) (m : mem) : mem := wr_32 m 420 v.

(** struct fblk. *)
Definition df_nfree (m : mem) : Z := rd_s16 m 0.

(** ** The free list *)

(** The first mounted file system of a device. *)
Definition getfs_scan (s : kst) (dev : Z) : option bptr :=
  head (omap (fun i => if m_dev (mounts s i) =? dev then m_bufp (mounts s i) else None) (upto NMOUNT)).

Definition getfs (dev : Z) : M bptr :=
  r ← gets (fun s => getfs_scan s dev);
  match r with
  | None => panic "no fs"
  | Some fp =>
      d ← getd fp;
      when ((NICFREE <? s_nfree d) || (NICINOD <? s_ninode d))
        (prdev "bad count" dev;; modd fp (set_nfree 0);; modd fp (set_ninode 0));;
      mret fp
  end.

Definition badblock (fp : bptr) (bn dev : Z) : M bool :=
  d ← getd fp;
  if (bn <? s_isize d) || (s_fsize d <=? bn) then prdev "bad block" dev;; mret true else mret false.

(** [while(fp->s_flock) sleep(&fp->s_flock, PINOD);] *)
Definition wait_flock (fp : bptr) : M unit :=
  wait_while fuel (fun s => negb (s_flock (b_data (bufs s fp)) =? 0)) (sleep (ChFlock fp) PINOD).

(** The part of [free] that moves a full list out to the freed block. *)
Definition free_spill (fp : bptr) (dev bno : Z) : M unit :=
  modd fp (fun m => set_flock (s_flock m + 1) m);;
  bp ← getblk dev bno;
  d ← getd fp;
  modd bp (fun m => wr_16 m 0 (s_nfree d));;
  d ← getd fp;
  modd bp (fun m => mcopy d 12 m 4 200);;
  modd fp (set_nfree 0);;
  bwrite bp;;
  modd fp (set_flock 0);;
  wakeup (ChFlock fp).

Definition free (dev bno : Z) : M unit :=
  fp ← getfs dev;
  modd fp (set_fmod 1);;
  wait_flock fp;;
  bad ← badblock fp bno dev;
  if bad : bool then mret tt
  else
    d ← getd fp;
    when (s_nfree d <=? 0) (modd fp (set_nfree 1);; modd fp (set_free 0 0));;
    d ← getd fp;
    when (NICFREE <=? s_nfree d) (free_spill fp dev bno);;
    d ← getd fp;
    modd fp (set_nfree (s_nfree d + 1));;
    modd fp (set_free (s_nfree d) bno);;
    modd fp (set_fmod 1).

(** The [do]-[while] of [alloc]: the number on top, unless there is no space. *)
Definition alloc_pop (fp : bptr) (dev : Z) : M (option Z) :=
  iter fuel (fun _ =>
    d ← getd fp;
    let n := s_nfree d in
    if n <=? 0 then mret (inr None)
    else if NICFREE <? n then prdev "Bad free count" dev;; mret (inr None)
    else
      modd fp (set_nfree (n - 1));;
      d ← getd fp;
      let bno := s_free d (s_nfree d) in
      if bno =? 0 then mret (inr None)
      else
        bad ← badblock fp bno dev;
        mret (if bad : bool then inl tt else inr (Some bno))) tt.

(** The list in the super block is used up: the rest is in block [bno]. *)
Definition alloc_refill (fp : bptr) (dev bno : Z) : M unit :=
  modd fp (fun m => set_flock (s_flock m + 1) m);;
  bp ← bread dev bno;
  b ← getb bp;
  when (negb (has (b_flags b) B_ERROR))
    (d ← getd bp;
     modd fp (set_nfree (df_nfree d));;
     d ← getd bp;
     modd fp (fun m => mcopy d 4 m 12 200));;
  brelse bp;;
  modd fp (set_flock 0);;
  wakeup (ChFlock fp).

Definition nospace (fp : bptr) (dev : Z) : M (option bptr) :=
  modd fp (set_nfree 0);;
  prdev "no space" dev;;
  err ENOSPC;;
  mret None.

Definition alloc (dev : Z) : M (option bptr) :=
  fp ← getfs dev;
  wait_flock fp;;
  r ← alloc_pop fp dev;
  match r with
  | None => nospace fp dev
  | Some bno =>
      d ← getd fp;
      when (s_nfree d <=? 0) (alloc_refill fp dev bno);;
      d ← getd fp;
      if s_nfree d <=? 0 then nospace fp dev
      else
        bp ← getblk dev bno;
        clrbuf bp;;
        modd fp (set_fmod 1);;
        mret (Some bp)
  end.

Definition ifree (dev ino : Z) : M unit :=
  fp ← getfs dev;
  d ← getd fp;
  if negb (s_ilock d =? 0) then mret tt
  else if NICINOD <=? s_ninode d then mret tt
  else
    modd fp (set_ninode (s_ninode d + 1));;
    modd fp (set_inode (s_ninode d) ino);;
    modd fp (set_fmod 1).

(** ** Fields of the super block *)

Ltac outside :=
  intros ? ?; unfold set_nfree, set_free, set_ninode, set_inode, set_flock, set_fmod, mcopy;
  repeat (rewrite ?wr_8_ne, ?wr_16_ne, ?wr_32_ne, ?bool_decide_eq_false_2 by lia); done.

Lemma nfree_set v m : s_nfree (set_nfree v m) = s16 v.
Proof. apply rd_s16_wr_16_eq. Qed.
Lemma free_set i v m : s_free (set_free i v m) i = s32 v.
Proof. apply rd_s32_wr_32_eq. Qed.
Lemma free_set_ne i j v m : i <> j -> s_free (set_free i v m) j = s_free m j.
Proof. intros H. apply rd_s32_agree. outside. Qed.
Lemma nfree_keep m m' : agree 8 2 m' m -> s_nfree m' = s_nfree m.
Proof. apply rd_s16_agree. Qed.
Lemma flock_keep m m' : agree 414 1 m' m -> s_flock m' = s_flock m.
Proof. intros H. unfold s_flock. by rewrite H by lia. Qed.
Lemma flock_set v m : s_flock (set_flock v m) = u8 v.
Proof.
  unfold s_flock, set_flock. rewrite wr_8_eq. apply u8_id, u8_range.
Qed.

(** The fields that the free list operations leave alone. *)
Record same_sb (m m' : mem) : Prop := {
  ss_size : agree 0 8 m' m;
  ss_ninode : agree 212 2 m' m
}.
Lemma same_sb_trans m1 m2 m3 : same_sb m1 m2 -> same_sb m2 m3 -> same_sb m1 m3.
Proof. intros [H1 H2] [H3 H4]. split; intros i Hi; rewrite ?H3, ?H4 by done; auto. Qed.
Lemma same_sb_fields m m' : same_sb m m' ->
  s_isize m' = s_isize m /\ s_fsize m' = s_fsize m /\ s_ninode m' = s_ninode m.
Proof.
  intros [H1 H2]. split_and!; [apply rd_u16_agree|apply rd_s32_agree|apply rd_s16_agree; done];
    intros i Hi; apply H1; lia.
Qed.
Lemma same_sb_refl m : same_sb m m.
Proof. split; by intros i Hi. Qed.
Lemma same_sb_after m1 m m' : same_sb m1 m -> agree 0 8 m' m -> agree 212 2 m' m -> same_sb m1 m'.
Proof. intros H H1 H2. by eapply same_sb_trans. Qed.
Lemma same_sb_nfree v m1 m : same_sb m1 m -> same_sb m1 (set_nfree v m).
Proof. intros H. apply (same_sb_after _ _ _ H); outside. Qed.
Lemma same_sb_flock v m1 m : same_sb m1 m -> same_sb m1 (set_flock v m).
Proof. intros H. apply (same_sb_after _ _ _ H); outside. Qed.
Lemma same_sb_fmod v m1 m : same_sb m1 m -> same_sb m1 (set_fmod v m).
Proof. intros H. apply (same_sb_after _ _ _ H); outside. Qed.
Lemma same_sb_free i v m1 m : 0 <= i < 50 -> same_sb m1 m -> same_sb m1 (set_free i v m).
Proof. intros Hi H. apply (same_sb_after _ _ _ H); outside. Qed.
Lemma same_sb_copy d m1 m : same_sb m1 m -> same_sb m1 (mcopy d 4 m 12 200).
Proof. intros H. apply (same_sb_after _ _ _ H); outside. Qed.

Ltac same_sb_solve :=
  repeat first [assumption | apply same_sb_refl | apply same_sb_nfree | apply same_sb_flock | apply same_sb_fmod
    | apply same_sb_copy | apply same_sb_free; [lia|]].

(** ** The free list as a list *)

(** Entries [n-1] to [0]: the top comes first. *)
Definition slots (m : mem) (n : Z) : list Z := map (s_free m) (reverse (upto n)).
Definition fslots (m : mem) : list Z := map (fun i => rd_s32 m (4 + 4 * i)) (reverse (upto (df_nfree m))).

Lemma slots_succ m n : 0 <= n -> slots m (n + 1) = s_free m n :: slots m n.
Proof. intros. unfold slots. rewrite upto_succ, reverse_snoc by lia. done. Qed.
Lemma slots_ext m m' n : (forall i, 0 <= i < n -> s_free m' i = s_free m i) -> slots m' n = slots m n.
Proof.
  intros H. unfold slots. apply map_ext_in. intros i Hi.
  apply H, upto_range. by apply elem_of_reverse, list_elem_of_In.
Qed.
Lemma slots_keep m m' n : n <= 50 -> agree 12 200 m' m -> slots m' n = slots m n.
Proof. intros Hn H. apply slots_ext. intros i Hi. apply rd_s32_agree. intros j Hj. apply H. lia. Qed.
Lemma fslots_keep m m' : df_nfree m <= 50 -> agree 0 512 m' m -> df_nfree m' = df_nfree m /\ fslots m' = fslots m.
Proof.
  intros Hn H. assert (df_nfree m' = df_nfree m) as E by (apply rd_s16_agree; intros i Hi; apply H; lia).
  split; [done|]. unfold fslots. rewrite E. apply map_ext_in. intros i Hi%list_elem_of_In%elem_of_reverse%upto_range.
  apply rd_s32_agree. intros j Hj. apply H. lia.
Qed.

(** [chain C ok xs l]: with the entries [xs] on hand (top first), where [C b] is
    what block [b] contains, the list is [l].  The last entry is 0, or the block
    with the entries below it; that block is itself free. *)
Inductive chain (C : Z -> mem) (ok : Z -> Prop) : list Z -> list Z -> Prop :=
| chain_end ys : Forall ok ys -> chain C ok (ys ++ [0]) ys
| chain_more ys b l : Forall ok ys -> ok b -> 1 <= df_nfree (C b) <= NICFREE ->
    chain C ok (fslots (C b)) l -> chain C ok (ys ++ [b]) (ys ++ b :: l).

Lemma chain_agree C C' ok xs l :
  chain C ok xs l -> (forall b, b ∈ l -> agree 0 512 (C' b) (C b)) -> chain C' ok xs l.
Proof.
  induction 1 as [ys Hok|ys b l Hys Hb Hn Hc IH]; intros Ha; [by constructor|].
  destruct (fslots_keep (C b) (C' b)) as [E1 E2]; [unfold NICFREE in *; lia|apply Ha; mem|].
  constructor; rewrite ?E1, ?E2; try done. apply IH. intros x Hx. apply Ha. mem.
Qed.
Lemma chain_ok C ok ok' xs l : chain C ok xs l -> (forall b, ok b -> ok' b) -> chain C ok' xs l.
Proof. induction 1; intros; constructor; eauto using Forall_impl. Qed.
Lemma chain_push C ok b xs l : chain C ok xs l -> ok b -> chain C ok (b :: xs) (b :: l).
Proof. intros H Hb. destruct H; [apply (chain_end _ _ (b :: ys))|apply (chain_more _ _ (b :: ys))]; auto. Qed.
(** What the top entry is. *)
Lemma chain_pop C ok x xs l : chain C ok (x :: xs) l -> ~ ok 0 ->
  (x = 0 /\ xs = [] /\ l = []) \/
  (exists l', l = x :: l' /\ ok x /\ (chain C ok xs l' \/
     (xs = [] /\ 1 <= df_nfree (C x) <= NICFREE /\ chain C ok (fslots (C x)) l'))).
Proof.
  intros H H0. remember (x :: xs) as zs eqn:E. destruct H as [ys Hok|ys b l Hys Hb Hn Hc];
    (destruct ys as [|y ys]; injection E as -> <-).
  - by left.
  - right. apply Forall_cons in Hok as [Hx Hok]. exists ys. split; [done|]. split; [done|]. left. by constructor.
  - right. exists l. split; [done|]. split; [done|]. by right.
  - right. apply Forall_cons in Hys as [Hx Hys]. eexists. split; [done|]. split; [done|]. left. by constructor.
Qed.

(** ** Steps of the code on a mounted file system *)

Context `{SD : !SyncDriver}.

(** No process has a buffer for a block in [P]. *)
Definition nobody (s : kst) (A : list bptr) (dev : Z) (P : Z -> Prop) : Prop :=
  forall x, isbuf x -> x ∉ A -> b_dev (bufs s x) = dev -> ~ P (b_blkno (bufs s x)).

Lemma nobody_unheld s A dev P blk : nobody s A dev P -> P blk -> unheld s A dev blk.
Proof. intros H Hp x Hx E1 E2. destruct (decide (x ∈ A)) as [|Hn]; [done|]. exfalso. apply (H x Hx Hn E1). by rewrite E2. Qed.

(** The state [s] comes from [s0] by operations on buffers that were available
    and on the super block of [dev], which is [m], in the buffer [fp]. *)
Record fsys (s0 : kst) (A0 : list bptr) (dev : Z) (fp : bptr) (s : kst) (A : list bptr) (Q : bptr -> list bptr) (m : mem) : Prop := {
  f_cache : cache s A Q;
  f_sub : forall x, x ∈ A -> x ∈ A0;
  f_buf : isbuf fp;
  f_held : fp ∉ A0;
  f_nodev : b_dev (bufs s fp) = NODEV;
  f_data : b_data (bufs s fp) = m;
  f_getfs : getfs_scan s dev = Some fp;
  f_same : same_busy s0 (fp :: A0) s;
  f_others : others s = others s0
}.

Lemma others_getfs s s' dev : others s' = others s -> getfs_scan s' dev = getfs_scan s dev.
Proof.
  intros H. assert (mounts s' = mounts s) as E by (unfold others in H; by injection H).
  unfold getfs_scan. by rewrite E.
Qed.

Lemma fsys_eq s0 A0 dev fp s A Q m s' :
  fsys s0 A0 dev fp s A Q m -> bufs s' = bufs s -> disk s' = disk s -> others s' = others s -> fsys s0 A0 dev fp s' A Q m.
Proof.
  intros [] Eb Ed Eo. split; rewrite ?Eb; try done.
  - by eapply cache_bufs.
  - by rewrite (others_getfs s).
  - intros x Hx Hn. rewrite Eb. by apply f_same0.
  - by rewrite Eo.
Qed.

(** A write of the super block. *)
Lemma fsys_set s0 A0 dev fp s A Q m f :
  fsys s0 A0 dev fp s A Q m -> fsys s0 A0 dev fp (setb fp (fun r => r <| b_data ::= f |>) s) A Q (f m).
Proof.
  intros []. split; try done.
  - apply set_data_cache; [done..|]. intros Hi. by apply f_held0, f_sub0.
  - by rewrite setb_eq.
  - rewrite setb_eq. cbn. by f_equal.
  - intros x Hx Hn. rewrite setb_ne by (intros <-; mem). by apply f_same0.
Qed.
Lemma fsys_set_content s0 A0 dev fp s A Q m f dv bk :
  fsys s0 A0 dev fp s A Q m -> dv <> NODEV ->
  content (setb fp (fun r => r <| b_data ::= f |>) s) dv bk = content s dv bk.
Proof. intros [] Hn. apply set_data_blocks. rewrite f_nodev0. by intros [? _]. Qed.

(** A buffer is taken. *)
Lemma fsys_granted s0 A0 dev fp s A Q m dv bk b s' A' Q' :
  fsys s0 A0 dev fp s A Q m -> granted s A dv bk b s' A' Q' ->
  fsys s0 A0 dev fp s' A' Q' m /\ b <> fp /\ b ∈ A0.
Proof.
  intros [] [G1 G2 G3 G4 G5 G6 Ga Gr G7 G8 G9].
  assert (b ∈ A0) as Hb by (apply f_sub0; rewrite <- G4; mem).
  assert (fp ∉ A) as Hfa by (intros Hi; by apply f_held0, f_sub0).
  destruct (G8 fp f_buf0 Hfa) as (E1&E2&E3&E4).
  split; [|split; [by intros ->|done]]. split; try done.
  - intros x Hx. apply f_sub0. rewrite <- G4. mem.
  - by rewrite E2.
  - by rewrite E4.
  - by rewrite (others_getfs s).
  - intros x Hx Hn. assert (x ∉ A) as Hxa by (intros Hi; apply f_sub0 in Hi; mem).
    destruct (G8 x Hx Hxa) as (->&->&->&->). by apply f_same0.
  - by rewrite G9.
Qed.

(** A buffer is released. *)
Lemma fsys_brelse s0 A0 dev fp s A Q m b :
  fsys s0 A0 dev fp s A Q m -> isbuf b -> b ∉ A -> b ∈ A0 -> b <> fp -> releasable s b ->
  exists s' A', brelse b s = Ret tt s' /\ fsys s0 A0 dev fp s' A' Q m /\ A' ≡ₚ b :: A /\
    (forall dv bk, content s' dv bk = content s dv bk).
Proof.
  intros [] Hb Hn Hb0 Hne Hrel.
  assert (has (b_flags (bufs s b)) B_BUSY = true) as Hbusy.
  { destruct (has _ B_BUSY) eqn:E; [done|]. by apply (ca_busy _ _ _ f_cache0 b Hb) in E. }
  destruct (brelse_cache s A Q b f_cache0 Hb Hbusy Hrel) as (s'&A'&E&EA&Hc&_&Hf&Hid&Hr&Hct).
  assert (A' ≡ₚ b :: A) as HP by (subst A'; destruct (has _ B_AGE); [done|by rewrite Permutation_app_comm]).
  assert (forall x, isbuf x -> x <> b -> b_flags (bufs s' x) = b_flags (bufs s x) /\ b_dev (bufs s' x) = b_dev (bufs s x) /\
    b_blkno (bufs s' x) = b_blkno (bufs s x) /\ b_data (bufs s' x) = b_data (bufs s x)) as Hx.
  { intros x Hx Hxb. destruct (ident_fields _ _ (Hid x)) as (_&_&->&->&->). by rewrite Hf. }
  exists s', A'. split; [done|]. split; [|done]. destruct (Hx fp f_buf0) as (_&E1&_&E2); [congruence|]. split; try done.
  - intros x Hi. rewrite HP in Hi. apply elem_of_cons in Hi as [->|Hi]; [done|by apply f_sub0].
  - by rewrite E1.
  - by rewrite E2.
  - by rewrite (others_getfs s), f_getfs0 by (by apply rest_others).
  - intros x Hxi Hxn. destruct (Hx x Hxi) as (->&->&->&->); [intros ->; mem|]. by apply f_same0.
  - by rewrite (rest_others _ _ Hr).
Qed.

(** Who holds blocks does not change, but for what has been taken since. *)
Lemma fsys_nobody s0 A0 dev fp s A Q m (P : Z -> Prop) :
  fsys s0 A0 dev fp s A Q m -> dev <> NODEV -> nobody s0 A0 dev P ->
  (forall x, x ∈ A0 -> isbuf x -> x ∉ A -> b_dev (bufs s x) = dev -> ~ P (b_blkno (bufs s x))) -> nobody s A dev P.
Proof.
  intros [] Hn H0 Ht x Hx HxA Hd. destruct (decide (x ∈ A0)) as [Hi|Hi]; [by apply Ht|].
  destruct (decide (x = fp)) as [->|Hxf]; [congruence|].
  destruct (f_same0 x Hx) as (_&E1&E2&_); [mem|]. rewrite E2. apply H0; congruence.
Qed.

(** *** Pieces of [alloc] and [free] *)

Lemma getfs_ok s0 A0 dev fp s A Q m :
  fsys s0 A0 dev fp s A Q m -> s_nfree m <= NICFREE -> s_ninode m <= NICINOD -> getfs dev s = Ret fp s.
Proof.
  intros [] H1 H2. unfold getfs. krun. rewrite f_getfs0. krun. rewrite f_data0.
  replace (NICFREE <? s_nfree m) with false by lia. replace (NICINOD <? s_ninode m) with false by lia. done.
Qed.

Lemma wait_flock_ok s fp m : b_data (bufs s fp) = m -> s_flock m = 0 -> wait_flock fp s = Ret tt s.
Proof.
  intros Hd Hl. unfold wait_flock, wait_while. pose proof enough_fuel. destruct fuel as [|n]; [lia|].
  apply k_iter_inr. krun. rewrite Hd, Hl. done.
Qed.

(** The range of [badblock]. *)
Definition inrange (m : mem) (b : Z) : Prop := s_isize m <= b < s_fsize m.

Lemma badblock_ok s fp dev b : inrange (b_data (bufs s fp)) b -> badblock fp b dev s = Ret false s.
Proof.
  intros [H1 H2]. unfold badblock. krun.
  replace (b <? _) with false by lia. replace (_ <=? b) with false by lia. done.
Qed.

(** The state after the top entry has been taken off. *)
Definition popped (fp : bptr) (n : Z) (s : kst) : kst := setb fp (fun r => r <| b_data ::= set_nfree n |>) s.

Lemma alloc_pop_ok s0 A0 dev fp s A Q m n :
  fsys s0 A0 dev fp s A Q m -> s_nfree m = n + 1 -> 0 <= n < NICFREE ->
  (s_free m n = 0 \/ s_free m n <> 0 /\ inrange m (s_free m n)) ->
  alloc_pop fp dev s = Ret (if s_free m n =? 0 then None else Some (s_free m n)) (popped fp n s).
Proof.
  intros F Hn Hr Hb. pose proof (fsys_set _ _ _ _ _ _ _ _ (set_nfree n) F) as F'.
  pose proof (f_data _ _ _ _ _ _ _ _ F) as Em. pose proof (f_data _ _ _ _ _ _ _ _ F') as Em'.
  unfold alloc_pop. pose proof enough_fuel. destruct fuel as [|k]; [lia|].
  apply k_iter_inr. krun. rewrite Em, Hn. unfold NICFREE in *.
  replace (n + 1 <=? 0) with false by lia. replace (50 <? n + 1) with false by lia. krun.
  replace (n + 1 - 1) with n by lia. fold (popped fp n s).
  unfold popped in *. rewrite !Em', nfree_set, s16_id by lia.
  assert (s_free (set_nfree n m) n = s_free m n) as -> by (apply rd_s32_agree; outside).
  destruct Hb as [->|[Hz Hb]]; [done|]. replace (s_free m n =? 0) with false by lia.
  rewrite (bind_ret _ _ _ false (setb fp (fun r => r <| b_data ::= set_nfree n |>) s)); [done|].
  apply badblock_ok. rewrite Em'. unfold inrange. by destruct (same_sb_fields m (set_nfree n m)) as (->&->&_); [same_sb_solve|].
Qed.

Lemma alloc_refill_ok s0 A0 dev fp s A Q m b :
  fsys s0 A0 dev fp s A Q m -> A <> [] -> usable dev -> unheld s A dev b ->
  1 <= df_nfree (content s dev b) <= NICFREE ->
  exists s' A' Q' m', alloc_refill fp dev b s = Ret tt s' /\ fsys s0 A0 dev fp s' A' Q' m' /\ A' ≡ₚ A /\
    (forall dv bk, dv <> NODEV -> agree 0 512 (content s' dv bk) (content s dv bk)) /\
    same_sb m m' /\ s_flock m' = 0 /\ s_nfree m' = df_nfree (content s dev b) /\
    slots m' (s_nfree m') = fslots (content s dev b).
Proof.
  intros F HA Us Hu Hn. pose proof Us as [Hdv Ht Hmj]. set (C := content s dev b) in *.
  unfold alloc_refill. rewrite k_modd.
  set (s1 := setb fp _ s). set (m1 := set_flock (s_flock m + 1) m).
  assert (fsys s0 A0 dev fp s1 A Q m1) as F1 by (by apply (fsys_set _ _ _ _ _ _ _ _ (fun mm => set_flock (s_flock mm + 1) mm))).
  assert (forall dv bk, dv <> NODEV -> content s1 dv bk = content s dv bk) as Hct1
    by (intros; by eapply (fsys_set_content)).
  assert (unheld s1 A dev b) as Hu1.
  { intros x Hx. unfold s1. keep b_dev. keep b_blkno. by apply Hu. }
  clearbody s1.
  destruct (bread_spec s1 A Q dev b (f_cache _ _ _ _ _ _ _ _ F1) HA Hdv Ht Hmj Hu1) as (bp&s2&A2&Q2&E2&G2&_&Hd2).
  rewrite (bind_ret _ _ _ _ _ E2). destruct (fsys_granted _ _ _ _ _ _ _ _ _ _ _ _ _ _ F1 G2) as (F2&Hne&Hb0).
  krun. pose proof G2 as [Hc2 Hib HA2 HP2 _ _ _ Hr2 Hsb2 _ _].
  destruct (ca_flags _ _ _ Hc2 bp Hib) as [_ He]. rewrite He. cbn [negb when].
  set (d := b_data (bufs s2 bp)) in *. repeat (rewrite ?k_bind_bind; krun).
  set (s3 := setb fp _ s2). assert (fsys s0 A0 dev fp s3 A2 Q2 (set_nfree (df_nfree d) m1)) as F3 by (by apply fsys_set).
  assert (b_data (bufs s3 bp) = d) as -> by (unfold s3; by rewrite setb_ne).
  set (s4 := setb fp _ s3).
  set (m4 := mcopy d 4 (set_nfree (df_nfree d) m1) 12 200).
  assert (fsys s0 A0 dev fp s4 A2 Q2 m4) as F4 by (by apply (fsys_set _ _ _ _ _ _ _ _ (fun mm => mcopy d 4 mm 12 200))).
  assert (releasable s4 bp) as Hr4.
  { unfold releasable, s4, s3 in *. by rewrite !setb_ne by done. }
  assert (forall dv bk, dv <> NODEV -> content s4 dv bk = content s2 dv bk) as Hct4.
  { intros. unfold s4. erewrite fsys_set_content by done. by eapply fsys_set_content. }
  clearbody s4 s3. destruct (fsys_brelse _ _ _ _ _ _ _ _ bp F4) as (s5&A5&E5&F5&HP5&Hct5); [done..|].
  rewrite (bind_ret _ _ _ _ _ E5). krun. set (s6 := setb fp _ s5).
  assert (fsys s0 A0 dev fp s6 A5 Q2 (set_flock 0 m4)) as F6 by (by apply fsys_set).
  assert (forall dv bk, dv <> NODEV -> content s6 dv bk = content s5 dv bk) as Hct6 by (intros; by eapply fsys_set_content).
  destruct (fslots_keep C d) as [Hdn Hds]; [unfold NICFREE in *; lia| |].
  { intros i Hi. rewrite Hd2 by done. by rewrite Hct1. }
  assert (s_nfree (set_flock 0 m4) = df_nfree C) as Hnf.
  { rewrite (nfree_keep m4) by outside. unfold m4. rewrite (nfree_keep (set_nfree (df_nfree d) m1)) by outside.
    rewrite nfree_set, Hdn. apply s16_id. unfold NICFREE in *. lia. }
  unfold wakeup. eexists _, A5, Q2, _. split; [reflexivity|]. split; [|split; [|split; [|split; [|split; [|split]]]]].
  - by eapply fsys_eq.
  - by rewrite HP5, HP2.
  - intros dv bk Hv i Hi. rewrite (content_bufs s6), Hct6, Hct5, Hct4, (sb_content _ _ Hsb2 dv bk Hv i Hi), Hct1 by done. done.
  - unfold m4, m1. same_sb_solve.
  - apply flock_set.
  - exact Hnf.
  - rewrite Hnf. rewrite <- Hds. unfold slots, fslots. rewrite Hdn. apply map_ext_in.
    intros i Hi%list_elem_of_In%elem_of_reverse%upto_range. unfold NICFREE in *.
    transitivity (s_free m4 i); [apply rd_s32_agree; outside|]. unfold s_free, rd_s32, rd_u32, rd_u16, m4, mcopy.
    rewrite !bool_decide_eq_true_2 by lia. repeat (f_equal; try lia).
Qed.

(** The buffer of a new block: full of zeros. *)
Definition take_block (fp : bptr) (dev bno : Z) : M (option bptr) :=
  bp ← getblk dev bno; clrbuf bp;; modd fp (set_fmod 1);; mret (Some bp).

Lemma set_resid_cache s A Q b v :
  cache s A Q -> isbuf b -> b ∉ A -> cache (setb b (fun r => r <| b_resid := v |>) s) A Q.
Proof.
  intros Hc Hb HbA. destruct (ca_flags _ _ _ Hc b Hb) as [Hm He].
  destruct (has (b_flags (bufs s b)) B_BUSY) eqn:Hbusy; [|by apply (ca_busy _ _ _ Hc) in Hbusy].
  apply (cache_busy s _ A Q b Hc Hb HbA); try done; try (by keep b_flags).
  - intros x. split_and!; [by keep av_forw|by keep av_back|by keep b_forw|by keep b_back|by keep b_dev|by keep b_blkno].
  - intros x _ Hx. by rewrite setb_ne.
  - intros maj. by keep b_flags.
Qed.

(** The state after [clrbuf]. *)
Definition cleared (b : bptr) (s : kst) : kst :=
  setb b (fun r => r <| b_resid := 0 |>) (setb b (fun r => r <| b_data ::= fun m => mfill m 0 BSIZE 0 |>) s).

Lemma cleared_ok s A Q b : cache s A Q -> isbuf b -> b ∉ A ->
  cache (cleared b s) A Q /\ agree 0 512 (b_data (bufs (cleared b s) b)) (fun _ => 0) /\
  (forall dv bk, ~ (dv = b_dev (bufs s b) /\ bk = b_blkno (bufs s b)) -> content (cleared b s) dv bk = content s dv bk) /\
  (forall x, b_dev (bufs (cleared b s) x) = b_dev (bufs s x) /\ b_blkno (bufs (cleared b s) x) = b_blkno (bufs s x)).
Proof.
  intros Hc Hb HbA. split; [|split; [|split]]; unfold cleared.
  - apply set_resid_cache; [by apply set_data_cache|done..].
  - intros i Hi. rewrite (setb_keep b_data), setb_eq by done. cbn. unfold mfill, BSIZE. by rewrite bool_decide_eq_true_2 by lia.
  - intros dv bk Hx. rewrite <- (set_data_blocks s b (fun m => mfill m 0 BSIZE 0)) by done. apply content_ext; [|intros y _; by keep b_flags|done].
    intros y. by keep ident.
  - intros x. split; [by keep b_dev|by keep b_blkno].
Qed.

Lemma cleared_fsys s0 A0 dev fp s A Q m b :
  fsys s0 A0 dev fp s A Q m -> isbuf b -> b ∉ A -> b ∈ A0 -> b <> fp -> fsys s0 A0 dev fp (cleared b s) A Q m.
Proof.
  intros [] Hb HbA Hb0 Hne. split; try done; unfold cleared.
  - by apply cleared_ok.
  - by rewrite !setb_ne.
  - by rewrite !setb_ne.
  - intros x Hx Hn. rewrite !setb_ne by (intros <-; mem). by apply f_same0.
Qed.

Lemma take_block_ok s0 A0 dev fp s A Q m b :
  fsys s0 A0 dev fp s A Q m -> A <> [] -> usable dev -> unheld s A dev b ->
  exists bp s' A' Q', take_block fp dev b s = Ret (Some bp) s' /\ fsys s0 A0 dev fp s' A' Q' (set_fmod 1 m) /\
    bp :: A' ≡ₚ A /\ isbuf bp /\ b_dev (bufs s' bp) = dev /\ b_blkno (bufs s' bp) = b /\
    agree 0 512 (b_data (bufs s' bp)) (fun _ => 0) /\
    (forall dv bk, dv <> NODEV -> ~ (dv = dev /\ bk = b) -> agree 0 512 (content s' dv bk) (content s dv bk)).
Proof.
  intros F HA [Hdv Ht Hmj] Hu.
  destruct (getblk_spec s A Q dev b (f_cache _ _ _ _ _ _ _ _ F) HA Hdv Ht Hmj Hu) as (bp&s1&A1&Q1&E1&G1).
  destruct (fsys_granted _ _ _ _ _ _ _ _ _ _ _ _ _ _ F G1) as (F1&Hne&Hb0).
  pose proof G1 as [Hc1 Hib HA1 HP1 Ed1 Eb1 _ _ Hsb1 _ _].
  pose proof (cleared_fsys _ _ _ _ _ _ _ _ bp F1 Hib HA1 Hb0 Hne) as F2.
  destruct (cleared_ok s1 A1 Q1 bp Hc1 Hib HA1) as (_&Hz&Hct&Hid). destruct (Hid bp) as [Ed2 Eb2].
  unfold take_block. rewrite (bind_ret _ _ _ _ _ E1). unfold clrbuf, modd. rewrite k_bind_bind. krun. fold (cleared bp s1).
  set (s3 := setb fp _ (cleared bp s1)).
  exists bp, s3, A1, Q1. split; [done|]. split; [by apply fsys_set|]. unfold s3. rewrite !setb_ne by done.
  rewrite Ed2, Eb2. split_and!; try done. intros dv bk Hv Hx i Hi.
  rewrite (fsys_set_content _ _ _ _ _ _ _ _ _ _ _ F2) by done. rewrite Hct by (by rewrite Ed1, Eb1). by apply Hsb1.
Qed.

(** ** The free list of a mounted file system *)

(** [l] is the free list of [dev], whose super block is in the buffer [fp]; the
    buffers [A] are available. *)
Record freelist (s : kst) (A : list bptr) (dev : Z) (fp : bptr) (l : list Z) : Prop := {
  fl_getfs : getfs_scan s dev = Some fp;
  fl_buf : isbuf fp;
  fl_held : fp ∉ A;
  fl_nodev : b_dev (bufs s fp) = NODEV;
  fl_flock : s_flock (b_data (bufs s fp)) = 0;
  fl_ninode : s_ninode (b_data (bufs s fp)) <= NICINOD;
  fl_isize : 0 < s_isize (b_data (bufs s fp));
  fl_nfree : 0 <= s_nfree (b_data (bufs s fp)) <= NICFREE;
  fl_chain : (s_nfree (b_data (bufs s fp)) = 0 /\ l = []) \/
    chain (content s dev) (inrange (b_data (bufs s fp))) (slots (b_data (bufs s fp)) (s_nfree (b_data (bufs s fp)))) l;
  fl_nodup : NoDup l;
  fl_free : nobody s A dev (fun b => b ∈ l)
}.

Lemma freelist_fsys s A Q dev fp l :
  cache s A Q -> freelist s A dev fp l -> fsys s A dev fp s A Q (b_data (bufs s fp)).
Proof. intros Hc []. by split. Qed.

(** The list after operations that left the entries [xs] for it. *)
Lemma fsys_freelist s0 A0 dev fp s A Q m l :
  fsys s0 A0 dev fp s A Q m -> same_sb (b_data (bufs s0 fp)) m -> s_flock m = 0 ->
  s_ninode (b_data (bufs s0 fp)) <= NICINOD -> 0 < s_isize (b_data (bufs s0 fp)) ->
  0 <= s_nfree m <= NICFREE ->
  (s_nfree m = 0 /\ l = [] \/ chain (content s dev) (inrange (b_data (bufs s0 fp))) (slots m (s_nfree m)) l) ->
  NoDup l -> nobody s A dev (fun b => b ∈ l) -> freelist s A dev fp l.
Proof.
  intros [] Hs Hl Hi Hz Hn Hc Hd Hf. apply same_sb_fields in Hs as (E1&E2&E3).
  split; rewrite ?f_data0; try done; rewrite ?E1, ?E3; try done.
  - intros Hx. by apply f_held0, f_sub0.
  - destruct Hc as [Hc|Hc]; [by left|right]. eapply chain_ok; [exact Hc|]. unfold inrange. by rewrite E1, E2.
Qed.

(** What [alloc] gives: the block [b], in a buffer of zeros that is the
    caller's; the list is [l] then, and nothing else has changed. *)
Record allocated (s : kst) (A : list bptr) (dev : Z) (fp : bptr) (b : Z) (l : list Z) (bp : bptr) (s' : kst) (A' : list bptr) : Prop := {
  al_cache : exists Q', cache s' A' Q';
  al_buf : bp :: A' ≡ₚ A;
  al_dev : b_dev (bufs s' bp) = dev;
  al_blkno : b_blkno (bufs s' bp) = b;
  al_zero : agree 0 512 (b_data (bufs s' bp)) (fun _ => 0);
  al_list : freelist s' A' dev fp l;
  al_blocks : forall dv bk, dv <> NODEV -> ~ (dv = dev /\ bk = b) -> agree 0 512 (content s' dv bk) (content s dv bk);
  al_busy : same_busy s (fp :: A) s';
  al_others : others s' = others s
}.

Lemma chain_not_nil C ok l : ~ chain C ok [] l.
Proof. intros H. remember [] as xs eqn:E. destruct H as [ys|ys]; by destruct ys. Qed.

Lemma slots_nil m n : 0 <= n -> slots m n = [] -> n = 0.
Proof. intros Hn H. destruct (decide (n = 0)) as [|Hz]; [done|]. replace n with (n - 1 + 1) in H by lia. by rewrite slots_succ in H by lia. Qed.

(** The rest of [alloc], once the super block has the list below [b]. *)
Lemma alloc_tail s A dev fp b l s1 A1 Q1 m1 :
  freelist s A dev fp (b :: l) -> fsys s A dev fp s1 A1 Q1 m1 -> A1 ≡ₚ A -> A <> [] -> usable dev ->
  (forall dv bk, dv <> NODEV -> agree 0 512 (content s1 dv bk) (content s dv bk)) -> same_sb (b_data (bufs s fp)) m1 -> s_flock m1 = 0 -> 1 <= s_nfree m1 <= NICFREE ->
  chain (content s dev) (inrange (b_data (bufs s fp))) (slots m1 (s_nfree m1)) l ->
  exists bp s' A', take_block fp dev b s1 = Ret (Some bp) s' /\ allocated s A dev fp b l bp s' A'.
Proof.
  intros Fl F HP HA Us Hsb Hss Hfl Hn Hc. pose proof Us as [Hdv _ _].
  pose proof (fl_nodup _ _ _ _ _ Fl) as [Hbl Hnd]%NoDup_cons.
  assert (nobody s1 A1 dev (fun x => x ∈ b :: l)) as Hf1.
  { eapply fsys_nobody; [exact F|done|apply Fl|]. intros x Hx _ Hn1. rewrite HP in Hn1. done. }
  destruct (take_block_ok _ _ _ _ _ _ _ _ b F) as (bp&s'&A'&Q'&E&F'&HP'&Hib&Ed&Eb&Hz&Hct); [|done| |].
  { intros ->. apply HA. by apply Permutation_nil_l in HP. }
  { eapply nobody_unheld; [exact Hf1|]. cbv beta. mem. }
  assert (agree 8 204 (set_fmod 1 m1) m1) as Hag by outside.
  assert (s_nfree (set_fmod 1 m1) = s_nfree m1) as En by (apply nfree_keep; intros i Hi; apply Hag; lia).
  assert (forall dv bk, dv <> NODEV -> ~ (dv = dev /\ bk = b) -> agree 0 512 (content s' dv bk) (content s dv bk)) as Hct'.
  { intros dv bk Hv Hx i Hi. rewrite Hct by done. by apply Hsb. }
  exists bp, s', A'. split; [done|]. split; try done.
  - exists Q'. apply F'.
  - by rewrite HP'.
  - eapply fsys_freelist; [exact F'|same_sb_solve| |apply Fl|apply Fl|rewrite En; lia| |done|].
    + rewrite (flock_keep m1) by outside. done.
    + right. rewrite En, (slots_keep m1) by (unfold NICFREE in *; try lia; intros i Hi; apply Hag; lia).
      eapply chain_agree; [exact Hc|]. intros x Hx. apply Hct'; [done|]. intros [_ ->]. done.
    + eapply fsys_nobody; [exact F'|done| |].
      * intros x Hx Hxn Hxd Hi. apply (fl_free _ _ _ _ _ Fl x Hx Hxn Hxd). mem.
      * intros x Hx _ Hn' _. rewrite <- HP, <- HP' in Hx. assert (x = bp) as -> by mem. by rewrite Eb.
  - apply F'.
  - apply F'.
Qed.

Lemma alloc_spec s A Q dev fp b l :
  cache s A Q -> A <> [] -> usable dev -> freelist s A dev fp (b :: l) ->
  exists bp s' A', alloc dev s = Ret (Some bp) s' /\ allocated s A dev fp b l bp s' A'.
Proof.
  intros Hc HA Us Fl. pose proof Us as [Hdv _ _]. pose proof (freelist_fsys _ _ _ _ _ _ Hc Fl) as F.
  set (m := b_data (bufs s fp)) in *.
  pose proof (fl_nfree _ _ _ _ _ Fl) as Hn. pose proof (fl_isize _ _ _ _ _ Fl) as Hz. fold m in Hn, Hz.
  destruct (fl_chain _ _ _ _ _ Fl) as [[_ ?]|Hch]; [done|]. fold m in Hch.
  destruct (decide (s_nfree m = 0)) as [E0|E0]; [rewrite E0 in Hch; by apply chain_not_nil in Hch|].
  set (n := s_nfree m - 1). assert (s_nfree m = n + 1) as En by (unfold n; lia). rewrite En in Hch.
  rewrite slots_succ in Hch by (unfold n; lia).
  apply chain_pop in Hch as [(_&_&?)|(l'&[= -> <-]&Hok&Hch)]; [done| |unfold inrange; lia].
  assert (s_free m n <> 0) as Hb0 by (intros E; rewrite E in Hok; unfold inrange in Hok; lia).
  unfold alloc. rewrite (bind_ret _ _ _ _ _ (getfs_ok _ _ _ _ _ _ _ _ F (proj2 Hn) (fl_ninode _ _ _ _ _ Fl))).
  rewrite (bind_ret _ _ _ _ _ (wait_flock_ok s fp m eq_refl (fl_flock _ _ _ _ _ Fl))).
  assert (0 <= n < NICFREE) as Hnr by (unfold n in *; lia).
  rewrite (bind_ret _ _ _ _ _ (alloc_pop_ok _ _ _ _ _ _ _ _ n F En Hnr (or_intror (conj Hb0 Hok)))).
  rewrite (proj2 (Z.eqb_neq _ _) Hb0). cbv iota. krun.
  assert (fsys s A dev fp (popped fp n s) A Q (set_nfree n m)) as F1 by (by apply fsys_set).
  rewrite (f_data _ _ _ _ _ _ _ _ F1), nfree_set, s16_id by (unfold NICFREE in *; lia).
  assert (forall dv bk, dv <> NODEV -> content (popped fp n s) dv bk = content s dv bk) as Hct1 by (intros; by eapply fsys_set_content).
  assert (same_sb m (set_nfree n m) /\ s_flock (set_nfree n m) = 0 /\ slots (set_nfree n m) n = slots m n) as (Hss&Hfl1&Hsl1).
  { split; [same_sb_solve|]. split; [rewrite (flock_keep m) by outside; apply Fl|].
    apply slots_keep; [unfold NICFREE in *; lia|]. outside. }
  destruct Hch as [Hch|(Hsl&Hdn&Hch)].
  - destruct (decide (n = 0)) as [E|E]; [rewrite E in Hch; by apply chain_not_nil in Hch|].
    replace (n <=? 0) with false by lia. cbn [when]. krun.
    rewrite (f_data _ _ _ _ _ _ _ _ F1), nfree_set, s16_id by (unfold NICFREE in *; lia). replace (n <=? 0) with false by lia.
    apply (alloc_tail s A dev fp _ _ _ _ _ _ Fl F1); try done.
    + intros dv bk Hv i Hi. by rewrite Hct1.
    + rewrite nfree_set, s16_id by (unfold NICFREE in *; lia). lia.
    + rewrite nfree_set, s16_id, Hsl1 by (unfold NICFREE in *; lia). done.
  - apply slots_nil in Hsl; [|lia]. rewrite Hsl in *. cbn [Z.leb Z.compare when].
    assert (content (popped fp 0 s) dev (s_free m 0) = content s dev (s_free m 0)) as Ec by (by apply Hct1).
    destruct (alloc_refill_ok _ _ _ _ _ _ _ _ (s_free m 0) F1 HA Us) as (s2&A2&Q2&m2&E2&F2&HP2&Hsb2&Hss2&Hfl2&Hn2&Hsl2).
    { eapply nobody_unheld; [eapply (fsys_nobody _ _ _ _ _ _ _ _ _ F1 Hdv (fl_free _ _ _ _ _ Fl)); by intros x Hx|]. cbv beta. mem. }
    { by rewrite Ec. }
    rewrite (bind_ret _ _ _ _ _ E2). krun. rewrite (f_data _ _ _ _ _ _ _ _ F2). rewrite Ec in Hn2, Hsl2.
    replace (s_nfree m2 <=? 0) with false by lia.
    apply (alloc_tail s A dev fp _ _ _ _ _ _ Fl F2); try done.
    + intros dv bk Hv i Hi. rewrite (Hsb2 dv bk Hv i Hi). by rewrite Hct1.
    + by eapply same_sb_trans.
    + lia.
    + by rewrite Hsl2.
Qed.

Lemma others_setu f s s' : others s = others s' -> others (setu f s) = others (setu f s').
Proof. destruct s, s'. unfold others, setu. cbn. intros E. injection E. intros. by subst. Qed.

(** No block is free. *)
Lemma alloc_none s A Q dev fp :
  cache s A Q -> dev <> NODEV -> freelist s A dev fp [] ->
  exists s', alloc dev s = Ret None s' /\ cache s' A Q /\ freelist s' A dev fp [] /\
    (forall dv bk, dv <> NODEV -> content s' dv bk = content s dv bk) /\ same_busy s (fp :: A) s' /\
    others s' = others (setu (fun r => r <| u_error := ENOSPC |>) s).
Proof.
  intros Hc Hdv Fl. pose proof (freelist_fsys _ _ _ _ _ _ Hc Fl) as F. set (m := b_data (bufs s fp)) in *.
  pose proof (fl_nfree _ _ _ _ _ Fl) as Hn. fold m in Hn.
  assert (exists s1 m1, alloc_pop fp dev s = Ret None s1 /\ fsys s A dev fp s1 A Q m1 /\ agree 10 502 m1 m /\ agree 0 8 m1 m /\
    (forall dv bk, dv <> NODEV -> content s1 dv bk = content s dv bk)) as (s1&m1&E1&F1&Hg1&Hg2&Hct1).
  { destruct (decide (s_nfree m = 0)) as [E|E].
    - exists s, m. split; [|done]. unfold alloc_pop. pose proof enough_fuel. destruct fuel as [|k]; [lia|].
      apply k_iter_inr. krun. fold m. by rewrite E.
    - destruct (fl_chain _ _ _ _ _ Fl) as [[? _]|Hch]; [done|]. fold m in Hch.
      assert (s_nfree m = s_nfree m - 1 + 1) as En by lia. rewrite En, slots_succ in Hch by lia.
      apply chain_pop in Hch as [(Hz&Hs&_)|(l'&?&_)]; [|done|pose proof (fl_isize _ _ _ _ _ Fl); fold m in H; unfold inrange; lia].
      apply slots_nil in Hs; [|lia]. exists (popped fp 0 s), (set_nfree 0 m). rewrite Hs in *.
      pose proof (alloc_pop_ok _ _ _ _ _ _ _ _ 0 F En ltac:(unfold NICFREE; lia) (or_introl Hz)) as Ep. rewrite Hz in Ep.
      split; [done|]. split; [by apply fsys_set|]. split; [outside|]. split; [outside|]. intros. by eapply fsys_set_content. }
  unfold alloc. rewrite (bind_ret _ _ _ _ _ (getfs_ok _ _ _ _ _ _ _ _ F (proj2 Hn) (fl_ninode _ _ _ _ _ Fl))).
  rewrite (bind_ret _ _ _ _ _ (wait_flock_ok s fp m eq_refl (fl_flock _ _ _ _ _ Fl))).
  rewrite (bind_ret _ _ _ _ _ E1). unfold nospace. krun.
  assert (fsys s A dev fp (setb fp (fun r => r <| b_data ::= set_nfree 0 |>) s1) A Q (set_nfree 0 m1)) as F2 by (by apply fsys_set).
  assert (forall dv bk, dv <> NODEV -> content (setb fp (fun r => r <| b_data ::= set_nfree 0 |>) s1) dv bk = content s dv bk) as Hct2.
  { intros. rewrite (fsys_set_content _ _ _ _ _ _ _ _ _ _ _ F1) by done. by apply Hct1. }
  set (s2 := setb fp _ s1) in *. clearbody s2. eexists. split; [done|].
  set (s3 := setu _ _). assert (bufs s3 = bufs s2 /\ disk s3 = disk s2 /\ mounts s3 = mounts s2) as (Eb&Ek&Em) by done.
  assert (others s3 = others (setu (fun r => r <| u_error := ENOSPC |>) s2)) as Eo by done. clearbody s3.
  assert (cache s3 A Q) as Hc3 by (eapply cache_bufs; [apply F2|done..]).
  split; [done|]. split; [|split; [|split]].
  - destruct (same_sb_fields m (set_nfree 0 m1)) as (Z1&Z2&Z3).
    { split; intros i Hi; rewrite <- ?Hg2, <- ?Hg1 by lia; revert i Hi; outside. }
    assert (s_nfree (set_nfree 0 m1) = 0) as En by apply nfree_set.
    split; rewrite ?Eb, ?(f_data _ _ _ _ _ _ _ _ F2), ?Z1, ?Z3, ?En; try apply Fl; try done.
    + unfold getfs_scan. rewrite Em. apply F2.
    + apply F2.
    + rewrite (flock_keep m); [apply Fl|]. intros i Hi. rewrite <- Hg1 by lia. revert i Hi. outside.
    + by left.
    + intros x _ _ _ Hi. by apply elem_of_nil in Hi.
  - intros. rewrite (content_bufs s2) by done. by apply Hct2.
  - intros x Hx Hxn. rewrite Eb. by apply F2.
  - rewrite Eo. apply others_setu, F2.
Qed.

(** A busy buffer's data is written, and the buffer released. *)
Lemma fsys_setd s0 A0 dev fp s A Q m b g :
  fsys s0 A0 dev fp s A Q m -> isbuf b -> b ∉ A -> b ∈ A0 -> b <> fp ->
  fsys s0 A0 dev fp (setb b (fun r => r <| b_data ::= g |>) s) A Q m.
Proof.
  intros [] Hb HbA Hb0 Hne. split; try done.
  - by apply set_data_cache.
  - by rewrite setb_ne.
  - by rewrite setb_ne.
  - intros x Hx Hn. rewrite setb_ne by (intros <-; mem). by apply f_same0.
Qed.

Lemma fsys_bwrite s0 A0 dev fp s A Q m b :
  fsys s0 A0 dev fp s A Q m -> isbuf b -> b ∉ A -> b ∈ A0 -> b <> fp -> b_dev (bufs s b) <> NODEV ->
  has (b_flags (bufs s b)) B_ASYNC = false ->
  exists s' A', bwrite b s = Ret tt s' /\ fsys s0 A0 dev fp s' A' Q m /\ A' ≡ₚ b :: A /\
    blocks_set s s' (b_dev (bufs s b)) (b_blkno (bufs s b)) (b_data (bufs s b)).
Proof.
  intros [] Hb HbA Hb0 Hne Hn Ha. destruct (bwrite_sync s A Q b) as (s'&E&Hc&Hbs&_&Hsm&Ho); [done..|].
  exists s', (A ++ [b]). split; [done|]. split; [|split; [by rewrite Permutation_app_comm|done]].
  destruct (Hsm fp f_buf0) as [_ Hid]; [congruence|]. destruct (ident_fields _ _ Hid) as (_&_&E1&_&E2). split; try done.
  - intros x [Hx| ->%list_elem_of_singleton]%elem_of_app; [by apply f_sub0|done].
  - by rewrite E1.
  - by rewrite E2.
  - by rewrite (others_getfs s).
  - intros x Hx Hxn. destruct (Hsm x Hx) as [-> Hidx]; [intros ->; mem|].
    destruct (ident_fields _ _ Hidx) as (_&_&->&->&->). by apply f_same0.
  - by rewrite Ho.
Qed.

(** A full list goes out to the block that is being freed. *)
Lemma free_spill_ok s0 A0 dev fp s A Q m bno :
  fsys s0 A0 dev fp s A Q m -> A <> [] -> usable dev -> unheld s A dev bno -> s_nfree m = NICFREE ->
  exists s' A' Q' m' blk, free_spill fp dev bno s = Ret tt s' /\ fsys s0 A0 dev fp s' A' Q' m' /\ A' ≡ₚ A /\
    blocks_set s s' dev bno blk /\ df_nfree blk = NICFREE /\ fslots blk = slots m NICFREE /\
    same_sb m m' /\ s_flock m' = 0 /\ s_nfree m' = 0.
Proof.
  intros F HA Us Hu Hn. pose proof Us as [Hdv Ht Hmj]. unfold free_spill. rewrite k_modd.
  set (m1 := set_flock (s_flock m + 1) m). set (s1 := setb fp _ s).
  assert (fsys s0 A0 dev fp s1 A Q m1) as F1 by (by apply (fsys_set _ _ _ _ _ _ _ _ (fun mm => set_flock (s_flock mm + 1) mm))).
  assert (forall dv bk, dv <> NODEV -> content s1 dv bk = content s dv bk) as Hct1 by (intros; by eapply fsys_set_content).
  assert (unheld s1 A dev bno) as Hu1 by (intros x Hx; unfold s1; keep b_dev; keep b_blkno; by apply Hu).
  clearbody s1.
  destruct (getblk_spec s1 A Q dev bno (f_cache _ _ _ _ _ _ _ _ F1) HA Hdv Ht Hmj Hu1) as (bp&s2&A2&Q2&E2&G2).
  rewrite (bind_ret _ _ _ _ _ E2). destruct (fsys_granted _ _ _ _ _ _ _ _ _ _ _ _ _ _ F1 G2) as (F2&Hne&Hb0).
  pose proof G2 as [_ Hib HA2 HP2 Ed2 Eb2 Ha2 _ Hsb2 _ _]. krun. rewrite (f_data _ _ _ _ _ _ _ _ F2).
  rewrite !setb_ne, (f_data _ _ _ _ _ _ _ _ F2) by done.
  set (g1 := fun m0 : mem => wr_16 m0 0 (s_nfree m1)). set (g2 := fun m0 : mem => mcopy m1 12 m0 4 200).
  set (s3 := setb bp _ s2). assert (fsys s0 A0 dev fp s3 A2 Q2 m1) as F3 by (by apply (fsys_setd _ _ _ _ _ _ _ _ bp g1)).
  set (s4 := setb bp _ s3). assert (fsys s0 A0 dev fp s4 A2 Q2 m1) as F4 by (by apply (fsys_setd _ _ _ _ _ _ _ _ bp g2)).
  set (s5 := setb fp _ s4). assert (fsys s0 A0 dev fp s5 A2 Q2 (set_nfree 0 m1)) as F5 by (by apply fsys_set).
  set (blk := g2 (g1 (b_data (bufs s2 bp)))).
  assert (b_dev (bufs s5 bp) = dev /\ b_blkno (bufs s5 bp) = bno /\ b_data (bufs s5 bp) = blk /\
    b_flags (bufs s5 bp) = b_flags (bufs s2 bp)) as (Ed5&Eb5&Edt5&Ef5).
  { unfold s5, s4, s3. rewrite (setb_ne fp) by done. rewrite !setb_eq. done. }
  assert (forall dv bk, dv <> NODEV -> ~ (dv = dev /\ bk = bno) -> content s5 dv bk = content s2 dv bk) as Hct5.
  { intros dv bk Hv Hx. unfold s5. rewrite (fsys_set_content _ _ _ _ _ _ _ _ _ _ _ F4) by done.
    unfold s4. rewrite set_data_blocks by (unfold s3; rewrite setb_eq; cbn; by rewrite Ed2, Eb2).
    unfold s3. by rewrite set_data_blocks by (by rewrite Ed2, Eb2). }
  clearbody s5. destruct (fsys_bwrite _ _ _ _ _ _ _ _ bp F5) as (s6&A6&E6&F6&HP6&Hbs6); [done..|by rewrite Ed5|by rewrite Ef5|].
  rewrite Ed5, Eb5, Edt5 in Hbs6. rewrite (bind_ret _ _ _ _ _ E6). krun. unfold wakeup.
  set (s7 := setb fp _ s6). assert (fsys s0 A0 dev fp s7 A6 Q2 (set_flock 0 (set_nfree 0 m1))) as F7 by (by apply fsys_set).
  eexists _, A6, Q2, _, blk. split; [reflexivity|]. split; [by eapply fsys_eq|].
  assert (s_nfree m1 = NICFREE) as En by (rewrite (nfree_keep m) by (unfold m1; outside); done).
  assert (df_nfree blk = NICFREE) as Edf.
  { unfold df_nfree, blk, g2, g1. rewrite (rd_s16_agree _ (wr_16 (b_data (bufs s2 bp)) 0 (s_nfree m1))) by outside.
    by rewrite rd_s16_wr_16_eq, En. }
  split_and!; try done.
  - by rewrite HP6, HP2.
  - intros dv bk Hv i Hi. rewrite (content_bufs s7) by done. unfold s7. rewrite (fsys_set_content _ _ _ _ _ _ _ _ _ _ _ F6) by done.
    rewrite (Hbs6 dv bk Hv i Hi). case_decide as Hx; [done|]. rewrite Hct5, (sb_content _ _ Hsb2 dv bk Hv i Hi), Hct1 by done. done.
  - unfold fslots, slots. rewrite Edf. apply map_ext_in. intros i Hi%list_elem_of_In%elem_of_reverse%upto_range. unfold NICFREE in *.
    transitivity (s_free m1 i); [|apply rd_s32_agree; unfold m1; outside].
    unfold s_free, rd_s32, rd_u32, rd_u16, blk, g2, mcopy. rewrite !bool_decide_eq_true_2 by lia. repeat (f_equal; try lia).
  - unfold m1. same_sb_solve.
Qed.

(** An entry goes on top. *)
Lemma slots_push m n b : 0 <= n < NICFREE -> s_nfree m = n -> -2147483648 <= b < 2147483648 ->
  let m' := set_fmod 1 (set_free n b (set_nfree (n + 1) m)) in
  s_nfree m' = n + 1 /\ slots m' (n + 1) = b :: slots m n /\ same_sb m m' /\ s_flock m' = s_flock m.
Proof.
  intros Hn En Hb m'. unfold NICFREE in Hn. split_and!.
  - unfold m'. rewrite (nfree_keep (set_nfree (n + 1) m)) by outside. rewrite nfree_set. apply s16_id. lia.
  - rewrite slots_succ by lia. f_equal.
    + transitivity (s_free (set_free n b (set_nfree (n + 1) m)) n); [apply rd_s32_agree; unfold m'; outside|].
      rewrite free_set. by apply s32_id.
    + apply slots_ext. intros i Hi.
      transitivity (s_free (set_free n b (set_nfree (n + 1) m)) i); [apply rd_s32_agree; unfold m'; outside|].
      rewrite free_set_ne by lia. apply rd_s32_agree. outside.
  - unfold m'. same_sb_solve.
  - apply flock_keep. unfold m'. outside.
Qed.

(** The end of [free]: there is room, and the list holds at least its end mark. *)
Definition free_push (fp : bptr) (bno : Z) : M unit :=
  d ← getd fp; modd fp (set_nfree (s_nfree d + 1));; modd fp (set_free (s_nfree d) bno);; modd fp (set_fmod 1).

Lemma free_push_ok s0 A0 dev fp s A Q m bno :
  fsys s0 A0 dev fp s A Q m -> 0 <= s_nfree m < NICFREE -> -2147483648 <= bno < 2147483648 ->
  exists s' m', free_push fp bno s = Ret tt s' /\ fsys s0 A0 dev fp s' A Q m' /\
    (forall dv bk, dv <> NODEV -> content s' dv bk = content s dv bk) /\
    s_nfree m' = s_nfree m + 1 /\ slots m' (s_nfree m + 1) = bno :: slots m (s_nfree m) /\ same_sb m m' /\ s_flock m' = s_flock m.
Proof.
  intros F Hn Hb. unfold free_push. krun. rewrite (f_data _ _ _ _ _ _ _ _ F). unfold modd at 1.
  set (n := s_nfree m) in *. unfold modb. kred.
  set (s1 := setb fp _ s). assert (fsys s0 A0 dev fp s1 A Q (set_nfree (n + 1) m)) as F1 by (by apply fsys_set).
  set (s2 := setb fp _ s1). assert (fsys s0 A0 dev fp s2 A Q (set_free n bno (set_nfree (n + 1) m))) as F2 by (by apply (fsys_set _ _ _ _ _ _ _ _ (set_free n bno))).
  set (s3 := setb fp _ s2). assert (fsys s0 A0 dev fp s3 A Q (set_fmod 1 (set_free n bno (set_nfree (n + 1) m)))) as F3 by (by apply fsys_set).
  exists s3, (set_fmod 1 (set_free n bno (set_nfree (n + 1) m))). split; [done|]. split; [done|]. split; [|by apply slots_push].
  intros dv bk Hv. unfold s3. rewrite (fsys_set_content _ _ _ _ _ _ _ _ _ _ _ F2) by done.
  unfold s2. rewrite (fsys_set_content _ _ _ _ _ _ _ _ _ _ _ F1) by done. unfold s1. by rewrite (fsys_set_content _ _ _ _ _ _ _ _ _ _ _ F) by done.
Qed.

(** What [free] does: [bno] goes on top of the list. *)
Record freed (s : kst) (A : list bptr) (dev : Z) (fp : bptr) (bno : Z) (l : list Z) (s' : kst) (A' : list bptr) : Prop := {
  fr_cache : exists Q', cache s' A' Q';
  fr_avail : A' ≡ₚ A;
  fr_list : freelist s' A' dev fp (bno :: l);
  fr_blocks : forall dv bk, dv <> NODEV -> ~ (dv = dev /\ bk = bno) -> agree 0 512 (content s' dv bk) (content s dv bk);
  fr_busy : same_busy s (fp :: A) s';
  fr_others : others s' = others s
}.

(** [free] once there is an end mark: the spill, if the list is full, and the push. *)
Definition free_rest (fp : bptr) (dev bno : Z) : M unit :=
  d ← getd fp; when (NICFREE <=? s_nfree d) (free_spill fp dev bno);; free_push fp bno.

Lemma free_rest_ok s A dev fp bno l s1 Q1 m1 :
  freelist s A dev fp l -> fsys s A dev fp s1 A Q1 m1 -> A <> [] -> usable dev ->
  (forall dv bk, dv <> NODEV -> content s1 dv bk = content s dv bk) -> same_sb (b_data (bufs s fp)) m1 -> s_flock m1 = 0 ->
  1 <= s_nfree m1 <= NICFREE -> chain (content s dev) (inrange (b_data (bufs s fp))) (slots m1 (s_nfree m1)) l ->
  inrange (b_data (bufs s fp)) bno -> bno ∉ l -> unheld s A dev bno ->
  exists s' A', free_rest fp dev bno s1 = Ret tt s' /\ freed s A dev fp bno l s' A'.
Proof.
  intros Fl F HA Us Hct Hss Hfl Hn Hch Hr Hbl Hu. pose proof Us as [Hdv _ _].
  assert (nobody s A dev (fun b => b ∈ bno :: l)) as Hnb.
  { intros x Hx HxA Hd [Hi|Hi]%elem_of_cons; [by apply HxA, Hu|by apply (fl_free _ _ _ _ _ Fl x Hx HxA Hd)]. }
  assert (exists s2 A2 Q2 m2, when (NICFREE <=? s_nfree m1) (free_spill fp dev bno) s1 = Ret tt s2 /\ fsys s A dev fp s2 A2 Q2 m2 /\
    A2 ≡ₚ A /\ same_sb (b_data (bufs s fp)) m2 /\ s_flock m2 = 0 /\ 0 <= s_nfree m2 < NICFREE /\
    (forall dv bk, dv <> NODEV -> ~ (dv = dev /\ bk = bno) -> agree 0 512 (content s2 dv bk) (content s dv bk)) /\
    chain (content s2 dev) (inrange (b_data (bufs s fp))) (bno :: slots m2 (s_nfree m2)) (bno :: l))
    as (s2&A2&Q2&m2&E2&F2&HP2&Hss2&Hfl2&Hn2&Hct2&Hch2).
  { assert (forall x, x ∈ l -> ~ (dev = dev /\ x = bno)) as Hne by (intros x Hx [_ ->]; done).
    destruct (NICFREE <=? s_nfree m1) eqn:El.
    - assert (s_nfree m1 = NICFREE) as En by lia.
      destruct (free_spill_ok _ _ _ _ _ _ _ _ bno F HA Us) as (s2&A2&Q2&m2&blk&E2&F2&HP2&Hbs&Hdf&Hsl&Hss2&Hfl2&Hn2); [|done|].
      { assert (nobody s1 A dev (fun b => b ∈ bno :: l)) as Hn1 by (by eapply (fsys_nobody _ _ _ _ _ _ _ _ _ F Hdv Hnb)).
        eapply nobody_unheld; [exact Hn1|]. cbv beta. mem. }
      assert (forall dv bk, dv <> NODEV -> ~ (dv = dev /\ bk = bno) -> agree 0 512 (content s2 dv bk) (content s dv bk)) as Hct2.
      { intros dv bk Hv Hx i Hi. rewrite (Hbs dv bk Hv i Hi), decide_False by done. by rewrite Hct. }
      exists s2, A2, Q2, m2. split_and!; try done; [by eapply same_sb_trans|lia|unfold NICFREE; lia|].
      rewrite Hn2. change (slots m2 0) with (@nil Z).
      destruct (fslots_keep blk (content s2 dev bno)) as [D1 D2]; [by rewrite Hdf| |].
      { intros i Hi. rewrite (Hbs dev bno Hdv i Hi). by rewrite decide_True. }
      apply (chain_more _ _ [] bno l); [done|done|rewrite D1, Hdf; unfold NICFREE; lia|]. rewrite D2, Hsl, <- En.
      eapply chain_agree; [exact Hch|]. intros x Hx. apply Hct2; [done|by apply Hne].
    - exists s1, A, Q1, m1. split_and!; try done; [lia..| |].
      + intros dv bk Hv _. by rewrite Hct.
      + apply chain_push; [|done]. eapply chain_agree; [exact Hch|]. intros x Hx. by rewrite Hct. }
  unfold free_rest. krun. rewrite (f_data _ _ _ _ _ _ _ _ F), (bind_ret _ _ _ _ _ E2).
  destruct (free_push_ok _ _ _ _ _ _ _ _ bno F2 Hn2) as (s3&m3&E3&F3&Hct3&Hn3&Hsl3&Hss3&Hfl3).
  { pose proof (s32_range (rd_u32 (b_data (bufs s fp)) 4)). pose proof (fl_isize _ _ _ _ _ Fl).
    unfold inrange, s_fsize, rd_s32 in *. lia. }
  exists s3, A2. split; [done|]. split; [exists Q2; apply F3|done| | |apply F3|apply F3].
  - eapply fsys_freelist; [exact F3|by eapply same_sb_trans|by rewrite Hfl3|apply Fl|apply Fl|lia| | |].
    + right. rewrite Hn3, Hsl3. eapply chain_agree; [exact Hch2|]. intros x _. by rewrite Hct3.
    + constructor; [done|apply Fl].
    + eapply fsys_nobody; [exact F3|done|exact Hnb|]. intros x Hx _ Hxn. by rewrite HP2 in Hxn.
  - intros dv bk Hv Hx. rewrite Hct3 by done. by apply Hct2.
Qed.

Lemma free_spec s A Q dev fp l bno :
  cache s A Q -> A <> [] -> usable dev -> freelist s A dev fp l ->
  inrange (b_data (bufs s fp)) bno -> bno ∉ l -> unheld s A dev bno ->
  exists s' A', free dev bno s = Ret tt s' /\ freed s A dev fp bno l s' A'.
Proof.
  intros Hc HA Us Fl Hr Hbl Hu. pose proof Us as [Hdv _ _]. pose proof (freelist_fsys _ _ _ _ _ _ Hc Fl) as F.
  pose proof (fl_nfree _ _ _ _ _ Fl) as Hn. set (m := b_data (bufs s fp)) in *.
  unfold free. rewrite (bind_ret _ _ _ _ _ (getfs_ok _ _ _ _ _ _ _ _ F (proj2 Hn) (fl_ninode _ _ _ _ _ Fl))).
  rewrite k_modd. set (s1 := setb fp _ s). assert (fsys s A dev fp s1 A Q (set_fmod 1 m)) as F1 by (by apply fsys_set).
  assert (s_flock (set_fmod 1 m) = 0) as Hfl1 by (rewrite (flock_keep m) by outside; apply Fl).
  assert (same_sb m (set_fmod 1 m)) as Hss1 by same_sb_solve.
  assert (forall dv bk, dv <> NODEV -> content s1 dv bk = content s dv bk) as Hct1 by (intros; by eapply fsys_set_content).
  clearbody s1. pose proof (f_data _ _ _ _ _ _ _ _ F1) as Em1.
  rewrite (bind_ret _ _ _ _ _ (wait_flock_ok s1 fp _ Em1 Hfl1)).
  rewrite (bind_ret _ _ _ _ _ (badblock_ok s1 fp dev bno ltac:(rewrite Em1; unfold inrange; by destruct (same_sb_fields _ _ Hss1) as (->&->&_)))).
  cbv iota. krun. rewrite Em1.
  assert (s_nfree (set_fmod 1 m) = s_nfree m) as En1 by (apply nfree_keep; outside). rewrite En1.
  destruct (s_nfree m <=? 0) eqn:E0; cbn [when].
  - rewrite k_bind_bind. krun. unfold modd at 1. unfold modb. krun.
    set (s2 := setb fp _ s1). assert (fsys s A dev fp s2 A Q (set_nfree 1 (set_fmod 1 m))) as F2 by (by apply fsys_set).
    set (s3 := setb fp _ s2). assert (fsys s A dev fp s3 A Q (set_free 0 0 (set_nfree 1 (set_fmod 1 m)))) as F3 by (by apply (fsys_set _ _ _ _ _ _ _ _ (set_free 0 0))).
    set (m3 := set_free 0 0 (set_nfree 1 (set_fmod 1 m))) in *.
    assert (s_nfree m3 = 1) as En3.
    { transitivity (s_nfree (set_nfree 1 (set_fmod 1 m))); [apply nfree_keep; unfold m3; outside|apply nfree_set]. }
    assert (l = []) as ->.
    { destruct (fl_chain _ _ _ _ _ Fl) as [[_ ?]|Hch]; [done|]. fold m in Hch.
      replace (s_nfree m) with 0 in Hch by lia. by apply chain_not_nil in Hch. }
    apply (free_rest_ok s A dev fp bno [] s3 Q m3); try done.
    + intros dv bk Hv. unfold s3. rewrite (fsys_set_content _ _ _ _ _ _ _ _ _ _ _ F2) by done.
      unfold s2. rewrite (fsys_set_content _ _ _ _ _ _ _ _ _ _ _ F1) by done. by apply Hct1.
    + unfold m3. same_sb_solve.
    + rewrite En3. assert (slots m3 1 = [0]) as ->; [|by apply (chain_end _ _ [])].
      change (slots m3 1) with [s_free m3 0]. unfold m3. by rewrite free_set.
  - krun. apply (free_rest_ok s A dev fp bno l s1 Q (set_fmod 1 m)); try done.
    + rewrite En1. lia.
    + rewrite En1, (slots_keep m) by (unfold NICFREE in *; try lia; outside).
      destruct (fl_chain _ _ _ _ _ Fl) as [[? _]|Hch]; [|done]. fold m in H. lia.
Qed.

(** ** Properties *)

(** C22: [alloc] takes the top block off the free list, even when it has to read
    the rest of the list from that block first: it returns it in a buffer of
    zeros that is the caller's, leaves the rest of the list, and changes no
    other block, no other process's buffer and nothing else of the kernel. *)
Theorem alloc_pops s A Q dev fp b l :
  cache s A Q -> A <> [] -> usable dev -> freelist s A dev fp (b :: l) ->
  exists bp s' A', alloc dev s = Ret (Some bp) s' /\ allocated s A dev fp b l bp s' A'.
Proof. apply alloc_spec. Qed.

(** With an empty free list [alloc] gives no buffer and the error ENOSPC;
    the list stays empty and no block changes. *)
Theorem alloc_exhausted s A Q dev fp :
  cache s A Q -> dev <> NODEV -> freelist s A dev fp [] ->
  exists s', alloc dev s = Ret None s' /\ cache s' A Q /\ freelist s' A dev fp [] /\
    (forall dv bk, dv <> NODEV -> content s' dv bk = content s dv bk) /\ same_busy s (fp :: A) s' /\
    others s' = others (setu (fun r => r <| u_error := ENOSPC |>) s).
Proof. apply alloc_none. Qed.

(** C28: [free] puts a block of the file system on top of the free list, even when
    the super block is full and the list has to go out to that block; it changes
    no other block. *)
Theorem free_pushes s A Q dev fp l bno :
  cache s A Q -> A <> [] -> usable dev -> freelist s A dev fp l ->
  inrange (b_data (bufs s fp)) bno -> bno ∉ l -> unheld s A dev bno ->
  exists s' A', free dev bno s = Ret tt s' /\ freed s A dev fp bno l s' A'.
Proof. apply free_spec. Qed.

(** A block that is freed is the next one allocated, and the free list is
    then what it was, even across the boundary where it goes out to the block
    and comes back. *)
Theorem free_then_alloc s A Q dev fp l bno :
  cache s A Q -> A <> [] -> usable dev -> freelist s A dev fp l ->
  inrange (b_data (bufs s fp)) bno -> bno ∉ l -> unheld s A dev bno ->
  exists s1 bp s2 A2, free dev bno s = Ret tt s1 /\ alloc dev s1 = Ret (Some bp) s2 /\
    b_dev (bufs s2 bp) = dev /\ b_blkno (bufs s2 bp) = bno /\ freelist s2 A2 dev fp l /\ bp :: A2 ≡ₚ A /\
    forall dv bk, dv <> NODEV -> ~ (dv = dev /\ bk = bno) -> agree 0 512 (content s2 dv bk) (content s dv bk).
Proof.
  intros Hc HA Us Fl Hr Hbl Hu. destruct (free_spec s A Q dev fp l bno Hc HA Us Fl Hr Hbl Hu) as (s1&A1&E1&[[Q1 Hc1] HP1 Fl1 Hb1 _ _]).
  destruct (alloc_spec s1 A1 Q1 dev fp bno l Hc1) as (bp&s2&A2&E2&[_ HP2 Ed Eb _ Fl2 Hb2 _ _]); [|done..|].
  { intros ->. apply HA. by apply Permutation_nil_l in HP1. }
  exists s1, bp, s2, A2. split_and!; try done; [by rewrite HP2|].
  intros dv bk Hv Hx i Hi. rewrite Hb2 by done. by apply Hb1.
Qed.
End code.

(** ** A concrete file system *)

#[local] Existing Instances ramdisk rounds ramdisk_sync.

(** A super block for 100 blocks, 2 of them for inodes; [n] entries of the free
    list are on hand. *)
Definition super (n : Z) (entry : Z -> Z) : mem :=
  foldr (fun i m => set_free i (entry i) m) (set_nfree n (wr_32 (wr_16 (fun _ => 0) 0 2) 4 100)) (upto n).

(** Device 0, mounted with its super block in the first buffer. *)
Definition mounted (m : mem) : kst :=
  match notavail (BUF 0) booted with
  | Ret _ s => setb (BUF 0) (fun r => r <| b_data ::= fun _ => m |>)
      (setm 0 (fun _ => MkMount 0 (Some (BUF 0)) None) s)
  | _ => booted
  end.
Definition rest : list bptr := tail bufl.

Lemma mounted_cache m :
  cache (mounted m) rest bqueues /\ (forall b, isbuf b -> b_dev (bufs (mounted m) b) = NODEV) /\
  b_data (bufs (mounted m) (BUF 0)) = m /\ getfs_scan (mounted m) 0 = Some (BUF 0) /\ disk (mounted m) = disk blank.
Proof.
  destruct booted_cache as (Hc&Hd&Hk). change bufl with ([] ++ BUF 0 :: rest) in Hc.
  pose proof (av_nodup _ _ (ca_av _ _ _ Hc)) as Hn.
  destruct (notavail_cache booted [] (BUF 0) rest bqueues Hc) as (s'&E&Hc'&_&_&Hid&Hr&_).
  unfold mounted. rewrite E. clear E.
  assert (forall b, isbuf b -> b_dev (bufs s' b) = NODEV) as Hd'.
  { intros b Hb. destruct (ident_fields _ _ (Hid b)) as (_&_&->&_). by apply Hd. }
  rewrite <- (rest_disk _ _ Hr) in Hk. clear Hid Hr Hc Hd. split; [|split; [|split; [|split]]].
  - apply set_data_cache; [by eapply cache_bufs|by exists 0|]. by apply NoDup_cons in Hn as [? _].
  - intros b Hb. keep b_dev. by apply Hd'.
  - by rewrite setb_eq.
  - done.
  - exact Hk.
Qed.

Definition entries (l : list Z) (i : Z) : Z := nth (Z.to_nat i) l 0.
(** Blocks 7 and 5 are free. *)
Definition two_free : kst := mounted (super 3 (entries [0; 5; 7])).
(** No block is free. *)
Definition none_free : kst := mounted (super 1 (entries [0])).
(** The super block is full, with the blocks from 60 down to 12 free. *)
Definition full_free : kst := mounted (super 50 (fun i => if i =? 0 then 0 else i + 11)).

Lemma mounted_freelist m l :
  s_flock m = 0 -> s_ninode m <= NICINOD -> 0 < s_isize m -> 0 <= s_nfree m <= NICFREE ->
  slots m (s_nfree m) = l ++ [0] -> Forall (inrange m) l -> NoDup l -> freelist (mounted m) rest 0 (BUF 0) l.
Proof.
  intros H1 H2 H3 H4 H5 H6 H7. destruct (mounted_cache m) as (Hc&Hn&Hd&Hg&_).
  assert (BUF 0 ∉ rest) as Hr.
  { pose proof (av_nodup _ _ (ca_av _ _ _ (proj1 booted_cache))) as Hnd. by apply (NoDup_cons (BUF 0) rest) in Hnd as [? _]. }
  split; rewrite ?Hd; try assumption.
  - by exists 0.
  - apply Hn. by exists 0.
  - right. rewrite H5. by constructor.
  - intros x Hx _ E. rewrite Hn in E by exact Hx. discriminate E.
Qed.

Lemma in_super m b : (s_isize m <=? b) && (b <? s_fsize m) = true -> inrange m b.
Proof. unfold inrange. lia. Qed.
Lemma two_free_list : freelist two_free rest 0 (BUF 0) [7; 5].
Proof.
  apply mounted_freelist; [vm_compute; (reflexivity || (split; discriminate) || discriminate)..| |].
  - repeat constructor; apply in_super; vm_compute; reflexivity.
  - apply (bool_decide_unpack _). vm_compute. exact I.
Qed.
Lemma full_free_list : freelist full_free rest 0 (BUF 0) (reverse (map (fun i => i + 12) (upto 49))).
Proof.
  apply mounted_freelist; [vm_compute; (reflexivity || (split; discriminate) || discriminate)..| |].
  - apply Forall_forall. intros b Hb%elem_of_reverse%list_elem_of_fmap. destruct Hb as (i&->&Hi%upto_range).
    unfold inrange. change (s_isize _) with 2. change (s_fsize _) with 100. lia.
  - apply (bool_decide_unpack _). vm_compute. exact I.
Qed.

Lemma mounted_unheld m blk : unheld (mounted m) rest 0 blk.
Proof. intros x Hx E. destruct (mounted_cache m) as (_&Hn&_). rewrite Hn in E by exact Hx. discriminate E. Qed.

Lemma alloc_pops_witness :
  exists bp s' A', alloc 0 two_free = Ret (Some bp) s' /\ allocated two_free rest 0 (BUF 0) 7 [5] bp s' A'.
Proof.
  exact (alloc_pops two_free rest bqueues 0 (BUF 0) 7 [5] (proj1 (mounted_cache _)) ltac:(discriminate) usable_0 two_free_list).
Defined.

Lemma alloc_exhausted_witness :
  exists s', alloc 0 none_free = Ret None s' /\ cache s' rest bqueues /\ freelist s' rest 0 (BUF 0) [] /\
    (forall dv bk, dv <> NODEV -> content s' dv bk = content none_free dv bk) /\ same_busy none_free (BUF 0 :: rest) s' /\
    others s' = others (setu (fun r => r <| u_error := ENOSPC |>) none_free).
Proof.
  apply (alloc_exhausted); [apply mounted_cache|discriminate|].
  apply mounted_freelist; [vm_compute; (reflexivity || (split; discriminate) || discriminate)..|constructor|constructor].
Defined.

(** The list goes out to block 70. *)
Lemma free_pushes_witness :
  exists s' A', free 0 70 full_free = Ret tt s' /\
    freed full_free rest 0 (BUF 0) 70 (reverse (map (fun i => i + 12) (upto 49))) s' A'.
Proof.
  apply (free_pushes full_free rest bqueues); [apply mounted_cache|discriminate|apply usable_0|apply full_free_list| | |apply mounted_unheld].
  - destruct (mounted_cache (super 50 (fun i => if i =? 0 then 0 else i + 11))) as (_&_&E&_). unfold full_free. rewrite E.
    apply in_super. vm_compute. reflexivity.
  - intros Hb%elem_of_reverse%list_elem_of_fmap. destruct Hb as (i&E&Hi%upto_range). lia.
Defined.

Lemma free_then_alloc_witness :
  exists s1 bp s2 A2, free 0 70 full_free = Ret tt s1 /\ alloc 0 s1 = Ret (Some bp) s2 /\
    b_dev (bufs s2 bp) = 0 /\ b_blkno (bufs s2 bp) = 70 /\
    freelist s2 A2 0 (BUF 0) (reverse (map (fun i => i + 12) (upto 49))) /\ bp :: A2 ≡ₚ rest /\
    forall dv bk, dv <> NODEV -> ~ (dv = 0 /\ bk = 70) -> agree 0 512 (content s2 dv bk) (content full_free dv bk).
Proof.
  apply (free_then_alloc full_free rest bqueues); [apply mounted_cache|discriminate|apply usable_0|apply full_free_list| | |apply mounted_unheld].
  - destruct (mounted_cache (super 50 (fun i => if i =? 0 then 0 else i + 11))) as (_&_&E&_). unfold full_free. rewrite E.
    apply in_super. vm_compute. reflexivity.
  - intros Hb%elem_of_reverse%list_elem_of_fmap. destruct Hb as (i&E&Hi%upto_range). lia.
Defined.
End Alloc.
