(* ===== verification/Inode.v ===== *)
(** * Inode: the table of inodes in core (src/usr/sys/sys/iget.c, the locks of
    pipe.c, ialloc and update of alloc.c) *)
From S2P Require Import Prelude Kmonad Kernel Bio Alloc.
Import Bio Alloc.

Module Inode.

Section code.
  Context `{DV : Devices} `{FL : Fuel}.

(** ** Locking (pipe.c) *)

Definition plock (ip : Z) : M unit :=
  wait_while fuel (fun s => has (i_flag (inodes s ip)) ILOCK)
    (modi ip (fun r => r <| i_flag ::= fun f => setf f IWANT |>);; sleep (ChInode ip) PINOD);;
  modi ip (fun r => r <| i_flag ::= fun f => setf f ILOCK |>).

Definition prele (ip : Z) : M unit :=
  modi ip (fun r => r <| i_flag ::= fun f => clrf f ILOCK |>);;
  r ← geti ip;
  when (has (i_flag r) IWANT)
    (modi ip (fun r => r <| i_flag ::= fun f => clrf f IWANT |>);;
     wakeup (ChInode ip)).

(** ** Truncation *)

(** [tloop(dev, bn, f1, f2)]: [levels] is [f1; f2], so that the call it makes
    with [(f2, 0)] has the rest of the list. *)
Fixpoint tloop (levels : list bool) (dev bn : Z) {struct levels} : M unit :=
  r ← foldm (rev (upto NINDIR)) (fun i bp =>
    st ← match bp with
         | Some b => mret (Some b)
         | None =>
             b ← bread dev bn;
             r ← getb b;
             if has (b_flags r) B_ERROR then brelse b;; mret None else mret (Some b)
         end;
    match st with
    | None => mret (inr tt)
    | Some b =>
        d ← getd b;
        let nb := rd_s32 d (4 * i) in
        if nb =? 0 then mret (inl (Some b))
        else match levels with
             | true :: levels' => brelse b;; tloop levels' dev nb;; mret (inl None)
             | _ => free dev nb;; mret (inl (Some b))
             end
    end) None;
  match r with
  | inr _ => mret tt
  | inl bp => match bp with Some b => brelse b | None => mret tt end;; free dev bn
  end.

(** The [switch] of [itrunc]: free the block [bn] of address [i]. *)
Definition itrunc_addr (dev i bn : Z) : M unit :=
  if i =? NADDR - 3 then tloop [false; false] dev bn
  else if i =? NADDR - 2 then tloop [true; false] dev bn
  else if i =? NADDR - 1 then tloop [true; true] dev bn
  else free dev bn.

Definition itrunc (ip : Z) : M unit :=
  r ← geti ip;
  let fmt := Z.land (i_mode r) IFMT in
  if negb (fmt =? IFREG) && negb (fmt =? IFDIR) then mret tt
  else
    let dev := i_dev r in
    each (rev (upto NADDR)) (fun i =>
      r ← geti ip;
      let bn := i_addr r i in
      if bn =? 0 then mret tt
      else
        modi ip (fun r => r <| i_addr @ i := 0 |>);;
        itrunc_addr dev i bn);;
    modi ip (fun r => r <| i_size := 0 |>);;
    modi ip (fun r => r <| i_flag ::= fun f => setf f (Z.lor ICHG IUPD) |>).

(** ** Inodes on disk (struct dinode, 64 bytes) *)

(** The 3-byte address [i] of an inode. *)
Definition put_addr (o i v : Z) (m : mem) : mem :=
  wr_8 (wr_8 (wr_8 m (o + 12 + 3 * i) (Z.land v 255))
    (o + 12 + 3 * i + 1) (Z.land (Z.shiftr v 8) 255))
    (o + 12 + 3 * i + 2) (Z.land (Z.shiftr v 16) 255).
Definition get_addr (o i : Z) (m : mem) : Z :=
  Z.lor (Z.lor (m (o + 12 + 3 * i)) (Z.shiftl (m (o + 12 + 3 * i + 1)) 8))
    (Z.shiftl (m (o + 12 + 3 * i + 2)) 16).

(** The assignments of [iupdat] to the fields that do not depend on [i_flag]. *)
Definition put_inode (o : Z) (r : inode) (m : mem) : mem :=
  let m := wr_16 m o (i_mode r) in
  let m := wr_16 m (o + 2) (i_nlink r) in
  let m := wr_16 m (o + 4) (i_uid r) in
  let m := wr_16 m (o + 6) (i_gid r) in
  let m := wr_32 m (o + 8) (i_size r) in
  fold_left (fun m i => put_addr o i (i_addr r i) m) (upto NADDR) m.

(** [ta] and [tm] point to times. *)
Definition iupdat (ip : Z) (ta tm : kst -> Z) : M unit :=
  r ← geti ip;
  if has (i_flag r) (Z.lor IUPD (Z.lor IACC ICHG)) then
    fp ← getfs (i_dev r);
    d ← getd fp;
    if negb (s_ronly d =? 0) then mret tt
    else
      r ← geti ip;
      bp ← bread (i_dev r) (itod (i_number r));
      b ← getb bp;
      if has (b_flags b) B_ERROR then brelse bp
      else
        r ← geti ip;
        let o := 64 * itoo (i_number r) in
        modd bp (put_inode o r);;
        each (upto NADDR) (fun i => when (0xffffff <? i_addr r i) (printf "iaddress > 2^24"));;
        st ← get;
        when (has (i_flag r) IACC) (modd bp (fun m => wr_32 m (o + 52) (ta st)));;
        when (has (i_flag r) IUPD) (modd bp (fun m => wr_32 m (o + 56) (tm st)));;
        when (has (i_flag r) ICHG) (modd bp (fun m => wr_32 m (o + 60) (time st)));;
        modi ip (fun r => r <| i_flag ::= fun f => clrf f (Z.lor IUPD (Z.lor IACC ICHG)) |>);;
        bdwrite bp
  else mret tt.

Definition iexpand (ip : Z) (o : Z) (m : mem) : M unit :=
  modi ip (fun r => r <| i_mode := rd_u16 m o |>);;
  modi ip (fun r => r <| i_nlink := rd_s16 m (o + 2) |>);;
  modi ip (fun r => r <| i_uid := rd_s16 m (o + 4) |>);;
  modi ip (fun r => r <| i_gid := rd_s16 m (o + 6) |>);;
  modi ip (fun r => r <| i_size := rd_s32 m (o + 8) |>);;
  each (upto NADDR) (fun i => modi ip (fun r => r <| i_addr @ i := get_addr o i m |>)).

(** ** References *)

Definition iput (ip : Z) : M unit :=
  r ← geti ip;
  when (i_count r =? 1)
    (modi ip (fun r => r <| i_flag ::= fun f => setf f ILOCK |>);;
     r ← geti ip;
     when (i_nlink r <=? 0)
       (itrunc ip;;
        modi ip (fun r => r <| i_mode := 0 |>);;
        modi ip (fun r => r <| i_flag ::= fun f => setf f (Z.lor IUPD ICHG) |>);;
        r ← geti ip;
        ifree (i_dev r) (i_number r));;
     iupdat ip time time;;
     prele ip;;
     modi ip (fun r => r <| i_flag := 0 |>);;
     modi ip (fun r => r <| i_number := 0 |>));;
  modi ip (fun r => r <| i_count ::= fun c => u8 (c - 1) |>);;
  prele ip.

(** The entry of an inode in the table, and the first free entry. *)
Definition iget_hit (s : kst) (dev ino : Z) : option Z :=
  List.find (fun i => (ino =? i_number (inodes s i)) && (dev =? i_dev (inodes s i))) (upto NINODE).
Definition iget_free (s : kst) : option Z :=
  List.find (fun i => i_count (inodes s i) =? 0) (upto NINODE).

(** The entry [ip] is the one sought: wait, cross a mount point, or take it. *)
Definition iget_found (ip : Z) (c : Z * Z) : M (Z * Z + option Z) :=
  r ← geti ip;
  if has (i_flag r) ILOCK then
    modi ip (fun r => r <| i_flag ::= fun f => setf f IWANT |>);;
    sleep (ChInode ip) PINOD;;
    mret (inl c)
  else if has (i_flag r) IMOUNT then
    mp ← find_first (upto NMOUNT) (fun s i => bool_decide (m_inodp (mounts s i) = Some ip));
    match mp with
    | Some i => dev ← gets (fun s => m_dev (mounts s i)); mret (inl (dev, ROOTINO))
    | None => panic "no imt"
    end
  else
    modi ip (fun r => r <| i_count ::= fun c => u8 (c + 1) |>);;
    modi ip (fun r => r <| i_flag ::= fun f => setf f ILOCK |>);;
    mret (inr (Some ip)).

(** The inode is not in core: read it into the entry [ip]. *)
Definition iget_load (ip dev ino : Z) : M (option Z) :=
  modi ip (fun r => r <| i_dev := dev |>);;
  modi ip (fun r => r <| i_number := ino |>);;
  modi ip (fun r => r <| i_flag := ILOCK |>);;
  modi ip (fun r => r <| i_count ::= fun c => u8 (c + 1) |>);;
  modi ip (fun r => r <| i_lastr := 0 |>);;
  bp ← bread dev (itod ino);
  b ← getb bp;
  if has (b_flags b) B_ERROR then brelse bp;; iput ip;; mret None
  else
    d ← getd bp;
    iexpand ip (64 * itoo ino) d;;
    brelse bp;;
    mret (Some ip).

Definition iget (dev ino : Z) : M (option Z) :=
  iter fuel (fun '(dev, ino) =>
    st ← get;
    match iget_hit st dev ino with
    | Some ip => iget_found ip (dev, ino)
    | None =>
        match iget_free st with
        | None =>
            printf "Inode table overflow";;
            err ENFILE;;
            mret (inr None)
        | Some ip => r ← iget_load ip dev ino; mret (inr r)
        end
    end) (dev, ino).

(** ** Allocation of inodes (alloc.c) *)

(** The inodes of one block of the i-list that are free, from number [ino]. *)
Definition ialloc_block (fp bp : bptr) (dev ino : Z) : M Z :=
  r ← foldm (upto INOPB) (fun i ino =>
    m ← getd bp;
    st ← get;
    if negb (rd_u16 m (64 * i) =? 0)
       || existsb (fun ip => (dev =? i_dev (inodes st ip)) && (ino =? i_number (inodes st ip))) (upto NINODE)
    then mret (inl (u16 (ino + 1)))
    else
      d ← getd fp;
      modd fp (set_ninode (s_ninode d + 1));;
      modd fp (set_inode (s_ninode d) ino);;
      d ← getd fp;
      mret (if NICINOD <=? s_ninode d then inr ino else inl (u16 (ino + 1)))) ino;
  mret (match r with inl ino => ino | inr ino => ino end).

(** The search of the i-list for free inodes. *)
Definition ialloc_fill (fp : bptr) (dev : Z) : M unit :=
  iter fuel (fun '(adr, ino) =>
    d ← getd fp;
    if negb (adr <? s_isize d) then mret (inr tt)
    else
      bp ← bread dev adr;
      b ← getb bp;
      if has (b_flags b) B_ERROR then brelse bp;; mret (inl (adr + 1, u16 (ino + INOPB)))
      else
        ino ← ialloc_block fp bp dev ino;
        brelse bp;;
        d ← getd fp;
        mret (if NICINOD <=? s_ninode d then inr tt else inl (adr + 1, ino))) (SUPERB + 1, 1).

(** A number of the super block's list: [None] when the inode was in use after all. *)
Definition ialloc_take (fp : bptr) (dev : Z) : M (unit + option Z) :=
  d ← getd fp;
  modd fp (set_ninode (s_ninode d - 1));;
  d ← getd fp;
  let ino := s_inode d (s_ninode d) in
  if ino <? ROOTINO then mret (inl tt)
  else
    ip ← iget dev ino;
    match ip with
    | None => mret (inr None)
    | Some ip =>
        r ← geti ip;
        if i_mode r =? 0 then
          each (upto NADDR) (fun i => modi ip (fun r => r <| i_addr @ i := 0 |>));;
          modd fp (set_fmod 1);;
          mret (inr (Some ip))
        else iput ip;; mret (inl tt)
    end.

Definition ialloc (dev : Z) : M (option Z) :=
  fp ← getfs dev;
  wait_while fuel (fun s => negb (s_ilock (b_data (bufs s fp)) =? 0)) (sleep (ChIlock fp) PINOD);;
  iter fuel (fun _ =>
    d ← getd fp;
    if 0 <? s_ninode d then ialloc_take fp dev
    else
      modd fp (fun m => set_ilock (s_ilock m + 1) m);;
      ialloc_fill fp dev;;
      modd fp (set_ilock 0);;
      wakeup (ChIlock fp);;
      d ← getd fp;
      if 0 <? s_ninode d then mret (inl tt)
      else
        prdev "Out of inodes" dev;;
        err ENOSPC;;
        mret (inr None)) tt.

(** ** sync (alloc.c) *)

(** The super block of mount table entry [i], if it is to be written. *)
Definition update_super (i : Z) : M unit :=
  mp ← gets (fun s => mounts s i);
  match m_bufp mp with
  | None => mret tt
  | Some fp =>
      d ← getd fp;
      if (s_fmod d =? 0) || negb (s_ilock d =? 0) || negb (s_flock d =? 0) || negb (s_ronly d =? 0) then mret tt
      else
        bp ← getblk (m_dev mp) SUPERB;
        b ← getb bp;
        if has (b_flags b) B_ERROR then mret tt
        else
          modd fp (set_fmod 0);;
          t ← gets time;
          modd fp (set_time t);;
          d ← getd fp;
          modd bp (fun m => mcopy d 0 m 0 BSIZE);;
          bwrite bp
  end.

Definition update_inode (ip : Z) : M unit :=
  r ← geti ip;
  if negb (has (i_flag r) ILOCK) && negb (i_count r =? 0) then
    modi ip (fun r => r <| i_flag ::= fun f => setf f ILOCK |>);;
    modi ip (fun r => r <| i_count ::= fun c => u8 (c + 1) |>);;
    iupdat ip time time;;
    iput ip
  else mret tt.

Definition update : M unit :=
  l ← gets updlock;
  if negb (l =? 0) then mret tt
  else
    modify (fun s => s <| updlock ::= Z.succ |>);;
    each (upto NMOUNT) update_super;;
    each (upto NINODE) update_inode;;
    modify (fun s => s <| updlock := 0 |>);;
    bflush NODEV.

(** ** The inode on disk *)

Lemma rd_wr_16_ne m a b v : b + 2 <= a \/ a + 2 <= b -> rd_u16 (wr_16 m a v) b = rd_u16 m b.
Proof. intros. apply rd_u16_agree, agree_wr_16. lia. Qed.
Lemma rd_wr_32_ne m a b v : b + 2 <= a \/ a + 4 <= b -> rd_u16 (wr_32 m a v) b = rd_u16 m b.
Proof. intros. apply rd_u16_agree, agree_wr_32. lia. Qed.

Lemma byte_bits v k j : 0 <= k -> Z.testbit (u8 (Z.land (Z.shiftr v k) 255)) j = bool_decide (0 <= j < 8) && Z.testbit v (j + k).
Proof.
  intros Hk. destruct (Z.lt_ge_cases j 0); [rewrite Z.testbit_neg_r, bool_decide_eq_false_2 by lia; done|].
  unfold wrap_u. change 255 with (Z.ones 8). rewrite Z.land_ones, Z.mod_mod by lia.
  destruct (Z.lt_ge_cases j 8).
  - rewrite Z.mod_pow2_bits_low, Z.shiftr_spec, bool_decide_eq_true_2 by lia. done.
  - rewrite Z.mod_pow2_bits_high, bool_decide_eq_false_2 by lia. done.
Qed.

Lemma get_put_addr o i v m : get_addr o i (put_addr o i v m) = v mod 2 ^ 24.
Proof.
  unfold get_addr, put_addr. set (a := o + 12 + 3 * i).
  rewrite (wr_8_ne _ (a + 2) a), (wr_8_ne _ (a + 1) a), (wr_8_ne _ (a + 2) (a + 1)), !wr_8_eq by lia.
  rewrite <- (Z.shiftr_0_r v) at 1. apply Z.bits_inj'. intros j Hj.
  rewrite !Z.lor_spec, byte_bits, !Z.shiftl_spec, !byte_bits by lia.
  replace (j - 8 + 8) with j by lia. replace (j - 16 + 16) with j by lia. rewrite Z.add_0_r.
  destruct (Z.lt_ge_cases j 24).
  - rewrite Z.mod_pow2_bits_low by lia. destruct (Z.testbit v j); [|by rewrite !andb_false_r]. rewrite !andb_true_r.
    repeat (case_bool_decide; try done). lia.
  - rewrite Z.mod_pow2_bits_high by lia. rewrite !bool_decide_eq_false_2 by lia. done.
Qed.
Lemma get_put_other o i j v m : i <> j -> get_addr o j (put_addr o i v m) = get_addr o j m.
Proof. intros. unfold get_addr, put_addr. by rewrite !wr_8_ne by lia. Qed.
Lemma put_addr_ne o i v m a : a < o + 12 + 3 * i \/ o + 15 + 3 * i <= a -> put_addr o i v m a = m a.
Proof. intros. unfold put_addr. by rewrite !wr_8_ne by lia. Qed.

Lemma get_fold o f l m j :
  get_addr o j (fold_left (fun m i => put_addr o i (f i) m) l m) = if decide (j ∈ l) then f j mod 2 ^ 24 else get_addr o j m.
Proof.
  revert m. induction l as [|i l IH]; intros m; [done|]. cbn [fold_left]. rewrite IH.
  destruct (decide (j ∈ l)) as [Hj|Hj]; [by rewrite decide_True by mem|].
  destruct (decide (i = j)) as [->|Hij].
  - by rewrite get_put_addr, decide_True by mem.
  - rewrite get_put_other by done. rewrite decide_False; [done|]. mem.
Qed.
Lemma fold_put_ne o f n m a : a < o + 12 \/ o + 12 + 3 * n <= a -> 
  fold_left (fun m i => put_addr o i (f i) m) (upto n) m a = m a.
Proof.
  intros Ha. assert (forall i, i ∈ upto n -> 0 <= i < n) as Hr by (intros; by apply upto_range).
  revert m. induction (upto n) as [|i l IH]; intros m; [done|]. cbn [fold_left].
  rewrite IH by (intros j Hj; apply Hr; mem). apply put_addr_ne. specialize (Hr i ltac:(mem)). lia.
Qed.

(** The inode that [iexpand] makes of the bytes [m] at [o]. *)
Lemma iexpand_ok ip o m s :
  exists s', iexpand ip o m s = Ret tt s' /\
    inodes s' ip = (inodes s ip) <| i_mode := rd_u16 m o |> <| i_nlink := rd_s16 m (o + 2) |> <| i_uid := rd_s16 m (o + 4) |>
      <| i_gid := rd_s16 m (o + 6) |> <| i_size := rd_s32 m (o + 8) |> <| i_addr := i_addr (inodes s' ip) |> /\
    (forall i, 0 <= i < NADDR -> i_addr (inodes s' ip) i = get_addr o i m) /\
    (forall j, j <> ip -> inodes s' j = inodes s j) /\ s' <| inodes := inodes s |> = s.
Proof.
  unfold iexpand. krun. set (s1 := seti ip _ _).
  assert (inodes s1 ip = (inodes s ip) <| i_mode := rd_u16 m o |> <| i_nlink := rd_s16 m (o + 2) |> <| i_uid := rd_s16 m (o + 4) |>
      <| i_gid := rd_s16 m (o + 6) |> <| i_size := rd_s32 m (o + 8) |>) as E1.
  { unfold s1, seti. cbn. by rewrite !fn_eq. }
  assert (forall j, j <> ip -> inodes s1 j = inodes s j) as E2.
  { intros j Hj. unfold s1, seti. cbn. by rewrite !fn_ne by done. }
  assert (s1 <| inodes := inodes s |> = s) as E3 by (by destruct s).
  clearbody s1.
  destruct (each_ret (fun l s' => inodes s' ip = (inodes s1 ip) <| i_addr := i_addr (inodes s' ip) |> /\
      (forall i, i ∈ l -> i_addr (inodes s' ip) i = get_addr o i m) /\
      (forall j, j <> ip -> inodes s' j = inodes s1 j) /\ s' <| inodes := inodes s1 |> = s1)
    (fun i => modi ip (fun r => r <| i_addr @ i := get_addr o i m |>)) (upto NADDR) s1) as (s'&E&H1&H2&H3&H4).
  - intros l1 x l2 s0 El (H1&H2&H3&H4). eexists. split; [reflexivity|]. unfold seti. cbn. rewrite fn_eq. cbn.
    split; [rewrite H1; by destruct (inodes s1 ip)|]. split; [|split].
    + intros i [Hi| ->%list_elem_of_singleton]%elem_of_app; [|apply fn_eq].
      rewrite fn_ne; [by apply H2|]. intros ->. pose proof (NoDup_fmap_2 Z.of_nat _ (NoDup_seq 0 (Z.to_nat NADDR))) as Hn.
      change (NoDup (upto NADDR)) in Hn. rewrite El in Hn. apply NoDup_app in Hn as (_&Hn&_). apply (Hn i Hi). mem.
    + intros j Hj. rewrite fn_ne by done. by apply H3.
    + rewrite <- H4. by destruct s0.
  - split; [by destruct (inodes s1 ip)|]. split; [intros i Hi; by apply elem_of_nil in Hi|]. by destruct s1.
  - exists s'. split; [done|]. split; [rewrite H1 at 1; by rewrite E1|]. split; [|split].
    + intros i Hi. by apply H2, upto_range.
    + intros j Hj. by rewrite H3, E2.
    + rewrite <- E3, <- H4. by destruct s'.
Qed.

(** ** Properties *)

(** C32: What [iupdat] writes of an inode into its block, [iexpand] reads back:
    the mode, the links, the owner, the size and the 13 addresses, each modulo
    the width of its field on disk (24 bits for an address).  The block's other
    inodes and the times are left alone. *)
Theorem inode_roundtrip ip o r m s :
  exists s', iexpand ip o (put_inode o r m) s = Ret tt s' /\
    (let r' := inodes s' ip in
     i_mode r' = u16 (i_mode r) /\ i_nlink r' = s16 (i_nlink r) /\ i_uid r' = s16 (i_uid r) /\ i_gid r' = s16 (i_gid r) /\
     i_size r' = s32 (i_size r) /\ forall i, 0 <= i < NADDR -> i_addr r' i = i_addr r i mod 2 ^ 24) /\
    (forall j, j <> ip -> inodes s' j = inodes s j) /\
    forall a, a < o \/ o + 51 <= a -> put_inode o r m a = m a.
Proof.
  destruct (iexpand_ok ip o (put_inode o r m) s) as (s'&E&H1&H2&H3&_). exists s'. split; [done|]. split; [|split; [done|]].
  - unfold put_inode in *. set (m1 := wr_32 _ _ _) in *. set (m2 := fold_left _ _ _) in *.
    assert (forall a n, n + a <= o + 12 -> agree a n m2 m1) as Ha by (intros a n Hn i Hi; apply fold_put_ne; lia).
    cbv zeta. rewrite H1. cbn. unfold rd_s16, rd_s32.
    rewrite (rd_u16_agree m2 m1 o), (rd_u16_agree m2 m1 (o + 2)), (rd_u16_agree m2 m1 (o + 4)), (rd_u16_agree m2 m1 (o + 6)),
      (rd_u32_agree m2 m1 (o + 8)) by (apply Ha; lia).
    unfold m1.
    split_and!; repeat (rewrite ?rd_wr_32_ne, ?rd_wr_16_ne, ?rd_wr_32_eq, ?rd_wr_16_eq, ?wrap_s_u by lia); try done.
    intros i Hi. rewrite H2 by done. unfold m2. rewrite get_fold, decide_True by (by apply upto_range). done.
  - intros a Ha. unfold put_inode. rewrite fold_put_ne by (unfold NADDR; lia).
    repeat (rewrite ?wr_32_ne, ?wr_16_ne by lia). done.
Qed.
End code.
End Inode.
