(* ===== verification/Itab.v ===== *)
(** * Itab: the inode table under interleaving

    What keeps the inode table consistent while processes take turns: each entry
    in use is for a different inode.  The operations of [Inode] and all they call
    keep this, also at every point where they give up the processor, if the
    other processes do. *)
From Stdlib Require Import FunctionalExtensionality.
From S2P Require Import Prelude Kmonad Kernel Bio Quiet Alloc Inode.
Import Bio Quiet Alloc Inode.

Module Itab.

(** No two entries are for the same inode, and an entry without references is
    for none. *)
Record consistent (a : Z -> inode) : Prop := {
  it_one : forall i j, 0 <= i < NINODE -> 0 <= j < NINODE -> i_number (a i) <> 0 ->
    i_dev (a i) = i_dev (a j) -> i_number (a i) = i_number (a j) -> i = j;
  it_free : forall i, 0 <= i < NINODE -> i_count (a i) = 0 -> i_number (a i) = 0;
  it_count : forall i, 0 <= i < NINODE -> 0 <= i_count (a i) < 256
}.
Definition itab (s : kst) : Prop := consistent (inodes s).

(** No inode has all the references its 8-bit count can hold. *)
Definition uncrowded (s : kst) : Prop := forall i, 0 <= i < NINODE -> i_count (inodes s i) < 255.

(** Other processes run between a process's steps; they keep the table, and do
    not make more references than a count holds. *)
Definition inter : proto lbl kst :=
  Proto (fun _ => itab) (fun _ s' => itab s' /\ uncrowded s') True True True.

Abbreviation keeps := (pres inter itab).

(** Drivers do not touch the inode table. *)
Class QuietDriver `{DV : Devices} : Prop := {
  strategy_keeps : forall maj bp, keeps (d_strategy maj bp);
  mapfree_keeps : forall bp, keeps (mapfree bp)
}.

Section code.
  Context `{DV : Devices} `{FL : Fuel} `{QD : !QuietDriver}.

(** A change that leaves the identity and the count of every entry alone. *)
Lemma itab_same s s' : itab s ->
  (forall i, i_dev (inodes s' i) = i_dev (inodes s i) /\ i_number (inodes s' i) = i_number (inodes s i) /\
     i_count (inodes s' i) = i_count (inodes s i)) -> itab s'.
Proof.
  intros [H1 H2 H3] H. split; intros i; destruct (H i) as (Ed&En&Ec); rewrite ?Ed, ?En, ?Ec; auto.
  intros j. destruct (H j) as (->&->&_). auto.
Qed.

Lemma seti_keeps ip f :
  (forall r, i_dev (f r) = i_dev r /\ i_number (f r) = i_number r /\ i_count (f r) = i_count r) -> keeps (modi ip f).
Proof.
  intros Hf. apply pres_modify. intros s Hs. apply (itab_same s); [done|]. intros i. cbn. rewrite fn_case.
  case_decide; subst; [apply Hf|done].
Qed.

#[local] Instance itab_quiet : Quiet inter itab.
Proof.
  split; try exact I; try done.
  - by intros s s' [].
  - intros s s' _ Ei. unfold itab. by rewrite Ei.
  - apply strategy_keeps.
  - apply mapfree_keeps.
Qed.
#[local] Hint Extern 1 (pres _ _ (modi _ _)) => (apply seti_keeps; intros ?; split_and!; reflexivity) : pres.

(** ** Blocks and inodes of a file system *)

Lemma getfs_keeps dev : keeps (getfs dev).
Proof. unfold getfs. pres_tac. Qed.
Lemma badblock_keeps fp bn dev : keeps (badblock fp bn dev).
Proof. unfold badblock. pres_tac. Qed.
Lemma wait_flock_keeps fp : keeps (wait_flock fp).
Proof. apply wait_while_quiet, sleep_quiet. Qed.
#[local] Hint Resolve getfs_keeps badblock_keeps wait_flock_keeps : pres.
Lemma free_keeps dev bno : keeps (free dev bno).
Proof. unfold free, free_spill. pres_tac. Qed.
Lemma ifree_keeps dev ino : keeps (ifree dev ino).
Proof. unfold ifree. pres_tac. Qed.
#[local] Hint Resolve free_keeps ifree_keeps : pres.

Lemma prele_keeps ip : keeps (prele ip).
Proof. unfold prele. pres_tac. Qed.
Lemma plock_keeps ip : keeps (plock ip).
Proof. unfold plock. pres_tac. Qed.
Lemma tloop_keeps levels dev bn : keeps (tloop levels dev bn).
Proof. revert bn. induction levels as [|[] levels IH]; intros bn; cbn [tloop]; pres_tac; apply IH. Qed.
#[local] Hint Resolve prele_keeps tloop_keeps : pres.
Lemma itrunc_keeps ip : keeps (itrunc ip).
Proof. unfold itrunc, itrunc_addr. pres_tac. Qed.
Lemma iupdat_keeps ip ta tm : keeps (iupdat ip ta tm).
Proof. unfold iupdat. pres_tac. Qed.
#[local] Hint Resolve itrunc_keeps iupdat_keeps : pres.

(** ** References *)

(** Giving up a reference: an entry whose count was 1 has no number by then. *)
Lemma itab_drop s ip f : itab s -> 0 <= ip < NINODE -> f = (fun r => r <| i_count ::= fun c => u8 (c - 1) |>) ->
  (i_count (inodes s ip) = 1 -> i_number (inodes s ip) = 0) -> itab (seti ip f s).
Proof.
  intros [H1 H2 H3] Hip -> Hn.
  assert (forall i, i_dev (inodes (seti ip (fun r => r <| i_count ::= fun c => u8 (c - 1) |>) s) i) = i_dev (inodes s i) /\
    i_number (inodes (seti ip (fun r => r <| i_count ::= fun c => u8 (c - 1) |>) s) i) = i_number (inodes s i)) as Hi.
  { intros i. rewrite seti_inodes. case_decide; subst; done. }
  split.
  - intros i j. destruct (Hi i) as [-> ->], (Hi j) as [-> ->]. apply H1.
  - intros i Hr. destruct (Hi i) as [_ ->]. rewrite seti_inodes. case_decide as E; [subst i|by apply H2].
    cbn. specialize (H3 ip Hip). intros Hc. apply Hn. unfold wrap_u in Hc. Z.div_mod_to_equations. lia.
  - intros i Hr. rewrite seti_inodes. case_decide as E; [|by apply H3]. cbn. apply u8_range.
Qed.

Lemma itab_number_0 s ip : itab s -> itab (seti ip (fun r => r <| i_number := 0 |>) s).
Proof.
  intros [H1 H2 H3]. split; intros i; rewrite ?seti_inodes.
  - intros j Hi Hj. rewrite !seti_inodes. destruct (decide (ip = i)) as [->|]; [done|].
    destruct (decide (ip = j)) as [->|]; [cbn; intros ? _ ?; congruence|by apply H1].
  - case_decide; subst; [done|]. apply H2.
  - case_decide; subst; apply H3.
Qed.

Lemma wp_keeps_bind {A B} (m : M A) (k : A -> M B) Q s :
  keeps m -> itab s -> (forall a s', itab s' -> wp inter (k a) Q s') -> wp inter (m ≫= k) Q s.
Proof. intros Hm Hs Hk. apply wp_bind. eapply wp_mono; [by apply Hm|]. exact Hk. Qed.

Lemma iput_keeps ip : 0 <= ip < NINODE -> keeps (iput ip).
Proof.
  intros Hip. unfold iput. intros s Hs. apply wp_bind. cbn [geti gets wp owp].
  apply wp_bind, (wp_mono _ _ (fun _ s' => itab s' /\ (i_count (inodes s' ip) = 1 -> i_number (inodes s' ip) = 0))).
  - apply wp_when; intros Hc; [clear Hc|split; [done|lia]].
    do 6 (eapply wp_keeps_bind; [|exact Hs|clear s Hs; intros ? s Hs; cbv beta]; [pres_tac|]).
    split; [by apply itab_number_0|]. intros _. cbn. by rewrite fn_eq.
  - intros _ s' [Hs' Hn]. apply wp_bind. cbn [modi modify wp owp]. apply prele_keeps. by eapply itab_drop.
Qed.

Lemma iget_hit_spec s dev ino :
  match iget_hit s dev ino with
  | Some ip => 0 <= ip < NINODE /\ i_number (inodes s ip) = ino /\ i_dev (inodes s ip) = dev
  | None => forall i, 0 <= i < NINODE -> ~ (i_number (inodes s i) = ino /\ i_dev (inodes s i) = dev)
  end.
Proof.
  unfold iget_hit. destruct (List.find _ _) as [ip|] eqn:E.
  - apply List.find_some in E as [Hi [H1 H2]%andb_true_iff]. apply list_elem_of_In, upto_range in Hi. lia.
  - intros i Hi [H1 H2]. apply upto_range, list_elem_of_In in Hi. apply (List.find_none _ _ E) in Hi. lia.
Qed.
Lemma iget_free_spec s ip : iget_free s = Some ip -> 0 <= ip < NINODE /\ i_count (inodes s ip) = 0.
Proof. intros E. apply List.find_some in E as [Hi Hc]. apply list_elem_of_In, upto_range in Hi. lia. Qed.

(** One more reference. *)
Lemma itab_take s ip g : itab s -> 0 <= ip < NINODE -> i_count (inodes s ip) < 255 ->
  (forall r, i_dev (g r) = i_dev r /\ i_number (g r) = i_number r /\ i_count (g r) = u8 (i_count r + 1)) -> itab (seti ip g s).
Proof.
  intros [H1 H2 H3] Hip Hc Hg.
  assert (forall i, i_dev (inodes (seti ip g s) i) = i_dev (inodes s i) /\ i_number (inodes (seti ip g s) i) = i_number (inodes s i)) as Hi.
  { intros i. rewrite seti_inodes. case_decide; subst; [split; apply Hg|done]. }
  split.
  - intros i j. destruct (Hi i) as [-> ->], (Hi j) as [-> ->]. apply H1.
  - intros i Hr. destruct (Hi i) as [_ ->]. rewrite seti_inodes. case_decide as E; [subst i|by apply H2].
    destruct (Hg (inodes s ip)) as (_&_&->). specialize (H3 ip Hip). rewrite u8_id by lia. lia.
  - intros i Hr. rewrite seti_inodes. case_decide as E; [|by apply H3]. destruct (Hg (inodes s ip)) as (_&_&->). apply u8_range.
Qed.

(** A free entry is given to an inode that has none. *)
Lemma itab_assign s ip dev ino g : itab s -> 0 <= ip < NINODE -> i_count (inodes s ip) = 0 ->
  (forall i, 0 <= i < NINODE -> ~ (i_number (inodes s i) = ino /\ i_dev (inodes s i) = dev)) ->
  i_dev (g (inodes s ip)) = dev -> i_number (g (inodes s ip)) = ino -> i_count (g (inodes s ip)) = 1 -> itab (seti ip g s).
Proof.
  intros [H1 H2 H3] Hip Hc Hno Hd Hn H1c. split.
  - intros i j Hi Hj. rewrite !seti_inodes. destruct (decide (ip = i)) as [E|], (decide (ip = j)) as [E'|]; [congruence|..|by apply H1].
    + rewrite Hd, Hn. intros _ E1 E2. exfalso. apply (Hno j Hj). done.
    + rewrite Hd, Hn. intros _ E1 E2. exfalso. apply (Hno i Hi). done.
  - intros i Hi. rewrite seti_inodes. case_decide; [lia|by apply H2].
  - intros i Hi. rewrite seti_inodes. case_decide; [lia|by apply H3].
Qed.

Lemma iexpand_keeps ip o m : keeps (iexpand ip o m).
Proof. unfold iexpand. pres_tac. Qed.
#[local] Hint Resolve iexpand_keeps : pres.

Lemma iget_load_keeps ip dev ino s : itab s -> 0 <= ip < NINODE -> i_count (inodes s ip) = 0 ->
  (forall i, 0 <= i < NINODE -> ~ (i_number (inodes s i) = ino /\ i_dev (inodes s i) = dev)) ->
  wp inter (iget_load ip dev ino) (fun r s' => itab s' /\ (r = None \/ r = Some ip)) s.
Proof.
  intros Hs Hip Hc Hno. unfold iget_load.
  set (s1 := seti ip (fun r => r <| i_count ::= fun c => u8 (c + 1) |>) (seti ip (fun r => r <| i_flag := ILOCK |>)
    (seti ip (fun r => r <| i_number := ino |>) (seti ip (fun r => r <| i_dev := dev |>) s)))).
  assert (itab s1) as Hs1.
  { set (g := fun r : inode => r <| i_dev := dev |> <| i_number := ino |> <| i_flag := ILOCK |> <| i_count ::= fun c => u8 (c + 1) |>).
    assert (itab (seti ip g s)) as G by (apply (itab_assign s ip dev ino); try done; cbn; by rewrite Hc).
    unfold itab in *. replace (inodes s1) with (inodes (seti ip g s)); [done|]. unfold s1, seti, g. cbn.
    rewrite !fn_eq. apply functional_extensionality. intros i. rewrite !fn_case. by case_decide. }
  do 4 (apply wp_bind; cbn [modi modify wp owp]). fold s1. clearbody s1. clear Hs Hc Hno.
  eapply wp_keeps_bind; [pres_tac|exact Hs1|clear s1 Hs1; intros bp s1 Hs1].
  eapply wp_keeps_bind; [pres_tac|exact Hs1|clear s1 Hs1; intros b s1 Hs1].
  apply wp_if; intros _.
  - eapply wp_keeps_bind; [pres_tac|exact Hs1|clear s1 Hs1; intros ? s1 Hs1].
    eapply wp_keeps_bind; [apply (iput_keeps ip Hip)|exact Hs1|clear s1 Hs1; intros ? s1 Hs1]. cbn. auto.
  - do 3 (eapply wp_keeps_bind; [pres_tac|exact Hs1|clear s1 Hs1; intros ? s1 Hs1]). cbn. auto.
Qed.

Lemma iget_keeps dev ino s : ino <> 0 -> itab s -> uncrowded s ->
  wp inter (iget dev ino) (fun r s' => itab s' /\ match r with Some ip => 0 <= ip < NINODE | None => True end) s.
Proof.
  intros Hino Hs Hu. unfold iget.
  apply (wp_iter_partial _ (fun (c : Z * Z) s => c.2 <> 0 /\ itab s /\ uncrowded s)); [exact I| |done].
  clear s Hs Hu Hino dev ino. intros [dev ino] s (Hino&Hs&Hu). cbn [snd] in *. apply wp_bind, wp_get.
  pose proof (iget_hit_spec s dev ino) as Hh. destruct (iget_hit s dev ino) as [ip|].
  - destruct Hh as (Hip&_&_). unfold iget_found. apply wp_bind. cbn [geti gets wp owp].
    apply wp_if; intros Hl; [|apply wp_if; intros Hm].
    + apply wp_bind. cbn [modi modify wp owp]. set (s1 := seti ip _ s).
      assert (itab s1) as Hs1.
      { apply (itab_same s); [done|]. intros i. unfold s1. rewrite seti_inodes. by case_decide; subst. }
      clearbody s1. unfold sleep. apply wp_bind, wp_bind, wp_block; [done|]. intros s2 [Hs2 Hu2]. cbn.
      by destruct (signalled s2).
    + apply wp_bind. cbn [find_first gets wp owp]. destruct (List.find _ _) as [i|]; [|exact I]. cbn. done.
    + cbn [modi modify wp owp mbind K_bind obind mret K_ret]. split; [|done].
      apply (itab_same (seti ip (fun r => r <| i_count ::= fun c => u8 (c + 1) |>) s)).
      * apply itab_take; [done|done|by apply Hu|done].
      * intros i. rewrite !seti_inodes. by repeat case_decide; subst.
  - destruct (iget_free s) as [ip|] eqn:Ef.
    + apply iget_free_spec in Ef as [Hip Hc]. apply wp_bind. eapply wp_mono; [by apply iget_load_keeps|].
      intros r s' [Hs' [-> | ->]]; done.
    + cbn. done.
Qed.

(** ** Properties *)

(** C21: [iget] and [iput] keep the inode table consistent, errors and mount points
    included: no two entries for one inode, no reference count of zero on an
    entry that is for one.  It holds at every point where the process sleeps, if
    the others keep it too and no inode is given 255 references. *)
Theorem inode_table_unique dev ino ip s : itab s ->
  (0 <= ip < NINODE -> wp inter (iput ip) (fun _ => itab) s) /\
  (ino <> 0 -> uncrowded s ->
     wp inter (iget dev ino) (fun r s' => itab s' /\ match r with Some ip => 0 <= ip < NINODE | None => True end) s).
Proof. intros Hs. split; intros; [by apply iput_keeps|by apply iget_keeps]. Qed.

(** The reference count is one byte: the 256th reference to an inode makes it
    0, and the entry, in use by 255 others, is the next one [iget] gives to
    another inode if those before it are taken. *)
Theorem iget_count_wraps s ip dev ino :
  iget_hit s dev ino = Some ip -> has (i_flag (inodes s ip)) ILOCK = false -> has (i_flag (inodes s ip)) IMOUNT = false ->
  i_count (inodes s ip) = 255 -> (forall i, 0 <= i < ip -> i_count (inodes s i) <> 0) -> (0 < fuel)%nat ->
  exists s', iget dev ino s = Ret (Some ip) s' /\ i_count (inodes s' ip) = 0 /\ iget_free s' = Some ip.
Proof.
  intros Hh Hl Hm Hc Hb Hf. pose proof (iget_hit_spec s dev ino) as Hspec. rewrite Hh in Hspec. destruct Hspec as (Hip&_).
  set (s' := seti ip (fun r => r <| i_flag ::= fun f => setf f ILOCK |>) (seti ip (fun r => r <| i_count ::= fun c => u8 (c + 1) |>) s)).
  assert (i_count (inodes s' ip) = 0) as Hz by (unfold s'; rewrite !seti_inodes, !decide_True by done; cbn; by rewrite Hc).
  exists s'. split; [|split; [done|]].
  - unfold iget. destruct fuel as [|n]; [lia|]. apply k_iter_inr. krun. rewrite Hh. unfold iget_found. krun.
    by rewrite Hl, Hm.
  - unfold iget_free. apply find_upto. split; [done|]. split; [by rewrite Hz|].
    intros j Hj. unfold s'. rewrite !seti_inodes, !decide_False by lia. specialize (Hb j Hj). lia.
Qed.
End code.

(** ** A concrete machine *)

#[local] Existing Instances ramdisk rounds ramdisk_sync.

Definition idle : Devices := ramdisk_with (fun _ _ => mret tt).
Lemma idle_quiet : QuietDriver (DV := idle).
Proof. split; intros; apply pres_ret. Qed.
Lemma ramdisk_quiet : QuietDriver.
Proof.
  split; [|intros bp; apply pres_ret]. intros maj bp s Hs.
  assert (itab (transfer bp s)) as Ht by (unfold transfer; by destruct (has _ _)).
  exact (iodone_quiet (QJ := itab_quiet (QD := idle_quiet)) bp _ Ht).
Qed.

Lemma booted_itab : itab booted /\ uncrowded booted.
Proof.
  assert (forall i, inodes booted i = zinode) as E by (intros i; vm_compute; reflexivity).
  revert E. generalize booted. intros s E. split; [split|].
  - intros i j _ _ H. rewrite E in H. exfalso. exact (H eq_refl).
  - intros i _ _. rewrite E. reflexivity.
  - intros i _. rewrite E. split; reflexivity || discriminate.
  - intros i _. rewrite E. reflexivity.
Qed.

Lemma inode_table_unique_witness :
  (0 <= 3 < NINODE -> wp inter (iput 3) (fun _ => itab) booted) /\
  (ROOTINO <> 0 -> uncrowded booted ->
     wp inter (iget 0 ROOTINO) (fun r s' => itab s' /\ match r with Some ip => 0 <= ip < NINODE | None => True end) booted).
Proof. apply (inode_table_unique (QD := ramdisk_quiet)). apply booted_itab. Defined.

Lemma iget_count_wraps_witness :
  exists s', iget 0 2 (seti 0 (fun r => r <| i_number := 2 |> <| i_count := 255 |>) blank) = Ret (Some 0) s' /\
    i_count (inodes s' 0) = 0 /\ iget_free s' = Some 0.
Proof. apply iget_count_wraps; [vm_compute; reflexivity..|intros i Hi; lia|vm_compute; lia]. Defined.
End Itab.
