(* ===== verification/Rdwri.v ===== *)
(** * Rdwri: reading and writing files (src/usr/sys/sys/subr.c, rdwri.c)

    The memory of the process is [umem]; [u_segflg] 1 says that [u_base] is an
    address of the kernel, in [kmem].  An access outside the process is a fault
    that does not return to this code (arm1176jzfs.s), so the calls that fetch
    and store user bytes always succeed. *)
From Stdlib Require Import FunctionalExtensionality.
From S2P Require Import Prelude Kmonad Kernel Bio Ahead Alloc.
Import Bio Ahead Alloc.

Module Rdwri.

Section code.
  Context `{DV : Devices} `{FL : Fuel}.

(** ** User memory (arm1176jzfs.s, bcm283x_machdep.c) *)

Definition fubyte (a : Z) : M Z := gets (fun s => u8 (umem s a)).
Definition subyte (a v : Z) : M Z :=
  modify (fun s => s <| umem ::= fun m => wr_8 m a v |>);; mret 0.
Definition fuword (a : Z) : M Z := gets (fun s => rd_s32 (umem s) a).

(** ** One byte (subr.c) *)

Definition passc_advance : M Z :=
  modu (fun r => r <| u_count ::= fun c => u16 (c - 1) |>);;
  modu (fun r => r <| u_offset ::= fun c => s32 (c + 1) |>);;
  modu (fun r => r <| u_base ::= fun c => u32 (c + 1) |>);;
  r ← getu;
  mret (if u_count r =? 0 then -1 else 0).

(** [id?suibyte(u.u_base, c):subyte(u.u_base, c) < 0] is
    [id? suibyte(..): (subyte(..) < 0)]. *)
Definition passc (c : Z) : M Z :=
  r ← getu;
  if u_segflg r =? 1 then
    modify (fun s => s <| kmem ::= fun m => wr_8 m (u_base r) c |>);;
    passc_advance
  else
    t ← subyte (u_base r) (u8 c);
    if (if negb (u_segflg r =? 0) then negb (t =? 0) else t <? 0) then err EFAULT;; mret (-1)
    else passc_advance.

Definition cpass : M Z :=
  r ← getu;
  if u_count r =? 0 then mret (-1)
  else
    c ← (if u_segflg r =? 1 then gets (fun s => u8 (kmem s (u_base r))) else fubyte (u_base r));
    if negb (u_segflg r =? 1) && (c <? 0) then err EFAULT;; mret (-1)
    else
      modu (fun r => r <| u_count ::= fun c => u16 (c - 1) |>);;
      modu (fun r => r <| u_offset ::= fun c => s32 (c + 1) |>);;
      modu (fun r => r <| u_base ::= fun c => u32 (c + 1) |>);;
      mret (Z.land c 255).

Definition nodev : M unit := err ENODEV.
Definition nulldev : M unit := mret tt.

(** ** Blocks of a file (subr.c) *)

(** The loop that finds the levels of indirection: [(j, sh, bn)], or nothing
    when the block is past the largest file. *)
Fixpoint bmap_level (n : nat) (j sh nb bn : Z) : option (Z * Z * Z) :=
  match n with
  | O => None
  | S n =>
      let sh := sh + NSHIFT in
      let nb := s32 (Z.shiftl nb NSHIFT) in
      if bn <? nb then Some (j, sh, bn) else bmap_level n (j - 1) sh nb (bn - nb)
  end.

(** A block for address [i] of the inode, when it has none. *)
Definition bmap_new (ip dev i rwflg : Z) : M (option Z) :=
  if rwflg =? B_READ then mret None
  else
    bp ← alloc dev;
    match bp with
    | None => mret None
    | Some bp =>
        b ← getb bp;
        let nb := b_blkno b in
        bdwrite bp;;
        modi ip (fun r => r <| i_addr @ i := nb |>);;
        modi ip (fun r => r <| i_flag ::= fun f => setf f (Z.lor IUPD ICHG) |>);;
        mret (Some nb)
    end.

(** The address [i] of the inode, with a new block if there is none. *)
Definition bmap_addr (ip dev i rwflg : Z) : M (option Z) :=
  r ← geti ip;
  if i_addr r i =? 0 then bmap_new ip dev i rwflg else mret (Some (i_addr r i)).

(** One level of indirection, through block [nb]: the result of [bmap] if it
    ends here, else the next block, the indirect block's buffer and the index. *)
Definition bmap_step (dev bn rwflg : Z) (c : Z * Z * option (bptr * Z))
    : M (Z * Z * option (bptr * Z) + Z) :=
  let '(nb, sh, _) := c in
  bp ← bread dev nb;
  b ← getb bp;
  if has (b_flags b) B_ERROR then brelse bp;; mret (inr 0)
  else
    let sh := sh - NSHIFT in
    let i := Z.land (Z.shiftr bn sh) NMASK in
    bap ← getd bp;
    let nb := rd_s32 bap (4 * i) in
    if nb =? 0 then
      nbp ← (if rwflg =? B_READ then mret None else alloc dev);
      match nbp with
      | None => brelse bp;; mret (inr (-1))
      | Some nbp =>
          r ← getb nbp;
          let nb := b_blkno r in
          bdwrite nbp;;
          modd bp (fun m => wr_32 m (4 * i) nb);;
          bdwrite bp;;
          mret (inl (nb, sh, Some (bp, i)))
      end
    else brelse bp;; mret (inl (nb, sh, Some (bp, i))).

Definition bmap (ip bn rwflg : Z) : M Z :=
  if bn <? 0 then err EFBIG;; mret 0
  else
    r ← geti ip;
    let dev := i_dev r in
    modify (fun s => s <| rablock := 0 |>);;
    if bn <? NADDR - 3 then
      nb ← bmap_addr ip dev bn rwflg;
      match nb with
      | None => mret (-1)
      | Some nb =>
          r ← geti ip;
          when (bn <? NADDR - 4) (modify (fun s => s <| rablock := i_addr r (bn + 1) |>));;
          mret nb
      end
    else
      match bmap_level 3 3 0 1 (bn - (NADDR - 3)) with
      | None => err EFBIG;; mret 0
      | Some (j, sh, bn) =>
          nb ← bmap_addr ip dev (NADDR - j) rwflg;
          match nb with
          | None => mret (-1)
          | Some nb =>
              r ← foldm (seq (Z.to_nat j) (Z.to_nat (4 - j))) (fun _ => bmap_step dev bn rwflg) (nb, sh, None);
              match r with
              | inr v => mret v
              | inl (nb, _, last) =>
                  match last with
                  | Some (bp, i) =>
                      (* the buffer has been released by now *)
                      bap ← getd bp;
                      when (i <? NINDIR - 1) (modify (fun s => s <| rablock := rd_s32 bap (4 * (i + 1)) |>))
                  | None => mret tt
                  end;;
                  mret nb
              end
          end
      end.

(** ** Moving bytes (rdwri.c) *)

Definition max (a b : Z) : Z := if u32 b <? u32 a then u32 a else u32 b.
Definition min (a b : Z) : Z := if u32 a <? u32 b then u32 a else u32 b.

(** The byte loops of [iomove]: [o] is the offset of [cp] in the buffer. *)
Fixpoint iomove_in (n : nat) (bp : bptr) (o : Z) : M unit :=
  match n with
  | O => mret tt
  | S n =>
      t ← cpass;
      if t <? 0 then mret tt
      else modd bp (fun m => wr_8 m o t);; iomove_in n bp (o + 1)
  end.
Fixpoint iomove_out (n : nat) (bp : bptr) (o : Z) : M unit :=
  match n with
  | O => mret tt
  | S n =>
      d ← getd bp;
      t ← passc (u8 (d o));
      if t <? 0 then mret tt else iomove_out n bp (o + 1)
  end.

(** [iomove(bp->b_un.b_addr+on, n, flag)]; copyin and copyout copy [n] bytes
    and return 0. *)
Definition iomove (bp : bptr) (on n flag : Z) : M unit :=
  if n =? 0 then mret tt
  else
    b ← getb bp;
    r ← getu;
    if negb (u_segflg r =? 1) && (Z.land n 3 =? 0) && (Z.land (b_addr b + on) 3 =? 0) && (Z.land (u_base r) 3 =? 0)
    then
      (if flag =? 0
       then um ← gets umem; modd bp (fun m => mcopy um (u_base r) m on n)
       else d ← getd bp; modify (fun s => s <| umem ::= fun m => mcopy d on m (u_base r) n |>));;
      modu (fun r => r <| u_base ::= fun x => u32 (x + n) |>);;
      modu (fun r => r <| u_offset ::= fun x => s32 (x + n) |>);;
      modu (fun r => r <| u_count ::= fun x => u16 (x - n) |>)
    else if flag =? 0 then iomove_in (Z.to_nat n) bp on
    else iomove_out (Z.to_nat n) bp on.

(** ** readi and writei (rdwri.c) *)

(** Where the next transfer is: the block, the offset in it and the number of
    bytes, as far as the block and [u_count] allow. *)
Definition split_offset (us : user) : Z * Z * Z :=
  let on := Z.land (u_offset us) BMASK in
  (Z.shiftr (u_offset us) BSHIFT, on, min (BSIZE - on) (u_count us)).

(** The block to read at [lbn]: the device, its number and the bytes to move,
    unless the read ends here. *)
Definition readi_block (ip type dev lbn n : Z) : M (option (Z * Z * Z)) :=
  if type =? IFBLK then
    modify (fun s => s <| rablock := s32 (lbn + 1) |>);;
    mret (Some (dev, lbn, n))
  else
    r ← geti ip;
    us ← getu;
    let diff := s32 (i_size r - u_offset us) in
    if diff <=? 0 then mret None
    else
      let n := if diff <? n then diff else n in
      bn ← bmap ip lbn B_READ;
      us ← getu;
      if negb (u_error us =? 0) then mret None
      else r ← geti ip; mret (Some (i_dev r, bn, n)).

(** One turn of the loop of [readi]. *)
Definition readi_turn (ip type dev : Z) : M (Z + unit) :=
  us ← getu;
  let '(lbn, on, n) := split_offset us in
  t ← readi_block ip type dev lbn n;
  match t with
  | None => mret (inr tt)
  | Some (dev, bn, n) =>
      r ← geti ip;
      ra ← gets rablock;
      bp ← (if bn <? 0 then bp ← geteblk; clrbuf bp;; mret bp
            else if s32 (i_lastr r + 1) =? lbn then breada dev bn ra
            else bread dev bn);
      modi ip (fun r => r <| i_lastr := lbn |>);;
      b ← getb bp;
      let n := min n (BSIZE - b_resid b) in
      when (negb (n =? 0)) (iomove bp on n B_READ);;
      brelse bp;;
      us ← getu;
      mret (if (u_error us =? 0) && negb (u_count us =? 0) && (0 <? n) then inl dev else inr tt)
  end.

Definition readi (ip : Z) : M unit :=
  us ← getu;
  if u_count us =? 0 then mret tt
  else if u_offset us <? 0 then err EINVAL
  else
    modi ip (fun r => r <| i_flag ::= fun f => setf f IACC |>);;
    r ← geti ip;
    let type := Z.land (i_mode r) IFMT in
    if type =? IFCHR then cdev_read (major (i_rdev r)) (i_rdev r)
    else iter fuel (readi_turn ip type) (i_rdev r).

(** One turn of the loop of [writei]. *)
Definition writei_turn (ip type dev : Z) : M (Z + unit) :=
  us ← getu;
  let '(lbn, on, n) := split_offset us in
  t ← (if type =? IFBLK then mret (Some (dev, lbn))
       else
         bn ← bmap ip lbn 0;
         if bn <? 0 then mret None else r ← geti ip; mret (Some (i_dev r, bn)));
  match t with
  | None => mret (inr tt)
  | Some (dev, bn) =>
      bp ← (if n =? BSIZE then getblk dev bn else bread dev bn);
      iomove bp on n 0;;
      us ← getu;
      (if negb (u_error us =? 0) then brelse bp else bdwrite bp);;
      us ← getu;
      r ← geti ip;
      when ((i_size r <? u_offset us) && ((type =? IFDIR) || (type =? IFREG)))
        (modi ip (fun r => r <| i_size := u_offset us |>));;
      modi ip (fun r => r <| i_flag ::= fun f => setf f (Z.lor IUPD ICHG) |>);;
      us ← getu;
      mret (if (u_error us =? 0) && negb (u_count us =? 0) then inl dev else inr tt)
  end.

Definition writei (ip : Z) : M unit :=
  us ← getu;
  if u_offset us <? 0 then err EINVAL
  else
    r ← geti ip;
    let type := Z.land (i_mode r) IFMT in
    if type =? IFCHR then
      modi ip (fun r => r <| i_flag ::= fun f => setf f (Z.lor IUPD ICHG) |>);;
      cdev_write (major (i_rdev r)) (i_rdev r)
    else if u_count us =? 0 then mret tt
    else iter fuel (writei_turn ip type) (i_rdev r).

Context `{SD : !SyncDriver}.

(** ** The block map *)

(** The [k] digits of [x] in base 128, the first for the block nearest the inode. *)
Fixpoint digits (k : nat) (x : Z) : list Z :=
  match k with O => [] | S k => (x / 128 ^ Z.of_nat k) mod 128 :: digits k x end.

(** Where block [bn] of a file is: an address of the inode, the number of levels
    below it, and which of the blocks there. *)
Definition place (bn : Z) : option (Z * nat * Z) :=
  if bn <? 10 then Some (bn, 0%nat, 0)
  else if bn <? 10 + 128 then Some (10, 1%nat, bn - 10)
  else if bn <? 10 + 128 + 128 ^ 2 then Some (11, 2%nat, bn - 10 - 128)
  else if bn <? 10 + 128 + 128 ^ 2 + 128 ^ 3 then Some (12, 3%nat, bn - 10 - 128 - 128 ^ 2)
  else None.

(** The block reached from [nb] by the digits [ds], if there is one. *)
Fixpoint walk (C : Z -> mem) (nb : Z) (ds : list Z) : option Z :=
  if nb =? 0 then None
  else match ds with [] => Some nb | d :: ds => walk C (rd_s32 (C nb) (4 * d)) ds end.
(** The indirect blocks on the way. *)
Fixpoint visits (C : Z -> mem) (nb : Z) (ds : list Z) : list Z :=
  if nb =? 0 then []
  else match ds with [] => [] | d :: ds => nb :: visits C (rd_s32 (C nb) (4 * d)) ds end.

Lemma bmap_level_place bn : 10 <= bn ->
  bmap_level 3 3 0 1 (bn - 10) = match place bn with Some (a, k, x) => Some (13 - a, 7 * Z.of_nat k, x) | None => None end.
Proof.
  intros Hb. unfold place. replace (bn <? 10) with false by lia. unfold bmap_level, NSHIFT.
  change (s32 (Z.shiftl 1 7)) with 128. change (s32 (Z.shiftl 128 7)) with 16384. change (s32 (Z.shiftl 16384 7)) with 2097152.
  change (128 ^ 2) with 16384. change (128 ^ 3) with 2097152.
  replace (bn - 10 <? 128) with (bn <? 10 + 128) by lia. destruct (bn <? 10 + 128); [done|].
  replace (bn - 10 - 128 <? 16384) with (bn <? 10 + 128 + 16384) by lia. destruct (bn <? 10 + 128 + 16384); [done|].
  replace (bn - 10 - 128 - 16384 <? 2097152) with (bn <? 10 + 128 + 16384 + 2097152) by lia. by destruct (_ <? _).
Qed.

Lemma digit_shift (k : nat) x : 0 <= x -> Z.land (Z.shiftr x (7 * Z.of_nat (S k) - NSHIFT)) NMASK = (x / 128 ^ Z.of_nat k) mod 128.
Proof.
  intros Hx. unfold NSHIFT, NMASK. replace (7 * Z.of_nat (S k) - 7) with (7 * Z.of_nat k) by lia.
  change 127 with (Z.ones 7). rewrite Z.land_ones, Z.shiftr_div_pow2 by lia. do 2 f_equal.
  change 128 with (2 ^ 7). by rewrite <- Z.pow_mul_r by lia.
Qed.

Lemma rd_s32_content m m' i : agree 0 512 m' m -> 0 <= i < 128 -> rd_s32 m' (4 * i) = rd_s32 m (4 * i).
Proof. intros H Hi. apply rd_s32_agree. intros j Hj. apply H. lia. Qed.

(** The way depends only on the indirect blocks on it. *)
Lemma walk_visits C C' nb ds : (forall b, b ∈ visits C nb ds -> agree 0 512 (C' b) (C b)) -> Forall (fun d => 0 <= d < 128) ds ->
  walk C' nb ds = walk C nb ds /\ visits C' nb ds = visits C nb ds.
Proof.
  revert nb. induction ds as [|d ds IH]; intros nb H Hd; [done|]. apply Forall_cons in Hd as [Hd Hds].
  cbn [walk visits] in *. destruct (nb =? 0); [done|]. rewrite (rd_s32_content (C nb) (C' nb)) by (done || (apply H; mem)).
  destruct (IH (rd_s32 (C nb) (4 * d))) as [-> ->]; [|done|done]. intros b Hb. apply H. mem.
Qed.
Lemma walk_agree C C' nb ds : (forall b, agree 0 512 (C' b) (C b)) -> Forall (fun d => 0 <= d < 128) ds ->
  walk C' nb ds = walk C nb ds /\ visits C' nb ds = visits C nb ds.
Proof. intros H. by apply walk_visits. Qed.
Lemma digits_range k x : Forall (fun d => 0 <= d < 128) (digits k x).
Proof. induction k; constructor; [|done]. apply Z.mod_pos_bound. lia. Qed.

(** The loop over the levels, when no block has to be allocated. *)
Lemma bmap_walk_ok (l : list nat) bn dev rw nb last s A Q :
  cache s A Q -> A <> [] -> usable dev -> 0 <= bn -> nb <> 0 ->
  rw = B_READ \/ walk (content s dev) nb (digits (length l) bn) <> None ->
  (forall b, b ∈ visits (content s dev) nb (digits (length l) bn) -> unheld s A dev b) ->
  exists r s' A' Q', foldm l (fun _ => bmap_step dev bn rw) (nb, 7 * Z.of_nat (length l), last) s = Ret r s' /\
    reread s A s' A' Q' /\
    match walk (content s dev) nb (digits (length l) bn) with
    | Some b => exists last', r = inl (b, 0, last')
    | None => r = inr (-1)
    end.
Proof.
  revert nb last s A Q. induction l as [|n l IH]; intros nb last s A Q Hc HA Us Hbn Hnb Hrw Hv.
  - eexists _, s, A, Q. split; [reflexivity|]. split; [by apply reread_refl|]. cbn. rewrite (proj2 (Z.eqb_neq _ _) Hnb). by eexists.
  - set (d := (bn / 128 ^ Z.of_nat (length l)) mod 128). assert (0 <= d < 128) as Hd by (apply Z.mod_pos_bound; lia).
    cbn [length digits walk visits] in *. rewrite (proj2 (Z.eqb_neq _ _) Hnb) in *. fold d in Hv, Hrw |- *.
    destruct (bread_brelse s A Q dev nb Hc HA Us) as (bp&s1&E1&He&Hda&s2&A2&Q2&E2&R2); [apply Hv; mem|].
    set (nb' := rd_s32 (content s dev nb) (4 * d)) in *.
    assert (rd_s32 (b_data (bufs s1 bp)) (4 * d) = nb') as Enb by (by apply rd_s32_content).
    cbn [foldm].
    assert (nb' = 0 -> rw = B_READ) as Hrw'.
    { intros Ez. destruct Hrw as [Hrw|Hrw]; [done|]. exfalso. apply Hrw. rewrite Ez. by destruct (digits _ _). }
    assert (bmap_step dev bn rw (nb, 7 * Z.of_nat (S (length l)), last) s =
      Ret (if nb' =? 0 then inr (-1) else inl (nb', 7 * Z.of_nat (length l), Some (bp, d))) s2) as Es.
    { unfold bmap_step. rewrite (bind_ret _ _ _ _ _ E1). krun. rewrite He, digit_shift by done. fold d.
      replace (7 * Z.of_nat (S (length l)) - NSHIFT) with (7 * Z.of_nat (length l)) by (unfold NSHIFT; lia).
      krun. rewrite Enb. destruct (Z.eqb_spec nb' 0) as [Ez|_]; [rewrite (Hrw' Ez), Z.eqb_refl|]; krun; by rewrite (bind_ret _ _ _ _ _ E2). }
    rewrite (bind_ret _ _ _ _ _ Es). pose proof R2 as [Hc2 HP2 Hsb2 _ _].
    assert (forall b, agree 0 512 (content s2 dev b) (content s dev b)) as Hag by (intros b; apply Hsb2, Us).
    destruct (walk_agree (content s dev) (content s2 dev) nb' (digits (length l) bn) Hag (digits_range _ _)) as [Ew Ev].
    destruct (nb' =? 0) eqn:Ez.
    + eexists _, s2, A2, Q2. split; [reflexivity|]. split; [done|].
      destruct (digits (length l) bn); cbn; by rewrite Ez.
    + destruct (IH nb' (Some (bp, d)) s2 A2 Q2) as (r&s3&A3&Q3&E3&R3&Hr); [done| |done|done|lia| | |].
      { intros ->. apply HA. by apply Permutation_nil_l in HP2. }
      { by rewrite Ew. }
      { intros b Hb. rewrite Ev in Hb. eapply reread_unheld; [exact R2|]. apply Hv. mem. }
      exists r, s3, A3, Q3. split; [done|]. split; [by eapply reread_trans|]. by rewrite Ew in Hr.
Qed.

Lemma reread_ra s A s' A' Q' v : reread s A s' A' Q' -> reread (s <| rablock := v |>) A (s' <| rablock := v |>) A' Q'.
Proof.
  intros [H1 H2 H3 H4 H5]. split; [by eapply cache_bufs|done|by destruct H3; split|exact H4|].
  destruct s, s'. unfold others in *. cbn in *. injection H5. intros. by subst.
Qed.

Lemma place_range bn a k x : 0 <= bn -> place bn = Some (a, k, x) -> 0 <= a < NADDR /\ 0 <= x /\ (a = bn /\ bn < 10 /\ k = 0%nat \/ 10 <= bn /\ Z.of_nat k = a - 9).
Proof. intros Hb. unfold place, NADDR. repeat case_match; intros [= <- <- <-]; lia. Qed.

(** [bmap] when it has nothing to allocate. *)
Lemma bmap_ok ip bn rw s A Q a k x :
  cache s A Q -> A <> [] -> usable (i_dev (inodes s ip)) -> 0 <= bn -> place bn = Some (a, k, x) ->
  let C := content s (i_dev (inodes s ip)) in let nb := i_addr (inodes s ip) a in
  rw = B_READ \/ walk C nb (digits k x) <> None ->
  (forall b, b ∈ visits C nb (digits k x) -> unheld s A (i_dev (inodes s ip)) b) ->
  exists s' A' Q', bmap ip bn rw s = Ret (default (-1) (walk C nb (digits k x))) s' /\
    reread (s <| rablock := rablock s' |>) A s' A' Q'.
Proof.
  intros Hc HA Us Hbn Hp C nb Hrw Hv. unfold bmap. replace (bn <? 0) with false by lia. krun.
  destruct (place_range bn a k x Hbn Hp) as (Ha&Hx&Hk). set (s0 := s <| rablock := 0 |>).
  assert (cache s0 A Q) as Hc0 by (by eapply cache_bufs).
  change (content s) with (content s0) in C. change (inodes s) with (inodes s0) in *. change (unheld s) with (unheld s0) in Hv.
  assert (forall s1 A1 Q1, reread s0 A s1 A1 Q1 -> forall v, reread (s <| rablock := v |>) A (s1 <| rablock := v |>) A1 Q1) as Hra.
  { intros s1 A1 Q1 R v. exact (reread_ra s0 A s1 A1 Q1 v R). }
  assert (forall s1 A1 Q1, reread s0 A s1 A1 Q1 -> reread (s <| rablock := rablock s1 |>) A s1 A1 Q1) as Hra'.
  { intros s1 A1 Q1 R. pose proof (Hra _ _ _ R (rablock s1)) as H. destruct s1. exact H. }
  assert (nb = 0 -> rw = B_READ) as Hrw'.
  { intros Ez. destruct Hrw as [Hrw|Hrw]; [done|]. exfalso. apply Hrw. rewrite Ez. by destruct (digits _ _). }
  assert (bmap_addr ip (i_dev (inodes s0 ip)) a rw s0 = Ret (if nb =? 0 then None else Some nb) s0) as Ead.
  { unfold bmap_addr. krun. fold nb. destruct (Z.eqb_spec nb 0) as [Ez|_]; [|done]. unfold bmap_new. by rewrite (Hrw' Ez), Z.eqb_refl. }
  destruct Hk as [(->&Hlt&->)|[Hge Hk]].
  - replace (bn <? NADDR - 3) with true by (unfold NADDR; lia). rewrite (bind_ret _ _ _ _ _ Ead). cbn [digits walk].
    destruct (nb =? 0).
    + exists s0, A, Q. split; [done|]. exact (Hra s0 A Q (reread_refl _ _ _ Hc0) 0).
    + krun. rewrite k_when. destruct (bn <? NADDR - 4); (eexists _, A, Q; split; [reflexivity|]);
        exact (Hra s0 A Q (reread_refl _ _ _ Hc0) _).
  - replace (bn <? NADDR - 3) with false by (unfold NADDR; lia). change (NADDR - 3) with 10. rewrite bmap_level_place, Hp by done.
    replace (NADDR - (13 - a)) with a by (unfold NADDR; lia). rewrite (bind_ret _ _ _ _ _ Ead).
    destruct (nb =? 0) eqn:Ez.
    { exists s0, A, Q. split; [|exact (Hra s0 A Q (reread_refl _ _ _ Hc0) 0)]. by destruct k; cbn [digits walk]; rewrite Ez. }
    assert (length (seq (Z.to_nat (13 - a)) (Z.to_nat (4 - (13 - a)))) = k) as Hl by (rewrite length_seq; lia).
    set (l := seq _ _) in *. clearbody l. subst k.
    destruct (bmap_walk_ok l x (i_dev (inodes s0 ip)) rw nb None s0 A Q) as (r&s1&A1&Q1&E1&R1&Hr); [done..|lia|done|done|].
    rewrite (bind_ret _ _ _ _ _ E1). fold C in Hr. destruct (walk C nb _) as [b|].
    + destruct Hr as [[[bp i]|] ->]; krun.
      * rewrite k_bind_bind. krun. rewrite k_when. destruct (i <? NINDIR - 1).
        -- eexists _, A1, Q1. split; [reflexivity|]. exact (Hra s1 A1 Q1 R1 _).
        -- exists s1, A1, Q1. split; [done|by apply Hra'].
      * exists s1, A1, Q1. split; [done|by apply Hra'].
    + subst r. exists s1, A1, Q1. split; [done|by apply Hra'].
Qed.

Fixpoint undigits (ds : list Z) : Z :=
  match ds with [] => 0 | d :: ds => d * 128 ^ Z.of_nat (length ds) + undigits ds end.

Lemma pow128 (k : nat) : 0 < 128 ^ Z.of_nat k /\ 128 ^ Z.of_nat (S k) = 128 * 128 ^ Z.of_nat k.
Proof. split; [apply Z.pow_pos_nonneg; lia|]. rewrite Nat2Z.inj_succ, Z.pow_succ_r by lia. done. Qed.
Lemma digits_mod k x z : digits k (x + z * 128 ^ Z.of_nat k) = digits k x.
Proof.
  revert z. induction k as [|k IH]; intros z; [done|]. destruct (pow128 k) as [Hp Hs]. cbn [digits]. rewrite Hs. f_equal.
  - replace (x + z * (128 * 128 ^ Z.of_nat k)) with (x + z * 128 * 128 ^ Z.of_nat k) by lia.
    rewrite Z.div_add by lia. apply Z.mod_add. lia.
  - replace (z * (128 * 128 ^ Z.of_nat k)) with (z * 128 * 128 ^ Z.of_nat k) by lia. apply IH.
Qed.
Lemma undigits_digits k x : 0 <= x < 128 ^ Z.of_nat k -> undigits (digits k x) = x.
Proof.
  revert x. induction k as [|k IH]; intros x Hx; cbn [digits undigits]; [cbn in Hx; lia|]. destruct (pow128 k) as [Hp Hs].
  assert (forall j y, length (digits j y) = j) as Hl by (induction j; intros; cbn; auto). rewrite Hl.
  assert (digits k x = digits k (x mod 128 ^ Z.of_nat k)) as ->.
  { rewrite <- (digits_mod k (x mod _) (x / 128 ^ Z.of_nat k)). f_equal.
    pose proof (Z.div_mod x (128 ^ Z.of_nat k) ltac:(lia)). lia. }
  rewrite IH by (apply Z.mod_pos_bound; lia). rewrite (Z.mod_small (x / _)).
  - pose proof (Z.div_mod x (128 ^ Z.of_nat k) ltac:(lia)). lia.
  - split; [apply Z.div_pos; lia|]. apply Z.div_lt_upper_bound; lia.
Qed.
Lemma digits_undigits ds : Forall (fun d => 0 <= d < 128) ds ->
  digits (length ds) (undigits ds) = ds /\ 0 <= undigits ds < 128 ^ Z.of_nat (length ds).
Proof.
  induction 1 as [|d ds Hd Hds [IH1 IH2]]; [done|]. cbn [length undigits digits]. destruct (pow128 (length ds)) as [Hp Hs].
  split; [|rewrite Hs; nia]. f_equal.
  - rewrite Z.add_comm, Z.div_add, (Z.div_small (undigits ds)) by lia. apply Z.mod_small. lia.
  - rewrite Z.add_comm, digits_mod. done.
Qed.

(** ** Properties *)

(** C39: The block map is one to one: [bmap]'s loop finds the level of a block and
    its number there; with the 7-bit indices it takes from that number, every
    address of the inode and every sequence of indices below it belong to exactly
    one block of a file, from 0 to 2113673, and there are no others. *)
Theorem bmap_bijective :
  (forall bn, 10 <= bn ->
     bmap_level 3 3 0 1 (bn - 10) = match place bn with Some (a, k, x) => Some (13 - a, 7 * Z.of_nat k, x) | None => None end) /\
  (forall k x, 0 <= x -> Z.land (Z.shiftr x (7 * Z.of_nat (S k) - NSHIFT)) NMASK :: digits k x = digits (S k) x) /\
  (forall a ds, 0 <= a < NADDR -> length ds = Z.to_nat (a - 9) -> Forall (fun d => 0 <= d < 128) ds ->
     exists bn, (0 <= bn < 2113674 /\ exists x, place bn = Some (a, length ds, x) /\ digits (length ds) x = ds) /\
       forall bn' x, 0 <= bn' -> place bn' = Some (a, length ds, x) -> digits (length ds) x = ds -> bn' = bn) /\
  (forall bn, 0 <= bn -> place bn = None <-> 2113674 <= bn).
Proof.
  split; [exact bmap_level_place|]. split; [intros k x Hx; by rewrite digit_shift|]. split.
  - intros a ds Ha Hl Hds. destruct (digits_undigits ds Hds) as [Hd Hr].
    set (base := if a <? 10 then a else if a =? 10 then 10 else if a =? 11 then 138 else 16522).
    exists (base + undigits ds). rewrite Hl in *. unfold NADDR in Ha.
    assert (a < 10 \/ a = 10 \/ a = 11 \/ a = 12) as Hc by lia.
    assert (forall bn' k x, 0 <= bn' -> place bn' = Some (a, k, x) -> 0 <= x < 128 ^ Z.of_nat k /\ bn' = base + x) as Hp.
    { intros bn' k x Hb. unfold place, base. change (128 ^ 2) with 16384. change (128 ^ 3) with 2097152.
      repeat case_match; intros [= <- <- <-]; cbn; lia. }
    split.
    + assert (0 <= base + undigits ds < 2113674 /\ place (base + undigits ds) = Some (a, Z.to_nat (a - 9), undigits ds)) as [G1 G2].
      { unfold place, base. change (128 ^ 2) with 16384. change (128 ^ 3) with 2097152.
        destruct Hc as [Hc|[->|[->| ->]]].
        - replace (Z.to_nat (a - 9)) with 0%nat in * by lia. cbn in Hr. replace (a <? 10) with true by lia.
          replace (a + undigits ds <? 10) with true by lia. split; [lia|]. repeat f_equal; lia.
        - change (128 ^ Z.of_nat (Z.to_nat (10 - 9))) with 128 in Hr. change (Z.to_nat (10 - 9)) with 1%nat.
          cbn [Z.ltb Z.eqb Z.compare Pos.compare Pos.compare_cont Pos.eqb].
          repeat (case_match; try lia). split; [lia|]. repeat f_equal; lia.
        - change (128 ^ Z.of_nat (Z.to_nat (11 - 9))) with 16384 in Hr. change (Z.to_nat (11 - 9)) with 2%nat.
          cbn [Z.ltb Z.eqb Z.compare Pos.compare Pos.compare_cont Pos.eqb].
          repeat (case_match; try lia). split; [lia|]. repeat f_equal; lia.
        - change (128 ^ Z.of_nat (Z.to_nat (12 - 9))) with 2097152 in Hr. change (Z.to_nat (12 - 9)) with 3%nat.
          cbn [Z.ltb Z.eqb Z.compare Pos.compare Pos.compare_cont Pos.eqb].
          repeat (case_match; try lia). split; [lia|]. repeat f_equal; lia. }
      split; [done|]. by exists (undigits ds).
    + intros bn' x Hb Hpl Hdx. destruct (Hp bn' _ x Hb Hpl) as [Hx ->]. rewrite <- Hdx. by rewrite undigits_digits.
  - intros bn Hb. unfold place. change (128 ^ 2) with 16384. change (128 ^ 3) with 2097152. repeat case_match; split; try done; lia.
Qed.

(** C24: Reading, [bmap] follows the addresses in the inode and in the indirect
    blocks as the cache has them, down to the block or to a hole (-1), through
    up to three levels; it returns, leaves no buffer held, and changes no block
    and nothing but the number of the block to read ahead. *)
Theorem bmap_reads ip bn s A Q a k x :
  cache s A Q -> A <> [] -> usable (i_dev (inodes s ip)) -> 0 <= bn -> place bn = Some (a, k, x) ->
  let C := content s (i_dev (inodes s ip)) in let nb := i_addr (inodes s ip) a in
  (forall b, b ∈ visits C nb (digits k x) -> unheld s A (i_dev (inodes s ip)) b) ->
  exists s' A' Q', bmap ip bn B_READ s = Ret (default (-1) (walk C nb (digits k x))) s' /\
    reread (s <| rablock := rablock s' |>) A s' A' Q'.
Proof. intros Hc HA Us Hb Hp C nb Hv. exact (bmap_ok ip bn B_READ s A Q a k x Hc HA Us Hb Hp (or_introl eq_refl) Hv). Qed.

(** ** The two ways of moving bytes *)

(** The user structure after [n] bytes have been moved. *)
Definition advanced (n : Z) (us : user) : user :=
  us <| u_base ::= fun x => u32 (x + n) |> <| u_offset ::= fun x => s32 (x + n) |> <| u_count ::= fun x => u16 (x - n) |>.
Definition moved_in (bp : bptr) (o n : Z) (s : kst) : kst :=
  setu (advanced n) (setb bp (fun r => r <| b_data ::= fun m => mcopy (umem s) (u_base (u s)) m o n |>) s).
Definition moved_out (bp : bptr) (o n : Z) (s : kst) : kst :=
  setu (advanced n) (s <| umem ::= fun m => mcopy (b_data (bufs s bp)) o m (u_base (u s)) n |>).

(** [n] bytes from [a] are bytes. *)
Definition bytes_in (a n : Z) (m : mem) : Prop := forall i, a <= i < a + n -> 0 <= m i < 256.
Lemma bytes_ok_in a n m : bytes_ok m -> bytes_in a n m.
Proof. intros H i _. apply H. Qed.

(** The counters are in range and the transfer is within them. *)
Record transfer_ok (us : user) (n : Z) : Prop := {
  tr_count : 0 <= n <= u_count us /\ u_count us < 65536;
  tr_base : 0 <= u_base us /\ u_base us + n < 4294967296;
  tr_offset : -2147483648 <= u_offset us < 2147483648;
  tr_seg : u_segflg us <> 1
}.

Lemma wrap_s_add w x y : 0 < w -> wrap_s w (wrap_s w x + y) = wrap_s w (x + y).
Proof.
  intros Hw. unfold wrap_s. f_equal.
  replace ((x + 2 ^ (w - 1)) mod 2 ^ w - 2 ^ (w - 1) + y + 2 ^ (w - 1)) with ((x + 2 ^ (w - 1)) mod 2 ^ w + y) by lia.
  rewrite Zplus_mod_idemp_l. f_equal. lia.
Qed.

Lemma user_ext (a b : user) : a <| u_base := 0 |> <| u_offset := 0 |> <| u_count := 0 |> = b <| u_base := 0 |> <| u_offset := 0 |> <| u_count := 0 |> ->
  u_base a = u_base b -> u_offset a = u_offset b -> u_count a = u_count b -> a = b.
Proof. destruct a, b. cbn. intros H. injection H. intros. by subst. Qed.

Lemma advanced_0 us : transfer_ok us 0 -> advanced 0 us = us.
Proof.
  intros [[H1 H2] [H3 H4] H5 _]. apply user_ext; [done|..]; cbn; rewrite ?Z.add_0_r, ?Z.sub_0_r; [apply u32_id|apply s32_id|apply u16_id]; lia.
Qed.
Lemma advanced_succ us n : transfer_ok us (1 + n) -> 0 <= n ->
  advanced n (advanced 1 us) = advanced (1 + n) us /\ transfer_ok (advanced 1 us) n.
Proof.
  intros [[H1 H2] [H3 H4] H5 H6] Hn. split.
  - apply user_ext; [done|..]; cbn.
    + rewrite (u32_id (u_base us + 1)) by lia. f_equal. lia.
    + rewrite wrap_s_add by lia. f_equal. lia.
    + rewrite (u16_id (u_count us - 1)) by lia. f_equal. lia.
  - split; cbn; [rewrite u16_id by lia|rewrite u32_id by lia|pose proof (s32_range (u_offset us + 1))|done]; lia.
Qed.

Lemma mcopy_0 d o m a : mcopy d o m a 0 = m.
Proof. apply functional_extensionality. intros i. unfold mcopy. by rewrite bool_decide_eq_false_2 by lia. Qed.
Lemma mcopy_succ d o m a n : 0 <= n -> 0 <= d o < 256 ->
  mcopy d (o + 1) (wr_8 m a (d o)) (a + 1) n = mcopy d o m a (1 + n).
Proof.
  intros Hn Hd. apply functional_extensionality. intros i. unfold mcopy.
  destruct (decide (i = a)) as [->|Hi].
  - rewrite bool_decide_eq_false_2, bool_decide_eq_true_2, wr_8_eq by lia. rewrite u8_id by done. f_equal. lia.
  - rewrite wr_8_ne by done. destruct (decide (a + 1 <= i < a + 1 + n)).
    + rewrite !bool_decide_eq_true_2 by lia. f_equal. lia.
    + rewrite !bool_decide_eq_false_2 by lia. done.
Qed.

Lemma moved_out_0 bp o s : transfer_ok (u s) 0 -> moved_out bp o 0 s = s.
Proof. intros H. unfold moved_out, setu, update_with. destruct s. cbn -[mcopy advanced] in *. by rewrite mcopy_0, advanced_0. Qed.

(** One byte to the user. *)
Definition passed (c : Z) (s : kst) : kst := setu (advanced 1) (s <| umem ::= fun m => wr_8 m (u_base (u s)) c |>).
Lemma passc_ok c s : u_segflg (u s) <> 1 -> 0 <= c < 256 ->
  passc c s = Ret (if u_count (u (passed c s)) =? 0 then -1 else 0) (passed c s).
Proof.
  intros Hs Hc. unfold passc. krun. rewrite (proj2 (Z.eqb_neq _ _) Hs). unfold subyte. rewrite k_bind_bind. krun.
  cbn [Z.eqb negb Z.ltb Z.compare]. replace (if negb (u_segflg (u s) =? 0) then false else false) with false by (by destruct (negb _)).
  rewrite !(u8_id c) by done. unfold passc_advance. krun. done.
Qed.

Lemma iomove_out_ok (n : nat) bp o s :
  transfer_ok (u s) (Z.of_nat n) -> bytes_in o (Z.of_nat n) (b_data (bufs s bp)) ->
  iomove_out n bp o s = Ret tt (moved_out bp o (Z.of_nat n) s).
Proof.
  revert o s. induction n as [|n IH]; intros o s Ht Hd.
  - cbn [iomove_out]. by rewrite moved_out_0.
  - replace (Z.of_nat (S n)) with (1 + Z.of_nat n) in * by lia.
    destruct (advanced_succ (u s) (Z.of_nat n) Ht ltac:(lia)) as [Ea Ht1].
    cbn [iomove_out]. krun. set (d := b_data (bufs s bp)) in *. assert (0 <= d o < 256) as Hdo by (apply Hd; lia).
    set (s1 := setu (advanced 1) (s <| umem ::= fun m => wr_8 m (u_base (u s)) (d o) |>)).
    assert (passc (u8 (d o)) s = Ret (if u_count (u s1) =? 0 then -1 else 0) s1) as Ep.
    { rewrite u8_id by done. apply passc_ok; [apply Ht|done]. }
    assert (moved_out bp (o + 1) (Z.of_nat n) s1 = moved_out bp o (1 + Z.of_nat n) s) as Em.
    { unfold moved_out, s1, setu, update_with. cbn -[mcopy advanced]. fold d.
      change (u_base (advanced 1 (u s))) with (u32 (u_base (u s) + 1)). rewrite (u32_id (u_base (u s) + 1)).
      2: { pose proof (tr_base _ _ Ht). lia. }
      destruct s. cbn -[mcopy advanced] in *. rewrite mcopy_succ by (lia || done). by rewrite Ea. }
    rewrite (bind_ret _ _ _ _ _ Ep), <- Em. destruct (u_count (u s1) =? 0) eqn:Ec.
    + cbn [Z.ltb Z.compare]. assert (n = 0%nat) as ->.
      { pose proof (tr_count _ _ Ht1). change (u_count (u s1)) with (u_count (advanced 1 (u s))) in Ec. lia. }
      cbn [iomove_out]. by rewrite moved_out_0.
    + cbn [Z.ltb Z.compare]. apply IH; [done|]. intros i Hi. apply Hd. lia.
Qed.

Lemma moved_in_0 bp o s : transfer_ok (u s) 0 -> moved_in bp o 0 s = s.
Proof.
  intros H. unfold moved_in. rewrite setb_id.
  - unfold setu, update_with. destruct s. cbn -[advanced] in *. by rewrite advanced_0.
  - unfold update_with. rewrite mcopy_0. by destruct (bufs s bp).
Qed.

Lemma setb_at bp f g s : f (bufs s bp) = g (bufs s bp) -> setb bp f s = setb bp g s.
Proof. intros E. unfold setb, update_with. cbn. by rewrite E. Qed.
Lemma setu_at f g s : f (u s) = g (u s) -> setu f s = setu g s.
Proof. intros E. unfold setu, update_with. by rewrite E. Qed.
(** One byte, then [n] more. *)
Lemma moved_in_succ bp o n s : transfer_ok (u s) (1 + n) -> 0 <= n ->
  0 <= umem s (u_base (u s)) < 256 ->
  moved_in bp (o + 1) n (setb bp (fun r => r <| b_data ::= fun m => wr_8 m o (umem s (u_base (u s))) |>) (setu (advanced 1) s)) =
  moved_in bp o (1 + n) s.
Proof.
  intros Ht Hn Hd. destruct (advanced_succ (u s) n Ht Hn) as [Ea _].
  assert (u32 (u_base (u s) + 1) = u_base (u s) + 1) as Eb by (apply u32_id; pose proof (tr_base _ _ Ht); lia).
  unfold moved_in. rewrite setb_setb.
  match goal with |- setu _ (setb _ ?f (setu ?g _)) = _ => transitivity (setu (fun us => advanced n (g us)) (setb bp f s)); [done|] end.
  transitivity (setu (advanced (1 + n)) (setb bp (fun r => r <| b_data ::= fun m => mcopy (umem s) (u_base (u s) + 1) (wr_8 m o (umem s (u_base (u s)))) (o + 1) n |>) s)).
  - rewrite (setu_at _ (advanced (1 + n))) by exact Ea. f_equal. apply setb_at.
    change (u_base (u (setb _ _ (setu (advanced 1) s)))) with (u32 (u_base (u s) + 1)). rewrite Eb. done.
  - f_equal. apply setb_at. unfold update_with. f_equal. by apply mcopy_succ.
Qed.

Lemma iomove_in_ok (n : nat) bp o s :
  transfer_ok (u s) (Z.of_nat n) -> bytes_in (u_base (u s)) (Z.of_nat n) (umem s) ->
  iomove_in n bp o s = Ret tt (moved_in bp o (Z.of_nat n) s).
Proof.
  revert o s. induction n as [|n IH]; intros o s Ht Hd.
  - cbn [iomove_in]. by rewrite moved_in_0.
  - replace (Z.of_nat (S n)) with (1 + Z.of_nat n) in * by lia.
    destruct (advanced_succ (u s) (Z.of_nat n) Ht ltac:(lia)) as [Ea Ht1].
    cbn [iomove_in]. set (c := umem s (u_base (u s))). assert (0 <= c < 256) as Hc by (apply Hd; lia).
    assert (cpass s = Ret c (setu (advanced 1) s)) as Ep.
    { unfold cpass. krun. pose proof (tr_count _ _ Ht). replace (u_count (u s) =? 0) with false by lia.
      rewrite (proj2 (Z.eqb_neq _ _) (tr_seg _ _ Ht)). unfold fubyte. krun. fold c. rewrite u8_id by done.
      replace (c <? 0) with false by lia. rewrite andb_false_r. krun.
      change 255 with (Z.ones 8). rewrite Z.land_ones, Z.mod_small by lia. done. }
    rewrite (bind_ret _ _ _ _ _ Ep). replace (c <? 0) with false by lia. krun.
    set (s1 := setb bp _ _). rewrite IH; [|done|].
    2: { intros i. change (umem s1) with (umem s). change (u_base (u s1)) with (u32 (u_base (u s) + 1)).
      rewrite u32_id by (pose proof (tr_base _ _ Ht); lia). intros Hi. apply Hd. lia. }
    f_equal. unfold s1, c. apply moved_in_succ; [done|lia|done].
Qed.

Lemma iomove_ok bp on n flag s :
  transfer_ok (u s) n -> (if flag =? 0 then bytes_in (u_base (u s)) n (umem s) else bytes_in on n (b_data (bufs s bp))) ->
  iomove bp on n flag s = Ret tt (if flag =? 0 then moved_in bp on n s else moved_out bp on n s).
Proof.
  intros Ht Hd. unfold iomove. destruct (n =? 0) eqn:En.
  { assert (n = 0) as -> by lia. rewrite moved_in_0, moved_out_0 by done. by destruct (flag =? 0). }
  krun. destruct (_ && _) eqn:Ef.
  - destruct (flag =? 0); rewrite k_bind_bind; krun; reflexivity.
  - pose proof (tr_count _ _ Ht) as [Hn _]. pose proof (Z2Nat.id n (proj1 Hn)) as Ek.
    generalize dependent (Z.to_nat n). intros k <-. destruct (flag =? 0); [by apply iomove_in_ok|by apply iomove_out_ok].
Qed.

(** ** Past the largest file *)

Lemma bmap_past_end ip bn rw s : 0 <= bn -> place bn = None ->
  bmap ip bn rw s = Ret 0 (setu (fun r => r <| u_error := EFBIG |>) (s <| rablock := 0 |>)).
Proof.
  intros Hb Hp. unfold bmap. replace (bn <? 0) with false by lia. krun.
  assert (10 <= bn) as H10 by (unfold place in Hp; repeat case_match; lia || discriminate).
  replace (bn <? NADDR - 3) with false by (unfold NADDR; lia). change (NADDR - 3) with 10.
  rewrite bmap_level_place, Hp by done. krun. reflexivity.
Qed.

(** A release of a buffer that does not say what its block says. *)
Lemma brelse_content s A Q b : cache s A Q -> isbuf b -> b ∉ A ->
  exists s', brelse b s = Ret tt s' /\ others s' = others s /\ (forall dv bk, content s' dv bk = content s dv bk).
Proof.
  intros Hc Hb HbA. destruct (ca_flags _ _ _ Hc b Hb) as [_ He].
  destruct (brelse_av s A b (ca_av _ _ _ Hc) Hb HbA He) as (s'&E&_&Hfb&Hfx&Hid&Hr).
  exists s'. split; [done|]. split; [by apply rest_others|]. apply content_ext; [done| |by apply rest_disk].
  intros x Hx. destruct (decide (x = b)) as [->|Hxb].
  - rewrite Hfb. unfold released. by simpl_flags.
  - rewrite Hfx; [done|done|]. by destruct Hx as (?&->&_).
Qed.

Lemma writei_past_end s A Q ip dev0 :
  cache s A Q -> A <> [] -> usable (i_dev (inodes s ip)) -> unheld s A (i_dev (inodes s ip)) 0 ->
  let '(lbn, on, n) := split_offset (u s) in
  0 <= lbn -> place lbn = None -> n <> BSIZE -> transfer_ok (u s) n -> bytes_ok (umem s) ->
  exists s', writei_turn ip IFREG dev0 s = Ret (inr tt) s' /\ u_error (u s') = EFBIG /\
    agree 0 512 (content s' (i_dev (inodes s ip)) 0) (mcopy (umem s) (u_base (u s)) (content s (i_dev (inodes s ip)) 0) on n) /\
    (i_size (inodes s ip) < s32 (u_offset (u s) + n) -> i_size (inodes s' ip) = s32 (u_offset (u s) + n)).
Proof.
  intros Hc HA Us Hu. destruct (split_offset (u s)) as [[lbn on] n] eqn:Eo. intros Hl Hp Hn Ht Hum.
  set (dev := i_dev (inodes s ip)) in *. pose proof Us as [Hdv Htab Hmj].
  unfold writei_turn. krun. rewrite Eo. change (IFREG =? IFBLK) with false. cbv iota.
  rewrite k_bind_bind, (bind_ret _ _ _ _ _ (bmap_past_end ip lbn 0 s Hl Hp)).
  set (s1 := setu _ (s <| rablock := 0 |>)). cbn [Z.ltb Z.compare]. rewrite k_bind_bind. krun.
  assert (cache s1 A Q) as Hc1 by (by eapply cache_bufs). change (unheld s A dev 0) with (unheld s1 A dev 0) in Hu.
  destruct (bread_spec s1 A Q dev 0 Hc1 HA Hdv Htab Hmj Hu) as (bp&s2&A2&Q2&E2&G2&Hdn2&Hd2).
  change (inodes s1) with (inodes s). fold dev. rewrite (proj2 (Z.eqb_neq n BSIZE) Hn), (bind_ret _ _ _ _ _ E2).
  pose proof G2 as [G1 Gb GA _ Gd Gk _ _ _ _ Go].
  assert (u s2 = (u s) <| u_error := EFBIG |> /\ umem s2 = umem s /\ inodes s2 = inodes s) as (Eu2&Em2&Ei2).
  { unfold others in Go. injection Go as -> _ _ _ -> _ _ _ _ _ -> _. done. }
  rewrite (bind_ret _ _ _ _ _ (iomove_ok bp on n 0 s2 ltac:(rewrite Eu2; by destruct Ht) ltac:(rewrite Em2; by apply bytes_ok_in))). cbn [Z.eqb].
  set (s3 := moved_in bp on n s2).
  assert (u s3 = advanced n (u s2)) as Eu3 by done. krun. rewrite Eu3, Eu2. 
  change (negb (u_error (advanced n ((u s) <| u_error := EFBIG |>)) =? 0)) with true. cbv iota.
  assert (cache s3 A2 Q2) as Hc3.
  { eapply cache_bufs; [exact (set_data_cache s2 A2 Q2 bp (fun m => mcopy (umem s2) (u_base (u s2)) m on n) G1 Gb GA)|done|done]. }
  destruct (brelse_content s3 A2 Q2 bp Hc3 Gb GA) as (s4&E4&Ho4&Hct4). rewrite (bind_ret _ _ _ _ _ E4). krun.
  assert (u s4 = u s3 /\ inodes s4 = inodes s3) as [Eu4 Ei4] by (unfold others in Ho4; by injection Ho4).
  assert (content s4 dev 0 = mcopy (umem s) (u_base (u s)) (b_data (bufs s2 bp)) on n) as Ect.
  { rewrite Hct4. assert (bufs s3 bp = (bufs s2 bp) <| b_data ::= fun m => mcopy (umem s2) (u_base (u s2)) m on n |>) as Eb3.
    { unfold s3, moved_in. change (bufs (setu ?f ?x)) with (bufs x). apply setb_eq. }
    pose proof (content_held s3 bp (ca_uniq _ _ _ Hc3) Gb) as Hh. rewrite Eb3 in Hh.
    change (b_dev ((bufs s2 bp) <| b_data ::= fun m => mcopy (umem s2) (u_base (u s2)) m on n |>)) with (b_dev (bufs s2 bp)) in Hh.
    change (b_blkno ((bufs s2 bp) <| b_data ::= fun m => mcopy (umem s2) (u_base (u s2)) m on n |>)) with (b_blkno (bufs s2 bp)) in Hh.
    rewrite Gd, Gk in Hh. rewrite Hh by done. by rewrite Em2, Eu2. }
  rewrite Eu4, Ei4, Eu3, Eu2. change (inodes s3) with (inodes s2). rewrite Ei2. unfold modi. rewrite k_when. krun.
  set (s5 := if (_ && _ : bool) then _ else s4).
  assert (u s5 = u s4 /\ content s5 dev 0 = content s4 dev 0 /\
    (i_size (inodes s ip) < s32 (u_offset (u s) + n) -> i_size (inodes s5 ip) = s32 (u_offset (u s) + n))) as (Eu5&Ect5&Esz).
  { unfold s5. change (u_offset (advanced n ?x)) with (s32 (u_offset x + n)). cbn [u_offset].
    destruct (i_size (inodes s ip) <? _) eqn:Elt.
    - split; [done|]. split; [done|]. intros _. unfold seti. cbn. by rewrite fn_eq.
    - split; [done|]. split; [done|]. intros Hlt. cbn in Elt. lia. }
  eexists. split; [change (u (seti ip ?f ?x)) with (u x); rewrite Eu5, Eu4, Eu3, Eu2; reflexivity|].
  change (u (seti ip ?f ?x)) with (u x). rewrite Eu5, Eu4, Eu3, Eu2. split; [done|]. split.
  - change (content (seti ip ?f ?x)) with (content x). rewrite Ect5, Ect. intros i Hi. unfold mcopy. case_bool_decide; [done|]. by apply Hd2.
  - intros Hlt. specialize (Esz Hlt). unfold seti. cbn. rewrite fn_eq. exact Esz.
Qed.

(** C33: However [iomove] moves the bytes, as aligned words with copyin and copyout
    or one by one with [cpass] and [passc], it moves the same bytes and advances
    the user's base, offset and count alike. *)
Theorem iomove_bytes bp on n flag s :
  transfer_ok (u s) n -> (if flag =? 0 then bytes_in (u_base (u s)) n (umem s) else bytes_in on n (b_data (bufs s bp))) ->
  iomove bp on n flag s = Ret tt (if flag =? 0 then moved_in bp on n s else moved_out bp on n s).
Proof. apply iomove_ok. Qed.

(** C40: A write past the largest file is refused only after the damage: [bmap]
    answers 0 with EFBIG, [writei] tests for a negative block only, and puts the
    user's bytes into the cached block 0 of the device and lets the file's size
    grow. *)
Theorem write_past_end_hits_block_0 s A Q ip dev0 :
  cache s A Q -> A <> [] -> usable (i_dev (inodes s ip)) -> unheld s A (i_dev (inodes s ip)) 0 ->
  let '(lbn, on, n) := split_offset (u s) in
  0 <= lbn -> place lbn = None -> n <> BSIZE -> transfer_ok (u s) n -> bytes_ok (umem s) ->
  exists s', writei_turn ip IFREG dev0 s = Ret (inr tt) s' /\ u_error (u s') = EFBIG /\
    agree 0 512 (content s' (i_dev (inodes s ip)) 0) (mcopy (umem s) (u_base (u s)) (content s (i_dev (inodes s ip)) 0) on n) /\
    (i_size (inodes s ip) < s32 (u_offset (u s) + n) -> i_size (inodes s' ip) = s32 (u_offset (u s) + n)).
Proof. apply writei_past_end. Qed.
End code.

(** ** A concrete file *)

#[local] Existing Instances ramdisk rounds ramdisk_sync.

Lemma cache_seti s A Q i f : cache s A Q -> cache (seti i f s) A Q.
Proof. intros H. by eapply cache_bufs. Qed.
Lemma unheld_seti s A dev b i f : unheld s A dev b -> unheld (seti i f s) A dev b.
Proof. intros H. exact H. Qed.
Lemma unheld_setu s A dev b f m : unheld s A dev b -> unheld (setu f (s <| umem := m |>)) A dev b.
Proof. intros H. exact H. Qed.
Lemma cache_setu s A Q f m : cache s A Q -> cache (setu f (s <| umem := m |>)) A Q.
Proof. intros H. by eapply cache_bufs. Qed.

(** Inode 3 of device 0; its indirect block is 5. *)
Definition indirect5 : kst := seti 3 (fun r => r <| i_addr @ 10 := 5 |>) booted.

Lemma bmap_reads_witness :
  exists s' A' Q', bmap 3 12 B_READ indirect5 = Ret 84215045 s' /\
    reread (indirect5 <| rablock := rablock s' |>) bufl s' A' Q'.
Proof.
  assert (walk (content indirect5 0) 5 [2] = Some 84215045) as E by (vm_compute; reflexivity).
  assert (i_dev (inodes indirect5 3) = 0 /\ i_addr (inodes indirect5 3) 10 = 5) as [Ed Ea] by (vm_compute; split; reflexivity).
  pose proof (bmap_reads 3 12 indirect5 bufl bqueues 10 1%nat 2) as W. rewrite Ed, Ea in W. cbv zeta in W.
  change (digits 1 2) with [2] in W. rewrite E in W. apply W.
  - exact (cache_seti _ _ _ _ _ (proj1 booted_cache)).
  - discriminate.
  - apply usable_0.
  - lia.
  - reflexivity.
  - intros b _. exact (unheld_seti _ _ _ _ _ _ (booted_unheld b)).
Defined.

(** A process that writes 4 bytes at offset 2000000000, with memory full of 7. *)
Definition far_write : kst :=
  setu (fun r => r <| u_offset := 2000000000 |> <| u_count := 4 |> <| u_base := 4096 |>) (booted <| umem := fun _ => 7 |>).

Lemma far_transfer : transfer_ok (u far_write) 4.
Proof.
  assert (u_count (u far_write) = 4 /\ u_base (u far_write) = 4096 /\ u_offset (u far_write) = 2000000000 /\
    u_segflg (u far_write) = 0) as (E1&E2&E3&E4) by (vm_compute; split_and!; reflexivity).
  split; rewrite ?E1, ?E2, ?E3, ?E4; lia.
Qed.

Lemma iomove_bytes_witness : iomove (BUF 0) 8 4 0 far_write = Ret tt (moved_in (BUF 0) 8 4 far_write).
Proof. apply (iomove_bytes (BUF 0) 8 4 0 far_write far_transfer). intros i. vm_compute. split; [discriminate|reflexivity]. Defined.

Lemma write_past_end_hits_block_0_witness :
  exists s', writei_turn 3 IFREG 0 far_write = Ret (inr tt) s' /\ u_error (u s') = EFBIG /\
    agree 0 512 (content s' 0 0) (mcopy (umem far_write) 4096 (content far_write 0 0) 0 4) /\
    (i_size (inodes far_write 3) < 2000000004 -> i_size (inodes s' 3) = 2000000004).
Proof.
  assert (split_offset (u far_write) = (3906250, 0, 4)) as E by (vm_compute; reflexivity).
  assert (i_dev (inodes far_write 3) = 0 /\ u_base (u far_write) = 4096 /\ s32 (u_offset (u far_write) + 4) = 2000000004)
    as (Ed&Eb&Eo) by (vm_compute; split_and!; reflexivity).
  pose proof (write_past_end_hits_block_0 far_write bufl bqueues 3 0) as W. rewrite E, Ed, Eb, Eo in W. apply W.
  - exact (cache_setu _ _ _ _ _ (proj1 booted_cache)).
  - discriminate.
  - apply usable_0.
  - exact (unheld_setu _ _ _ _ _ _ (booted_unheld 0)).
  - lia.
  - reflexivity.
  - discriminate.
  - exact far_transfer.
  - intros i. vm_compute. split; [discriminate|reflexivity].
Defined.
End Rdwri.
