(* ===== verification/Readi.v ===== *)
(** * Readi: what reading a file gives (src/usr/sys/sys/rdwri.c)

    The bytes of a file, as its inode, the indirect blocks and the cache define
    them, and the proof that [readi] moves just those to the user. *)
From Stdlib Require Import FunctionalExtensionality.
From S2P Require Import Prelude Kmonad Kernel Bio Quiet Ahead Alloc Rdwri.
Import Bio Quiet Ahead Alloc Rdwri.

Module Readi.

(** ** Whole transfers *)

(** No transfer has left part of its bytes. *)
Definition no_resid (s : kst) : Prop := forall b, b_resid (bufs s b) = 0.

Definition calm : proto lbl kst := Proto (fun _ => no_resid) (fun _ => no_resid) True True True.

(** Drivers move whole blocks. *)
Class WholeDriver `{DV : Devices} : Prop := {
  strategy_whole : forall maj bp, pres calm no_resid (d_strategy maj bp);
  mapfree_whole : forall bp, pres calm no_resid (mapfree bp)
}.

Section whole.
  Context `{DV : Devices} `{FL : Fuel} `{WD : !WholeDriver}.

#[export] Instance whole_quiet : Quiet calm no_resid.
Proof.
  split; try exact I; try done.
  - intros b f s Hf Hs x. destruct (decide (b = x)) as [<-|Hx]; [rewrite setb_eq|by rewrite setb_ne].
    destruct (Hf (bufs s b)) as [->| ->]; [apply Hs|done].
  - intros s s' Eb _ Hs x. by rewrite Eb.
  - apply strategy_whole.
  - apply mapfree_whole.
Qed.

Lemma modi_whole ip f : pres calm no_resid (modi ip f).
Proof. apply pres_modify. by intros s Hs. Qed.
#[local] Hint Resolve modi_whole : pres.

Lemma getfs_whole dev : pres calm no_resid (getfs dev).
Proof. unfold getfs. pres_tac. Qed.
Lemma badblock_whole fp bn dev : pres calm no_resid (badblock fp bn dev).
Proof. unfold badblock. pres_tac. Qed.
Lemma wait_flock_whole fp : pres calm no_resid (wait_flock fp).
Proof. apply wait_while_quiet, sleep_quiet. Qed.
#[local] Hint Resolve getfs_whole badblock_whole wait_flock_whole : pres.
Lemma alloc_whole dev : pres calm no_resid (alloc dev).
Proof. unfold alloc, alloc_pop, alloc_refill, nospace. pres_tac. Qed.
#[local] Hint Resolve alloc_whole : pres.
Lemma bmap_whole ip bn rw : pres calm no_resid (bmap ip bn rw).
Proof. unfold bmap, bmap_addr, bmap_new, bmap_step. pres_tac. Qed.

(** The result of code that keeps [no_resid]. *)
Lemma whole_ret {A} (m : M A) s a s' : pres calm no_resid m -> no_resid s -> m s = Ret a s' -> no_resid s'.
Proof. intros Hm Hs E. specialize (Hm s Hs). unfold wp in Hm. by rewrite E in Hm. Qed.
End whole.

#[export] Hint Resolve bmap_whole : pres.

(** ** The bytes of a file *)

Section code.
  Context `{DV : Devices} `{FL : Fuel} `{SD : !SyncDriver} `{WD : !WholeDriver}.

(** The block that holds block [bn] of a file, and a byte of the file; holes read
    as zeros. *)
Definition file_block (s : kst) (ip bn : Z) : option Z :=
  match place bn with
  | Some (a, k, x) => walk (content s (i_dev (inodes s ip))) (i_addr (inodes s ip) a) (digits k x)
  | None => None
  end.
Definition file_byte (s : kst) (ip off : Z) : Z :=
  match file_block s ip (off / 512) with
  | Some b => if b <? 0 then 0 else content s (i_dev (inodes s ip)) b (off mod 512)
  | None => 0
  end.

(** The [n] bytes of the file from [off] on put at [base]. *)
Definition from_file (s : kst) (ip off base n : Z) (m : mem) : mem :=
  fun a => if bool_decide (base <= a < base + n) then file_byte s ip (off + (a - base)) else m a.

(** The state before and after: the cache is well formed, at least two buffers
    are available, no process holds a buffer of the device. *)
Record resting (s : kst) (A : list bptr) (Q : bptr -> list bptr) (ip : Z) : Prop := {
  re_cache : cache s A Q;
  re_two : (2 <= length A)%nat;
  re_dev : usable (i_dev (inodes s ip));
  re_idle : forall blk, unheld s A (i_dev (inodes s ip)) blk;
  re_whole : no_resid s;
  re_bytes : forall blk, bytes_in 0 512 (content s (i_dev (inodes s ip)) blk)
}.

Lemma set_inode s ip f g : inodes (setu g (seti ip f s)) ip = f (inodes s ip).
Proof. change (inodes (setu g (seti ip f s))) with (inodes (seti ip f s)). by rewrite seti_inodes, decide_True. Qed.
Lemma set_user s ip f g : u (setu g (seti ip f s)) = g (u s).
Proof. done. Qed.
Lemma resting_set s A Q ip f g dev : cache s A Q -> (2 <= length A)%nat -> usable dev -> (forall blk, unheld s A dev blk) ->
  no_resid s -> (forall blk, bytes_in 0 512 (content s dev blk)) -> i_dev (f (inodes s ip)) = dev ->
  resting (setu g (seti ip f s)) A Q ip.
Proof.
  intros Hc HA Us Hu Hr Hb Ed. split; rewrite ?set_inode, ?Ed; try done. by eapply cache_bufs.
Qed.

(** Between [s] and [s'] a file has been read: of the inodes, that of the file has
    a new [i_lastr]; no block has changed, and no buffer that a process holds. *)
Definition touched (s s' : kst) : kst :=
  s <| umem := umem s' |> <| u := u s' |> <| inodes := inodes s' |> <| rablock := rablock s' |>.
Record kept (s : kst) (A : list bptr) (ip : Z) (s' : kst) (A' : list bptr) (Q' : bptr -> list bptr) : Prop := {
  kp_reread : reread (touched s s') A s' A' Q';
  kp_inode : exists l, inodes s' = inodes (seti ip (fun r => r <| i_lastr := l |>) s)
}.

Lemma kept_inode s A ip s' A' Q' i : kept s A ip s' A' Q' ->
  i_dev (inodes s' i) = i_dev (inodes s i) /\ i_addr (inodes s' i) = i_addr (inodes s i) /\
  i_size (inodes s' i) = i_size (inodes s i) /\ i_mode (inodes s' i) = i_mode (inodes s i).
Proof. intros [_ [l ->]]. rewrite seti_inodes. by case_decide; subst. Qed.

Lemma reread_touched s A s' A' Q' : reread s A s' A' Q' -> reread (touched s s') A s' A' Q'.
Proof.
  intros [H1 H2 H3 H4 H5]. split; [done|done|by destruct H3; split|done|].
  rewrite H5. destruct s, s'. unfold others in *. cbn in *. injection H5. intros. by subst.
Qed.

Lemma kept_content s A ip s' A' Q' dev blk : kept s A ip s' A' Q' -> dev <> NODEV -> agree 0 512 (content s' dev blk) (content s dev blk).
Proof. intros [[_ _ H _ _] _] Hn. by apply H. Qed.

Lemma kept_trans s A ip s1 A1 Q1 s2 A2 Q2 : kept s A ip s1 A1 Q1 -> kept s1 A1 ip s2 A2 Q2 -> kept s A ip s2 A2 Q2.
Proof.
  intros [[H1 H2 H3 H4 H5] [l Hl]] [[G1 G2 G3 G4 G5] [l' Hl']]. split.
  - split; [done|by rewrite G2| | |].
    + assert (same_blocks s s1) as E1 by (destruct H3; by split). assert (same_blocks s1 s2) as E2 by (destruct G3; by split).
      destruct (same_blocks_trans _ _ _ E1 E2). by split.
    + intros x Hx Hn. destruct (H4 x Hx Hn) as (E1&E2&E3&E4), (G4 x Hx ltac:(by rewrite H2)) as (F1&F2&F3&F4).
      rewrite F1, F2, F3, F4. done.
    + destruct s, s1, s2. unfold others in *. cbn in *. injection H5. injection G5. intros. by subst.
  - exists l'. rewrite Hl'. extensionality i. rewrite !seti_inodes, Hl, !seti_inodes. by repeat case_decide.
Qed.

Lemma resting_kept s A Q ip s' A' Q' : resting s A Q ip -> kept s A ip s' A' Q' -> no_resid s' -> resting s' A' Q' ip.
Proof.
  intros [R1 R2 R3 R4 R5 R6] K Hr. destruct (kept_inode _ _ _ _ _ _ ip K) as (Ed&_). pose proof K as [Kr _].
  split; rewrite ?Ed; try done.
  - apply Kr.
  - by rewrite (rr_avail _ _ _ _ _ Kr).
  - intros blk. exact (reread_unheld _ _ _ _ _ _ blk Kr (R4 blk)).
  - intros blk i Hi. rewrite (kept_content _ _ _ _ _ _ _ blk K (us_dev _ R3)) by done. by apply R6.
Qed.

(** A file reads the same as long as its inode has the same addresses and no block
    changes. *)
Lemma file_block_same s s' ip bn : same_blocks s s' -> usable (i_dev (inodes s ip)) -> i_dev (inodes s' ip) = i_dev (inodes s ip) ->
  i_addr (inodes s' ip) = i_addr (inodes s ip) -> file_block s' ip bn = file_block s ip bn.
Proof.
  intros H Us Ed Ea. unfold file_block. rewrite Ed, Ea. destruct (place bn) as [[[a k] x]|]; [|done].
  apply walk_agree; [|apply digits_range]. intros b. apply H, Us.
Qed.
Lemma file_byte_same s s' ip off : same_blocks s s' -> usable (i_dev (inodes s ip)) -> i_dev (inodes s' ip) = i_dev (inodes s ip) ->
  i_addr (inodes s' ip) = i_addr (inodes s ip) -> file_byte s' ip off = file_byte s ip off.
Proof.
  intros H Us Ed Ea. unfold file_byte. rewrite (file_block_same s s' ip) by done. rewrite Ed.
  destruct (file_block s ip (off / 512)) as [b|]; [|done]. destruct (b <? 0); [done|].
  apply H; [apply Us|]. pose proof (Z.mod_pos_bound off 512). lia.
Qed.
Lemma kept_same s A ip s' A' Q' : kept s A ip s' A' Q' -> same_blocks s s'.
Proof. intros [[_ _ [H1 H2] _ _] _]. by split. Qed.
Lemma file_byte_kept s A ip s' A' Q' off : kept s A ip s' A' Q' -> usable (i_dev (inodes s ip)) -> file_byte s' ip off = file_byte s ip off.
Proof. intros K Us. destruct (kept_inode _ _ _ _ _ _ ip K) as (Ed&Ea&_). apply file_byte_same; [by eapply kept_same|done..]. Qed.

(** ** One block *)

(** The three ways to get the buffer of a block to read. *)
Definition get_block (dev bn ra : Z) (next : bool) : M bptr :=
  if bn <? 0 then bp ← geteblk; clrbuf bp;; mret bp
  else if next then breada dev bn ra
  else bread dev bn.

(** A buffer for no block, cleared. *)
Lemma zero_block s A Q : cache s A Q -> A <> [] -> no_resid s ->
  exists b s' A' Q' bk, (bp ← geteblk; clrbuf bp;; mret bp) s = Ret b s' /\ granted s A NODEV bk b s' A' Q' /\ no_resid s' /\
    agree 0 512 (b_data (bufs s' b)) (fun _ => 0).
Proof.
  intros Hc HA Hr. destruct (geteblk_spec s A Q Hc HA) as (b&s1&A1&Q1&bk&E1&G1). rewrite (bind_ret _ _ _ _ _ E1).
  assert (no_resid s1) as Hr1 by (eapply whole_ret; [apply geteblk_quiet|exact Hr|exact E1]).
  unfold clrbuf. rewrite k_bind_bind. krun. fold (cleared b s1). pose proof G1 as [Hc1 Hb HA1 HP Hdv Hbk Has Hrl Hsb Hbz Ho].
  destruct (cleared_ok s1 A1 Q1 b Hc1 Hb HA1) as (Hc2&Hz&Hct&Hid).
  assert (b_flags (bufs (cleared b s1) b) = b_flags (bufs s1 b)) as Ef by (unfold cleared; by rewrite !(setb_keep b_flags)).
  exists b, (cleared b s1), A1, Q1, bk. split; [done|]. split; [|split; [|done]].
  - eapply granted_later; [exact G1|done| |done| |done|by rewrite Ef|].
    + split; intros dv blk Hn; [|by left]. rewrite Hct by (rewrite Hdv; by intros [-> _]). done.
    + intros x Hx. unfold cleared. by rewrite !setb_ne.
    + destruct Hrl as [Hrl _]. split; rewrite Ef; destruct (Hid b) as [-> _]; [exact Hrl|]. by rewrite Hdv.
  - intros x. unfold cleared. destruct (decide (b = x)) as [<-|Hx]; [by rewrite setb_eq|rewrite !setb_ne by done; apply Hr1].
Qed.

Lemma get_block_ok s A Q dev bn ra next :
  cache s A Q -> (2 <= length A)%nat -> usable dev -> (forall blk, unheld s A dev blk) -> no_resid s ->
  exists b s' A' Q' dv bk, get_block dev bn ra next s = Ret b s' /\ granted s A dv bk b s' A' Q' /\ no_resid s' /\
    agree 0 512 (b_data (bufs s' b)) (if bn <? 0 then fun _ => 0 else content s dev bn).
Proof.
  intros Hc HA Us Hu Hr. assert (A <> []) as HA0 by (by destruct A; cbn in HA; [lia|]). unfold get_block. destruct (bn <? 0).
  { destruct (zero_block s A Q Hc HA0 Hr) as (b&s'&A'&Q'&bk&H). by exists b, s', A', Q', NODEV, bk. }
  pose proof Us as [Hn Ht Hmj]. destruct next.
  - destruct (breada_spec s A Q dev bn ra Hc HA Us (Hu bn)) as (b&s'&A'&Q'&E&G&_&D).
    exists b, s', A', Q', dev, bn. split_and!; try done. eapply whole_ret; [apply breada_quiet|exact Hr|exact E].
  - destruct (bread_spec s A Q dev bn Hc HA0 Hn Ht Hmj (Hu bn)) as (b&s'&A'&Q'&E&G&_&D).
    exists b, s', A', Q', dev, bn. split_and!; try done. eapply whole_ret; [apply bread_quiet|exact Hr|exact E].
Qed.

(** ** One turn of the loop *)

(** The counters of a read that has something left to do. *)
Record wanted (us : user) : Prop := {
  wa_error : u_error us = 0;
  wa_seg : u_segflg us <> 1;
  wa_offset : 0 <= u_offset us < 2147483648;
  wa_count : 0 < u_count us < 65536;
  wa_base : 0 <= u_base us /\ u_base us + u_count us < 4294967296
}.

Lemma min_small a b : 0 <= a < 4294967296 -> 0 <= b < 4294967296 -> min a b = Z.min a b.
Proof. intros Ha Hb. unfold min. rewrite !u32_id by done. destruct (a <? b) eqn:E; lia. Qed.

Lemma split_offset_ok us : wanted us ->
  split_offset us = (u_offset us / 512, u_offset us mod 512, Z.min (512 - u_offset us mod 512) (u_count us)).
Proof.
  intros [_ _ Ho Hc _]. unfold split_offset, BMASK, BSHIFT, BSIZE. change 511 with (Z.ones 9).
  rewrite Z.land_ones, Z.shiftr_div_pow2 by lia. change (2 ^ 9) with 512.
  pose proof (Z.mod_pos_bound (u_offset us) 512). by rewrite min_small by lia.
Qed.

Lemma file_byte_block s ip bn i : 0 <= i < 512 ->
  file_byte s ip (512 * bn + i) =
  (if default (-1) (file_block s ip bn) <? 0 then fun _ => 0 else content s (i_dev (inodes s ip)) (default (-1) (file_block s ip bn))) i.
Proof.
  intros Hi. unfold file_byte. rewrite Z.mul_comm, Z.div_add_l, Z.div_small, Z.add_0_r by lia.
  destruct (file_block s ip bn) as [b|]; cbn [from_option id]; [|done]. destruct (b <? 0); [done|].
  rewrite Z.add_comm, Z.mod_add, Z.mod_small by lia. done.
Qed.

(** What [touched] leaves alone. *)
Lemma touched_others s s1 t : others s1 = others s -> others (touched s1 t) = others (touched s t).
Proof. destruct s, s1. unfold others in *. cbn in *. intros H. injection H. intros. by subst. Qed.
Lemma reread_touch s A s1 A1 Q1 t : reread s A s1 A1 Q1 -> reread (touched s t) A (touched s1 t) A1 Q1.
Proof. intros H. eapply reread_frame; [exact H|done..|]. apply touched_others, H. Qed.
Lemma granted_touch s A dv bk b s1 A1 Q1 t : granted s A dv bk b s1 A1 Q1 -> granted (touched s t) A dv bk b (touched s1 t) A1 Q1.
Proof. intros H. eapply granted_frame; [exact H|done..|]. apply touched_others, H. Qed.

(** The second half of a turn: the bytes are moved and the buffer released. *)
Definition deliver (ip lbn on n dev : Z) (bp : bptr) : M (Z + unit) :=
  modi ip (fun r => r <| i_lastr := lbn |>);;
  b ← getb bp;
  let n := min n (BSIZE - b_resid b) in
  when (negb (n =? 0)) (iomove bp on n B_READ);;
  brelse bp;;
  us ← getu;
  mret (if (u_error us =? 0) && negb (u_count us =? 0) && (0 <? n) then inl dev else inr tt).

Lemma deliver_ok s A dv bk bp s1 A1 Q1 ip lbn on n dev :
  granted s A dv bk bp s1 A1 Q1 -> no_resid s1 -> transfer_ok (u s1) n -> 0 < n <= 512 -> u_error (u s1) = 0 ->
  bytes_in on n (b_data (bufs s1 bp)) ->
  exists s2 A2, deliver ip lbn on n dev bp s1 = Ret (if u_count (u s1) - n =? 0 then inr tt else inl dev) s2 /\
    reread (touched s s2) A s2 A2 Q1 /\ no_resid s2 /\
    inodes s2 = inodes (seti ip (fun r => r <| i_lastr := lbn |>) s1) /\ u s2 = advanced n (u s1) /\
    umem s2 = mcopy (b_data (bufs s1 bp)) on (umem s1) (u_base (u s1)) n.
Proof.
  intros G Hr Ht Hn He Hb. pose proof G as [Hc1 Hib HA1 HP Hdv Hbk Has Hrl Hsb Hbz Ho]. unfold deliver. krun.
  set (s2 := seti ip _ s1). change (bufs s2) with (bufs s1). rewrite (Hr bp). change (BSIZE - 0) with 512.
  rewrite min_small, Z.min_l by lia. replace (n =? 0) with false by lia. cbn [negb when].
  rewrite (bind_ret _ _ _ _ _ (iomove_ok bp on n B_READ s2 Ht Hb)). change (B_READ =? 0) with false. cbv iota.
  set (s3 := moved_out bp on n s2). assert (bufs s3 = bufs s1 /\ disk s3 = disk s1) as [Eb3 Ed3] by done.
  assert (granted (touched s s3) A dv bk bp s3 A1 Q1) as G3.
  { pose proof (granted_touch _ _ _ _ _ _ _ _ s3 G) as Gt. eapply granted_frame; [exact Gt|done..|].
    rewrite <- (g_others _ _ _ _ _ _ _ _ Gt). by destruct s1. }
  destruct (granted_brelse _ _ _ _ _ _ _ _ G3) as (s4&A4&E4&Hr4&Ho4).
  assert (u s4 = advanced n (u s1) /\ umem s4 = mcopy (b_data (bufs s1 bp)) on (umem s1) (u_base (u s1)) n /\
    inodes s4 = inodes s2 /\ rablock s4 = rablock s2) as (Eu&Em&Ei&Era) by (unfold others in Ho4; by injection Ho4 as -> _ _ _ -> _ _ -> _ _ -> _).
  rewrite (bind_ret _ _ _ _ _ E4). krun. rewrite Eu.
  change (u_error (advanced n (u s1))) with (u_error (u s1)). change (u_count (advanced n (u s1))) with (u16 (u_count (u s1) - n)).
  rewrite u16_id, He by (destruct Ht; lia). replace (0 <? n) with true by lia. cbn [Z.eqb andb]. rewrite andb_true_r.
  exists s4, A4. split; [by destruct (_ =? 0)|]. split; [|split; [|done]].
  - replace (touched s s4) with (touched s s3); [exact Hr4|]. unfold touched. by rewrite Eu, Em, Ei, Era.
  - eapply whole_ret; [apply brelse_quiet| |exact E4]. done.
Qed.

Lemma place_some bn : 0 <= bn < 2113674 -> exists a k x, place bn = Some (a, k, x).
Proof.
  intros Hb. unfold place. change (128 ^ 2) with 16384. change (128 ^ 3) with 2097152.
  repeat case_match; try lia; by eexists _, _, _.
Qed.

(** The most bytes that a file can have. *)
Definition MAXFILE : Z := 2113674 * 512.

(** What a turn moves. *)
Definition turn_bytes (us : user) (size : Z) : Z :=
  Z.min (Z.min (512 - u_offset us mod 512) (u_count us)) (size - u_offset us).

(** The block of the next turn. *)
Lemma readi_block_ok s A Q ip type dev0 : resting s A Q ip -> wanted (u s) -> type <> IFBLK ->
  u_offset (u s) < i_size (inodes s ip) <= MAXFILE ->
  exists s1 A1 Q1, readi_block ip type dev0 (u_offset (u s) / 512) (Z.min (512 - u_offset (u s) mod 512) (u_count (u s))) s =
      Ret (Some (i_dev (inodes s ip), default (-1) (file_block s ip (u_offset (u s) / 512)), turn_bytes (u s) (i_size (inodes s ip)))) s1 /\
    reread (touched s s1) A s1 A1 Q1 /\ u s1 = u s /\ umem s1 = umem s /\ inodes s1 = inodes s /\ no_resid s1.
Proof.
  intros [R1 R2 R3 R4 R5 R6] [We Ws Wo Wc Wb] Ht Hsz. unfold MAXFILE in Hsz. set (bn := u_offset (u s) / 512).
  assert (0 <= bn < 2113674) as Hbn by (unfold bn; Z.div_mod_to_equations; lia). destruct (place_some bn Hbn) as (a&k&x&Hp).
  assert (A <> []) as HA by (by destruct A; cbn in R2; [lia|]).
  destruct (bmap_ok ip bn B_READ s A Q a k x R1 HA R3 (proj1 Hbn) Hp (or_introl eq_refl) (fun b _ => R4 b)) as (s1&A1&Q1&E1&Hr1).
  unfold readi_block. rewrite (proj2 (Z.eqb_neq _ _) Ht). krun. rewrite s32_id by lia.
  replace (_ - u_offset (u s) <=? 0) with false by lia. pose proof (rr_others _ _ _ _ _ Hr1) as Ho.
  assert (u s1 = u s /\ umem s1 = umem s /\ inodes s1 = inodes s) as (Eu&Em&Ei).
  { unfold others in Ho. by injection Ho as -> _ _ _ -> _ _ _ _ -> _. }
  rewrite (bind_ret _ _ _ _ _ E1). krun. rewrite Eu, We. cbn [Z.eqb negb]. krun. rewrite Ei.
  exists s1, A1, Q1. split; [|split; [|split_and!; try done]].
  - unfold file_block. rewrite Hp. unfold turn_bytes. do 4 f_equal. case_match; lia.
  - apply (reread_touch _ _ _ _ _ s1) in Hr1. replace (touched s1 s1) with s1 in Hr1 by (by destruct s1). exact Hr1.
  - eapply whole_ret; [apply bmap_whole|exact R5|exact E1].
Qed.

(** One turn moves what it can of the block and goes on if more is wanted. *)
Lemma readi_turn_ok s A Q ip type dev0 : resting s A Q ip -> wanted (u s) -> type <> IFBLK ->
  u_offset (u s) < i_size (inodes s ip) <= MAXFILE ->
  let n := turn_bytes (u s) (i_size (inodes s ip)) in
  exists s' A' Q', readi_turn ip type dev0 s = Ret (if u_count (u s) - n =? 0 then inr tt else inl (i_dev (inodes s ip))) s' /\
    kept s A ip s' A' Q' /\ no_resid s' /\ u s' = advanced n (u s) /\
    umem s' = from_file s ip (u_offset (u s)) (u_base (u s)) n (umem s).
Proof.
  intros R W Ht Hsz n. pose proof R as [R1 R2 R3 R4 R5 R6]. pose proof W as [We Ws Wo Wc Wb].
  pose proof (Z.mod_pos_bound (u_offset (u s)) 512) as Hm. pose proof (Z.div_mod (u_offset (u s)) 512) as Hdm.
  assert (0 < n <= 512 /\ n <= u_count (u s) /\ u_offset (u s) mod 512 + n <= 512) as (Hn&Hnc&Hon) by (unfold n, turn_bytes; lia).
  destruct (readi_block_ok s A Q ip type dev0 R W Ht Hsz) as (s1&A1&Q1&E1&Hr1&Eu1&Em1&Ei1&Hw1). fold n in E1.
  set (dev := i_dev (inodes s ip)) in *. set (bn := default (-1) _) in E1.
  destruct (get_block_ok s1 A1 Q1 dev bn (rablock s1) (s32 (i_lastr (inodes s1 ip) + 1) =? u_offset (u s) / 512))
    as (bp&s2&A2&Q2&dv&bk&E2&G2&Hw2&Hd2); [apply Hr1|by rewrite (rr_avail _ _ _ _ _ Hr1)|done| |done|].
  { intros blk. exact (reread_unheld _ _ _ _ _ _ blk Hr1 (R4 blk)). }
  pose proof (g_others _ _ _ _ _ _ _ _ G2) as Ho2.
  assert (u s2 = u s /\ umem s2 = umem s /\ inodes s2 = inodes s) as (Eu2&Em2&Ei2).
  { rewrite <- Eu1, <- Em1, <- Ei1. unfold others in Ho2. by injection Ho2 as -> _ _ _ -> _ _ _ _ _ -> _. }
  assert (agree 0 512 (b_data (bufs s2 bp)) (fun i => file_byte s ip (512 * (u_offset (u s) / 512) + i))) as Hdat.
  { intros i Hi. rewrite Hd2, file_byte_block by done. fold dev bn. destruct (bn <? 0); [done|].
    by apply (sb_content _ _ (rr_blocks _ _ _ _ _ Hr1) dev bn (us_dev _ R3)). }
  destruct (deliver_ok s1 A1 dv bk bp s2 A2 Q2 ip (u_offset (u s) / 512) (u_offset (u s) mod 512) n dev)
    as (s3&A3&E3&Hr3&Hw3&Ei3&Eu3&Em3); [done|done|rewrite Eu2; split; done || lia|done|by rewrite Eu2| |].
  { intros i Hi. rewrite Hdat, file_byte_block by lia. fold dev bn. destruct (bn <? 0); [lia|]. apply R6. lia. }
  rewrite Eu2 in *. rewrite Em2 in Em3.
  exists s3, A3, Q2. split; [|split; [split|split; [done|split; [done|]]]].
  - unfold readi_turn. krun. rewrite split_offset_ok by done. rewrite (bind_ret _ _ _ _ _ E1). krun.
    fold (get_block dev bn (rablock s1) (s32 (i_lastr (inodes s1 ip) + 1) =? u_offset (u s) / 512)).
    rewrite (bind_ret _ _ _ _ _ E2). exact E3.
  - eapply reread_trans; [|exact Hr3]. exact (reread_touch _ _ _ _ _ s3 Hr1).
  - exists (u_offset (u s) / 512). rewrite Ei3. unfold seti. cbn. by rewrite Ei2.
  - rewrite Em3. extensionality a. unfold mcopy, from_file. case_bool_decide; [|done].
    rewrite Hdat by lia. f_equal. lia.
Qed.

(** ** The loop *)

Lemma advanced_fields us n : wanted us -> 0 <= n <= u_count us -> u_offset us + n < 2147483648 ->
  u_base (advanced n us) = u_base us + n /\ u_offset (advanced n us) = u_offset us + n /\ u_count (advanced n us) = u_count us - n.
Proof. intros [_ _ Ho Hc Hb] Hn Hs. cbn. rewrite u32_id, s32_id, u16_id by lia. done. Qed.

Lemma advanced_add us n m : wanted us -> 0 <= n <= u_count us -> u_offset us + n < 2147483648 ->
  advanced m (advanced n us) = advanced (n + m) us.
Proof.
  intros W Hn Hs. destruct (advanced_fields us n W Hn Hs) as (Eb&Eo&Ec). cbn in Eb, Eo, Ec.
  apply user_ext; [done|..]; cbn; rewrite ?Eb, ?Eo, ?Ec; f_equal; lia.
Qed.

Lemma advanced_wanted us n : wanted us -> 0 <= n < u_count us -> u_offset us + n < 2147483648 -> wanted (advanced n us).
Proof.
  intros W Hn Hs. destruct (advanced_fields us n W ltac:(lia) Hs) as (Eb&Eo&Ec). destruct W as [We Ws Wo Wc Wb].
  split; rewrite ?Eb, ?Eo, ?Ec; try done; lia.
Qed.

Lemma from_file_add s ip s1 off base n m M : 0 <= n -> 0 <= m -> (forall o, file_byte s1 ip o = file_byte s ip o) ->
  from_file s1 ip (off + n) (base + n) m (from_file s ip off base n M) = from_file s ip off base (n + m) M.
Proof.
  intros Hn Hm Hf. extensionality a. unfold from_file.
  repeat case_bool_decide; try lia. rewrite Hf. f_equal. lia.
Qed.

(** At the end of the file a turn does nothing. *)
Lemma readi_turn_end s ip type dev0 : wanted (u s) -> type <> IFBLK -> -2147483648 <= i_size (inodes s ip) <= u_offset (u s) ->
  -2147483648 <= i_size (inodes s ip) - u_offset (u s) ->
  readi_turn ip type dev0 s = Ret (inr tt) s.
Proof.
  intros W Ht Hs Hs2. pose proof W as [_ _ Wo _ _]. unfold readi_turn. krun. rewrite split_offset_ok by done.
  unfold readi_block. rewrite (proj2 (Z.eqb_neq _ _) Ht). rewrite k_bind_bind. krun. rewrite k_bind_bind. krun.
  rewrite s32_id by lia. by replace (_ - u_offset (u s) <=? 0) with true by lia.
Qed.

Lemma readi_loop (k : nat) s A Q ip type dev0 f : resting s A Q ip -> wanted (u s) -> type <> IFBLK ->
  u_offset (u s) < i_size (inodes s ip) <= MAXFILE ->
  u_offset (u s) mod 512 + u_count (u s) <= 512 * Z.of_nat k -> (k < f)%nat ->
  let n := Z.min (u_count (u s)) (i_size (inodes s ip) - u_offset (u s)) in
  exists s' A' Q', iter f (readi_turn ip type) dev0 s = Ret tt s' /\
    kept s A ip s' A' Q' /\ no_resid s' /\ u s' = advanced n (u s) /\
    umem s' = from_file s ip (u_offset (u s)) (u_base (u s)) n (umem s).
Proof.
  revert s A Q dev0 f. induction k as [|k IH]; intros s A Q dev0 f R W Ht Hsz Hk Hf n.
  { pose proof (wa_count _ W). pose proof (Z.mod_pos_bound (u_offset (u s)) 512). lia. }
  destruct f as [|f]; [lia|]. pose proof W as [We Ws Wo Wc Wb]. unfold MAXFILE in Hsz.
  pose proof (Z.mod_pos_bound (u_offset (u s)) 512 ltac:(lia)) as Hm. pose proof (Z.div_mod (u_offset (u s)) 512 ltac:(lia)) as Hdm.
  destruct (readi_turn_ok s A Q ip type dev0 R W Ht Hsz) as (s1&A1&Q1&E1&K1&Hw1&Eu1&Em1).
  set (n1 := turn_bytes (u s) (i_size (inodes s ip))) in *.
  assert (0 < n1 <= u_count (u s) /\ u_offset (u s) + n1 < 2147483648) as (Hn1&Hs1) by (unfold n1, turn_bytes; lia).
  destruct (u_count (u s) - n1 =? 0) eqn:Ec.
  { exists s1, A1, Q1. assert (n = n1) as -> by (unfold n, n1, turn_bytes in *; lia). split_and!; try done. by apply k_iter_inr. }
  pose proof (resting_kept _ _ _ _ _ _ _ R K1 Hw1) as R1. destruct (kept_inode _ _ _ _ _ _ ip K1) as (Ed1&_&Ei1&_).
  assert (wanted (u s1)) as W1 by (rewrite Eu1; apply advanced_wanted; [done|lia|done]).
  destruct (advanced_fields (u s) n1 W) as (Eb&Eo&Ect); [lia|done|]. rewrite <- Eu1 in Eb, Eo, Ect.
  erewrite k_iter_inl by exact E1.
  destruct (decide (i_size (inodes s ip) <= u_offset (u s) + n1)) as [He|He].
  - destruct f as [|f]; [unfold n1, turn_bytes in *; lia|].
    exists s1, A1, Q1. assert (n = n1) as -> by (unfold n, n1, turn_bytes in *; lia). split_and!; try done.
    apply k_iter_inr. apply readi_turn_end; rewrite ?Ei1, ?Eo; try done; lia.
  - assert (n1 = 512 - u_offset (u s) mod 512) as En1 by (unfold n1, turn_bytes in *; lia).
    assert ((u_offset (u s) + n1) mod 512 = 0) as Hz by (rewrite En1; Z.div_mod_to_equations; lia).
    destruct (IH s1 A1 Q1 (i_dev (inodes s ip)) f R1 W1 Ht) as (s2&A2&Q2&E2&K2&Hw2&Eu2&Em2);
      [rewrite Ei1, Eo; unfold MAXFILE; lia|rewrite Eo, Ect, Hz; lia|lia|].
    rewrite Ei1, Eo, Ect in *. rewrite Eb in Em2.
    exists s2, A2, Q2. split; [done|]. split; [by eapply kept_trans|]. split; [done|]. split.
    + rewrite Eu2, Eu1, advanced_add by (done || lia). f_equal. unfold n. lia.
    + rewrite Em2, Em1, from_file_add.
      * f_equal. unfold n. lia.
      * lia.
      * lia.
      * intros o. eapply file_byte_kept; [exact K1|apply R].
Qed.

(** ** readi *)

(** [readi] has moved the [n] bytes from the offset on to the user's base. *)
Record has_read (s : kst) (A : list bptr) (ip n : Z) (s' : kst) (A' : list bptr) (Q' : bptr -> list bptr) : Prop := {
  hr_umem : umem s' = from_file s ip (u_offset (u s)) (u_base (u s)) n (umem s);
  hr_user : u s' = advanced n (u s);
  hr_inode : exists l, inodes s' = inodes (seti ip (fun r => r <| i_flag ::= fun f => setf f IACC |> <| i_lastr := l |>) s);
  hr_rest : reread (touched s s') A s' A' Q';
  hr_whole : no_resid s'
}.

Lemma readi_ok s A Q ip : resting s A Q ip -> wanted (u s) -> 0 <= i_size (inodes s ip) <= MAXFILE ->
  Z.land (i_mode (inodes s ip)) IFMT <> IFCHR -> Z.land (i_mode (inodes s ip)) IFMT <> IFBLK ->
  exists s' A' Q', readi ip s = Ret tt s' /\
    has_read s A ip (Z.max 0 (Z.min (u_count (u s)) (i_size (inodes s ip) - u_offset (u s)))) s' A' Q'.
Proof.
  intros R W Hsz Hchr Hblk. pose proof W as [We Ws Wo Wc Wb]. set (n := Z.max 0 _).
  unfold readi. krun. replace (u_count (u s) =? 0) with false by lia. replace (u_offset (u s) <? 0) with false by lia.
  set (F := fun r : inode => r <| i_flag ::= fun f => setf f IACC |>). krun. fold F. set (s0 := seti ip F s).
  assert (inodes s0 ip = F (inodes s ip)) as Ei by (unfold s0; by rewrite seti_inodes, decide_True).
  change (u s0) with (u s) in *. rewrite Ei. change (i_mode (F (inodes s ip))) with (i_mode (inodes s ip)).
  rewrite (proj2 (Z.eqb_neq _ _) Hchr).
  assert (resting s0 A Q ip) as R0.
  { destruct R as [R1 R2 R3 R4 R5 R6]. split; rewrite ?Ei; try done. by eapply cache_bufs. }
  assert (forall o, file_byte s0 ip o = file_byte s ip o) as Hfb by (intros o; unfold file_byte, file_block; by rewrite Ei).
  assert (forall s' l, inodes s' = inodes (seti ip (fun r => r <| i_lastr := l |>) s0) ->
    inodes s' = inodes (seti ip (fun r => r <| i_flag ::= fun f => setf f IACC |> <| i_lastr := l |>) s)) as Hin.
  { intros s' l ->. extensionality i. unfold s0. rewrite !seti_inodes. by repeat case_decide. }
  destruct (decide (i_size (inodes s ip) <= u_offset (u s))) as [He|He].
  - assert (n = 0) as -> by (unfold n; lia). pose proof enough_fuel. destruct fuel as [|f]; [lia|].
    exists s0, A, Q. split.
    + apply k_iter_inr. apply readi_turn_end; rewrite ?Ei; try done;
        change (i_size (F (inodes s ip))) with (i_size (inodes s ip)); change (u s0) with (u s); lia.
    + split; [|change (u s0) with (u s); symmetry; apply advanced_0; split; done || lia| | |apply R].
      * extensionality a. unfold from_file. by rewrite bool_decide_eq_false_2 by lia.
      * exists (i_lastr (inodes s ip)). apply Hin. extensionality i. rewrite seti_inodes.
        case_decide as E; [subst i|done]. by rewrite Ei.
      * replace (touched s s0) with s0 by (by destruct s). apply reread_refl. apply R0.
  - destruct (readi_loop 129 s0 A Q ip (Z.land (i_mode (inodes s ip)) IFMT) (i_rdev (F (inodes s ip))) fuel R0 W Hblk)
      as (s'&A'&Q'&E'&K'&Hw'&Eu'&Em'); [rewrite Ei; change (i_size (F (inodes s ip))) with (i_size (inodes s ip)); change (u s0) with (u s); lia|
        change (u s0) with (u s); Z.div_mod_to_equations; lia|pose proof enough_fuel; lia|].
    rewrite Ei in *. change (i_size (F (inodes s ip))) with (i_size (inodes s ip)) in *. change (u s0) with (u s) in *.
    assert (Z.min (u_count (u s)) (i_size (inodes s ip) - u_offset (u s)) = n) as En by (unfold n; lia). rewrite En in *.
    exists s', A', Q'. split; [done|]. destruct K' as [Kr [l Kl]]. split; try done.
    + rewrite Em'. extensionality a. unfold from_file. by rewrite Hfb.
    + exists l. by apply Hin.
Qed.

(** ** Properties *)

(** C9: [readi] returns, and has put in the user's memory the bytes of the file
    from the offset on, as the inode, the indirect blocks and the cache define
    them, with zeros for holes: as many as were asked for or are left in the
    file.  The counters have advanced by that number; the inode is marked as
    accessed; no block has changed, and no buffer is left held. *)
Theorem readi_reads s A Q ip : resting s A Q ip -> wanted (u s) -> 0 <= i_size (inodes s ip) <= MAXFILE ->
  Z.land (i_mode (inodes s ip)) IFMT <> IFCHR -> Z.land (i_mode (inodes s ip)) IFMT <> IFBLK ->
  exists s' A' Q', readi ip s = Ret tt s' /\
    has_read s A ip (Z.max 0 (Z.min (u_count (u s)) (i_size (inodes s ip) - u_offset (u s)))) s' A' Q'.
Proof. apply readi_ok. Qed.
End code.

(** ** A concrete file *)

#[local] Existing Instances ramdisk rounds ramdisk_sync.

Definition still : Devices := ramdisk_with (fun _ _ => mret tt).
Lemma still_whole : WholeDriver (DV := still).
Proof. split; intros; apply pres_ret. Qed.
Lemma ramdisk_whole : WholeDriver.
Proof.
  split; [|intros bp; apply pres_ret]. intros maj bp s Hs.
  assert (no_resid (transfer bp s)) as Ht.
  { unfold transfer. destruct (has _ _); [|done]. intros x. rewrite (setb_keep b_resid) by done. apply Hs. }
  exact (iodone_quiet (QJ := whole_quiet (WD := still_whole)) bp _ Ht).
Qed.
#[local] Existing Instance ramdisk_whole.

(** What [binit] makes of any state without residual counts. *)
Lemma binit_whole s s' : no_resid s -> binit s = Ret tt s' -> no_resid s'.
Proof. intros Hs. apply whole_ret; [|done]. unfold binit, binit_buf, binit_dev. pres_tac. Qed.

Lemma booted_whole : no_resid booted.
Proof.
  destruct (binit_spec blank) as (s'&E&_); [done|intros maj ->%Z.eqb_eq; done|].
  assert (booted = s') as -> by (unfold booted; by rewrite E).
  exact (binit_whole blank s' (fun b => eq_refl) E).
Qed.

Lemma booted_content blk : content booted 0 blk = fun _ => u8 blk.
Proof.
  destruct booted_cache as (_&Hd&Hk). rewrite content_disk, Hk; [reflexivity|]. intros b Hb.
  destruct (holds booted 0 blk b) eqn:E; [|done]. apply holds_true in E as (E&_). by rewrite Hd in E.
Qed.

(** A process that reads 600 bytes at offset 100 of inode 3, which has blocks 5
    and 6 and 700 bytes. *)
Definition reader : kst :=
  setu (fun r => r <| u_offset := 100 |> <| u_count := 600 |> <| u_base := 4096 |>)
    (seti 3 (fun r => r <| i_mode := IFREG |> <| i_size := 700 |> <| i_addr @ 0 := 5 |> <| i_addr @ 1 := 6 |>) booted).

Lemma resting_booted ip f g : i_dev (f (inodes booted ip)) = 0 -> resting (setu g (seti ip f booted)) bufl bqueues ip.
Proof.
  apply resting_set; [exact (proj1 booted_cache)|vm_compute; lia|apply usable_0|exact booted_unheld|exact booted_whole|].
  intros blk. rewrite booted_content. intros i _. apply u8_range.
Qed.

Lemma readi_reads_witness :
  exists s' A' Q', readi 3 reader = Ret tt s' /\ has_read reader bufl 3 600 s' A' Q'.
Proof.
  assert (inodes booted 3 = zinode /\ u booted = zuser) as [Ez Ezu] by (vm_compute; split; reflexivity).
  assert (u reader = zuser <| u_offset := 100 |> <| u_count := 600 |> <| u_base := 4096 |>) as Eu
    by (rewrite <- Ezu; exact (set_user booted 3 _ _)).
  assert (inodes reader 3 = zinode <| i_mode := IFREG |> <| i_size := 700 |> <| i_addr @ 0 := 5 |> <| i_addr @ 1 := 6 |>) as Ei
    by (rewrite <- Ez; exact (set_inode booted 3 _ _)).
  pose proof (readi_reads reader bufl bqueues 3) as W. rewrite Ei, Eu in W. apply W.
  - apply resting_booted. rewrite Ez. reflexivity.
  - split; vm_compute; repeat split; discriminate || reflexivity.
  - vm_compute. split; discriminate.
  - vm_compute. discriminate.
  - vm_compute. discriminate.
Defined.
End Readi.
