(* ===== verification/Writei.v ===== *)
(** * Writei: what writing a file does (src/usr/sys/sys/rdwri.c)

    A file whose blocks are all there, in blocks of their own, is overwritten:
    the bytes that [writei] is given are the file's bytes afterwards, and
    [readi] gives them back. *)
From Stdlib Require Import FunctionalExtensionality.
From S2P Require Import Prelude Kmonad Kernel Bio Quiet Ahead Alloc Rdwri Readi.
Import Bio Quiet Ahead Alloc Rdwri Readi.

Module Writei.

Section code.
  Context `{DV : Devices} `{FL : Fuel} `{SD : !SyncDriver} `{WD : !WholeDriver}.

(** ** One turn of the loop *)

(** What a write up to [e] makes of the inode. *)
Definition grown (e : Z) (r : inode) : inode :=
  r <| i_size := if i_size r <? e then e else i_size r |> <| i_flag ::= fun f => setf f (Z.lor IUPD ICHG) |>.

(** Block [b] of the file's device has been given [n] bytes of the user's, at [on]. *)
Record block_written (s : kst) (A : list bptr) (ip b on n : Z) (s' : kst) (A' : list bptr) (Q' : bptr -> list bptr) : Prop := {
  bw_cache : cache s' A' Q';
  bw_avail : A' ≡ₚ A;
  bw_busy : same_busy s A s';
  bw_blocks : blocks_set s s' (i_dev (inodes s ip)) b (mcopy (umem s) (u_base (u s)) (content s (i_dev (inodes s ip)) b) on n);
  bw_user : u s' = advanced n (u s);
  bw_umem : umem s' = umem s;
  bw_inode : inodes s' = inodes (seti ip (grown (u_offset (u s) + n)) s);
  bw_others : others s' = others (touched s s');
  bw_whole : no_resid s'
}.

Lemma mcopy_agree_under src o m m' a n : agree 0 512 m m' -> agree 0 512 (mcopy src o m a n) (mcopy src o m' a n).
Proof. intros H i Hi. unfold mcopy. case_bool_decide; [done|]. by apply H. Qed.
Lemma mcopy_full src o m m' : agree 0 512 (mcopy src o m 0 512) (mcopy src o m' 0 512).
Proof. intros i Hi. unfold mcopy. by rewrite bool_decide_eq_true_2 by lia. Qed.

(** The buffer to write in: its old contents is needed only if part of it stays. *)
Lemma write_buffer s A Q dev b src base on n :
  cache s A Q -> A <> [] -> usable dev -> unheld s A dev b -> no_resid s -> 0 <= on -> 0 <= n -> on + n <= 512 ->
  exists bp s' A' Q', (if n =? BSIZE then getblk dev b else bread dev b) s = Ret bp s' /\ granted s A dev b bp s' A' Q' /\ no_resid s' /\
    agree 0 512 (mcopy src base (b_data (bufs s' bp)) on n) (mcopy src base (content s dev b) on n).
Proof.
  intros Hc HA [Hn Ht Hmj] Hu Hr Ho Hn0 Hon. destruct (Z.eqb_spec n BSIZE) as [->|_].
  - destruct (getblk_spec s A Q dev b Hc HA Hn Ht Hmj Hu) as (bp&s'&A'&Q'&E&G). exists bp, s', A', Q'. split_and!; try done.
    + eapply whole_ret; [apply getblk_quiet|exact Hr|exact E].
    + assert (on = 0) as -> by (unfold BSIZE in Hon; lia). apply mcopy_full.
  - destruct (bread_spec s A Q dev b Hc HA Hn Ht Hmj Hu) as (bp&s'&A'&Q'&E&G&_&D). exists bp, s', A', Q'. split_and!; try done.
    + eapply whole_ret; [apply bread_quiet|exact Hr|exact E].
    + by apply mcopy_agree_under.
Qed.

(** The rest of a turn: the bytes are moved, the buffer is released to be written
    later, the inode is marked. *)
Definition store (ip type on n dev : Z) (bp : bptr) : M (Z + unit) :=
  iomove bp on n 0;;
  us ← getu;
  (if negb (u_error us =? 0) then brelse bp else bdwrite bp);;
  us ← getu;
  r ← geti ip;
  when ((i_size r <? u_offset us) && ((type =? IFDIR) || (type =? IFREG)))
    (modi ip (fun r => r <| i_size := u_offset us |>));;
  modi ip (fun r => r <| i_flag ::= fun f => setf f (Z.lor IUPD ICHG) |>);;
  us ← getu;
  mret (if (u_error us =? 0) && negb (u_count us =? 0) then inl dev else inr tt).

Lemma store_ok s A dev b bp s1 A1 Q1 ip type on n :
  granted s A dev b bp s1 A1 Q1 -> no_resid s1 -> dev <> NODEV -> transfer_ok (u s1) n -> u_error (u s1) = 0 ->
  bytes_in (u_base (u s1)) n (umem s1) -> type = IFDIR \/ type = IFREG ->
  -2147483648 <= u_offset (u s1) + n < 2147483648 ->
  exists s2 A2, store ip type on n dev bp s1 = Ret (if u_count (u s1) - n =? 0 then inr tt else inl dev) s2 /\
    cache s2 A2 Q1 /\ A2 ≡ₚ A /\ same_busy s A s2 /\
    blocks_set s s2 dev b (mcopy (umem s1) (u_base (u s1)) (b_data (bufs s1 bp)) on n) /\
    u s2 = advanced n (u s1) /\ umem s2 = umem s1 /\ inodes s2 = inodes (seti ip (grown (u_offset (u s1) + n)) s1) /\
    others s2 = others (touched s1 s2) /\ no_resid s2.
Proof.
  intros G Hr Hdv Ht He Hum Hty Hend. pose proof G as [Hc1 Hib HA1 HP Ed Eb Has Hrl Hsb Hbz Ho]. unfold store.
  rewrite (bind_ret _ _ _ _ _ (iomove_ok bp on n 0 s1 Ht Hum)). cbn [Z.eqb]. krun. set (s2 := moved_in bp on n s1).
  set (g := fun m => mcopy (umem s1) (u_base (u s1)) m on n).
  assert (u s2 = advanced n (u s1) /\ umem s2 = umem s1 /\ inodes s2 = inodes s1 /\ rablock s2 = rablock s1) as (Eu2&Em2&Ei2&Era2) by done.
  change (u_error (u s2)) with (u_error (u s1)). rewrite He. cbn [Z.eqb negb].
  assert (bufs s2 = bufs (setb bp (fun r => r <| b_data ::= g |>) s1) /\ disk s2 = disk s1) as [Eb2 Ek2] by done.
  assert (cache s2 A1 Q1) as Hc2 by (eapply cache_bufs; [exact (set_data_cache s1 A1 Q1 bp g Hc1 Hib HA1)|done|done]).
  assert (bufs s2 bp = (bufs s1 bp) <| b_data ::= g |>) as Ebb by (rewrite Eb2; apply setb_eq).
  destruct (bdwrite_spec s2 A1 Q1 bp Hc2 Hib HA1) as (s3&A3&E3&Hc3&HP3&Hbs3&Hk3&Hsm3&Ho3); [by rewrite Ebb, <- Ed in *|].
  rewrite Ebb in Hbs3. change (b_dev ((bufs s1 bp) <| b_data ::= g |>)) with (b_dev (bufs s1 bp)) in Hbs3.
  change (b_blkno ((bufs s1 bp) <| b_data ::= g |>)) with (b_blkno (bufs s1 bp)) in Hbs3.
  change (b_data ((bufs s1 bp) <| b_data ::= g |>)) with (g (b_data (bufs s1 bp))) in Hbs3. rewrite Ed, Eb in Hbs3.
  assert (u s3 = advanced n (u s1) /\ umem s3 = umem s1 /\ inodes s3 = inodes s1 /\ rablock s3 = rablock s1) as (Eu3&Em3&Ei3&Era3).
  { rewrite <- Eu2, <- Em2, <- Ei2, <- Era2. unfold others in Ho3. by injection Ho3 as -> _ _ _ -> _ _ -> _ _ -> _. }
  rewrite (bind_ret _ _ _ _ _ E3). krun. unfold modi. rewrite k_when, Ei3, Eu3. krun. 
  replace ((type =? IFDIR) || (type =? IFREG)) with true by (by destruct Hty as [->| ->]).
  rewrite andb_true_r. change (u_offset (advanced n (u s1))) with (s32 (u_offset (u s1) + n)). rewrite s32_id by lia.
  set (s4 := seti ip _ (if (_ : bool) then _ else s3)).
  assert (bufs s4 = bufs s3 /\ disk s4 = disk s3 /\ u s4 = u s3 /\ umem s4 = umem s3 /\ others s4 = others (s3 <| inodes := inodes s4 |>))
    as (Eb4&Ek4&Eu4&Em4&Ho4) by (unfold s4; by destruct (_ <? _)).
  assert (inodes s4 = inodes (seti ip (grown (u_offset (u s1) + n)) s1)) as Ei4.
  { extensionality i. unfold s4. rewrite !seti_inodes. unfold grown.
    destruct (i_size (inodes s1 ip) <? u_offset (u s1) + n); rewrite ?seti_inodes, ?Ei3; repeat case_decide; try done; subst; by destruct (inodes s1 i). }
  clearbody s4. rewrite Eu4, Eu3. change (u_error (advanced n (u s1))) with (u_error (u s1)).
  change (u_count (advanced n (u s1))) with (u16 (u_count (u s1) - n)). rewrite u16_id, He by (destruct Ht; lia). cbn [Z.eqb andb].
  exists s4, A3. split; [by destruct (_ =? 0)|].
  split; [by eapply cache_bufs|]. split; [by rewrite HP3|]. split.
  { intros x Hx Hn. assert (x <> bp) as Hne by (intros ->; apply Hn; rewrite <- HP; mem).
    destruct (Hsm3 x Hx Hne) as [Ef Hid]. destruct (ident_fields _ _ Hid) as (_&_&E5&E6&E7). rewrite Eb4, Ef, E5, E6, E7.
    rewrite Eb2, setb_ne by done. by apply Hbz. }
  split.
  { intros dv bk Hn i Hi. rewrite (content_bufs s3 s4) by done. rewrite (Hbs3 dv bk Hn i Hi). case_decide as E; [done|].
    rewrite (content_bufs (setb bp (fun r => r <| b_data ::= g |>) s1) s2) by done.
    rewrite set_data_blocks by (by rewrite Ed, Eb). by apply Hsb. }
  rewrite Eu4, Em4, Eu3, Em3, Ei4. split_and!; try done.
  - rewrite Ho4. clear -Ho3 Em4 Em3 Eu4 Ho4 Era3. destruct s1, s3, s4. unfold others in *. cbn in *.
    injection Ho3. injection Ho4. intros. by subst.
  - intros x. rewrite Eb4. eapply whole_ret; [apply bdwrite_quiet| |exact E3]. intros y. rewrite Eb2.
    destruct (decide (bp = y)) as [<-|Hy]; [rewrite setb_eq|rewrite setb_ne by done]; apply Hr.
Qed.

Lemma grown_fields e r : i_dev (grown e r) = i_dev r /\ i_addr (grown e r) = i_addr r /\ i_mode (grown e r) = i_mode r.
Proof. done. Qed.
Lemma block_written_inode s A ip b on n s' A' Q' i : block_written s A ip b on n s' A' Q' ->
  i_dev (inodes s' i) = i_dev (inodes s i) /\ i_addr (inodes s' i) = i_addr (inodes s i).
Proof. intros [_ _ _ _ _ _ Hi _ _]. rewrite Hi, seti_inodes. by case_decide; subst. Qed.

(** What is left of a turn once [bmap] has given the block. *)
Lemma turn_from s s1 A1 Q1 ip type dev0 b : wanted (u s) -> type = IFDIR \/ type = IFREG ->
  bmap ip (u_offset (u s) / 512) 0 s = Ret b s1 -> 0 <= b -> u s1 = u s -> umem s1 = umem s ->
  cache s1 A1 Q1 -> A1 <> [] -> usable (i_dev (inodes s1 ip)) -> unheld s1 A1 (i_dev (inodes s1 ip)) b -> no_resid s1 ->
  bytes_in (u_base (u s)) (u_count (u s)) (umem s) ->
  let n := Z.min (512 - u_offset (u s) mod 512) (u_count (u s)) in u_offset (u s) + n < 2147483648 ->
  exists s' A' Q', writei_turn ip type dev0 s = Ret (if u_count (u s) - n =? 0 then inr tt else inl (i_dev (inodes s1 ip))) s' /\
    block_written s1 A1 ip b (u_offset (u s) mod 512) n s' A' Q'.
Proof.
  intros W Hty E1 Hb Eu1 Em1 Hc1 HA1 Us Hun Hw1 Hum n Hend. pose proof W as [We Ws Wo Wc Wb].
  pose proof (Z.mod_pos_bound (u_offset (u s)) 512 ltac:(lia)) as Hm. set (on := u_offset (u s) mod 512) in *. set (dev := i_dev (inodes s1 ip)) in *.
  assert (0 < n <= 512 /\ n <= u_count (u s) /\ on + n <= 512) as (Hn&Hnc&Hon) by (unfold n; lia).
  destruct (write_buffer s1 A1 Q1 dev b (umem s) (u_base (u s)) on n) as (bp&s2&A2&Q2&E2&G2&Hw2&Hd2); [done..|lia|lia|lia|].
  pose proof (g_others _ _ _ _ _ _ _ _ G2) as Ho2.
  assert (u s2 = u s /\ umem s2 = umem s /\ inodes s2 = inodes s1) as (Eu2&Em2&Ei2).
  { rewrite <- Eu1, <- Em1. unfold others in Ho2. by injection Ho2 as -> _ _ _ -> _ _ _ _ _ -> _. }
  destruct (store_ok s1 A1 dev b bp s2 A2 Q2 ip type on n) as (s3&A3&E3&Hc3&HP3&Hbz3&Hbs3&Eu3&Em3&Ei3&Ho3&Hw3);
    [done|done|apply Us|rewrite Eu2; split; done || lia|by rewrite Eu2| |done|rewrite Eu2; lia|].
  { rewrite Eu2, Em2. intros i Hi. apply Hum. lia. }
  rewrite Eu2 in *. rewrite Em2 in *. exists s3, A3, Q2. split.
  - unfold writei_turn. krun. rewrite split_offset_ok by done. fold on n.
    replace (type =? IFBLK) with false by (by destruct Hty as [->| ->]). rewrite k_bind_bind, (bind_ret _ _ _ _ _ E1).
    replace (b <? 0) with false by lia. rewrite k_bind_bind. krun. fold dev. rewrite (bind_ret _ _ _ _ _ E2). exact E3.
  - rewrite <- Eu1 in *. split; try done.
    + intros dv bk Hdv i Hi. rewrite (Hbs3 dv bk Hdv i Hi). fold dev. rewrite Em1. case_decide as E; [by apply Hd2|done].
    + by rewrite Em1.
    + rewrite Ei3. extensionality i. rewrite !seti_inodes. by rewrite Ei2.
    + rewrite Ho3. clear -Ho2. destruct s1, s2, s3. unfold others in *. cbn in *. injection Ho2. intros. by subst.
Qed.
Lemma written_reread s A s1 A1 Q1 ip b on n s' A' Q' : reread (s <| rablock := rablock s1 |>) A s1 A1 Q1 -> usable (i_dev (inodes s ip)) ->
  block_written s1 A1 ip b on n s' A' Q' -> block_written s A ip b on n s' A' Q'.
Proof.
  intros Hr Us [B1 B2 B3 B4 B5 B6 B7 B8 B9]. pose proof (rr_others _ _ _ _ _ Hr) as Ho1.
  assert (u s1 = u s /\ umem s1 = umem s /\ inodes s1 = inodes s) as (Eu1&Em1&Ei1).
  { unfold others in Ho1. by injection Ho1 as -> _ _ _ -> _ _ _ _ -> _. }
  rewrite Eu1, Em1, ?Ei1 in *. split; try done.
  - rewrite B2. apply Hr.
  - intros y Hy Hn'. destruct (rr_busy _ _ _ _ _ Hr y Hy Hn') as (E4&E5&E6&E7).
    destruct (B3 y Hy) as (F4&F5&F6&F7); [by rewrite (rr_avail _ _ _ _ _ Hr)|]. rewrite F4, F5, F6, F7. done.
  - intros dv bk Hdv i Hi. rewrite (B4 dv bk Hdv i Hi). case_decide as E.
    + apply (mcopy_agree_under _ _ _ _ _ _ (sb_content _ _ (rr_blocks _ _ _ _ _ Hr) _ b (us_dev _ Us))). done.
    + by apply (sb_content _ _ (rr_blocks _ _ _ _ _ Hr) dv bk Hdv).
  - rewrite B7. extensionality i. rewrite !seti_inodes. by rewrite Ei1.
  - rewrite B8. clear -Ho1. destruct s, s1, s'. unfold others in *. cbn in *. injection Ho1. intros. by subst.
Qed.

(** One turn: as much as the block has room for. *)
Lemma writei_turn_ok s A Q ip type dev0 b : resting s A Q ip -> wanted (u s) -> type = IFDIR \/ type = IFREG ->
  file_block s ip (u_offset (u s) / 512) = Some b -> 0 <= b ->
  bytes_in (u_base (u s)) (u_count (u s)) (umem s) ->
  let n := Z.min (512 - u_offset (u s) mod 512) (u_count (u s)) in
  exists s' A' Q', writei_turn ip type dev0 s = Ret (if u_count (u s) - n =? 0 then inr tt else inl (i_dev (inodes s ip))) s' /\
    block_written s A ip b (u_offset (u s) mod 512) n s' A' Q'.
Proof.
  intros [R1 R2 R3 R4 R5 R6] W Hty Hfb Hb Hum n. pose proof W as [We Ws Wo Wc Wb]. set (lbn := u_offset (u s) / 512) in *.
  pose proof (Z.mod_pos_bound (u_offset (u s)) 512 ltac:(lia)) as Hm.
  assert (0 <= lbn) as Hl by (apply Z.div_pos; lia).
  unfold file_block in Hfb. destruct (place lbn) as [[[a k] x]|] eqn:Hp; [|done].
  assert (u_offset (u s) + n < 2147483648) as Hend.
  { assert (lbn < 2113674).
    { unfold place in Hp. change (128 ^ 2) with 16384 in Hp. change (128 ^ 3) with 2097152 in Hp. repeat case_match; lia || done. }
    pose proof (Z.div_mod (u_offset (u s)) 512 ltac:(lia)). fold lbn in H0. unfold n. lia. }
  assert (A <> []) as HA by (by destruct A; cbn in R2; [lia|]).
  destruct (bmap_ok ip lbn 0 s A Q a k x R1 HA R3 Hl Hp) as (s1&A1&Q1&E1&Hr1); [right; by rewrite Hfb|intros b' _; apply R4|].
  rewrite Hfb in E1. cbn [from_option id] in E1. pose proof (rr_others _ _ _ _ _ Hr1) as Ho1.
  assert (u s1 = u s /\ umem s1 = umem s /\ inodes s1 = inodes s) as (Eu1&Em1&Ei1).
  { unfold others in Ho1. by injection Ho1 as -> _ _ _ -> _ _ _ _ -> _. }
  assert (A1 <> []) as HA1. { intros ->. apply HA. pose proof (rr_avail _ _ _ _ _ Hr1) as HP. by apply Permutation_nil_l in HP. }
  destruct (turn_from s s1 A1 Q1 ip type dev0 b) as (s'&A'&Q'&E&B); rewrite ?Ei1; try done.
  - apply Hr1.
  - exact (reread_unheld _ _ _ _ _ _ b Hr1 (R4 b)).
  - eapply whole_ret; [apply bmap_whole|exact R5|exact E1].
  - exists s', A', Q'. rewrite Ei1 in E. split; [done|]. by eapply written_reread.
Qed.

(** ** Files in blocks of their own *)

(** The indirect blocks on the way to block [bn] of the file. *)
Definition file_visits (s : kst) (ip bn : Z) : list Z :=
  match place bn with
  | Some (a, k, x) => visits (content s (i_dev (inodes s ip))) (i_addr (inodes s ip) a) (digits k x)
  | None => []
  end.
(** Each block of the file has a block to itself, which is not one of the indirect
    blocks. *)
Record sound_file (s : kst) (ip : Z) : Prop := {
  sf_inj : forall bn bn' b, file_block s ip bn = Some b -> file_block s ip bn' = Some b -> bn = bn';
  sf_sep : forall bn bn' b, file_block s ip bn = Some b -> b ∉ file_visits s ip bn'
}.

Lemma block_written_ways s A ip bn0 b on n s' A' Q' : block_written s A ip b on n s' A' Q' -> usable (i_dev (inodes s ip)) ->
  sound_file s ip -> file_block s ip bn0 = Some b ->
  forall bn, file_block s' ip bn = file_block s ip bn /\ file_visits s' ip bn = file_visits s ip bn.
Proof.
  intros W Us [_ Hsep] Hb bn. destruct (block_written_inode _ _ _ _ _ _ _ _ _ ip W) as (Ed&Ea).
  specialize (Hsep bn0 bn b Hb). unfold file_block, file_visits in *. rewrite Ed, Ea.
  destruct (place bn) as [[[a k] x]|]; [|done]. apply walk_visits; [|apply digits_range].
  intros b' Hb' i Hi. rewrite (bw_blocks _ _ _ _ _ _ _ _ _ W _ _ (us_dev _ Us) i Hi), decide_False; [done|]. intros [_ ->]. done.
Qed.

Lemma block_written_sound s A ip bn0 b on n s' A' Q' : block_written s A ip b on n s' A' Q' -> usable (i_dev (inodes s ip)) ->
  sound_file s ip -> file_block s ip bn0 = Some b -> sound_file s' ip.
Proof.
  intros W Us Hs Hb. pose proof (block_written_ways _ _ _ _ _ _ _ _ _ _ W Us Hs Hb) as H. destruct Hs as [H1 H2]. split.
  - intros bn bn' c. rewrite (proj1 (H bn)), (proj1 (H bn')). apply H1.
  - intros bn bn' c. rewrite (proj1 (H bn)), (proj2 (H bn')). apply H2.
Qed.

(** The file's bytes after a turn. *)
Lemma block_written_byte s A ip b n s' A' Q' : block_written s A ip b (u_offset (u s) mod 512) n s' A' Q' ->
  usable (i_dev (inodes s ip)) -> sound_file s ip -> file_block s ip (u_offset (u s) / 512) = Some b -> 0 <= b ->
  0 <= n -> u_offset (u s) mod 512 + n <= 512 ->
  forall o, file_byte s' ip o = if decide (u_offset (u s) <= o < u_offset (u s) + n) then umem s (u_base (u s) + (o - u_offset (u s)))
    else file_byte s ip o.
Proof.
  intros W Us Hs Hb Hb0 Hn Hon o. destruct (block_written_inode _ _ _ _ _ _ _ _ _ ip W) as (Ed&_).
  pose proof (Z.mod_pos_bound o 512 ltac:(lia)) as Hm. pose proof (Z.div_mod o 512 ltac:(lia)) as Hdm.
  pose proof (Z.div_mod (u_offset (u s)) 512 ltac:(lia)) as Hdo. pose proof (Z.mod_pos_bound (u_offset (u s)) 512 ltac:(lia)) as Hmo.
  unfold file_byte. rewrite (proj1 (block_written_ways _ _ _ _ _ _ _ _ _ _ W Us Hs Hb _)), Ed.
  destruct (file_block s ip (o / 512)) as [c|] eqn:Ec.
  2: { rewrite decide_False; [done|]. intros Hin. assert (o / 512 = u_offset (u s) / 512) as E by lia. rewrite E in Ec. congruence. }
  pose proof (bw_blocks _ _ _ _ _ _ _ _ _ W (i_dev (inodes s ip)) c (us_dev _ Us) (o mod 512)) as Hc.
  destruct (c <? 0) eqn:Ec0.
  { rewrite decide_False; [done|]. intros Hin. assert (o / 512 = u_offset (u s) / 512) as E by lia. rewrite E, Hb in Ec. injection Ec as ->. lia. }
  rewrite Hc by lia. destruct (decide (c = b)) as [->|Hne].
  - rewrite decide_True by done. assert (o / 512 = u_offset (u s) / 512) as E by (eapply sf_inj; eassumption).
    unfold mcopy. destruct (decide (u_offset (u s) <= o < u_offset (u s) + n)); [rewrite bool_decide_eq_true_2 by lia; f_equal; lia|by rewrite bool_decide_eq_false_2 by lia].
  - rewrite decide_False by (by intros [_ ?]). rewrite decide_False; [done|]. intros Hin.
    assert (o / 512 = u_offset (u s) / 512) as E by lia. rewrite E in Ec. congruence.
Qed.

Lemma block_written_resting s A Q ip b on n s' A' Q' : block_written s A ip b on n s' A' Q' -> resting s A Q ip ->
  bytes_in (u_base (u s)) n (umem s) -> resting s' A' Q' ip.
Proof.
  intros W [R1 R2 R3 R4 R5 R6] Hum. destruct (block_written_inode _ _ _ _ _ _ _ _ _ ip W) as (Ed&_).
  destruct W as [W1 W2 W3 W4 W5 W6 W7 W8 W9]. split; rewrite ?Ed; try done; [by rewrite W2| |].
  - intros blk x Hx E1 E2. rewrite W2. destruct (decide (x ∈ A)) as [|Hn]; [done|].
    destruct (W3 x Hx Hn) as (_&E3&E4&_). apply (R4 blk x Hx); congruence.
  - intros blk i Hi. rewrite (W4 _ _ (us_dev _ R3) i Hi). case_decide as E; [|by apply R6].
    unfold mcopy. case_bool_decide; [apply Hum; lia|by apply R6].
Qed.

(** ** writei *)

(** The [n] bytes at the user's base are the file's from the offset on; no other
    byte of it has changed, nor any block that is not one of the file's. *)
Record has_written (s : kst) (A : list bptr) (ip n : Z) (s' : kst) (A' : list bptr) (Q' : bptr -> list bptr) : Prop := {
  hw_bytes : forall o, file_byte s' ip o =
    if decide (u_offset (u s) <= o < u_offset (u s) + n) then umem s (u_base (u s) + (o - u_offset (u s))) else file_byte s ip o;
  hw_blocks : forall bn, file_block s' ip bn = file_block s ip bn;
  hw_elsewhere : forall dv bk, dv <> NODEV -> ~ (dv = i_dev (inodes s ip) /\ exists bn, file_block s ip bn = Some bk) ->
    agree 0 512 (content s' dv bk) (content s dv bk);
  hw_user : u s' = advanced n (u s);
  hw_umem : umem s' = umem s;
  hw_inode : inodes s' = inodes (seti ip (grown (u_offset (u s) + n)) s);
  hw_others : others s' = others (touched s s');
  hw_avail : A' ≡ₚ A;
  hw_busy : same_busy s A s';
  hw_resting : resting s' A' Q' ip;
  hw_sound : sound_file s' ip
}.

Lemma setf_setf f m : setf (setf f m) m = setf f m.
Proof. unfold setf. by rewrite <- Z.lor_assoc, Z.lor_diag. Qed.
Lemma grown_grown e e' r : e <= e' -> grown e' (grown e r) = grown e' r.
Proof.
  intros He. destruct r. unfold grown, update_with. cbn -[setf Z.ltb Z.lor]. rewrite setf_setf. f_equal. repeat (case_match; try lia).
Qed.

Lemma written_turn s A Q ip b n s' A' Q' : block_written s A ip b (u_offset (u s) mod 512) n s' A' Q' -> resting s A Q ip -> sound_file s ip ->
  file_block s ip (u_offset (u s) / 512) = Some b -> 0 <= b -> 0 <= n -> u_offset (u s) mod 512 + n <= 512 ->
  bytes_in (u_base (u s)) n (umem s) -> has_written s A ip n s' A' Q'.
Proof.
  intros W R Hs Hb Hb0 Hn Hon Hum. pose proof (re_dev _ _ _ _ R) as Us. split; try apply W.
  - by eapply block_written_byte.
  - intros bn. by eapply block_written_ways.
  - intros dv bk Hdv Hne i Hi. rewrite (bw_blocks _ _ _ _ _ _ _ _ _ W dv bk Hdv i Hi), decide_False; [done|].
    intros [-> ->]. apply Hne. split; [done|by eexists].
  - by eapply block_written_resting.
  - by eapply block_written_sound.
Qed.

Lemma written_trans s A ip n s1 A1 Q1 m s2 A2 Q2 : has_written s A ip n s1 A1 Q1 -> has_written s1 A1 ip m s2 A2 Q2 ->
  wanted (u s) -> 0 <= n <= u_count (u s) -> 0 <= m -> u_offset (u s) + n < 2147483648 ->
  has_written s A ip (n + m) s2 A2 Q2.
Proof.
  intros [H1 H2 H3 H4 H5 H6 H7 H8 H9 H10 H11] [G1 G2 G3 G4 G5 G6 G7 G8 G9 G10 G11] W Hn Hm Hend.
  destruct (advanced_fields (u s) n W Hn Hend) as (Eb&Eo&Ec). rewrite <- H4 in Eb, Eo, Ec. split; try done.
  - intros o. rewrite G1, Eo, Eb, H5. destruct (decide (u_offset (u s) + n <= o < _)).
    + rewrite decide_True by lia. f_equal. lia.
    + rewrite H1. destruct (decide (u_offset (u s) <= o < u_offset (u s) + n)); [by rewrite decide_True by lia|by rewrite decide_False by lia].
  - intros bn. by rewrite G2.
  - assert (i_dev (inodes s1 ip) = i_dev (inodes s ip)) as Ed by (rewrite H6, seti_inodes, decide_True; done).
    intros dv bk Hdv Hne i Hi. rewrite (G3 dv bk Hdv) by (done || (rewrite Ed; intros [-> [bn Hbn]]; apply Hne; rewrite H2 in Hbn; by eauto)).
    by apply H3.
  - by rewrite G4, H4, advanced_add.
  - by rewrite G5.
  - rewrite G6. extensionality i. rewrite !seti_inodes, H6, Eo, !seti_inodes. repeat case_decide; try done.
    rewrite grown_grown by lia. f_equal. lia.
  - rewrite G7. clear -H7. destruct s, s1, s2. unfold others in *. cbn in *. injection H7. intros. by subst.
  - by rewrite G8.
  - intros x Hx Hn'. destruct (H9 x Hx Hn') as (E1&E2&E3&E4), (G9 x Hx ltac:(by rewrite H8)) as (F1&F2&F3&F4).
    by rewrite F1, F2, F3, F4.
Qed.

(** All the blocks of a range of bytes are there. *)
Definition mapped (s : kst) (ip off n : Z) : Prop :=
  forall bn, off / 512 <= bn <= (off + n - 1) / 512 -> exists b, file_block s ip bn = Some b /\ 0 <= b.

Lemma writei_loop (k : nat) s A Q ip type dev0 f : resting s A Q ip -> wanted (u s) -> type = IFDIR \/ type = IFREG ->
  sound_file s ip -> mapped s ip (u_offset (u s)) (u_count (u s)) -> bytes_in (u_base (u s)) (u_count (u s)) (umem s) ->
  u_offset (u s) mod 512 + u_count (u s) <= 512 * Z.of_nat k -> (k <= f)%nat ->
  u_offset (u s) + u_count (u s) < 2147483648 ->
  exists s' A' Q', iter f (writei_turn ip type) dev0 s = Ret tt s' /\ has_written s A ip (u_count (u s)) s' A' Q'.
Proof.
  revert s A Q dev0 f. induction k as [|k IH]; intros s A Q dev0 f R W Hty Hs Hmap Hum Hk Hf Hend.
  { pose proof (wa_count _ W). pose proof (Z.mod_pos_bound (u_offset (u s)) 512). lia. }
  destruct f as [|f]; [lia|]. pose proof W as [We Ws Wo Wc Wb].
  pose proof (Z.mod_pos_bound (u_offset (u s)) 512 ltac:(lia)) as Hm. pose proof (Z.div_mod (u_offset (u s)) 512 ltac:(lia)) as Hdm.
  destruct (Hmap (u_offset (u s) / 512)) as (b&Hb&Hb0); [split; [lia|apply Z.div_le_mono; lia]|].
  destruct (writei_turn_ok s A Q ip type dev0 b R W Hty Hb Hb0 Hum) as (s1&A1&Q1&E1&W1).
  set (n := Z.min (512 - u_offset (u s) mod 512) (u_count (u s))) in *.
  assert (0 < n <= u_count (u s) /\ u_offset (u s) mod 512 + n <= 512) as (Hn&Hon) by (unfold n; lia).
  apply (written_turn s A Q) in W1; [|done..|lia|done|intros i Hi; apply Hum; lia].
  destruct (u_count (u s) - n =? 0) eqn:Ec.
  { exists s1, A1, Q1. assert (u_count (u s) = n) as -> by lia. split; [by apply k_iter_inr|done]. }
  destruct (advanced_fields (u s) n W ltac:(lia) ltac:(lia)) as (Eb&Eo&Ect). rewrite <- (hw_user _ _ _ _ _ _ _ W1) in Eb, Eo, Ect.
  erewrite k_iter_inl by exact E1.
  assert (n = 512 - u_offset (u s) mod 512) as En by (unfold n in *; lia).
  assert ((u_offset (u s) + n) mod 512 = 0) as Hz by (rewrite En; Z.div_mod_to_equations; lia).
  destruct (IH s1 A1 Q1 (i_dev (inodes s ip)) f (hw_resting _ _ _ _ _ _ _ W1)) as (s2&A2&Q2&E2&W2).
  - rewrite (hw_user _ _ _ _ _ _ _ W1). apply advanced_wanted; [done|lia|lia].
  - done.
  - apply W1.
  - intros bn Hbn. rewrite (hw_blocks _ _ _ _ _ _ _ W1). apply Hmap. rewrite Eo, Ect in Hbn. 
    replace (u_offset (u s) + n + (u_count (u s) - n) - 1) with (u_offset (u s) + u_count (u s) - 1) in Hbn by lia.
    split; [|lia]. etransitivity; [|apply Hbn]. apply Z.div_le_mono; lia.
  - rewrite Eb, Ect, (hw_umem _ _ _ _ _ _ _ W1). intros i Hi. apply Hum. lia.
  - rewrite Eo, Ect, Hz. lia.
  - lia.
  - rewrite Eo, Ect. lia.
  - exists s2, A2, Q2. split; [done|]. replace (u_count (u s)) with (n + u_count (u s1)) by lia.
    eapply written_trans; [exact W1|exact W2|done|lia..].
Qed.

Lemma writei_ok s A Q ip : resting s A Q ip -> wanted (u s) ->
  Z.land (i_mode (inodes s ip)) IFMT = IFDIR \/ Z.land (i_mode (inodes s ip)) IFMT = IFREG ->
  sound_file s ip -> mapped s ip (u_offset (u s)) (u_count (u s)) -> bytes_in (u_base (u s)) (u_count (u s)) (umem s) ->
  u_offset (u s) + u_count (u s) < 2147483648 ->
  exists s' A' Q', writei ip s = Ret tt s' /\ has_written s A ip (u_count (u s)) s' A' Q'.
Proof.
  intros R W Hty Hs Hmap Hum Hend. pose proof W as [We Ws Wo Wc Wb]. unfold writei. krun.
  replace (u_offset (u s) <? 0) with false by lia. krun.
  replace (_ =? IFCHR) with false by (by destruct Hty as [-> | ->]). replace (u_count (u s) =? 0) with false by lia.
  apply (writei_loop 129 s A Q); try done; [|pose proof enough_fuel; lia]. Z.div_mod_to_equations. lia.
Qed.

(** A file without indirect blocks is sound if its blocks are different. *)
Lemma direct_block s ip bn : (forall a, 10 <= a < NADDR -> i_addr (inodes s ip) a = 0) ->
  file_block s ip bn = (if bn <? 10 then if i_addr (inodes s ip) bn =? 0 then None else Some (i_addr (inodes s ip) bn) else None) /\
  file_visits s ip bn = [].
Proof.
  intros Hd. unfold file_block, file_visits. destruct (bn <? 10) eqn:E.
  { unfold place. rewrite E. cbn. by destruct (i_addr (inodes s ip) bn =? 0). }
  destruct (place bn) as [[[a k] x]|] eqn:Hp; [|done]. assert (10 <= a < NADDR) as Ha.
  { unfold place in Hp. rewrite E in Hp. unfold NADDR. repeat case_match; first [discriminate|injection Hp as <- <- <-; lia]. }
  rewrite (Hd a Ha). by destruct (digits k x).
Qed.

(** ** Properties *)

(** C10: [writei] to a part of a file whose blocks are all there, each in a block
    of its own, returns, and then the file has the user's bytes there and its
    old bytes everywhere else; no block that is not the file's has changed, the
    file is as long as the write needs, and no buffer is left held. *)
Theorem writei_writes s A Q ip : resting s A Q ip -> wanted (u s) ->
  Z.land (i_mode (inodes s ip)) IFMT = IFDIR \/ Z.land (i_mode (inodes s ip)) IFMT = IFREG ->
  sound_file s ip -> mapped s ip (u_offset (u s)) (u_count (u s)) -> bytes_in (u_base (u s)) (u_count (u s)) (umem s) ->
  u_offset (u s) + u_count (u s) < 2147483648 ->
  exists s' A' Q', writei ip s = Ret tt s' /\ has_written s A ip (u_count (u s)) s' A' Q'.
Proof. apply writei_ok. Qed.

(** The user's counters set for another transfer. *)
Definition reposition (base off n : Z) (us : user) : user := us <| u_base := base |> <| u_offset := off |> <| u_count := n |>.

(** C6: What a process writes to a file it reads back from it, into any other
    part of its memory. *)
Theorem write_then_read s A Q ip base : resting s A Q ip -> wanted (u s) ->
  Z.land (i_mode (inodes s ip)) IFMT = IFDIR \/ Z.land (i_mode (inodes s ip)) IFMT = IFREG ->
  sound_file s ip -> mapped s ip (u_offset (u s)) (u_count (u s)) -> bytes_in (u_base (u s)) (u_count (u s)) (umem s) ->
  0 <= i_size (inodes s ip) <= MAXFILE -> u_offset (u s) + u_count (u s) <= MAXFILE ->
  0 <= base -> base + u_count (u s) < 4294967296 ->
  exists s1, writei ip s = Ret tt s1 /\
  exists s2, readi ip (setu (reposition base (u_offset (u s)) (u_count (u s))) s1) = Ret tt s2 /\ u_count (u s2) = 0 /\
    forall i, 0 <= i < u_count (u s) -> umem s2 (base + i) = umem s (u_base (u s) + i).
Proof.
  intros R W Hty Hs Hmap Hum Hsz Hend Hb0 Hb. pose proof W as [We Ws Wo Wc Wb]. unfold MAXFILE in *.
  destruct (writei_ok s A Q ip R W Hty Hs Hmap Hum ltac:(lia)) as (s1&A1&Q1&E1&W1). exists s1. split; [done|].
  set (s2 := setu _ s1). set (c := u_count (u s)) in *.
  assert (inodes s2 ip = grown (u_offset (u s) + c) (inodes s ip)) as Ei
    by (change (inodes s2) with (inodes s1); by rewrite (hw_inode _ _ _ _ _ _ _ W1), seti_inodes, decide_True).
  assert (u_base (u s2) = base /\ u_offset (u s2) = u_offset (u s) /\ u_count (u s2) = c) as (Eb&Eo&Ec) by done.
  assert (wanted (u s2)) as W2.
  { split; rewrite ?Eb, ?Eo, ?Ec; try done; change (u s2) with (reposition base (u_offset (u s)) c (u s1));
      by rewrite (hw_user _ _ _ _ _ _ _ W1). }
  assert (resting s2 A1 Q1 ip) as R2.
  { destruct (hw_resting _ _ _ _ _ _ _ W1) as [R1 R2 R3 R4 R5 R6]. split; try done. by eapply cache_bufs. }
  destruct (readi_ok s2 A1 Q1 ip R2 W2) as (s3&A3&Q3&E3&H3).
  { rewrite Ei. unfold grown, MAXFILE. cbn. case_match; lia. }
  { rewrite Ei. destruct (grown_fields (u_offset (u s) + c) (inodes s ip)) as (_&_&->). by destruct Hty as [-> | ->]. }
  { rewrite Ei. destruct (grown_fields (u_offset (u s) + c) (inodes s ip)) as (_&_&->). by destruct Hty as [-> | ->]. }
  rewrite Ec, Eo, Ei in H3. replace (Z.max 0 (Z.min c _)) with c in H3.
  2: { change (i_size (grown ?e ?r)) with (if i_size r <? e then e else i_size r). case_match; lia. }
  exists s3. split; [done|]. split.
  - rewrite (hr_user _ _ _ _ _ _ _ H3). change (u_count (advanced c (u s2))) with (u16 (c - c)). by rewrite Z.sub_diag.
  - intros i Hi. rewrite (hr_umem _ _ _ _ _ _ _ H3), Eb, Eo. unfold from_file. rewrite bool_decide_eq_true_2 by lia.
    change (file_byte s2 ip) with (file_byte s1 ip). rewrite (hw_bytes _ _ _ _ _ _ _ W1), decide_True by lia. f_equal. lia.
Qed.
End code.

(** ** A concrete file *)

#[local] Existing Instances ramdisk rounds ramdisk_sync ramdisk_whole.

(** Inode 3 has blocks 5 and 6; the process writes 600 bytes at offset 100. *)
Definition writer : kst := reader.

Lemma writer_inode : inodes writer 3 = zinode <| i_mode := IFREG |> <| i_size := 700 |> <| i_addr @ 0 := 5 |> <| i_addr @ 1 := 6 |>.
Proof.
  assert (inodes booted 3 = zinode) as Ez by (vm_compute; reflexivity). rewrite <- Ez. exact (set_inode booted 3 _ _).
Qed.
Lemma writer_user : u writer = zuser <| u_offset := 100 |> <| u_count := 600 |> <| u_base := 4096 |>.
Proof. assert (u booted = zuser) as Ez by (vm_compute; reflexivity). rewrite <- Ez. exact (set_user booted 3 _ _). Qed.
Lemma writer_block bn : file_block writer 3 bn = (if bn =? 0 then Some 5 else if bn =? 1 then Some 6 else None) /\ file_visits writer 3 bn = [].
Proof.
  assert (forall a, i_addr (inodes writer 3) a = if a =? 0 then 5 else if a =? 1 then 6 else 0) as Ha.
  { intros a. rewrite writer_inode. change (i_addr _ a) with ((<[1:=6]> (<[0:=5]> (fun _ : Z => 0)) : Z -> Z) a).
    destruct (Z.eqb_spec a 0) as [->|H0]; [by rewrite fn_ne, fn_eq|].
    destruct (Z.eqb_spec a 1) as [->|H1]; [by rewrite fn_eq|by rewrite !fn_ne]. }
  destruct (direct_block writer 3 bn) as [-> ->].
  - intros a Hr. rewrite Ha. unfold NADDR in Hr. by replace (a =? 0) with false by lia; replace (a =? 1) with false by lia.
  - split; [|done]. rewrite Ha. destruct (Z.eqb_spec bn 0) as [->|H0]; [done|]. destruct (Z.eqb_spec bn 1) as [->|H1]; [done|].
    by destruct (bn <? 10).
Qed.
Lemma writer_sound : sound_file writer 3.
Proof.
  split.
  - intros bn bn' b. rewrite (proj1 (writer_block bn)), (proj1 (writer_block bn')). repeat case_match; intros; lia || congruence.
  - intros bn bn' b _. rewrite (proj2 (writer_block bn')). intros H. by apply elem_of_nil in H.
Qed.
Lemma writer_mapped : mapped writer 3 100 600.
Proof.
  intros bn Hbn. rewrite (proj1 (writer_block bn)). assert (bn = 0 \/ bn = 1) as [-> | ->]; [|by exists 5|by exists 6].
  change (100 / 512) with 0 in Hbn. change ((100 + 600 - 1) / 512) with 1 in Hbn. lia.
Qed.
Lemma writer_wanted : wanted (zuser <| u_offset := 100 |> <| u_count := 600 |> <| u_base := 4096 |>).
Proof. split; vm_compute; repeat split; discriminate || reflexivity. Qed.
Lemma writer_resting : resting writer bufl bqueues 3.
Proof.
  assert (inodes booted 3 = zinode) as Ez by (vm_compute; reflexivity). apply resting_booted. rewrite Ez. reflexivity.
Qed.
Lemma writer_umem : umem writer = fun _ => 0.
Proof. vm_compute. reflexivity. Qed.

Lemma writei_writes_witness : exists s' A' Q', writei 3 writer = Ret tt s' /\ has_written writer bufl 3 600 s' A' Q'.
Proof.
  pose proof (writei_writes writer bufl bqueues 3 writer_resting) as W. rewrite writer_user, writer_inode, writer_umem in W. apply W.
  - exact writer_wanted.
  - right. reflexivity.
  - exact writer_sound.
  - exact writer_mapped.
  - intros i _. split; [discriminate|reflexivity].
  - vm_compute. reflexivity.
Defined.

Lemma write_then_read_witness :
  exists s1, writei 3 writer = Ret tt s1 /\
  exists s2, readi 3 (setu (reposition 8192 100 600) s1) = Ret tt s2 /\ u_count (u s2) = 0 /\
    forall i, 0 <= i < 600 -> umem s2 (8192 + i) = 0.
Proof.
  pose proof (write_then_read writer bufl bqueues 3 8192 writer_resting) as W. rewrite writer_user, writer_inode, writer_umem in W. apply W.
  - exact writer_wanted.
  - right. reflexivity.
  - exact writer_sound.
  - exact writer_mapped.
  - intros i _. split; [discriminate|reflexivity].
  - vm_compute. split; discriminate.
  - vm_compute. discriminate.
  - vm_compute. discriminate.
  - vm_compute. reflexivity.
Defined.
End Writei.
