(* ===== verification/Grow.v ===== *)
(** * Grow: writing past the blocks a file has (src/usr/sys/sys/rdwri.c, subr.c, alloc.c)

    A file of at most ten blocks that is written where it has no blocks takes them
    from the free list of its file system: the composition of [writei], [bmap],
    [alloc] and the buffer cache. *)
From Stdlib Require Import FunctionalExtensionality.
From S2P Require Import Prelude Kmonad Kernel Bio Quiet Ahead Alloc Rdwri Readi Writei.
Import Bio Quiet Ahead Alloc Rdwri Readi Writei.

Module Grow.

Section code.
  Context `{DV : Devices} `{FL : Fuel} `{SD : !SyncDriver} `{WD : !WholeDriver}.

(** ** The free list while other blocks are written *)

Lemma freelist_kept s A dev fp l s' A' : freelist s A dev fp l -> mounts s' = mounts s -> fp ∉ A' ->
  (forall x, isbuf x -> (x ∉ A') -> (x ∉ A) /\ b_dev (bufs s' x) = b_dev (bufs s x) /\ b_blkno (bufs s' x) = b_blkno (bufs s x) /\
    b_data (bufs s' x) = b_data (bufs s x)) ->
  (forall blk, blk ∈ l -> agree 0 512 (content s' dev blk) (content s dev blk)) -> freelist s' A' dev fp l.
Proof.
  intros [F1 F2 F3 F4 F5 F6 F7 F8 F9 F10 F11] Em Hf Hx Hc. destruct (Hx fp F2 Hf) as (_&E1&_&E2). split; rewrite ?E2, ?E1; try done.
  - unfold getfs_scan. by rewrite Em.
  - destruct F9 as [F9|F9]; [by left|right]. by eapply chain_agree.
  - intros x Hxi Hxn Hd. destruct (Hx x Hxi Hxn) as (HnA&D1&D2&_). rewrite D2. apply F11; [done..|]. by rewrite <- D1.
Qed.

Lemma freelist_set s A dev fp l ip f g : freelist s A dev fp l -> freelist (setu g (seti ip f s)) A dev fp l.
Proof. intros F. eapply freelist_kept; [exact F|done|apply F|done|done]. Qed.

Lemma freelist_head s A dev fp b l : freelist s A dev fp (b :: l) -> 0 < b /\ b ∉ l.
Proof.
  intros F. split; [|by pose proof (fl_nodup _ _ _ _ _ F) as [? _]%NoDup_cons]. pose proof (fl_isize _ _ _ _ _ F) as Hz.
  destruct (fl_chain _ _ _ _ _ F) as [[_ ?]|Hch]; [done|].
  remember (slots _ _) as xs. remember (b :: l) as zs eqn:E. clear Heqxs. assert (inrange (b_data (bufs s fp)) b) as Hr.
  { destruct Hch as [ys Hok|ys c l' Hys Hc Hn Hch]; [by rewrite E in Hok; apply Forall_cons in Hok as [? _]|].
    destruct ys as [|y ys]; injection E as <- <-; [done|]. by apply Forall_cons in Hys as [? _]. }
  unfold inrange in Hr. lia.
Qed.

Lemma usable_mounts s s' : others s' = others (touched s s') -> mounts s' = mounts s.
Proof. destruct s, s'. unfold others. cbn. intros H. by injection H. Qed.

(** ** A file of direct blocks and the free list of its device *)

Record growing (s : kst) (A : list bptr) (Q : bptr -> list bptr) (ip : Z) (fp : bptr) (l : list Z) : Prop := {
  gr_resting : resting s A Q ip;
  gr_list : freelist s A (i_dev (inodes s ip)) fp l;
  gr_direct : forall a, 10 <= a < NADDR -> i_addr (inodes s ip) a = 0;
  gr_range : forall a, a < 10 -> 0 <= i_addr (inodes s ip) a;
  gr_inj : forall a a', a < 10 -> a' < 10 -> i_addr (inodes s ip) a <> 0 -> i_addr (inodes s ip) a = i_addr (inodes s ip) a' -> a = a';
  gr_apart : forall a, a < 10 -> i_addr (inodes s ip) a ∉ l
}.

Lemma growing_block s A Q ip fp l bn : growing s A Q ip fp l ->
  file_block s ip bn = (if bn <? 10 then if i_addr (inodes s ip) bn =? 0 then None else Some (i_addr (inodes s ip) bn) else None) /\
  file_visits s ip bn = [].
Proof. intros G. apply direct_block, G. Qed.
Lemma growing_some s A Q ip fp l bn b : growing s A Q ip fp l -> file_block s ip bn = Some b -> bn < 10 /\ b = i_addr (inodes s ip) bn /\ 0 < b /\ b ∉ l.
Proof.
  intros G H. rewrite (proj1 (growing_block _ _ _ _ _ _ bn G)) in H. destruct (Z.ltb_spec bn 10); [|done].
  destruct (Z.eqb_spec (i_addr (inodes s ip) bn) 0); [done|]. injection H as <-. split; [done|]. split; [done|].
  pose proof (gr_range _ _ _ _ _ _ G bn). split; [lia|]. by apply G.
Qed.
Lemma growing_sound s A Q ip fp l : growing s A Q ip fp l -> sound_file s ip.
Proof.
  intros G. split.
  - intros bn bn' b H1 H2. apply (growing_some _ _ _ _ _ _ _ _ G) in H1 as (L1&E1&P1&_). apply (growing_some _ _ _ _ _ _ _ _ G) in H2 as (L2&E2&_).
    apply (gr_inj _ _ _ _ _ _ G bn bn' L1 L2); [lia|congruence].
  - intros bn bn' b _. rewrite (proj2 (growing_block _ _ _ _ _ _ bn' G)). by intros ?%elem_of_nil.
Qed.

(** Reading, and changes elsewhere in the inode and the tables, leave such a file
    as it is. *)
Lemma growing_reread s A Q ip fp l s' A' Q' : growing s A Q ip fp l -> reread (touched s s') A s' A' Q' -> no_resid s' ->
  i_dev (inodes s' ip) = i_dev (inodes s ip) -> i_addr (inodes s' ip) = i_addr (inodes s ip) -> growing s' A' Q' ip fp l.
Proof.
  intros [[R1 R2 R3 R4 R5 R6] Fl G1 G2 G3 G4] Hr Hw Ed Ea. pose proof Hr as [C1 C2 [C3 _] C4 C5].
  change (content (touched s s')) with (content s) in C3. split; rewrite ?Ed, ?Ea; try done.
  - split; rewrite ?Ed; try done; [by rewrite C2| |].
    + intros blk. exact (reread_unheld _ _ _ _ _ _ blk Hr (R4 blk)).
    + intros blk i Hi. rewrite (C3 _ blk (us_dev _ R3)) by done. by apply R6.
  - eapply freelist_kept; [exact Fl|by apply usable_mounts|rewrite C2; apply Fl| |].
    + intros x Hx Hn. rewrite C2 in Hn. destruct (C4 x Hx Hn) as (_&?&?&?). done.
    + intros blk _. apply C3, R3.
Qed.
Lemma growing_eq s A Q ip fp l s' : growing s A Q ip fp l -> bufs s' = bufs s -> disk s' = disk s -> mounts s' = mounts s ->
  i_dev (inodes s' ip) = i_dev (inodes s ip) -> i_addr (inodes s' ip) = i_addr (inodes s ip) -> growing s' A Q ip fp l.
Proof.
  intros [[R1 R2 R3 R4 R5 R6] Fl G1 G2 G3 G4] Eb Ek Em Ed Ea. split; rewrite ?Ed, ?Ea; try done.
  - split; rewrite ?Ed; try done; [by eapply cache_bufs|intros blk x; rewrite Eb; apply R4|intros x; rewrite Eb; apply R5|].
    intros blk. rewrite (content_bufs s) by done. apply R6.
  - eapply freelist_kept; [exact Fl|done|apply Fl|intros x _ Hn; by rewrite Eb|]. intros blk _ i _. by rewrite (content_bufs s).
Qed.

(** ** bmap gives the block, a new one if need be *)

(** Ready to write block [bn], which is block [b] of the device now. *)
Record readied (s : kst) (A : list bptr) (ip : Z) (fp : bptr) (l : list Z) (bn b : Z) (s' : kst) (A' : list bptr) (Q' : bptr -> list bptr) (l' : list Z) : Prop := {
  rd_growing : growing s' A' Q' ip fp l';
  rd_block : file_block s' ip bn = Some b;
  rd_list : l = (if i_addr (inodes s ip) bn =? 0 then [b] else []) ++ l';
  rd_old : i_addr (inodes s ip) bn <> 0 -> b = i_addr (inodes s ip) bn;
  rd_avail : A' ≡ₚ A;
  rd_bytes : forall o, file_byte s' ip o = file_byte s ip o;
  rd_elsewhere : forall dv bk, dv <> NODEV -> ~ (dv = i_dev (inodes s ip) /\ bk = b) -> agree 0 512 (content s' dv bk) (content s dv bk);
  rd_user : u s' = u s;
  rd_umem : umem s' = umem s;
  rd_inode : exists fl, inodes s' = inodes (seti ip (fun r => r <| i_addr @ bn := b |> <| i_flag := fl |>) s) /\
    setf fl (Z.lor IUPD ICHG) = setf (i_flag (inodes s ip)) (Z.lor IUPD ICHG);
  rd_others : others s' = others (touched s s');
  rd_busy : same_busy s (fp :: A) s'
}.

(** A block from the free list for the address [bn] of the inode. *)
Lemma new_block s A Q ip fp b l bn : growing s A Q ip fp (b :: l) -> 0 <= bn < 10 -> i_addr (inodes s ip) bn = 0 ->
  exists s' A' Q', bmap ip bn 0 s = Ret b s' /\ cache s' A' Q' /\ A' ≡ₚ A /\ blocks_set s s' (i_dev (inodes s ip)) b (fun _ => 0) /\
    freelist s' A' (i_dev (inodes s ip)) fp l /\ same_busy s (fp :: A) s' /\ u s' = u s /\ umem s' = umem s /\
    inodes s' = inodes (seti ip (fun r => r <| i_addr @ bn := b |> <| i_flag ::= fun f => setf f (Z.lor IUPD ICHG) |>) s) /\
    others s' = others (touched s s') /\ no_resid s'.
Proof.
  intros [[R1 R2 R3 R4 R5 R6] Fl _ _ _ _] Hbn Ha. set (dev := i_dev (inodes s ip)) in *. destruct (freelist_head _ _ _ _ _ _ Fl) as [Hb0 Hbl].
  set (s0 := s <| rablock := 0 |>). assert (cache s0 A Q) as Hc0 by (by eapply cache_bufs).
  assert (freelist s0 A dev fp (b :: l)) as Fl0 by (eapply freelist_kept; [exact Fl|done|apply Fl|done|done]).
  assert (A <> []) as HA by (by destruct A; cbn in R2; [lia|]).
  destruct (alloc_spec s0 A Q dev fp b l Hc0 HA R3 Fl0) as (bp&s1&A1&E1&[[Q1 Hc1] HP1 Ed1 Eb1 Hz1 Fl1 Hct1 Hbz1 Ho1]).
  assert (isbuf bp /\ bp ∉ A1) as [Hib Hbp].
  { assert (NoDup (bp :: A1)) as Hnd by (rewrite HP1; apply (av_nodup _ _ (ca_av _ _ _ R1))). apply NoDup_cons in Hnd as [? _]. split; [|done].
    apply (av_isbuf _ _ (ca_av _ _ _ R1)). rewrite <- HP1. mem. }
  destruct (bdwrite_spec s1 A1 Q1 bp Hc1 Hib Hbp) as (s2&A2&E2&Hc2&HP2&Hbs2&_&Hsm2&Ho2); [rewrite Ed1; apply R3|].
  rewrite Ed1, Eb1 in Hbs2. assert (A2 ≡ₚ A) as HP by (by rewrite HP2).
  assert (others s2 = others s0) as Ho by (by rewrite Ho2).
  assert (u s2 = u s /\ umem s2 = umem s /\ inodes s2 = inodes s /\ mounts s2 = mounts s1) as (Eu2&Em2&Ei2&Emt2).
  { unfold others in Ho, Ho2. injection Ho as -> _ _ _ -> _ _ _ _ _ -> _. by injection Ho2. }
  set (s3 := seti ip (fun r => r <| i_flag ::= fun f => setf f (Z.lor IUPD ICHG) |>) (seti ip (fun r => r <| i_addr @ bn := b |>) s2)).
  set (s4 := if bn <? 9 then s3 <| rablock := i_addr (inodes s3 ip) (bn + 1) |> else s3).
  assert (bmap ip bn 0 s = Ret b s4) as E4.
  { unfold bmap. replace (bn <? 0) with false by lia. krun. fold dev. fold s0. unfold NADDR. replace (bn <? 13 - 3) with true by lia.
    unfold bmap_addr, bmap_new. rewrite k_bind_bind. krun. change (inodes s0 ip) with (inodes s ip). rewrite Ha. change (0 =? 0) with true.
    change (0 =? B_READ) with false. cbv iota. rewrite k_bind_bind, (bind_ret _ _ _ _ _ E1). cbv iota. rewrite k_bind_bind. krun. rewrite Eb1.
    rewrite k_bind_bind, (bind_ret _ _ _ _ _ E2). unfold modi. rewrite !k_bind_bind. krun. rewrite k_bind_bind. krun. fold s3.
    change (bn <? 13 - 4) with (bn <? 9). unfold s4. destruct (bn <? 9); krun; done. }
  assert (inodes s4 = inodes (seti ip (fun r => r <| i_addr @ bn := b |> <| i_flag ::= fun f => setf f (Z.lor IUPD ICHG) |>) s)) as Ei4.
  { transitivity (inodes s3); [unfold s4; by destruct (bn <? 9)|]. extensionality i. unfold s3. rewrite !seti_inodes, Ei2. by repeat case_decide. }
  assert (bufs s4 = bufs s2 /\ disk s4 = disk s2 /\ u s4 = u s2 /\ umem s4 = umem s2 /\ mounts s4 = mounts s2 /\
    others s4 = others (s2 <| inodes := inodes s4 |> <| rablock := rablock s4 |>)) as (Eb4&Ek4&Eu4&Em4&Emt4&Eo4)
    by (unfold s4; by destruct (bn <? 9)).
  clearbody s4. exists s4, A2, Q1.
  assert (forall dv bk, dv <> NODEV -> ~ (dv = dev /\ bk = b) -> agree 0 512 (content s4 dv bk) (content s dv bk)) as Hct.
  { intros dv bk Hdv Hne i Hi. rewrite (content_bufs s2) by done. rewrite (Hbs2 dv bk Hdv i Hi), decide_False by done. by apply Hct1. }
  split; [done|]. split; [by eapply cache_bufs|]. split; [done|]. split.
  { intros dv bk Hdv i Hi. case_decide as E; [|by apply Hct]. rewrite (content_bufs s2) by done. rewrite (Hbs2 dv bk Hdv i Hi), decide_True by done. by apply Hz1. }
  assert (fp ∉ A2) as Hfp by (rewrite HP; apply Fl).
  assert (forall x, isbuf x -> x <> bp -> b_flags (bufs s4 x) = b_flags (bufs s1 x) /\ b_dev (bufs s4 x) = b_dev (bufs s1 x) /\ b_blkno (bufs s4 x) = b_blkno (bufs s1 x) /\
    b_data (bufs s4 x) = b_data (bufs s1 x)) as Hx4.
  { intros x Hx Hne. destruct (Hsm2 x Hx Hne) as [Ef Hid]. destruct (ident_fields _ _ Hid) as (_&_&?&?&?). by rewrite Eb4. }
  split; [|split; [|split; [congruence|split; [congruence|split; [done|split]]]]].
  - eapply freelist_kept; [exact Fl1|congruence|done| |].
    + intros x Hx Hn. assert (x <> bp) as Hne by (intros ->; apply Hn; rewrite HP2; mem). split; [intros Hi; apply Hn; rewrite HP2; mem|]. by destruct (Hx4 x Hx Hne) as (_&?&?&?).
    + intros blk Hblk i Hi. rewrite (content_bufs s2) by done. rewrite (Hbs2 dev blk (us_dev _ R3) i Hi), decide_False; [done|]. by intros [_ ->].
  - intros x Hx Hn. assert (x <> bp) as Hne by (intros ->; apply Hn; rewrite <- HP1; mem).
    destruct (Hx4 x Hx Hne) as (->&->&->&->). by apply Hbz1.
  - rewrite Eo4. unfold s0 in Ho. clear -Ho Eu4 Em4 Eu2 Em2. destruct s, s2, s4. unfold others in *. cbn in *. injection Ho. intros. by subst.
  - eapply whole_ret; [apply (bmap_whole ip bn 0)|exact R5|exact E4].
Qed.

Lemma added_inode s s' ip bn b : 
  inodes s' = inodes (seti ip (fun r => r <| i_addr @ bn := b |> <| i_flag ::= fun f => setf f (Z.lor IUPD ICHG) |>) s) ->
  i_dev (inodes s' ip) = i_dev (inodes s ip) /\ forall a, i_addr (inodes s' ip) a = if decide (bn = a) then b else i_addr (inodes s ip) a.
Proof. intros ->. rewrite seti_inodes, decide_True by done. split; [done|]. intros a. cbn. apply fn_case. Qed.

Lemma new_block_readied s A Q ip fp b l bn s' A' Q' : growing s A Q ip fp (b :: l) -> 0 <= bn < 10 -> i_addr (inodes s ip) bn = 0 ->
  cache s' A' Q' -> A' ≡ₚ A -> blocks_set s s' (i_dev (inodes s ip)) b (fun _ => 0) ->
  freelist s' A' (i_dev (inodes s ip)) fp l -> same_busy s (fp :: A) s' -> u s' = u s -> umem s' = umem s ->
  inodes s' = inodes (seti ip (fun r => r <| i_addr @ bn := b |> <| i_flag ::= fun f => setf f (Z.lor IUPD ICHG) |>) s) ->
  others s' = others (touched s s') -> no_resid s' -> readied s A ip fp (b :: l) bn b s' A' Q' l.
Proof.
  intros G Hbn Ha Hc HP Hbs Fl Hbz Hu Hum Hi Ho Hr. pose proof G as [[R1 R2 R3 R4 R5 R6] Fl0 G1 G2 G3 G4].
  destruct (freelist_head _ _ _ _ _ _ Fl0) as [Hb0 Hbl]. destruct (added_inode _ _ _ _ _ Hi) as [Ed Ea]. set (dev := i_dev (inodes s ip)) in *.
  assert (forall dv bk, dv <> NODEV -> ~ (dv = dev /\ bk = b) -> agree 0 512 (content s' dv bk) (content s dv bk)) as Hct.
  { intros dv bk Hdv Hne i Hlt. rewrite (Hbs dv bk Hdv i Hlt), decide_False by done. done. }
  assert (forall a, a < 10 -> i_addr (inodes s ip) a <> b) as Hnb by (intros a Hlt E; apply (G4 a Hlt); rewrite E; mem).
  assert (growing s' A' Q' ip fp l) as G'.
  { split; rewrite ?Ed; try done.
    - split; rewrite ?Ed; try done; [by rewrite HP| |].
      + intros blk x Hx E1 E2. rewrite HP. destruct (decide (x ∈ A)) as [|Hn]; [done|]. destruct (decide (x = fp)) as [->|Hne].
        * rewrite (fl_nodev _ _ _ _ _ Fl) in E1. by destruct (us_dev _ R3).
        * destruct (Hbz x Hx) as (_&E3&E4&_); [mem|]. apply (R4 blk x Hx); congruence.
      + intros blk i Hlt. rewrite (Hbs dev blk (us_dev _ R3) i Hlt). case_decide; [cbv beta; lia|by apply R6].
    - intros a Hlt. rewrite Ea, decide_False by lia. by apply G1.
    - intros a Hlt. rewrite Ea. case_decide; [lia|by apply G2].
    - intros a a' L1 L2. rewrite !Ea. repeat case_decide; subst; try done.
      + intros _ E. symmetry in E. by destruct (Hnb a' L2).
      + intros _ E. by destruct (Hnb a L1).
      + by apply G3.
    - intros a Hlt. rewrite Ea. case_decide; [done|]. intros Hin. apply (G4 a Hlt). mem. }
  split; try done.
  - rewrite (proj1 (growing_block _ _ _ _ _ _ bn G')), Ea, decide_True by done. replace (bn <? 10) with true by lia. by replace (b =? 0) with false by lia.
  - by rewrite Ha.
  - intros o. pose proof (Z.mod_pos_bound o 512 ltac:(lia)) as Hm. unfold file_byte. rewrite Ed.
    rewrite (proj1 (growing_block _ _ _ _ _ _ _ G)), (proj1 (growing_block _ _ _ _ _ _ _ G')), Ea. destruct (Z.ltb_spec (o / 512) 10); [|done].
    destruct (decide (bn = o / 512)) as [<-|Hne].
    + rewrite Ha. replace (b =? 0) with false by lia. replace (b <? 0) with false by lia. change (0 =? 0) with true. cbv iota.
      fold dev. rewrite (Hbs dev b (us_dev _ R3)), decide_True by done. done.
    + destruct (Z.eqb_spec (i_addr (inodes s ip) (o / 512)) 0); [done|]. destruct (_ <? 0); [done|].
      apply Hct; [apply R3| |done]. intros [_ E]. by apply (Hnb (o / 512)).
  - eexists. rewrite Hi. split; [extensionality i; rewrite !seti_inodes; case_decide; [subst; done|done]|]. apply setf_setf.
Qed.

Lemma bmap_ready s A Q ip fp l bn : growing s A Q ip fp l -> 0 <= bn < 10 -> i_addr (inodes s ip) bn <> 0 \/ l <> [] ->
  exists b s' A' Q' l', bmap ip bn 0 s = Ret b s' /\ 0 < b /\ readied s A ip fp l bn b s' A' Q' l'.
Proof.
  intros G Hbn Hl. pose proof G as [R Fl G1 G2 G3 G4]. pose proof R as [R1 R2 R3 R4 R5 R6]. destruct (decide (i_addr (inodes s ip) bn = 0)) as [Ha|Ha].
  - destruct l as [|b l]; [by destruct Hl|]. destruct (freelist_head _ _ _ _ _ _ Fl) as [Hb0 _].
    destruct (new_block s A Q ip fp b l bn G Hbn Ha) as (s'&A'&Q'&E&H1&H2&H3&H4&H5&H6&H7&H8&H9&H10).
    exists b, s', A', Q', l. split; [done|]. split; [done|]. by eapply new_block_readied.
  - set (b := i_addr (inodes s ip) bn) in *. assert (A <> []) as HA by (by destruct A; cbn in R2; [lia|]).
    assert (place bn = Some (bn, 0%nat, 0)) as Hp by (unfold place; by replace (bn <? 10) with true by lia).
    assert (file_block s ip bn = Some b) as Hfb.
    { rewrite (proj1 (growing_block _ _ _ _ _ _ bn G)). replace (bn <? 10) with true by lia. fold b. by replace (b =? 0) with false by lia. }
    pose proof Hfb as Hw. unfold file_block in Hw. rewrite Hp in Hw.
    destruct (bmap_ok ip bn 0 s A Q bn 0%nat 0 R1 HA R3 (proj1 Hbn) Hp) as (s1&A1&Q1&E1&Hr1); [right; by rewrite Hw|intros b' _; apply R4|].
    rewrite Hw in E1. cbn [from_option id] in E1. pose proof (rr_others _ _ _ _ _ Hr1) as Ho1.
    assert (u s1 = u s /\ umem s1 = umem s /\ inodes s1 = inodes s /\ mounts s1 = mounts s) as (Eu1&Em1&Ei1&Emt1).
    { unfold others in Ho1. split_and!; by injection Ho1. }
    assert (kept s A ip s1 A1 Q1) as K.
    { split; [|exists (i_lastr (inodes s ip)); extensionality i; rewrite seti_inodes, Ei1; case_decide; [subst; by destruct (inodes s i)|done]].
      replace (touched s s1) with (s <| rablock := rablock s1 |>); [done|]. unfold touched. rewrite Eu1, Em1, Ei1. by destruct s. }
    assert (no_resid s1) as Hw1 by (eapply whole_ret; [apply (bmap_whole ip bn 0)|exact R5|exact E1]).
    assert (growing s1 A1 Q1 ip fp l) as G' by (eapply growing_reread; [exact G|apply K|done|by rewrite Ei1..]).
    exists b, s1, A1, Q1, l. split; [done|]. split; [pose proof (G2 bn); lia|]. split; try done.
    + rewrite (proj1 (growing_block _ _ _ _ _ _ bn G')), Ei1. fold b. replace (bn <? 10) with true by lia. by replace (b =? 0) with false by lia.
    + fold b. by replace (b =? 0) with false by lia.
    + apply Hr1.
    + intros o. by eapply file_byte_kept.
    + intros dv bk Hdv _. by apply (sb_content _ _ (rr_blocks _ _ _ _ _ Hr1)).
    + exists (i_flag (inodes s ip)). split; [|done]. rewrite Ei1. extensionality i. rewrite seti_inodes. case_decide; [|done]. subst i. unfold b.
      destruct (inodes s ip) as [] eqn:Ei. cbn. unfold update_with. cbn. f_equal. symmetry. by apply fn_same.
    + rewrite Ho1. f_equal. unfold touched. rewrite Eu1, Em1, Ei1. by destruct s.
    + intros x Hx Hn. apply (rr_busy _ _ _ _ _ Hr1 x Hx). mem.
Qed.

(** ** Turns of writei *)

(** The blocks of a range of bytes that the file does not have. *)
Definition holes (s : kst) (ip off n : Z) : nat :=
  length (List.filter (fun a => i_addr (inodes s ip) a =? 0) (seqZ (off / 512) ((off + n - 1) / 512 - off / 512 + 1))).
Definition within (off n a : Z) : Prop := off / 512 <= a <= (off + n - 1) / 512.

(** The [n] bytes at the user's base are the file's from the offset on, the rest of
    it is unchanged, the blocks that were missing have come off the free list, and
    no other block of any device has changed. *)
Record grew (s : kst) (A : list bptr) (ip : Z) (fp : bptr) (l : list Z) (n : Z) (s' : kst) (A' : list bptr) (Q' : bptr -> list bptr) (l' : list Z) : Prop := {
  gw_bytes : forall o, file_byte s' ip o =
    if decide (u_offset (u s) <= o < u_offset (u s) + n) then umem s (u_base (u s) + (o - u_offset (u s))) else file_byte s ip o;
  gw_list : exists k, l = k ++ l' /\ length k = holes s ip (u_offset (u s)) n /\
    (forall a, i_addr (inodes s' ip) a = i_addr (inodes s ip) a \/ within (u_offset (u s)) n a /\ i_addr (inodes s ip) a = 0 /\ i_addr (inodes s' ip) a ∈ k) /\
    (forall dv bk, dv <> NODEV -> ~ (dv = i_dev (inodes s ip) /\ (bk ∈ k \/ exists a, within (u_offset (u s)) n a /\ bk = i_addr (inodes s ip) a)) ->
      agree 0 512 (content s' dv bk) (content s dv bk));
  gw_mapped : forall a, within (u_offset (u s)) n a -> i_addr (inodes s' ip) a <> 0;
  gw_user : u s' = advanced n (u s);
  gw_umem : umem s' = umem s;
  gw_inode : exists addrs, inodes s' = inodes (seti ip (fun r => grown (u_offset (u s) + n) (r <| i_addr := addrs |>)) s);
  gw_others : others s' = others (touched s s');
  gw_avail : A' ≡ₚ A;
  gw_busy : same_busy s (fp :: A) s';
  gw_growing : growing s' A' Q' ip fp l'
}.

Lemma holes_one s ip off n : 0 < n -> off mod 512 + n <= 512 -> holes s ip off n = if i_addr (inodes s ip) (off / 512) =? 0 then 1%nat else 0%nat.
Proof.
  intros Hn Hm. unfold holes. replace ((off + n - 1) / 512) with (off / 512).
  - replace (off / 512 - off / 512 + 1) with 1 by lia. rewrite seqZ_cons, seqZ_nil by lia. cbn. by destruct (_ =? 0).
  - Z.div_mod_to_equations. lia.
Qed.

Lemma grown_fl e r addrs fl addrs' : addrs' = addrs -> setf fl (Z.lor IUPD ICHG) = setf (i_flag r) (Z.lor IUPD ICHG) ->
  grown e (r <| i_addr := addrs |> <| i_flag := fl |>) = grown e (r <| i_addr := addrs' |>).
Proof. intros ->. destruct r. unfold grown, update_with. cbn -[setf]. by intros ->. Qed.
Lemma written_growing s A Q ip fp l b on n s' A' Q' : growing s A Q ip fp l -> block_written s A ip b on n s' A' Q' -> (b ∉ l) ->
  bytes_in (u_base (u s)) n (umem s) -> growing s' A' Q' ip fp l.
Proof.
  intros [R Fl G1 G2 G3 G4] B Hb Hum. destruct (block_written_inode _ _ _ _ _ _ _ _ _ ip B) as (Ed&Ea). pose proof B as [_ B2 B3 B4 _ _ _ B8 _].
  split; rewrite ?Ed, ?Ea; try done; [by eapply block_written_resting|].
  eapply freelist_kept; [exact Fl|by apply usable_mounts|rewrite B2; apply Fl| |].
  - intros x Hx Hn. rewrite B2 in Hn. by destruct (B3 x Hx Hn) as (_&?&?&?).
  - intros blk Hblk i Hi. rewrite (B4 _ blk (us_dev _ (re_dev _ _ _ _ R)) i Hi), decide_False; [done|]. by intros [_ ->].
Qed.
Lemma grow_turn s A Q ip fp l type dev0 : growing s A Q ip fp l -> wanted (u s) -> type = IFDIR \/ type = IFREG ->
  u_offset (u s) / 512 < 10 -> i_addr (inodes s ip) (u_offset (u s) / 512) <> 0 \/ l <> [] ->
  bytes_in (u_base (u s)) (u_count (u s)) (umem s) ->
  let n := Z.min (512 - u_offset (u s) mod 512) (u_count (u s)) in
  exists s' A' Q' l', writei_turn ip type dev0 s = Ret (if u_count (u s) - n =? 0 then inr tt else inl (i_dev (inodes s ip))) s' /\
    grew s A ip fp l n s' A' Q' l'.
Proof.
  intros G W Hty Hbn Hl Hum n. pose proof W as [We Ws Wo Wc Wb]. set (off := u_offset (u s)) in *. set (bn := off / 512) in *.
  pose proof (Z.mod_pos_bound off 512 ltac:(lia)) as Hm. pose proof (Z.div_mod off 512 ltac:(lia)) as Hdm.
  assert (0 < n <= 512 /\ n <= u_count (u s) /\ off mod 512 + n <= 512) as (Hn&Hnc&Hon) by (unfold n; lia).
  assert (0 <= bn) as Hbn0 by (apply Z.div_pos; lia).
  destruct (bmap_ready s A Q ip fp l bn G (conj Hbn0 Hbn) Hl) as (b&s1&A1&Q1&l1&E1&Hb&D). destruct D as [D1 D2 D3 Hbold D4 D5 D6 D7 D8 (fl&D9&Dfl) D10 D11].
  pose proof (gr_resting _ _ _ _ _ _ D1) as R1. pose proof (growing_sound _ _ _ _ _ _ D1) as S1.
  assert (i_dev (inodes s1 ip) = i_dev (inodes s ip)) as Ed1 by (rewrite D9, seti_inodes, decide_True; done).
  assert (forall a, i_addr (inodes s1 ip) a = if decide (bn = a) then b else i_addr (inodes s ip) a) as Ea1.
  { intros a. rewrite D9, seti_inodes, decide_True by done. cbn. apply fn_case. }
  destruct (turn_from s s1 A1 Q1 ip type dev0 b) as (s'&A'&Q'&E&B); try done; [lia|apply R1| |apply R1|apply R1|apply R1|change (off + n < 2147483648); unfold bn in Hbn; lia|].
  { intros ->. pose proof (re_two _ _ _ _ R1) as H2. cbn in H2. lia. }
  rewrite Ed1 in E. destruct (block_written_inode _ _ _ _ _ _ _ _ _ ip B) as (Ed'&Ea'). exists s', A', Q', l1. split; [done|].
  assert (off = u_offset (u s1)) as Eo1 by (unfold off; by rewrite D7).
  fold n off in B.
  assert (b ∉ l1) as Hbl1. { pose proof (growing_some _ _ _ _ _ _ _ _ D1 D2) as (_&_&_&?). done. }
  split.
  - intros o. rewrite Eo1 in B. rewrite (block_written_byte _ _ _ _ _ _ _ _ B (re_dev _ _ _ _ R1) S1); rewrite <- ?Eo1; try done; try lia.
    rewrite D8, D7, D5. done.
  - exists (if i_addr (inodes s ip) bn =? 0 then [b] else []). split; [done|]. split; [rewrite holes_one by (done || lia); fold off bn; by destruct (_ =? 0)|].
    assert (within off n bn) as Hw by (unfold within; split; [done|]; fold bn; apply Z.div_le_lower_bound; lia).
    split.
    + intros a. rewrite Ea', Ea1. case_decide as E2; [|by left]. subst a. destruct (Z.eqb_spec (i_addr (inodes s ip) bn) 0) as [E0|E0].
      * right. split; [done|]. split; [done|]. mem.
      * left. by apply Hbold.
    + intros dv bk Hdv Hne i Hi. rewrite (bw_blocks _ _ _ _ _ _ _ _ _ B dv bk Hdv i Hi), Ed1.
      assert (~ (dv = i_dev (inodes s ip) /\ bk = b)) as Hnb.
      { intros [-> ->]. apply Hne. split; [done|]. destruct (Z.eqb_spec (i_addr (inodes s ip) bn) 0) as [E0|E0]; [left; mem|right; exists bn; split; [done|by apply Hbold]]. }
      rewrite decide_False by done. by apply D6.
  - intros a Hw. unfold within in Hw. fold off in Hw. replace ((off + n - 1) / 512) with bn in Hw by (unfold bn; clear -Hn Hon Hm; Z.div_mod_to_equations; lia).
    rewrite Ea', Ea1, decide_True by (fold bn in Hw; lia). lia.
  - rewrite (bw_user _ _ _ _ _ _ _ _ _ B). by rewrite D7.
  - rewrite (bw_umem _ _ _ _ _ _ _ _ _ B). done.
  - exists (i_addr (inodes s1 ip)). rewrite (bw_inode _ _ _ _ _ _ _ _ _ B), <- Eo1. extensionality i. rewrite !seti_inodes. case_decide; [subst i|].
    + rewrite D9, seti_inodes, decide_True by done. apply grown_fl; [done|exact Dfl].
    + rewrite D9, seti_inodes, decide_False by done. done.
  - rewrite (bw_others _ _ _ _ _ _ _ _ _ B). clear -D10. destruct s, s1, s'. unfold others in *. cbn in *. injection D10. intros. by subst.
  - by rewrite (bw_avail _ _ _ _ _ _ _ _ _ B).
  - intros x Hx Hn'. destruct (D11 x Hx Hn') as (E4&E5&E6&E7).
    destruct (bw_busy _ _ _ _ _ _ _ _ _ B x Hx) as (F4&F5&F6&F7); [rewrite D4; mem|]. by rewrite F4, F5, F6, F7.
  - eapply written_growing; [exact D1|exact B|done|]. rewrite D7, D8. intros i Hi. apply Hum. lia.
Qed.

Lemma grown_again e e' r addrs addrs' : e <= e' -> grown e' ((grown e (r <| i_addr := addrs |>)) <| i_addr := addrs' |>) = grown e' (r <| i_addr := addrs' |>).
Proof.
  intros He. transitivity (grown e' (grown e (r <| i_addr := addrs' |>))); [by destruct r|by apply grown_grown].
Qed.

Lemma holes_split s s1 ip off n m : 0 < n -> 0 < m -> off mod 512 + n = 512 ->
  (forall a, off / 512 + 1 <= a -> i_addr (inodes s1 ip) a = i_addr (inodes s ip) a) ->
  holes s ip off (n + m) = (holes s ip off n + holes s1 ip (off + n) m)%nat.
Proof.
  intros Hn Hm He Hrest. unfold holes. assert ((off + n) / 512 = off / 512 + 1) as Elo by (Z.div_mod_to_equations; lia).
  assert ((off + n - 1) / 512 = off / 512) as -> by (clear Elo; Z.div_mod_to_equations; lia). rewrite Elo.
  assert (off / 512 + 1 <= (off + n + m - 1) / 512) as Hhi by (apply Z.div_le_lower_bound; [lia|]; pose proof (Z.div_mod off 512 ltac:(lia)); lia).
  replace (off + (n + m) - 1) with (off + n + m - 1) by lia. set (hi := (off + n + m - 1) / 512) in *.
  replace (off / 512 - off / 512 + 1) with 1 by lia. rewrite (seqZ_cons (off / 512) 1), (seqZ_nil (Z.succ (off / 512)) (Z.pred 1)) by lia.
  replace (hi - off / 512 + 1) with (Z.succ (hi - (off / 512 + 1) + 1)) by lia.
  rewrite (seqZ_cons (off / 512) (Z.succ (hi - (off / 512 + 1) + 1))), Z.pred_succ by lia. cbn [List.filter].
  rewrite (List.filter_ext_in (fun a => i_addr (inodes s1 ip) a =? 0) (fun a => i_addr (inodes s ip) a =? 0)).
  - rewrite <- Z.add_1_r. by destruct (_ =? 0).
  - intros a Hin%list_elem_of_In%elem_of_seqZ. by rewrite Hrest by lia.
Qed.

(** A turn that ends at the end of its block, and the rest. *)
Lemma grew_trans s A ip fp l n s1 A1 Q1 l1 m s2 A2 Q2 l2 : grew s A ip fp l n s1 A1 Q1 l1 -> grew s1 A1 ip fp l1 m s2 A2 Q2 l2 ->
  wanted (u s) -> 0 < n <= u_count (u s) -> 0 < m -> u_offset (u s) mod 512 + n = 512 -> u_offset (u s) + n < 2147483648 ->
  grew s A ip fp l (n + m) s2 A2 Q2 l2.
Proof.
  intros [H1 (k1&HL&Hk&Ha&Hct) Hmp H4 H5 (ad1&H6) H7 HP H9 H10] [G1 (k2&GL&Gk&Ga&Gct) Gmp G4 G5 (ad2&G6) G7 GP G9 G10] W Hn Hm He Hend.
  destruct (advanced_fields (u s) n W ltac:(lia) Hend) as (Eb&Eo&Ec). rewrite <- H4 in Eb, Eo, Ec. pose proof (wa_offset _ W) as Wo.
  set (off := u_offset (u s)) in *. rewrite Eo in *. pose proof (Z.div_mod off 512 ltac:(lia)) as Hdm.
  assert ((off + n) / 512 = off / 512 + 1) as Elo by (Z.div_mod_to_equations; lia).
  assert ((off + n - 1) / 512 = off / 512) as Elo1 by (Z.div_mod_to_equations; lia).
  assert (off / 512 + 1 <= (off + n + m - 1) / 512) as Hhi by (Z.div_mod_to_equations; lia).
  assert (i_dev (inodes s1 ip) = i_dev (inodes s ip)) as Ed by (rewrite H6, seti_inodes, decide_True; done).
  assert (forall a, off / 512 + 1 <= a -> i_addr (inodes s1 ip) a = i_addr (inodes s ip) a) as Hrest.
  { intros a Hlt. destruct (Ha a) as [|(Hw&_)]; [done|]. unfold within in Hw. lia. }
  assert (off + (n + m) - 1 = off + n + m - 1) as Esum by lia.
  assert (forall a, within off n a -> within off (n + m) a) as Hin1 by (unfold within; intros a; rewrite Esum; lia).
  assert (forall a, within (off + n) m a -> within off (n + m) a) as Hin2 by (unfold within; intros a; rewrite Esum; lia).
  split; try done.
  - intros o. rewrite G1, Eb, H5. destruct (decide (off + n <= o < _)).
    + rewrite decide_True by lia. f_equal. lia.
    + rewrite H1. destruct (decide (off <= o < off + n)); [by rewrite decide_True by lia|by rewrite decide_False by lia].
  - exists (k1 ++ k2). split; [by rewrite HL, GL, app_assoc|]. split; [|split].
    + rewrite length_app, Hk, Gk. symmetry. apply holes_split; [lia..|exact Hrest].
    + intros a. destruct (Ga a) as [E|(Hw&E0&Hin)].
      * rewrite E. destruct (Ha a) as [|(Hw&E0&Hin)]; [by left|]. right. split; [by apply Hin1|]. split; [done|]. apply elem_of_app. by left.
      * assert (i_addr (inodes s ip) a = 0) by (unfold within in Hw; rewrite Hrest in E0 by lia; done). right. split; [by apply Hin2|]. split; [done|]. apply elem_of_app. by right.
    + intros dv bk Hdv Hne i Hi. rewrite Gct; [|done| |done].
      * apply Hct; [done| |done]. intros [-> Hin]. apply Hne. split; [done|]. destruct Hin as [Hin|(a&Hw&E)]; [left; apply elem_of_app; by left|].
        right. exists a. split; [by apply Hin1|done].
      * rewrite Ed. intros [-> Hin]. apply Hne. split; [done|]. destruct Hin as [Hin|(a&Hw&E)]; [left; apply elem_of_app; by right|].
        right. exists a. rewrite Hrest in E by (unfold within in Hw; lia). split; [by apply Hin2|done].
  - intros a Hw. destruct (decide (a = off / 512)) as [Ea|Ea].
    + assert (i_addr (inodes s1 ip) a <> 0) as Hne by (apply Hmp; unfold within; fold off; lia).
      destruct (Ga a) as [->|(_&E0&_)]; [done|]. by destruct Hne.
    + apply Gmp. unfold within in *. fold off in Hw. rewrite Esum in Hw. lia.
  - rewrite G4, H4. apply advanced_add; [done|lia|done].
  - by rewrite G5.
  - exists ad2. rewrite G6. extensionality i. rewrite !seti_inodes, H6, !seti_inodes. repeat case_decide; try done.
    cbv beta. fold off. rewrite grown_again by lia. by replace (off + (n + m)) with (off + n + m) by lia.
  - rewrite G7. clear -H7. destruct s, s1, s2. unfold others in *. cbn in *. injection H7. intros. by subst.
  - by rewrite GP.
  - intros x Hx Hn'. destruct (H9 x Hx Hn') as (E1&E2&E3&E4), (G9 x Hx ltac:(rewrite HP; done)) as (F1&F2&F3&F4).
    by rewrite F1, F2, F3, F4.
Qed.

Lemma holes_first s ip off n : 0 < n -> i_addr (inodes s ip) (off / 512) = 0 -> (1 <= holes s ip off n)%nat.
Proof.
  intros Hn H. unfold holes. assert (off / 512 <= (off + n - 1) / 512) by (apply Z.div_le_mono; lia).
  rewrite seqZ_cons by lia. cbn [List.filter]. rewrite H. cbn. lia.
Qed.
Lemma grow_loop (k : nat) s A Q ip fp l type dev0 f : growing s A Q ip fp l -> wanted (u s) -> type = IFDIR \/ type = IFREG ->
  u_offset (u s) + u_count (u s) <= 5120 -> (holes s ip (u_offset (u s)) (u_count (u s)) <= length l)%nat ->
  bytes_in (u_base (u s)) (u_count (u s)) (umem s) ->
  u_offset (u s) mod 512 + u_count (u s) <= 512 * Z.of_nat k -> (k <= f)%nat ->
  exists s' A' Q' l', iter f (writei_turn ip type) dev0 s = Ret tt s' /\ grew s A ip fp l (u_count (u s)) s' A' Q' l'.
Proof.
  revert s A Q l dev0 f. induction k as [|k IH]; intros s A Q l dev0 f G W Hty Hend Hl Hum Hk Hf; pose proof W as [We Ws Wo Wc Wb];
    pose proof (Z.mod_pos_bound (u_offset (u s)) 512 ltac:(lia)) as Hm; [lia|].
  destruct f as [|f]; [lia|]. pose proof (Z.div_mod (u_offset (u s)) 512 ltac:(lia)) as Hdm.
  destruct (grow_turn s A Q ip fp l type dev0 G W Hty) as (s1&A1&Q1&l1&E1&W1); [lia| |done|].
  { destruct (decide (i_addr (inodes s ip) (u_offset (u s) / 512) = 0)) as [E|E]; [right|by left]. intros ->.
    pose proof (holes_first s ip _ (u_count (u s)) ltac:(lia) E). cbn in Hl. lia. }
  set (n := Z.min (512 - u_offset (u s) mod 512) (u_count (u s))) in *.
  assert (0 < n <= u_count (u s) /\ u_offset (u s) mod 512 + n <= 512) as (Hn&Hon) by (unfold n; lia).
  destruct (u_count (u s) - n =? 0) eqn:Ec.
  { exists s1, A1, Q1, l1. assert (u_count (u s) = n) as -> by lia. split; [by apply k_iter_inr|done]. }
  assert (n = 512 - u_offset (u s) mod 512) as En by (unfold n in *; lia).
  destruct (advanced_fields (u s) n W ltac:(lia) ltac:(lia)) as (Eb&Eo&Ect). rewrite <- (gw_user _ _ _ _ _ _ _ _ _ _ W1) in Eb, Eo, Ect.
  pose proof (gw_list _ _ _ _ _ _ _ _ _ _ W1) as (k1&HL&Hk1&Ha&_). erewrite k_iter_inl by exact E1.
  assert ((u_offset (u s) + n) mod 512 = 0) as Hz by (rewrite En; Z.div_mod_to_equations; lia).
  assert (holes s ip (u_offset (u s)) (u_count (u s)) = (length k1 + holes s1 ip (u_offset (u s) + n) (u_count (u s) - n))%nat) as Eh.
  { rewrite Hk1. replace (u_count (u s)) with (n + (u_count (u s) - n)) at 1 by lia. apply holes_split; [lia|lia|lia|].
    intros a Hlt. destruct (Ha a) as [|(Hw&_)]; [done|]. unfold within in Hw. replace ((u_offset (u s) + n - 1) / 512) with (u_offset (u s) / 512) in Hw by (Z.div_mod_to_equations; lia). lia. }
  destruct (IH s1 A1 Q1 l1 (i_dev (inodes s ip)) f (gw_growing _ _ _ _ _ _ _ _ _ _ W1)) as (s2&A2&Q2&l2&E2&W2).
  - rewrite (gw_user _ _ _ _ _ _ _ _ _ _ W1). apply advanced_wanted; [done|lia|lia].
  - done.
  - rewrite Eo, Ect. lia.
  - rewrite Eo, Ect. rewrite HL, length_app in Hl. lia.
  - rewrite Eb, Ect, (gw_umem _ _ _ _ _ _ _ _ _ _ W1). intros i Hi. apply Hum. lia.
  - rewrite Eo, Ect, Hz. lia.
  - lia.
  - exists s2, A2, Q2, l2. split; [done|]. replace (u_count (u s)) with (n + u_count (u s1)) by lia.
    eapply grew_trans; [exact W1|exact W2|done|lia..].
Qed.
Lemma grow_ok s A Q ip fp l : growing s A Q ip fp l -> wanted (u s) ->
  Z.land (i_mode (inodes s ip)) IFMT = IFDIR \/ Z.land (i_mode (inodes s ip)) IFMT = IFREG ->
  u_offset (u s) + u_count (u s) <= 5120 -> (holes s ip (u_offset (u s)) (u_count (u s)) <= length l)%nat ->
  bytes_in (u_base (u s)) (u_count (u s)) (umem s) ->
  exists s' A' Q' l', writei ip s = Ret tt s' /\ grew s A ip fp l (u_count (u s)) s' A' Q' l'.
Proof.
  intros G W Hty Hend Hl Hum. pose proof W as [We Ws Wo Wc Wb]. unfold writei. krun.
  replace (u_offset (u s) <? 0) with false by lia. krun.
  replace (_ =? IFCHR) with false by (by destruct Hty as [-> | ->]). replace (u_count (u s) =? 0) with false by lia.
  apply (grow_loop 129 s A Q); try done; [|pose proof enough_fuel; lia]. pose proof (Z.mod_pos_bound (u_offset (u s)) 512 ltac:(lia)). lia.
Qed.

(** The blocks that the file could still take. *)
Definition missing (s : kst) (ip : Z) : nat := length (List.filter (fun a => i_addr (inodes s ip) a =? 0) (seqZ 0 10)).
Lemma missing_split s ip off n : 0 <= off -> 0 < n -> off + n <= 5120 -> let hi := (off + n - 1) / 512 in
  missing s ip = (length (List.filter (fun a => i_addr (inodes s ip) a =? 0)%Z (seqZ 0 (off / 512)%Z)) + holes s ip off n +
    length (List.filter (fun a => i_addr (inodes s ip) a =? 0)%Z (seqZ (hi + 1)%Z (9 - hi)%Z)))%nat.
Proof.
  intros Ho Hn He hi. assert (0 <= off / 512 <= hi /\ hi <= 9) as [H1 H2] by (unfold hi; split; [split; [apply Z.div_pos; lia|apply Z.div_le_mono; lia]|Z.div_mod_to_equations; lia]).
  unfold missing, holes. fold hi. replace 10 with (off / 512 + ((hi - off / 512 + 1) + (9 - hi))) by lia.
  rewrite (seqZ_app 0 (off / 512)), seqZ_app, !List.filter_app, !length_app by lia.
  replace (0 + off / 512) with (off / 512) by lia. replace (off / 512 + (hi - off / 512 + 1)) with (hi + 1) by lia. lia.
Qed.
Lemma filter_none {T} (p : T -> bool) l : (forall x, x ∈ l -> p x = false) -> List.filter p l = [].
Proof. induction l as [|x l IH]; intros H; [done|]. cbn. rewrite H by mem. apply IH. intros y Hy. apply H. mem. Qed.
Lemma grew_missing s A ip fp l n s' A' Q' l' : grew s A ip fp l n s' A' Q' l' -> 0 <= u_offset (u s) -> 0 < n -> u_offset (u s) + n <= 5120 ->
  (missing s ip <= length l)%nat -> (missing s' ip <= length l')%nat.
Proof.
  intros W Ho Hn He Hl. destruct (gw_list _ _ _ _ _ _ _ _ _ _ W) as (k&HL&Hk&Ha&_). pose proof (gw_mapped _ _ _ _ _ _ _ _ _ _ W) as Hmp.
  set (off := u_offset (u s)) in *. rewrite (missing_split s ip off n Ho Hn He) in Hl. rewrite (missing_split s' ip off n Ho Hn He). set (hi := (off + n - 1) / 512) in *.
  assert (forall a, ~ within off n a -> i_addr (inodes s' ip) a = i_addr (inodes s ip) a) as Hsame by (intros a Hw; by destruct (Ha a) as [|(?&_)]).
  assert (holes s' ip off n = 0%nat) as ->.
  { unfold holes. rewrite filter_none; [done|]. intros a Hin%elem_of_seqZ. apply Z.eqb_neq, Hmp. unfold within. fold hi. lia. }
  rewrite (List.filter_ext_in (fun a => i_addr (inodes s' ip) a =? 0) (fun a => i_addr (inodes s ip) a =? 0) (seqZ 0 (off / 512))).
  2: { intros a Hin%list_elem_of_In%elem_of_seqZ. rewrite Hsame; [done|]. unfold within. lia. }
  rewrite (List.filter_ext_in (fun a => i_addr (inodes s' ip) a =? 0) (fun a => i_addr (inodes s ip) a =? 0) (seqZ (hi + 1) (9 - hi))).
  2: { intros a Hin%list_elem_of_In%elem_of_seqZ. rewrite Hsame; [done|]. unfold within. fold hi. lia. }
  rewrite HL, length_app, Hk in Hl. lia.
Qed.
Lemma holes_missing s ip off n : 0 <= off -> 0 < n -> off + n <= 5120 -> (holes s ip off n <= missing s ip)%nat.
Proof. intros Ho Hn He. rewrite (missing_split s ip off n Ho Hn He). lia. Qed.

(** ** Property *)

(** C8: [writei] to a file of at most ten blocks takes a block from the free list
    for each one that the written part lacks, and leaves the rest of the list:
    it returns, the file has the user's bytes there and its old bytes, or zeros,
    everywhere else, the inode has the new addresses and the size the write needs,
    no block of any device outside that part of the file has changed, and no buffer
    is left held. *)
Theorem writei_grows s A Q ip fp l : growing s A Q ip fp l -> wanted (u s) ->
  Z.land (i_mode (inodes s ip)) IFMT = IFDIR \/ Z.land (i_mode (inodes s ip)) IFMT = IFREG ->
  u_offset (u s) + u_count (u s) <= 5120 -> (holes s ip (u_offset (u s)) (u_count (u s)) <= length l)%nat ->
  bytes_in (u_base (u s)) (u_count (u s)) (umem s) ->
  exists s' A' Q' l', writei ip s = Ret tt s' /\ grew s A ip fp l (u_count (u s)) s' A' Q' l'.
Proof. apply grow_ok. Qed.
End code.

(** ** A new file *)

#[local] Existing Instances ramdisk rounds ramdisk_sync ramdisk_whole.

(** Inode 3 is an empty file on the file system where blocks 7 and 5 are free; the
    process writes 600 bytes at offset 100. *)
Definition empty_file : kst :=
  setu (fun r => r <| u_offset := 100 |> <| u_count := 600 |> <| u_base := 4096 |>)
    (seti 3 (fun r => r <| i_mode := IFREG |>) two_free).

Lemma two_free_base : inodes two_free 3 = zinode /\ u two_free = zuser /\ umem two_free = fun _ => 0.
Proof. split; [vm_compute; reflexivity|]. split; vm_compute; reflexivity. Qed.
Lemma mounted_whole m : no_resid (mounted m).
Proof.
  unfold mounted. destruct (booted_cache) as (Hc&_). change bufl with ([] ++ BUF 0 :: rest) in Hc.
  destruct (notavail_cache booted [] (BUF 0) rest bqueues Hc) as (s'&E&_). rewrite E.
  assert (no_resid s') as Hr by (eapply whole_ret; [apply notavail_quiet|exact booted_whole|exact E]).
  intros x. destruct (decide (BUF 0 = x)) as [<-|Hx]; [rewrite setb_eq|rewrite setb_ne by done]; apply Hr.
Qed.
Lemma mounted_content m blk : content (mounted m) 0 blk = fun _ => u8 blk.
Proof.
  destruct (mounted_cache m) as (_&Hd&_&_&Hk). rewrite content_disk; [rewrite Hk; reflexivity|]. intros b Hb.
  destruct (holds _ 0 blk b) eqn:E; [|done]. apply holds_true in E as (E&_). by rewrite Hd in E.
Qed.
(** A file without blocks on device 0. *)
Lemma mounted_growing m l ip f g : freelist (mounted m) rest 0 (BUF 0) l -> i_dev (f (inodes (mounted m) ip)) = 0 ->
  (forall a, i_addr (f (inodes (mounted m) ip)) a = 0) -> (0 ∉ l) -> growing (setu g (seti ip f (mounted m))) rest bqueues ip (BUF 0) l.
Proof.
  intros Fl Hd Ha H0. destruct (mounted_cache m) as (Hc&_). pose proof (mounted_unheld m) as Hun. pose proof (mounted_whole m) as Hw.
  pose proof (mounted_content m) as Hct. generalize dependent (mounted m). intros s Fl Hd Ha Hc Hun Hw Hct.
  split; rewrite ?set_inode, ?Hd; try (intros; rewrite ?Ha in *; done || lia).
  - apply resting_set with (dev := 0); [done|vm_compute; lia|apply usable_0|done|done| |done]. intros blk. rewrite Hct. intros i _. apply u8_range.
  - by apply freelist_set.
Qed.
Lemma empty_file_inode : inodes empty_file 3 = zinode <| i_mode := IFREG |>.
Proof. rewrite <- (proj1 two_free_base). exact (set_inode two_free 3 _ _). Qed.
Lemma empty_file_user : u empty_file = zuser <| u_offset := 100 |> <| u_count := 600 |> <| u_base := 4096 |>.
Proof. rewrite <- (proj1 (proj2 two_free_base)). exact (set_user two_free 3 _ _). Qed.
Lemma set_umem s ip f g : umem (setu g (seti ip f s)) = umem s.
Proof. done. Qed.
Lemma empty_file_umem : umem empty_file = fun _ => 0.
Proof. rewrite <- (proj2 (proj2 two_free_base)). apply set_umem. Qed.
Lemma empty_file_growing : growing empty_file rest bqueues 3 (BUF 0) [7; 5].
Proof.
  pose proof two_free_list as Fl. destruct two_free_base as [Ei _]. unfold empty_file, two_free in *. apply mounted_growing; [exact Fl|by rewrite Ei..|].
  intros [E|[E|E%elem_of_nil]%elem_of_cons]%elem_of_cons; [discriminate E|discriminate E|exact E].
Qed.

Lemma writei_grows_witness : exists s' A' Q' l', writei 3 empty_file = Ret tt s' /\ grew empty_file rest 3 (BUF 0) [7; 5] 600 s' A' Q' l'.
Proof.
  pose proof (writei_grows empty_file rest bqueues 3 (BUF 0) [7; 5] empty_file_growing) as W. unfold holes in W.
  rewrite empty_file_user, empty_file_inode in W. apply W.
  - exact writer_wanted.
  - right. reflexivity.
  - vm_compute. discriminate.
  - vm_compute. lia.
  - intros i _. rewrite empty_file_umem. split; [discriminate|reflexivity].
Defined.
End Grow.
