(* ===== verification/Text.v ===== *)
(** * Text: the table of shared texts (src/usr/sys/sys/text.c)

    The part the file system calls: a text holds a reference to its inode until
    the table entry is given up.  The space a text gives back is recorded in the
    log; what [mfree] does with it is the subject of [ResMap]. *)
From S2P Require Import Prelude Kmonad Kernel Bio Alloc Inode.
Import Bio Alloc Inode.

Module Text.

Section code.
  Context `{DV : Devices} `{FL : Fuel}.

Definition xlock (xp : Z) : M unit :=
  wait_while fuel (fun s => has (x_flag (texts s xp)) XLOCK)
    (modx xp (fun r => r <| x_flag ::= fun f => setf f XWANT |>);; sleep (ChText xp) PSWP);;
  modx xp (fun r => r <| x_flag ::= fun f => setf f XLOCK |>).

Definition xunlock (xp : Z) : M unit :=
  r ← getx xp;
  when (has (x_flag r) XWANT) (wakeup (ChText xp));;
  modx xp (fun r => r <| x_flag ::= fun f => clrf f (Z.lor XLOCK XWANT) |>).

(** One process less has the text in core; the last one writes it out if it
    was changed and frees the core. *)
Definition xccdec (xp : option Z) : M unit :=
  match xp with
  | None => mret tt
  | Some xp =>
      r ← getx xp;
      if x_ccount r =? 0 then mret tt
      else
        xlock xp;;
        modx xp (fun r => r <| x_ccount ::= fun c => u8 (c - 1) |>);;
        r ← getx xp;
        when (x_ccount r =? 0)
          (r ← getx xp;
           when (has (x_flag r) XWRIT)
             (modx xp (fun r => r <| x_flag ::= fun f => clrf f XWRIT |>);;
              r ← getx xp;
              swap (x_daddr r) (x_caddr r) (x_size r) 0);;
           r ← getx xp;
           modify (emit (MfreeCore (x_size r) (x_caddr r))));;
        xunlock xp
  end.

(** The text gives back its inode. *)
Definition drop_inode (ip : Z) : M unit :=
  modi ip (fun r => r <| i_flag ::= fun f => clrf f ITEXT |>);;
  r ← geti ip;
  if has (i_flag r) ILOCK then modi ip (fun r => r <| i_count ::= fun c => u8 (c - 1) |>)
  else iput ip.

Definition xfree : M unit :=
  us ← getu;
  match u_p_textp us with
  | None => mret tt
  | Some xp =>
      xlock xp;;
      modx xp (fun r => r <| x_flag ::= fun f => clrf f XLOCK |>);;
      modu (fun r => r <| u_p_textp := None |>);;
      r ← getx xp;
      match x_iptr r with
      | None => panic "null inode"
      | Some ip =>
          modx xp (fun r => r <| x_count ::= fun c => u8 (c - 1) |>);;
          r ← getx xp;
          i ← geti ip;
          if (x_count r =? 0) && negb (has (i_mode i) ISVTX) then
            modx xp (fun r => r <| x_iptr := None |>);;
            modify (emit (MfreeSwap (ctod (x_size r)) (x_daddr r)));;
            modify (emit (MfreeCore (x_size r) (x_caddr r)));;
            drop_inode ip
          else xccdec (Some xp)
      end
  end.

Definition xuntext (xp : Z) : M unit :=
  xlock xp;;
  r ← getx xp;
  if negb (x_count r =? 0) then xunlock xp
  else
    modx xp (fun r => r <| x_flag ::= fun f => clrf f XLOCK |>);;
    modx xp (fun r => r <| x_iptr := None |>);;
    modify (emit (MfreeSwap (ctod (x_size r)) (x_daddr r)));;
    match x_iptr r with
    | None => panic "null inode"
    | Some ip => drop_inode ip
    end.

Definition xumount (dev : Z) : M unit :=
  each (upto NTEXT) (fun xp =>
    st ← get;
    match x_iptr (texts st xp) with
    | Some ip => when (dev =? i_dev (inodes st ip)) (xuntext xp)
    | None => mret tt
    end).

Definition xrele (ip : Z) : M unit :=
  r ← geti ip;
  if negb (has (i_flag r) ITEXT) then mret tt
  else
    each (upto NTEXT) (fun xp =>
      r ← getx xp;
      when (bool_decide (x_iptr r = Some ip)) (xuntext xp)).
End code.
End Text.
