(* ===== verification/Fio.v ===== *)
(** * Fio: open files and permissions (src/usr/sys/sys/fio.c) *)
From S2P Require Import Prelude Kmonad Kernel Bio Alloc Inode Text.
Import Bio Alloc Inode Text.

Module Fio.

Section code.
  Context `{DV : Devices} `{FL : Fuel}.

Definition getf (f : Z) : M (option Z) :=
  us ← getu;
  match (if (0 <=? f) && (f <? NOFILE) then u_ofile us f else None) with
  | Some fp => mret (Some fp)
  | None => err EBADF;; mret None
  end.

(** [for(fp=file; ..)]: some other open file is on the inode. *)
Definition still_open (ip : Z) (s : kst) : bool :=
  existsb (fun i => negb (f_count (files s i) =? 0) && (f_inode (files s i) =? ip)) (upto NFILE).

Definition closef (fp : option Z) : M unit :=
  match fp with
  | None => mret tt
  | Some fp =>
      f ← gets (fun s => files s fp);
      if 1 <? f_count f then modf fp (fun r => r <| f_count ::= fun c => u8 (c - 1) |>)
      else
        let ip := f_inode f in
        let flag := f_flag f in
        r ← geti ip;
        let dev := i_rdev r in
        let fmt := Z.land (i_mode r) IFMT in
        plock ip;;
        modf fp (fun r => r <| f_count := 0 |>);;
        when (has flag FPIPE)
          (modi ip (fun r => r <| i_mode ::= fun m => clrf m (Z.lor IREAD IWRITE) |>);;
           wakeup (ChWrite ip);;
           wakeup (ChRead ip));;
        iput ip;;
        if (fmt =? IFCHR) || (fmt =? IFBLK) then
          busy ← gets (still_open ip);
          if busy : bool then mret tt
          else if fmt =? IFCHR then cdev_close (major dev) dev flag
          else bdev_close (major dev) dev flag
        else mret tt
  end.

Definition openi (ip rw : Z) : M unit :=
  r ← geti ip;
  let dev := i_rdev r in
  let maj := u16 (major dev) in
  let fmt := Z.land (i_mode r) IFMT in
  if fmt =? IFCHR then
    if nchrdev <=? maj then err ENXIO else cdev_open maj dev rw
  else if fmt =? IFBLK then
    if nblkdev <=? maj then err ENXIO else bdev_open maj dev rw
  else mret tt.

(** The permission bits that count for the process: the mode shifted to the
    owner's, the group's or the others' field. *)
Definition access_bits (us : user) (r : inode) (mode : Z) : Z :=
  if negb (u_uid us =? i_uid r) then
    let m := Z.shiftr mode 3 in
    if negb (u_gid us =? i_gid r) then Z.shiftr m 3 else m
  else mode.

(** [true]: not allowed. *)
Definition access (ip mode : Z) : M bool :=
  bad ← (if mode =? IWRITE then
           r ← geti ip;
           fp ← getfs (i_dev r);
           d ← getd fp;
           if negb (s_ronly d =? 0) then err EROFS;; mret true
           else
             r ← geti ip;
             when (has (i_flag r) ITEXT) (xrele ip);;
             r ← geti ip;
             if has (i_flag r) ITEXT then err ETXTBSY;; mret true else mret false
         else mret false);
  if bad : bool then mret true
  else
    us ← getu;
    if u_uid us =? 0 then mret false
    else
      r ← geti ip;
      if has (i_mode r) (access_bits us r mode) then mret false
      else err EACCES;; mret true.

Definition ASU : Z := 2.

Definition suser : M bool :=
  us ← getu;
  if u_uid us =? 0 then modu (fun r => r <| u_acflag ::= fun f => setf f ASU |>);; mret true
  else err EPERM;; mret false.

(** The lowest descriptor that is not in use. *)
Definition ufalloc : M Z :=
  i ← find_first (upto NOFILE) (fun s i => bool_decide (u_ofile (u s) i = None));
  match i with
  | Some i =>
      modu (fun r => r <| r_val1 := i |>);;
      modu (fun r => r <| u_pofile @ i := 0 |>);;
      mret i
  | None => err EMFILE;; mret (-1)
  end.

Definition falloc : M (option Z) :=
  i ← ufalloc;
  if i <? 0 then mret None
  else
    fp ← find_first (upto NFILE) (fun s f => f_count (files s f) =? 0);
    match fp with
    | Some fp =>
        modu (fun r => r <| u_ofile @ i := Some fp |>);;
        modf fp (fun r => r <| f_count ::= fun c => u8 (c + 1) |>);;
        modf fp (fun r => r <| f_offset := 0 |>);;
        mret (Some fp)
    | None =>
        printf "no file";;
        err ENFILE;;
        mret None
    end.

(** ** What [falloc] gives *)

Definition free_fd (s : kst) : option Z := List.find (fun i => bool_decide (u_ofile (u s) i = None)) (upto NOFILE).
Definition free_file (s : kst) : option Z := List.find (fun f => f_count (files s f) =? 0) (upto NFILE).
(** Descriptor [i] and file [fp] taken. *)
Definition filed (i fp : Z) (s : kst) : kst :=
  setf_ fp (fun r => r <| f_count ::= fun c => u8 (c + 1) |> <| f_offset := 0 |>)
    (setu (fun r => r <| r_val1 := i |> <| u_pofile @ i := 0 |> <| u_ofile @ i := Some fp |>) s).

Lemma setf_twice fp f g s : setf_ fp f (setf_ fp g s) = setf_ fp (fun r => f (g r)) s.
Proof. unfold setf_, update_with. cbn. by rewrite fn_eq, fn_twice. Qed.

Lemma setf_at fp f g s : f (files s fp) = g (files s fp) -> setf_ fp f s = setf_ fp g s.
Proof. intros E. unfold setf_, update_with. cbn. by rewrite E. Qed.
Lemma falloc_eq s : falloc s =
  match free_fd s with
  | None => Ret None (setu (fun r => r <| u_error := EMFILE |>) s)
  | Some i =>
      match free_file s with
      | None => Ret None (setu (fun r => r <| r_val1 := i |> <| u_pofile @ i := 0 |> <| u_error := ENFILE |>) (emit (Printf "no file") s))
      | Some fp => Ret (Some fp) (filed i fp s)
      end
  end.
Proof.
  unfold falloc, ufalloc, find_first. rewrite !k_bind_bind. krun. fold (free_fd s).
  destruct (free_fd s) as [i|] eqn:E; [|by krun]. apply find_upto in E as (Hi&_).
  rewrite !k_bind_bind. krun. rewrite k_bind_bind. krun. replace (i <? 0) with false by lia. krun.
  set (s1 := setu _ (setu _ s)). change (List.find _ (upto NFILE)) with (free_file s).
  destruct (free_file s) as [fp|]; [|done]. krun. cbn [fst]. rewrite setf_twice. done.
Qed.
Lemma free_fd_spec s : match free_fd s with
  | Some i => 0 <= i < NOFILE /\ u_ofile (u s) i = None /\ forall j, 0 <= j < i -> u_ofile (u s) j <> None
  | None => forall i, 0 <= i < NOFILE -> u_ofile (u s) i <> None
  end.
Proof.
  destruct (free_fd s) as [i|] eqn:E.
  - apply find_upto in E as (Hi&Hn%bool_decide_eq_true&Hlt). split; [done|]. split; [done|]. intros j Hj. exact (bool_decide_eq_false_1 _ (Hlt j Hj)).
  - intros i Hi Hn. pose proof (List.find_none _ _ E i) as Hx. cbv beta in Hx. rewrite bool_decide_eq_true_2 in Hx by done.
    discriminate Hx. apply list_elem_of_In, upto_range, Hi.
Qed.
Lemma free_file_spec s : match free_file s with
  | Some fp => 0 <= fp < NFILE /\ f_count (files s fp) = 0 /\ forall f, 0 <= f < fp -> f_count (files s f) <> 0
  | None => forall f, 0 <= f < NFILE -> f_count (files s f) <> 0
  end.
Proof.
  destruct (free_file s) as [fp|] eqn:E.
  - apply find_upto in E as (Hf&Hc&Hlt). split; [done|]. split; [lia|]. intros f Hj. specialize (Hlt f Hj). lia.
  - intros f Hf Hc. pose proof (List.find_none _ _ E f) as Hx. cbv beta in Hx. rewrite Hc in Hx.
    discriminate Hx. apply list_elem_of_In, upto_range, Hf.
Qed.

(** ** Properties *)

(** [falloc] gives the lowest unused descriptor of the process the first free
    entry of the file table, with one reference, at offset 0, and tells the
    descriptor's number; the other descriptors and files are left alone.  It fails
    exactly when all descriptors (EMFILE) or all files (ENFILE) are in use. *)
Theorem falloc_lowest s :
  match free_fd s with
  | None => falloc s = Ret None (setu (fun r => r <| u_error := EMFILE |>) s) /\
      forall i, 0 <= i < NOFILE -> u_ofile (u s) i <> None
  | Some i =>
      0 <= i < NOFILE /\ u_ofile (u s) i = None /\ (forall j, 0 <= j < i -> u_ofile (u s) j <> None) /\
      match free_file s with
      | None => (exists s', falloc s = Ret None s' /\ u_error (u s') = ENFILE /\ files s' = files s /\ u_ofile (u s') = u_ofile (u s)) /\
          forall f, 0 <= f < NFILE -> f_count (files s f) <> 0
      | Some fp =>
          0 <= fp < NFILE /\ f_count (files s fp) = 0 /\ (forall f, 0 <= f < fp -> f_count (files s f) <> 0) /\
          exists s', falloc s = Ret (Some fp) s' /\ r_val1 (u s') = i /\ u_ofile (u s') i = Some fp /\ u_pofile (u s') i = 0 /\
            f_count (files s' fp) = 1 /\ f_offset (files s' fp) = 0 /\
            (forall j, j <> i -> u_ofile (u s') j = u_ofile (u s) j) /\ (forall f, f <> fp -> files s' f = files s f) /\
            u_error (u s') = u_error (u s)
      end
  end.
Proof.
  rewrite falloc_eq. pose proof (free_fd_spec s) as Hi. pose proof (free_file_spec s) as Hf.
  destruct (free_fd s) as [i|]; [|by split]. destruct Hi as (H1&H2&H3). split; [done|]. split; [done|]. split; [done|].
  destruct (free_file s) as [fp|].
  - destruct Hf as (F1&F2&F3). split; [done|]. split; [done|]. split; [done|]. eexists. split; [reflexivity|].
    unfold filed, setf_, setu. cbn. rewrite !fn_eq. cbn. rewrite F2. split_and!; try done; intros j Hj; by rewrite fn_ne.
  - split; [|done]. eexists. split; [reflexivity|]. done.
Qed.
End code.
End Fio.
