(* ===== verification/Tty.v ===== *)
(** * Tty: terminals (src/usr/sys/sys/tty.c, src/usr/sys/h/tty.h, partab.c)

    The common part of the terminal drivers: characters that arrive are put on
    the raw queue and echoed, whole lines are edited into the canonical queue,
    and output goes to the output queue with tabs and delays.  The code is
    written against an interface to the character queues ([Queues]), which the
    routines of [Clist] implement (file [Ttyq]), and for any driver
    ([TtyDriver]). *)
From S2P Require Import Prelude Kmonad Kernel Bio Rdwri Fio.
Import Rdwri Fio.

(** ** The queues of a terminal *)

Inductive qname := Rawq | Canq | Outq.
#[export] Instance qname_eq : EqDecision qname.
Proof. solve_decision. Defined.

(** [getc], [putc] and [b_to_q] on the queues of a terminal, and their counts. *)
Class Queues (W : Type) := {
  q_getc : qname -> W -> Z * W;
  q_putc : Z -> qname -> W -> Z * W;
  q_b_to_q : list Z -> qname -> W -> Z * W;
  q_cc : qname -> W -> Z
}.

(** What the queues promise: each is a list of bytes, first in, first out.  Only
    [putc] can fail, and it does not as long as there is room: [q_holds w f r]
    says that the queues hold [f] and at least [r] more characters fit. *)
Class QueueLaws (W : Type) `{Queues W} := {
  q_holds : W -> (qname -> list Z) -> nat -> Prop;
  q_holds_le : forall w f r r', q_holds w f r -> (r' <= r)%nat -> q_holds w f r';
  q_cc_law : forall w f r q, q_holds w f r -> q_cc q w = Z.of_nat (length (f q));
  q_byte : forall w f r q c, q_holds w f r -> c ∈ f q -> 0 <= c < 256;
  q_getc_nil : forall w f r q, q_holds w f r -> f q = [] -> exists w', q_getc q w = (-1, w') /\ q_holds w' f r;
  q_getc_cons : forall w f r q c l, q_holds w f r -> f q = c :: l -> exists w', q_getc q w = (c, w') /\
    q_holds w' (<[q := l]> f) (r + Nat.min r 1)%nat;
  q_putc_law : forall w f r q c, q_holds w f r -> exists v w', q_putc c q w = (v, w') /\
    ((v = 0 /\ q_holds w' (<[q := f q ++ [u8 c]]> f) (Nat.pred r)) \/ (v = -1 /\ r = 0%nat /\ q_holds w' f 0));
  q_b_to_q_law : forall w f r q l, q_holds w f r -> exists v w' k, q_b_to_q l q w = (v, w') /\ (k <= length l)%nat /\
    v = Z.of_nat (length l - k) /\ q_holds w' (<[q := f q ++ map u8 (take k l)]> f) (r - k)%nat /\
    ((length l <= r)%nat -> k = length l)
}.

Module Tty.

(** ** Data *)

Record tty := MkTty {
  t_dev : Z; t_flags : Z; t_state : Z; t_pgrp : Z; t_delct : Z; t_line : Z; t_col : Z;
  t_erase : Z; t_kill : Z; t_char : Z; t_ispeed : Z; t_ospeed : Z;
  t_intrc : Z; t_quitc : Z; t_startc : Z; t_stopc : Z; t_eofc : Z; t_brkc : Z   (* t_un.tc *)
}.
#[export] Instance eta_tty : Eta tty := fun r =>
  MkTty (t_dev r) (t_flags r) (t_state r) (t_pgrp r) (t_delct r) (t_line r) (t_col r) (t_erase r) (t_kill r) (t_char r)
    (t_ispeed r) (t_ospeed r) (t_intrc r) (t_quitc r) (t_startc r) (t_stopc r) (t_eofc r) (t_brkc r).

(** Calls to the rest of the kernel. *)
Inductive tevent := TWakeup (q : qname) | TSignal (pgrp sig : Z).

(** One terminal, its queues, and the parts of the kernel its code uses: the
    process's group and controlling terminal, and the kernel's state. *)
Record tst (W : Type) := MkTst {
  tk : kst; tp : tty; tq : W;
  canonb : Z -> Z;                       (* char canonb[CANBSIZ] *)
  tk_nout : Z; tk_nin : Z;
  p_pgrp : Z; p_pid : Z;                 (* of *u.u_procp *)
  u_ttyp : bool; u_ttyd : Z;             (* u.u_ttyp is this terminal; its device *)
  tlog : list tevent
}.
Arguments MkTst {W}. Arguments tk {W}. Arguments tp {W}. Arguments tq {W}. Arguments canonb {W}.
Arguments tk_nout {W}. Arguments tk_nin {W}. Arguments p_pgrp {W}. Arguments p_pid {W}. Arguments u_ttyp {W}.
Arguments u_ttyd {W}. Arguments tlog {W}.
#[export] Instance eta_tst W : Eta (tst W) := fun r =>
  MkTst (tk r) (tp r) (tq r) (canonb r) (tk_nout r) (tk_nin r) (p_pgrp r) (p_pid r) (u_ttyp r) (u_ttyd r) (tlog r).

(** Where the code gives up the processor. *)
Inductive tlbl := TSleep (q : qname) (pri : Z) | TKern (l : lbl).

(** The constants of tty.h and param.h. *)
Definition TTIPRI : Z := 28.
Definition TTOPRI : Z := 29.
Definition CERASE : Z := 35.             (* '#' *)
Definition CEOT : Z := 4.
Definition CKILL : Z := 64.              (* '@' *)
Definition CQUIT : Z := 28.
Definition CINTR : Z := 127.
Definition CSTOP : Z := 19.
Definition CSTART : Z := 17.
Definition CBRK : Z := 255.
Definition TTHIWAT : Z := 100.
Definition TTYHOG : Z := 256.
Definition CANBSIZ : Z := 256.
Definition TANDEM : Z := 1.
Definition CBREAK : Z := 2.
Definition LCASE : Z := 4.
Definition ECHO : Z := 8.
Definition CRMOD : Z := 16.
Definition RAW : Z := 32.
Definition TBDELAY : Z := 0xC00.
Definition XTABS : Z := 0xC00.
Definition VTDELAY : Z := 0x4000.
Definition TIMEOUT : Z := 1.
Definition WOPEN : Z := 2.
Definition ISOPEN : Z := 4.
Definition CARR_ON : Z := 16.
Definition BUSY : Z := 32.
Definition ASLEEP : Z := 64.
Definition XCLUDE : Z := 128.
Definition TTSTOP : Z := 256.
Definition HUPCLS : Z := 512.
Definition TBLOCK : Z := 1024.
Definition SIGINT : Z := 2.
Definition SIGQUIT : Z := 3.
Definition ENOTTY : Z := 25.
Definition EXCLOSE : Z := 1.
Definition tioc (n : Z) : Z := Z.lor (Z.shiftl 116 8) n.
Definition TIOCGETD : Z := tioc 0.
Definition TIOCSETD : Z := tioc 1.
Definition TIOCHPCL : Z := tioc 2.
Definition TIOCGETP : Z := tioc 8.
Definition TIOCSETP : Z := tioc 9.
Definition TIOCSETN : Z := tioc 10.
Definition TIOCEXCL : Z := tioc 13.
Definition TIOCNXCL : Z := tioc 14.
Definition TIOCFLUSH : Z := tioc 16.
Definition TIOCSETC : Z := tioc 17.
Definition TIOCGETC : Z := tioc 18.
Definition DIOCGETP : Z := Z.lor (Z.shiftl 100 8) 8.
Definition DIOCSETP : Z := Z.lor (Z.shiftl 100 8) 9.
Definition FIOCLEX : Z := Z.lor (Z.shiftl 102 8) 1.
Definition FIONCLEX : Z := Z.lor (Z.shiftl 102 8) 2.

(** The drivers: the terminal's start routine, the stop routine of its device,
    the line disciplines, the ioctl routines; and what lies behind [maptab] in
    memory, which [canon] can read. *)
Class TtyDriver (W : Type) := {
  t_oproc : K tlbl (tst W) unit;
  d_stop : Z -> K tlbl (tst W) unit;
  nldisp : Z;
  l_open : Z -> Z -> Z -> K tlbl (tst W) unit;
  l_close : Z -> K tlbl (tst W) unit;
  l_ioctl : Z -> Z -> Z -> K tlbl (tst W) unit;
  d_ioctl : Z -> Z -> Z -> Z -> Z -> K tlbl (tst W) unit;
  past_maptab : Z -> Z
}.

(** [maptab] (tty.c): what a character typed after a backslash stands for. *)
Definition maptab : list Z := [
  0; 0; 0; 0; 0; 0; 0; 0; 0; 0; 0; 0; 0; 0; 0; 0;
  0; 0; 0; 0; 0; 0; 0; 0; 0; 0; 0; 0; 0; 0; 0; 0;
  0; 124; 0; 0; 0; 0; 0; 96; 123; 125; 0; 0; 0; 0; 0; 0;
  0; 0; 0; 0; 0; 0; 0; 0; 0; 0; 0; 0; 0; 0; 0; 0;
  0; 0; 0; 0; 0; 0; 0; 0; 0; 0; 0; 0; 0; 0; 0; 0;
  0; 0; 0; 0; 0; 0; 0; 0; 0; 0; 0; 0; 0; 0; 126; 0;
  0; 65; 66; 67; 68; 69; 70; 71; 72; 73; 74; 75; 76; 77; 78; 79;
  80; 81; 82; 83; 84; 85; 86; 87; 88; 89; 90; 0; 0; 0; 0; 0].

(** [partab] (partab.c): the class of each character, with its parity bit. *)
Definition partab : list Z := [
  0x01; 0x81; 0x81; 0x01; 0x81; 0x01; 0x01; 0x81; 0x82; 0x04; 0x03; 0x81; 0x05; 0x86; 0x81; 0x01;
  0x81; 0x01; 0x01; 0x81; 0x01; 0x81; 0x81; 0x01; 0x01; 0x81; 0x81; 0x01; 0x81; 0x01; 0x01; 0x81;
  0x80; 0x00; 0x00; 0x80; 0x00; 0x80; 0x80; 0x00; 0x00; 0x80; 0x80; 0x00; 0x80; 0x00; 0x00; 0x80;
  0x00; 0x80; 0x80; 0x00; 0x80; 0x00; 0x00; 0x80; 0x80; 0x00; 0x00; 0x80; 0x00; 0x80; 0x80; 0x00;
  0x80; 0x00; 0x00; 0x80; 0x00; 0x80; 0x80; 0x00; 0x00; 0x80; 0x80; 0x00; 0x80; 0x00; 0x00; 0x80;
  0x00; 0x80; 0x80; 0x00; 0x80; 0x00; 0x00; 0x80; 0x80; 0x00; 0x00; 0x80; 0x00; 0x80; 0x80; 0x00;
  0x00; 0x80; 0x80; 0x00; 0x80; 0x00; 0x00; 0x80; 0x80; 0x00; 0x00; 0x80; 0x00; 0x80; 0x80; 0x00;
  0x80; 0x00; 0x00; 0x80; 0x00; 0x80; 0x80; 0x00; 0x00; 0x80; 0x80; 0x00; 0x80; 0x00; 0x00; 0x81].

Section code.
  Context {W : Type} `{QU : !Queues W} `{TD : !TtyDriver W} `{FL : Fuel}.

Abbreviation T := (K tlbl (tst W)).

(** ** The kernel's routines on this state *)

Definition modt (f : tty -> tty) : T unit := modify (fun s => s <| tp ::= f |>).
Definition gett : T tty := gets tp.
Definition getc (q : qname) : T Z := fun s => let '(c, w) := q_getc q (tq s) in Ret c (s <| tq := w |>).
Definition putc (c : Z) (q : qname) : T Z := fun s => let '(v, w) := q_putc c q (tq s) in Ret v (s <| tq := w |>).
Definition b_to_q (l : list Z) (q : qname) : T Z := fun s => let '(v, w) := q_b_to_q l q (tq s) in Ret v (s <| tq := w |>).
Definition c_cc (q : qname) : T Z := gets (fun s => q_cc q (tq s)).

Fixpoint olift {A} (s : tst W) (o : outcome lbl kst A) : outcome tlbl (tst W) A :=
  match o with
  | Ret a k => Ret a (s <| tk := k |>)
  | Blocked l k r => Blocked (TKern l) (s <| tk := k |>) (fun s' => olift s' (r (tk s')))
  | Jumped k => Jumped (s <| tk := k |>)
  | Panicked w k => Panicked w (s <| tk := k |>)
  | Spinning => Spinning
  end.
(** Code of the rest of the kernel. *)
Definition kern {A} (m : M A) : T A := fun s => olift s (m (tk s)).
Definition spl5 : T bool := kern splhi.
Definition spl0 : T unit := kern Kernel.spl0.
Definition splx (b : bool) : T unit := kern (Kernel.splx b).
Definition err (e : Z) : T unit := kern (Kernel.err e).
Definition wakeup (q : qname) : T unit := modify (fun s => s <| tlog ::= cons (TWakeup q) |>).
Definition signal (pgrp sig : Z) : T unit := modify (fun s => s <| tlog ::= cons (TSignal pgrp sig) |>).
(** Both priorities of this file are above PZERO. *)
Definition sleep (q : qname) (pri : Z) : T unit :=
  block (TSleep q pri);;
  sg ← gets (fun s => signalled (tk s));
  if (sg : bool) then longjmp else mret tt.

(** [while (getc(q) >= 0);] *)
Definition drain (q : qname) : T unit :=
  n ← c_cc q;
  iter (S (Z.to_nat n)) (fun _ => c ← getc q; mret (if 0 <=? c then inl tt else inr tt)) tt.

(** ** Opening, closing, flushing *)

Definition ttyopen (dev : Z) : T unit :=
  modt (fun r => r <| t_dev := dev |>);;
  pg ← gets p_pgrp;
  when (pg =? 0)
    (modify (fun s => s <| u_ttyp := true |>);;
     modify (fun s => s <| u_ttyd := dev |>);;
     t ← gett;
     when (t_pgrp t =? 0) (pid ← gets p_pid; modt (fun r => r <| t_pgrp := pid |>));;
     t ← gett;
     modify (fun s => s <| p_pgrp := t_pgrp t |>));;
  modt (fun r => r <| t_state ::= fun x => clrf x WOPEN |>);;
  modt (fun r => r <| t_state ::= fun x => setf x ISOPEN |>).

Definition ttychars : T unit :=
  modt (fun r => r <| t_intrc := CINTR |> <| t_quitc := CQUIT |> <| t_startc := CSTART |> <| t_stopc := CSTOP |>
                   <| t_eofc := CEOT |> <| t_brkc := CBRK |> <| t_erase := CERASE |> <| t_kill := CKILL |>).

Definition flushtty : T unit :=
  drain Canq;;
  wakeup Rawq;;
  wakeup Outq;;
  s ← spl5;
  modt (fun r => r <| t_state ::= fun x => clrf x TTSTOP |>);;
  t ← gett;
  d_stop (t_dev t);;
  drain Outq;;
  drain Rawq;;
  modt (fun r => r <| t_delct := 0 |>);;
  splx s.

Definition wflushtty : T unit :=
  spl5;;
  iter fuel (fun _ =>
    n ← c_cc Outq;
    t ← gett;
    if negb (n =? 0) && has (t_state t) CARR_ON then
      t_oproc;;
      modt (fun r => r <| t_state ::= fun x => setf x ASLEEP |>);;
      sleep Outq TTOPRI;;
      mret (inl tt)
    else mret (inr tt)) tt;;
  flushtty;;
  spl0.

Definition ttyclose : T unit :=
  modt (fun r => r <| t_pgrp := 0 |>);;
  wflushtty;;
  modt (fun r => r <| t_state := 0 |>).

(** ** Output *)

Definition ttstart : T unit :=
  s ← spl5;
  t ← gett;
  when (Z.land (t_state t) (Z.lor TIMEOUT (Z.lor TTSTOP BUSY)) =? 0) t_oproc;;
  splx s.

Definition ttrstrt : T unit :=
  modt (fun r => r <| t_state ::= fun x => clrf x TIMEOUT |>);;
  ttstart.

(** The pairs of the string in [ttyoutput]: what is printed after a backslash, and
    for what. *)
Definition escapes : list (Z * Z) := [(40, 123); (41, 125); (33, 124); (94, 126); (39, 96)].

(** The column and the delay after a character of class [ctype]. *)
Definition delay_of (ctype flags col : Z) : Z * Z :=
  match ctype with
  | 0 => (u8 (col + 1), 0)
  | 2 => ((if col =? 0 then col else col - 1), 0)
  | 3 =>
      let ctype := Z.land (Z.shiftr flags 8) 3 in
      (0, if ctype =? 1 then if col =? 0 then 0 else max (Z.shiftr col 4 + 3) 6
          else if ctype =? 2 then 6 else 0)
  | 4 =>
      let ctype := Z.land (Z.shiftr flags 10) 3 in
      (u8 (Z.lor col 7 + 1),
       if ctype =? 1 then let c := 1 - Z.lor col (Z.lnot 7) in if c <? 5 then 0 else c else 0)
  | 5 => (col, if has flags VTDELAY then 127 else 0)
  | 6 =>
      let ctype := Z.land (Z.shiftr flags 12) 3 in
      (0, if ctype =? 1 then 5 else if ctype =? 2 then 10 else 0)
  | _ => (col, 0)
  end.

(** [ttyoutput]; [self] is the function itself. *)
Definition ttyoutput_body (self : Z -> T unit) (c : Z) : T unit :=
  modify (fun s => s <| tk_nout ::= fun n => s32 (n + 1) |>);;
  t ← gett;
  if has (t_flags t) RAW then putc c Outq;; mret tt
  else
    let c := Z.land c 127 in
    if c =? CEOT then mret tt
    else if (c =? 9) && (Z.land (t_flags t) TBDELAY =? XTABS) then
      (* c = 8; do .. while (--c >= 0 && tp->t_col&07) *)
      iter 10 (fun c =>
        self 32;;
        t ← gett;
        mret (if (0 <=? c - 1) && negb (Z.land (t_col t) 7 =? 0) then inl (c - 1) else inr tt)) 8
    else
      c ← (if has (t_flags t) LCASE then
             c ← (match List.find (fun e => c =? e.2) escapes with
                  | Some e => self 92;; mret e.1
                  | None => mret c
                  end);
             mret (if (97 <=? c) && (c <=? 122) then c - 32 else c)
           else mret c);
      when ((c =? 10) && has (t_flags t) CRMOD) (self 13);;
      putc c Outq;;
      t ← gett;
      let '(col, d) := delay_of (Z.land (nth (Z.to_nat c) partab 0) 63) (t_flags t) (t_col t) in
      modt (fun r => r <| t_col := col |>);;
      when (negb (d =? 0)) (putc (Z.lor d 128) Outq;; mret tt).

Fixpoint ttyoutput_n (n : nat) (c : Z) : T unit :=
  match n with O => spin | S n => ttyoutput_body (ttyoutput_n n) c end.
(** It calls itself for spaces, backslashes and carriage returns only, so two
    levels are enough. *)
Definition ttyoutput : Z -> T unit := ttyoutput_n 2.

(** ** Input *)

Definition ttyblock : T unit :=
  n1 ← c_cc Rawq;
  n2 ← c_cc Canq;
  let x := n1 + n2 in
  when (TTYHOG <? n1) (flushtty;; modt (fun r => r <| t_state ::= fun f => clrf f TBLOCK |>));;
  when (TTYHOG / 2 <=? x)
    (t ← gett;
     v ← putc (t_stopc t) Outq;
     when (v =? 0)
       (modt (fun r => r <| t_state ::= fun f => setf f TBLOCK |>);;
        modt (fun r => r <| t_char ::= fun c => u8 (c + 1) |>);;
        ttstart)).

(** The characters that stop and start output, and those that interrupt: [None]
    when nothing is left to do with [c]. *)
Definition ttyinput_control (c t_flags : Z) : T (option Z) :=
  let c := Z.land c 127 in
  t ← gett;
  go ← (if has (t_state t) TTSTOP then
          if c =? t_startc t then modt (fun r => r <| t_state ::= fun f => clrf f TTSTOP |>);; ttstart;; mret false
          else if c =? t_stopc t then mret false
          else modt (fun r => r <| t_state ::= fun f => clrf f TTSTOP |>);; ttstart;; mret true
        else if c =? t_stopc t then modt (fun r => r <| t_state ::= fun f => setf f TTSTOP |>);; d_stop (t_dev t);; mret false
        else mret (negb (c =? t_startc t)));
  if negb go then mret None
  else
    t ← gett;
    if (c =? t_quitc t) || (c =? t_intrc t) then
      flushtty;;
      t ← gett;
      signal (t_pgrp t) (if c =? t_intrc t then SIGINT else SIGQUIT);;
      mret None
    else mret (Some (if (c =? 13) && has t_flags CRMOD then 10 else c)).

(** [c] on the raw queue, with a delimiter after it if it ends a line; its echo. *)
Definition ttyinput_put (c t_flags : Z) : T unit :=
  let c := if has t_flags LCASE && (65 <=? c) && (c <=? 90) then c + 32 else c in
  let cooked := Z.land t_flags (Z.lor RAW CBREAK) =? 0 in
  putc c Rawq;;
  t ← gett;
  when (negb cooked || ((c =? 10) || (c =? t_eofc t) || (c =? t_brkc t)))
    (when cooked
       (v ← putc 255 Rawq;
        when (v =? 0) (modt (fun r => r <| t_delct ::= fun d => u8 (d + 1) |>)));;
     wakeup Rawq);;
  when (has t_flags ECHO)
    (ttyoutput c;;
     t ← gett;
     when ((c =? t_kill t) && cooked) (ttyoutput 10);;
     ttstart).

Definition ttyinput (c : Z) : T unit :=
  modify (fun s => s <| tk_nin ::= fun n => s32 (n + 1) |>);;
  let c := Z.land c 255 in
  t ← gett;
  let t_flags := t_flags t in
  when (has t_flags TANDEM) ttyblock;;
  c ← (if has t_flags RAW then mret (Some c) else ttyinput_control c t_flags);
  match c with
  | None => mret tt
  | Some c =>
      n ← c_cc Rawq;
      if TTYHOG <? n then flushtty else ttyinput_put c t_flags
  end.

(** [pb] up to [pe] are the bytes [l]. *)
Definition ttyrend (l : list Z) : T unit :=
  t ← gett;
  let tandem := Z.land (t_flags t) TANDEM in
  (if has (t_flags t) RAW then b_to_q l Rawq;; wakeup Rawq
   else
     modt (fun r => r <| t_flags ::= fun f => clrf f TANDEM |>);;
     each l ttyinput;;
     modt (fun r => r <| t_flags ::= fun f => setf f tandem |>));;
  when (negb (tandem =? 0)) ttyblock.

(** ** Lines *)

Definition maptab_at (c : Z) : Z := if c <? 128 then nth (Z.to_nat c) maptab 0 else past_maptab c.

(** [canon] sleeps until there is something to edit; [false] if the line is down. *)
Definition canon_wait : T bool :=
  spl5;;
  iter fuel (fun _ =>
    t ← gett;
    n ← c_cc Rawq;
    let cooked := Z.land (t_flags t) (Z.lor RAW CBREAK) =? 0 in
    if (cooked && (t_delct t =? 0)) || (negb cooked && (n =? 0)) then
      if negb (has (t_state t) CARR_ON) then mret (inr false)
      else sleep Rawq TTIPRI;; mret (inl tt)
    else spl0;; mret (inr true)) tt.

(** What becomes of character [c] when [bp] is the index of the next free place
    in [canonb]: the new place, and whether the line ends here. *)
Definition canon_store (bp c : Z) : T (Z * bool) :=
  modify (fun s => s <| canonb @ bp := u8 c |>);;
  mret (bp + 1, CANBSIZ <=? bp + 1).
Definition canon_char (bp c : Z) : T (Z * bool) :=
  t ← gett;
  if negb (Z.land (t_flags t) (Z.lor RAW CBREAK) =? 0) then canon_store bp c
  else if c =? 255 then modt (fun r => r <| t_delct ::= fun d => u8 (d - 1) |>);; mret (bp, true)
  else
    b ← gets canonb;
    if negb (b (bp - 1) =? 92) then
      if c =? t_erase t then mret (if 2 <? bp then bp - 1 else bp, false)
      else if c =? t_kill t then mret (2, false)
      else if c =? t_eofc t then mret (bp, false)
      else canon_store bp c
    else
      let mc := maptab_at c in
      let mc := if (c =? t_erase t) || (c =? t_kill t) then c else mc in
      if negb (mc =? 0) && ((mc =? c) || has (t_flags t) LCASE) then
        canon_store (bp - 1) (if negb (b (bp - 2) =? 92) then mc else c)
      else canon_store bp c.

(** The loop: it ends at a delimiter, at a full buffer or with the queue. *)
Definition canon_loop : T Z :=
  n ← c_cc Rawq;
  iter (S (Z.to_nat n)) (fun bp =>
    c ← getc Rawq;
    if c <? 0 then mret (inr bp)
    else
      r ← canon_char bp c;
      mret (if (r.2 : bool) then inr r.1 else inl r.1)) 2.

Definition canon : T Z :=
  up ← canon_wait;
  if negb up then mret 0
  else
    bp ← canon_loop;
    b ← gets canonb;
    b_to_q (map b (seqZ 2 (bp - 2))) Canq;;
    t ← gett;
    n ← c_cc Rawq;
    when (has (t_state t) TBLOCK && (n <? TTYHOG / 5))
      (v ← putc (t_startc t) Outq;
       when (v =? 0) (modt (fun r => r <| t_state ::= fun f => clrf f TBLOCK |>);; ttstart);;
       modt (fun r => r <| t_char := 0 |>));;
    mret (bp - 2).

(** ** Reading and writing *)

Definition ttread : T Z :=
  t ← gett;
  if negb (has (t_state t) CARR_ON) then mret 0
  else
    n ← c_cc Canq;
    go ← (if negb (n =? 0) then mret true else r ← canon; mret (negb (r =? 0)));
    when go
      (n ← c_cc Canq;
       iter (S (Z.to_nat n)) (fun _ =>
         n ← c_cc Canq;
         if n =? 0 then mret (inr tt)
         else c ← getc Canq; r ← kern (passc c); mret (if 0 <=? r then inl tt else inr tt)) tt);;
    n1 ← c_cc Rawq;
    n2 ← c_cc Canq;
    mret (n1 + n2).

(** One character of [ttwrite]; [true] when there are more. *)
Definition ttwrite_char : T bool :=
  spl5;;
  iter fuel (fun _ =>
    n ← c_cc Outq;
    if TTHIWAT <? n then
      ttstart;;
      modt (fun r => r <| t_state ::= fun f => setf f ASLEEP |>);;
      sleep Outq TTOPRI;;
      mret (inl tt)
    else mret (inr tt)) tt;;
  spl0;;
  c ← kern cpass;
  if c <? 0 then mret false else ttyoutput c;; mret true.

Definition ttwrite : T unit :=
  t ← gett;
  if negb (has (t_state t) CARR_ON) then mret tt
  else
    us ← kern getu;
    iter (S (Z.to_nat (u_count us))) (fun _ =>
      us ← kern getu;
      if u_count us =? 0 then mret (inr tt)
      else more ← ttwrite_char; mret (if (more : bool) then inl tt else inr tt)) tt;;
    ttstart.

(** ** ioctl *)

(** The words and bytes of a structure in the user's memory. *)
Definition uword (a : Z) : T Z := gets (fun s => rd_s32 (umem (tk s)) a).
Definition ubyte (a : Z) : T Z := gets (fun s => u8 (umem (tk s) a)).
Definition modum (f : mem -> mem) : T unit := modify (fun s => s <| tk ::= fun k => k <| umem ::= f |> |>).

(** struct ttiocb: four characters and a word. *)
Definition set_params (addr : Z) : T unit :=
  i ← ubyte addr; o ← ubyte (addr + 1); e ← ubyte (addr + 2); k ← ubyte (addr + 3); f ← uword (addr + 4);
  modt (fun r => r <| t_ispeed := i |> <| t_ospeed := o |> <| t_erase := e |> <| t_kill := k |> <| t_flags := s16 f |>).
Definition get_params (addr : Z) : T unit :=
  t ← gett;
  modum (fun m => wr_8 m addr (t_ispeed t));;
  modum (fun m => wr_8 m (addr + 1) (t_ospeed t));;
  modum (fun m => wr_8 m (addr + 2) (t_erase t));;
  modum (fun m => wr_8 m (addr + 3) (t_kill t));;
  modum (fun m => wr_32 m (addr + 4) (t_flags t)).
(** struct tc: six characters. *)
Definition set_chars (addr : Z) : T unit :=
  i ← ubyte addr; q ← ubyte (addr + 1); a ← ubyte (addr + 2); o ← ubyte (addr + 3); e ← ubyte (addr + 4); b ← ubyte (addr + 5);
  modt (fun r => r <| t_intrc := i |> <| t_quitc := q |> <| t_startc := a |> <| t_stopc := o |> <| t_eofc := e |> <| t_brkc := b |>).
Definition get_chars (addr : Z) : T unit :=
  t ← gett;
  modum (fun m => wr_8 m addr (t_intrc t));;
  modum (fun m => wr_8 m (addr + 1) (t_quitc t));;
  modum (fun m => wr_8 m (addr + 2) (t_startc t));;
  modum (fun m => wr_8 m (addr + 3) (t_stopc t));;
  modum (fun m => wr_8 m (addr + 4) (t_eofc t));;
  modum (fun m => wr_8 m (addr + 5) (t_brkc t)).

(** TIOCSETD: another line discipline. *)
Definition set_line (dev addr : Z) : T unit :=
  w ← uword addr;
  let n := u32 w in
  if nldisp <=? n then err ENXIO
  else
    t ← gett;
    when (negb (t_line t =? 0)) (l_close (t_line t));;
    when (negb (n =? 0)) (l_open n dev addr);;
    us ← kern getu;
    when (u_error us =? 0) (modt (fun r => r <| t_line := u8 n |>)).

Definition ttioccomm (com addr dev : Z) : T Z :=
  if com =? TIOCGETD then t ← gett; modum (fun m => wr_32 m addr (t_line t));; mret 1
  else if com =? TIOCSETD then set_line dev addr;; mret 1
  else if com =? TIOCEXCL then modt (fun r => r <| t_state ::= fun f => setf f XCLUDE |>);; mret 1
  else if com =? TIOCNXCL then modt (fun r => r <| t_state ::= fun f => clrf f XCLUDE |>);; mret 1
  else if com =? TIOCSETP then wflushtty;; set_params addr;; mret 1
  else if com =? TIOCSETN then set_params addr;; mret 1
  else if com =? TIOCGETP then get_params addr;; mret 1
  else if com =? TIOCHPCL then modt (fun r => r <| t_state ::= fun f => setf f HUPCLS |>);; mret 1
  else if com =? TIOCFLUSH then flushtty;; mret 1
  else if (com =? DIOCSETP) || (com =? DIOCGETP) then t ← gett; l_ioctl (t_line t) com addr;; mret 1
  else if com =? TIOCSETC then set_chars addr;; mret 1
  else if com =? TIOCGETC then get_chars addr;; mret 1
  else mret 0.

Definition ioctl : T unit :=
  us ← kern getu;
  fp ← kern (getf (u_arg us 0));
  match fp with
  | None => mret tt
  | Some fp =>
      if u_arg us 1 =? FIOCLEX then kern (modu (fun r => r <| u_pofile @ (u_arg us 0) := u8 (setf (u_pofile r (u_arg us 0)) EXCLOSE) |>))
      else if u_arg us 1 =? FIONCLEX then kern (modu (fun r => r <| u_pofile @ (u_arg us 0) := u8 (clrf (u_pofile r (u_arg us 0)) EXCLOSE) |>))
      else
        f ← gets (fun s => files (tk s) fp);
        r ← kern (geti (f_inode f));
        if negb (Z.land (i_mode r) IFMT =? IFCHR) then err ENOTTY
        else d_ioctl (major (i_rdev r)) (i_rdev r) (u_arg us 1) (u_arg us 2) (f_flag f)
  end.

Definition stty : T unit :=
  kern (modu (fun r => r <| u_arg @ 2 := u_arg r 1 |>));;
  kern (modu (fun r => r <| u_arg @ 1 := TIOCSETP |>));;
  ioctl.
Definition gtty : T unit :=
  kern (modu (fun r => r <| u_arg @ 2 := u_arg r 1 |>));;
  kern (modu (fun r => r <| u_arg @ 1 := TIOCGETP |>));;
  ioctl.
End code.
End Tty.
