(* ===== verification/Ttyq.v ===== *)
(** * Ttyq: the queues of a terminal are character lists

    The interface [Queues] of [Tty] implemented by three queues of [Clist] that
    share the pool of blocks, and the proof of its laws: what is done to one
    queue leaves the others alone. *)
From S2P Require Import Prelude Clist Tty.
Import Clist.

Module Ttyq.

(** t_rawq, t_canq and t_outq of a terminal, and the blocks they are made of. *)
Record tqueues := TQ { q_of : qname -> clist; q_st : cstate }.
#[export] Instance eta_tqueues : Eta tqueues := fun r => TQ (q_of r) (q_st r).

Definition on_queue {A} (q : qname) (op : clist -> cstate -> A * clist * cstate) (w : tqueues) : A * tqueues :=
  let '(a, c, st) := op (q_of w q) (q_st w) in (a, TQ (<[q := c]> (q_of w)) st).

#[export] Instance clist_queues : Queues tqueues := {|
  q_getc := fun q => on_queue q getc;
  q_putc := fun c q => on_queue q (putc c);
  q_b_to_q := fun l q => on_queue q (b_to_q l);
  q_cc := fun q w => c_cc (q_of w q)
|}.

(** The blocks of the other two queues. *)
Definition others (bs : qname -> list Z) (q : qname) : list Z :=
  match q with
  | Rawq => bs Canq ++ bs Outq
  | Canq => bs Rawq ++ bs Outq
  | Outq => bs Rawq ++ bs Canq
  end.
(** Each queue holds its list; [rest] are the blocks of other terminals. *)
Definition tpool (w : tqueues) (f bs : qname -> list Z) (fs rest : list Z) : Prop :=
  forall q, pool (q_st w) (q_of w q) (bs q) fs (others bs q ++ rest) (f q).
(** The blocks of a queue and of the free list, among others. *)
Lemma perm_blocks (a x y b f b' f' : list Z) : (b' ++ f') ≡ₚ (b ++ f) -> (a ++ f' ++ (x ++ b') ++ y) ≡ₚ (a ++ f ++ (x ++ b) ++ y).
Proof.
  intros H. apply Permutation_app_head. rewrite <- !app_assoc, !(app_assoc _ x), !(Permutation_app_comm _ x), <- !app_assoc.
  apply Permutation_app_head. by rewrite !app_assoc, (Permutation_app_comm f'), H, (Permutation_app_comm b).
Qed.

Lemma perm_blocks_r (a x y b f b' f' : list Z) : (b' ++ f') ≡ₚ (b ++ f) -> (a ++ f' ++ (b' ++ x) ++ y) ≡ₚ (a ++ f ++ (b ++ x) ++ y).
Proof. rewrite (Permutation_app_comm b' x), (Permutation_app_comm b x). apply perm_blocks. Qed.

(** One queue changes, with blocks of its own and of the free list. *)
Lemma tpool_step w f bs fs rest q c st' bs' fs' l : tpool w f bs fs rest ->
  pool st' c bs' fs' (others bs q ++ rest) l -> same_on (others bs q ++ rest) (q_st w) st' -> (bs' ++ fs') ≡ₚ (bs q ++ fs) ->
  tpool (TQ (<[q := c]> (q_of w)) st') (<[q := l]> f) (<[q := bs']> bs) fs' rest.
Proof.
  intros H Hp Hs Hperm r. cbn [q_of q_st]. rewrite !fn_case. destruct (decide (r = q)) as [->|Hne].
  - rewrite !decide_True by done. replace (others (<[q := bs']> bs) q) with (others bs q); [done|].
    destruct q; cbn; by rewrite !fn_ne by done.
  - rewrite !decide_False by done. destruct (H r) as [Hok Hnd [Hcc Hq] _ _], Hp as [_ _ _ Hf Hch].
    assert ((bs r ++ fs' ++ others (<[q := bs']> bs) r ++ rest) ≡ₚ (bs r ++ fs ++ others bs r ++ rest)) as Hp'.
    { destruct r, q; try done; cbn; rewrite fn_eq, fn_ne by done; first [by apply perm_blocks|by apply perm_blocks_r]. }
    split; [by rewrite Hp'|by rewrite Hp'| |done|done]. split; [done|]. destruct (bs r) as [|b bl] eqn:Eb; [done|].
    eapply seg_frame; [|exact Hq]. intros x Hx. apply Hs. rewrite <- Eb in Hx. apply elem_of_app. left.
    destruct r, q; try done; cbn; apply elem_of_app; auto.
Qed.

(** A queue of [n] characters has at most (n + 22) / 12 blocks: all but the first
    and the last are full. *)
Lemma seg_size st cf bs cl cs : Forall block_ok bs -> seg st cf bs cl cs ->
  12 * Z.of_nat (length bs) <= Z.of_nat (length cs) + 22 /\
  (cf = info_of (hd 0 bs) -> 12 * Z.of_nat (length bs) <= Z.of_nat (length cs) + 11).
Proof.
  revert cf cs. induction bs as [|b r IH]; intros cf cs Hok H; [done|]. apply Forall_cons in Hok as [Hb Hok].
  destruct r as [|b' r].
  - destruct H as (Hcf&Hcl&_&->). unfold info_of in *. rewrite chars_length by lia. cbn [length hd]. lia.
  - destruct H as (Hcf&_&cs'&->&H). destruct (IH _ _ Hok H) as [_ IH']. specialize (IH' eq_refl).
    unfold info_of in *. rewrite length_app, chars_length by lia. cbn [length hd] in *. lia.
Qed.
Lemma pool_size st q bs fs oth cs : pool st q bs fs oth cs -> 12 * Z.of_nat (length bs) <= Z.of_nat (length cs) + 22.
Proof.
  intros [Hok _ [_ Hq] _ _]. apply Forall_app in Hok as [Hok _]. destruct bs as [|b r]; [cbn; lia|].
  by apply (seg_size st (c_cf q) (b :: r) (c_cl q) cs).
Qed.

Lemma seg_byte st cf bs cl cs : (forall a, 0 <= c_info st a < 256) -> seg st cf bs cl cs -> Forall (fun c => 0 <= c < 256) cs.
Proof.
  intros Hch. assert (forall a n, Forall (fun c => 0 <= c < 256) (chars st a n)) as Hc.
  { intros a n. apply Forall_map, Forall_true. done. }
  revert cf cs. induction bs as [|b r IH]; intros cf cs H; [done|]. destruct r as [|b' r].
  - by destruct H as (_&_&_&->).
  - destruct H as (_&_&cs'&->&H). apply Forall_app. split; [done|]. by apply (IH (info_of b')).
Qed.
Lemma pool_byte st q bs fs oth cs c : pool st q bs fs oth cs -> c ∈ cs -> 0 <= c < 256.
Proof.
  intros [_ _ [_ Hq] _ Hch] Hc. destruct bs as [|b r].
  - destruct Hq as [-> _]. by apply elem_of_nil in Hc.
  - apply seg_byte in Hq; [|done]. rewrite Forall_forall in Hq. by apply Hq.
Qed.

Definition total (f : qname -> list Z) : nat := length (f Rawq) + length (f Canq) + length (f Outq).
(** The queues hold [f], and [r] more characters fit whichever way the blocks are
    filled. *)
Definition holds_room (w : tqueues) (f : qname -> list Z) (r : nat) : Prop := exists bs fs rest,
  tpool w f bs fs rest /\ (r <> 0%nat -> (total f + 66 + r <= 12 * (total bs + length fs))%nat).

Lemma total_set f q l : (total (<[q := l]> f) + length (f q) = total f + length l)%nat.
Proof. unfold total. destruct q; rewrite fn_eq, !fn_ne by done; lia. Qed.

(** One operation on one queue. *)
Lemma on_queue_step w f r q c st' bs fs rest bs' fs' l : tpool w f bs fs rest ->
  (r <> 0%nat -> (total f + 66 + r <= 12 * (total bs + length fs))%nat) ->
  pool st' c bs' fs' (others bs q ++ rest) l -> same_on (others bs q ++ rest) (q_st w) st' -> (bs' ++ fs') ≡ₚ (bs q ++ fs) ->
  forall r', (r' <> 0%nat -> r <> 0%nat /\ (length l + r' <= length (f q) + r)%nat) ->
  holds_room (TQ (<[q := c]> (q_of w)) st') (<[q := l]> f) r'.
Proof.
  intros H Hr Hp Hs Hperm r' Hr'. exists (<[q := bs']> bs), fs', rest. split; [by eapply tpool_step|]. intros Hn.
  destruct (Hr' Hn) as [Hn0 Hle]. specialize (Hr Hn0). pose proof (total_set f q l). pose proof (total_set bs q bs').
  apply Permutation_length in Hperm. rewrite !length_app in Hperm. lia.
Qed.

Lemma putc_law w f r q c : holds_room w f r -> exists v w', on_queue q (putc c) w = (v, w') /\
  ((v = 0 /\ holds_room w' (<[q := f q ++ [u8 c]]> f) (Nat.pred r)) \/ (v = -1 /\ r = 0%nat /\ holds_room w' f 0)).
Proof.
  intros (bs&fs&rest&H&Hr). pose proof (putc_spec c _ _ _ _ _ _ (H q)) as Hp. unfold on_queue.
  destruct (putc c (q_of w q) (q_st w)) as [[v q'] st']. exists v, (TQ (<[q := q']> (q_of w)) st'). split; [done|].
  destruct Hp as (Hs&_&[(->&->&_&->&Hp)|(->&bs'&fs'&Hp&Hperm)]).
  - right. split; [done|]. assert (r = 0%nat) as ->.
    { destruct r as [|r]; [done|]. specialize (Hr ltac:(done)). unfold total in Hr.
      pose proof (pool_size _ _ _ _ _ _ (H Rawq)). pose proof (pool_size _ _ _ _ _ _ (H Canq)).
      pose proof (pool_size _ _ _ _ _ _ (H Outq)). cbn [length] in Hr. lia. }
    split; [done|]. rewrite <- (fn_same f q (f q)) by done.
    by eapply (on_queue_step w f 0 q).
  - left. split; [done|]. eapply (on_queue_step w f r q); [done..|]. rewrite length_app. cbn [length]. lia.
Qed.

Lemma b_to_q_law l : forall w f r q, holds_room w f r -> exists v w' k, on_queue q (b_to_q l) w = (v, w') /\ (k <= length l)%nat /\
  v = Z.of_nat (length l - k) /\ holds_room w' (<[q := f q ++ map u8 (take k l)]> f) (r - k) /\ ((length l <= r)%nat -> k = length l).
Proof.
  intros w f r q H. assert (on_queue q (b_to_q l) w = on_queue q (putc_all l) w) as ->.
  { destruct H as (bs&fs&rest&H&_). unfold on_queue. by rewrite (b_to_q_putc_all _ _ _ _ _ _ _ (H q)). }
  revert w f r H. induction l as [|c l IH]; intros w f r H.
  - exists 0, w, 0%nat. split; [unfold on_queue; cbn; f_equal; destruct w; cbn; by rewrite fn_same|].
    split; [done|]. split; [done|]. split; [|done]. rewrite Nat.sub_0_r. cbn. rewrite app_nil_r.
    by rewrite fn_same.
  - destruct (putc_law w f r q c H) as (v&w1&E&[(->&Hw)|(->&->&Hw)]).
    + destruct (IH w1 _ _ Hw) as (v&w2&k&E2&Hk&Hv&Hw2&Hfull). exists v, w2, (S k). split; [|split; [|split; [|split]]].
      * rewrite <- E2. unfold on_queue in E |- *. cbn [putc_all]. destruct (putc c (q_of w q) (q_st w)) as [[v1 q1] st1].
        injection E as -> <-. cbn [q_of q_st Z.eqb]. change (0 =? -1) with false. cbn match. rewrite fn_eq.
        destruct (putc_all l q1 st1) as [[v2 q2] st2]. by rewrite fn_twice.
      * cbn. lia.
      * cbn [length]. rewrite Hv. f_equal.
      * replace (r - S k)%nat with (Nat.pred r - k)%nat by lia. cbn [take map]. rewrite fn_eq, <- app_assoc in Hw2. by rewrite fn_twice in Hw2.
      * cbn [length]. intros Hl. rewrite Hfull; lia.
    + exists (Z.of_nat (S (length l))), w1, 0%nat. split; [|split; [|split; [|split]]].
      * unfold on_queue in E |- *. cbn [putc_all]. destruct (putc c (q_of w q) (q_st w)) as [[v1 q1] st1].
        injection E as -> <-. done.
      * lia.
      * done.
      * cbn [take map]. rewrite app_nil_r. by rewrite fn_same.
      * cbn. lia.
Qed.

Lemma getc_cons_law w f r q c l : holds_room w f r -> f q = c :: l -> exists w', on_queue q getc w = (c, w') /\
  holds_room w' (<[q := l]> f) (r + Nat.min r 1).
Proof.
  intros (bs&fs&rest&H&Hr) El. pose proof (H q) as Hq. rewrite El in Hq.
  destruct (getc_some _ _ _ _ _ _ _ Hq) as (q'&st'&bs'&fs'&E&Hp&Hs&_&Hperm).
  exists (TQ (<[q := q']> (q_of w)) st'). split; [unfold on_queue; by rewrite E|].
  eapply (on_queue_step w f r q); [done..|]. rewrite El. cbn [length]. lia.
Qed.
Lemma getc_nil_law w f r q : holds_room w f r -> f q = [] -> exists w', on_queue q getc w = (-1, w') /\ holds_room w' f r.
Proof.
  intros H El. exists w. split; [|done]. destruct H as (bs&fs&rest&H&_). pose proof (H q) as Hq. rewrite El in Hq.
  destruct (queue_empty_eq _ _ _ _ _ Hq) as [Eq _]. unfold on_queue, getc. rewrite Eq. cbn -[splx spl6].
  rewrite splx_spl6. destruct w. cbn in *. by rewrite fn_same.
Qed.

#[export] Program Instance clist_laws : QueueLaws tqueues := {| q_holds := holds_room |}.
Next Obligation. intros w f r r' (bs&fs&rest&H&Hr) Hle. exists bs, fs, rest. split; [done|]. lia. Qed.
Next Obligation. intros w f r q (bs&fs&rest&H&_). by destruct (H q) as [_ _ [E _] _ _]. Qed.
Next Obligation.
  intros w f r q c (bs&fs&rest&H&_) Hc. pose proof (H q) as Hq. by eapply pool_byte.
Qed.
Next Obligation. exact getc_nil_law. Qed.
Next Obligation. exact getc_cons_law. Qed.
Next Obligation. exact putc_law. Qed.
Next Obligation. intros w f r q l. apply b_to_q_law. Qed.
End Ttyq.
