(* ===== verification/Cooked.v ===== *)
(** * Cooked: lines typed at a terminal

    What [canon] makes of the raw queue, as a function on lists ([edit]): each
    character is kept, erases the one before it, or kills the line, and a
    backslash takes that power away.  And what is on the raw queue: the
    characters of lines, with a delimiter after each line, counted in
    [t_delct]. *)
From Stdlib Require Import FunctionalExtensionality.
From S2P Require Import Prelude Kmonad Kernel Bio Rdwri Tty Clist Ttyq.
Import Bio Rdwri Tty Ttyq.

Module Cooked.

(** ** Editing *)

(** One character, with the line so far, latest character first. *)
Definition edit_char (after : Z -> Z) (t : tty) (stk : list Z) (c : Z) : list Z :=
  match stk with
  | 92 :: rest =>
      let mc := if (c =? t_erase t) || (c =? t_kill t) then c else after c in
      if negb (mc =? 0) && ((mc =? c) || has (t_flags t) LCASE)
      then (match rest with 92 :: _ => c | _ => mc end) :: rest
      else c :: stk
  | _ =>
      if c =? t_erase t then tail stk
      else if c =? t_kill t then []
      else if c =? t_eofc t then stk
      else c :: stk
  end.
Definition edit (after : Z -> Z) (t : tty) (l : list Z) : list Z := rev (fold_left (edit_char after t) l []).

Definition cooked (t : tty) : Prop := Z.land (t_flags t) (Z.lor RAW CBREAK) = 0.

Lemma edit_char_length after t stk c : (length (edit_char after t stk c) <= S (length stk))%nat.
Proof.
  unfold edit_char.
  repeat first [progress cbn [length tail] | case_match; subst | lia].
Qed.

(** ** The editing commands *)

Lemma edit_snoc after t l c : edit after t (l ++ [c]) = rev (edit_char after t (rev (edit after t l)) c).
Proof. unfold edit. by rewrite fold_left_app, rev_involutive. Qed.

Lemma edit_char_plain after t stk c : (match stk with 92 :: _ => False | _ => True end) ->
  edit_char after t stk c = if c =? t_erase t then tail stk else if c =? t_kill t then [] else if c =? t_eofc t then stk else c :: stk.
Proof. unfold edit_char. repeat (case_match; try done). Qed.

(** The editing commands, on a line that does not end in a backslash: the
    erase character removes the last character if there is one, the kill
    character everything, the end-of-file character leaves nothing of itself, any
    other character is added; after a backslash the erase and kill characters are
    added instead and the backslash goes. *)
Theorem editing_laws after t l :
  last (edit after t l) <> Some 92 -> NoDup [t_erase t; t_kill t; t_eofc t; 92; 0] ->
  edit after t (l ++ [t_erase t]) = removelast (edit after t l) /\
  edit after t (l ++ [t_kill t]) = [] /\
  edit after t (l ++ [t_eofc t]) = edit after t l /\
  (forall c, c ∉ [t_erase t; t_kill t; t_eofc t] -> edit after t (l ++ [c]) = edit after t l ++ [c]) /\
  (forall c, c ∈ [t_erase t; t_kill t] -> edit after t (l ++ [92; c]) = edit after t l ++ [c]).
Proof.
  intros Hlast Hnd. set (stk := rev (edit after t l)). assert (rev stk = edit after t l) as Er by apply rev_involutive.
  assert (match stk with 92 :: _ => False | _ => True end) as Hstk.
  { destruct stk as [|x stk]; [done|]. enough (x <> 92) by (repeat (case_match; try done); lia).
    intros ->. apply Hlast. rewrite <- Er. cbn. apply last_snoc. }
  assert (forall c, edit after t (l ++ [c]) = rev (edit_char after t stk c)) as Hs by (intros; apply edit_snoc).
  rewrite !NoDup_cons, !not_elem_of_cons in Hnd. destruct Hnd as ((Hek&Hee&He9&He0&_)&(Hke&Hk9&Hk0&_)&(Hf9&_)&_).
  split; [|split; [|split; [|split]]].
  - rewrite Hs, edit_char_plain, Z.eqb_refl, <- Er by done. destruct stk as [|x stk']; [done|]. cbn [tail rev]. by rewrite removelast_last.
  - rewrite Hs, edit_char_plain, Z.eqb_refl, (proj2 (Z.eqb_neq _ _)) by (done || congruence). done.
  - rewrite Hs, edit_char_plain, Z.eqb_refl, !(proj2 (Z.eqb_neq _ _)) by (done || congruence). done.
  - intros c Hc. rewrite !not_elem_of_cons in Hc. destruct Hc as (?&?&?&_).
    rewrite Hs, edit_char_plain, !(proj2 (Z.eqb_neq _ _)) by done. cbn [rev]. by rewrite Er.
  - intros c Hc. change [92; c] with ([92] ++ [c]). rewrite app_assoc, edit_snoc, Hs, (edit_char_plain _ _ stk 92), !(proj2 (Z.eqb_neq 92 _)) by (done || congruence).
    rewrite rev_involutive. unfold edit_char at 1.
    assert ((c =? t_erase t) || (c =? t_kill t) = true /\ c <> 0) as [Eb Hc0].
    { apply elem_of_cons in Hc as [->|[->|[]%elem_of_nil]%elem_of_cons]; rewrite Z.eqb_refl, ?orb_true_r; done. }
    rewrite Eb, Z.eqb_refl, (proj2 (Z.eqb_neq _ _) Hc0). cbn [negb orb andb]. rewrite <- Er.
    destruct stk as [|x stk']; [done|]. by repeat case_match.
Qed.

Section code.
  Context {W : Type} `{QU : !Queues W} `{QL : !QueueLaws W} `{TD : !TtyDriver W} `{FL : Fuel}.

(** [canonb] up to [bp] is the line so far. *)
Definition line_at (b : Z -> Z) (bp : Z) (stk : list Z) : Prop :=
  bp = 2 + Z.of_nat (length stk) /\ forall i, (i < length stk)%nat -> nth i stk 0 = b (bp - 1 - Z.of_nat i).

Lemma line_at_nil b : line_at b 2 [].
Proof. split; [done|]. intros i Hi. cbn in Hi. lia. Qed.
Lemma line_at_push b bp stk c : line_at b bp stk -> 0 <= c < 256 -> line_at (<[bp := u8 c]> b) (bp + 1) (c :: stk).
Proof.
  intros [-> H] Hc. split; [cbn [length]; lia|]. intros [|i] Hi; cbn [length nth] in *.
  - rewrite fn_case, decide_True by lia. by rewrite u8_id.
  - rewrite fn_ne by lia. rewrite H by lia. f_equal. lia.
Qed.
Lemma line_at_pop b bp c stk : line_at b bp (c :: stk) -> line_at b (bp - 1) stk /\ b (bp - 1) = c.
Proof.
  intros [-> H]. cbn [length] in *. split; [split; [lia|]|].
  - intros i Hi. transitivity (nth (S i) (c :: stk) 0); [done|]. rewrite H by lia. f_equal. lia.
  - symmetry. rewrite <- (Z.sub_0_r (_ - 1)). exact (H 0%nat ltac:(lia)).
Qed.
Lemma line_at_list b bp stk : line_at b bp stk -> map b (seqZ 2 (bp - 2)) = rev stk.
Proof.
  revert bp. induction stk as [|c stk IH]; intros bp H.
  - destruct H as [-> _]. done.
  - destruct (line_at_pop _ _ _ _ H) as [H' Hc]. cbn [rev]. rewrite <- (IH _ H'). pose proof H' as [E _].
    replace (bp - 2) with ((bp - 1 - 2) + 1) by lia. rewrite (seqZ_app 2 _ 1), map_app by lia. f_equal.
    rewrite <- Hc. transitivity [b (0 + (2 + (bp - 1 - 2)))]; [done|]. do 2 f_equal. lia.
Qed.

(** ** canon *)

(** The table has an entry for every character of 7 bits. *)
Lemma maptab_range c : 0 <= c < 128 -> 0 <= maptab_at c < 256.
Proof.
  intros Hc. unfold maptab_at. replace (c <? 128) with true by lia.
  assert (Forall (fun x => 0 <= x < 256) maptab) as H by (apply (bool_decide_unpack _); vm_compute; exact I).
  rewrite Forall_nth in H. apply H. change (length maptab) with 128%nat. lia.
Qed.

Lemma nth_line b bp c stk : line_at b bp (c :: stk) -> b (bp - 1) = c.
Proof. intros H. by apply line_at_pop in H as [_ ?]. Qed.

(** One character is edited as the lists say, as long as the buffer is not full;
    what comes before the line in [canonb] must not be a backslash. *)
Lemma canon_char_ok bp c stk s : cooked (tp s) -> 0 <= c < 128 -> (length stk <= 252)%nat ->
  line_at (canonb s) bp stk -> canonb s 1 <> 92 ->
  exists bp' b', canon_char bp c s = Ret (bp', false) (s <| canonb := b' |>) /\
    line_at b' bp' (edit_char maptab_at (tp s) stk c) /\ b' 1 = canonb s 1.
Proof.
  intros Hck Hc Hl Hb H1. pose proof Hb as [Ebp _]. unfold canon_char, gett. kred. unfold cooked in Hck.
  rewrite Hck. cbn [Z.eqb negb]. replace (c =? 255) with false by lia. kred.
  assert (forall bp0 x stk0, line_at (canonb s) bp0 stk0 -> 0 <= x < 256 -> (length stk0 <= 252)%nat ->
    exists bp' b', canon_store bp0 x s = Ret (bp', false) (s <| canonb := b' |>) /\ line_at b' bp' (x :: stk0) /\ b' 1 = canonb s 1) as Hst.
  { intros bp0 x stk0 H0 Hx Hl0. exists (bp0 + 1), (<[bp0 := u8 x]> (canonb s)). pose proof H0 as [E0 _]. split; [|split].
    - unfold canon_store. kred. unfold CANBSIZ. by replace (256 <=? bp0 + 1) with false by lia.
    - by apply line_at_push.
    - rewrite fn_ne; [done|lia]. }
  destruct (Z.eqb_spec (canonb s (bp - 1)) 92) as [E92|N92]; cbn [negb].
  - (* after a backslash *)
    destruct stk as [|d stk].
    { exfalso. apply H1. rewrite <- E92. f_equal. cbn in Ebp. lia. }
    pose proof (nth_line _ _ _ _ Hb) as Ed. rewrite E92 in Ed. subst d.
    destruct (line_at_pop _ _ _ _ Hb) as [Hb' _]. cbn [length] in Hl.
    set (mc := if (c =? t_erase (tp s)) || (c =? t_kill (tp s)) then c else maptab_at c).
    assert (0 <= mc < 256) as Hmc by (unfold mc; destruct (_ || _); [lia|by apply maptab_range]).
    unfold edit_char. fold mc. destruct (negb (mc =? 0) && ((mc =? c) || has (t_flags (tp s)) LCASE)).
    + assert ((if negb (canonb s (bp - 2) =? 92) then mc else c) = match stk with 92 :: _ => c | _ => mc end) as ->.
      { destruct stk as [|e stk].
        - rewrite (proj2 (Z.eqb_neq _ _)); [done|]. intros E. apply H1. rewrite <- E. f_equal. cbn in Ebp. lia.
        - pose proof (nth_line _ _ _ _ Hb') as Ee. replace (bp - 1 - 1) with (bp - 2) in Ee by lia. rewrite Ee.
          destruct (Z.eqb_spec e 92) as [->|Ne]; [done|]. cbn [negb]. repeat (case_match; try done); lia. }
      apply Hst; [done| |lia]. repeat case_match; lia.
    + apply Hst; [done|lia|cbn [length]; lia].
  - assert (edit_char maptab_at (tp s) stk c = if c =? t_erase (tp s) then tail stk else if c =? t_kill (tp s) then []
      else if c =? t_eofc (tp s) then stk else c :: stk) as ->.
    { unfold edit_char. destruct stk as [|d stk]; [done|]. pose proof (nth_line _ _ _ _ Hb) as Ed. rewrite Ed in N92.
      repeat (case_match; try done); lia. }
    assert (s = s <| canonb := canonb s |>) as Es by (by destruct s).
    destruct (c =? t_erase (tp s)).
    { eexists _, (canonb s). split; [rewrite <- Es; reflexivity|]. split; [|done]. destruct stk as [|d stk].
      - destruct Hb as [-> _]. apply line_at_nil.
      - replace (2 <? bp) with true by (cbn in Ebp; lia). by apply line_at_pop in Hb as [? _]. }
    destruct (c =? t_kill (tp s)).
    { eexists _, (canonb s). split; [rewrite <- Es; reflexivity|]. split; [|done]. apply line_at_nil. }
    destruct (c =? t_eofc (tp s)).
    { eexists _, (canonb s). split; [rewrite <- Es; reflexivity|]. done. }
    apply Hst; [done|lia|done].
Qed.

(** One round of the loop of [canon]. *)
Definition canon_round (bp : Z) : K tlbl (tst W) (Z + Z) :=
  c ← getc Rawq;
  if c <? 0 then mret (inr bp)
  else
    r ← canon_char bp c;
    mret (if (r.2 : bool) then inr r.1 else inl r.1).

Lemma getc_cons s f r q c l : q_holds (tq s) f r -> f q = c :: l -> exists w, getc q s = Ret c (s <| tq := w |>) /\
  q_holds w (<[q := l]> f) (r + Nat.min r 1).
Proof. intros H E. destruct (q_getc_cons _ _ _ _ _ _ H E) as (w&Ew&H'). exists w. unfold getc. by rewrite Ew. Qed.

Lemma canon_rounds rest l : forall stk bp n s f r, q_holds (tq s) f r -> (0 < r)%nat -> f Rawq = l ++ 255 :: rest -> Forall (fun c => 0 <= c < 128) l ->
  (length l + length stk <= 252)%nat -> cooked (tp s) -> canonb s 1 <> 92 -> line_at (canonb s) bp stk -> (length l < n)%nat ->
  exists bp' w b, iter n canon_round bp s = Ret bp' (s <| tq := w |> <| canonb := b |> <| tp ::= fun t => t <| t_delct ::= fun d => u8 (d - 1) |> |>) /\
    line_at b bp' (fold_left (edit_char maptab_at (tp s)) l stk) /\ b 1 = canonb s 1 /\ q_holds w (<[Rawq := rest]> f) (r + S (length l)).
Proof.
  induction l as [|c l IH]; intros stk bp n s f r Hq H0 Hr Hl Hlen Hck H1 Hb Hn; (destruct n as [|n]; [cbn in Hn; lia|]).
  - destruct (getc_cons _ _ _ _ _ _ Hq Hr) as (w&Ew&Hw). exists bp, w, (canonb s).
    split; [|split; [done|split; [done|cbn [length]; by replace (r + 1)%nat with (r + Nat.min r 1)%nat by lia]]]. apply k_iter_inr. unfold canon_round.
    rewrite (bind_ret _ _ _ _ _ Ew). cbn [Z.ltb Z.compare]. unfold canon_char, gett. unfold cooked in Hck.
    rewrite (bind_ret _ _ _ (bp, true) (s <| tq := w |> <| tp ::= fun t => t <| t_delct ::= fun d => u8 (d - 1) |> |>)).
    + kred. cbn [fst snd]. by destruct s.
    + kred. change (tp (s <| tq := w |>)) with (tp s). rewrite Hck. cbn [Z.eqb negb Pos.eqb]. unfold modt. kred. done.
  - apply Forall_cons in Hl as [Hc Hl]. cbn [length] in *.
    destruct (getc_cons _ _ _ _ _ _ Hq Hr) as (w&Ew&Hw). set (s1 := s <| tq := w |>).
    destruct (canon_char_ok bp c stk s1) as (bp1&b1&E1&Hb1&H11); [done|done|lia|done|done|].
    set (s2 := s1 <| canonb := b1 |>). 
    destruct (IH (edit_char maptab_at (tp s) stk c) bp1 n s2 (<[Rawq := l ++ 255 :: rest]> f) (S r)) as (bp2&w2&b2&E2&Hb2&H12&Hq2);
      [by replace (S r) with (r + Nat.min r 1)%nat by lia|lia|by rewrite fn_eq|done| |done|change (canonb s2) with b1; by rewrite H11|done|lia|].
    { pose proof (edit_char_length maptab_at (tp s) stk c). lia. }
    exists bp2, w2, b2. split; [|split; [exact Hb2|split; [by rewrite H12|]]].
    + erewrite k_iter_inl; [exact E2|]. unfold canon_round. rewrite (bind_ret _ _ _ _ _ Ew). replace (c <? 0) with false by lia.
      by rewrite (bind_ret _ _ _ _ _ E1).
    + rewrite fn_twice in Hq2. by replace (r + S (S (length l)))%nat with (S r + S (length l))%nat by lia.
Qed.

Lemma edit_char_bytes t stk c : 0 <= c < 128 -> Forall (fun x => 0 <= x < 256) stk -> Forall (fun x => 0 <= x < 256) (edit_char maptab_at t stk c).
Proof.
  intros Hc Hs. pose proof (maptab_range c Hc) as Hm. unfold edit_char.
  assert (Forall (fun x => 0 <= x < 256) (c :: stk)) as Hcs by (constructor; [lia|done]).
  repeat (case_match; subst; try done); try (apply Forall_cons in Hs as [_ Hs]); try done; constructor; (done || lia).
Qed.
Lemma edit_bytes t l : Forall (fun c => 0 <= c < 128) l -> Forall (fun x => 0 <= x < 256) (edit maptab_at t l).
Proof.
  intros Hl. unfold edit. apply Forall_rev.
  enough (forall stk, Forall (fun x => 0 <= x < 256) stk -> Forall (fun x => 0 <= x < 256) (fold_left (edit_char maptab_at t) l stk)) as G by by apply G.
  induction Hl as [|c l Hc _ IH]; intros stk Hs; [done|]. cbn [fold_left]. apply IH. by apply edit_char_bytes.
Qed.
Lemma edit_length t l : (length (edit maptab_at t l) <= length l)%nat.
Proof.
  unfold edit. rewrite length_rev.
  enough (forall stk, (length (fold_left (edit_char maptab_at t) l stk) <= length l + length stk)%nat) as G by (specialize (G []); cbn in G; lia).
  induction l as [|c l IH]; intros stk; [done|]. cbn [fold_left length]. specialize (IH (edit_char maptab_at t stk c)).
  pose proof (edit_char_length maptab_at t stk c). lia.
Qed.
Lemma map_u8 l : Forall (fun x => 0 <= x < 256) l -> map u8 l = l.
Proof. induction 1 as [|c l Hc _ IH]; [done|]. cbn. by rewrite u8_id, IH. Qed.

(** What is left of the rest of the state. *)
Definition idle_line (s s' : tst W) : Prop :=
  tk s' = (tk s) <| spl := true |> /\ tk_nin s' = tk_nin s /\ p_pgrp s' = p_pgrp s /\ tlog s' = tlog s.

Lemma canon_ok l rest f r s : q_holds (tq s) f r -> (0 < r)%nat -> f Rawq = l ++ 255 :: rest -> Forall (fun c => 0 <= c < 128) l -> (length l <= 252)%nat ->
  cooked (tp s) -> canonb s 1 <> 92 -> t_delct (tp s) <> 0 -> has (t_state (tp s)) TBLOCK = false -> (0 < fuel)%nat ->
  exists s', canon s = Ret (Z.of_nat (length (edit maptab_at (tp s) l))) s' /\
    q_holds (tq s') (<[Canq := f Canq ++ edit maptab_at (tp s) l]> (<[Rawq := rest]> f)) r /\
    tp s' = (tp s) <| t_delct ::= fun d => u8 (d - 1) |> /\ canonb s' 1 = canonb s 1 /\ idle_line s s'.
Proof.
  intros Hq H0 Hr Hl Hlen Hck H1 Hd Htb Hf. unfold canon. set (s0 := s <| tk ::= fun k => k <| spl := true |> |>).
  assert (canon_wait s = Ret true s0) as Ew.
  { unfold canon_wait. rewrite (bind_ret _ _ s (spl (tk s)) (s <| tk ::= fun k => k <| spl := false |> |>)) by done.
    destruct fuel as [|n]; [lia|]. apply k_iter_inr. unfold gett, c_cc. kred. unfold cooked in Hck.
    cbn [tp]. change (tp (s <| tk ::= fun k => k <| spl := false |> |>)) with (tp s). rewrite Hck. cbn [Z.eqb Pos.eqb negb andb].
    rewrite (proj2 (Z.eqb_neq _ _) Hd). cbn [andb orb]. done. }
  rewrite (bind_ret _ _ _ _ _ Ew). cbn [negb].
  destruct (canon_rounds rest l [] 2 (S (Z.to_nat (q_cc Rawq (tq s0)))) s0 f r) as (bp&w&b&E&Hb&Hb1&Hw);
    [done..|cbn [length]; lia|done|done|apply line_at_nil| |].
  { rewrite (q_cc_law _ f r Rawq) by done. rewrite Hr, Nat2Z.id, length_app. cbn [length]. lia. }
  assert (canon_loop s0 = Ret bp (s0 <| tq := w |> <| canonb := b |> <| tp ::= fun t => t <| t_delct ::= fun d => u8 (d - 1) |> |>)) as El.
  { unfold canon_loop, c_cc. kred. exact E. }
  rewrite (bind_ret _ _ _ _ _ El). set (s1 := s0 <| tq := w |> <| canonb := b |> <| tp ::= _ |>). kred.
  change (canonb s1) with b. rewrite (line_at_list _ _ _ Hb). change (tp s0) with (tp s). fold (edit maptab_at (tp s) l).
  destruct (q_b_to_q_law w (<[Rawq := rest]> f) _ Canq (edit maptab_at (tp s) l) Hw) as (v&w2&k&E2&Hk&Hv&Hw2&Hfull).
  assert (k = length (edit maptab_at (tp s) l)) as ->.
  { apply Hfull. pose proof (edit_length (tp s) l). lia. }
  rewrite take_ge, map_u8, fn_ne in Hw2 by (lia || done || by apply edit_bytes).
  rewrite (bind_ret _ _ s1 v (s1 <| tq := w2 |>)) by (unfold b_to_q; change (tq s1) with w; by rewrite E2).
  unfold gett, c_cc. kred. change (t_state (tp (s1 <| tq := w2 |>))) with (t_state (tp s)). rewrite Htb, k_when_false by done.
  exists (s1 <| tq := w2 |>). split; [|split; [eapply q_holds_le; [exact Hw2|pose proof (edit_length (tp s) l); lia]|done]]. f_equal. destruct Hb as [-> _]. change (tp s0) with (tp s). unfold edit. rewrite length_rev. lia.
Qed.

(** ** Typing *)

(** A terminal that edits lines, does not echo and is not stopped. *)
Record quiet_tty (t : tty) : Prop := {
  qt_cooked : cooked t;
  qt_echo : has (t_flags t) ECHO = false;
  qt_tandem : has (t_flags t) TANDEM = false;
  qt_lcase : has (t_flags t) LCASE = false;
  qt_go : has (t_state t) TTSTOP = false;
  qt_free : has (t_state t) TBLOCK = false
}.
(** A character that does nothing when it arrives. *)
Definition inert (t : tty) (c : Z) : Prop :=
  0 <= c < 128 /\ c <> t_startc t /\ c <> t_stopc t /\ c <> t_quitc t /\ c <> t_intrc t /\ (c = 13 -> has (t_flags t) CRMOD = false).
(** A character that ends a line. *)
Definition ends_line (t : tty) (c : Z) : bool := (c =? 10) || (c =? t_eofc t) || (c =? t_brkc t).

Lemma putc_room s f r q c : q_holds (tq s) f (S r) -> exists w, putc c q s = Ret 0 (s <| tq := w |>) /\
  q_holds w (<[q := f q ++ [u8 c]]> f) r.
Proof.
  intros H. destruct (q_putc_law _ _ _ q c H) as (v&w&E&[(->&Hw)|(_&?&_)]); [|done].
  exists w. unfold putc. by rewrite E.
Qed.

Lemma no_raw t : cooked t -> has (t_flags t) RAW = false.
Proof.
  unfold cooked, has. intros H. assert (Z.land (t_flags t) RAW = Z.land (Z.land (t_flags t) (Z.lor RAW CBREAK)) RAW) as ->.
  { by rewrite <- Z.land_assoc. }
  by rewrite H.
Qed.

(** The first part of [ttyinput] lets such a character pass. *)
Lemma ttyinput_inert c s f r : q_holds (tq s) f r -> quiet_tty (tp s) -> inert (tp s) c -> (length (f Rawq) <= 256)%nat ->
  ttyinput c s = ttyinput_put c (t_flags (tp s)) (s <| tk_nin ::= fun n => s32 (n + 1) |>).
Proof.
  intros Hq [Hck He Ht Hlc Hg Hfr] (Hc&N1&N2&N3&N4&N5) Hlen. unfold ttyinput. kred. set (s1 := s <| tk_nin ::= _ |>).
  assert (Z.land c 255 = c) as ->.
  { change 255 with (Z.ones 8). rewrite Z.land_ones, Z.mod_small by lia. done. }
  unfold gett. kred. change (tp s1) with (tp s). rewrite Ht, k_when_false, no_raw by done.
  assert (ttyinput_control c (t_flags (tp s)) s1 = Ret (Some c) s1) as E.
  { unfold ttyinput_control. assert (Z.land c 127 = c) as ->.
    { change 127 with (Z.ones 7). rewrite Z.land_ones, Z.mod_small by lia. done. }
    unfold gett. kred. change (tp s1) with (tp s). rewrite Hg, (proj2 (Z.eqb_neq _ _) N2), (proj2 (Z.eqb_neq _ _) N1). kred.
    cbn [negb]. kred. change (tp s1) with (tp s). rewrite (proj2 (Z.eqb_neq _ _) N3), (proj2 (Z.eqb_neq _ _) N4). cbn [orb].
    destruct (Z.eqb_spec c 13) as [E13|]; [by rewrite N5|done]. }
  rewrite (bind_ret _ _ _ _ _ E). unfold c_cc. kred. change (tq s1) with (tq s). rewrite (q_cc_law _ f r) by done.
  unfold TTYHOG. by replace (256 <? Z.of_nat (length (f Rawq))) with false by lia.
Qed.

(** A character of a line goes on the raw queue. *)
Lemma type_char c s f r : q_holds (tq s) f (S r) -> quiet_tty (tp s) -> inert (tp s) c -> ends_line (tp s) c = false ->
  (length (f Rawq) <= 256)%nat ->
  exists w, ttyinput c s = Ret tt (s <| tk_nin ::= fun n => s32 (n + 1) |> <| tq := w |>) /\ q_holds w (<[Rawq := f Rawq ++ [c]]> f) r.
Proof.
  intros Hq Hqt Hc Hend Hlen. rewrite (ttyinput_inert c s f (S r)) by done. destruct Hqt as [Hck He Ht Hlc Hg Hfr].
  unfold ttyinput_put. rewrite Hlc. cbn [andb]. set (s1 := s <| tk_nin ::= _ |>).
  destruct (putc_room s1 f r Rawq c Hq) as (w&E&Hw). rewrite u8_id in Hw by (destruct Hc; lia).
  rewrite (bind_ret _ _ _ _ _ E). unfold gett. kred. unfold cooked in Hck. change (tp (s1 <| tq := w |>)) with (tp s).
  rewrite Hck. cbn [Z.eqb negb orb]. unfold ends_line in Hend. rewrite Hend, k_when_false, He by done. exists w. done.
Qed.

(** The end of a line goes there with a delimiter. *)
Lemma type_end c s f r : q_holds (tq s) f (S (S r)) -> quiet_tty (tp s) -> inert (tp s) c -> ends_line (tp s) c = true ->
  (length (f Rawq) <= 256)%nat ->
  exists w, ttyinput c s = Ret tt (s <| tk_nin ::= fun n => s32 (n + 1) |> <| tq := w |> <| tp ::= fun t => t <| t_delct ::= fun d => u8 (d + 1) |> |>
      <| tlog ::= cons (TWakeup Rawq) |>) /\
    q_holds w (<[Rawq := f Rawq ++ [c; 255]]> f) r.
Proof.
  intros Hq Hqt Hc Hend Hlen. rewrite (ttyinput_inert c s f (S (S r))) by done. destruct Hqt as [Hck He Ht Hlc Hg Hfr].
  unfold ttyinput_put. rewrite Hlc. cbn [andb]. set (s1 := s <| tk_nin ::= _ |>).
  destruct (putc_room s1 f (S r) Rawq c Hq) as (w&E&Hw). rewrite u8_id in Hw by (destruct Hc; lia).
  rewrite (bind_ret _ _ _ _ _ E). unfold gett. kred. unfold cooked in Hck. change (tp (s1 <| tq := w |>)) with (tp s).
  rewrite Hck. cbn [Z.eqb negb orb]. unfold ends_line in Hend. rewrite Hend, k_when_true by done.
  set (s2 := s1 <| tq := w |>) in *.
  destruct (putc_room s2 (<[Rawq := f Rawq ++ [c]]> f) r Rawq 255 Hw) as (w2&E2&Hw2).
  exists w2. split.
  - rewrite (bind_ret _ _ _ tt (s1 <| tq := w2 |> <| tp ::= fun t => t <| t_delct ::= fun d => u8 (d + 1) |> |> <| tlog ::= cons (TWakeup Rawq) |>)).
    + by rewrite He.
    + rewrite (bind_ret _ _ _ tt (s1 <| tq := w2 |> <| tp ::= fun t => t <| t_delct ::= fun d => u8 (d + 1) |> |>)); [done|].
      cbn [when]. rewrite (bind_ret _ _ _ _ _ E2). done.
  - by rewrite fn_eq, <- app_assoc, fn_twice in Hw2.
Qed.

(** A line typed character by character. *)
Lemma type_line l : forall s f r, q_holds (tq s) f (length l + r) -> quiet_tty (tp s) -> Forall (fun c => inert (tp s) c /\ ends_line (tp s) c = false) l ->
  (length (f Rawq) + length l <= 257)%nat ->
  exists w n, each l ttyinput s = Ret tt (s <| tk_nin := n |> <| tq := w |>) /\ q_holds w (<[Rawq := f Rawq ++ l]> f) r.
Proof.
  induction l as [|c l IH]; intros s f r Hq Hqt Hl Hlen.
  - exists (tq s), (tk_nin s). split; [by destruct s|]. by rewrite fn_same by (by rewrite app_nil_r).
  - apply Forall_cons in Hl as [[Hi He] Hl]. cbn [length each Nat.add] in *.
    destruct (type_char c s f _ Hq Hqt Hi He) as (w&E&Hw); [lia|]. set (s1 := s <| tk_nin ::= _ |> <| tq := w |>) in *.
    rewrite (bind_ret _ _ _ _ _ E).
    destruct (IH s1 _ r Hw) as (w2&n&E2&Hw2); [done|exact Hl| |].
    { rewrite fn_eq, length_app. cbn [length]. lia. }
    exists w2, n. split; [exact E2|]. by rewrite fn_eq, <- app_assoc, fn_twice in Hw2.
Qed.

(** ** Reading *)

(** The first characters of [l] put at [base]. *)
Definition put_line (l : list Z) (base n : Z) (m : mem) : mem :=
  fun a => if bool_decide (base <= a < base + n) then nth (Z.to_nat (a - base)) l 0 else m a.

Lemma put_line_cons c l base n m : 0 <= n -> 0 <= c < 256 -> put_line l (base + 1) n (wr_8 m base c) = put_line (c :: l) base (1 + n) m.
Proof.
  intros Hn Hc. extensionality a. unfold put_line. destruct (decide (a = base)) as [->|Ha].
  - rewrite bool_decide_eq_false_2, bool_decide_eq_true_2, wr_8_eq, u8_id by lia. by rewrite Z.sub_diag.
  - rewrite wr_8_ne by done. destruct (decide (base + 1 <= a < base + 1 + n)).
    + rewrite !bool_decide_eq_true_2 by lia. replace (Z.to_nat (a - base)) with (S (Z.to_nat (a - (base + 1)))) by lia. done.
    + by rewrite !bool_decide_eq_false_2 by lia.
Qed.

(** One round of the loop of [ttread]. *)
Definition ttread_round : K tlbl (tst W) (unit + unit) :=
  n ← c_cc Canq;
  if n =? 0 then mret (inr tt)
  else c ← getc Canq; r ← kern (passc c); mret (if 0 <=? r then inl tt else inr tt).

Lemma ttread_rounds l : forall n s f r, q_holds (tq s) f r -> f Canq = l -> (length l < n)%nat -> 0 < u_count (u (tk s)) ->
  let m := Z.min (Z.of_nat (length l)) (u_count (u (tk s))) in transfer_ok (u (tk s)) m ->
  exists w k, iter n (fun _ => ttread_round) tt s = Ret tt (s <| tq := w |> <| tk := k |>) /\ q_holds w (<[Canq := drop (Z.to_nat m) l]> f) r /\
    u k = advanced m (u (tk s)) /\ umem k = put_line l (u_base (u (tk s))) m (umem (tk s)).
Proof.
  induction l as [|c l IH]; intros n s f r Hq Hl Hn Hct m Ht; (destruct n as [|n]; [cbn in Hn; lia|]).
  - assert (m = 0) as Em by (unfold m; cbn; lia). rewrite Em in *.
    exists (tq s), (tk s). split; [|split; [|split]].
    + apply k_iter_inr. unfold ttread_round, c_cc. kred. rewrite (q_cc_law _ f r), Hl by done. kred. by destruct s.
    + by rewrite fn_same by (by rewrite Hl).
    + by rewrite advanced_0.
    + extensionality a. unfold put_line. by rewrite bool_decide_eq_false_2 by lia.
  - assert (0 <= c < 256) as Hc by (eapply q_byte; [exact Hq|rewrite Hl; left]).
    destruct (getc_cons _ _ _ _ _ _ Hq Hl) as (w&E&Hw). apply (q_holds_le _ _ _ r) in Hw; [|lia]. set (k1 := passed c (tk s)).
    cbn [length] in *. set (m' := Z.min (Z.of_nat (length l)) (u_count (u (tk s)) - 1)).
    assert (m = 1 + m' /\ 0 <= m') as [Em Hm'] by (unfold m, m'; lia). rewrite Em in Ht |- *.
    destruct (advanced_succ (u (tk s)) m' Ht Hm') as [Ea Ht1].
    assert (u k1 = advanced 1 (u (tk s)) /\ umem k1 = wr_8 (umem (tk s)) (u_base (u (tk s))) c) as [Eu Emem] by done.
    assert (u_count (u k1) = u_count (u (tk s)) - 1 /\ u_base (u k1) = u_base (u (tk s)) + 1) as [Ec Eb].
    { rewrite Eu. cbn. destruct Ht as [Hx1 Hx2 _ _]. rewrite u16_id, u32_id by lia. done. }
    set (s1 := s <| tq := w |> <| tk := k1 |>).
    assert (ttread_round s = Ret (if u_count (u k1) =? 0 then inr tt else inl tt) s1) as Er.
    { unfold ttread_round, c_cc. kred. rewrite (q_cc_law _ f r), Hl by done. cbn [length].
      change (Z.of_nat (S (length l)) =? 0) with false. cbn match. rewrite (bind_ret _ _ _ _ _ E).
      rewrite (bind_ret _ _ _ (if u_count (u k1) =? 0 then -1 else 0) s1).
      - by destruct (u_count (u k1) =? 0).
      - unfold kern. change (tk (s <| tq := w |>)) with (tk s). rewrite passc_ok by (apply Ht || done). done. }
    destruct (u_count (u k1) =? 0) eqn:Ez.
    + exists w, k1. assert (m' = 0) as -> by (unfold m'; lia). split; [by apply k_iter_inr|]. split; [exact Hw|]. split; [done|].
      rewrite Emem. rewrite <- put_line_cons by (lia || done). extensionality a. unfold put_line at 1.
      by rewrite bool_decide_eq_false_2 by lia.
    + destruct (IH n s1 _ r Hw) as (w2&k2&E2&Hw2&Eu2&Em2); [by rewrite fn_eq|lia| | |].
      { change (tk s1) with k1. lia. }
      { change (tk s1) with k1. rewrite Ec, Eu. exact Ht1. }
      change (tk s1) with k1 in *. rewrite Ec, Eb, Emem in *. rewrite Eu in Eu2. fold m' in Hw2, Eu2, Em2.
      exists w2, k2. split; [by erewrite k_iter_inl by exact Er|]. split; [|split; [by rewrite Eu2|]].
      * replace (Z.to_nat (1 + m')) with (S (Z.to_nat m')) by lia. cbn [drop].
        by rewrite fn_twice in Hw2.
      * rewrite Em2. by apply put_line_cons.
Qed.

(** [ttread] gives the first line, edited, as far as it fits; the rest of it stays. *)
Definition read_line (t : tty) (l : list Z) (s s' : tst W) : Prop :=
  let line := edit maptab_at t l in
  let m := Z.min (Z.of_nat (length line)) (u_count (u (tk s))) in
  u (tk s') = advanced m (u (tk s)) /\ umem (tk s') = put_line line (u_base (u (tk s))) m (umem (tk s)) /\
  t_delct (tp s') = u8 (t_delct (tp s) - 1).

Lemma ttread_ok l rest f r s : q_holds (tq s) f r -> (0 < r)%nat -> f Rawq = l ++ 255 :: rest -> f Canq = [] -> Forall (fun c => 0 <= c < 128) l ->
  (length l <= 252)%nat -> cooked (tp s) -> canonb s 1 <> 92 -> t_delct (tp s) <> 0 -> has (t_state (tp s)) TBLOCK = false ->
  has (t_state (tp s)) CARR_ON = true -> (0 < fuel)%nat ->
  0 < u_count (u (tk s)) -> transfer_ok (u (tk s)) (Z.min (Z.of_nat (length (edit maptab_at (tp s) l))) (u_count (u (tk s)))) ->
  exists s' left, ttread s = Ret (Z.of_nat (length rest + length left)) s' /\ read_line (tp s) l s s' /\
    left = drop (Z.to_nat (u_count (u (tk s)))) (edit maptab_at (tp s) l) /\ q_holds (tq s') (<[Canq := left]> (<[Rawq := rest]> f)) r.
Proof.
  intros Hq H0 Hr Hc Hl Hlen Hck H1 Hd Htb Hcarr Hf Hct Htr. unfold ttread, gett, c_cc. kred. rewrite Hcarr. cbn [negb]. kred.
  rewrite (q_cc_law _ f r), Hc by done. cbn [length Z.of_nat Z.eqb negb].
  destruct (canon_ok l rest f r s) as (s1&E1&Hq1&Htp&_&Htk&_); [done..|]. rewrite Hc in Hq1. cbn [app] in Hq1.
  set (line := edit maptab_at (tp s) l) in *. set (f1 := <[Canq := line]> _) in Hq1. assert (f1 Canq = line) as Ef1 by (unfold f1; by rewrite fn_eq).
  assert (f1 Rawq = rest) as Er1 by (unfold f1; by rewrite fn_ne, fn_eq).
  assert (u (tk s1) = u (tk s) /\ umem (tk s1) = umem (tk s)) as [Eu Em] by (by rewrite Htk).
  rewrite (bind_ret _ _ s (negb (Z.of_nat (length line) =? 0)) s1). 2: { change (Z.of_nat 0 =? 0) with true; cbn [negb]. by rewrite (bind_ret _ _ _ _ _ E1). }
  set (m := Z.min (Z.of_nat (length line)) (u_count (u (tk s)))) in *.
  destruct (ttread_rounds line (S (Z.to_nat (q_cc Canq (tq s1)))) s1 f1 r) as (w&k&E2&Hw&Euk&Emk); [done|done| |by rewrite Eu|by rewrite Eu|].
  { rewrite (q_cc_law _ f1 r), Ef1, Nat2Z.id by done. lia. }
  rewrite Eu in Euk, Emk, Hw. rewrite Em in Emk. fold m in Euk, Emk, Hw.
  assert (exists s2, when (negb (Z.of_nat (length line) =? 0)) (n ← c_cc Canq; iter (S (Z.to_nat n)) (fun _ => ttread_round) tt) s1 = Ret tt s2 /\
    q_holds (tq s2) (<[Canq := drop (Z.to_nat m) line]> f1) r /\ u (tk s2) = advanced m (u (tk s)) /\
    umem (tk s2) = put_line line (u_base (u (tk s))) m (umem (tk s)) /\ tp s2 = tp s1) as (s2&E&Hq2&Eu2&Em2&Etp2).
  { exists (s1 <| tq := w |> <| tk := k |>). split; [|done]. destruct (Z.of_nat (length line) =? 0) eqn:Ez; unfold when; cbn [negb].
    - revert E2. assert (line = []) as El by (apply length_zero_iff_nil; lia). subst m.
      rewrite El in *. intros E2. erewrite (k_iter_inr _ _ _ s1) in E2; [exact E2|].
      unfold ttread_round, c_cc. kred. by rewrite (q_cc_law _ f1 r), Ef1 by done.
    - unfold c_cc. kred. exact E2. }
  unfold c_cc in E. rewrite (bind_ret _ _ _ _ _ E). kred.
  exists s2, (drop (Z.to_nat m) line).
  assert (drop (Z.to_nat m) line = drop (Z.to_nat (u_count (u (tk s)))) line) as Ed.
  { unfold m. destruct (Z.min_spec (Z.of_nat (length line)) (u_count (u (tk s)))) as [[? ->]|[? ->]]; [|done].
    by rewrite !drop_ge by lia. }
  split; [|split; [split; [done|split; [done|by rewrite Etp2, Htp]]|split; [done|]]].
  - rewrite !(q_cc_law _ _ _ _ Hq2), fn_eq, fn_ne, Er1 by done. f_equal. lia.
  - unfold f1 in Hq2. by rewrite fn_twice in Hq2.
Qed.

(** C23: a line typed at a terminal that edits lines arrives as its editing
    commands say: after the characters of [l] and one that ends a line have come
    in, [ttread] delivers to the user exactly the edited line ([#] erases, [@]
    kills, a backslash protects), as much of it as was asked for; the rest waits
    on the canonical queue, the raw queue is empty again, and no delimiter is
    left over in [t_delct]. *)
Theorem typed_line_read l c f r s :
  q_holds (tq s) f (length l + S (S (S r))) -> f Rawq = [] -> f Canq = [] -> quiet_tty (tp s) ->
  Forall (fun c => inert (tp s) c /\ ends_line (tp s) c = false) l -> inert (tp s) c -> ends_line (tp s) c = true ->
  (length l <= 251)%nat -> canonb s 1 <> 92 -> 0 <= t_delct (tp s) < 255 -> has (t_state (tp s)) CARR_ON = true -> (0 < fuel)%nat ->
  0 < u_count (u (tk s)) -> transfer_ok (u (tk s)) (u_count (u (tk s))) ->
  let line := edit maptab_at (tp s) (l ++ [c]) in
  let m := Z.min (Z.of_nat (length line)) (u_count (u (tk s))) in
  let left := drop (Z.to_nat (u_count (u (tk s)))) line in
  exists s1 s2, (each l ttyinput;; ttyinput c) s = Ret tt s1 /\ ttread s1 = Ret (Z.of_nat (length left)) s2 /\
    u (tk s2) = advanced m (u (tk s)) /\ umem (tk s2) = put_line line (u_base (u (tk s))) m (umem (tk s)) /\
    t_delct (tp s2) = t_delct (tp s) /\ q_holds (tq s2) (<[Canq := left]> f) (S r).
Proof.
  intros Hq Hr Hc Hqt Hl Hic Hec Hlen H1 Hd Hcarr Hf Hct Htr line m left.
  destruct (type_line l s f _ Hq Hqt Hl) as (w&n&E&Hw); [rewrite Hr; cbn; lia|]. rewrite Hr in Hw. cbn [app] in Hw.
  set (s1 := s <| tk_nin := n |> <| tq := w |>) in *.
  destruct (type_end c s1 _ _ Hw Hqt Hic Hec) as (w2&E2&Hw2); [rewrite fn_eq; lia|]. rewrite fn_eq, fn_twice in Hw2.
  set (s2 := s1 <| tk_nin ::= _ |> <| tq := w2 |> <| tp ::= _ |> <| tlog ::= _ |>) in *.
  assert (u8 (t_delct (tp s) + 1) = t_delct (tp s) + 1) as Ed by (apply u8_id; lia).
  destruct (ttread_ok (l ++ [c]) [] (<[Rawq := l ++ [c; 255]]> f) (S r) s2) as (s3&left'&E3&(Eu&Em&Edl)&El&Hq3).
  - exact Hw2.
  - lia.
  - by rewrite fn_eq, <- app_assoc.
  - by rewrite fn_ne.
  - apply Forall_app. split; [|constructor; [apply Hic|done]]. eapply Forall_impl; [exact Hl|]. intros x [[Hx _] _]. exact Hx.
  - rewrite length_app. cbn. lia.
  - exact (qt_cooked _ Hqt).
  - exact H1.
  - change (t_delct (tp s2)) with (u8 (t_delct (tp s) + 1)). lia.
  - exact (qt_free _ Hqt).
  - exact Hcarr.
  - exact Hf.
  - exact Hct.
  - change (u (tk s2)) with (u (tk s)). destruct Htr as [? ? ? ?]. split; (done || lia).
  - change (edit maptab_at (tp s2) (l ++ [c])) with line in *. change (u (tk s2)) with (u (tk s)) in *.
    change (umem (tk s2)) with (umem (tk s)) in *. fold left in El. subst left'. rewrite fn_twice, (fn_same f Rawq []) in Hq3 by done.
    exists s2, s3. split; [|split; [exact E3|split; [exact Eu|split; [exact Em|split; [|exact Hq3]]]]].
    + rewrite (bind_ret _ _ _ _ _ E). exact E2.
    + rewrite Edl. change (t_delct (tp s2)) with (u8 (t_delct (tp s) + 1)). rewrite Ed, u8_id by lia. lia.
Qed.
End code.
(** ** A line typed at a concrete terminal *)

(** Three empty queues and ten free blocks. *)
Definition ten : list Z := [16; 32; 48; 64; 80; 96; 112; 128; 144; 160].
Definition no_chars : tqueues :=
  TQ (fun _ => Clist.CList 0 0 0) (Clist.CState (fun b => if b =? 160 then 0 else b + 16) (fun _ => 0) 16 0 0 true).
Lemma no_chars_hold : q_holds no_chars (fun _ => []) 54.
Proof.
  exists (fun _ => []), ten, []. split; [|intros _; vm_compute; lia].
  intros q. assert (others (fun _ => []) q ++ [] = []) as -> by by destruct q.
  split; [| |done|cbn; tauto|cbn; lia].
  - apply (bool_decide_unpack _). vm_compute. exact I.
  - apply (bool_decide_unpack _). vm_compute. exact I.
Qed.

(** A terminal whose driver does nothing. *)
#[local] Instance idle_driver : TtyDriver tqueues := {|
  t_oproc := mret tt; d_stop := fun _ => mret tt; nldisp := 1; l_open := fun _ _ _ => mret tt; l_close := fun _ => mret tt;
  l_ioctl := fun _ _ _ => mret tt; d_ioctl := fun _ _ _ _ _ => mret tt; past_maptab := fun _ => 0 |}.
#[local] Instance one_round : Fuel := 1%nat.

Definition console : tst tqueues :=
  MkTst (setu (fun r => r <| u_count := 100 |> <| u_base := 4096 |>) blank)
    (MkTty 0 0 (Z.lor ISOPEN CARR_ON) 0 0 0 0 CERASE CKILL 0 0 0 CINTR CQUIT CSTART CSTOP CEOT CBRK)
    no_chars (fun _ => 0) 0 0 1 1 true 0 [].

(** [ab#c] and a newline. *)
Lemma typed_line_read_witness : exists s1 s2, (each [97; 98; 35; 99] ttyinput;; ttyinput 10) console = Ret tt s1 /\
  ttread s1 = Ret 0 s2 /\ umem (tk s2) 4096 = 97 /\ umem (tk s2) 4097 = 99 /\ umem (tk s2) 4098 = 10 /\ u_count (u (tk s2)) = 97.
Proof.
  destruct (typed_line_read [97; 98; 35; 99] 10 (fun _ => []) 47 console) as (s1&s2&E1&E2&Eu&Em&_);
    [exact no_chars_hold|done|done|done| | |done|cbn; lia|done|cbn; lia|done|unfold fuel, one_round; lia|cbn; lia| |].
  - repeat constructor; done.
  - split; [cbn; lia|done].
  - split; cbn; [lia|lia|lia|done].
  - exists s1, s2. split; [exact E1|]. split; [exact E2|]. rewrite Em. rewrite Eu. clear. vm_compute. repeat split.
Defined.

Lemma editing_laws_witness : edit (fun _ => 0) (tp console) ([97; 98] ++ [CERASE]) = [97].
Proof.
  destruct (editing_laws (fun _ => 0) (tp console) [97; 98]) as [E _]; [done| |exact E].
  apply (bool_decide_unpack _). vm_compute. exact I.
Defined.
End Cooked.
