(* ===== verification/Ttyout.v ===== *)
(** * Ttyout: what [ttyoutput] does

    [ttyoutput] calls itself for spaces, backslashes and carriage returns only:
    it returns, and the two levels of calls of the model are all there are.  A
    tab becomes the spaces up to the next multiple of eight. *)
From Stdlib Require Import FunctionalExtensionality.
From S2P Require Import Prelude Kmonad Kernel Bio Rdwri Tty Ttyq Cooked.
Import Tty Ttyq.

Module Ttyout.

(** What [ttyoutput] calls itself with. *)
Definition simple (c : Z) : Prop := c = 32 \/ c = 92 \/ c = 13.

Section code.
  Context {W : Type} `{QU : !Queues W} `{QL : !QueueLaws W} `{TD : !TtyDriver W} `{FL : Fuel}.

Abbreviation T := (K tlbl (tst W)).

(** Code that always returns. *)
Definition returns {A} (m : T A) : Prop := forall s, exists a s', m s = Ret a s'.

Lemma returns_bind {A B} (m : T A) (k : A -> T B) : returns m -> (forall a, returns (k a)) -> returns (m ≫= k).
Proof. intros Hm Hk s. destruct (Hm s) as (a&s1&E). rewrite (bind_ret _ _ _ _ _ E). apply Hk. Qed.
Lemma returns_ret {A} (a : A) : returns (mret a).
Proof. intros s. by exists a, s. Qed.
Lemma returns_gets {A} (f : tst W -> A) : returns (gets f).
Proof. intros s. by exists (f s), s. Qed.
Lemma returns_modify f : returns (modify f).
Proof. intros s. by exists tt, (f s). Qed.
Lemma returns_when b (m : T unit) : returns m -> returns (when b m).
Proof. destruct b; [done|]. intros _. apply returns_ret. Qed.
Lemma returns_putc c q : returns (putc c q).
Proof. intros s. unfold putc. destruct (q_putc c q (tq s)) as [v w]. eauto. Qed.

(** The tab's loop counts down from 8. *)
Lemma returns_tab (self : Z -> T unit) : returns (self 32) -> forall n c, 0 <= c < Z.of_nat n ->
  returns (iter n (fun c => self 32;; t ← gett; mret (if (0 <=? c - 1) && negb (Z.land (t_col t) 7 =? 0) then inl (c - 1) else inr tt)) c).
Proof.
  intros Hs n. induction n as [|n IH]; intros c Hc; [lia|]. intros s. destruct (Hs s) as ([]&s1&E).
  erewrite k_iter; [|rewrite (bind_ret _ _ _ _ _ E); reflexivity].
  destruct ((0 <=? c - 1) && negb (Z.land (t_col (tp s1)) 7 =? 0)) eqn:Ec; [|by exists tt, s1]. apply IH. lia.
Qed.

Lemma returns_body (self : Z -> T unit) c : (forall c, simple c -> returns (self c)) -> returns (ttyoutput_body self c).
Proof.
  intros Hs. unfold ttyoutput_body. apply returns_bind; [apply returns_modify|]. intros _.
  apply returns_bind; [apply returns_gets|]. intros t. destruct (has (t_flags t) RAW).
  { apply returns_bind; [apply returns_putc|]. intros _. apply returns_ret. }
  destruct (_ =? CEOT); [apply returns_ret|]. destruct (_ && _); [apply returns_tab; [apply Hs; by left|lia]|].
  apply returns_bind.
  { destruct (has (t_flags t) LCASE); [|apply returns_ret]. apply returns_bind; [|intros ?; apply returns_ret].
    destruct (List.find _ _); [|apply returns_ret]. apply returns_bind; [apply Hs; by right; left|intros _; apply returns_ret]. }
  intros c'. apply returns_bind; [apply returns_when, Hs; by right; right|]. intros _.
  apply returns_bind; [apply returns_putc|]. intros _. apply returns_bind; [apply returns_gets|]. intros t'.
  destruct (delay_of _ _ _) as [col d]. apply returns_bind; [apply returns_modify|]. intros _.
  apply returns_when. apply returns_bind; [apply returns_putc|]. intros _. apply returns_ret.
Qed.

(** For those characters it does not call itself. *)
Lemma body_simple (self self' : Z -> T unit) c : simple c -> ttyoutput_body self c = ttyoutput_body self' c.
Proof.
  intros Hc. unfold ttyoutput_body. f_equal. extensionality x. f_equal. extensionality t. destruct (has (t_flags t) RAW); [done|].
  destruct Hc as [-> | [-> | ->]]; cbn; by destruct (has (t_flags t) LCASE).
Qed.
Lemma body_ext (self self' : Z -> T unit) c : (forall c, simple c -> self c = self' c) -> ttyoutput_body self c = ttyoutput_body self' c.
Proof.
  intros H. unfold ttyoutput_body. by rewrite !(H 32), !(H 92), !(H 13) by (unfold simple; tauto).
Qed.

(** C34: [ttyoutput] returns, whatever the character and the state of the
    terminal, full queue included, and its recursion is never deeper than two
    calls: the function with any larger bound on the depth is the same. *)
Theorem ttyoutput_returns n c (s : tst W) :
  ttyoutput_n (2 + n) c = ttyoutput c /\ exists s', ttyoutput c s = Ret tt s'.
Proof.
  split.
  - apply body_ext. intros c' Hc'. by apply body_simple.
  - destruct (returns_body (ttyoutput_n 1) c) with (s := s) as ([]&s'&E); [|by exists s'].
    intros c' Hc'. cbn [ttyoutput_n]. rewrite (body_simple _ (fun _ => mret tt) c' Hc').
    apply returns_body. intros ? _. apply returns_ret.
Qed.

(** ** Tabs *)

Lemma putc_fits s f r q c : q_holds (tq s) f (S r) -> exists w, putc c q s = Ret 0 (s <| tq := w |>) /\
  q_holds w (<[q := f q ++ [u8 c]]> f) r.
Proof.
  intros H. destruct (q_putc_law _ _ _ q c H) as (v&w&E&[(->&Hw)|(_&?&_)]); [|done].
  exists w. unfold putc. by rewrite E.
Qed.

(** One space. *)
Lemma space_ok n s f r : q_holds (tq s) f (S r) -> has (t_flags (tp s)) RAW = false -> has (t_flags (tp s)) LCASE = false ->
  exists w k, ttyoutput_n (S n) 32 s = Ret tt (s <| tk_nout := k |> <| tq := w |> <| tp ::= fun t => t <| t_col := u8 (t_col t + 1) |> |>) /\
    q_holds w (<[Outq := f Outq ++ [32]]> f) r.
Proof.
  intros Hq Hr Hl. cbn [ttyoutput_n]. unfold ttyoutput_body, gett. kred. set (s1 := s <| tk_nout ::= _ |>).
  change (tp s1) with (tp s). rewrite Hr, Hl. change (Z.land 32 127) with 32. cbn [CEOT Z.eqb Pos.eqb andb negb]. kred.
  rewrite k_when_false by done. destruct (putc_fits s1 f r Outq 32 Hq) as (w&E&Hw).
  exists w, (tk_nout s1). split; [|exact Hw]. rewrite (bind_ret _ _ _ _ _ E). kred.
  change (Z.land (nth (Z.to_nat 32) partab 0) 63) with 0. cbn [delay_of]. unfold modt. kred. done.
Qed.

(** The spaces of a tab: [k] of them when the column is [8 - k] past a tab stop. *)
Lemma tab_loop k : forall n c s f r, (0 < k <= 8)%nat -> (k <= n)%nat -> Z.of_nat k <= c + 1 ->
  q_holds (tq s) f (k + r) -> has (t_flags (tp s)) RAW = false -> has (t_flags (tp s)) LCASE = false ->
  (t_col (tp s) + Z.of_nat k) mod 8 = 0 -> 0 <= t_col (tp s) -> t_col (tp s) + Z.of_nat k < 256 ->
  exists s', iter n (fun c => ttyoutput_n 1 32;; t ← gett; mret (if (0 <=? c - 1) && negb (Z.land (t_col t) 7 =? 0) then inl (c - 1) else inr tt)) c s = Ret tt s' /\
    q_holds (tq s') (<[Outq := f Outq ++ replicate k 32]> f) r /\
    tp s' = (tp s) <| t_col ::= fun x => x + Z.of_nat k |>.
Proof.
  induction k as [|k IH]; intros n c s f r Hk Hn Hc Hq Hr Hl Hcol H0 H256; [lia|]. destruct n as [|n]; [lia|].
  destruct (space_ok 0 s f (k + r) Hq Hr Hl) as (w&v&E&Hw). set (s1 := s <| tk_nout := v |> <| tq := w |> <| tp ::= _ |>) in *.
  assert (t_col (tp s1) = t_col (tp s) + 1) as Ec by (cbn; rewrite u8_id; lia).
  erewrite k_iter; [|rewrite (bind_ret _ _ _ _ _ E); reflexivity]. rewrite Ec.
  change 7 with (Z.ones 3). rewrite Z.land_ones by lia. change (2 ^ 3) with 8.
  destruct k as [|k].
  - rewrite (proj2 (Z.eqb_eq _ 0)) by (by replace (t_col (tp s) + 1) with (t_col (tp s) + Z.of_nat 1) by lia).
    rewrite andb_false_r. exists s1. split; [done|]. split; [exact Hw|]. unfold s1. cbn -[u8]. by rewrite u8_id by lia.
  - rewrite (proj2 (Z.eqb_neq _ 0)).
    2: { intros E0. clear -E0 Hcol Hk. Z.to_euclidean_division_equations. lia. }
    replace (0 <=? c - 1) with true by lia. cbn [andb negb].
    destruct (IH n (c - 1) s1 (<[Outq := f Outq ++ [32]]> f) r) as (s2&E2&Hq2&Et2); [lia|lia|lia|exact Hw|done|done| | | |].
    { rewrite Ec. rewrite <- Hcol. f_equal. lia. }
    { lia. }
    { lia. }
    exists s2. split; [exact E2|]. split.
    + by rewrite fn_eq, <- app_assoc, fn_twice in Hq2.
    + rewrite Et2. unfold s1. cbn -[u8]. rewrite u8_id by lia. unfold update_with. cbn. f_equal. lia.
Qed.

(** A tab on a terminal whose tabs the system expands puts on the output queue
    the spaces up to the next column that is a multiple of eight, at least one and
    at most eight, and leaves the terminal's column there. *)
Theorem tab_expanded s f r :
  q_holds (tq s) f (8 + r) -> has (t_flags (tp s)) RAW = false -> has (t_flags (tp s)) LCASE = false ->
  Z.land (t_flags (tp s)) TBDELAY = XTABS -> 0 <= t_col (tp s) < 248 ->
  let col := 8 * (t_col (tp s) / 8) + 8 in
  let k := Z.to_nat (col - t_col (tp s)) in
  (1 <= k <= 8)%nat /\ exists s', ttyoutput 9 s = Ret tt s' /\
    q_holds (tq s') (<[Outq := f Outq ++ replicate k 32]> f) r /\ tp s' = (tp s) <| t_col := col |>.
Proof.
  intros Hq Hr Hl Hx Hc col k. pose proof (Z.mod_pos_bound (t_col (tp s)) 8). pose proof (Z.div_mod (t_col (tp s)) 8).
  assert (Z.of_nat k = 8 - t_col (tp s) mod 8) as Ek by (unfold k, col; lia).
  split; [lia|]. unfold ttyoutput. cbn [ttyoutput_n]. unfold ttyoutput_body at 1, gett. kred. set (s1 := s <| tk_nout ::= _ |>).
  change (tp s1) with (tp s). rewrite Hr, Hx. change (Z.land 9 127) with 9. cbn [CEOT Z.eqb Pos.eqb andb negb XTABS].
  destruct (tab_loop k 10 8 s1 f r) as (s'&E&Hq'&Et); [lia|lia|lia| |done|done| |cbn; lia|cbn; lia|].
  - eapply q_holds_le; [exact Hq|lia].
  - change (tp s1) with (tp s). replace (t_col (tp s) + Z.of_nat k) with (col) by (unfold col; lia). unfold col.
    rewrite Z.add_mod, Z.mul_comm, Z.mod_mul by lia. done.
  - exists s'. split; [exact E|]. split; [exact Hq'|]. rewrite Et. change (tp s1) with (tp s). unfold update_with. f_equal. lia.
Qed.
End code.

(** A tab in the second column. *)
#[local] Existing Instances Cooked.idle_driver Cooked.one_round.
Definition tabbing : tst tqueues :=
  Cooked.console <| tp ::= fun t => t <| t_flags := XTABS |> <| t_col := 1 |> |>.
Lemma tab_expanded_witness : exists s', ttyoutput 9 tabbing = Ret tt s' /\
  q_holds (tq s') (<[Outq := replicate 7 32]> (fun _ => [])) 46 /\ t_col (tp s') = 8.
Proof.
  destruct (tab_expanded tabbing (fun _ => []) 46) as (_&s'&E&Hq&Et);
    [exact Cooked.no_chars_hold|done|done|done|cbn; lia|].
  exists s'. split; [exact E|]. split; [exact Hq|]. by rewrite Et.
Defined.
End Ttyout.
