(* ===== verification/Nami.v ===== *)
(** * Nami: path names (src/usr/sys/sys/nami.c, wdir and maknode of iget.c,
    owner of fio.c)

    The current directory entry [u.u_dent] is in kernel memory ([kmem]) at
    offset 0: the inode number, then the 14 characters of the name. *)
From S2P Require Import Prelude Kmonad Kernel Bio Alloc Inode Rdwri Text Fio.
Import Bio Alloc Inode Rdwri Text Fio.

Module Nami.

Section code.
  Context `{DV : Devices} `{FL : Fuel}.

Definition U_DENT : Z := 0.
Definition DIRECT : Z := 16.           (* sizeof(struct direct) *)
Definition d_ino (s : kst) : Z := rd_u16 (kmem s) U_DENT.
Definition d_name (s : kst) (i : Z) : Z := u8 (kmem s (U_DENT + 2 + i)).
Definition slash : Z := 47.
Definition dot : Z := 46.

(** ** The characters of a name *)

Definition schar : M Z :=
  us ← getu;
  modu (fun r => r <| u_dirp := u32 (u_dirp us + 1) |>);;
  gets (fun s => u8 (kmem s (u_dirp us))).

Definition uchar : M Z :=
  us ← getu;
  modu (fun r => r <| u_dirp := u32 (u_dirp us + 1) |>);;
  c ← fubyte (u_dirp us);
  when (c =? -1) (err EFAULT);;
  mret c.

Definition skip_slashes (func : M Z) (c : Z) : M Z :=
  iter fuel (fun c => if c =? slash then c ← func; mret (inl c) else mret (inr c)) c.

(** Gather a component into [u_dbuf]; the result is the character after it. *)
Definition gather (func : M Z) (c : Z) : M Z :=
  r ← iter fuel (fun '(c, cp) =>
    us ← getu;
    if negb (c =? slash) && negb (c =? 0) && (u_error us =? 0) then
      when (cp <? DIRSIZ) (modu (fun r => r <| u_dbuf ::= fun m => wr_8 m cp c |>));;
      let cp := if cp <? DIRSIZ then cp + 1 else cp in
      c ← func;
      mret (inl (c, cp))
    else mret (inr (c, cp))) (c, 0);
  let '(c, cp) := r in
  modu (fun r => r <| u_dbuf ::= fun m => mfill m cp (DIRSIZ - cp) 0 |>);;
  mret c.

(** ** Searching a directory *)

(** How the search of one directory ends. *)
Inductive found :=
| Found                       (* the entry is in u_dent, the offset past it *)
| NoEntry (eo : Z)            (* not found; the offset past a free slot, or 0 *)
| Broken.                     (* I/O error *)

Definition same_name (s : kst) : bool :=
  forallb (fun i => u8 (u_dbuf (u s) i) =? d_name s i) (upto DIRSIZ).

Definition brelse_opt (bp : option bptr) : M unit :=
  match bp with Some bp => brelse bp | None => mret tt end.

(** The block that holds the entry at [u_offset]; [None]: I/O error. *)
Definition dir_block (dp : Z) (bp : option bptr) : M (option (option bptr)) :=
  us ← getu;
  if Z.land (u_offset us) BMASK =? 0 then
    brelse_opt bp;;
    r ← geti dp;
    bn ← bmap dp (Z.shiftr (u_offset us) BSHIFT) B_READ;
    bp ← bread (i_dev r) bn;
    b ← getb bp;
    if has (b_flags b) B_ERROR then brelse bp;; mret None else mret (Some (Some bp))
  else mret (Some bp).

(** One round of the loop [eloop] over the entries of directory [dp]: the buffer
    held and the offset past the first free slot. *)
Definition search_round (dp : Z) (st : option bptr * Z) : M (option bptr * Z + found) :=
  let '(bp, eo) := st in
  us ← getu;
  r ← geti dp;
  if i_size r <=? u_offset us then brelse_opt bp;; mret (inr (NoEntry eo))
  else
    t ← dir_block dp bp;
    match t with
    | None => mret (inr Broken)
    | Some None => panic "no directory block"
    | Some (Some b) =>
        m ← getd b;
        us ← getu;
        modify (fun s => s <| kmem ::= fun k => mcopy m (Z.land (u_offset us) BMASK) k U_DENT DIRECT |>);;
        modu (fun r => r <| u_offset ::= fun x => s32 (x + DIRECT) |>);;
        us ← getu;
        st ← get;
        if d_ino st =? 0 then mret (inl (Some b, if eo =? 0 then u_offset us else eo))
        else if same_name st then brelse b;; mret (inr Found)
        else mret (inl (Some b, eo))
    end.
Definition search_dir (dp : Z) : M found :=
  modu (fun r => r <| u_offset := 0 |>);;
  modu (fun r => r <| u_segflg := 1 |>);;
  iter fuel (search_round dp) (None, 0).

(** ** namei *)

(** [out:] *)
Definition fail (dp : Z) : M (option Z) := iput dp;; mret None.

(** The entry [u_dent] is the ".." of the root of a mounted file system: its
    entry in the mount table. *)
Definition up_mount (s : kst) (dp : Z) : option Z :=
  if (d_ino s =? ROOTINO) && (i_number (inodes s dp) =? ROOTINO) && (d_name s 1 =? dot) then
    List.find (fun i => (1 <=? i) && bool_decide (is_Some (m_bufp (mounts s i))) && (m_dev (mounts s i) =? i_dev (inodes s dp)))
      (upto NMOUNT)
  else None.

(** What one component leads to. *)
Inductive next :=
| Into (dp : Z)               (* cloop, in the inode [dp] *)
| Again (dp : Z)              (* seloop, in the covered directory [dp] *)
| Done (r : option Z).

(** From [seloop] on, with [c] the character after the component. *)
Definition component (flag c dp : Z) : M next :=
  r ← geti dp;
  when (negb (Z.land (i_mode r) IFMT =? IFDIR)) (err ENOTDIR);;
  access dp IEXEC;;
  us ← getu;
  if negb (u_error us =? 0) then r ← fail dp; mret (Done r)
  else
    f ← search_dir dp;
    match f with
    | Broken => r ← fail dp; mret (Done r)
    | NoEntry eo =>
        if (flag =? 1) && (c =? 0) then
          bad ← access dp IWRITE;
          if bad : bool then r ← fail dp; mret (Done r)
          else
            modu (fun r => r <| u_pdir := dp |>);;
            (if negb (eo =? 0) then modu (fun r => r <| u_offset := s32 (eo - DIRECT) |>)
             else modi dp (fun r => r <| i_flag ::= fun f => setf f (Z.lor IUPD ICHG) |>));;
            mret (Done None)
        else err ENOENT;; r ← fail dp; mret (Done r)
    | Found =>
        if (flag =? 2) && (c =? 0) then
          bad ← access dp IWRITE;
          if bad : bool then r ← fail dp; mret (Done r) else mret (Done (Some dp))
        else
          st ← get;
          let d := i_dev (inodes st dp) in
          match up_mount st dp with
          | Some i =>
              iput dp;;
              mp ← gets (fun s => mounts s i);
              match m_inodp mp with
              | None => panic "null inode"
              | Some dp =>
                  modi dp (fun r => r <| i_count ::= fun c => u8 (c + 1) |>);;
                  plock dp;;
                  mret (Again dp)
              end
          | None =>
              iput dp;;
              ino ← gets d_ino;
              dp ← iget d ino;
              mret (match dp with None => Done None | Some dp => Into dp end)
          end
    end.

Definition namei (func : M Z) (flag : Z) : M (option Z) :=
  us ← getu;
  c ← func;
  rd ← gets rootdir;
  let dp := if c =? slash then default rd (u_rdir us) else u_cdir us in
  r ← geti dp;
  iget (i_dev r) (i_number r);;
  c ← skip_slashes func c;
  when ((c =? 0) && negb (flag =? 0)) (err ENOENT);;
  iter fuel (fun '(dp, c) =>
    us ← getu;
    if negb (u_error us =? 0) then r ← fail dp; mret (inr r)
    else if c =? 0 then mret (inr (Some dp))
    else
      c ← gather func c;
      c ← skip_slashes func c;
      n ← iter fuel (fun dp =>
        n ← component flag c dp;
        mret (match n with Again dp => inl dp | _ => inr n end)) dp;
      mret (match n with Into dp => inl (dp, c) | Done r => inr r | Again dp => inr None end)) (dp, c).

(** ** Directory entries (iget.c) *)

Definition wdir (ip : Z) : M unit :=
  us ← getu;
  p ← geti (u_pdir us);
  (if i_nlink p <=? 0 then err ENOTDIR
   else
     r ← geti ip;
     modify (fun s => s <| kmem ::= fun m => wr_16 m U_DENT (i_number r) |>);;
     us ← getu;
     modify (fun s => s <| kmem ::= fun m => mcopy (u_dbuf us) 0 m (U_DENT + 2) DIRSIZ |>);;
     modu (fun r => r <| u_count := DIRECT |>);;
     modu (fun r => r <| u_segflg := 1 |>);;
     modu (fun r => r <| u_base := U_DENT |>);;
     writei (u_pdir us));;
  us ← getu;
  iput (u_pdir us).

Definition maknode (mode : Z) : M (option Z) :=
  us ← getu;
  p ← geti (u_pdir us);
  ip ← ialloc (i_dev p);
  match ip with
  | None => us ← getu; iput (u_pdir us);; mret None
  | Some ip =>
      modi ip (fun r => r <| i_flag ::= fun f => setf f (Z.lor IACC (Z.lor IUPD ICHG)) |>);;
      us ← getu;
      let mode := if Z.land mode IFMT =? 0 then Z.lor mode IFREG else mode in
      modi ip (fun r => r <| i_mode := u16 (Z.land mode (Z.lnot (u_cmask us))) |>);;
      modi ip (fun r => r <| i_nlink := 1 |>);;
      modi ip (fun r => r <| i_uid := u_uid us |>);;
      modi ip (fun r => r <| i_gid := u_gid us |>);;
      wdir ip;;
      mret (Some ip)
  end.

(** The inode of the name, if the process owns it or is the super user (fio.c). *)
Definition owner : M (option Z) :=
  ip ← namei uchar 0;
  match ip with
  | None => mret None
  | Some ip =>
      us ← getu;
      r ← geti ip;
      if u_uid us =? i_uid r then mret (Some ip)
      else
        su ← suser;
        if su : bool then mret (Some ip) else iput ip;; mret None
  end.
End code.
End Nami.
