(* ===== verification/Lookup.v ===== *)
(** * Lookup: searching a directory

    A directory is a file of entries of 16 bytes: an inode number, 0 if the
    entry is free, and a name of 14 characters.  [search_dir], the loop of
    [namei] over the blocks of the directory, finds the first entry with the
    name in [u_dbuf], and notes the first free one. *)
From Stdlib Require Import FunctionalExtensionality.
From S2P Require Import Prelude Kmonad Kernel Bio Quiet Ahead Rdwri Readi Nami.
Import Bio Quiet Ahead Rdwri Readi Nami.

Module Lookup.

Lemma forallb_same {B} (f g : B -> bool) l : (forall x, x ∈ l -> f x = g x) -> forallb f l = forallb g l.
Proof.
  induction l as [|x l IH]; intros H; [done|]. cbn. rewrite H, IH; [done|intros y Hy; apply H; by right|by left].
Qed.

Section code.
  Context `{DV : Devices} `{FL : Fuel} `{SD : !SyncDriver} `{WD : !WholeDriver}.

(** ** A directory as a list of entries *)

Definition entry_ino (s : kst) (dp k : Z) : Z := file_byte s dp (16 * k) + 256 * file_byte s dp (16 * k + 1).
Definition entry_char (s : kst) (dp k i : Z) : Z := file_byte s dp (16 * k + 2 + i).
Definition entry_matches (s : kst) (dp k : Z) : bool :=
  forallb (fun i => u8 (u_dbuf (u s) i) =? entry_char s dp k i) (upto DIRSIZ).

(** The search: the number of the first entry that matches, or the offset past
    the first free entry, 0 if there is none. *)
Fixpoint look (s : kst) (dp : Z) (ks : list Z) (eo : Z) : Z + Z :=
  match ks with
  | [] => inr eo
  | k :: ks =>
      if entry_ino s dp k =? 0 then look s dp ks (if eo =? 0 then 16 * (k + 1) else eo)
      else if entry_matches s dp k then inl k
      else look s dp ks eo
  end.
(** The number of entries. *)
Definition entries (s : kst) (dp : Z) : Z := (i_size (inodes s dp) + 15) / 16.

(** A directory without holes. *)
Definition solid (s : kst) (dp : Z) : Prop :=
  0 <= i_size (inodes s dp) <= MAXFILE /\
  forall bn, 0 <= bn -> 512 * bn < i_size (inodes s dp) -> exists b, file_block s dp bn = Some b /\ 0 <= b.

(** ** The state during the search *)

(** Between [s] and [s'] a directory is searched. *)
Definition walked (s s' : kst) : kst := s <| kmem := kmem s' |> <| u := u s' |> <| rablock := rablock s' |>.

(** [k] entries have been seen; [bp] is the buffer of the last one. *)
Record holding (s : kst) (A : list bptr) (dp k : Z) (bp : option bptr) (s1 : kst) (A1 : list bptr) (Q1 : bptr -> list bptr) : Prop := {
  ho_buf : match bp with
    | None => k = 0 /\ reread (walked s s1) A s1 A1 Q1
    | Some b => exists dv bk, granted (walked s s1) A dv bk b s1 A1 Q1 /\
        agree 0 512 (b_data (bufs s1 b)) (fun i => file_byte s dp (512 * ((k - 1) / 32) + i))
    end;
  ho_user : u s1 = (u s) <| u_offset := 16 * k |> <| u_segflg := 1 |>;
  ho_whole : no_resid s1
}.

Lemma walked_others s s1 t : others s1 = others s -> others (walked s1 t) = others (walked s t).
Proof. destruct s, s1. unfold others in *. cbn in *. intros H. injection H. intros. by subst. Qed.
Lemma walked_walked s s1 t : walked (walked s s1) t = walked s t.
Proof. done. Qed.
Lemma reread_walk s A s1 A1 Q1 t : reread s A s1 A1 Q1 -> reread (walked s t) A (walked s1 t) A1 Q1.
Proof. intros H. eapply reread_frame; [exact H|done..|]. apply walked_others, H. Qed.

(** What a change of the entry, the offset and the like leaves of it. *)
Lemma reread_walked s A s1 A1 Q1 t : reread (walked s s1) A s1 A1 Q1 -> walked s1 t = t -> reread (walked s t) A t A1 Q1.
Proof. intros H E. apply (reread_walk _ _ _ _ _ t) in H. by rewrite walked_walked, E in H. Qed.
Lemma granted_walked s A dv bk b s1 A1 Q1 t : granted (walked s s1) A dv bk b s1 A1 Q1 -> walked s1 t = t -> granted (walked s t) A dv bk b t A1 Q1.
Proof.
  intros H E. assert (bufs t = bufs s1 /\ disk t = disk s1) as [Eb Ed] by (by rewrite <- E).
  eapply granted_frame; [exact H|done|done|done|done|]. rewrite <- E at 1. rewrite <- (walked_walked s s1 t).
  apply walked_others, (g_others _ _ _ _ _ _ _ _ H).
Qed.

Lemma reread_walked_same s A s1 A1 Q1 : reread (walked s s1) A s1 A1 Q1 -> same_blocks s s1 /\ inodes s1 = inodes s.
Proof.
  intros [_ _ [H1 H2] _ H5]. split; [by split|]. unfold others in H5. by injection H5 as -> _.
Qed.
Lemma holding_inodes s A dp k bp s1 A1 Q1 : holding s A dp k bp s1 A1 Q1 -> inodes s1 = inodes s.
Proof.
  intros [Hb _ _]. destruct bp as [b|].
  - destruct Hb as (?&?&G&_). pose proof (g_others _ _ _ _ _ _ _ _ G) as Ho. unfold others in Ho. by injection Ho as -> _.
  - destruct Hb as [_ W]. by destruct (reread_walked_same _ _ _ _ _ W).
Qed.

(** The buffer, if there is one, is given back. *)
Lemma release_held s A dp k bp s1 A1 Q1 : holding s A dp k bp s1 A1 Q1 ->
  exists s2 A2, brelse_opt bp s1 = Ret tt s2 /\ reread (walked s s2) A s2 A2 Q1 /\ u s2 = u s1 /\ kmem s2 = kmem s1 /\ no_resid s2.
Proof.
  intros [Hb Hu Hr]. destruct bp as [b|]; cbn [brelse_opt].
  - destruct Hb as (dv&bk&G&_). destruct (granted_brelse _ _ _ _ _ _ _ _ G) as (s2&A2&E&R&Ho).
    assert (u s2 = u s1 /\ kmem s2 = kmem s1 /\ rablock s2 = rablock s1) as (Eu&Ek&Er)
      by (unfold others in Ho; by injection Ho as _ _ _ _ -> _ _ -> _ _ _ ->).
    exists s2, A2. split; [done|]. split; [|split; [done|split; [done|]]].
    + replace (walked s s2) with (walked s s1); [done|]. unfold walked. by rewrite Eu, Ek, Er.
    + eapply whole_ret; [apply brelse_quiet|exact Hr|exact E].
  - destruct Hb as [_ R]. exists s1, A1. done.
Qed.

(** ** One round *)

(** The block of the next entry. *)
Lemma dir_block_ok s A Q dp k bp s1 A1 Q1 : resting s A Q dp -> solid s dp -> 0 <= k -> 16 * k < i_size (inodes s dp) ->
  holding s A dp k bp s1 A1 Q1 ->
  exists b s2 A2 Q2 dv bk, dir_block dp bp s1 = Ret (Some (Some b)) s2 /\ u s2 = u s1 /\ kmem s2 = kmem s1 /\ no_resid s2 /\
    granted (walked s s2) A dv bk b s2 A2 Q2 /\ agree 0 512 (b_data (bufs s2 b)) (fun i => file_byte s dp (512 * (k / 32) + i)).
Proof.
  intros [R1 R2 R3 R4 R5 R6] [Hsz Hsol] Hk Hlt Hh. unfold MAXFILE in Hsz. pose proof (ho_user _ _ _ _ _ _ _ _ Hh) as Eu.
  assert (u_offset (u s1) = 16 * k) as Eo by (by rewrite Eu). unfold dir_block. krun. rewrite Eo. unfold BMASK, BSHIFT. change 511 with (Z.ones 9).
  rewrite Z.land_ones, Z.shiftr_div_pow2 by lia. change (2 ^ 9) with 512.
  assert (16 * k / 512 = k / 32) as Ek by (Z.div_mod_to_equations; lia). rewrite Ek.
  destruct (Z.eqb_spec (16 * k mod 512) 0) as [E0|N0].
  - destruct (release_held _ _ _ _ _ _ _ _ Hh) as (s2&A2&E2&W2&Eu2&Ek2&Hr2). rewrite (bind_ret _ _ _ _ _ E2). krun.
    destruct (reread_walked_same _ _ _ _ _ W2) as [Hs2 Ei2].
    assert (0 <= k / 32 < 2113674) as Hbn by (Z.div_mod_to_equations; lia). destruct (place_some (k / 32) Hbn) as (a&l&x&Hp).
    assert (A2 <> []) as HA2.
    { intros ->. pose proof (Permutation_length (rr_avail _ _ _ _ _ W2)) as Hl. cbn in Hl. lia. }
    assert (forall b, unheld s2 A2 (i_dev (inodes s dp)) b) as Hu2.
    { intros b. apply (reread_unheld _ _ _ _ _ _ b W2). exact (R4 b). }
    destruct (bmap_ok dp (k / 32) B_READ s2 A2 Q1 a l x) as (s3&A3&Q3&E3&W3);
      [apply W2|done|by rewrite Ei2|lia|done|by left|intros b _; rewrite Ei2; apply Hu2|].
    rewrite Ei2 in *. set (dev := i_dev (inodes s dp)) in *.
    assert (file_block s2 dp (k / 32) = walk (content s2 dev) (i_addr (inodes s dp) a) (digits l x)) as Ef
      by (unfold file_block; by rewrite Hp, Ei2).
    rewrite <- Ef, (file_block_same s s2) in E3 by (by rewrite ?Ei2).
    destruct (Hsol (k / 32)) as (blk&Eb&Hblk); [lia|Z.div_mod_to_equations; lia|]. rewrite Eb in E3. cbn [default from_option] in E3.
    rewrite (bind_ret _ _ _ _ _ E3).
    assert (reread (walked s s3) A s3 A3 Q3) as W3'.
    { eapply reread_trans; [apply (reread_walk _ _ _ _ _ s3) in W2; exact W2|]. apply (reread_walk _ _ _ _ _ s3) in W3.
      replace (walked s3 s3) with s3 in W3 by (by destruct s3). exact W3. }
    pose proof (rr_others _ _ _ _ _ W3) as Ho3.
    assert (u s3 = u s2 /\ kmem s3 = kmem s2) as [Eu3 Ek3] by (unfold others in Ho3; by injection Ho3 as _ _ _ _ -> _ _ _ _ _ ->).
    pose proof R3 as [Us1 Us2 Us3].
    destruct (bread_spec s3 A3 Q3 dev blk) as (b&s4&A4&Q4&E4&G4&_&D4); [apply W3| |done|done|done| |].
    { intros ->. pose proof (Permutation_length (rr_avail _ _ _ _ _ W3')) as Hl. cbn in Hl. lia. }
    { exact (reread_unheld _ _ _ _ _ _ blk W3' (R4 blk)). }
    pose proof (g_others _ _ _ _ _ _ _ _ G4) as Ho4.
    assert (u s4 = u s3 /\ kmem s4 = kmem s3 /\ rablock s4 = rablock s3) as (Eu4&Ek4&Er4)
      by (unfold others in Ho4; by injection Ho4 as _ _ _ _ -> _ _ -> _ _ _ ->).
    exists b, s4, A4, Q4, dev, blk. split; [|split; [congruence|split; [congruence|split; [|split]]]].
    + change (b_dev (bufs s4 b)) with (b_dev (bufs s4 b)). rewrite (bind_ret _ _ _ _ _ E4). krun.
      destruct (ca_flags _ _ _ (g_cache _ _ _ _ _ _ _ _ G4) b (g_isbuf _ _ _ _ _ _ _ _ G4)) as [_ ->]. done.
    + eapply whole_ret; [apply bread_quiet|eapply whole_ret; [apply bmap_whole|exact Hr2|exact E3]|exact E4].
    + replace (walked s s4) with (walked s s3) by (unfold walked; by rewrite Eu4, Ek4, Er4).
      eapply granted_after; [..|exact G4]; apply W3'.
    + intros i Hi. rewrite D4, file_byte_block by done. rewrite Eb. cbn [default from_option id]. replace (blk <? 0) with false by lia.
      apply (sb_content _ _ (proj1 (reread_walked_same _ _ _ _ _ W3')) dev blk Us1 i Hi).
  - destruct bp as [b|]; [|exfalso; destruct Hh as [[-> _] _ _]; done].
    destruct Hh as [(dv&bk&G&D) _ Hr]. exists b, s1, A1, Q1, dv, bk. split_and!; try done.
    replace (k / 32) with ((k - 1) / 32); [done|]. Z.div_mod_to_equations; lia.
Qed.

(** [u_dent] is entry [k]. *)
Definition loaded (s : kst) (dp k : Z) (s' : kst) : Prop :=
  d_ino s' = entry_ino s dp k /\ forall i, 0 <= i < DIRSIZ -> d_name s' i = entry_char s dp k i.

Lemma file_byte_range s A Q dp off : resting s A Q dp -> 0 <= file_byte s dp off < 256.
Proof.
  intros R. unfold file_byte. destruct (file_block s dp (off / 512)) as [b|]; [|lia]. destruct (b <? 0); [lia|].
  apply (re_bytes _ _ _ _ R b). pose proof (Z.mod_pos_bound off 512). lia.
Qed.

(** The entry is copied out of the buffer. *)
Definition fetched (b : bptr) (s : kst) : kst :=
  setu (fun r => r <| u_offset ::= fun x => s32 (x + DIRECT) |>)
    (s <| kmem ::= fun k => mcopy (b_data (bufs s b)) (Z.land (u_offset (u s)) BMASK) k U_DENT DIRECT |>).

Lemma fetched_ok s A Q dp k b s2 A2 Q2 dv bk : resting s A Q dp -> 0 <= k -> 16 * k < 2147483000 ->
  u s2 = (u s) <| u_offset := 16 * k |> <| u_segflg := 1 |> -> no_resid s2 ->
  granted (walked s s2) A dv bk b s2 A2 Q2 -> agree 0 512 (b_data (bufs s2 b)) (fun i => file_byte s dp (512 * (k / 32) + i)) ->
  holding s A dp (k + 1) (Some b) (fetched b s2) A2 Q2 /\ loaded s dp k (fetched b s2).
Proof.
  intros R Hk Hlt Eu Hr G D. assert (u_offset (u s2) = 16 * k) as Eo by (by rewrite Eu).
  assert (Z.land (u_offset (u s2)) BMASK = 16 * (k mod 32)) as El.
  { rewrite Eo. unfold BMASK. change 511 with (Z.ones 9). rewrite Z.land_ones by lia. change (2 ^ 9) with 512. Z.div_mod_to_equations; lia. }
  assert (forall i, 0 <= i < 16 -> kmem (fetched b s2) i = file_byte s dp (16 * k + i)) as Hm.
  { intros i Hi. unfold fetched. cbn -[mcopy]. unfold mcopy, U_DENT, DIRECT. rewrite bool_decide_eq_true_2 by lia.
    rewrite El, D by (pose proof (Z.mod_pos_bound k 32); lia). f_equal. Z.div_mod_to_equations; lia. }
  split; [split|].
  - exists dv, bk. split; [by eapply granted_walked|]. replace (k + 1 - 1) with k by lia. exact D.
  - unfold fetched. cbn -[s32 mcopy]. rewrite Eu. unfold update_with. cbn -[s32]. unfold DIRECT. rewrite s32_id by lia.
    f_equal. lia.
  - exact Hr.
  - split.
    + unfold d_ino, rd_u16, entry_ino, U_DENT. rewrite !Hm by lia. do 2 f_equal; lia.
    + intros i Hi. unfold DIRSIZ in Hi. unfold d_name, entry_char, U_DENT. rewrite Hm by lia.
      rewrite u8_id by (by eapply file_byte_range). f_equal. lia.
Qed.

(** One round: the entry is free, or has the name, or has not. *)
Lemma search_round_ok s A Q dp k bp eo s1 A1 Q1 : resting s A Q dp -> solid s dp -> 0 <= k -> 16 * k < i_size (inodes s dp) ->
  holding s A dp k bp s1 A1 Q1 ->
  exists b s2 A2 Q2, loaded s dp k s2 /\
    (if negb (entry_ino s dp k =? 0) && entry_matches s dp k
     then search_round dp (bp, eo) s1 = Ret (inr Found) s2 /\ reread (walked s s2) A s2 A2 Q2 /\
       u s2 = (u s) <| u_offset := 16 * (k + 1) |> <| u_segflg := 1 |> /\ no_resid s2
     else search_round dp (bp, eo) s1 =
         Ret (inl (Some b, if (entry_ino s dp k =? 0) && (eo =? 0) then 16 * (k + 1) else eo)) s2 /\
       holding s A dp (k + 1) (Some b) s2 A2 Q2).
Proof.
  intros R Hsol Hk Hlt Hh. pose proof Hsol as [Hsz _]. unfold MAXFILE in Hsz. pose proof (ho_user _ _ _ _ _ _ _ _ Hh) as Eu.
  destruct (dir_block_ok s A Q dp k bp s1 A1 Q1) as (b&s2&A2&Q2&dv&bk&E2&Eu2&Ek2&Hr2&G2&D2); [done..|].
  assert (inodes s1 dp = inodes s dp) as Ei by (by rewrite (holding_inodes _ _ _ _ _ _ _ _ Hh)).
  destruct (fetched_ok s A Q dp k b s2 A2 Q2 dv bk) as [Hh2 Hl2]; [done|done|lia|by rewrite Eu2|done|done|done|].
  set (s3 := fetched b s2) in *.
  assert (forall X Y, (if i_size (inodes s1 dp) <=? u_offset (u s1) then X else Y) = Y :> M (option bptr * Z + found)) as Hend.
  { intros X Y. assert (u_offset (u s1) = 16 * k) as Eo by (by rewrite Eu). rewrite Ei, Eo. by replace (i_size (inodes s dp) <=? 16 * k) with false by lia. }
  assert (search_round dp (bp, eo) s1 = (if d_ino s3 =? 0 then mret (inl (Some b, if eo =? 0 then u_offset (u s3) else eo))
    else if same_name s3 then brelse b;; mret (inr Found) else mret (inl (Some b, eo))) s3) as Er.
  { unfold search_round. krun. rewrite Hend. rewrite (bind_ret _ _ _ _ _ E2). krun. done. }
  rewrite Er. destruct Hl2 as [Hino Hname]. rewrite Hino. pose proof (ho_user _ _ _ _ _ _ _ _ Hh2) as Eu3.
  assert (same_name s3 = entry_matches s dp k) as ->.
  { unfold same_name, entry_matches. replace (u_dbuf (u s3)) with (u_dbuf (u s)) by (by rewrite Eu3). apply forallb_same. intros i Hi.
    rewrite Hname; [done|]. by apply upto_range. }
  destruct (entry_ino s dp k =? 0) eqn:Ez; cbn [negb andb].
  - exists b, s3, A2, Q2. split; [by split|]. split; [|exact Hh2]. replace (u_offset (u s3)) with (16 * (k + 1)) by (by rewrite Eu3). by destruct (eo =? 0).
  - destruct (entry_matches s dp k) eqn:Em.
    + destruct (release_held _ _ _ _ _ _ _ _ Hh2) as (s4&A4&E4&W4&Eu4&Ek4&Hr4).
      exists b, s4, A4, Q2. split; [|split; [|split; [done|split; [|done]]]].
      * unfold loaded, d_ino, d_name in *. by rewrite Ek4.
      * cbn [brelse_opt] in E4. by rewrite (bind_ret _ _ _ _ _ E4).
      * by rewrite Eu4, Eu3.
    + exists b, s3, A2, Q2. split; [by split|]. by split.
Qed.

(** ** The search *)

(** What the search leaves: [r] is what [look] says. *)
Record searched (s : kst) (A : list bptr) (dp : Z) (r : Z + Z) (f : found) (s' : kst) (A' : list bptr) (Q' : bptr -> list bptr) : Prop := {
  se_found : match r with
    | inl k => f = Found /\ loaded s dp k s' /\ u s' = (u s) <| u_offset := 16 * (k + 1) |> <| u_segflg := 1 |>
    | inr eo => f = NoEntry eo /\ u s' = (u s) <| u_offset := 16 * entries s dp |> <| u_segflg := 1 |>
    end;
  se_rest : reread (walked s s') A s' A' Q';
  se_whole : no_resid s'
}.

Lemma entries_end s dp k : k < entries s dp <-> 16 * k < i_size (inodes s dp).
Proof. unfold entries. Z.div_mod_to_equations; lia. Qed.

Lemma search_loop s A Q dp : resting s A Q dp -> solid s dp -> forall (n : nat) k f bp eo s1 A1 Q1, Z.of_nat n = entries s dp - k -> 0 <= k ->
  (n < f)%nat -> holding s A dp k bp s1 A1 Q1 ->
  exists r s2 A2 Q2, iter f (search_round dp) (bp, eo) s1 = Ret r s2 /\
    searched s A dp (look s dp (seqZ k (Z.of_nat n)) eo) r s2 A2 Q2.
Proof.
  intros R Hsol. induction n as [|n IH]; intros k f bp eo s1 A1 Q1 Hn Hk Hf Hh; (destruct f as [|f]; [lia|]).
  - assert (~ 16 * k < i_size (inodes s dp)) as Hend by (rewrite <- entries_end; lia).
    destruct (release_held _ _ _ _ _ _ _ _ Hh) as (s2&A2&E2&W2&Eu2&_&Hr2). pose proof (ho_user _ _ _ _ _ _ _ _ Hh) as Eu.
    exists (NoEntry eo), s2, A2, Q1. split; [|split; [split; [done|]|done|done]].
    + apply k_iter_inr. unfold search_round. krun. assert (u_offset (u s1) = 16 * k) as -> by (by rewrite Eu).
      rewrite (holding_inodes _ _ _ _ _ _ _ _ Hh). replace (i_size (inodes s dp) <=? 16 * k) with true by lia.
      by rewrite (bind_ret _ _ _ _ _ E2).
    + replace (entries s dp) with k by lia. by rewrite Eu2, Eu.
  - assert (16 * k < i_size (inodes s dp)) as Hlt by (rewrite <- entries_end; lia).
    rewrite seqZ_cons by lia. cbn [look]. replace (Z.pred (Z.of_nat (S n))) with (Z.of_nat n) by lia.
    destruct (search_round_ok s A Q dp k bp eo s1 A1 Q1 R Hsol Hk Hlt Hh) as (b&s2&A2&Q2&Hl&H).
    destruct (entry_ino s dp k =? 0) eqn:Ei; cbn [negb andb] in H.
    + destruct H as [E Hh2]. erewrite k_iter_inl by exact E. eapply (IH (k + 1)); [lia..|exact Hh2].
    + destruct (entry_matches s dp k); destruct H as [E H].
      * exists Found, s2, A2, Q2. split; [by apply k_iter_inr|]. destruct H as (W&Eu&Hr). by split.
      * erewrite k_iter_inl by exact E. eapply (IH (k + 1)); [lia..|exact H].
Qed.

(** C25: [search_dir], the search of [namei] in one directory, returns: it has
    found the first entry in use whose name is the one in [u_dbuf], which is then
    in [u_dent] with the offset past it; or there is none, and it says where the
    first free entry is (0 if there is none) with the offset at the end.  Each
    block has been read once, none has changed, and no buffer is left held. *)
Theorem search_dir_finds s A Q dp : resting s A Q dp -> solid s dp -> entries s dp < Z.of_nat fuel ->
  exists r s' A' Q', search_dir dp s = Ret r s' /\ searched s A dp (look s dp (seqZ 0 (entries s dp)) 0) r s' A' Q'.
Proof.
  intros R Hsol Hf. assert (0 <= entries s dp) as Hn by (destruct Hsol; unfold entries; Z.div_mod_to_equations; lia).
  unfold search_dir. krun. set (s1 := setu _ (setu _ s)).
  destruct (search_loop s A Q dp R Hsol (Z.to_nat (entries s dp)) 0 fuel None 0 s1 A Q) as (r&s2&A2&Q2&E&Hs); [lia..| |].
  - split; [|done|apply R]. split; [done|]. replace (walked s s1) with s1 by (by destruct s). apply reread_refl.
    eapply cache_bufs; [apply R|done..].
  - rewrite Z2Nat.id in Hs by lia. exists r, s2, A2, Q2. done.
Qed.
End code.

(** ** A concrete directory *)

#[local] Existing Instances ramdisk rounds ramdisk_sync ramdisk_whole.

(** Inode 3 has three entries in block 5; all bytes of the block are 5. *)
Definition fives : kst :=
  setu (fun r => r <| u_dbuf := fun _ => 5 |>) (seti 3 (fun r => r <| i_mode := IFDIR |> <| i_size := 48 |> <| i_addr @ 0 := 5 |>) booted).

Lemma search_dir_finds_witness :
  exists r s' A' Q', search_dir 3 fives = Ret r s' /\ searched fives bufl 3 (inl 0) r s' A' Q' /\ d_ino s' = 1285.
Proof.
  assert (look fives 3 (seqZ 0 (entries fives 3)) 0 = inl 0 /\ entry_ino fives 3 0 = 1285) as [El Ei]
    by (vm_compute; split; reflexivity).
  assert (inodes booted 3 = zinode) as Ez by (vm_compute; reflexivity).
  assert (inodes fives 3 = zinode <| i_mode := IFDIR |> <| i_size := 48 |> <| i_addr @ 0 := 5 |>) as Ef
    by (rewrite <- Ez; exact (set_inode booted 3 _ _)).
  destruct (search_dir_finds fives bufl bqueues 3) as (r&s'&A'&Q'&E&Hs).
  - apply resting_booted. rewrite Ez. reflexivity.
  - split; rewrite Ef; [vm_compute; split; discriminate|]. intros bn Hbn Hlt. change (512 * bn < 48) in Hlt.
    assert (bn = 0) as -> by lia. exists 5. split; [|lia]. unfold file_block. rewrite Ef. reflexivity.
  - unfold entries. rewrite Ef. vm_compute. reflexivity.
  - rewrite El in Hs. exists r, s', A', Q'. split; [exact E|]. split; [exact Hs|].
    destruct (se_found _ _ _ _ _ _ _ _ Hs) as (_&[Hl _]&_). by rewrite Hl.
Defined.
End Lookup.
