(* ===== verification/Itake.v ===== *)
(** * Itake: taking and giving back inodes

    What [iget] and [iput] do when no one holds the inode: the entry of the
    table that is for it, or a free entry filled from the disk, is locked and
    has one more reference; [iput] puts the table back as it was. *)
From Stdlib Require Import FunctionalExtensionality.
From S2P Require Import Prelude Kmonad Kernel Bio Quiet Ahead Alloc Inode Itab Rdwri Readi.
Import Bio Quiet Ahead Alloc Inode Itab Rdwri Readi.

Module Itake.

(** ** Inodes, in core or on disk *)

(** The inode that the disk has. *)
Definition disk_inode (C : Z -> mem) (dev ino : Z) : inode :=
  let m := C (itod ino) in let o := 64 * itoo ino in
  MkInode 0 0 dev ino (rd_u16 m o) (rd_s16 m (o + 2)) (rd_s16 m (o + 4)) (rd_s16 m (o + 6)) (rd_s32 m (o + 8)) (fun i => get_addr o i m) 0.

(** The inode as the system sees it: the table's if it is there. *)
Definition the_inode (s : kst) (dev ino : Z) : inode :=
  match iget_hit s dev ino with Some ip => inodes s ip | None => disk_inode (content s dev) dev ino end.

(** The fields that the disk keeps are the same. *)
Record alike (r r' : inode) : Prop := {
  al_dev : i_dev r' = i_dev r; al_number : i_number r' = i_number r; al_mode : i_mode r' = i_mode r; al_nlink : i_nlink r' = i_nlink r;
  al_uid : i_uid r' = i_uid r; al_gid : i_gid r' = i_gid r; al_size : i_size r' = i_size r;
  al_addr : forall a, 0 <= a < NADDR -> i_addr r' a = i_addr r a
}.
Lemma alike_refl r : alike r r.
Proof. done. Qed.
Lemma alike_trans r1 r2 r3 : alike r1 r2 -> alike r2 r3 -> alike r1 r3.
Proof. intros [] []. split; try congruence. intros a Ha. transitivity (i_addr r2 a); auto. Qed.
Lemma alike_sym r1 r2 : alike r1 r2 -> alike r2 r1.
Proof. intros []. split; try congruence. intros a Ha. symmetry. auto. Qed.

Lemma disk_inode_agree C C' dev ino : agree 0 512 (C' (itod ino)) (C (itod ino)) -> alike (disk_inode C dev ino) (disk_inode C' dev ino).
Proof.
  intros H. assert (0 <= itoo ino < 8) as Ho.
  { unfold itoo. change 7 with (Z.ones 3). rewrite Z.land_ones by lia. apply Z.mod_pos_bound. lia. }
  unfold disk_inode. set (o := 64 * itoo ino).
  assert (forall a n, 0 <= a -> a + n <= 64 -> agree (o + a) n (C' (itod ino)) (C (itod ino))) as Ha
    by (intros a n Ha Hn i Hi; apply H; unfold o in *; lia).
  assert (forall a, 0 <= a -> a + 2 <= 64 -> rd_u16 (C' (itod ino)) (o + a) = rd_u16 (C (itod ino)) (o + a)) as H16
    by (intros a H0 H1; apply rd_u16_agree, Ha; lia).
  assert (rd_u16 (C' (itod ino)) o = rd_u16 (C (itod ino)) o) as H160 by (rewrite <- (Z.add_0_r o); apply H16; lia).
  split; cbn [i_dev i_number i_mode i_nlink i_uid i_gid i_size i_addr]; try done; unfold rd_s16, rd_s32; rewrite ?H16 by lia; try done.
  - f_equal. apply rd_u32_agree, Ha; lia.
  - intros a Hna. unfold NADDR in Hna. unfold get_addr.
    rewrite !H; [done|unfold o; lia..].
Qed.

(** ** The table *)

(** No entry in use is locked, awaited or covered by a mount. *)
Definition no_locks (s : kst) : Prop := forall i, 0 <= i < NINODE -> i_count (inodes s i) <> 0 ->
  has (i_flag (inodes s i)) ILOCK = false /\ has (i_flag (inodes s i)) IMOUNT = false /\ has (i_flag (inodes s i)) IWANT = false.

(** The entries in use are the same. *)
Record same_table (s s' : kst) : Prop := {
  st_used : forall i, 0 <= i < NINODE -> i_count (inodes s i) <> 0 -> inodes s' i = inodes s i;
  st_free : forall i, 0 <= i < NINODE -> i_count (inodes s i) = 0 -> i_count (inodes s' i) = 0 /\ i_number (inodes s' i) = 0
}.

(** From [s] on, the entry [ip] has been taken for an inode. *)
Record taken (s : kst) (dev ino ip : Z) (s' : kst) : Prop := {
  tk_ip : 0 <= ip < NINODE;
  tk_used : forall i, 0 <= i < NINODE -> i <> ip -> i_count (inodes s i) <> 0 -> inodes s' i = inodes s i;
  tk_free : forall i, 0 <= i < NINODE -> i <> ip -> i_count (inodes s i) = 0 -> i_count (inodes s' i) = 0 /\ i_number (inodes s' i) = 0;
  tk_inode : alike (the_inode s dev ino) (inodes s' ip);
  tk_entry : match iget_hit s dev ino with
    | Some ip' => ip' = ip /\ inodes s' ip = (inodes s ip) <| i_count ::= fun c => c + 1 |> <| i_flag ::= fun f => setf f ILOCK |>
    | None => i_count (inodes s ip) = 0 /\ i_count (inodes s' ip) = 1 /\ i_flag (inodes s' ip) = ILOCK
    end
}.

Lemma hit_used s dev ino ip : itab s -> ino <> 0 -> iget_hit s dev ino = Some ip ->
  0 <= ip < NINODE /\ i_number (inodes s ip) = ino /\ i_dev (inodes s ip) = dev /\ i_count (inodes s ip) <> 0.
Proof.
  intros [_ H2 _] Hino E. pose proof (iget_hit_spec s dev ino) as H. rewrite E in H. destruct H as (Hip&Hn&Hd).
  split; [done|split; [done|split; [done|]]]. intros Hc. specialize (H2 ip Hip Hc). congruence.
Qed.

Lemma find_ext {B} (p q : B -> bool) l : (forall x, x ∈ l -> p x = q x) -> List.find p l = List.find q l.
Proof.
  induction l as [|x l IH]; intros H; [done|]. cbn. rewrite H by (by left). destruct (q x); [done|]. apply IH. intros y Hy. apply H. by right.
Qed.
(** The search for an inode gives the same. *)
Lemma same_hit s s' dev ino : itab s -> ino <> 0 -> same_table s s' -> iget_hit s' dev ino = iget_hit s dev ino.
Proof.
  intros Hs Hino [H1 H2]. unfold iget_hit. apply find_ext. intros i Hi%upto_range.
  destruct (decide (i_count (inodes s i) = 0)) as [Hc|Hc]; [|by rewrite H1].
  destruct (H2 i Hi Hc) as [_ ->]. rewrite (it_free _ Hs i Hi Hc). by rewrite (proj2 (Z.eqb_neq _ _) Hino).
Qed.

Lemma seti_seti ip f g s : seti ip f (seti ip g s) = seti ip (fun r => f (g r)) s.
Proof. unfold seti, update_with. cbn. by rewrite fn_eq, fn_twice. Qed.

Section code.
  Context `{DV : Devices} `{FL : Fuel} `{SD : !SyncDriver} `{WD : !WholeDriver}.

(** No process is in the middle of anything on the device. *)
Record quiet_fs (s : kst) (A : list bptr) (Q : bptr -> list bptr) (dev : Z) : Prop := {
  q_cache : cache s A Q;
  q_two : (2 <= length A)%nat;
  q_dev : usable dev;
  q_idle : forall blk, unheld s A dev blk;
  q_whole : no_resid s;
  q_bytes : forall blk, bytes_in 0 512 (content s dev blk);
  q_itab : itab s;
  q_locks : no_locks s;
  q_crowd : uncrowded s
}.

(** Only the table and the cache have changed. *)
Definition tabled (s s' : kst) : kst := s <| inodes := inodes s' |>.

Lemma iget_found_ok s A Q dev ino ip : quiet_fs s A Q dev -> ino <> 0 -> iget_hit s dev ino = Some ip ->
  exists s', iget dev ino s = Ret (Some ip) s' /\ taken s dev ino ip s' /\ s' = tabled s s'.
Proof.
  intros [_ _ _ _ _ _ Hit Hl Hu] Hino Hh. destruct (hit_used s dev ino ip Hit Hino Hh) as (Hip&Hn&Hd&Hc).
  destruct (Hl ip Hip Hc) as (L1&L2&L3). pose proof enough_fuel as Hf. unfold iget. destruct fuel as [|n]; [lia|].
  set (s' := seti ip (fun r => r <| i_flag ::= fun f => setf f ILOCK |>) (seti ip (fun r => r <| i_count ::= fun c => u8 (c + 1) |>) s)).
  assert (inodes s' ip = (inodes s ip) <| i_count ::= fun c => c + 1 |> <| i_flag ::= fun f => setf f ILOCK |>) as Es.
  { unfold s'. rewrite !seti_inodes, !decide_True by done. cbn -[u8]. pose proof (it_count _ Hit ip Hip). specialize (Hu ip Hip).
    unfold update_with. cbn -[u8]. by rewrite u8_id by lia. }
  exists s'. split; [|split; [|by destruct s]].
  - apply k_iter_inr. krun. rewrite Hh. unfold iget_found. krun. by rewrite L1, L2.
  - split; [done| | | |].
    + intros i Hi Hne _. unfold s'. rewrite !seti_inodes. by rewrite !decide_False by done.
    + intros i Hi Hne Hz. unfold s'. rewrite !seti_inodes, !decide_False by done. split; [done|]. by apply (it_free _ Hit).
    + unfold the_inode. rewrite Hh, Es. done.
    + rewrite Hh. done.
Qed.

Lemma iget_load_ok s A Q dev ino ip : quiet_fs s A Q dev -> iget_hit s dev ino = None -> iget_free s = Some ip ->
  exists s' A' Q', iget dev ino s = Ret (Some ip) s' /\ taken s dev ino ip s' /\ reread (tabled s s') A s' A' Q' /\ no_resid s'.
Proof.
  intros [Hc HA Us Hun Hr Hb Hit Hl Hu] Hh Hfr. destruct (iget_free_spec s ip Hfr) as [Hip H0].
  pose proof enough_fuel as Hf. unfold iget. destruct fuel as [|n]; [lia|].
  set (g := fun r : inode => r <| i_dev := dev |> <| i_number := ino |> <| i_flag := ILOCK |> <| i_count ::= fun c => u8 (c + 1) |> <| i_lastr := 0 |>).
  set (s1 := seti ip g s).
  assert (cache s1 A Q) as Hc1 by (by eapply cache_bufs). pose proof Us as [Us1 Us2 Us3].
  destruct (bread_spec s1 A Q dev (itod ino)) as (b&s2&A2&Q2&E2&G2&_&D2);
    [done|destruct A; [cbn in HA; lia|done]|done|done|done|exact (Hun (itod ino))|].
  assert (no_resid s2) as Hr2 by (eapply (whole_ret _ s1); [apply bread_quiet|exact Hr|exact E2]).
  set (m := b_data (bufs s2 b)) in *. set (o := 64 * itoo ino).
  destruct (iexpand_ok ip o m s2) as (s3&E3&Ei3&Ea3&Eo3&Er3).
  assert (bufs s3 = bufs s2 /\ disk s3 = disk s2) as [Eb3 Ed3] by (rewrite <- Er3; done).
  assert (s3 = tabled s2 s3) as Et3 by (unfold tabled; rewrite <- Er3; by destruct s3).
  pose proof (g_others _ _ _ _ _ _ _ _ G2) as Ho2.
  assert (granted (tabled s s3) A dev (itod ino) b s3 A2 Q2) as G3.
  { eapply granted_frame; [exact G2|done|done|done|done|]. rewrite Et3. unfold others in Ho2 |- *. cbn in *. injection Ho2. intros. congruence. }
  destruct (granted_brelse _ _ _ _ _ _ _ _ G3) as (s4&A4&E4&R4&Ho4).
  assert (inodes s4 = inodes s3) as Ei4 by (unfold others in Ho4; by injection Ho4 as ->).
  assert (inodes s2 = inodes s1) as Ei2 by (unfold others in Ho2; by injection Ho2 as ->).
  exists s4, A4, Q2. split; [|split; [|split]].
  - apply k_iter_inr. krun. rewrite Hh, Hfr. assert (iget_load ip dev ino s = Ret (Some ip) s4) as El; [|by rewrite (bind_ret _ _ _ _ _ El)].
    unfold iget_load. krun. rewrite !seti_seti. fold g. fold s1.
    rewrite (bind_ret _ _ _ _ _ E2). krun. destruct (ca_flags _ _ _ (g_cache _ _ _ _ _ _ _ _ G2) b (g_isbuf _ _ _ _ _ _ _ _ G2)) as [_ ->]. krun.
    fold m o. by rewrite (bind_ret _ _ _ _ _ E3), (bind_ret _ _ _ _ _ E4).
  - assert (forall i, i <> ip -> inodes s4 i = inodes s i) as Eo.
    { intros i Hi. rewrite Ei4, Eo3, Ei2 by done. unfold s1. by rewrite seti_inodes, decide_False. }
    assert (alike (disk_inode (content s dev) dev ino) (inodes s4 ip) /\ i_count (inodes s4 ip) = 1 /\ i_flag (inodes s4 ip) = ILOCK) as (Hal&Hcnt&Hflg).
    { rewrite Ei4, Ei3, Ei2. unfold s1. rewrite seti_inodes, decide_True by done. split; [|split; [|done]].
      - eapply alike_trans; [apply (disk_inode_agree _ (fun _ => m)); exact D2|]. by split.
      - cbn. by rewrite H0. }
    split; [done| | | |].
    + intros i Hi Hne _. by apply Eo.
    + intros i Hi Hne Hz. rewrite Eo by done. split; [done|]. by apply (it_free _ Hit).
    + unfold the_inode. by rewrite Hh.
    + by rewrite Hh.
  - replace (tabled s s4) with (tabled s s3) by (unfold tabled; by rewrite Ei4). exact R4.
  - eapply whole_ret; [apply brelse_quiet| |exact E4]. intros x. rewrite Eb3. apply Hr2.
Qed.
(** [iget], with the inode in the table or a free entry for it. *)
Lemma iget_ok s A Q dev ino : quiet_fs s A Q dev -> ino <> 0 -> iget_hit s dev ino <> None \/ iget_free s <> None ->
  exists ip s' A' Q', iget dev ino s = Ret (Some ip) s' /\ taken s dev ino ip s' /\ reread (tabled s s') A s' A' Q' /\ no_resid s'.
Proof.
  intros HQ Hino Hs. destruct (iget_hit s dev ino) as [ip|] eqn:Eh.
  - destruct (iget_found_ok s A Q dev ino ip HQ Hino Eh) as (s'&E&T&Es). exists ip, s', A, Q. split; [done|]. split; [done|].
    pose proof HQ as [H1 _ _ _ H5 _ _ _ _]. split.
    + rewrite <- Es. apply reread_refl. rewrite Es. by eapply cache_bufs.
    + rewrite Es. exact H5.
  - destruct (iget_free s) as [ip|] eqn:Ef; [|by destruct Hs].
    exists ip. by eapply iget_load_ok.
Qed.

Lemma clr_set f m : has f m = false -> clrf (setf f m) m = f.
Proof.
  intros H. unfold has in H. apply negb_false_iff, Z.eqb_eq in H. unfold clrf, setf. apply Z.bits_inj'. intros n Hn.
  rewrite Z.land_spec, Z.lor_spec, Z.lnot_spec by lia. assert (Z.testbit f n && Z.testbit m n = false) as Hb.
  { by rewrite <- Z.land_spec, H, Z.bits_0. }
  destruct (Z.testbit f n), (Z.testbit m n); done.
Qed.

(** [prele] of an entry nobody waits for. *)
Lemma prele_quiet ip s : has (i_flag (inodes s ip)) IWANT = false ->
  prele ip s = Ret tt (seti ip (fun r => r <| i_flag ::= fun f => clrf f ILOCK |>) s).
Proof.
  intros H. unfold prele. krun. set (s1 := seti ip _ s).
  assert (has (i_flag (inodes s1 ip)) IWANT = false) as ->; [|done].
  unfold s1. rewrite seti_inodes, decide_True by done. cbn. by rewrite has_clrf_other.
Qed.

(** [iput] undoes [iget]. *)
Lemma iput_ok s A Q dev ino ip s1 : quiet_fs s A Q dev -> ino <> 0 -> taken s dev ino ip s1 -> 0 < i_nlink (the_inode s dev ino) ->
  exists s2, iput ip s1 = Ret tt s2 /\ same_table s s2 /\ s2 = tabled s1 s2.
Proof.
  intros [_ _ _ _ _ _ Hit Hl Hu] Hino T Hn. pose proof T as [Hip Ho Hfr Hal He]. destruct (iget_hit s dev ino) as [ip'|] eqn:Eh.
  - destruct He as [-> Ei]. destruct (hit_used s dev ino ip Hit Hino Eh) as (_&Hnum&Hd&Hc).
    destruct (Hl ip Hip Hc) as (L1&_&L3). pose proof (it_count _ Hit ip Hip) as Hcr.
    assert (i_count (inodes s1 ip) = i_count (inodes s ip) + 1) as Ec by by rewrite Ei.
    unfold iput. krun. replace (i_count (inodes s1 ip) =? 1) with false by lia. rewrite k_when_false by done. krun.
    set (s2 := seti ip _ s1). assert (inodes s2 ip = (inodes s ip) <| i_flag ::= fun f => setf f ILOCK |>) as E2.
    { unfold s2. rewrite seti_inodes, decide_True, Ei by done. destruct (inodes s ip). unfold update_with. cbn in Ec |- *.
      f_equal. rewrite u8_id; cbn in *; lia. }
    rewrite prele_quiet by (rewrite E2; cbn; by rewrite has_setf, L3).
    eexists. split; [reflexivity|]. split; [|by destruct s1]. split.
    + intros i Hi Hci. rewrite seti_inodes. destruct (decide (ip = i)) as [<-|Hne].
      * rewrite E2. destruct (inodes s ip). unfold update_with. cbn in *. by rewrite clr_set.
      * unfold s2. rewrite seti_inodes, decide_False by done. by apply Ho.
    + intros i Hi Hci. assert (ip <> i) as Hne by (intros ->; done). rewrite seti_inodes, decide_False by done.
      unfold s2. rewrite seti_inodes, decide_False by done. by apply Hfr.
  - destruct He as (H0&H1&Hflg). unfold iput. krun. rewrite H1. cbn [Z.eqb Pos.eqb].
    assert (0 < i_nlink (inodes s1 ip)) as Hn1 by (by rewrite (al_nlink _ _ Hal)).
    set (s2 := seti ip (fun r => r <| i_flag ::= fun f => setf f ILOCK |>) s1).
    set (s3 := seti ip (fun r => r <| i_number := 0 |>) (seti ip (fun r => r <| i_flag := 0 |>) (seti ip (fun r => r <| i_flag ::= fun f => clrf f ILOCK |>) s2))).
    assert (inodes s2 ip = inodes s1 ip) as E2.
    { unfold s2. rewrite seti_inodes, decide_True by done. destruct (inodes s1 ip). unfold update_with. cbn in *. by subst. }
    match goal with |- context [when true ?m] => assert (m s1 = Ret tt s3) as Em end.
    { krun. fold s2. rewrite E2. replace (i_nlink (inodes s1 ip) <=? 0) with false by lia. rewrite k_when_false by done.
      rewrite (bind_ret _ _ _ tt s2) by (unfold iupdat; krun; rewrite E2, Hflg; done).
      rewrite (bind_ret _ _ _ _ _ (prele_quiet ip s2 ltac:(by rewrite E2, Hflg))). done. }
    rewrite k_when_true by done. rewrite (bind_ret _ _ _ _ _ Em). krun.
    assert (inodes s3 ip = (inodes s1 ip) <| i_flag := 0 |> <| i_number := 0 |>) as E3.
    { unfold s3. rewrite !seti_seti, seti_inodes, decide_True, E2 by done. done. }
    rewrite prele_quiet by (rewrite seti_inodes, decide_True, E3 by done; done).
    eexists. split; [reflexivity|]. split; [|by destruct s1]. split.
    + intros i Hi Hci. assert (ip <> i) as Hne by (intros ->; done). unfold s3, s2. rewrite !seti_inodes, !decide_False by done. by apply Ho.
    + intros i Hi Hci. destruct (decide (ip = i)) as [<-|Hne].
      * rewrite seti_seti, seti_inodes, decide_True, E3 by done. cbn. by rewrite H1.
      * unfold s3, s2. rewrite !seti_inodes, !decide_False by done. by apply Hfr.
Qed.
End code.
End Itake.
