(* ===== verification/Path.v ===== *)
(** * Path: what a path name leads to

    The meaning of a path as a walk through directories, each a list of entries
    ([resolve]), and the proof that [namei] takes it: it returns the inode at the
    end of the path, or fails where the walk does. *)
From Stdlib Require Import FunctionalExtensionality.
From S2P Require Import Prelude Kmonad Kernel Bio Quiet Ahead Alloc Inode Itab Rdwri Readi Itake Fio Nami Lookup.
Import Bio Quiet Ahead Alloc Inode Itab Rdwri Readi Itake Fio Nami Lookup.

Module Path.

(** ** Names *)

(** The parts of a path between slashes. *)
Fixpoint words_from (cur l : list Z) : list (list Z) :=
  match l with
  | [] => match cur with [] => [] | _ => [rev cur] end
  | c :: l => if c =? slash then match cur with [] => words_from [] l | _ => rev cur :: words_from [] l end
              else words_from (c :: cur) l
  end.
Definition words (l : list Z) : list (list Z) := words_from [] l.

Definition word (w : list Z) : Prop := w <> [] /\ Forall (fun c => 0 < c < 256 /\ c <> slash) w.
Definition slashes (n : nat) : list Z := replicate n slash.

Lemma words_from_word w cur l : Forall (fun c => c <> slash) w -> words_from cur (w ++ l) = words_from (rev w ++ cur) l.
Proof.
  revert cur. induction w as [|c w IH]; intros cur Hw; [done|]. apply Forall_cons in Hw as [Hc Hw]. cbn [app words_from rev].
  rewrite (proj2 (Z.eqb_neq _ _) Hc), IH by done. by rewrite <- app_assoc.
Qed.
Lemma words_slashes n l : words (slashes n ++ l) = words l.
Proof. induction n as [|n IH]; [done|]. unfold words in *. cbn. exact IH. Qed.
(** The first part, and what comes after it. *)
Lemma words_cons w l : word w -> (l = [] \/ hd 0 l = slash) -> words (w ++ l) = w :: words l.
Proof.
  intros [Hne Hw] Hl. unfold words. rewrite words_from_word, app_nil_r by (eapply Forall_impl; [exact Hw|]; tauto).
  assert (rev w <> []) as Hr by (intros E; apply Hne; rewrite <- (rev_involutive w), E; done).
  destruct l as [|c l]; cbn [words_from].
  - destruct (rev w) eqn:E; [done|]. by rewrite <- E, rev_involutive.
  - destruct Hl as [?|Hc]; [done|]. cbn in Hc. subst c. rewrite Z.eqb_refl. destruct (rev w) eqn:E; [done|].
    rewrite <- E, rev_involutive. cbn. done.
Qed.
(** Every path is slashes, then nothing or a part and the rest. *)
Lemma path_split l : Forall (fun c => 0 < c < 256) l ->
  exists n, l = slashes n \/ exists w l', l = slashes n ++ w ++ l' /\ word w /\ (l' = [] \/ hd 0 l' = slash).
Proof.
  induction l as [|c l IH]; intros Hl; [by exists 0%nat; left|]. apply Forall_cons in Hl as [Hc Hl]. destruct (IH Hl) as (n&H).
  destruct (decide (c = slash)) as [->|Hs].
  - exists (S n). destruct H as [->|(w&l'&->&H)]; [by left|]. right. exists w, l'. done.
  - exists 0%nat. right. destruct n as [|n].
    + destruct H as [->|(w&l'&->&[Hne Hw]&Hl')].
      * exists [c], []. split; [done|]. split; [|by left]. split; [done|]. by apply Forall_singleton.
      * exists (c :: w), l'. split; [done|]. split; [|done]. split; [done|]. by constructor.
    + exists [c], l. destruct H as [->|(w&l'&->&H)]; (split; [done|]; split; [split; [done|by apply Forall_singleton]|by right]).
Qed.

(** ** Directories *)

Definition rblock (C : Z -> mem) (r : inode) (bn : Z) : option Z :=
  match place bn with Some (a, k, x) => walk C (i_addr r a) (digits k x) | None => None end.
Definition rbyte (C : Z -> mem) (r : inode) (off : Z) : Z :=
  match rblock C r (off / 512) with
  | Some b => if b <? 0 then 0 else C b (off mod 512)
  | None => 0
  end.
Definition dino (C : Z -> mem) (r : inode) (k : Z) : Z := rbyte C r (16 * k) + 256 * rbyte C r (16 * k + 1).
Definition dmatch (C : Z -> mem) (r : inode) (name : Z -> Z) (k : Z) : bool :=
  forallb (fun i => u8 (name i) =? rbyte C r (16 * k + 2 + i)) (upto DIRSIZ).
Fixpoint dlook (C : Z -> mem) (r : inode) (name : Z -> Z) (ks : list Z) (eo : Z) : Z + Z :=
  match ks with
  | [] => inr eo
  | k :: ks =>
      if dino C r k =? 0 then dlook C r name ks (if eo =? 0 then 16 * (k + 1) else eo)
      else if dmatch C r name k then inl k
      else dlook C r name ks eo
  end.
Definition dentries (r : inode) : Z := (i_size r + 15) / 16.

Lemma look_dlook s dp ks eo : look s dp ks eo = dlook (content s (i_dev (inodes s dp))) (inodes s dp) (u_dbuf (u s)) ks eo.
Proof.
  revert eo. induction ks as [|k ks IH]; intros eo; [done|]. cbn [look dlook].
  change (dino _ _ k) with (entry_ino s dp k). change (dmatch _ _ _ k) with (entry_matches s dp k). by rewrite !IH.
Qed.

(** They depend on the blocks, the addresses and the first characters only. *)
Lemma rblock_same C C' r r' bn : (forall b, agree 0 512 (C' b) (C b)) -> alike r r' -> 0 <= bn -> rblock C' r' bn = rblock C r bn.
Proof.
  intros HC Ha Hbn. unfold rblock. destruct (place bn) as [[[a k] x]|] eqn:Ep; [|done].
  destruct (place_range bn a k x Hbn Ep) as (Hr&_). rewrite (al_addr _ _ Ha) by exact Hr.
  apply walk_agree; [done|apply digits_range].
Qed.
Lemma rbyte_same C C' r r' off : (forall b, agree 0 512 (C' b) (C b)) -> alike r r' -> 0 <= off -> rbyte C' r' off = rbyte C r off.
Proof.
  intros HC Ha Ho. unfold rbyte. rewrite (rblock_same C C' r r') by (done || Z.div_mod_to_equations; lia).
  destruct (rblock C r (off / 512)) as [b|]; [|done]. destruct (b <? 0); [done|]. apply HC.
  pose proof (Z.mod_pos_bound off 512). lia.
Qed.
Lemma dino_same C C' r r' k : (forall b, agree 0 512 (C' b) (C b)) -> alike r r' -> 0 <= k -> dino C' r' k = dino C r k.
Proof. intros HC Ha Hk. unfold dino. by rewrite !(rbyte_same C C' r r') by (done || lia). Qed.
Lemma dlook_same C C' r r' name name' ks eo : (forall b, agree 0 512 (C' b) (C b)) -> alike r r' ->
  (forall i, 0 <= i < DIRSIZ -> u8 (name' i) = u8 (name i)) -> Forall (fun k => 0 <= k) ks -> dlook C' r' name' ks eo = dlook C r name ks eo.
Proof.
  intros HC Ha Hname Hks. revert eo. induction Hks as [|k ks Hk _ IH]; intros eo; [done|]. cbn [dlook].
  rewrite (dino_same C C' r r') by done. assert (dmatch C' r' name' k = dmatch C r name k) as ->; [|by rewrite !IH].
  unfold dmatch. apply forallb_same. intros i Hi%upto_range. rewrite Hname by done. by rewrite (rbyte_same C C' r r') by (done || lia).
Qed.

(** ** Walking a path *)

(** The process may search a directory. *)
Definition may_search (us : user) (r : inode) : bool := (u_uid us =? 0) || has (i_mode r) (access_bits us r IEXEC).
Definition is_dir (r : inode) : bool := Z.land (i_mode r) IFMT =? IFDIR.
(** The name of a part, as it is compared with entries. *)
Definition name_of (w : list Z) (i : Z) : Z := nth (Z.to_nat i) w 0.
Definition find_entry (C : Z -> mem) (r : inode) (w : list Z) : option Z :=
  match dlook C r (name_of w) (seqZ 0 (dentries r)) 0 with inl k => Some (dino C r k) | inr _ => None end.

(** One part of a path: the number of the inode it leads to, or the error. *)
Definition step (C : Z -> mem) (us : user) (r : inode) (w : list Z) : Z + Z :=
  if negb (may_search us r) then inr EACCES
  else if negb (is_dir r) then inr ENOTDIR
  else match find_entry C r w with Some ino => inl ino | None => inr ENOENT end.
(** The path from the inode [ino], with the inodes [N] and the blocks [C]. *)
Fixpoint resolve (C : Z -> mem) (N : Z -> inode) (us : user) (ino : Z) (ws : list (list Z)) : Z + Z :=
  match ws with
  | [] => inl ino
  | w :: ws => match step C us (N ino) w with inl ino' => resolve C N us ino' ws | inr e => inr e end
  end.

(** The directories on the way are whole and not too large; no inode on the way
    is about to be removed. *)
Definition solid_dir (C : Z -> mem) (r : inode) : Prop :=
  0 <= i_size r <= MAXFILE /\ forall bn, 0 <= bn -> 512 * bn < i_size r -> exists b, rblock C r bn = Some b /\ 0 <= b.
Fixpoint sound_path (rounds : Z) (C : Z -> mem) (N : Z -> inode) (us : user) (ino : Z) (ws : list (list Z)) : Prop :=
  0 < i_nlink (N ino) /\
  match ws with
  | [] => True
  | w :: ws => may_search us (N ino) = true -> is_dir (N ino) = true ->
      solid_dir C (N ino) /\ dentries (N ino) < rounds /\
      match find_entry C (N ino) w return Prop with Some ino' => sound_path rounds C N us ino' ws | None => True end
  end.
Section code.
  Context `{DV : Devices} `{FL : Fuel} `{SD : !SyncDriver} `{WD : !WholeDriver}.

(** ** The state on the way *)

(** Between [s] and [s'] a path is walked. *)
Definition led (s s' : kst) : kst :=
  s <| inodes := inodes s' |> <| kmem := kmem s' |> <| u := u s' |> <| rablock := rablock s' |>.
Record walking (s : kst) (A : list bptr) (s' : kst) (A' : list bptr) (Q' : bptr -> list bptr) : Prop := {
  wk_rest : reread (led s s') A s' A' Q';
  wk_whole : no_resid s'
}.

Lemma led_others s s1 t : others s1 = others (led s s1) -> others (led s1 t) = others (led s t).
Proof. destruct s, s1. unfold others in *. cbn in *. intros H. injection H. intros. by subst. Qed.
Lemma walking_refl s A Q dev : quiet_fs s A Q dev -> walking s A s A Q.
Proof. intros H. split; [|apply H]. replace (led s s) with s by (by destruct s). apply reread_refl, H. Qed.

(** More of the walk. *)
Lemma walking_step s A s1 A1 Q1 t s2 A2 Q2 : walking s A s1 A1 Q1 -> reread t A1 s2 A2 Q2 -> bufs t = bufs s1 -> disk t = disk s1 ->
  led t s2 = led s1 s2 -> no_resid s2 -> walking s A s2 A2 Q2.
Proof.
  intros [R1 _] R2 Eb Ed El Hw. split; [|done]. pose proof (rr_others _ _ _ _ _ R1) as Ho1. pose proof (rr_others _ _ _ _ _ R2) as Ho2.
  assert (reread (led s s2) A (led s1 s2) A1 Q1) as R1' by (eapply reread_frame; [exact R1|done..|by apply led_others]).
  eapply reread_trans; [exact R1'|]. eapply reread_frame; [exact R2|done..|]. rewrite <- El.
  revert Ho2. clear. destruct t, s2. unfold others. cbn. intros H. injection H. intros. by subst.
Qed.
Lemma walking_set s A s1 A1 Q1 s2 : walking s A s1 A1 Q1 -> led s1 s2 = s2 -> walking s A s2 A1 Q1.
Proof.
  intros H E. assert (bufs s2 = bufs s1) as Eb by (by rewrite <- E).
  eapply (walking_step _ _ _ _ _ s2); [exact H| |done|by rewrite <- E|by rewrite E; destruct s2|].
  - apply reread_refl. eapply cache_bufs; [apply (rr_cache _ _ _ _ _ (wk_rest _ _ _ _ _ H))|done|by rewrite <- E].
  - intros x. rewrite Eb. apply (wk_whole _ _ _ _ _ H).
Qed.

Lemma walking_blocks s A s1 A1 Q1 dev : walking s A s1 A1 Q1 -> dev <> NODEV -> forall b, agree 0 512 (content s1 dev b) (content s dev b).
Proof. intros [R _] Hn b. exact (sb_content _ _ (rr_blocks _ _ _ _ _ R) dev b Hn). Qed.
Lemma walking_idle s A s1 A1 Q1 dev blk : walking s A s1 A1 Q1 -> unheld s A dev blk -> unheld s1 A1 dev blk.
Proof. intros [R _] H. by eapply reread_unheld; [exact R|]. Qed.
Lemma walking_two s A s1 A1 Q1 : walking s A s1 A1 Q1 -> (2 <= length A)%nat -> (2 <= length A1)%nat.
Proof. intros [R _]. by rewrite (rr_avail _ _ _ _ _ R). Qed.
Lemma walking_mounts s A s1 A1 Q1 : walking s A s1 A1 Q1 -> mounts s1 = mounts s /\ umem s1 = umem s.
Proof. intros [R _]. pose proof (rr_others _ _ _ _ _ R) as Ho. unfold others in Ho. cbn in Ho. injection Ho. intros. by subst. Qed.
Lemma walking_bytes s A s1 A1 Q1 dev blk : walking s A s1 A1 Q1 -> dev <> NODEV -> bytes_in 0 512 (content s dev blk) -> bytes_in 0 512 (content s1 dev blk).
Proof. intros H Hn Hb i Hi. rewrite (walking_blocks _ _ _ _ _ _ H Hn) by done. by apply Hb. Qed.

(** With the table as it was, nothing has happened. *)
Lemma walking_quiet s A Q dev s1 A1 Q1 : quiet_fs s A Q dev -> walking s A s1 A1 Q1 -> same_table s s1 -> quiet_fs s1 A1 Q1 dev.
Proof.
  intros [H1 H2 H3 H4 H5 H6 H7 H8 H9] W [T1 T2]. split.
  - apply W.
  - by eapply walking_two.
  - done.
  - intros blk. by eapply walking_idle.
  - apply W.
  - intros blk. eapply walking_bytes; [exact W|apply H3|apply H6].
  - split.
    + intros i j Hi Hj Hn Hd He. assert (i_count (inodes s i) <> 0) as Hci by (intros Hz; apply Hn, T2; done).
      assert (i_count (inodes s j) <> 0) as Hcj by (intros Hz; apply Hn; rewrite He; apply T2; done).
      rewrite !T1 in * by done. by apply (it_one _ H7).
    + intros i Hi Hz. destruct (decide (i_count (inodes s i) = 0)) as [Hc|Hc]; [by apply T2|]. rewrite T1 in * by done. done.
    + intros i Hi. destruct (decide (i_count (inodes s i) = 0)) as [Hc|Hc]; [destruct (T2 i Hi Hc); lia|].
      rewrite T1 by done. by apply (it_count _ H7).
  - intros i Hi Hc. destruct (decide (i_count (inodes s i) = 0)) as [Hz|Hz]; [by destruct (T2 i Hi Hz)|]. rewrite T1 by done. by apply H8.
  - intros i Hi. destruct (decide (i_count (inodes s i) = 0)) as [Hz|Hz]; [destruct (T2 i Hi Hz); lia|]. rewrite T1 by done. by apply H9.
Qed.

(** With a directory taken, it can be searched. *)
Lemma walking_resting s A Q dev dp s1 A1 Q1 : quiet_fs s A Q dev -> walking s A s1 A1 Q1 -> i_dev (inodes s1 dp) = dev -> resting s1 A1 Q1 dp.
Proof.
  intros [H1 H2 H3 H4 H5 H6 H7 H8 H9] W Ed. split; rewrite ?Ed; [apply W|by eapply walking_two|done| |apply W|].
  - intros blk. by eapply walking_idle.
  - intros blk. eapply walking_bytes; [exact W|apply H3|apply H6].
Qed.

(** The inodes are the same for one who comes later. *)
Lemma the_inode_same s A Q dev s1 A1 Q1 ino : quiet_fs s A Q dev -> walking s A s1 A1 Q1 -> same_table s s1 -> ino <> 0 ->
  alike (the_inode s dev ino) (the_inode s1 dev ino).
Proof.
  intros H W T Hino. unfold the_inode. rewrite (same_hit s s1) by (done || apply H). destruct (iget_hit s dev ino) as [ip|] eqn:E.
  - destruct (hit_used s dev ino ip (q_itab _ _ _ _ H) Hino E) as (Hip&_&_&Hc). by rewrite (st_used _ _ T).
  - apply disk_inode_agree. eapply walking_blocks; [exact W|apply H].
Qed.
Lemma taken_same s A Q dev s1 A1 Q1 ino ip s2 : quiet_fs s A Q dev -> walking s A s1 A1 Q1 -> same_table s s1 -> ino <> 0 ->
  taken s1 dev ino ip s2 -> taken s dev ino ip s2.
Proof.
  intros H W T Hino [K1 K2 K3 K4 K5]. pose proof (same_hit s s1 dev ino (q_itab _ _ _ _ H) Hino T) as Eh. pose proof T as [T1 T2]. split; [done| | | |].
  - intros i Hi Hne Hc. rewrite K2; [by apply T1|done|done|by rewrite T1].
  - intros i Hi Hne Hc. destruct (T2 i Hi Hc). by apply K3.
  - eapply alike_trans; [by eapply the_inode_same|exact K4].
  - rewrite Eh in K5. destruct (iget_hit s dev ino) as [ip'|] eqn:E.
    + destruct K5 as [-> K5]. split; [done|]. destruct (hit_used s dev ino ip (q_itab _ _ _ _ H) Hino E) as (Hip&_&_&Hc). by rewrite T1 in K5.
    + destruct K5 as (Kz&K6). split; [|done]. destruct (decide (i_count (inodes s ip) = 0)) as [|Hc]; [done|]. by rewrite T1 in Kz.
Qed.
Lemma free_same s s1 : same_table s s1 -> iget_free s <> None -> iget_free s1 <> None.
Proof.
  intros [_ T2] Hf Hn. destruct (iget_free s) as [ip|] eqn:E; [|done]. apply iget_free_spec in E as [Hip Hc].
  apply upto_range, list_elem_of_In in Hip as Hin. pose proof (List.find_none _ _ Hn ip Hin) as H. destruct (T2 ip (proj1 (upto_range _ _) Hip) Hc). cbv beta in H; lia.
Qed.

(** ** The steps of the walk *)

(** What the walk does to the user structure, apart from the error. *)
Definition relay (us us' : user) : user :=
  us' <| u_dirp := u_dirp us |> <| u_dbuf := u_dbuf us |> <| u_offset := u_offset us |> <| u_segflg := u_segflg us |>
    <| u_error := u_error us |>.
Definition leaves (us us' : user) : Prop := relay us us' = us.
Lemma leaves_refl us : leaves us us.
Proof. by destruct us. Qed.
Lemma relay_relay us us1 us2 : relay us (relay us1 us2) = relay us us2.
Proof. done. Qed.
Lemma leaves_trans us us1 us2 : leaves us us1 -> leaves us1 us2 -> leaves us us2.
Proof. unfold leaves. intros H1 H2. rewrite <- H2, relay_relay in H1. exact H1. Qed.
Lemma leaves_same us us1 : leaves us us1 -> u_uid us1 = u_uid us /\ u_gid us1 = u_gid us.
Proof. unfold leaves. intros H. rewrite <- H. done. Qed.

Lemma may_search_same us us1 r r1 : leaves us us1 -> alike r r1 -> may_search us1 r1 = may_search us r.
Proof.
  intros Hl Ha. destruct (leaves_same _ _ Hl) as [Eu Eg]. unfold may_search, access_bits.
  by rewrite Eu, Eg, (al_mode _ _ Ha), (al_uid _ _ Ha), (al_gid _ _ Ha).
Qed.

Lemma access_exec ip s : access ip IEXEC s =
  Ret (negb (may_search (u s) (inodes s ip))) (if may_search (u s) (inodes s ip) then s else setu (fun r => r <| u_error := u8 EACCES |>) s).
Proof.
  unfold access. change (IEXEC =? IWRITE) with false. cbv iota. krun. unfold may_search. destruct (u_uid (u s) =? 0); [done|].
  cbn [orb]. krun. by destruct (has _ _).
Qed.

(** An inode is given back. *)
Lemma put_ok s A Q dev ino ip s1 A1 Q1 : quiet_fs s A Q dev -> walking s A s1 A1 Q1 -> taken s dev ino ip s1 -> ino <> 0 ->
  0 < i_nlink (the_inode s dev ino) ->
  exists s2, iput ip s1 = Ret tt s2 /\ same_table s s2 /\ walking s A s2 A1 Q1 /\ u s2 = u s1 /\ kmem s2 = kmem s1.
Proof.
  intros HQ W T Hino Hn. destruct (iput_ok s A Q dev ino ip s1 HQ Hino T Hn) as (s2&E&Ht&Es). exists s2. split; [done|]. split; [done|].
  split; [|by rewrite Es]. eapply walking_set; [exact W|]. rewrite Es. by destruct s1.
Qed.
(** An inode is taken. *)
Lemma get_ok s A Q dev ino s1 A1 Q1 : quiet_fs s A Q dev -> walking s A s1 A1 Q1 -> same_table s s1 -> ino <> 0 ->
  iget_hit s dev ino <> None \/ iget_free s <> None ->
  exists ip s2 A2 Q2, iget dev ino s1 = Ret (Some ip) s2 /\ taken s dev ino ip s2 /\ walking s A s2 A2 Q2 /\ u s2 = u s1.
Proof.
  intros HQ W T Hino Hf. pose proof (walking_quiet s A Q dev s1 A1 Q1 HQ W T) as HQ1.
  destruct (iget_ok s1 A1 Q1 dev ino HQ1 Hino) as (ip&s2&A2&Q2&E&Tk&R&Hw).
  { rewrite (same_hit s s1) by (done || apply HQ). destruct Hf as [Hf|Hf]; [by left|right]. by eapply free_same. }
  exists ip, s2, A2, Q2. split; [done|]. split; [|split].
  - by eapply (taken_same s A Q dev s1).
  - eapply (walking_step s A s1 A1 Q1 (tabled s1 s2)); [exact W|exact R|done|done|done|done].
  - pose proof (rr_others _ _ _ _ _ R) as Ho. unfold others in Ho. cbn in Ho. injection Ho. intros. congruence.
Qed.

Lemma dlook_found C r name ks eo k : dlook C r name ks eo = inl k -> k ∈ ks /\ dino C r k <> 0.
Proof.
  revert eo. induction ks as [|j ks IH]; intros eo H; [done|]. cbn [dlook] in H. destruct (Z.eqb_spec (dino C r j) 0).
  - apply IH in H as [??]. split; [by right|done].
  - destruct (dmatch C r name j); [injection H as ->; split; [by left|done]|]. apply IH in H as [??]. split; [by right|done].
Qed.
Lemma find_entry_ino C r w ino : find_entry C r w = Some ino -> ino <> 0.
Proof. unfold find_entry. destruct (dlook _ _ _ _ _) eqn:E; [|done]. intros [= <-]. by apply dlook_found in E as [_ ?]. Qed.

(** A directory is searched. *)
Lemma find_ok s A Q dev ino dp w s1 A1 Q1 : quiet_fs s A Q dev -> walking s A s1 A1 Q1 -> taken s dev ino dp s1 -> i_dev (the_inode s dev ino) = dev ->
  (forall i, 0 <= i < DIRSIZ -> u8 (u_dbuf (u s1) i) = u8 (name_of w i)) ->
  let C := content s dev in let r := the_inode s dev ino in
  solid_dir C r -> dentries r < Z.of_nat fuel ->
  exists s2 A2 Q2 f, search_dir dp s1 = Ret f s2 /\ walking s A s2 A2 Q2 /\ inodes s2 = inodes s1 /\
    leaves (u s1) (u s2) /\ u_error (u s2) = u_error (u s1) /\ u_dirp (u s2) = u_dirp (u s1) /\
    match find_entry C r w with
    | Some ino' => f = Found /\ d_ino s2 = ino'
    | None => exists eo, f = NoEntry eo
    end.
Proof.
  intros HQ W T Hd Hname C r [Hsz Hsol] Hent. pose proof (tk_inode _ _ _ _ _ T) as Hal. fold r in Hal.
  assert (i_dev (inodes s1 dp) = dev) as Ed by (by rewrite (al_dev _ _ Hal)).
  pose proof (walking_resting s A Q dev dp s1 A1 Q1 HQ W Ed) as R.
  pose proof (walking_blocks s A s1 A1 Q1 dev W (us_dev _ (q_dev _ _ _ _ HQ))) as Hblk.
  assert (entries s1 dp = dentries r) as Een by (unfold entries, dentries; by rewrite (al_size _ _ Hal)).
  assert (solid s1 dp) as Hs1.
  { split; rewrite (al_size _ _ Hal); [done|]. intros bn Hbn Hlt. destruct (Hsol bn Hbn Hlt) as (b&Eb&H0). exists b. split; [|done].
    change (file_block s1 dp bn) with (rblock (content s1 (i_dev (inodes s1 dp))) (inodes s1 dp) bn). rewrite Ed.
    by rewrite (rblock_same C _ r). }
  destruct (search_dir_finds s1 A1 Q1 dp R Hs1) as (f&s2&A2&Q2&E&[Sf Sr Sw]); [by rewrite Een|].
  rewrite look_dlook, Ed, Een in Sf.
  rewrite (dlook_same C (content s1 dev) r (inodes s1 dp) (name_of w) (u_dbuf (u s1))) in Sf;
    [|done|done|exact Hname|apply Forall_seqZ; lia].
  destruct (reread_walked_same _ _ _ _ _ Sr) as [_ Ei].
  exists s2, A2, Q2, f. split; [done|]. split; [|split; [done|]].
  { eapply (walking_step s A s1 A1 Q1 (walked s1 s2)); [exact W|exact Sr|done..|exact Sw]. }
  unfold find_entry. destruct (dlook C r (name_of w) (seqZ 0 (dentries r)) 0) as [k|eo] eqn:El.
  - destruct Sf as (->&[Hi _]&Eu). rewrite Eu. split; [by destruct (u s1)|]. split; [done|]. split; [done|]. split; [done|].
    rewrite Hi. apply dlook_found in El as [Hk _]. apply elem_of_seqZ in Hk.
    change (dino (content s1 (i_dev (inodes s1 dp))) (inodes s1 dp) k = dino C r k). rewrite Ed. apply dino_same; [done|done|lia].
  - destruct Sf as (->&Eu). rewrite Eu. split; [by destruct (u s1)|]. split; [done|]. split; [done|]. by exists eo.
Qed.

Lemma the_inode_ids s dev ino : itab s -> ino <> 0 -> i_dev (the_inode s dev ino) = dev /\ i_number (the_inode s dev ino) = ino.
Proof.
  intros Hs Hino. unfold the_inode. destruct (iget_hit s dev ino) as [ip|] eqn:E; [|done].
  by destruct (hit_used s dev ino ip Hs Hino E) as (_&?&?&_).
Qed.

(** No other file system is mounted in this one's root's place. *)
Definition no_mounts (s : kst) (dev : Z) : Prop :=
  forall i, 1 <= i < NMOUNT -> m_bufp (mounts s i) = None \/ m_dev (mounts s i) <> dev.
Lemma up_mount_none s dp : no_mounts s (i_dev (inodes s dp)) -> up_mount s dp = None.
Proof.
  intros H. unfold up_mount. destruct (_ && _ && _); [|done]. destruct (List.find _ _) as [i|] eqn:E; [|done].
  apply List.find_some in E as [Hi Hb]. apply list_elem_of_In, upto_range in Hi.
  apply andb_true_iff in Hb as [[H1 Hb]%andb_true_iff Hd]. apply bool_decide_eq_true in Hb as [x Hb].
  destruct (H i ltac:(lia)); [congruence|lia].
Qed.

(** The end of a walk that fails. *)
Lemma fail_ok s A Q dev ino dp s1 A1 Q1 : quiet_fs s A Q dev -> walking s A s1 A1 Q1 -> taken s dev ino dp s1 -> ino <> 0 ->
  0 < i_nlink (the_inode s dev ino) ->
  exists s2, (r ← fail dp; mret (Done r)) s1 = Ret (Done None) s2 /\ same_table s s2 /\ walking s A s2 A1 Q1 /\ u s2 = u s1.
Proof.
  intros HQ W T Hino Hn. destruct (put_ok s A Q dev ino dp s1 A1 Q1 HQ W T Hino Hn) as (s2&E&Ht&W2&Eu&_).
  exists s2. split; [|done]. unfold fail. rewrite k_bind_bind, (bind_ret _ _ _ _ _ E). done.
Qed.
Lemma taken_inodes s dev ino dp s1 s2 : taken s dev ino dp s1 -> inodes s2 = inodes s1 -> taken s dev ino dp s2.
Proof. intros [K1 K2 K3 K4 K5] E. split; rewrite ?E; done. Qed.

(** One part of the path. *)
Lemma component_ok s A Q dev ino dp c w s1 A1 Q1 : quiet_fs s A Q dev -> walking s A s1 A1 Q1 -> taken s dev ino dp s1 -> ino <> 0 ->
  no_mounts s dev -> iget_free s <> None -> (forall i, 0 <= i < DIRSIZ -> u8 (u_dbuf (u s1) i) = u8 (name_of w i)) ->
  leaves (u s) (u s1) -> u_error (u s1) = 0 -> 0 < i_nlink (the_inode s dev ino) ->
  let C := content s dev in let r := the_inode s dev ino in
  (may_search (u s) r = true -> is_dir r = true -> solid_dir C r /\ dentries r < Z.of_nat fuel) ->
  exists n s2 A2 Q2, component 0 c dp s1 = Ret n s2 /\ walking s A s2 A2 Q2 /\ leaves (u s1) (u s2) /\ u_dirp (u s2) = u_dirp (u s1) /\
    match step C (u s) r w with
    | inr e => n = Done None /\ same_table s s2 /\ u_error (u s2) = e
    | inl ino' => exists ip', n = Into ip' /\ taken s dev ino' ip' s2 /\ u_error (u s2) = 0
    end.
Proof.
  intros HQ W T Hino Hm Hfree Hname Hl He Hn C r Hs. destruct (the_inode_ids s dev ino (q_itab _ _ _ _ HQ) Hino) as [Hd _].
  pose proof (tk_inode _ _ _ _ _ T) as Hal. fold r in Hal, Hd, Hn.
  unfold component. krun. rewrite (al_mode _ _ Hal). fold (is_dir r).
  set (s2 := if is_dir r then s1 else setu (fun r => r <| u_error := u8 ENOTDIR |>) s1).
  rewrite (bind_ret _ _ s1 tt s2) by (unfold s2; by destruct (is_dir r)).
  assert (inodes s2 = inodes s1) as Ei2 by (unfold s2; by destruct (is_dir r)).
  assert (leaves (u s1) (u s2)) as Hl2 by (unfold s2; destruct (is_dir r); [apply leaves_refl|by destruct (u s1) eqn:Ex; cbn; rewrite Ex]).
  rewrite (bind_ret _ _ _ _ _ (access_exec dp s2)). rewrite Ei2.
  rewrite (may_search_same (u s) (u s2) r) by (done || by eapply leaves_trans).
  set (s3 := if may_search (u s) r then s2 else setu (fun r => r <| u_error := u8 EACCES |>) s2).
  assert (inodes s3 = inodes s1 /\ bufs s3 = bufs s1 /\ led s1 s3 = s3 /\ u_dirp (u s3) = u_dirp (u s1)) as (Ei3&Eb3&Es3&Edp3)
    by (unfold s3, s2; destruct (may_search (u s) r), (is_dir r); by destruct s1).
  assert (leaves (u s1) (u s3)) as Hl3.
  { unfold s3. destruct (may_search (u s) r); [done|]. eapply leaves_trans; [exact Hl2|]. by destruct (u s2) eqn:Ex; cbn; rewrite Ex. }
  pose proof (walking_set s A s1 A1 Q1 s3 W Es3) as W3. pose proof (taken_inodes s dev ino dp s1 s3 T Ei3) as T3. krun.
  assert (u_error (u s3) = if may_search (u s) r then if is_dir r then 0 else ENOTDIR else EACCES) as Ee3.
  { unfold s3, s2. destruct (may_search (u s) r), (is_dir r); done. }
  unfold step. destruct (may_search (u s) r); cbn [negb]; [destruct (is_dir r); cbn [negb]|]; rewrite Ee3.
  2,3: (destruct (fail_ok s A Q dev ino dp s3 A1 Q1 HQ W3 T3 Hino Hn) as (s4&E4&Ht4&W4&Eu4);
    exists (Done None), s4, A1, Q1; split; [exact E4|]; split; [done|]; rewrite Eu4; split; [done|]; split; [done|];
    split; [done|]; split; [done|]; exact Ee3).
  cbn [Z.eqb negb]. destruct (Hs eq_refl eq_refl) as [Hsd Hent].
  destruct (find_ok s A Q dev ino dp w s3 A1 Q1 HQ W3 T3 Hd) as (s4&A4&Q4&f&E4&W4&Ei4&Hl4&He4&Edp4&Hf);
    [|done|done|].
  { intros i Hi. rewrite <- Hname by done. unfold s3, s2. by destruct (may_search (u s) r), (is_dir r). }
  rewrite (bind_ret _ _ _ _ _ E4). fold r C in Hf.
  assert (taken s dev ino dp s4) as T4 by (eapply taken_inodes; [exact T3|done]).
  assert (leaves (u s1) (u s4)) as Hl4' by (eapply leaves_trans; [exact Hl3|exact Hl4]).
  destruct (find_entry C r w) as [ino'|] eqn:Ef.
  - destruct Hf as [-> Edi]. cbn [Z.eqb andb]. krun.
    assert (i_dev (inodes s4 dp) = dev) as Ed4 by (by rewrite (al_dev _ _ (tk_inode _ _ _ _ _ T4))).
    rewrite up_mount_none, Ed4 by (rewrite Ed4; intros i Hi; destruct (walking_mounts _ _ _ _ _ W4) as [-> _]; by apply Hm).
    destruct (put_ok s A Q dev ino dp s4 A4 Q4 HQ W4 T4 Hino Hn) as (s5&E5&Ht5&W5&Eu5&Ek5).
    rewrite (bind_ret _ _ _ _ _ E5). krun. assert (d_ino s5 = ino') as -> by (unfold d_ino in *; by rewrite Ek5).
    destruct (get_ok s A Q dev ino' s5 A4 Q4 HQ W5 Ht5) as (ip'&s6&A6&Q6&E6&T6&W6&Eu6); [by eapply find_entry_ino|by right|].
    rewrite (bind_ret _ _ _ _ _ E6). exists (Into ip'), s6, A6, Q6. rewrite Eu6, Eu5. split; [done|]. split; [done|]. split; [done|].
    split; [congruence|]. exists ip'. split; [done|]. split; [done|]. by rewrite He4, Ee3.
  - destruct Hf as [eo ->]. cbn [Z.eqb andb]. krun. set (s5 := setu _ s4).
    assert (inodes s5 = inodes s4) as Ei5 by done.
    assert (walking s A s5 A4 Q4) as W5 by (eapply walking_set; [exact W4|by destruct s4]).
    destruct (fail_ok s A Q dev ino dp s5 A4 Q4 HQ W5) as (s6&E6&Ht6&W6&Eu6); [by eapply taken_inodes|done|done|].
    exists (Done None), s6, A4, Q4. split; [exact E6|]. split; [done|]. rewrite Eu6. split.
    { eapply leaves_trans; [exact Hl4'|]. unfold s5. by destruct (u s4) eqn:Ex; cbn; rewrite Ex. }
    split; [unfold s5; cbn; congruence|]. done.
Qed.

(** ** The characters of the path *)

(** The string [l] is at [a] in the user's memory. *)
Definition string_at (m : mem) (a : Z) (l : list Z) : Prop :=
  0 <= a /\ a + Z.of_nat (length l) < 4294967295 /\ Forall (fun c => 0 < c < 256) l /\
  forall i, 0 <= i <= Z.of_nat (length l) -> m (a + i) = nth (Z.to_nat i) l 0.

(** [c] has been read, and is the first character of [l], or the end of the string. *)
Definition reading (s : kst) (c : Z) (l : list Z) : Prop :=
  c = hd 0 l /\ (l <> [] -> string_at (umem s) (u_dirp (u s)) (tail l)).

Lemma string_tail m a c l : string_at m a (c :: l) -> m a = c /\ 0 < c < 256 /\ string_at m (a + 1) l.
Proof.
  intros (Ha&Hb&Hc&Hm). apply Forall_cons in Hc as [Hc Hl]. cbn [length] in *. split; [|split; [done|]].
  - rewrite <- (Z.add_0_r a). rewrite Hm by lia. done.
  - split; [lia|]. split; [lia|]. split; [done|]. intros i Hi. replace (a + 1 + i) with (a + (i + 1)) by lia.
    rewrite Hm by lia. by replace (Z.to_nat (i + 1)) with (S (Z.to_nat i)) by lia.
Qed.

(** [uchar] reads on. *)
Definition next_char (s : kst) : kst := setu (fun r => r <| u_dirp := u32 (u_dirp (u s) + 1) |>) s.
Lemma uchar_ok s l : string_at (umem s) (u_dirp (u s)) l -> uchar s = Ret (hd 0 l) (next_char s) /\ reading (next_char s) (hd 0 l) l.
Proof.
  intros H. pose proof H as (Ha&Hb&Hc&Hm). unfold uchar, fubyte. krun. fold (next_char s). change (umem (next_char s)) with (umem s).
  assert (umem s (u_dirp (u s)) = hd 0 l) as Em.
  { rewrite <- (Z.add_0_r (u_dirp (u s))), Hm by lia. by destruct l. }
  assert (0 <= hd 0 l < 256) as Hr by (destruct l as [|c l]; cbn; [lia|apply Forall_cons in Hc as [Hc _]; lia]).
  rewrite Em, u8_id by done. replace (hd 0 l =? -1) with false by lia. split; [done|]. split; [done|].
  intros Hne. destruct l as [|c l]; [done|]. cbn [tail]. change (umem (next_char s)) with (umem s).
  change (u_dirp (u (next_char s))) with (u32 (u_dirp (u s) + 1)). cbn [length] in Hb. rewrite u32_id by lia. by apply string_tail in H as (_&_&?).
Qed.
Lemma reading_next s c d l : reading s c (d :: l) -> uchar s = Ret (hd 0 l) (next_char s) /\ reading (next_char s) (hd 0 l) l.
Proof. intros [_ H]. apply uchar_ok, H. done. Qed.

Lemma next_char_led s : led s (next_char s) = next_char s.
Proof. by destruct s. Qed.
Lemma next_char_leaves s : leaves (u s) (u (next_char s)).
Proof. by destruct (u s) eqn:E; unfold next_char; cbn; rewrite E. Qed.

(** What reading characters changes. *)
Record read_on (s s' : kst) : Prop := {
  ro_led : led s s' = s';
  ro_inodes : inodes s' = inodes s;
  ro_leaves : leaves (u s) (u s');
  ro_error : u_error (u s') = u_error (u s)
}.
Lemma read_on_refl s : read_on s s.
Proof. split; [by destruct s|done|apply leaves_refl|done]. Qed.
Lemma read_on_trans s s1 s2 : read_on s s1 -> read_on s1 s2 -> read_on s s2.
Proof.
  intros [H1 H2 H3 H4] [G1 G2 G3 G4]. split; [|congruence|by eapply leaves_trans|congruence].
  rewrite <- G1 at 2. by rewrite <- H1.
Qed.
Lemma read_on_next s : read_on s (next_char s).
Proof. split; [apply next_char_led|done|apply next_char_leaves|done]. Qed.

(** Slashes are skipped. *)
Lemma skip_ok n l s : reading s (hd 0 (slashes n ++ l)) (slashes n ++ l) -> hd 0 l <> slash -> forall f, (n < f)%nat ->
  exists s', iter f (fun c => if c =? slash then c ← uchar; mret (inl c) else mret (inr c)) (hd 0 (slashes n ++ l)) s = Ret (hd 0 l) s' /\
    reading s' (hd 0 l) l /\ read_on s s' /\ u_dbuf (u s') = u_dbuf (u s).
Proof.
  revert s. induction n as [|n IH]; intros s Hr Hl f Hf; (destruct f as [|f]; [lia|]).
  - exists s. cbn [slashes replicate app] in *. split; [|split; [done|split; [apply read_on_refl|done]]]. apply k_iter_inr.
    by rewrite (proj2 (Z.eqb_neq _ _) Hl).
  - change (slashes (S n) ++ l) with (slash :: slashes n ++ l) in *. cbn [hd]. destruct (reading_next _ _ _ _ Hr) as [E Hr1].
    destruct (IH (next_char s) Hr1 Hl f) as (s'&E'&Hr'&Ho&Hd); [lia|]. exists s'. split; [|split; [done|split; [|done]]].
    + erewrite k_iter_inl; [exact E'|]. rewrite Z.eqb_refl, (bind_ret _ _ _ _ _ E). done.
    + eapply read_on_trans; [apply read_on_next|done].
Qed.
Lemma skip_slashes_ok n l s c : reading s c (slashes n ++ l) -> hd 0 l <> slash -> (n < fuel)%nat ->
  exists s', skip_slashes uchar c s = Ret (hd 0 l) s' /\ reading s' (hd 0 l) l /\ read_on s s' /\ u_dbuf (u s') = u_dbuf (u s).
Proof. intros Hr Hl Hf. pose proof Hr as [-> _]. by apply skip_ok. Qed.

(** A part of the path is gathered. *)
Definition gather_round (x : Z * Z) : M (Z * Z + Z * Z) :=
  let '(c, cp) := x in
  us ← getu;
  if negb (c =? slash) && negb (c =? 0) && (u_error us =? 0) then
    when (cp <? DIRSIZ) (modu (fun r => r <| u_dbuf ::= fun m => wr_8 m cp c |>));;
    let cp := if cp <? DIRSIZ then cp + 1 else cp in
    c ← uchar;
    mret (inl (c, cp))
  else mret (inr (c, cp)).

Lemma gather_loop l w2 : forall w1 s f, reading s (hd 0 (w2 ++ l)) (w2 ++ l) -> Forall (fun c => 0 < c < 256 /\ c <> slash) w2 ->
  hd 0 l = slash \/ l = [] -> u_error (u s) = 0 -> (length w2 < f)%nat ->
  (forall i, 0 <= i < Z.min 14 (Z.of_nat (length w1)) -> u_dbuf (u s) i = name_of (w1 ++ w2) i) ->
  exists s' cp, iter f gather_round (hd 0 (w2 ++ l), Z.min 14 (Z.of_nat (length w1))) s = Ret (hd 0 l, cp) s' /\
    cp = Z.min 14 (Z.of_nat (length (w1 ++ w2))) /\ reading s' (hd 0 l) l /\ read_on s s' /\
    forall i, 0 <= i < cp -> u_dbuf (u s') i = name_of (w1 ++ w2) i.
Proof.
  induction w2 as [|c w2 IH]; intros w1 s f Hr Hw Hl He Hf Hd; (destruct f as [|f]; [cbn in Hf; lia|]).
  - exists s, (Z.min 14 (Z.of_nat (length w1))). rewrite app_nil_r in *. cbn [app] in *. split; [|split; [done|split; [done|split; [apply read_on_refl|done]]]].
    apply k_iter_inr. unfold gather_round. krun. replace (negb (hd 0 l =? slash) && negb (hd 0 l =? 0)) with false; [done|].
    destruct Hl as [->| ->]; done.
  - apply Forall_cons in Hw as [[Hc Hcs] Hw]. cbn [app hd length] in *. set (cp := Z.min 14 (Z.of_nat (length w1))) in *.
    set (s1 := if cp <? DIRSIZ then setu (fun r => r <| u_dbuf ::= fun m => wr_8 m cp c |>) s else s).
    assert (reading s1 c (c :: w2 ++ l)) as Hr1 by (unfold s1; by destruct (cp <? DIRSIZ)).
    assert (read_on s s1) as Ho1.
    { unfold s1. destruct (cp <? DIRSIZ); [|apply read_on_refl]. split; [by destruct s|done| |done]. by destruct (u s) eqn:Ex; cbn; rewrite Ex. }
    destruct (reading_next _ _ _ _ Hr1) as [E1 Hr2]. set (s2 := next_char s1) in *.
    assert (Z.min 14 (Z.of_nat (length (w1 ++ [c]))) = if cp <? DIRSIZ then cp + 1 else cp) as Ecp.
    { rewrite length_app. cbn [length]. unfold DIRSIZ. destruct (Z.ltb_spec cp 14); lia. }
    assert (read_on s s2) as Ho2 by (eapply read_on_trans; [exact Ho1|apply read_on_next]).
    destruct (IH (w1 ++ [c]) s2 f Hr2 Hw Hl) as (s'&cp'&E'&Ec'&Hr'&Ho'&Hd').
    + rewrite (ro_error _ _ Ho2). done.
    + lia.
    + rewrite Ecp, <- app_assoc. cbn [app]. intros i Hi. change (u_dbuf (u s2) i) with (u_dbuf (u s1) i). unfold s1.
      destruct (cp <? DIRSIZ) eqn:Elt; [|by apply Hd]. unfold setu. cbn. destruct (decide (i = cp)) as [->|Hne].
      * rewrite wr_8_eq, u8_id by lia. unfold name_of, DIRSIZ in *. rewrite app_nth2 by lia.
        replace (Z.to_nat cp - length w1)%nat with 0%nat by lia. done.
      * rewrite wr_8_ne by done. apply Hd. lia.
    + rewrite <- app_assoc in Ec', Hd'. cbn [app] in Ec', Hd'. exists s', cp'. split; [|split; [done|split; [done|split; [by eapply read_on_trans|done]]]].
      erewrite k_iter_inl; [exact E'|]. unfold gather_round. krun. rewrite (proj2 (Z.eqb_neq _ _) Hcs), He.
      replace (c =? 0) with false by lia. cbn [negb andb Z.eqb]. rewrite (bind_ret _ _ s tt s1) by (unfold s1; by destruct (cp <? DIRSIZ)). rewrite Ecp. by rewrite (bind_ret _ _ _ _ _ E1).
Qed.

Lemma gather_ok w l s c : reading s c (w ++ l) -> word w -> hd 0 l = slash \/ l = [] -> u_error (u s) = 0 -> (length w < fuel)%nat ->
  exists s', gather uchar c s = Ret (hd 0 l) s' /\ reading s' (hd 0 l) l /\ read_on s s' /\
    forall i, 0 <= i < DIRSIZ -> u8 (u_dbuf (u s') i) = u8 (name_of w i).
Proof.
  intros Hr [_ Hw] Hl He Hf. pose proof Hr as [-> _].
  destruct (gather_loop l w [] s fuel Hr Hw Hl He Hf) as (s1&cp&E&Ec&Hr1&Ho&Hd); [cbn; lia|]. cbn [app length] in *.
  change (Z.min 14 (Z.of_nat 0)) with 0 in E. unfold gather. change (iter fuel _ (hd 0 (w ++ l), 0)) with (iter fuel gather_round (hd 0 (w ++ l), 0)).
  rewrite (bind_ret _ _ _ _ _ E). krun. eexists. split; [reflexivity|]. split; [done|]. split.
  - eapply read_on_trans; [exact Ho|]. split; [by destruct s1|done| |done]. by destruct (u s1) eqn:Ex; cbn; rewrite Ex.
  - intros i Hi. unfold setu. cbn. unfold mfill, DIRSIZ in *. case_bool_decide as Hb.
    + unfold name_of. rewrite nth_overflow by lia. done.
    + by rewrite Hd by lia.
Qed.

(** ** The whole path *)

Lemma path_next l : Forall (fun c => 0 < c < 256) l -> l <> [] -> hd 0 l <> slash ->
  exists w n l', l = w ++ slashes n ++ l' /\ word w /\ hd 0 l' <> slash /\ (hd 0 (slashes n ++ l') = slash \/ slashes n ++ l' = []) /\
    words l = w :: words l'.
Proof.
  intros Hl Hne Hs. destruct (path_split l Hl) as ([|n]&[El|(w&l1&El&Hw&Hl1)]); [done| |subst l; done|subst l; done].
  cbn [slashes replicate app] in El. subst l. assert (words (w ++ l1) = w :: words l1) as Ew by by apply words_cons.
  apply Forall_app in Hl as [_ Hl]. destruct (path_split l1 Hl) as (n&[E1|(w2&l2&E1&[Hne2 Hw2]&_)]).
  - exists w, n, []. rewrite app_nil_r, <- E1. split; [done|]. split; [done|]. split; [done|]. split; [tauto|].
    rewrite Ew, E1. by rewrite <- (app_nil_r (slashes n)), words_slashes.
  - exists w, n, (w2 ++ l2). rewrite <- E1. split; [done|]. split; [done|]. split; [|split; [tauto|]].
    + destruct w2 as [|c w2]; [done|]. apply Forall_cons in Hw2 as [[_ ?] _]. done.
    + by rewrite Ew, E1, words_slashes.
Qed.

Definition namei_round (flag : Z) (x : Z * Z) : M (Z * Z + option Z) :=
  let '(dp, c) := x in
  us ← getu;
  if negb (u_error us =? 0) then r ← fail dp; mret (inr r)
  else if c =? 0 then mret (inr (Some dp))
  else
    c ← gather uchar c;
    c ← skip_slashes uchar c;
    n ← iter fuel (fun dp =>
      n ← component flag c dp;
      mret (match n with Again dp => inl dp | _ => inr n end)) dp;
    mret (match n with Into dp => inl (dp, c) | Done r => inr r | Again dp => inr None end).

(** Where the path has led. *)
Definition arrived (s : kst) (dev : Z) (r : Z + Z) (res : option Z) (s' : kst) : Prop :=
  match r with
  | inl ino => exists ip, res = Some ip /\ taken s dev ino ip s' /\ u_error (u s') = 0
  | inr e => res = None /\ same_table s s' /\ u_error (u s') = e
  end.

Lemma sound_head n C N us ino ws : sound_path n C N us ino ws -> 0 < i_nlink (N ino).
Proof. destruct ws; intros [H _]; exact H. Qed.

Lemma path_loop s A Q dev : quiet_fs s A Q dev -> no_mounts s dev -> iget_free s <> None ->
  forall (m : nat) l ino dp c s1 A1 Q1 f, (length l <= m)%nat -> walking s A s1 A1 Q1 -> taken s dev ino dp s1 -> ino <> 0 ->
  Forall (fun c => 0 < c < 256) l -> reading s1 c l -> hd 0 l <> slash -> leaves (u s) (u s1) -> u_error (u s1) = 0 ->
  sound_path (Z.of_nat fuel) (content s dev) (the_inode s dev) (u s) ino (words l) -> (length l < fuel)%nat -> (m < f)%nat ->
  exists res s2 A2 Q2, iter f (namei_round 0) (dp, c) s1 = Ret res s2 /\ walking s A s2 A2 Q2 /\ leaves (u s) (u s2) /\
    arrived s dev (resolve (content s dev) (the_inode s dev) (u s) ino (words l)) res s2.
Proof.
  intros HQ Hm Hfree. induction m as [|m IH]; intros l ino dp c s1 A1 Q1 f Hlm W T Hino Hl Hr Hs Hlv He Hsp Hlf Hf;
    (destruct f as [|f]; [lia|]); (destruct (decide (l = [])) as [->|Hne]).
  1,3: (exists (Some dp), s1, A1, Q1; split; [|split; [done|split; [done|by exists dp]]]; apply k_iter_inr; unfold namei_round; krun;
    rewrite He; pose proof Hr as [-> _]; done).
  { destruct l; [done|cbn in Hlm; lia]. }
  destruct (path_next l Hl Hne Hs) as (w&n&l'&El&Hw&Hs'&Hsl&Ew). rewrite El in Hr, Hl, Hlm, Hlf. rewrite Ew in Hsp |- *.
  rewrite !length_app in Hlm, Hlf. rewrite !Forall_app in Hl. destruct Hl as (Hlw&_&Hl').
  assert (length (slashes n) = n) as Esl by apply length_replicate. rewrite Esl in *.
  assert (length w <> 0%nat) as Hw0 by (destruct Hw as [Hw0 _]; by destruct w).
  destruct (gather_ok w (slashes n ++ l') s1 c Hr Hw Hsl He) as (s2&E2&Hr2&Ho2&Hname2); [lia|].
  destruct (skip_slashes_ok n l' s2 _ Hr2 Hs') as (s3&E3&Hr3&Ho3&Hd3); [lia|].
  assert (read_on s1 s3) as Ho13 by (by eapply read_on_trans). pose proof Ho13 as [Hled Hin Hlv13 He13].
  assert (walking s A s3 A1 Q1) as W3 by (eapply walking_set; done).
  pose proof (taken_inodes _ _ _ _ _ s3 T Hin) as T3.
  assert (leaves (u s) (u s3)) as Hlv3 by (by eapply leaves_trans).
  pose proof (sound_head _ _ _ _ _ _ Hsp) as Hn. cbn [sound_path] in Hsp. destruct Hsp as [_ Hsp].
  destruct (component_ok s A Q dev ino dp (hd 0 l') w s3 A1 Q1 HQ W3 T3 Hino Hm Hfree) as (nx&s4&A4&Q4&E4&W4&Hlv4&Edp4&Hst);
    [by rewrite Hd3|done|by rewrite He13|done|intros H1 H2; destruct (Hsp H1 H2) as (?&?&_); done|].
  assert (leaves (u s) (u s4)) as Hlv4' by (by eapply leaves_trans).
  assert (forall nx', nx = nx' -> (forall d, nx' <> Again d) -> namei_round 0 (dp, c) s1 =
    Ret (match nx' with Into dp => inl (dp, hd 0 l') | Done r => inr r | Again dp => inr None end) s4) as Eround.
  { intros nx' <- Hna. unfold namei_round. krun. rewrite He. cbn [Z.eqb negb]. pose proof Hr as [Ec _].
    replace (c =? 0) with false.
    2: { rewrite Ec. destruct w as [|c0 w]; [done|]. apply Forall_cons in Hlw as [Hc0 _]. cbn. lia. }
    rewrite (bind_ret _ _ _ _ _ E2), (bind_ret _ _ _ _ _ E3).
    destruct fuel as [|f'] eqn:Efu; [lia|]. rewrite (bind_ret _ _ _ nx s4); [done|].
    apply k_iter_inr. rewrite (bind_ret _ _ _ _ _ E4). destruct nx; try done. by destruct (Hna dp0). }
  cbn [resolve]. unfold arrived. destruct (step (content s dev) (u s) (the_inode s dev ino) w) as [ino'|e] eqn:Est.
  - destruct Hst as (ip'&->&T4&He4). unfold step in Est.
    destruct (may_search (u s) (the_inode s dev ino)) eqn:Ems; [|done]. destruct (is_dir (the_inode s dev ino)) eqn:Eid; [|done]. cbn [negb] in Est.
    destruct (Hsp eq_refl eq_refl) as (_&_&Hsp'). destruct (find_entry _ _ w) as [ino2|] eqn:Efe; [|done]. injection Est as ->.
    assert (reading s4 (hd 0 l') l') as Hr4.
    { destruct Hr3 as [_ Hr3]. split; [done|]. intros Hn'. rewrite Edp4. destruct (walking_mounts _ _ _ _ _ W4) as [_ ->].
      destruct (walking_mounts _ _ _ _ _ W3) as [_ <-]. by apply Hr3. }
    destruct (IH l' ino' ip' (hd 0 l') s4 A4 Q4 f) as (res&s5&A5&Q5&E5&W5&Hlv5&Har);
      [lia|done|done|by eapply find_entry_ino|done|done|done|done|done|done|lia|lia|].
    exists res, s5, A5, Q5. split; [|split; [done|split; [done|exact Har]]].
    by erewrite k_iter_inl by (apply (Eround (Into ip')); done).
  - destruct Hst as (->&Ht&He4). exists None, s4, A4, Q4. split; [|done].
    by erewrite k_iter_inr by (apply (Eround (Done None)); done).
Qed.

Lemma hit_is s dp : itab s -> 0 <= dp < NINODE -> i_number (inodes s dp) <> 0 ->
  iget_hit s (i_dev (inodes s dp)) (i_number (inodes s dp)) = Some dp.
Proof.
  intros Hs Hdp Hn. unfold iget_hit. apply find_upto. split; [done|]. split; [by rewrite !Z.eqb_refl|].
  intros j Hj. destruct (_ && _) eqn:E; [|done]. apply andb_true_iff in E as [E1%Z.eqb_eq E2%Z.eqb_eq].
  assert (dp = j) as ->; [|lia]. by apply (it_one _ Hs dp j); [|lia|..].
Qed.

(** Where a path starts. *)
Definition start (s : kst) (l : list Z) : Z := if hd 0 l =? slash then default (rootdir s) (u_rdir (u s)) else u_cdir (u s).

(** The conditions of a walk: the path [l] is in the user's memory, the directory
    it starts from is in use, nobody is in the middle of anything on its device,
    which is not covered by others, and the table of inodes is not full. *)
Record path_ready (s : kst) (A : list bptr) (Q : bptr -> list bptr) (l : list Z) : Prop := {
  pr_string : string_at (umem s) (u_dirp (u s)) l;
  pr_length : (length l < fuel)%nat;
  pr_start : 0 <= start s l < NINODE /\ i_number (inodes s (start s l)) <> 0;
  pr_fs : quiet_fs s A Q (i_dev (inodes s (start s l)));
  pr_mounts : no_mounts s (i_dev (inodes s (start s l)));
  pr_free : iget_free s <> None;
  pr_error : u_error (u s) = 0
}.

(** The part of [namei] before its loop. *)
Lemma namei_start s A Q l : path_ready s A Q l -> let dp := start s l in
  exists l' s' A' Q', words l' = words l /\ (length l' <= length l)%nat /\ hd 0 l' <> slash /\ Forall (fun c => 0 < c < 256) l' /\
    namei uchar 0 s = iter fuel (namei_round 0) (dp, hd 0 l') s' /\
    walking s A s' A' Q' /\ taken s (i_dev (inodes s dp)) (i_number (inodes s dp)) dp s' /\ reading s' (hd 0 l') l' /\
    leaves (u s) (u s') /\ u_error (u s') = 0.
Proof.
  intros [Hstr Hlen [Hdp Hnum] HQ Hm Hfree He] dp. fold dp in Hdp, Hnum, HQ, Hm. set (dev := i_dev (inodes s dp)) in *. set (ino := i_number (inodes s dp)) in *.
  destruct (uchar_ok s l Hstr) as [E1 Hr1]. set (s1 := next_char s) in *. pose proof (read_on_next s) as Ho1. fold s1 in Ho1.
  pose proof (walking_refl s A Q dev HQ) as W0.
  assert (walking s A s1 A Q) as W1 by (eapply walking_set; [exact W0|apply Ho1]).
  assert (iget_hit s dev ino = Some dp) as Hh by (by apply hit_is; [apply HQ|..]).
  destruct (get_ok s A Q dev ino s1 A Q HQ W1) as (ip&s2&A2&Q2&E2&T2&W2&Eu2).
  { split; intros i Hi Hc; rewrite (ro_inodes _ _ Ho1); [done|]. split; [done|]. by apply (it_free _ (q_itab _ _ _ _ HQ)). }
  { done. }
  { left. by rewrite Hh. }
  assert (ip = dp) as ->. { pose proof (tk_entry _ _ _ _ _ T2) as H. rewrite Hh in H. by destruct H. }
  assert (reading s2 (hd 0 l) l) as Hr2.
  { destruct Hr1 as [_ Hr1]. split; [done|]. intros Hne. destruct (walking_mounts _ _ _ _ _ W2) as [_ ->]. rewrite Eu2.
    by apply Hr1. }
  assert (Forall (fun c => 0 < c < 256) l) as Hl by apply Hstr.
  assert (exists n l', l = slashes n ++ l' /\ hd 0 l' <> slash) as (n&l'&El&Hs).
  { destruct (path_split l Hl) as (n&[El|(w&l2&El&[Hne Hw]&_)]).
    - exists n, []. by rewrite app_nil_r.
    - exists n, (w ++ l2). split; [done|]. destruct w as [|c w]; [done|]. apply Forall_cons in Hw as [[_ ?] _]. done. }
  assert (length l = n + length l')%nat as Ell by (rewrite El, length_app; unfold slashes; by rewrite length_replicate).
  rewrite El in Hr2 at 2. destruct (skip_slashes_ok n l' s2 _ Hr2 Hs) as (s3&E3&Hr3&Ho3&_); [lia|].
  assert (leaves (u s) (u s3) /\ u_error (u s3) = 0) as [Hlv He3].
  { split; [|rewrite (ro_error _ _ Ho3), Eu2, (ro_error _ _ Ho1); done].
    eapply leaves_trans; [apply Ho1|]. rewrite <- Eu2. apply Ho3. }
  exists l', s3, A2, Q2. split; [by rewrite El, words_slashes|]. split; [lia|]. split; [done|]. split; [by rewrite El, Forall_app in Hl; apply Hl|].
  split; [|split; [eapply walking_set; [exact W2|apply Ho3]|split; [eapply taken_inodes; [exact T2|apply Ho3]|done]]].
  unfold namei. krun. rewrite (bind_ret _ _ _ _ _ E1). krun. fold s1.
  change (rootdir s1) with (rootdir s).
  fold (start s l). fold dp. rewrite (ro_inodes _ _ Ho1). fold dev ino. rewrite (bind_ret _ _ _ _ _ E2), (bind_ret _ _ _ _ _ E3).
  cbn [Z.eqb negb]. rewrite andb_false_r, k_when_false by done. done.
Qed.

Lemma namei_ok s A Q l : path_ready s A Q l ->
  let dp := start s l in let dev := i_dev (inodes s dp) in let ino := i_number (inodes s dp) in
  sound_path (Z.of_nat fuel) (content s dev) (the_inode s dev) (u s) ino (words l) ->
  exists res s' A' Q', namei uchar 0 s = Ret res s' /\ walking s A s' A' Q' /\ leaves (u s) (u s') /\
    arrived s dev (resolve (content s dev) (the_inode s dev) (u s) ino (words l)) res s'.
Proof.
  intros H dp dev ino Hsp. destruct (namei_start s A Q l H) as (l'&s1&A1&Q1&Ew&Hlen&Hs&Hl&E&W&T&Hr&Hlv&He).
  fold dp in E, T. fold dev ino in T. pose proof H as [_ Hlf [_ Hnum] HQ Hm Hfree _]. rewrite <- Ew in Hsp |- *. rewrite E.
  destruct (path_loop s A Q dev HQ Hm Hfree (length l') l' ino dp (hd 0 l') s1 A1 Q1 fuel) as (res&s2&A2&Q2&E2&R2);
    [done..|lia|lia|]. by exists res, s2, A2, Q2.
Qed.

(** ** Properties *)

(** C5: [namei] follows the path.  If the walk through the directories, each a list
    of names and inode numbers in the bytes of its file, leads to an inode,
    [namei] returns its entry in the table, locked and with one reference more, or
    filled from the disk; if it does not, because a part is missing, or is not a
    directory, or may not be searched, [namei] returns nothing, with that error.
    Every other reference taken on the way has been given back, no block has
    changed and no buffer is left held. *)
Theorem namei_resolves s A Q l : path_ready s A Q l ->
  let dp := start s l in let dev := i_dev (inodes s dp) in let ino := i_number (inodes s dp) in
  sound_path (Z.of_nat fuel) (content s dev) (the_inode s dev) (u s) ino (words l) ->
  exists res s' A' Q', namei uchar 0 s = Ret res s' /\ walking s A s' A' Q' /\ leaves (u s) (u s') /\
    arrived s dev (resolve (content s dev) (the_inode s dev) (u s) ino (words l)) res s'.
Proof. apply namei_ok. Qed.
End code.

(** ** A concrete file system *)

#[local] Existing Instances ramdisk rounds ramdisk_sync ramdisk_whole.

(** The root, inode 2, is a directory with one block, 20; inode 3 is a file, which
    the root has under the name [a], with the bytes of [hello] in block 21. *)
Definition root_inode : inode := MkInode 0 1 0 2 (Z.lor IFDIR 0x1ff) 2 0 0 48 (fun i => if i =? 0 then 20 else 0) 0.
Definition file_inode : inode := MkInode 0 0 0 3 (Z.lor IFREG 0x1a4) 1 0 0 5 (fun i => if i =? 0 then 21 else 0) 0.
Definition ilist_block : mem := put_inode 128 file_inode (put_inode 64 root_inode (fun _ => 0)).
Definition root_block : mem :=
  wr_8 (wr_8 (wr_8 (wr_8 (wr_8 (wr_8 (wr_8 (fun _ => 0) 0 2) 2 dot) 16 2) 18 dot) 19 dot) 32 3) 34 97.
Definition hello_block : mem := wr_8 (wr_8 (wr_8 (wr_8 (wr_8 (fun _ => 0) 0 104) 1 101) 2 108) 3 108) 4 111.
Definition small_disk (dev blk : Z) : mem :=
  if blk =? 2 then ilist_block else if blk =? 20 then root_block else if blk =? 21 then hello_block else fun _ => 0.

(** The machine after [binit], with any disk. *)
Definition fresh (d : Z -> Z -> mem) : kst := match binit (blank <| disk := d |>) with Ret _ s => s | _ => blank end.
Lemma fresh_cache d : cache (fresh d) bufl bqueues /\ (forall b, isbuf b -> b_dev (bufs (fresh d) b) = NODEV) /\
  no_resid (fresh d) /\ disk (fresh d) = d.
Proof.
  destruct (binit_spec (blank <| disk := d |>)) as (s'&E&Hc&Hd); [done| |].
  - intros maj ->%Z.eqb_eq. done.
  - assert (fresh d = s') as Es by (unfold fresh; by rewrite E). split; [by rewrite Es|]. split; [by rewrite Es|]. split; [|by vm_compute].
    rewrite Es. exact (binit_whole (blank <| disk := d |>) s' (fun b => eq_refl) E).
Qed.
Lemma fresh_rest d : inodes (fresh d) = (fun _ => zinode) /\ u (fresh d) = zuser /\ mounts (fresh d) = (fun _ => MkMount 0 None None) /\
  rootdir (fresh d) = 0.
Proof. by vm_compute. Qed.

(** A process of the super-user asks for [/a]; the root is in entry 0. *)
Definition asking : kst :=
  setu (fun r => r <| u_dirp := 4096 |>)
    (seti 0 (fun _ => root_inode) ((fresh small_disk) <| umem := wr_8 (wr_8 (fun _ => 0) 4096 slash) 4097 97 |>)).

(** What is known of that state. *)
Lemma asking_fs : inodes asking = <[0 := root_inode]> (fun _ => zinode) /\ u asking = zuser <| u_dirp := 4096 |> /\
  mounts asking = (fun _ => MkMount 0 None None) /\ rootdir asking = 0 /\ disk asking = small_disk /\ bufs asking = bufs (fresh small_disk) /\
  umem asking = wr_8 (wr_8 (fun _ => 0) 4096 slash) 4097 97.
Proof.
  destruct (fresh_rest small_disk) as (Ei&Eu&Em&Er), (fresh_cache small_disk) as (_&_&_&Ek). revert Ei Eu Em Er Ek. unfold asking.
  generalize (fresh small_disk). intros s Ei Eu Em Er Ek. unfold seti, setu, update_with. cbn. rewrite Ei, Eu. done.
Qed.
Lemma asking_content blk : content asking 0 blk = small_disk 0 blk.
Proof.
  destruct (fresh_cache small_disk) as (_&Hd&_), asking_fs as (_&_&_&_&Ek&Eb&_). rewrite content_disk, Ek; [done|].
  intros b Hb. destruct (holds asking 0 blk b) eqn:E; [|done]. apply holds_true in E as (E&_). rewrite Eb, Hd in E by done. discriminate E.
Qed.
Lemma small_bytes blk : bytes_in 0 512 (small_disk 0 blk).
Proof.
  assert (Forall (fun i => 0 <= ilist_block i < 256) (seqZ 0 512) /\ Forall (fun i => 0 <= root_block i < 256) (seqZ 0 512) /\
    Forall (fun i => 0 <= hello_block i < 256) (seqZ 0 512)) as (H1&H2&H3) by (split_and!; apply (bool_decide_unpack _); vm_compute; exact I).
  rewrite !Forall_seqZ in H1, H2, H3. intros i Hi. unfold small_disk. destruct (blk =? 2); [apply H1; lia|].
  destruct (blk =? 20); [apply H2; lia|]. destruct (blk =? 21); [apply H3; lia|lia].
Qed.

(** The table with the root in it. *)
Lemma root_table : consistent (<[0 := root_inode]> (fun _ => zinode)).
Proof.
  split.
  - intros i j _ _. rewrite !fn_case. destruct (decide (0 = i)), (decide (0 = j)); cbn; congruence.
  - intros i _. rewrite fn_case. by destruct (decide (0 = i)).
  - intros i _. rewrite fn_case. destruct (decide (0 = i)); cbn; lia.
Qed.
Lemma root_table_quiet i : let r := (<[0 := root_inode]> (fun _ => zinode)) i in
  (i_count r <> 0 -> has (i_flag r) ILOCK = false /\ has (i_flag r) IMOUNT = false /\ has (i_flag r) IWANT = false) /\ i_count r < 255.
Proof. rewrite fn_case. by destruct (decide (0 = i)). Qed.

Lemma asking_ready : path_ready asking bufl bqueues [slash; 97].
Proof.
  destruct asking_fs as (Ei&Eu&Em&Er&Ek&Eb&Emem). destruct (fresh_cache small_disk) as (Hc&Hd&Hw&Hk).
  assert (start asking [slash; 97] = 0) as Est by (unfold start; rewrite Eu, Er; done).
  assert (inodes asking 0 = root_inode) as E0 by (rewrite Ei; by apply fn_eq).
  assert (forall i, i <> 0 -> inodes asking i = zinode) as En by (intros i Hi; rewrite Ei; by rewrite fn_ne).
  split; rewrite ?Est, ?E0.
  - rewrite Eu, Emem. split; [done|]. split; [done|]. split; [by repeat constructor|]. cbn [length]. intros i Hi.
    assert (i = 0 \/ i = 1 \/ i = 2) as [->|[->| ->]] by lia; by vm_compute.
  - vm_compute. lia.
  - split; [split; [done|by vm_compute]|done].
  - split.
    + eapply cache_bufs; [exact Hc|exact Eb|by rewrite Ek, Hk].
    + vm_compute. lia.
    + apply usable_0.
    + intros blk x Hx E. rewrite Eb, (Hd x Hx) in E. discriminate E.
    + intros x. rewrite Eb. apply Hw.
    + intros blk. rewrite asking_content. apply small_bytes.
    + unfold itab. rewrite Ei. apply root_table.
    + unfold no_locks. rewrite Ei. intros i _. by apply root_table_quiet.
    + unfold uncrowded. rewrite Ei. intros i _. apply root_table_quiet.
  - intros i _. left. by rewrite Em.
  - unfold iget_free. rewrite Ei. by vm_compute.
  - by rewrite Eu.
Qed.

(** The path leads to inode 3. *)
Lemma namei_resolves_witness :
  exists ip s', namei uchar 0 asking = Ret (Some ip) s' /\ i_number (inodes s' ip) = 3 /\ u_error (u s') = 0.
Proof.
  destruct asking_fs as (Ei&Eu&_&Er&_).
  assert (start asking [slash; 97] = 0) as Est by (unfold start; rewrite Eu, Er; done).
  assert (inodes asking 0 = root_inode) as E0 by (rewrite Ei; by apply fn_eq).
  assert (content asking 0 = small_disk 0) as Ec by (apply functional_extensionality, asking_content).
  pose proof (namei_resolves asking bufl bqueues [slash; 97] asking_ready) as H. cbv zeta in H. rewrite Est, E0 in H.
  change (i_dev root_inode) with 0 in H. change (i_number root_inode) with 2 in H. rewrite Ec in H.
  assert (the_inode asking 0 2 = root_inode) as N2.
  { unfold the_inode. replace (iget_hit asking 0 2) with (Some 0); [exact E0|]. unfold iget_hit. rewrite Ei. by vm_compute. }
  assert (the_inode asking 0 3 = disk_inode (small_disk 0) 0 3) as N3.
  { unfold the_inode. replace (iget_hit asking 0 3) with (@None Z); [by rewrite Ec|]. unfold iget_hit. rewrite Ei. by vm_compute. }
  assert (find_entry (small_disk 0) root_inode [97] = Some 3) as Ef by by vm_compute.
  assert (resolve (small_disk 0) (the_inode asking 0) (u asking) 2 (words [slash; 97]) = inl 3) as Ep.
  { change (words [slash; 97]) with [[97]]. cbn [resolve]. unfold step. rewrite N2, Ef. by rewrite Eu. }
  rewrite Ep in H. destruct H as (res&s'&A'&Q'&E&_&_&(ip&->&T&He)).
  - change (words [slash; 97]) with [[97]]. cbn [sound_path]. rewrite N2, Ef, N3. split; [done|]. intros _ _. split; [|split; [by vm_compute|split; [by vm_compute|done]]].
    split; [change (0 <= 48 <= MAXFILE); unfold MAXFILE; lia|]. intros bn Hbn Hlt. change (512 * bn < 48) in Hlt. assert (bn = 0) as -> by lia. exists 20. split; [vm_compute; reflexivity|lia].
  - exists ip, s'. split; [exact E|]. split; [|exact He]. rewrite (al_number _ _ (tk_inode _ _ _ _ _ T)), N3. done.
Defined.
End Path.
