(* ===== verification/Pipe.v ===== *)
(** * Pipe: pipes (src/usr/sys/sys/pipe.c) *)
From S2P Require Import Prelude Kmonad Kernel Bio Alloc Inode Rdwri Text Fio.
Import Bio Alloc Inode Rdwri Text Fio.

Module Pipe.

Section code.
  Context `{DV : Devices} `{FL : Fuel}.

Definition PIPSIZ : Z := 4096.

Definition pipe : M unit :=
  ip ← ialloc pipedev;
  match ip with
  | None => mret tt
  | Some ip =>
      rf ← falloc;
      match rf with
      | None => iput ip
      | Some rf =>
          us ← getu;
          let r := r_val1 us in
          wf ← falloc;
          match wf with
          | None =>
              modf rf (fun f => f <| f_count := 0 |>);;
              modu (fun us => us <| u_ofile @ r := None |>);;
              iput ip
          | Some wf =>
              us ← getu;
              modu (fun v => v <| r_val2 := r_val1 us |>);;
              modu (fun v => v <| r_val1 := r |>);;
              modf wf (fun f => f <| f_flag := Z.lor FWRITE FPIPE |>);;
              modf wf (fun f => f <| f_inode := ip |>);;
              modf rf (fun f => f <| f_flag := Z.lor FREAD FPIPE |>);;
              modf rf (fun f => f <| f_inode := ip |>);;
              modi ip (fun i => i <| i_count := 2 |>);;
              modi ip (fun i => i <| i_mode := IFREG |>);;
              modi ip (fun i => i <| i_flag := Z.lor IACC (Z.lor IUPD ICHG) |>)
          end
      end
  end.

(** One turn of the loop of [readp]. *)
Definition readp_turn (fp ip : Z) : M (unit + unit) :=
  plock ip;;
  r ← geti ip;
  if i_size r =? 0 then
    prele ip;;
    r ← geti ip;
    if i_count r <? 2 then mret (inr tt)
    else
      modi ip (fun r => r <| i_mode ::= fun m => setf m IREAD |>);;
      sleep (ChRead ip) PPIPE;;
      mret (inl tt)
  else
    f ← gets (fun s => files s fp);
    modu (fun r => r <| u_offset := f_offset f |>);;
    readi ip;;
    us ← getu;
    modf fp (fun r => r <| f_offset := u_offset us |>);;
    r ← geti ip;
    when (u_offset us =? i_size r)
      (modf fp (fun r => r <| f_offset := 0 |>);;
       modi ip (fun r => r <| i_size := 0 |>);;
       r ← geti ip;
       when (has (i_mode r) IWRITE)
         (modi ip (fun r => r <| i_mode ::= fun m => clrf m IWRITE |>);;
          wakeup (ChWrite ip)));;
    prele ip;;
    mret (inr tt).

Definition readp (fp : Z) : M unit :=
  f ← gets (fun s => files s fp);
  iter fuel (fun _ => readp_turn fp (f_inode f)) tt.

(** One turn of the loop of [writep]; [c] is what is left to write. *)
Definition writep_turn (ip c : Z) : M (Z + unit) :=
  plock ip;;
  if c =? 0 then
    prele ip;;
    modu (fun r => r <| u_count := 0 |>);;
    mret (inr tt)
  else
    r ← geti ip;
    if i_count r <? 2 then
      prele ip;;
      err EPIPE;;
      modify (emit (Psignal SIGPIPE));;
      mret (inr tt)
    else if PIPSIZ <=? i_size r then
      modi ip (fun r => r <| i_mode ::= fun m => setf m IWRITE |>);;
      prele ip;;
      sleep (ChWrite ip) PPIPE;;
      mret (inl c)
    else
      modu (fun v => v <| u_offset := i_size r |>);;
      modu (fun v => v <| u_count := min c PIPSIZ |>);;
      us ← getu;
      let c := c - u_count us in
      writei ip;;
      prele ip;;
      r ← geti ip;
      when (has (i_mode r) IREAD)
        (modi ip (fun r => r <| i_mode ::= fun m => clrf m IREAD |>);;
         wakeup (ChRead ip));;
      mret (inl c).

Definition writep (fp : Z) : M unit :=
  f ← gets (fun s => files s fp);
  us ← getu;
  iter fuel (writep_turn (f_inode f)) (u_count us).
End code.
End Pipe.
