(* ===== verification/Sys.v ===== *)
(** * Sys: system calls on files (src/usr/sys/sys/sys2.c, sys3.c, sys4.c)

    The arguments of a call are the words [u_arg]; [r_off] and [r_time] are the
    same word as [r_val1]. *)
From S2P Require Import Prelude Kmonad Kernel Bio Alloc Inode Rdwri Text Fio Nami Pipe.
Import Bio Alloc Inode Rdwri Text Fio Nami Pipe.

Module Sys.

Section code.
  Context `{DV : Devices} `{FL : Fuel}.

Definition arg (i : Z) : M Z := gets (fun s => u_arg (u s) i).
Definition set_arg (i v : Z) : M unit := modu (fun r => r <| u_arg @ i := v |>).
Definition is_special (r : inode) : bool := has (i_mode r) (Z.land IFCHR IFBLK).

(** ** read and write (sys2.c) *)

(** The part of [rdwr] for a file that is not a pipe. *)
Definition rdwr_file (fp mode : Z) : M unit :=
  f ← gets (fun s => files s fp);
  let ip := f_inode f in
  modu (fun r => r <| u_offset := f_offset f |>);;
  r ← geti ip;
  when (negb (is_special r)) (plock ip);;
  (if mode =? FREAD then readi ip else writei ip);;
  r ← geti ip;
  when (negb (is_special r)) (prele ip);;
  count ← arg 2;
  us ← getu;
  modf fp (fun f => f <| f_offset ::= fun o => s32 (o + (u32 count - u_count us)) |>).

Definition rdwr (mode : Z) : M unit :=
  fdes ← arg 0;
  fp ← getf fdes;
  match fp with
  | None => mret tt
  | Some fp =>
      f ← gets (fun s => files s fp);
      if negb (has (f_flag f) mode) then err EBADF
      else
        cbuf ← arg 1;
        modu (fun r => r <| u_base := u32 cbuf |>);;
        count ← arg 2;
        modu (fun r => r <| u_count := u16 count |>);;
        modu (fun r => r <| u_segflg := 0 |>);;
        (if has (f_flag f) FPIPE then if mode =? FREAD then readp fp else writep fp
         else rdwr_file fp mode);;
        count ← arg 2;
        us ← getu;
        modu (fun r => r <| r_val1 := s32 (u32 count - u_count us) |>)
  end.

Definition read : M unit := rdwr FREAD.
Definition write : M unit := rdwr FWRITE.

(** ** open and creat (sys2.c) *)

Definition open1 (ip mode trf : Z) : M unit :=
  when (negb (trf =? 2))
    (when (has mode FREAD) (access ip IREAD;; mret tt);;
     when (has mode FWRITE)
       (access ip IWRITE;;
        r ← geti ip;
        when (Z.land (i_mode r) IFMT =? IFDIR) (err EISDIR)));;
  us ← getu;
  if negb (u_error us =? 0) then iput ip
  else
    when (trf =? 1) (itrunc ip);;
    prele ip;;
    fp ← falloc;
    match fp with
    | None => iput ip
    | Some fp =>
        modf fp (fun f => f <| f_flag := Z.land mode (Z.lor FREAD FWRITE) |>);;
        modf fp (fun f => f <| f_inode := ip |>);;
        us ← getu;
        let i := r_val1 us in
        openi ip (Z.land mode FWRITE);;
        us ← getu;
        if u_error us =? 0 then mret tt
        else
          modu (fun r => r <| u_ofile @ i := None |>);;
          modf fp (fun f => f <| f_count ::= fun c => u8 (c - 1) |>);;
          iput ip
    end.

Definition open : M unit :=
  ip ← namei uchar 0;
  match ip with
  | None => mret tt
  | Some ip =>
      mode ← arg 1;
      let mode := s32 (mode + 1) in
      set_arg 1 mode;;
      open1 ip mode 0
  end.

Definition creat : M unit :=
  ip ← namei uchar 1;
  match ip with
  | None =>
      us ← getu;
      if negb (u_error us =? 0) then mret tt
      else
        fmode ← arg 1;
        ip ← maknode (Z.land (Z.land fmode 4095) (Z.lnot ISVTX));
        match ip with
        | None => mret tt
        | Some ip => open1 ip FWRITE 2
        end
  | Some ip => open1 ip FWRITE 1
  end.

Definition close : M unit :=
  fdes ← arg 0;
  fp ← getf fdes;
  match fp with
  | None => mret tt
  | Some fp => modu (fun r => r <| u_ofile @ fdes := None |>);; closef (Some fp)
  end.

Definition seek : M unit :=
  fdes ← arg 0;
  fp ← getf fdes;
  match fp with
  | None => mret tt
  | Some fp =>
      f ← gets (fun s => files s fp);
      if has (f_flag f) FPIPE then err ESPIPE
      else
        off ← arg 1;
        sbase ← arg 2;
        r ← geti (f_inode f);
        let off := if sbase =? 1 then s32 (off + f_offset f)
                   else if sbase =? 2 then s32 (off + i_size r) else off in
        set_arg 1 off;;
        modf fp (fun f => f <| f_offset := off |>);;
        modu (fun r => r <| r_val1 := off |>)
  end.

(** ** link, mknod and access (sys2.c) *)

(** From the second [namei] of [link] on, with the inode [ip]. *)
Definition link_to (ip : Z) : M unit :=
  prele ip;;
  linkname ← arg 1;
  modu (fun r => r <| u_dirp := u32 linkname |>);;
  xp ← namei uchar 1;
  match xp with
  | Some xp => err EEXIST;; iput xp
  | None =>
      us ← getu;
      if negb (u_error us =? 0) then mret tt
      else
        p ← geti (u_pdir us);
        r ← geti ip;
        if negb (i_dev p =? i_dev r) then iput (u_pdir us);; err EXDEV
        else
          wdir ip;;
          us ← getu;
          when (u_error us =? 0)
            (modi ip (fun r => r <| i_nlink ::= fun n => s16 (n + 1) |>);;
             modi ip (fun r => r <| i_flag ::= fun f => setf f ICHG |>))
  end.

Definition link : M unit :=
  ip ← namei uchar 0;
  match ip with
  | None => mret tt
  | Some ip =>
      r ← geti ip;
      ok ← (if Z.land (i_mode r) IFMT =? IFDIR then suser else mret true);
      when ok (link_to ip);;
      iput ip
  end.

Definition mknod : M unit :=
  su ← suser;
  ip ← (if su : bool then namei uchar 1 else mret None);
  match ip with
  | Some ip => err EEXIST;; iput ip
  | None =>
      us ← getu;
      if negb (u_error us =? 0) then mret tt
      else
        fmode ← arg 1;
        ip ← maknode fmode;
        match ip with
        | None => mret tt
        | Some ip =>
            dev ← arg 2;
            modi ip (fun r => r <| i_addr @ 0 := s16 dev |>);;
            iput ip
        end
  end.

Definition saccess : M unit :=
  us ← getu;
  let svuid := u_uid us in
  let svgid := u_gid us in
  modu (fun r => r <| u_uid := u_ruid us |>);;
  modu (fun r => r <| u_gid := u_rgid us |>);;
  ip ← namei uchar 0;
  match ip with
  | None => mret tt
  | Some ip =>
      fmode ← arg 1;
      when (has fmode (Z.shiftr IREAD 6)) (access ip IREAD;; mret tt);;
      when (has fmode (Z.shiftr IWRITE 6)) (access ip IWRITE;; mret tt);;
      when (has fmode (Z.shiftr IEXEC 6)) (access ip IEXEC;; mret tt);;
      iput ip
  end;;
  modu (fun r => r <| u_uid := svuid |>);;
  modu (fun r => r <| u_gid := svgid |>).

(** ** stat and dup (sys3.c) *)

(** The fields of [struct stat], over what the stack held: bytes 14 and 15 are
    not set. *)
Definition fill_stat (r : inode) (pipeadj : Z) (d : mem) (ds : mem) : mem :=
  let o := 64 * itoo (i_number r) in
  let ds := wr_16 ds 0 (i_dev r) in
  let ds := wr_16 ds 2 (i_number r) in
  let ds := wr_16 ds 4 (i_mode r) in
  let ds := wr_16 ds 6 (i_nlink r) in
  let ds := wr_16 ds 8 (i_uid r) in
  let ds := wr_16 ds 10 (i_gid r) in
  let ds := wr_16 ds 12 (i_rdev r) in
  let ds := wr_32 ds 16 (i_size r - pipeadj) in
  let ds := wr_32 ds 20 (rd_s32 d (o + 52)) in
  let ds := wr_32 ds 24 (rd_s32 d (o + 56)) in
  wr_32 ds 28 (rd_s32 d (o + 60)).

Definition stat1 (stack : mem) (ip ub pipeadj : Z) : M unit :=
  iupdat ip time time;;
  r ← geti ip;
  bp ← bread (i_dev r) (itod (i_number r));
  d ← getd bp;
  let ds := fill_stat r pipeadj d stack in
  brelse bp;;
  modify (fun s => s <| umem ::= fun m => mcopy ds 0 m (u32 ub) 32 |>).

Definition fstat (stack : mem) : M unit :=
  fdes ← arg 0;
  fp ← getf fdes;
  match fp with
  | None => mret tt
  | Some fp =>
      f ← gets (fun s => files s fp);
      ub ← arg 1;
      stat1 stack (f_inode f) ub (if has (f_flag f) FPIPE then f_offset f else 0)
  end.

Definition stat (stack : mem) : M unit :=
  ip ← namei uchar 0;
  match ip with
  | None => mret tt
  | Some ip => ub ← arg 1; stat1 stack ip ub 0;; iput ip
  end.

(** The new descriptor of [dup]. *)
Definition dup_target (m : Z) : M (option Z) :=
  if negb (has m 64) then i ← ufalloc; mret (if i <? 0 then None else Some i)
  else
    i ← arg 1;
    if (i <? 0) || (NOFILE <=? i) then err EBADF;; mret None
    else modu (fun r => r <| r_val1 := i |>);; mret (Some i).

Definition dup : M unit :=
  fdes ← arg 0;
  let m := Z.land fdes (Z.lnot 63) in
  let fdes := Z.land fdes 63 in
  set_arg 0 fdes;;
  fp ← getf fdes;
  match fp with
  | None => mret tt
  | Some fp =>
      i ← dup_target m;
      match i with
      | None => mret tt
      | Some i =>
          when (negb (i =? fdes))
            (us ← getu;
             when (bool_decide (is_Some (u_ofile us i))) (closef (u_ofile us i));;
             modu (fun r => r <| u_ofile @ i := Some fp |>);;
             modf fp (fun f => f <| f_count ::= fun c => u8 (c + 1) |>))
      end
  end.

(** ** mount and umount (sys3.c) *)

Definition getmdev : M Z :=
  ip ← namei uchar 0;
  match ip with
  | None => mret NODEV
  | Some ip =>
      r ← geti ip;
      when (negb (Z.land (i_mode r) IFMT =? IFBLK)) (err ENOTBLK);;
      let dev := i_rdev r in
      when (nblkdev <=? major dev) (err ENXIO);;
      iput ip;;
      mret dev
  end.

(** The entry of the mount table to use, unless the device is mounted or the
    table is full. *)
Definition mount_slot (s : kst) (dev : Z) : option Z :=
  if existsb (fun i => bool_decide (is_Some (m_bufp (mounts s i))) && (dev =? m_dev (mounts s i))) (upto NMOUNT) then None
  else List.find (fun i => bool_decide (m_bufp (mounts s i) = None)) (upto NMOUNT).

Definition mount_at (mp dev ip ronly : Z) : M bool :=
  bp ← bread dev SUPERB;
  us ← getu;
  if negb (u_error us =? 0) then brelse bp;; mret false
  else
    modm mp (fun r => r <| m_inodp := Some ip |>);;
    modm mp (fun r => r <| m_dev := dev |>);;
    cp ← geteblk;
    modm mp (fun r => r <| m_bufp := Some cp |>);;
    d ← getd bp;
    modd cp (fun m => mcopy d 0 m 0 BSIZE);;
    modd cp (set_ilock 0);;
    modd cp (set_flock 0);;
    modd cp (set_ronly (Z.land ronly 1));;
    brelse bp;;
    modi ip (fun r => r <| i_flag ::= fun f => setf f IMOUNT |>);;
    prele ip;;
    mret true.

Definition smount : M unit :=
  dev ← getmdev;
  us ← getu;
  if negb (u_error us =? 0) then mret tt
  else
    freg ← arg 1;
    modu (fun r => r <| u_dirp := u32 freg |>);;
    ip ← namei uchar 0;
    match ip with
    | None => mret tt
    | Some ip =>
        r ← geti ip;
        st ← get;
        let slot := if negb (i_count r =? 1) || negb (Z.land (i_mode r) (Z.land IFBLK IFCHR) =? 0) then None
                    else mount_slot st dev in
        match slot with
        | None => err EBUSY;; iput ip
        | Some mp =>
            ronly ← arg 2;
            bdev_open (major dev) dev (if ronly =? 0 then 1 else 0);;
            us ← getu;
            if negb (u_error us =? 0) then err EBUSY;; iput ip
            else ok ← mount_at mp dev ip ronly; when (negb ok) (iput ip)
        end
    end.

Definition sumount : M unit :=
  dev ← getmdev;
  us ← getu;
  if negb (u_error us =? 0) then mret tt
  else
    xumount dev;;
    update;;
    mp ← find_first (upto NMOUNT) (fun s i => bool_decide (is_Some (m_bufp (mounts s i))) && (dev =? m_dev (mounts s i)));
    match mp with
    | None => err EINVAL
    | Some mp =>
        busy ← find_first (upto NINODE) (fun s i => negb (i_number (inodes s i) =? 0) && (dev =? i_dev (inodes s i)));
        match busy with
        | Some _ => err EBUSY
        | None =>
            bdev_close (major dev) dev 0;;
            st ← get;
            match m_inodp (mounts st mp) with
            | None => panic "null inode"
            | Some ip =>
                modi ip (fun r => r <| i_flag ::= fun f => clrf f IMOUNT |>);;
                plock ip;;
                iput ip;;
                st ← get;
                modm mp (fun r => r <| m_bufp := None |>);;
                match m_bufp (mounts st mp) with
                | Some bp => brelse bp
                | None => panic "null buffer"
                end
            end
        end
    end.

(** ** Times and ids (sys4.c) *)

Definition gtime : M unit := t ← gets time; modu (fun r => r <| r_val1 := t |>).
Definition stime : M unit := su ← suser; when su (t ← arg 0; modify (fun s => s <| time := t |>)).
Definition setuid : M unit :=
  uid ← arg 0;
  us ← getu;
  ok ← (if u_ruid us =? uid then mret true else suser);
  when ok
    (modu (fun r => r <| u_uid := s16 uid |>);;
     modu (fun r => r <| u_p_uid := s16 uid |>);;
     modu (fun r => r <| u_ruid := s16 uid |>)).
Definition getuid : M unit :=
  us ← getu; modu (fun r => r <| r_val1 := u_ruid us |> <| r_val2 := u_uid us |>).
Definition setgid : M unit :=
  gid ← arg 0;
  us ← getu;
  ok ← (if u_rgid us =? gid then mret true else suser);
  when ok
    (modu (fun r => r <| u_gid := s16 gid |>);;
     modu (fun r => r <| u_rgid := s16 gid |>)).
Definition getgid : M unit :=
  us ← getu; modu (fun r => r <| r_val1 := u_rgid us |> <| r_val2 := u_gid us |>).
Definition sync : M unit := update.
Definition umask : M unit :=
  mask ← arg 0;
  us ← getu;
  modu (fun r => r <| u_cmask := Z.land mask 511 |>);;
  modu (fun r => r <| r_val1 := u_cmask us |>).

(** ** unlink (sys4.c) *)

(** The checks of [unlink] on the inode [ip] in the directory [pp]. *)
Definition unlink_ok (ip pp : Z) : M bool :=
  r ← geti ip;
  ok ← (if Z.land (i_mode r) IFMT =? IFDIR then suser else mret true);
  if negb ok then mret false
  else
    r ← geti ip;
    p ← geti pp;
    if negb (i_dev r =? i_dev p) then err EBUSY;; mret false
    else
      when (has (i_flag r) ITEXT) (xrele ip);;
      r ← geti ip;
      if has (i_flag r) ITEXT && (i_nlink r =? 1) then err ETXTBSY;; mret false else mret true.

Definition unlink : M unit :=
  pp ← namei uchar 2;
  match pp with
  | None => mret tt
  | Some pp =>
      p ← geti pp;
      ino ← gets d_ino;
      ip ← (if i_number p =? ino
            then modi pp (fun r => r <| i_count ::= fun c => u8 (c + 1) |>);; mret (Some pp)
            else iget (i_dev p) ino);
      match ip with
      | None => mret tt
      | Some ip =>
          ok ← unlink_ok ip pp;
          when ok
            (modu (fun r => r <| u_offset ::= fun o => s32 (o - DIRECT) |>);;
             modu (fun r => r <| u_base := U_DENT |>);;
             modu (fun r => r <| u_count := DIRECT |>);;
             modify (fun s => s <| kmem ::= fun m => wr_16 m U_DENT 0 |>);;
             writei pp;;
             modi ip (fun r => r <| i_nlink ::= fun n => s16 (n - 1) |>);;
             modi ip (fun r => r <| i_flag ::= fun f => setf f ICHG |>));;
          iput ip
      end;;
      iput pp
  end.

(** ** Directories and modes (sys4.c) *)

(** [get] and [set] are the pointer [ipp] that [chdirec] is given. *)
Definition chdirec (cur : user -> option Z) (set_cur : Z -> user -> user) : M unit :=
  ip ← namei uchar 0;
  match ip with
  | None => mret tt
  | Some ip =>
      r ← geti ip;
      if negb (Z.land (i_mode r) IFMT =? IFDIR) then err ENOTDIR;; iput ip
      else
        bad ← access ip IEXEC;
        if bad : bool then iput ip
        else
          prele ip;;
          us ← getu;
          match cur us with
          | Some old => plock old;; us ← getu; match cur us with Some old => iput old | None => mret tt end
          | None => mret tt
          end;;
          modu (set_cur ip)
  end.

Definition chdir : M unit := chdirec (fun us => Some (u_cdir us)) (fun ip us => us <| u_cdir := ip |>).
Definition chroot : M unit :=
  su ← suser; when su (chdirec u_rdir (fun ip us => us <| u_rdir := Some ip |>)).

Definition chmod : M unit :=
  ip ← owner;
  match ip with
  | None => mret tt
  | Some ip =>
      modi ip (fun r => r <| i_mode ::= fun m => clrf m 4095 |>);;
      us ← getu;
      when (negb (u_uid us =? 0)) (fmode ← arg 1; set_arg 1 (Z.land fmode (Z.lnot ISVTX)));;
      fmode ← arg 1;
      modi ip (fun r => r <| i_mode ::= fun m => setf m (Z.land fmode 4095) |>);;
      modi ip (fun r => r <| i_flag ::= fun f => setf f ICHG |>);;
      r ← geti ip;
      when (has (i_flag r) ITEXT && negb (has (i_mode r) ISVTX)) (xrele ip);;
      iput ip
  end.

Definition chown : M unit :=
  su ← suser;
  if negb su then mret tt
  else
    ip ← owner;
    match ip with
    | None => mret tt
    | Some ip =>
        uid ← arg 1;
        modi ip (fun r => r <| i_uid := s16 uid |>);;
        gid ← arg 2;
        modi ip (fun r => r <| i_gid := s16 gid |>);;
        modi ip (fun r => r <| i_flag ::= fun f => setf f ICHG |>);;
        iput ip
    end.

(** The times are those the process gave, read before [iupdat]. *)
Definition utime : M unit :=
  ip ← owner;
  match ip with
  | None => mret tt
  | Some ip =>
      tptr ← arg 1;
      um ← gets umem;
      let ta := rd_s32 um (u32 tptr) in
      let tm := rd_s32 um (u32 tptr + 4) in
      modi ip (fun r => r <| i_flag ::= fun f => setf f (Z.lor IACC (Z.lor IUPD ICHG)) |>);;
      iupdat ip (fun _ => ta) (fun _ => tm);;
      iput ip
  end.

(** ** Properties *)

Lemma plock_free ip s : has (i_flag (inodes s ip)) ILOCK = false -> (0 < fuel)%nat ->
  plock ip s = Ret tt (seti ip (fun r => r <| i_flag ::= fun f => setf f ILOCK |>) s).
Proof.
  intros Hl Hf. unfold plock, wait_while.
  rewrite (bind_ret _ _ s tt s); [done|]. destruct fuel as [|n]; [lia|]. apply k_iter_inr. krun. by rewrite Hl.
Qed.

Lemma prele_ok ip s : exists s', prele ip s = Ret tt s' /\ u s' = u s /\ files s' = files s /\ umem s' = umem s /\
  bufs s' = bufs s /\ disk s' = disk s.
Proof. unfold prele. krun. destruct (has _ _); cbn [when]; eexists; (split; [reflexivity|done]). Qed.

(** The transfer of nothing at all. *)
Lemma transfer_nothing mode ip s : mode = FREAD \/ mode = FWRITE -> u_count (u s) = 0 -> 0 <= u_offset (u s) ->
  is_special (inodes s ip) = false -> (if mode =? FREAD then readi ip else writei ip) s = Ret tt s.
Proof.
  intros Hm Hc Ho Hs. destruct Hm as [-> | ->]; [unfold readi|unfold writei]; cbn [Z.eqb FREAD FWRITE Pos.eqb]; krun; rewrite Hc; [done|].
  replace (u_offset (u s) <? 0) with false by lia. krun.
  destruct (Z.eqb_spec (Z.land (i_mode (inodes s ip)) IFMT) IFCHR) as [E|E]; [|done].
  exfalso. unfold is_special, has in Hs. apply negb_false_iff, Z.eqb_eq in Hs.
  assert (Z.land (i_mode (inodes s ip)) (Z.land IFCHR IFBLK) = Z.land (Z.land (i_mode (inodes s ip)) IFMT) (Z.land IFCHR IFBLK)) as E2.
  { rewrite <- Z.land_assoc. done. }
  rewrite E2, E in Hs. discriminate Hs.
Qed.

(** [u.u_count] has 16 bits: a read or write of a multiple of 65536 bytes
    moves nothing, but tells the caller that all has been transferred and moves
    the file offset past it. *)
Theorem rdwr_64k mode fp s :
  mode = FREAD \/ mode = FWRITE ->
  0 <= u_arg (u s) 0 < NOFILE -> u_ofile (u s) (u_arg (u s) 0) = Some fp ->
  has (f_flag (files s fp)) mode = true -> has (f_flag (files s fp)) FPIPE = false ->
  is_special (inodes s (f_inode (files s fp))) = false -> has (i_flag (inodes s (f_inode (files s fp)))) ILOCK = false ->
  0 <= f_offset (files s fp) -> u_arg (u s) 2 mod 65536 = 0 -> (0 < fuel)%nat ->
  exists s', rdwr mode s = Ret tt s' /\ r_val1 (u s') = s32 (u_arg (u s) 2) /\
    f_offset (files s' fp) = s32 (f_offset (files s fp) + u32 (u_arg (u s) 2)) /\
    u_error (u s') = u_error (u s) /\ umem s' = umem s /\ bufs s' = bufs s /\ disk s' = disk s.
Proof.
  intros Hm Hd Hof Hfl Hpi Hsp Hlk Hoff Hc Hf. set (c := u_arg (u s) 2) in *. set (ip := f_inode (files s fp)) in *.
  unfold rdwr, arg. krun. unfold getf. rewrite k_bind_bind. krun.
  replace ((0 <=? u_arg (u s) 0) && (u_arg (u s) 0 <? NOFILE)) with true by lia. rewrite Hof. krun. rewrite Hfl. cbn [negb]. krun.
  rewrite Hpi.
  set (s1 := setu (fun r => r <| u_segflg := 0 |>) _).
  assert (u_count (u s1) = 0 /\ u_arg (u s1) = u_arg (u s) /\ u_error (u s1) = u_error (u s) /\ files s1 = files s /\ inodes s1 = inodes s /\
    umem s1 = umem s /\ bufs s1 = bufs s /\ disk s1 = disk s) as (Hc1&Ha1&He1&Hf1&Hi1&Hu1&Hb1&Hk1).
  { unfold s1. split_and!; try done. }
  clearbody s1. unfold rdwr_file, arg. repeat (rewrite ?k_bind_bind; krun). rewrite Hf1. fold ip.
  set (s2 := setu (fun r => r <| u_offset := f_offset (files s fp) |>) s1).
  assert (u_count (u s2) = 0 /\ u_offset (u s2) = f_offset (files s fp) /\ u_arg (u s2) = u_arg (u s) /\ u_error (u s2) = u_error (u s) /\
    files s2 = files s /\ inodes s2 = inodes s /\ umem s2 = umem s /\ bufs s2 = bufs s /\ disk s2 = disk s)
    as (Hc2&Ho2&Ha2&He2&Hf2&Hi2&Hu2&Hb2&Hk2) by (unfold s2; by split_and!).
  clearbody s2. rewrite Hi2, Hsp. cbn [negb when]. rewrite <- Hi2 in Hlk, Hsp.
  rewrite (bind_ret _ _ _ _ _ (plock_free ip s2 Hlk Hf)).
  set (s3 := seti ip _ s2). assert (is_special (inodes s3 ip) = false) as Hsp3.
  { unfold s3, seti. cbn. by rewrite fn_eq. }
  repeat (rewrite ?k_bind_bind; krun). rewrite (bind_ret _ _ _ _ _ (transfer_nothing mode ip s3 Hm Hc2 ltac:(change (u s3) with (u s2); lia) Hsp3)).
  repeat (rewrite ?k_bind_bind; krun). rewrite Hsp3. cbn [negb when]. destruct (prele_ok ip s3) as (s4&E4&Hu4&Hf4&Hm4&Hb4&Hk4).
  rewrite (bind_ret _ _ _ _ _ E4). repeat (rewrite ?k_bind_bind; krun). rewrite Hu4. change (u s3) with (u s2).
  rewrite Ha2, Hc2. fold c. set (s5 := setf_ fp _ s4).
  assert (u s5 = u s2) as Hu5 by exact Hu4. rewrite Hu5, Ha2, Hc2. fold c.
  assert (f_offset (files s5 fp) = s32 (f_offset (files s fp) + u32 c)) as Hf5.
  { unfold s5, setf_. cbn. rewrite fn_eq, Hf4. change (files s3) with (files s2). rewrite Hf2, Z.sub_0_r. done. }
  eexists. split; [reflexivity|]. split; [|split; [exact Hf5|split; [|split; [|split]]]].
  - change (s32 (u32 c - 0) = s32 c). rewrite Z.sub_0_r. by apply wrap_s_u.
  - change (u_error (u s5) = u_error (u s)). by rewrite Hu5.
  - change (umem s4 = umem s). rewrite Hm4. exact Hu2.
  - change (bufs s4 = bufs s). rewrite Hb4. exact Hb2.
  - change (disk s4 = disk s). rewrite Hk4. exact Hk2.
Qed.
End code.

#[local] Existing Instances ramdisk rounds.

(** A process that reads 65536 bytes from descriptor 3, file 0, inode 0. *)
Definition big_read : kst :=
  setf_ 0 (fun f => f <| f_flag := FREAD |> <| f_count := 1 |>)
    (setu (fun r => r <| u_arg := fun i => if i =? 0 then 3 else if i =? 1 then 4096 else 65536 |> <| u_ofile @ 3 := Some 0 |>) blank).

Lemma rdwr_64k_witness :
  exists s', rdwr FREAD big_read = Ret tt s' /\ r_val1 (u s') = 65536 /\ f_offset (files s' 0) = 65536 /\
    u_error (u s') = u_error (u big_read) /\ umem s' = umem big_read /\ bufs s' = bufs big_read /\ disk s' = disk big_read.
Proof.
  apply (rdwr_64k FREAD 0 big_read); [by left|vm_compute; split; [discriminate|reflexivity]|
    vm_compute; reflexivity..|vm_compute; discriminate|vm_compute; reflexivity|vm_compute; lia].
Defined.
End Sys.
