(* ===== verification/Sysfile.v ===== *)
(** * Sysfile: what read, write, open and close do (sys2.c, with fio.c, nami.c and rdwri.c)

    The calls as the process sees them: [read] and [write] move the bytes of the
    file at the offset of the descriptor and advance it, [open] finds the file
    that the path leads to and gives the lowest descriptor for it, [close] gives
    all of it back. *)
From Stdlib Require Import FunctionalExtensionality.
From S2P Require Import Prelude Kmonad Kernel Bio Quiet Ahead Alloc Inode Itab Rdwri Readi Writei Fio Nami Itake Path Sys.
Import Bio Quiet Ahead Alloc Inode Itab Rdwri Readi Writei Fio Nami Itake Path Sys.

Module Sysfile.

(** ** Locking around a transfer *)

Definition lock (ip : Z) (s : kst) : kst := seti ip (fun r => r <| i_flag ::= fun f => setf f ILOCK |>) s.
Definition unlock (ip : Z) (s : kst) : kst := seti ip (fun r => r <| i_flag ::= fun f => clrf f ILOCK |>) s.

Lemma clr_set_set f m : has f ILOCK = false -> has m ILOCK = false -> clrf (setf (setf f ILOCK) m) ILOCK = setf f m.
Proof.
  unfold has. intros H1%negb_false_iff%Z.eqb_eq H2%negb_false_iff%Z.eqb_eq. unfold clrf, setf. apply Z.bits_inj'. intros n Hn.
  rewrite Z.land_spec, !Z.lor_spec, Z.lnot_spec by lia.
  pose proof (Z.land_spec f ILOCK n) as B1. pose proof (Z.land_spec m ILOCK n) as B2. rewrite H1, Z.bits_0 in B1. rewrite H2, Z.bits_0 in B2.
  destruct (Z.testbit f n), (Z.testbit m n), (Z.testbit ILOCK n); done.
Qed.

Section code.
  Context `{DV : Devices} `{FL : Fuel} `{SD : !SyncDriver} `{WD : !WholeDriver}.

(** ** The frame of read and write *)

(** The counters of the transfer, from the arguments and the file. *)
Definition asked (f : file) (us : user) : user :=
  us <| u_base := u32 (u_arg us 1) |> <| u_count := u16 (u_arg us 2) |> <| u_segflg := 0 |> <| u_offset := f_offset f |>.
(** The call is over: [n] bytes have been moved. *)
Definition told (fp n : Z) (s : kst) : kst :=
  setu (fun us => us <| r_val1 := n |>) (setf_ fp (fun f => f <| f_offset ::= fun o => o + n |>) s).

(** The descriptor of the call is open on the file [fp], an ordinary file or a
    directory that nobody uses. *)
Record open_for (s : kst) (mode fp : Z) : Prop := {
  of_fd : 0 <= u_arg (u s) 0 < NOFILE;
  of_file : u_ofile (u s) (u_arg (u s) 0) = Some fp;
  of_mode : has (f_flag (files s fp)) mode = true;
  of_pipe : has (f_flag (files s fp)) FPIPE = false;
  of_type : Z.land (i_mode (inodes s (f_inode (files s fp)))) IFMT = IFDIR \/ Z.land (i_mode (inodes s (f_inode (files s fp)))) IFMT = IFREG;
  of_lock : has (i_flag (inodes s (f_inode (files s fp)))) ILOCK = false;
  of_want : has (i_flag (inodes s (f_inode (files s fp)))) IWANT = false
}.

Lemma not_special r : Z.land (i_mode r) IFMT = IFDIR \/ Z.land (i_mode r) IFMT = IFREG -> is_special r = false.
Proof.
  intros H. unfold is_special, has. apply negb_false_iff, Z.eqb_eq.
  replace (Z.land IFCHR IFBLK) with (Z.land IFMT (Z.land IFCHR IFBLK)) by done. rewrite Z.land_assoc. by destruct H as [-> | ->].
Qed.

Lemma rdwr_ok mode fp s n s3 : mode = FREAD \/ mode = FWRITE -> open_for s mode fp -> let ip := f_inode (files s fp) in
  (if mode =? FREAD then readi ip else writei ip) (lock ip (setu (asked (files s fp)) s)) = Ret tt s3 ->
  u s3 = advanced n (asked (files s fp) (u s)) -> 0 <= n <= u_arg (u s) 2 -> u_arg (u s) 2 < 65536 ->
  0 <= f_offset (files s fp) -> f_offset (files s fp) + n < 2147483648 ->
  files s3 = files s -> i_mode (inodes s3 ip) = i_mode (inodes s ip) -> has (i_flag (inodes s3 ip)) IWANT = false ->
  rdwr mode s = Ret tt (told fp n (unlock ip s3)).
Proof.
  intros Hm [H1 H2 H3 H4 H5 H6 H7] ip E Eu Hn Hc Ho0 Ho Ef Em Hw. fold ip in H5, H6, H7.
  pose proof (not_special _ H5) as Hsp. assert (is_special (inodes s3 ip) = false) as Hsp3 by (unfold is_special in *; by rewrite Em).
  unfold rdwr, arg. krun. unfold getf. rewrite k_bind_bind. krun.
  replace ((0 <=? u_arg (u s) 0) && (u_arg (u s) 0 <? NOFILE)) with true by lia. rewrite H2. krun. rewrite H3. cbn [negb]. krun.
  rewrite H4. set (s1 := setu (fun r => r <| u_segflg := 0 |>) _). change (files s1) with (files s).
  assert (rdwr_file fp mode s1 = Ret tt (setf_ fp (fun f => f <| f_offset ::= fun o => o + n |>) (unlock ip s3))) as Er.
  { unfold rdwr_file, arg. krun. change (files s1) with (files s). fold ip.
    assert (setu (fun r => r <| u_offset := f_offset (files s fp) |>) s1 = setu (asked (files s fp)) s) as -> by done.
    change (inodes (setu _ s)) with (inodes s). rewrite Hsp. cbn [negb].
    rewrite k_when_true by done. rewrite (bind_ret _ _ _ _ _ (plock_free ip (setu (asked (files s fp)) s) H6 ltac:(pose proof enough_fuel; lia))). fold (lock ip (setu (asked (files s fp)) s)).
    rewrite (bind_ret _ _ _ _ _ E). krun. rewrite Hsp3. cbn [negb]. rewrite k_when_true by done.
    rewrite (bind_ret _ _ _ _ _ (prele_quiet ip s3 Hw)). fold (unlock ip s3). krun.
    change (u (unlock ip s3)) with (u s3). rewrite Eu. change (u_arg (advanced n (asked (files s fp) (u s)))) with (u_arg (u s)).
    change (u_count (advanced n (asked (files s fp) (u s)))) with (u16 (u16 (u_arg (u s) 2) - n)).
    rewrite (u16_id (u_arg (u s) 2)) by lia. rewrite (u16_id (_ - n)), u32_id by lia. unfold modf, modify. f_equal.
    apply setf_at. change (files (unlock ip s3)) with (files s3). rewrite Ef. unfold update_with. f_equal. rewrite s32_id; lia. }
  rewrite (bind_ret _ _ _ _ _ Er). krun. unfold told. change (modu ?f ?s) with (Ret (L := lbl) tt (setu f s)). f_equal. apply setu_at.
  change (u (setf_ _ _ _)) with (u s3). rewrite Eu. change (u_arg (advanced n (asked (files s fp) (u s)))) with (u_arg (u s)).
  change (u_count (advanced n (asked (files s fp) (u s)))) with (u16 (u16 (u_arg (u s) 2) - n)).
  rewrite (u16_id (u_arg (u s) 2)) by lia. rewrite (u16_id (_ - n)), u32_id by lia. cbv beta. by replace (s32 (u_arg (u s) 2 - (u_arg (u s) 2 - n))) with n by (rewrite s32_id; lia).
Qed.

(** ** read *)

(** A transfer through a descriptor that has something to do. *)
Record fd_wanted (s : kst) (fp : Z) : Prop := {
  fw_error : u_error (u s) = 0;
  fw_offset : 0 <= f_offset (files s fp) < 2147483648;
  fw_count : 0 < u_arg (u s) 2 < 65536;
  fw_base : 0 <= u_arg (u s) 1 /\ u_arg (u s) 1 + u_arg (u s) 2 < 4294967296
}.
Lemma asked_fields s fp : fd_wanted s fp -> u_base (asked (files s fp) (u s)) = u_arg (u s) 1 /\
  u_offset (asked (files s fp) (u s)) = f_offset (files s fp) /\ u_count (asked (files s fp) (u s)) = u_arg (u s) 2 /\
  wanted (asked (files s fp) (u s)).
Proof.
  intros [H1 H2 H3 H4]. assert (u_base (asked (files s fp) (u s)) = u_arg (u s) 1) as Eb by (apply u32_id; lia).
  assert (u_count (asked (files s fp) (u s)) = u_arg (u s) 2) as Ec by (apply u16_id; lia).
  split; [done|]. split; [done|]. split; [done|]. split; rewrite ?Eb, ?Ec; done.
Qed.

(** The state in which the transfer runs reads the same as that of the call. *)
Lemma locked_resting s A Q ip f : resting s A Q ip -> resting (lock ip (setu f s)) A Q ip.
Proof.
  intros [R1 R2 R3 R4 R5 R6]. assert (i_dev (inodes (lock ip (setu f s)) ip) = i_dev (inodes s ip)) as Ed
    by (unfold lock; by rewrite seti_inodes, decide_True).
  split; rewrite ?Ed; try done. by eapply cache_bufs.
Qed.
Lemma locked_byte s ip f o : usable (i_dev (inodes s ip)) -> file_byte (lock ip (setu f s)) ip o = file_byte s ip o.
Proof. intros Us. apply file_byte_same; [by apply same_blocks_bufs|done|unfold lock; by rewrite seti_inodes, decide_True..]. Qed.
Lemma locked_inode s ip f : inodes (lock ip (setu f s)) ip = (inodes s ip) <| i_flag ::= fun x => setf x ILOCK |>.
Proof. unfold lock. by rewrite seti_inodes, decide_True. Qed.
Lemma wanted_flag f : has f IWANT = false -> has (setf (setf f ILOCK) IACC) IWANT = false.
Proof. intros H. by rewrite !has_setf, H. Qed.
Lemma unlock_read s ip f l : has (i_flag (inodes s ip)) ILOCK = false ->
  inodes (unlock ip (seti ip (fun r => r <| i_flag ::= fun x => setf x IACC |> <| i_lastr := l |>) (lock ip (setu f s)))) =
  inodes (seti ip (fun r => r <| i_flag ::= fun x => setf x IACC |> <| i_lastr := l |>) s).
Proof.
  intros H. extensionality i. unfold unlock, lock. rewrite !seti_inodes. destruct (decide (ip = i)) as [<-|]; [|done].
  rewrite !decide_True by done. unfold update_with. cbn -[setf clrf]. by rewrite clr_set_set.
Qed.

(** Through the file [fp], [n] bytes have been read. *)
Definition called (s s' : kst) : kst :=
  s <| umem := umem s' |> <| u := u s' |> <| inodes := inodes s' |> <| files := files s' |> <| rablock := rablock s' |>.
Record read_into (s : kst) (A : list bptr) (fp n : Z) (s' : kst) (A' : list bptr) (Q' : bptr -> list bptr) : Prop := {
  ri_umem : umem s' = from_file s (f_inode (files s fp)) (f_offset (files s fp)) (u_arg (u s) 1) n (umem s);
  ri_user : u s' = (advanced n (asked (files s fp) (u s))) <| r_val1 := n |>;
  ri_files : files s' = files (setf_ fp (fun f => f <| f_offset ::= fun o => o + n |>) s);
  ri_inode : exists l, inodes s' = inodes (seti (f_inode (files s fp)) (fun r => r <| i_flag ::= fun x => setf x IACC |> <| i_lastr := l |>) s);
  ri_rest : reread (called s s') A s' A' Q';
  ri_whole : no_resid s'
}.

Lemma others_files s s' : others s' = others s -> files s' = files s.
Proof. unfold others. intros H. injection H. done. Qed.

Lemma read_ok s A Q fp : open_for s FREAD fp -> fd_wanted s fp -> resting s A Q (f_inode (files s fp)) ->
  0 <= i_size (inodes s (f_inode (files s fp))) <= MAXFILE ->
  exists s' A' Q', read s = Ret tt s' /\
    read_into s A fp (Z.max 0 (Z.min (u_arg (u s) 2) (i_size (inodes s (f_inode (files s fp))) - f_offset (files s fp)))) s' A' Q'.
Proof.
  intros O W R Hsz. set (ip := f_inode (files s fp)) in *. set (n := Z.max 0 _). pose proof O as [O1 O2 O3 O4 O5 O6 O7]. fold ip in O5, O6, O7.
  destruct (asked_fields s fp W) as (Eb&Eo&Ec&Ww). pose proof W as [_ Wo Wc _]. set (s0 := lock ip (setu (asked (files s fp)) s)).
  assert (inodes s0 ip = (inodes s ip) <| i_flag ::= fun x => setf x ILOCK |>) as Ei by apply locked_inode.
  assert (u s0 = asked (files s fp) (u s)) as Eu by done.
  destruct (readi_ok s0 A Q ip) as (s1&A1&Q1&E1&H1); rewrite ?Eu, ?Ei; try done.
  { by apply locked_resting. }
  { by destruct O5 as [H|H]; cbn; rewrite H. }
  { by destruct O5 as [H|H]; cbn; rewrite H. }
  rewrite Eu, Ei, Ec, Eo in H1. change (i_size (_ <| i_flag ::= _ |>)) with (i_size (inodes s ip)) in H1. fold n in H1.
  pose proof H1 as [M1 M2 [l M3] M4 M5]. rewrite Eu, Eb, Eo in *. unfold MAXFILE in Hsz.
  assert (others s1 = others (touched s0 s1)) as Ho by apply M4. assert (files s1 = files s) as Ef by exact (others_files _ _ Ho).
  assert (inodes s1 ip = (inodes s ip) <| i_flag ::= fun x => setf (setf x ILOCK) IACC |> <| i_lastr := l |>) as Ei1
    by (rewrite M3, seti_inodes, decide_True by done; by rewrite Ei).
  assert (read s = Ret tt (told fp n (unlock ip s1))) as Er.
  { eapply rdwr_ok; try done; try lia; fold ip.
    - by rewrite Ei1.
    - rewrite Ei1. by apply wanted_flag. }
  exists (told fp n (unlock ip s1)), A1, Q1. split; [done|]. split.
  - change (umem (told fp n (unlock ip s1))) with (umem s1). rewrite M1. extensionality a. unfold from_file.
    change (umem s0) with (umem s). fold ip. unfold s0. by rewrite locked_byte by apply R.
  - change (u (told fp n (unlock ip s1))) with ((u s1) <| r_val1 := n |>). by rewrite M2.
  - change (files (told _ _ _)) with (files (setf_ fp (fun f => f <| f_offset ::= fun o => o + n |>) s1)).
    unfold setf_, update_with. cbn. by rewrite Ef.
  - exists l. fold ip. rewrite <- (unlock_read s ip (asked (files s fp)) l O6). fold s0.
    change (inodes (told fp n (unlock ip s1))) with (inodes (unlock ip s1)). extensionality i. unfold unlock.
    by rewrite !(seti_inodes ip (fun r => r <| i_flag ::= fun f => clrf f ILOCK |>)), M3.
  - eapply reread_frame; [exact M4|done..|]. revert Ho. clear. unfold s0. destruct s, s1. unfold others. cbn. intros H. injection H. intros. by subst.
  - exact M5.
Qed.

(** ** write *)

Lemma visits_same s s' ip bn : same_blocks s s' -> usable (i_dev (inodes s ip)) -> i_dev (inodes s' ip) = i_dev (inodes s ip) ->
  i_addr (inodes s' ip) = i_addr (inodes s ip) -> file_visits s' ip bn = file_visits s ip bn.
Proof.
  intros H Us Ed Ea. unfold file_visits. rewrite Ed, Ea. destruct (place bn) as [[[a k] x]|]; [|done].
  apply walk_visits; [|apply digits_range]. intros b _. apply H, Us.
Qed.
Lemma sound_same s s' ip : same_blocks s s' -> usable (i_dev (inodes s ip)) -> i_dev (inodes s' ip) = i_dev (inodes s ip) ->
  i_addr (inodes s' ip) = i_addr (inodes s ip) -> sound_file s ip -> sound_file s' ip.
Proof.
  intros H Us Ed Ea [H1 H2]. split; intros bn bn' b; rewrite ?(visits_same s s'), !(file_block_same s s') by done; [apply H1|apply H2].
Qed.
Lemma mapped_same s s' ip off n : same_blocks s s' -> usable (i_dev (inodes s ip)) -> i_dev (inodes s' ip) = i_dev (inodes s ip) ->
  i_addr (inodes s' ip) = i_addr (inodes s ip) -> mapped s ip off n -> mapped s' ip off n.
Proof. intros H Us Ed Ea Hm bn Hbn. rewrite (file_block_same s s') by done. by apply Hm. Qed.

Lemma resting_same s s' A Q ip : bufs s' = bufs s -> disk s' = disk s -> i_dev (inodes s' ip) = i_dev (inodes s ip) -> resting s A Q ip -> resting s' A Q ip.
Proof.
  intros Eb Ed Ei [R1 R2 R3 R4 R5 R6]. split; rewrite ?Ei; try done.
  - by eapply cache_bufs.
  - intros blk x Hx. rewrite Eb. by apply R4.
  - intros x. rewrite Eb. apply R5.
  - intros blk. rewrite (content_bufs s s') by done. apply R6.
Qed.

(** Through the file [fp], [n] bytes have been written. *)
Record written_from (s : kst) (A : list bptr) (fp n : Z) (s' : kst) (A' : list bptr) (Q' : bptr -> list bptr) : Prop := {
  wf_bytes : forall o, file_byte s' (f_inode (files s fp)) o =
    if decide (f_offset (files s fp) <= o < f_offset (files s fp) + n) then umem s (u_arg (u s) 1 + (o - f_offset (files s fp)))
    else file_byte s (f_inode (files s fp)) o;
  wf_elsewhere : forall dv bk, dv <> NODEV ->
    ~ (dv = i_dev (inodes s (f_inode (files s fp))) /\ exists bn, file_block s (f_inode (files s fp)) bn = Some bk) ->
    agree 0 512 (content s' dv bk) (content s dv bk);
  wf_user : u s' = (advanced n (asked (files s fp) (u s))) <| r_val1 := n |>;
  wf_umem : umem s' = umem s;
  wf_files : files s' = files (setf_ fp (fun f => f <| f_offset ::= fun o => o + n |>) s);
  wf_inode : inodes s' = inodes (seti (f_inode (files s fp)) (grown (f_offset (files s fp) + n)) s);
  wf_others : others s' = others (called s s');
  wf_resting : resting s' A' Q' (f_inode (files s fp));
  wf_sound : sound_file s' (f_inode (files s fp))
}.

Lemma unlock_grown s ip f e : has (i_flag (inodes s ip)) ILOCK = false ->
  inodes (unlock ip (seti ip (grown e) (lock ip (setu f s)))) = inodes (seti ip (grown e) s).
Proof.
  intros H. extensionality i. unfold unlock, lock. rewrite !seti_inodes. destruct (decide (ip = i)) as [<-|]; [|done].
  rewrite !decide_True by done. unfold grown, update_with. cbn -[setf clrf Z.ltb Z.lor]. by rewrite clr_set_set.
Qed.

Lemma write_ok s A Q fp : open_for s FWRITE fp -> fd_wanted s fp -> let ip := f_inode (files s fp) in resting s A Q ip ->
  sound_file s ip -> mapped s ip (f_offset (files s fp)) (u_arg (u s) 2) -> bytes_in (u_arg (u s) 1) (u_arg (u s) 2) (umem s) ->
  f_offset (files s fp) + u_arg (u s) 2 < 2147483648 ->
  exists s' A' Q', write s = Ret tt s' /\ written_from s A fp (u_arg (u s) 2) s' A' Q'.
Proof.
  intros O W ip R Hs Hmap Hum Hend. pose proof O as [O1 O2 O3 O4 O5 O6 O7]. fold ip in O5, O6, O7. set (n := u_arg (u s) 2) in *.
  destruct (asked_fields s fp W) as (Eb&Eo&Ec&Ww). pose proof W as [_ Wo Wc _]. fold n in Ec, Wc. set (s0 := lock ip (setu (asked (files s fp)) s)).
  assert (inodes s0 ip = (inodes s ip) <| i_flag ::= fun x => setf x ILOCK |>) as Ei by apply locked_inode.
  assert (u s0 = asked (files s fp) (u s)) as Eu by done.
  assert (same_blocks s s0) as Hsb by (by apply same_blocks_bufs). pose proof (re_dev _ _ _ _ R) as Us.
  assert (i_dev (inodes s0 ip) = i_dev (inodes s ip) /\ i_addr (inodes s0 ip) = i_addr (inodes s ip)) as [Eid Eia] by (by rewrite Ei).
  destruct (writei_ok s0 A Q ip) as (s1&A1&Q1&E1&H1); rewrite ?Eu, ?Eb, ?Eo, ?Ec; try done.
  { by apply locked_resting. }
  { by rewrite Ei. }
  { by apply (sound_same s s0). }
  { by apply (mapped_same s s0). }
  rewrite Eu, Ec in H1. pose proof H1 as [M1 M2 M3 M4 M5 M6 M7 M8 M9 M10 M11]. rewrite Eu, Eo in *. rewrite Eb in M1.
  assert (files s1 = files s) as Ef by exact (others_files _ _ M7).
  assert (inodes s1 ip = grown (f_offset (files s fp) + n) (inodes s0 ip)) as Ei1 by (by rewrite M6, seti_inodes, decide_True).
  set (s2 := told fp n (unlock ip s1)).
  assert (write s = Ret tt s2) as Er.
  { eapply rdwr_ok; try done; try lia; fold ip n; try lia.
    - by rewrite Ei1, Ei.
    - rewrite Ei1, Ei. change (has (setf (setf (i_flag (inodes s ip)) ILOCK) (Z.lor IUPD ICHG)) IWANT = false). by rewrite !has_setf, O7. }
  assert (inodes s2 = inodes (seti ip (grown (f_offset (files s fp) + n)) s)) as Ei2.
  { rewrite <- (unlock_grown s ip (asked (files s fp))) by done. fold s0. change (inodes s2) with (inodes (unlock ip s1)). extensionality i. unfold unlock.
    by rewrite !(seti_inodes ip (fun r => r <| i_flag ::= fun f => clrf f ILOCK |>)), M6. }
  assert (same_blocks s1 s2) as Hsb2 by (by apply same_blocks_bufs).
  assert (i_dev (inodes s2 ip) = i_dev (inodes s1 ip) /\ i_addr (inodes s2 ip) = i_addr (inodes s1 ip)) as [Eid2 Eia2]
    by (rewrite Ei2, Ei1, seti_inodes, decide_True, Ei by done; done).
  assert (usable (i_dev (inodes s1 ip))) as Us1 by apply M10.
  exists s2, A1, Q1. split; [done|]. split; fold ip.
  - intros o. rewrite (file_byte_same s1 s2), M1 by done. change (umem s0) with (umem s). by rewrite (file_byte_same s s0).
  - intros dv bk Hdv Hne. rewrite (content_bufs s1 s2) by done. rewrite <- (content_bufs s s0) by done. apply M3; [done|].
    rewrite Eid. intros [-> [bn Hbn]]. apply Hne. split; [done|]. exists bn. by rewrite (file_block_same s s0) in Hbn by done.
  - change (u s2) with ((u s1) <| r_val1 := n |>). by rewrite M4.
  - exact M5.
  - unfold s2. change (files (told _ _ _)) with (files (setf_ fp (fun f => f <| f_offset ::= fun o => o + n |>) s1)).
    unfold setf_, update_with. cbn. by rewrite Ef.
  - exact Ei2.
  - revert M7. clear. unfold s2, s0. destruct s, s1. unfold others. cbn. intros H. injection H. intros. by subst.
  - by apply (resting_same s1).
  - by apply (sound_same s1).
Qed.

(** ** Permissions *)

Definition allowed (us : user) (r : inode) (mode : Z) : bool := (u_uid us =? 0) || has (i_mode r) (access_bits us r mode).
Definition denied (r : inode) (mode : Z) (us : user) : user := if allowed us r mode then us else us <| u_error := EACCES |>.

Lemma denied_eq r mode us : denied r mode us = us <| u_error := if allowed us r mode then u_error us else EACCES |>.
Proof. unfold denied. destruct (allowed us r mode); [by destruct us|done]. Qed.
Lemma setu_setu f g s : setu f (setu g s) = setu (fun us => f (g us)) s.
Proof. done. Qed.

(** The device may be written on. *)
Definition fs_good (s : kst) (dev : Z) (fp : bptr) : Prop :=
  getfs_scan s dev = Some fp /\ s_nfree (b_data (bufs s fp)) <= NICFREE /\ s_ninode (b_data (bufs s fp)) <= NICINOD /\
  s_ronly (b_data (bufs s fp)) = 0.
Lemma fs_good_same s s' dev fp : mounts s' = mounts s -> b_data (bufs s' fp) = b_data (bufs s fp) -> fs_good s dev fp -> fs_good s' dev fp.
Proof. intros Em Eb (H1&H2&H3&H4). unfold fs_good, getfs_scan. by rewrite Em, Eb. Qed.
Lemma fs_good_getfs s dev fp : fs_good s dev fp -> getfs dev s = Ret fp s.
Proof.
  intros (H1&H2&H3&H4). unfold getfs. krun. rewrite H1. krun. replace (NICFREE <? _) with false by lia. by replace (NICINOD <? _) with false by lia.
Qed.
(** The inode may be written, as far as that is not a matter of permissions. *)
Definition may_write (s : kst) (ip : Z) : Prop :=
  has (i_flag (inodes s ip)) ITEXT = false /\ exists fp, fs_good s (i_dev (inodes s ip)) fp.

Lemma setu_id f s : f (u s) = u s -> setu f s = s.
Proof. intros E. unfold setu, update_with. rewrite E. by destruct s. Qed.

Lemma access_ok ip mode s : (mode = IWRITE -> may_write s ip) ->
  access ip mode s = Ret (negb (allowed (u s) (inodes s ip) mode)) (setu (denied (inodes s ip) mode) s).
Proof.
  intros Hw. unfold access. rewrite (bind_ret _ _ _ false s).
  2: { destruct (Z.eqb_spec mode IWRITE) as [E|E]; [|done]. destruct (Hw E) as (Ht&fp&Hf). krun. rewrite (bind_ret _ _ _ _ _ (fs_good_getfs _ _ _ Hf)). krun.
    destruct Hf as (_&_&_&->). cbn [Z.eqb negb]. krun. rewrite Ht. cbn [when]. krun. by rewrite Ht. }
  assert (denied (inodes s ip) mode (u s) = if allowed (u s) (inodes s ip) mode then u s else (u s) <| u_error := EACCES |>) as Ed by done.
  krun. unfold allowed in *. destruct (u_uid (u s) =? 0); cbn [orb] in *; [by rewrite setu_id|].
  krun. destruct (has (i_mode (inodes s ip)) _); [by rewrite setu_id|].
  krun. cbn [negb]. rewrite k_mret. f_equal. by apply setu_at.
Qed.

(** The error of [open1]: what the inode does not allow. *)
Definition open_error (us : user) (r : inode) (mode : Z) : Z :=
  if has mode FWRITE && is_dir r then EISDIR
  else if (has mode FREAD && negb (allowed us r IREAD)) || (has mode FWRITE && negb (allowed us r IWRITE)) then EACCES
  else u_error us.

(** The checks of [open1]. *)
Definition open_checks (ip mode : Z) : M unit :=
  when (has mode FREAD) (access ip IREAD;; mret tt);;
  when (has mode FWRITE)
    (access ip IWRITE;;
     r ← geti ip;
     when (Z.land (i_mode r) IFMT =? IFDIR) (err EISDIR)).

Lemma allowed_error us e r m : allowed (us <| u_error := e |>) r m = allowed us r m.
Proof. done. Qed.
Lemma open_checks_ok ip mode s : (has mode FWRITE = true -> may_write s ip) ->
  open_checks ip mode s = Ret tt (setu (fun us => us <| u_error := open_error us (inodes s ip) mode |>) s).
Proof.
  intros Hw. unfold open_checks, open_error. set (r := inodes s ip).
  set (e1 := if has mode FREAD && negb (allowed (u s) r IREAD) then EACCES else u_error (u s)).
  set (s1 := setu (fun us => us <| u_error := e1 |>) s).
  rewrite (bind_ret _ _ _ tt s1).
  2: { unfold s1, e1. destruct (has mode FREAD); cbn [when andb].
    - rewrite (bind_ret _ _ _ _ _ (access_ok ip IREAD s ltac:(done))). rewrite k_mret. f_equal. apply setu_at. unfold denied. fold r.
      destruct (allowed (u s) r IREAD); [by destruct (u s)|done].
    - rewrite setu_id; [done|by destruct (u s)]. }
  destruct (has mode FWRITE) eqn:Ew; cbn [when andb orb].
  - assert (may_write s1 ip) as Hw1.
    { destruct (Hw eq_refl) as (Ht&fp&Hf). split; [done|]. exists fp. by apply (fs_good_same s). }
    rewrite (bind_ret _ _ _ _ _ (access_ok ip IWRITE s1 ltac:(done))). krun. change (inodes (setu _ s1)) with (inodes s). fold r. fold (is_dir r).
    destruct (is_dir r); cbn [when].
    + unfold err, modu. rewrite k_modify_ret. f_equal. unfold s1. rewrite !setu_setu. apply setu_at. cbv beta. by rewrite denied_eq.
    + rewrite k_mret. f_equal. change (inodes s1 ip) with r. unfold s1. rewrite !setu_setu. apply setu_at. cbv beta. rewrite denied_eq, allowed_error.
      unfold e1. destruct (has mode FREAD), (allowed (u s) r IREAD), (allowed (u s) r IWRITE); done.
  - rewrite k_mret. f_equal. apply setu_at. cbv beta. unfold e1. by destruct (has mode FREAD), (allowed (u s) r IREAD).
Qed.

(** ** open *)

Lemma seti_at ip f g s : f (inodes s ip) = g (inodes s ip) -> seti ip f s = seti ip g s.
Proof. intros E. unfold seti, update_with. cbn. by rewrite E. Qed.
Lemma set_clr_set f m : setf (clrf f m) m = setf f m.
Proof.
  unfold setf, clrf. apply Z.bits_inj'. intros n Hn. rewrite !Z.lor_spec, Z.land_spec, Z.lnot_spec by lia.
  by destruct (Z.testbit f n), (Z.testbit m n).
Qed.
Lemma clr_clr f m : clrf (clrf f m) m = clrf f m.
Proof. unfold clrf. by rewrite <- Z.land_assoc, Z.land_diag. Qed.
Lemma has_clrf_false f m m' : has f m' = false -> has (clrf f m) m' = false.
Proof.
  unfold has, clrf. intros H%negb_false_iff%Z.eqb_eq. apply negb_false_iff, Z.eqb_eq.
  rewrite <- Z.land_assoc, (Z.land_comm (Z.lnot m)), Z.land_assoc, H. apply Z.land_0_l.
Qed.

(** [iput] of an inode that is not locked any more does the same. *)
Lemma iput_unlocked ip s : has (i_flag (inodes s ip)) IWANT = false -> iput ip (unlock ip s) = iput ip s.
Proof.
  intros Hw. assert (inodes (unlock ip s) ip = (inodes s ip) <| i_flag ::= fun f => clrf f ILOCK |>) as E
    by (unfold unlock; by rewrite seti_inodes, decide_True).
  unfold iput. krun. rewrite E. change (i_count (_ <| i_flag ::= _ |>)) with (i_count (inodes s ip)).
  destruct (i_count (inodes s ip) =? 1).
  - rewrite !k_when_true by done. rewrite !k_bind_bind. krun. rewrite !k_bind_bind.
    assert (seti ip (fun r => r <| i_flag ::= fun f => setf f ILOCK |>) (unlock ip s) = seti ip (fun r => r <| i_flag ::= fun f => setf f ILOCK |>) s) as ->; [|done].
    unfold unlock. rewrite seti_seti. apply seti_at. unfold update_with. cbn -[setf clrf]. by rewrite set_clr_set.
  - rewrite !k_when_false by done. krun. unfold unlock. rewrite !prele_quiet; rewrite ?seti_inodes, ?decide_True by done; cbn; try done.
    2: { by apply has_clrf_false. }
    f_equal. rewrite !seti_seti. apply seti_at. unfold update_with. cbn -[setf clrf u8]. by rewrite clr_clr.
Qed.

(** From [s] on a file has been opened, or not: the inodes, files, descriptors and
    the kernel's own memory may be new. *)
Definition opening (s s' : kst) : kst := (led s s') <| files := files s' |>.
Record open_rest (s : kst) (A : list bptr) (s' : kst) (A' : list bptr) (Q' : bptr -> list bptr) : Prop := {
  or_reread : reread (opening s s') A s' A' Q';
  or_whole : no_resid s'
}.
Lemma walking_open s A s1 A1 Q1 s2 : walking s A s1 A1 Q1 ->
  bufs s2 = bufs s1 -> disk s2 = disk s1 -> others s2 = others (s1 <| inodes := inodes s2 |> <| u := u s2 |> <| files := files s2 |>) ->
  open_rest s A s2 A1 Q1.
Proof.
  intros [R Hr] Eb Ed Ho. split.
  - eapply reread_frame; [exact R|done..|]. pose proof (rr_others _ _ _ _ _ R) as Hr1. revert Ho Hr1. clear. destruct s, s1, s2. unfold others.
    cbn. intros H1 H2. injection H1. injection H2. intros. by subst.
  - intros x. rewrite Eb. apply Hr.
Qed.

(** The call has failed: nothing is held. *)
Definition refused (s : kst) (e : Z) (s' : kst) : Prop :=
  u_error (u s') = e /\ same_table s s' /\ files s' = files s /\ u_ofile (u s') = u_ofile (u s).
(** Descriptor [i] is open, through the file [fp], on the inode [ino]: the inode has
    one more reference and is not locked. *)
Definition opened (s : kst) (dev ino mode i fp : Z) (s' : kst) : Prop :=
  exists ip, taken s dev ino ip (lock ip s') /\
    has (i_flag (inodes s' ip)) ILOCK = false /\ has (i_flag (inodes s' ip)) IWANT = false /\
    files s' = <[fp := MkFile mode 1 ip 0]> (files s) /\ u_ofile (u s') = <[i := Some fp]> (u_ofile (u s)) /\
    r_val1 (u s') = i /\ u_error (u s') = 0.
(** What opening an inode comes to. *)
Definition open_outcome (s : kst) (dev ino mode : Z) (s' : kst) : Prop :=
  let e := open_error (u s) (the_inode s dev ino) mode in
  if e =? 0 then
    match free_fd s with
    | None => refused s EMFILE s'
    | Some i => match free_file s with None => refused s ENFILE s' | Some fp => opened s dev ino mode i fp s' end
    end
  else refused s e s'.

Lemma taken_flags s dev ino ip s1 : itab s -> no_locks s -> ino <> 0 -> taken s dev ino ip s1 ->
  exists f, i_flag (inodes s1 ip) = setf f ILOCK /\ has f ILOCK = false /\ has f IWANT = false /\
    (forall m, (forall i, 0 <= i < NINODE -> i_count (inodes s i) <> 0 -> has (i_flag (inodes s i)) m = false) -> has ILOCK m = false -> has f m = false).
Proof.
  intros Hit Hl Hino [_ _ _ _ He]. destruct (iget_hit s dev ino) as [ip'|] eqn:Eh.
  - destruct He as [-> Ei]. destruct (hit_used s dev ino ip Hit Hino Eh) as (Hip&_&_&Hc). destruct (Hl ip Hip Hc) as (L1&_&L3).
    exists (i_flag (inodes s ip)). rewrite Ei. split; [done|]. split; [done|]. split; [done|]. intros m Hm _. by apply Hm.
  - destruct He as (_&_&Ef). exists 0. split; [done|]. by split_and!.
Qed.

Lemma taken_unlocked s dev ino ip s1 s2 : taken s dev ino ip s1 -> (exists f, i_flag (inodes s1 ip) = setf f ILOCK) -> inodes s2 = inodes (unlock ip s1) ->
  taken s dev ino ip (lock ip s2).
Proof.
  intros T [f Hf] Ei. apply (taken_inodes _ _ _ _ s1); [done|]. extensionality i. unfold lock. rewrite seti_inodes, Ei. unfold unlock.
  rewrite !seti_inodes. destruct (decide (ip = i)) as [<-|]; [|done]. rewrite decide_True by done. revert Hf. destruct (inodes s1 ip).
  unfold update_with. cbn. intros ->. by rewrite set_clr_set, setf_setf.
Qed.

Lemma mode_land mode : 1 <= mode <= 3 -> Z.land mode (Z.lor FREAD FWRITE) = mode.
Proof. intros H. assert (mode = 1 \/ mode = 2 \/ mode = 3) as [->|[->| ->]] by lia; done. Qed.

Lemma alike_open us us' r r' mode : u_uid us' = u_uid us -> u_gid us' = u_gid us -> u_error us' = u_error us -> alike r r' ->
  open_error us' r' mode = open_error us r mode.
Proof.
  intros E1 E2 E3 Ha. unfold open_error, is_dir, allowed, access_bits. by rewrite E1, E2, E3, (al_mode _ _ Ha), (al_uid _ _ Ha), (al_gid _ _ Ha).
Qed.

(** The device can be written on, and no program is running from its files. *)
Definition writable (s : kst) (A : list bptr) (dev : Z) : Prop :=
  (forall i, 0 <= i < NINODE -> i_count (inodes s i) <> 0 -> has (i_flag (inodes s i)) ITEXT = false) /\
  exists fp, isbuf fp /\ (fp ∉ A) /\ fs_good s dev fp.

Lemma writable_may s A Q dev ino ip s1 A1 Q1 : quiet_fs s A Q dev -> walking s A s1 A1 Q1 -> taken s dev ino ip s1 -> ino <> 0 -> writable s A dev ->
  may_write s1 ip.
Proof.
  intros HQ W T Hino [Ht (fp&H1&H2&H3)]. split.
  - destruct (taken_flags s dev ino ip s1) as (f&->&_&_&Hm); [apply HQ..|done|done|]. rewrite has_setf. by rewrite Hm.
  - exists fp. rewrite (al_dev _ _ (tk_inode _ _ _ _ _ T)), (proj1 (the_inode_ids s dev ino (q_itab _ _ _ _ HQ) Hino)).
    apply (fs_good_same s); [apply (walking_mounts _ _ _ _ _ W)| |done].
    by destruct (rr_busy _ _ _ _ _ (wk_rest _ _ _ _ _ W) fp H1 H2) as (_&_&_&Ed).
Qed.

Lemma openi_file ip rw s : Z.land (i_mode (inodes s ip)) IFMT = IFDIR \/ Z.land (i_mode (inodes s ip)) IFMT = IFREG -> openi ip rw s = Ret tt s.
Proof. intros H. unfold openi. krun. by destruct H as [-> | ->]. Qed.

(** The refusal of [open1]: the inode, locked or not, is given back. *)
Lemma refuse_ok s A Q dev ino ip e s1 A1 Q1 s2 : quiet_fs s A Q dev -> walking s A s1 A1 Q1 -> taken s dev ino ip s1 -> ino <> 0 ->
  0 < i_nlink (the_inode s dev ino) -> inodes s2 = inodes s1 \/ inodes s2 = inodes (unlock ip s1) ->
  bufs s2 = bufs s1 -> disk s2 = disk s1 -> others s2 = others (s1 <| inodes := inodes s2 |> <| u := u s2 |>) ->
  u_error (u s2) = e -> files s2 = files s -> u_ofile (u s2) = u_ofile (u s) ->
  exists s3, iput ip s2 = Ret tt s3 /\ open_rest s A s3 A1 Q1 /\ refused s e s3.
Proof.
  intros HQ W T Hino Hn Hi Eb Ed Ho He Hf Hof. destruct (taken_flags s dev ino ip s1) as (f&Ef&Hl&Hw&_); [apply HQ..|done|done|].
  assert (exists t, taken s dev ino ip t /\ iput ip s2 = iput ip t /\ bufs t = bufs s2 /\ disk t = disk s2 /\ u t = u s2 /\ files t = files s2 /\
    others t = others (s2 <| inodes := inodes t |>)) as (t&Tt&->&Ebt&Edt&Eut&Eft&Hot).
  { destruct Hi as [Hi|Hi].
    - exists s2. split; [by apply (taken_inodes _ _ _ _ s1)|]. by split_and!.
    - exists (lock ip s2). split; [apply (taken_unlocked _ _ _ _ s1); [done|by eexists|done]|]. split; [|done].
      rewrite <- (iput_unlocked ip (lock ip s2)).
      + f_equal. unfold unlock, lock. rewrite seti_seti. symmetry. etransitivity; [apply (seti_at _ _ (fun r => r))|].
        * assert (exists g, i_flag (inodes s2 ip) = clrf g ILOCK) as [g Hg] by (rewrite Hi; unfold unlock; rewrite seti_inodes, decide_True by done; by eexists).
          revert Hg. destruct (inodes s2 ip). unfold update_with. cbn -[setf clrf]. intros ->. f_equal.
          apply Z.bits_inj'. intros n Hn'. unfold setf, clrf. rewrite !Z.land_spec, Z.lor_spec, !Z.land_spec, Z.lnot_spec by lia.
          by destruct (Z.testbit g n), (Z.testbit ILOCK n).
        * unfold seti, update_with. destruct s2. cbn. f_equal. by apply fn_same.
      + unfold lock. rewrite seti_inodes, decide_True, Hi by done. unfold unlock. rewrite seti_inodes, decide_True by done. cbn. rewrite Ef.
        rewrite has_setf. rewrite has_clrf_false; [done|]. by rewrite has_setf, Hw. }
  destruct (iput_ok s A Q dev ino ip t HQ Hino Tt Hn) as (s3&E3&Ht3&Es3). exists s3. split; [done|].
  assert (bufs s3 = bufs t /\ disk s3 = disk t /\ u s3 = u t /\ files s3 = files t) as (E3b&E3d&E3u&E3f) by (by rewrite Es3).
  split.
  - eapply walking_open; [exact W|by rewrite E3b, Ebt|by rewrite E3d, Edt|]. rewrite Es3. revert Ho Hot Eut. clear. destruct s1, s2, t. unfold others. cbn.
    intros H1 H2 ->. injection H1. injection H2. intros. by subst.
  - split; [by rewrite E3u, Eut|]. split; [done|]. split; [by rewrite E3f, Eft|by rewrite E3u, Eut].
Qed.

Lemma open1_ok s A Q dev ino ip mode s1 A1 Q1 : quiet_fs s A Q dev -> walking s A s1 A1 Q1 -> taken s dev ino ip s1 -> ino <> 0 ->
  0 < i_nlink (the_inode s dev ino) -> u_error (u s) = 0 ->
  u_error (u s1) = 0 -> u_uid (u s1) = u_uid (u s) -> u_gid (u s1) = u_gid (u s) -> u_ofile (u s1) = u_ofile (u s) ->
  Z.land (i_mode (the_inode s dev ino)) IFMT = IFDIR \/ Z.land (i_mode (the_inode s dev ino)) IFMT = IFREG ->
  1 <= mode <= 3 -> (has mode FWRITE = true -> writable s A dev) ->
  exists s2, open1 ip mode 0 s1 = Ret tt s2 /\ open_rest s A s2 A1 Q1 /\ open_outcome s dev ino mode s2.
Proof.
  intros HQ W T Hino Hn He0 He1 Hu Hg Hof Hty Hmode Hwr. pose proof (tk_inode _ _ _ _ _ T) as Hal.
  assert (files s1 = files s) as Ef by (pose proof (rr_others _ _ _ _ _ (wk_rest _ _ _ _ _ W)) as Ho; exact (others_files _ _ Ho)).
  destruct (taken_flags s dev ino ip s1) as (f&Eif&Hl&Hw&_); [apply HQ..|done|done|].
  set (e := open_error (u s) (the_inode s dev ino) mode).
  assert (open_error (u s1) (inodes s1 ip) mode = e) as Ee by (apply alike_open; congruence || done).
  set (s2 := setu (fun us => us <| u_error := e |>) s1).
  assert (open_checks ip mode s1 = Ret tt s2) as Ec.
  { rewrite open_checks_ok by (intros Hm; by eapply writable_may; [..|apply Hwr]). f_equal. apply setu_at. by rewrite Ee. }
  unfold open1. change (0 =? 2) with false. cbn [negb]. rewrite k_when_true by done. fold (open_checks ip mode).
  rewrite (bind_ret _ _ _ _ _ Ec). krun. change (u_error (u s2)) with e. unfold open_outcome. fold e.
  destruct (e =? 0) eqn:E0; cbn [negb].
  2: { destruct (refuse_ok s A Q dev ino ip e s1 A1 Q1 s2) as (s3&E3&R3&F3); try done; [by left|]. by exists s3. }
  assert (s2 = s1) as -> by (apply setu_id; cbv beta; replace e with (u_error (u s1)) by lia; by destruct (u s1)).
  change (0 =? 1) with false. rewrite k_when_false by done.
  assert (has (i_flag (inodes s1 ip)) IWANT = false) as Hw1 by (rewrite Eif, has_setf; by rewrite Hw).
  rewrite (bind_ret _ _ _ _ _ (prele_quiet ip s1 Hw1)). fold (unlock ip s1).
  assert (free_fd (unlock ip s1) = free_fd s /\ free_file (unlock ip s1) = free_file s) as [Efd Eff].
  { unfold free_fd, free_file. change (u (unlock ip s1)) with (u s1). change (files (unlock ip s1)) with (files s1). by rewrite Hof, Ef. }
  unfold mbind at 1, K_bind at 1. rewrite falloc_eq, Efd, Eff. destruct (free_fd s) as [i|]; [destruct (free_file s) as [fp|] eqn:Effs|]; cbn [obind].
  - krun. set (s3 := setf_ fp _ (setf_ fp _ (filed i fp (unlock ip s1)))).
    assert (inodes s3 = inodes (unlock ip s1)) as Ei3 by done.
    assert (openi ip (Z.land mode FWRITE) s3 = Ret tt s3) as Eo.
    { apply openi_file. rewrite Ei3. unfold unlock. rewrite seti_inodes, decide_True by done. change (i_mode (_ <| i_flag ::= _ |>)) with (i_mode (inodes s1 ip)).
      by rewrite (al_mode _ _ Hal). }
    rewrite (bind_ret _ _ _ _ _ Eo). krun. change (u_error (u s3)) with (u_error (u s1)). rewrite He1. cbn [Z.eqb].
    exists s3. split; [done|]. split.
    + eapply walking_open; [exact W|done|done|]. unfold s3. destruct s1. done.
    + exists ip. split; [apply (taken_unlocked _ _ _ _ s1); [done|by eexists|done]|]. rewrite Ei3. unfold unlock. rewrite seti_inodes, decide_True by done.
      change (i_flag (_ <| i_flag ::= _ |>)) with (clrf (i_flag (inodes s1 ip)) ILOCK). split; [|split; [by apply has_clrf_false|]].
      { rewrite Eif, clr_set by done. done. }
      split; [|split; [|done]].
      * pose proof (free_file_spec s) as Hff. rewrite Effs in Hff. destruct Hff as (_&Hc&_).
        unfold s3, filed. rewrite !setf_twice. unfold setf_, update_with. change (files (setu _ (unlock ip s1))) with (files s1). rewrite Ef. cbn -[u8]. f_equal.
        rewrite Hc, mode_land by done. done.
      * change (u_ofile (u s3)) with (<[i:=Some fp]> (u_ofile (u s1))). by rewrite Hof.
  - match goal with |- context [iput ip ?t] => destruct (refuse_ok s A Q dev ino ip ENFILE s1 A1 Q1 t) as (s3&E3&R3&F3); try done; [by right|] end. by exists s3.
  - match goal with |- context [iput ip ?t] => destruct (refuse_ok s A Q dev ino ip EMFILE s1 A1 Q1 t) as (s3&E3&R3&F3); try done; [by right|] end. by exists s3.
Qed.

Lemma sound_last n C N us ino ws ino' : sound_path n C N us ino ws -> resolve C N us ino ws = inl ino' -> 0 < i_nlink (N ino').
Proof.
  revert ino. induction ws as [|w ws IH]; intros ino [Hn Hs] E; cbn in E; [by injection E as <-|].
  unfold step in E. destruct (may_search us (N ino)); [|done]. destruct (is_dir (N ino)); [|done]. cbn [negb] in E.
  destruct (Hs eq_refl eq_refl) as (_&_&H). destruct (find_entry C (N ino) w); [|done]. by apply (IH _ H).
Qed.
Lemma resolve_nonzero C N us ino ws ino' : ino <> 0 -> resolve C N us ino ws = inl ino' -> ino' <> 0.
Proof.
  revert ino. induction ws as [|w ws IH]; intros ino Hi E; cbn in E; [by injection E as <-|].
  destruct (step C us (N ino) w) as [ino2|] eqn:Es; [|done]. apply (IH ino2); [|done]. unfold step in Es.
  destruct (may_search us (N ino)); [|done]. destruct (is_dir (N ino)); [|done]. cbn in Es. destruct (find_entry C (N ino) w) eqn:Ef; [|done].
  injection Es as <-. by eapply find_entry_ino.
Qed.

(** What the path leads to. *)
Definition led_to (s : kst) (l : list Z) : Z + Z :=
  let dp := start s l in let dev := i_dev (inodes s dp) in
  resolve (content s dev) (the_inode s dev) (u s) (i_number (inodes s dp)) (words l).
Definition sound_walk (s : kst) (l : list Z) : Prop :=
  let dp := start s l in let dev := i_dev (inodes s dp) in
  sound_path (Z.of_nat fuel) (content s dev) (the_inode s dev) (u s) (i_number (inodes s dp)) (words l).

Lemma open_ok s A Q l : path_ready s A Q l -> sound_walk s l -> let dev := i_dev (inodes s (start s l)) in
  0 <= u_arg (u s) 1 <= 2 -> (has (u_arg (u s) 1 + 1) FWRITE = true -> writable s A dev) ->
  (forall ino, led_to s l = inl ino -> Z.land (i_mode (the_inode s dev ino)) IFMT = IFDIR \/ Z.land (i_mode (the_inode s dev ino)) IFMT = IFREG) ->
  exists s' A' Q', open s = Ret tt s' /\ open_rest s A s' A' Q' /\
    match led_to s l return Prop with inl ino => open_outcome s dev ino (u_arg (u s) 1 + 1) s' | inr e => refused s e s' end.
Proof.
  intros H Hs dev Hm Hw Hty. destruct (namei_ok s A Q l H Hs) as (res&s1&A1&Q1&E1&W1&L1&Ha). unfold open. rewrite (bind_ret _ _ _ _ _ E1).
  fold dev in Ha. change (resolve _ _ _ _ _) with (led_to s l) in Ha. pose proof H as [_ _ [_ Hnum] HQ _ _ He]. fold dev in HQ.
  assert (u_arg (u s1) = u_arg (u s) /\ u_ofile (u s1) = u_ofile (u s) /\ u_uid (u s1) = u_uid (u s) /\ u_gid (u s1) = u_gid (u s)) as (Ea&Eo&Eu&Eg)
    by (unfold leaves in L1; rewrite <- L1; done).
  assert (files s1 = files s) as Ef by (pose proof (rr_others _ _ _ _ _ (wk_rest _ _ _ _ _ W1)) as Ho; exact (others_files _ _ Ho)).
  unfold arrived in Ha. destruct (led_to s l) as [ino|e] eqn:El.
  - destruct Ha as (ip&->&T&He1). unfold arg, set_arg. krun. rewrite Ea. rewrite s32_id by lia.
    set (s2 := setu (fun r => r <| u_arg @ 1 := u_arg (u s) 1 + 1 |>) s1).
    assert (walking s A s2 A1 Q1) as W2 by (eapply walking_set; [exact W1|by destruct s1]).
    destruct (open1_ok s A Q dev ino ip (u_arg (u s) 1 + 1) s2 A1 Q1) as (s3&E3&R3&O3); try done; [by apply (taken_inodes _ _ _ _ s1)|by eapply resolve_nonzero|by eapply sound_last|by apply Hty|lia|by exists s3, A1, Q1].
  - destruct Ha as (->&Ht&He1). exists s1, A1, Q1. split; [done|]. split; [|done].
    eapply walking_open; [exact W1|done|done|]. by destruct s1.
Qed.

(** ** After the call *)

Lemma opening_rest s A Q dev s1 A1 Q1 ip : quiet_fs s A Q dev -> open_rest s A s1 A1 Q1 -> i_dev (inodes s1 ip) = dev -> resting s1 A1 Q1 ip.
Proof.
  intros [H1 H2 H3 H4 H5 H6 H7 H8 H9] [R Hr] Ed. split; rewrite ?Ed; [apply R| |done| |done|].
  - by rewrite (rr_avail _ _ _ _ _ R).
  - intros blk. eapply reread_unheld; [exact R|apply H4].
  - intros blk i Hi. rewrite (sb_content _ _ (rr_blocks _ _ _ _ _ R) dev blk) by (done || apply H3). by apply H6.
Qed.
Lemma opening_byte s A Q dev s1 A1 Q1 ip r o : quiet_fs s A Q dev -> open_rest s A s1 A1 Q1 -> i_dev (inodes s1 ip) = dev -> alike r (inodes s1 ip) ->
  0 <= o -> file_byte s1 ip o = rbyte (content s dev) r o.
Proof.
  intros HQ [R _] Ed Ha Ho. change (file_byte s1 ip o) with (rbyte (content s1 (i_dev (inodes s1 ip))) (inodes s1 ip) o). rewrite Ed.
  apply rbyte_same; [|done|done]. intros b. exact (sb_content _ _ (rr_blocks _ _ _ _ _ R) dev b (us_dev _ (q_dev _ _ _ _ HQ))).
Qed.

(** The process makes a call with these arguments. *)
Definition call_with (a0 a1 a2 : Z) (s : kst) : kst :=
  setu (fun us => us <| u_arg := fun i => if i =? 0 then a0 else if i =? 1 then a1 else if i =? 2 then a2 else 0 |>) s.

(** The part of [opened] that the inode has. *)
Lemma opened_inode s A Q dev ino mode i fp s' : quiet_fs s A Q dev -> ino <> 0 -> opened s dev ino mode i fp s' -> exists ip,
  f_inode (files s' fp) = ip /\ taken s dev ino ip (lock ip s') /\ alike (the_inode s dev ino) (inodes s' ip) /\ i_dev (inodes s' ip) = dev /\
  has (i_flag (inodes s' ip)) ILOCK = false /\ has (i_flag (inodes s' ip)) IWANT = false.
Proof.
  intros HQ Hino (ip&T&Hl&Hw&Hf&_). exists ip. rewrite Hf, fn_eq. split; [done|]. split; [done|].
  assert (alike (the_inode s dev ino) (inodes s' ip)) as Ha.
  { pose proof (tk_inode _ _ _ _ _ T) as Ha. unfold lock in Ha. rewrite seti_inodes, decide_True in Ha by done. by destruct Ha; split. }
  split; [done|]. split; [|done]. rewrite (al_dev _ _ Ha). by apply the_inode_ids; [apply HQ|].
Qed.

(** A file whose path is known can be read. *)
Lemma open_read_ok s A Q l ino i fp base count : path_ready s A Q l -> sound_walk s l -> let dev := i_dev (inodes s (start s l)) in
  let r := the_inode s dev ino in let n := Z.min count (i_size r) in
  u_arg (u s) 1 = 0 -> led_to s l = inl ino -> Z.land (i_mode r) IFMT = IFDIR \/ Z.land (i_mode r) IFMT = IFREG -> allowed (u s) r IREAD = true ->
  free_fd s = Some i -> free_file s = Some fp -> 0 <= i_size r <= MAXFILE -> 0 < count < 65536 -> 0 <= base -> base + count < 4294967296 ->
  exists s1, open s = Ret tt s1 /\ r_val1 (u s1) = i /\
  exists s2, read (call_with i base count s1) = Ret tt s2 /\ r_val1 (u s2) = n /\ u_error (u s2) = 0 /\
    (forall a, umem s2 a = if decide (base <= a < base + n) then rbyte (content s dev) r (a - base) else umem s a).
Proof.
  intros H Hs dev r n Hmd El Hty Hal Hfd Hff Hsz Hc Hb Hbc.
  destruct (open_ok s A Q l H Hs) as (s1&A1&Q1&E1&R1&O1); rewrite ?Hmd; [lia|done|by intros ? [= <-]%(eq_trans (eq_sym El))|].
  fold dev in O1. rewrite El in O1. unfold open_outcome in O1. fold r in O1. rewrite Hmd in O1. unfold open_error in O1.
  change (has (0 + 1) FWRITE) with false in O1. change (has (0 + 1) FREAD) with true in O1. cbn [andb orb] in O1. rewrite Hal in O1. cbn [negb orb] in O1.
  rewrite (pr_error _ _ _ _ H), Hfd, Hff in O1. cbn [Z.eqb] in O1. exists s1. split; [done|]. pose proof H as [_ _ [_ Hnum] HQ _ _ _]. fold dev in HQ.
  assert (ino <> 0) as Hino by (by eapply resolve_nonzero).
  destruct (opened_inode s A Q dev ino (0 + 1) i fp s1 HQ Hino O1) as (ip&Eip&T&Ha&Ed&Hl&Hw). fold r in Ha.
  destruct O1 as (ip'&_&_&_&Hf&Ho&Hv&He). split; [done|]. set (s1' := call_with i base count s1).
  assert (files s1' fp = MkFile 1 1 ip 0) as Ef by (change (files s1') with (files s1); rewrite <- Eip, Hf, fn_eq; done).
  assert (u_arg (u s1') 0 = i /\ u_arg (u s1') 1 = base /\ u_arg (u s1') 2 = count) as (Ea0&Ea1&Ea2) by done.
  pose proof (free_fd_spec s) as Hfs. rewrite Hfd in Hfs. destruct Hfs as [Hi _].
  destruct (read_ok s1' A1 Q1 fp) as (s2&A2&Q2&E2&R2); rewrite ?Ef.
  { split; rewrite ?Ea0, ?Ef; try done.
    - change (u_ofile (u s1')) with (u_ofile (u s1)). by rewrite Ho, fn_eq.
    - change (inodes s1' (f_inode _)) with (inodes s1 ip). by rewrite (al_mode _ _ Ha). }
  { split; rewrite ?Ea1, ?Ea2, ?Ef; try done. }
  { apply (resting_same s1); [done..|]. by apply (opening_rest s A Q dev). }
  { change (inodes s1' (f_inode _)) with (inodes s1 ip). by rewrite (al_size _ _ Ha). }
  rewrite Ea2, Ef in R2. change (inodes s1' (f_inode _)) with (inodes s1 ip) in R2. rewrite (al_size _ _ Ha) in R2.
  change (f_offset _) with 0 in R2. replace (Z.max 0 _) with n in R2 by lia. pose proof R2 as [M1 M2 _ _ _ _]. rewrite Ef, Ea1 in M1.
  exists s2. split; [done|]. split; [by rewrite M2|]. split; [rewrite M2; exact He|]. intros a. rewrite M1. unfold from_file. cbn [f_inode f_offset].
  destruct (decide (base <= a < base + n)) as [Hr|Hr].
  - rewrite bool_decide_eq_true_2 by done. change (file_byte s1' ip) with (file_byte s1 ip).
    rewrite (opening_byte s A Q dev s1 A1 Q1 ip r) by (done || lia). f_equal.
  - rewrite bool_decide_eq_false_2 by done. change (umem s1') with (umem s1). 
    pose proof (rr_others _ _ _ _ _ (or_reread _ _ _ _ _ R1)) as Hx. unfold others in Hx. cbn in Hx. injection Hx. intros. congruence.
Qed.

(** ** close *)

Lemma closef_last fp s : f_count (files s fp) = 1 -> has (f_flag (files s fp)) FPIPE = false -> let ip := f_inode (files s fp) in
  Z.land (i_mode (inodes s ip)) IFMT = IFDIR \/ Z.land (i_mode (inodes s ip)) IFMT = IFREG -> has (i_flag (inodes s ip)) ILOCK = false ->
  forall s', iput ip (setf_ fp (fun r => r <| f_count := 0 |>) (lock ip s)) = Ret tt s' -> closef (Some fp) s = Ret tt s'.
Proof.
  intros Hc Hp ip Hty Hl s' E. unfold closef. krun. rewrite Hc. change (1 <? 1) with false. cbv iota. krun. fold ip.
  rewrite (bind_ret _ _ _ _ _ (plock_free ip s Hl ltac:(pose proof enough_fuel; lia))). fold (lock ip s). krun. rewrite Hp, k_when_false by done.
  rewrite (bind_ret _ _ _ _ _ E). by destruct Hty as [-> | ->].
Qed.

(** A file is opened and closed. *)
Lemma open_close_ok s A Q l ino i fp a1 a2 : path_ready s A Q l -> sound_walk s l -> let dev := i_dev (inodes s (start s l)) in
  let r := the_inode s dev ino in
  0 <= u_arg (u s) 1 <= 2 -> (has (u_arg (u s) 1 + 1) FWRITE = true -> writable s A dev) ->
  led_to s l = inl ino -> Z.land (i_mode r) IFMT = IFDIR \/ Z.land (i_mode r) IFMT = IFREG -> open_error (u s) r (u_arg (u s) 1 + 1) = 0 ->
  free_fd s = Some i -> free_file s = Some fp ->
  exists s1, open s = Ret tt s1 /\ r_val1 (u s1) = i /\
  exists s2, close (call_with i a1 a2 s1) = Ret tt s2 /\ same_table s s2 /\ u_ofile (u s2) = u_ofile (u s) /\ u_error (u s2) = 0 /\
    (forall f, files s2 f = if decide (f = fp) then MkFile (u_arg (u s) 1 + 1) 0 (f_inode (files s1 fp)) 0 else files s f).
Proof.
  intros H Hs dev r Hm Hwr El Hty He Hfd Hff.
  destruct (open_ok s A Q l H Hs) as (s1&A1&Q1&E1&R1&O1); [done|done|by intros ? [= <-]%(eq_trans (eq_sym El))|].
  fold dev in O1. rewrite El in O1. unfold open_outcome in O1. fold r in O1. rewrite He, Hfd, Hff in O1. cbn [Z.eqb] in O1.
  pose proof H as [_ _ [_ Hnum] HQ _ _ _]. fold dev in HQ.
  assert (ino <> 0) as Hino by (by eapply resolve_nonzero). assert (0 < i_nlink r) as Hn by (by eapply sound_last).
  destruct (opened_inode s A Q dev ino _ i fp s1 HQ Hino O1) as (ip&Eip&T&Ha&Ed&Hl&Hw). fold r in Ha.
  destruct O1 as (ip'&_&_&_&Hf&Ho&Hv&He1). exists s1. split; [done|]. split; [done|].
  pose proof (free_fd_spec s) as Hfs. rewrite Hfd in Hfs. destruct Hfs as (Hi&Hnone&_).
  set (s2 := setu (fun us => us <| u_ofile @ i := None |>) (call_with i a1 a2 s1)).
  assert (files s1 fp = MkFile (u_arg (u s) 1 + 1) 1 ip 0) as Ef by (rewrite <- Eip, Hf, fn_eq; done).
  set (s3 := setf_ fp (fun r => r <| f_count := 0 |>) (lock ip s2)).
  assert (taken s dev ino ip s3) as T3 by (apply (taken_inodes _ _ _ _ (lock ip s1)); [done|done]).
  destruct (iput_ok s A Q dev ino ip s3 HQ Hino T3 Hn) as (s4&E4&Ht4&Es4).
  assert (closef (Some fp) s2 = Ret tt s4) as Ec.
  { assert (files s2 fp = MkFile (u_arg (u s) 1 + 1) 1 ip 0) as Ef2 by exact Ef.
    apply closef_last; rewrite ?Ef2; cbn [f_count f_flag f_inode].
    - done.
    - assert (u_arg (u s) 1 = 0 \/ u_arg (u s) 1 = 1 \/ u_arg (u s) 1 = 2) as [->|[->| ->]] by lia; done.
    - change (inodes s2 ip) with (inodes s1 ip). by rewrite (al_mode _ _ Ha).
    - exact Hl.
    - exact E4. }
  exists s4. split.
  - unfold close, arg. krun. change (u_arg (u (call_with i a1 a2 s1)) 0) with i. unfold getf. rewrite k_bind_bind. krun.
    replace ((0 <=? i) && (i <? NOFILE)) with true by lia. change (u_ofile (u (call_with i a1 a2 s1))) with (u_ofile (u s1)). rewrite Ho, fn_eq. krun. exact Ec.
  - assert (u s4 = u s2 /\ files s4 = files s3) as [Eu4 Ef4] by (by rewrite Es4). split; [done|]. split; [|split].
    + rewrite Eu4. change (u_ofile (u s2)) with (<[i:=None]> (u_ofile (u s1))). rewrite Ho, fn_twice. by apply fn_same.
    + rewrite Eu4. exact He1.
    + intros f. rewrite Ef4. unfold s3, setf_. change (files (update_with _ _ _)) with (<[fp := (files s1 fp) <| f_count := 0 |>]> (files s1)).
      rewrite fn_case, Ef, Hf. repeat case_decide; subst; try done. by rewrite fn_ne.
Qed.

(** ** Properties *)

(** C4: [open] of a path: if the walk fails, so does the call, with that error; if
    it leads to a file or directory that the process may not open in that mode,
    the call fails with EACCES or EISDIR, and with EMFILE or ENFILE when no
    descriptor or no file is free; in all these cases nothing is held afterwards.
    Otherwise the lowest free descriptor is open on the inode, at offset 0, the
    inode has one more reference and is not locked, and nothing else has changed. *)
Theorem open_resolves s A Q l : path_ready s A Q l -> sound_walk s l -> let dev := i_dev (inodes s (start s l)) in
  0 <= u_arg (u s) 1 <= 2 -> (has (u_arg (u s) 1 + 1) FWRITE = true -> writable s A dev) ->
  (forall ino, led_to s l = inl ino -> Z.land (i_mode (the_inode s dev ino)) IFMT = IFDIR \/ Z.land (i_mode (the_inode s dev ino)) IFMT = IFREG) ->
  exists s' A' Q', open s = Ret tt s' /\ open_rest s A s' A' Q' /\
    match led_to s l return Prop with inl ino => open_outcome s dev ino (u_arg (u s) 1 + 1) s' | inr e => refused s e s' end.
Proof. apply open_ok. Qed.

(** C12: [read] of a descriptor puts the bytes of its file, from its offset on, into
    the process's memory, as many as were asked for or are left in the file; it
    returns their number and advances the offset by it.  Nothing else changes but
    the time stamp flag of the inode. *)
Theorem read_reads s A Q fp : open_for s FREAD fp -> fd_wanted s fp -> resting s A Q (f_inode (files s fp)) ->
  0 <= i_size (inodes s (f_inode (files s fp))) <= MAXFILE ->
  exists s' A' Q', read s = Ret tt s' /\
    read_into s A fp (Z.max 0 (Z.min (u_arg (u s) 2) (i_size (inodes s (f_inode (files s fp))) - f_offset (files s fp)))) s' A' Q'.
Proof. apply read_ok. Qed.

(** C11: [write] to a descriptor, over a part of its file that has its blocks,
    changes just those bytes of the file, from the offset on, to those in the
    process's memory; it returns their number and advances the offset by it, and
    the file is as long as the write needs. *)
Theorem write_writes s A Q fp : open_for s FWRITE fp -> fd_wanted s fp -> let ip := f_inode (files s fp) in resting s A Q ip ->
  sound_file s ip -> mapped s ip (f_offset (files s fp)) (u_arg (u s) 2) -> bytes_in (u_arg (u s) 1) (u_arg (u s) 2) (umem s) ->
  f_offset (files s fp) + u_arg (u s) 2 < 2147483648 ->
  exists s' A' Q', write s = Ret tt s' /\ written_from s A fp (u_arg (u s) 2) s' A' Q'.
Proof. apply write_ok. Qed.

(** C3: A process that opens a path and reads the descriptor it gets has in its
    memory the bytes of the file that the path leads to, as the inode and the
    blocks on the disk or in the cache had them before. *)
Theorem open_read s A Q l ino i fp base count : path_ready s A Q l -> sound_walk s l -> let dev := i_dev (inodes s (start s l)) in
  let r := the_inode s dev ino in let n := Z.min count (i_size r) in
  u_arg (u s) 1 = 0 -> led_to s l = inl ino -> Z.land (i_mode r) IFMT = IFDIR \/ Z.land (i_mode r) IFMT = IFREG -> allowed (u s) r IREAD = true ->
  free_fd s = Some i -> free_file s = Some fp -> 0 <= i_size r <= MAXFILE -> 0 < count < 65536 -> 0 <= base -> base + count < 4294967296 ->
  exists s1, open s = Ret tt s1 /\ r_val1 (u s1) = i /\
  exists s2, read (call_with i base count s1) = Ret tt s2 /\ r_val1 (u s2) = n /\ u_error (u s2) = 0 /\
    (forall a, umem s2 a = if decide (base <= a < base + n) then rbyte (content s dev) r (a - base) else umem s a).
Proof. apply open_read_ok. Qed.

(** C13: [close] undoes [open]: the table of inodes is as it was, the descriptor and
    the file are free again, and no other descriptor or file has changed. *)
Theorem open_close s A Q l ino i fp a1 a2 : path_ready s A Q l -> sound_walk s l -> let dev := i_dev (inodes s (start s l)) in
  let r := the_inode s dev ino in
  0 <= u_arg (u s) 1 <= 2 -> (has (u_arg (u s) 1 + 1) FWRITE = true -> writable s A dev) ->
  led_to s l = inl ino -> Z.land (i_mode r) IFMT = IFDIR \/ Z.land (i_mode r) IFMT = IFREG -> open_error (u s) r (u_arg (u s) 1 + 1) = 0 ->
  free_fd s = Some i -> free_file s = Some fp ->
  exists s1, open s = Ret tt s1 /\ r_val1 (u s1) = i /\
  exists s2, close (call_with i a1 a2 s1) = Ret tt s2 /\ same_table s s2 /\ u_ofile (u s2) = u_ofile (u s) /\ u_error (u s2) = 0 /\
    (forall f, files s2 f = if decide (f = fp) then MkFile (u_arg (u s) 1 + 1) 0 (f_inode (files s1 fp)) 0 else files s f).
Proof. apply open_close_ok. Qed.
End code.

(** ** A concrete file system *)

#[local] Existing Instances ramdisk rounds ramdisk_sync ramdisk_whole.

(** The path [/a] of the small file system leads to inode 3. *)
Lemma asking_start : start asking [slash; 97] = 0 /\ inodes asking 0 = root_inode /\ content asking 0 = small_disk 0.
Proof.
  destruct asking_fs as (Ei&Eu&_&Er&_). split; [unfold start; rewrite Eu, Er; done|]. split; [rewrite Ei; by apply fn_eq|].
  apply functional_extensionality, asking_content.
Qed.
Lemma asking_inodes : the_inode asking 0 2 = root_inode /\ the_inode asking 0 3 = disk_inode (small_disk 0) 0 3.
Proof.
  destruct asking_fs as (Ei&_), asking_start as (_&E0&Ec). unfold the_inode. split.
  - replace (iget_hit asking 0 2) with (Some 0); [exact E0|]. unfold iget_hit. rewrite Ei. by vm_compute.
  - replace (iget_hit asking 0 3) with (@None Z); [by rewrite Ec|]. unfold iget_hit. rewrite Ei. by vm_compute.
Qed.
Lemma asking_entry : find_entry (small_disk 0) root_inode [97] = Some 3.
Proof. by vm_compute. Qed.
Lemma asking_sound : sound_walk asking [slash; 97].
Proof.
  unfold sound_walk. destruct asking_start as (-> & -> & E). change (i_dev root_inode) with 0. change (i_number root_inode) with 2. rewrite E.
  destruct asking_inodes as [N2 N3]. change (words [slash; 97]) with [[97]]. cbn [sound_path]. rewrite N2, asking_entry, N3.
  split; [done|]. intros _ _. split; [|split; [by vm_compute|split; [by vm_compute|done]]].
  split; [change (0 <= 48 <= MAXFILE); unfold MAXFILE; lia|]. intros bn Hbn Hlt. change (512 * bn < 48) in Hlt. assert (bn = 0) as -> by lia.
  exists 20. split; [vm_compute; reflexivity|lia].
Qed.
Lemma asking_led : led_to asking [slash; 97] = inl 3.
Proof.
  unfold led_to. destruct asking_start as (-> & -> & E). change (i_dev root_inode) with 0. change (i_number root_inode) with 2. rewrite E.
  destruct asking_inodes as [N2 _]. change (words [slash; 97]) with [[97]]. cbn [resolve]. unfold step. rewrite N2, asking_entry.
  destruct asking_fs as (_&Eu&_). by rewrite Eu.
Qed.
Lemma asking_dev : i_dev (inodes asking (start asking [slash; 97])) = 0.
Proof. destruct asking_start as (-> & -> & _). done. Qed.
Lemma asking_user : u asking = zuser <| u_dirp := 4096 |> /\ free_fd asking = Some 0 /\ free_file asking = Some 0.
Proof.
  destruct asking_fs as (_&Eu&_). split; [done|]. split; [unfold free_fd; rewrite Eu; by vm_compute|].
  unfold free_file. assert (files asking = fun _ => MkFile 0 0 0 0) as -> by by vm_compute. by vm_compute.
Qed.

Lemma open_resolves_witness :
  exists s', open asking = Ret tt s' /\ r_val1 (u s') = 0 /\ u_error (u s') = 0 /\ i_number (inodes s' (f_inode (files s' 0))) = 3.
Proof.
  destruct asking_user as (Eu&Ef&Eg), asking_inodes as [_ N3].
  pose proof (open_resolves asking bufl bqueues [slash; 97] asking_ready asking_sound) as H. cbv zeta in H. rewrite asking_dev, asking_led, Eu in H.
  destruct H as (s'&A'&Q'&E&_&O).
  - vm_compute. split; discriminate.
  - discriminate.
  - intros ino [= <-]. rewrite N3. right. vm_compute. reflexivity.
  - unfold open_outcome in O. rewrite N3, Eu, Ef, Eg in O. change (open_error _ _ _ =? 0) with true in O. cbv beta iota zeta in O.
    destruct O as (ip&T&_&_&Hf&_&Hv&He). exists s'. split; [exact E|]. split; [exact Hv|]. split; [exact He|]. rewrite Hf, fn_eq. cbn [f_inode].
    pose proof (al_number _ _ (tk_inode _ _ _ _ _ T)) as Hn. unfold lock in Hn. rewrite seti_inodes, decide_True, N3 in Hn by reflexivity. exact Hn.
Defined.

(** The five bytes of the file are read into the process's memory. *)
Lemma open_read_witness :
  exists s1, open asking = Ret tt s1 /\ exists s2, read (call_with 0 8192 100 s1) = Ret tt s2 /\ r_val1 (u s2) = 5 /\
    map (umem s2) [8192; 8193; 8194; 8195; 8196; 8197] = [104; 101; 108; 108; 111; 0].
Proof.
  destruct asking_user as (Eu&Ef&Eg), asking_inodes as [_ N3], asking_start as (_&_&Ec), asking_fs as (_&_&_&_&_&_&Em).
  pose proof (open_read asking bufl bqueues [slash; 97] 3 0 0 8192 100 asking_ready asking_sound) as H. cbv zeta in H.
  rewrite asking_dev, asking_led, Eu, Ef, Eg, N3, Ec, Em in H.
  destruct H as (s1&E1&_&s2&E2&Hv&_&Hm).
  - reflexivity.
  - reflexivity.
  - right. vm_compute. reflexivity.
  - vm_compute. reflexivity.
  - reflexivity.
  - reflexivity.
  - vm_compute. split; discriminate.
  - lia.
  - lia.
  - lia.
  - exists s1. split; [exact E1|]. exists s2. split; [exact E2|]. split; [rewrite Hv; vm_compute; reflexivity|].
    cbn [map]. rewrite !Hm. vm_compute. reflexivity.
Defined.

Lemma open_close_witness :
  exists s1, open asking = Ret tt s1 /\ exists s2, close (call_with 0 0 0 s1) = Ret tt s2 /\ same_table asking s2 /\
    u_ofile (u s2) = u_ofile (u asking).
Proof.
  destruct asking_user as (Eu&Ef&Eg), asking_inodes as [_ N3].
  pose proof (open_close asking bufl bqueues [slash; 97] 3 0 0 0 0 asking_ready asking_sound) as H. cbv zeta in H.
  rewrite asking_dev, asking_led, Ef, Eg, N3 in H.
  destruct H as (s1&E1&_&s2&E2&Ht&Ho&_).
  - rewrite Eu. vm_compute. split; discriminate.
  - rewrite Eu. discriminate.
  - reflexivity.
  - right. vm_compute. reflexivity.
  - rewrite Eu. vm_compute. reflexivity.
  - reflexivity.
  - reflexivity.
  - exists s1. split; [exact E1|]. exists s2. split; [exact E2|]. split; [exact Ht|exact Ho].
Defined.

(** Descriptor 3 of a process is open, for reading and writing, on the file of
    [writer], at offset 100. *)
Definition with_fd (s : kst) : kst :=
  setf_ 5 (fun _ => MkFile (Z.lor FREAD FWRITE) 1 3 100)
    (setu (fun us => us <| u_ofile @ 3 := Some 5 |> <| u_arg := fun i => if i =? 0 then 3 else if i =? 1 then 4096 else 600 |>) s).
Lemma with_fd_fields s : files (with_fd s) 5 = MkFile (Z.lor FREAD FWRITE) 1 3 100 /\ u_ofile (u (with_fd s)) 3 = Some 5 /\
  inodes (with_fd s) = inodes s /\ umem (with_fd s) = umem s /\ u_error (u (with_fd s)) = u_error (u s) /\
  u_arg (u (with_fd s)) 1 = 4096 /\ u_arg (u (with_fd s)) 2 = 600.
Proof. unfold with_fd, setf_, setu, update_with. cbn. by rewrite !fn_eq. Qed.
Lemma with_fd_blocks s : same_blocks s (with_fd s).
Proof. by apply same_blocks_bufs. Qed.
Lemma fd_ready s mode r : inodes s 3 = r -> Z.land (i_mode r) IFMT = IFREG -> i_flag r = 0 -> u_error (u s) = 0 -> resting s bufl bqueues 3 ->
  has (Z.lor FREAD FWRITE) mode = true -> open_for (with_fd s) mode 5 /\ fd_wanted (with_fd s) 5 /\ resting (with_fd s) bufl bqueues 3.
Proof.
  intros <- Hty Hfl He R Hm. destruct (with_fd_fields s) as (Ef&Eo&Ei&_&Ee&_). split; [|split].
  - split; rewrite ?Ef; cbn [f_inode f_flag]; rewrite ?Ei, ?Hfl; try done. by right.
  - split; rewrite ?Ef; [by rewrite Ee|cbn; lia|done|done].
  - apply (resting_same s); [done|done|by rewrite Ei|exact R].
Qed.
Lemma writer_fd mode : has (Z.lor FREAD FWRITE) mode = true -> open_for (with_fd writer) mode 5 /\ fd_wanted (with_fd writer) 5 /\
  resting (with_fd writer) bufl bqueues 3.
Proof.
  apply (fd_ready _ _ _ writer_inode); [reflexivity|reflexivity| |exact writer_resting]. by rewrite writer_user.
Qed.

Lemma read_reads_witness :
  exists s' A' Q', read (with_fd writer) = Ret tt s' /\ read_into (with_fd writer) bufl 5 600 s' A' Q'.
Proof.
  destruct (writer_fd FREAD eq_refl) as (O&W&R). destruct (with_fd_fields writer) as (Ef&Eo&Ei&_&Ee&_).
  pose proof (read_reads (with_fd writer) bufl bqueues 5 O W) as H. rewrite Ef in H. cbn [f_inode f_offset] in H. rewrite Ei, writer_inode in H.
  apply H.
  - exact R.
  - vm_compute. split; discriminate.
Defined.

Lemma write_writes_witness :
  exists s' A' Q', write (with_fd writer) = Ret tt s' /\ written_from (with_fd writer) bufl 5 600 s' A' Q'.
Proof.
  destruct (writer_fd FWRITE eq_refl) as (O&W&R). destruct (with_fd_fields writer) as (Ef&Eo&Ei&Em&Ee&Ea1&Ea2).
  pose proof (write_writes (with_fd writer) bufl bqueues 5 O W) as H. cbv zeta in H. rewrite Ef in H. cbn [f_inode f_offset] in H. rewrite Em, writer_umem, Ea1, Ea2 in H.
  pose proof (with_fd_blocks writer) as Hb.
  assert (usable (i_dev (inodes writer 3))) as Us by exact (re_dev _ _ _ _ writer_resting).
  apply H.
  - exact R.
  - exact (sound_same writer (with_fd writer) 3 Hb Us (f_equal (fun f => i_dev (f 3)) Ei) (f_equal (fun f => i_addr (f 3)) Ei) writer_sound).
  - exact (mapped_same writer (with_fd writer) 3 100 600 Hb Us (f_equal (fun f => i_dev (f 3)) Ei) (f_equal (fun f => i_addr (f 3)) Ei) writer_mapped).
  - intros i _. split; [discriminate|reflexivity].
  - reflexivity.
Defined.
End Sysfile.
