(* ===== verification/Pipeq.v ===== *)
(** * Pipeq: a pipe is a queue of bytes (src/usr/sys/sys/pipe.c)

    What waits in a pipe is the part of its file between the reader's offset and
    the size; [writep] appends to it and [readp] takes from its front.  The proof
    composes [writei] where it takes new blocks, [readi], and the lock of the
    inode. *)
From Stdlib Require Import FunctionalExtensionality.
From S2P Require Import Prelude Kmonad Kernel Bio Quiet Ahead Alloc Inode Rdwri Readi Writei Grow Text Fio Nami Pipe Sys.
Import Bio Quiet Ahead Alloc Inode Rdwri Readi Writei Grow Text Fio Nami Pipe Sys.

Module Pipeq.

(** ** Lists of bytes *)

Definition bytes_of (m : mem) (a n : Z) : list Z := map m (seqZ a n).
Lemma map_shift {T} (g : Z -> T) a b n : map (fun o => g (b + (o - a))) (seqZ a n) = map g (seqZ b n).
Proof. unfold seqZ. rewrite !map_map. apply map_ext. intros i. f_equal. lia. Qed.
Lemma bytes_split m a k n : 0 <= k <= n -> bytes_of m a n = bytes_of m a k ++ bytes_of m (a + k) (n - k).
Proof. intros Hk. unfold bytes_of. replace n with (k + (n - k)) at 1 by lia. by rewrite seqZ_app, map_app by lia. Qed.
Lemma length_bytes m a n : length (bytes_of m a n) = Z.to_nat n.
Proof. unfold bytes_of. rewrite length_map. apply length_seqZ. Qed.
Lemma bytes_ext m m' a n : (forall o, a <= o < a + n -> m' o = m o) -> bytes_of m' a n = bytes_of m a n.
Proof. intros H. apply map_ext_in. intros o Ho%list_elem_of_In%elem_of_seqZ. apply H. lia. Qed.

Section code.
  Context `{DV : Devices} `{FL : Fuel} `{SD : !SyncDriver} `{WD : !WholeDriver}.

(** ** Changes to the inode that leave the file alone *)

Record same_file (ip : Z) (s s' : kst) : Prop := {
  sm_bufs : bufs s' = bufs s; sm_disk : disk s' = disk s; sm_mounts : mounts s' = mounts s; sm_umem : umem s' = umem s;
  sm_dev : i_dev (inodes s' ip) = i_dev (inodes s ip);
  sm_addr : i_addr (inodes s' ip) = i_addr (inodes s ip);
  sm_count : i_count (inodes s' ip) = i_count (inodes s ip);
  sm_mode : Z.land (i_mode (inodes s' ip)) IFMT = Z.land (i_mode (inodes s ip)) IFMT
}.
Lemma same_file_refl ip s : same_file ip s s.
Proof. by split. Qed.
Lemma same_file_trans ip s1 s2 s3 : same_file ip s1 s2 -> same_file ip s2 s3 -> same_file ip s1 s3.
Proof. intros [] []. split; congruence. Qed.
Lemma same_file_bytes ip s s' o : same_file ip s s' -> file_byte s' ip o = file_byte s ip o.
Proof.
  intros [E1 E2 _ _ E3 E4 _ _]. assert (forall dv bk, content s' dv bk = content s dv bk) as Hc by (intros; by apply content_bufs).
  unfold file_byte, file_block. rewrite E3, E4. 
  assert (content s' (i_dev (inodes s ip)) = content s (i_dev (inodes s ip))) as -> by (extensionality b; apply Hc). done.
Qed.
Lemma seti_same ip f s : (forall r, i_dev (f r) = i_dev r /\ i_addr (f r) = i_addr r /\ i_count (f r) = i_count r /\ Z.land (i_mode (f r)) IFMT = Z.land (i_mode r) IFMT) ->
  same_file ip s (seti ip f s).
Proof. intros H. destruct (H (inodes s ip)) as (H1&H2&H3&H4). split; rewrite ?seti_inodes, ?decide_True; done. Qed.
Lemma emit_same ip e s s' : same_file ip s s' -> same_file ip s (emit e s').
Proof. intros []. by split. Qed.
Lemma mode_clrf m k : Z.land k IFMT = 0 -> Z.land (clrf m k) IFMT = Z.land m IFMT.
Proof.
  intros Hk. unfold clrf. apply Z.bits_inj'. intros i Hi. rewrite !Z.land_spec, Z.lnot_spec by done. destruct (Z.testbit IFMT i) eqn:E; [|by rewrite !andb_false_r].
  assert (Z.testbit k i = false) as ->; [|by rewrite andb_true_r].
  apply (f_equal (fun x => Z.testbit x i)) in Hk. rewrite Z.land_spec, E, andb_true_r, Z.bits_0 in Hk. done.
Qed.

(** ** The lock *)

Lemma unlock_ok ip s : exists s', prele ip s = Ret tt s' /\ same_file ip s s' /\ u s' = u s /\ files s' = files s /\
  i_size (inodes s' ip) = i_size (inodes s ip) /\ has (i_flag (inodes s' ip)) ILOCK = false.
Proof.
  unfold prele. krun. set (s1 := seti ip _ s). assert (same_file ip s s1) as H1 by (by apply seti_same).
  assert (inodes s1 ip = (inodes s ip) <| i_flag ::= fun f => clrf f ILOCK |>) as E1 by (unfold s1; by rewrite seti_inodes, decide_True).
  destruct (has (i_flag (inodes s1 ip)) IWANT); cbn [when].
  - krun. eexists. split; [reflexivity|]. split; [|split; [done|split; [done|]]].
    + eapply same_file_trans; [exact H1|]. apply emit_same. by apply (seti_same ip (fun r => r <| i_flag ::= fun f => clrf f IWANT |>)).
    + change (inodes (emit ?e ?t) ip) with (inodes t ip). rewrite seti_inodes, decide_True, E1 by done. split; [done|].
      cbn. rewrite has_clrf_other by done. by apply has_clrf_same.
  - exists s1. split; [done|]. split; [done|]. split; [done|]. split; [done|]. rewrite E1. split; [done|]. cbn. by apply has_clrf_same.
Qed.
Lemma lock_ok ip s : has (i_flag (inodes s ip)) ILOCK = false -> exists s', plock ip s = Ret tt s' /\ same_file ip s s' /\ u s' = u s /\
  files s' = files s /\ i_size (inodes s' ip) = i_size (inodes s ip).
Proof.
  intros H. pose proof enough_fuel. eexists. split; [apply plock_free; [done|lia]|]. split; [by apply seti_same|]. split; [done|]. split; [done|].
  by rewrite seti_inodes, decide_True.
Qed.
(** The other end is told that the mark [m] in the mode can go. *)
Lemma notify_ok ip s m c : Z.land m IFMT = 0 -> exists s', when (has (i_mode (inodes s ip)) m)
    (modi ip (fun r => r <| i_mode ::= fun f => clrf f m |>);; wakeup c) s = Ret tt s' /\
  same_file ip s s' /\ u s' = u s /\ files s' = files s /\ i_size (inodes s' ip) = i_size (inodes s ip) /\ i_flag (inodes s' ip) = i_flag (inodes s ip).
Proof.
  intros Hm. destruct (has _ m); cbn [when]; [|by exists s]. krun. eexists. split; [reflexivity|]. split; [|split; [done|split; [done|]]].
  - apply emit_same, (seti_same ip (fun r => r <| i_mode ::= fun f => clrf f m |>)). intros r. split_and!; try done. by apply mode_clrf.
  - change (inodes (emit ?e ?t) ip) with (inodes t ip). by rewrite seti_inodes, decide_True.
Qed.

(** ** Pipes *)

(** The pipe with inode [ip], whose reading end is the file [rf], is open at both
    ends and unlocked, and [q] waits in it. *)
Record piped (s : kst) (A : list bptr) (Q : bptr -> list bptr) (ip rf : Z) (fp : bptr) (l : list Z) (q : list Z) : Prop := {
  pp_growing : growing s A Q ip fp l;
  pp_blocks : (missing s ip <= length l)%nat;
  pp_type : Z.land (i_mode (inodes s ip)) IFMT = IFREG;
  pp_ends : 2 <= i_count (inodes s ip);
  pp_free : has (i_flag (inodes s ip)) ILOCK = false;
  pp_file : f_inode (files s rf) = ip;
  pp_size : 0 <= f_offset (files s rf) <= i_size (inodes s ip) /\ i_size (inodes s ip) <= 5120;
  pp_empty : f_offset (files s rf) = i_size (inodes s ip) -> i_size (inodes s ip) = 0;
  pp_queue : q = bytes_of (file_byte s ip) (f_offset (files s rf)) (i_size (inodes s ip) - f_offset (files s rf))
}.

Lemma growing_same s A Q ip fp l s' : growing s A Q ip fp l -> same_file ip s s' -> growing s' A Q ip fp l.
Proof. intros G []. by eapply growing_eq. Qed.

(** The inode after [writei]. *)
Lemma grew_inode s A ip fp l n s' A' Q' l' : grew s A ip fp l n s' A' Q' l' ->
  i_dev (inodes s' ip) = i_dev (inodes s ip) /\ i_count (inodes s' ip) = i_count (inodes s ip) /\ i_mode (inodes s' ip) = i_mode (inodes s ip) /\
  i_size (inodes s' ip) = (if i_size (inodes s ip) <? u_offset (u s) + n then u_offset (u s) + n else i_size (inodes s ip)).
Proof. intros W. destruct (gw_inode _ _ _ _ _ _ _ _ _ _ W) as [ad ->]. by rewrite seti_inodes, decide_True. Qed.
Lemma grew_files s A ip fp l n s' A' Q' l' : grew s A ip fp l n s' A' Q' l' -> files s' = files s.
Proof. intros W. pose proof (gw_others _ _ _ _ _ _ _ _ _ _ W) as H. destruct s, s'. unfold others in H. cbn in *. by injection H. Qed.

(** The turn that writes, on a pipe with room. *)
Lemma write_turn s A Q ip rf fp l q : piped s A Q ip rf fp l q -> wanted (u s) -> u_count (u s) <= PIPSIZ ->
  i_size (inodes s ip) < PIPSIZ -> i_size (inodes s ip) + u_count (u s) <= 5120 -> bytes_in (u_base (u s)) (u_count (u s)) (umem s) ->
  exists s' A' Q' l', writep_turn ip (u_count (u s)) s = Ret (inl 0) s' /\
    piped s' A' Q' ip rf fp l' (q ++ bytes_of (umem s) (u_base (u s)) (u_count (u s))) /\
    u_error (u s') = 0 /\ files s' = files s /\ umem s' = umem s.
Proof.
  intros [P1 P2 P3 P4 P5 P6 P7 P8 P9] W Hn Hsz Hroom Hum. pose proof W as [We Ws Wo Wc Wb]. unfold PIPSIZ in *.
  set (n := u_count (u s)) in *. set (size := i_size (inodes s ip)) in *.
  destruct (lock_ok ip s P5) as (s1&E1&M1&Eu1&Ef1&Es1).
  set (s2 := setu (fun v => v <| u_count := n |>) (setu (fun v => v <| u_offset := size |>) s1)).
  assert (u_base (u s2) = u_base (u s) /\ u_offset (u s2) = size /\ u_count (u s2) = n) as (Eb2&Eo2&Ec2) by (split; [cbn; by rewrite Eu1|done]).
  assert (wanted (u s2)) as W2 by (split; rewrite ?Eb2, ?Eo2, ?Ec2; cbn; rewrite ?Eu1; done || lia).
  assert (same_file ip s s2) as M2 by (destruct M1; by split). pose proof (growing_same _ _ _ _ _ _ _ P1 M2) as G2.
  assert (i_size (inodes s2 ip) = size) as Es2 by exact Es1. destruct M2 as [Mb Mk Mm Mu Md Ma Mc Mt].
  assert (missing s2 ip = missing s ip) as Emi by (unfold missing; by rewrite Ma).
  destruct (grow_ok s2 A Q ip fp l G2 W2) as (s3&A3&Q3&l3&E3&W3); rewrite ?Eo2, ?Ec2, ?Eb2, ?Mt, ?Mu; [by right|done| |done|].
  { pose proof (holes_missing s2 ip size n ltac:(lia) ltac:(lia) Hroom). lia. }
  destruct (grew_inode _ _ _ _ _ _ _ _ _ _ W3) as (Ed3&Ec3&Em3&Es3). pose proof (grew_files _ _ _ _ _ _ _ _ _ _ W3) as Ef3. rewrite Eo2, Ec2, Es2 in Es3.
  replace (size <? size + n) with true in Es3 by lia.
  destruct (unlock_ok ip s3) as (s4&E4&M4&Eu4&Ef4&Es4&Efl4).
  destruct (notify_ok ip s4 IREAD (ChRead ip) eq_refl) as (s5&E5&M5&Eu5&Ef5&Es5&Efl5).
  pose proof (same_file_trans _ _ _ _ M4 M5) as M35. exists s5, A3, Q3, l3. split; [|split; [|split; [|split]]].
  - unfold writep_turn. rewrite (bind_ret _ _ _ _ _ E1). replace (n =? 0) with false by lia. krun. destruct M1 as [_ _ _ _ _ _ -> _].
    replace (i_count (inodes s ip) <? 2) with false by lia. rewrite Es1. fold size. unfold PIPSIZ. replace (4096 <=? size) with false by lia. krun.
    assert (min n 4096 = n) as Emin by (rewrite min_small; lia). rewrite Emin. fold s2. rewrite Ec2. rewrite (bind_ret _ _ _ _ _ E3), (bind_ret _ _ _ _ _ E4).
    krun. rewrite (bind_ret _ _ _ _ _ E5). by rewrite Z.sub_diag.
  - pose proof (same_file_bytes ip s s2) as B2. destruct M35 as [Nb Nk Nm Nu Nd Na Nc Nt]. 
    assert (f_offset (files s5 rf) = f_offset (files s rf)) as Eo5 by (rewrite Ef5, Ef4, Ef3; change (files s2) with (files s1); by rewrite Ef1).
    assert (forall o, file_byte s5 ip o = if decide (size <= o < size + n) then umem s (u_base (u s) + (o - size)) else file_byte s ip o) as Hfb.
    { intros o. rewrite (same_file_bytes ip s3 s5) by done. rewrite (gw_bytes _ _ _ _ _ _ _ _ _ _ W3), Eo2, Ec2, Eb2, Mu. case_decide; [done|].
      by apply same_file_bytes. }
    assert (i_size (inodes s5 ip) = size + n) as Esz by (by rewrite Es5, Es4, Es3).
    split.
    + eapply growing_same; [apply W3|done].
    + assert (missing s5 ip = missing s3 ip) as -> by (unfold missing; by rewrite Na). eapply grew_missing; [exact W3|rewrite Eo2; lia|lia|rewrite Eo2, Ec2; lia|lia].
    + by rewrite Nt, Em3, Mt.
    + by rewrite Nc, Ec3, Mc.
    + by rewrite Efl5.
    + rewrite Ef5, Ef4, Ef3. change (files s2) with (files s1). by rewrite Ef1.
    + rewrite Eo5, Esz. lia.
    + rewrite Eo5, Esz. lia.
    + rewrite Eo5, Esz, P9. set (off := f_offset (files s rf)) in *. rewrite (bytes_split _ off (size - off) (size + n - off)) by lia. f_equal.
      * apply bytes_ext. intros o Ho. rewrite Hfb, decide_False by lia. done.
      * replace (off + (size - off)) with size by lia. replace (size + n - off - (size - off)) with n by lia.
        unfold bytes_of. rewrite <- (map_shift (umem s) size). apply map_ext_in. intros o Ho%list_elem_of_In%elem_of_seqZ. by rewrite Hfb, decide_True by lia.
  - rewrite Eu5, Eu4, (gw_user _ _ _ _ _ _ _ _ _ _ W3). cbn. by rewrite Eu1.
  - rewrite Ef5, Ef4, Ef3. exact Ef1.
  - rewrite (sm_umem _ _ _ M35), (gw_umem _ _ _ _ _ _ _ _ _ _ W3). exact Mu.
Qed.
Lemma write_done s A Q ip rf fp l q : piped s A Q ip rf fp l q -> exists s', writep_turn ip 0 s = Ret (inr tt) s' /\
  piped s' A Q ip rf fp l q /\ u_count (u s') = 0 /\ u_error (u s') = u_error (u s) /\ files s' = files s /\ umem s' = umem s.
Proof.
  intros [P1 P2 P3 P4 P5 P6 P7 P8 P9]. destruct (lock_ok ip s P5) as (s1&E1&M1&Eu1&Ef1&Es1). destruct (unlock_ok ip s1) as (s2&E2&M2&Eu2&Ef2&Es2&Efl2).
  set (s3 := setu (fun r => r <| u_count := 0 |>) s2). assert (same_file ip s s3) as M by (pose proof (same_file_trans _ _ _ _ M1 M2) as []; by split).
  assert (files s3 = files s) as Ef by (change (files s3) with (files s2); congruence).
  assert (i_size (inodes s3 ip) = i_size (inodes s ip)) as Es by (change (inodes s3) with (inodes s2); congruence).
  exists s3. split; [|split; [|split; [done|split; [|split; [done|apply M]]]]].
  - unfold writep_turn. rewrite (bind_ret _ _ _ _ _ E1). cbn [Z.eqb]. rewrite (bind_ret _ _ _ _ _ E2). krun. done.
  - split; rewrite ?Ef, ?Es, ?(sm_mode _ _ _ M), ?(sm_count _ _ _ M); try done.
    + by eapply growing_same.
    + unfold missing. by rewrite (sm_addr _ _ _ M).
    + rewrite P9. symmetry. apply bytes_ext. intros o _. by apply same_file_bytes.
  - cbn. by rewrite Eu2, Eu1.
Qed.
Lemma writep_ok s A Q ip rf wf fp l q : piped s A Q ip rf fp l q -> f_inode (files s wf) = ip -> wanted (u s) -> u_count (u s) <= PIPSIZ ->
  i_size (inodes s ip) < PIPSIZ -> i_size (inodes s ip) + u_count (u s) <= 5120 -> bytes_in (u_base (u s)) (u_count (u s)) (umem s) ->
  exists s' A' Q' l', writep wf s = Ret tt s' /\
    piped s' A' Q' ip rf fp l' (q ++ bytes_of (umem s) (u_base (u s)) (u_count (u s))) /\
    u_count (u s') = 0 /\ u_error (u s') = 0 /\ files s' = files s /\ umem s' = umem s.
Proof.
  intros P Hw W Hn Hsz Hroom Hum. destruct (write_turn s A Q ip rf fp l q P W Hn Hsz Hroom Hum) as (s1&A1&Q1&l1&E1&P1&He1&Ef1&Em1).
  destruct (write_done _ _ _ _ _ _ _ _ P1) as (s2&E2&P2&Hc2&He2&Ef2&Em2). exists s2, A1, Q1, l1.
  split; [|split; [done|split; [done|split; [congruence|split; congruence]]]].
  unfold writep. krun. rewrite Hw. pose proof enough_fuel. destruct fuel as [|[|k]]; [lia|lia|]. erewrite k_iter_inl by exact E1. by apply k_iter_inr.
Qed.

(** What is left in the file after a read of [k] bytes: when everything has been
    read the pipe starts again at the beginning of its file. *)
Lemma rewind_ok ip rf s : f_inode (files s rf) = ip -> exists s',
  (when (u_offset (u s) =? i_size (inodes s ip))
    (modf rf (fun r => r <| f_offset := 0 |>);;
     modi ip (fun r => r <| i_size := 0 |>);;
     r ← geti ip;
     when (has (i_mode r) IWRITE)
       (modi ip (fun r => r <| i_mode ::= fun m => clrf m IWRITE |>);;
        wakeup (ChWrite ip)))) s = Ret tt s' /\ same_file ip s s' /\ u s' = u s /\ f_inode (files s' rf) = ip /\
  i_size (inodes s' ip) = (if u_offset (u s) =? i_size (inodes s ip) then 0 else i_size (inodes s ip)) /\
  f_offset (files s' rf) = (if u_offset (u s) =? i_size (inodes s ip) then 0 else f_offset (files s rf)) /\
  i_flag (inodes s' ip) = i_flag (inodes s ip).
Proof.
  intros Hf. destruct (_ =? _); cbn [when]; [|by exists s]. krun. set (s1 := seti ip _ _).
  assert (same_file ip s s1) as M1 by (split; unfold s1; rewrite ?seti_inodes, ?decide_True; done).
  assert (i_size (inodes s1 ip) = 0 /\ i_flag (inodes s1 ip) = i_flag (inodes s ip)) as [Es1 Ef1] by (unfold s1; by rewrite seti_inodes, decide_True).
  assert (f_offset (files s1 rf) = 0 /\ f_inode (files s1 rf) = ip) as [Eo1 Ei1].
  { change (files s1) with (files (setf_ rf (fun r => r <| f_offset := 0 |>) s)). unfold setf_. cbn. rewrite fn_eq. by split. }
  destruct (notify_ok ip s1 IWRITE (ChWrite ip) eq_refl) as (s2&E2&M2&Eu2&Ef2&Es2&Efl2). exists s2.
  split; [exact E2|]. split; [by eapply same_file_trans|]. split; [by rewrite Eu2|]. rewrite Ef2, Es2, Efl2. done.
Qed.

Lemma readp_ok s A Q ip rf fp l q : piped s A Q ip rf fp l q -> wanted (u s) -> q <> [] ->
  let k := Nat.min (Z.to_nat (u_count (u s))) (length q) in
  exists s' A' Q', readp rf s = Ret tt s' /\ piped s' A' Q' ip rf fp l (drop k q) /\
    u_count (u s') = u_count (u s) - Z.of_nat k /\ u_error (u s') = 0 /\
    bytes_of (umem s') (u_base (u s)) (Z.of_nat k) = take k q /\
    (forall a, ~ u_base (u s) <= a < u_base (u s) + Z.of_nat k -> umem s' a = umem s a).
Proof.
  intros [P1 P2 P3 P4 P5 P6 P7 P8 P9] W Hq k. pose proof W as [We Ws Wo Wc Wb].
  set (off := f_offset (files s rf)) in *. set (size := i_size (inodes s ip)) in *.
  assert (length q = Z.to_nat (size - off)) as Hlq by (rewrite P9; apply length_bytes).
  assert (off < size) as Hlt. { destruct (decide (off < size)); [done|]. exfalso. apply Hq. apply nil_length_inv. lia. }
  assert (Z.of_nat k = Z.min (u_count (u s)) (size - off)) as Ek by (unfold k; lia). 
  destruct (lock_ok ip s P5) as (s1&E1&M1&Eu1&Ef1&Es1).
  set (s2 := setu (fun r => r <| u_offset := off |>) s1).
  assert (u_base (u s2) = u_base (u s) /\ u_offset (u s2) = off /\ u_count (u s2) = u_count (u s)) as (Eb2&Eo2&Ec2) by (split_and!; cbn; by rewrite ?Eu1).
  assert (wanted (u s2)) as W2 by (split; rewrite ?Eb2, ?Eo2, ?Ec2; cbn; rewrite ?Eu1; done || lia).
  assert (same_file ip s s2) as M2 by (destruct M1; by split). pose proof (growing_same _ _ _ _ _ _ _ P1 M2) as G2.
  assert (i_size (inodes s2 ip) = size) as Es2 by exact Es1. pose proof M2 as [Mb Mk Mm Mu Md Ma Mc Mt].
  destruct (readi_ok s2 A Q ip (gr_resting _ _ _ _ _ _ G2) W2) as (s3&A3&Q3&E3&H3); rewrite ?Es2, ?Mt, ?P3; [unfold MAXFILE; lia|done|done|].
  rewrite Es2, Eo2, Ec2 in H3. replace (Z.max 0 (Z.min (u_count (u s)) (size - off))) with (Z.of_nat k) in H3 by lia.
  destruct H3 as [Hm3 Hu3 [la Hi3] Hr3 Hw3].
  assert (inodes s3 ip = (inodes s2 ip) <| i_flag ::= fun f => setf f IACC |> <| i_lastr := la |>) as Ei3 by (rewrite Hi3, seti_inodes, decide_True; done).
  assert (files s3 = files s) as Ef3.
  { rewrite <- Ef1. change (files s1) with (files (touched s2 s3)). pose proof (rr_others _ _ _ _ _ Hr3) as Ho. unfold others in Ho. by injection Ho. }
  assert (growing s3 A3 Q3 ip fp l) as G3 by (eapply growing_reread; [exact G2|exact Hr3|exact Hw3|by rewrite Ei3..]).
  destruct (advanced_fields (u s2) (Z.of_nat k) W2) as (Eb3&Eo3&Ec3); [lia|lia|]. rewrite <- Hu3, Eo2 in Eo3. rewrite <- Hu3, Ec2 in Ec3.
  set (s4 := setf_ rf (fun r => r <| f_offset := u_offset (u s3) |>) s3).
  assert (f_offset (files s4 rf) = off + Z.of_nat k /\ f_inode (files s4 rf) = ip) as [Eo4 Ein4].
  { unfold s4, setf_. cbn. rewrite fn_eq. cbn. rewrite Eo3. split; [done|]. by rewrite Ef3. }
  assert (i_size (inodes s4 ip) = size) as Es4 by (change (inodes s4) with (inodes s3); rewrite Ei3; exact Es2).
  destruct (rewind_ok ip rf s4 Ein4) as (s5&E5&M5&Eu5&Ein5&Es5&Eo5&Efl5). destruct (unlock_ok ip s5) as (s6&E6&M6&Eu6&Ef6&Es6&Efl6).
  change (u s4) with (u s3) in Es5, Eo5, Eu5. rewrite Eo3, Es4 in Es5, Eo5. rewrite Eo4 in Eo5.
  assert (same_file ip s3 s6) as M36 by (pose proof (same_file_trans _ _ _ _ M5 M6) as []; by split).
  assert (forall o, file_byte s6 ip o = file_byte s ip o) as Hfb.
  { intros o. rewrite (same_file_bytes ip s3 s6) by done. rewrite <- (same_file_bytes ip s s2) by done.
    transitivity (file_byte (touched s2 s3) ip o); [|unfold file_byte, file_block; change (inodes (touched s2 s3)) with (inodes s3); by rewrite Ei3].
    apply file_byte_same; [by destruct (rr_blocks _ _ _ _ _ Hr3); split| |done..].
    change (inodes (touched s2 s3)) with (inodes s3). rewrite Ei3. apply (gr_resting _ _ _ _ _ _ G2). }
  exists s6, A3, Q3. split; [|split; [|split; [|split; [|split]]]].
  - unfold readp. krun. rewrite P6. pose proof enough_fuel. destruct fuel as [|fu]; [lia|]. apply k_iter_inr. unfold readp_turn.
    rewrite (bind_ret _ _ _ _ _ E1). krun. rewrite Es1. fold size. replace (size =? 0) with false by lia. krun. rewrite Ef1. fold off s2.
    rewrite (bind_ret _ _ _ _ _ E3). krun. fold s4. change (u s4) with (u s3) in *. rewrite (bind_ret _ _ _ _ _ E5), (bind_ret _ _ _ _ _ E6). done.
  - assert (i_dev (inodes s3 ip) = i_dev (inodes s ip) /\ i_addr (inodes s3 ip) = i_addr (inodes s ip) /\ i_count (inodes s3 ip) = i_count (inodes s ip) /\
      i_mode (inodes s3 ip) = i_mode (inodes s2 ip)) as (Nd&Na&Nc&Nm) by (rewrite Ei3; split_and!; done).
    split.
    + by eapply growing_same.
    + unfold missing. rewrite (sm_addr _ _ _ M36), Na. exact P2.
    + by rewrite (sm_mode _ _ _ M36), Nm, Mt.
    + by rewrite (sm_count _ _ _ M36), Nc.
    + done.
    + by rewrite Ef6.
    + rewrite Ef6, Es6, Es5, Eo5. destruct (Z.eqb_spec (off + Z.of_nat k) size); lia.
    + rewrite Ef6, Es6, Es5, Eo5. destruct (Z.eqb_spec (off + Z.of_nat k) size); lia.
    + rewrite Ef6, Es6, Es5, Eo5, P9. rewrite (bytes_split _ off (Z.of_nat k) (size - off)) by lia.
      rewrite drop_app_length' by (rewrite length_bytes; lia).
      destruct (Z.eqb_spec (off + Z.of_nat k) size) as [E|E].
      * replace (size - off - Z.of_nat k) with 0 by lia. done.
      * replace (size - off - Z.of_nat k) with (size - (off + Z.of_nat k)) by lia. symmetry. apply bytes_ext. intros o _. apply Hfb.
  - rewrite Eu6, Eu5. exact Ec3.
  - rewrite Eu6, Eu5, Hu3. cbn. by rewrite Eu1.
  - rewrite (sm_umem _ _ _ M36), Hm3, Eb2, Eo2, P9, (bytes_split _ off (Z.of_nat k) (size - off)) by lia.
    rewrite take_app_length' by (rewrite length_bytes; lia). unfold bytes_of. rewrite <- (map_shift (file_byte s ip) (u_base (u s))).
    apply map_ext_in. intros o Ho%list_elem_of_In%elem_of_seqZ. unfold from_file. rewrite bool_decide_eq_true_2 by lia. by apply same_file_bytes.
  - intros a Ha. rewrite (sm_umem _ _ _ M36), Hm3, Eb2. unfold from_file. rewrite bool_decide_eq_false_2 by done. by rewrite Mu.
Qed.

(** ** Property *)

(** C7: A pipe is a queue of bytes.  With [q] waiting in it, a write of up to 4096
    bytes that it has room for returns, all bytes written, with [q] and then
    those bytes waiting; a read, when [q] is not empty, gives the process the
    first bytes of [q], as many as it asks for or there are, changes nothing else of
    its memory, and leaves the rest waiting, also when the pipe empties and starts
    its file again. *)
Theorem pipe_is_a_queue s A Q ip rf wf fp l q : piped s A Q ip rf fp l q -> wanted (u s) ->
  (f_inode (files s wf) = ip -> u_count (u s) <= PIPSIZ -> i_size (inodes s ip) < PIPSIZ -> i_size (inodes s ip) + u_count (u s) <= 5120 ->
   bytes_in (u_base (u s)) (u_count (u s)) (umem s) ->
   exists s' A' Q' l', writep wf s = Ret tt s' /\
     piped s' A' Q' ip rf fp l' (q ++ bytes_of (umem s) (u_base (u s)) (u_count (u s))) /\
     u_count (u s') = 0 /\ u_error (u s') = 0 /\ files s' = files s /\ umem s' = umem s) /\
  (q <> [] -> let k := Nat.min (Z.to_nat (u_count (u s))) (length q) in
   exists s' A' Q', readp rf s = Ret tt s' /\ piped s' A' Q' ip rf fp l (drop k q) /\
     u_count (u s') = u_count (u s) - Z.of_nat k /\ u_error (u s') = 0 /\
     bytes_of (umem s') (u_base (u s)) (Z.of_nat k) = take k q /\
     (forall a, ~ u_base (u s) <= a < u_base (u s) + Z.of_nat k -> umem s' a = umem s a)).
Proof. intros P W. split; [intros; by eapply writep_ok|intros; by apply (readp_ok _ A Q ip rf fp l q)]. Qed.
End code.

(** ** A new pipe *)

#[local] Existing Instances ramdisk rounds ramdisk_sync ramdisk_whole.

(** Inode 3 is a pipe, with the files 0 to read and 1 to write, where 49 blocks are
    free; the process has 600 bytes to write. *)
Definition ends (s : kst) : kst := setf_ 1 (fun f => f <| f_inode := 3 |>) (setf_ 0 (fun f => f <| f_inode := 3 |> <| f_offset := 0 |>) s).
Definition new_pipe : kst :=
  ends (setu (fun r => r <| u_offset := 0 |> <| u_count := 600 |> <| u_base := 4096 |>)
    (seti 3 (fun r => r <| i_mode := IFREG |> <| i_count := 2 |>) full_free)).

Lemma full_free_base : inodes full_free 3 = zinode /\ u full_free = zuser /\ umem full_free = fun _ => 0.
Proof. split; [vm_compute; reflexivity|]. split; vm_compute; reflexivity. Qed.
Lemma ends_files s : f_inode (files (ends s) 0) = 3 /\ f_offset (files (ends s) 0) = 0 /\ f_inode (files (ends s) 1) = 3.
Proof. unfold ends, setf_. cbn. rewrite fn_ne, !fn_eq by done. done. Qed.
Lemma ends_rest s : bufs (ends s) = bufs s /\ disk (ends s) = disk s /\ mounts (ends s) = mounts s /\ inodes (ends s) = inodes s /\ u (ends s) = u s /\ umem (ends s) = umem s.
Proof. done. Qed.
Lemma piped_new s A Q ip fp l : growing s A Q ip fp l -> (10 <= length l)%nat -> Z.land (i_mode (inodes s ip)) IFMT = IFREG ->
  2 <= i_count (inodes s ip) -> has (i_flag (inodes s ip)) ILOCK = false -> i_size (inodes s ip) = 0 -> ip = 3 ->
  piped (ends s) A Q ip 0 fp l [].
Proof.
  intros G Hl Ht Hc Hf Hs ->. destruct (ends_files s) as (E1&E2&_). destruct (ends_rest s) as (Eb&Ek&Em&Ei&_). generalize dependent (ends s). intros s' E1 E2 Eb Ek Em Ei.
  split; rewrite ?Ei, ?E2, ?Hs; try done.
  - eapply growing_eq; [exact G|done|done|done|by rewrite Ei..].
  - unfold missing. etransitivity; [|exact Hl]. etransitivity; [apply List.filter_length_le|]. by rewrite length_seqZ.
Qed.

Lemma new_pipe_inode : inodes new_pipe 3 = zinode <| i_mode := IFREG |> <| i_count := 2 |>.
Proof. rewrite <- (proj1 full_free_base). unfold new_pipe. destruct (ends_rest (setu (fun r => r <| u_offset := 0 |> <| u_count := 600 |> <| u_base := 4096 |>)
    (seti 3 (fun r => r <| i_mode := IFREG |> <| i_count := 2 |>) full_free))) as (_&_&_&->&_). apply set_inode. Qed.
Lemma new_pipe_user : u new_pipe = zuser <| u_offset := 0 |> <| u_count := 600 |> <| u_base := 4096 |>.
Proof. rewrite <- (proj1 (proj2 full_free_base)). unfold new_pipe. destruct (ends_rest (setu (fun r => r <| u_offset := 0 |> <| u_count := 600 |> <| u_base := 4096 |>)
    (seti 3 (fun r => r <| i_mode := IFREG |> <| i_count := 2 |>) full_free))) as (_&_&_&_&->&_). apply set_user. Qed.
Lemma new_pipe_umem : umem new_pipe = fun _ => 0.
Proof. rewrite <- (proj2 (proj2 full_free_base)). unfold new_pipe. destruct (ends_rest (setu (fun r => r <| u_offset := 0 |> <| u_count := 600 |> <| u_base := 4096 |>)
    (seti 3 (fun r => r <| i_mode := IFREG |> <| i_count := 2 |>) full_free))) as (_&_&_&_&_&->). apply set_umem. Qed.
Lemma new_pipe_piped : piped new_pipe rest bqueues 3 0 (BUF 0) (reverse (map (fun i => i + 12) (upto 49))) [].
Proof.
  pose proof full_free_list as Fl. destruct full_free_base as [Ei _]. pose proof new_pipe_inode as En. unfold new_pipe in En. rewrite (proj1 (proj2 (proj2 (proj2 (ends_rest _))))) in En.
  unfold new_pipe. apply piped_new; [|..|reflexivity]; rewrite ?En.
  - unfold full_free in *. apply mounted_growing; [exact Fl|by rewrite Ei..|]. intros Hb%elem_of_reverse%list_elem_of_fmap. destruct Hb as (i&E&Hi%upto_range). lia.
  - rewrite length_reverse, length_map. vm_compute. lia.
  - reflexivity.
  - discriminate.
  - reflexivity.
  - reflexivity.
Qed.
Lemma new_pipe_wanted : wanted (zuser <| u_offset := 0 |> <| u_count := 600 |> <| u_base := 4096 |>).
Proof. split; vm_compute; repeat split; discriminate || reflexivity. Qed.
Lemma new_pipe_write_end : f_inode (files new_pipe 1) = 3.
Proof. apply ends_files. Qed.
Lemma pipe_is_a_queue_witness : exists s' A' Q' l', writep 1 new_pipe = Ret tt s' /\
  piped s' A' Q' 3 0 (BUF 0) l' (bytes_of (fun _ => 0) 4096 600) /\ u_count (u s') = 0 /\ u_error (u s') = 0 /\ files s' = files new_pipe /\ umem s' = umem new_pipe.
Proof.
  pose proof (pipe_is_a_queue new_pipe rest bqueues 3 0 1 (BUF 0) _ [] new_pipe_piped) as W. rewrite new_pipe_user, new_pipe_inode, new_pipe_umem in W. rewrite new_pipe_umem.
  destruct (W new_pipe_wanted) as [H _]. apply H.
  - exact new_pipe_write_end.
  - vm_compute. discriminate.
  - vm_compute. reflexivity.
  - vm_compute. discriminate.
  - intros i _. split; [discriminate|reflexivity].
Defined.
End Pipeq.
