(* ===== verification/Qsort.v ===== *)
(** * Qsort: the sorting routine of the C library (src/usr/src/libc/gen/qsort.c)

    [qsort] on memory, with pointers, elements of any size and a comparison
    function that reads them; the same algorithm on an array of values; the proof
    that the first is the second, and that the second sorts.  The depth of
    recursion is a parameter: the routine calls itself on the smaller part only. *)
From Stdlib Require Import FunctionalExtensionality.
From S2P Require Import Prelude.

Module Qsort.

(** ** Exchanges, byte by byte *)

(** The body of the loop of [qsexc], [n] times. *)
Fixpoint qsexc (n : nat) (ri rj : Z) (m : mem) : mem :=
  match n with
  | O => m
  | S n =>
      let c := m ri in
      let m := <[ri := m rj]> m in
      let m := <[rj := c]> m in
      qsexc n (ri + 1) (rj + 1) m
  end.
Fixpoint qstexc (n : nat) (ri rj rk : Z) (m : mem) : mem :=
  match n with
  | O => m
  | S n =>
      let c := m ri in
      let m := <[ri := m rk]> m in
      let m := <[rk := m rj]> m in
      let m := <[rj := c]> m in
      qstexc n (ri + 1) (rj + 1) (rk + 1) m
  end.

Section code.
  (** [qscmp] on the elements at two addresses, and [qses]. *)
  Variable qscmp : mem -> Z -> Z -> Z.
  Variable es : nat.
  Abbreviation esz := (Z.of_nat es).

(** ** qs1 *)

(** The variables of the loop; [at_loop] is whether control is at [loop:]. *)
Record part := MkPart { p_i : Z; p_lp : Z; p_hp : Z; p_j : Z; at_loop : bool }.

(** One round, from [for(;;)] or [loop:] to the next jump; [inr]: both parts are
    done. *)
Definition qs_turn (p : part) (m : mem) : (part + Z * Z) * mem :=
  let '(MkPart i lp hp j l) := p in
  if negb l && (i <? lp) then
    let c := qscmp m i lp in
    if c =? 0 then let lp := lp - esz in (inl (MkPart i lp hp j false), qsexc es i lp m)
    else if c <? 0 then (inl (MkPart (i + esz) lp hp j false), m)
    else (inl (MkPart i lp hp j true), m)
  else if hp <? j then
    let c := qscmp m hp j in
    if c =? 0 then let hp := hp + esz in (inl (MkPart i lp hp j true), qsexc es hp j m)
    else if 0 <? c then
      if i =? lp then
        let hp := hp + esz in
        let m := qstexc es i hp j m in
        let lp := lp + esz in
        (inl (MkPart lp lp hp j true), m)
      else (inl (MkPart (i + esz) lp hp (j - esz) false), qsexc es i j m)
    else (inl (MkPart i lp hp (j - esz) true), m)
  else if i =? lp then (inr (lp, hp), m)
  else
    let lp := lp - esz in
    let m := qstexc es j lp i m in
    let hp := hp - esz in
    (inl (MkPart i lp hp hp false), m).

Fixpoint qs_part (fuel : nat) (p : part) (m : mem) : option (Z * Z * mem) :=
  match fuel with
  | O => None
  | S fuel =>
      match qs_turn p m with
      | (inl p, m) => qs_part fuel p m
      | (inr (lp, hp), m) => Some (lp, hp, m)
      end
  end.

(** The first values of the variables. *)
Definition qs_first (a l : Z) : part :=
  let n := esz * ((l - a) / (2 * esz)) in
  MkPart a (a + n) (a + n) (l - esz) false.

(** [rec] is the call of [qs1] itself; [fuel] bounds the jumps to [start:]. *)
Fixpoint qs_start (rec : Z -> Z -> mem -> option mem) (fuel : nat) (a l : Z) (m : mem) : option mem :=
  if l - a <=? esz then Some m
  else
    match fuel with
    | O => None
    | S f =>
        match qs_part (4 * Z.to_nat (l - a)) (qs_first a l) m with
        | None => None
        | Some (lp, hp, m) =>
            if l - hp <=? lp - a then
              match rec (hp + esz) l m with None => None | Some m => qs_start rec f a lp m end
            else
              match rec a lp m with None => None | Some m => qs_start rec f (hp + esz) l m end
        end
    end.
Fixpoint qs1 (depth : nat) (a l : Z) (m : mem) : option mem :=
  match depth with
  | O => None
  | S depth => qs_start (qs1 depth) (Z.to_nat (l - a)) a l m
  end.

(** With [depth] nested calls of [qs1] at most. *)
Definition qsort (depth : nat) (a n : Z) (m : mem) : option mem := qs1 depth a (a + n * esz) m.
End code.

(** ** The same on an array of values *)

Section array.
  Context {T : Type} (c : T -> T -> Z).

Definition exch (p q : Z) (g : Z -> T) : Z -> T := <[q := g p]> (<[p := g q]> g).
Definition rot (p q r : Z) (g : Z -> T) : Z -> T := <[q := g p]> (<[r := g q]> (<[p := g r]> g)).

Definition aturn (p : part) (g : Z -> T) : (part + Z * Z) * (Z -> T) :=
  let '(MkPart i lp hp j l) := p in
  if negb l && (i <? lp) then
    let v := c (g i) (g lp) in
    if v =? 0 then (inl (MkPart i (lp - 1) hp j false), exch i (lp - 1) g)
    else if v <? 0 then (inl (MkPart (i + 1) lp hp j false), g)
    else (inl (MkPart i lp hp j true), g)
  else if hp <? j then
    let v := c (g hp) (g j) in
    if v =? 0 then (inl (MkPart i lp (hp + 1) j true), exch (hp + 1) j g)
    else if 0 <? v then
      if i =? lp then (inl (MkPart (lp + 1) (lp + 1) (hp + 1) j true), rot i (hp + 1) j g)
      else (inl (MkPart (i + 1) lp hp (j - 1) false), exch i j g)
    else (inl (MkPart i lp hp (j - 1) true), g)
  else if i =? lp then (inr (lp, hp), g)
  else (inl (MkPart i (lp - 1) (hp - 1) (hp - 1) false), rot j (lp - 1) i g).

Fixpoint apart (fuel : nat) (p : part) (g : Z -> T) : option (Z * Z * (Z -> T)) :=
  match fuel with
  | O => None
  | S fuel =>
      match aturn p g with
      | (inl p, g) => apart fuel p g
      | (inr (lp, hp), g) => Some (lp, hp, g)
      end
  end.

(** *** Permutations of a segment *)

Definition seg (lo hi : Z) (g : Z -> T) : list T := map g (seqZ lo (hi - lo)).
(** Only the segment has changed, and only in its order. *)
Record shuffled (lo hi : Z) (g g' : Z -> T) : Prop := {
  sh_out : forall k, k < lo \/ hi <= k -> g' k = g k;
  sh_perm : seg lo hi g' ≡ₚ seg lo hi g
}.
Lemma shuffled_refl lo hi g : shuffled lo hi g g.
Proof. done. Qed.
Lemma shuffled_trans lo hi g1 g2 g3 : shuffled lo hi g1 g2 -> shuffled lo hi g2 g3 -> shuffled lo hi g1 g3.
Proof. intros [H1 P1] [H2 P2]. split; [intros k Hk; by rewrite H2, H1|by rewrite P2, P1]. Qed.

Lemma seg_app lo mid hi g : lo <= mid <= hi -> seg lo hi g = seg lo mid g ++ seg mid hi g.
Proof.
  intros H. unfold seg. rewrite <- map_app. f_equal. replace (hi - lo) with ((mid - lo) + (hi - mid)) by lia.
  rewrite seqZ_app by lia. do 2 f_equal. lia.
Qed.
Lemma seg_ext lo hi g g' : (forall k, lo <= k < hi -> g' k = g k) -> seg lo hi g' = seg lo hi g.
Proof. intros H. unfold seg. apply map_ext_in. intros k Hk%list_elem_of_In%elem_of_seqZ. apply H. lia. Qed.
(** A change inside a part of the segment. *)
Lemma shuffled_sub lo lo' hi' hi g g' : lo <= lo' -> lo' <= hi' -> hi' <= hi -> shuffled lo' hi' g g' -> shuffled lo hi g g'.
Proof.
  intros H1 H2 H3 [Ho Hp]. split; [intros k Hk; apply Ho; lia|].
  rewrite (seg_app lo lo' hi g), (seg_app lo lo' hi g'), (seg_app lo' hi' hi g), (seg_app lo' hi' hi g') by lia.
  rewrite (seg_ext lo lo' g g'), (seg_ext hi' hi g g'), Hp; [done|intros k Hk; apply Ho; lia..].
Qed.
(** What holds of all the values of a segment. *)
Lemma shuffled_all lo hi g g' (P : T -> Prop) : shuffled lo hi g g' -> (forall k, lo <= k < hi -> P (g k)) -> forall k, lo <= k < hi -> P (g' k).
Proof.
  intros [_ Hp] H k Hk. assert (Forall P (seg lo hi g)) as Hf.
  { unfold seg. apply Forall_map, Forall_seqZ. intros i Hi. apply H. lia. }
  rewrite <- Hp in Hf. unfold seg in Hf. rewrite Forall_map, Forall_seqZ in Hf. apply Hf. lia.
Qed.

Lemma exch_perm p q g ks : NoDup ks -> p ∈ ks -> q ∈ ks -> map (exch p q g) ks ≡ₚ map g ks.
Proof.
  intros Hn Hp Hq. destruct (decide (p = q)) as [<-|Hpq].
  { unfold exch. by rewrite fn_twice, fn_same. }
  apply elem_of_Permutation in Hp as [ks1 E1]. rewrite E1 in Hn, Hq |- *. apply elem_of_cons in Hq as [->|Hq]; [done|].
  apply elem_of_Permutation in Hq as [ks2 E2]. rewrite E2 in Hn |- *. apply NoDup_cons in Hn as [Hp1 Hn]. apply NoDup_cons in Hn as [Hq1 _].
  rewrite elem_of_cons in Hp1. cbn [map]. assert (exch p q g p = g q /\ exch p q g q = g p) as [-> ->].
  { unfold exch. rewrite fn_ne, !fn_eq by done. done. }
  rewrite (map_ext_in (exch p q g) g ks2); [constructor|]. intros k Hk%list_elem_of_In. unfold exch. rewrite !fn_ne; [done|intros ->; tauto..].
Qed.
Lemma exch_shuffled lo hi p q g : lo <= p < hi -> lo <= q < hi -> shuffled lo hi g (exch p q g).
Proof.
  intros Hp Hq. split.
  - intros k Hk. unfold exch. rewrite !fn_ne by lia. done.
  - apply exch_perm; [apply NoDup_seqZ|apply elem_of_seqZ; lia..].
Qed.
Lemma rot_exch p q r g : p <> q -> p <> r -> rot p q r g = exch r q (exch p r g).
Proof.
  intros H1 H2. unfold rot, exch. extensionality k. rewrite !fn_case. repeat case_decide; subst; try done.
Qed.
Lemma rot_shuffled lo hi p q r g : p <> q -> p <> r -> lo <= p < hi -> lo <= q < hi -> lo <= r < hi -> shuffled lo hi g (rot p q r g).
Proof. intros. rewrite rot_exch by done. eapply shuffled_trans; by apply exch_shuffled. Qed.
(** *** The division into three parts *)

  (** The comparison is a total preorder. *)
  Hypothesis c_anti : forall x y, c x y < 0 <-> 0 < c y x.
  Hypothesis c_trans : forall x y z, c x y <= 0 -> c y z <= 0 -> c x z <= 0.

Lemma c_flip x y : c x y = 0 -> c y x = 0.
Proof. pose proof (c_anti x y). pose proof (c_anti y x). lia. Qed.
Lemma c_refl x : c x x <= 0.
Proof. pose proof (c_anti x x). lia. Qed.
(** Comparing with an equal value gives the same sign. *)
Lemma c_same x y v : c y v = 0 -> (c x y < 0 -> c x v < 0) /\ (c x y = 0 -> c x v = 0) /\ (0 < c x y -> 0 < c x v).
Proof.
  intros H. pose proof (c_flip _ _ H). pose proof (c_anti x y). pose proof (c_anti y x). pose proof (c_anti x v). pose proof (c_anti v x).
  pose proof (c_trans x y v). pose proof (c_trans v y x). pose proof (c_trans y v x). pose proof (c_trans x v y). lia.
Qed.
Lemma c_strict x y z : c x y < 0 \/ c y z < 0 -> c x y <= 0 -> c y z <= 0 -> c x z < 0.
Proof.
  intros H H1 H2. pose proof (c_trans x y z H1 H2). destruct (decide (c x z = 0)) as [E|]; [|lia]. apply c_flip in E.
  pose proof (c_trans y z x H2). pose proof (c_trans z x y). pose proof (c_anti x y). pose proof (c_anti y z). pose proof (c_anti y x). pose proof (c_anti z y). lia.
Qed.

(** Below [i] values less than [v], from [lp] to [hp] values equal to it, above [j]
    greater ones. *)
Record parted (lo hi : Z) (v : T) (p : part) (g : Z -> T) : Prop := {
  pa_order : lo <= p_i p /\ p_i p <= p_lp p /\ p_lp p <= p_hp p /\ p_hp p <= p_j p /\ p_j p < hi;
  pa_low : forall k, lo <= k < p_i p -> c (g k) v < 0;
  pa_mid : forall k, p_lp p <= k <= p_hp p -> c (g k) v = 0;
  pa_high : forall k, p_j p < k < hi -> 0 < c (g k) v;
  pa_loop : at_loop p = true -> p_i p < p_lp p -> 0 < c (g (p_i p)) v
}.
Definition left_to_do (p : part) : Z := 2 * ((p_lp p - p_i p) + (p_j p - p_hp p)) + (if at_loop p then 0 else 1).

Ltac upd := unfold exch, rot; rewrite ?fn_case; repeat case_decide; try lia; auto with lia.

Lemma aturn_ok lo hi v p g : parted lo hi v p g ->
  match aturn p g with
  | (inl p', g') => parted lo hi v p' g' /\ shuffled lo hi g g' /\ 0 <= left_to_do p' < left_to_do p
  | (inr (lp, hp), g') => g' = g /\ lo <= lp <= hp /\ hp < hi /\ (forall k, lo <= k < lp -> c (g k) v < 0) /\
      (forall k, lp <= k <= hp -> c (g k) v = 0) /\ (forall k, hp < k < hi -> 0 < c (g k) v)
  end.
Proof.
  destruct p as [i lp hp j l]. intros [Ho Hl Hm Hh Hp]. cbn [p_i p_lp p_hp p_j at_loop] in *. unfold aturn.
  destruct (negb l && (i <? lp)) eqn:E1.
  - apply andb_true_iff in E1 as [El%negb_true_iff Ei%Z.ltb_lt]. subst l.
    destruct (c_same (g i) (g lp) v (Hm lp ltac:(lia))) as (S1&S2&S3).
    destruct (Z.eqb_spec (c (g i) (g lp)) 0) as [Ec|Ec]; [|destruct (Z.ltb_spec (c (g i) (g lp)) 0) as [Ed|Ed]].
    + split; [|split; [apply exch_shuffled; lia|unfold left_to_do; cbn; lia]]. split; cbn [p_i p_lp p_hp p_j at_loop]; [lia|..].
      * intros k Hk. upd.
      * intros k Hk. upd.
      * intros k Hk. upd.
      * done.
    + split; [|split; [apply shuffled_refl|unfold left_to_do; cbn; lia]]. split; cbn [p_i p_lp p_hp p_j at_loop]; [lia| |done..].
      intros k Hk. destruct (decide (k = i)) as [->|]; [auto|apply Hl; lia].
    + split; [|split; [apply shuffled_refl|unfold left_to_do; cbn; lia]]. split; cbn [p_i p_lp p_hp p_j at_loop]; [lia|done..|].
      intros _ _. apply S3. lia.
  - assert (i < lp -> 0 < c (g i) v) as Hi. { intros Hi. destruct l; [by apply Hp|]. cbn in E1. lia. }
    destruct (Z.ltb_spec hp j) as [Ej|Ej]; [|destruct (Z.eqb_spec i lp) as [Ei|Ei]].
    + destruct (c_same (g j) (g hp) v (Hm hp ltac:(lia))) as (S1&S2&S3). pose proof (c_anti (g hp) (g j)) as A1. pose proof (c_anti (g j) (g hp)) as A2.
      destruct (Z.eqb_spec (c (g hp) (g j)) 0) as [Ec|Ec]; [|destruct (Z.ltb_spec 0 (c (g hp) (g j))) as [Ed|Ed]; [destruct (Z.eqb_spec i lp) as [Ei|Ei]|]].
      * apply c_flip in Ec. specialize (S2 Ec).
        split; [|split; [apply exch_shuffled; lia|unfold left_to_do; cbn; destruct l; lia]]. split; cbn [p_i p_lp p_hp p_j at_loop]; [lia|..|intros _ Hi'; upd];
          intros k Hk; (destruct (decide (j = hp + 1)) as [->|]; upd).
      * subst i. specialize (S1 ltac:(lia)).
        split; [|split; [apply rot_shuffled; lia|unfold left_to_do; cbn; destruct l; lia]]. split; cbn [p_i p_lp p_hp p_j at_loop]; [lia|intros k Hk; upd..|lia].
      * specialize (S1 ltac:(lia)). specialize (Hi ltac:(lia)).
        split; [|split; [apply exch_shuffled; lia|unfold left_to_do; cbn; destruct l; lia]]. split; cbn [p_i p_lp p_hp p_j at_loop]; [lia|intros k Hk; upd..|done].
      * specialize (S3 ltac:(lia)).
        split; [|split; [apply shuffled_refl|unfold left_to_do; cbn; destruct l; lia]]. split; cbn [p_i p_lp p_hp p_j at_loop]; [lia|done|done| |auto].
        intros k Hk. destruct (decide (k = j)) as [->|]; [done|apply Hh; lia].
    + subst i. split; [done|]. split; [lia|]. split; [lia|]. split; [done|]. split; [done|]. intros k Hk. apply Hh. lia.
    + specialize (Hi ltac:(lia)). assert (j = hp) as -> by lia.
      split; [|split; [apply rot_shuffled; lia|unfold left_to_do; cbn; destruct l; lia]]. split; cbn [p_i p_lp p_hp p_j at_loop]; [lia|intros k Hk; upd..|done].
Qed.
(** The division ends. *)
Lemma apart_ok (fuel : nat) lo hi v p g : parted lo hi v p g -> left_to_do p < Z.of_nat fuel ->
  exists lp hp g', apart fuel p g = Some (lp, hp, g') /\ shuffled lo hi g g' /\ lo <= lp <= hp /\ hp < hi /\
    (forall k, lo <= k < lp -> c (g' k) v < 0) /\ (forall k, lp <= k <= hp -> c (g' k) v = 0) /\ (forall k, hp < k < hi -> 0 < c (g' k) v).
Proof.
  revert p g. induction fuel as [|fuel IH]; intros p g Hp Hf.
  { destruct Hp as [Ho _ _ _ _]. unfold left_to_do in Hf. destruct (at_loop p); lia. }
  pose proof (aturn_ok lo hi v p g Hp) as H. cbn [apart]. destruct (aturn p g) as [[p'|[lp hp]] g'].
  - destruct H as (H1&H2&H3). destruct (IH p' g' H1 ltac:(lia)) as (lp&hp&g2&E&S2&H4). exists lp, hp, g2. split; [done|]. split; [|done].
    by eapply shuffled_trans.
  - destruct H as (->&H). by exists lp, hp, g.
Qed.

(** *** Sorted segments *)

Definition sorted (lo hi : Z) (g : Z -> T) : Prop := forall k k', lo <= k -> k < k' -> k' < hi -> c (g k) (g k') <= 0.
Lemma sorted_short lo hi g : hi <= lo + 1 -> sorted lo hi g.
Proof. intros H k k'. lia. Qed.
Lemma sorted_ext lo hi g g' : (forall k, lo <= k < hi -> g' k = g k) -> sorted lo hi g -> sorted lo hi g'.
Proof. intros H Hs k k' H1 H2 H3. rewrite !H by lia. by apply Hs. Qed.
(** Smaller values, equal ones, greater ones. *)
Lemma sorted_three lo lp hp hi v g : lo <= lp <= hp -> hp < hi -> sorted lo lp g -> sorted (hp + 1) hi g ->
  (forall k, lo <= k < lp -> c (g k) v < 0) -> (forall k, lp <= k <= hp -> c (g k) v = 0) -> (forall k, hp < k < hi -> 0 < c (g k) v) ->
  sorted lo hi g.
Proof.
  intros H1 H2 S1 S2 Hl Hm Hh k k' Hk Hkk Hk'.
  assert (forall i, lp <= i < hi -> c v (g i) <= 0) as Hv.
  { intros i Hi. destruct (decide (i <= hp)) as [Hi'|Hi']; [specialize (Hm i ltac:(lia)); apply c_flip in Hm; lia|].
    specialize (Hh i ltac:(lia)). pose proof (c_anti v (g i)). lia. }
  destruct (decide (k' < lp)); [by apply S1|]. destruct (decide (hp < k)); [apply S2; lia|].
  apply (c_trans _ v); [|apply Hv; lia]. destruct (decide (k < lp)); [specialize (Hl k ltac:(lia)); lia|specialize (Hm k ltac:(lia)); lia].
Qed.
(** The parts sorted one after the other. *)
Lemma sorted_parts lo lp hp hi v g1 g2 g3 : lo <= lp <= hp -> hp < hi ->
  (forall k, lo <= k < lp -> c (g1 k) v < 0) -> (forall k, lp <= k <= hp -> c (g1 k) v = 0) -> (forall k, hp < k < hi -> 0 < c (g1 k) v) ->
  (shuffled lo lp g1 g2 /\ sorted lo lp g2 /\ shuffled (hp + 1) hi g2 g3 /\ sorted (hp + 1) hi g3 \/
   shuffled (hp + 1) hi g1 g2 /\ sorted (hp + 1) hi g2 /\ shuffled lo lp g2 g3 /\ sorted lo lp g3) ->
  shuffled lo hi g1 g3 /\ sorted lo hi g3.
Proof.
  intros H1 H2 Hl Hm Hh [(Sa&Oa&Sb&Ob)|(Sa&Oa&Sb&Ob)]; (split; [eapply shuffled_trans; (eapply shuffled_sub; [| | |eassumption]; lia)|]); apply (sorted_three lo lp hp hi v); try done.
  - eapply sorted_ext; [|exact Oa]. intros k Hk. apply Sb. lia.
  - intros k Hk. rewrite (sh_out _ _ _ _ Sb) by lia. by apply (shuffled_all lo lp g1 g2 (fun x => c x v < 0)).
  - intros k Hk. rewrite (sh_out _ _ _ _ Sb), (sh_out _ _ _ _ Sa) by lia. by apply Hm.
  - intros k Hk. apply (shuffled_all (hp + 1) hi g2 g3 (fun x => 0 < c x v)); [done| |lia]. intros i Hi. rewrite (sh_out _ _ _ _ Sa) by lia. apply Hh. lia.
  - eapply sorted_ext; [|exact Oa]. intros k Hk. apply Sb. lia.
  - intros k Hk. apply (shuffled_all lo lp g2 g3 (fun x => c x v < 0)); [done| |lia]. intros i Hi. rewrite (sh_out _ _ _ _ Sa) by lia. apply Hl. lia.
  - intros k Hk. rewrite (sh_out _ _ _ _ Sb), (sh_out _ _ _ _ Sa) by lia. by apply Hm.
  - intros k Hk. rewrite (sh_out _ _ _ _ Sb) by lia. apply (shuffled_all (hp + 1) hi g1 g2 (fun x => 0 < c x v)); [done| |lia]. intros i Hi. apply Hh. lia.
Qed.
End array.

(** ** Memory as an array of elements *)

Section memory.
  Variable base : Z.
  Variable es : nat.
  Hypothesis es_pos : (0 < es)%nat.
  Abbreviation esz := (Z.of_nat es).

Definition addr (k : Z) : Z := base + esz * k.
Definition arr (m : mem) (k : Z) : list Z := map (fun o => m (addr k + o)) (seqZ 0 esz).

Lemma qsexc_at n p q m x : p = q \/ p + Z.of_nat n <= q \/ q + Z.of_nat n <= p ->
  qsexc n p q m x = if decide (p <= x < p + Z.of_nat n) then m (x - p + q) else if decide (q <= x < q + Z.of_nat n) then m (x - q + p) else m x.
Proof.
  revert p q m. induction n as [|n IH]; intros p q m Hpq; [cbn; repeat case_decide; by try lia|]. cbn [qsexc]. rewrite IH by lia.
  rewrite !fn_case. repeat case_decide; subst; try lia; f_equal; lia.
Qed.
Lemma qstexc_at n p q r m x : p + Z.of_nat n <= q \/ q + Z.of_nat n <= p -> p + Z.of_nat n <= r \/ r + Z.of_nat n <= p ->
  q = r \/ q + Z.of_nat n <= r \/ r + Z.of_nat n <= q ->
  qstexc n p q r m x = if decide (p <= x < p + Z.of_nat n) then m (x - p + r) else if decide (q <= x < q + Z.of_nat n) then m (x - q + p)
    else if decide (r <= x < r + Z.of_nat n) then m (x - r + q) else m x.
Proof.
  revert p q r m. induction n as [|n IH]; intros p q r m Hpq Hpr Hqr; [cbn; repeat case_decide; by try lia|]. cbn [qstexc]. rewrite IH by lia.
  rewrite !fn_case. repeat case_decide; subst; try lia; f_equal; lia.
Qed.
Lemma addr_apart p q : p = q \/ addr p + esz <= addr q \/ addr q + esz <= addr p.
Proof. unfold addr. destruct (Z.lt_trichotomy p q) as [H|[H|H]]; [right; left; nia|by left|right; right; nia]. Qed.
Lemma addr_ltb p q : (addr p <? addr q) = (p <? q).
Proof. unfold addr. destruct (Z.ltb_spec p q), (Z.ltb_spec (base + esz * p) (base + esz * q)); try done; nia. Qed.
Lemma addr_eqb p q : (addr p =? addr q) = (p =? q).
Proof. unfold addr. destruct (Z.eqb_spec p q), (Z.eqb_spec (base + esz * p) (base + esz * q)); try done; nia. Qed.
Lemma addr_next p : addr p + esz = addr (p + 1) /\ addr p - esz = addr (p - 1).
Proof. unfold addr. lia. Qed.
Lemma addr_inj p q : addr p = addr q -> p = q.
Proof. unfold addr. nia. Qed.

Lemma in_elem k p o : 0 <= o < esz -> addr p <= addr k + o < addr p + esz <-> k = p.
Proof. intros Ho. pose proof (addr_apart k p). split; [intros H'; destruct H as [|[|]]; [done|lia..]|intros ->; lia]. Qed.
Lemma qsexc_elem k p q o m : 0 <= o < esz ->
  qsexc es (addr p) (addr q) m (addr k + o) = m ((if decide (k = p) then addr q else if decide (k = q) then addr p else addr k) + o).
Proof.
  intros Ho. rewrite qsexc_at by (destruct (addr_apart p q) as [->|]; auto). rewrite !(decide_ext _ _ _ _ (in_elem k _ o Ho)).
  repeat case_decide; subst; f_equal; lia.
Qed.
Lemma qstexc_elem k p q r o m : p <> q -> p <> r -> 0 <= o < esz ->
  qstexc es (addr p) (addr q) (addr r) m (addr k + o) =
  m ((if decide (k = p) then addr r else if decide (k = q) then addr p else if decide (k = r) then addr q else addr k) + o).
Proof.
  intros Hpq Hpr Ho. rewrite qstexc_at.
  - rewrite !(decide_ext _ _ _ _ (in_elem k _ o Ho)). repeat case_decide; subst; f_equal; lia.
  - destruct (addr_apart p q); [done|lia].
  - destruct (addr_apart p r); [done|lia].
  - destruct (addr_apart q r) as [->|]; auto.
Qed.
Lemma arr_exch p q m : arr (qsexc es (addr p) (addr q) m) = exch p q (arr m).
Proof.
  extensionality k. assert (arr (qsexc es (addr p) (addr q) m) k = arr m (if decide (k = p) then q else if decide (k = q) then p else k)) as ->.
  { unfold arr. apply map_ext_in. intros o Ho%list_elem_of_In%elem_of_seqZ. rewrite qsexc_elem by lia. by repeat case_decide. }
  unfold exch. rewrite !fn_case. repeat case_decide; by subst.
Qed.
Lemma arr_rot p q r m : p <> q -> p <> r -> arr (qstexc es (addr p) (addr q) (addr r) m) = rot p q r (arr m).
Proof.
  intros Hpq Hpr. extensionality k.
  assert (arr (qstexc es (addr p) (addr q) (addr r) m) k = arr m (if decide (k = p) then r else if decide (k = q) then p else if decide (k = r) then q else k)) as ->.
  { unfold arr. apply map_ext_in. intros o Ho%list_elem_of_In%elem_of_seqZ. rewrite qstexc_elem by (done || lia). by repeat case_decide. }
  unfold rot. rewrite !fn_case. repeat case_decide; subst; congruence || done.
Qed.

(** ** The routine *)

  Variable qscmp : mem -> Z -> Z -> Z.
  Variable c : list Z -> list Z -> Z.
  (** The comparison looks at the two elements, and is a total preorder of their
      values. *)
  Hypothesis qscmp_reads : forall m p q, qscmp m (addr p) (addr q) = c (arr m p) (arr m q).
  Hypothesis c_anti : forall x y, c x y < 0 <-> 0 < c y x.
  Hypothesis c_trans : forall x y z, c x y <= 0 -> c y z <= 0 -> c x z <= 0.

Definition at_addr (p : part) : part := MkPart (addr (p_i p)) (addr (p_lp p)) (addr (p_hp p)) (addr (p_j p)) (at_loop p).

(** One round on memory is one on the array. *)
Lemma turn_arr lo hi v p m : parted c lo hi v p (arr m) ->
  match aturn c p (arr m) with
  | (inl p', g) => exists m', qs_turn qscmp es (at_addr p) m = (inl (at_addr p'), m') /\ arr m' = g
  | (inr (lp, hp), g) => qs_turn qscmp es (at_addr p) m = (inr (addr lp, addr hp), m) /\ arr m = g
  end.
Proof.
  destruct p as [i lp hp j l]. intros [Ho _ _ _ _]. unfold at_addr, qs_turn, aturn. cbn [p_i p_lp p_hp p_j at_loop] in *.
  rewrite !addr_ltb, !addr_eqb, !qscmp_reads. destruct (addr_next i) as [N1 _], (addr_next lp) as [N2 N3], (addr_next hp) as [N4 N5], (addr_next j) as [_ N6].
  rewrite N1, N2, N3, N4, N5, N6.
  destruct (negb l && (i <? lp)); [destruct (_ =? 0); [|by destruct (_ <? 0); eexists]|destruct (Z.ltb_spec hp j); [destruct (_ =? 0); [|destruct (0 <? _); [destruct (Z.eqb_spec i lp)|by eexists]]|destruct (Z.eqb_spec i lp)]].
  - eexists. split; [done|apply arr_exch].
  - eexists. split; [done|apply arr_exch].
  - eexists. split; [done|]. apply arr_rot; lia.
  - eexists. split; [done|apply arr_exch].
  - done.
  - eexists. split; [done|]. apply arr_rot; lia.
Qed.
Lemma part_arr fuel lo hi v p m lp hp g : parted c lo hi v p (arr m) -> apart c fuel p (arr m) = Some (lp, hp, g) ->
  exists m', qs_part qscmp es fuel (at_addr p) m = Some (addr lp, addr hp, m') /\ arr m' = g.
Proof.
  revert p m. induction fuel as [|fuel IH]; intros p m Hp E; [done|]. cbn [apart qs_part] in *.
  pose proof (aturn_ok c c_anti c_trans lo hi v p (arr m) Hp) as Ht. pose proof (turn_arr lo hi v p m Hp) as H.
  destruct (aturn c p (arr m)) as [[p'|[lp' hp']] g'].
  - destruct H as (m'&->&<-). apply IH; [apply Ht|done].
  - destruct H as [-> <-]. injection E as <- <- <-. by exists m.
Qed.

Lemma first_arr lo hi : lo + 1 < hi ->
  qs_first es (addr lo) (addr hi) = at_addr (MkPart lo (lo + (hi - lo) / 2) (lo + (hi - lo) / 2) (hi - 1) false).
Proof.
  intros H. unfold qs_first, at_addr. cbn [p_i p_lp p_hp p_j at_loop]. destruct (addr_next hi) as [_ ->].
  replace (addr hi - addr lo) with ((hi - lo) * esz) by (unfold addr; lia). rewrite Z.div_mul_cancel_r by lia. unfold addr. f_equal; lia.
Qed.
Lemma first_parted lo hi g : lo + 1 < hi ->
  parted c lo hi (g (lo + (hi - lo) / 2)) (MkPart lo (lo + (hi - lo) / 2) (lo + (hi - lo) / 2) (hi - 1) false) g.
Proof.
  intros H. assert (0 <= (hi - lo) / 2 /\ (hi - lo) / 2 < hi - lo) as [H1 H2] by (split; [apply Z.div_pos; lia|apply Z.div_lt; lia]).
  split; cbn [p_i p_lp p_hp p_j at_loop]; [lia|lia| |lia|done]. intros k Hk. replace k with (lo + (hi - lo) / 2) by lia.
  pose proof (c_anti (g (lo + (hi - lo) / 2)) (g (lo + (hi - lo) / 2))). lia.
Qed.

(** What a call on a segment does. *)
Definition does_sort (lo hi : Z) (m : mem) (r : option mem) : Prop :=
  exists m', r = Some m' /\ shuffled lo hi (arr m) (arr m') /\ sorted c lo hi (arr m').

Lemma start_ok rec n : (forall lo hi m, 2 * (hi - lo) < n -> does_sort lo hi m (rec (addr lo) (addr hi) m)) ->
  forall fuel lo hi m, hi - lo <= n -> hi - lo <= Z.of_nat fuel -> does_sort lo hi m (qs_start qscmp es rec fuel (addr lo) (addr hi) m).
Proof.
  intros Hrec fuel. induction fuel as [|fuel IH]; intros lo hi m Hn Hf.
  { cbn [qs_start]. replace (addr hi - addr lo <=? esz) with true by (unfold addr; nia). exists m. split; [done|]. split; [done|]. apply sorted_short. lia. }
  cbn [qs_start]. destruct (Z.leb_spec (addr hi - addr lo) esz) as [Hs|Hs].
  { exists m. split; [done|]. split; [done|]. apply sorted_short. unfold addr in Hs. nia. }
  assert (lo + 1 < hi) as Hlh by (unfold addr in Hs; nia). rewrite first_arr by done. set (p := MkPart _ _ _ _ _).
  pose proof (first_parted lo hi (arr m) Hlh) as Hp. fold p in Hp.
  destruct (apart_ok c c_anti c_trans (4 * Z.to_nat (addr hi - addr lo)) lo hi _ p (arr m) Hp) as (lp&hp&g&E&Sh&H1&H2&Hl&Hm&Hh).
  { unfold left_to_do. cbn. unfold addr. nia. }
  destruct (part_arr _ lo hi _ p m lp hp g Hp E) as (m1&E1&Eg). rewrite E1. subst g.
  assert ((addr hi - addr hp <=? addr lp - addr lo) = (hi - hp <=? lp - lo)) as ->.
  { unfold addr. destruct (Z.leb_spec (hi - hp) (lp - lo)); [apply Z.leb_le|apply Z.leb_gt]; nia. }
  destruct (addr_next hp) as [-> _]. destruct (Z.leb_spec (hi - hp) (lp - lo)) as [Hc|Hc].
  - destruct (Hrec (hp + 1) hi m1 ltac:(lia)) as (m2&E2&S2&O2). rewrite E2.
    destruct (IH lo lp m2 ltac:(lia) ltac:(lia)) as (m3&E3&S3&O3). rewrite E3. exists m3. split; [done|].
    destruct (sorted_parts c c_anti c_trans lo lp hp hi _ _ _ (arr m3) H1 H2 Hl Hm Hh (or_intror (conj S2 (conj O2 (conj S3 O3))))) as [Sx Ox].
    split; [by eapply shuffled_trans|done].
  - destruct (Hrec lo lp m1 ltac:(lia)) as (m2&E2&S2&O2). rewrite E2.
    destruct (IH (hp + 1) hi m2 ltac:(lia) ltac:(lia)) as (m3&E3&S3&O3). rewrite E3. exists m3. split; [done|].
    destruct (sorted_parts c c_anti c_trans lo lp hp hi _ _ _ (arr m3) H1 H2 Hl Hm Hh (or_introl (conj S2 (conj O2 (conj S3 O3))))) as [Sx Ox].
    split; [by eapply shuffled_trans|done].
Qed.
Lemma qs1_ok d : forall lo hi m, hi - lo < 2 ^ Z.of_nat d -> (0 < d)%nat -> does_sort lo hi m (qs1 qscmp es d (addr lo) (addr hi) m).
Proof.
  induction d as [|d IH]; intros lo hi m Hd Hp; [lia|]. cbn [qs1]. destruct (decide (hi - lo <= 1)) as [Hs|Hs].
  { exists m. split; [|split; [done|apply sorted_short; lia]].
    destruct (Z.to_nat (addr hi - addr lo)); cbn [qs_start]; by replace (addr hi - addr lo <=? esz) with true by (unfold addr; nia). }
  apply (start_ok _ (hi - lo)); [|lia|unfold addr; nia]. intros lo' hi' m' Hn.
  destruct d as [|d]; [change (2 ^ Z.of_nat 1) with 2 in Hd; lia|]. apply IH; [|lia].
  rewrite (Nat2Z.inj_succ (S d)), Z.pow_succ_r in Hd by lia. lia.
Qed.
End memory.

(** ** Properties *)

(** A total preorder of values, as comparison functions return it. *)
Record preorder (c : list Z -> list Z -> Z) : Prop := {
  po_anti : forall x y, c x y < 0 <-> 0 < c y x;
  po_trans : forall x y z, c x y <= 0 -> c y z <= 0 -> c x z <= 0
}.

(** C17: [qsort] of [n] elements of any size at [a] ends, and leaves them in order:
    the same elements, each no greater than the next, and no byte outside them
    has changed.  The calls of [qs1] are nested no deeper than the binary
    logarithm of [n] and one more. *)
Theorem qsort_sorts qscmp es c a n m : (0 < es)%nat -> preorder c -> 0 <= n ->
  (forall m p q, qscmp m (addr a es p) (addr a es q) = c (arr a es m p) (arr a es m q)) ->
  exists m', qsort qscmp es (S (Z.to_nat (Z.log2 n))) a n m = Some m' /\
    shuffled 0 n (arr a es m) (arr a es m') /\ sorted c 0 n (arr a es m').
Proof.
  intros Hes [Ha Ht] Hn Hc. unfold qsort. replace (a + n * Z.of_nat es) with (addr a es n) by (unfold addr; lia).
  pose proof (qs1_ok a es Hes qscmp c Hc Ha Ht (S (Z.to_nat (Z.log2 n))) 0 n m) as H. replace (addr a es 0) with a in H by (unfold addr; lia).
  apply H; [|lia]. rewrite Nat2Z.inj_succ, Z2Nat.id by apply Z.log2_nonneg. destruct (decide (n = 0)) as [->|]; [done|].
  destruct (Z.log2_spec n); [lia|]. lia.
Qed.

(** Numbers of two bytes, compared by their difference. *)
Definition cmp16 (m : mem) (p q : Z) : Z := rd_u16 m p - rd_u16 m q.
Definition val16 (x : list Z) : Z := nth 0 x 0 + 256 * nth 1 x 0.
Definition numbers : mem := wr_16 (wr_16 (wr_16 (wr_16 (wr_16 (fun _ => 0) 100 30) 102 10) 104 500) 106 10) 108 20.

Lemma val16_arr m k : rd_u16 m (addr 100 2 k) = val16 (arr 100 2 m k).
Proof. unfold rd_u16, val16, arr. change (seqZ 0 (Z.of_nat 2)) with [0; 1]. cbn [map nth]. by rewrite Z.add_0_r. Qed.

Lemma qsort_sorts_witness :
  exists m', qsort cmp16 2 3 100 5 numbers = Some m' /\ sorted (fun x y => val16 x - val16 y) 0 5 (arr 100 2 m').
Proof.
  destruct (qsort_sorts cmp16 2 (fun x y => val16 x - val16 y) 100 5 numbers) as (m'&E&_&S).
  - lia.
  - split; intros; lia.
  - lia.
  - intros m p q. unfold cmp16. rewrite !val16_arr. reflexivity.
  - exists m'. split; [exact E|exact S].
Defined.
Example qsort_five : option_map (fun m => map (rd_u16 m) [100; 102; 104; 106; 108]) (qsort cmp16 2 3 100 5 numbers) = Some [10; 10; 20; 30; 500].
Proof. vm_compute. reflexivity. Qed.
End Qsort.
