(* ===== verification/Crypt.v ===== *)
(** * Crypt: the encryption of passwords (src/usr/src/libc/gen/crypt.c)

    The Data Encryption Standard on arrays of bits, one to a [char], and [crypt],
    which encrypts a block of zeros 25 times with the password as the key and the
    E table changed by the salt.  The static arrays that live from one call to
    the next are the state: the key schedule and E.  L and R are one array of 64
    (the code indexes L up to 63, and R below 0 while E has zeros). *)
From S2P Require Import Prelude.

Module Crypt.

(** ** Tables *)

Definition IP : list Z :=
  [58; 50; 42; 34; 26; 18; 10; 2; 60; 52; 44; 36; 28; 20; 12; 4;
   62; 54; 46; 38; 30; 22; 14; 6; 64; 56; 48; 40; 32; 24; 16; 8;
   57; 49; 41; 33; 25; 17; 9; 1; 59; 51; 43; 35; 27; 19; 11; 3;
   61; 53; 45; 37; 29; 21; 13; 5; 63; 55; 47; 39; 31; 23; 15; 7].
Definition FP : list Z :=
  [40; 8; 48; 16; 56; 24; 64; 32; 39; 7; 47; 15; 55; 23; 63; 31;
   38; 6; 46; 14; 54; 22; 62; 30; 37; 5; 45; 13; 53; 21; 61; 29;
   36; 4; 44; 12; 52; 20; 60; 28; 35; 3; 43; 11; 51; 19; 59; 27;
   34; 2; 42; 10; 50; 18; 58; 26; 33; 1; 41; 9; 49; 17; 57; 25].
Definition PC1_C : list Z :=
  [57; 49; 41; 33; 25; 17; 9; 1; 58; 50; 42; 34; 26; 18; 10; 2;
   59; 51; 43; 35; 27; 19; 11; 3; 60; 52; 44; 36].
Definition PC1_D : list Z :=
  [63; 55; 47; 39; 31; 23; 15; 7; 62; 54; 46; 38; 30; 22; 14; 6;
   61; 53; 45; 37; 29; 21; 13; 5; 28; 20; 12; 4].
Definition shifts : list Z :=
  [1; 1; 2; 2; 2; 2; 2; 2; 1; 2; 2; 2; 2; 2; 2; 1].
Definition PC2_C : list Z :=
  [14; 17; 11; 24; 1; 5; 3; 28; 15; 6; 21; 10; 23; 19; 12; 4;
   26; 8; 16; 7; 27; 20; 13; 2].
Definition PC2_D : list Z :=
  [41; 52; 31; 37; 47; 55; 30; 40; 51; 45; 33; 48; 44; 49; 39; 56;
   34; 53; 46; 42; 50; 36; 29; 32].
Definition e_table : list Z :=
  [32; 1; 2; 3; 4; 5; 4; 5; 6; 7; 8; 9; 8; 9; 10; 11;
   12; 13; 12; 13; 14; 15; 16; 17; 16; 17; 18; 19; 20; 21; 20; 21;
   22; 23; 24; 25; 24; 25; 26; 27; 28; 29; 28; 29; 30; 31; 32; 1].
Definition P : list Z :=
  [16; 7; 20; 21; 29; 12; 28; 17; 1; 15; 23; 26; 5; 18; 31; 10;
   2; 8; 24; 14; 32; 27; 3; 9; 19; 13; 30; 6; 22; 11; 4; 25].
Definition S_ : list (list Z) :=
  [[14; 4; 13; 1; 2; 15; 11; 8; 3; 10; 6; 12; 5; 9; 0; 7;
    0; 15; 7; 4; 14; 2; 13; 1; 10; 6; 12; 11; 9; 5; 3; 8;
    4; 1; 14; 8; 13; 6; 2; 11; 15; 12; 9; 7; 3; 10; 5; 0;
    15; 12; 8; 2; 4; 9; 1; 7; 5; 11; 3; 14; 10; 0; 6; 13];
   [15; 1; 8; 14; 6; 11; 3; 4; 9; 7; 2; 13; 12; 0; 5; 10;
    3; 13; 4; 7; 15; 2; 8; 14; 12; 0; 1; 10; 6; 9; 11; 5;
    0; 14; 7; 11; 10; 4; 13; 1; 5; 8; 12; 6; 9; 3; 2; 15;
    13; 8; 10; 1; 3; 15; 4; 2; 11; 6; 7; 12; 0; 5; 14; 9];
   [10; 0; 9; 14; 6; 3; 15; 5; 1; 13; 12; 7; 11; 4; 2; 8;
    13; 7; 0; 9; 3; 4; 6; 10; 2; 8; 5; 14; 12; 11; 15; 1;
    13; 6; 4; 9; 8; 15; 3; 0; 11; 1; 2; 12; 5; 10; 14; 7;
    1; 10; 13; 0; 6; 9; 8; 7; 4; 15; 14; 3; 11; 5; 2; 12];
   [7; 13; 14; 3; 0; 6; 9; 10; 1; 2; 8; 5; 11; 12; 4; 15;
    13; 8; 11; 5; 6; 15; 0; 3; 4; 7; 2; 12; 1; 10; 14; 9;
    10; 6; 9; 0; 12; 11; 7; 13; 15; 1; 3; 14; 5; 2; 8; 4;
    3; 15; 0; 6; 10; 1; 13; 8; 9; 4; 5; 11; 12; 7; 2; 14];
   [2; 12; 4; 1; 7; 10; 11; 6; 8; 5; 3; 15; 13; 0; 14; 9;
    14; 11; 2; 12; 4; 7; 13; 1; 5; 0; 15; 10; 3; 9; 8; 6;
    4; 2; 1; 11; 10; 13; 7; 8; 15; 9; 12; 5; 6; 3; 0; 14;
    11; 8; 12; 7; 1; 14; 2; 13; 6; 15; 0; 9; 10; 4; 5; 3];
   [12; 1; 10; 15; 9; 2; 6; 8; 0; 13; 3; 4; 14; 7; 5; 11;
    10; 15; 4; 2; 7; 12; 9; 5; 6; 1; 13; 14; 0; 11; 3; 8;
    9; 14; 15; 5; 2; 8; 12; 3; 7; 0; 4; 10; 1; 13; 11; 6;
    4; 3; 2; 12; 9; 5; 15; 10; 11; 14; 1; 7; 6; 0; 8; 13];
   [4; 11; 2; 14; 15; 0; 8; 13; 3; 12; 9; 7; 5; 10; 6; 1;
    13; 0; 11; 7; 4; 9; 1; 10; 14; 3; 5; 12; 2; 15; 8; 6;
    1; 4; 11; 13; 12; 3; 7; 14; 10; 15; 6; 8; 0; 5; 9; 2;
    6; 11; 13; 8; 1; 4; 10; 7; 9; 5; 0; 15; 14; 2; 3; 12];
   [13; 2; 8; 4; 6; 15; 11; 1; 10; 9; 3; 14; 5; 0; 12; 7;
    1; 15; 13; 8; 10; 3; 7; 4; 12; 5; 6; 11; 0; 14; 9; 2;
    7; 11; 4; 1; 9; 12; 14; 2; 0; 6; 10; 13; 15; 3; 5; 8;
    2; 1; 14; 7; 4; 10; 8; 13; 15; 12; 9; 0; 3; 5; 6; 11]].

(** ** Arrays *)

Definition at_ (l : list Z) (i : Z) : Z := nth (Z.to_nat i) l 0.
(** [for (j=0; j<n; j++) a[j] = f(j);] *)
Definition tab (n : Z) (f : Z -> Z) : list Z := map f (seqZ 0 n).
Definition put (l : list Z) (i v : Z) : list Z := <[Z.to_nat i := v]> l.

Record des := MkDes { KS : list (list Z); E : list Z }.
#[export] Instance eta_des : Eta des := fun r => MkDes (KS r) (E r).
(** Before the first call. *)
Definition des0 : des := MkDes (replicate 16 (replicate 48 0)) (replicate 48 0).

(** ** The key schedule *)

(** [t = C[0]; for (j=0; j<28-1; j++) C[j] = C[j+1]; C[27] = t;] *)
Definition rotate (c : list Z) : list Z := tab 27 (fun j => at_ c (j + 1)) ++ [at_ c 0].
Definition key_row (c d : list Z) : list Z :=
  tab 24 (fun j => at_ c (at_ PC2_C j - 1)) ++ tab 24 (fun j => at_ d (at_ PC2_D j - 28 - 1)).
(** The rows for the shifts [sh]. *)
Fixpoint schedule (sh : list Z) (c d : list Z) : list (list Z) :=
  match sh with
  | [] => []
  | k :: sh =>
      let c := Nat.iter (Z.to_nat k) rotate c in
      let d := Nat.iter (Z.to_nat k) rotate d in
      key_row c d :: schedule sh c d
  end.
Definition setkey (key : list Z) (st : des) : des :=
  st <| KS := schedule shifts (tab 28 (fun i => at_ key (at_ PC1_C i - 1))) (tab 28 (fun i => at_ key (at_ PC1_D i - 1))) |>.

(** ** Encryption *)

Definition sel_index (pre : list Z) (t : Z) : Z :=
  Z.shiftl (at_ pre (t + 0)) 5 + Z.shiftl (at_ pre (t + 1)) 3 + Z.shiftl (at_ pre (t + 2)) 2 +
  Z.shiftl (at_ pre (t + 3)) 1 + Z.shiftl (at_ pre (t + 4)) 0 + Z.shiftl (at_ pre (t + 5)) 4.
Definition selected (pre : list Z) (j : Z) : list Z :=
  let k := at_ (nth (Z.to_nat j) S_ []) (sel_index pre (6 * j)) in
  [Z.land (Z.shiftr k 3) 1; Z.land (Z.shiftr k 2) 1; Z.land (Z.shiftr k 1) 1; Z.land (Z.shiftr k 0) 1].
(** [f(R, K)], before the permutation P. *)
Definition cipher (e k lr : list Z) : list Z :=
  let pre := tab 48 (fun j => Z.lxor (at_ lr (32 + at_ e j - 1)) (at_ k j)) in
  concat (map (selected pre) (seqZ 0 8)).
(** One of the 16 operations: the new L is the old R. *)
Definition des_round (e k lr : list Z) : list Z :=
  let f := cipher e k lr in
  tab 32 (fun j => at_ lr (32 + j)) ++ tab 32 (fun j => Z.lxor (at_ lr j) (at_ f (at_ P j - 1))).
Definition swap_halves (lr : list Z) : list Z := tab 32 (fun j => at_ lr (32 + j)) ++ tab 32 (fun j => at_ lr j).
(** The rows of the key schedule in the order of use. *)
Definition rows (st : des) (edflag : Z) : list (list Z) :=
  map (fun ii => nth (Z.to_nat (if negb (edflag =? 0) then 15 - ii else ii)) (KS st) []) (seqZ 0 16).
Definition initial (block : list Z) : list Z := tab 64 (fun j => at_ block (at_ IP j - 1)).
Definition final (lr : list Z) : list Z := tab 64 (fun j => at_ lr (at_ FP j - 1)).
Definition encrypt (st : des) (block : list Z) (edflag : Z) : list Z :=
  let lr := foldl (fun lr k => des_round (E st) k lr) (initial block) (rows st edflag) in
  final (swap_halves lr) ++ drop 64 block.

(** ** crypt *)

(** The seven bits of a character and one that stays zero. *)
Definition char_bits (c : Z) : list Z := tab 7 (fun j => Z.land (Z.shiftr c (6 - j)) 1) ++ [0].
(** The key block from the first eight characters of the password. *)
Fixpoint key_bits (n : nat) (pw : list Z) : list Z :=
  match n, pw with
  | S n, c :: pw => if c =? 0 then [] else char_bits c ++ key_bits n pw
  | _, _ => []
  end.
Definition key_block (pw : list Z) : list Z := let b := key_bits 8 pw in b ++ replicate (66 - length b) 0.

Definition salt_value (c : Z) : Z :=
  let c := if 90 <? c then c - 6 else c in
  let c := if 57 <? c then c - 7 else c in
  c - 46.
(** The exchanges that one character of the salt makes in E. *)
Definition salt_swap (i c : Z) (e : list Z) : list Z :=
  foldl (fun e j =>
    if Z.land (Z.shiftr c j) 1 =? 0 then e
    else
      let temp := at_ e (6 * i + j) in
      let e := put e (6 * i + j) (at_ e (6 * i + j + 24)) in
      put e (6 * i + j + 24) temp) e (seqZ 0 6).

Definition out_char (block : list Z) (i : Z) : Z :=
  let c := foldl (fun c j => Z.lor (Z.shiftl c 1) (at_ block (6 * i + j))) 0 (seqZ 0 6) in
  let c := c + 46 in
  let c := if 57 <? c then c + 7 else c in
  if 90 <? c then c + 6 else c.

(** The result is the contents of [iobuf] up to the final zero it has stored. *)
Definition crypt (pw salt : list Z) (st : des) : list Z * des :=
  let st := setkey (key_block pw) st in
  let c0 := at_ salt 0 in let c1 := at_ salt 1 in
  let st := st <| E := salt_swap 1 (salt_value c1) (salt_swap 0 (salt_value c0) (tab 48 (at_ e_table))) |> in
  let block := Nat.iter 25 (fun b => encrypt st b 0) (replicate 66 0) in
  ([c0; if c1 =? 0 then c0 else c1] ++ tab 11 (out_char block) ++ [0], st).

(** ** Lemmas on arrays *)

Lemma length_tab n f : length (tab n f) = Z.to_nat n.
Proof. unfold tab. by rewrite length_map, length_seqZ. Qed.
Lemma at_tab n f i : 0 <= i < n -> at_ (tab n f) i = f i.
Proof.
  intros Hi. unfold at_, tab. rewrite nth_lookup, list_lookup_fmap, lookup_seqZ_lt by lia. cbn. f_equal. lia.
Qed.
Lemma at_app_l l l' i : 0 <= i < Z.of_nat (length l) -> at_ (l ++ l') i = at_ l i.
Proof. intros Hi. unfold at_. apply app_nth1. lia. Qed.
Lemma at_app_r l l' i : Z.of_nat (length l) <= i -> at_ (l ++ l') i = at_ l' (i - Z.of_nat (length l)).
Proof. intros Hi. unfold at_. rewrite app_nth2 by lia. f_equal. lia. Qed.
(** Two arrays of the same length with the same elements. *)
Lemma at_ext n l l' : Z.of_nat (length l) = n -> Z.of_nat (length l') = n -> (forall i, 0 <= i < n -> at_ l i = at_ l' i) -> l = l'.
Proof.
  intros H1 H2 H. apply (nth_ext l l' 0 0); [lia|]. intros i Hi. specialize (H (Z.of_nat i) ltac:(lia)). unfold at_ in H. by rewrite Nat2Z.id in H.
Qed.
Lemma tab_at n l : Z.of_nat (length l) = n -> tab n (at_ l) = l.
Proof. intros H. apply (at_ext n); [rewrite length_tab; lia|done|]. intros i Hi. by apply at_tab. Qed.
Lemma tab_ext n f g : (forall i, 0 <= i < n -> f i = g i) -> tab n f = tab n g.
Proof. intros H. unfold tab. apply map_ext_in. intros i Hi%list_elem_of_In%elem_of_seqZ. apply H. lia. Qed.
(** A finite check of all indices. *)
Lemma all_indices n (p : Z -> bool) : forallb p (seqZ 0 n) = true -> forall i, 0 <= i < n -> p i = true.
Proof. intros H i Hi. rewrite forallb_forall in H. apply H. apply list_elem_of_In, elem_of_seqZ. lia. Qed.

(** ** The 16 operations, and back *)

Definition halves (lr : list Z) : Prop := length lr = 64%nat.
(** E takes its bits from R only. *)
Definition e_valid (e : list Z) : Prop := forall j, 0 <= j < 48 -> 1 <= at_ e j <= 32.

Lemma round_halves e k lr : halves (des_round e k lr).
Proof. unfold halves, des_round. by rewrite length_app, !length_tab. Qed.
Lemma swap_halves_halves lr : halves (swap_halves lr).
Proof. unfold halves, swap_halves. by rewrite length_app, !length_tab. Qed.
Lemma at_swap lr i : 0 <= i < 64 -> at_ (swap_halves lr) i = at_ lr (if i <? 32 then 32 + i else i - 32).
Proof.
  intros Hi. unfold swap_halves. destruct (i <? 32) eqn:E.
  - rewrite at_app_l by (rewrite length_tab; lia). by rewrite at_tab by lia.
  - rewrite at_app_r by (rewrite length_tab; lia). rewrite length_tab. change (Z.of_nat (Z.to_nat 32)) with 32. by rewrite at_tab by lia.
Qed.
Lemma at_round e k lr i : 0 <= i < 64 ->
  at_ (des_round e k lr) i = if i <? 32 then at_ lr (32 + i) else Z.lxor (at_ lr (i - 32)) (at_ (cipher e k lr) (at_ P (i - 32) - 1)).
Proof.
  intros Hi. unfold des_round. destruct (i <? 32) eqn:E.
  - rewrite at_app_l by (rewrite length_tab; lia). by rewrite at_tab by lia.
  - rewrite at_app_r by (rewrite length_tab; lia). rewrite length_tab. change (Z.of_nat (Z.to_nat 32)) with 32. by rewrite at_tab by lia.
Qed.
Lemma swap_swap lr : halves lr -> swap_halves (swap_halves lr) = lr.
Proof.
  intros H. unfold halves in H. apply (at_ext 64); [by rewrite swap_halves_halves|lia|]. intros i Hi. rewrite at_swap by done.
  destruct (i <? 32) eqn:E; rewrite at_swap by lia; [replace (32 + i <? 32) with false by lia|replace (i - 32 <? 32) with true by lia]; f_equal; lia.
Qed.

(** [f(R, K)] is a function of R. *)
Lemma cipher_r e k lr lr' : e_valid e -> (forall j, 0 <= j < 32 -> at_ lr' (32 + j) = at_ lr (32 + j)) -> cipher e k lr' = cipher e k lr.
Proof.
  intros He H. unfold cipher. do 2 f_equal. f_equal. apply tab_ext. intros j Hj. specialize (He j Hj). f_equal.
  replace (32 + at_ e j - 1) with (32 + (at_ e j - 1)) by lia. apply H. lia.
Qed.
(** An operation with the same row, on the halves exchanged, undoes it. *)
Lemma round_back e k lr : e_valid e -> halves lr -> des_round e k (swap_halves (des_round e k lr)) = swap_halves lr.
Proof.
  intros He H. unfold halves in H. apply (at_ext 64); [by rewrite round_halves|by rewrite swap_halves_halves|]. intros i Hi.
  rewrite at_round, (at_swap lr) by done. destruct (i <? 32) eqn:E.
  - rewrite at_swap by lia. replace (32 + i <? 32) with false by lia. rewrite at_round by lia. replace (32 + i - 32 <? 32) with true by lia. f_equal. lia.
  - rewrite at_swap by lia. replace (i - 32 <? 32) with true by lia. rewrite at_round by lia. replace (32 + (i - 32) <? 32) with false by lia.
    replace (32 + (i - 32) - 32) with (i - 32) by lia.
    rewrite (cipher_r e k lr (swap_halves (des_round e k lr))), Z.lxor_assoc, Z.lxor_nilpotent, Z.lxor_0_r; [done|done|].
    intros j Hj. rewrite at_swap by lia. replace (32 + j <? 32) with false by lia. rewrite at_round by lia.
    replace (32 + j - 32 <? 32) with true by lia. f_equal. lia.
Qed.
Lemma rounds_halves e ks lr : halves lr -> halves (foldl (fun lr k => des_round e k lr) lr ks).
Proof. revert lr. induction ks as [|k ks IH]; intros lr H; [done|]. apply IH, round_halves. Qed.
Lemma rounds_back e ks lr : e_valid e -> halves lr ->
  foldl (fun lr k => des_round e k lr) (swap_halves (foldl (fun lr k => des_round e k lr) lr ks)) (reverse ks) = swap_halves lr.
Proof.
  intros He. revert lr. induction ks as [|k ks IH]; intros lr H; [done|]. cbn [foldl]. rewrite reverse_cons, foldl_app, IH by apply round_halves.
  cbn [foldl]. by apply round_back.
Qed.

Lemma rows_back st : rows st 0 = reverse (rows st 1) /\ rows st 1 = reverse (rows st 0).
Proof. split; cbv -[KS]; reflexivity. Qed.

(** FP is the inverse of IP. *)
Lemma permutations i : 0 <= i < 64 -> at_ FP (at_ IP i - 1) = i + 1 /\ 0 <= at_ IP i - 1 < 64 /\ at_ IP (at_ FP i - 1) = i + 1 /\ 0 <= at_ FP i - 1 < 64.
Proof.
  intros Hi. assert (forallb (fun i => (at_ FP (at_ IP i - 1) =? i + 1) && ((0 <=? at_ IP i - 1) && (at_ IP i - 1 <? 64)) &&
    ((at_ IP (at_ FP i - 1) =? i + 1) && ((0 <=? at_ FP i - 1) && (at_ FP i - 1 <? 64)))) (seqZ 0 64) = true) as H by (vm_compute; reflexivity).
  pose proof (all_indices _ _ H i Hi) as E. cbv beta in E. lia.
Qed.
Lemma initial_halves b : halves (initial b).
Proof. unfold halves, initial. by rewrite length_tab. Qed.
Lemma initial_final lr t : halves lr -> initial (final lr ++ t) = lr.
Proof.
  intros H. apply (at_ext 64); [by rewrite initial_halves|by rewrite H|]. intros i Hi. destruct (permutations i Hi) as (E1&R1&E2&R2).
  unfold initial. rewrite at_tab by done. unfold final. rewrite at_app_l by (rewrite length_tab; lia). rewrite at_tab by done.
  f_equal. lia.
Qed.
Lemma final_initial b : final (initial b) = tab 64 (at_ b).
Proof.
  apply tab_ext. intros i Hi. destruct (permutations i Hi) as (E1&R1&E2&R2). unfold initial. rewrite at_tab by done. f_equal. lia.
Qed.

Lemma encrypt_back st b d d' : e_valid (E st) -> (64 <= length b)%nat -> rows st d' = reverse (rows st d) ->
  encrypt st (encrypt st b d) d' = b.
Proof.
  intros He Hl Hr. unfold encrypt at 1. cbv zeta. unfold encrypt. cbv zeta. set (lr := foldl _ (initial b) (rows st d)).
  rewrite initial_final by apply swap_halves_halves. rewrite Hr. unfold lr. rewrite rounds_back by (done || apply initial_halves).
  rewrite swap_swap, final_initial by apply initial_halves. rewrite drop_app_length' by (unfold final; by rewrite length_tab).
  transitivity (take 64 b ++ drop 64 b); [|apply take_drop]. f_equal. rewrite <- (tab_at 64 (take 64 b)) by (rewrite length_take; lia).
  apply tab_ext. intros i Hi. unfold at_. rewrite !nth_lookup, lookup_take_lt by lia. done.
Qed.

(** ** Bits *)

Definition bit (x : Z) : Prop := x = 0 \/ x = 1.
Lemma at_bits l i : Forall bit l -> bit (at_ l i).
Proof. intros H. unfold at_. destruct (nth_in_or_default (Z.to_nat i) l 0) as [Hin| ->]; [|by left]. rewrite Forall_forall in H. apply H. by apply list_elem_of_In. Qed.
Lemma tab_bits n f : (forall i, 0 <= i < n -> bit (f i)) -> Forall bit (tab n f).
Proof. intros H. unfold tab. apply Forall_map, Forall_forall. intros i Hi%elem_of_seqZ. apply H. lia. Qed.
Lemma bit_lxor x y : bit x -> bit y -> bit (Z.lxor x y).
Proof. intros [->| ->] [->| ->]; [by left|by right|by right|by left]. Qed.
Lemma bit_land x : bit (Z.land x 1).
Proof. unfold bit. assert (Z.land x 1 = x mod 2) as -> by (apply (Z.land_ones x 1); lia). pose proof (Z.mod_pos_bound x 2 ltac:(lia)). lia. Qed.
(** The index into a selection function is in its range. *)
Lemma sel_index_range pre t : Forall bit pre -> 0 <= sel_index pre t < 64.
Proof.
  intros H. unfold sel_index. destruct (at_bits pre (t + 0) H) as [->| ->], (at_bits pre (t + 1) H) as [->| ->], (at_bits pre (t + 2) H) as [->| ->],
    (at_bits pre (t + 3) H) as [->| ->], (at_bits pre (t + 4) H) as [->| ->], (at_bits pre (t + 5) H) as [->| ->]; (split; [discriminate|reflexivity]).
Qed.
Lemma cipher_bits e k lr : Forall bit (cipher e k lr).
Proof.
  unfold cipher. apply Forall_concat, Forall_map, Forall_forall. intros j _. unfold selected. repeat (apply Forall_cons; split; [apply bit_land|]). by apply Forall_nil.
Qed.
Lemma round_bits e k lr : Forall bit lr -> Forall bit (des_round e k lr).
Proof.
  intros H. unfold des_round. apply Forall_app. split; apply tab_bits; intros j _; [by apply at_bits|].
  apply bit_lxor; apply at_bits; [done|apply cipher_bits].
Qed.
Lemma encrypt_bits st b d : Forall bit b -> (64 <= length b)%nat -> Forall bit (encrypt st b d) /\ length (encrypt st b d) = length b.
Proof.
  intros H Hl. unfold encrypt. cbv zeta. split.
  - apply Forall_app. split; [|by apply Forall_drop]. apply tab_bits. intros j _. apply at_bits.
    assert (forall ks lr, Forall bit lr -> Forall bit (foldl (fun lr k => des_round (E st) k lr) lr ks)) as Hr.
    { induction ks as [|k ks IH]; intros lr Hlr; [done|]. apply IH. by apply round_bits. }
    unfold swap_halves. apply Forall_app. split; apply tab_bits; intros i _; apply at_bits, Hr, tab_bits; intros i' _; by apply at_bits.
  - unfold final. rewrite length_app, length_tab, length_drop. lia.
Qed.

(** ** E and the salt *)

Lemma length_put l i v : length (put l i v) = length l.
Proof. apply length_insert. Qed.
Lemma at_put l i j v : 0 <= i < Z.of_nat (length l) -> 0 <= j -> at_ (put l i v) j = if decide (i = j) then v else at_ l j.
Proof.
  intros Hi Hj. unfold at_, put. rewrite !nth_lookup, list_lookup_insert. destruct (decide (i = j)) as [<-|Hn].
  - rewrite decide_True by (split; [done|lia]). done.
  - rewrite decide_False by (intros [H _]; lia). done.
Qed.
Lemma salt_step_valid p e : 0 <= p < 12 -> length e = 48%nat -> e_valid e ->
  let temp := at_ e p in let e' := put (put e p (at_ e (p + 24))) (p + 24) temp in length e' = 48%nat /\ e_valid e'.
Proof.
  intros Hp Hl He. cbv zeta. split; [by rewrite !length_put|]. intros x Hx. rewrite at_put by (rewrite ?length_put; lia).
  case_decide; [apply He; lia|]. rewrite at_put by lia. case_decide; apply He; lia.
Qed.
Lemma salt_swap_valid i c e : i = 0 \/ i = 1 -> length e = 48%nat -> e_valid e -> length (salt_swap i c e) = 48%nat /\ e_valid (salt_swap i c e).
Proof.
  intros Hi Hl He. unfold salt_swap. assert (Forall (fun j => 0 <= j < 6) (seqZ 0 6)) as Hj by (apply Forall_seqZ; lia).
  revert e Hl He. induction Hj as [|j js Hj _ IH]; intros e Hl He; [done|]. cbn [foldl]. destruct (_ =? 0); [by apply IH|].
  destruct (salt_step_valid (6 * i + j) e) as [H1 H2]; [lia|done|done|]. by apply IH.
Qed.
Lemma e_table_valid : length (tab 48 (at_ e_table)) = 48%nat /\ e_valid (tab 48 (at_ e_table)).
Proof.
  split; [done|]. intros j Hj. assert (forallb (fun j => (1 <=? at_ (tab 48 (at_ e_table)) j) && (at_ (tab 48 (at_ e_table)) j <=? 32)) (seqZ 0 48) = true) as H
    by (vm_compute; reflexivity).
  pose proof (all_indices _ _ H j Hj) as E. cbv beta in E. lia.
Qed.
Lemma crypt_valid pw salt st : e_valid (E (snd (crypt pw salt st))).
Proof.
  unfold crypt. cbn [snd]. destruct e_table_valid as [Hl He]. destruct (salt_swap_valid 0 (salt_value (at_ salt 0)) _ (or_introl eq_refl) Hl He) as [L1 V1].
  exact (proj2 (salt_swap_valid 1 (salt_value (at_ salt 1)) _ (or_intror eq_refl) L1 V1)).
Qed.

(** ** The characters of the result *)

Definition alphabet : list Z := [46; 47] ++ seqZ 48 10 ++ seqZ 65 26 ++ seqZ 97 26.
Lemma out_char_ok b i : Forall bit b -> out_char b i ∈ alphabet.
Proof.
  intros H. unfold out_char. change (seqZ 0 6) with [0; 1; 2; 3; 4; 5]. cbn [foldl].
  destruct (at_bits b (6 * i + 0) H) as [-> | ->], (at_bits b (6 * i + 1) H) as [-> | ->], (at_bits b (6 * i + 2) H) as [-> | ->],
    (at_bits b (6 * i + 3) H) as [-> | ->], (at_bits b (6 * i + 4) H) as [-> | ->], (at_bits b (6 * i + 5) H) as [-> | ->];
    apply (bool_decide_unpack _); vm_compute; exact I.
Qed.
Lemma block_bits st n : Forall bit (Nat.iter n (fun b => encrypt st b 0) (replicate 66 0)) /\
  length (Nat.iter n (fun b => encrypt st b 0) (replicate 66 0)) = 66%nat.
Proof.
  induction n as [|n [IH1 IH2]]; [split; [apply Forall_replicate; by left|done]|]. cbn [Nat.iter nat_rect].
  destruct (encrypt_bits st _ 0 IH1) as [H1 H2]; [lia|]. split; [done|]. exact (eq_trans H2 IH2).
Qed.

(** ** Properties *)

(** C18: Decryption with the same key undoes encryption, and encryption undoes
    decryption, of any block of bits, once E is set (as [crypt] leaves it, for any
    salt). *)
Theorem encrypt_decrypt st b : e_valid (E st) -> Forall bit b -> (64 <= length b)%nat ->
  encrypt st (encrypt st b 0) 1 = b /\ encrypt st (encrypt st b 1) 0 = b.
Proof. intros He _ Hl. destruct (rows_back st). split; by apply encrypt_back. Qed.

(** C29: What [crypt] returns depends on the password and the salt only, not on the
    calls before it: the two characters of the salt, then eleven characters from
    the 64 of [alphabet], then a zero.  So encrypting the same password with the
    result as the salt gives the result again, which is how a password is
    checked. *)
Theorem crypt_checks pw salt st st' : at_ salt 1 <> 0 ->
  let r := fst (crypt pw salt st) in
  fst (crypt pw r st') = r /\ length r = 14%nat /\ at_ r 0 = at_ salt 0 /\ at_ r 1 = at_ salt 1 /\
  (forall i, 2 <= i < 13 -> at_ r i ∈ alphabet) /\ at_ r 13 = 0.
Proof.
  intros Hs r. destruct (block_bits (snd (crypt pw salt st)) 25) as [Hb _]. set (b := Nat.iter 25 _ _) in Hb.
  assert (r = [at_ salt 0; at_ salt 1] ++ tab 11 (out_char b) ++ [0]) as Er.
  { unfold r, crypt. cbn [fst]. rewrite (proj2 (Z.eqb_neq _ _) Hs). reflexivity. }
  clearbody r. assert (at_ r 0 = at_ salt 0 /\ at_ r 1 = at_ salt 1) as [E0 E1] by (rewrite Er; split; reflexivity).
  split; [|split; [by rewrite Er|split; [done|split; [done|split; [|by rewrite Er]]]]].
  - rewrite Er at 2. unfold crypt. cbn [fst]. rewrite E0, E1, (proj2 (Z.eqb_neq _ _) Hs). reflexivity.
  - intros i Hi. rewrite Er. rewrite at_app_r by (cbn [length]; lia). cbn [length]. rewrite at_app_l by (rewrite length_tab; lia).
    rewrite at_tab by lia. by apply out_char_ok.
Qed.

(** [encrypt] before the first [crypt] takes its bits from outside R, and is not
    undone by decryption. *)
Definition stripes : list Z := tab 64 (fun i => (i / 3) mod 2).
Lemma encrypt_unset_e : let st := setkey stripes des0 in encrypt st (encrypt st stripes 0) 1 <> stripes.
Proof. vm_compute. discriminate. Qed.

Definition str (s : string) : list Z := map (fun a => Z.of_nat (Ascii.nat_of_ascii a)) (String.list_ascii_of_string s).

Lemma encrypt_decrypt_witness : let st := setkey (key_block (str "password")) (snd (crypt [] (str "ab") des0)) in
  encrypt st (encrypt st (replicate 64 1) 0) 1 = replicate 64 1 /\ encrypt st (encrypt st (replicate 64 1) 1) 0 = replicate 64 1.
Proof.
  apply encrypt_decrypt.
  - exact (crypt_valid [] (str "ab") des0).
  - apply Forall_replicate. right. reflexivity.
  - vm_compute. lia.
Defined.

Lemma crypt_checks_witness : fst (crypt (str "password") (str "ab") des0) = str "abJnggxhB/yWI" ++ [0] /\
  fst (crypt (str "password") (str "abJnggxhB/yWI") des0) = str "abJnggxhB/yWI" ++ [0].
Proof.
  assert (fst (crypt (str "password") (str "ab") des0) = str "abJnggxhB/yWI" ++ [0]) as E by (vm_compute; reflexivity).
  split; [exact E|]. destruct (crypt_checks (str "password") (str "ab") des0 des0) as [H _]; [vm_compute; discriminate|].
  rewrite E in H. rewrite <- H. vm_compute. reflexivity.
Defined.
End Crypt.
