(* ===== verification/Grep.v ===== *)
(** * Grep: regular expressions (src/usr/src/cmd/grep.c)

    The compiler of patterns into [expbuf], the matcher [advance] with its
    backtracking, and the loop over the lines of a file, on the arrays and pointers
    of the program; patterns as syntax, what they match ([fits]), and the proof that
    the program selects the lines that have a fitting part. *)
From S2P Require Import Prelude.

Module Grep.

Definition CBRA : Z := 1.
Definition CCHR : Z := 2.
Definition CDOT : Z := 4.
Definition CCL : Z := 6.
Definition CDOL : Z := 10.
Definition CEOF : Z := 11.
Definition CKET : Z := 12.
Definition CBACK : Z := 18.
Definition STAR : Z := 1.
Definition LBSIZE : Z := 512.
Definition ESIZE : Z := 256.
Definition NBRA : Z := 9.

Definition bittab (i : Z) : Z := Z.shiftl 1 i.

(** ** compile *)

(** The variables of [compile]; [bracket] is the stack from the top. *)
Record comp := MkComp { ep : Z; sp : Z; lastep : option Z; bracket : list Z; closed : Z; numbra : Z; expbuf : mem }.
#[export] Instance eta_comp : Eta comp := fun r =>
  MkComp (ep r) (sp r) (lastep r) (bracket r) (closed r) (numbra r) (expbuf r).

(** [*ep++ = v;] *)
Definition put (v : Z) (s : comp) : comp := s <| expbuf ::= fun m => wr_8 m (ep s) v |> <| ep ::= Z.succ |>.
(** [ep[c>>3] |= bittab[c&07];] *)
Definition set_bit (e c : Z) (m : mem) : mem := wr_8 m (e + Z.shiftr c 3) (Z.lor (m (e + Z.shiftr c 3)) (bittab (Z.land c 7))).

Section pattern.
  (** The pattern, from address 0. *)
  Variable pat : mem.

(** [for (c = sp[-2]; c<*sp; c++) ...]: [n] times from [c]. *)
Fixpoint set_range (n : nat) (e c : Z) (m : mem) : mem :=
  match n with O => m | S n => set_range n e (c + 1) (set_bit e c m) end.

(** The loop over the characters of a class; [None] is [cerror]. *)
Fixpoint class_loop (fuel : nat) (e cstart c sp : Z) (m : mem) : option (Z * mem) :=
  match fuel with
  | O => None
  | S fuel =>
      if c =? 0 then None
      else
        let '(c, sp, m) :=
          if (c =? 45) && (cstart <? sp) && negb (pat sp =? 93) then
            let from := pat (sp - 2) in
            (Z.max from (pat sp), sp + 1, set_range (Z.to_nat (pat sp - from)) e from m)
          else (c, sp, m) in
        let m := set_bit e c m in
        let c := pat sp in
        let sp := sp + 1 in
        if c =? 93 then Some (sp, m) else class_loop fuel e cstart c sp m
  end.
(** [for(cclcnt = 0; cclcnt < 16; cclcnt++) ep[cclcnt] ^= -1; ep[0] &= 0376;] *)
Definition negate_class (e : Z) (m : mem) : mem :=
  let m := foldl (fun m i => wr_8 m (e + i) (Z.lxor (m (e + i)) (-1))) m (seqZ 0 16) in
  wr_8 m e (Z.land (m e) 254).
Definition compile_class (fuel : nat) (s : comp) : option comp :=
  if ESIZE <=? ep s + 17 then None
  else
    let s := put CCL s in
    let c := pat (sp s) in
    let sp := sp s + 1 in
    let neg := c =? 94 in
    let '(c, sp) := if neg then (pat sp, sp + 1) else (c, sp) in
    match class_loop fuel (ep s) sp c sp (expbuf s) with
    | None => None
    | Some (sp, m) => Some (s <| expbuf := if neg then negate_class (ep s) m else m |> <| Grep.sp := sp |> <| ep ::= fun e => e + 16 |>)
    end.
Definition defchar (c : Z) (s : comp) : comp := put c (put CCHR s).

(** One turn of the loop: the end ([inl]), or the loop goes on. *)
Definition compile_turn (fuel : nat) (s : comp) : option (mem + comp) :=
  if ESIZE <=? ep s then None
  else
    let c := pat (sp s) in
    let s := s <| sp ::= Z.succ |> in
    let s := if negb (c =? 42) then s <| lastep := Some (ep s) |> else s in
    if c =? 0 then Some (inl (expbuf (put CEOF s)))
    else if c =? 46 then Some (inr (put CDOT s))
    else if c =? 42 then
      match lastep s with
      | Some l =>
          if (expbuf s l =? CBRA) || (expbuf s l =? CKET) then Some (inr (defchar c s))
          else Some (inr (s <| expbuf ::= fun m => wr_8 m l (Z.lor (m l) STAR) |>))
      | None => Some (inr (defchar c s))
      end
    else if c =? 36 then
      if negb (pat (sp s) =? 0) then Some (inr (defchar c s)) else Some (inr (put CDOL s))
    else if c =? 91 then option_map inr (compile_class fuel s)
    else if c =? 92 then
      let c := pat (sp s) in
      let s := s <| sp ::= Z.succ |> in
      if c =? 40 then
        if NBRA <=? numbra s then None
        else
          let s := s <| bracket ::= cons (numbra s) |> in
          Some (inr (put (numbra s) (put CBRA s) <| numbra ::= Z.succ |>))
      else if c =? 41 then
        match bracket s with
        | [] => None
        | b :: bs => Some (inr (put b (put CKET (s <| bracket := bs |>)) <| closed ::= Z.succ |>))
        end
      else if (49 <=? c) && (c <=? 57) then
        if closed s <=? c - 49 then None else Some (inr (put (c - 49) (put CBACK s)))
      else Some (inr (defchar c s))
    else Some (inr (defchar c s)).
Fixpoint compile_loop (fuel : nat) (s : comp) : option mem :=
  match fuel with
  | O => None
  | S fuel =>
      match compile_turn fuel s with
      | None => None
      | Some (inl m) => Some m
      | Some (inr s) => compile_loop fuel s
      end
  end.
(** [circf] and the compiled expression; [None] is the message and the exit. *)
Definition compile (fuel : nat) : option (bool * mem) :=
  let circf := pat 0 =? 94 in
  option_map (pair circf) (compile_loop fuel (MkComp 0 (if circf then 1 else 0) None [] 0 0 (fun _ => 0))).
End pattern.

(** ** advance *)

Definition bras := (Z -> Z)%type.
Record caps := MkCaps { braslist : bras; braelist : bras }.
#[export] Instance eta_caps : Eta caps := fun r => MkCaps (braslist r) (braelist r).

Section match_line.
  (** The compiled expression and the line. *)
  Variables ex line : mem.

Definition in_class (e x : Z) : bool := let c := Z.land x 127 in negb (Z.land (ex (e + Z.shiftr c 3)) (bittab (Z.land c 7)) =? 0).
Fixpoint ecmp (count : nat) (a b : Z) : bool :=
  match count with O => true | S n => if line a =? line b then ecmp n (a + 1) (b + 1) else false end.
(** [while (p( *lp++ ));]: where [lp] stands afterwards. *)
Fixpoint scan (fuel : nat) (p : Z -> bool) (lp : Z) : option Z :=
  match fuel with
  | O => None
  | S fuel => if p (line lp) then scan fuel p (lp + 1) else Some (lp + 1)
  end.
(** [while(ecmp(bbeg, lp, ct)) lp += ct;] *)
Fixpoint scan_back (fuel : nat) (bbeg ct lp : Z) : option Z :=
  match fuel with
  | O => None
  | S fuel => if ecmp (Z.to_nat ct) bbeg lp then scan_back fuel bbeg ct (lp + ct) else Some lp
  end.
(** [do { if (ok(lp) && advance(lp, ep)) return(1); } while (lp-- > curlp);]
    from [curlp + n] down. *)
Fixpoint down (adv : caps -> Z -> option (bool * caps)) (ok : Z -> bool) (n : nat) (curlp : Z) (st : caps) : option (bool * caps) :=
  let lp := curlp + Z.of_nat n in
  match (if ok lp then adv st lp else Some (false, st)) with
  | None => None
  | Some (true, st) => Some (true, st)
  | Some (false, st) => match n with O => Some (false, st) | S n => down adv ok n curlp st end
  end.
(** [while(lp >= curlp) { if(advance(lp, ep)) return(1); lp -= ct; }] *)
Fixpoint down_by (adv : caps -> Z -> option (bool * caps)) (fuel : nat) (ct lp curlp : Z) (st : caps) : option (bool * caps) :=
  match fuel with
  | O => None
  | S fuel =>
      if lp <? curlp then Some (false, st)
      else
        match adv st lp with
        | None => None
        | Some (true, st) => Some (true, st)
        | Some (false, st) => down_by adv fuel ct (lp - ct) curlp st
        end
  end.
(** [star:], with [lp] one past the first character that does not match. *)
Definition star_from (adv : caps -> Z -> option (bool * caps)) (ep curlp : Z) (lp : option Z) (st : caps) : option (bool * caps) :=
  match lp with
  | None => None
  | Some lp =>
      let lp := lp - 1 in
      if lp =? curlp then adv st lp
      else if ex ep =? CCHR then down adv (fun lp => line lp =? ex (ep + 1)) (Z.to_nat (lp - curlp)) curlp st
      else down adv (fun _ => true) (Z.to_nat (lp - curlp)) curlp st
  end.

(** [steps] bounds the scans along the line; the recursion is on [fuel]. [None]: a
    bound is used up, or the expression is not one that [compile] makes. *)
Fixpoint advance (steps fuel : nat) (st : caps) (lp ep : Z) : option (bool * caps) :=
  match fuel with
  | O => None
  | S fuel =>
      let op := ex ep in
      let ep := ep + 1 in
      let adv ep := fun st lp => advance steps fuel st lp ep in
      if op =? CCHR then if ex ep =? line lp then adv (ep + 1) st (lp + 1) else Some (false, st)
      else if op =? CDOT then if negb (line lp =? 0) then adv ep st (lp + 1) else Some (false, st)
      else if op =? CDOL then if line lp =? 0 then adv ep st lp else Some (false, st)
      else if op =? CEOF then Some (true, st)
      else if op =? CCL then if in_class ep (line lp) then adv (ep + 16) st (lp + 1) else Some (false, st)
      else if op =? CBRA then adv (ep + 1) (st <| braslist ::= fun f => <[ex ep := lp]> f |>) lp
      else if op =? CKET then adv (ep + 1) (st <| braelist ::= fun f => <[ex ep := lp]> f |>) lp
      else if op =? CBACK then
        let bbeg := braslist st (ex ep) in
        if braelist st (ex ep) =? 0 then Some (false, st)
        else
          let ct := braelist st (ex ep) - bbeg in
          if ecmp (Z.to_nat ct) bbeg lp then adv (ep + 1) st (lp + ct) else Some (false, st)
      else if op =? Z.lor CBACK STAR then
        let bbeg := braslist st (ex ep) in
        if braelist st (ex ep) =? 0 then Some (false, st)
        else
          let ct := braelist st (ex ep) - bbeg in
          match scan_back steps bbeg ct lp with
          | None => None
          | Some lp' => down_by (adv (ep + 1)) steps ct lp' lp st
          end
      else if op =? Z.lor CDOT STAR then star_from (adv ep) ep lp (scan steps (fun c => negb (c =? 0)) lp) st
      else if op =? Z.lor CCHR STAR then star_from (adv (ep + 1)) (ep + 1) lp (scan steps (fun c => c =? ex ep) lp) st
      else if op =? Z.lor CCL STAR then star_from (adv (ep + 16)) (ep + 16) lp (scan steps (in_class ep) lp) st
      else None
  end.
End match_line.

(** ** execute *)

(** The lines are put at an address that is not that of the null pointer. *)
Definition linebuf : Z := 4096.
(** [l] and the zero after it in [linebuf]. *)
Definition put_line (l : list Z) (m : mem) : mem :=
  fun a => if (linebuf <=? a) && (a <=? linebuf + Z.of_nat (length l)) then nth (Z.to_nat (a - linebuf)) l 0 else m a.
(** The next line of the input, and the rest; at the end of the input nothing, also
    of an unfinished line. *)
Fixpoint get_line (input acc : list Z) : option (list Z * list Z) :=
  match input with
  | [] => None
  | c :: input =>
      if c =? 10 then Some (rev acc, input)
      else if LBSIZE - 1 <=? Z.of_nat (length (c :: acc)) then Some (rev (c :: acc), input)
      else get_line input (c :: acc)
  end.

Definition STEPS : nat := 514.
Definition DEPTH : nat := 258.

(** [do { if (ok(p1) && advance(p1, p2)) goto found; } while ( *p1++);] *)
Fixpoint try_from (fuel : nat) (ex line : mem) (ok : Z -> bool) (st : caps) (p1 : Z) : option (bool * caps) :=
  match fuel with
  | O => None
  | S fuel =>
      match (if ok p1 then advance ex line STEPS DEPTH st p1 0 else Some (false, st)) with
      | None => None
      | Some (true, st) => Some (true, st)
      | Some (false, st) => if line p1 =? 0 then Some (false, st) else try_from fuel ex line ok st (p1 + 1)
      end
  end.
Definition line_found (circf : bool) (ex line : mem) (st : caps) : option (bool * caps) :=
  if circf then advance ex line STEPS DEPTH st linebuf 0
  else if ex 0 =? CCHR then try_from STEPS ex line (fun p1 => line p1 =? ex 1) st linebuf
  else try_from STEPS ex line (fun _ => true) st linebuf.

(** The lines for which [succeed] is called, with their numbers. *)
Fixpoint execute (fuel : nat) (circf : bool) (ex : mem) (vflag : bool) (lnum : Z) (line : mem) (st : caps) (input : list Z) : option (list (Z * list Z)) :=
  match fuel with
  | O => None
  | S fuel =>
      let lnum := lnum + 1 in
      match get_line input [] with
      | None => Some []
      | Some (l, input) =>
          let line := put_line l line in
          match line_found circf ex line st with
          | None => None
          | Some (found, st) =>
              option_map (fun r => if xorb found vflag then (lnum, l) :: r else r)
                (execute fuel circf ex vflag lnum line st input)
          end
      end
  end.

(** ** Patterns and what they match *)

Inductive atom := Chr (c : Z) | Any | Cls (neg : bool) (els : list (Z * Z)).
Inductive piece := One (a : atom) | Many (a : atom) | Open | Close.

Definition atom_fits (a : atom) (x : Z) : bool :=
  match a with
  | Chr c => x =? c
  | Any => true
  | Cls neg els => xorb neg (existsb (fun '(lo, hi) => (lo <=? x) && (x <=? hi)) els)
  end.
(** The pieces, with [$] after them if [dol], match the beginning of [l]. *)
Fixpoint fits (ps : list piece) (dol : bool) (l : list Z) : bool :=
  match ps with
  | [] => if dol then match l with [] => true | _ => false end else true
  | One a :: ps => match l with x :: l => atom_fits a x && fits ps dol l | [] => false end
  | Many a :: ps =>
      (fix many l := fits ps dol l || match l with x :: l => atom_fits a x && many l | [] => false end) l
  | Open :: ps | Close :: ps => fits ps dol l
  end.
Fixpoint anywhere (ps : list piece) (dol : bool) (l : list Z) : bool :=
  fits ps dol l || match l with [] => false | _ :: l => anywhere ps dol l end.
Definition line_fits (circ : bool) (ps : list piece) (dol : bool) (l : list Z) : bool :=
  if circ then fits ps dol l else anywhere ps dol l.

(** ** The compiled form *)

Definition opcode (a : atom) : Z := match a with Chr _ => CCHR | Any => CDOT | Cls _ _ => CCL end.
Definition osize (a : atom) : Z := match a with Chr _ => 1 | Any => 0 | Cls _ _ => 16 end.
Definition operand (m : mem) (e : Z) (a : atom) : Prop :=
  match a with
  | Chr c => m e = c
  | Any => True
  | Cls _ _ => forall x, 0 <= x < 128 -> in_class m e x = negb (x =? 0) && atom_fits a x
  end.
Fixpoint encodes (m : mem) (e : Z) (ps : list piece) (dol : bool) : Prop :=
  match ps with
  | [] => if dol then m e = CDOL /\ m (e + 1) = CEOF else m e = CEOF
  | One a :: ps => m e = opcode a /\ operand m (e + 1) a /\ encodes m (e + 1 + osize a) ps dol
  | Many a :: ps => m e = Z.lor (opcode a) STAR /\ operand m (e + 1) a /\ encodes m (e + 1 + osize a) ps dol
  | Open :: ps => m e = CBRA /\ encodes m (e + 2) ps dol
  | Close :: ps => m e = CKET /\ encodes m (e + 2) ps dol
  end.

(** The characters of [l], then a zero, at [lp]. *)
Definition text (line : mem) (lp : Z) (l : list Z) : Prop :=
  Forall (fun x => 0 < x < 128) l /\ forall i, 0 <= i <= Z.of_nat (length l) -> line (lp + i) = nth (Z.to_nat i) l 0.
Lemma text_head line lp l : text line lp l -> line lp = hd 0 l.
Proof. intros [_ H]. specialize (H 0 ltac:(lia)). rewrite Z.add_0_r in H. rewrite H. by destruct l. Qed.
Lemma text_cons line lp x l : text line lp (x :: l) -> line lp = x /\ 0 < x < 128 /\ text line (lp + 1) l.
Proof.
  intros H. split; [exact (text_head _ _ _ H)|]. destruct H as [Hf H]. apply Forall_cons in Hf as [Hx Hf]. split; [done|]. split; [done|].
  intros i Hi. rewrite <- Z.add_assoc, H by (cbn [length]; lia). rewrite Z2Nat.inj_add by lia. done.
Qed.

Definition many (ps : list piece) (dol : bool) (a : atom) : list Z -> bool :=
  fix many l := fits ps dol l || match l with x :: l => atom_fits a x && many l | [] => false end.
Lemma fits_many ps dol a l : fits (Many a :: ps) dol l = many ps dol a l.
Proof. done. Qed.
(** The number of leading characters that the atom matches. *)
Fixpoint run_length (a : atom) (l : list Z) : nat :=
  match l with x :: l => if atom_fits a x then S (run_length a l) else O | [] => O end.
Lemma run_length_le a l : (run_length a l <= length l)%nat.
Proof. induction l as [|x l IH]; [done|]. cbn. destruct (atom_fits a x); lia. Qed.
Lemma existsb_drop (f : list Z -> bool) x l js : existsb (fun i => f (drop i (x :: l))) (map S js) = existsb (fun i => f (drop i l)) js.
Proof. induction js as [|i js IH]; [done|]. cbn [map existsb]. by rewrite IH. Qed.
Lemma many_down ps dol a l : many ps dol a l = existsb (fun i => fits ps dol (drop i l)) (seq 0 (S (run_length a l))).
Proof.
  induction l as [|x l IH]; [cbn; by rewrite !orb_false_r|]. cbn [run_length].
  change (many ps dol a (x :: l)) with (fits ps dol (x :: l) || (atom_fits a x && many ps dol a l)). destruct (atom_fits a x).
  - rewrite IH. remember (S (run_length a l)) as n. cbn [seq existsb andb]. by rewrite <- seq_shift, existsb_drop.
  - cbn. by rewrite !orb_false_r.
Qed.

(** ** advance finds what fits *)

Definition good_atom (a : atom) : Prop := match a with Chr c => 0 < c < 128 | _ => True end.
Definition good_piece (p : piece) : Prop := match p with One a | Many a => good_atom a | _ => True end.

Section match_line.
  Variables (ex line : mem) (steps : nat).

(** The test of the code for an atom whose operand is at [e]. *)
Definition atom_test (e : Z) (a : atom) : Z -> bool :=
  match a with Chr _ => fun x => x =? ex e | Any => fun x => negb (x =? 0) | Cls _ _ => in_class ex e end.
Lemma atom_test_ok e a x : operand ex e a -> good_atom a -> 0 <= x < 128 -> atom_test e a x = negb (x =? 0) && atom_fits a x.
Proof.
  destruct a as [c| |neg els]; cbn; intros Ho Hg Hx; [subst|by rewrite andb_true_r|by apply Ho].
  destruct (Z.eqb_spec x (ex e)) as [->|]; [|by rewrite andb_false_r]. by replace (ex e =? 0) with false by lia.
Qed.
Lemma text_range lp l : text line lp l -> 0 <= line lp < 128.
Proof. intros H. rewrite (text_head _ _ _ H). destruct H as [H _]. destruct H; cbn; lia. Qed.

Lemma advance_one f st lp e a : ex e = opcode a ->
  advance ex line steps (S f) st lp e =
  if atom_test (e + 1) a (line lp) then advance ex line steps f st (lp + 1) (e + 1 + osize a) else Some (false, st).
Proof.
  intros E. cbn [advance]. rewrite E. destruct a; cbn [opcode osize atom_test]; rewrite ?Z.add_0_r, ?(Z.eqb_sym (ex (e + 1)) (line lp)); reflexivity.
Qed.
Lemma advance_many f st lp e a : ex e = Z.lor (opcode a) STAR ->
  advance ex line steps (S f) st lp e =
  star_from ex line (fun st lp => advance ex line steps f st lp (e + 1 + osize a)) (e + 1 + osize a) lp (scan line steps (atom_test (e + 1) a) lp) st.
Proof. intros E. cbn [advance]. rewrite E. destruct a; cbn [opcode osize atom_test]; rewrite ?Z.add_0_r; reflexivity. Qed.

Lemma advance_group f st lp e : ex e = CBRA \/ ex e = CKET ->
  exists st', advance ex line steps (S f) st lp e = advance ex line steps f st' lp (e + 2).
Proof.
  intros [E|E]; cbn [advance]; rewrite E; (eexists; replace (e + 2) with (e + 1 + 1) by lia; reflexivity).
Qed.

Lemma scan_ok n lp l e a : operand ex e a -> good_atom a -> text line lp l -> (length l < n)%nat ->
  scan line n (atom_test e a) lp = Some (lp + Z.of_nat (run_length a l) + 1).
Proof.
  intros Ho Hg. revert lp l. induction n as [|n IH]; intros lp l Ht Hn; [lia|]. cbn [scan].
  rewrite atom_test_ok by (done || by eapply text_range). destruct l as [|x l].
  - rewrite (text_head _ _ _ Ht). cbn. f_equal. lia.
  - destruct (text_cons _ _ _ _ Ht) as (->&Hx&Ht'). replace (x =? 0) with false by lia. cbn [negb andb run_length].
    destruct (atom_fits a x); [|f_equal; lia]. rewrite (IH _ l) by (done || cbn in Hn; lia). f_equal. lia.
Qed.
Lemma text_drop lp l i : text line lp l -> (i <= length l)%nat -> text line (lp + Z.of_nat i) (drop i l).
Proof.
  intros [H1 H2] Hi. split; [by apply Forall_drop|]. intros j Hj. rewrite length_drop in Hj. rewrite <- Z.add_assoc, H2 by lia.
  rewrite !nth_lookup, lookup_drop. do 2 f_equal. lia.
Qed.

(** The tries from the far end down. *)
Lemma down_ok adv ok (f : nat -> bool) curlp n st :
  (forall i st, (i <= n)%nat -> exists st', adv st (curlp + Z.of_nat i) = Some (f i, st')) ->
  (forall i, (i <= n)%nat -> ok (curlp + Z.of_nat i) = false -> f i = false) ->
  exists st', down adv ok n curlp st = Some (existsb f (seq 0 (S n)), st').
Proof.
  intros Ha Hok. revert st. assert (forall k, (k <= n)%nat -> forall st, exists st', down adv ok k curlp st = Some (existsb f (seq 0 (S k)), st')) as H; [|by apply H].
  induction k as [|k IH]; intros Hk st.
  - cbn [down]. destruct (ok (curlp + Z.of_nat 0)) eqn:E.
    + destruct (Ha 0%nat st Hk) as [st' ->]. exists st'. cbn. by destruct (f 0%nat).
    + exists st. cbn. by rewrite (Hok 0%nat Hk E).
  - rewrite seq_S, existsb_app. cbn [existsb down]. rewrite orb_false_r, Nat.add_0_l. destruct (ok (curlp + Z.of_nat (S k))) eqn:E.
    + destruct (Ha (S k) st Hk) as [st' ->]. destruct (f (S k)); [exists st'; by rewrite orb_true_r|].
      destruct (IH ltac:(lia) st') as [st2 ->]. exists st2. by rewrite orb_false_r.
    + rewrite (Hok (S k) Hk E). destruct (IH ltac:(lia) st) as [st2 ->]. exists st2. by rewrite orb_false_r.
Qed.

Lemma encodes_char e ps dol : encodes ex e ps dol -> ex e = CCHR -> exists c ps', ps = One (Chr c) :: ps' /\ ex (e + 1) = c.
Proof.
  destruct ps as [|[a|a| |] ps]; cbn; intros H E.
  - destruct dol; [destruct H as [H _]|]; rewrite E in H; done.
  - destruct H as (H&Ho&_). rewrite E in H. destruct a as [c| |]; try done. by exists c, ps.
  - destruct H as (H&_). rewrite E in H. by destruct a.
  - destruct H as [H _]. rewrite E in H. done.
  - destruct H as [H _]. rewrite E in H. done.
Qed.

Lemma advance_ok ps dol : Forall good_piece ps -> forall f st lp e l, encodes ex e ps dol -> text line lp l ->
  (length l < steps)%nat -> (length ps + 1 < f)%nat ->
  exists st', advance ex line steps f st lp e = Some (fits ps dol l, st').
Proof.
  induction ps as [|p ps IH]; intros Hg f st lp e l He Ht Hl Hf; (destruct f as [|f]; [cbn in Hf; lia|]).
  { cbn in He. destruct dol; [destruct f as [|f]; [cbn in Hf; lia|]; destruct He as [E1 E2]|]; cbn [advance].
    - rewrite E1. cbn [Z.eqb Pos.eqb]. change (10 =? CCHR) with false. change (CDOL =? CCHR) with false. change (CDOL =? CDOT) with false.
      change (CDOL =? CDOL) with true. cbv iota zeta. rewrite (text_head _ _ _ Ht). destruct l as [|x l]; cbn [hd].
      + cbn [advance Z.eqb]. rewrite E2. by exists st.
      + destruct (text_cons _ _ _ _ Ht) as (_&Hx&_). replace (x =? 0) with false by lia. by exists st.
    - rewrite He. by exists st. }
  apply Forall_cons in Hg as [Hp Hg]. cbn [length] in Hf. specialize (IH Hg). destruct p as [a|a| |]; cbn in He, Hp.
  - destruct He as (E1&E2&E3). rewrite (advance_one f st lp e a E1), (atom_test_ok _ _ _ E2 Hp (text_range _ _ Ht)). destruct l as [|x l].
    + rewrite (text_head _ _ _ Ht). by exists st.
    + destruct (text_cons _ _ _ _ Ht) as (->&Hx&Ht'). replace (x =? 0) with false by lia. cbn [negb andb fits]. destruct (atom_fits a x); [|by exists st].
      apply IH; [done|done|cbn in Hl; lia|lia].
  - destruct He as (E1&E2&E3). rewrite (advance_many f st lp e a E1), (scan_ok _ _ l) by done. rewrite fits_many, many_down. cbn [star_from].
    set (k := run_length a l). pose proof (run_length_le a l) as Hk. fold k in Hk. replace (lp + Z.of_nat k + 1 - 1) with (lp + Z.of_nat k) by lia.
    assert (forall i st, (i <= k)%nat -> exists st', advance ex line steps f st (lp + Z.of_nat i) (e + 1 + osize a) = Some (fits ps dol (drop i l), st')) as Ha.
    { intros i st0 Hi. apply IH; [done|apply text_drop; [done|lia]|rewrite length_drop; lia|lia]. }
    destruct (Z.eqb_spec (lp + Z.of_nat k) lp) as [Ek|Ek].
    { assert (k = 0%nat) as -> by lia. cbn [seq existsb]. rewrite orb_false_r. by apply (Ha 0%nat). }
    replace (Z.to_nat (lp + Z.of_nat k - lp)) with k by lia. destruct (Z.eqb_spec (ex (e + 1 + osize a)) CCHR) as [Ec|Ec].
    + apply (down_ok _ _ (fun i => fits ps dol (drop i l))); [exact Ha|]. intros i Hi Hok. destruct (encodes_char _ _ _ E3 Ec) as (c&ps'&->&Ec2). rewrite Ec2 in Hok.
      pose proof (text_drop lp l i Ht ltac:(lia)) as Hd. destruct (drop i l) as [|x l']; [done|]. cbn [fits atom_fits].
      destruct (text_cons _ _ _ _ Hd) as (Hx&_). rewrite Hx in Hok. by rewrite Hok.
    + apply (down_ok _ _ (fun i => fits ps dol (drop i l))); [exact Ha|done].
  - destruct He as [E1 E2]. destruct (advance_group f st lp e (or_introl E1)) as [st' ->]. by apply IH; [..|lia].
  - destruct He as [E1 E2]. destruct (advance_group f st lp e (or_intror E1)) as [st' ->]. by apply IH; [..|lia].
Qed.
End match_line.

(** ** The lines that are selected *)

Section select.
  Variables (ex : mem) (ps : list piece) (dol : bool).
  Hypothesis ex_encodes : encodes ex 0 ps dol.
  Hypothesis ps_good : Forall good_piece ps.
  Hypothesis ps_short : (length ps + 1 < DEPTH)%nat.

Lemma try_from_ok fuel line ok st p1 l : text line p1 l -> (length l < STEPS)%nat -> (length l < fuel)%nat ->
  (forall i, (i <= length l)%nat -> ok (p1 + Z.of_nat i) = false -> fits ps dol (drop i l) = false) ->
  exists st', try_from fuel ex line ok st p1 = Some (anywhere ps dol l, st').
Proof.
  revert fuel st p1. induction l as [|x l IH]; intros fuel st p1 Ht Hs Hf Hok; (destruct fuel as [|fuel]; [lia|]); cbn [try_from anywhere].
  - pose proof (Hok 0%nat ltac:(cbn; lia)) as Hok0. rewrite Z.add_0_r in Hok0. cbn [drop] in Hok0. rewrite (text_head _ _ _ Ht). cbn [hd Z.eqb]. rewrite orb_false_r.
    destruct (ok p1) eqn:E; [|exists st; by rewrite Hok0]. destruct (advance_ok ex line STEPS ps dol ps_good DEPTH st p1 0 [] ex_encodes Ht Hs ps_short) as [st' ->].
    exists st'. by destruct (fits ps dol []).
  - pose proof (Hok 0%nat ltac:(cbn; lia)) as Hok0. rewrite Z.add_0_r in Hok0. cbn [drop] in Hok0. destruct (text_cons _ _ _ _ Ht) as (Ex&Hx&Ht'). rewrite Ex.
    replace (x =? 0) with false by lia. cbn [length] in Hs, Hf.
    assert (forall st, exists st', try_from fuel ex line ok st (p1 + 1) = Some (anywhere ps dol l, st')) as Hn.
    { intros st0. apply IH; [done|lia|lia|]. intros i Hi Ho. apply (Hok (S i)); [cbn; lia|]. by rewrite Nat2Z.inj_succ, <- Z.add_1_l, Z.add_assoc. }
    destruct (ok p1) eqn:E; [|rewrite Hok0 by done; apply Hn].
    destruct (advance_ok ex line STEPS ps dol ps_good DEPTH st p1 0 (x :: l) ex_encodes Ht ltac:(cbn; lia) ps_short) as [st' ->].
    destruct (fits ps dol (x :: l)); [by exists st'|apply Hn].
Qed.
Lemma line_found_ok circ line st l : text line linebuf l -> (length l < STEPS)%nat ->
  exists st', line_found circ ex line st = Some (line_fits circ ps dol l, st').
Proof.
  intros Ht Hl. unfold line_found, line_fits. destruct circ; [by apply advance_ok|]. destruct (Z.eqb_spec (ex 0) CCHR) as [Ec|Ec].
  - apply try_from_ok; [done..|]. intros i Hi Hok. destruct (encodes_char _ _ _ _ ex_encodes Ec) as (c&ps'&E&Ec2). rewrite E. change (0 + 1) with 1 in Ec2. rewrite Ec2 in Hok.
    pose proof (text_drop _ _ _ i Ht Hi) as Hd. destruct (drop i l) as [|x l']; [done|]. cbn [fits atom_fits].
    destruct (text_cons _ _ _ _ Hd) as (Hx&_). rewrite Hx in Hok. by rewrite Hok.
  - by apply try_from_ok.
Qed.

(** A line of a text file. *)
Definition good_line (l : list Z) : Prop := Forall (fun x => 0 < x < 128 /\ x <> 10) l /\ Z.of_nat (length l) < LBSIZE - 1.
Definition file_of (ls : list (list Z)) : list Z := concat (map (fun l => l ++ [10]) ls).
(** The lines with their numbers, after [n] others. *)
Definition numbered (n : Z) (ls : list (list Z)) : list (Z * list Z) := zip (seqZ (n + 1) (Z.of_nat (length ls))) ls.

Lemma get_line_ok l rest : good_line l -> forall acc, Z.of_nat (length l + length acc) < LBSIZE - 1 -> get_line (l ++ 10 :: rest) acc = Some (rev acc ++ l, rest).
Proof.
  intros [H _]. induction H as [|x l [Hx Hn] _ IH]; intros acc Ha; cbn [app get_line].
  - by rewrite app_nil_r.
  - cbn [length] in Ha. rewrite (proj2 (Z.eqb_neq _ _) Hn). rewrite (proj2 (Z.leb_gt (LBSIZE - 1) (Z.of_nat (length (x :: acc))))) by (cbn [length]; lia).
    rewrite IH by (cbn [length]; lia). cbn [rev]. by rewrite <- app_assoc.
Qed.
Lemma put_line_text l m : good_line l -> text (put_line l m) linebuf l.
Proof.
  intros [H _]. split; [eapply Forall_impl; [exact H|]; by intros x [? _]|]. intros i Hi. unfold put_line.
  replace ((linebuf <=? linebuf + i) && (linebuf + i <=? linebuf + Z.of_nat (length l))) with true by lia. f_equal. lia.
Qed.
Lemma numbered_cons n l ls : numbered n (l :: ls) = (n + 1, l) :: numbered (n + 1) ls.
Proof. unfold numbered. cbn [length]. rewrite Nat2Z.inj_succ, seqZ_cons by lia. cbn. by rewrite Z.pred_succ. Qed.

Lemma execute_ok circ vflag ls : Forall good_line ls -> forall fuel n line st, (length ls < fuel)%nat ->
  execute fuel circ ex vflag n line st (file_of ls) = Some (List.filter (fun '(_, l) => xorb (line_fits circ ps dol l) vflag) (numbered n ls)).
Proof.
  induction 1 as [|l ls Hl _ IH]; intros fuel n line st Hf; (destruct fuel as [|fuel]; [cbn in Hf; lia|]); [done|]. cbn [execute].
  unfold file_of. cbn [map concat]. rewrite <- app_assoc. cbn [app]. rewrite (get_line_ok l _ Hl []); [|rewrite Nat.add_0_r; apply Hl]. cbn [rev app].
  destruct (line_found_ok circ (put_line l line) st l) as [st' ->]; [by apply put_line_text|destruct Hl as [_ Hl]; unfold LBSIZE, STEPS in *; lia|].
  fold (file_of ls). rewrite IH by (cbn in Hf; lia). rewrite numbered_cons. cbn [option_map List.filter]. by destruct (xorb _ vflag).
Qed.
End select.

(** ** The text of a pattern *)

Definition special (c : Z) : bool := (c =? 46) || (c =? 42) || (c =? 91) || (c =? 92) || (c =? 36) || (c =? 94).
Definition print_el (r : Z * Z) : list Z := if r.1 =? r.2 then [r.1] else [r.1; 45; r.2].
Definition print_els (els : list (Z * Z)) : list Z := concat (map print_el els).
Definition print_atom (a : atom) : list Z :=
  match a with
  | Chr c => if special c then [92; c] else [c]
  | Any => [46]
  | Cls neg els => 91 :: (if neg then [94] else []) ++ print_els els ++ [93]
  end.
Definition print_piece (p : piece) : list Z :=
  match p with One a => print_atom a | Many a => print_atom a ++ [42] | Open => [92; 40] | Close => [92; 41] end.
Definition print_pieces (ps : list piece) (dol : bool) : list Z := concat (map print_piece ps) ++ (if dol then [36] else []).
Definition print (circ : bool) (ps : list piece) (dol : bool) : list Z := (if circ then [94] else []) ++ print_pieces ps dol.

(** What can be written: classes of characters other than those that end them. *)
Definition good_el (r : Z * Z) : Prop := 0 < r.1 <= r.2 /\ r.2 < 128 /\ (forall c, c = r.1 \/ c = r.2 -> c <> 93 /\ c <> 45 /\ c <> 94).
Definition printable (p : piece) : Prop :=
  match p with
  | One (Cls _ els) | Many (Cls _ els) => els <> [] /\ Forall good_el els
  | _ => good_piece p
  end.
(** Groups are closed after they are opened, and there are at most nine. *)
Fixpoint nested (numbra : Z) (depth : nat) (ps : list piece) : bool :=
  match ps with
  | [] => true
  | Open :: ps => (numbra <? NBRA) && nested (numbra + 1) (S depth) ps
  | Close :: ps => match depth with O => false | S d => nested numbra d ps end
  | _ :: ps => nested numbra depth ps
  end.
Definition piece_size (p : piece) : Z := match p with One a | Many a => 1 + osize a | Open | Close => 2 end.
Fixpoint code_size (ps : list piece) : Z := match ps with [] => 0 | p :: ps => piece_size p + code_size ps end.

(** *** Bits of a class *)

Lemma in_class_bit m e x : 0 <= x < 128 -> in_class m e x = Z.testbit (m (e + x / 8)) (x mod 8).
Proof.
  intros Hx. unfold in_class, bittab. replace (Z.land x 127) with x by (change 127 with (Z.ones 7); rewrite Z.land_ones, Z.mod_small; lia).
  rewrite Z.shiftr_div_pow2 by lia. change (2 ^ 3) with 8. replace (Z.land x 7) with (x mod 8) by (change 7 with (Z.ones 3); by rewrite Z.land_ones).
  pose proof (Z.mod_pos_bound x 8 ltac:(lia)). rewrite Z.shiftl_1_l. apply has_bit. lia.
Qed.
Lemma testbit_u8 v j : 0 <= j < 8 -> Z.testbit (u8 v) j = Z.testbit v j.
Proof. intros Hj. unfold u8, wrap_u. apply Z.mod_pow2_bits_low. lia. Qed.
Lemma set_bit_class m e c x : 0 <= c < 128 -> 0 <= x < 128 -> in_class (set_bit e c m) e x = (x =? c) || in_class m e x.
Proof.
  intros Hc Hx. rewrite !in_class_bit by done. unfold set_bit, bittab. rewrite Z.shiftr_div_pow2 by lia. change (2 ^ 3) with 8.
  replace (Z.land c 7) with (c mod 8) by (change 7 with (Z.ones 3); by rewrite Z.land_ones).
  pose proof (Z.mod_pos_bound x 8 ltac:(lia)). pose proof (Z.mod_pos_bound c 8 ltac:(lia)). unfold wr_8. rewrite fn_case.
  pose proof (Z.div_mod x 8 ltac:(lia)). pose proof (Z.div_mod c 8 ltac:(lia)). case_decide as E.
  - rewrite testbit_u8, Z.lor_spec, Z.shiftl_1_l, Z.pow2_bits_eqb by lia. assert (x / 8 = c / 8) as -> by lia. rewrite orb_comm. f_equal.
    destruct (Z.eqb_spec (c mod 8) (x mod 8)), (Z.eqb_spec x c); lia.
  - destruct (Z.eqb_spec x c) as [->|]; [lia|done].
Qed.
Lemma set_bit_out m e c a : 0 <= c < 128 -> a < e \/ e + 16 <= a -> set_bit e c m a = m a.
Proof. intros Hc Ha. unfold set_bit. rewrite Z.shiftr_div_pow2 by lia. change (2 ^ 3) with 8. apply wr_8_ne. Z.div_mod_to_equations. lia. Qed.
Lemma set_range_class n : forall m e c x, 0 <= c -> c + Z.of_nat n <= 128 -> 0 <= x < 128 ->
  in_class (set_range n e c m) e x = ((c <=? x) && (x <? c + Z.of_nat n)) || in_class m e x.
Proof.
  induction n as [|n IH]; intros m e c x Hc Hn Hx; cbn [set_range].
  - rewrite Z.add_0_r. by destruct (Z.leb_spec c x), (Z.ltb_spec x c); [lia|..].
  - rewrite IH, set_bit_class, orb_assoc by lia. f_equal.
    replace (c + Z.of_nat (S n)) with (c + 1 + Z.of_nat n) by lia.
    destruct (Z.leb_spec (c + 1) x), (Z.ltb_spec x (c + 1 + Z.of_nat n)), (Z.eqb_spec x c), (Z.leb_spec c x); cbn; try done; lia.
Qed.
Lemma set_range_out n : forall m e c a, 0 <= c -> c + Z.of_nat n <= 128 -> a < e \/ e + 16 <= a -> set_range n e c m a = m a.
Proof. induction n as [|n IH]; intros m e c a Hc Hn Ha; [done|]. cbn [set_range]. rewrite IH by lia. apply set_bit_out; [lia|done]. Qed.

Lemma negate_at m e (js : list Z) a : NoDup js ->
  foldl (fun m i => wr_8 m (e + i) (Z.lxor (m (e + i)) (-1))) m js a = if decide (a - e ∈ js) then u8 (Z.lxor (m a) (-1)) else m a.
Proof.
  revert m. induction js as [|j js IH]; intros m Hn; [done|]. apply NoDup_cons in Hn as [Hj Hn]. cbn [foldl]. rewrite IH by done. unfold wr_8. rewrite !fn_case.
  destruct (decide (e + j = a)) as [<-|Hne].
  - replace (e + j - e) with j by lia. rewrite decide_False, decide_True by (done || (apply elem_of_cons; by left)). done.
  - destruct (decide (a - e ∈ js)); [rewrite decide_True by (apply elem_of_cons; by right); done|]. rewrite decide_False; [done|]. intros [E|?]%elem_of_cons; [lia|done].
Qed.
Lemma negate_class_ok m e x : 0 <= x < 128 -> in_class (negate_class e m) e x = negb (x =? 0) && negb (in_class m e x).
Proof.
  intros Hx. rewrite !in_class_bit by done. unfold negate_class. set (m1 := foldl _ m _).
  pose proof (Z.mod_pos_bound x 8 ltac:(lia)). pose proof (Z.div_mod x 8 ltac:(lia)). assert (0 <= x / 8 < 16) by (split; [apply Z.div_pos; lia|apply Z.div_lt_upper_bound; lia]).
  assert (Z.testbit (m1 (e + x / 8)) (x mod 8) = negb (Z.testbit (m (e + x / 8)) (x mod 8))) as E1.
  { unfold m1. rewrite negate_at by apply NoDup_seqZ. rewrite decide_True by (apply elem_of_seqZ; lia). rewrite testbit_u8 by lia.
    change (-1) with (Z.lnot 0). rewrite Z.lxor_spec, Z.lnot_spec, Z.bits_0 by lia. apply xorb_true_r. }
  unfold wr_8. rewrite fn_case. case_decide as E.
  - assert (x / 8 = 0) as E0 by lia. rewrite E0, Z.add_0_r in *. rewrite testbit_u8, Z.land_spec, E1 by lia. change 254 with (Z.lnot (-255)).
    assert (Z.testbit 254 (x mod 8) = negb (x =? 0)) as E2.
    { assert (x = x mod 8) as Ex by lia. assert (x = 0 \/ x = 1 \/ x = 2 \/ x = 3 \/ x = 4 \/ x = 5 \/ x = 6 \/ x = 7) as Hc by lia. rewrite <- Ex. 
      destruct Hc as [->|[->|[->|[->|[->|[->|[->| ->]]]]]]]; done. }
    change (Z.lnot (-255)) with 254. rewrite E2. by rewrite andb_comm.
  - rewrite E1. replace (x =? 0) with false; [done|]. symmetry. apply Z.eqb_neq. intros ->. apply E. rewrite Z.div_0_l; lia.
Qed.
Lemma negate_class_out m e a : a < e \/ e + 16 <= a -> negate_class e m a = m a.
Proof.
  intros Ha. unfold negate_class. rewrite wr_8_ne by lia. rewrite negate_at by apply NoDup_seqZ. rewrite decide_False; [done|]. rewrite elem_of_seqZ. lia.
Qed.

(** *** Reading the pattern *)

Lemma text_app line p l l' : text line p (l ++ l') -> text line (p + Z.of_nat (length l)) l'.
Proof.
  revert p. induction l as [|x l IH]; intros p H; [by rewrite Z.add_0_r|]. destruct (text_cons _ _ _ _ H) as (_&_&H').
  apply IH in H'. by replace (p + Z.of_nat (length (x :: l))) with (p + 1 + Z.of_nat (length l)) by (cbn [length]; lia).
Qed.
Definition el_fits (els : list (Z * Z)) (x : Z) : bool := existsb (fun '(lo, hi) => (lo <=? x) && (x <=? hi)) els.

(** One element of a class: one turn of the loop for a character, two for a range. *)
Lemma class_el_ok pat e lo hi cstart sp m c' rest fuel : good_el (lo, hi) ->
  text pat (sp - 1) (print_el (lo, hi) ++ c' :: rest) -> cstart <= sp -> exists m',
  class_loop pat (length (print_el (lo, hi)) + fuel) e cstart (pat (sp - 1)) sp m =
    (let sp' := sp + Z.of_nat (length (print_el (lo, hi))) in
     if c' =? 93 then Some (sp', m') else class_loop pat (if lo =? hi then fuel else S fuel) e cstart c' sp' m') /\
  (forall x, 0 <= x < 128 -> in_class m' e x = (lo <=? x) && (x <=? hi) || in_class m e x) /\
  (forall a, a < e \/ e + 16 <= a -> m' a = m a).
Proof.
  intros (Hlo&Hhi&Hn) Ht Hc. cbn [fst snd] in *. destruct (Hn lo (or_introl eq_refl)) as (Hl1&Hl2&Hl3). destruct (Hn hi (or_intror eq_refl)) as (Hh1&Hh2&_).
  unfold print_el in *. cbn [fst snd] in *. destruct (Z.eqb_spec lo hi) as [<-|Hne].
  - destruct (text_cons _ _ _ _ Ht) as (E1&_&Ht1). destruct (text_cons _ _ _ _ Ht1) as (E2&_&_). replace (sp - 1 + 1) with sp in E2 by lia.
    exists (set_bit e lo m). cbn [length Nat.add class_loop]. rewrite E1, (proj2 (Z.eqb_neq lo 0)), (proj2 (Z.eqb_neq lo 45)) by lia. cbn [andb].
    rewrite E2. split; [done|]. split.
    + intros x Hx. rewrite set_bit_class by lia. f_equal. destruct (Z.eqb_spec x lo), (Z.leb_spec lo x), (Z.leb_spec x lo); lia.
    + intros a Ha. apply set_bit_out; [lia|done].
  - destruct (text_cons _ _ _ _ Ht) as (E1&_&Ht1). destruct (text_cons _ _ _ _ Ht1) as (E2&_&Ht2). destruct (text_cons _ _ _ _ Ht2) as (E3&_&Ht3).
    destruct (text_cons _ _ _ _ Ht3) as (E4&_&_). replace (sp - 1 + 1) with sp in E2 by lia. replace (sp - 1 + 1 + 1) with (sp + 1) in E3 by lia.
    replace (sp - 1 + 1 + 1 + 1) with (sp + 2) in E4 by lia.
    exists (set_bit e hi (set_range (Z.to_nat (hi - lo)) e lo (set_bit e lo m))). cbn [length Nat.add class_loop].
    rewrite E1, (proj2 (Z.eqb_neq lo 0)), (proj2 (Z.eqb_neq lo 45)) by lia. cbn [andb]. rewrite E2. change (45 =? 93) with false. change (45 =? 0) with false.
    change (45 =? 45) with true. cbv iota. rewrite (proj2 (Z.ltb_lt cstart (sp + 1))) by lia. rewrite E3, (proj2 (Z.eqb_neq hi 93)) by done. cbn [andb negb].
    replace (sp + 1 - 2) with (sp - 1) by lia. rewrite E1. cbv zeta. replace (Z.max lo hi) with hi by lia. replace (sp + 1 + 1) with (sp + 2) by lia. rewrite E4.
    replace (sp + 2 + 1) with (sp + Z.of_nat 3) by lia. split; [done|]. split.
    + intros x Hx. rewrite set_bit_class, set_range_class, set_bit_class, !orb_assoc by lia. f_equal. rewrite Z2Nat.id by lia.
      destruct (Z.eqb_spec x hi), (Z.eqb_spec x lo), (Z.leb_spec lo x), (Z.leb_spec x hi), (Z.ltb_spec x (lo + (hi - lo))); lia.
    + intros a Ha. rewrite set_bit_out, set_range_out, set_bit_out by lia. done.
Qed.
Lemma print_el_first r : good_el r -> exists l, print_el r = r.1 :: l.
Proof. intros _. unfold print_el. destruct (r.1 =? r.2); by eexists. Qed.
Lemma class_loop_ok pat e els : Forall good_el els -> els <> [] -> forall fuel cstart sp m rest,
  text pat (sp - 1) (print_els els ++ 93 :: rest) -> cstart <= sp -> (length (print_els els) < fuel)%nat -> exists m',
  class_loop pat fuel e cstart (pat (sp - 1)) sp m = Some (sp + Z.of_nat (length (print_els els)), m') /\
  (forall x, 0 <= x < 128 -> in_class m' e x = el_fits els x || in_class m e x) /\
  (forall a, a < e \/ e + 16 <= a -> m' a = m a).
Proof.
  induction 1 as [|[lo hi] els Hel Hels IH]; [done|]. intros _ fuel cstart sp m rest Ht Hc Hf.
  unfold print_els in *. cbn [map concat] in *. rewrite length_app in *. rewrite <- app_assoc in Ht.
  replace fuel with (length (print_el (lo, hi)) + (fuel - length (print_el (lo, hi))))%nat by lia.
  destruct els as [|r els].
  - cbn [map concat app length] in *. destruct (class_el_ok pat e lo hi cstart sp m 93 rest (fuel - length (print_el (lo, hi))) Hel Ht Hc) as (m'&E&Hin&Hout).
    rewrite E. exists m'. rewrite Nat.add_0_r. split; [done|]. split; [|done]. intros x Hx. rewrite Hin by done. cbn. by rewrite orb_false_r.
  - destruct (print_el_first r) as [l Er]; [by apply Forall_cons in Hels as [? _]|]. assert (r.1 <> 93) as H93.
    { apply Forall_cons in Hels as [(_&_&H) _]. by apply (H r.1); left. }
    set (rest' := concat (map print_el (r :: els)) ++ 93 :: rest) in *. assert (exists rest'', rest' = r.1 :: rest'') as [rest'' Er'].
    { unfold rest'. cbn [map concat]. rewrite Er. by eexists. }
    rewrite Er' in Ht. destruct (class_el_ok pat e lo hi cstart sp m _ _ (fuel - length (print_el (lo, hi))) Hel Ht Hc) as (m1&E&Hin1&Hout1).
    rewrite E. cbv zeta. rewrite (proj2 (Z.eqb_neq _ _) H93). set (n1 := length (print_el (lo, hi))) in *.
    assert (text pat (sp + Z.of_nat n1 - 1) rest') as Ht1.
    { apply text_app in Ht. rewrite Er'. replace (sp + Z.of_nat n1 - 1) with (sp - 1 + Z.of_nat n1) by lia. exact Ht. }
    destruct (IH ltac:(done) (if (lo =? hi)%Z then (fuel - n1)%nat else S (fuel - n1)) cstart (sp + Z.of_nat n1) m1 rest Ht1) as (m'&E2&Hin&Hout); [lia|destruct (lo =? hi)%Z; lia|].
    rewrite (text_head _ _ _ Ht1), Er' in E2. cbn [hd] in E2. exists m'. split; [|split].
    + rewrite E2. f_equal. f_equal. lia.
    + intros x Hx. rewrite Hin, Hin1 by done. cbn. rewrite orb_assoc. f_equal. apply orb_comm.
    + intros a Ha. by rewrite Hout, Hout1.
Qed.

(** *** Compiling a piece *)

Definition clear_from (m : mem) (e : Z) : Prop := forall a, e <= a -> m a = 0.
(** [s'] comes from [s] by reading the pattern up to [rest] and storing [n] bytes. *)
Record emitted (pat : mem) (s s' : comp) (rest : list Z) (n : Z) : Prop := {
  em_ep : ep s' = ep s + n;
  em_text : text pat (sp s') rest;
  em_below : forall a, a < ep s -> expbuf s' a = expbuf s a;
  em_clear : clear_from (expbuf s') (ep s') }.
(** The rest of the loop is the loop from [s']. *)
Definition goes_to (pat : mem) (fuel : nat) (s s' : comp) (rest : list Z) : Prop :=
  exists fuel', compile_loop pat fuel s = compile_loop pat fuel' s' /\ (length rest < fuel')%nat.
Lemma goes_turn pat fuel s s' rest : compile_turn pat fuel s = Some (inr s') -> (length rest < fuel)%nat -> goes_to pat (S fuel) s s' rest.
Proof. intros E Hf. exists fuel. cbn [compile_loop]. by rewrite E. Qed.
Lemma goes_trans pat fuel s s1 s2 rest1 rest2 : goes_to pat fuel s s1 rest1 ->
  (forall fuel, (length rest1 < fuel)%nat -> goes_to pat fuel s1 s2 rest2) -> goes_to pat fuel s s2 rest2.
Proof. intros (f1&E1&H1) H. destruct (H f1 H1) as (f2&E2&H2). exists f2. by rewrite E1. Qed.

Lemma operand_ext m m' e a : (forall i, e <= i < e + osize a -> m' i = m i) -> operand m e a -> operand m' e a.
Proof.
  intros H. destruct a as [c| |neg els]; cbn [operand osize] in *; [intros <-; apply H; lia|done|].
  intros Ho x Hx. rewrite <- Ho by done. rewrite !in_class_bit by done. f_equal. apply H. Z.div_mod_to_equations. lia.
Qed.
Lemma put2_at v w s a : expbuf (put w (put v s)) a = if decide (a = ep s) then u8 v else if decide (a = ep s + 1) then u8 w else expbuf s a.
Proof.
  unfold put. cbn. unfold wr_8. rewrite !fn_case. rewrite <- Z.add_1_r. repeat case_decide; subst; lia || done.
Qed.
Lemma put2_emitted pat v w s s1 rest : ep s1 = ep s -> expbuf s1 = expbuf s -> text pat (sp s1) rest -> clear_from (expbuf s) (ep s) ->
  emitted pat s (put w (put v s1)) rest 2.
Proof.
  intros He Hb Ht Hc. split.
  - cbn. lia.
  - done.
  - intros a Ha. rewrite put2_at, Hb. by rewrite !decide_False by lia.
  - intros a Ha. cbn in Ha. rewrite put2_at, Hb, !decide_False by lia. apply Hc. lia.
Qed.
Lemma special_false c : special c = false ->
  (c =? 46) = false /\ (c =? 42) = false /\ (c =? 91) = false /\ (c =? 92) = false /\ (c =? 36) = false /\ (c =? 94) = false.
Proof. unfold special. intros H. repeat apply orb_false_iff in H as [H ?]. done. Qed.
Lemma special_cases c : special c = true -> c = 46 \/ c = 42 \/ c = 91 \/ c = 92 \/ c = 36 \/ c = 94.
Proof. unfold special. rewrite !orb_true_iff, !Z.eqb_eq. tauto. Qed.

Definition good_class (a : atom) : Prop := match a with Cls _ els => els <> [] /\ Forall good_el els | _ => good_atom a end.

Lemma compile_class_ok pat (neg : bool) els s rest fuel : els <> [] -> Forall good_el els ->
  text pat (sp s) ((if neg then [94] else []) ++ print_els els ++ 93 :: rest) -> ep s + 17 < ESIZE -> clear_from (expbuf s) (ep s) ->
  (length (print_els els) < fuel)%nat -> exists s',
  compile_class pat fuel s = Some s' /\ emitted pat s s' rest 17 /\ expbuf s' (ep s) = CCL /\ operand (expbuf s') (ep s + 1) (Cls neg els) /\
  lastep s' = lastep s /\ bracket s' = bracket s /\ numbra s' = numbra s.
Proof.
  intros Hne Hels Ht He Hc Hf. unfold compile_class. rewrite (proj2 (Z.leb_gt ESIZE (ep s + 17))) by lia.
  set (s1 := put CCL s). assert (ep s1 = ep s + 1) as Ep1 by (cbn; lia). assert (sp s1 = sp s) as Sp1 by done.
  assert (forall a, expbuf s1 a = if decide (a = ep s) then CCL else expbuf s a) as Ex1.
  { intros a. unfold s1, put, wr_8. cbn. rewrite fn_case. destruct (decide (ep s = a)), (decide (a = ep s)); subst; done. }
  assert (forall x, 0 <= x < 128 -> in_class (expbuf s1) (ep s1) x = false) as Hz.
  { intros x Hx. rewrite in_class_bit, Ex1 by done. assert (0 <= x / 8) by (apply Z.div_pos; lia). rewrite decide_False by lia. rewrite Hc by lia. apply Z.bits_0. }
  (* where the loop starts *)
  set (sp0 := sp s + (if neg then 1 else 0) + 1).
  assert (text pat (sp0 - 1) (print_els els ++ 93 :: rest)) as Ht0.
  { apply text_app in Ht. replace (sp0 - 1) with (sp s + Z.of_nat (length (if neg then [94] else []))); [done|]. unfold sp0. destruct neg; cbn [length]; lia. }
  assert ((let c := pat (sp s1) in let sp := sp s1 + 1 in if c =? 94 then (pat sp, sp + 1) else (c, sp)) = (pat (sp0 - 1), sp0) /\ (pat (sp s1) =? 94) = neg) as [E0 En].
  { rewrite Sp1. unfold sp0. destruct neg.
    - cbn [app] in Ht. destruct (text_cons _ _ _ _ Ht) as (->&_). split; [|done]. change (94 =? 94) with true. cbv zeta iota. f_equal; f_equal; lia.
    - destruct els as [|r els]; [done|]. apply Forall_cons in Hels as [Hr _]. destruct (print_el_first r Hr) as [l El]. destruct Hr as (_&_&Hr).
      assert (pat (sp s) = r.1) as E.
      { rewrite (text_head _ _ _ Ht). unfold print_els. cbn [map concat app]. by rewrite El. }
      rewrite E, (proj2 (Z.eqb_neq r.1 94)) by (apply (Hr r.1); by left). split; [|done]. cbv zeta. f_equal; [rewrite <- E; f_equal|]; lia. }
  cbv zeta in E0 |- *. rewrite En in E0 |- *. rewrite E0.
  destruct (class_loop_ok pat (ep s1) els Hels Hne fuel sp0 sp0 (expbuf s1) rest Ht0) as (m'&->&Hin&Hout); [lia|done|].
  eexists. split; [done|]. cbn [lastep bracket numbra]. 
  set (m2 := if neg then negate_class (ep s1) m' else m').
  assert (forall a, a < ep s1 \/ ep s1 + 16 <= a -> m2 a = expbuf s1 a) as Hm2.
  { intros a Ha. unfold m2. destruct neg; [rewrite negate_class_out by done|]; by apply Hout. }
  split; [split|].
  - change (ep s1 + 16 = ep s + 17). lia.
  - change (text pat (sp0 + Z.of_nat (length (print_els els))) rest).
    change (93 :: rest) with ([93] ++ rest) in Ht0. rewrite app_assoc in Ht0. apply text_app in Ht0. rewrite length_app in Ht0. cbn [length] in Ht0.
    by replace (sp0 + Z.of_nat (length (print_els els))) with (sp0 - 1 + Z.of_nat (length (print_els els) + 1)) by lia.
  - intros a Ha. change (m2 a = expbuf s a). rewrite Hm2, Ex1, decide_False by lia. done.
  - intros a Ha. change (ep s1 + 16 <= a) in Ha. change (m2 a = 0). rewrite Hm2, Ex1, decide_False by lia. apply Hc. lia.
  - split; [change (m2 (ep s) = CCL); rewrite Hm2, Ex1, decide_True by lia; done|]. split; [|done].
    change (operand m2 (ep s + 1) (Cls neg els)). rewrite <- Ep1. intros x Hx. unfold m2. cbn [atom_fits]. fold (el_fits els x).
    assert (el_fits els 0 = false) as H0.
    { clear -Hels. induction Hels as [|[lo hi] els (H&_) _ IH]; [done|]. cbn [fst snd] in H.
      change (el_fits ((lo, hi) :: els) 0) with ((lo <=? 0) && (0 <=? hi) || el_fits els 0). rewrite IH. destruct (Z.leb_spec lo 0); [lia|done]. }
    destruct neg.
    + rewrite negate_class_ok, Hin, Hz, orb_false_r by done. done.
    + rewrite Hin, Hz, orb_false_r by done. destruct (Z.eqb_spec x 0) as [->|]; [by rewrite H0|by destruct (el_fits els x)].
Qed.

(** The turns of the loop, by the characters read. *)
Section turns.
  Variables (pat : mem) (fuel : nat).

Lemma turn_char c s rest : text pat (sp s) (c :: rest) -> special c = false -> ep s < ESIZE ->
  compile_turn pat fuel s = Some (inr (defchar c (s <| sp ::= Z.succ |> <| lastep := Some (ep s) |>))).
Proof.
  intros Ht Hc He. destruct (text_cons _ _ _ _ Ht) as (E&Hr&_). apply special_false in Hc as (H1&H2&H3&H4&H5&H6).
  unfold compile_turn. cbv zeta. rewrite (proj2 (Z.leb_gt ESIZE (ep s))), E, (proj2 (Z.eqb_neq c 0)), H1, H2, H3, H4, H5 by lia. done.
Qed.
Lemma turn_escape c s rest : text pat (sp s) (92 :: c :: rest) -> special c = true -> ep s < ESIZE ->
  compile_turn pat fuel s = Some (inr (defchar c (s <| sp ::= Z.succ |> <| lastep := Some (ep s) |> <| sp ::= Z.succ |>))).
Proof.
  intros Ht Hc He. destruct (text_cons _ _ _ _ Ht) as (E&Hr&Ht2). destruct (text_cons _ _ _ _ Ht2) as (E2&_&_).
  unfold compile_turn. rewrite (proj2 (Z.leb_gt ESIZE (ep s))), E by lia. cbn -[ESIZE]. change (Z.succ (sp s)) with (sp s + 1). rewrite E2.
  apply special_cases in Hc as [->|[->|[->|[->|[->| ->]]]]]; done.
Qed.
Lemma turn_any s rest : text pat (sp s) (46 :: rest) -> ep s < ESIZE ->
  compile_turn pat fuel s = Some (inr (put CDOT (s <| sp ::= Z.succ |> <| lastep := Some (ep s) |>))).
Proof.
  intros Ht He. destruct (text_cons _ _ _ _ Ht) as (E&Hr&_). unfold compile_turn. rewrite (proj2 (Z.leb_gt ESIZE (ep s))), E by lia. done.
Qed.
Lemma turn_class s rest : text pat (sp s) (91 :: rest) -> ep s < ESIZE ->
  compile_turn pat fuel s = option_map inr (compile_class pat fuel (s <| sp ::= Z.succ |> <| lastep := Some (ep s) |>)).
Proof.
  intros Ht He. destruct (text_cons _ _ _ _ Ht) as (E&Hr&_). unfold compile_turn. rewrite (proj2 (Z.leb_gt ESIZE (ep s))), E by lia. done.
Qed.
Lemma turn_star s rest l : text pat (sp s) (42 :: rest) -> ep s < ESIZE -> lastep s = Some l -> expbuf s l <> CBRA -> expbuf s l <> CKET ->
  compile_turn pat fuel s = Some (inr (s <| sp ::= Z.succ |> <| expbuf ::= fun m => wr_8 m l (Z.lor (m l) STAR) |>)).
Proof.
  intros Ht He Hl H1 H2. destruct (text_cons _ _ _ _ Ht) as (E&Hr&_). unfold compile_turn. rewrite (proj2 (Z.leb_gt ESIZE (ep s))), E by lia.
  cbn -[ESIZE CBRA CKET]. rewrite Hl, (proj2 (Z.eqb_neq _ CBRA)), (proj2 (Z.eqb_neq _ CKET)) by done. done.
Qed.
Lemma turn_open s rest : text pat (sp s) (92 :: 40 :: rest) -> ep s < ESIZE -> numbra s < NBRA ->
  compile_turn pat fuel s = Some (inr (put (numbra s) (put CBRA
    (s <| sp ::= Z.succ |> <| lastep := Some (ep s) |> <| sp ::= Z.succ |> <| bracket ::= cons (numbra s) |>)) <| numbra ::= Z.succ |>)).
Proof.
  intros Ht He Hn. destruct (text_cons _ _ _ _ Ht) as (E&Hr&Ht2). destruct (text_cons _ _ _ _ Ht2) as (E2&_&_).
  unfold compile_turn. rewrite (proj2 (Z.leb_gt ESIZE (ep s))), E by lia. cbn -[ESIZE NBRA]. change (Z.succ (sp s)) with (sp s + 1). rewrite E2.
  cbn -[ESIZE NBRA]. rewrite (proj2 (Z.leb_gt NBRA (numbra s))) by lia. done.
Qed.
Lemma turn_close s rest b bs : text pat (sp s) (92 :: 41 :: rest) -> ep s < ESIZE -> bracket s = b :: bs ->
  compile_turn pat fuel s = Some (inr (put b (put CKET
    (s <| sp ::= Z.succ |> <| lastep := Some (ep s) |> <| sp ::= Z.succ |> <| bracket := bs |>)) <| closed ::= Z.succ |>)).
Proof.
  intros Ht He Hb. destruct (text_cons _ _ _ _ Ht) as (E&Hr&Ht2). destruct (text_cons _ _ _ _ Ht2) as (E2&_&_).
  unfold compile_turn. rewrite (proj2 (Z.leb_gt ESIZE (ep s))), E by lia. cbn -[ESIZE NBRA]. change (Z.succ (sp s)) with (sp s + 1). rewrite E2.
  cbn -[ESIZE NBRA]. rewrite Hb. done.
Qed.
Lemma turn_dollar s : text pat (sp s) [36] -> ep s < ESIZE ->
  compile_turn pat fuel s = Some (inr (put CDOL (s <| sp ::= Z.succ |> <| lastep := Some (ep s) |>))).
Proof.
  intros Ht He. destruct (text_cons _ _ _ _ Ht) as (E&_&Ht2). apply text_head in Ht2. unfold compile_turn. rewrite (proj2 (Z.leb_gt ESIZE (ep s))), E by lia.
  cbn -[ESIZE]. change (Z.succ (sp s)) with (sp s + 1). rewrite Ht2. done.
Qed.
Lemma turn_end s : text pat (sp s) [] -> ep s < ESIZE ->
  compile_turn pat fuel s = Some (inl (expbuf (put CEOF (s <| sp ::= Z.succ |> <| lastep := Some (ep s) |>)))).
Proof. intros Ht He. apply text_head in Ht. unfold compile_turn. rewrite (proj2 (Z.leb_gt ESIZE (ep s))), Ht by lia. done. Qed.
End turns.

Lemma goes_of_turn pat fuel s s' (l rest : list Z) : (forall f, compile_turn pat f s = Some (inr s')) -> (length l < fuel)%nat -> (length rest < length l)%nat ->
  goes_to pat fuel s s' rest.
Proof. intros H Hf Hl. destruct fuel as [|fuel]; [lia|]. apply goes_turn; [apply H|lia]. Qed.

Record atom_done (pat : mem) (s s' : comp) (rest : list Z) (a : atom) : Prop := {
  ad_emitted : emitted pat s s' rest (1 + osize a);
  ad_opcode : expbuf s' (ep s) = opcode a;
  ad_operand : operand (expbuf s') (ep s + 1) a;
  ad_lastep : lastep s' = Some (ep s);
  ad_bracket : bracket s' = bracket s;
  ad_numbra : numbra s' = numbra s }.

Lemma char_done pat s s1 c rest : ep s1 = ep s -> expbuf s1 = expbuf s -> lastep s1 = Some (ep s) -> bracket s1 = bracket s -> numbra s1 = numbra s ->
  text pat (sp s1) rest -> clear_from (expbuf s) (ep s) -> 0 < c < 128 -> atom_done pat s (defchar c s1) rest (Chr c).
Proof.
  intros H1 H2 H3 H4 H5 Ht Hc Hr. assert (u8 c = c) as E by (apply wrap_u_id; lia). split; try done.
  - by apply put2_emitted.
  - unfold defchar. rewrite put2_at, H1, decide_True by done. done.
  - cbn [operand]. unfold defchar. rewrite put2_at, H1, decide_False, decide_True by lia. exact E.
Qed.
Lemma atom_goes pat fuel s a rest : good_class a -> text pat (sp s) (print_atom a ++ rest) -> ep s + 1 + osize a < ESIZE ->
  clear_from (expbuf s) (ep s) -> (length (print_atom a ++ rest) < fuel)%nat ->
  exists s', goes_to pat fuel s s' rest /\ atom_done pat s s' rest a.
Proof.
  intros Hg Ht He Hc Hf. destruct a as [c| |neg els]; cbn [print_atom osize good_class good_atom] in *.
  - destruct (special c) eqn:Hs; cbn [app] in Ht; (eexists; split; [eapply goes_of_turn; [|exact Hf|cbn [app length]; lia]; intros f|]).
    + eapply turn_escape; [exact Ht|done|lia].
    + destruct (text_cons _ _ _ _ Ht) as (_&_&Ht1). destruct (text_cons _ _ _ _ Ht1) as (_&_&Ht2). by apply char_done.
    + eapply turn_char; [exact Ht|done|lia].
    + destruct (text_cons _ _ _ _ Ht) as (_&_&Ht1). by apply char_done.
  - cbn [app] in Ht. destruct (text_cons _ _ _ _ Ht) as (_&_&Ht1).
    eexists. split; [eapply goes_of_turn; [|exact Hf|cbn [app length]; lia]; intros f; eapply turn_any; [exact Ht|lia]|].
    assert (forall s1, ep s1 = ep s -> expbuf s1 = expbuf s -> forall a, expbuf (put CDOT s1) a = if decide (a = ep s) then CDOT else expbuf s a) as Hp.
    { intros s1 H1 H2 a. unfold put, wr_8. cbn. rewrite fn_case, H1, H2. destruct (decide (ep s = a)), (decide (a = ep s)); subst; done. }
    split; try done; [split|].
    + done.
    + exact Ht1.
    + intros a Ha. rewrite Hp, decide_False by (done || lia). done.
    + intros a Ha. change (Z.succ (ep s) <= a) in Ha. rewrite Hp, decide_False by (done || lia). apply Hc. lia.
    + rewrite Hp, decide_True by done. done.
  - destruct Hg as [Hne Hels]. cbn [app] in Ht. destruct (text_cons _ _ _ _ Ht) as (_&_&Ht1).
    set (s1 := s <| sp ::= Z.succ |> <| lastep := Some (ep s) |>). cbn [app] in Hf. destruct fuel as [|fuel]; [lia|]. cbn [length] in Hf.
    rewrite <- !app_assoc in Ht1. rewrite <- !app_assoc, !length_app in Hf. cbn [app length] in Hf.
    destruct (compile_class_ok pat neg els s1 rest fuel Hne Hels Ht1) as (s'&E&Hem&Ho&Hop&Hl&Hb&Hn); [change (ep s + 17 < ESIZE); lia|done|lia|].
    exists s'. split.
    + apply goes_turn; [|lia]. erewrite turn_class; [|exact Ht|lia]. fold s1. by rewrite E.
    + destruct Hem as [M1 M2 M3 M4]. split; [by split|done..].
Qed.
Lemma star_goes pat s s0 a rest : atom_done pat s0 s (42 :: rest) a -> ep s < ESIZE ->
  exists s', (forall fuel, (length (42%Z :: rest) < fuel)%nat -> goes_to pat fuel s s' rest) /\ emitted pat s0 s' rest (1 + osize a) /\ expbuf s' (ep s0) = Z.lor (opcode a) STAR /\
    operand (expbuf s') (ep s0 + 1) a /\ bracket s' = bracket s0 /\ numbra s' = numbra s0.
Proof.
  intros [[H1 H2 H3 H4] Ho Hop Hl Hb Hn] He. destruct (text_cons _ _ _ _ H2) as (_&_&Ht).
  assert (0 <= osize a) as Hpos by (destruct a; cbn; lia).
  eexists. split; [intros fuel Hf; eapply goes_of_turn; [|exact Hf|cbn [length]; lia]; intros f; eapply turn_star; [exact H2|done|exact Hl|..];
    rewrite Ho; by destruct a|].
  match goal with |- emitted _ _ ?x _ _ /\ _ => set (s' := x) end. assert (forall x, expbuf s' x = if decide (x = ep s0) then Z.lor (opcode a) STAR else expbuf s x) as Hx.
  { intros x. change (expbuf s' x) with (wr_8 (expbuf s) (ep s0) (Z.lor (expbuf s (ep s0)) STAR) x). unfold wr_8. rewrite fn_case, Ho.
    destruct (decide (ep s0 = x)), (decide (x = ep s0)); subst; try done. by destruct a. }
  assert (ep s' = ep s) as Ep by done. assert (sp s' = sp s + 1) as Sp by done.
  split; [split|split; [|split; [|split; done]]].
  - by rewrite Ep.
  - by rewrite Sp.
  - intros x Hlt. rewrite Hx, decide_False by lia. by apply H3.
  - intros x Hge. rewrite Hx, decide_False by lia. apply H4. lia.
  - rewrite Hx, decide_True by done. done.
  - eapply operand_ext; [|exact Hop]. intros i Hi. rewrite Hx, decide_False by lia. done.
Qed.

Lemma emitted_same pat s s1 s2 rest n : emitted pat s s1 rest n -> ep s2 = ep s1 -> sp s2 = sp s1 -> expbuf s2 = expbuf s1 -> emitted pat s s2 rest n.
Proof. intros [H1 H2 H3 H4] E1 E2 E3. split; by rewrite ?E1, ?E2, ?E3. Qed.

(** The code of an atom, within any memory that keeps the bytes stored. *)
Lemma atom_encoded s s' m a op : ep s' = ep s + (1 + osize a) -> (forall x, x < ep s' -> m x = expbuf s' x) ->
  expbuf s' (ep s) = op -> operand (expbuf s') (ep s + 1) a -> m (ep s) = op /\ operand m (ep s + 1) a /\ ep s + 1 + osize a = ep s'.
Proof.
  intros E Hm Ho Hop. assert (0 <= osize a) by (destruct a; cbn; lia). split; [rewrite Hm by lia; done|]. split; [|lia].
  eapply operand_ext; [|exact Hop]. intros i Hi. apply Hm. lia.
Qed.
Lemma group_goes pat fuel s s' v w (l rest : list Z) : (forall f, compile_turn pat f s = Some (inr s')) -> (length (l ++ rest) < fuel)%nat -> l <> [] ->
  (exists s1, ep s1 = ep s /\ expbuf s1 = expbuf s /\ text pat (sp s1) rest /\ ep s' = ep s + 2 /\ sp s' = sp s1 /\ expbuf s' = expbuf (put w (put v s1))) ->
  clear_from (expbuf s) (ep s) ->
  goes_to pat fuel s s' rest /\ emitted pat s s' rest 2 /\ expbuf s' (ep s) = u8 v.
Proof.
  intros Ht Hf Hl (s1&E1&E2&E3&E4&E5&E6) Hc. split; [eapply goes_of_turn; [exact Ht|exact Hf|]|split].
  - rewrite length_app. destruct l; [done|]. cbn [length]. lia.
  - eapply emitted_same; [by apply put2_emitted|cbn; lia|done|done].
  - rewrite E6, put2_at, E1, decide_True by done. done.
Qed.
Lemma piece_goes pat fuel s p ps dol : printable p -> nested (numbra s) (length (bracket s)) (p :: ps) = true ->
  let rest := print_pieces ps dol in
  text pat (sp s) (print_piece p ++ rest) -> ep s + piece_size p < ESIZE -> clear_from (expbuf s) (ep s) -> (length (print_piece p ++ rest) < fuel)%nat ->
  exists s', goes_to pat fuel s s' rest /\ emitted pat s s' rest (piece_size p) /\ nested (numbra s') (length (bracket s')) ps = true /\
    (forall m, (forall a, a < ep s' -> m a = expbuf s' a) -> encodes m (ep s') ps dol -> encodes m (ep s) (p :: ps) dol).
Proof.
  intros Hp Hn rest Ht He Hc Hf. destruct p as [a|a| |]; cbn [print_piece piece_size nested] in *.
  - assert (good_class a) as Hg by (by destruct a). destruct (atom_goes pat fuel s a rest Hg Ht) as (s'&Hgo&[Hem Ho Hop _ Hb Hnb]); [lia|done..|].
    exists s'. rewrite Hb, Hnb. split; [done|]. split; [done|]. split; [done|]. intros m Hm Henc.
    destruct (atom_encoded s s' m a _ (em_ep _ _ _ _ _ Hem) Hm Ho Hop) as (H1&H2&H3). cbn [encodes]. by rewrite H3.
  - assert (good_class a) as Hg by (by destruct a). rewrite <- app_assoc in Ht, Hf. cbn [app] in Ht, Hf.
    destruct (atom_goes pat fuel s a (42 :: rest) Hg Ht) as (s1&Hgo1&Had); [lia|done..|].
    assert (ep s1 = ep s + (1 + osize a)) as E1 by apply (em_ep _ _ _ _ _ (ad_emitted _ _ _ _ _ Had)).
    destruct (star_goes pat s1 s a rest Had) as (s'&Hgo2&Hem&Ho&Hop&Hb&Hnb); [lia|].
    exists s'. rewrite Hb, Hnb. split; [by eapply goes_trans|]. split; [done|]. split; [done|]. intros m Hm Henc.
    destruct (atom_encoded s s' m a _ (em_ep _ _ _ _ _ Hem) Hm Ho Hop) as (H1&H2&H3). cbn [encodes]. by rewrite H3.
  - apply andb_prop in Hn as [Hb Hn]. apply Z.ltb_lt in Hb. cbn [app] in Ht. destruct (text_cons _ _ _ _ Ht) as (_&_&Ht1). destruct (text_cons _ _ _ _ Ht1) as (_&_&Ht2).
    eexists. edestruct group_goes as (Hgo&Hem&Ho); [intros f; eapply turn_open; [exact Ht|lia|done]|exact Hf|done| |exact Hc|].
    { exists (s <| sp ::= Z.succ |> <| lastep := Some (ep s) |> <| sp ::= Z.succ |> <| bracket ::= cons (numbra s) |>).
      repeat (split; [done || exact Ht2|]). split; [change (Z.succ (Z.succ (ep s)) = ep s + 2); lia|]. split; reflexivity. }
    split; [exact Hgo|]. split; [exact Hem|]. split; [exact Hn|]. intros m Hm Henc. pose proof (em_ep _ _ _ _ _ Hem) as E. cbn [encodes].
    rewrite Hm, Ho by lia. split; [done|]. rewrite <- E. exact Henc.
  - destruct (bracket s) as [|b bs] eqn:Hb; [done|]. cbn [app] in Ht. destruct (text_cons _ _ _ _ Ht) as (_&_&Ht1). destruct (text_cons _ _ _ _ Ht1) as (_&_&Ht2).
    eexists. edestruct group_goes as (Hgo&Hem&Ho); [intros f; eapply turn_close; [exact Ht|lia|exact Hb]|exact Hf|done| |exact Hc|].
    { exists (s <| sp ::= Z.succ |> <| lastep := Some (ep s) |> <| sp ::= Z.succ |> <| bracket := bs |>).
      repeat (split; [done || exact Ht2|]). split; [change (Z.succ (Z.succ (ep s)) = ep s + 2); lia|]. split; reflexivity. }
    split; [exact Hgo|]. split; [exact Hem|]. split; [exact Hn|]. intros m Hm Henc. pose proof (em_ep _ _ _ _ _ Hem) as E. cbn [encodes].
    rewrite Hm, Ho by lia. split; [done|]. rewrite <- E. exact Henc.
Qed.

Lemma put_at v s a : expbuf (put v s) a = if decide (a = ep s) then u8 v else expbuf s a.
Proof. unfold put, wr_8. cbn. rewrite fn_case. destruct (decide (ep s = a)), (decide (a = ep s)); by subst. Qed.
Lemma end_ok pat fuel s : text pat (sp s) [] -> ep s < ESIZE -> exists m, compile_loop pat (S fuel) s = Some m /\
  (forall a, a < ep s -> m a = expbuf s a) /\ m (ep s) = CEOF.
Proof.
  intros Ht He. cbn [compile_loop]. rewrite turn_end by done. eexists. split; [done|]. split.
  - intros a Ha. rewrite put_at, decide_False by (cbn; lia). done.
  - rewrite put_at, decide_True by done. done.
Qed.
Lemma compile_loop_ok pat dol ps : Forall printable ps -> forall fuel s, nested (numbra s) (length (bracket s)) ps = true ->
  text pat (sp s) (print_pieces ps dol) -> clear_from (expbuf s) (ep s) -> ep s + code_size ps + (if dol then 1 else 0) < ESIZE ->
  (length (print_pieces ps dol) < fuel)%nat ->
  exists m, compile_loop pat fuel s = Some m /\ (forall a, a < ep s -> m a = expbuf s a) /\ encodes m (ep s) ps dol.
Proof.
  induction 1 as [|p ps Hp Hps IH]; intros fuel s Hn Ht Hc He Hf.
  - unfold print_pieces in Ht, Hf. cbn [map concat app] in Ht, Hf. cbn [code_size] in He. destruct dol; (destruct fuel as [|fuel]; [lia|]).
    + destruct fuel as [|fuel]; [cbn in Hf; lia|]. cbn [compile_loop]. rewrite turn_dollar by (done || lia). fold (compile_loop pat (S fuel)).
      destruct (text_cons _ _ _ _ Ht) as (_&_&Ht1). set (s1 := put CDOL _). assert (ep s1 = ep s + 1) as E1 by (cbn; lia).
      destruct (end_ok pat fuel s1) as (m&E&Hb&H1); [exact Ht1|lia|]. exists m. split; [exact E|]. split; [|split].
      * intros a Ha. rewrite Hb by lia. unfold s1. rewrite put_at, decide_False by (cbn; lia). done.
      * rewrite Hb by lia. unfold s1. rewrite put_at, decide_True by done. done.
      * by rewrite <- E1.
    + apply end_ok; [exact Ht|lia].
  - assert (forall l, code_size l >= 0) as Hpos.
    { induction l as [|q l IHl]; [done|]. cbn. destruct q as [a|a| |]; try destruct a; cbn; lia. }
    specialize (Hpos ps). cbn [code_size] in He. assert (0 <= if dol then 1 else 0) by (destruct dol; lia).
    assert (print_pieces (p :: ps) dol = print_piece p ++ print_pieces ps dol) as Ep by (unfold print_pieces; cbn [map concat]; by rewrite app_assoc).
    rewrite Ep in Ht, Hf. destruct (piece_goes pat fuel s p ps dol Hp Hn Ht) as (s'&(f'&E&Hf')&[H1 H2 H3 H4]&Hn'&Henc); [lia|done..|].
    destruct (IH f' s' Hn' H2 H4) as (m&Em&Hb&He'); [rewrite H1; lia|done|]. exists m. split; [by rewrite E|]. split.
    + intros a Ha. rewrite Hb; [by apply H3|]. assert (0 <= piece_size p) by (destruct p as [b|b| |]; try destruct b; cbn; lia). lia.
    + by apply Henc.
Qed.

(** ** The program *)

Lemma code_size_length ps : Z.of_nat (length ps) <= code_size ps.
Proof. induction ps as [|p ps IH]; [done|]. cbn [length code_size]. destruct p as [a|a| |]; try destruct a; cbn [piece_size osize]; lia. Qed.
Lemma printable_good ps : Forall printable ps -> Forall good_piece ps.
Proof. intros H. eapply Forall_impl; [exact H|]. intros p. by destruct p as [[]|[]| |]. Qed.
Lemma first_char circ ps dol : (hd 0 (print circ ps dol) =? 94) = circ.
Proof.
  destruct circ; [done|]. unfold print, print_pieces. cbn [app].
  destruct ps as [|p ps]; [by destruct dol|]. cbn [map concat]. destruct p as [a|a| |]; try done; destruct a as [c| |neg els]; try done;
    cbn [print_piece print_atom]; destruct (special c) eqn:Hs; try done; apply special_false in Hs as (_&_&_&_&_&H); exact H.
Qed.
Lemma compile_ok (circ : bool) ps (dol : bool) pat : Forall printable ps -> nested 0 0 ps = true -> code_size ps + (if dol then 1 else 0) < ESIZE ->
  text pat 0 (print circ ps dol) -> exists ex, compile pat (S (length (print circ ps dol))) = Some (circ, ex) /\ encodes ex 0 ps dol.
Proof.
  intros Hp Hn Hs Ht. unfold compile. rewrite (text_head _ _ _ Ht), first_char. cbv zeta.
  edestruct (compile_loop_ok pat dol ps Hp (S (length (print circ ps dol))) (MkComp 0 (if circ then 1 else 0) None [] 0 0 (fun _ => 0))) as (m&E&_&He);
    [exact Hn| |done|exact Hs| |].
  - destruct circ; [|exact Ht]. by destruct (text_cons pat 0 94 (print_pieces ps dol) Ht) as (_&_&?).
  - unfold print. destruct circ; cbn; lia.
  - exists m. by rewrite E.
Qed.

(** C19: for patterns without back-references.  The pattern is made of single
    characters, escaped where they are special, dots, classes (plain or negated, of
    characters and ranges other than the three with a meaning there), stars on
    these, groups to a number of nine and properly nested, and the two anchors, and fits
    the buffer; the lines have fewer than 511 characters of seven bits.  Then
    [grep] compiles the pattern, and selects, with their numbers, the lines of which
    some part fits the pattern, or with [-v] the others; the matcher with
    its backtracking ends on each of them.  Nothing is said of back-references, in
    [compile] or in [advance]: a starred one need not end. *)
Theorem grep_selects (circ : bool) ps (dol vflag : bool) pat line st ls : Forall printable ps -> nested 0 0 ps = true ->
  code_size ps + (if dol then 1 else 0) < ESIZE -> text pat 0 (print circ ps dol) -> Forall good_line ls ->
  exists ex, compile pat (S (length (print circ ps dol))) = Some (circ, ex) /\
    execute (S (length ls)) circ ex vflag 0 line st (file_of ls) =
      Some (List.filter (fun '(_, l) => xorb (line_fits circ ps dol l) vflag) (numbered 0 ls)).
Proof.
  intros Hp Hn Hs Ht Hl. destruct (compile_ok circ ps dol pat Hp Hn Hs Ht) as (ex&E&He). exists ex. split; [exact E|].
  eapply execute_ok; [exact He|by apply printable_good| |exact Hl|lia]. pose proof (code_size_length ps). unfold DEPTH, ESIZE in *. destruct dol; lia.
Qed.

Lemma plain_check l : forallb (fun x => (0 <? x) && (x <? 128)) l = true -> Forall (fun x => 0 < x < 128) l.
Proof. rewrite forallb_forall, List.Forall_forall. intros H x Hx. specialize (H x Hx). lia. Qed.
Lemma good_line_check l : forallb (fun x => (0 <? x) && (x <? 128) && negb (x =? 10)) l && (Z.of_nat (length l) <? LBSIZE - 1) = true -> good_line l.
Proof. rewrite andb_true_iff, forallb_forall, Z.ltb_lt. intros [H Hl]. split; [|done]. rewrite List.Forall_forall. intros x Hx. specialize (H x Hx). lia. Qed.

Definition chars (s : string) : list Z := map (fun a => Z.of_nat (Ascii.nat_of_ascii a)) (String.list_ascii_of_string s).
(** [^a\(\[b-dx\]*\).c$] *)
Definition sample : list piece := [One (Chr 97); Open; Many (Cls false [(98, 100); (120, 120)]); Close; One Any; One (Chr 99)].
Lemma sample_text : print true sample true = chars "^a\([b-dx]*\).c$".
Proof. reflexivity. Qed.
Lemma grep_selects_witness : exists ex,
  compile (fun a => nth (Z.to_nat a) (chars "^a\([b-dx]*\).c$") 0) 17 = Some (true, ex) /\
  execute 5 true ex false 0 (fun _ => 0) (MkCaps (fun _ => 0) (fun _ => 0)) (file_of (map chars ["abc"; "abxc"; "bac"; "abdc "])) =
    Some [(1, chars "abc"); (2, chars "abxc")].
Proof.
  destruct (grep_selects true sample true false (fun a => nth (Z.to_nat a) (chars "^a\([b-dx]*\).c$") 0) (fun _ => 0)
    (MkCaps (fun _ => 0) (fun _ => 0)) (map chars ["abc"; "abxc"; "bac"; "abdc "])) as (ex&E1&E2).
  - unfold sample, printable, good_piece, good_atom, good_el. repeat (apply Forall_cons; split); try apply Forall_nil; try split; cbn; try done; try lia;
      repeat (apply Forall_cons; split); try apply Forall_nil; cbn; try done; repeat split; lia.
  - reflexivity.
  - vm_compute. reflexivity.
  - rewrite sample_text. split; [apply plain_check; vm_compute; reflexivity|]. intros i _. rewrite Z.add_0_l. reflexivity.
  - repeat (apply Forall_cons; split; [apply good_line_check; vm_compute; reflexivity|]). apply Forall_nil. done.
  - exists ex. split; [exact E1|]. etransitivity; [exact E2|vm_compute; reflexivity].
Defined.
End Grep.
