(* ===== verification/Heap.v ===== *)
(** * Heap: the storage allocator of the library (src/usr/src/libc/gen/malloc.c)

    The arena is a circle of cells, each a pointer to the next with a busy bit, and
    a cache holds chains of free blocks of the sizes in use.  Memory is words of
    32 bits at their byte addresses; [union store] is two words.  The proof is
    that blocks given out stay apart and keep their contents. *)
From Stdlib Require Import FunctionalExtensionality.
From S2P Require Import Prelude.

Module Heap.

(** ** Data *)

Definition WORD : Z := 8.
Definition BLOCK : Z := 32768.
Definition BUSY : Z := 1.
Definition CACHEMAX : Z := 50.
Definition CACHESIZ : Z := 13.

Definition testbusy (p : Z) : bool := has p BUSY.
Definition setbusy (p : Z) : Z := setf p BUSY.
Definition clearbusy (p : Z) : Z := clrf p BUSY.

(** [nd] is the end of the memory of the process, which [sbrk] moves. *)
Record heap := MkHeap {
  ptr : Z -> Z; allocb : Z; allocc : Z; allocp : Z; alloct : Z; allocx : Z;
  cache : Z -> Z; nd : Z
}.
#[export] Instance eta_heap : Eta heap := fun r =>
  MkHeap (ptr r) (allocb r) (allocc r) (allocp r) (alloct r) (allocx r) (cache r) (nd r).
(** [p + n], for a pointer to [union store]. *)
Definition plus (p n : Z) : Z := u32 (p + n * WORD).
(** [clearbusy(p->ptr) - p]. *)
Definition words (st : heap) (p : Z) : Z := u32 ((clearbusy (ptr st p) - p) / WORD).

Section code.
  (** Whether the system grants a new end of memory. *)
  Context (granted : Z -> bool).

(** sbrk.s *)
Definition sbrk (incr : Z) (st : heap) : Z * heap :=
  let e := u32 (nd st + incr) in
  if incr =? 0 then (nd st, st)
  else if granted e then (nd st, st <| nd := e |>) else (u32 (-1), st).

(** ** free *)

Definition stdfree (p : Z) (st : heap) : heap :=
  let p := p - WORD in
  let st := st <| allocp := p |> in
  let st := if p <? allocc st then st <| allocc := p |> else st in
  st <| ptr @ p := clearbusy (ptr st p) |>.

Definition free (ap : Z) (st : heap) : heap :=
  if ap =? 0 then st
  else
    let p := ap - WORD in
    let nw := words st p in
    let i := nw mod CACHESIZ in
    let q := cache st i in
    if (nw <? CACHEMAX) && (2 <=? nw) && ((q =? 0) || (nw =? words st q))
    then st <| ptr @ (plus p 1) := q |> <| cache @ i := p |>
    else stdfree (plus p 1) st.

(** One chain of the cache; and all of them, from the last. *)
Fixpoint drain_chain (fuel : nat) (i : Z) (n : Z) (st : heap) : option (Z * heap) :=
  match fuel with
  | O => None
  | S fuel =>
      let q := cache st i in
      if q =? 0 then Some (n, st)
      else
        let q := plus q 1 in
        let st := stdfree q st in
        drain_chain fuel i (n + 1) (st <| cache @ i := ptr st q |>)
  end.
Fixpoint drain_from (fuel : nat) (k : nat) (n : Z) (st : heap) : option (Z * heap) :=
  match k with
  | O => Some (n, st)
  | S k => match drain_chain fuel (Z.of_nat k) n st with None => None | Some (n, st) => drain_from fuel k n st end
  end.
Definition draincache (fuel : nat) (st : heap) : option (Z * heap) := drain_from fuel (Z.to_nat CACHESIZ) 0 st.

(** ** ialloc *)

(** [while(testbusy(allocc->ptr)) allocc = clearbusy(allocc->ptr);] *)
Fixpoint to_idle (fuel : nat) (st : heap) : option heap :=
  match fuel with
  | O => None
  | S fuel =>
      if testbusy (ptr st (allocc st)) then to_idle fuel (st <| allocc := clearbusy (ptr st (allocc st)) |>) else Some st
  end.
Definition ialloc (fuel : nat) (q nbytes : Z) (st : heap) : option heap :=
  let r := plus q (nbytes / WORD - 1) in
  let st := st <| ptr @ q := r |> in
  if alloct st <? q then
    let p := alloct st in
    let s := allocb st in
    let st := st <| alloct := r |> in
    let st := st <| ptr @ p := if q =? plus p 1 then q else setbusy q |> in
    let st := st <| ptr @ r := if s =? plus r 1 then s else setbusy s |> in
    to_idle fuel st
  else Some st.

(** ** malloc *)

(** [while(!testbusy((q=p->ptr)->ptr)) p->ptr = q->ptr;] *)
Fixpoint coalesce (fuel : nat) (p : Z) (st : heap) : option (Z * heap) :=
  match fuel with
  | O => None
  | S fuel =>
      let q := ptr st p in
      if testbusy (ptr st q) then Some (q, st) else coalesce fuel p (st <| ptr @ p := ptr st q |>)
  end.
(** One turn of the search from [p]: a block and its end ([inl]), or the next cell
    and the number of times the top was passed; nothing when it has been twice. *)
Definition search_turn (fuel : nat) (nw p temp : Z) (st : heap) : option (Z * Z + option (Z * Z)) * heap :=
  match (if testbusy (ptr st p) then Some (None, st)
         else option_map (fun '(q, st) => (Some q, st)) (coalesce fuel p (st <| allocp := p |>))) with
  | None => (None, st)
  | Some (q, st) =>
      match q with
      | Some q =>
          if (plus p nw <=? q) && (p <=? plus p nw) then (Some (inl (p, q)), st)
          else
            let n := clearbusy (ptr st p) in
            (Some (inr (if n <=? p then if 1 <? temp + 1 then None else Some (allocc st, temp + 1) else Some (n, temp))), st)
      | None =>
          let n := clearbusy (ptr st p) in
          (Some (inr (if n <=? p then if 1 <? temp + 1 then None else Some (allocc st, temp + 1) else Some (n, temp))), st)
      end
  end.
Fixpoint search (fuel : nat) (n : nat) (nw p temp : Z) (st : heap) : option (option (Z * Z) * heap) :=
  match n with
  | O => None
  | S n =>
      match search_turn fuel nw p temp st with
      | (None, _) => None
      | (Some (inl r), st) => Some (Some r, st)
      | (Some (inr None), st) => Some (None, st)
      | (Some (inr (Some (p, temp))), st) => search fuel n nw p temp st
      end
  end.

(** The loop that asks for less and less memory. *)
Fixpoint extend (fuel : nat) (nw p temp : Z) (st : heap) : option (option (Z * Z) * heap) :=
  match fuel with
  | O => None
  | S fuel =>
      let '(q, st) := if p <? plus p temp then sbrk (u32 (temp * WORD)) st else (u32 (-1), st) in
      if negb (q =? u32 (-1)) then Some (Some (q, temp), st)
      else
        let temp := temp - (temp - nw) / 2 in
        if 1 <? temp - nw then extend fuel nw p temp st else Some (None, st)
  end.

(** [found:] to the end, for the block from [p] to [q]. *)
Fixpoint past_busy (fuel : nat) (st : heap) : option heap :=
  match fuel with
  | O => None
  | S fuel =>
      if testbusy (ptr st (allocc st)) && (allocc st <? clearbusy (ptr st (allocc st)))
      then past_busy fuel (st <| allocc := clearbusy (ptr st (allocc st)) |>) else Some st
  end.
Definition take (fuel : nat) (p q nw : Z) (st : heap) : option (Z * heap) :=
  let st := st <| allocp := plus (allocp st) nw |> in
  let st := if allocp st <? q then
      let st := st <| allocx := ptr st (allocp st) |> in st <| ptr @ (allocp st) := ptr st p |>
    else st in
  let st := st <| ptr @ p := setbusy (allocp st) |> in
  option_map (pair (plus p 1)) (if p <=? allocc st then past_busy fuel st else Some st).

Fixpoint stdmalloc (fuel : nat) (n : nat) (nw : Z) (st : heap) : option (Z * heap) :=
  match n with
  | O => None
  | S n =>
      match search fuel fuel nw (allocp st) 0 st with
      | None => None
      | Some (Some (p, q), st) => take fuel p q nw st
      | Some (None, st) =>
          let '(p, st) := sbrk 0 st in
          match extend fuel nw p ((nw + BLOCK / WORD) / (BLOCK / WORD) * (BLOCK / WORD)) st with
          | None => None
          | Some (None, st) =>
              match draincache fuel st with
              | None => None
              | Some (anyfreed, st) => if negb (anyfreed =? 0) then stdmalloc fuel n nw st else Some (0, st)
              end
          | Some (Some (q, temp), st) =>
              match draincache fuel st with
              | None => None
              | Some (_, st) =>
                  match ialloc fuel q (u32 (temp * WORD)) st with
                  | None => None
                  | Some st => stdmalloc fuel n nw st
                  end
              end
          end
      end
  end.
Definition malloc (fuel : nat) (nbytes : Z) (st : heap) : option (Z * heap) :=
  let nw := u32 (nbytes + WORD + WORD - 1) / WORD in
  let i := nw mod CACHESIZ in
  let p := cache st i in
  if (nw <? CACHEMAX) && (2 <=? nw) && negb (p =? 0) && (nw =? words st p)
  then Some (plus p 1, st <| cache @ i := ptr st (plus p 1) |>)
  else stdmalloc fuel 3 nw st.

(** ** realloc *)

(** [*t++ = *s++], [n] times. *)
Fixpoint copy (n : nat) (s t : Z) (st : heap) : heap :=
  match n with
  | O => st
  | S n => copy n (plus s 1) (plus t 1) (st <| ptr @ t := ptr st s |> <| ptr @ (t + 4) := ptr st (s + 4) |>)
  end.
Definition realloc (fuel : nat) (p nbytes : Z) (st : heap) : option (Z * heap) :=
  if p =? 0 then malloc fuel nbytes st
  else
    let st := stdfree p st in
    let onw := u32 ((ptr st (p - WORD) - p) / WORD) in
    let nw := u32 (nbytes + WORD - 1) / WORD in
    match stdmalloc fuel 3 (nw + 1) st with
    | None => None
    | Some (q, st) =>
        let onw := if nw <? onw then nw else onw in
        if (q =? 0) || (q =? p) then Some (q, st)
        else
          let st := copy (Z.to_nat onw) p q st in
          Some (q, if (q <? p) && (p <=? plus q nw) then st <| ptr @ (plus q ((plus q nw - p) / WORD)) := allocx st |> else st)
    end.
End code.

(** ** Addresses and busy bits *)

Definition ev (a : Z) : Prop := testbusy a = false.
Lemma ev_mod a : ev a <-> a mod 2 = 0.
Proof.
  unfold ev, testbusy, has, BUSY. rewrite negb_false_iff, Z.eqb_eq. change 1 with (Z.ones 1). by rewrite Z.land_ones.
Qed.
Lemma ev_plus a n : ev a -> ev (a + 8 * n).
Proof. rewrite !ev_mod. intros H. replace (a + 8 * n) with (a + (4 * n) * 2) by lia. by rewrite Z.mod_add. Qed.
Lemma clear_ev a : testbusy a = false -> clearbusy a = a.
Proof.
  unfold testbusy, clearbusy, has, clrf, BUSY. rewrite negb_false_iff, Z.eqb_eq. intros H. apply Z.bits_inj'. intros i Hi.
  rewrite Z.land_spec, Z.lnot_spec by done. apply (f_equal (fun x => Z.testbit x i)) in H. rewrite Z.land_spec, Z.bits_0 in H.
  destruct (Z.testbit a i), (Z.testbit 1 i); done.
Qed.
Lemma clear_idle a : testbusy (clearbusy a) = false.
Proof. by apply has_clrf_same. Qed.
Lemma clear_clear a : clearbusy (clearbusy a) = clearbusy a.
Proof. apply clear_ev, clear_idle. Qed.
Lemma clear_set a : clearbusy (setbusy a) = clearbusy a.
Proof.
  unfold clearbusy, setbusy, clrf, setf, BUSY. apply Z.bits_inj'. intros i Hi. rewrite !Z.land_spec, Z.lor_spec, Z.lnot_spec by done.
  destruct (Z.testbit a i), (Z.testbit 1 i); done.
Qed.
Lemma set_busy a : testbusy (setbusy a) = true.
Proof. unfold testbusy, setbusy. rewrite has_setf. change (has BUSY BUSY) with true. apply orb_true_r. Qed.

(** ** The arena *)

Abbreviation next m a := (clearbusy (m a)).

(** The cells [cell] from [b] to the top [t]: each leads to the next one up, the
    top, always busy, to the first; idle ones are whole words. *)
Record circle (m : Z -> Z) (cell : Z -> Prop) (b t : Z) : Prop := {
  ci_first : cell b;
  ci_last : cell t;
  ci_range : forall a, cell a -> b <= a <= t /\ 0 < a /\ ev a;
  ci_next : forall a, cell a -> a < t -> cell (next m a) /\ a + 8 <= next m a /\ forall x, cell x -> a < x -> next m a <= x;
  ci_whole : forall a, cell a -> testbusy (m a) = false -> exists k, m a = a + 8 * k;
  ci_top : next m t = b /\ testbusy (m t) = true
}.
Record arena (st : heap) (cell : Z -> Prop) : Prop := {
  ar_circle : circle (ptr st) cell (allocb st) (alloct st);
  ar_nd : alloct st + 8 <= nd st /\ nd st < 4294967296 /\ ev (nd st);
  ar_c : cell (allocc st) /\ forall a, cell a -> a < allocc st -> testbusy (ptr st a) = true;
  ar_p : cell (allocp st)
}.

(** Cells do not overlap. *)
Lemma circle_apart m cell b t a a' : circle m cell b t -> cell a -> cell a' -> a < a' -> a + 8 <= a'.
Proof. intros C Ha Ha' Hlt. assert (a < t) as Ht by (pose proof (ci_range _ _ _ _ C a' Ha'); lia). destruct (ci_next _ _ _ _ C a Ha Ht) as (_&H1&H2). specialize (H2 a' Ha' Hlt). lia. Qed.

(** A block of [n] words in use: its cell is busy. *)
Record block (m : Z -> Z) (cell : Z -> Prop) (t h n : Z) : Prop := {
  bl_cell : cell h; bl_below : h < t; bl_busy : testbusy (m h) = true; bl_next : next m h = h + 8 * n }.
(** The words of it that are the owner's. *)
Definition inside (h n x : Z) : Prop := h + 8 <= x < h + 8 * n.

Lemma inside_not_cell m cell b t h n x a : circle m cell b t -> block m cell t h n -> inside h n x -> cell a -> x <> a /\ x <> a + 4.
Proof.
  intros C [B1 B2 B3 B4] Hx Ha. destruct (ci_next _ _ _ _ C h B1 B2) as (_&_&Hmin). unfold inside in Hx. destruct (decide (a <= h)); [lia|].
  specialize (Hmin a Ha ltac:(lia)). lia.
Qed.
Lemma blocks_distinct m cell b t h n h' n' x : circle m cell b t -> block m cell t h n -> block m cell t h' n' -> inside h n x -> inside h' n' x -> h = h' /\ n = n'.
Proof.
  intros C B B' Hx Hx'. assert (h = h') as ->.
  { destruct (Z.lt_trichotomy h h') as [H|[H|H]]; [|done|]; exfalso; [destruct B as [B1 B2 _ B4], B' as [B1' _ _ _]|destruct B' as [B1 B2 _ B4], B as [B1' _ _ _]];
      destruct (ci_next _ _ _ _ C _ B1 B2) as (_&_&Hmin); specialize (Hmin _ B1' ltac:(lia)); unfold inside in *; lia. }
  split; [done|]. destruct B, B'. lia.
Qed.

(** Blocks in use stay, with what their owners put in them. *)
Definition keeps (m : Z -> Z) (cell : Z -> Prop) (t : Z) (m' : Z -> Z) (cell' : Z -> Prop) (t' : Z) : Prop :=
  forall h n, block m cell t h n -> block m' cell' t' h n /\ forall x, inside h n x -> m' x = m x.
Lemma keeps_refl m cell t : keeps m cell t m cell t.
Proof. by intros h n B. Qed.
Lemma keeps_trans m cell t m1 cell1 t1 m2 cell2 t2 : keeps m cell t m1 cell1 t1 -> keeps m1 cell1 t1 m2 cell2 t2 -> keeps m cell t m2 cell2 t2.
Proof.
  intros H1 H2 h n B. destruct (H1 h n B) as [B1 E1]. destruct (H2 h n B1) as [B2 E2]. split; [done|]. intros x Hx. by rewrite E2, E1.
Qed.

Lemma idle_below m cell b t a : circle m cell b t -> cell a -> testbusy (m a) = false -> a < t.
Proof. intros C Ha Hi. destruct (decide (a = t)) as [->|]; [|pose proof (ci_range _ _ _ _ C a Ha); lia]. rewrite (proj2 (ci_top _ _ _ _ C)) in Hi. done. Qed.

(** *** Two idle cells become one *)

Lemma merge_circle m cell b t p : circle m cell b t -> cell p -> testbusy (m p) = false -> testbusy (m (m p)) = false ->
  let q := m p in let m' := <[p := m q]> m in let cell' a := cell a /\ a <> q in
  circle m' cell' b t /\ keeps m cell t m' cell' t /\ p + 8 <= q < t /\ cell q /\ q + 8 <= m q <= t.
Proof.
  intros C Hp Hi Hq q m' cell'. pose proof (idle_below _ _ _ _ _ C Hp Hi) as Hpt. destruct (ci_next _ _ _ _ C p Hp Hpt) as (N1&N2&N3).
  rewrite (clear_ev _ Hi) in N1, N2, N3. fold q in N1, N2, N3, Hq. pose proof (idle_below _ _ _ _ _ C N1 Hq) as Hqt.
  destruct (ci_next _ _ _ _ C q N1 Hqt) as (Q1&Q2&Q3). rewrite (clear_ev _ Hq) in Q1, Q2, Q3. pose proof (ci_range _ _ _ _ C _ Q1) as (Qr&_).
  assert (forall a, a <> p -> m' a = m a) as Hne by (intros a Ha; unfold m'; by rewrite fn_ne).
  assert (m' p = m q) as Hpe by apply fn_eq.
  split; [|split; [|lia || (split; [lia|split; [done|lia]])]].
  - split.
    + split; [apply C|]. pose proof (ci_range _ _ _ _ C p Hp). lia.
    + split; [apply C|lia].
    + intros a [Ha _]. by apply C.
    + intros a [Ha Hq'] Hat. destruct (decide (a = p)) as [->|Hap].
      * rewrite Hpe, (clear_ev _ Hq). split; [split; [done|lia]|]. split; [lia|]. intros x [Hx Hxq] Hlt. apply Q3; [done|].
        specialize (N3 x Hx Hlt). lia.
      * rewrite Hne by done. destruct (ci_next _ _ _ _ C a Ha Hat) as (A1&A2&A3). split; [split; [done|]|split; [done|]].
        -- intros E. destruct (decide (a < p)) as [L|L]; [specialize (A3 p Hp L); lia|]. specialize (N3 a Ha ltac:(lia)). lia.
        -- intros x [Hx _] Hlt. by apply A3.
    + intros a [Ha _]. destruct (decide (a = p)) as [->|Hap]; [rewrite Hpe|rewrite Hne by done; by apply C].
      intros _. destruct (ci_whole _ _ _ _ C p Hp Hi) as [k Hk]. destruct (ci_whole _ _ _ _ C q N1 Hq) as [k' Hk']. exists (k + k'). fold q in Hk. lia.
    + rewrite Hne by lia. apply C.
  - intros h n [B1 B2 B3 B4]. assert (h <> p /\ h <> q) as [Hhp Hhq] by (split; intros ->; congruence). split; [split|].
    + by split.
    + done.
    + by rewrite Hne.
    + by rewrite Hne.
    + intros x Hx. apply Hne. eapply inside_not_cell; [exact C|by split|exact Hx|done].
Qed.

(** *** An idle block is taken, and split if it is too long *)

Lemma take_circle m cell b t p nw : circle m cell b t -> cell p -> testbusy (m p) = false -> 1 <= nw -> p + 8 * nw <= m p ->
  let a := p + 8 * nw in let m1 := if a <? m p then <[a := m p]> m else m in
  let m' := <[p := setbusy a]> m1 in let cell' x := cell x \/ x = a in
  circle m' cell' b t /\ keeps m cell t m' cell' t /\ block m' cell' t p nw /\ cell' a /\ a <= t /\
  (forall x, x <> p -> cell x -> m' x = m x) /\ (a < m p -> testbusy (m' a) = false /\ next m' a = m p).
Proof.
  intros C Hp Hi Hn Hroom a m1 m' cell'. pose proof (idle_below _ _ _ _ _ C Hp Hi) as Hpt. destruct (ci_next _ _ _ _ C p Hp Hpt) as (N1&N2&N3).
  rewrite (clear_ev _ Hi) in N1, N2, N3. destruct (ci_range _ _ _ _ C p Hp) as (Pr&P0&Pe). pose proof (ci_range _ _ _ _ C _ N1) as (Qr&_).
  assert (ev a) as Ea by (by apply ev_plus). assert (clearbusy a = a) as Eca by (by apply clear_ev).
  assert (forall x, x <> p -> x <> a \/ a = m p -> m' x = m x) as Hne.
  { intros x Hxp Hxa. unfold m', m1. rewrite fn_ne by done. destruct (Z.ltb_spec a (m p)); [|done]. rewrite fn_ne by lia. done. }
  assert (forall x, x <> p -> cell x -> m' x = m x) as Hcell.
  { intros x Hxp Hx. apply Hne; [done|]. destruct (decide (a = m p)); [by right|left]. intros ->. destruct (decide (a <= p)); [lia|]. specialize (N3 a Hx ltac:(lia)). lia. }
  assert (next m' p = a /\ testbusy (m' p) = true) as [Pn Pb] by (unfold m'; rewrite fn_eq; split; [by rewrite clear_set|apply set_busy]).
  assert (a < m p -> m' a = m p) as Han.
  { intros Hlt. unfold m', m1. rewrite fn_ne by lia. rewrite (proj2 (Z.ltb_lt a (m p)) Hlt). apply fn_eq. }
  assert (cell' a) as Hca by (by right).
  assert (p + 8 <= a) as Hpa by (unfold a; lia).
  assert (m p = a \/ a + 8 <= m p) as Hgap by (destruct (ci_whole _ _ _ _ C p Hp Hi) as [k Hk]; unfold a in *; lia).
  split; [split|split; [|split; [|split; [done|split; [lia|split; [done|]]]]]].
  - left. apply C.
  - left. apply C.
  - intros x [Hx| ->]; [by apply C|]. split; [lia|]. split; [lia|done].
  - intros x Hx Hxt. destruct (decide (x = p)) as [->|Hxp].
    + rewrite Pn. split; [done|]. split; [lia|]. intros y [Hy| ->] Hlt; [|lia]. specialize (N3 y Hy Hlt). lia.
    + destruct Hx as [Hx| ->].
      * rewrite Hcell by done. destruct (ci_next _ _ _ _ C x Hx Hxt) as (A1&A2&A3). split; [by left|]. split; [done|]. intros y [Hy| ->] Hlt; [by apply A3|].
        destruct (decide (x <= p)) as [L|L]; [specialize (A3 p Hp ltac:(lia)); lia|]. specialize (N3 x Hx ltac:(lia)). lia.
      * destruct Hgap as [E|E]; [rewrite <- E, Hcell by (done || lia)|].
        -- rewrite <- E in Hxt. destruct (ci_next _ _ _ _ C _ N1 Hxt) as (A1&A2&A3). split; [by left|]. split; [lia|]. intros y [Hy| ->] Hlt; [by apply A3|lia].
        -- rewrite Han, (clear_ev _ ltac:(apply (ci_range _ _ _ _ C _ N1))) by lia. split; [by left|]. split; [lia|]. intros y [Hy| ->] Hlt; [|lia].
           apply N3; [done|lia].
  - intros x [Hx| ->] Hxi.
    + destruct (decide (x = p)) as [->|Hxp]; [congruence|]. rewrite Hcell in * by done. by apply C.
    + destruct Hgap as [E|E].
      * rewrite <- E in *. rewrite Hcell in * by (done || lia). by apply C.
      * rewrite Han by lia. destruct (ci_whole _ _ _ _ C p Hp Hi) as [k Hk]. exists (k - nw). unfold a. lia.
  - rewrite Hcell by (lia || apply C). apply C.
  - intros h n [B1 B2 B3 B4]. assert (h <> p) as Hhp by (intros ->; congruence). split; [split|].
    + by left.
    + done.
    + by rewrite Hcell.
    + by rewrite Hcell.
    + intros x Hx. assert (x <> p) as Hxp by (eapply inside_not_cell; [exact C|by split|exact Hx|done]).
      apply Hne; [done|]. left. intros ->. unfold inside in Hx. destruct (ci_next _ _ _ _ C h B1 B2) as (_&_&A3). 
      destruct (decide (h < p)) as [L|L]; [specialize (A3 p Hp L); lia|]. specialize (N3 h B1 ltac:(lia)). lia.
  - split; [by left|done|done|done].
  - intros Hlt. rewrite Han by done. split; [apply (ci_range _ _ _ _ C _ N1)|]. apply clear_ev, (ci_range _ _ _ _ C _ N1).
Qed.

(** *** A block is given up *)

Lemma free_circle m cell b t p n : circle m cell b t -> block m cell t p n -> let m' := <[p := clearbusy (m p)]> m in
  circle m' cell b t /\ forall h k, h <> p -> block m cell t h k -> block m' cell t h k /\ forall x, inside h k x -> m' x = m x.
Proof.
  intros C [B1 B2 B3 B4] m'. assert (forall a, a <> p -> m' a = m a) as Hne by (intros a Ha; unfold m'; by rewrite fn_ne).
  assert (m' p = next m p) as Hp by apply fn_eq.
  assert (forall a, next m' a = next m a) as Hnx by (intros a; destruct (decide (a = p)) as [->|]; [by rewrite Hp, clear_clear|by rewrite Hne]).
  split; [split|].
  - apply C.
  - apply C.
  - apply C.
  - intros a. rewrite Hnx. apply C.
  - intros a Ha. destruct (decide (a = p)) as [->|Hap]; [rewrite Hp; intros _; by exists n|rewrite Hne by done; by apply C].
  - rewrite Hnx, Hne by lia. apply C.
  - intros h k Hh [A1 A2 A3 A4]. split; [split; rewrite ?Hnx, ?Hne; done|]. intros x Hx. apply Hne.
    eapply inside_not_cell; [exact C|by split|exact Hx|done].
Qed.

(** ** The whole state *)

(** The chain of blocks that starts with [c]; a block's first word leads on. *)
Fixpoint chained (m : Z -> Z) (c : Z) (l : list Z) : Prop :=
  match l with [] => c = 0 | p :: l => c = p /\ chained m (m (p + 8)) l end.
Lemma chained_ext m m' c l : chained m c l -> (forall p, p ∈ l -> m' (p + 8) = m (p + 8)) -> chained m' c l.
Proof. revert c. induction l as [|p l IH]; intros c; [done|]. intros [-> H] Hm. split; [done|]. rewrite Hm by mem. apply IH; [done|]. intros q Hq. apply Hm. mem. Qed.

(** The blocks [H] are held by the program, those of [C i] are in chain [i] of the
    cache and have [N i] words. *)
Record wf (st : heap) (H : list (Z * Z)) (cell : Z -> Prop) (C : Z -> list Z) (N : Z -> Z) : Prop := {
  wf_arena : arena st cell;
  wf_held : forall h n, (h, n) ∈ H -> block (ptr st) cell (alloct st) h n;
  wf_nodup : NoDup (map fst H);
  wf_chain : forall i, 0 <= i < 13 -> chained (ptr st) (cache st i) (C i);
  wf_cached : forall i p, 0 <= i < 13 -> p ∈ C i -> block (ptr st) cell (alloct st) p (N i) /\ 2 <= N i < 50 /\ N i mod 13 = i;
  wf_cnodup : forall i, 0 <= i < 13 -> NoDup (C i);
  wf_apart : forall i p, 0 <= i < 13 -> p ∈ C i -> p ∉ map fst H
}.

Lemma block_size m cell t h n n' : block m cell t h n -> block m cell t h n' -> n = n'.
Proof. intros [_ _ _ E] [_ _ _ E']. lia. Qed.
Lemma chains_apart st H cell C N i j p : wf st H cell C N -> 0 <= i < 13 -> 0 <= j < 13 -> p ∈ C i -> p ∈ C j -> i = j.
Proof.
  intros W Hi Hj Pi Pj. destruct (wf_cached _ _ _ _ _ W i p Hi Pi) as (Bi&_&<-). destruct (wf_cached _ _ _ _ _ W j p Hj Pj) as (Bj&_&<-).
  by rewrite (block_size _ _ _ _ _ _ Bi Bj).
Qed.
Lemma block_range st cell h n : arena st cell -> block (ptr st) cell (alloct st) h n -> 0 < h /\ 1 <= n /\ h + 8 * n <= alloct st /\ alloct st + 8 < 4294967296.
Proof.
  intros A [B1 B2 B3 B4]. pose proof (ar_circle _ _ A) as C. destruct (ci_next _ _ _ _ C h B1 B2) as (N1&N2&_).
  pose proof (ci_range _ _ _ _ C h B1). pose proof (ci_range _ _ _ _ C _ N1). pose proof (ar_nd _ _ A). lia.
Qed.
Lemma words_ok st cell h n : arena st cell -> block (ptr st) cell (alloct st) h n -> words st h = n.
Proof.
  intros A B. destruct (block_range _ _ _ _ A B) as (H1&H2&H3&H4). unfold words. rewrite (bl_next _ _ _ _ _ B). unfold WORD.
  replace (h + 8 * n - h) with (n * 8) by lia. rewrite Z.div_mul by lia. apply wrap_u_id. lia.
Qed.
Lemma plus_ok p n : 0 <= p -> 0 <= n -> p + 8 * n < 4294967296 -> plus p n = p + 8 * n.
Proof. intros Hp Hn H. unfold plus, WORD. replace (n * 8) with (8 * n) by lia. apply wrap_u_id. lia. Qed.

(** Steps that keep the blocks keep the whole. *)
Lemma wf_step st st' H cell cell' C N : wf st H cell C N -> arena st' cell' -> cache st' = cache st ->
  keeps (ptr st) cell (alloct st) (ptr st') cell' (alloct st') -> wf st' H cell' C N.
Proof.
  intros [W1 W2 W3 W4 W5 W6 W7] A Ec K. split; try done.
  - intros h n Hin. by apply K, W2.
  - intros i Hi. rewrite Ec. eapply chained_ext; [by apply W4|]. intros p Hp. destruct (W5 i p Hi Hp) as (B&HN&_). apply (K p (N i) B). unfold inside. lia.
  - intros i p Hi Hp. destruct (W5 i p Hi Hp) as (B&HN). split; [by apply K|done].
Qed.
(** What the program keeps in its blocks is unchanged. *)
Definition data_kept (H : list (Z * Z)) (st st' : heap) : Prop := forall h n x, (h, n) ∈ H -> inside h n x -> ptr st' x = ptr st x.
Lemma data_keeps st st' H cell cell' C N : wf st H cell C N -> keeps (ptr st) cell (alloct st) (ptr st') cell' (alloct st') -> data_kept H st st'.
Proof. intros W K h n x Hin Hx. apply (K h n); [by apply (wf_held _ _ _ _ _ W)|done]. Qed.
Lemma data_trans H st1 st2 st3 : data_kept H st1 st2 -> data_kept H st2 st3 -> data_kept H st1 st3.
Proof. intros D1 D2 h n x Hin Hx. by rewrite (D2 h n x), (D1 h n x). Qed.

(** ** free *)

Lemma stdfree_arena st cell p n : arena st cell -> block (ptr st) cell (alloct st) p n ->
  let st' := stdfree (p + 8) st in
  ptr st' = <[p := clearbusy (ptr st p)]> (ptr st) /\ cache st' = cache st /\ alloct st' = alloct st /\ nd st' = nd st /\ allocb st' = allocb st /\ arena st' cell.
Proof.
  intros A B st'. pose proof B as [B1 B2 B3 B4].
  assert (ptr st' = <[p := clearbusy (ptr st p)]> (ptr st) /\ cache st' = cache st /\ alloct st' = alloct st /\ nd st' = nd st /\ allocb st' = allocb st /\
    allocp st' = p /\ allocc st' = if p <? allocc st then p else allocc st) as (E1&E2&E3&E4&E5&E6&E7).
  { unfold st', stdfree, WORD. replace (p + 8 - 8) with p by lia. cbn [allocc]. change (allocc (st <| allocp := p |>)) with (allocc st). by destruct (p <? allocc st). }
  split; [done|]. split; [done|]. split; [done|]. split; [done|]. split; [done|]. destruct (free_circle _ _ _ _ _ _ (ar_circle _ _ A) B) as [C K].
  split; rewrite ?E1, ?E3, ?E4, ?E5, ?E6, ?E7; try done.
  - apply A.
  - destruct (ar_c _ _ A) as [Hc Hb]. split; [by destruct (p <? allocc st)|]. intros a Ha Hlt. rewrite fn_ne; [|destruct (Z.ltb_spec p (allocc st)); lia].
    apply Hb; [done|]. destruct (Z.ltb_spec p (allocc st)); lia.
Qed.
(** A block that is not in the cache is freed. *)
Lemma stdfree_wf st H1 h n H2 cell C N : wf st (H1 ++ (h, n) :: H2) cell C N ->
  wf (stdfree (h + 8) st) (H1 ++ H2) cell C N /\ data_kept (H1 ++ H2) st (stdfree (h + 8) st).
Proof.
  intros [W1 W2 W3 W4 W5 W6 W7]. assert (block (ptr st) cell (alloct st) h n) as B by (apply W2; mem).
  destruct (stdfree_arena st cell h n W1 B) as (E1&E2&E3&E4&E5&A). set (st' := stdfree (h + 8) st) in *.
  destruct (free_circle _ _ _ _ _ _ (ar_circle _ _ W1) B) as [_ K]. rewrite <- E1 in K.
  rewrite map_app in W3. cbn [map fst] in W3. rewrite <- Permutation_middle in W3. apply NoDup_cons in W3 as [Hh W3]. rewrite <- map_app in Hh, W3.
  assert (forall h' n', (h', n') ∈ H1 ++ H2 -> h' <> h) as Hne.
  { intros h' n' Hin ->. apply Hh. apply list_elem_of_fmap. by exists (h, n'). }
  assert (forall h' n', (h', n') ∈ H1 ++ H2 -> (h', n') ∈ H1 ++ (h, n) :: H2) as Hin by (intros h' n' Hi; apply elem_of_app in Hi as [?|?]; mem).
  assert (forall i p, 0 <= i < 13 -> p ∈ C i -> p <> h) as Hcn.
  { intros i p Hi Hp ->. apply (W7 i h Hi Hp). apply list_elem_of_fmap. exists (h, n). split; [done|mem]. }
  split; [split|]; try done.
  - intros h' n' Hi. rewrite E3. apply K; [by eapply Hne|by apply W2, Hin].
  - intros i Hi. rewrite E2. eapply chained_ext; [by apply W4|]. intros p Hp. destruct (W5 i p Hi Hp) as (Bp&HN&_). apply (K p (N i)); [by eapply Hcn|done|unfold inside; lia].
  - intros i p Hi Hp. destruct (W5 i p Hi Hp) as (Bp&HN). split; [rewrite E3; apply K; [by eapply Hcn|done]|done].
  - intros i p Hi Hp Hx. apply (W7 i p Hi Hp). apply list_elem_of_fmap in Hx as ([h' n']&->&Hx). apply list_elem_of_fmap. exists (h', n'). split; [done|]. by apply Hin.
  - intros h' n' x Hi Hx. apply (K h' n'); [by eapply Hne|by apply W2, Hin|done].
Qed.

Lemma circle_ext m m' cell b t : circle m cell b t -> (forall a, cell a -> m' a = m a) -> circle m' cell b t.
Proof.
  intros C H. split; try apply C.
  - intros a Ha Hat. rewrite H by done. by apply C.
  - intros a Ha. rewrite H by done. by apply C.
  - rewrite H; apply C.
Qed.
Lemma block_ext m m' cell t h n : block m cell t h n -> m' h = m h -> block m' cell t h n.
Proof. intros [B1 B2 B3 B4] E. by split; rewrite ?E. Qed.
Lemma arena_ext st st' cell : arena st cell -> (forall a, cell a -> ptr st' a = ptr st a) -> allocb st' = allocb st -> allocc st' = allocc st ->
  allocp st' = allocp st -> alloct st' = alloct st -> nd st' = nd st -> arena st' cell.
Proof.
  intros [A1 A2 [A3 A4] A5] H E1 E2 E3 E4 E5. split; rewrite ?E1, ?E2, ?E3, ?E4, ?E5; try done.
  - by eapply circle_ext.
  - split; [done|]. intros a Ha Hlt. rewrite H by done. by apply A4.
Qed.

(** *** The cache *)

(** The first block of a chain is taken off it. *)
Lemma uncache_wf st H cell C N i p l : wf st H cell C N -> 0 <= i < 13 -> C i = p :: l ->
  wf (st <| cache @ i := ptr st (p + 8) |>) ((p, N i) :: H) cell (<[i := l]> C) N /\ cache st i = p /\ 0 < p.
Proof.
  intros [W1 W2 W3 W4 W5 W6 W7] Hi Ei. assert (p ∈ C i) as Hp by (rewrite Ei; mem). destruct (W5 i p Hi Hp) as (B&HN).
  pose proof (W4 i Hi) as Hc. rewrite Ei in Hc. destruct Hc as [Ec Hc]. pose proof (W6 i Hi) as Hnd. rewrite Ei in Hnd. apply NoDup_cons in Hnd as [Hpl Hnd].
  destruct (block_range _ _ _ _ W1 B) as (Hp0&_). split; [|done].
  assert (forall j q, q ∈ (<[i := l]> C) j -> q ∈ C j) as Hsub.
  { intros j q. rewrite fn_case. case_decide; [subst j; rewrite Ei; mem|done]. }
  assert (forall j q, 0 <= j < 13 -> q ∈ (<[i := l]> C) j -> q <> p) as Hqp.
  { intros j q Hj Hq ->. destruct (decide (i = j)) as [->|Hne]; [by rewrite fn_eq in Hq|]. rewrite fn_ne in Hq by done.
    apply Hne. eapply (chains_apart st H cell C N); [by split|done..]. }
  split.
  - by eapply arena_ext.
  - intros h n Hin. apply elem_of_cons in Hin as [Hin|Hin]; [|by apply W2]. injection Hin as -> ->. done.
  - cbn [map fst]. apply NoDup_cons. split; [by apply (W7 i)|done].
  - intros j Hj. cbn. rewrite !fn_case. case_decide; [subst j; exact Hc|by apply W4].
  - intros j q Hj Hq. apply W5; [done|by apply Hsub].
  - intros j Hj. rewrite fn_case. case_decide; [done|by apply W6].
  - intros j q Hj Hq. cbn [map fst]. intros [->|Hx]%elem_of_cons; [by apply (Hqp j p)|]. by apply (W7 j q Hj (Hsub j q Hq)).
Qed.

(** A block is put in front of a chain of its size. *)
Lemma cache_wf st H1 h n H2 cell C N : wf st (H1 ++ (h, n) :: H2) cell C N -> 2 <= n < 50 ->
  let i := n mod 13 in cache st i = 0 \/ words st (cache st i) = n ->
  let st' := st <| ptr @ (h + 8) := cache st i |> <| cache @ i := h |> in
  wf st' (H1 ++ H2) cell (<[i := h :: C i]> C) (<[i := n]> N) /\ data_kept (H1 ++ H2) st st'.
Proof.
  intros [W1 W2 W3 W4 W5 W6 W7] Hn i Hq st'. assert (0 <= i < 13) as Hi by (apply Z.mod_pos_bound; lia).
  assert (block (ptr st) cell (alloct st) h n) as B by (apply W2; mem). pose proof (ar_circle _ _ W1) as Ci.
  assert (inside h n (h + 8)) as Hin8 by (unfold inside; lia).
  assert (forall x, x <> h + 8 -> ptr st' x = ptr st x) as Hx by (intros x Hne; cbn; by rewrite fn_ne).
  assert (forall a, cell a -> ptr st' a = ptr st a) as Hcell.
  { intros a Ha. apply Hx. intros ->. by destruct (inside_not_cell _ _ _ _ _ _ _ (h + 8) Ci B Hin8 Ha). }
  rewrite map_app in W3. cbn [map fst] in W3. rewrite <- Permutation_middle in W3. apply NoDup_cons in W3 as [Hh W3]. rewrite <- map_app in Hh, W3.
  assert (forall h' n', (h', n') ∈ H1 ++ H2 -> (h', n') ∈ H1 ++ (h, n) :: H2 /\ h' <> h) as Hin.
  { intros h' n' Hi'. split; [apply elem_of_app in Hi' as [?|?]; mem|]. intros ->. apply Hh. apply list_elem_of_fmap. by exists (h, n'). }
  assert (forall j p, 0 <= j < 13 -> p ∈ C j -> p <> h) as Hcn.
  { intros j p Hj Hp ->. apply (W7 j h Hj Hp). apply list_elem_of_fmap. exists (h, n). split; [done|mem]. }
  assert (forall h' n' x, h' <> h -> block (ptr st) cell (alloct st) h' n' -> inside h' n' x -> ptr st' x = ptr st x) as Hdata.
  { intros h' n' x Hne B' Hx'. apply Hx. intros ->. by destruct (blocks_distinct _ _ _ _ _ _ _ _ _ Ci B B' Hin8 Hx'). }
  assert (forall p, p ∈ C i -> N i = n) as Hsame.
  { intros p Hp. pose proof (W4 i Hi) as Hc. destruct (C i) as [|p' l] eqn:EC; [by apply elem_of_nil in Hp|]. destruct Hc as [Ec _].
    assert (p' ∈ C i) as Hp' by (rewrite EC; mem). destruct (W5 i p' Hi Hp') as (B'&_). destruct Hq as [E|E].
    - pose proof (block_range _ _ _ _ W1 B'). lia.
    - rewrite Ec, (words_ok _ _ _ _ W1 B') in E. done. }
  split; [split|].
  - by eapply arena_ext.
  - intros h' n' Hi'. eapply block_ext; [by apply W2, Hin|]. apply Hcell. by apply (bl_cell _ _ _ _ _ (W2 h' n' (proj1 (Hin _ _ Hi')))).
  - done.
  - intros j Hj. change (cache st' j) with ((<[i := h]> (cache st)) j). rewrite !fn_case. case_decide as Ej.
    + subst j. split; [done|]. assert (ptr st' (h + 8) = cache st i) as -> by (cbn; by rewrite fn_eq).
      eapply chained_ext; [by apply W4|]. intros p Hp. destruct (W5 i p Hi Hp) as (B'&HN&_). apply (Hdata p (N i)); [by apply (Hcn i)|done|unfold inside; lia].
    + eapply chained_ext; [by apply W4|]. intros p Hp. destruct (W5 j p Hj Hp) as (B'&HN&_). apply (Hdata p (N j)); [by apply (Hcn j)|done|unfold inside; lia].
  - intros j p Hj. rewrite !fn_case. case_decide as Ej.
    + subst j. intros [->|Hp]%elem_of_cons; [split; [by eapply block_ext; [|apply Hcell, B]|done]|]. destruct (W5 i p Hi Hp) as (B'&HN). rewrite <- (Hsame p Hp).
      split; [by eapply block_ext; [|apply Hcell, B']|done].
    + intros Hp. destruct (W5 j p Hj Hp) as (B'&HN). split; [by eapply block_ext; [|apply Hcell, B']|done].
  - intros j Hj. rewrite fn_case. case_decide as Ej; [|by apply W6]. subst j. apply NoDup_cons. split; [|by apply W6]. intros Hp. by apply (Hcn i h Hi Hp).
  - intros j p Hj. rewrite fn_case. case_decide as Ej.
    + subst j. intros [->|Hp]%elem_of_cons; [done|]. intros Hx'. apply (W7 i p Hi Hp). apply list_elem_of_fmap in Hx' as ([h' n']&->&Hx'). apply list_elem_of_fmap.
      exists (h', n'). split; [done|]. by apply Hin.
    + intros Hp Hx'. apply (W7 j p Hj Hp). apply list_elem_of_fmap in Hx' as ([h' n']&->&Hx'). apply list_elem_of_fmap. exists (h', n'). split; [done|]. by apply Hin.
  - intros h' n' x Hi' Hx'. destruct (Hin h' n' Hi') as [Hi2 Hne]. apply (Hdata h' n'); [done|by apply W2|done].
Qed.

Lemma free_wf st H1 h n H2 cell C N : wf st (H1 ++ (h, n) :: H2) cell C N -> exists C' N',
  wf (free (h + 8) st) (H1 ++ H2) cell C' N' /\ data_kept (H1 ++ H2) st (free (h + 8) st).
Proof.
  intros W. assert (block (ptr st) cell (alloct st) h n) as B by (apply (wf_held _ _ _ _ _ W); mem).
  destruct (block_range _ _ _ _ (wf_arena _ _ _ _ _ W) B) as (R1&R2&R3&R4). unfold free. replace (h + 8 =? 0) with false by lia.
  unfold WORD. replace (h + 8 - 8) with h by lia. rewrite (words_ok _ _ _ _ (wf_arena _ _ _ _ _ W) B), (plus_ok h 1) by lia.
  change (8 * 1) with 8. unfold CACHESIZ, CACHEMAX. destruct ((n <? 50) && (2 <=? n) && _) eqn:E.
  - apply andb_prop in E as [E E2]. apply andb_prop in E as [E0 E1]. eexists _, _. apply cache_wf; [done|lia|]. apply orb_prop in E2 as [E2|E2]; [left|right]; lia.
  - exists C, N. by apply (stdfree_wf st H1 h n H2).
Qed.

(** ** draincache *)

Definition same_ends (st st' : heap) : Prop := nd st' = nd st /\ alloct st' = alloct st /\ allocb st' = allocb st.
(** The words of the arena that are no cells, and that no step touches them. *)
Definition plain (st : heap) (cell : Z -> Prop) (x : Z) : Prop := ~ cell x /\ x < alloct st.
(** [c] is a cell, or whole words above an idle cell that goes past it. *)
Definition covered (st : heap) (cell : Z -> Prop) (c : Z) : Prop :=
  exists c' k, cell c' /\ c = c' + 8 * k /\ 0 <= k /\ (c' < c -> testbusy (ptr st c') = false /\ c < ptr st c').
Definition calm (st : heap) (cell : Z -> Prop) (st' : heap) (cell' : Z -> Prop) : Prop :=
  (forall x, plain st cell x -> ptr st' x = ptr st x /\ plain st' cell' x) /\ forall c, covered st cell c -> covered st' cell' c.
Lemma calm_refl st cell : calm st cell st cell.
Proof. split; [by intros x Hx|done]. Qed.
Lemma calm_trans st1 c1 st2 c2 st3 c3 : calm st1 c1 st2 c2 -> calm st2 c2 st3 c3 -> calm st1 c1 st3 c3.
Proof. intros [H1 V1] [H2 V2]. split; [|by intros c ?%V1%V2]. intros x Hx. destruct (H1 x Hx) as [<- Hx2]. by apply H2. Qed.
(** Only a busy cell is written. *)
Lemma calm_write st cell st' a : cell a -> testbusy (ptr st a) = true -> (forall x, x <> a -> ptr st' x = ptr st x) -> alloct st' = alloct st -> calm st cell st' cell.
Proof.
  intros Ha Hb Hp Et. split.
  - intros x [Hx Hlt]. split; [apply Hp; by intros ->|]. split; [done|by rewrite Et].
  - intros c (c'&k&Hc&E&Hk&Hi). exists c', k. split; [done|]. split; [done|]. split; [done|]. intros Hlt. destruct (Hi Hlt) as [Hi1 Hi2].
    assert (c' <> a) as Hne by (intros ->; congruence). by rewrite Hp.
Qed.
Lemma stdfree_uncached p i x st : p + 8 <> p -> stdfree (p + 8) (st <| cache @ i := x |>) = (stdfree (p + 8) st) <| cache @ i := x |> /\ ptr (stdfree (p + 8) st) (p + 8) = ptr st (p + 8).
Proof.
  intros Hp. unfold stdfree, WORD. replace (p + 8 - 8) with p by lia. cbn [allocc]. change (allocc (st <| cache @ i := x |> <| allocp := p |>)) with (allocc (st <| allocp := p |>)).
  destruct (p <? allocc (st <| allocp := p |>)); (split; [done|]); cbn; by rewrite fn_ne by lia.
Qed.
Lemma drain_chain_ok i l : 0 <= i < 13 -> forall fuel k st H cell C N, C i = l -> (length l < fuel)%nat -> wf st H cell C N -> exists st',
  drain_chain fuel i k st = Some (k + Z.of_nat (length l), st') /\ wf st' H cell (<[i := []]> C) N /\ data_kept H st st' /\ same_ends st st' /\ calm st cell st' cell.
Proof.
  intros Hi. induction l as [|p l IH]; intros [|fuel] k st H cell C N El Hf W; [simpl in Hf; lia| |simpl in Hf; lia|].
  - pose proof (wf_chain _ _ _ _ _ W i Hi) as Hc. rewrite El in Hc. cbn [chained] in Hc. exists st. cbn [drain_chain]. rewrite Hc. split; [do 2 f_equal; cbn; lia|].
    rewrite fn_same by done. by split; [|split; [|split; [|apply calm_refl]]].
  - destruct (uncache_wf st H cell C N i p l W Hi El) as (W1&Ec&Hp). set (st1 := st <| cache @ i := ptr st (p + 8) |>) in *.
    destruct (stdfree_wf st1 [] p (N i) H cell (<[i:=l]> C) N W1) as [W2 D2]. cbn [app] in W2, D2.
    assert (block (ptr st) cell (alloct st) p (N i)) as B by (apply (wf_cached _ _ _ _ _ W i p Hi); rewrite El; mem).
    destruct (block_range _ _ _ _ (wf_arena _ _ _ _ _ W) B) as (_&R2&R3&R4).
    destruct (stdfree_uncached p i (ptr st (p + 8)) st ltac:(lia)) as [E1 E2].
    destruct (stdfree_arena st cell p (N i) (wf_arena _ _ _ _ _ W) B) as (F1&F2&F3&F4&F5&_).
    destruct (IH fuel (k + 1) (stdfree (p + 8) st1) H cell (<[i:=l]> C) N ltac:(by rewrite fn_eq) ltac:(simpl in Hf; lia) W2) as (st'&Er&W'&D'&S'&M').
    exists st'. split; [|split; [|split; [|split]]].
    + cbn [drain_chain]. rewrite Ec. replace (p =? 0) with false by lia. rewrite plus_ok by lia. change (p + 8 * 1) with (p + 8).
      rewrite E2, <- E1. fold st1. rewrite Er. do 2 f_equal. cbn [length]. lia.
    + by rewrite fn_twice in W'.
    + eapply data_trans; [|exact D']. intros h n x Hin Hx. by rewrite (D2 h n x Hin Hx).
    + unfold st1 in S'. rewrite E1 in S'. destruct S' as (S1&S2&S3). change (nd st' = nd (stdfree (p + 8) st)) in S1. change (alloct st' = alloct (stdfree (p + 8) st)) in S2.
      change (allocb st' = allocb (stdfree (p + 8) st)) in S3. unfold same_ends. by rewrite S1, S2, S3, F3, F4, F5.
    + eapply calm_trans; [|exact M']. unfold st1. rewrite E1. apply (calm_write _ _ _ p); [apply B|apply B| |exact F3]. intros x Hx. change (ptr (stdfree (p + 8) st) x = ptr st x). rewrite F1. by apply fn_ne.
Qed.
(** A chain is not longer than the arena. *)
Lemma distinct_few (l : list Z) lo hi : NoDup l -> (forall x, x ∈ l -> lo <= x < hi) -> lo <= hi -> Z.of_nat (length l) <= hi - lo.
Proof.
  intros Hn Hl Hle. assert (length l <= length (seqZ lo (hi - lo)))%nat as Hlen.
  { apply submseteq_length, NoDup_submseteq; [done|]. intros x Hx. apply elem_of_seqZ. specialize (Hl x Hx). lia. }
  rewrite length_seqZ in Hlen. lia.
Qed.
Lemma chain_short st H cell C N i : wf st H cell C N -> 0 <= i < 13 -> Z.of_nat (length (C i)) < 4294967296.
Proof.
  intros W Hi. pose proof (wf_arena _ _ _ _ _ W) as A. pose proof (ar_nd _ _ A) as R.
  assert (0 < alloct st) as H0 by (apply (ci_range _ _ _ _ (ar_circle _ _ A)), (ar_circle _ _ A)).
  enough (Z.of_nat (length (C i)) <= alloct st - 0) by lia. apply distinct_few; [by apply (wf_cnodup _ _ _ _ _ W)| |lia].
  intros p Hp. destruct (wf_cached _ _ _ _ _ W i p Hi Hp) as (B&_). pose proof (block_range _ _ _ _ A B). pose proof (bl_below _ _ _ _ _ B). lia.
Qed.
Lemma drain_from_ok (k : nat) fuel : 4294967296 <= Z.of_nat fuel -> (k <= 13)%nat -> forall m st H cell C N, wf st H cell C N -> exists m' C' st',
  drain_from fuel k m st = Some (m', st') /\ wf st' H cell C' N /\ data_kept H st st' /\ same_ends st st' /\ calm st cell st' cell /\
  m <= m' /\ (forall i, 0 <= i < 13 -> C' i = if i <? Z.of_nat k then [] else C i) /\ (m' = m <-> forall i, 0 <= i < Z.of_nat k -> C i = []).
Proof.
  intros Hf. induction k as [|k IH]; intros Hk m st H cell C N W.
  - exists m, C, st. cbn [drain_from]. split; [done|]. split; [done|]. split; [by intros ?|]. split; [done|]. split; [apply calm_refl|]. split; [lia|]. split; [|split; [intros _ i Hi; lia|done]].
    intros i Hi. destruct (Z.ltb_spec i (Z.of_nat 0)); [lia|done].
  - pose proof (chain_short st H cell C N (Z.of_nat k) W ltac:(lia)) as Hs.
    destruct (drain_chain_ok (Z.of_nat k) (C (Z.of_nat k)) ltac:(lia) fuel m st H cell C N eq_refl ltac:(lia) W) as (st1&E1&W1&D1&S1&M1).
    destruct (IH ltac:(lia) (m + Z.of_nat (length (C (Z.of_nat k)))) st1 H cell (<[Z.of_nat k := []]> C) N W1) as (m'&C'&st'&E2&W2&D2&S2&M2&Hm&HC&HE).
    exists m', C', st'. cbn [drain_from]. rewrite E1. split; [done|]. split; [done|]. split; [by eapply data_trans|]. split; [|split; [by eapply calm_trans|split; [lia|split]]].
    + destruct S1 as (?&?&?), S2 as (?&?&?). split; [congruence|]. split; congruence.
    + intros i Hi. rewrite HC by done. rewrite fn_case. destruct (Z.ltb_spec i (Z.of_nat k)), (Z.ltb_spec i (Z.of_nat (S k))); try lia; [done| |]; case_decide; try done; lia.
    + split.
      * intros Em i Hi. destruct (decide (i = Z.of_nat k)) as [->|Hne]; [apply length_zero_iff_nil; lia|]. pose proof (proj1 HE ltac:(lia) i ltac:(lia)) as HEi. by rewrite fn_ne in HEi by lia.
      * intros Hall. rewrite (proj2 HE); [rewrite Hall by lia; cbn; lia|]. intros i Hi. rewrite fn_ne by lia. apply Hall. lia.
Qed.
Lemma draincache_ok fuel st H cell C N : 4294967296 <= Z.of_nat fuel -> wf st H cell C N -> exists m C' st',
  draincache fuel st = Some (m, st') /\ wf st' H cell C' N /\ data_kept H st st' /\ same_ends st st' /\ calm st cell st' cell /\
  (forall i, 0 <= i < 13 -> C' i = []) /\ (m = 0 <-> forall i, 0 <= i < 13 -> C i = []).
Proof.
  intros Hf W. destruct (drain_from_ok 13 fuel Hf ltac:(lia) 0 st H cell C N W) as (m&C'&st'&E&W'&D&S&M&Hm&HC&HE).
  exists m, C', st'. split; [exact E|]. split; [done|]. split; [done|]. split; [done|]. split; [done|]. split.
  - intros i Hi. rewrite HC by done. destruct (Z.ltb_spec i (Z.of_nat 13)); [done|lia].
  - rewrite HE. done.
Qed.

(** ** The search *)

(** An idle cell at or above [lo] has [nw] words. *)
Definition fits (st : heap) (cell : Z -> Prop) (lo nw : Z) : Prop := exists a, cell a /\ lo <= a /\ testbusy (ptr st a) = false /\ a + 8 * nw <= ptr st a.

(** Idle cells were merged, and nothing else but [allocp] changed. *)
Record swept (st : heap) (cell : Z -> Prop) (st' : heap) (cell' : Z -> Prop) : Prop := {
  sw_arena : arena st' cell';
  sw_keeps : keeps (ptr st) cell (alloct st) (ptr st') cell' (alloct st');
  sw_cache : cache st' = cache st;
  sw_ends : same_ends st st';
  sw_c : allocc st' = allocc st;
  sw_calm : calm st cell st' cell'
}.
Lemma swept_refl st cell : arena st cell -> swept st cell st cell.
Proof. intros A. by split; [|apply keeps_refl| | | |apply calm_refl]. Qed.
Lemma swept_trans st1 c1 st2 c2 st3 c3 : swept st1 c1 st2 c2 -> swept st2 c2 st3 c3 -> swept st1 c1 st3 c3.
Proof.
  intros [A1 K1 E1 (N1&T1&B1) C1 M1] [A2 K2 E2 (N2&T2&B2) C2 M2]. split; [done|by eapply keeps_trans|congruence| |congruence|by eapply calm_trans].
  split; [congruence|]. split; congruence.
Qed.
(** Every idle cell is at or above [allocc]. *)
Lemma idle_above st cell a : arena st cell -> cell a -> testbusy (ptr st a) = false -> allocc st <= a.
Proof. intros A Ha Hi. destruct (decide (allocc st <= a)); [done|]. rewrite (proj2 (ar_c _ _ A) a Ha) in Hi by lia. done. Qed.

Lemma merge_step st cell p : arena st cell -> allocp st = p -> testbusy (ptr st p) = false -> testbusy (ptr st (ptr st p)) = false ->
  let st1 := st <| ptr @ p := ptr st (ptr st p) |> in let cell1 a := cell a /\ a <> ptr st p in
  swept st cell st1 cell1 /\ p + 8 <= ptr st p < ptr st1 p /\ forall lo nw, lo <= p -> fits st cell lo nw -> fits st1 cell1 lo nw.
Proof.
  intros A Ep Hi Hq st1 cell1. assert (cell p) as Hp by (rewrite <- Ep; apply A). pose proof (idle_above _ _ _ A Hp Hi) as Hc.
  destruct (merge_circle _ _ _ _ _ (ar_circle _ _ A) Hp Hi Hq) as (C1&K&R1&R2&R3).
  assert (ptr st1 p = ptr st (ptr st p)) as E1 by apply fn_eq. assert (forall a, a <> p -> ptr st1 a = ptr st a) as Ene by (intros a Ha; by apply fn_ne).
  split; [split; try done|split; [lia|]].
  - split; [done|apply A| |].
    + destruct (ar_c _ _ A) as [A1 A2]. split; [split; [done|]|].
      * cbn. lia.
      * intros a [Ha _] Hlt. cbn in Hlt. rewrite Ene by lia. by apply A2.
    + cbn. rewrite Ep. split; [done|lia].
  - split.
    + intros x [Hx Hlt]. split; [apply Ene; by intros ->|]. split; [by intros [? _]|done].
    + intros c (c'&k&Hc'&E&Hk&Hcov). destruct (decide (c' = p)) as [->|Hcp]; [|destruct (decide (c' = ptr st p)) as [->|Hcq]].
      * exists p, k. rewrite E1. split; [split; [done|lia]|]. split; [done|]. split; [done|]. intros Hlt. split; [|destruct (Hcov Hlt); lia].
        destruct (ci_whole _ _ _ _ (ar_circle _ _ A) (ptr st p) R2 Hq) as [k' ->]. apply ev_plus. by apply (ci_range _ _ _ _ (ar_circle _ _ A)).
      * destruct (ci_whole _ _ _ _ (ar_circle _ _ A) p Hp Hi) as [k1 Hk1]. exists p, (k1 + k). rewrite E1. split; [split; [done|lia]|]. split; [lia|]. split; [lia|].
        intros Hlt. split; [|destruct (decide (k = 0)); [lia|destruct Hcov; lia]].
        destruct (ci_whole _ _ _ _ (ar_circle _ _ A) (ptr st p) R2 Hq) as [k' ->]. apply ev_plus. by apply (ci_range _ _ _ _ (ar_circle _ _ A)).
      * exists c', k. rewrite Ene by done. by split; [split|].
  - intros lo nw Hlo (a&Ha&Hla&Hai&Haf). destruct (decide (a = p)) as [->|Hap]; [|destruct (decide (a = ptr st p)) as [->|Haq]].
    + exists p. rewrite E1. split; [split; [done|lia]|]. split; [done|]. split; [|lia]. destruct (ci_whole _ _ _ _ (ar_circle _ _ A) (ptr st p) R2 Hq) as [k ->].
      apply ev_plus. by apply (ci_range _ _ _ _ (ar_circle _ _ A)).
    + exists p. rewrite E1. split; [split; [done|lia]|]. split; [done|]. split; [|lia]. destruct (ci_whole _ _ _ _ (ar_circle _ _ A) (ptr st p) R2 Hq) as [k ->].
      apply ev_plus. by apply (ci_range _ _ _ _ (ar_circle _ _ A)).
    + exists a. rewrite Ene by done. by split; [split|].
Qed.
Lemma coalesce_ok p fuel : forall st cell, arena st cell -> allocp st = p -> testbusy (ptr st p) = false -> alloct st - ptr st p < Z.of_nat fuel ->
  exists st' cell', coalesce fuel p st = Some (ptr st' p, st') /\ swept st cell st' cell' /\ allocp st' = p /\ testbusy (ptr st' p) = false /\
    forall lo nw, lo <= p -> fits st cell lo nw -> fits st' cell' lo nw.
Proof.
  induction fuel as [|fuel IH]; intros st cell A Ep Hi Hf.
  - assert (cell p) as Hp by (rewrite <- Ep; apply A). pose proof (idle_below _ _ _ _ _ (ar_circle _ _ A) Hp Hi) as Ht.
    destruct (ci_next _ _ _ _ (ar_circle _ _ A) p Hp Ht) as (N1&_). rewrite (clear_ev _ Hi) in N1. apply (ci_range _ _ _ _ (ar_circle _ _ A)) in N1. lia.
  - cbn [coalesce]. destruct (testbusy (ptr st (ptr st p))) eqn:Eq.
    + exists st, cell. by split; [|split; [apply swept_refl|]].
    + destruct (merge_step st cell p A Ep Hi Eq) as (S1&R&F1). set (st1 := st <| ptr @ p := ptr st (ptr st p) |>) in *.
      assert (testbusy (ptr st1 p) = false) as Hi1 by (unfold st1; cbn; by rewrite fn_eq).
      destruct (IH st1 _ (sw_arena _ _ _ _ S1) Ep Hi1) as (st'&cell'&E&S2&Ep'&Hi'&F2).
      { destruct (sw_ends _ _ _ _ S1) as (_&->&_). lia. }
      exists st', cell'. split; [done|]. split; [by eapply swept_trans|]. split; [done|]. split; [done|]. intros lo nw Hlo Hfit. apply F2; [done|]. by apply F1.
Qed.

(** The place from which the search still has to look, and how far it has to go. *)
Definition look (st : heap) (cell : Z -> Prop) (p temp nw : Z) : Prop := fits st cell (if temp =? 0 then allocc st else p) nw.
Definition to_go (st : heap) (p temp : Z) : Z := alloct st - p + if temp =? 0 then alloct st - allocb st + 1 else 0.

Lemma turn_next st cell p temp nw n : arena st cell -> cell p -> temp = 0 \/ temp = 1 -> n = clearbusy (ptr st p) ->
  ~ (testbusy (ptr st p) = false /\ p + 8 * nw <= ptr st p) ->
  match (if n <=? p then if 1 <? temp + 1 then None else Some (allocc st, temp + 1) else Some (n, temp)) with
  | None => ~ look st cell p temp nw
  | Some (p', temp') => cell p' /\ (temp' = 0 \/ temp' = 1) /\ to_go st p' temp' < to_go st p temp /\ (look st cell p temp nw -> look st cell p' temp' nw)
  end.
Proof.
  intros A Hp Ht -> Hno. pose proof (ar_circle _ _ A) as Ci. destruct (ci_range _ _ _ _ Ci p Hp) as (Pr&P0&_). destruct (ar_c _ _ A) as [Ac _].
  destruct (ci_range _ _ _ _ Ci _ Ac) as (Cr&_).
  assert (fits st cell p nw -> p = alloct st \/ fits st cell (clearbusy (ptr st p)) nw) as Hnext.
  { intros (a&Ha&Hle&Hi&Hf). destruct (decide (p = alloct st)) as [|Hne]; [by left|right]. assert (a <> p) as Hap by (intros ->; apply Hno; done).
    exists a. split; [done|]. split; [|done]. apply (ci_next _ _ _ _ Ci p Hp); [lia|done|lia]. }
  assert (forall lo, fits st cell lo nw -> fits st cell (allocc st) nw) as Hc.
  { intros lo (a&Ha&Hle&Hi&Hf). exists a. split; [done|]. split; [by eapply idle_above|done]. }
  assert (~ fits st cell (alloct st) nw) as Htop.
  { intros (a&Ha&Hle&Hi&_). pose proof (idle_below _ _ _ _ _ Ci Ha Hi). lia. }
  destruct (decide (p = alloct st)) as [->|Hne].
  - destruct (ci_top _ _ _ _ Ci) as [Et Eb]. rewrite Et. replace (allocb st <=? alloct st) with true by lia. unfold look, to_go. destruct Ht as [-> | ->].
    + change (1 <? 0 + 1) with false. cbn iota. change (0 + 1) with 1. change (1 =? 0) with false. change (0 =? 0) with true. cbn iota.
      split; [done|]. split; [by right|]. split; [lia|done].
    + change (1 <? 1 + 1) with true. change (1 =? 0) with false. by cbn iota.
  - destruct (ci_next _ _ _ _ Ci p Hp ltac:(lia)) as (N1&N2&N3). replace (clearbusy (ptr st p) <=? p) with false by lia. split; [done|]. split; [done|].
    unfold to_go, look. split; [lia|]. destruct (temp =? 0); [done|]. intros Hfit. destruct (Hnext Hfit); [lia|done].
Qed.

Lemma search_turn_ok fuel nw p temp st cell : 4294967296 <= Z.of_nat fuel -> arena st cell -> cell p -> 1 <= nw < 536870912 -> temp = 0 \/ temp = 1 ->
  exists res st' cell', search_turn fuel nw p temp st = (Some res, st') /\ swept st cell st' cell' /\
  match res with
  | inl (p', q) => p' = p /\ allocp st' = p /\ testbusy (ptr st' p) = false /\ ptr st' p = q /\ p + 8 * nw <= q
  | inr None => ~ look st cell p temp nw
  | inr (Some (p', temp')) => cell' p' /\ (temp' = 0 \/ temp' = 1) /\ to_go st' p' temp' < to_go st p temp /\ (look st cell p temp nw -> look st' cell' p' temp' nw)
  end.
Proof.
  intros Hf A Hp Hn Ht. unfold search_turn. destruct (testbusy (ptr st p)) eqn:Eb.
  - pose proof (turn_next st cell p temp nw _ A Hp Ht eq_refl) as Hnx. eexists _, st, cell. split; [reflexivity|]. split; [by apply swept_refl|].
    assert (~ (testbusy (ptr st p) = false /\ p + 8 * nw <= ptr st p)) as Hno by (intros [E _]; congruence). specialize (Hnx Hno).
    exact Hnx.
  - set (st0 := st <| allocp := p |>). assert (swept st cell st0 cell) as S0.
    { split; try done. split; try apply A. exact Hp. }
    pose proof (sw_arena _ _ _ _ S0) as A0. assert (0 < p /\ p < alloct st /\ alloct st + 8 < 4294967296) as (P1&P2&P3).
    { pose proof (ci_range _ _ _ _ (ar_circle _ _ A) p Hp). pose proof (idle_below _ _ _ _ _ (ar_circle _ _ A) Hp Eb). pose proof (ar_nd _ _ A). lia. }
    destruct (ci_next _ _ _ _ (ar_circle _ _ A) p Hp P2) as (_&N2&_). rewrite (clear_ev _ Eb) in N2.
    destruct (coalesce_ok p fuel st0 cell A0 eq_refl Eb) as (st'&cell'&E&S1&Ep&Hi&HF); [change (alloct st - ptr st p < Z.of_nat fuel); lia|].
    rewrite E. cbn [option_map]. pose proof (swept_trans _ _ _ _ _ _ S0 S1) as S. pose proof (sw_arena _ _ _ _ S) as A'. pose proof (sw_ends _ _ _ _ S) as (E1&E2&E3).
    pose proof (sw_c _ _ _ _ S) as E4. pose proof (ar_p _ _ A') as Hp'. rewrite Ep in Hp'.
    pose proof (idle_below _ _ _ _ _ (ar_circle _ _ A') Hp' Hi) as Pt. destruct (ci_next _ _ _ _ (ar_circle _ _ A') p Hp' Pt) as (M1&M2&_). rewrite (clear_ev _ Hi) in M1, M2.
    pose proof (ci_range _ _ _ _ (ar_circle _ _ A') _ M1) as (M3&_).
    assert (((plus p nw <=? ptr st' p) && (p <=? plus p nw)) = (p + 8 * nw <=? ptr st' p)) as Eg.
    { unfold plus, WORD. replace (nw * 8) with (8 * nw) by lia. destruct (decide (p + 8 * nw < 4294967296)).
      - rewrite wrap_u_id by lia. replace (p <=? p + 8 * nw) with true by lia. apply andb_true_r.
      - assert (u32 (p + 8 * nw) = p + 8 * nw - 4294967296) as -> by (symmetry; unfold u32, wrap_u; apply (Z.mod_unique_pos _ _ 1); lia).
        replace (p <=? p + 8 * nw - 4294967296) with false by lia. rewrite andb_false_r. lia. }
    cbn beta iota. rewrite Eg. destruct (Z.leb_spec (p + 8 * nw) (ptr st' p)) as [Hfit|Hfit].
    + eexists _, st', cell'. split; [reflexivity|]. split; [done|]. done.
    + pose proof (turn_next st' cell' p temp nw _ A' Hp' Ht eq_refl ltac:(lia)) as Hnx. eexists _, st', cell'. split; [reflexivity|]. split; [done|].
      assert (look st cell p temp nw -> look st' cell' p temp nw) as Hl.
      { unfold look. rewrite E4. apply HF. destruct (temp =? 0); [|done]. by eapply idle_above. }
      assert (to_go st' p temp = to_go st p temp) as Eg2 by (unfold to_go; by rewrite E2, E3). rewrite <- Eg2.
      revert Hnx. destruct (if _ <=? p then _ else _) as [[p' temp']|]; [|by intros Hx ?%Hl].
      intros (X1&X2&X3&X4). split; [done|]. split; [done|]. split; [done|]. intros Hx. by apply X4, Hl.
Qed.
Lemma search_ok fuel nw n : 4294967296 <= Z.of_nat fuel -> 1 <= nw < 536870912 -> forall p temp st cell,
  arena st cell -> cell p -> temp = 0 \/ temp = 1 -> to_go st p temp < Z.of_nat n ->
  exists res st' cell', search fuel n nw p temp st = Some (res, st') /\ swept st cell st' cell' /\
  match res with
  | Some (p', q) => allocp st' = p' /\ testbusy (ptr st' p') = false /\ ptr st' p' = q /\ p' + 8 * nw <= q
  | None => ~ look st cell p temp nw
  end.
Proof.
  intros Hf Hn. induction n as [|n IH]; intros p temp st cell A Hp Ht Hg.
  - exfalso. pose proof (ci_range _ _ _ _ (ar_circle _ _ A) p Hp). unfold to_go in Hg. destruct (temp =? 0); lia.
  - cbn [search]. destruct (search_turn_ok fuel nw p temp st cell Hf A Hp Hn Ht) as (res&st1&cell1&E&S1&HR). rewrite E.
    destruct res as [[p' q]|[[p' temp']|]].
    + exists (Some (p', q)), st1, cell1. split; [done|]. split; [done|]. by destruct HR as (-> & HR).
    + destruct HR as (H1&H2&H3&H4). destruct (IH p' temp' st1 cell1 (sw_arena _ _ _ _ S1) H1 H2 ltac:(lia)) as (res&st'&cell'&E'&S2&HR).
      exists res, st', cell'. split; [done|]. split; [by eapply swept_trans|]. destruct res as [[??]|]; [done|]. intros Hl. by apply HR, H4.
    + exists None, st1, cell1. done.
Qed.
(** The whole search, from [allocp]: what it does not find is not there. *)
Lemma search_all fuel nw st cell : 8589934592 <= Z.of_nat fuel -> 1 <= nw < 536870912 -> arena st cell ->
  exists res st' cell', search fuel fuel nw (allocp st) 0 st = Some (res, st') /\ swept st cell st' cell' /\
  match res with
  | Some (p, q) => allocp st' = p /\ testbusy (ptr st' p) = false /\ ptr st' p = q /\ p + 8 * nw <= q
  | None => ~ exists lo, fits st cell lo nw
  end.
Proof.
  intros Hf Hn A. assert (to_go st (allocp st) 0 < Z.of_nat fuel) as Hg.
  { unfold to_go. change (0 =? 0) with true. cbn iota. pose proof (ci_range _ _ _ _ (ar_circle _ _ A) _ (ar_p _ _ A)).
    pose proof (ci_range _ _ _ _ (ar_circle _ _ A) _ (ci_first _ _ _ _ (ar_circle _ _ A))). pose proof (ar_nd _ _ A). lia. }
  destruct (search_ok fuel nw fuel ltac:(lia) Hn (allocp st) 0 st cell A (ar_p _ _ A) ltac:(by left) Hg) as (res&st'&cell'&E&S&HR).
  exists res, st', cell'. split; [done|]. split; [done|]. destruct res as [[??]|]; [done|]. intros (lo&a&Ha&Hle&Hi&Hfit). apply HR. unfold look.
  change (0 =? 0) with true. cbn iota. exists a. split; [done|]. split; [by eapply idle_above|done].
Qed.

(** ** More memory *)

(** What the system gives starts at the old end of memory and has more than [nw] words. *)
Definition given (nw : Z) (st : heap) (r : option (Z * Z)) (st' : heap) : Prop :=
  match r with
  | None => st' = st
  | Some (q, temp) => q = nd st /\ nw + 1 <= temp /\ nd st + 8 * temp < 4294967296 /\ st' = st <| nd := nd st + 8 * temp |>
  end.
Lemma extend_ok (granted : Z -> bool) fuel nw : forall temp st, 1 <= nw -> nw + 1 <= temp <= 536870912 -> temp - nw < Z.of_nat fuel -> 0 < nd st < 4294967295 ->
  exists r st', extend granted fuel nw (nd st) temp st = Some (r, st') /\ given nw st r st' /\
    (granted (nd st + 8 * temp) = true -> nd st + 8 * temp < 4294967296 -> r <> None).
Proof.
  induction fuel as [|fuel IH]; intros temp st Hn Ht Hf Hd; [lia|]. cbn [extend].
  assert ((nd st <? plus (nd st) temp) = (nd st + 8 * temp <? 4294967296)) as Eg.
  { unfold plus, WORD. replace (temp * 8) with (8 * temp) by lia. destruct (Z.ltb_spec (nd st + 8 * temp) 4294967296).
    - rewrite wrap_u_id by lia. lia.
    - assert (u32 (nd st + 8 * temp) = nd st + 8 * temp - 4294967296) as -> by (symmetry; unfold u32, wrap_u; apply (Z.mod_unique_pos _ _ 1); lia). lia. }
  assert (0 <= (temp - nw) / 2 /\ (temp - nw) / 2 * 2 <= temp - nw < (temp - nw) / 2 * 2 + 2) as Hh by (Z.div_mod_to_equations; lia).
  rewrite Eg. unfold sbrk. destruct (Z.ltb_spec (nd st + 8 * temp) 4294967296) as [Hlt|Hge].
  - unfold WORD. replace (temp * 8) with (8 * temp) by lia. rewrite (wrap_u_id 32 (8 * temp)) by lia. replace (8 * temp =? 0) with false by lia.
    rewrite wrap_u_id by lia. change (u32 (-1)) with 4294967295. destruct (granted (nd st + 8 * temp)) eqn:Eq.
    + replace (nd st =? 4294967295) with false by lia. eexists _, _. split; [reflexivity|]. split; [|done]. split; [done|]. split; [lia|]. done.
    + change (4294967295 =? 4294967295) with true. cbn [negb]. destruct (Z.ltb_spec 1 (temp - (temp - nw) / 2 - nw)).
      * destruct (IH (temp - (temp - nw) / 2) st Hn ltac:(lia) ltac:(lia) Hd) as (r&st'&E&G&_). exists r, st'. done.
      * exists None, st. done.
  - change (u32 (-1)) with 4294967295. change (4294967295 =? 4294967295) with true. cbn [negb].
    destruct (Z.ltb_spec 1 (temp - (temp - nw) / 2 - nw)).
    + destruct (IH (temp - (temp - nw) / 2) st Hn ltac:(lia) ltac:(lia) Hd) as (r&st'&E&G&_). exists r, st'. split; [done|]. split; [done|lia].
    + exists None, st. split; [done|]. split; [done|lia].
Qed.
(** What is asked for first: whole blocks of 32768 bytes, more than [nw] words. *)
Definition asked (nw : Z) : Z := (nw + BLOCK / WORD) / (BLOCK / WORD) * (BLOCK / WORD).
Lemma asked_range nw : 1 <= nw < 536870912 -> nw + 1 <= asked nw <= 536870912 /\ asked nw <= nw + 4096.
Proof. unfold asked. change (BLOCK / WORD) with 4096. Z.div_mod_to_equations. lia. Qed.

(** *** ialloc *)

Lemma to_idle_ok fuel c : forall st cell, circle (ptr st) cell (allocb st) (alloct st) -> cell (allocc st) ->
  (forall a, cell a -> a < allocc st -> testbusy (ptr st a) = true) -> cell c -> testbusy (ptr st c) = false -> c - allocc st < Z.of_nat fuel ->
  exists x, to_idle fuel st = Some (st <| allocc := x |>) /\ cell x /\ (forall a, cell a -> a < x -> testbusy (ptr st a) = true).
Proof.
  induction fuel as [|fuel IH]; intros st cell Ci Hc Hb Hi Eb Hf.
  - exfalso. destruct (decide (c < allocc st)) as [L|]; [|lia]. rewrite (Hb c Hi L) in Eb. done.
  - cbn [to_idle]. destruct (testbusy (ptr st (allocc st))) eqn:Ec.
    + assert (allocc st < c) as Hlt.
      { destruct (Z.lt_trichotomy c (allocc st)) as [L|[L|L]]; [rewrite (Hb c Hi L) in Eb; done|subst c; congruence|done]. }
      pose proof (idle_below _ _ _ _ _ Ci Hi Eb) as Ht. destruct (ci_next _ _ _ _ Ci _ Hc ltac:(lia)) as (N1&N2&N3). pose proof (N3 c Hi Hlt) as N4.
      set (st1 := st <| allocc := clearbusy (ptr st (allocc st)) |>). assert (allocc st1 = next (ptr st) (allocc st)) as E1 by reflexivity.
      destruct (IH st1 cell Ci) as (x&E&Hx&Hxb); [by rewrite E1| |done|done|rewrite E1; lia|by exists x].
      rewrite E1. intros a Ha L. change (testbusy (ptr st a) = true). destruct (Z.lt_trichotomy a (allocc st)) as [L'|[->|L']]; [by apply Hb|done|]. specialize (N3 a Ha L'). lia.
    + exists (allocc st). split; [by destruct st|done].
Qed.

Lemma grow_circle m cell b t q k : circle m cell b t -> t + 8 <= q -> ev q -> 1 <= k ->
  let r := q + 8 * k in let m1 := <[t := if q =? t + 8 then q else setbusy q]> (<[q := r]> m) in
  let m' := <[r := setbusy b]> m1 in let cell' a := cell a \/ a = q \/ a = r in
  circle m' cell' b r /\ keeps m cell t m' cell' r /\ m' q = r /\ testbusy r = false.
Proof.
  intros C Hq Eq Hk r m1 m' cell'. pose proof (ci_range _ _ _ _ C _ (ci_last _ _ _ _ C)) as (T1&T2&_). assert (q + 8 <= r) as Hqr by (unfold r; lia).
  assert (ev r) as Er by (by apply ev_plus).
  assert (m' q = r) as Mq by (unfold m', m1; rewrite fn_ne by lia; rewrite fn_ne by lia; apply fn_eq).
  assert (next m' t = q) as Mt.
  { unfold m', m1. rewrite fn_ne by lia. rewrite fn_eq. destruct (q =? t + 8); [|rewrite clear_set]; by apply clear_ev. }
  assert (testbusy (m' t) = false -> m' t = t + 8 * 1) as Mt2.
  { unfold m', m1. rewrite fn_ne by lia. rewrite fn_eq. destruct (Z.eqb_spec q (t + 8)); [lia|]. by rewrite set_busy. }
  assert (m' r = setbusy b) as Mr by apply fn_eq.
  assert (forall a, a < t -> m' a = m a) as Mlow by (intros a Ha; unfold m', m1; rewrite !fn_ne by lia; done).
  assert (forall a, cell a -> a <= t) as Hle by (intros a Ha; apply (ci_range _ _ _ _ C a Ha)).
  split; [split|split; [|split; [done|done]]].
  - left. apply C.
  - right. by right.
  - intros a [Ha|[->| ->]]; [destruct (ci_range _ _ _ _ C a Ha) as (?&?&?); split; [lia|done]|split; [lia|split; [lia|done]]..].
  - intros a [Ha|[->| ->]] Hat; [|split; [rewrite Mq, (clear_ev r Er); right; by right|rewrite Mq, (clear_ev r Er); split; [lia|]]|lia].
    + destruct (decide (a = t)) as [->|Hne].
      * rewrite Mt. split; [right; by left|]. split; [lia|]. intros x [Hx|[->| ->]] Hlt; [specialize (Hle x Hx); lia|lia..].
      * pose proof (Hle a Ha). rewrite Mlow by lia. destruct (ci_next _ _ _ _ C a Ha ltac:(lia)) as (N1&N2&N3). split; [by left|]. split; [done|].
        pose proof (Hle _ N1). intros x [Hx|[->| ->]] Hlt; [by apply N3|lia..].
    + intros x [Hx|[->| ->]] Hlt; [specialize (Hle x Hx); lia|lia..].
  - intros a [Ha|[->| ->]].
    + destruct (decide (a = t)) as [->|Hne]; [intros Hi; exists 1; by apply Mt2|]. pose proof (Hle a Ha). rewrite Mlow by lia. by apply C.
    + intros _. exists k. done.
    + by rewrite Mr, set_busy.
  - rewrite Mr, clear_set, set_busy. split; [|done]. apply clear_ev, (ci_range _ _ _ _ C _ (ci_first _ _ _ _ C)).
  - intros h n [B1 B2 B3 B4]. split; [split; [by left|lia|by rewrite Mlow|by rewrite Mlow]|]. intros x Hx. apply Mlow.
    destruct (ci_next _ _ _ _ C h B1 B2) as (N1&_). pose proof (Hle _ N1). unfold inside in Hx. lia.
Qed.
Lemma ialloc_ok fuel q temp st cell : 4294967296 <= Z.of_nat fuel -> arena st cell -> alloct st + 8 <= q -> ev q -> 2 <= temp -> nd st = q + 8 * temp ->
  exists st' cell', ialloc fuel q (u32 (temp * WORD)) st = Some st' /\ arena st' cell' /\ keeps (ptr st) cell (alloct st) (ptr st') cell' (alloct st') /\
    cache st' = cache st /\ nd st' = nd st /\ calm st cell st' cell' /\ forall nw, nw + 1 <= temp -> fits st' cell' q nw.
Proof.
  intros Hf A Hq Eq Ht End. pose proof (ar_nd _ _ A) as (R1&R2&R3). pose proof (ar_circle _ _ A) as Ci. destruct (ci_range _ _ _ _ Ci _ (ci_last _ _ _ _ Ci)) as (T1&T2&_).
  destruct (ci_range _ _ _ _ Ci _ (proj1 (ar_c _ _ A))) as (C1&C2&_). pose proof (ci_range _ _ _ _ Ci _ (ci_first _ _ _ _ Ci)) as (_&B2&_).
  assert (plus q (u32 (temp * WORD) / WORD - 1) = q + 8 * (temp - 1)) as Er1.
  { unfold WORD. rewrite (wrap_u_id 32 (temp * 8)), Z.div_mul by lia. apply plus_ok; lia. }
  destruct (grow_circle _ _ _ _ q (temp - 1) Ci Hq Eq ltac:(lia)) as (Cg&K&Mq&Er). set (r := q + 8 * (temp - 1)) in *.
  set (m' := <[r := setbusy (allocb st)]> _) in *. set (cell' := fun a => cell a \/ a = q \/ a = r) in *.
  unfold ialloc. rewrite Er1. fold r. cbv zeta.
  change (alloct (st <| ptr @ q := r |>)) with (alloct st). change (allocb (st <| ptr @ q := r |>)) with (allocb st). replace (alloct st <? q) with true by lia.
  rewrite (plus_ok (alloct st) 1), (plus_ok r 1) by lia. change (8 * 1) with 8.
  replace (allocb st =? r + 8) with false by lia. set (st1 := _ <| ptr @ r := setbusy (allocb st) |>).
  assert (ptr st1 = m' /\ alloct st1 = r /\ allocb st1 = allocb st /\ allocc st1 = allocc st /\ allocp st1 = allocp st /\ cache st1 = cache st /\ nd st1 = nd st) as (E1&E2&E3&E4&E5&E6&E7) by done.
  clearbody st1. rewrite <- E1, <- E2, <- E3 in Cg. rewrite <- E1 in *.
  destruct (to_idle_ok fuel q st1 cell' Cg) as (x&Ei&Hx&Hb).
  - rewrite E4. left. apply A.
  - rewrite E4. intros a [Ha|[->| ->]] Hlt; [|lia..]. rewrite E1. unfold m'. rewrite !fn_ne by lia. by apply A.
  - right. by left.
  - by rewrite Mq.
  - lia.
  - exists (st1 <| allocc := x |>), cell'. split; [done|]. split; [|split; [|split; [done|split; [done|split]]]].
    + split; [exact Cg|change (alloct st1 + 8 <= nd st1 /\ nd st1 < 4294967296 /\ ev (nd st1)); rewrite E2, E7; split; [lia|done]|done|].
      change (cell' (allocp st1)). rewrite E5. left. apply A.
    + change (keeps (ptr st) cell (alloct st) (ptr st1) cell' (alloct st1)). by rewrite E2.
    + split.
      * intros y [Hy Hlt]. change (ptr st1 y = ptr st y /\ (~ cell' y /\ y < alloct st1)). rewrite E1, E2. unfold m'. rewrite !fn_ne by (lia || by intros ->; apply Hy, Ci).
        split; [done|]. split; [intros [?|[->| ->]]; [done|lia..]|lia].
      * intros c (c'&k&Hc'&E&Hk&Hcov). exists c', k. split; [by left|]. split; [done|]. split; [done|]. intros Hlt. destruct (Hcov Hlt) as [Hi Hgo].
        pose proof (idle_below _ _ _ _ _ Ci Hc' Hi). change (ptr (st1 <| allocc := x |>) c') with (ptr st1 c'). rewrite E1. unfold m'. by rewrite !fn_ne by lia.
    + intros nw Hnw. exists q. change (ptr (st1 <| allocc := x |>) q) with (ptr st1 q). rewrite Mq. split; [right; by left|]. split; [done|]. split; [done|lia].
Qed.

(** ** The block is taken *)

Lemma past_busy_ok fuel : forall st cell, circle (ptr st) cell (allocb st) (alloct st) -> cell (allocc st) ->
  (forall a, cell a -> a < allocc st -> testbusy (ptr st a) = true) -> alloct st - allocc st < Z.of_nat fuel ->
  exists x, past_busy fuel st = Some (st <| allocc := x |>) /\ cell x /\ (forall a, cell a -> a < x -> testbusy (ptr st a) = true).
Proof.
  induction fuel as [|fuel IH]; intros st cell Ci Hc Hb Hf.
  - pose proof (ci_range _ _ _ _ Ci _ Hc). lia.
  - cbn [past_busy]. destruct (testbusy (ptr st (allocc st)) && (allocc st <? clearbusy (ptr st (allocc st)))) eqn:Ec.
    + apply andb_prop in Ec as [Ec Ec2]. assert (allocc st < alloct st) as Ht.
      { destruct (ci_range _ _ _ _ Ci _ Hc) as (?&_). destruct (decide (allocc st = alloct st)) as [E|]; [|lia]. rewrite E, (proj1 (ci_top _ _ _ _ Ci)) in Ec2.
        pose proof (ci_range _ _ _ _ Ci _ (ci_first _ _ _ _ Ci)). lia. }
      destruct (ci_next _ _ _ _ Ci _ Hc Ht) as (N1&N2&N3).
      set (st1 := st <| allocc := clearbusy (ptr st (allocc st)) |>). assert (allocc st1 = next (ptr st) (allocc st)) as E1 by reflexivity.
      assert (alloct st1 = alloct st) as E2 by reflexivity.
      destruct (IH st1 cell Ci) as (x&E&Hx&Hxb); [by rewrite E1| |rewrite E1, E2; lia|by exists x].
      rewrite E1. intros a Ha L. change (testbusy (ptr st a) = true). destruct (Z.lt_trichotomy a (allocc st)) as [L'|[->|L']]; [by apply Hb|done|]. specialize (N3 a Ha L'). lia.
    + exists (allocc st). split; [by destruct st|done].
Qed.
(** What taking a block at [p] leaves: where the rest of it starts, its old word is in [allocx]. *)
Definition taken (st : heap) (cell : Z -> Prop) (st' : heap) (p nw : Z) : Prop :=
  (forall x, plain st cell x -> x <> p /\ (x <> p + 8 * nw -> ptr st' x = ptr st x) /\ (x = p + 8 * nw -> allocx st' = ptr st x)) /\
  forall c, covered st cell c -> p <= c < p + 8 * nw -> exists k, c = p + 8 * k.
Lemma taken_after st cell st1 cell1 st' p nw : calm st cell st1 cell1 -> taken st1 cell1 st' p nw -> taken st cell st' p nw.
Proof. intros [M V] [T U]. split; [intros x Hx; destruct (M x Hx) as [<- Hx1]; by apply T|intros c Hc; by apply U, V]. Qed.
Lemma take_ok fuel p q nw st cell : 4294967296 <= Z.of_nat fuel -> arena st cell -> allocp st = p -> testbusy (ptr st p) = false -> ptr st p = q ->
  1 <= nw -> p + 8 * nw <= q -> exists st' cell',
  take fuel p q nw st = Some (p + 8, st') /\ arena st' cell' /\ keeps (ptr st) cell (alloct st) (ptr st') cell' (alloct st') /\ cache st' = cache st /\
  block (ptr st') cell' (alloct st') p nw /\ taken st cell st' p nw.
Proof.
  intros Hf A Ep Hi Eq Hn Hr. pose proof (ar_circle _ _ A) as Ci. assert (cell p) as Hp by (rewrite <- Ep; apply A). subst q.
  pose proof (idle_above _ _ _ A Hp Hi) as Hc. pose proof (idle_below _ _ _ _ _ Ci Hp Hi) as Ht. destruct (ci_next _ _ _ _ Ci p Hp Ht) as (N1&_). rewrite (clear_ev _ Hi) in N1.
  destruct (ci_range _ _ _ _ Ci _ N1) as (N2&_). pose proof (ar_nd _ _ A) as R. destruct (ci_range _ _ _ _ Ci p Hp) as (P1&P2&_).
  destruct (take_circle _ _ _ _ p nw Ci Hp Hi Hn Hr) as (Cg&K&B&Ha&Hat&Hcell&_). set (a := p + 8 * nw) in *.
  set (m' := <[p := setbusy a]> _) in *. set (cell' := fun x => cell x \/ x = a) in *. assert (plus (allocp st) nw = a) as Ea by (rewrite Ep; apply plus_ok; lia).
  unfold take. rewrite Ea. cbv zeta. change (allocp (st <| allocp := a |>)) with a. rewrite (plus_ok p 1) by lia. change (p + 8 * 1) with (p + 8).
  match goal with |- context [past_busy fuel ?s] => set (st1 := s) end.
  assert (ptr st1 = m' /\ alloct st1 = alloct st /\ allocb st1 = allocb st /\ allocc st1 = allocc st /\ allocp st1 = a /\ cache st1 = cache st /\ nd st1 = nd st) as (E1&E2&E3&E4&E5&E6&E7).
  { unfold st1, m'. by destruct (a <? ptr st p). }
  assert (a < ptr st p -> allocx st1 = ptr st a) as Ex.
  { unfold st1. intros Hlt. by rewrite (proj2 (Z.ltb_lt a (ptr st p)) Hlt). }
  assert (forall c, covered st cell c -> p <= c < a -> exists k, c = p + 8 * k) as Hcv.
  { intros c (c'&k&Hc'&E&Hk&Hcov) Hr'. exists k. enough (c' = p) by lia. destruct (Z.lt_trichotomy c' p) as [L|[L|L]]; [exfalso|done|exfalso].
    - destruct (Hcov ltac:(lia)) as [Hi' Hgo]. pose proof (idle_below _ _ _ _ _ Ci Hc' Hi') as Ht'. destruct (ci_next _ _ _ _ Ci c' Hc' Ht') as (_&_&Hmin).
      specialize (Hmin p Hp L). rewrite (clear_ev _ Hi') in Hmin. lia.
    - destruct (ci_next _ _ _ _ Ci p Hp Ht) as (_&_&Hmin). specialize (Hmin c' Hc' L). rewrite (clear_ev _ Hi) in Hmin. lia. }
  change (allocc (if a <? ptr st p then _ else _)) with (allocc st1).
  assert (allocc st1 <= p) as Hc1 by lia. clearbody st1.
  assert (forall x, cell' x -> x < allocc st1 -> testbusy (ptr st1 x) = true) as Hb.
  { rewrite E4, E1. intros x [Hx| ->] Hlt; [|unfold a in Hlt; lia]. rewrite Hcell by (done || lia). by apply A. }
  rewrite <- E1, <- E2, <- E3 in Cg. rewrite <- E1 in *.
  assert (exists x, (if p <=? allocc st1 then past_busy fuel st1 else Some st1) = Some (st1 <| allocc := x |>) /\ cell' x /\ forall y, cell' y -> y < x -> testbusy (ptr st1 y) = true) as (x&Ec&Hx&Hxb).
  { destruct (Z.leb_spec p (allocc st1)) as [L|L].
    - apply past_busy_ok; [done|rewrite E4; left; apply A|done|lia].
    - exists (allocc st1). split; [by destruct st1|]. split; [|done]. rewrite E4. left. apply A. }
  rewrite Ec. exists (st1 <| allocc := x |>), cell'. split; [done|]. split; [|split; [|split; [done|split]]].
  - split; [exact Cg|change (alloct st1 + 8 <= nd st1 /\ nd st1 < 4294967296 /\ ev (nd st1)); by rewrite E2, E7|done|].
    change (cell' (allocp st1)). by rewrite E5.
  - change (keeps (ptr st) cell (alloct st) (ptr st1) cell' (alloct st1)). by rewrite E2.
  - change (block (ptr st1) cell' (alloct st1) p nw). by rewrite E2.
  - split; [|exact Hcv]. intros y [Hy Hlt]. change (y <> p /\ (y <> a -> ptr st1 y = ptr st y) /\ (y = a -> allocx st1 = ptr st y)). assert (y <> p) as Hyp by (by intros ->).
    split; [done|]. split.
    + intros Hya. rewrite E1. unfold m'. rewrite fn_ne by done. destruct (a <? ptr st p); [by rewrite fn_ne|done].
    + intros ->. apply Ex. destruct (Z.lt_trichotomy a (ptr st p)) as [?|[E|?]]; [done| |lia]. by destruct Hy; rewrite E.
Qed.

(** ** malloc *)

Section allocate.
Context (granted : Z -> bool) (fuel : nat) (H : list (Z * Z)) (nw : Z).
Hypothesis Hfuel : 8589934592 <= Z.of_nat fuel.
Hypothesis Hnw : 1 <= nw < 536870912.

(** The state is well formed with the blocks [H], and their contents are those of [st]. *)
Definition sound (st st' : heap) (held : list (Z * Z)) (cell : Z -> Prop) (C : Z -> list Z) : Prop := data_kept H st st' /\ exists N, wf st' held cell C N.
Definition drained (C : Z -> list Z) : Prop := forall i, 0 <= i < 13 -> C i = [].

Lemma sound_trans st1 st2 st3 held cell C : data_kept H st1 st2 -> sound st2 st3 held cell C -> sound st1 st3 held cell C.
Proof. intros D [D' W]. split; [by eapply data_trans|done]. Qed.
Lemma swept_sound st cell st' cell' C N : wf st H cell C N -> swept st cell st' cell' -> wf st' H cell' C N /\ data_kept H st st'.
Proof. intros W [A K Ec _ _ _]. split; [by eapply wf_step|by eapply data_keeps]. Qed.
(** A busy cell that was idle is nobody else's. *)
Lemma wf_given st cell st' cell' C N p : wf st H cell C N -> testbusy (ptr st p) = false -> wf st' H cell' C N ->
  block (ptr st') cell' (alloct st') p nw -> wf st' ((p, nw) :: H) cell' C N.
Proof.
  intros W Hi [W1 W2 W3 W4 W5 W6 W7] B. split; try done.
  - intros h n Hin. apply elem_of_cons in Hin as [Hin|Hin]; [by injection Hin as -> ->|by apply W2].
  - cbn [map fst]. apply NoDup_cons. split; [|done]. intros Hx. apply list_elem_of_fmap in Hx as ([h n]&Ep&Hx). cbn in Ep. subst p.
    rewrite (bl_busy _ _ _ _ _ (wf_held _ _ _ _ _ W h n Hx)) in Hi. done.
  - intros i q Hi' Hq. cbn [map fst]. intros Hx. apply elem_of_cons in Hx as [->|Hx]; [|by apply (W7 i q)].
    destruct (wf_cached _ _ _ _ _ W i p Hi' Hq) as (Bq&_). rewrite (bl_busy _ _ _ _ _ Bq) in Hi. done.
Qed.
Lemma wf_nd st cell C N e : wf st H cell C N -> nd st <= e < 4294967296 -> ev e -> wf (st <| nd := e |>) H cell C N.
Proof.
  intros W He Hev. pose proof (wf_arena _ _ _ _ _ W) as A. pose proof (ar_nd _ _ A).
  eapply wf_step; [exact W| |done|apply keeps_refl]. split; try apply A. change (alloct st + 8 <= e /\ e < 4294967296 /\ ev e). split; [lia|]. split; [lia|done].
Qed.

(** One turn of the loop of [stdmalloc]: the block is found; or there was none, and
    the arena has grown by one; or only the cache was drained; or there is nothing. *)
Lemma pass_ok n st cell C N : wf st H cell C N ->
  (exists p st' cell', stdmalloc granted fuel (S n) nw st = Some (p + 8, st') /\ 0 < p /\ sound st st' ((p, nw) :: H) cell' C /\ taken st cell st' p nw) \/
  (~ exists lo, fits st cell lo nw) /\
  ((exists st' cell' C' lo, stdmalloc granted fuel (S n) nw st = stdmalloc granted fuel n nw st' /\ sound st st' H cell' C' /\ calm st cell st' cell' /\ fits st' cell' lo nw) \/
   ~ (granted (nd st + 8 * asked nw) = true /\ nd st + 8 * asked nw < 4294967296) /\
   ((exists st' cell' C', stdmalloc granted fuel (S n) nw st = stdmalloc granted fuel n nw st' /\ sound st st' H cell' C' /\ calm st cell st' cell' /\ drained C' /\ ~ drained C /\ nd st' = nd st) \/
    (exists st' cell' C', stdmalloc granted fuel (S n) nw st = Some (0, st') /\ sound st st' H cell' C' /\ calm st cell st' cell'))).
Proof.
  intros W. pose proof (wf_arena _ _ _ _ _ W) as A. cbn [stdmalloc].
  destruct (search_all fuel nw st cell Hfuel Hnw A) as (res&st1&cell1&E1&S1&HR). rewrite E1. destruct (swept_sound _ _ _ _ _ _ W S1) as [W1 D1].
  pose proof (wf_arena _ _ _ _ _ W1) as A1. destruct res as [[p q]|].
  - left. destruct HR as (Ep&Hi&Eq&Hr). destruct (take_ok fuel p q nw st1 cell1 ltac:(lia) A1 Ep Hi Eq ltac:(lia) Hr) as (st2&cell2&E2&A2&K2&Ec2&B&T).
    exists p, st2, cell2. split; [done|]. split; [apply (ci_range _ _ _ _ (ar_circle _ _ A1)); rewrite <- Ep; apply A1|].
    split; [|eapply taken_after; [exact (sw_calm _ _ _ _ S1)|exact T]]. split; [eapply data_trans; [exact D1|by eapply data_keeps]|]. exists N. eapply wf_given; [exact W1|exact Hi|by eapply wf_step|done].
  - right. split; [done|]. change (sbrk granted 0 st1) with (nd st1, st1). cbv beta iota.
    pose proof (ar_nd _ _ A1) as (R1&R2&R3). pose proof (ci_range _ _ _ _ (ar_circle _ _ A1) _ (ci_last _ _ _ _ (ar_circle _ _ A1))) as (_&T2&_).
    destruct (asked_range nw Hnw) as [Q1 Q2]. destruct (sw_ends _ _ _ _ S1) as (End&_). rewrite <- End.
    assert (nd st1 <> 4294967295) as Hodd by (intros E; rewrite E in R3; done).
    change ((nw + BLOCK / WORD) / (BLOCK / WORD) * (BLOCK / WORD)) with (asked nw).
    destruct (extend_ok granted fuel nw (asked nw) st1 ltac:(lia) ltac:(lia) ltac:(lia) ltac:(lia)) as (r&st2&E2&Hg&Hgr). rewrite E2.
    destruct r as [[q temp]|]; cbn [given] in Hg.
    + left. destruct Hg as (->&G2&G3&->). set (e := nd st1 + 8 * temp) in *.
      assert (wf (st1 <| nd := e |>) H cell1 C N) as W2 by (apply wf_nd; [done|lia|by apply ev_plus]).
      destruct (draincache_ok fuel _ H cell1 C N ltac:(lia) W2) as (m&C3&st3&E3&W3&D3&(S31&S32&_)&M3&_). rewrite E3.
      change (nd (st1 <| nd := e |>)) with e in S31. change (alloct (st1 <| nd := e |>)) with (alloct st1) in S32.
      destruct (ialloc_ok fuel (nd st1) temp st3 cell1 ltac:(lia) (wf_arena _ _ _ _ _ W3)) as (st4&cell4&E4&A4&K4&Ec4&_&M4&Hfit); [lia|done|lia|by rewrite S31|].
      rewrite E4. exists st4, cell4, C3, (nd st1). split; [done|]. split; [|split; [|by apply Hfit]];
        [|eapply calm_trans; [exact (sw_calm _ _ _ _ S1)|eapply calm_trans; [exact M3|exact M4]]]. split; [|exists N; by eapply wf_step].
      eapply data_trans; [exact D1|]. eapply data_trans; [|by eapply data_keeps]. exact D3.
    + right. split; [intros [G1 G2]; by apply Hgr|]. subst st2. destruct (draincache_ok fuel st1 H cell1 C N ltac:(lia) W1) as (m&C3&st3&E3&W3&D3&(S31&_)&M3&HC&Hm). pose proof (calm_trans _ _ _ _ _ _ (sw_calm _ _ _ _ S1) M3) as M.
      rewrite E3. destruct (Z.eqb_spec m 0) as [->|Hne]; cbn [negb].
      * right. exists st3, cell1, C3. split; [done|]. split; [split; [by eapply data_trans|by exists N]|done].
      * left. exists st3, cell1, C3. split; [done|]. split; [split; [by eapply data_trans|by exists N]|]. split; [done|]. split; [done|]. split; [by intros ?%Hm|done].
Qed.

(** "Done at most thrice." *)
Definition outcome (st : heap) (cell : Z -> Prop) (r : option (Z * heap)) : Prop :=
  exists v st' cell' C', r = Some (v, st') /\ (granted (nd st + 8 * asked nw) = true /\ nd st + 8 * asked nw < 4294967296 -> v <> 0) /\
  ((v = 0 /\ sound st st' H cell' C' /\ calm st cell st' cell') \/ exists p, v = p + 8 /\ 0 < p /\ sound st st' ((p, nw) :: H) cell' C' /\ taken st cell st' p nw).
Lemma outcome_after st cell st' cell' r : data_kept H st st' -> calm st cell st' cell' -> (nd st' = nd st \/ forall v s, r = Some (v, s) -> v <> 0) ->
  outcome st' cell' r -> outcome st cell r.
Proof.
  intros D M Hnd (v&st2&cell2&C2&->&Hv&HS). exists v, st2, cell2, C2. split; [done|]. split.
  - destruct Hnd as [<-|Hn]; [done|]. intros _. by eapply Hn.
  - destruct HS as [(->&HS&HM)|(p&->&Hp&HS&HT)]; [left|right].
    + split; [done|]. split; [by eapply sound_trans|by eapply calm_trans].
    + exists p. split; [done|]. split; [done|]. split; [by eapply sound_trans|by eapply taken_after].
Qed.
Lemma outcome_found st cell p st' cell' C : 0 < p -> sound st st' ((p, nw) :: H) cell' C -> taken st cell st' p nw -> outcome st cell (Some (p + 8, st')).
Proof. intros Hp HS HT. exists (p + 8), st', cell', C. split; [done|]. split; [lia|]. right. by exists p. Qed.
Lemma stdmalloc_fits n st cell C N lo : wf st H cell C N -> fits st cell lo nw ->
  outcome st cell (stdmalloc granted fuel (S n) nw st) /\ forall v s, stdmalloc granted fuel (S n) nw st = Some (v, s) -> v <> 0.
Proof.
  intros W Hfit. destruct (pass_ok n st cell C N W) as [(p&st'&cell'&E&Hp&HS&HT)|[Hno _]]; [|by destruct Hno; exists lo].
  rewrite E. split; [by eapply outcome_found|]. intros v s [= <- _]. lia.
Qed.
Lemma outcome_none st cell st' cell' C' : ~ (granted (nd st + 8 * asked nw) = true /\ nd st + 8 * asked nw < 4294967296) ->
  sound st st' H cell' C' -> calm st cell st' cell' -> outcome st cell (Some (0, st')).
Proof. intros Hg HS HM. exists 0, st', cell', C'. split; [done|]. split; [by intros ?%Hg|]. by left. Qed.
Lemma stdmalloc_drained n st cell C N : wf st H cell C N -> drained C -> outcome st cell (stdmalloc granted fuel (S (S n)) nw st).
Proof.
  intros W Hd. destruct (pass_ok (S n) st cell C N W) as [(p&st'&cell'&E&Hp&HS&HT)|[_ [(st'&cell'&C'&lo&E&[D [N' W']]&HM&Hfit)|[Hg [(st'&cell'&C'&_&_&_&_&Hc&_)|(st'&cell'&C'&E&HS&HM)]]]]].
  - rewrite E. by eapply outcome_found.
  - rewrite E. destruct (stdmalloc_fits n st' cell' C' N' lo W' Hfit) as [O Hv]. eapply outcome_after; [exact D|exact HM|by right|done].
  - by destruct Hc.
  - rewrite E. by eapply outcome_none.
Qed.
Lemma stdmalloc_ok st cell C N : wf st H cell C N -> outcome st cell (stdmalloc granted fuel 3 nw st).
Proof.
  intros W. destruct (pass_ok 2 st cell C N W) as [(p&st'&cell'&E&Hp&HS&HT)|[_ [(st'&cell'&C'&lo&E&[D [N' W']]&HM&Hfit)|[Hg [(st'&cell'&C'&E&[D [N' W']]&HM&Hd&_&End)|(st'&cell'&C'&E&HS&HM)]]]]].
  - rewrite E. by eapply outcome_found.
  - rewrite E. destruct (stdmalloc_fits 1 st' cell' C' N' lo W' Hfit) as [O Hv]. eapply outcome_after; [exact D|exact HM|by right|done].
  - rewrite E. eapply outcome_after; [exact D|exact HM|by left|]. by eapply stdmalloc_drained.
  - rewrite E. by eapply outcome_none.
Qed.
End allocate.

(** The words [malloc] needs for [nbytes]: a cell and the bytes rounded up. *)
Definition words_for (nbytes : Z) : Z := u32 (nbytes + WORD + WORD - 1) / WORD.
Lemma words_for_ok nbytes : 0 <= nbytes <= 4294967280 -> 1 <= words_for nbytes < 536870912 /\ nbytes <= 8 * (words_for nbytes - 1).
Proof. intros Hb. unfold words_for, WORD. rewrite wrap_u_id by lia. Z.div_mod_to_equations. lia. Qed.

(** The blocks [H], cells and all, are held by the program. *)
Definition heap_ok (st : heap) (H : list (Z * Z)) : Prop := exists cell C N, wf st H cell C N.

Lemma malloc_step granted fuel nbytes st H : 8589934592 <= Z.of_nat fuel -> 0 <= nbytes <= 4294967280 -> heap_ok st H ->
  exists v st', malloc granted fuel nbytes st = Some (v, st') /\ data_kept H st st' /\
  (granted (nd st + 8 * asked (words_for nbytes)) = true /\ nd st + 8 * asked (words_for nbytes) < 4294967296 -> v <> 0) /\
  ((v = 0 /\ heap_ok st' H) \/ 8 < v /\ heap_ok st' ((v - 8, words_for nbytes) :: H)).
Proof.
  intros Hf Hb (cell&C&N&W). destruct (words_for_ok nbytes Hb) as [Hn _]. pose proof (wf_arena _ _ _ _ _ W) as A. unfold malloc. fold (words_for nbytes).
  set (nw := words_for nbytes) in *. unfold CACHESIZ, CACHEMAX. set (i := nw mod 13). assert (0 <= i < 13) as Hi by (apply Z.mod_pos_bound; lia).
  destruct ((nw <? 50) && (2 <=? nw) && negb (cache st i =? 0) && (nw =? words st (cache st i))) eqn:E.
  - rewrite !andb_true_iff, negb_true_iff in E. destruct E as [[[E1 E2] E3] E4]. destruct (C i) as [|p l] eqn:EC.
    + pose proof (wf_chain _ _ _ _ _ W i Hi) as Hc. rewrite EC in Hc. cbn [chained] in Hc. lia.
    + destruct (uncache_wf st H cell C N i p l W Hi EC) as (W1&Ec&Hp). rewrite Ec in *.
      destruct (wf_cached _ _ _ _ _ W i p Hi ltac:(rewrite EC; mem)) as (B&_). rewrite (words_ok _ _ _ _ A B) in E4. pose proof (block_range _ _ _ _ A B).
      rewrite plus_ok by lia. change (8 * 1) with 8. eexists _, _. split; [reflexivity|]. split; [by intros ?|]. split; [lia|]. right. split; [lia|].
      replace (p + 8 - 8) with p by lia. replace nw with (N i) by lia. by eexists _, _, _.
  - destruct (stdmalloc_ok granted fuel H nw Hf Hn st cell C N W) as (v&st'&cell'&C'&Er&Hv&HS). exists v, st'. split; [exact Er|].
    destruct HS as [(->&[D [N' W']]&_)|(p&->&Hp&[D [N' W']]&_)].
    + split; [done|]. split; [done|]. left. split; [done|]. by eexists _, _, _.
    + split; [done|]. split; [done|]. right. split; [lia|]. replace (p + 8 - 8) with p by lia. by eexists _, _, _.
Qed.
(** Blocks the program holds do not overlap. *)
Lemma held_apart st H h n h' n' x : heap_ok st H -> (h, n) ∈ H -> (h', n') ∈ H -> inside h n x -> inside h' n' x -> h = h' /\ n = n'.
Proof.
  intros (cell&C&N&W) Hin Hin'. apply (blocks_distinct _ _ _ _ _ _ _ _ _ (ar_circle _ _ (wf_arena _ _ _ _ _ W))); by apply (wf_held _ _ _ _ _ W).
Qed.
Lemma held_once st H h n n' : heap_ok st ((h, n) :: H) -> (h, n') ∉ H.
Proof.
  intros (cell&C&N&W) Hin. pose proof (wf_nodup _ _ _ _ _ W) as Hnd. cbn [map fst] in Hnd. apply NoDup_cons in Hnd as [Hh _]. apply Hh.
  apply list_elem_of_fmap. by exists (h, n').
Qed.

(** The program may put what it likes in its own blocks. *)
Lemma inside_ok st H h n m : heap_ok st H -> (h, n) ∈ H -> (forall x, ~ inside h n x -> m x = ptr st x) -> heap_ok (st <| ptr := m |>) H.
Proof.
  intros (cell&C&N&W) Hin Hm. destruct W as [W1 W2 W3 W4 W5 W6 W7]. pose proof (ar_circle _ _ W1) as Ci. pose proof (W2 h n Hin) as B.
  assert (forall a, cell a -> ptr (st <| ptr := m |>) a = ptr st a) as Hcell.
  { intros a Ha. apply Hm. intros Hx. by destruct (inside_not_cell _ _ _ _ _ _ _ a Ci B Hx Ha). }
  exists cell, C, N. split; try done.
  - by eapply arena_ext.
  - intros h' n' Hi. eapply block_ext; [by apply W2|]. apply Hcell. by apply (bl_cell _ _ _ _ _ (W2 h' n' Hi)).
  - intros i Hi. eapply chained_ext; [by apply W4|]. intros p Hp. destruct (W5 i p Hi Hp) as (Bp&HN&_). apply Hm. intros Hx.
    destruct (blocks_distinct _ _ _ _ _ _ _ _ (p + 8) Ci B Bp Hx) as [-> _]; [unfold inside; lia|]. apply (W7 i p Hi Hp). apply list_elem_of_fmap. by exists (p, n).
  - intros i p Hi Hp. destruct (W5 i p Hi Hp) as (Bp&HN). split; [|done]. eapply block_ext; [done|]. by apply Hcell, Bp.
Qed.

(** The arena as the program starts: one cell, its own successor. *)
Definition start (a e : Z) (m : Z -> Z) : heap := MkHeap (<[a := setbusy a]> m) a a a a 0 (fun _ => 0) e.
Lemma arena_start_ok a e m : 0 < a -> ev a -> a + 8 <= e < 4294967296 -> ev e -> heap_ok (start a e m) [].
Proof.
  intros Ha Hev He Hee. exists (fun x => x = a), (fun _ => []), (fun _ => 0). assert (ptr (start a e m) a = setbusy a) as E by apply fn_eq.
  split; try done.
  - split; try done.
    + split; try done; change (ptr (start a e m)) with (<[a := setbusy a]> m).
      * by intros x ->.
      * intros x -> Hlt. cbn in Hlt. lia.
      * intros x ->. by rewrite fn_eq, set_busy.
      * cbn. rewrite fn_eq, clear_set, set_busy. split; [by apply clear_ev|done].
    + split; [cbn; lia|]. split; [cbn; lia|done].
    + split; [done|]. intros x -> Hlt. cbn in Hlt. lia.
  - intros h n Hin. by apply elem_of_nil in Hin.
  - apply NoDup_nil_2.
  - intros i p Hi Hin. by apply elem_of_nil in Hin.
  - intros i Hi. apply NoDup_nil_2.
  - intros i p Hi Hin. by apply elem_of_nil in Hin.
Qed.

(** ** realloc *)

Lemma copy_shape n : forall s t st, copy n s t st = st <| ptr := ptr (copy n s t st) |>.
Proof. induction n as [|n IH]; intros s t st; cbn [copy]; [by destruct st|]. by rewrite IH at 1. Qed.
(** Copying upwards is right when the target is below the source, or clear of it. *)
Lemma copy_ok n : forall s t st, 0 <= s -> 0 <= t -> s + 8 * Z.of_nat n < 4294967296 -> t + 8 * Z.of_nat n < 4294967296 -> t < s \/ s + 8 * Z.of_nat n <= t ->
  (forall x, x < t \/ t + 8 * Z.of_nat n <= x -> ptr (copy n s t st) x = ptr st x) /\
  (forall i, 0 <= i < 2 * Z.of_nat n -> ptr (copy n s t st) (t + 4 * i) = ptr st (s + 4 * i)).
Proof.
  induction n as [|n IH]; intros s t st Hs Ht Hsn Htn Hst; cbn [copy]; [split; [done|lia]|].
  rewrite !plus_ok by lia. change (8 * 1) with 8. set (st1 := st <| ptr @ t := ptr st s |> <| ptr @ (t + 4) := ptr st (s + 4) |>).
  assert (ptr st1 = <[t + 4 := ptr st (s + 4)]> (<[t := ptr st s]> (ptr st))) as E1 by reflexivity. clearbody st1.
  destruct (IH (s + 8) (t + 8) st1) as [I1 I2]; [lia..|]. split.
  - intros x Hx. rewrite I1 by lia. rewrite E1, !fn_ne by lia. done.
  - intros i Hi. destruct (decide (i = 0)) as [->|]; [|destruct (decide (i = 1)) as [->|]].
    + rewrite I1 by lia. rewrite E1. replace (t + 4 * 0) with t by lia. rewrite fn_ne, fn_eq by lia. f_equal. lia.
    + rewrite I1 by lia. rewrite E1. replace (t + 4 * 1) with (t + 4) by lia. rewrite fn_eq. f_equal.
    + replace (t + 4 * i) with (t + 8 + 4 * (i - 2)) by lia. rewrite I2 by lia. rewrite E1, !fn_ne by lia. f_equal. lia.
Qed.
Lemma other_kept st H h n st' : heap_ok st ((h, n) :: H) -> (forall x, ~ inside h n x -> ptr st' x = ptr st x) -> data_kept H st st'.
Proof.
  intros Hok Hm h' n' x Hin Hx. apply Hm. intros Hx'. destruct (held_apart st ((h, n) :: H) h n h' n' x Hok) as [<- _]; [mem..|done|done|]. by eapply held_once.
Qed.
(** All but the cell of a block is plain. *)
Lemma block_plain st cell h n x : arena st cell -> block (ptr st) cell (alloct st) h n -> h < x < h + 8 * n -> plain st cell x.
Proof.
  intros A B Hx. pose proof (block_range _ _ _ _ A B). destruct (ci_next _ _ _ _ (ar_circle _ _ A) h (bl_cell _ _ _ _ _ B) (bl_below _ _ _ _ _ B)) as (_&_&Hmin).
  rewrite (bl_next _ _ _ _ _ B) in Hmin. split; [|lia]. intros Hc. specialize (Hmin x Hc ltac:(lia)). lia.
Qed.

(** What [realloc] does once it has the new block at [q], [st] being the state
    before and [p] the old block, of [onw] words after its cell. *)
Definition moved (p onw nw q : Z) (st : heap) : heap :=
  let st := copy (Z.to_nat (Z.min nw onw)) p q st in
  if (q <? p) && (p <=? q + 8 * nw) then st <| ptr @ (q + (q + 8 * nw - p)) := allocx st |> else st.
Lemma moved_ok p onw nw q st old : 0 < p -> 0 < q -> 0 <= nw -> 0 <= onw -> p + 8 * onw < 4294967296 -> q + 8 * nw < 4294967296 -> q < p \/ p + 8 * onw < q ->
  (forall x, p <= x < p + 8 * onw -> x <> q + 8 * nw -> ptr st x = old x) -> (p <= q + 8 * nw < p + 8 * onw -> allocx st = old (q + 8 * nw)) ->
  (exists m, moved p onw nw q st = st <| ptr := m |>) /\ (forall x, ~ inside (q - 8) (nw + 1) x -> ptr (moved p onw nw q st) x = ptr st x) /\
  (forall i, 0 <= i < 2 * Z.min nw onw -> ptr (moved p onw nw q st) (q + 4 * i) = old (p + 4 * i)).
Proof.
  intros Hp Hq Hn Ho Rp Rq Hside Hold Hx. set (k := Z.to_nat (Z.min nw onw)). assert (Z.of_nat k = Z.min nw onw) as Ek by (unfold k; lia).
  destruct (copy_ok k p q st) as [C1 C2]; [lia..|]. unfold moved. fold k. pose proof (copy_shape k p q st) as Es. set (st1 := copy k p q st) in *.
  assert (allocx st1 = allocx st) as Ex by (by rewrite Es).
  destruct ((q <? p) && (p <=? q + 8 * nw)) eqn:Ec.
  - set (y := q + (q + 8 * nw - p)). split; [exists (<[y := allocx st1]> (ptr st1)); by rewrite Es at 1|]. split.
    + intros x Hin. cbn. unfold inside in Hin. rewrite fn_ne by (unfold y; lia). apply C1. lia.
    + intros i Hi. cbn. rewrite fn_case. case_decide as Ey.
      * rewrite Ex, Hx by lia. f_equal. lia.
      * rewrite C2 by lia. apply Hold; lia.
  - split; [by eexists|]. split.
    + intros x Hin. unfold inside in Hin. apply C1. lia.
    + intros i Hi. rewrite C2 by lia. apply Hold; lia.
Qed.

Lemma realloc_moved granted fuel p nbytes st q st2 onw nw : p <> 0 -> 0 < p -> u32 ((ptr (stdfree p st) (p - WORD) - p) / WORD) = onw -> u32 (nbytes + WORD - 1) / WORD = nw ->
  stdmalloc granted fuel 3 (nw + 1) (stdfree p st) = Some (q, st2) -> q <> 0 -> q <> p -> 0 < q -> 0 <= nw -> q + 8 * nw < 4294967296 -> p < 4294967296 ->
  (q < p -> p <= q + 8 * nw -> exists k, q + 8 * nw - p = 8 * k) ->
  realloc granted fuel p nbytes st = Some (q, moved p onw nw q st2).
Proof.
  intros Hp0 Hp Eo En Es Hq0 Hqp Hq Hn Hr Hpr Hk. unfold realloc. replace (p =? 0) with false by lia. cbv zeta. rewrite Eo, En, Es.
  replace (q =? 0) with false by lia. replace (q =? p) with false by lia. cbn [orb]. f_equal. f_equal. unfold moved.
  replace (if nw <? onw then nw else onw) with (Z.min nw onw) by (destruct (Z.ltb_spec nw onw); lia). rewrite (plus_ok q nw) by lia.
  destruct ((q <? p) && (p <=? q + 8 * nw)) eqn:Ec; [|done]. destruct Hk as [k Hk]; [lia..|]. unfold WORD. rewrite Hk. replace (8 * k) with (k * 8) by lia.
  rewrite Z.div_mul by lia. rewrite plus_ok by lia. replace (q + k * 8) with (q + 8 * k) by lia. done.
Qed.
Lemma realloc_step granted fuel nbytes st H1 h n H2 : 8589934592 <= Z.of_nat fuel -> 0 <= nbytes <= 4294967280 -> heap_ok st (H1 ++ (h, n) :: H2) ->
  exists v st', realloc granted fuel (h + 8) nbytes st = Some (v, st') /\ data_kept (H1 ++ H2) st st' /\
  ((v = 0 /\ heap_ok st' (H1 ++ H2) /\ forall x, inside h n x -> ptr st' x = ptr st x) \/
   (8 < v /\ heap_ok st' ((v - 8, words_for nbytes) :: H1 ++ H2) /\
    forall i, 0 <= i < 2 * Z.min (words_for nbytes - 1) (n - 1) -> ptr st' (v + 4 * i) = ptr st (h + 8 + 4 * i))).
Proof.
  intros Hf Hb (cell&C&N&W). pose proof (wf_arena _ _ _ _ _ W) as A. assert (block (ptr st) cell (alloct st) h n) as B by (apply (wf_held _ _ _ _ _ W); mem).
  destruct (block_range _ _ _ _ A B) as (R1&R2&R3&R4). destruct (stdfree_wf st H1 h n H2 cell C N W) as [W1 D1].
  destruct (stdfree_arena st cell h n A B) as (E1&_&E3&_&_&A1). set (st1 := stdfree (h + 8) st) in *.
  destruct (words_for_ok nbytes Hb) as [Hn Hn2]. set (nw := words_for nbytes - 1).
  assert (u32 (nbytes + WORD - 1) / WORD = nw) as En.
  { unfold nw, words_for, WORD. rewrite !wrap_u_id by lia. replace (nbytes + 8 + 8 - 1) with (nbytes + 8 - 1 + 1 * 8) by lia. rewrite Z.div_add by lia. lia. }
  assert (u32 ((ptr st1 (h + 8 - WORD) - (h + 8)) / WORD) = n - 1) as Eo.
  { unfold WORD. replace (h + 8 - 8) with h by lia. rewrite E1, fn_eq, (bl_next _ _ _ _ _ B). replace (h + 8 * n - (h + 8)) with ((n - 1) * 8) by lia.
    rewrite Z.div_mul by lia. apply wrap_u_id. lia. }
  assert (forall x, h < x < h + 8 * n -> plain st1 cell x /\ ptr st1 x = ptr st x) as Hplain.
  { intros x Hx. destruct (block_plain _ _ _ _ x A B Hx) as [X1 X2]. split; [split; [done|by rewrite E3]|]. rewrite E1. apply fn_ne. lia. }
  replace (words_for nbytes) with (nw + 1) in * by (unfold nw; lia).
  destruct (stdmalloc_ok granted fuel (H1 ++ H2) (nw + 1) Hf Hn st1 cell C N W1) as (v&st2&cell2&C2&Er&_&HS).
  destruct HS as [(->&[D [N' W']]&[M _])|(p&->&Hp&[D [N' W']]&[T U])].
  - exists 0, st2. split; [|split; [by eapply data_trans|left; split; [done|]]].
    + unfold realloc. replace (h + 8 =? 0) with false by lia. cbv zeta. fold st1. rewrite En, Er. done.
    + split; [by eexists _, _, _|]. intros x Hx. unfold inside in Hx. destruct (Hplain x ltac:(lia)) as [Px <-]. by apply M.
  - assert (block (ptr st2) cell2 (alloct st2) p (nw + 1)) as B2 by (apply (wf_held _ _ _ _ _ W'); mem).
    destruct (block_range _ _ _ _ (wf_arena _ _ _ _ _ W') B2) as (Q1&Q2&Q3&Q4).
    assert (heap_ok st2 ((p, nw + 1) :: H1 ++ H2)) as Ok2 by (by eexists _, _, _).
    assert (forall x, h < x < h + 8 * n -> x <> p /\ (x <> p + 8 * (nw + 1) -> ptr st2 x = ptr st x) /\ (x = p + 8 * (nw + 1) -> allocx st2 = ptr st x)) as T'.
    { intros x Hx. destruct (Hplain x Hx) as [Px <-]. by apply T. }
    destruct (decide (p = h)) as [->|Hne].
    + exists (h + 8), st2. split; [|split; [by eapply data_trans|right; split; [lia|]]].
      * unfold realloc. replace (h + 8 =? 0) with false by lia. cbv zeta. fold st1. rewrite En, Er, Z.eqb_refl, orb_true_r. done.
      * replace (h + 8 - 8) with h by lia. split; [done|]. intros i Hi. apply T'; lia.
    + destruct (T' (Z.max (h + 1) (Z.min p (h + 8 * n - 1))) ltac:(lia)) as [T1 _].
      rewrite (realloc_moved granted fuel (h + 8) nbytes st (p + 8) st2 (n - 1) nw); [|lia|lia|exact Eo|exact En|exact Er|lia..|].
      * destruct (moved_ok (h + 8) (n - 1) nw (p + 8) st2 (ptr st)) as (M1&M2&M3); [lia..| | |].
        -- intros x Hx Hx2. apply T'; lia.
        -- intros Hx. apply T'; lia.
        -- destruct M1 as [m Em]. replace (p + 8 - 8) with p in M2 by lia. eexists _, _. split; [reflexivity|].
           split; [eapply data_trans; [exact D1|eapply data_trans; [exact D|by eapply other_kept]]|]. right. split; [lia|]. replace (p + 8 - 8) with p by lia.
           split; [|exact M3]. rewrite Em in M2 |- *. apply (inside_ok st2 _ p (nw + 1) m Ok2); [mem|exact M2].
      * intros L1 L2. destruct (U h) as [k Hk]; [|lia|exists (nw - k); lia].
        exists h, 0. split; [apply B|]. split; [lia|]. split; [lia|lia].
Qed.

(** A program at work: calls of [malloc], [free] and [realloc], and stores in its own blocks. *)
Inductive works (granted : Z -> bool) (fuel : nat) : heap * list (Z * Z) -> heap * list (Z * Z) -> Prop :=
| Works_refused nbytes st st' H : 0 <= nbytes <= 4294967280 -> malloc granted fuel nbytes st = Some (0, st') -> works granted fuel (st, H) (st', H)
| Works_malloc nbytes v st st' H : 0 <= nbytes <= 4294967280 -> malloc granted fuel nbytes st = Some (v, st') -> v <> 0 ->
    works granted fuel (st, H) (st', (v - 8, words_for nbytes) :: H)
| Works_free h n st H1 H2 : works granted fuel (st, H1 ++ (h, n) :: H2) (free (h + 8) st, H1 ++ H2)
| Works_realloc nbytes v st st' H1 h n H2 : 0 <= nbytes <= 4294967280 -> realloc granted fuel (h + 8) nbytes st = Some (v, st') -> v <> 0 ->
    works granted fuel (st, H1 ++ (h, n) :: H2) (st', (v - 8, words_for nbytes) :: H1 ++ H2)
| Works_not_moved nbytes st st' H1 h n H2 : 0 <= nbytes <= 4294967280 -> realloc granted fuel (h + 8) nbytes st = Some (0, st') ->
    works granted fuel (st, H1 ++ (h, n) :: H2) (st', H1 ++ H2)
| Works_store h n x v st H : (h, n) ∈ H -> inside h n x -> works granted fuel (st, H) (st <| ptr @ x := v |>, H).
Lemma works_ok granted fuel s s' : 8589934592 <= Z.of_nat fuel -> works granted fuel s s' -> heap_ok (fst s) (snd s) -> heap_ok (fst s') (snd s').
Proof.
  intros Hf [nbytes st st' H Hb E|nbytes v st st' H Hb E Hv|h n st H1 H2|nbytes v st st' H1 h n H2 Hb E Hv|nbytes st st' H1 h n H2 Hb E|h n x v st H Hin Hx] Hok; cbn [fst snd] in *.
  - destruct (malloc_step granted fuel nbytes st H Hf Hb Hok) as (v'&st''&E'&_&_&[[_ Ho]|[Hv' _]]); rewrite E in E'; injection E' as <- <-; [done|lia].
  - destruct (malloc_step granted fuel nbytes st H Hf Hb Hok) as (v'&st''&E'&_&_&[[Hv' _]|[_ Ho]]); rewrite E in E'; injection E' as <- <-; [lia|done].
  - destruct Hok as (cell&C&N&W). destruct (free_wf st H1 h n H2 cell C N W) as (C'&N'&W'&_). by eexists _, _, _.
  - destruct (realloc_step granted fuel nbytes st H1 h n H2 Hf Hb Hok) as (v'&st''&E'&_&[[Hv' _]|(_&Ho&_)]); rewrite E in E'; injection E' as <- <-; [lia|done].
  - destruct (realloc_step granted fuel nbytes st H1 h n H2 Hf Hb Hok) as (v'&st''&E'&_&[(_&Ho&_)|[Hv' _]]); rewrite E in E'; injection E' as <- <-; [done|lia].
  - apply (inside_ok st H h n _ Hok Hin). intros y Hy. apply fn_ne. by intros ->.
Qed.
Lemma reach_ok granted fuel a e m st H : 8589934592 <= Z.of_nat fuel -> 0 < a -> ev a -> a + 8 <= e < 4294967296 -> ev e ->
  rtc (works granted fuel) (start a e m, []) (st, H) -> heap_ok st H.
Proof.
  intros Hf Ha Hev He Hee Hr. apply (rtc_ind_r (fun s => heap_ok (fst s) (snd s)) (start a e m, [])) in Hr; [exact Hr|by apply arena_start_ok|].
  intros s s' _ Hw. by apply (works_ok granted fuel).
Qed.

(** ** What the program gets *)

(** C14: [malloc] always returns, after at most three turns of its loop.  It gives null, or a
    piece of memory of at least the bytes asked for that has no byte in common
    with any block the program holds; in no case does it change what the program
    keeps in its blocks.  It gives null only when the system refuses the memory
    asked for first. *)
Theorem malloc_gives (granted : Z -> bool) (fuel : nat) (nbytes : Z) (st : heap) (H : list (Z * Z)) :
  8589934592 <= Z.of_nat fuel -> 0 <= nbytes <= 4294967280 -> heap_ok st H ->
  exists v st', malloc granted fuel nbytes st = Some (v, st') /\ data_kept H st st' /\
  (granted (nd st + 8 * asked (words_for nbytes)) = true /\ nd st + 8 * asked (words_for nbytes) < 4294967296 -> v <> 0) /\
  ((v = 0 /\ heap_ok st' H) \/
   (heap_ok st' ((v - 8, words_for nbytes) :: H) /\
    forall x, v <= x < v + nbytes -> inside (v - 8) (words_for nbytes) x /\ forall h n, (h, n) ∈ H -> ~ inside h n x)).
Proof.
  intros Hf Hb Hok. destruct (malloc_step granted fuel nbytes st H Hf Hb Hok) as (v&st'&E&D&Hv&HR). exists v, st'. split; [done|]. split; [done|]. split; [done|].
  destruct HR as [HR|[_ HR]]; [by left|right]. split; [done|]. destruct (words_for_ok nbytes Hb) as [_ Hn]. intros x Hx.
  assert (inside (v - 8) (words_for nbytes) x) as Hin by (unfold inside; lia). split; [done|]. intros h n Hh Hin'.
  destruct (held_apart _ _ _ _ _ _ x HR ltac:(mem) (proj2 (elem_of_cons _ _ _) (or_intror Hh)) Hin Hin') as [<- _].
  by eapply held_once.
Qed.
Lemma malloc_gives_witness : exists v st', malloc (fun _ => true) (Z.to_nat 8589934592) 100 (start 4096 8192 (fun _ => 0)) = Some (v, st') /\ v <> 0 /\ heap_ok st' [(v - 8, 14)].
Proof.
  assert (8589934592 <= Z.of_nat (Z.to_nat 8589934592)) as Hf by (rewrite Z2Nat.id; lia). generalize dependent (Z.to_nat 8589934592). intros fuel Hf.
  destruct (malloc_gives (fun _ => true) fuel 100 (start 4096 8192 (fun _ => 0)) [] Hf ltac:(lia)) as (v&st'&E&_&Hv&HR);
    [apply arena_start_ok; done || lia|].
  exists v, st'. split; [exact E|]. assert (v <> 0) as Hv' by (apply Hv; done). split; [done|]. destruct HR as [[-> _]|[HR _]]; [done|exact HR].
Defined.

(** C16: Whatever a program does from the start, calling [malloc], [free] and [realloc] in
    any order and storing what it likes in the blocks it holds, [malloc] returns,
    the blocks it holds never overlap, and giving one back changes nothing in the
    others. *)
Theorem heap_safe (granted : Z -> bool) (fuel : nat) (a e : Z) (m : Z -> Z) (st : heap) (H : list (Z * Z)) :
  8589934592 <= Z.of_nat fuel -> 0 < a -> ev a -> a + 8 <= e < 4294967296 -> ev e -> rtc (works granted fuel) (start a e m, []) (st, H) ->
  (forall nbytes, 0 <= nbytes <= 4294967280 -> is_Some (malloc granted fuel nbytes st)) /\
  (forall h n h' n' x, (h, n) ∈ H -> (h', n') ∈ H -> inside h n x -> inside h' n' x -> h = h' /\ n = n') /\
  (forall H1 h n H2, H = H1 ++ (h, n) :: H2 -> data_kept (H1 ++ H2) st (free (h + 8) st)).
Proof.
  intros Hf Ha Hev He Hee Hr. pose proof (reach_ok granted fuel a e m st H Hf Ha Hev He Hee Hr) as Hok.
  split; [|split].
  - intros nbytes Hb. destruct (malloc_step granted fuel nbytes st H Hf Hb Hok) as (v&st'&E&_). by exists (v, st').
  - intros h n h' n' x. by apply held_apart with st.
  - intros H1 h n H2 ->. destruct Hok as (cell&C&N&W). by destruct (free_wf st H1 h n H2 cell C N W) as (?&?&_&D).
Qed.
(** A block between two others, the first of which is given back; made longer, it
    moves down across itself, and its end is cut off in the middle of its old words. *)
Lemma crossing k : let g := fun _ : Z => true in exists st1 st2 st3 st4,
  malloc g (20 + k) 400 (start 4096 8192 (fun _ => 0)) = Some (8200, st1) /\ malloc g (20 + k) 100 st1 = Some (8608, st2) /\
  malloc g (20 + k) 32232 st2 = Some (8720, st3) /\ realloc g (20 + k) 8608 472 (free 8200 (st3 <| ptr @ 8672 := 77 |>)) = Some (8200, st4).
Proof.
  cbv zeta. assert (match malloc (fun _ => true) (20 + k) 400 (start 4096 8192 (fun _ => 0)) with
    | Some (v, st1) => v = 8200 /\ match malloc (fun _ => true) (20 + k) 100 st1 with
      | Some (w, st2) => w = 8608 /\ match malloc (fun _ => true) (20 + k) 32232 st2 with
        | Some (y, st3) => y = 8720 /\ match realloc (fun _ => true) (20 + k) 8608 472 (free 8200 (st3 <| ptr @ 8672 := 77 |>)) with
          | Some (r, _) => r = 8200 | None => False end
        | None => False end
      | None => False end
    | None => False end) as Hm by (vm_compute; done).
  destruct (malloc _ _ 400 _) as [[v st1]|]; [|done]. destruct Hm as [-> Hm]. exists st1. destruct (malloc _ _ 100 st1) as [[w st2]|]; [|done]. destruct Hm as [-> Hm]. exists st2.
  destruct (malloc _ _ 32232 st2) as [[y st3]|]; [|done]. destruct Hm as [-> Hm]. exists st3. destruct (realloc _ _ _ _ _) as [[r st4]|]; [|done]. subst r. by exists st4.
Qed.
Lemma before_crossing fuel : 20 <= Z.of_nat fuel -> exists st st', rtc (works (fun _ => true) fuel) (start 4096 8192 (fun _ => 0), []) (st, [(8712, 4030); (8600, 14)]) /\
  realloc (fun _ => true) fuel 8608 472 st = Some (8200, st') /\ ptr st 8672 = 77.
Proof.
  intros Hf. replace fuel with (20 + (fuel - 20))%nat by lia. destruct (crossing (fuel - 20)) as (st1&st2&st3&st4&E1&E2&E3&E4). eexists _, st4. split; [|split; [exact E4|]].
  - eapply rtc_l; [apply (Works_malloc _ _ 400 8200 _ st1 []); [lia|exact E1|lia]|]. eapply rtc_l; [apply (Works_malloc _ _ 100 8608 st1 st2 [(8192, 51)]); [lia|exact E2|lia]|].
    eapply rtc_l; [apply (Works_malloc _ _ 32232 8720 st2 st3 [(8600, 14); (8192, 51)]); [lia|exact E3|lia]|].
    eapply rtc_l; [apply (Works_store _ _ 8600 14 8672 77); [mem|unfold inside; lia]|]. apply rtc_once. apply (Works_free _ _ 8192 51 _ [(8712, 4030); (8600, 14)] []).
  - clear. set (st := st3 <| ptr @ 8672 := 77 |>). assert (ptr st 8672 = 77) as E by apply fn_eq. clearbody st. unfold free. change (8200 =? 0) with false. cbv zeta iota. unfold WORD.
    destruct (_ && _ && _).
    + change (ptr (st <| ptr @ (plus (8200 - 8) 1) := cache st (words st (8200 - 8) mod CACHESIZ) |>) 8672 = 77). rewrite <- E. by apply fn_ne.
    + unfold stdfree. destruct (_ <? _); rewrite <- E; by apply fn_ne.
Qed.
Lemma heap_safe_witness : exists fuel st, rtc (works (fun _ => true) fuel) (start 4096 8192 (fun _ => 0), []) (st, [(8712, 4030); (8600, 14)]) /\
  is_Some (malloc (fun _ => true) fuel 7 st) /\ data_kept [(8600, 14)] st (free 8720 st).
Proof.
  assert (8589934592 <= Z.of_nat (Z.to_nat 8589934592)) as Hf by (rewrite Z2Nat.id; lia). generalize dependent (Z.to_nat 8589934592). intros fuel Hf.
  destruct (before_crossing fuel ltac:(lia)) as (st&_&Hr&_). exists fuel, st.
  destruct (heap_safe (fun _ => true) fuel 4096 8192 (fun _ => 0) st _ Hf ltac:(lia) eq_refl ltac:(lia) eq_refl Hr) as (HM&_&HF).
  split; [exact Hr|]. split; [apply HM; lia|]. by apply (HF [] 8712 4030 [(8600, 14)]).
Defined.

(** C15: [realloc] always returns.  It gives a block of at least the bytes asked for,
    whose words are those of the old block as far as both go, wherever the new one
    is, also when it lies across the old; or null, and then the old block, now
    free, still has its contents.  Other blocks do not change. *)
Theorem realloc_keeps (granted : Z -> bool) (fuel : nat) (nbytes : Z) (st : heap) (H1 : list (Z * Z)) (h n : Z) (H2 : list (Z * Z)) :
  8589934592 <= Z.of_nat fuel -> 0 <= nbytes <= 4294967280 -> heap_ok st (H1 ++ (h, n) :: H2) ->
  exists v st', realloc granted fuel (h + 8) nbytes st = Some (v, st') /\ data_kept (H1 ++ H2) st st' /\
  ((v = 0 /\ heap_ok st' (H1 ++ H2) /\ forall x, inside h n x -> ptr st' x = ptr st x) \/
   (heap_ok st' ((v - 8, words_for nbytes) :: H1 ++ H2) /\ nbytes <= 8 * (words_for nbytes - 1) /\
    forall i, 0 <= i < 2 * Z.min (words_for nbytes - 1) (n - 1) -> ptr st' (v + 4 * i) = ptr st (h + 8 + 4 * i))).
Proof.
  intros Hf Hb Hok. destruct (realloc_step granted fuel nbytes st H1 h n H2 Hf Hb Hok) as (v&st'&E&D&HR). exists v, st'. split; [done|]. split; [done|].
  destruct HR as [HR|(_&Ho&Hd)]; [by left|right]. split; [done|]. split; [|done]. by apply words_for_ok.
Qed.
Lemma realloc_keeps_witness : exists fuel st st', heap_ok st [(8712, 4030); (8600, 14)] /\ ptr st 8672 = 77 /\
  realloc (fun _ => true) fuel 8608 472 st = Some (8200, st') /\ ptr st' 8264 = 77.
Proof.
  assert (8589934592 <= Z.of_nat (Z.to_nat 8589934592)) as Hf by (rewrite Z2Nat.id; lia). generalize dependent (Z.to_nat 8589934592). intros fuel Hf.
  destruct (before_crossing fuel ltac:(lia)) as (st&st'&Hr&E&E77). exists fuel, st, st'.
  assert (heap_ok st [(8712, 4030); (8600, 14)]) as Hok by (eapply reach_ok; [exact Hf| | | | |exact Hr]; done || lia).
  split; [done|]. split; [done|]. split; [done|].
  destruct (realloc_keeps (fun _ => true) fuel 472 st [(8712, 4030)] 8600 14 [] Hf ltac:(lia) Hok) as (v&st2&E2&_&HR).
  change (8600 + 8) with 8608 in E2. rewrite E in E2. injection E2 as <- <-. destruct HR as [[? _]|(_&_&Hd)]; [done|]. rewrite <- E77. apply (Hd 16). done.
Defined.

(** A size so large that [nw] wraps to nothing: the cell becomes its own successor. *)
Lemma malloc_wraps k : exists st, malloc (fun _ => true) (20 + k) 4294967288 (start 4096 8192 (fun _ => 0)) = Some (8200, st) /\ ptr st 8192 = setbusy 8192.
Proof.
  assert (match malloc (fun _ => true) (20 + k) 4294967288 (start 4096 8192 (fun _ => 0)) with Some (v, st) => v = 8200 /\ ptr st 8192 = setbusy 8192 | None => False end) as Hm by (vm_compute; done).
  destruct (malloc _ _ _ _) as [[v st]|]; [|done]. destruct Hm as [-> Hm]. by exists st.
Qed.
End Heap.
